(* ===== verification/_CoqProject ===== *)
-Q . S2P
Prelude.v
Ring.v
Utf8.v
Ata.v
Fat.v
FatThms.v
Vga.v
Keyboard.v
Executor.v
Wakeup.v
X86.v
Asm.v
FrameAlloc.v
Paging.v
AddressSpace.v
Mapper.v
MapperRef.v
Mappings.v
Elf.v
ElfThms.v
ElfImage.v
ElfLoad.v
ElfHazards.v
Threads.v
Scheduler.v
Keeps.v
SchedulerInv.v
Context.v
Entry.v
SpawnInv.v
SpawnIsolated.v
SchedulerThms.v
Hazards.v
Interrupts.v
Boot.v
Process.v
Lifecycle.v
Syscall.v
SyscallThms.v
SyscallIo.v
SyscallSamples.v
SyscallTypes.v
Userspace.v
Reclaim.v
Demos.v
Programs.v
Guests.v
Shell.v
Harness.v
Build.v
DemoPrograms.v
Bringup.v
Main.v
DemoRuns.v
PowerOn.v
