(* ===== verification/Prelude.v ===== *)
(** * Velora OS: a verification development

    Velora OS is a small x86-64 kernel in Rust: physical frames and page
    tables (src/memory.rs), address spaces and an ELF loader (src/memory.rs,
    src/elf.rs), preemptive threads and processes (src/scheduler/), system
    calls (src/syscall.rs), an ATA driver and a FAT16 reader (src/ata.rs,
    src/fs.rs), a text console (src/vga_buffer.rs), keyboard input with an
    async executor (src/task/), descriptor tables and interrupt handlers
    (src/gdt.rs, src/interrupts.rs), a heap (src/allocator.rs), programs for
    ring 3 assembled by hand (src/userspace.rs), the sequence that starts
    all of it (src/main.rs), a serial port and a test runner (src/serial.rs,
    src/lib.rs), three programs on its disk (disk/), among them a shell, and
    the script that builds this disk (build.rs).  This library models these
    parts as executable definitions, one per function of the source and with
    its name, and proves what makes them correct.

    ** How the parts interact

    The bootloader hands the kernel a memory map; the frame allocator draws
    frames from it.  An address space is a tree of page tables in such
    frames; the loader fills one from a file, the scheduler runs a thread in
    it and frees it after the thread has exited.  Threads change hands in
    [switch_to], a function in assembly.  A program in ring 3 calls the
    kernel through [int 0x80], whose gate leads to the assembly of [entry]
    and from there to [dispatch]; the handlers check its pointers against
    its own page tables, then read the keyboard queue, the console, the disk
    or the scheduler.  The keyboard interrupt feeds a queue of scancodes that
    a task of the executor decodes.  [kernel_main] brings the parts up one
    after the other, checks them with small demos, starts the shell from the
    disk that the build script made, and ends in the executor.

    ** Files

    - [Prelude]: outcomes (a value or a panic), the state monad [M] with
      panics, machine integers with and without overflow checks,
      little-endian encodings, lists as arrays, the tactics and the hint
      database [velora].
    - [Ring]: the ring buffer shared by the ready queue and the input queue,
      and the interface [BoundedQueue] of a bounded queue.
    - [Utf8]: [core::str::from_utf8] and [chars].
    - [Ata]: src/ata.rs over the interface [PortIo] of port input and output;
      [AtaDrive] is the protocol of a drive, [sim_drive] a drive.
    - [Fat], [FatThms]: src/fs.rs over the interface [SectorDisk], which the
      ATA driver implements ([ata_disk]).
    - [Vga]: src/vga_buffer.rs, and the terminal it refines.
    - [Keyboard]: src/task/keyboard.rs, the queue and the keys.
    - [Executor]: src/task/executor.rs and src/task/mod.rs.
    - [Wakeup]: the keyboard interrupt interleaved with the executor, as a
      step machine.
    - [X86]: the x86_64 crate as the class [X86Crate] of documented laws,
      physical memory, page-table entries and the access check of the
      processor ([mmu_access]).
    - [Asm]: a processor with its registers, its memory and the
      instructions the assembly of the kernel uses.
    - [FrameAlloc]: the frame allocators of src/memory.rs and their traits.
    - [Paging]: [translate_addr] and [user_range_mapped].
    - [AddressSpace], [Mappings]: [new_address_space] and
      [free_address_space], on page tables as trees ([ptree], [repr_space]).
    - [Mapper], [MapperRef]: the crate's [map_to] and [translate_page] as
      the class [PageMapper], and an implementation that satisfies it.
    - [Elf], [ElfThms], [ElfImage], [ElfLoad]: src/elf.rs; the image a file
      describes ([parse_elf], [program_image]); loading builds it.
    - [ElfHazards]: files on which the loader panics or leaks.
    - [Threads], [Scheduler]: the data and the operations of
      src/scheduler/mod.rs on the kernel state [Kernel].
    - [Keeps]: a logic for what the scheduler's operations keep, whatever
      condition on its state is to be kept.
    - [SchedulerInv], [SpawnInv], [SpawnIsolated]: the invariant
      [kernel_inv] and that every operation keeps it.
    - [SchedulerThms], [Process]: the theorems on threads and on the life of
      a process.
    - [Context]: [switch_to] of src/scheduler/context.rs, on [Asm].
    - [Entry]: the entry stub of src/syscall.rs and [enter_ring3] of
      src/userspace.rs, on [Asm].
    - [Hazards]: situations the scheduler does not handle; [kernel_step] is
      a step of any of its operations.
    - [Interrupts]: src/gdt.rs and src/interrupts.rs; what the handlers do to
      the kernel and the input queue ([Board]).
    - [Boot]: src/allocator.rs and how [kernel_main] sets up memory and the
      scheduler.
    - [Lifecycle], [Reclaim]: the reclamation loops of [kernel_main].
    - [Syscall], [SyscallThms], [SyscallIo], [SyscallSamples]: src/syscall.rs
      on the state [System]; what the handlers do; concrete calls.
    - [SyscallTypes]: the lengths of the kernel's arrays and the ranges of
      what the system calls return, with [Keeps] for the scheduler and a
      logic of the same kind for the system calls.
    - [Userspace], [Demos]: src/userspace.rs: the programs as bytes, the
      machine of ring 3 that runs them ([ustep]), the functions that start
      them; what the programs do.
    - [Programs]: the machine for the programs in disk/, with labels and
      symbols, and the rules by which a run is followed ([leads]).
    - [Guests]: disk/greet.s and disk/echo.s.
    - [Shell]: disk/shell.s, what a shell does with the bytes it reads
      ([feed], [polls]), and that the assembly does this.
    - [Harness]: src/serial.rs, the test runner and the panic handlers of
      src/lib.rs and src/main.rs, the tests of src/vga_buffer.rs; a machine
      with a screen, a serial line and an exit port.
    - [Build]: build.rs, on a file system and the tools of the host.
    - [DemoPrograms]: what the programs of the open/read demo and of the
      spawn/wait demo do, run from their bytes on the kernel.
    - [Bringup]: [velora_os::init], [memory::init] and [run_bringup_demo],
      with Box, Vec and Rc on the kernel heap.
    - [Main]: [kernel_main] as a whole, from the first line it prints to the
      executor.
    - [DemoRuns]: the open/read demo and the demo of the bad pointer with the
      threads they start, from spawn to the return of [wait_for_demo].
    - [PowerOn]: [kernel_main] with these threads, from the bootloader on.

    ** What the theorems show

    - Memory: a frame is held by one owner or free, never both; fresh
      allocations enumerate the usable frames; the pointer check accepts a
      range only if ring 3 may access every byte of it (the range being in
      one half of the address space, or the upper half having no page for
      ring 3); a new address space shows the kernel's shared entries and
      nothing else; freeing one gives back its tables and frames, each once.
    - Programs: a well-formed file is loaded to the image it describes; a
      load that fails gives back its frames, if the file keeps to the
      process's part of the address space ([placed]); a program that is
      started, run and exits leaves every frame as it found it.  Every file
      with two segments on one page, or with one across the end of the lower
      half, makes the loader panic, and every file with a segment in the
      top-level entry the kernel shares makes it leak.
    - Threads: [schedule] and [exit_current_thread] keep the invariant of the
      kernel without a panic, the rotation is fair, an exited thread is
      reaped by the next turn.  The assembly of [switch_to] does what the
      model of the scheduler says, and a thread that is switched away from
      and back to finds its registers.  Threads and address spaces can come
      and go without end.  Two defects are proved: a full thread table makes
      the kernel panic, and from every state a thread preempted inside its
      exit can make another one be lost, for ever.
    - Boot and interrupts: the boot sequence reaches the invariant with the
      heap mapped; [kernel_main], run from what the bootloader leaves, comes
      up without a panic, passes its checks, the one on the isolation of
      address spaces among them, loads a program from its disk, runs two in
      ring 3 to their ends, a call with a bad pointer among these, and shows
      exactly the lines of all this; a disk without its files is reported
      and does not stop it; the handler of every hardware interrupt keeps
      it, under any address space; ring 3 reaches the gate of the system
      calls and no other.
    - System calls: a bad pointer, in whichever buffer of the call, kills its
      caller and changes nothing else; the theorems on calls that access the
      caller's memory assume that the upper half has no page for ring 3
      ([no_user_high]);
      [write], [read], [open], [close], [spawn] and [wait] do what their
      documentation says, on every branch; any call with any arguments keeps
      the kernel's arrays at their lengths and returns a [u64] in the range
      of that call.  The entry stub hands the
      caller's registers to [dispatch] and gives them back.
    - Programs in ring 3: the bytes of the echo program, decoded and run,
      make the system calls of the loop they were written for; the program
      with a bad pointer is killed and the kernel goes on; the one that reads
      a file shows it and exits; both are built, started, waited for and
      freed by [kernel_main].  The shell edits,
      recalls and submits lines as its specification says, with its ring of
      old lines and its buffers never left, for any input; the escape
      sequences it understands are those the kernel sends.
    - Input: under any interleaving the executor does not halt while there
      is input, and delivers all of it in order.
    - Disk and console: the driver reads the sector it is asked for or
      panics within its polling bound; [read_file] returns the cluster chain
      of the named file; printing refines a terminal, within the screen.
    - Around the kernel: the test runner reports the first test that panics
      and its exit code says whether one did, and the kernel's console
      passes its own tests; the build script leaves a complete disk or a
      warning and a blank one, which [read_file] takes for an empty disk.

    ** Conventions, bounds and fuel

    A Rust integer is a [Z] in its range; the dev profile's overflow checks
    are [add_w], [sub_w], [mul_w], which panic.  A lock that is taken twice
    is a panic (on one processor with interrupts off it spins for ever).
    Physical memory is a function from addresses to bytes, reached through
    the bootloader's offset mapping.  Loops are structural where the source
    bounds them.  [user_range_mapped] runs for at most 2^52 pages, more than
    the address space has, and is proved total.  [read_clusters] has fuel in
    clusters: [read_file_correct] holds for any fuel of at least the
    clusters the file needs, and [read_file_empty_clusters_diverges] shows
    the one input class without such a bound (clusters without sectors, and
    a chain without an end).  [run_ready_tasks] has fuel in
    rounds, one per queued id being enough; [executor_steps] counts steps,
    ten for each scancode and wakeup being enough; [wait_loop] and
    [wait_while_alive] count yields; what the other threads do in a yield is
    a parameter, and [wait_for_demo] returns for any bound not below the
    yields the thread lives for; in [yield_running] it is the thread of a
    demo, which needs two rounds and 16 instructions at most; [urun] and
    [prun] count instructions of ring 3, and the theorems that a program
    reaches a point are that some count reaches it.  The polling loops of
    the driver run the 10,000,000 rounds of the source.

    ** Parameters

    Code outside of the repository is an argument with documented laws:
    [X86Crate], [PageMapper], [KernelHeap] (linked_list_allocator),
    [BoundedQueue] (crossbeam's ArrayQueue), [AtomicWaker] (futures-util),
    [KeyDecoder] (pc-keyboard), [GlobalDescriptorTable] and [Translate]
    (x86_64), [SerialPort] (uart_16550), [PortIo] and [AtaDrive] (the
    hardware), the tools of the host ([tools_ok] in [Build]), and the text
    of numbers, pointers and panics (core::fmt).  Each has a concrete
    instance, with which the witnesses apply the theorems.  The laws of
    [map_to] take an entry of a page table for free when PRESENT is clear;
    the crate asks for zero, which on the kernel's tables is the same.

    ** Not modelled

    Every function under src/ has its definition.  Left out are the text the
    exception handlers format before they panic, the warnings printed when a
    queue is full, and what a console shows after a test panicked in the
    middle of printing.  The blocks of the kernel heap are the kernel stacks
    and the values of [run_bringup_demo].  The storage of the kernel's other
    collections (the free list of the frame allocator, the data of files,
    the queue of scancodes, the tables of the executor) is left out: they
    are lists and maps, whose growth takes no block and cannot fail, except
    for the buffer of [read_file], whose allocation is a parameter
    ([can_allocate]).  The integration tests under tests/ boot
    kernels of their own and are not modelled.  The programs in disk/ run
    over any system calls that do what [syscalls_ok] (and [guest_calls])
    says, not over [dispatch] itself, as the demos of src/userspace.rs do.
    The end-to-end run of [kernel_main] stops where it starts GREET.ELF:
    the bytes of the programs that the build links are not in the
    repository.  What follows there (the loops that spawn and reap, the
    shell, the executor) has theorems of its own. *)

From Stdlib Require Export ZArith Lia.
From stdpp Require Export prelude list strings gmap.

#[global] Open Scope Z_scope.
#[global] Set Default Proof Using "Type".

(** ** Outcomes: a value, or a kernel panic

    Rust code that can [panic!], [assert!], [expect] or overflow returns an
    [outcome]; the message is the source's own. *)

Inductive outcome (A : Type) : Type :=
| Ok (a : A)
| Panic (msg : string).
Arguments Ok {A} a.
Arguments Panic {A} msg.

#[export] Instance outcome_ret : MRet outcome := fun A a => Ok a.
#[export] Instance outcome_bind : MBind outcome := fun A B f o =>
  match o with Ok a => f a | Panic msg => Panic msg end.

(** [Option::expect] and [assert!]. *)
Definition expect {A} (o : option A) (msg : string) : outcome A :=
  match o with Some a => Ok a | None => Panic msg end.

Definition assert_ (b : bool) (msg : string) : outcome unit :=
  if b then Ok tt else Panic msg.

Definition is_ok {A} (o : outcome A) : bool :=
  match o with Ok _ => true | Panic _ => false end.

(** Rust's [?] on an [Option] inside a function that may also panic. *)
Notation "x ←? o ; k" :=
  (match o with Some x => k | None => Ok None end)
  (at level 100, o at next level, k at level 200, right associativity) : stdpp_scope.

(** ** State transformers that may panic *)

Definition M (S A : Type) : Type := S -> outcome (A * S).

#[export] Instance M_ret {S} : MRet (M S) := fun A a s => Ok (a, s).
#[export] Instance M_bind {S} : MBind (M S) := fun A B f o s =>
  match o s with Ok (a, s') => f a s' | Panic msg => Panic msg end.

Definition gets {S A} (f : S -> A) : M S A := fun s => Ok (f s, s).
Definition modify {S} (f : S -> S) : M S unit := fun s => Ok (tt, f s).
Definition lift {S A} (o : outcome A) : M S A := fun s => a ← o; Ok (a, s).

(** Opens the binds of a state transformer. *)
Ltac run_m := unfold lift, gets, modify, mbind, M_bind, outcome_bind, mret, M_ret, outcome_ret.

(** ** Loops with an early exit

    [iter_until p step s] runs [step] at most [p] times: [inl s'] asks for
    another round, [inr r] leaves the loop.  The recursion is on the binary
    form of the bound, so that large bounds still evaluate. *)

Fixpoint iter_until {S R} (step : S -> S + R) (p : positive) (s : S) : S + R :=
  match p with
  | xH => step s
  | xO p' =>
      match iter_until step p' s with
      | inl s' => iter_until step p' s'
      | inr r => inr r
      end
  | xI p' =>
      match step s with
      | inl s' =>
          match iter_until step p' s' with
          | inl s'' => iter_until step p' s''
          | inr r => inr r
          end
      | inr r => inr r
      end
  end.

(** The unary reading of the same loop. *)
Fixpoint iter_nat {S R} (step : S -> S + R) (n : nat) (s : S) : S + R :=
  match n with
  | O => inl s
  | Datatypes.S n' => match step s with inl s' => iter_nat step n' s' | inr r => inr r end
  end.

Lemma iter_nat_add {S R} (step : S -> S + R) n m s :
  iter_nat step (n + m) s =
  match iter_nat step n s with inl s' => iter_nat step m s' | inr r => inr r end.
Proof. revert s; induction n as [|n IH]; intros s; simpl; [done|]. by destruct (step s). Qed.

Lemma iter_until_nat {S R} (step : S -> S + R) p s :
  iter_until step p s = iter_nat step (Pos.to_nat p) s.
Proof.
  revert s; induction p as [p IH|p IH|]; intros s; cbn [iter_until].
  - rewrite Pos2Nat.inj_xI. cbn [iter_nat]. destruct (step s) as [s'|]; [|done].
    replace (2 * Pos.to_nat p)%nat with (Pos.to_nat p + Pos.to_nat p)%nat by lia.
    rewrite iter_nat_add, IH. by destruct (iter_nat step (Pos.to_nat p) s').
  - rewrite Pos2Nat.inj_xO.
    replace (2 * Pos.to_nat p)%nat with (Pos.to_nat p + Pos.to_nat p)%nat by lia.
    rewrite iter_nat_add, IH. by destruct (iter_nat step (Pos.to_nat p) s).
  - change (Pos.to_nat 1) with 1%nat. simpl. by destruct (step s).
Qed.

#[global] Arguments iter_until : simpl never.

(** A loop that leaves within [n] rounds leaves with the same result under
    any larger bound. *)
Lemma iter_nat_exit_mono {S R} (step : S -> S + R) n m s r :
  (n <= m)%nat -> iter_nat step n s = inr r -> iter_nat step m s = inr r.
Proof.
  intros Hle H. replace m with (n + (m - n))%nat by lia.
  by rewrite iter_nat_add, H.
Qed.

(** ** Machine integers *)

Definition U8_MAX : Z := 255.
Definition U16_MAX : Z := 2 ^ 16 - 1.
Definition U32_MAX : Z := 2 ^ 32 - 1.
Definition U64_MAX : Z := 2 ^ 64 - 1.

Definition is_u8 (z : Z) : Prop := 0 <= z < 2 ^ 8.
Definition is_u16 (z : Z) : Prop := 0 <= z < 2 ^ 16.
Definition is_u32 (z : Z) : Prop := 0 <= z < 2 ^ 32.
Definition is_u64 (z : Z) : Prop := 0 <= z < 2 ^ 64.

(** [u64::checked_add], [checked_sub], [checked_mul]. *)
Definition checked_add (a b : Z) : option Z := if a + b <=? U64_MAX then Some (a + b) else None.
Definition checked_sub (a b : Z) : option Z := if b <=? a then Some (a - b) else None.
Definition checked_mul (a b : Z) : option Z := if a * b <=? U64_MAX then Some (a * b) else None.

(** [+], [-] and [*] of a build with overflow checks (the dev profile). *)
Definition add_w (w : Z) (a b : Z) : outcome Z :=
  if a + b <? 2 ^ w then Ok (a + b) else Panic "attempt to add with overflow".
Definition sub_w (a b : Z) : outcome Z :=
  if b <=? a then Ok (a - b) else Panic "attempt to subtract with overflow".
Definition mul_w (w : Z) (a b : Z) : outcome Z :=
  if a * b <? 2 ^ w then Ok (a * b) else Panic "attempt to multiply with overflow".

(** Both directions of a characterisation of a checked operation. *)
Ltac solve_checked :=
  split; intros; destruct_and?; simplify_eq; first [done | lia | (split; lia) | (exfalso; lia)].

Lemma checked_add_Some a b c : checked_add a b = Some c <-> c = a + b /\ a + b < 2 ^ 64.
Proof.
  unfold checked_add, U64_MAX. destruct (Z.leb_spec (a + b) (2 ^ 64 - 1)); solve_checked.
Qed.
Lemma checked_add_None a b : checked_add a b = None <-> 2 ^ 64 <= a + b.
Proof.
  unfold checked_add, U64_MAX. destruct (Z.leb_spec (a + b) (2 ^ 64 - 1)); solve_checked.
Qed.
Lemma checked_sub_Some a b c : checked_sub a b = Some c <-> c = a - b /\ b <= a.
Proof. unfold checked_sub. destruct (Z.leb_spec b a); solve_checked. Qed.
Lemma checked_mul_Some a b c : checked_mul a b = Some c <-> c = a * b /\ a * b < 2 ^ 64.
Proof.
  unfold checked_mul, U64_MAX. destruct (Z.leb_spec (a * b) (2 ^ 64 - 1)); solve_checked.
Qed.

(** ** Little-endian integers in byte lists *)

Fixpoint le_decode (bs : list Z) : Z :=
  match bs with
  | [] => 0
  | b :: bs' => b + 256 * le_decode bs'
  end.

Fixpoint le_encode (n : nat) (v : Z) : list Z :=
  match n with
  | O => []
  | S n' => v mod 256 :: le_encode n' (v / 256)
  end.

Lemma length_le_encode n v : length (le_encode n v) = n.
Proof. revert v; induction n as [|n IH]; intros v; simpl; [done|by rewrite IH]. Qed.

Lemma le_encode_bytes n v : Forall is_u8 (le_encode n v).
Proof.
  revert v; induction n as [|n IH]; intros v; simpl; constructor; [|apply IH].
  unfold is_u8. apply Z.mod_pos_bound. lia.
Qed.

Lemma le_decode_encode n v :
  0 <= v < 256 ^ Z.of_nat n -> le_decode (le_encode n v) = v.
Proof.
  revert v; induction n as [|n IH]; intros v Hv; simpl.
  - change (256 ^ Z.of_nat 0) with 1 in Hv. lia.
  - rewrite Nat2Z.inj_succ, Z.pow_succ_r in Hv by lia.
    rewrite IH.
    + pose proof (Z.div_mod v 256). lia.
    + split; [apply Z.div_pos; lia|]. apply Z.div_lt_upper_bound; lia.
Qed.

Lemma le_decode_bound bs :
  Forall is_u8 bs -> 0 <= le_decode bs < 256 ^ Z.of_nat (length bs).
Proof.
  unfold is_u8. induction 1 as [|b bs Hb _ IH]; simpl.
  - change (256 ^ Z.of_nat 0) with 1. lia.
  - rewrite Nat2Z.inj_succ, Z.pow_succ_r by lia. lia.
Qed.

Lemma le_encode_decode bs :
  Forall is_u8 bs -> le_encode (length bs) (le_decode bs) = bs.
Proof.
  unfold is_u8. induction 1 as [|b bs Hb _ IH]; simpl; [done|].
  rewrite (Z.mul_comm 256), Z.mod_add, Z.mod_small, Z.div_add, Z.div_small by lia.
  by rewrite Z.add_0_l, IH.
Qed.

(** ** Slices: [bytes.get(a..b)], and the bytes [copy_from_slice] replaces *)

Definition slice {A} (l : list A) (a b : Z) : option (list A) :=
  if (0 <=? a) && (a <=? b) && (b <=? Z.of_nat (length l))
  then Some (take (Z.to_nat (b - a)) (drop (Z.to_nat a) l))
  else None.

Definition splice {A} (l : list A) (at_ : nat) (new : list A) : list A :=
  take at_ l ++ new ++ drop (at_ + length new) l.

Lemma slice_Some {A} (l : list A) a b s :
  slice l a b = Some s <->
  0 <= a <= b /\ b <= Z.of_nat (length l) /\ s = take (Z.to_nat (b - a)) (drop (Z.to_nat a) l).
Proof.
  unfold slice.
  destruct (Z.leb_spec 0 a), (Z.leb_spec a b), (Z.leb_spec b (Z.of_nat (length l)));
    simpl; split; intros; destruct_and?; simplify_eq; first [done | lia | (split_and!; lia || done)].
Qed.

Lemma slice_length {A} (l : list A) a b s :
  slice l a b = Some s -> Z.of_nat (length s) = b - a.
Proof. rewrite slice_Some. intros (? & ? & ->). rewrite length_take, length_drop. lia. Qed.

Lemma slice_app_r {A} (l r : list A) a b s :
  slice l a b = Some s -> slice (l ++ r) a b = Some s.
Proof.
  rewrite !slice_Some. intros (? & ? & ->). split_and!; [lia..| |].
  - rewrite length_app. lia.
  - rewrite drop_app_le by lia. rewrite take_app_le; [done|]. rewrite length_drop. lia.
Qed.

Lemma length_splice {A} (l new : list A) at_ :
  (at_ + length new <= length l)%nat -> length (splice l at_ new) = length l.
Proof.
  intros. unfold splice. rewrite !length_app, length_take, length_drop. lia.
Qed.

Lemma lookup_splice_new {A} (l new : list A) at_ i :
  (at_ + length new <= length l)%nat -> (at_ <= i < at_ + length new)%nat ->
  splice l at_ new !! i = new !! (i - at_)%nat.
Proof.
  intros ??. unfold splice. rewrite lookup_app_r; rewrite length_take; [|lia].
  rewrite lookup_app_l by lia. f_equal; lia.
Qed.

Lemma lookup_splice_old {A} (l new : list A) at_ i :
  (at_ + length new <= length l)%nat -> (i < at_ \/ at_ + length new <= i)%nat ->
  splice l at_ new !! i = l !! i.
Proof.
  intros ? [?|?]; unfold splice.
  - rewrite lookup_app_l by (rewrite length_take; lia). by rewrite lookup_take_lt.
  - rewrite lookup_app_r; rewrite length_take; [|lia].
    rewrite lookup_app_r by lia. rewrite lookup_drop. f_equal; lia.
Qed.

(** ** Automation *)

Create HintDb velora.
#[export] Hint Rewrite @length_insert @length_replicate @length_app @length_take @length_drop
  @length_fmap length_seq length_le_encode : velora_len.

(** Lengths, then arithmetic. *)
Ltac len := autorewrite with velora_len in *; simpl in *; lia.

(** Takes apart the binds of a successful [outcome] or [option] computation. *)
Ltac unbind H :=
  repeat match type of H with
  | (?o ≫= _) = Ok _ =>
      let a := fresh "a" in let E := fresh "E" in
      destruct o as [a|] eqn:E; simpl in H; [|discriminate H]
  | (?o ≫= _) = Some _ =>
      let a := fresh "a" in let E := fresh "E" in
      destruct o as [a|] eqn:E; simpl in H; [|discriminate H]
  end.

(** Splits every [if] on an integer comparison of the goal and of the
    hypotheses into its two cases, with the arithmetic fact. *)
Ltac cases_Z :=
  repeat match goal with
  | |- context [Z.leb ?a ?b] => destruct (Z.leb_spec a b)
  | |- context [Z.ltb ?a ?b] => destruct (Z.ltb_spec a b)
  | |- context [Z.eqb ?a ?b] => destruct (Z.eqb_spec a b)
  | H : context [Z.leb ?a ?b] |- _ => destruct (Z.leb_spec a b)
  | H : context [Z.ltb ?a ?b] |- _ => destruct (Z.ltb_spec a b)
  | H : context [Z.eqb ?a ?b] |- _ => destruct (Z.eqb_spec a b)
  end.

(** ** Lists *)

(** The position of the first [None]: [iter().position(Option::is_none)]. *)
Fixpoint position_none {A} (l : list (option A)) : option nat :=
  match l with
  | [] => None
  | None :: _ => Some 0%nat
  | Some _ :: l' => S <$> position_none l'
  end.

Lemma position_none_Some {A} (l : list (option A)) i :
  position_none l = Some i ->
  l !! i = Some None /\ (forall j, (j < i)%nat -> exists x, l !! j = Some (Some x)).
Proof.
  revert i; induction l as [|[x|] l IH]; intros i H; simpl in *; [done| |].
  - destruct (position_none l) as [k|]; simpl in H; simplify_eq.
    destruct (IH k eq_refl) as [H1 H2]. split; [done|].
    intros [|j] Hj; simpl; [eauto|]. apply H2. lia.
  - simplify_eq. split; [done|]. intros; lia.
Qed.

Lemma position_none_None {A} (l : list (option A)) :
  position_none l = None <-> forall j o, l !! j = Some o -> is_Some o.
Proof.
  induction l as [|[x|] l IH]; simpl.
  - split; [by intros|done].
  - destruct (position_none l) as [k|]; simpl; split; try done.
    + intros H. destruct IH as [_ IH]. discriminate IH. intros j o Hj. apply (H (S j) o Hj).
    + intros _ [|j] o Hj; simpl in Hj; simplify_eq; eauto. eapply IH; eauto.
  - split; [done|]. intros H. destruct (H 0%nat None eq_refl). done.
Qed.

Lemma position_none_lt {A} (l : list (option A)) i :
  position_none l = Some i -> (i < length l)%nat.
Proof. intros [H _]%position_none_Some. by apply lookup_lt_Some in H. Qed.

(** [Vec::push] and [Vec::pop] (both at the end of the vector). *)
Definition vec_push {A} (l : list A) (x : A) : list A := l ++ [x].
Definition vec_pop {A} (l : list A) : option (A * list A) :=
  match reverse l with [] => None | x :: r => Some (x, reverse r) end.

Lemma vec_pop_push {A} (l : list A) x : vec_pop (vec_push l x) = Some (x, l).
Proof. unfold vec_pop, vec_push. by rewrite reverse_app, reverse_singleton; simpl; rewrite reverse_involutive. Qed.

Lemma vec_pop_reverse {A} (l : list A) :
  vec_pop l = match reverse l with [] => None | x :: r => Some (x, reverse r) end.
Proof. done. Qed.

(** [n] consecutive multiples of [step] from [start]. *)
Definition stride (start step : Z) (n : nat) : list Z :=
  (fun k => start + step * Z.of_nat k) <$> seq 0 n.

Lemma stride_S start step n : stride start step (S n) = start :: stride (start + step) step n.
Proof.
  unfold stride. simpl. f_equal; [lia|]. rewrite <- seq_shift, <- list_fmap_compose.
  apply list_fmap_ext. intros i k _. simpl. lia.
Qed.

Lemma elem_of_stride x start step n :
  x ∈ stride start step n <-> exists k, (k < n)%nat /\ x = start + step * Z.of_nat k.
Proof.
  unfold stride. rewrite list_elem_of_fmap. split.
  - intros (k & -> & Hk%elem_of_seq). exists k. split; [lia|done].
  - intros (k & Hk & ->). exists k. split; [done|]. apply elem_of_seq. lia.
Qed.

Lemma NoDup_stride start step n : step <> 0 -> NoDup (stride start step n).
Proof.
  intros H. unfold stride. apply NoDup_fmap_2; [|apply NoDup_seq].
  intros i j E. assert (step * (Z.of_nat i - Z.of_nat j) = 0) by lia. nia.
Qed.

Lemma length_stride start step n : length (stride start step n) = n.
Proof. unfold stride. by rewrite length_fmap, length_seq. Qed.

(** A [for] loop whose body may panic. *)
Fixpoint foldM {A B} (f : B -> A -> outcome A) (l : list B) (a : A) : outcome A :=
  match l with
  | [] => Ok a
  | b :: l' => a' ← f b a; foldM f l' a'
  end.

Lemma foldM_app {A B} (f : B -> A -> outcome A) l l' a :
  foldM f (l ++ l') a = (a' ← foldM f l a; foldM f l' a').
Proof. revert a; induction l as [|b l IH]; intros a; simpl; [done|]. destruct (f b a); simpl; auto. Qed.

(** Replacing an element of a list replaces what it contributes to a
    concatenation. *)
Lemma bind_insert_perm {A B} (f : A -> list B) (l : list A) i x y :
  l !! i = Some x -> f x ++ (<[i := y]> l ≫= f) ≡ₚ f y ++ (l ≫= f).
Proof.
  intros Hi. pose proof (lookup_lt_Some _ _ _ Hi).
  rewrite insert_take_drop by done. rewrite <- (take_drop_middle l i x Hi) at 3.
  rewrite !bind_app, !bind_cons.
  rewrite (Permutation_app_swap_app (f x)), (Permutation_app_swap_app (f y)).
  apply Permutation_app_head, Permutation_app_swap_app.
Qed.

Lemma NoDup_sub {A} (l k : list A) : l ⊆+ k -> NoDup k -> NoDup l.
Proof. intros (r & ->)%submseteq_Permutation Hnd. by apply NoDup_app in Hnd as (? & _). Qed.

Lemma Forall_sub {A} (P : A -> Prop) (l k : list A) : l ⊆+ k -> Forall P k -> Forall P l.
Proof. intros (r & ->)%submseteq_Permutation Hf. by apply Forall_app in Hf as (? & _). Qed.

Lemma bind_ext {A B} (f g : A -> list B) (l : list A) :
  (forall x, x ∈ l -> f x = g x) -> l ≫= f = l ≫= g.
Proof.
  induction l as [|x l IH]; intros H; [done|]. rewrite !bind_cons, (H x), IH; [done| |set_solver].
  intros y Hy. apply H. set_solver.
Qed.

Lemma bind_nil_r {A B} (l : list A) : l ≫= (fun _ => []) = ([] : list B).
Proof. induction l as [|x l IH]; [done|]. by rewrite bind_cons, IH. Qed.

Lemma bind_assoc {A B C} (f : A -> list B) (g : B -> list C) (l : list A) :
  (l ≫= f) ≫= g = l ≫= fun x => f x ≫= g.
Proof. induction l as [|x l IH]; [done|]. by rewrite !bind_cons, bind_app, IH. Qed.

Lemma bind_app_perm {A B} (f g : A -> list B) (l : list A) :
  l ≫= (fun x => f x ++ g x) ≡ₚ (l ≫= f) ++ (l ≫= g).
Proof.
  induction l as [|x l IH]; [done|]. rewrite !bind_cons, IH, <- !app_assoc.
  apply Permutation_app_head, Permutation_app_swap_app.
Qed.

(** A concatenation in which one element contributes more. *)
Lemma bind_update_perm {A B} (f g : A -> list B) (l : list A) x (new : list B) :
  NoDup l -> x ∈ l -> (forall y, y ∈ l -> y <> x -> g y = f y) -> g x = new ++ f x ->
  l ≫= g ≡ₚ new ++ (l ≫= f).
Proof.
  intros Hnd (l1 & l2 & ->)%list_elem_of_split H Hx.
  apply NoDup_app in Hnd as (_ & Hd1 & Hnd2). apply NoDup_cons in Hnd2 as [Hd2 _].
  rewrite !bind_app, !bind_cons, Hx.
  rewrite (bind_ext g f l1), (bind_ext g f l2).
  - rewrite <- app_assoc. apply Permutation_app_swap_app.
  - intros y Hy. apply H; [set_solver|]. intros ->. done.
  - intros y Hy. apply H; [set_solver|]. intros ->. apply (Hd1 x Hy). set_solver.
Qed.
