(* ===== verification/Ring.v ===== *)
(** * Ring buffers and bounded queues

    The kernel has two fixed-capacity ring buffers with the same layout
    (an array, a [head], a [len]): the scheduler's [ReadyQueue]
    (src/scheduler/mod.rs) and the keyboard's [InputQueue]
    (src/task/keyboard.rs), and it uses crossbeam's [ArrayQueue] in two more
    places.  This file holds what they share: the list a ring buffer stands
    for, and the interface [BoundedQueue] the clients of a queue reason
    with. *)

From S2P Require Import Prelude.

Section Ring.
Context {A : Type} (cap : nat).
Implicit Types (buf : list A) (head len : nat).

(** The queued elements, oldest first. *)
Definition ring_contents buf head len : list A :=
  omap (fun i => buf !! ((head + i) mod cap)%nat) (seq 0 len).

Definition ring_inv buf head len : Prop :=
  length buf = cap /\ (head < cap)%nat /\ (len <= cap)%nat.

Lemma ring_index_lookup buf head len i :
  ring_inv buf head len -> is_Some (buf !! ((head + i) mod cap)%nat).
Proof.
  intros (Hb & Hh & _). apply lookup_lt_is_Some. rewrite Hb.
  apply Nat.mod_upper_bound. lia.
Qed.

Lemma length_ring_contents buf head len :
  ring_inv buf head len -> length (ring_contents buf head len) = len.
Proof.
  intros H. unfold ring_contents. rewrite <- (length_seq len 0) at 2.
  generalize (seq 0 len). intros l. induction l as [|i l IH]; csimpl; [done|].
  destruct (ring_index_lookup _ _ _ i H) as [x ->]. csimpl. by rewrite IH.
Qed.

(** Distinct positions of the window are distinct cells. *)
Lemma ring_index_inj head i j :
  (i < cap)%nat -> (j < cap)%nat ->
  ((head + i) mod cap = (head + j) mod cap)%nat -> i = j.
Proof.
  intros Hi Hj H.
  pose proof (Nat.div_mod_eq (head + i) cap). pose proof (Nat.div_mod_eq (head + j) cap).
  assert ((head + i) / cap = (head + j) / cap)%nat; nia.
Qed.

Lemma ring_contents_ext buf buf' head len :
  (forall i, (i < len)%nat -> buf !! ((head + i) mod cap)%nat = buf' !! ((head + i) mod cap)%nat) ->
  ring_contents buf head len = ring_contents buf' head len.
Proof.
  intros H. unfold ring_contents. apply list_omap_ext.
  apply Forall_Forall2_diag, Forall_forall. intros i Hi%elem_of_seq. apply H. lia.
Qed.

Lemma ring_contents_snoc buf head len x :
  ring_inv buf head len -> (len < cap)%nat ->
  ring_contents (<[((head + len) mod cap)%nat := x]> buf) head (S len) =
  ring_contents buf head len ++ [x].
Proof.
  intros H Hlt. assert (Hb := proj1 H).
  unfold ring_contents at 1. rewrite seq_S, omap_app. csimpl.
  rewrite list_lookup_insert_eq by (rewrite Hb; apply Nat.mod_upper_bound; lia).
  f_equal. apply ring_contents_ext. intros i Hi.
  rewrite list_lookup_insert_ne; [done|].
  intros E%ring_index_inj; lia.
Qed.

Lemma ring_contents_cons buf head len :
  ring_inv buf head len -> (0 < len)%nat ->
  exists x, buf !! head = Some x /\
    ring_contents buf head len = x :: ring_contents buf ((head + 1) mod cap)%nat (len - 1).
Proof.
  intros H Hlt. destruct len as [|len]; [lia|].
  destruct (ring_index_lookup _ _ _ 0 H) as [x Hx].
  rewrite Nat.add_0_r, Nat.mod_small in Hx by apply H.
  exists x. split; [done|]. unfold ring_contents. csimpl.
  rewrite Nat.add_0_r, (Nat.mod_small head) by apply H. rewrite Hx. f_equal.
  rewrite Nat.sub_0_r, <- seq_shift.
  generalize (seq 0 len). intros l. induction l as [|i l IH]; csimpl; [done|].
  rewrite <- IH.
  replace ((head + 1) mod cap + i)%nat with (i + (head + 1) mod cap)%nat by lia.
  rewrite Nat.Div0.add_mod_idemp_r. by replace (i + (head + 1))%nat with (head + S i)%nat by lia.
Qed.
End Ring.

(** ** The interface of a bounded queue

    What a client of a queue relies on: [bq_push] refuses an element only
    when the queue is full, [bq_pop] yields the oldest one.  [ArrayQueue] of
    the crossbeam-queue crate documents the same contract, and is a
    parameter of this class where the kernel uses it. *)

Class BoundedQueue (Q A : Type) := {
  bq_capacity : nat;
  bq_push : Q -> A -> option Q;
  bq_pop : Q -> option (A * Q);
  bq_inv : Q -> Prop;
  bq_list : Q -> list A;
  bq_bounded q : bq_inv q -> (length (bq_list q) <= bq_capacity)%nat;
  bq_push_ok q x : bq_inv q -> (length (bq_list q) < bq_capacity)%nat ->
    exists q', bq_push q x = Some q' /\ bq_inv q' /\ bq_list q' = bq_list q ++ [x];
  bq_push_full q x : bq_inv q -> length (bq_list q) = bq_capacity -> bq_push q x = None;
  bq_pop_empty q : bq_inv q -> bq_list q = [] -> bq_pop q = None;
  bq_pop_ok q x l : bq_inv q -> bq_list q = x :: l ->
    exists q', bq_pop q = Some (x, q') /\ bq_inv q' /\ bq_list q' = l;
}.

Section BoundedQueue.
Context {Q A : Type} `{!BoundedQueue Q A}.

Lemma bq_pop_cases q : bq_inv q ->
  match bq_pop q with None => bq_list q = [] | Some (x, q') => bq_inv q' /\ bq_list q = x :: bq_list q' end.
Proof.
  intros Hq. destruct (bq_list q) as [|x l] eqn:El; [by rewrite bq_pop_empty|].
  by destruct (bq_pop_ok q x l Hq El) as (q' & -> & Hq' & ->).
Qed.

Lemma bq_push_cases q x : bq_inv q ->
  match bq_push q x with
  | None => length (bq_list q) = bq_capacity (Q := Q) (A := A)
  | Some q' => bq_inv q' /\ bq_list q' = bq_list q ++ [x]
  end.
Proof.
  intros Hq. pose proof (bq_bounded q Hq).
  destruct (decide (length (bq_list q) = bq_capacity (Q := Q) (A := A))) as [E|]; [by rewrite bq_push_full|].
  destruct (bq_push_ok q x Hq ltac:(lia)) as (q' & -> & Hq' & Hl). done.
Qed.

(** A session of pushes (an element the full queue refuses is dropped)
    and pops, with the values popped, on the queue and on a plain list. *)
Inductive qop := QPush (x : A) | QPop.

Fixpoint run_queue (ops : list qop) (q : Q) : list (option A) * Q :=
  match ops with
  | [] => ([], q)
  | QPush x :: ops' =>
      run_queue ops' (match bq_push q x with Some q' => q' | None => q end)
  | QPop :: ops' =>
      match bq_pop q with
      | Some (x, q') => let '(out, q'') := run_queue ops' q' in (Some x :: out, q'')
      | None => let '(out, q'') := run_queue ops' q in (None :: out, q'')
      end
  end.

Fixpoint run_list (ops : list qop) (l : list A) : list (option A) * list A :=
  match ops with
  | [] => ([], l)
  | QPush x :: ops' =>
      run_list ops' (if (length l <? bq_capacity)%nat then l ++ [x] else l)
  | QPop :: ops' =>
      match l with
      | x :: l' => let '(out, l'') := run_list ops' l' in (Some x :: out, l'')
      | [] => let '(out, l'') := run_list ops' l in (None :: out, l'')
      end
  end.

(** Every bounded queue refines the list that drops on overflow. *)
Lemma run_queue_refines ops q :
  bq_inv q ->
  let '(out, q') := run_queue ops q in
  bq_inv q' /\ run_list ops (bq_list q) = (out, bq_list q').
Proof.
  revert q; induction ops as [|[x|] ops IH]; intros q Hq; simpl; [done| |].
  - destruct (Nat.ltb_spec (length (bq_list q)) bq_capacity) as [Hlt|Hge].
    + destruct (bq_push_ok q x Hq Hlt) as (q' & -> & Hq' & Hl). rewrite <- Hl. by apply IH.
    + rewrite bq_push_full; [by apply IH|done|]. pose proof (bq_bounded q Hq). lia.
  - destruct (bq_list q) as [|x l] eqn:El.
    + rewrite bq_pop_empty by done. specialize (IH q Hq). rewrite El in IH.
      destruct (run_queue ops q) as [out q']. destruct IH as [? ->]. done.
    + destruct (bq_pop_ok q x l Hq El) as (q' & -> & Hq' & Hl).
      specialize (IH q' Hq'). rewrite Hl in IH.
      destruct (run_queue ops q') as [out q'']. destruct IH as [? ->]. done.
Qed.
End BoundedQueue.
Arguments qop A : clear implicits.
Arguments QPop {A}.

(** A list with a capacity is such a queue. *)

Section ListQueue.
Context {A : Type} (capacity : nat).

Definition list_push (q : list A) (x : A) : option (list A) :=
  if (length q <? capacity)%nat then Some (q ++ [x]) else None.
Definition list_pop (q : list A) : option (A * list A) := match q with [] => None | x :: l => Some (x, l) end.

Lemma list_push_ok (q : list A) x : (length q <= capacity)%nat -> (length q < capacity)%nat ->
  exists q', list_push q x = Some q' /\ (length q' <= capacity)%nat /\ q' = q ++ [x].
Proof.
  intros _ Hl. unfold list_push. rewrite (proj2 (Nat.ltb_lt _ _) Hl). eexists. split; [done|].
  rewrite length_app. cbn [length]. split; [lia|done].
Qed.

Lemma list_push_full (q : list A) x : (length q <= capacity)%nat -> length q = capacity -> list_push q x = None.
Proof. intros _ E. unfold list_push. by rewrite E, Nat.ltb_irrefl. Qed.

Lemma list_pop_ok (q : list A) x l : (length q <= capacity)%nat -> q = x :: l ->
  exists q', list_pop q = Some (x, q') /\ (length q' <= capacity)%nat /\ q' = l.
Proof. intros Hl ->. exists l. cbn [length] in Hl. split; [done|]. split; [lia|done]. Qed.

Lemma list_pop_empty (q : list A) : (length q <= capacity)%nat -> q = [] -> list_pop q = None.
Proof. by intros _ ->. Qed.

Definition list_queue : BoundedQueue (list A) A :=
  {| bq_capacity := capacity; bq_push := list_push; bq_pop := list_pop;
     bq_inv q := (length q <= capacity)%nat; bq_list q := q; bq_bounded q H := H;
     bq_push_ok := list_push_ok; bq_push_full := list_push_full;
     bq_pop_empty := list_pop_empty; bq_pop_ok := list_pop_ok |}.
End ListQueue.
