(* ===== verification/Utf8.v ===== *)
(** * UTF-8 ([core::str::from_utf8], [str::chars])

    The system calls check the text a program hands them with [from_utf8],
    and the console prints it by [chars]: [utf8_decode] is both. *)

From S2P Require Import Prelude.

Definition continuation (b : Z) : bool := (0x80 <=? b) && (b <=? 0xBF).

(** The second byte of a sequence of three or four: no overlong form, no
    surrogate, nothing above U+10FFFF. *)
Definition second_ok (b c : Z) : bool :=
  ((if b =? 0xE0 then 0xA0 else if b =? 0xF0 then 0x90 else 0x80) <=? c) &&
  (c <=? (if b =? 0xED then 0x9F else if b =? 0xF4 then 0x8F else 0xBF)).

Fixpoint utf8_decode (bs : list Z) : option (list Z) :=
  match bs with
  | [] => Some []
  | b :: r =>
      if b <? 0x80 then cons b <$> utf8_decode r
      else if b <? 0xC2 then None
      else if b <? 0xE0 then
        match r with
        | c :: r' =>
            if continuation c then cons ((b - 0xC0) * 64 + (c - 0x80)) <$> utf8_decode r' else None
        | _ => None
        end
      else if b <? 0xF0 then
        match r with
        | c :: d :: r' =>
            if second_ok b c && continuation d
            then cons ((b - 0xE0) * 4096 + (c - 0x80) * 64 + (d - 0x80)) <$> utf8_decode r' else None
        | _ => None
        end
      else if b <? 0xF5 then
        match r with
        | c :: d :: e :: r' =>
            if second_ok b c && continuation d && continuation e
            then cons ((b - 0xF0) * 262144 + (c - 0x80) * 4096 + (d - 0x80) * 64 + (e - 0x80)) <$> utf8_decode r'
            else None
        | _ => None
        end
      else None
  end.

(** ** What UTF-8 is: the encoding of Unicode scalar values *)

Definition scalar (c : Z) : Prop := 0 <= c < 0xD800 \/ 0xDFFF < c <= 0x10FFFF.

Definition utf8_encode (c : Z) : list Z :=
  if c <? 0x80 then [c]
  else if c <? 0x800 then [0xC0 + c / 64; 0x80 + c mod 64]
  else if c <? 0x10000 then [0xE0 + c / 4096; 0x80 + c / 64 mod 64; 0x80 + c mod 64]
  else [0xF0 + c / 262144; 0x80 + c / 4096 mod 64; 0x80 + c / 64 mod 64; 0x80 + c mod 64].

(** Decides the comparisons of a decoder. *)
Ltac decide_bytes :=
  repeat match goal with
  | |- context [?a =? ?b] => destruct (Z.eqb_spec a b); try lia
  | |- context [?a <? ?b] => destruct (Z.ltb_spec a b); try lia
  | |- context [?a <=? ?b] => destruct (Z.leb_spec a b); try lia
  end.

(** Equal lists of base-64 digits. *)
Ltac solve_digits := repeat (f_equal; try done); Z.to_euclidean_division_equations; lia.

Lemma utf8_decode_encode c bs : scalar c -> utf8_decode (utf8_encode c ++ bs) = cons c <$> utf8_decode bs.
Proof.
  intros Hc. unfold utf8_encode, scalar in *.
  pose proof (Z.div_mod c 64). pose proof (Z.mod_pos_bound c 64).
  pose proof (Z.div_mod (c / 64) 64). pose proof (Z.mod_pos_bound (c / 64) 64).
  pose proof (Z.div_mod (c / 4096) 64). pose proof (Z.mod_pos_bound (c / 4096) 64).
  assert (c / 64 / 64 = c / 4096) by (rewrite Z.div_div by lia; done).
  assert (c / 4096 / 64 = c / 262144) by (rewrite Z.div_div by lia; done).
  destruct (Z.ltb_spec c 0x80); [|destruct (Z.ltb_spec c 0x800); [|destruct (Z.ltb_spec c 0x10000)]];
    cbn [app utf8_decode]; unfold continuation, second_ok; decide_bytes; cbn [andb]; try done;
    (destruct (utf8_decode bs); [|done]; cbn [fmap option_fmap option_map]; do 2 f_equal; lia).
Qed.

(** The first character of a text that decodes. *)
Lemma utf8_decode_inv bs cs : Forall is_u8 bs -> bs <> [] -> utf8_decode bs = Some cs ->
  exists c rest cs', scalar c /\ bs = utf8_encode c ++ rest /\ cs = c :: cs' /\ utf8_decode rest = Some cs'.
Proof.
  intros Hu Hne. destruct bs as [|b r]; [done|]. apply Forall_cons in Hu as [Hb Hr]. unfold is_u8 in Hb.
  assert (Hout : forall c rest, scalar c -> b :: r = utf8_encode c ++ rest -> cons c <$> utf8_decode rest = Some cs ->
    exists c rest cs', scalar c /\ b :: r = utf8_encode c ++ rest /\ cs = c :: cs' /\ utf8_decode rest = Some cs').
  { intros c rest Hc E Hd. exists c, rest. destruct (utf8_decode rest) as [cs'|]; [|done].
    injection Hd as <-. eauto. }
  cbn [utf8_decode].
  destruct (Z.ltb_spec b 0x80); [|destruct (Z.ltb_spec b 0xC2); [done|destruct (Z.ltb_spec b 0xE0);
    [|destruct (Z.ltb_spec b 0xF0); [|destruct (Z.ltb_spec b 0xF5); [|done]]]]].
  - apply Hout; [unfold scalar; lia|]. unfold utf8_encode. decide_bytes. done.
  - destruct r as [|c r']; [done|]. unfold continuation. destruct (_ && _) eqn:E; [|done].
    apply andb_true_iff in E as [?%Z.leb_le ?%Z.leb_le]. apply Hout; [unfold scalar; lia|].
    unfold utf8_encode. decide_bytes. cbn [app]. solve_digits.
  - destruct r as [|c [|d r']]; [done..|]. unfold continuation, second_ok. destruct (_ && _) eqn:E; [|done].
    revert E. decide_bytes; cbn [andb]; try done; intros _; (apply Hout; [unfold scalar; lia|]);
      unfold utf8_encode; decide_bytes; cbn [app]; solve_digits.
  - destruct r as [|c [|d [|e r']]]; [done..|]. unfold continuation, second_ok. destruct (_ && _) eqn:E; [|done].
    revert E. decide_bytes; cbn [andb]; try done; intros _; (apply Hout; [unfold scalar; lia|]);
      unfold utf8_encode; decide_bytes; cbn [app]; solve_digits.
Qed.

(** [from_utf8] accepts exactly the encodings of sequences of Unicode
    scalar values, and [chars] gives these values back: no overlong form, no
    surrogate and no truncated sequence is accepted, and decoding undoes
    encoding. *)
Lemma utf8_roundtrip bs cs : Forall is_u8 bs ->
  utf8_decode bs = Some cs <-> Forall scalar cs /\ bs = cs ≫= utf8_encode.
Proof.
  intros Hu. split.
  - remember (length bs) as n eqn:En. assert (Hn : (length bs <= n)%nat) by lia. clear En.
    revert bs cs Hu Hn; induction n as [|n IH]; intros [|b r] cs Hu Hn Hd; cbn [length] in Hn; try lia.
    1-2: injection Hd as <-; split; [constructor|done].
    destruct (utf8_decode_inv (b :: r) cs Hu) as (c & rest & cs' & Hc & E & -> & Hd'); [done..|].
    destruct (IH rest cs') as [Hs ->]; [| |done|].
    + rewrite E in Hu. by apply Forall_app in Hu as [_ ?].
    + assert (El : length (b :: r) = length (utf8_encode c ++ rest)) by by rewrite E.
      rewrite length_app in El. cbn [length] in El.
      assert (length (utf8_encode c) <> 0%nat) by (unfold utf8_encode; decide_bytes; done). lia.
    + split; [by constructor|]. done.
  - intros [Hs ->]. clear Hu. induction Hs as [|c cs Hc Hs IH]; [done|]. rewrite bind_cons, utf8_decode_encode by done. by rewrite IH.
Qed.

Lemma utf8_roundtrip_witness :
  utf8_decode [0x56; 0xC3; 0xA9; 0xE2; 0x82; 0xAC; 0xF0; 0x9F; 0x98; 0x80] = Some [0x56; 0xE9; 0x20AC; 0x1F600].
Proof.
  apply utf8_roundtrip; [repeat constructor; unfold is_u8; lia|].
  split; [repeat constructor; unfold scalar; lia|vm_compute; reflexivity].
Defined.
