(* ===== verification/Ata.v ===== *)
(** * The ATA PIO driver (src/ata.rs)

    Reading a sector by polling.  The drive behind the ports is a parameter:
    [PortIo] is the processor's port instructions, [AtaDrive] the part of
    the ATA protocol the driver relies on. *)

From S2P Require Import Prelude.

Definition DATA : Z := 0x1F0.
Definition SECTOR_COUNT : Z := 0x1F2.
Definition LBA_LOW : Z := 0x1F3.
Definition LBA_MID : Z := 0x1F4.
Definition LBA_HIGH : Z := 0x1F5.
Definition DRIVE_HEAD : Z := 0x1F6.
Definition COMMAND_STATUS : Z := 0x1F7.
Definition CMD_READ_SECTORS : Z := 0x20.
Definition STATUS_ERR : Z := Z.shiftl 1 0.
Definition STATUS_DRQ : Z := Z.shiftl 1 3.
Definition STATUS_BSY : Z := Z.shiftl 1 7.
Definition POLL_ATTEMPTS : positive := 10000000.
Definition SECTOR_SIZE : Z := 512.

Inductive Drive := Primary | Secondary.

Definition select_bit (d : Drive) : Z := match d with Primary => 0x00 | Secondary => 0x10 end.

(** [Port::<u8>::read], [Port::<u16>::read] and [Port::<u8>::write]. *)
Class PortIo (D : Type) := {
  port_read_u8 : Z -> D -> Z * D;
  port_read_u16 : Z -> D -> Z * D;
  port_write_u8 : Z -> Z -> D -> D;
}.

Section Driver.
Context {D : Type} `{!PortIo D}.

Definition in_u8 (port : Z) : M D Z := fun d => Ok (port_read_u8 port d).
Definition in_u16 (port : Z) : M D Z := fun d => Ok (port_read_u16 port d).
Definition out_u8 (port v : Z) : M D unit := modify (port_write_u8 port v).

(** [for _ in 0..POLL_ATTEMPTS] around a body that returns, panics or goes
    on, and the panic after the loop. *)
Definition poll (body : D -> D + outcome D) (msg : string) : M D unit := fun d =>
  match iter_until body POLL_ATTEMPTS d with
  | inl _ => Panic msg
  | inr (Ok d') => Ok (tt, d')
  | inr (Panic msg') => Panic msg'
  end.

Definition wait_until_not_busy : M D unit :=
  poll (fun d =>
    let '(status, d') := port_read_u8 COMMAND_STATUS d in
    if Z.land status STATUS_BSY =? 0 then inr (Ok d') else inl d') "ATA: drive stayed busy for too long".

Definition wait_for_data : M D unit :=
  poll (fun d =>
    let '(status, d') := port_read_u8 COMMAND_STATUS d in
    if negb (Z.land status STATUS_ERR =? 0) then inr (Panic "ATA: drive reported an error")
    else if (Z.land status STATUS_BSY =? 0) && negb (Z.land status STATUS_DRQ =? 0) then inr (Ok d')
    else inl d') "ATA: drive never became ready to transfer data".

(** [n] words from the data port, as bytes. *)
Fixpoint read_words (n : nat) : M D (list Z) :=
  match n with
  | O => mret []
  | S n' =>
      word ← in_u16 DATA;
      rest ← read_words n';
      mret (Z.land word 0xFF :: Z.shiftr word 8 :: rest)
  end.

(** The sector goes to [buf]; the result is its new contents. *)
Definition read_sector (drive : Drive) (lba : Z) : M D (list Z) :=
  _ ← lift (assert_ (lba <? Z.shiftl 1 28) "LBA28 only supports 28-bit sector addresses");
  _ ← wait_until_not_busy;
  _ ← out_u8 DRIVE_HEAD (Z.lor (Z.lor 0xE0 (select_bit drive)) (Z.land (Z.shiftr lba 24) 0x0F));
  _ ← out_u8 SECTOR_COUNT 1;
  _ ← out_u8 LBA_LOW (Z.land lba 0xFF);
  _ ← out_u8 LBA_MID (Z.land (Z.shiftr lba 8) 0xFF);
  _ ← out_u8 LBA_HIGH (Z.land (Z.shiftr lba 16) 0xFF);
  _ ← out_u8 COMMAND_STATUS CMD_READ_SECTORS;
  _ ← wait_for_data;
  read_words (Z.to_nat (SECTOR_SIZE / 2)).
End Driver.

(** ** What the driver relies on

    A drive is idle or has words to transfer; its registers hold what was
    written to them.  [ata_delay] is how many more status reads will find it
    busy. *)

Record AtaRegisters := mkAtaRegisters { ar_count : Z; ar_low : Z; ar_mid : Z; ar_high : Z; ar_head : Z }.

Inductive AtaPhase := Idle (regs : AtaRegisters) | Transfer (words : list Z).

(** The sector the registers name: LBA mode, one sector. *)
Definition ar_drive (r : AtaRegisters) : Drive := if Z.testbit (ar_head r) 4 then Secondary else Primary.
Definition ar_lba (r : AtaRegisters) : Z :=
  ar_low r + 2 ^ 8 * ar_mid r + 2 ^ 16 * ar_high r + 2 ^ 24 * (ar_head r mod 16).

Fixpoint words_of_bytes (bs : list Z) : list Z :=
  match bs with b0 :: b1 :: bs' => b0 + 2 ^ 8 * b1 :: words_of_bytes bs' | _ => [] end.

Definition set_register (port v : Z) (r : AtaRegisters) : AtaRegisters :=
  if port =? SECTOR_COUNT then mkAtaRegisters v (ar_low r) (ar_mid r) (ar_high r) (ar_head r)
  else if port =? LBA_LOW then mkAtaRegisters (ar_count r) v (ar_mid r) (ar_high r) (ar_head r)
  else if port =? LBA_MID then mkAtaRegisters (ar_count r) (ar_low r) v (ar_high r) (ar_head r)
  else if port =? LBA_HIGH then mkAtaRegisters (ar_count r) (ar_low r) (ar_mid r) v (ar_head r)
  else if port =? DRIVE_HEAD then mkAtaRegisters (ar_count r) (ar_low r) (ar_mid r) (ar_high r) v
  else r.

Class AtaDrive (D : Type) `{!PortIo D} := {
  ata_sector : Drive -> Z -> list Z;
  ata_phase : D -> AtaPhase;
  ata_delay : D -> nat;
  ata_sector_bytes drive lba : length (ata_sector drive lba) = 512%nat /\ Forall is_u8 (ata_sector drive lba);
  ata_status d st d' : port_read_u8 COMMAND_STATUS d = (st, d') ->
    ata_phase d' = ata_phase d /\ ata_delay d' = pred (ata_delay d) /\
    Z.testbit st 0 = false /\ Z.testbit st 7 = negb (ata_delay d =? 0)%nat /\
    (ata_delay d = 0%nat -> Z.testbit st 3 = match ata_phase d with Transfer _ => true | Idle _ => false end);
  ata_register d port v r : ata_phase d = Idle r -> ata_delay d = 0%nat ->
    port ∈ [SECTOR_COUNT; LBA_LOW; LBA_MID; LBA_HIGH; DRIVE_HEAD] ->
    ata_phase (port_write_u8 port v d) = Idle (set_register port v r) /\ ata_delay (port_write_u8 port v d) = 0%nat;
  ata_command d r : ata_phase d = Idle r -> ata_delay d = 0%nat -> ar_count r = 1 -> Z.testbit (ar_head r) 6 = true ->
    let d' := port_write_u8 COMMAND_STATUS CMD_READ_SECTORS d in
    ata_phase d' = Transfer (words_of_bytes (ata_sector (ar_drive r) (ar_lba r))) /\
    (ata_delay d' < Pos.to_nat POLL_ATTEMPTS)%nat;
  ata_data d w ws : ata_phase d = Transfer (w :: ws) -> ata_delay d = 0%nat ->
    exists d', port_read_u16 DATA d = (w, d') /\
      match ws with
      | [] => (exists r, ata_phase d' = Idle r) /\ (ata_delay d' < Pos.to_nat POLL_ATTEMPTS)%nat
      | _ => ata_phase d' = Transfer ws /\ ata_delay d' = 0%nat
      end;
}.

Lemma land_bit_zero a k : 0 <= k -> (Z.land a (Z.shiftl 1 k) =? 0) = negb (Z.testbit a k).
Proof.
  intros Hk. rewrite Z.shiftl_1_l. destruct (Z.testbit a k) eqn:E; cbn [negb].
  - apply Z.eqb_neq. intros H. assert (Hb : Z.testbit (Z.land a (2 ^ k)) k = true).
    { by rewrite Z.land_spec, E, Z.pow2_bits_true. }
    by rewrite H, Z.bits_0 in Hb.
  - apply Z.eqb_eq, Z.bits_inj'. intros i Hi. rewrite Z.land_spec, Z.bits_0.
    destruct (decide (i = k)) as [->|Hne]; [by rewrite E|]. by rewrite Z.pow2_bits_false, andb_false_r.
Qed.

Section Proofs.
Context {D : Type} `{!PortIo D, !AtaDrive D}.
Implicit Types d : D.

(** A drive between commands. *)
Definition ata_ready d : Prop := (exists r, ata_phase d = Idle r) /\ (ata_delay d < Pos.to_nat POLL_ATTEMPTS)%nat.

(** Polling ends when the delay is over. *)
Lemma poll_ready (body : D -> D + outcome D) msg (P : D -> Prop) d :
  (forall d, P d -> exists d', body d = (if (ata_delay d =? 0)%nat then inr (Ok d') else inl d') /\
     P d' /\ ata_delay d' = pred (ata_delay d)) ->
  P d -> (ata_delay d < Pos.to_nat POLL_ATTEMPTS)%nat ->
  exists d', poll body msg d = Ok (tt, d') /\ P d' /\ ata_delay d' = 0%nat.
Proof.
  intros Hb HP Hlt. unfold poll. rewrite iter_until_nat.
  assert (H : exists d', iter_nat body (S (ata_delay d)) d = inr (Ok d') /\ P d' /\ ata_delay d' = 0%nat).
  { clear Hlt. remember (ata_delay d) as n eqn:En. revert d HP En; induction n as [|n IH]; intros d HP En;
      destruct (Hb d HP) as (d' & E & HP' & Ed); rewrite <- En in *; cbn [Nat.eqb pred] in *;
      change (iter_nat body (S ?n) d) with (match body d with inl s' => iter_nat body n s' | inr r => inr r end);
      rewrite E; [by exists d'|]. by apply IH. }
  destruct H as (d' & E & HP' & Ed). exists d'. split; [|done].
  by rewrite (iter_nat_exit_mono _ _ _ _ _ Hlt E).
Qed.

Lemma wait_until_not_busy_ok d r :
  ata_phase d = Idle r -> (ata_delay d < Pos.to_nat POLL_ATTEMPTS)%nat ->
  exists d', wait_until_not_busy d = Ok (tt, d') /\ ata_phase d' = Idle r /\ ata_delay d' = 0%nat.
Proof.
  apply (poll_ready _ _ (fun d => ata_phase d = Idle r)). clear d. intros d Hd.
  destruct (port_read_u8 COMMAND_STATUS d) as [st d'] eqn:E.
  destruct (ata_status d st d' E) as (H1 & H2 & _ & H7 & _). exists d'.
  unfold STATUS_BSY. rewrite land_bit_zero, H7, negb_involutive by done. split; [done|]. by rewrite H1.
Qed.

Lemma wait_for_data_ok d ws :
  ata_phase d = Transfer ws -> (ata_delay d < Pos.to_nat POLL_ATTEMPTS)%nat ->
  exists d', wait_for_data d = Ok (tt, d') /\ ata_phase d' = Transfer ws /\ ata_delay d' = 0%nat.
Proof.
  apply (poll_ready _ _ (fun d => ata_phase d = Transfer ws)). clear d. intros d Hd.
  destruct (port_read_u8 COMMAND_STATUS d) as [st d'] eqn:E.
  destruct (ata_status d st d' E) as (H1 & H2 & H0 & H7 & H3). exists d'.
  unfold STATUS_BSY, STATUS_ERR, STATUS_DRQ. rewrite !land_bit_zero, H0, H7, !negb_involutive by done. cbn [negb].
  split; [|by rewrite H1]. destruct (Nat.eqb_spec (ata_delay d) 0) as [E0|_]; [|done].
  by rewrite H3, Hd by done.
Qed.

Lemma word_bytes b0 b1 : is_u8 b0 -> is_u8 b1 ->
  Z.land (b0 + 2 ^ 8 * b1) 0xFF = b0 /\ Z.shiftr (b0 + 2 ^ 8 * b1) 8 = b1.
Proof.
  unfold is_u8. intros H0 H1. change 0xFF with (Z.ones 8). rewrite Z.land_ones, Z.shiftr_div_pow2 by lia.
  rewrite (Z.mul_comm (2 ^ 8)), Z.mod_add, Z.div_add, Z.mod_small, Z.div_small by lia. lia.
Qed.

Lemma read_words_ok n bs d :
  length bs = (2 * S n)%nat -> Forall is_u8 bs -> ata_phase d = Transfer (words_of_bytes bs) -> ata_delay d = 0%nat ->
  exists d', read_words (S n) d = Ok (bs, d') /\ ata_ready d'.
Proof.
  revert bs d; induction n as [|n IH]; intros bs d Hlen Hb Hp Hd;
    destruct bs as [|b0 [|b1 bs]]; cbn [length] in Hlen; try lia;
    apply Forall_cons in Hb as [Hb0 Hb]; apply Forall_cons in Hb as [Hb1 Hb];
    destruct (word_bytes b0 b1 Hb0 Hb1) as [E0 E1];
    destruct (ata_data d _ _ Hp Hd) as (d1 & Er & Hd1).
  - destruct bs; [|cbn in Hlen; lia]. exists d1. split; [|done].
    unfold read_words, in_u16, mbind, M_bind, mret, M_ret. by rewrite Er, E0, E1.
  - destruct bs as [|b2 [|b3 bs]]; cbn [length] in Hlen; try lia. destruct Hd1 as [Hp1 Hd1].
    destruct (IH (b2 :: b3 :: bs) d1) as (d2 & E2 & Hr); [cbn [length]; lia|done|done|done|].
    exists d2. split; [|done].
    change (read_words (S (S n)) d) with ((word ← in_u16 DATA; rest ← read_words (S n);
      mret (Z.land word 0xFF :: Z.shiftr word 8 :: rest)) d).
    unfold in_u16 at 1, mbind, M_bind. rewrite Er. unfold mbind, M_bind in E2. rewrite E2. unfold mret, M_ret. by rewrite E0, E1.
Qed.

(** The registers [read_sector] leaves in the drive. *)
Definition command_registers (drive : Drive) (lba : Z) : AtaRegisters :=
  mkAtaRegisters 1 (Z.land lba 0xFF) (Z.land (Z.shiftr lba 8) 0xFF) (Z.land (Z.shiftr lba 16) 0xFF)
    (Z.lor (Z.lor 0xE0 (select_bit drive)) (Z.land (Z.shiftr lba 24) 0x0F)).

Lemma head_register drive (n : nat) : (n < 16)%nat ->
  let head := Z.lor (Z.lor 0xE0 (select_bit drive)) (Z.of_nat n) in
  Z.testbit head 6 = true /\ Z.testbit head 4 = (match drive with Secondary => true | Primary => false end) /\
  head mod 16 = Z.of_nat n.
Proof.
  intros Hn. do 16 (destruct n as [|n]; [by destruct drive; vm_compute|]). lia.
Qed.

(** The five registers name the drive and the address. *)
Lemma command_registers_name drive lba : 0 <= lba < 2 ^ 28 ->
  ar_drive (command_registers drive lba) = drive /\ ar_lba (command_registers drive lba) = lba /\
  Z.testbit (ar_head (command_registers drive lba)) 6 = true.
Proof.
  intros Hl. unfold ar_drive, ar_lba, command_registers. cbn [ar_head ar_low ar_mid ar_high].
  change 0xFF with (Z.ones 8). change 0x0F with (Z.ones 4).
  rewrite !Z.land_ones, !Z.shiftr_div_pow2 by lia.
  pose proof (Z.mod_pos_bound (lba / 2 ^ 24) (2 ^ 4) ltac:(lia)) as Hb.
  destruct (head_register drive (Z.to_nat ((lba / 2 ^ 24) mod 2 ^ 4))) as (H6 & H4 & Hm); [lia|].
  rewrite Z2Nat.id in * by lia. rewrite H6, H4, Hm. split_and!; [by destruct drive| |done]. clear Hm H6 H4 Hb.
  Z.div_mod_to_equations. lia.
Qed.

Lemma out_register d port v r :
  ata_phase d = Idle r -> ata_delay d = 0%nat -> port ∈ [SECTOR_COUNT; LBA_LOW; LBA_MID; LBA_HIGH; DRIVE_HEAD] ->
  exists d', out_u8 port v d = Ok (tt, d') /\ ata_phase d' = Idle (set_register port v r) /\ ata_delay d' = 0%nat.
Proof. intros Hp Hd Hin. eexists. split; [done|]. by apply ata_register. Qed.

Lemma read_sector_reads drive lba d :
  ata_ready d -> 0 <= lba < 2 ^ 28 ->
  exists d', read_sector drive lba d = Ok (ata_sector drive lba, d') /\ ata_ready d'.
Proof.
  intros [[r Hr] Hd] Hl. destruct (ata_sector_bytes drive lba) as [Hlen Hb].
  destruct (wait_until_not_busy_ok d r Hr Hd) as (d0 & E0 & P0 & D0).
  destruct (out_register d0 DRIVE_HEAD (Z.lor (Z.lor 0xE0 (select_bit drive)) (Z.land (Z.shiftr lba 24) 0x0F)) r P0 D0)
    as (d1 & E1 & P1 & D1); [set_solver|].
  destruct (out_register d1 SECTOR_COUNT 1 _ P1 D1) as (d2 & E2 & P2 & D2); [set_solver|].
  destruct (out_register d2 LBA_LOW (Z.land lba 0xFF) _ P2 D2) as (d3 & E3 & P3 & D3); [set_solver|].
  destruct (out_register d3 LBA_MID (Z.land (Z.shiftr lba 8) 0xFF) _ P3 D3) as (d4 & E4 & P4 & D4); [set_solver|].
  destruct (out_register d4 LBA_HIGH (Z.land (Z.shiftr lba 16) 0xFF) _ P4 D4) as (d5 & E5 & P5 & D5); [set_solver|].
  change (ata_phase d5 = Idle (command_registers drive lba)) in P5.
  destruct (command_registers_name drive lba Hl) as (N1 & N2 & N3).
  destruct (ata_command d5 _ P5 D5 eq_refl N3) as [P6 D6]. rewrite N1, N2 in P6.
  destruct (wait_for_data_ok _ _ P6 D6) as (d7 & E7 & P7 & D7).
  destruct (read_words_ok 255 _ d7 Hlen Hb P7 D7) as (d8 & E8 & R8).
  exists d8. split; [|done]. unfold read_sector, lift, assert_.
  rewrite (proj2 (Z.ltb_lt lba (Z.shiftl 1 28))) by (change (Z.shiftl 1 28) with (2 ^ 28); lia).
  unfold mbind, M_bind, outcome_bind. rewrite E0, E1, E2, E3, E4, E5.
  unfold out_u8 at 1, modify. rewrite E7. exact E8.
Qed.
End Proofs.

Section Claims.
Context {D : Type} `{!PortIo D}.

(** C31: the driver reads the sector it is asked for.  On a drive that
    follows the ATA protocol and answers within the driver's patience, for
    every 28-bit address, [read_sector] returns without a panic, the buffer
    holds the 512 bytes of that sector of that drive, and the drive is ready
    for the next command. *)
Theorem ata_read_sector_correct `{!AtaDrive D} drive lba (d : D) :
  ata_ready d -> 0 <= lba < 2 ^ 28 ->
  exists d', read_sector drive lba d = Ok (ata_sector drive lba, d') /\ ata_ready d'.
Proof. apply read_sector_reads. Qed.

(** the driver never hangs.  An address of more than 28 bits is refused
    before the drive is touched, and a drive whose status stays busy leads
    to a panic after [POLL_ATTEMPTS] reads. *)
Lemma ata_read_sector_fails drive lba (d : D) :
  (2 ^ 28 <= lba -> read_sector drive lba d = Panic "LBA28 only supports 28-bit sector addresses") /\
  (lba < 2 ^ 28 -> (forall d', Z.testbit (port_read_u8 COMMAND_STATUS d').1 7 = true) ->
     read_sector drive lba d = Panic "ATA: drive stayed busy for too long").
Proof.
  unfold read_sector, lift, assert_. change (Z.shiftl 1 28) with (2 ^ 28). split.
  - intros Hl. by rewrite (proj2 (Z.ltb_ge lba (2 ^ 28)) Hl).
  - intros Hl Hbusy. rewrite (proj2 (Z.ltb_lt lba (2 ^ 28)) Hl). unfold mbind, M_bind, outcome_bind.
    set (body := fun d : D => let '(status, d') := port_read_u8 COMMAND_STATUS d in
      if Z.land status STATUS_BSY =? 0 then inr (Ok d') else inl d').
    assert (Hw : wait_until_not_busy d = Panic "ATA: drive stayed busy for too long").
    { unfold wait_until_not_busy, poll. fold body. rewrite iter_until_nat.
      assert (Hi : forall n d, exists d', iter_nat body n d = inl d'); [|by destruct (Hi (Pos.to_nat POLL_ATTEMPTS) d) as [? ->]].
      induction n as [|n IH]; intros e; [by exists e|]. cbn [iter_nat]. unfold body at 1. specialize (Hbusy e).
      destruct (port_read_u8 COMMAND_STATUS e) as [st e']. cbn [fst] in Hbusy. unfold STATUS_BSY.
      rewrite land_bit_zero, Hbusy by done. apply IH. }
    by rewrite Hw.
Qed.
End Claims.

(** ** A simulated drive *)

Record SimDrive := mkSimDrive { sim_phase : AtaPhase; sim_delay : nat }.

Section Simulated.
Context (disk : Drive -> Z -> list Z) (seek : nat) (Hseek : (seek < Pos.to_nat POLL_ATTEMPTS)%nat).

(** A sector of the disk image, padded with zeroes. *)
Definition sim_sector (drive : Drive) (lba : Z) : list Z :=
  take 512 (((fun b => b mod 256) <$> disk drive lba) ++ replicate 512 0).

Definition sim_status (d : SimDrive) : Z :=
  if (sim_delay d =? 0)%nat then match sim_phase d with Transfer _ => 0x58 | Idle _ => 0x50 end else 0xD0.

#[local] Instance sim_io : PortIo SimDrive := {|
  port_read_u8 port d :=
    if port =? COMMAND_STATUS then (sim_status d, mkSimDrive (sim_phase d) (pred (sim_delay d))) else (0, d);
  port_read_u16 port d :=
    match sim_phase d with
    | Transfer (w :: ws) => (w, mkSimDrive (match ws with [] => Idle (mkAtaRegisters 0 0 0 0 0) | _ => Transfer ws end) 0)
    | _ => (0, d)
    end;
  port_write_u8 port v d :=
    match sim_phase d with
    | Idle r =>
        if (port =? COMMAND_STATUS) && (v =? CMD_READ_SECTORS)
        then mkSimDrive (Transfer (words_of_bytes (sim_sector (ar_drive r) (ar_lba r)))) seek
        else mkSimDrive (Idle (set_register port v r)) (sim_delay d)
    | Transfer _ => d
    end;
|}.

#[local, refine] Instance sim_drive : AtaDrive SimDrive := {|
  ata_sector := sim_sector;
  ata_phase := sim_phase;
  ata_delay := sim_delay;
|}.
Proof using Hseek.
  - intros drive lba. unfold sim_sector. split.
    + rewrite length_take, length_app, length_replicate. lia.
    + apply Forall_take, Forall_app. split; [|apply Forall_replicate; unfold is_u8; lia].
      apply Forall_fmap, Forall_forall. intros b _. unfold is_u8. cbn. apply Z.mod_pos_bound. lia.
  - intros d st d' [= <- <-]. cbn [sim_phase sim_delay]. unfold sim_status.
    destruct (Nat.eqb_spec (sim_delay d) 0) as [E|E]; destruct (sim_phase d); by rewrite ?E.
  - intros d port v r Hp Hd Hin. cbn. rewrite Hp.
    assert (Hne : (port =? COMMAND_STATUS) = false) by (set_unfold; apply Z.eqb_neq; unfold COMMAND_STATUS, SECTOR_COUNT,
      LBA_LOW, LBA_MID, LBA_HIGH, DRIVE_HEAD in *; lia).
    by rewrite Hne.
  - intros d r Hp Hd Hc H6. cbn. rewrite Hp. cbn. by split.
  - intros d w ws Hp Hd. cbn. rewrite Hp. eexists. split; [done|].
    destruct ws; [|done]. split; [by eexists|]. cbn. lia.
Defined.
End Simulated.

Lemma ata_read_sector_correct_witness :
  exists d', @read_sector _ (sim_io (fun _ lba => [lba]) 1000) Secondary 0x23 (mkSimDrive (Idle (mkAtaRegisters 0 0 0 0 0)) 0)
    = Ok (0x23 :: replicate 511 0, d').
Proof.
  assert (Hseek : (1000 < Pos.to_nat POLL_ATTEMPTS)%nat) by (unfold POLL_ATTEMPTS; lia).
  destruct (@ata_read_sector_correct SimDrive (sim_io (fun _ lba => [lba]) 1000) (sim_drive (fun _ lba => [lba]) 1000 Hseek)
    Secondary 0x23 (mkSimDrive (Idle (mkAtaRegisters 0 0 0 0 0)) 0)) as (d' & E & _).
  - split; [by eexists|]. cbn. lia.
  - lia.
  - exists d'. exact E.
Defined.

(** No drive at all: the bus floats. *)
Definition no_drive : PortIo unit := {|
  port_read_u8 _ d := (0xFF, d); port_read_u16 _ d := (0xFFFF, d); port_write_u8 _ _ d := d |}.

Lemma ata_read_sector_fails_witness :
  @read_sector _ no_drive Secondary (2 ^ 28) tt = Panic "LBA28 only supports 28-bit sector addresses" /\
  @read_sector _ no_drive Secondary 0 tt = Panic "ATA: drive stayed busy for too long".
Proof.
  split.
  - apply (@ata_read_sector_fails unit no_drive Secondary (2 ^ 28) tt). lia.
  - apply (@ata_read_sector_fails unit no_drive Secondary 0 tt); [lia|]. reflexivity.
Defined.
