(* ===== verification/Fat.v ===== *)
(** * The FAT16 reader (src/fs.rs)

    Looking a file up in the root directory and reading its cluster chain,
    over any disk that reads sectors ([SectorDisk]); the ATA driver is one. *)

From S2P Require Import Prelude Ata.

Definition FS_DRIVE : Drive := Secondary.
Definition DIR_ENTRY_SIZE : Z := 32.
Definition DIR_ENTRY_FREE : Z := 0xE5.
Definition DIR_ENTRY_END : Z := 0x00.
Definition ATTR_LONG_NAME : Z := 0x0F.
Definition ATTR_VOLUME_ID : Z := 0x08.
Definition ATTR_DIRECTORY : Z := 0x10.

(** ** The interface to the disk *)

Class SectorDisk (D : Type) := {
  disk_read : Z -> M D (list Z);
  disk_ok : D -> Prop;
  disk_sector : Z -> list Z;
  disk_sector_bytes lba : length (disk_sector lba) = 512%nat /\ Forall is_u8 (disk_sector lba);
  disk_read_ok d lba : disk_ok d -> 0 <= lba < 2 ^ 28 ->
    exists d', disk_read lba d = Ok (disk_sector lba, d') /\ disk_ok d';
}.

(** [read_sector]: a sector of the filesystem's drive. *)
Definition read_sector {D} `{!PortIo D} (lba : Z) : M D (list Z) := Ata.read_sector FS_DRIVE lba.

#[export, refine] Instance ata_disk {D} `{!PortIo D, !AtaDrive D} : SectorDisk D := {|
  disk_read := read_sector;
  disk_ok := ata_ready;
  disk_sector := ata_sector FS_DRIVE;
|}.
Proof.
  - apply ata_sector_bytes.
  - intros d lba. apply read_sector_reads.
Defined.

(** ** Fields *)

(** [bytes[offset..offset + n]] panics out of range. *)
Definition read_field (n : Z) (bytes : list Z) (offset : Z) : outcome Z :=
  s ← expect (slice bytes offset (offset + n)) "range end index out of range for slice";
  Ok (le_decode s).

Definition read_u16 : list Z -> Z -> outcome Z := read_field 2.
Definition read_u32 : list Z -> Z -> outcome Z := read_field 4.

Definition byte_at (bytes : list Z) (i : nat) : outcome Z := expect (bytes !! i) "index out of bounds".

Record BiosParameterBlock := mkBiosParameterBlock {
  reserved_sector_count : Z;
  num_fats : Z;
  root_entry_count : Z;
  fat_size_sectors : Z;
  sectors_per_cluster : Z;
}.

Definition parse (boot_sector : list Z) : outcome (option BiosParameterBlock) :=
  bytes_per_sector ← read_u16 boot_sector 0x0B;
  if negb (bytes_per_sector =? SECTOR_SIZE) then Ok None
  else
    reserved_sector_count ← read_u16 boot_sector 0x0E;
    num_fats ← byte_at boot_sector 0x10;
    root_entry_count ← read_u16 boot_sector 0x11;
    fat_size_sectors ← read_u16 boot_sector 0x16;
    sectors_per_cluster ← byte_at boot_sector 0x0D;
    Ok (Some (mkBiosParameterBlock reserved_sector_count num_fats root_entry_count fat_size_sectors sectors_per_cluster)).

Definition first_fat_sector (b : BiosParameterBlock) : Z := reserved_sector_count b.

(** [u32::div_ceil]. *)
Definition div_ceil (a b : Z) : Z := if a mod b =? 0 then a / b else a / b + 1.

Definition root_dir_sector_count (b : BiosParameterBlock) : outcome Z :=
  root_dir_bytes ← mul_w 32 (root_entry_count b) DIR_ENTRY_SIZE;
  Ok (div_ceil root_dir_bytes SECTOR_SIZE).

Definition first_root_dir_sector (b : BiosParameterBlock) : outcome Z :=
  fats ← mul_w 32 (num_fats b) (fat_size_sectors b);
  add_w 32 (first_fat_sector b) fats.

Definition first_data_sector (b : BiosParameterBlock) : outcome Z :=
  first ← first_root_dir_sector b;
  count ← root_dir_sector_count b;
  add_w 32 first count.

Definition cluster_to_lba (b : BiosParameterBlock) (cluster : Z) : outcome Z :=
  first ← first_data_sector b;
  c ← sub_w cluster 2;
  offset ← mul_w 32 c (sectors_per_cluster b);
  add_w 32 first offset.

(** ** Names

    A [&str] is its bytes. *)

Fixpoint split_once (c : Z) (s : list Z) : option (list Z * list Z) :=
  match s with
  | [] => None
  | b :: s' => if b =? c then Some ([], s') else '(l, r) ← split_once c s'; Some (b :: l, r)
  end.

Definition to_ascii_uppercase (b : Z) : Z := if (97 <=? b) && (b <=? 122) then b - 32 else b.

(** [for (i, b) in bytes.enumerate() { dst[at + i] = b.to_ascii_uppercase() }] *)
Fixpoint assign_upper (at_ : nat) (bytes dst : list Z) : list Z :=
  match bytes with
  | [] => dst
  | b :: bytes' => assign_upper (S at_) bytes' (<[at_ := to_ascii_uppercase b]> dst)
  end.

Definition to_fat_83 (name : list Z) : option (list Z) :=
  let '(base, ext) := match split_once 46 name with Some be => be | None => (name, []) end in
  if (length base =? 0)%nat || (8 <? length base)%nat || (3 <? length ext)%nat then None
  else Some (assign_upper 8 ext (assign_upper 0 base (replicate 11 32))).

(** ** The root directory *)

Record DirEntry := mkDirEntry { first_cluster : Z; file_size : Z }.

(** What the body of the inner loop of [find_in_root_dir] does next. *)
Inductive Scan := BreakSectors | Continue | Return (e : DirEntry).

Definition scan_entry (name entry : list Z) : outcome Scan :=
  first ← byte_at entry 0;
  if first =? DIR_ENTRY_END then Ok BreakSectors
  else if first =? DIR_ENTRY_FREE then Ok Continue
  else
    attributes ← byte_at entry 0x0B;
    if (attributes =? ATTR_LONG_NAME) || negb (Z.land attributes ATTR_VOLUME_ID =? 0) then Ok Continue
    else if negb (Z.land attributes ATTR_DIRECTORY =? 0) then Ok Continue
    else
      entry_name ← expect (slice entry 0 11) "range end index out of range for slice";
      if bool_decide (entry_name = name) then
        first_cluster ← read_u16 entry 0x1A;
        file_size ← read_u32 entry 0x1C;
        Ok (Return (mkDirEntry first_cluster file_size))
      else Ok Continue.

Fixpoint scan_entries (name : list Z) (entries : list (list Z)) : outcome Scan :=
  match entries with
  | [] => Ok Continue
  | entry :: rest =>
      r ← scan_entry name entry;
      match r with Continue => scan_entries name rest | _ => Ok r end
  end.

Definition chunks_exact {A} (n : nat) (l : list A) : list (list A) :=
  (fun i => take n (drop (n * i) l)) <$> seq 0 (length l / n).

Section Reader.
Context {D : Type} `{!SectorDisk D}.

Fixpoint find_sectors (name : list Z) (first_sector : Z) (indexes : list nat) : M D (option DirEntry) :=
  match indexes with
  | [] => mret None
  | i :: rest =>
      lba ← lift (add_w 32 first_sector (Z.of_nat i));
      sector ← disk_read lba;
      r ← lift (scan_entries name (chunks_exact (Z.to_nat DIR_ENTRY_SIZE) sector));
      match r with
      | BreakSectors => mret None
      | Continue => find_sectors name first_sector rest
      | Return e => mret (Some e)
      end
  end.

Definition find_in_root_dir (b : BiosParameterBlock) (name : list Z) : M D (option DirEntry) :=
  first_sector ← lift (first_root_dir_sector b);
  sector_count ← lift (root_dir_sector_count b);
  find_sectors name first_sector (seq 0 (Z.to_nat sector_count)).

Definition next_cluster (b : BiosParameterBlock) (cluster : Z) : M D (option Z) :=
  fat_byte_offset ← lift (mul_w 32 cluster 2);
  sector ← lift (add_w 32 (first_fat_sector b) (fat_byte_offset / SECTOR_SIZE));
  let offset_in_sector := fat_byte_offset mod SECTOR_SIZE in
  fat_sector ← disk_read sector;
  entry ← lift (read_u16 fat_sector offset_in_sector);
  mret (if (0xFFF8 <=? entry) || (entry =? 0xFFF7) then None else Some entry).

(** The [for] loop over the sectors of a cluster: [inr] is a [return] from
    [read_file]. *)
Fixpoint read_cluster (file_size first_lba : Z) (indexes : list nat) (data : list Z) : M D (list Z + list Z) :=
  match indexes with
  | [] => mret (inl data)
  | i :: rest =>
      lba ← lift (add_w 32 first_lba (Z.of_nat i));
      sector ← disk_read lba;
      remaining ← lift (sub_w file_size (Z.of_nat (length data)));
      let count := Z.min remaining SECTOR_SIZE in
      part ← lift (expect (slice sector 0 count) "range end index out of range for slice");
      let data' := data ++ part in
      if file_size <=? Z.of_nat (length data') then mret (inr data')
      else read_cluster file_size first_lba rest data'
  end.

(** The outer [loop], at most [fuel] rounds of it. *)
Fixpoint read_clusters (fuel : nat) (b : BiosParameterBlock) (file_size cluster : Z) (data : list Z) : M D (list Z) :=
  match fuel with
  | O => lift (Panic "read_file: out of fuel")
  | S fuel' =>
      first_lba ← lift (cluster_to_lba b cluster);
      r ← read_cluster file_size first_lba (seq 0 (Z.to_nat (sectors_per_cluster b))) data;
      match r with
      | inr data' => mret data'
      | inl data' =>
          next ← next_cluster b cluster;
          match next with
          | Some next => read_clusters fuel' b file_size next data'
          | None => mret data'
          end
      end
  end.

(** [can_allocate n]: the heap has room for [Vec::with_capacity(n)]. *)
Definition read_file (fuel : nat) (can_allocate : Z -> bool) (name : list Z) : M D (option (list Z)) :=
  match to_fat_83 name with
  | None => mret None
  | Some fat_name =>
      boot_sector ← disk_read 0;
      bpb ← lift (parse boot_sector);
      match bpb with
      | None => mret None
      | Some bpb =>
          entry ← find_in_root_dir bpb fat_name;
          match entry with
          | None => mret None
          | Some entry =>
              _ ← lift (assert_ (can_allocate (file_size entry)) "memory allocation failed");
              if file_size entry =? 0 then mret (Some [])
              else
                data ← read_clusters fuel bpb (file_size entry) (first_cluster entry) [];
                mret (Some data)
          end
      end
  end.
End Reader.
