(* ===== verification/FatThms.v ===== *)
(** * Correctness of the FAT16 reader

    The root directory as a list of entries, the allocation table as a
    function from clusters to clusters, a file as the bytes of its chain:
    the reader of [Fat] computes exactly these. *)

From S2P Require Import Prelude Ata Fat.

(** ** What is on the disk *)

(** The fields of a parameter block have the widths of the source. *)
Definition bpb_ok (b : BiosParameterBlock) : Prop :=
  is_u16 (reserved_sector_count b) /\ is_u8 (num_fats b) /\ is_u16 (root_entry_count b) /\
  is_u16 (fat_size_sectors b) /\ is_u8 (sectors_per_cluster b).

Definition root_start (b : BiosParameterBlock) : Z := reserved_sector_count b + num_fats b * fat_size_sectors b.
Definition root_sectors (b : BiosParameterBlock) : Z := (root_entry_count b * 32 + 511) / 512.
Definition data_start (b : BiosParameterBlock) : Z := root_start b + root_sectors b.
Definition cluster_lba (b : BiosParameterBlock) (c : Z) : Z := data_start b + (c - 2) * sectors_per_cluster b.

(** A directory entry that names a file. *)
Definition is_file_named (name e : list Z) : bool :=
  let attributes := nth 11 e 0 in
  negb (nth 0 e 0 =? DIR_ENTRY_FREE) && negb (attributes =? ATTR_LONG_NAME) && negb (Z.testbit attributes 3) &&
  negb (Z.testbit attributes 4) && bool_decide (take 11 e = name).

Definition entry_of (e : list Z) : DirEntry :=
  mkDirEntry (le_decode (take 2 (drop 26 e))) (le_decode (take 4 (drop 28 e))).

Fixpoint take_while {A} (p : A -> bool) (l : list A) : list A :=
  match l with [] => [] | x :: l' => if p x then x :: take_while p l' else [] end.

(** The first file of that name before the end marker. *)
Definition dir_find (name : list Z) (entries : list (list Z)) : option DirEntry :=
  entry_of <$> hd_error (List.filter (is_file_named name) (take_while (fun e => negb (nth 0 e 0 =? DIR_ENTRY_END)) entries)).

Section Disk.
Context {D : Type} `{!SectorDisk D}.

Definition root_entries (b : BiosParameterBlock) : list (list Z) :=
  seq 0 (Z.to_nat (root_sectors b)) ≫= fun i => chunks_exact 32 (disk_sector (root_start b + Z.of_nat i)).

(** The allocation table: the two bytes of cluster [c]. *)
Definition fat_entry (b : BiosParameterBlock) (c : Z) : Z :=
  le_decode (take 2 (drop (Z.to_nat (2 * c mod 512)) (disk_sector (reserved_sector_count b + 2 * c / 512)))).

Definition fat_next (b : BiosParameterBlock) (c : Z) : option Z :=
  let e := fat_entry b c in if (0xFFF8 <=? e) || (e =? 0xFFF7) then None else Some e.

(** At most [n] clusters of the chain from [c], and the bytes of one. *)
Fixpoint clusters (b : BiosParameterBlock) (n : nat) (c : Z) : list Z :=
  match n with
  | O => []
  | S n' => c :: match fat_next b c with Some c' => clusters b n' c' | None => [] end
  end.

Definition cluster_bytes (b : BiosParameterBlock) (c : Z) : list Z :=
  seq 0 (Z.to_nat (sectors_per_cluster b)) ≫= fun i => disk_sector (cluster_lba b c + Z.of_nat i).

(** The clusters a file of that size has. *)
Definition clusters_needed (b : BiosParameterBlock) (size : Z) : nat :=
  Z.to_nat (div_ceil size (512 * sectors_per_cluster b)).

Definition file_contents (b : BiosParameterBlock) (e : DirEntry) : list Z :=
  take (Z.to_nat (file_size e)) (clusters b (clusters_needed b (file_size e)) (first_cluster e) ≫= cluster_bytes b).
End Disk.

(** ** Parameter blocks *)

Lemma read_field_ok n s off :
  0 <= off -> 0 <= n -> off + n <= Z.of_nat (length s) ->
  read_field n s off = Ok (le_decode (take (Z.to_nat n) (drop (Z.to_nat off) s))).
Proof.
  intros. unfold read_field.
  rewrite (proj2 (slice_Some s off (off + n) (take (Z.to_nat n) (drop (Z.to_nat off) s)))); [done|].
  split_and!; [lia..|]. do 2 f_equal. lia.
Qed.

Lemma byte_at_ok s i : (i < length s)%nat -> byte_at s i = Ok (nth i s 0).
Proof. intros Hi. unfold byte_at. destruct (nth_lookup_or_length s i 0) as [->|?]; [done|lia]. Qed.

Lemma field_bound n s off : Forall is_u8 s -> 0 <= le_decode (take n (drop off s)) < 256 ^ Z.of_nat n.
Proof.
  intros Hs. pose proof (le_decode_bound (take n (drop off s))) as Hb.
  destruct Hb as [H0 H1]; [by apply Forall_take, Forall_drop|]. split; [done|].
  eapply Z.lt_le_trans; [exact H1|]. apply Z.pow_le_mono_r; [lia|]. rewrite length_take. lia.
Qed.

Lemma nth_u8 s i : Forall is_u8 s -> is_u8 (nth i s 0).
Proof.
  intros Hs. destruct (nth_lookup_or_length s i 0) as [E|E].
  - by eapply Forall_lookup_1.
  - rewrite nth_overflow by done. unfold is_u8. lia.
Qed.

Lemma parse_ok s : length s = 512%nat -> Forall is_u8 s ->
  exists r, parse s = Ok r /\ (forall b, r = Some b -> bpb_ok b).
Proof.
  intros Hl Hs. unfold parse, read_u16. rewrite !read_field_ok by (rewrite ?Hl; lia).
  rewrite !byte_at_ok by (rewrite Hl; lia). cbn [mbind outcome_bind].
  destruct (negb _); [by exists None|]. eexists. split; [done|]. intros b [= <-].
  unfold bpb_ok. cbn [reserved_sector_count num_fats root_entry_count fat_size_sectors sectors_per_cluster].
  split_and!; try by apply nth_u8. all: apply (field_bound 2); done.
Qed.

(** *** The boot sector, as the format lays it out: consecutive
    little-endian fields of the given widths. *)
Fixpoint layout_fields (widths : list nat) (s : list Z) : list Z :=
  match widths with
  | [] => []
  | w :: widths => le_decode (take w s) :: layout_fields widths (drop w s)
  end.

(** A jump instruction and the name of the formatter, then the fields of the
    BIOS parameter block up to the size of a FAT. *)
Definition boot_layout (s : list Z) : option BiosParameterBlock :=
  match layout_fields [3; 8; 2; 1; 2; 1; 2; 2; 1; 2]%nat s with
  | [_; _; bytes_per_sector; cluster; reserved; fats; root; _; _; fat_size] =>
      if bytes_per_sector =? 512 then Some (mkBiosParameterBlock reserved fats root fat_size cluster) else None
  | _ => None
  end.

(** [parse] reads the fields where the format has them. *)
Lemma parse_layout s : length s = 512%nat -> parse s = Ok (boot_layout s).
Proof.
  intros Hl. unfold parse, read_u16. rewrite !read_field_ok by (rewrite ?Hl; lia).
  rewrite !byte_at_ok by (rewrite Hl; lia). cbn [mbind outcome_bind].
  do 24 (destruct s as [|? s]; [done|]). unfold boot_layout. cbn [layout_fields take drop nth].
  change (Z.to_nat 11) with 11%nat. change (Z.to_nat 14) with 14%nat. change (Z.to_nat 17) with 17%nat.
  change (Z.to_nat 22) with 22%nat. change (Z.to_nat 2) with 2%nat. cbn [take drop le_decode].
  rewrite !Z.mul_0_r, !Z.add_0_r. unfold SECTOR_SIZE. by destruct (_ =? 512).
Qed.

Lemma div_ceil_spec a n : 0 <= a -> 0 < n -> div_ceil a n = (a + n - 1) / n.
Proof.
  intros Ha Hn. unfold div_ceil. pose proof (Z.div_mod a n ltac:(lia)). pose proof (Z.mod_pos_bound a n Hn).
  destruct (Z.eqb_spec (a mod n) 0); [apply Z.div_unique with (n - 1)|apply Z.div_unique with (a mod n - 1)]; lia.
Qed.

Lemma bpb_sectors b : bpb_ok b ->
  first_root_dir_sector b = Ok (root_start b) /\ root_dir_sector_count b = Ok (root_sectors b) /\
  first_data_sector b = Ok (data_start b) /\
  0 <= root_start b /\ 0 <= root_sectors b <= 4096 /\ data_start b < 2 ^ 25.
Proof.
  intros (H1 & H2 & H3 & H4 & H5). unfold is_u8, is_u16 in *.
  assert (Hm : 0 <= num_fats b * fat_size_sectors b <= 255 * 65535) by nia.
  assert (Hs : 0 <= root_sectors b <= 4096) by (unfold root_sectors; Z.div_mod_to_equations; lia).
  unfold first_data_sector, first_root_dir_sector, root_dir_sector_count, first_fat_sector, mul_w, add_w, DIR_ENTRY_SIZE, SECTOR_SIZE.
  rewrite (proj2 (Z.ltb_lt (num_fats b * fat_size_sectors b) (2 ^ 32))) by lia.
  rewrite (proj2 (Z.ltb_lt (root_entry_count b * 32) (2 ^ 32))) by lia. cbn [mbind outcome_bind].
  rewrite (proj2 (Z.ltb_lt (reserved_sector_count b + _) (2 ^ 32))) by lia. cbn [mbind outcome_bind].
  rewrite div_ceil_spec by lia. replace (root_entry_count b * 32 + 512 - 1) with (root_entry_count b * 32 + 511) by lia.
  fold (root_start b) (root_sectors b). unfold data_start.
  assert (Hr : 0 <= root_start b <= 65535 + 255 * 65535) by (unfold root_start; lia).
  rewrite (proj2 (Z.ltb_lt (root_start b + root_sectors b) (2 ^ 32))) by lia.
  split_and!; try done; lia.
Qed.

Lemma cluster_to_lba_ok b c : bpb_ok b -> 2 <= c < 2 ^ 16 ->
  cluster_to_lba b c = Ok (cluster_lba b c) /\ 0 <= cluster_lba b c /\
  cluster_lba b c + sectors_per_cluster b <= 2 ^ 26.
Proof.
  intros Hb Hc. destruct (bpb_sectors b Hb) as (_ & _ & E & H1 & H2 & H3).
  destruct Hb as (_ & _ & _ & _ & Hs). unfold is_u8 in Hs.
  assert (Hm : 0 <= (c - 2) * sectors_per_cluster b <= 65533 * 255) by nia.
  assert (Hd : 0 <= data_start b) by (unfold data_start; lia).
  unfold cluster_to_lba, sub_w, mul_w, add_w, cluster_lba. rewrite E. cbn [mbind outcome_bind].
  rewrite (proj2 (Z.leb_le 2 c)) by lia. cbn [mbind outcome_bind].
  rewrite (proj2 (Z.ltb_lt ((c - 2) * sectors_per_cluster b) (2 ^ 32))) by lia. cbn [mbind outcome_bind].
  rewrite (proj2 (Z.ltb_lt (data_start b + _) (2 ^ 32))) by lia. split_and!; [done|lia..].
Qed.

(** ** The root directory *)

Lemma land_pow2_zero a k : 0 <= k -> (Z.land a (2 ^ k) =? 0) = negb (Z.testbit a k).
Proof. intros Hk. rewrite <- Z.shiftl_1_l. by apply land_bit_zero. Qed.

Lemma scan_entry_ok name e : length e = 32%nat ->
  scan_entry name e = Ok (if nth 0 e 0 =? DIR_ENTRY_END then BreakSectors
                          else if is_file_named name e then Return (entry_of e) else Continue).
Proof.
  intros Hl. unfold scan_entry, is_file_named, read_u16, read_u32.
  rewrite !byte_at_ok by (rewrite Hl; lia). cbn [mbind outcome_bind].
  destruct (nth 0 e 0 =? DIR_ENTRY_END); [done|]. destruct (nth 0 e 0 =? DIR_ENTRY_FREE); [done|]. cbn [negb andb].
  change ATTR_VOLUME_ID with (2 ^ 3). change ATTR_DIRECTORY with (2 ^ 4).
  rewrite !land_pow2_zero, !negb_involutive by done.
  destruct (nth 11 e 0 =? ATTR_LONG_NAME); [done|]. cbn [orb negb andb].
  destruct (Z.testbit _ 3); [done|]. cbn [negb andb]. destruct (Z.testbit _ 4); [done|]. cbn [negb andb].
  rewrite (proj2 (slice_Some e 0 11 (take 11 e))).
  2: { split_and!; [lia|lia|rewrite Hl; lia|done]. }
  cbn [expect mbind outcome_bind]. destruct (bool_decide _); [|done].
  rewrite !read_field_ok by (rewrite ?Hl; lia). done.
Qed.

(** The search of [dir_find], entry by entry. *)
Lemma dir_find_cons name e es :
  dir_find name (e :: es) = if nth 0 e 0 =? DIR_ENTRY_END then None
    else if is_file_named name e then Some (entry_of e) else dir_find name es.
Proof.
  unfold dir_find. cbn [take_while]. destruct (nth 0 e 0 =? DIR_ENTRY_END); [done|]. cbn [negb List.filter].
  by destruct (is_file_named name e).
Qed.

Lemma scan_entries_ok name es rest : Forall (fun e => length e = 32%nat) es ->
  exists r, scan_entries name es = Ok r /\
    dir_find name (es ++ rest) = match r with BreakSectors => None | Return e => Some e | Continue => dir_find name rest end.
Proof.
  induction 1 as [|e es He _ IH]; [by exists Continue|]. cbn [scan_entries app]. rewrite scan_entry_ok by done.
  cbn [mbind outcome_bind]. rewrite dir_find_cons.
  destruct (nth 0 e 0 =? DIR_ENTRY_END); [by exists BreakSectors|].
  destruct (is_file_named name e); [by eexists|]. done.
Qed.

Lemma chunks_exact_length {A} n (l : list A) : (0 < n)%nat -> Forall (fun c => length c = n) (chunks_exact n l).
Proof.
  intros Hn. unfold chunks_exact. apply Forall_fmap, Forall_forall. intros i Hi%elem_of_seq. cbn.
  rewrite length_take, length_drop. pose proof (Nat.Div0.mul_div_le (length l) n). nia.
Qed.

Section Reads.
Context {D : Type} `{!SectorDisk D}.
Implicit Types (d : D) (b : BiosParameterBlock).

Lemma find_sectors_ok name first n i d :
  disk_ok d -> 0 <= first -> first + Z.of_nat (i + n) <= 2 ^ 28 ->
  exists d', find_sectors name first (seq i n) d =
      Ok (dir_find name (seq i n ≫= fun j => chunks_exact 32 (disk_sector (first + Z.of_nat j))), d') /\ disk_ok d'.
Proof.
  revert i d; induction n as [|n IH]; intros i d Hd Hf Hb; [by exists d|].
  cbn [seq find_sectors]. rewrite bind_cons. specialize (IH (S i)).
  set (tail := seq (S i) n ≫= fun j => chunks_exact 32 (disk_sector (first + Z.of_nat j))) in *.
  destruct (disk_read_ok d (first + Z.of_nat i) Hd ltac:(lia)) as (d1 & E1 & Hd1).
  destruct (scan_entries_ok name (chunks_exact 32 (disk_sector (first + Z.of_nat i))) tail) as (r & Er & Hr);
    [by apply chunks_exact_length; lia|].
  unfold add_w. rewrite (proj2 (Z.ltb_lt (first + Z.of_nat i) (2 ^ 32))) by lia.
  change (Z.to_nat DIR_ENTRY_SIZE) with 32%nat.
  run_m. rewrite E1, Er, Hr. destruct r; [by exists d1| |by exists d1].
  apply IH; [done..|lia].
Qed.

Lemma find_in_root_dir_ok b name d :
  disk_ok d -> bpb_ok b ->
  exists d', find_in_root_dir b name d = Ok (dir_find name (root_entries b), d') /\ disk_ok d'.
Proof.
  intros Hd Hb. destruct (bpb_sectors b Hb) as (E1 & E2 & _ & H1 & H2 & H3).
  unfold find_in_root_dir, mbind, M_bind, lift. rewrite E1, E2. cbn [mbind outcome_bind].
  apply find_sectors_ok; [done..|]. unfold data_start in H3. lia.
Qed.

Lemma next_cluster_ok b c d :
  disk_ok d -> bpb_ok b -> is_u16 c ->
  exists d', next_cluster b c d = Ok (fat_next b c, d') /\ disk_ok d'.
Proof.
  intros Hd Hb Hc. destruct Hb as (H1 & _). unfold is_u16 in *.
  destruct (disk_read_ok d (reserved_sector_count b + 2 * c / 512) Hd) as (d1 & E & Hd1).
  { Z.div_mod_to_equations. lia. }
  exists d1. split; [|done]. destruct (disk_sector_bytes (reserved_sector_count b + 2 * c / 512)) as [Hl _].
  unfold next_cluster, lift, mul_w, add_w, first_fat_sector, SECTOR_SIZE. rewrite (Z.mul_comm c).
  rewrite (proj2 (Z.ltb_lt (2 * c) (2 ^ 32))) by lia. unfold mbind, M_bind, outcome_bind.
  rewrite (proj2 (Z.ltb_lt _ (2 ^ 32))) by (Z.div_mod_to_equations; lia). rewrite E. unfold read_u16.
  rewrite read_field_ok by (rewrite ?Hl; Z.div_mod_to_equations; lia). done.
Qed.

Lemma fat_next_u16 b c c' : is_u16 c -> fat_next b c = Some c' -> is_u16 c'.
Proof.
  intros Hc. unfold fat_next. destruct (_ || _); [done|]. intros [= <-]. unfold fat_entry.
  apply (field_bound 2). apply disk_sector_bytes.
Qed.
End Reads.

(** ** Reading a file *)

Section Read.
Context {D : Type} `{!SectorDisk D}.
Implicit Types (d : D) (b : BiosParameterBlock).

(** The sectors of a cluster, until there is enough. *)
Lemma read_cluster_ok size lba n i acc d :
  disk_ok d -> 0 <= lba -> lba + Z.of_nat (i + n) <= 2 ^ 28 -> Z.of_nat (length acc) < size ->
  let all := acc ++ (seq i n ≫= fun j => disk_sector (lba + Z.of_nat j)) in
  exists d', disk_ok d' /\ read_cluster size lba (seq i n) acc d =
    Ok (if size <=? Z.of_nat (length all) then inr (take (Z.to_nat size) all) else inl all, d').
Proof.
  revert i acc d; induction n as [|n IH]; intros i acc d Hd Hl Hb Hacc all.
  - exists d. split; [done|]. unfold all. cbn [seq]. change ([] ≫= ?f) with (@nil Z). rewrite app_nil_r.
    by rewrite (proj2 (Z.leb_gt _ _) Hacc).
  - unfold all. cbn [seq read_cluster]. rewrite bind_cons.
    set (tail := seq (S i) n ≫= fun j => disk_sector (lba + Z.of_nat j)).
    destruct (disk_read_ok d (lba + Z.of_nat i) Hd ltac:(lia)) as (d1 & E1 & Hd1).
    destruct (disk_sector_bytes (lba + Z.of_nat i)) as [Hlen _].
    set (sector := disk_sector (lba + Z.of_nat i)) in *.
    set (count := Z.min (size - Z.of_nat (length acc)) SECTOR_SIZE).
    assert (Hc : 0 <= count <= 512) by (unfold count, SECTOR_SIZE; lia).
    assert (Hs : slice sector 0 count = Some (take (Z.to_nat count) sector)).
    { apply slice_Some. split_and!; [lia..|]. by rewrite Z.sub_0_r. }
    unfold add_w. rewrite (proj2 (Z.ltb_lt (lba + Z.of_nat i) (2 ^ 32))) by lia.
    unfold sub_w. rewrite (proj2 (Z.leb_le (Z.of_nat (length acc)) size)) by lia.
    fold count. run_m. rewrite E1. fold sector. fold count. rewrite Hs. cbn [expect].
    destruct (Z.leb_spec size (Z.of_nat (length (acc ++ take (Z.to_nat count) sector)))) as [Hdone|Hmore];
      rewrite length_app, length_take in *.
    + exists d1. split; [done|]. rewrite (proj2 (Z.leb_le _ _)) by (rewrite !length_app; unfold count, SECTOR_SIZE in *; lia).
      do 3 f_equal. rewrite take_app_ge by lia. f_equal. rewrite take_app_le by (unfold count, SECTOR_SIZE in *; lia).
      f_equal. unfold count, SECTOR_SIZE in *. lia.
    + assert (Ec : take (Z.to_nat count) sector = sector) by (apply take_ge; unfold count, SECTOR_SIZE in *; lia).
      rewrite Ec. destruct (IH (S i) (acc ++ sector) d1) as (d2 & Hd2 & E2); [done|done|lia|rewrite length_app; unfold count, SECTOR_SIZE in *; lia|].
      exists d2. split; [done|]. rewrite E2. fold tail. by rewrite <- app_assoc, (length_app acc).
Qed.

Lemma length_cluster_bytes b c : length (cluster_bytes b c) = (Z.to_nat (sectors_per_cluster b) * 512)%nat.
Proof.
  unfold cluster_bytes.
  assert (H : forall n i, length (seq i n ≫= fun j => disk_sector (cluster_lba b c + Z.of_nat j)) = (n * 512)%nat); [|apply H].
  induction n as [|n IH]; intros i; [done|]. change (seq i (S n)) with (i :: seq (S i) n).
  destruct (disk_sector_bytes (cluster_lba b c + Z.of_nat i)) as [E _]. rewrite bind_cons, length_app, IH, E. lia.
Qed.

Lemma read_clusters_ok b size n fuel c acc d :
  disk_ok d -> bpb_ok b -> 1 <= sectors_per_cluster b -> is_u16 c -> (n <= fuel)%nat ->
  Z.of_nat (length acc) < size -> size <= Z.of_nat (length acc) + Z.of_nat n * (512 * sectors_per_cluster b) ->
  Forall (fun c => 2 <= c) (clusters b n c) ->
  exists d', disk_ok d' /\ read_clusters fuel b size c acc d =
    Ok (take (Z.to_nat size) (acc ++ (clusters b n c ≫= cluster_bytes b)), d').
Proof.
  intros Hd Hb Hspc. revert fuel c acc d Hd; induction n as [|n IH]; intros fuel c acc d Hd Hc Hf Hacc Hsz Hcl; [lia|].
  destruct fuel as [|fuel]; [lia|]. cbn [clusters] in Hcl |- *. apply Forall_cons in Hcl as [Hc2 Hcl].
  destruct (cluster_to_lba_ok b c Hb) as (El & Hl0 & Hl1); [unfold is_u16 in Hc; lia|].
  destruct (read_cluster_ok size (cluster_lba b c) (Z.to_nat (sectors_per_cluster b)) 0 acc d)
    as (d1 & Hd1 & E1); [done|done|lia|done|]. fold (cluster_bytes b c) in E1.
  destruct (next_cluster_ok b c d1 Hd1 Hb Hc) as (d2 & E2 & Hd2).
  cbn [read_clusters]. rewrite bind_cons. assert (Hlc := length_cluster_bytes b c).
  set (tail := match fat_next b c with Some c' => clusters b n c' | None => [] end ≫= cluster_bytes b).
  run_m. rewrite El, E1. destruct (Z.leb_spec size (Z.of_nat (length (acc ++ cluster_bytes b c)))) as [Hdone|Hmore].
  - exists d1. split; [done|]. rewrite app_assoc. by rewrite (take_app_le (acc ++ cluster_bytes b c)) by lia.
  - rewrite E2. subst tail. rewrite length_app in *. destruct (fat_next b c) as [c'|] eqn:Ec.
    + destruct (IH fuel c' (acc ++ cluster_bytes b c) d2) as (d3 & Hd3 & E3);
        [done|by apply (fat_next_u16 b c)|lia|rewrite length_app; lia|rewrite length_app; lia|done|].
      exists d3. split; [done|]. rewrite E3. by rewrite <- app_assoc.
    + exists d2. split; [done|]. change (([] : list Z) ≫= cluster_bytes b) with (@nil Z). rewrite app_nil_r.
      by rewrite take_ge by (rewrite length_app; lia).
Qed.
End Read.

(** ** Names *)

Lemma assign_upper_spec at_ bytes dst :
  (at_ + length bytes <= length dst)%nat ->
  assign_upper at_ bytes dst = take at_ dst ++ (to_ascii_uppercase <$> bytes) ++ drop (at_ + length bytes) dst.
Proof.
  revert at_ dst; induction bytes as [|b bytes IH]; intros at_ dst Hl; cbn [assign_upper length] in *.
  - rewrite Nat.add_0_r. cbn. by rewrite take_drop.
  - rewrite IH by (rewrite length_insert; lia). rewrite insert_take_drop by lia.
    assert (E1 : length (take at_ dst) = at_) by (rewrite length_take; lia).
    rewrite take_app_ge, E1 by lia. rewrite drop_app_ge, E1 by lia.
    replace (S at_ - at_)%nat with 1%nat by lia. cbn [take fmap list_fmap].
    replace (S at_ + length bytes - at_)%nat with (S (length bytes)) by lia. cbn [drop].
    rewrite <- app_assoc, drop_drop.
    replace (S at_ + length bytes)%nat with (at_ + S (length bytes))%nat by lia. done.
Qed.

Lemma split_once_spec c base ext : c ∉ base -> split_once c (base ++ c :: ext) = Some (base, ext).
Proof.
  induction base as [|b base IH]; intros Hn; cbn [app split_once].
  - by rewrite Z.eqb_refl.
  - rewrite (proj2 (Z.eqb_neq b c)) by set_solver. rewrite IH by set_solver. done.
Qed.

Lemma split_once_none c s : c ∉ s -> split_once c s = None.
Proof.
  induction s as [|b s IH]; intros Hn; [done|]. cbn [split_once].
  rewrite (proj2 (Z.eqb_neq b c)) by set_solver. rewrite IH by set_solver. done.
Qed.

Lemma split_once_upper (s : list Z) : split_once 46 (to_ascii_uppercase <$> s) =
  match split_once 46 s with
  | Some (l, r) => Some (to_ascii_uppercase <$> l, to_ascii_uppercase <$> r)
  | None => None
  end.
Proof.
  induction s as [|b s IH]; [done|]. cbn [fmap list_fmap split_once].
  assert (E : (to_ascii_uppercase b =? 46) = (b =? 46)).
  { unfold to_ascii_uppercase. destruct (Z.leb_spec 97 b), (Z.leb_spec b 122); cbn [andb]; try done.
    rewrite !(proj2 (Z.eqb_neq _ 46)) by lia. done. }
  rewrite E. destruct (b =? 46); [done|]. change (list_fmap Z Z to_ascii_uppercase s) with (to_ascii_uppercase <$> s).
  rewrite IH. by destruct (split_once 46 s) as [[l r]|].
Qed.

Lemma upper_idem b : to_ascii_uppercase (to_ascii_uppercase b) = to_ascii_uppercase b.
Proof.
  unfold to_ascii_uppercase. destruct (Z.leb_spec 97 b), (Z.leb_spec b 122); cbn [andb]; try done;
    destruct (Z.leb_spec 97 b), (Z.leb_spec b 122); cbn [andb]; try lia; try done.
  destruct (Z.leb_spec 97 (b - 32)), (Z.leb_spec (b - 32) 122); cbn [andb]; lia || done.
Qed.

Lemma upper_upper (l : list Z) : to_ascii_uppercase <$> (to_ascii_uppercase <$> l) = to_ascii_uppercase <$> l.
Proof. rewrite <- list_fmap_compose. apply list_fmap_ext. intros i b _. apply upper_idem. Qed.

(** An 8.3 name on disk: eight and three bytes, upper case, padded with
    blanks. *)
Definition fat_name (base ext : list Z) : list Z :=
  (to_ascii_uppercase <$> base) ++ replicate (8 - length base) 32 ++
  (to_ascii_uppercase <$> ext) ++ replicate (3 - length ext) 32.

Lemma fat_name_assigned base ext :
  (length base <= 8)%nat -> (length ext <= 3)%nat ->
  assign_upper 8 ext (assign_upper 0 base (replicate 11 32)) = fat_name base ext.
Proof.
  intros Hb He. unfold fat_name. rewrite (assign_upper_spec 0) by (rewrite length_replicate; lia).
  rewrite take_0, Nat.add_0_l, drop_replicate. cbn [app].
  assert (Hl : length (to_ascii_uppercase <$> base) = length base) by apply length_fmap.
  rewrite (assign_upper_spec 8) by (rewrite length_app, Hl, length_replicate; lia).
  rewrite take_app_ge, drop_app_ge, Hl by (rewrite Hl; lia).
  rewrite take_replicate, drop_replicate, <- app_assoc. f_equal. f_equal; [f_equal; lia|]. f_equal. f_equal. lia.
Qed.

(** the on-disk form of a name.  A name with one dot after 1 to 8 bytes
    and before at most 3 is padded and put in upper case; a longer or empty
    part makes the name unrepresentable; a missing dot is an empty
    extension; and the case of the letters does not matter. *)
Lemma to_fat_83_correct (base ext : list Z) :
  46 ∉ base ->
  to_fat_83 (base ++ 46 :: ext) =
    (if (1 <=? length base)%nat && (length base <=? 8)%nat && (length ext <=? 3)%nat
     then Some (fat_name base ext) else None) /\
  to_fat_83 base = to_fat_83 (base ++ [46]) /\
  to_fat_83 (to_ascii_uppercase <$> (base ++ 46 :: ext)) = to_fat_83 (base ++ 46 :: ext).
Proof.
  assert (Hgen : forall base ext : list Z, 46 ∉ base -> to_fat_83 (base ++ 46 :: ext) =
    if (1 <=? length base)%nat && (length base <=? 8)%nat && (length ext <=? 3)%nat then Some (fat_name base ext) else None).
  { clear. intros base ext Hn. unfold to_fat_83. rewrite split_once_spec by done.
    rewrite !Nat.ltb_antisym. destruct (Nat.eqb_spec (length base) 0) as [E0|E0].
    { rewrite E0. done. }
    rewrite (proj2 (Nat.leb_le 1 (length base))) by lia. cbn [orb andb].
    destruct (Nat.leb_spec (length base) 8) as [Hb|]; [|done]. destruct (Nat.leb_spec (length ext) 3) as [He|]; [|done].
    cbn. by rewrite fat_name_assigned. }
  intros Hn. split; [by apply Hgen|]. split.
  - unfold to_fat_83. by rewrite (split_once_spec 46 base []), split_once_none.
  - unfold to_fat_83. rewrite split_once_upper, split_once_spec by done.
    rewrite !length_fmap. destruct (_ || _) eqn:E; [done|]. apply orb_false_iff in E as [[E0 E8%Nat.ltb_ge]%orb_false_iff E3%Nat.ltb_ge].
    f_equal. rewrite !fat_name_assigned by (rewrite ?length_fmap; done). unfold fat_name.
    by rewrite !length_fmap, !upper_upper.
Qed.

Section Claims.
Context {D : Type} `{!SectorDisk D}.
Implicit Types (d : D) (b : BiosParameterBlock).

(** What is on the disk.  The volume is described by the first sector. *)
Definition disk_bpb : option BiosParameterBlock := boot_layout (disk_sector 0).

Definition disk_lookup (name : list Z) : option (BiosParameterBlock * DirEntry) :=
  n ← to_fat_83 name;
  b ← disk_bpb;
  e ← dir_find n (root_entries b);
  Some (b, e).

(** A file that can be read: there is memory for it, its volume has clusters
    of at least one sector, and its chain has no reserved numbers. *)
Definition readable (fuel : nat) (can_allocate : Z -> bool) b (e : DirEntry) : Prop :=
  can_allocate (file_size e) = true /\
  (file_size e <> 0 -> 1 <= sectors_per_cluster b /\ (clusters_needed b (file_size e) <= fuel)%nat /\
     Forall (fun c => 2 <= c) (clusters b (clusters_needed b (file_size e)) (first_cluster e))).

Lemma dir_find_fields name entries e : Forall (Forall is_u8) entries -> dir_find name entries = Some e ->
  is_u16 (first_cluster e) /\ is_u32 (file_size e).
Proof.
  induction 1 as [|x entries Hx _ IH]; [done|]. rewrite dir_find_cons.
  destruct (_ =? _); [done|]. destruct (is_file_named name x); [|done]. intros [= <-]. cbn.
  split; [by apply (field_bound 2)|by apply (field_bound 4)].
Qed.

Lemma root_entries_bytes b : Forall (Forall is_u8) (root_entries b).
Proof.
  apply Forall_bind, Forall_forall. intros i _. unfold chunks_exact. apply Forall_fmap, Forall_forall. intros j _. cbn.
  apply Forall_take, Forall_drop, disk_sector_bytes.
Qed.

(** The number of clusters covers the size. *)
Lemma clusters_needed_enough b size :
  0 <= size -> 1 <= sectors_per_cluster b ->
  size <= Z.of_nat (clusters_needed b size) * (512 * sectors_per_cluster b).
Proof.
  intros Hs Hc. unfold clusters_needed. rewrite div_ceil_spec by lia.
  set (n := 512 * sectors_per_cluster b). assert (Hn : 0 < n) by lia.
  pose proof (Z.div_mod (size + n - 1) n ltac:(lia)). pose proof (Z.mod_pos_bound (size + n - 1) n Hn).
  rewrite Z2Nat.id by (apply Z.div_pos; lia). lia.
Qed.

Lemma read_file_ok fuel can name d :
  disk_ok d -> (forall b e, disk_lookup name = Some (b, e) -> readable fuel can b e) ->
  exists d', read_file fuel can name d =
    Ok (match disk_lookup name with Some (b, e) => Some (file_contents b e) | None => None end, d') /\ disk_ok d'.
Proof.
  intros Hd Hok. unfold read_file, disk_lookup in *. destruct (to_fat_83 name) as [n|]; [|by exists d].
  destruct (disk_read_ok d 0 Hd ltac:(lia)) as (d1 & E1 & Hd1).
  destruct (disk_sector_bytes 0) as [Hlen Hby]. destruct (parse_ok _ Hlen Hby) as (r & Er & Hb).
  assert (El := parse_layout _ Hlen). rewrite Er in El. injection El as El. unfold disk_bpb in *. rewrite <- El in *.
  cbn [mbind option_bind] in *. run_m. rewrite E1, Er.
  destruct r as [b|]; [|by exists d1]. cbn [mbind option_bind] in *. specialize (Hb b eq_refl).
  destruct (find_in_root_dir_ok b n d1 Hd1 Hb) as (d2 & E2 & Hd2). rewrite E2.
  destruct (dir_find n (root_entries b)) as [e|] eqn:Ee; [|by exists d2].
  cbn [option_bind]. destruct (Hok b e eq_refl) as [Hal Hr]. rewrite Hal. cbn [assert_].
  destruct (Z.eqb_spec (file_size e) 0) as [E0|E0].
  { exists d2. split; [|done]. unfold file_contents. by rewrite E0. }
  destruct (Hr E0) as (Hspc & Hf & Hcl). destruct (dir_find_fields n _ e (root_entries_bytes b) Ee) as [Hc Hs].
  unfold is_u32 in Hs.
  destruct (read_clusters_ok b (file_size e) (clusters_needed b (file_size e)) fuel (first_cluster e) [] d2)
    as (d3 & Hd3 & E3); try done; [cbn; lia|cbn [length]; by apply clusters_needed_enough; lia|].
  exists d3. split; [|done]. unfold mbind, M_bind in E3. by rewrite E3.
Qed.

(** C23: [read_file] returns the file.  On a working disk, for every name,
    [read_file] terminates without a panic; the result is [None] exactly if
    the name is not an 8.3 name, the disk is no FAT16 volume or the root
    directory has no such file, and otherwise the bytes of the file's
    cluster chain, cut at its size. *)
Theorem read_file_correct fuel can name d :
  disk_ok d -> (forall b e, disk_lookup name = Some (b, e) -> readable fuel can b e) ->
  exists d', read_file fuel can name d =
    Ok (match disk_lookup name with Some (b, e) => Some (file_contents b e) | None => None end, d') /\ disk_ok d'.
Proof. apply read_file_ok. Qed.

(** What [read_file] does up to the cluster loop. *)
Lemma read_file_found fuel can name b e d :
  disk_ok d -> disk_lookup name = Some (b, e) -> can (file_size e) = true -> file_size e <> 0 ->
  exists d', disk_ok d' /\ bpb_ok b /\ is_u16 (first_cluster e) /\ 0 < file_size e /\ read_file fuel can name d =
    (data ← read_clusters fuel b (file_size e) (first_cluster e) []; mret (Some data)) d'.
Proof.
  intros Hd. unfold read_file, disk_lookup, disk_bpb. destruct (to_fat_83 name) as [n|]; [|done].
  destruct (disk_read_ok d 0 Hd ltac:(lia)) as (d1 & E1 & Hd1).
  destruct (disk_sector_bytes 0) as [Hlen Hby]. destruct (parse_ok _ Hlen Hby) as (r & Er & Hb).
  assert (El := parse_layout _ Hlen). rewrite Er in El. injection El as El. rewrite <- El.
  cbn [mbind option_bind]. destruct r as [b'|]; [|done]. cbn [mbind option_bind]. specialize (Hb b' eq_refl).
  destruct (find_in_root_dir_ok b' n d1 Hd1 Hb) as (d2 & E2 & Hd2).
  destruct (dir_find n (root_entries b')) as [e'|] eqn:Ee; [|done]. cbn [option_bind].
  intros [= -> ->] Hal E0. destruct (dir_find_fields n _ e (root_entries_bytes b) Ee) as [Hc Hs].
  exists d2. unfold is_u32 in Hs. split_and!; [done..|lia|].
  run_m. rewrite E1, Er, E2, Hal. cbn [assert_]. by rewrite (proj2 (Z.eqb_neq _ _) E0).
Qed.

(** C37: a directory entry whose first cluster is 0 or 1 and whose size is
    not 0 makes [read_file] panic: the cluster number is subtracted from
    without a check, although a damaged volume is meant not to be a hard
    failure. *)
Theorem read_file_reserved_cluster_panics fuel can name b e d :
  disk_ok d -> disk_lookup name = Some (b, e) -> can (file_size e) = true -> file_size e <> 0 ->
  first_cluster e < 2 -> read_file (S fuel) can name d = Panic "attempt to subtract with overflow".
Proof.
  intros Hd Hl Hc H0 H2. destruct (read_file_found (S fuel) can name b e d Hd Hl Hc H0) as (d' & _ & Hb & _ & _ & ->).
  destruct (bpb_sectors b Hb) as (_ & _ & E & _). cbn [read_clusters]. run_m. unfold cluster_to_lba, mbind, outcome_bind.
  rewrite E. unfold sub_w. by rewrite (proj2 (Z.leb_gt 2 (first_cluster e))) by lia.
Qed.

(** The chain from [c] never reaches an end mark: it stays in a set of
    clusters each of which is linked to one of them. *)
Definition endless_chain b (c : Z) : Prop :=
  exists cs : list Z, c ∈ cs /\ forall x, x ∈ cs -> is_u16 x /\ 2 <= x /\ exists y, y ∈ cs /\ fat_next b x = Some y.

(** C38: on a volume with no sectors per cluster, which [parse] accepts,
    [read_file] does not terminate for a file that is not empty and whose
    chain never reaches an end mark (a cycle of any length): no number of
    rounds of its loop is enough. *)
Theorem read_file_empty_clusters_diverges fuel can name b e d :
  disk_ok d -> disk_lookup name = Some (b, e) -> can (file_size e) = true -> file_size e <> 0 ->
  sectors_per_cluster b = 0 -> endless_chain b (first_cluster e) ->
  read_file fuel can name d = Panic "read_file: out of fuel".
Proof.
  intros Hd Hl Hc H0 Hs (cs & Hin & Hcs). destruct (read_file_found fuel can name b e d Hd Hl Hc H0) as (d' & Hd' & Hb & _ & _ & ->).
  assert (Hloop : forall n c d, c ∈ cs -> disk_ok d -> read_clusters n b (file_size e) c [] d = Panic "read_file: out of fuel").
  { clear Hd' d' Hin. induction n as [|n IH]; intros c d' Hin Hd'; [done|]. cbn [read_clusters].
    destruct (Hcs c Hin) as (Hu & H2 & y & Hy & Hn).
    destruct (cluster_to_lba_ok b c Hb) as (El & _); [unfold is_u16 in Hu; lia|].
    destruct (next_cluster_ok b c d' Hd' Hb Hu) as (d2 & E2 & Hd2).
    run_m. rewrite El, Hs. change (seq 0 (Z.to_nat 0)) with (@nil nat). cbn [read_cluster]. run_m. rewrite E2, Hn. by apply IH. }
  run_m. by rewrite Hloop.
Qed.
End Claims.

(** ** A sample volume *)

Section Sample.
(** A sector with [bytes] at the given offsets. *)
Definition sector_of (fields : list (nat * list Z)) : list Z :=
  foldl (fun s '(off, bytes) => splice s off bytes) (replicate 512 0) fields.

Definition dir_entry (name : list Z) (cluster size : Z) : list Z :=
  name ++ [0x20] ++ replicate 14 0 ++ le_encode 2 cluster ++ le_encode 4 size.

(** One FAT of one sector, a root directory of one sector with the file
    A.TXT, and [spc] sectors to a cluster; clusters 2 and 3 are linked, and
    clusters 4 and 5 are a cycle. *)
Definition sample_volume (spc cluster size : Z) (drive : Drive) (lba : Z) : list Z :=
  if lba =? 0 then sector_of [(0x0B%nat, le_encode 2 512); (0x0D%nat, [spc]); (0x0E%nat, le_encode 2 1); (0x10%nat, [1]);
    (0x11%nat, le_encode 2 16); (0x16%nat, le_encode 2 1)]
  else if lba =? 1 then sector_of [(4%nat, le_encode 2 3 ++ le_encode 2 0xFFFF ++ le_encode 2 5 ++ le_encode 2 4)]
  else if lba =? 2 then sector_of [(0%nat, dir_entry [65; 32; 32; 32; 32; 32; 32; 32; 84; 88; 84] cluster size)]
  else replicate 512 lba.

Definition sample_drive : SimDrive := mkSimDrive (Idle (mkAtaRegisters 0 0 0 0 0)) 0.

Lemma sample_seek : (3 < Pos.to_nat POLL_ATTEMPTS)%nat.
Proof. unfold POLL_ATTEMPTS. lia. Qed.

Definition sample_disk (spc cluster size : Z) : SectorDisk SimDrive :=
  @ata_disk SimDrive (sim_io (sample_volume spc cluster size) 3) (sim_drive (sample_volume spc cluster size) 3 sample_seek).

Lemma sample_drive_ok spc cluster size : @disk_ok _ (sample_disk spc cluster size) sample_drive.
Proof. split; [by eexists|]. cbn. lia. Qed.

(** The name a.txt. *)
Definition a_txt : list Z := [97; 46; 116; 120; 116].

Lemma read_file_correct_witness :
  exists d', @read_file _ (sample_disk 1 2 600) 2 (fun _ => true) a_txt sample_drive =
    Ok (Some (replicate 512 3 ++ replicate 88 4), d').
Proof.
  destruct (@read_file_correct SimDrive (sample_disk 1 2 600) 2 (fun _ => true) a_txt sample_drive) as (d' & E & _).
  - apply sample_drive_ok.
  - assert (El : @disk_lookup _ (sample_disk 1 2 600) a_txt =
      Some (mkBiosParameterBlock 1 1 16 1 1, mkDirEntry 2 600)) by (vm_compute; reflexivity).
    intros b e. rewrite El. intros [= <- <-]. split; [done|]. intros _. cbn [sectors_per_cluster file_size]. split_and!; [lia| |].
    + vm_compute. lia.
    + assert (Hc : @clusters _ (sample_disk 1 2 600) (mkBiosParameterBlock 1 1 16 1 1)
        (clusters_needed (mkBiosParameterBlock 1 1 16 1 1) 600) 2 = [2; 3]) by (vm_compute; reflexivity).
      cbn [first_cluster]. rewrite Hc. repeat constructor; lia.
  - exists d'. rewrite E. vm_compute. reflexivity.
Defined.

Lemma read_file_reserved_cluster_panics_witness :
  @read_file _ (sample_disk 1 0 600) 2 (fun _ => true) a_txt sample_drive = Panic "attempt to subtract with overflow".
Proof.
  apply (@read_file_reserved_cluster_panics SimDrive (sample_disk 1 0 600) 1 (fun _ => true) a_txt
    (mkBiosParameterBlock 1 1 16 1 1) (mkDirEntry 0 600)).
  - apply sample_drive_ok.
  - vm_compute. reflexivity.
  - reflexivity.
  - cbn. lia.
  - cbn. lia.
Defined.

Lemma read_file_empty_clusters_diverges_witness :
  @read_file _ (sample_disk 0 4 600) 1000 (fun _ => true) a_txt sample_drive = Panic "read_file: out of fuel".
Proof.
  apply (@read_file_empty_clusters_diverges SimDrive (sample_disk 0 4 600) 1000 (fun _ => true) a_txt
    (mkBiosParameterBlock 1 1 16 1 0) (mkDirEntry 4 600)).
  - apply sample_drive_ok.
  - vm_compute. reflexivity.
  - reflexivity.
  - cbn. lia.
  - reflexivity.
  - exists [4; 5]. split; [left|]. intros x [->|[->|?%not_elem_of_nil]%elem_of_cons]%elem_of_cons; [| |done].
    + split; [unfold is_u16; lia|]. split; [lia|]. exists 5. split; [right; left|]. vm_compute. reflexivity.
    + split; [unfold is_u16; lia|]. split; [lia|]. exists 4. split; [left|]. vm_compute. reflexivity.
Defined.

Lemma to_fat_83_correct_witness : to_fat_83 a_txt = Some [65; 32; 32; 32; 32; 32; 32; 32; 84; 88; 84].
Proof. apply (to_fat_83_correct [97] [116; 120; 116]). set_solver. Defined.
End Sample.
