(* ===== verification/Vga.v ===== *)
(** * The text console (src/vga_buffer.rs)

    The writer behind [println!]: 25 rows of 80 cells, of which the last is
    written to and the others scroll.  A terminal that keeps every finished
    line is the specification; the screen shows its last lines. *)

From S2P Require Import Prelude.

Inductive Color := Black | Blue | Green | Cyan | Red | Magenta | Brown | LightGray | DarkGray | LightBlue
  | LightGreen | LightCyan | LightRed | Pink | Yellow | White.

(** [color as u8]. *)
Definition color_u8 (c : Color) : Z :=
  match c with
  | Black => 0 | Blue => 1 | Green => 2 | Cyan => 3 | Red => 4 | Magenta => 5 | Brown => 6 | LightGray => 7
  | DarkGray => 8 | LightBlue => 9 | LightGreen => 10 | LightCyan => 11 | LightRed => 12 | Pink => 13
  | Yellow => 14 | White => 15
  end.

Definition ColorCode : Type := Z.

Definition color_code_new (foreground background : Color) : ColorCode :=
  Z.lor (Z.shiftl (color_u8 background) 4 mod 2 ^ 8) (color_u8 foreground).

Record ScreenChar := mkScreenChar { ascii_character : Z; sc_color_code : ColorCode }.

Definition BUFFER_HEIGHT : nat := 25.
Definition BUFFER_WIDTH : nat := 80.

(** [Buffer::chars], row by row. *)
Definition Buffer : Type := list (list ScreenChar).

Record Writer := mkWriter { column_position : nat; color_code : ColorCode; buffer : Buffer }.

(** [self.buffer.chars[row][col].read()] and [write]. *)
Definition read_cell (b : list (list ScreenChar)) (row col : nat) : outcome ScreenChar :=
  r ← expect (b !! row) "index out of bounds";
  expect (r !! col) "index out of bounds".

Definition write_cell (b : list (list ScreenChar)) (row col : nat) (c : ScreenChar) : outcome (list (list ScreenChar)) :=
  r ← expect (b !! row) "index out of bounds";
  _ ← expect (r !! col) "index out of bounds";
  Ok (<[row := <[col := c]> r]> b).

Definition blank_cell (w : Writer) : ScreenChar := mkScreenChar 32 (color_code w).

Definition clear_row (row : nat) (w : Writer) : outcome Writer :=
  b ← foldM (fun col b => write_cell b row col (blank_cell w)) (seq 0 BUFFER_WIDTH) (buffer w);
  Ok (mkWriter (column_position w) (color_code w) b).

Definition new_line (w : Writer) : outcome Writer :=
  b ← foldM (fun row b => foldM (fun col b =>
        character ← read_cell b row col;
        write_cell b (row - 1) col character) (seq 0 BUFFER_WIDTH) b)
      (seq 1 (BUFFER_HEIGHT - 1)) (buffer w);
  w' ← clear_row (BUFFER_HEIGHT - 1) (mkWriter (column_position w) (color_code w) b);
  Ok (mkWriter 0 (color_code w') (buffer w')).

Definition write_byte (byte : Z) (w : Writer) : outcome Writer :=
  if byte =? 10 then new_line w
  else if byte =? 0x08 then
    if (0 <? column_position w)%nat then
      let col := (column_position w - 1)%nat in
      b ← write_cell (buffer w) (BUFFER_HEIGHT - 1) col (blank_cell w);
      Ok (mkWriter col (color_code w) b)
    else Ok w
  else
    w1 ← (if (BUFFER_WIDTH <=? column_position w)%nat then new_line w else Ok w);
    let col := column_position w1 in
    b ← write_cell (buffer w1) (BUFFER_HEIGHT - 1) col (mkScreenChar byte (color_code w1));
    Ok (mkWriter (col + 1) (color_code w1) b).

(** [write_string] and [write_str]; a [&str] is its characters. *)
Definition printable (c : Z) : bool := ((32 <=? c) && (c <=? 126)) || (c =? 10) || (c =? 8).

Definition write_string (s : list Z) (w : Writer) : outcome Writer :=
  foldM (fun c w => write_byte (if printable c then c else 0xfe) w) s w.

(** The [WRITER] static: its lock, and the interrupt flag [_print] saves. *)
Record Console := mkConsole { writer : Writer; writer_locked : bool; console_interrupts : bool }.

Definition set_console_interrupts (b : bool) (c : Console) : Console := mkConsole (writer c) (writer_locked c) b.

(** [WRITER.lock()]; the guard is dropped with the new writer. *)
Definition lock_writer : M Console Writer := fun c =>
  if writer_locked c then Panic "deadlock: WRITER is locked"
  else Ok (writer c, mkConsole (writer c) true (console_interrupts c)).
Definition unlock_writer (w : Writer) : M Console unit := modify (fun c => mkConsole w false (console_interrupts c)).

(** [_print] with the pieces [format_args!] is made of. *)
Definition _print (pieces : list (list Z)) : M Console unit :=
  saved ← gets console_interrupts;
  _ ← modify (set_console_interrupts false);
  w ← lock_writer;
  w' ← lift (foldM write_string pieces w);
  _ ← unlock_writer w';
  modify (set_console_interrupts saved).

(** ** The screen *)

Definition screen_ok (b : list (list ScreenChar)) : Prop :=
  length b = BUFFER_HEIGHT /\ Forall (fun r : list ScreenChar => length r = BUFFER_WIDTH) b.

Lemma screen_row b i : screen_ok b -> (i < BUFFER_HEIGHT)%nat ->
  exists r : list ScreenChar, b !! i = Some r /\ length r = BUFFER_WIDTH.
Proof.
  intros [Hl Hr] Hi. destruct (lookup_lt_is_Some_2 b i) as [r Hrow]; [by rewrite Hl|]. exists r. split; [done|].
  by apply (Forall_lookup_1 _ _ _ _ Hr Hrow).
Qed.

Lemma write_cell_ok b row col c (r : list ScreenChar) :
  b !! row = Some r -> (col < length r)%nat -> write_cell b row col c = Ok (<[row := <[col := c]> r]> b).
Proof.
  intros Hr Hc. unfold write_cell. rewrite Hr. cbn [expect mbind outcome_bind].
  by destruct (lookup_lt_is_Some_2 r col Hc) as [x ->].
Qed.

Lemma insert_middle {A} (l k : list A) i x : (i < length k)%nat -> (i < length l)%nat -> l !! i = Some x ->
  <[i := x]> (take i l ++ drop i k) = take (S i) l ++ drop (S i) k.
Proof.
  intros Hk Hl Hx. rewrite (take_S_r l i x Hx). rewrite insert_app_r_alt by (rewrite length_take; lia).
  rewrite length_take. replace (i - i `min` length l)%nat with 0%nat by lia.
  destruct (lookup_lt_is_Some_2 k i Hk) as [y Hy]. rewrite (drop_S k y i Hy). cbn. by rewrite <- app_assoc.
Qed.

(** One row copied into another, column by column. *)
Lemma copy_cols b0 row dst (src old : list ScreenChar) n i :
  row <> dst -> b0 !! row = Some src -> b0 !! dst = Some old -> length src = length old -> (i + n <= length src)%nat ->
  foldM (fun col b => character ← read_cell b row col; write_cell b dst col character) (seq i n)
    (<[dst := take i src ++ drop i old]> b0) = Ok (<[dst := take (i + n) src ++ drop (i + n) old]> b0).
Proof.
  intros Hne Hrow Hdst Hlen. revert i; induction n as [|n IH]; intros i Hb.
  - cbn [seq foldM]. by rewrite Nat.add_0_r.
  - cbn [seq foldM]. destruct (lookup_lt_is_Some_2 src i) as [x Hx]; [lia|].
    unfold read_cell. rewrite list_lookup_insert_ne, Hrow by done. cbn [expect mbind outcome_bind]. rewrite Hx.
    cbn [expect mbind outcome_bind].
    rewrite (write_cell_ok _ _ _ _ (take i src ++ drop i old)).
    2: { apply list_lookup_insert_eq. by eapply lookup_lt_Some. }
    2: { rewrite length_app, length_take, length_drop. lia. }
    cbn [mbind outcome_bind]. rewrite list_insert_insert_eq, insert_middle by (done || lia).
    rewrite IH by lia. by rewrite Nat.add_succ_r.
Qed.

Lemma copy_row b row dst (src old : list ScreenChar) :
  row <> dst -> b !! row = Some src -> b !! dst = Some old -> length src = BUFFER_WIDTH -> length old = BUFFER_WIDTH ->
  foldM (fun col b => character ← read_cell b row col; write_cell b dst col character) (seq 0 BUFFER_WIDTH) b
    = Ok (<[dst := src]> b).
Proof.
  intros Hne Hrow Hdst Hs Ho. pose proof (copy_cols b row dst src old BUFFER_WIDTH 0 Hne Hrow Hdst) as E.
  rewrite take_0, drop_0, list_insert_id in E by done. cbn [app Nat.add] in E. rewrite E by lia.
  by rewrite take_ge, drop_ge, app_nil_r by lia.
Qed.

(** The rows move up by one. *)
Lemma scroll_rows (b0 : list (list ScreenChar)) n i :
  screen_ok b0 -> (S i + n <= BUFFER_HEIGHT)%nat ->
  foldM (fun row b => foldM (fun col b => character ← read_cell b row col; write_cell b (row - 1) col character)
      (seq 0 BUFFER_WIDTH) b) (seq (S i) n) (take i (tail b0) ++ drop i b0)
    = Ok (take (i + n) (tail b0) ++ drop (i + n) b0).
Proof.
  intros Hok. destruct Hok as [Hl Hr] eqn:Eok. clear Eok. revert i; induction n as [|n IH]; intros i Hb.
  - cbn [seq foldM]. by rewrite Nat.add_0_r.
  - cbn [seq foldM]. destruct (screen_row b0 (S i) (conj Hl Hr)) as (src & Hsrc & Ls); [lia|].
    destruct (screen_row b0 i (conj Hl Hr)) as (old & Hold & Lo); [lia|].
    assert (Ht : tail b0 !! i = Some src) by (by destruct b0).
    assert (Hlt : length (tail b0) = (BUFFER_HEIGHT - 1)%nat) by (destruct b0; cbn in *; unfold BUFFER_HEIGHT in *; lia).
    assert (Hti : length (take i (tail b0)) = i) by (rewrite length_take; lia).
    rewrite (copy_row _ (S i) (S i - 1) src old); [|lia|..|done|done].
    + cbn [mbind outcome_bind]. replace (S i - 1)%nat with i by lia.
      rewrite insert_middle by (done || lia). rewrite IH by lia. by rewrite Nat.add_succ_r.
    + rewrite lookup_app_r by lia. rewrite Hti, lookup_drop. rewrite <- Hsrc. f_equal. lia.
    + rewrite lookup_app_r by lia. rewrite Hti, lookup_drop. rewrite <- Hold. f_equal. lia.
Qed.

Lemma fill_cols b0 row c (old : list ScreenChar) n i :
  b0 !! row = Some old -> (i + n <= length old)%nat ->
  foldM (fun col b => write_cell b row col c) (seq i n) (<[row := replicate i c ++ drop i old]> b0)
    = Ok (<[row := replicate (i + n) c ++ drop (i + n) old]> b0).
Proof.
  intros Hrow. revert i; induction n as [|n IH]; intros i Hb.
  - cbn [seq foldM]. by rewrite Nat.add_0_r.
  - cbn [seq foldM]. rewrite (write_cell_ok _ _ _ _ (replicate i c ++ drop i old)).
    2: { apply list_lookup_insert_eq. by eapply lookup_lt_Some. }
    2: { rewrite length_app, length_replicate, length_drop. lia. }
    cbn [mbind outcome_bind]. rewrite list_insert_insert_eq.
    rewrite insert_app_r_alt by (rewrite length_replicate; lia). rewrite length_replicate, Nat.sub_diag.
    destruct (lookup_lt_is_Some_2 old i) as [y Hy]; [lia|]. rewrite (drop_S old y i Hy).
    change (<[0%nat := c]> (y :: drop (S i) old)) with (c :: drop (S i) old).
    assert (E : replicate i c ++ c :: drop (S i) old = replicate (S i) c ++ drop (S i) old)
      by (rewrite replicate_S_end, <- app_assoc; done).
    rewrite E, IH by lia. by rewrite Nat.add_succ_r.
Qed.

(** The last row blanked. *)
Lemma clear_row_ok row w : screen_ok (buffer w) -> (row < BUFFER_HEIGHT)%nat ->
  clear_row row w = Ok (mkWriter (column_position w) (color_code w)
    (<[row := replicate BUFFER_WIDTH (blank_cell w)]> (buffer w))).
Proof.
  intros Hok Hr. destruct (screen_row _ row Hok Hr) as (old & Hold & Lo). unfold clear_row.
  pose proof (fill_cols (buffer w) row (blank_cell w) old BUFFER_WIDTH 0 Hold) as E.
  cbn [replicate app Nat.add] in E. rewrite drop_0, list_insert_id in E by done. rewrite E by lia.
  cbn [mbind outcome_bind]. by rewrite drop_ge, app_nil_r by lia.
Qed.

Lemma screen_ok_rotate b (r : list ScreenChar) : screen_ok b -> length r = BUFFER_WIDTH -> screen_ok (tail b ++ [r]).
Proof.
  intros [Hl Hr] Lr. destruct b as [|x b]; [done|]. cbn [tail length] in *. split.
  - rewrite length_app. cbn [length]. lia.
  - apply Forall_cons in Hr as [_ Hr]. apply Forall_app. split; [done|]. by repeat constructor.
Qed.

Lemma new_line_ok w : screen_ok (buffer w) ->
  new_line w = Ok (mkWriter 0 (color_code w) (tail (buffer w) ++ [replicate BUFFER_WIDTH (blank_cell w)])).
Proof.
  intros Hok. unfold new_line. pose proof (scroll_rows (buffer w) (BUFFER_HEIGHT - 1) 0 Hok) as E.
  rewrite take_0, drop_0 in E. cbn [app] in E. rewrite E by (unfold BUFFER_HEIGHT; lia). cbn [mbind outcome_bind Nat.add].
  destruct (screen_row (buffer w) (BUFFER_HEIGHT - 1) Hok) as (l & Hlast & Ll); [unfold BUFFER_HEIGHT; lia|].
  destruct Hok as [Hl Hr].
  assert (Hd : drop (BUFFER_HEIGHT - 1) (buffer w) = [l]).
  { rewrite (drop_S _ l _ Hlast), drop_ge; [done|]. rewrite Hl. unfold BUFFER_HEIGHT. lia. }
  assert (Hlt : length (tail (buffer w)) = (BUFFER_HEIGHT - 1)%nat).
  { destruct (buffer w); cbn in *; unfold BUFFER_HEIGHT in *; lia. }
  rewrite Hd, take_ge by lia. rewrite clear_row_ok; cbn [buffer column_position color_code blank_cell].
  - cbn [mbind outcome_bind color_code buffer]. do 2 f_equal.
    unfold Buffer. rewrite insert_app_r_alt by lia. rewrite Hlt, Nat.sub_diag. done.
  - by apply screen_ok_rotate.
  - unfold BUFFER_HEIGHT. lia.
Qed.

(** ** The specification: a terminal that keeps every line *)

Record Terminal := mkTerminal { lines : list (list ScreenChar); line : list ScreenChar }.

(** A line on the screen. *)
Definition padded (blank : ScreenChar) (l : list ScreenChar) : list ScreenChar :=
  l ++ replicate (BUFFER_WIDTH - length l) blank.

Definition type_byte (code : ColorCode) (byte : Z) (t : Terminal) : Terminal :=
  let blank := mkScreenChar 32 code in
  if byte =? 10 then mkTerminal (lines t ++ [padded blank (line t)]) []
  else if byte =? 8 then mkTerminal (lines t) (take (length (line t) - 1) (line t))
  else if (length (line t) =? BUFFER_WIDTH)%nat then mkTerminal (lines t ++ [line t]) [mkScreenChar byte code]
  else mkTerminal (lines t) (line t ++ [mkScreenChar byte code]).

Definition type_bytes (code : ColorCode) (bytes : list Z) (t : Terminal) : Terminal :=
  foldl (fun t b => type_byte code b t) t bytes.

(** The screen shows the last 24 finished lines and the line being
    written. *)
Definition shows (w : Writer) (t : Terminal) : Prop :=
  (length (line t) <= BUFFER_WIDTH)%nat /\ column_position w = length (line t) /\
  Forall (fun r : list ScreenChar => length r = BUFFER_WIDTH) (lines t) /\ (BUFFER_HEIGHT - 1 <= length (lines t))%nat /\
  buffer w = drop (length (lines t) - (BUFFER_HEIGHT - 1)) (lines t) ++ [padded (blank_cell w) (line t)].

Lemma length_padded c l : (length l <= BUFFER_WIDTH)%nat -> length (padded c l) = BUFFER_WIDTH.
Proof. intros Hl. unfold padded. rewrite length_app, length_replicate. lia. Qed.

Lemma shows_screen_ok w t : shows w t -> screen_ok (buffer w).
Proof.
  intros (Hl & _ & Hr & Hh & ->). split.
  - rewrite length_app, length_drop. cbn [length]. unfold BUFFER_HEIGHT in *. lia.
  - apply Forall_app. split; [by apply Forall_drop|]. constructor; [by apply length_padded|constructor].
Qed.

Lemma padded_snoc c l x : (length l < BUFFER_WIDTH)%nat -> <[length l := x]> (padded c l) = padded c (l ++ [x]).
Proof.
  intros Hl. unfold padded. rewrite insert_app_r_alt by lia. rewrite Nat.sub_diag, length_app. cbn [length].
  replace (BUFFER_WIDTH - length l)%nat with (S (BUFFER_WIDTH - (length l + 1))) by lia. cbn. by rewrite <- app_assoc.
Qed.

Lemma padded_erase c l : (0 < length l)%nat ->
  (length l <= BUFFER_WIDTH)%nat -> <[(length l - 1)%nat := c]> (padded c l) = padded c (take (length l - 1) l).
Proof.
  intros H0 Hl. destruct (exists_last (l := l)) as (l' & x & ->); [intros ->; cbn in H0; lia|].
  rewrite length_app in *. cbn [length] in *. replace (length l' + 1 - 1)%nat with (length l') by lia.
  rewrite take_app_length. unfold padded. rewrite <- app_assoc, insert_app_r_alt by lia. rewrite Nat.sub_diag, length_app.
  cbn [length app]. change (<[0%nat := c]> (x :: replicate (BUFFER_WIDTH - (length l' + 1)) c))
    with (replicate (S (BUFFER_WIDTH - (length l' + 1))) c).
  do 2 f_equal. lia.
Qed.

(** Scrolling adds a finished line. *)
Lemma scroll_lines (ls : list (list ScreenChar)) fin r :
  (BUFFER_HEIGHT - 1 <= length ls)%nat ->
  tail (drop (length ls - (BUFFER_HEIGHT - 1)) ls ++ [fin]) ++ [r] =
  drop (length (ls ++ [fin]) - (BUFFER_HEIGHT - 1)) (ls ++ [fin]) ++ [r].
Proof.
  intros Hl. set (k := (length ls - (BUFFER_HEIGHT - 1))%nat). rewrite length_app. cbn [length].
  replace (length ls + 1 - (BUFFER_HEIGHT - 1))%nat with (S k) by (unfold k; lia).
  rewrite (drop_app_le ls [fin] (S k)) by (unfold k, BUFFER_HEIGHT in *; lia).
  destruct (lookup_lt_is_Some_2 ls k) as [x Hx]; [unfold k, BUFFER_HEIGHT in *; lia|].
  by rewrite (drop_S ls x k Hx).
Qed.

(** A cell of the last row written. *)
Lemma write_last (A : list (list ScreenChar)) row col c :
  length A = (BUFFER_HEIGHT - 1)%nat -> (col < length row)%nat ->
  write_cell (A ++ [row]) (BUFFER_HEIGHT - 1) col c = Ok (A ++ [<[col := c]> row]).
Proof.
  intros HA Hc. rewrite (write_cell_ok _ _ _ _ row); [| |done].
  - f_equal. rewrite insert_app_r_alt by lia. by rewrite HA, Nat.sub_diag.
  - rewrite lookup_app_r by lia. by rewrite HA, Nat.sub_diag.
Qed.

Lemma shows_new_line w t : shows w t ->
  exists w', new_line w = Ok w' /\ color_code w' = color_code w /\
    shows w' (mkTerminal (lines t ++ [padded (blank_cell w) (line t)]) []).
Proof.
  intros Hs. assert (Hok := shows_screen_ok w t Hs). destruct Hs as (Hl & Hc & Hr & Hh & Hb).
  eexists. split; [by apply new_line_ok|]. split; [done|]. split_and!; cbn [lines line length column_position buffer].
  - unfold BUFFER_WIDTH. lia.
  - done.
  - apply Forall_app. split; [done|]. constructor; [by apply length_padded|constructor].
  - rewrite length_app. lia.
  - rewrite Hb, scroll_lines by done. done.
Qed.

Lemma shows_type w t byte : shows w t -> (length (line t) < BUFFER_WIDTH)%nat ->
  exists b, write_cell (buffer w) (BUFFER_HEIGHT - 1) (column_position w) (mkScreenChar byte (color_code w)) = Ok b /\
    shows (mkWriter (column_position w + 1) (color_code w) b)
      (mkTerminal (lines t) (line t ++ [mkScreenChar byte (color_code w)])).
Proof.
  intros (Hl & Hc & Hr & Hh & Hb) Hlt. rewrite Hb, Hc. eexists. split.
  - apply write_last; [rewrite length_drop; lia|by rewrite length_padded].
  - split_and!; cbn [lines line column_position buffer]; rewrite ?length_app; cbn [length]; [lia|lia|done|done|].
    by rewrite padded_snoc.
Qed.

Lemma write_byte_shows w t byte : shows w t ->
  exists w', write_byte byte w = Ok w' /\ color_code w' = color_code w /\ shows w' (type_byte (color_code w) byte t).
Proof.
  intros Hs. unfold write_byte, type_byte. destruct (byte =? 10); [by apply shows_new_line|].
  destruct (byte =? 8).
  - assert (Hs' := Hs). destruct Hs' as (Hl & Hc & Hr & Hh & Hb). rewrite Hc.
    destruct (Nat.ltb_spec 0 (length (line t))) as [H0|H0].
    + rewrite Hb, write_last by (rewrite ?length_drop, ?length_padded; lia). cbn [mbind outcome_bind].
      eexists. split; [done|]. split; [done|]. split_and!; cbn [lines line column_position buffer]; rewrite ?length_take; [lia|lia|done|done|].
      by rewrite padded_erase.
    + exists w. split; [done|]. split; [done|]. by destruct t as [ls [|]]; cbn in *; [|lia].
  - assert (Hs' := Hs). destruct Hs' as (Hl & Hc & _). rewrite Hc.
    destruct (Nat.eqb_spec (length (line t)) BUFFER_WIDTH) as [E|E].
    + rewrite (proj2 (Nat.leb_le _ _)) by lia. destruct (shows_new_line w t Hs) as (w1 & E1 & Ec & Hs1).
      assert (Hp : padded (blank_cell w) (line t) = line t) by (unfold padded; rewrite E, Nat.sub_diag; apply app_nil_r).
      rewrite Hp in Hs1. rewrite E1. cbn [mbind outcome_bind].
      destruct (shows_type w1 _ byte Hs1) as (b & Eb & Hs2); [cbn; unfold BUFFER_WIDTH; lia|].
      rewrite Eb. cbn [mbind outcome_bind]. eexists. split; [done|]. cbn [color_code]. split; [done|]. by rewrite <- Ec.
    + rewrite (proj2 (Nat.leb_gt _ _)) by lia. cbn [mbind outcome_bind].
      destruct (shows_type w t byte Hs) as (b & Eb & Hs2); [lia|]. rewrite Eb. cbn [mbind outcome_bind].
      eexists. split; [done|]. done.
Qed.

(** What reaches the screen of a character. *)
Definition shown (c : Z) : Z := if printable c then c else 0xfe.

Lemma write_string_shows s w t : shows w t ->
  exists w', write_string s w = Ok w' /\ color_code w' = color_code w /\
    shows w' (type_bytes (color_code w) (shown <$> s) t).
Proof.
  revert w t; induction s as [|c s IH]; intros w t Hs; [by exists w|].
  destruct (write_byte_shows w t (shown c) Hs) as (w1 & E1 & Ec & Hs1).
  destruct (IH w1 _ Hs1) as (w2 & E2 & Ec2 & Hs2). exists w2. unfold write_string in *. cbn [foldM].
  change (if printable c then c else 254) with (shown c). rewrite E1. cbn [mbind outcome_bind].
  rewrite E2, Ec2, Ec in *. done.
Qed.

Lemma type_bytes_app code bs bs' t : type_bytes code (bs ++ bs') t = type_bytes code bs' (type_bytes code bs t).
Proof. apply foldl_app. Qed.

Lemma write_pieces_shows pieces w t : shows w t ->
  exists w', foldM write_string pieces w = Ok w' /\ color_code w' = color_code w /\
    shows w' (type_bytes (color_code w) (shown <$> concat pieces) t).
Proof.
  revert w t; induction pieces as [|s pieces IH]; intros w t Hs; [by exists w|].
  destruct (write_string_shows s w t Hs) as (w1 & E1 & Ec & Hs1).
  destruct (IH w1 _ Hs1) as (w2 & E2 & Ec2 & Hs2). exists w2. cbn [foldM concat]. rewrite E1. cbn [mbind outcome_bind].
  rewrite fmap_app, type_bytes_app. rewrite E2, Ec2, Ec in *. done.
Qed.

Lemma console_print_ok pieces c w' : writer_locked c = false -> foldM write_string pieces (writer c) = Ok w' ->
  _print pieces c = Ok (tt, mkConsole w' false (console_interrupts c)).
Proof.
  destruct c as [w l i]. cbn [writer_locked writer console_interrupts]. intros -> E.
  unfold _print, lock_writer, unlock_writer. run_m. cbn [console_interrupts set_console_interrupts writer writer_locked].
  by rewrite E.
Qed.

(** C24: [print!] implements a terminal.  On a screen that shows a terminal,
    printing any text succeeds, releases the lock and leaves interrupts as
    they were, and the screen then shows the terminal after the same text:
    the last 24 finished lines and the current one, with every character
    that cannot be displayed replaced by a box. *)
Theorem print_refines_terminal pieces c t :
  shows (writer c) t -> writer_locked c = false ->
  exists w', _print pieces c = Ok (tt, mkConsole w' false (console_interrupts c)) /\
    shows w' (type_bytes (color_code (writer c)) (shown <$> concat pieces) t).
Proof.
  intros Hs Hl. destruct (write_pieces_shows pieces (writer c) t Hs) as (w' & E & _ & Hs').
  exists w'. split; [|done]. by apply console_print_ok.
Qed.

(** A writer as the kernel finds it: any text on the screen, any color. *)
Definition writer_ok (w : Writer) : Prop := screen_ok (buffer w) /\ (column_position w <= BUFFER_WIDTH)%nat.

Lemma write_last_ok w col c : screen_ok (buffer w) -> (col < BUFFER_WIDTH)%nat ->
  exists b, write_cell (buffer w) (BUFFER_HEIGHT - 1) col c = Ok b /\ screen_ok b.
Proof.
  intros Hok Hc. destruct (screen_row _ (BUFFER_HEIGHT - 1) Hok) as (r & Hr & Lr); [unfold BUFFER_HEIGHT; lia|].
  eexists. split; [apply write_cell_ok; [done|lia]|]. destruct Hok as [Hl Hf]. split; [by rewrite length_insert|].
  apply Forall_insert; [done|by rewrite length_insert].
Qed.

Lemma new_line_writer_ok w : screen_ok (buffer w) -> exists w', new_line w = Ok w' /\ writer_ok w' /\ column_position w' = 0%nat.
Proof.
  intros Hok. eexists. split; [by apply new_line_ok|]. split; [|done]. split; [|cbn; unfold BUFFER_WIDTH; lia].
  apply screen_ok_rotate; [done|]. apply length_replicate.
Qed.

Lemma write_byte_ok byte w : writer_ok w -> exists w', write_byte byte w = Ok w' /\ writer_ok w'.
Proof.
  intros [Hok Hc]. unfold write_byte. destruct (byte =? 10).
  { destruct (new_line_writer_ok w Hok) as (w' & E & ? & _). by exists w'. }
  destruct (byte =? 8).
  - destruct (Nat.ltb_spec 0 (column_position w)) as [H0|]; [|by exists w].
    destruct (write_last_ok w (column_position w - 1) (blank_cell w) Hok) as (b & E & Hb); [lia|].
    rewrite E. cbn [mbind outcome_bind]. eexists. split; [done|]. split; [done|]. cbn. lia.
  - assert (H1 : exists w1, (if (BUFFER_WIDTH <=? column_position w)%nat then new_line w else Ok w) = Ok w1 /\
      screen_ok (buffer w1) /\ (column_position w1 < BUFFER_WIDTH)%nat).
    { destruct (Nat.leb_spec BUFFER_WIDTH (column_position w)) as [Hle|]; [|by exists w].
      destruct (new_line_writer_ok w Hok) as (w1 & E1 & [Hok1 _] & Hc1). exists w1. rewrite Hc1. unfold BUFFER_WIDTH.
      split_and!; [done|done|lia]. }
    destruct H1 as (w1 & E1 & Hok1 & Hc1). rewrite E1. cbn [mbind outcome_bind].
    destruct (write_last_ok w1 _ (mkScreenChar byte (color_code w1)) Hok1 Hc1) as (b & E & Hb).
    rewrite E. cbn [mbind outcome_bind]. eexists. split; [done|]. split; [done|]. cbn. lia.
Qed.

(** writing text never panics: no index leaves the screen, whatever the
    text, the column and the contents of the video memory. *)
Lemma write_string_total s w : writer_ok w -> exists w', write_string s w = Ok w' /\ writer_ok w'.
Proof.
  revert w; induction s as [|c s IH]; intros w Hw; [by exists w|]. unfold write_string in *. cbn [foldM].
  destruct (write_byte_ok (if printable c then c else 254) w Hw) as (w1 & -> & Hw1). cbn [mbind outcome_bind]. by apply IH.
Qed.

Lemma type_plain code s t :
  Forall (fun c => c <> 10 /\ c <> 8) s -> (length (line t) + length s <= BUFFER_WIDTH)%nat ->
  type_bytes code s t = mkTerminal (lines t) (line t ++ ((fun c => mkScreenChar c code) <$> s)).
Proof.
  revert t; induction s as [|c s IH]; intros t Hs Hl; cbn [length] in Hl.
  - cbn. rewrite app_nil_r. by destruct t.
  - apply Forall_cons in Hs as [[H10 H8] Hs]. unfold type_bytes in *. cbn [foldl].
    assert (E : type_byte code c t = mkTerminal (lines t) (line t ++ [mkScreenChar c code])).
    { unfold type_byte. rewrite (proj2 (Z.eqb_neq _ _) H10), (proj2 (Z.eqb_neq _ _) H8).
      by rewrite (proj2 (Nat.eqb_neq _ _)) by lia. }
    rewrite E, IH by (cbn [line]; rewrite ?length_app; cbn [length]; done || lia).
    cbn [lines line fmap list_fmap]. by rewrite <- app_assoc.
Qed.

(** a printed line is on the screen.  After a newline, a text of at most
    80 displayable characters and another newline, from any state of the
    writer, the row above the last one shows the text, padded with blanks;
    the last row is blank, the cursor at its start, and the rows above are
    the old ones, two up. *)
Lemma println_shows s w :
  writer_ok w -> Forall (fun c => 32 <= c <= 126) s -> (length s <= BUFFER_WIDTH)%nat ->
  exists w', write_string (10 :: s ++ [10]) w = Ok w' /\ column_position w' = 0%nat /\
    buffer w' = drop 2 (buffer w) ++ [padded (blank_cell w) ((fun c => mkScreenChar c (color_code w)) <$> s);
                                      replicate BUFFER_WIDTH (blank_cell w)].
Proof.
  intros [Hok _] Hs Hlen. assert (Hn := new_line_ok w Hok).
  set (w1 := mkWriter 0 (color_code w) (tail (buffer w) ++ [replicate BUFFER_WIDTH (blank_cell w)])) in *.
  assert (Hlt : length (tail (buffer w)) = (BUFFER_HEIGHT - 1)%nat).
  { destruct Hok as [Hl _]. destruct (buffer w); cbn in *; unfold BUFFER_HEIGHT in *; lia. }
  assert (Hs1 : shows w1 (mkTerminal (tail (buffer w)) [])).
  { destruct Hok as [_ Hr]. split_and!; cbn [lines line length w1 column_position buffer]; [unfold BUFFER_WIDTH; lia|done| |lia|].
    - destruct (buffer w); [constructor|]. by apply Forall_cons in Hr as [_ ?].
    - by rewrite Hlt, Nat.sub_diag, drop_0. }
  destruct (write_string_shows (s ++ [10]) w1 _ Hs1) as (w' & E & Ec & Hs').
  assert (Esh : shown <$> s ++ [10] = s ++ [10]).
  { rewrite fmap_app. f_equal. rewrite <- (list_fmap_id s) at 2. apply list_fmap_ext. intros i c Hi.
    assert (Hc := Forall_lookup_1 _ _ _ _ Hs Hi). cbn beta in Hc. unfold shown, printable.
    rewrite (proj2 (Z.leb_le 32 c)), (proj2 (Z.leb_le c 126)) by lia. done. }
  rewrite Esh, type_bytes_app, (type_plain _ s) in Hs'; [|eapply Forall_impl; [exact Hs|]; cbn; lia|cbn [line length]; lia].
  exists w'. split.
  { change (write_string (10 :: s ++ [10]) w) with (w' ← new_line w; write_string (s ++ [10]) w').
    rewrite Hn. exact E. }
  unfold type_bytes, type_byte in Hs'. cbn [foldl lines line w1 color_code app] in Hs'.
  change (10 =? 10) with true in Hs'. cbv iota in Hs'.
  destruct Hs' as (_ & Hc & _ & _ & Hb). split; [exact Hc|]. rewrite Hb. cbn [lines line].
  rewrite length_app, Hlt. cbn [length]. replace (BUFFER_HEIGHT - 1 + 1 - (BUFFER_HEIGHT - 1))%nat with 1%nat by (unfold BUFFER_HEIGHT; lia).
  rewrite drop_app_le by (rewrite Hlt; unfold BUFFER_HEIGHT; lia). rewrite <- app_assoc. cbn [app].
  assert (Ed : drop 1 (tail (buffer w)) = drop 2 (buffer w)) by (destruct (buffer w) as [|? [|? ?]]; done). rewrite Ed.
  unfold padded at 2. cbn [length app]. rewrite Nat.sub_0_r. unfold blank_cell. by rewrite Ec.
Qed.

(** ** A concrete screen *)

Definition sample_writer : Writer :=
  mkWriter 0 (color_code_new Yellow Black) (replicate BUFFER_HEIGHT (replicate BUFFER_WIDTH (mkScreenChar 46 7))).

Lemma sample_writer_ok : writer_ok sample_writer.
Proof.
  split; [|cbn; unfold BUFFER_WIDTH; lia]. split; [apply length_replicate|]. apply Forall_replicate, length_replicate.
Qed.

Lemma write_string_total_witness : exists w', write_string [72; 8; 10; 955] sample_writer = Ok w' /\ writer_ok w'.
Proof. apply (write_string_total [72; 8; 10; 955] sample_writer sample_writer_ok). Defined.

Lemma println_shows_witness :
  exists w', write_string [10; 72; 105; 10] sample_writer = Ok w' /\ column_position w' = 0%nat.
Proof.
  destruct (println_shows [72; 105] sample_writer sample_writer_ok) as (w' & E & Hc & _).
  - repeat constructor; lia.
  - cbn. unfold BUFFER_WIDTH. lia.
  - exists w'. split; [exact E|exact Hc].
Defined.

Lemma print_refines_terminal_witness :
  exists w', _print [[72; 105]; [10]] (mkConsole (mkWriter 0 14 (replicate BUFFER_HEIGHT (replicate BUFFER_WIDTH (mkScreenChar 32 14)))) false true)
    = Ok (tt, mkConsole w' false true) /\ column_position w' = 0%nat.
Proof.
  destruct (print_refines_terminal [[72; 105]; [10]]
    (mkConsole (mkWriter 0 14 (replicate BUFFER_HEIGHT (replicate BUFFER_WIDTH (mkScreenChar 32 14)))) false true)
    (mkTerminal (replicate (BUFFER_HEIGHT - 1) (replicate BUFFER_WIDTH (mkScreenChar 32 14))) [])) as (w' & E & Hs).
  - split_and!; [cbn; unfold BUFFER_WIDTH; lia|done|by apply Forall_replicate, length_replicate|cbn [lines]; rewrite length_replicate; lia|reflexivity].
  - done.
  - exists w'. split; [exact E|]. destruct Hs as (_ & Hc & _). exact Hc.
Defined.
