(* ===== verification/Keyboard.v ===== *)
(** * Keyboard input (src/task/keyboard.rs)

    The queue of input bytes, the table of escape sequences and what
    [print_keypresses] does with a scancode.  The decoder of the
    pc-keyboard crate is a parameter. *)

From S2P Require Import Prelude Ring Vga.

Definition INPUT_QUEUE_CAPACITY : nat := 128.

Record InputQueue := mkInputQueue { bytes : list Z; iq_head : nat; iq_len : nat }.

Definition input_queue_new : InputQueue := mkInputQueue (replicate INPUT_QUEUE_CAPACITY 0) 0 0.

(** [self.bytes[index] = byte] panics out of range. *)
Definition push (byte : Z) (q : InputQueue) : outcome InputQueue :=
  if (iq_len q =? INPUT_QUEUE_CAPACITY)%nat then Ok q
  else
    let index := ((iq_head q + iq_len q) mod INPUT_QUEUE_CAPACITY)%nat in
    _ ← expect (bytes q !! index) "index out of bounds";
    Ok (mkInputQueue (<[index := byte]> (bytes q)) (iq_head q) (iq_len q + 1)).

Definition pop (q : InputQueue) : outcome (option Z * InputQueue) :=
  if (iq_len q =? 0)%nat then Ok (None, q)
  else
    byte ← expect (bytes q !! iq_head q) "index out of bounds";
    Ok (Some byte, mkInputQueue (bytes q) ((iq_head q + 1) mod INPUT_QUEUE_CAPACITY) (iq_len q - 1)).

Definition input_list (q : InputQueue) : list Z := ring_contents INPUT_QUEUE_CAPACITY (bytes q) (iq_head q) (iq_len q).
Definition input_inv (q : InputQueue) : Prop := ring_inv INPUT_QUEUE_CAPACITY (bytes q) (iq_head q) (iq_len q).

(** ** Keys

    [KeyCode] of pc-keyboard: the variants the source names; [OtherKey]
    stands for the rest. *)

Inductive KeyCode :=
  | LShift | RShift | LControl | RControl | CapsLock | NumpadLock | RAltGr | RControl2
  | ArrowUp | ArrowDown | ArrowRight | ArrowLeft | Home | Insert | End_ | PageUp | PageDown
  | F1 | F2 | F3 | F4 | F5 | F6 | F7 | F8 | F9 | F10 | F11 | F12 | OtherKey (n : Z).

Inductive DecodedKey := Unicode (character : Z) | RawKey (key : KeyCode).

(** ESC, an opening bracket, a number in decimal, a tilde. *)
Definition vt_sequence (digits : list Z) : list Z := [0x1b; 91] ++ digits ++ [126].

Definition ansi_escape_sequence (key : KeyCode) : option (list Z) :=
  match key with
  | ArrowUp => Some [0x1b; 91; 65]
  | ArrowDown => Some [0x1b; 91; 66]
  | ArrowRight => Some [0x1b; 91; 67]
  | ArrowLeft => Some [0x1b; 91; 68]
  | Home => Some (vt_sequence [49])
  | Insert => Some (vt_sequence [50])
  | End_ => Some (vt_sequence [52])
  | PageUp => Some (vt_sequence [53])
  | PageDown => Some (vt_sequence [54])
  | F1 => Some (vt_sequence [49; 49])
  | F2 => Some (vt_sequence [49; 50])
  | F3 => Some (vt_sequence [49; 51])
  | F4 => Some (vt_sequence [49; 52])
  | F5 => Some (vt_sequence [49; 53])
  | F6 => Some (vt_sequence [49; 55])
  | F7 => Some (vt_sequence [49; 56])
  | F8 => Some (vt_sequence [49; 57])
  | F9 => Some (vt_sequence [50; 48])
  | F10 => Some (vt_sequence [50; 49])
  | F11 => Some (vt_sequence [50; 51])
  | F12 => Some (vt_sequence [50; 52])
  | _ => None
  end.

Definition is_modifier (key : KeyCode) : bool :=
  match key with
  | LShift | RShift | LControl | RControl | CapsLock | NumpadLock | RAltGr | RControl2 => true
  | _ => false
  end.

(** [Keyboard::add_byte] and [process_keyevent]: [None] is an error or an
    event that is not complete. *)
Class KeyDecoder (K E : Type) := {
  add_byte : Z -> K -> option E * K;
  process_keyevent : E -> K -> option DecodedKey * K;
}.

Section Handler.
Context {K E : Type} `{!KeyDecoder K E}.

Record KeyboardState := mkKeyboardState { kb_console : Console; kb_input : InputQueue; kb_decoder : K }.

Definition set_decoder (k : K) (s : KeyboardState) : KeyboardState := mkKeyboardState (kb_console s) (kb_input s) k.

Definition push_input_byte (byte : Z) : M KeyboardState unit := fun s =>
  q ← push byte (kb_input s);
  Ok (tt, mkKeyboardState (kb_console s) q (kb_decoder s)).

Fixpoint push_input_bytes (bs : list Z) : M KeyboardState unit :=
  match bs with [] => mret tt | b :: bs' => _ ← push_input_byte b; push_input_bytes bs' end.

Definition print_char (c : Z) : M KeyboardState unit := fun s =>
  '(_, con) ← _print [[c]] (kb_console s);
  Ok (tt, mkKeyboardState con (kb_input s) (kb_decoder s)).

(** [character.is_ascii()]. *)
Definition handle_key (key : DecodedKey) : M KeyboardState unit :=
  match key with
  | Unicode character =>
      _ ← print_char character;
      if character <? 128 then push_input_byte character else mret tt
  | RawKey key =>
      if is_modifier key then mret tt
      else match ansi_escape_sequence key with
           | Some sequence => push_input_bytes sequence
           | None => mret tt
           end
  end.

(** The body of the [while let] loop of [print_keypresses]. *)
Definition handle_scancode (scancode : Z) : M KeyboardState unit := fun s =>
  let '(event, k1) := add_byte scancode (kb_decoder s) in
  match event with
  | None => Ok (tt, set_decoder k1 s)
  | Some e =>
      let '(key, k2) := process_keyevent e k1 in
      match key with
      | None => Ok (tt, set_decoder k2 s)
      | Some key => handle_key key (set_decoder k2 s)
      end
  end.
End Handler.
Arguments KeyboardState K : clear implicits.

(** ** The input queue *)

Lemma input_queue_new_ok : input_inv input_queue_new /\ input_list input_queue_new = [].
Proof. split; [|done]. unfold input_inv, ring_inv, INPUT_QUEUE_CAPACITY. cbn [input_queue_new bytes iq_head iq_len]. rewrite length_replicate. unfold INPUT_QUEUE_CAPACITY. lia. Qed.

Lemma push_ok byte q : input_inv q -> (length (input_list q) < INPUT_QUEUE_CAPACITY)%nat ->
  exists q', push byte q = Ok q' /\ input_inv q' /\ input_list q' = input_list q ++ [byte].
Proof.
  intros Hq Hlt. unfold input_list in *. rewrite length_ring_contents in Hlt by done.
  unfold push. rewrite (proj2 (Nat.eqb_neq _ _)) by lia.
  destruct (ring_index_lookup INPUT_QUEUE_CAPACITY _ _ _ (iq_len q) Hq) as [x Hx]. rewrite Hx.
  cbn [expect mbind outcome_bind]. eexists. split; [done|]. rewrite Nat.add_1_r. cbn [bytes iq_head iq_len]. split.
  - destruct Hq as (? & ? & ?). unfold input_inv, ring_inv. cbn [bytes iq_head iq_len]. rewrite length_insert. lia.
  - by apply ring_contents_snoc.
Qed.

Lemma push_full byte q : input_inv q -> length (input_list q) = INPUT_QUEUE_CAPACITY -> push byte q = Ok q.
Proof.
  intros Hq Hl. unfold input_list in Hl. rewrite length_ring_contents in Hl by done.
  unfold push. by rewrite Hl, Nat.eqb_refl.
Qed.

Lemma pop_empty q : input_inv q -> input_list q = [] -> pop q = Ok (None, q).
Proof.
  intros Hq Hl. assert (E : iq_len q = 0%nat).
  { rewrite <- (length_ring_contents INPUT_QUEUE_CAPACITY (bytes q) (iq_head q) (iq_len q)) by done. by apply length_zero_iff_nil. }
  unfold pop. by rewrite E.
Qed.

Lemma pop_ok q x l : input_inv q -> input_list q = x :: l ->
  exists q', pop q = Ok (Some x, q') /\ input_inv q' /\ input_list q' = l.
Proof.
  intros Hq Hl. assert (Hlen : iq_len q = S (length l)).
  { rewrite <- (length_ring_contents INPUT_QUEUE_CAPACITY (bytes q) (iq_head q) (iq_len q)) by done.
    unfold input_list in Hl. by rewrite Hl. }
  destruct (ring_contents_cons INPUT_QUEUE_CAPACITY (bytes q) (iq_head q) (iq_len q)) as (y & Hy & Hc); [done|lia|].
  unfold input_list in *. rewrite Hc in Hl. simplify_eq.
  unfold pop. rewrite (proj2 (Nat.eqb_neq _ _)) by lia. rewrite Hy.
  cbn [expect mbind outcome_bind]. eexists. split; [done|]. cbn [bytes iq_head iq_len]. split; [|done].
  destruct Hq as (? & ? & ?). unfold input_inv, ring_inv. cbn [bytes iq_head iq_len]. split_and!; [done| |lia].
  apply Nat.mod_upper_bound. unfold INPUT_QUEUE_CAPACITY. lia.
Qed.

#[export, refine] Instance InputQueue_bounded : BoundedQueue InputQueue Z := {|
  bq_capacity := INPUT_QUEUE_CAPACITY;
  bq_push q x := if (iq_len q =? INPUT_QUEUE_CAPACITY)%nat then None
                 else match push x q with Ok q' => Some q' | Panic _ => None end;
  bq_pop q := match pop q with Ok (Some x, q') => Some (x, q') | _ => None end;
  bq_inv := input_inv;
  bq_list := input_list;
|}.
Proof.
  - intros q Hq. unfold input_list. rewrite length_ring_contents by done. apply Hq.
  - intros q x Hq Hlt. assert (Hlt' := Hlt). unfold input_list in Hlt'. rewrite length_ring_contents in Hlt' by done.
    rewrite (proj2 (Nat.eqb_neq _ _)) by lia. destruct (push_ok x q Hq Hlt) as (q' & -> & ?). eauto.
  - intros q x Hq Hf. unfold input_list in Hf. rewrite length_ring_contents in Hf by done. by rewrite Hf, Nat.eqb_refl.
  - intros q Hq He. by rewrite pop_empty.
  - intros q x l Hq He. destruct (pop_ok q x l Hq He) as (q' & -> & ?). eauto.
Defined.

(** ** Theorems *)

(** A session of the functions of the source. *)
Fixpoint run_input (ops : list (qop Z)) (q : InputQueue) : outcome (list (option Z) * InputQueue) :=
  match ops with
  | [] => Ok ([], q)
  | QPush x :: ops' => q' ← push x q; run_input ops' q'
  | QPop :: ops' =>
      '(r, q') ← pop q;
      '(out, q'') ← run_input ops' q';
      Ok (r :: out, q'')
  end.

Lemma push_bounded byte q : input_inv q ->
  exists q', push byte q = Ok q' /\ input_inv q' /\ input_list q' = take INPUT_QUEUE_CAPACITY (input_list q ++ [byte]).
Proof.
  intros Hq. assert (Hb := bq_bounded q Hq). change (length (input_list q) <= INPUT_QUEUE_CAPACITY)%nat in Hb.
  destruct (decide (length (input_list q) = INPUT_QUEUE_CAPACITY)) as [E|E].
  - exists q. rewrite push_full by done. split_and!; [done..|]. by rewrite <- E, take_app_length.
  - destruct (push_ok byte q Hq) as (q' & E' & Hq' & Hl); [lia|]. exists q'. split_and!; [done..|].
    rewrite Hl, take_ge; [done|]. rewrite length_app. cbn [length]. lia.
Qed.

(** C32: the input queue is a first-in first-out queue of 128 bytes.  Every
    sequence of pushes and pops runs without a panic, and pops what the same
    sequence pops from a list that ignores pushes when it holds 128. *)
Theorem input_queue_fifo ops q :
  input_inv q ->
  exists out q', run_input ops q = Ok (out, q') /\ input_inv q' /\
    run_list (Q := InputQueue) ops (input_list q) = (out, input_list q').
Proof.
  revert q; induction ops as [|[x|] ops IH]; intros q Hq; cbn [run_input run_list].
  - by exists [], q.
  - assert (Hb := bq_bounded q Hq). change (length (input_list q) <= INPUT_QUEUE_CAPACITY)%nat in Hb.
    change (bq_capacity (Q := InputQueue)) with INPUT_QUEUE_CAPACITY.
    destruct (Nat.ltb_spec (length (input_list q)) INPUT_QUEUE_CAPACITY) as [Hlt|Hge].
    + destruct (push_ok x q Hq Hlt) as (q' & -> & Hq' & <-). cbn [mbind outcome_bind]. by apply IH.
    + rewrite push_full by (done || lia). cbn [mbind outcome_bind]. by apply IH.
  - destruct (input_list q) as [|x l] eqn:El.
    + rewrite pop_empty by done. cbn [mbind outcome_bind]. destruct (IH q Hq) as (out & q' & -> & Hq' & Hr).
      rewrite El in Hr. rewrite Hr. cbn [mbind outcome_bind]. by exists (None :: out), q'.
    + destruct (pop_ok q x l Hq El) as (q1 & -> & Hq1 & Hl1). cbn [mbind outcome_bind].
      destruct (IH q1 Hq1) as (out & q' & -> & Hq' & Hr). rewrite Hl1 in Hr. rewrite Hr. cbn [mbind outcome_bind].
      by exists (Some x :: out), q'.
Qed.

(** The bytes a key sends to readers of standard input. *)
Definition key_bytes (key : DecodedKey) : list Z :=
  match key with
  | Unicode c => if c <? 128 then [c] else []
  | RawKey k => default [] (ansi_escape_sequence k)
  end.

Section Handling.
Context {K E : Type} `{!KeyDecoder K E}.
Implicit Types s : KeyboardState K.

Lemma push_input_bytes_ok bs s : input_inv (kb_input s) ->
  exists q, push_input_bytes bs s = Ok (tt, mkKeyboardState (kb_console s) q (kb_decoder s)) /\ input_inv q /\
    input_list q = take INPUT_QUEUE_CAPACITY (input_list (kb_input s) ++ bs).
Proof.
  revert s; induction bs as [|b bs IH]; intros s Hq.
  - exists (kb_input s). split; [by destruct s|]. split; [done|]. rewrite app_nil_r, take_ge; [done|].
    exact (bq_bounded (kb_input s) Hq).
  - destruct (push_bounded b (kb_input s) Hq) as (q1 & E1 & Hq1 & Hl1).
    destruct (IH (mkKeyboardState (kb_console s) q1 (kb_decoder s)) Hq1) as (q2 & E2 & Hq2 & Hl2).
    exists q2. split_and!; [|done|].
    + cbn [push_input_bytes]. unfold push_input_byte. run_m. rewrite E1. exact E2.
    + rewrite Hl2. cbn [kb_input]. rewrite Hl1.
      destruct (Nat.le_gt_cases INPUT_QUEUE_CAPACITY (length (input_list (kb_input s) ++ [b]))) as [Hge|Hlt].
      * rewrite take_app_le by (rewrite length_take; lia). rewrite take_idemp.
        change (b :: bs) with ([b] ++ bs). rewrite app_assoc. by rewrite (take_app_le (_ ++ [b])).
      * rewrite (take_ge (_ ++ [b])) by lia. by rewrite <- app_assoc.
Qed.

(** A key reaches the screen and the readers.  Handling a decoded key
    never panics; the input queue gets its ASCII character or its escape
    sequence, as far as there is room, and nothing else; the screen echoes a
    character and ignores other keys. *)
Lemma handle_key_correct key s t :
  input_inv (kb_input s) -> shows (writer (kb_console s)) t -> writer_locked (kb_console s) = false ->
  exists w q, handle_key key s = Ok (tt, mkKeyboardState
      (mkConsole w false (console_interrupts (kb_console s))) q (kb_decoder s)) /\
    input_inv q /\ input_list q = take INPUT_QUEUE_CAPACITY (input_list (kb_input s) ++ key_bytes key) /\
    shows w (match key with
             | Unicode c => type_byte (color_code (writer (kb_console s))) (shown c) t
             | RawKey _ => t
             end).
Proof.
  intros Hq Hs Hl. destruct s as [[w l i] q d]. cbn [kb_console kb_input kb_decoder writer writer_locked console_interrupts] in *. subst l.
  assert (Hid : input_list q = take INPUT_QUEUE_CAPACITY (input_list q ++ [])).
  { rewrite app_nil_r, take_ge; [done|]. exact (bq_bounded q Hq). }
  destruct key as [c|key]; cbn [handle_key key_bytes].
  - destruct (write_byte_shows w t (shown c) Hs) as (w1 & E1 & Ec & Hs1).
    assert (Ep : _print [[c]] (mkConsole w false i) = Ok (tt, mkConsole w1 false i)).
    { unfold _print, lock_writer, unlock_writer. run_m. cbn [writer writer_locked console_interrupts set_console_interrupts foldM].
      unfold write_string. cbn [foldM mbind]. unfold mbind, outcome_bind.
      change (if printable c then c else 254) with (shown c). by rewrite E1. }
    unfold print_char. run_m. cbn [kb_console kb_input kb_decoder]. rewrite Ep.
    destruct (Z.ltb_spec c 128) as [Ha|Ha].
    + destruct (push_bounded c q Hq) as (q' & Eq & Hq' & Hl'). exists w1, q'.
      unfold push_input_byte. run_m. cbn [kb_console kb_input kb_decoder]. by rewrite Eq.
    + by exists w1, q.
  - destruct (is_modifier key) eqn:Em.
    + exists w, q. split; [done|]. destruct key; try done.
    + destruct (ansi_escape_sequence key) as [sq|]; cbn [default]; [|by exists w, q].
      destruct (push_input_bytes_ok sq (mkKeyboardState (mkConsole w false i) q d) Hq) as (q' & E' & Hq' & Hl').
      exists w, q'. by split_and!.
Qed.
End Handling.

Lemma input_queue_fifo_witness :
  exists out q', run_input [QPush 104; QPush 105; QPop; QPop; QPop] input_queue_new = Ok (out, q') /\
    out = [Some 104; Some 105; None].
Proof.
  destruct (input_queue_fifo [QPush 104; QPush 105; QPop; QPop; QPop] input_queue_new) as (out & q' & E & _ & Hr).
  - apply input_queue_new_ok.
  - exists out, q'. split; [exact E|]. rewrite (proj2 input_queue_new_ok) in Hr. cbn in Hr. congruence.
Defined.

Lemma handle_key_correct_witness :
  exists w q, handle_key (K := unit) (RawKey ArrowUp)
      (mkKeyboardState (mkConsole (mkWriter 0 14 (replicate BUFFER_HEIGHT (replicate BUFFER_WIDTH (mkScreenChar 32 14)))) false true)
         input_queue_new tt) = Ok (tt, mkKeyboardState (mkConsole w false true) q tt) /\
    input_list q = [0x1b; 91; 65].
Proof.
  destruct (handle_key_correct (RawKey ArrowUp)
    (mkKeyboardState (mkConsole (mkWriter 0 14 (replicate BUFFER_HEIGHT (replicate BUFFER_WIDTH (mkScreenChar 32 14)))) false true)
       input_queue_new tt)
    (mkTerminal (replicate (BUFFER_HEIGHT - 1) (replicate BUFFER_WIDTH (mkScreenChar 32 14))) [])) as (w & q & E & _ & Hl & _).
  - apply input_queue_new_ok.
  - split_and!; [cbn; unfold BUFFER_WIDTH; lia|done|by apply Forall_replicate, length_replicate|cbn [lines]; rewrite length_replicate; lia|reflexivity].
  - done.
  - exists w, q. split; [exact E|]. rewrite Hl. cbn [kb_input]. rewrite (proj2 input_queue_new_ok). reflexivity.
Defined.
