(* ===== verification/Executor.v ===== *)
(** * The task executor (src/task/mod.rs, src/task/executor.rs)

    Tasks by id, a queue of ids that are ready, and a cache of wakers.  The
    queue is crossbeam's [ArrayQueue], through [BoundedQueue]; the future of
    a task is a parameter: polling it may change the world and push ids to
    the queue, which its waker shares with the executor. *)

From S2P Require Import Prelude Ring.

Definition MAX_QUEUED_TASKS : nat := 128.

(** [TaskId::new]: [fetch_add] on the counter, which wraps. *)
Definition task_id_new (next_id : Z) : Z * Z := (next_id, (next_id + 1) mod 2 ^ 64).

Section Executor.
Context {Q F S : Type} `{!BoundedQueue Q Z}.

(** [future.poll(context)] for the task of that id: whether it is ready,
    the future, the world and the queue afterwards. *)
Variable poll_future : Z -> F -> S * Q -> bool * F * (S * Q).

(** A waker is the id of its task. *)
Record Executor := mkExecutor { tasks : gmap Z F; task_queue : Q; waker_cache : gmap Z Z; world : S }.

Definition wake_task (task_id : Z) (q : Q) : Q := match bq_push q task_id with Some q' => q' | None => q end.

Definition spawn (task_id : Z) (future : F) (e : Executor) : outcome Executor :=
  match tasks e !! task_id with
  | Some _ => Panic "task with same ID already in tasks"
  | None =>
      q ← expect (bq_push (task_queue e) task_id) "task_queue full";
      Ok (mkExecutor (<[task_id := future]> (tasks e)) q (waker_cache e) (world e))
  end.

(** One round of the [while let] loop of [run_ready_tasks]; [None] when the
    queue is empty. *)
Definition run_ready_task (e : Executor) : option Executor :=
  match bq_pop (task_queue e) with
  | None => None
  | Some (task_id, q) =>
      match tasks e !! task_id with
      | None => Some (mkExecutor (tasks e) q (waker_cache e) (world e))
      | Some task =>
          let cache := match waker_cache e !! task_id with
                       | Some _ => waker_cache e
                       | None => <[task_id := task_id]> (waker_cache e)
                       end in
          let '(ready, task', (w, q')) := poll_future task_id task (world e, q) in
          Some (if ready : bool
                then mkExecutor (delete task_id (tasks e)) q' (delete task_id cache) w
                else mkExecutor (<[task_id := task']> (tasks e)) q' cache w)
      end
  end.

(** At most [fuel] rounds. *)
Fixpoint run_ready_tasks (fuel : nat) (e : Executor) : option Executor :=
  match fuel with
  | O => None
  | Datatypes.S fuel' => match run_ready_task e with Some e' => run_ready_tasks fuel' e' | None => Some e end
  end.

(** ** Invariant *)

(** A waker is cached only for a task there is, and wakes that task. *)
Record exec_inv (e : Executor) : Prop := {
  ei_queue : bq_inv (task_queue e);
  ei_cache id w : waker_cache e !! id = Some w -> w = id /\ is_Some (tasks e !! id);
}.

(** A poll leaves a well-formed queue, and only adds to it. *)
Definition poll_ok : Prop := forall id f w q ready f' w' q',
  bq_inv q -> poll_future id f (w, q) = (ready, f', (w', q')) ->
  bq_inv q' /\ exists woken, bq_list q' = bq_list q ++ woken.

Lemma executor_spawn_ok id f e : exec_inv e -> tasks e !! id = None -> (length (bq_list (task_queue e)) < bq_capacity (Q := Q) (A := Z))%nat ->
  exists e', spawn id f e = Ok e' /\ exec_inv e' /\ tasks e' = <[id := f]> (tasks e) /\
    bq_list (task_queue e') = bq_list (task_queue e) ++ [id].
Proof.
  intros [Hq Hc] Hn Hl. destruct (bq_push_ok (task_queue e) id Hq Hl) as (q & E & Hq' & Hlist).
  unfold spawn. rewrite Hn, E. cbn [expect mbind outcome_bind]. eexists. split; [done|]. split; [|done].
  split; [done|]. intros i w Hw. destruct (Hc i w Hw) as [-> [x Hx]]. split; [done|]. cbn [tasks].
  destruct (decide (i = id)) as [->|Hne]; [rewrite lookup_insert_eq; eauto|by rewrite lookup_insert_ne].
Qed.

Lemma run_ready_task_inv e e' : poll_ok -> exec_inv e -> run_ready_task e = Some e' -> exec_inv e'.
Proof.
  intros Hp [Hq Hc]. unfold run_ready_task. destruct (bq_list (task_queue e)) as [|id l] eqn:El.
  { by rewrite bq_pop_empty. }
  destruct (bq_pop_ok _ id l Hq El) as (q & -> & Hq' & Hl').
  destruct (tasks e !! id) as [f|] eqn:Et; [|intros [= <-]; by split].
  destruct (poll_future id f (world e, q)) as [[ready f'] [w q']] eqn:Ef. intros [= <-].
  destruct (Hp _ _ _ _ _ _ _ _ Hq' Ef) as [Hq'' _].
  set (cache := match waker_cache e !! id with Some _ => waker_cache e | None => <[id := id]> (waker_cache e) end).
  assert (Hcache : forall i x, cache !! i = Some x -> x = i /\ is_Some (tasks e !! i)).
  { intros i x. unfold cache. destruct (waker_cache e !! id); [apply Hc|].
    destruct (decide (i = id)) as [->|Hne]; [rewrite lookup_insert_eq; intros [= <-]; rewrite Et; eauto|].
    rewrite lookup_insert_ne by done. apply Hc. }
  destruct ready; (split; [done|]); cbn [tasks waker_cache]; intros i x Hx.
  - destruct (decide (i = id)) as [->|Hne]; [by rewrite lookup_delete_eq in Hx|].
    rewrite lookup_delete_ne in Hx by done. rewrite lookup_delete_ne by done. by apply Hcache.
  - destruct (Hcache i x Hx) as [-> Hi]. split; [done|].
    destruct (decide (i = id)) as [->|Hne]; [rewrite lookup_insert_eq; eauto|by rewrite lookup_insert_ne].
Qed.

Lemma run_ready_task_absent e e' id : tasks e !! id = None -> run_ready_task e = Some e' -> tasks e' !! id = None.
Proof.
  intros Hn. unfold run_ready_task. destruct (bq_pop (task_queue e)) as [[i q]|]; [|done].
  destruct (tasks e !! i) as [f|] eqn:Et; [|by intros [= <-]].
  assert (Hne : i <> id) by congruence.
  destruct (poll_future i f (world e, q)) as [[ready f'] [w q']]. intros [= <-].
  destruct ready; cbn [tasks]; [by rewrite lookup_delete_ne|by rewrite lookup_insert_ne].
Qed.

(** Every round takes an id from the queue. *)
Lemma run_ready_task_pops e : exec_inv e -> poll_ok ->
  match run_ready_task e with
  | None => bq_list (task_queue e) = []
  | Some e' => exists id l woken, bq_list (task_queue e) = id :: l /\ bq_list (task_queue e') = l ++ woken
  end.
Proof.
  intros [Hq Hc] Hp. unfold run_ready_task. destruct (bq_list (task_queue e)) as [|id l] eqn:El; [by rewrite bq_pop_empty|].
  destruct (bq_pop_ok _ id l Hq El) as (q & -> & Hq' & Hl').
  destruct (tasks e !! id) as [f|]; [|exists id, l, []; by rewrite app_nil_r].
  destruct (poll_future id f (world e, q)) as [[ready f'] [w q']] eqn:Ef.
  destruct (Hp _ _ _ _ _ _ _ _ Hq' Ef) as [_ [woken Hw]]. exists id, l, woken. rewrite <- Hl'. by destruct ready.
Qed.
End Executor.
Arguments Executor Q F S : clear implicits.

Section Claims.
Context {Q F S : Type} `{!BoundedQueue Q Z}.
Implicit Types e : Executor Q F S.

(** a task that has completed is gone.  Its id may still be in the
    queue, but the executor drops it: from then on no run depends on what
    polling that task would do, and the task does not come back. *)
Lemma completed_task_not_polled (poll poll' : Z -> F -> S * Q -> bool * F * (S * Q)) id e fuel :
  tasks e !! id = None -> (forall i f st, i <> id -> poll i f st = poll' i f st) ->
  run_ready_tasks poll fuel e = run_ready_tasks poll' fuel e /\
  (forall e', run_ready_tasks poll fuel e = Some e' -> tasks e' !! id = None).
Proof.
  intros Hn Hp. revert e Hn; induction fuel as [|fuel IH]; intros e Hn; [done|]. cbn [run_ready_tasks].
  assert (E : run_ready_task poll e = run_ready_task poll' e).
  { unfold run_ready_task. destruct (bq_pop (task_queue e)) as [[i q]|]; [|done].
    destruct (tasks e !! i) as [f|] eqn:Et; [|done]. by rewrite Hp by congruence. }
  rewrite <- E. destruct (run_ready_task poll e) as [e1|] eqn:E1; [|split; [done|by intros e' [= <-]]].
  apply IH. by apply (run_ready_task_absent poll e).
Qed.

(** C34: [run_ready_tasks] drains the queue.  When no poll wakes a task, as
    many rounds as there are ids in the queue are enough: the loop ends with
    an empty queue, and the invariant of the executor holds. *)
Theorem run_ready_tasks_drains (poll : Z -> F -> S * Q -> bool * F * (S * Q)) e :
  exec_inv e ->
  (forall id f w q ready f' w' q', bq_inv q -> poll id f (w, q) = (ready, f', (w', q')) -> bq_inv q' /\ bq_list q' = bq_list q) ->
  exists e', run_ready_tasks poll (Datatypes.S (length (bq_list (task_queue e)))) e = Some e' /\
    exec_inv e' /\ bq_list (task_queue e') = [].
Proof.
  intros He Hp.
  assert (Hpok : poll_ok poll).
  { intros id f w q ready f' w' q' Hq E. destruct (Hp _ _ _ _ _ _ _ _ Hq E) as [? Hl]. split; [done|].
    exists []. by rewrite app_nil_r. }
  remember (length (bq_list (task_queue e))) as n eqn:En. revert e He En; induction n as [|n IH]; intros e He En;
    cbn [run_ready_tasks]; assert (Hr := run_ready_task_pops poll e He Hpok);
    destruct (run_ready_task poll e) as [e1|] eqn:E1.
  - destruct Hr as (id & l & woken & El & _). by rewrite El in En.
  - by exists e.
  - assert (Hl1 : length (bq_list (task_queue e1)) = n).
    { unfold run_ready_task in E1. destruct Hr as (id & l & woken & El & El1). rewrite El in En. cbn [length] in En.
      destruct (bq_pop_ok _ id l (ei_queue e He) El) as (q & Eq & Hq & Hlq). rewrite Eq in E1.
      destruct (tasks e !! id) as [f|]; [|injection E1 as <-; cbn [task_queue]; rewrite Hlq; lia].
      destruct (poll id f (world e, q)) as [[ready f'] [w q']] eqn:Ef. destruct (Hp _ _ _ _ _ _ _ _ Hq Ef) as [_ Hlq'].
      injection E1 as <-. destruct ready; cbn [task_queue]; rewrite Hlq', Hlq; lia. }
    apply IH; [by apply (run_ready_task_inv poll e)|done].
  - exists e. by rewrite Hr in En.
Qed.
End Claims.

(** ** A concrete executor *)

#[local] Instance sample_task_queue : BoundedQueue (list Z) Z := list_queue MAX_QUEUED_TASKS.

(** Two tasks that count down; the id of a task that is gone is queued too. *)
Definition sample_poll (id : Z) (f : nat) (st : unit * list Z) : bool * nat * (unit * list Z) :=
  ((f =? 0)%nat, (f - 1)%nat, st).
Definition sample_executor_state : Executor (list Z) nat unit :=
  mkExecutor (<[1 := 0%nat]> (<[2 := 5%nat]> ∅)) [1; 9; 2] ∅ tt.

Lemma sample_exec_inv : exec_inv sample_executor_state.
Proof. split; [cbn; unfold MAX_QUEUED_TASKS; lia|]. intros id w. cbn [waker_cache sample_executor_state]. by rewrite lookup_empty. Qed.

Lemma completed_task_not_polled_witness :
  run_ready_tasks sample_poll 4 sample_executor_state = run_ready_tasks (fun i f st => if i =? 9 then (true, f, st) else sample_poll i f st) 4 sample_executor_state /\
  (forall e', run_ready_tasks sample_poll 4 sample_executor_state = Some e' -> tasks e' !! 9 = None).
Proof.
  apply (completed_task_not_polled sample_poll (fun i f st => if i =? 9 then (true, f, st) else sample_poll i f st) 9 sample_executor_state 4).
  - by vm_compute.
  - intros i f st Hi. by rewrite (proj2 (Z.eqb_neq i 9) Hi).
Defined.

Lemma run_ready_tasks_drains_witness :
  exists e', run_ready_tasks sample_poll 4 sample_executor_state = Some e' /\ exec_inv e' /\ bq_list (task_queue e') = [].
Proof.
  refine (run_ready_tasks_drains sample_poll sample_executor_state sample_exec_inv _).
  intros id f w q ready f' w' q' Hq [= <- <- <- <-]. done.
Defined.
