(* ===== verification/Wakeup.v ===== *)
(** * The keyboard interrupt and the executor (src/task/keyboard.rs,
      src/task/executor.rs)

    The executor of [kernel_main] runs one task, [print_keypresses], which
    waits on [ScancodeStream]; the keyboard interrupt may arrive between any
    two of its steps at which interrupts are enabled.  The steps are the
    accesses to what the two share: the queue of scancodes, the waker cell
    and the ready queue.  The warnings that are printed when a queue is full
    are left out. *)

From S2P Require Import Prelude Ring Executor.

(** [AtomicWaker] of futures-util: [register] stores a waker, [take] removes
    the stored one.  A waker is the id of its task. *)
Class AtomicWaker (W : Type) := {
  aw_new : W;
  aw_register : W -> Z -> W;
  aw_take : W -> option Z * W;
  aw_stored : W -> option Z;
  aw_stored_new : aw_stored aw_new = None;
  aw_stored_register w id : aw_stored (aw_register w id) = Some id;
  aw_take_stored w : (aw_take w).1 = aw_stored w;
  aw_stored_take w : aw_stored (aw_take w).2 = None;
}.

(** Where the executor is. *)
Inductive Pc :=
  | RunPop        (* [task_queue.pop()] of [run_ready_tasks] *)
  | PollFast      (* the first [queue.pop()] of [poll_next] *)
  | PollRegister  (* [WAKER.register] *)
  | PollSlow      (* the second [queue.pop()] *)
  | PollTake      (* [WAKER.take], after it has found a scancode *)
  | SleepDisable  (* [interrupts::disable()] of [sleep_if_idle] *)
  | SleepCheck    (* its test, with interrupts off *)
  | Halted.       (* after [enable_and_hlt] *)

Section Machine.
Context {Q R W : Type} `{!BoundedQueue Q Z} `{!BoundedQueue R Z} `{!AtomicWaker W}.
(** The id of [print_keypresses]. *)
Variable kb : Z.

(** [taken] is what [poll_next] has taken from the queue so far. *)
Record Machine := mkMachine {
  SCANCODE_QUEUE : option Q; WAKER : W; ready_queue : R; pc : Pc; taken : list Z }.

Definition set_pc (p : Pc) (s : Machine) : Machine :=
  mkMachine (SCANCODE_QUEUE s) (WAKER s) (ready_queue s) p (taken s).

(** [AtomicWaker::wake]: the stored waker is taken and woken. *)
Definition waker_wake (w : W) (r : R) : W * R :=
  let '(stored, w') := aw_take w in
  (w', match stored with Some id => wake_task id r | None => r end).

(** Also whether the scancode was queued. *)
Definition add_scancode (scancode : Z) (s : Machine) : bool * Machine :=
  match SCANCODE_QUEUE s with
  | Some queue =>
      match bq_push queue scancode with
      | None => (false, s)
      | Some queue' =>
          let '(w, r) := waker_wake (WAKER s) (ready_queue s) in
          (true, mkMachine (Some queue') w r (pc s) (taken s))
      end
  | None => (false, s)
  end.

(** [queue.pop()] of [poll_next]: with a scancode the task handles it and
    polls the stream again. *)
Definition pop_scancode (s : Machine) : outcome (option Machine) :=
  queue ← expect (SCANCODE_QUEUE s) "scancode queue not initialized";
  Ok (match bq_pop queue with
      | Some (scancode, queue') => Some (mkMachine (Some queue') (WAKER s) (ready_queue s) PollFast (taken s ++ [scancode]))
      | None => None
      end).

Definition poll_fast (s : Machine) : outcome Machine :=
  popped ← pop_scancode s;
  Ok (match popped with Some s' => s' | None => set_pc PollRegister s end).

Definition poll_register (s : Machine) : Machine :=
  mkMachine (SCANCODE_QUEUE s) (aw_register (WAKER s) kb) (ready_queue s) PollSlow (taken s).

(** [Pending] goes back to the loop of [run_ready_tasks]. *)
Definition poll_slow (s : Machine) : outcome Machine :=
  popped ← pop_scancode s;
  Ok (match popped with
      | Some s' => set_pc PollTake s'
      | None => set_pc RunPop s
      end).

Definition poll_take (s : Machine) : Machine :=
  mkMachine (SCANCODE_QUEUE s) (aw_take (WAKER s)).2 (ready_queue s) PollFast (taken s).

(** The task is always there, any other id is of a task that is gone. *)
Definition run_pop (s : Machine) : Machine :=
  match bq_pop (ready_queue s) with
  | None => set_pc SleepDisable s
  | Some (task_id, r) =>
      mkMachine (SCANCODE_QUEUE s) (WAKER s) r (if task_id =? kb then PollFast else RunPop) (taken s)
  end.

(** [is_empty] is that there is nothing to pop. *)
Definition sleep_check (s : Machine) : Machine :=
  match bq_pop (ready_queue s) with None => set_pc Halted s | Some _ => set_pc RunPop s end.

Definition executor_step (s : Machine) : outcome Machine :=
  match pc s with
  | RunPop => Ok (run_pop s)
  | PollFast => poll_fast s
  | PollRegister => Ok (poll_register s)
  | PollSlow => poll_slow s
  | PollTake => Ok (poll_take s)
  | SleepDisable => Ok (set_pc SleepCheck s)
  | SleepCheck => Ok (sleep_check s)
  | Halted => Ok s
  end.

Definition interrupts_enabled (s : Machine) : bool := match pc s with SleepCheck => false | _ => true end.

(** [hlt] ends with the interrupt: [run] goes round its loop. *)
Definition resume (s : Machine) : Machine := match pc s with Halted => set_pc RunPop s | _ => s end.

(** [kernel_main]: the queue is there, the task was spawned. *)
Definition boot (queue : Q) (r : R) : Machine := mkMachine (Some queue) aw_new r RunPop [].

(** The machine after any interleaving of the executor with interrupts;
    [accepted] are the scancodes that were queued, in order. *)
Inductive run (queue : Q) (r : R) : list Z -> Machine -> Prop :=
  | run_boot : run queue r [] (boot queue r)
  | run_executor accepted s s' : run queue r accepted s -> executor_step s = Ok s' -> run queue r accepted s'
  | run_keyboard accepted s scancode queued s' : run queue r accepted s -> interrupts_enabled s = true ->
      add_scancode scancode s = (queued, s') ->
      run queue r (if queued : bool then accepted ++ [scancode] else accepted) (resume s')
  | run_timer accepted s : run queue r accepted s -> interrupts_enabled s = true -> run queue r accepted (resume s).

(** [n] steps of the executor alone. *)
Fixpoint executor_steps (n : nat) (s : Machine) : outcome Machine :=
  match n with O => Ok s | S n' => s' ← executor_step s; executor_steps n' s' end.

(** ** Invariant *)

Definition waiting (s : Machine) : list Z := match SCANCODE_QUEUE s with Some q => bq_list q | None => [] end.
Definition awake (s : Machine) : Prop := bq_list (ready_queue s) <> [].

(** The task is parked: a wakeup will come, and one is there if there is
    input. *)
Definition parked (s : Machine) : Prop :=
  (aw_stored (WAKER s) = Some kb \/ awake s) /\ (waiting s <> [] -> awake s).

Definition pc_inv (s : Machine) : Prop :=
  match pc s with
  | PollFast | PollRegister | PollTake => True
  | PollSlow => aw_stored (WAKER s) = Some kb \/ awake s
  | RunPop | SleepDisable | SleepCheck => parked s
  | Halted => parked s /\ ~ awake s
  end.

Record machine_inv (accepted : list Z) (s : Machine) : Prop := {
  mi_queue : exists q, SCANCODE_QUEUE s = Some q /\ bq_inv q;
  mi_ready : bq_inv (ready_queue s);
  mi_ids : Forall (eq kb) (bq_list (ready_queue s));
  mi_waker id : aw_stored (WAKER s) = Some id -> id = kb;
  mi_accepted : accepted = taken s ++ waiting s;
  mi_pc : pc_inv s;
}.

(** ** The invariant is kept *)

Lemma resume_inv accepted s : machine_inv accepted s -> machine_inv accepted (resume s).
Proof.
  intros [Hq Hr Hk Hw Hacc Hpc]. unfold resume. destruct (pc s) eqn:Ep; split; try done.
  unfold pc_inv in *. rewrite Ep in Hpc. destruct Hpc as [Hpc _]. exact Hpc.
Qed.

(** How far the executor is from halting, were there no interrupts. *)
Definition remaining (s : Machine) : nat :=
  (10 * (length (waiting s) + length (bq_list (ready_queue s))) +
   match pc s, bq_list (ready_queue s) with
   | Halted, _ => 0
   | SleepCheck, [] => 1 | SleepDisable, [] => 2 | RunPop, [] => 3
   | RunPop, _ => 4 | SleepCheck, _ => 5 | SleepDisable, _ => 6
   | PollSlow, _ => 5 | PollRegister, _ => 6 | PollFast, _ => 7 | PollTake, _ => 8
   end)%nat.

Definition progress (accepted : list Z) (s s' : Machine) : Prop :=
  machine_inv accepted s' /\ (pc s = Halted \/ remaining s' < remaining s)%nat.

Lemma pop_scancode_ok accepted s : machine_inv accepted s ->
  exists popped, pop_scancode s = Ok popped /\
  match popped with
  | None => waiting s = []
  | Some s' => machine_inv accepted s' /\ pc s' = PollFast /\ ready_queue s' = ready_queue s /\ WAKER s' = WAKER s /\
      length (waiting s) = S (length (waiting s'))
  end.
Proof.
  intros [[q [Eq Hq]] Hr Hk Hw Hacc Hpc]. unfold pop_scancode. rewrite Eq. cbn [expect mbind outcome_bind].
  eexists. split; [done|]. pose proof (bq_pop_cases q Hq) as H. unfold waiting in *. rewrite Eq in *.
  destruct (bq_pop q) as [[x q']|]; [|done]. destruct H as [Hq' El]. rewrite El in *.
  split; [|done]. split; cbn [SCANCODE_QUEUE ready_queue WAKER taken pc]; eauto; [|exact I].
  unfold waiting. cbn [SCANCODE_QUEUE]. by rewrite Hacc, <- app_assoc.
Qed.

Lemma poll_fast_ok accepted s : machine_inv accepted s -> pc s = PollFast ->
  exists s', poll_fast s = Ok s' /\ progress accepted s s'.
Proof.
  intros Hs Ep. destruct (pop_scancode_ok accepted s Hs) as (popped & E & H). unfold poll_fast. rewrite E.
  cbn [mbind outcome_bind]. eexists. split; [done|]. destruct popped as [s'|].
  - destruct H as (Hs' & Ep' & Er & _ & El). split; [done|]. right. unfold remaining. rewrite Ep, Ep', Er. lia.
  - split; [|right; unfold remaining, waiting; cbn [set_pc SCANCODE_QUEUE pc ready_queue]; rewrite Ep; lia].
    destruct Hs as [Hq Hr Hk Hw Hacc _]. by split.
Qed.

Lemma poll_slow_ok accepted s : machine_inv accepted s -> pc s = PollSlow ->
  exists s', poll_slow s = Ok s' /\ progress accepted s s'.
Proof.
  intros Hs Ep. destruct (pop_scancode_ok accepted s Hs) as (popped & E & H). unfold poll_slow. rewrite E.
  cbn [mbind outcome_bind]. eexists. split; [done|]. destruct popped as [s'|].
  - destruct H as ([Hq Hr Hk Hw Hacc _] & _ & Er & _ & El). split; [by split|].
    right. unfold remaining, waiting in *. cbn [set_pc SCANCODE_QUEUE ready_queue pc]. rewrite Ep, Er. lia.
  - destruct Hs as [Hq Hr Hk Hw Hacc Hpc]. split.
    + split; try done. unfold pc_inv in *. rewrite Ep in Hpc. cbn [set_pc pc]. split; [done|].
      intros Hne. by destruct Hne.
    + right. unfold remaining, waiting. cbn [set_pc SCANCODE_QUEUE ready_queue pc]. rewrite Ep.
      destruct (bq_list (ready_queue s)); lia.
Qed.

Lemma run_pop_ok accepted s : machine_inv accepted s -> pc s = RunPop -> progress accepted s (run_pop s).
Proof.
  intros [Hq Hr Hk Hw Hacc Hpc] Ep. unfold run_pop. pose proof (bq_pop_cases (ready_queue s) Hr) as H.
  unfold pc_inv in Hpc. rewrite Ep in Hpc.
  destruct (bq_pop (ready_queue s)) as [[id r]|].
  - destruct H as [Hr' El]. rewrite El in Hk. inversion Hk as [|? ? <- Hk']; subst. rewrite Z.eqb_refl.
    split; [by split|]. right. unfold remaining, waiting. cbn [SCANCODE_QUEUE ready_queue pc]. rewrite Ep, El. cbn [length]. lia.
  - split; [by split|]. right. unfold remaining, waiting. cbn [set_pc SCANCODE_QUEUE ready_queue pc]. rewrite Ep, H. lia.
Qed.

Lemma sleep_check_ok accepted s : machine_inv accepted s -> pc s = SleepCheck -> progress accepted s (sleep_check s).
Proof.
  intros [Hq Hr Hk Hw Hacc Hpc] Ep. unfold sleep_check. pose proof (bq_pop_cases (ready_queue s) Hr) as H.
  unfold pc_inv in Hpc. rewrite Ep in Hpc.
  destruct (bq_pop (ready_queue s)) as [[id r]|].
  - destruct H as [_ El]. split; [by split|]. right. unfold remaining, waiting.
    cbn [set_pc SCANCODE_QUEUE ready_queue pc]. rewrite Ep, El. cbn [length]. lia.
  - split; [split; try done; split; [done|]; intros Ha; by apply Ha|]. right. unfold remaining, waiting.
    cbn [set_pc SCANCODE_QUEUE ready_queue pc]. rewrite Ep, H. lia.
Qed.

Lemma executor_step_ok accepted s : machine_inv accepted s ->
  exists s', executor_step s = Ok s' /\ progress accepted s s'.
Proof.
  intros Hs. unfold executor_step. destruct (pc s) eqn:Ep.
  - eexists. split; [done|]. by apply run_pop_ok.
  - by apply poll_fast_ok.
  - eexists. split; [done|]. destruct Hs as [Hq Hr Hk Hw Hacc Hpc]. split.
    + split; cbn [poll_register SCANCODE_QUEUE ready_queue WAKER taken]; try done.
      * rewrite aw_stored_register. by intros ? [= <-].
      * unfold pc_inv, poll_register. cbn [pc WAKER]. left. apply aw_stored_register.
    + right. unfold remaining, waiting, poll_register. cbn [SCANCODE_QUEUE ready_queue pc]. rewrite Ep. lia.
  - by apply poll_slow_ok.
  - eexists. split; [done|]. destruct Hs as [Hq Hr Hk Hw Hacc _]. split.
    + split; try done. cbn [poll_take WAKER]. by rewrite aw_stored_take.
    + right. unfold remaining, waiting, poll_take. cbn [SCANCODE_QUEUE ready_queue pc]. rewrite Ep. lia.
  - eexists. split; [done|]. destruct Hs as [Hq Hr Hk Hw Hacc Hpc]. unfold pc_inv in Hpc. rewrite Ep in Hpc.
    split; [by split|]. right. unfold remaining, waiting. cbn [set_pc SCANCODE_QUEUE ready_queue pc]. rewrite Ep.
    destruct (bq_list (ready_queue s)); lia.
  - eexists. split; [done|]. by apply sleep_check_ok.
  - eexists. split; [done|]. split; [done|by left].
Qed.

(** When it halts, nothing is left. *)
Lemma halted_drained accepted s : machine_inv accepted s -> pc s = Halted -> waiting s = [] /\ taken s = accepted.
Proof.
  intros [Hq Hr Hk Hw Hacc Hpc] Ep. unfold pc_inv in Hpc. rewrite Ep in Hpc. destruct Hpc as [[_ Hp] Hn].
  assert (E : waiting s = []) by (destruct (waiting s); [done|]; destruct Hn; by apply Hp).
  split; [done|]. by rewrite Hacc, E, app_nil_r.
Qed.

Lemma executor_steps_halt n accepted s : machine_inv accepted s -> (remaining s <= n)%nat ->
  exists s', executor_steps n s = Ok s' /\ machine_inv accepted s' /\ pc s' = Halted.
Proof.
  revert s; induction n as [|n IH]; intros s Hs Hn; cbn [executor_steps].
  - exists s. split; [done|]. split; [done|]. unfold remaining in Hn.
    destruct (pc s), (bq_list (ready_queue s)); try lia; done.
  - destruct (executor_step_ok accepted s Hs) as (s1 & E & [Hs1 Hd]). rewrite E. cbn [mbind outcome_bind]. apply IH; [done|].
    destruct Hd as [Hh|Hlt]; [|lia].
    assert (Hh' : pc s1 = Halted) by (unfold executor_step in E; rewrite Hh in E; congruence).
    destruct (halted_drained accepted s1 Hs1 Hh') as [Ew _].
    unfold remaining. rewrite Hh', Ew. destruct Hs1 as [_ _ _ _ _ Hpc]. unfold pc_inv in Hpc. rewrite Hh' in Hpc.
    destruct Hpc as [_ Hn1]. unfold awake in Hn1. destruct (bq_list (ready_queue s1)); [cbn; lia|by destruct Hn1].
Qed.

Hypothesis ready_capacity : bq_capacity (Q := R) (A := Z) = MAX_QUEUED_TASKS.

(** A wakeup that the full queue refuses is not missed. *)
Lemma wake_task_awake r : bq_inv r -> Forall (eq kb) (bq_list r) ->
  bq_inv (wake_task kb r) /\ Forall (eq kb) (bq_list (wake_task kb r)) /\ bq_list (wake_task kb r) <> [].
Proof using ready_capacity.
  intros Hr Hk. unfold wake_task. pose proof (bq_push_cases r kb Hr) as H.
  destruct (bq_push r kb) as [r'|].
  - destruct H as [Hr' ->]. split; [done|]. split; [|by destruct (bq_list r)].
    by apply Forall_app; split; [|apply Forall_singleton].
  - split; [done|]. split; [done|]. intros E. rewrite E, ready_capacity in H. done.
Qed.

Lemma waker_wake_ok w r : bq_inv r -> Forall (eq kb) (bq_list r) -> (forall id, aw_stored w = Some id -> id = kb) ->
  let '(w', r') := waker_wake w r in
  aw_stored w' = None /\ bq_inv r' /\ Forall (eq kb) (bq_list r') /\
  (aw_stored w = Some kb \/ bq_list r <> [] -> bq_list r' <> []).
Proof using ready_capacity.
  intros Hr Hk Hw. unfold waker_wake. pose proof (aw_take_stored w) as E. pose proof (aw_stored_take w) as E'.
  destruct (aw_take w) as [stored w']. cbn [fst snd] in E, E'. subst stored. split; [done|].
  destruct (aw_stored w) as [id|] eqn:Es.
  - rewrite (Hw id eq_refl). destruct (wake_task_awake r Hr Hk) as (? & ? & ?). done.
  - split; [done|]. split; [done|]. by intros [?|?].
Qed.

Lemma add_scancode_inv accepted scancode s : machine_inv accepted s -> interrupts_enabled s = true ->
  let '(queued, s') := add_scancode scancode s in
  machine_inv (if queued : bool then accepted ++ [scancode] else accepted) (resume s').
Proof using ready_capacity.
  intros [[q [Eq Hq]] Hr Hk Hw Hacc Hpc] Hi. unfold add_scancode. rewrite Eq.
  pose proof (bq_push_cases q scancode Hq) as Hpush. destruct (bq_push q scancode) as [q'|].
  2:{ unfold resume. destruct (pc s) eqn:Ep; split; try done; eauto.
      unfold pc_inv in *. rewrite Ep in Hpc. destruct Hpc as [Hpc _]. exact Hpc. }
  destruct Hpush as [Hq' El]. pose proof (waker_wake_ok (WAKER s) (ready_queue s) Hr Hk Hw) as H.
  destruct (waker_wake (WAKER s) (ready_queue s)) as [w r]. destruct H as (Ew & Hr' & Hk' & Ha).
  assert (Hacc' : accepted ++ [scancode] = taken s ++ bq_list q').
  { rewrite Hacc, El, <- app_assoc. unfold waiting. by rewrite Eq. }
  assert (Hnone : forall id, aw_stored w = Some id -> id = kb) by (rewrite Ew; done).
  unfold resume, pc_inv, interrupts_enabled, parked, awake in *. cbn [pc].
  destruct (pc s) eqn:Ep; try done; split; cbn [SCANCODE_QUEUE ready_queue WAKER taken waiting set_pc pc pc_inv]; eauto;
    unfold pc_inv, parked, awake; cbn [SCANCODE_QUEUE ready_queue WAKER taken waiting set_pc pc]; naive_solver.
Qed.

Lemma run_inv queue r accepted s : bq_inv queue -> bq_list queue = [] -> bq_inv r -> bq_list r = [kb] ->
  run queue r accepted s -> machine_inv accepted s.
Proof using ready_capacity.
  intros Hq Eq Hr Er. induction 1 as [|accepted s s' _ IH E|accepted s sc queued s' _ IH Hi E|accepted s _ IH _].
  - split; cbn [boot SCANCODE_QUEUE ready_queue WAKER taken waiting]; eauto.
    + rewrite Er. by apply Forall_singleton.
    + by rewrite aw_stored_new.
    + unfold pc_inv, parked, awake, waiting. cbn [boot pc ready_queue]. rewrite Er. naive_solver.
  - destruct (executor_step_ok accepted s IH) as (s1 & E1 & [Hs _]). congruence.
  - pose proof (add_scancode_inv accepted sc s IH Hi) as H. by rewrite E in H.
  - by apply resume_inv.
Qed.
End Machine.
Arguments Machine Q R W : clear implicits.

(** ** Claims *)

Section Claims.
Context {Q R W : Type} `{!BoundedQueue Q Z} `{!BoundedQueue R Z} `{!AtomicWaker W}.

(** C18: the CPU never halts on input.  After any interleaving of the
    executor with keyboard and timer interrupts from boot, what the stream
    has returned is a prefix of the scancodes that were queued, in order and
    none twice; and if the executor has halted, then every one of them has
    been returned. *)
Theorem no_lost_wakeup (kb : Z) (queue : Q) (r : R) accepted (s : Machine Q R W) :
  bq_capacity (Q := R) (A := Z) = MAX_QUEUED_TASKS ->
  bq_inv queue -> bq_list queue = [] -> bq_inv r -> bq_list r = [kb] ->
  run kb queue r accepted s ->
  accepted = taken s ++ waiting s /\ (pc s = Halted -> taken s = accepted).
Proof.
  intros Hc Hq Eq Hr Er Hrun. assert (Hs := run_inv kb Hc queue r accepted s Hq Eq Hr Er Hrun).
  split; [by destruct Hs|]. intros Ep. by destruct (halted_drained kb accepted s Hs Ep).
Qed.

(** C19: input is handled.  From any state the kernel can get into, if no
    further interrupt comes, the executor alone returns every queued
    scancode to the keyboard task, without a panic, and then halts; ten
    steps for each queued scancode and each wakeup, and nine more, are
    enough. *)
Theorem input_handled (kb : Z) (queue : Q) (r : R) accepted (s : Machine Q R W) n :
  bq_capacity (Q := R) (A := Z) = MAX_QUEUED_TASKS ->
  bq_inv queue -> bq_list queue = [] -> bq_inv r -> bq_list r = [kb] ->
  run kb queue r accepted s ->
  (10 * (length (waiting s) + length (bq_list (ready_queue s))) + 9 <= n)%nat ->
  exists s', executor_steps kb n s = Ok s' /\ pc s' = Halted /\ taken s' = accepted.
Proof.
  intros Hc Hq Eq Hr Er Hrun Hn. assert (Hs := run_inv kb Hc queue r accepted s Hq Eq Hr Er Hrun).
  destruct (executor_steps_halt kb n accepted s Hs) as (s' & E & Hs' & Ep).
  { unfold remaining. destruct (pc s), (bq_list (ready_queue s)); lia. }
  exists s'. split; [done|]. split; [done|]. by destruct (halted_drained kb accepted s' Hs' Ep).
Qed.
End Claims.

(** ** A concrete run *)

#[local] Instance cell_waker : AtomicWaker (option Z).
Proof.
  refine {| aw_new := None; aw_register _ id := Some id; aw_take w := (w, None); aw_stored w := w |}; done.
Defined.

#[local] Instance sample_queue : BoundedQueue (list Z) Z := list_queue MAX_QUEUED_TASKS.

(** Three keys come: one before the executor runs, one between the fast
    path and the registration, one while it is parked. *)
Definition sample_key (sc : Z) (s : Machine (list Z) (list Z) (option Z)) := resume (add_scancode sc s).2.
Definition sample_run (n : nat) (s : Machine (list Z) (list Z) (option Z)) :=
  match executor_steps 7 n s with Ok s' => s' | Panic _ => s end.
Definition sample_machine : Machine (list Z) (list Z) (option Z) :=
  sample_key 30 (sample_run 3 (sample_key 20 (sample_run 3 (sample_key 10 (boot [] [7]))))).

Lemma sample_executor n s accepted : run 7 [] [7] accepted s -> executor_steps 7 n s = Ok (sample_run n s) ->
  run 7 [] [7] accepted (sample_run n s).
Proof.
  intros Hr E. revert E. generalize (sample_run n s). intros s'. revert s Hr.
  induction n as [|n IH]; intros s Hr; cbn [executor_steps]; [by intros [= <-]|].
  destruct (executor_step 7 s) as [s1|] eqn:E1; [|done]. cbn [mbind outcome_bind].
  apply IH. by apply (run_executor _ _ _ accepted s).
Qed.

Lemma sample_key_accepted sc s accepted : run 7 [] [7] accepted s -> interrupts_enabled s = true ->
  (add_scancode sc s).1 = true -> run 7 [] [7] (accepted ++ [sc]) (sample_key sc s).
Proof.
  intros Hr Hi Ha. unfold sample_key. destruct (add_scancode sc s) as [queued s'] eqn:E. cbn [fst snd] in *. subst queued.
  by apply (run_keyboard 7 [] [7] accepted s sc true s').
Qed.

Lemma sample_reachable : run 7 [] [7] [10; 20; 30] sample_machine.
Proof.
  apply (sample_key_accepted 30 _ [10; 20]); [apply sample_executor|..]; [|done..].
  apply (sample_key_accepted 20 _ [10]); [apply sample_executor|..]; [|done..].
  apply (sample_key_accepted 10 _ []); [apply run_boot|done..].
Qed.

Lemma no_lost_wakeup_witness : taken sample_machine = [10; 20] /\
  ([10; 20; 30] = taken sample_machine ++ waiting sample_machine /\ (pc sample_machine = Halted -> taken sample_machine = [10; 20; 30])).
Proof.
  split; [done|]. apply (no_lost_wakeup 7 [] [7]); [done|cbn; lia|done|cbn; unfold MAX_QUEUED_TASKS; lia|done|apply sample_reachable].
Defined.

Lemma input_handled_witness :
  exists s', executor_steps 7 29 sample_machine = Ok s' /\ pc s' = Halted /\ taken s' = [10; 20; 30].
Proof.
  apply (input_handled 7 [] [7]); [done|cbn; lia|done|cbn; unfold MAX_QUEUED_TASKS; lia|done|apply sample_reachable|].
  vm_compute. lia.
Defined.
