(* ===== verification/X86.v ===== *)
(** * The x86-64 machine and the [x86_64] crate, as the kernel uses them

    Physical memory, the page-table entry format and the access check of the
    processor are the architecture's (Intel SDM volume 3, chapter 4), and are
    defined here.  The address and page-table types of the [x86_64] crate
    (version 0.14, Cargo.lock) are third-party code: [X86Crate] has an
    operation for each function of it the kernel calls, with the behaviour
    its documentation states.  An address, a page and a frame are numbers; a
    page and a frame are named by their first address. *)

From S2P Require Import Prelude.

Definition PAGE_SIZE : Z := 4096.

(** ** Page-table entry flags *)

Definition PRESENT : Z := 1.
Definition WRITABLE : Z := 2.
Definition USER_ACCESSIBLE : Z := 4.
Definition HUGE_PAGE : Z := 128.

(** [PageTableFlags::contains]. *)
Definition contains (flags required : Z) : bool := Z.land flags required =? required.

(** The physical address field of an entry: bits 12 to 51. *)
Definition ADDR_MASK : Z := 0x000ffffffffff000.

(** The result of [PageTableEntry::frame]. *)
Inductive FrameResult := FrameOk (frame : Z) | FrameNotPresent | HugeFrame.

(** An address is canonical when bits 47 to 63 are equal. *)
Definition canonical (a : Z) : Prop := 0 <= a < 2 ^ 47 \/ 2 ^ 64 - 2 ^ 47 <= a < 2 ^ 64.

#[export] Instance canonical_dec a : Decision (canonical a).
Proof. unfold canonical. apply _. Defined.

(** ** The interface of the crate *)

Class X86Crate := {
  (** [VirtAddr::try_new]: succeeds if bits 48 to 64 are a correct sign
      extension or all null; it performs the sign extension of bit 47. *)
  va_try_new : Z -> option Z;
  va_try_new_canonical a : canonical a -> va_try_new a = Some a;
  va_try_new_extend a : 2 ^ 47 <= a < 2 ^ 48 -> va_try_new a = Some (a + (2 ^ 64 - 2 ^ 48));
  va_try_new_err a : 2 ^ 48 <= a < 2 ^ 64 - 2 ^ 47 -> va_try_new a = None;
  (** [VirtAddr + u64]: the sum is made an address as by [VirtAddr::new],
      [None] for its panic. *)
  va_add : Z -> Z -> option Z;
  va_add_new a n : 0 <= a -> 0 <= n -> a + n < 2 ^ 64 -> va_add a n = va_try_new (a + n);
  (** [VirtAddr::p1_index] to [p4_index]: the 9-bit page-table index of a
      level. *)
  va_index : nat -> Z -> nat;
  va_index_spec l a : (1 <= l <= 4)%nat -> canonical a ->
    Z.of_nat (va_index l a) = (a / 2 ^ (12 + 9 * (Z.of_nat l - 1))) mod 512;
  (** [VirtAddr::page_offset]: the 12-bit page offset. *)
  va_page_offset : Z -> Z;
  va_page_offset_spec a : canonical a -> va_page_offset a = a mod PAGE_SIZE;
  (** [Page::containing_address]. *)
  page_containing : Z -> Z;
  page_containing_spec a : canonical a -> page_containing a = a - a mod PAGE_SIZE;
  (** [PhysAddr::new], [None] for the panic when a bit of 52 to 64 is set. *)
  pa_new : Z -> option Z;
  pa_new_ok a : 0 <= a < 2 ^ 52 -> pa_new a = Some a;
  pa_new_err a : 2 ^ 52 <= a < 2 ^ 64 -> pa_new a = None;
  (** [PhysFrame::containing_address]. *)
  frame_containing : Z -> Z;
  frame_containing_spec a : 0 <= a < 2 ^ 52 -> frame_containing a = a - a mod PAGE_SIZE;
  (** [PageTableEntry::flags]: the flag bits of the entry. *)
  pte_flags : Z -> Z;
  pte_flags_spec e i : i ∈ [0; 1; 2; 7] -> Z.testbit (pte_flags e) i = Z.testbit e i;
  (** [PageTableEntry::frame]. *)
  pte_frame : Z -> FrameResult;
  pte_frame_spec e : pte_frame e =
    if negb (Z.testbit e 0) then FrameNotPresent
    else if Z.testbit e 7 then HugeFrame
    else FrameOk (Z.land e ADDR_MASK);
}.

(** [VirtAddr::new], which panics where [try_new] fails. *)
Definition va_new `{X86Crate} (a : Z) : outcome Z :=
  expect (va_try_new a) "address passed to VirtAddr::new must not contain any data in bits 48 to 64".

(** ** A concrete instance, for evaluating the model *)

Definition sign_extend_47 (a : Z) : option Z :=
  if a <? 2 ^ 47 then Some a
  else if a <? 2 ^ 48 then Some (a + (2 ^ 64 - 2 ^ 48))
  else if a <? 2 ^ 64 - 2 ^ 47 then None
  else Some a.

#[refine] Definition x86_crate : X86Crate := {|
  va_try_new := sign_extend_47;
  va_add a n := if a + n <? 2 ^ 64 then sign_extend_47 (a + n) else None;
  va_index l a := Z.to_nat ((a / 2 ^ (12 + 9 * (Z.of_nat l - 1))) mod 512);
  va_page_offset a := a mod PAGE_SIZE;
  page_containing a := a - a mod PAGE_SIZE;
  pa_new a := if a <? 2 ^ 52 then Some a else None;
  frame_containing a := a - a mod PAGE_SIZE;
  pte_flags e := Z.land e 0xfff0000000000fff;
  pte_frame e := if negb (Z.testbit e 0) then FrameNotPresent
                 else if Z.testbit e 7 then HugeFrame else FrameOk (Z.land e ADDR_MASK);
|}.
Proof.
  all: unfold sign_extend_47, canonical; intros.
  1-4: cases_Z; first [done | lia].
  all: try done.
  - rewrite Z2Nat.id; [done|]. apply Z.mod_pos_bound. lia.
  - cases_Z; [done|lia].
  - cases_Z; [lia|done].
  - rewrite Z.land_spec.
    repeat (match goal with H : i ∈ _ :: _ |- _ => apply elem_of_cons in H as [->|H] end;
      [by rewrite andb_true_r|]).
    by apply not_elem_of_nil in H.
Defined.

Lemma va_add_low `{X86Crate} a n : 0 <= a -> 0 <= n -> a + n < 2 ^ 47 -> va_add a n = Some (a + n).
Proof. intros. rewrite va_add_new by lia. apply va_try_new_canonical. unfold canonical. lia. Qed.

Lemma va_add_high `{X86Crate} a n : 2 ^ 64 - 2 ^ 47 <= a -> 0 <= n -> a + n < 2 ^ 64 -> va_add a n = Some (a + n).
Proof. intros. rewrite va_add_new by lia. apply va_try_new_canonical. unfold canonical. lia. Qed.

(** ** Physical memory

    Physical memory is a function from byte addresses to bytes.  The kernel
    reaches physical byte [p] through the alias [physical_memory_offset + p]
    that the bootloader maps in every address space; the model reads and
    writes [p] itself. *)

Definition mem : Type := Z -> Z.

Definition read_bytes (m : mem) (a : Z) (n : nat) : list Z :=
  (fun k => m (a + Z.of_nat k)) <$> seq 0 n.

Definition read_u64_at (m : mem) (a : Z) : Z := le_decode (read_bytes m a 8).

Definition write_list (m : mem) (a : Z) (bs : list Z) : mem := fun x =>
  if (a <=? x) && (x <? a + Z.of_nat (length bs)) then nth (Z.to_nat (x - a)) bs 0 else m x.

Definition write_u64_at (m : mem) (a v : Z) : mem := write_list m a (le_encode 8 v).

(** [core::ptr::write_bytes(p, 0, n)]. *)
Definition zero_bytes (m : mem) (a n : Z) : mem := fun x =>
  if (a <=? x) && (x <? a + n) then 0 else m x.

(** Entry [i] of the page table in frame [t]. *)
Definition table_entry (m : mem) (t : Z) (i : nat) : Z := read_u64_at m (t + 8 * Z.of_nat i).
Definition set_table_entry (m : mem) (t : Z) (i : nat) (e : Z) : mem :=
  write_u64_at m (t + 8 * Z.of_nat i) e.

Lemma length_read_bytes m a n : length (read_bytes m a n) = n.
Proof. unfold read_bytes. by rewrite length_fmap, length_seq. Qed.

Lemma read_bytes_ext m m' a n :
  (forall x, a <= x < a + Z.of_nat n -> m x = m' x) -> read_bytes m a n = read_bytes m' a n.
Proof.
  intros H. unfold read_bytes. apply list_fmap_ext. intros i k Hk.
  apply lookup_seq in Hk as [-> Hk]. apply H. lia.
Qed.

Lemma read_u64_ext m m' a :
  (forall x, a <= x < a + 8 -> m x = m' x) -> read_u64_at m a = read_u64_at m' a.
Proof. intros H. unfold read_u64_at. f_equal. by apply read_bytes_ext. Qed.

Lemma write_list_same m a bs n :
  n = length bs -> read_bytes (write_list m a bs) a n = bs.
Proof.
  intros ->. unfold read_bytes, write_list. apply list_eq. intros i.
  destruct (decide (i < length bs)%nat) as [Hi|Hi].
  - rewrite list_lookup_fmap, lookup_seq_lt by lia. simpl.
    destruct (lookup_lt_is_Some_2 bs i Hi) as [b Hb]. rewrite Hb.
    cases_Z; try lia. simpl. f_equal.
    replace (Z.to_nat _) with i by lia. by apply nth_lookup_Some.
  - rewrite !lookup_ge_None_2; [done|lia|]. rewrite length_fmap, length_seq. lia.
Qed.

Lemma write_list_other m a bs x :
  x < a \/ a + Z.of_nat (length bs) <= x -> write_list m a bs x = m x.
Proof. intros H. unfold write_list. cases_Z; simpl; first [done|lia]. Qed.

Lemma zero_bytes_in m a n x : a <= x < a + n -> zero_bytes m a n x = 0.
Proof. intros H. unfold zero_bytes. cases_Z; simpl; first [done|lia]. Qed.

Lemma zero_bytes_other m a n x : x < a \/ a + n <= x -> zero_bytes m a n x = m x.
Proof. intros H. unfold zero_bytes. cases_Z; simpl; first [done|lia]. Qed.

Lemma read_u64_write_same m a v : is_u64 v -> read_u64_at (write_u64_at m a v) a = v.
Proof.
  intros H. unfold read_u64_at, write_u64_at.
  rewrite write_list_same by by rewrite length_le_encode.
  apply le_decode_encode. exact H.
Qed.

Lemma write_u64_other m a v x : x < a \/ a + 8 <= x -> write_u64_at m a v x = m x.
Proof. intros H. apply write_list_other. by rewrite length_le_encode. Qed.

Lemma table_entry_ext m m' t i :
  (i < 512)%nat -> (forall x, t <= x < t + PAGE_SIZE -> m x = m' x) ->
  table_entry m t i = table_entry m' t i.
Proof. intros Hi H. apply read_u64_ext. intros x Hx. apply H. unfold PAGE_SIZE. lia. Qed.

Lemma set_table_entry_same m t i e : is_u64 e -> table_entry (set_table_entry m t i e) t i = e.
Proof. apply read_u64_write_same. Qed.

Lemma set_table_entry_ne m t i j e : i <> j -> table_entry (set_table_entry m t i e) t j = table_entry m t j.
Proof. intros H. apply read_u64_ext. intros x Hx. apply write_u64_other. lia. Qed.

Lemma set_table_entry_outside m t i e x :
  (i < 512)%nat -> x < t \/ t + PAGE_SIZE <= x -> set_table_entry m t i e x = m x.
Proof. unfold PAGE_SIZE. intros ??. apply write_u64_other. lia. Qed.

Lemma table_entry_zeroed m t i : (i < 512)%nat -> table_entry (zero_bytes m t PAGE_SIZE) t i = 0.
Proof.
  intros Hi. unfold table_entry, read_u64_at.
  rewrite (read_bytes_ext _ (fun _ => 0)); [done|].
  intros x Hx. apply zero_bytes_in. unfold PAGE_SIZE. lia.
Qed.

(** ** The access check of the processor

    A 4-level walk in 64-bit mode, for an access from privilege level 3.
    Bit 7 of a level-3 or level-2 entry maps a huge page; a page is reachable
    from level 3 only if every entry of the walk is present and has the U/S
    bit, and writable only if every entry has the R/W bit. *)

Definition pte_allows (e : Z) (write : bool) : bool :=
  Z.testbit e 0 && Z.testbit e 2 && (negb write || Z.testbit e 1).

Definition level_shift (l : nat) : Z := 12 + 9 * (Z.of_nat l - 1).

Definition hw_index (l : nat) (va : Z) : nat := Z.to_nat ((va / 2 ^ level_shift l) mod 512).

Fixpoint mmu_walk (m : mem) (t : Z) (l : nat) (va : Z) (write : bool) : option Z :=
  match l with
  | O => None
  | S l' =>
      let e := table_entry m t (hw_index l va) in
      if negb (pte_allows e write) then None
      else match l' with
           | O => Some (Z.land e ADDR_MASK + va mod 2 ^ level_shift l)
           | S _ =>
               if Z.testbit e 7 && negb (Nat.eqb l 4)
               then Some (Z.land e ADDR_MASK - Z.land e ADDR_MASK mod 2 ^ level_shift l
                          + va mod 2 ^ level_shift l)
               else mmu_walk m (Z.land e ADDR_MASK) l' va write
           end
  end.

(** The physical byte an access of level 3 to [va] reaches under the page
    tables rooted at [cr3]; [None] is a fault.  A non-canonical address
    faults before any walk. *)
Definition mmu_access (m : mem) (cr3 va : Z) (write : bool) : option Z :=
  if bool_decide (canonical va) then mmu_walk m cr3 4 va write else None.

(** Every cell of memory holds a byte. *)
Definition mem_ok (m : mem) : Prop := forall x, is_u8 (m x).

Lemma table_entry_u64 m t i : mem_ok m -> is_u64 (table_entry m t i).
Proof.
  intros Hm. unfold table_entry, read_u64_at.
  pose proof (le_decode_bound (read_bytes m (t + 8 * Z.of_nat i) 8)) as H.
  rewrite length_read_bytes in H. apply H. unfold read_bytes. apply Forall_fmap, Forall_forall.
  intros k _. apply Hm.
Qed.

Lemma mem_ok_write_list m a bs : mem_ok m -> Forall is_u8 bs -> mem_ok (write_list m a bs).
Proof.
  intros Hm Hbs x. unfold write_list. destruct (_ && _) eqn:E; [|apply Hm].
  apply andb_true_iff in E as [?%Z.leb_le ?%Z.ltb_lt].
  destruct (lookup_lt_is_Some_2 bs (Z.to_nat (x - a))) as [b Hb]; [lia|].
  rewrite (nth_lookup_Some _ _ _ _ Hb). by eapply Forall_lookup_1.
Qed.

Lemma mem_ok_zero_bytes m a n : mem_ok m -> mem_ok (zero_bytes m a n).
Proof. intros Hm x. unfold zero_bytes. destruct (_ && _); [unfold is_u8; lia|apply Hm]. Qed.

Lemma mem_ok_set_table_entry m t i e : mem_ok m -> mem_ok (set_table_entry m t i e).
Proof. intros Hm. apply mem_ok_write_list; [done|apply le_encode_bytes]. Qed.

#[export] Hint Resolve table_entry_u64 mem_ok_write_list mem_ok_zero_bytes mem_ok_set_table_entry : velora.
