(* ===== verification/Asm.v ===== *)
(** * The assembly of the kernel

    The x86-64 instructions that the naked functions and [asm!] blocks of
    the kernel use, on a processor with registers, an address space and
    memory.  Memory is the kernel's own, which every address space that maps
    an address shows alike; an access to an address that the active address
    space does not map faults. *)

From S2P Require Import Prelude X86.

Inductive reg :=
  RAX | RCX | RDX | RBX | RSP | RBP | RSI | RDI | R8 | R9 | R10 | R11 | R12 | R13 | R14 | R15.

#[global] Instance reg_eq_dec : EqDecision reg.
Proof. solve_decision. Defined.

(** A closed decidable statement, evaluated. *)
Ltac decided := lazymatch goal with |- ?P => exact (bool_decide_eq_true_1 P eq_refl) end.

Record Cpu := mkCpu {
  regs : reg -> Z;
  ram : mem;
  cpu_cr3 : Z;
  rip : Z;
  cs : Z;
  ss : Z;
  rflags : Z;
}.

Definition upd (r : reg) (v : Z) (f : reg -> Z) : reg -> Z := fun r' => if decide (r' = r) then v else f r'.

Definition set_reg (r : reg) (v : Z) (c : Cpu) : Cpu :=
  mkCpu (upd r v (regs c)) (ram c) (cpu_cr3 c) (rip c) (cs c) (ss c) (rflags c).
Definition set_ram (m : mem) (c : Cpu) : Cpu :=
  mkCpu (regs c) m (cpu_cr3 c) (rip c) (cs c) (ss c) (rflags c).
Definition set_cpu_cr3 (t : Z) (c : Cpu) : Cpu :=
  mkCpu (regs c) (ram c) t (rip c) (cs c) (ss c) (rflags c).
Definition set_rip (a : Z) (c : Cpu) : Cpu :=
  mkCpu (regs c) (ram c) (cpu_cr3 c) a (cs c) (ss c) (rflags c).

(** A [Call] is given what the callee does, from its first instruction to
    after its [ret], and the address it returns to. *)
Inductive instr :=
| Push (r : reg)
| Pop (r : reg)
| Mov (dst src : reg)
| Load (dst base : reg) (offset : Z)
| Store (base : reg) (offset : Z) (src : reg)
| MovCr3 (src : reg)
| And (r : reg) (imm : Z)
| Call (callee : Cpu -> outcome Cpu) (return_to : Z)
| Ret
| Iretq.

Section Machine.
(** Whether a top-level table maps an address for the kernel to read and
    write. *)
Variable mapped : Z -> Z -> bool.

Definition reaches (c : Cpu) (a : Z) : bool := mapped (cpu_cr3 c) a && mapped (cpu_cr3 c) (a + 7).

Definition asm_load (c : Cpu) (a : Z) : outcome Z :=
  if reaches c a then Ok (read_u64_at (ram c) a) else Panic "page fault".

Definition asm_store (a v : Z) (c : Cpu) : outcome Cpu :=
  if reaches c a then Ok (set_ram (write_u64_at (ram c) a v) c) else Panic "page fault".

Definition wrap64 (v : Z) : Z := v mod 2 ^ 64.

Definition asm_push (v : Z) (c : Cpu) : outcome Cpu :=
  let a := wrap64 (regs c RSP - 8) in
  c' ← asm_store a v c;
  Ok (set_reg RSP a c').

Definition asm_pop (c : Cpu) : outcome (Z * Cpu) :=
  v ← asm_load c (regs c RSP);
  Ok (v, set_reg RSP (wrap64 (regs c RSP + 8)) c).

Definition exec (i : instr) (c : Cpu) : outcome Cpu :=
  match i with
  | Push r => asm_push (regs c r) c
  | Pop r => '(v, c') ← asm_pop c; Ok (set_reg r v c')
  | Mov dst src => Ok (set_reg dst (regs c src) c)
  | Load dst base offset => v ← asm_load c (wrap64 (regs c base + offset)); Ok (set_reg dst v c)
  | Store base offset src => asm_store (wrap64 (regs c base + offset)) (regs c src) c
  | MovCr3 src => Ok (set_cpu_cr3 (regs c src) c)
  | And r imm => Ok (set_reg r (Z.land (regs c r) (wrap64 imm)) c)
  | Call callee return_to => c' ← asm_push return_to c; callee c'
  | Ret => '(v, c') ← asm_pop c; Ok (set_rip v c')
  | Iretq =>
      '(new_rip, c1) ← asm_pop c;
      '(new_cs, c2) ← asm_pop c1;
      '(new_rflags, c3) ← asm_pop c2;
      '(new_rsp, c4) ← asm_pop c3;
      '(new_ss, c5) ← asm_pop c4;
      Ok (mkCpu (upd RSP new_rsp (regs c5)) (ram c5) (cpu_cr3 c5) new_rip new_cs new_ss new_rflags)
  end.

Definition exec_all (code : list instr) (c : Cpu) : outcome Cpu := foldM exec code c.

Lemma exec_all_app code code' c : exec_all (code ++ code') c = (c' ← exec_all code c; exec_all code' c').
Proof. apply foldM_app. Qed.

(** ** Stacks *)

(** The address space [t] maps the bytes of a region. *)
Definition maps_region (t lo hi : Z) : Prop := forall a, lo <= a < hi -> mapped t a = true.

Lemma maps_region_sub t lo hi lo' hi' : lo <= lo' -> hi' <= hi -> maps_region t lo hi -> maps_region t lo' hi'.
Proof. intros ?? Hm a Ha. apply Hm. lia. Qed.

Lemma reaches_ok c a lo hi : maps_region (cpu_cr3 c) lo hi -> lo <= a -> a + 8 <= hi -> reaches c a = true.
Proof. intros Hm ??. unfold reaches. by rewrite !Hm by lia. Qed.

(** The words of the stack from address [a] upwards. *)
Fixpoint words (m : mem) (a : Z) (n : nat) : list Z :=
  match n with O => [] | S n => read_u64_at m a :: words m (a + 8) n end.

Lemma length_words m a n : length (words m a n) = n.
Proof. revert a; induction n as [|n IH]; intros a; cbn [words length]; [done|by rewrite IH]. Qed.

Lemma words_app m a n n' : words m a (n + n') = words m a n ++ words m (a + 8 * Z.of_nat n) n'.
Proof.
  revert a; induction n as [|n IH]; intros a; cbn [words Nat.add app]; [f_equal; lia|].
  rewrite IH. do 3 f_equal. lia.
Qed.

Lemma words_ext m m' a n :
  (forall x, a <= x < a + 8 * Z.of_nat n -> m x = m' x) -> words m a n = words m' a n.
Proof.
  revert a; induction n as [|n IH]; intros a Hx; cbn [words]; [done|].
  f_equal; [apply read_u64_ext|apply IH]; intros; apply Hx; lia.
Qed.

Lemma words_lookup m a n i : (i < n)%nat -> words m a n !! i = Some (read_u64_at m (a + 8 * Z.of_nat i)).
Proof.
  revert a i; induction n as [|n IH]; intros a i Hi; [lia|].
  destruct i as [|i]; cbn [words lookup list_lookup]; [do 2 f_equal; lia|].
  rewrite IH by lia. do 2 f_equal. lia.
Qed.

Lemma upd_same r v f : upd r v f r = v.
Proof. unfold upd. by rewrite decide_True. Qed.

Lemma upd_other r v f r' : r' <> r -> upd r v f r' = f r'.
Proof. intros. unfold upd. by rewrite decide_False. Qed.

Lemma wrap64_small v : is_u64 v -> wrap64 v = v.
Proof. apply Z.mod_small. Qed.

(** A run of the machine that changed the stack pointer to [sp] and memory
    to [m], and no other register. *)
Definition moved (c : Cpu) (sp : Z) (m : mem) : Cpu := set_ram m (set_reg RSP sp c).

Lemma asm_push_ok v c lo :
  maps_region (cpu_cr3 c) lo (regs c RSP) -> 0 <= lo -> lo <= regs c RSP - 8 -> regs c RSP < 2 ^ 64 ->
  asm_push v c = Ok (moved c (regs c RSP - 8) (write_u64_at (ram c) (regs c RSP - 8) v)).
Proof.
  intros Hm ???. unfold asm_push, asm_store. rewrite wrap64_small by (unfold is_u64; lia).
  rewrite (reaches_ok _ _ lo (regs c RSP)) by (done || lia). done.
Qed.

Lemma asm_pop_ok c hi :
  maps_region (cpu_cr3 c) (regs c RSP) hi -> 0 <= regs c RSP -> regs c RSP + 8 <= hi -> hi < 2 ^ 64 ->
  asm_pop c = Ok (read_u64_at (ram c) (regs c RSP), set_reg RSP (regs c RSP + 8) c).
Proof.
  intros Hm ???. unfold asm_pop, asm_load. rewrite (reaches_ok _ _ (regs c RSP) hi) by (done || lia).
  cbn [mbind outcome_bind]. by rewrite wrap64_small by (unfold is_u64; lia).
Qed.

(** The values [vs] pushed, the first one first. *)
Definition push_all (vs : list Z) (c : Cpu) : outcome Cpu := foldM asm_push vs c.

Record pushed (vs : list Z) (c c' : Cpu) : Prop := {
  pushed_rsp : regs c' RSP = regs c RSP - 8 * Z.of_nat (length vs);
  pushed_regs r : r <> RSP -> regs c' r = regs c r;
  pushed_rest : cpu_cr3 c' = cpu_cr3 c /\ rip c' = rip c /\ cs c' = cs c /\ ss c' = ss c /\ rflags c' = rflags c;
  pushed_words : words (ram c') (regs c' RSP) (length vs) = reverse vs;
  pushed_outside x : x < regs c' RSP \/ regs c RSP <= x -> ram c' x = ram c x;
}.

Lemma push_all_ok vs c lo :
  Forall is_u64 vs -> maps_region (cpu_cr3 c) lo (regs c RSP) ->
  0 <= lo <= regs c RSP - 8 * Z.of_nat (length vs) -> regs c RSP < 2 ^ 64 ->
  exists c', push_all vs c = Ok c' /\ pushed vs c c'.
Proof.
  revert c. induction vs as [|v vs IH]; intros c Hu Hm Hlo H64.
  { exists c. split; [done|]. split; cbn; try done. lia. }
  cbn [length] in Hlo. apply Forall_cons in Hu as [Hv Hu].
  set (c1 := moved c (regs c RSP - 8) (write_u64_at (ram c) (regs c RSP - 8) v)).
  assert (E1 : asm_push v c = Ok c1) by (apply (asm_push_ok _ _ lo); [done|lia..]).
  assert (R1 : regs c1 RSP = regs c RSP - 8) by apply upd_same.
  assert (R2 : forall r, r <> RSP -> regs c1 r = regs c r) by (intros; by apply upd_other).
  destruct (IH c1) as (c' & E & [P1 P2 P3 P4 P5]); [done| |rewrite R1; lia..|].
  { rewrite R1. apply (maps_region_sub _ lo (regs c RSP)); [lia..|done]. }
  exists c'. split; [cbn [push_all foldM]; unfold push_all in *; by rewrite E1|].
  rewrite R1 in P1, P5.
  assert (Hw : read_u64_at (ram c') (regs c RSP - 8) = v).
  { rewrite (read_u64_ext (ram c') (ram c1)) by (intros x Hx; apply P5; lia).
    by apply read_u64_write_same. }
  split; [cbn [length]; lia| |done| |].
  - intros r' Hr'. by rewrite P2, R2.
  - cbn [length]. rewrite reverse_cons, <- Nat.add_1_r, words_app, P4. f_equal.
    cbn [words]. rewrite P1. replace (_ + _) with (regs c RSP - 8) by lia. by rewrite Hw.
  - intros x Hx. rewrite P5 by lia. apply write_u64_other. lia.
Qed.

Lemma exec_push_all rs c :
  RSP ∉ rs -> exec_all (Push <$> rs) c = push_all (regs c <$> rs) c.
Proof.
  revert c. induction rs as [|r rs IH]; intros c Hns; [done|].
  apply not_elem_of_cons in Hns as [Hr Hns]. cbn [fmap list_fmap exec_all push_all foldM].
  unfold exec_all, push_all in *. cbn [exec]. unfold asm_push, asm_store.
  destruct (reaches c _); [|done]. cbn [mbind outcome_bind]. rewrite IH by done. f_equal.
  apply list_fmap_ext. intros i r' Hi. apply upd_other. intros ->. by apply Hns, (list_elem_of_lookup_2 _ i).
Qed.

Lemma exec_pushes rs c lo :
  RSP ∉ rs -> (forall r, is_u64 (regs c r)) ->
  maps_region (cpu_cr3 c) lo (regs c RSP) -> 0 <= lo <= regs c RSP - 8 * Z.of_nat (length rs) ->
  exists c', exec_all (Push <$> rs) c = Ok c' /\ pushed (regs c <$> rs) c c'.
Proof.
  intros Hns Hu Hm Hlo. rewrite exec_push_all by done.
  apply (push_all_ok _ _ lo); [by apply Forall_fmap, Forall_true|done|by rewrite length_fmap|apply Hu].
Qed.

(** The state after the registers [rs] have been popped. *)
Record popped (rs : list reg) (c c' : Cpu) : Prop := {
  popped_rsp : regs c' RSP = regs c RSP + 8 * Z.of_nat (length rs);
  popped_regs : regs c' <$> rs = words (ram c) (regs c RSP) (length rs);
  popped_others r : r <> RSP -> r ∉ rs -> regs c' r = regs c r;
  popped_rest : ram c' = ram c /\ cpu_cr3 c' = cpu_cr3 c;
}.

Lemma exec_pops rs c hi :
  RSP ∉ rs -> NoDup rs -> 0 <= regs c RSP ->
  maps_region (cpu_cr3 c) (regs c RSP) hi -> regs c RSP + 8 * Z.of_nat (length rs) <= hi -> hi < 2 ^ 64 ->
  exists c', exec_all (Pop <$> rs) c = Ok c' /\ popped rs c c'.
Proof.
  revert c. induction rs as [|r rs IH]; intros c Hns Hnd Hs Hm Hhi H64.
  { exists c. split; [done|]. split; cbn; try done. lia. }
  cbn [length] in Hhi. apply not_elem_of_cons in Hns as [Hr Hns]. apply NoDup_cons in Hnd as [Hnr Hnd].
  set (c1 := set_reg r (read_u64_at (ram c) (regs c RSP)) (set_reg RSP (regs c RSP + 8) c)).
  assert (E1 : exec (Pop r) c = Ok c1) by (cbn [exec]; by rewrite (asm_pop_ok c hi) by (done || lia)).
  assert (R1 : regs c1 RSP = regs c RSP + 8) by (unfold c1; cbn; rewrite upd_other by done; apply upd_same).
  assert (R2 : forall r', r' <> RSP -> r' <> r -> regs c1 r' = regs c r')
    by (intros; unfold c1; cbn; by rewrite !upd_other by done).
  assert (R3 : regs c1 r = read_u64_at (ram c) (regs c RSP)) by apply upd_same.
  destruct (IH c1) as (c' & E & [P1 P2 P3 P4]); [done..|rewrite R1; lia| |rewrite R1; lia|done|].
  { rewrite R1. apply (maps_region_sub _ (regs c RSP) hi); [lia..|done]. }
  exists c'. split; [cbn [fmap list_fmap exec_all foldM]; unfold exec_all in *; by rewrite E1|].
  split; [rewrite P1, R1; cbn [length]; lia| |  |done].
  - cbn [fmap list_fmap length words]. f_equal; [rewrite P3 by done; exact R3|]. rewrite R1 in P2. exact P2.
  - intros r' H1 H2. apply not_elem_of_cons in H2 as [? ?]. by rewrite P3, R2.
Qed.
End Machine.
