(* ===== verification/FrameAlloc.v ===== *)
(** * The physical frame allocator (src/memory.rs)

    [BootInfoFrameAllocator] hands out the usable frames of the bootloader's
    memory map through a cursor, and frames given back to it, most recently
    freed first, before any fresh one.  The traits [FrameAllocator] and
    [FrameDeallocator] of the x86_64 crate are type classes;
    [LawfulFrameAllocator] states what the code that maps memory relies on.

    [free_list] is a [Vec], here the list of its elements.  Its storage is on
    the kernel heap, which [push] asks for more when it is full; this is not
    modelled, so that [boot_deallocate_frame] neither changes the heap nor
    panics when the heap is exhausted. *)

From S2P Require Import Prelude X86.

(** ** The traits *)

Class FrameAllocator (A : Type) := allocate_frame : A -> outcome (option Z * A).
Class FrameDeallocator (A : Type) := deallocate_frame : Z -> A -> outcome A.

(** A lawful allocator is a stack of frames: allocation takes the top frame,
    and fails only when there is none; deallocation puts a frame back on
    top. *)
Class LawfulFrameAllocator (A : Type) `{!FrameAllocator A, !FrameDeallocator A} := {
  fa_inv : A -> Prop;
  fa_avail : A -> list Z;
  fa_alloc_none a : fa_inv a -> fa_avail a = [] ->
    exists a', allocate_frame a = Ok (None, a') /\ fa_inv a' /\ fa_avail a' = [];
  fa_alloc_some a f l : fa_inv a -> fa_avail a = f :: l ->
    exists a', allocate_frame a = Ok (Some f, a') /\ fa_inv a' /\ fa_avail a' = l;
  fa_dealloc a f : fa_inv a ->
    exists a', deallocate_frame f a = Ok a' /\ fa_inv a' /\ fa_avail a' = f :: fa_avail a;
}.

(** [EmptyFrameAllocator]: always [None]. *)
Inductive EmptyFrameAllocator := empty_frame_allocator.

Definition empty_allocate_frame (a : EmptyFrameAllocator)
    : outcome (option Z * EmptyFrameAllocator) := Ok (None, a).

#[export] Instance EmptyFrameAllocator_alloc : FrameAllocator EmptyFrameAllocator :=
  empty_allocate_frame.

(** ** The memory map of the bootloader *)

Inductive MemoryRegionType := Usable | NotUsable.

#[export] Instance MemoryRegionType_eq_dec : EqDecision MemoryRegionType.
Proof. solve_decision. Defined.

Record MemoryRegion := {
  region_type : MemoryRegionType;
  start_addr : Z;
  end_addr : Z;
}.

(** The test of [skip_to_next_usable_region]. *)
Definition region_usable (r : MemoryRegion) : bool :=
  bool_decide (region_type r = Usable) && (start_addr r <? end_addr r).

(** ** The allocator *)

Record BootInfoFrameAllocator := mkBootInfoFrameAllocator {
  memory_map : list MemoryRegion;
  region_index : nat;
  next_frame_addr : Z;
  free_list : option (list Z);
}.

(** The [while] loop of [skip_to_next_usable_region], on the regions that
    are left: the index and the primed [next_frame_addr]. *)
Fixpoint skip_regions (regions : list MemoryRegion) (index : nat) (next : Z) : nat * Z :=
  match regions with
  | [] => (index, next)
  | region :: rest =>
      if region_usable region then (index, start_addr region)
      else skip_regions rest (S index) next
  end.

Definition skip_to_next_usable_region (a : BootInfoFrameAllocator) : BootInfoFrameAllocator :=
  let '(index, next) :=
    skip_regions (drop (region_index a) (memory_map a)) (region_index a) (next_frame_addr a) in
  mkBootInfoFrameAllocator (memory_map a) index next (free_list a).

(** [BootInfoFrameAllocator::init]. *)
Definition frame_allocator_init (map : list MemoryRegion) : BootInfoFrameAllocator :=
  skip_to_next_usable_region (mkBootInfoFrameAllocator map 0 0 None).

Section Allocator.
Context {crate : X86Crate}.

(** [allocate_frame], after the free list turned out to be empty. *)
Definition allocate_fresh (a : BootInfoFrameAllocator)
    : outcome (option Z * BootInfoFrameAllocator) :=
  if (length (memory_map a) <=? region_index a)%nat then Ok (None, a)
  else
    addr ← expect (pa_new (next_frame_addr a)) "PhysAddr::new";
    let frame := frame_containing addr in
    next ← add_w 64 (next_frame_addr a) 4096;
    region ← expect (memory_map a !! region_index a) "index out of bounds";
    if end_addr region <=? next then
      Ok (Some frame, skip_to_next_usable_region
        (mkBootInfoFrameAllocator (memory_map a) (S (region_index a)) next (free_list a)))
    else Ok (Some frame, mkBootInfoFrameAllocator (memory_map a) (region_index a) next (free_list a)).

Definition boot_allocate_frame (a : BootInfoFrameAllocator)
    : outcome (option Z * BootInfoFrameAllocator) :=
  match free_list a ≫= vec_pop with
  | Some (frame, rest) =>
      Ok (Some frame,
          mkBootInfoFrameAllocator (memory_map a) (region_index a) (next_frame_addr a) (Some rest))
  | None => allocate_fresh a
  end.

Definition boot_deallocate_frame (frame : Z) (a : BootInfoFrameAllocator)
    : outcome BootInfoFrameAllocator :=
  Ok (mkBootInfoFrameAllocator (memory_map a) (region_index a) (next_frame_addr a)
        (Some (vec_push (default [] (free_list a)) frame))).

#[export] Instance BootInfoFrameAllocator_alloc : FrameAllocator BootInfoFrameAllocator :=
  boot_allocate_frame.
#[export] Instance BootInfoFrameAllocator_dealloc : FrameDeallocator BootInfoFrameAllocator :=
  boot_deallocate_frame.

(** ** The global allocator: [FRAME_ALLOCATOR] behind [GlobalFrameAllocator] *)

Definition GlobalFrameAllocator : Type := option BootInfoFrameAllocator.

Definition init_frame_allocator (map : list MemoryRegion) : GlobalFrameAllocator :=
  Some (frame_allocator_init map).

Definition global_allocate_frame (g : GlobalFrameAllocator)
    : outcome (option Z * GlobalFrameAllocator) :=
  a ← expect g "memory::init_frame_allocator was never called";
  '(r, a') ← allocate_frame a;
  Ok (r, Some a').

Definition global_deallocate_frame (frame : Z) (g : GlobalFrameAllocator)
    : outcome GlobalFrameAllocator :=
  a ← expect g "memory::init_frame_allocator was never called";
  a' ← deallocate_frame frame a;
  Ok (Some a').

#[export] Instance GlobalFrameAllocator_alloc : FrameAllocator GlobalFrameAllocator :=
  global_allocate_frame.
#[export] Instance GlobalFrameAllocator_dealloc : FrameDeallocator GlobalFrameAllocator :=
  global_deallocate_frame.
End Allocator.

(** ** The reference: the usable frames, in order

    An earlier version of the allocator recomputed this list on every call
    and took its next element; the cursor must hand out the same frames. *)

Definition frame_count (bytes : Z) : nat := Z.to_nat ((bytes + 4095) / 4096).

Definition region_frames (r : MemoryRegion) : list Z :=
  if region_usable r then stride (start_addr r) 4096 (frame_count (end_addr r - start_addr r)) else [].

Definition usable_frames (map : list MemoryRegion) : list Z := map ≫= region_frames.

(** The bootloader's map is made of whole frames below the physical address
    limit. *)
Definition region_ok (r : MemoryRegion) : Prop :=
  0 <= start_addr r /\ start_addr r mod 4096 = 0 /\ end_addr r <= 2 ^ 52.

Section AllocatorLaws.
Context {crate : X86Crate}.
Implicit Types (a : BootInfoFrameAllocator) (map : list MemoryRegion).

Definition fresh_frames a : list Z :=
  match memory_map a !! region_index a with
  | Some r => stride (next_frame_addr a) 4096 (frame_count (end_addr r - next_frame_addr a))
              ++ usable_frames (drop (S (region_index a)) (memory_map a))
  | None => []
  end.

Definition alloc_avail a : list Z := reverse (default [] (free_list a)) ++ fresh_frames a.

Definition alloc_inv a : Prop :=
  Forall region_ok (memory_map a) /\
  forall r, memory_map a !! region_index a = Some r ->
    region_usable r = true /\ start_addr r <= next_frame_addr a < end_addr r /\
    next_frame_addr a mod 4096 = 0.

Lemma region_usable_lt r : region_usable r = true -> start_addr r < end_addr r.
Proof. unfold region_usable. intros [_ H]%andb_true_iff. lia. Qed.

Lemma skip_regions_spec map pre regions next :
  map = pre ++ regions ->
  let '(index, next') := skip_regions regions (length pre) next in
  (forall r, map !! index = Some r -> region_usable r = true /\ next' = start_addr r) /\
  usable_frames regions = usable_frames (drop index map).
Proof.
  revert pre; induction regions as [|r rest IH]; intros pre ->; simpl.
  - split.
    + intros r. rewrite lookup_ge_None_2; [done|len].
    + by rewrite app_nil_r, drop_all.
  - destruct (region_usable r) eqn:Hu.
    + rewrite list_lookup_middle, drop_app_length by done. split; [|done]. intros ? [= <-]. done.
    + specialize (IH (pre ++ [r])). rewrite <- app_assoc in IH. specialize (IH eq_refl).
      replace (length (pre ++ [r])) with (S (length pre)) in IH by len.
      destruct (skip_regions rest (S (length pre)) next) as [index next'].
      destruct IH as [IH1 IH2]. split; [done|].
      unfold usable_frames at 1. simpl. unfold region_frames at 1. rewrite Hu. done.
Qed.

Lemma skip_lawful a :
  Forall region_ok (memory_map a) -> (region_index a <= length (memory_map a))%nat ->
  alloc_inv (skip_to_next_usable_region a) /\
  fresh_frames (skip_to_next_usable_region a) = usable_frames (drop (region_index a) (memory_map a)).
Proof.
  intros Hok Hi. unfold skip_to_next_usable_region.
  pose proof (skip_regions_spec (memory_map a) (take (region_index a) (memory_map a))
    (drop (region_index a) (memory_map a)) (next_frame_addr a)) as H.
  rewrite take_drop, length_take, Nat.min_l in H by lia. specialize (H eq_refl).
  destruct (skip_regions _ _ _) as [index next]. destruct H as [H1 H2].
  unfold alloc_inv, fresh_frames; simpl. split; [split; [done|]|].
  - intros r Hr. destruct (H1 r Hr) as [Hu ->].
    pose proof (region_usable_lt r Hu). rewrite Forall_lookup in Hok.
    destruct (Hok _ _ Hr) as (? & ? & ?). done || (split_and!; lia || done).
  - rewrite H2. destruct (memory_map a !! index) as [r|] eqn:Hr.
    + destruct (H1 r eq_refl) as [Hu ->]. rewrite (drop_S _ _ _ Hr).
      unfold usable_frames. simpl. unfold region_frames at 2. by rewrite Hu.
    + rewrite drop_ge; [done|]. by apply lookup_ge_None.
Qed.

Lemma frame_count_step bytes : 0 < bytes -> frame_count bytes = S (frame_count (bytes - 4096)).
Proof.
  intros H. unfold frame_count.
  replace (bytes - 4096 + 4095) with (bytes + 4095 + (-1) * 4096) by lia.
  rewrite Z.div_add by lia.
  assert (1 <= (bytes + 4095) / 4096) by (apply Z.div_le_lower_bound; lia). lia.
Qed.

Lemma frame_count_none bytes : bytes <= 0 -> frame_count bytes = 0%nat.
Proof.
  intros H. unfold frame_count.
  assert ((bytes + 4095) / 4096 < 1) by (apply Z.div_lt_upper_bound; lia). lia.
Qed.

(** One fresh allocation: the head of [fresh_frames], and the rest of them
    afterwards; the free list is not touched. *)
Lemma allocate_fresh_spec a :
  alloc_inv a ->
  match fresh_frames a with
  | [] => allocate_fresh a = Ok (None, a)
  | f :: l => exists a', allocate_fresh a = Ok (Some f, a') /\ alloc_inv a' /\
      fresh_frames a' = l /\ free_list a' = free_list a
  end.
Proof.
  intros [Hok Hcur]. unfold allocate_fresh, fresh_frames at 1.
  destruct (memory_map a !! region_index a) as [r|] eqn:Hr.
  - destruct (Hcur r eq_refl) as (Hu & Hn & Hal). assert (Hr' := Hr).
    apply lookup_lt_Some in Hr'. rewrite Forall_lookup in Hok.
    destruct (Hok _ _ Hr) as (H0 & H1 & H2).
    rewrite frame_count_step, stride_S by lia. simpl.
    rewrite (proj2 (Nat.leb_gt _ _)) by lia.
    rewrite pa_new_ok by lia. simpl. rewrite frame_containing_spec by lia.
    unfold PAGE_SIZE. rewrite Hal, Z.sub_0_r.
    unfold add_w. rewrite (proj2 (Z.ltb_lt _ _)) by lia. simpl.
    destruct (Z.leb_spec (end_addr r) (next_frame_addr a + 4096)) as [Hend|Hend].
    + eexists; split; [reflexivity|].
      destruct (skip_lawful (mkBootInfoFrameAllocator (memory_map a) (S (region_index a))
        (next_frame_addr a + 4096) (free_list a))) as [Hi Hf]; simpl; [by apply Forall_lookup|lia|].
      split; [done|]. rewrite Hf. simpl. rewrite frame_count_none by lia.
      split; [done|]. unfold skip_to_next_usable_region. simpl. by destruct (skip_regions _ _ _).
    + eexists; split; [reflexivity|]. split; [split; simpl; [by apply Forall_lookup|]|].
      * intros r' Hr''. simplify_eq. split; [done|]. split; [lia|].
        rewrite Z.add_mod, Hal by lia. done.
      * unfold fresh_frames; simpl. rewrite Hr. split; [|done].
        by rewrite Z.sub_add_distr.
  - rewrite (proj2 (Nat.leb_le _ _)); [done|]. by apply lookup_ge_None.
Qed.

Lemma boot_alloc_some a f l :
  alloc_inv a -> alloc_avail a = f :: l ->
  exists a', boot_allocate_frame a = Ok (Some f, a') /\ alloc_inv a' /\ alloc_avail a' = l.
Proof.
  intros Hi Hav. unfold boot_allocate_frame, alloc_avail in *.
  destruct (free_list a) as [fl|] eqn:Hfl; simpl in *.
  - unfold vec_pop. destruct (reverse fl) as [|x r] eqn:Hrev; simpl in *.
    + pose proof (allocate_fresh_spec a Hi) as H. rewrite Hav in H.
      destruct H as (a' & -> & Hi' & <- & Hl'). exists a'. rewrite Hl', Hfl. simpl. by rewrite Hrev.
    + simplify_eq. eexists; split; [done|]. simpl. by rewrite reverse_involutive.
  - pose proof (allocate_fresh_spec a Hi) as H. rewrite Hav in H.
    destruct H as (a' & -> & Hi' & <- & Hl'). exists a'. by rewrite Hl', Hfl.
Qed.

Lemma boot_alloc_none a :
  alloc_inv a -> alloc_avail a = [] ->
  exists a', boot_allocate_frame a = Ok (None, a') /\ alloc_inv a' /\ alloc_avail a' = [].
Proof.
  intros Hi Hav. assert (Hav' := Hav). unfold alloc_avail in Hav.
  apply app_eq_nil in Hav as [Hr Hf]. pose proof (allocate_fresh_spec a Hi) as H. rewrite Hf in H.
  exists a. split_and!; [|done..]. unfold boot_allocate_frame.
  destruct (free_list a) as [fl|]; simpl in *; [|done]. unfold vec_pop. by rewrite Hr.
Qed.

Lemma boot_dealloc a f :
  alloc_inv a ->
  exists a', boot_deallocate_frame f a = Ok a' /\ alloc_inv a' /\ alloc_avail a' = f :: alloc_avail a.
Proof.
  intros Hi. eexists; split; [reflexivity|]. split; [done|].
  unfold alloc_avail, vec_push; simpl. by rewrite reverse_app.
Qed.

#[export] Instance BootInfoFrameAllocator_lawful : LawfulFrameAllocator BootInfoFrameAllocator := {|
  fa_inv := alloc_inv;
  fa_avail := alloc_avail;
  fa_alloc_none := boot_alloc_none;
  fa_alloc_some := boot_alloc_some;
  fa_dealloc := boot_dealloc;
|}.

(** The global handle is lawful once [init_frame_allocator] has run. *)
#[refine, export] Instance GlobalFrameAllocator_lawful : LawfulFrameAllocator GlobalFrameAllocator := {|
  fa_inv g := match g with Some a => alloc_inv a | None => False end;
  fa_avail g := match g with Some a => alloc_avail a | None => [] end;
|}.
Proof.
  all: intros [a|]; [|done].
  - intros Hi H. destruct (boot_alloc_none a Hi H) as (a' & E & ? & ?).
    exists (Some a'). unfold allocate_frame, GlobalFrameAllocator_alloc, global_allocate_frame. simpl.
    unfold allocate_frame, BootInfoFrameAllocator_alloc. by rewrite E.
  - intros f l Hi H. destruct (boot_alloc_some a f l Hi H) as (a' & E & ? & ?).
    exists (Some a'). unfold allocate_frame, GlobalFrameAllocator_alloc, global_allocate_frame. simpl.
    unfold allocate_frame, BootInfoFrameAllocator_alloc. by rewrite E.
  - intros f Hi. destruct (boot_dealloc a f Hi) as (a' & [= <-] & ? & ?). by eexists (Some _).
Defined.

(** The frames on [free_list]. *)
Definition freed_frames (g : GlobalFrameAllocator) : list Z :=
  match g with Some a => default [] (free_list a) | None => [] end.

Lemma freed_frames_bound g : (length (freed_frames g) <= length (fa_avail g))%nat.
Proof. destruct g as [a|]; [|done]. cbn. unfold alloc_avail. rewrite length_app, length_reverse. lia. Qed.

Lemma frame_allocator_init_lawful map :
  Forall region_ok map ->
  alloc_inv (frame_allocator_init map) /\ alloc_avail (frame_allocator_init map) = usable_frames map.
Proof.
  intros H. destruct (skip_lawful (mkBootInfoFrameAllocator map 0 0 None)) as [Hi Hf]; simpl; [done|lia|].
  split; [done|]. unfold alloc_avail. unfold frame_allocator_init. rewrite Hf. simpl.
  replace (free_list _) with (@None (list Z)); [done|].
  unfold skip_to_next_usable_region. simpl. by destruct (skip_regions _ _ _).
Qed.
End AllocatorLaws.

(** ** Sessions of a client

    A client allocates, and gives back frames it holds.  [session] runs the
    allocator and keeps the frames the client holds; giving back a frame it
    does not hold ends the session. *)

Inductive aop := AAlloc | AFree (frame : Z).

Section Sessions.
Context {A : Type} `{!FrameAllocator A, !FrameDeallocator A, !LawfulFrameAllocator A}.

Fixpoint session (ops : list aop) (a : A) (live : list Z) : outcome (option (A * list Z)) :=
  match ops with
  | [] => Ok (Some (a, live))
  | AAlloc :: ops' =>
      '(r, a') ← allocate_frame a;
      session ops' a' (match r with Some f => f :: live | None => live end)
  | AFree f :: ops' =>
      if decide (f ∈ live) then
        a' ← deallocate_frame f a;
        session ops' a' (list_difference live [f])
      else Ok None
  end.

Lemma list_difference_perm (l : list Z) f : NoDup l -> f ∈ l -> f :: list_difference l [f] ≡ₚ l.
Proof.
  intros Hnd Hin. apply NoDup_Permutation; [|done|].
  - constructor; [|by apply NoDup_list_difference].
    rewrite list_elem_of_difference. set_solver.
  - intros x. rewrite elem_of_cons, list_elem_of_difference, list_elem_of_singleton.
    destruct (decide (x = f)) as [->|]; naive_solver.
Qed.

(** A session never panics, and the frames held by the client together with
    those the allocator still has are always the ones it started with. *)
Lemma session_conserves ops (a : A) live (r : A * list Z) :
  fa_inv a -> NoDup (live ++ fa_avail a) ->
  exists res, session ops a live = Ok res /\
    (res = Some r -> fa_inv r.1 /\ r.2 ++ fa_avail r.1 ≡ₚ live ++ fa_avail a).
Proof.
  revert a live. induction ops as [|[|f] ops IH]; intros a live Hi Hnd; simpl.
  - eexists; split; [done|]. by intros [= <-].
  - destruct (fa_avail a) as [|f l] eqn:Hav.
    + destruct (fa_alloc_none a Hi Hav) as (a' & -> & Hi' & Hav'). simpl.
      rewrite <- Hav' in Hnd |- *. by apply IH.
    + destruct (fa_alloc_some a f l Hi Hav) as (a' & -> & Hi' & <-). simpl.
      destruct (IH a' (f :: live) Hi') as (res & -> & H).
      { simpl. by rewrite Permutation_middle. }
      eexists; split; [done|]. intros E. destruct (H E) as [? ->]. split; [done|].
      simpl. by rewrite Permutation_middle.
  - case_decide as Hin; [|eexists; split; [done|done]].
    destruct (fa_dealloc a f Hi) as (a' & -> & Hi' & Hav'). simpl.
    assert (Hp : list_difference live [f] ++ fa_avail a' ≡ₚ live ++ fa_avail a).
    { rewrite Hav', <- Permutation_middle, app_comm_cons.
      apply Permutation_app_tail, list_difference_perm; [|done]. by apply NoDup_app in Hnd as [? _]. }
    destruct (IH a' (list_difference live [f]) Hi') as (res & -> & H); [by rewrite Hp|].
    eexists; split; [done|]. intros E. destruct (H E) as [? ->]. done.
Qed.
End Sessions.

Section AllocatorTheorems.
Context {crate : X86Crate}.
Implicit Types (map : list MemoryRegion).

(** Distinct usable regions of the map do not overlap. *)
Definition regions_disjoint map : Prop :=
  forall i j r s, map !! i = Some r -> map !! j = Some s -> i <> j ->
    region_usable r = true -> region_usable s = true ->
    end_addr r <= start_addr s \/ end_addr s <= start_addr r.

Lemma elem_of_region_frames r f :
  f ∈ region_frames r -> region_usable r = true /\ start_addr r <= f < end_addr r.
Proof.
  unfold region_frames. destruct (region_usable r) eqn:Hu; [|by intros ?%not_elem_of_nil].
  rewrite elem_of_stride. intros (k & Hk & ->). split; [done|].
  pose proof (region_usable_lt r Hu). unfold frame_count in Hk.
  pose proof (Z.mul_div_le (end_addr r - start_addr r + 4095) 4096). lia.
Qed.

Lemma NoDup_usable_frames map : regions_disjoint map -> NoDup (usable_frames map).
Proof.
  induction map as [|r map IH]; intros Hd; [constructor|].
  unfold usable_frames. simpl. apply NoDup_app. split_and!.
  - unfold region_frames. destruct (region_usable r); [|constructor]. by apply NoDup_stride.
  - intros f Hf Hf'. apply list_elem_of_bind in Hf' as (s & Hs & Hin).
    apply list_elem_of_lookup in Hin as [j Hj].
    apply elem_of_region_frames in Hf as [Hu Hf]. apply elem_of_region_frames in Hs as [Hus Hs].
    destruct (Hd 0%nat (S j) r s) as [?|?]; try done; lia.
  - apply IH. intros i j r' s Hi Hj Hne. by apply (Hd (S i) (S j)); [| |lia].
Qed.

Lemma session_allocs n a live :
  alloc_inv a ->
  exists a', session (replicate n AAlloc) a live = Ok (Some (a', reverse (take n (alloc_avail a)) ++ live)).
Proof.
  revert a live; induction n as [|n IH]; intros a live Hi; simpl; [by exists a|].
  destruct (alloc_avail a) as [|f l] eqn:Hav.
  - destruct (boot_alloc_none a Hi Hav) as (a' & E & Hi' & Hav').
    change (allocate_frame a) with (boot_allocate_frame a). rewrite E. simpl.
    destruct (IH a' live Hi') as [a'' E']. rewrite E', Hav', take_nil. simpl. by eexists.
  - destruct (boot_alloc_some a f l Hi Hav) as (a' & E & Hi' & Hav').
    change (allocate_frame a) with (boot_allocate_frame a). rewrite E. simpl.
    destruct (IH a' (f :: live) Hi') as [a'' E']. rewrite E', Hav'. exists a''.
    simpl. by rewrite reverse_cons, <- app_assoc.
Qed.

(** the cursor of the frame allocator hands out exactly the frames of the
    usable regions of the memory map, each region from its start in steps of
    4096, in map order: [n] allocations on a freshly initialised allocator
    yield the first [n] frames of the reference enumeration. *)
Lemma fresh_allocations_enumerate map n :
  Forall region_ok map ->
  exists a, session (replicate n AAlloc) (frame_allocator_init map) []
    = Ok (Some (a, reverse (take n (usable_frames map)))).
Proof.
  intros H. destruct (frame_allocator_init_lawful map H) as [Hi Hav].
  destruct (session_allocs n _ [] Hi) as [a E]. exists a. by rewrite E, Hav, app_nil_r.
Qed.

(** C4: whatever sequence of allocations and releases a client makes, the
    allocator never panics and never hands out a frame that is still held:
    the frames held and the frames left are always exactly the usable frames
    of the map, without repetition. *)
Theorem frames_never_issued_twice map ops :
  Forall region_ok map -> regions_disjoint map ->
  exists res, session ops (init_frame_allocator map) [] = Ok res /\
    forall g live, res = Some (g, live) ->
      live ++ fa_avail g ≡ₚ usable_frames map /\ NoDup (live ++ fa_avail g).
Proof.
  intros H Hd. destruct (frame_allocator_init_lawful map H) as [Hi Hav].
  change (fa_inv (init_frame_allocator map)) in Hi.
  pose proof (NoDup_usable_frames map Hd) as Hnd.
  assert (Hnd' : NoDup ([] ++ fa_avail (init_frame_allocator map))).
  { simpl. by rewrite Hav. }
  destruct (session ops (init_frame_allocator map) []) as [res|msg] eqn:E.
  - exists res. split; [done|]. intros g live ->.
    destruct (session_conserves ops (init_frame_allocator map) [] (g, live) Hi Hnd')
      as (res & E' & Hr). rewrite E in E'. simplify_eq.
    destruct (Hr eq_refl) as [_ Hp]. simpl in Hp. rewrite Hav in Hp. by rewrite Hp.
  - destruct (session_conserves ops (init_frame_allocator map) []
      (init_frame_allocator map, []) Hi Hnd') as (res & E' & _). by rewrite E in E'.
Qed.
End AllocatorTheorems.

#[local] Existing Instance x86_crate.

(** A memory map as the bootloader builds it: a reserved hole between two
    usable regions. *)
Definition sample_map : list MemoryRegion :=
  [ {| region_type := NotUsable; start_addr := 0; end_addr := 0x1000 |};
    {| region_type := Usable; start_addr := 0x1000; end_addr := 0x3000 |};
    {| region_type := NotUsable; start_addr := 0x3000; end_addr := 0x8000 |};
    {| region_type := Usable; start_addr := 0x8000; end_addr := 0xa000 |} ].

Lemma sample_map_ok : Forall region_ok sample_map.
Proof. unfold sample_map, region_ok. repeat constructor; simpl; lia. Qed.

Lemma sample_map_disjoint : regions_disjoint sample_map.
Proof.
  intros [|[|[|[|i]]]] [|[|[|[|j]]]] r s Hi Hj Hne Hr Hs;
    simpl in Hi, Hj; simplify_eq; simpl in *; first [lia | discriminate Hr | discriminate Hs].
Qed.

Example fresh_allocations_enumerate_witness :
  Forall region_ok sample_map /\
  (exists a, session (replicate 3 AAlloc) (frame_allocator_init sample_map) []
    = Ok (Some (a, [0x8000; 0x2000; 0x1000]))).
Proof.
  split; [apply sample_map_ok|].
  apply (fresh_allocations_enumerate sample_map 3 sample_map_ok).
Defined.

Example frames_never_issued_twice_witness :
  regions_disjoint sample_map /\
  exists res, session [AAlloc; AAlloc; AFree 0x1000; AAlloc] (init_frame_allocator sample_map) [] = Ok res /\
    forall g live, res = Some (g, live) ->
      live ++ fa_avail g ≡ₚ usable_frames sample_map /\ NoDup (live ++ fa_avail g).
Proof.
  split; [apply sample_map_disjoint|].
  apply (frames_never_issued_twice sample_map _ sample_map_ok sample_map_disjoint).
Defined.
