(* ===== verification/Paging.v ===== *)
(** * Walking page tables (src/memory.rs)

    The kernel's own walks over the active page tables: the translation
    [translate_addr_inner], and the check [user_range_mapped] that every
    syscall makes on a pointer of its caller, proved against the access
    check of the processor ([mmu_access]). *)

From S2P Require Import Prelude X86.

Section Paging.
Context {crate : X86Crate}.
Implicit Types (m : mem).

Definition table_indexes (addr : Z) : list nat :=
  [va_index 4 addr; va_index 3 addr; va_index 2 addr; va_index 1 addr].

(** ** [translate_addr] *)

(** The [for] loop of [translate_addr_inner]. *)
Fixpoint translate_walk m (frame : Z) (indexes : list nat) : outcome (option Z) :=
  match indexes with
  | [] => Ok (Some frame)
  | index :: rest =>
      match pte_frame (table_entry m frame index) with
      | FrameOk frame' => translate_walk m frame' rest
      | FrameNotPresent => Ok None
      | HugeFrame => Panic "huge pages not supported"
      end
  end.

Definition translate_addr_inner m (cr3 addr : Z) : outcome (option Z) :=
  r ← translate_walk m cr3 (table_indexes addr);
  Ok (option_map (fun frame => frame + va_page_offset addr) r).

Definition translate_addr m (cr3 addr : Z) : outcome (option Z) := translate_addr_inner m cr3 addr.

(** ** [page_accessible] *)

Definition required_flags (need_write : bool) : Z :=
  let required := Z.lor PRESENT USER_ACCESSIBLE in
  if need_write then Z.lor required WRITABLE else required.

Fixpoint accessible_walk m (frame : Z) (indexes : list nat) (required : Z) : bool :=
  match indexes with
  | [] => true
  | index :: rest =>
      let entry := table_entry m frame index in
      if negb (contains (pte_flags entry) required) then false
      else match pte_frame entry with
           | FrameOk frame' => accessible_walk m frame' rest required
           | FrameNotPresent => false
           | HugeFrame => false
           end
  end.

Definition page_accessible m (cr3 addr : Z) (need_write : bool) : bool :=
  accessible_walk m cr3 (table_indexes addr) (required_flags need_write).

(** ** [user_range_mapped] *)

(** One round of the [loop], on the current page. *)
Definition user_range_step m (cr3 last_page : Z) (need_write : bool) (page : Z)
    : Z + outcome bool :=
  if negb (page_accessible m cr3 page need_write) then inr (Ok false)
  else if page =? last_page then inr (Ok true)
  else match va_add page PAGE_SIZE with
       | Some page' => inl page'
       | None => inr (Panic "address overflow in Page + u64")
       end.

(** The loop visits a page at most once, so the number of pages of the
    address space bounds it. *)
Definition PAGE_COUNT : positive := 2 ^ 52.

Definition user_range_mapped m (cr3 addr len : Z) (need_write : bool) : outcome bool :=
  if len =? 0 then Ok true
  else match checked_add addr (len - 1) with
       | None => Ok false
       | Some last_byte =>
           last ← va_new last_byte;
           let first_page := page_containing addr in
           let last_page := page_containing last in
           match iter_until (user_range_step m cr3 last_page need_write) PAGE_COUNT first_page with
           | inr r => r
           | inl _ => Panic "loop bound"
           end
       end.

(** ** Bits of an entry *)

Lemma contains_testbit flags required i :
  contains flags required = true -> Z.testbit required i = true -> Z.testbit flags i = true.
Proof.
  unfold contains. intros H%Z.eqb_eq Hi. rewrite <- H, Z.land_spec in Hi.
  by apply andb_true_iff in Hi as [? _].
Qed.

(** [contains] on a set of the flags the crate documents is a test of the
    entry's own bits. *)
Lemma contains_pte_flags e required :
  (forall i, 0 <= i -> Z.testbit required i = true -> i ∈ [0; 1; 2; 7]) -> 0 <= required ->
  contains (pte_flags e) required = true <->
  (forall i, 0 <= i -> Z.testbit required i = true -> Z.testbit e i = true).
Proof.
  intros Hr Hpos. split.
  - intros H i Hi Hb. rewrite <- pte_flags_spec by auto. by apply (contains_testbit _ required).
  - intros H. apply Z.eqb_eq. apply Z.bits_inj'. intros i Hi. rewrite Z.land_spec.
    destruct (Z.testbit required i) eqn:E; [|by rewrite andb_false_r].
    rewrite andb_true_r, pte_flags_spec by auto. auto.
Qed.

Lemma required_flags_bits need_write i :
  0 <= i -> Z.testbit (required_flags need_write) i = true ->
  i = 0 \/ i = 2 \/ (i = 1 /\ need_write = true).
Proof.
  intros Hi H. assert (i < 3 \/ 3 <= i) as [Hlt|Hge] by lia.
  - assert (i = 0 \/ i = 1 \/ i = 2) as [ -> | [ -> | -> ] ] by lia; destruct need_write; auto; discriminate H.
  - exfalso. rewrite Z.bits_above_log2 in H; [done|by destruct need_write|].
    destruct need_write; simpl; lia.
Qed.

(** The flag test of [page_accessible] is the processor's. *)
Lemma contains_required e need_write :
  contains (pte_flags e) (required_flags need_write) = pte_allows e need_write.
Proof.
  apply eq_true_iff_eq. rewrite contains_pte_flags.
  - unfold pte_allows. rewrite !andb_true_iff, orb_true_iff, negb_true_iff. split.
    + intros H. split; [split; apply H; by destruct need_write|].
      destruct need_write; [right; by apply H|by left].
    + intros [[H0 H2] H1] i Hi Hb.
      destruct (required_flags_bits _ _ Hi Hb) as [ -> | [ -> | [ -> -> ] ] ]; [done..|]. by destruct H1.
  - intros i Hi Hb. destruct (required_flags_bits _ _ Hi Hb) as [ -> | [ -> | [ -> _ ] ] ]; set_solver.
  - by destruct need_write.
Qed.

Lemma va_index_hw l a : (1 <= l <= 4)%nat -> canonical a -> va_index l a = hw_index l a.
Proof.
  intros Hl Ha. unfold hw_index, level_shift. rewrite <- va_index_spec by done. by rewrite Nat2Z.id.
Qed.

(** ** The walk against the processor *)

(** No entry of the first [l] levels of the walk has bit 7 set: the kernel
    maps 4 KiB pages only. *)
Fixpoint no_huge m (t : Z) (l : nat) (va : Z) : Prop :=
  match l with
  | O => True
  | S l' =>
      let e := table_entry m t (hw_index l va) in
      Z.testbit e 0 = true -> Z.testbit e 7 = false /\ no_huge m (Z.land e ADDR_MASK) l' va
  end.

Definition hw_indexes (l : nat) (va : Z) : list nat :=
  (fun k => hw_index (l - k) va) <$> seq 0 l.

Lemma hw_indexes_S l va : hw_indexes (S l) va = hw_index (S l) va :: hw_indexes l va.
Proof.
  unfold hw_indexes. simpl. f_equal. rewrite <- seq_shift, <- list_fmap_compose.
  apply list_fmap_ext. intros i k _. done.
Qed.

Lemma table_indexes_hw a : canonical a -> table_indexes a = hw_indexes 4 a.
Proof. intros Ha. unfold table_indexes. by rewrite !va_index_hw by (done || lia). Qed.

(** [pte_allows] entries that are not huge lead on to the next table. *)
Lemma pte_frame_allows e w :
  pte_allows e w = true ->
  pte_frame e = if Z.testbit e 7 then HugeFrame else FrameOk (Z.land e ADDR_MASK).
Proof.
  unfold pte_allows. intros H. rewrite pte_frame_spec.
  by destruct (Z.testbit e 0); [|discriminate H].
Qed.

Lemma accessible_walk_sound m t l va w :
  accessible_walk m t (hw_indexes (S l) va) (required_flags w) = true ->
  is_Some (mmu_walk m t (S l) va w) /\ no_huge m t (S l) va.
Proof.
  revert t; induction l as [|l IH]; intros t; rewrite hw_indexes_S; cbn [accessible_walk];
    rewrite contains_required; cbn [mmu_walk no_huge];
    set (e := table_entry m t _); destruct (pte_allows e w) eqn:Ha; try done;
    rewrite (pte_frame_allows e w Ha); cbn [negb];
    destruct (Z.testbit e 7) eqn:H7; try done.
  intros H. cbn [andb]. destruct (IH _ H). eauto.
Qed.

Lemma accessible_walk_complete m t l va w :
  is_Some (mmu_walk m t (S l) va w) -> no_huge m t (S l) va ->
  accessible_walk m t (hw_indexes (S l) va) (required_flags w) = true.
Proof.
  revert t; induction l as [|l IH]; intros t; rewrite hw_indexes_S; cbn [accessible_walk];
    rewrite contains_required; cbn [mmu_walk no_huge];
    set (e := table_entry m t _); destruct (pte_allows e w) eqn:Ha; try (by intros [? [=]]);
    rewrite (pte_frame_allows e w Ha); cbn [negb]; intros Hs Hn;
    (destruct Hn as [H7 Hn]; [by unfold pte_allows in Ha; destruct (Z.testbit e 0)|]);
    rewrite H7 in *; [done|].
  cbn [andb] in Hs. auto.
Qed.

(** The indexes of an address are those of its page. *)
Lemma hw_index_page l x p :
  (1 <= l)%nat -> p mod PAGE_SIZE = 0 -> p <= x < p + PAGE_SIZE -> hw_index l x = hw_index l p.
Proof.
  unfold PAGE_SIZE. intros Hl Hp Hx. unfold hw_index. do 2 f_equal.
  replace (level_shift l) with (12 + 9 * (Z.of_nat l - 1)) by done.
  rewrite Z.pow_add_r by lia. rewrite <- !Z.div_div by lia. f_equal.
  change (2 ^ 12) with 4096. pose proof (Z.div_mod x 4096). pose proof (Z.div_mod p 4096).
  pose proof (Z.mod_pos_bound x 4096). nia.
Qed.

Lemma mmu_walk_page m t l x p w :
  p mod PAGE_SIZE = 0 -> p <= x < p + PAGE_SIZE ->
  is_Some (mmu_walk m t l x w) <-> is_Some (mmu_walk m t l p w).
Proof.
  intros Hp Hx. revert t; induction l as [|l IH]; intros t; [done|]. cbn [mmu_walk].
  rewrite (hw_index_page (S l) x p) by (done || lia).
  destruct (pte_allows _ w); simpl; [|done]. destruct l as [|l]; [done|].
  by destruct (_ && _).
Qed.

(** ** The loop of [user_range_mapped] *)

(** A range that stays in one canonical half of the address space. *)
Definition in_one_half (first last : Z) : Prop :=
  (0 <= first /\ last < 2 ^ 47) \/ (2 ^ 64 - 2 ^ 47 <= first /\ last < 2 ^ 64).

Definition range_pages (addr len : Z) : list Z :=
  let first := addr - addr mod PAGE_SIZE in
  stride first PAGE_SIZE (S (Z.to_nat ((addr + len - 1) / PAGE_SIZE - addr / PAGE_SIZE))).

Lemma user_range_loop m cr3 w n k page :
  (k < n)%nat -> in_one_half page (page + PAGE_SIZE * Z.of_nat k) ->
  iter_nat (user_range_step m cr3 (page + PAGE_SIZE * Z.of_nat k) w) n page =
  inr (Ok (forallb (fun p => page_accessible m cr3 p w) (stride page PAGE_SIZE (S k)))).
Proof.
  revert n page; induction k as [|k IH]; intros [|n] page Hn Hh; try lia; rewrite stride_S; cbn [iter_nat].
  - unfold user_range_step. cbn [forallb]. rewrite (proj2 (Z.eqb_eq page _)) by lia.
    by destruct (page_accessible m cr3 page w).
  - unfold user_range_step at 1. cbn [forallb].
    destruct (page_accessible m cr3 page w); [|done]. cbn [negb andb].
    unfold PAGE_SIZE in *. rewrite (proj2 (Z.eqb_neq page _)) by lia.
    assert (E : va_add page 4096 = Some (page + 4096)).
    { destruct Hh as [[? ?]|[? ?]]; [apply va_add_low|apply va_add_high]; lia. }
    rewrite E. replace (page + 4096 * Z.of_nat (S k)) with (page + 4096 + 4096 * Z.of_nat k) by lia.
    apply IH; [lia|]. unfold in_one_half in *. lia.
Qed.

Lemma user_range_loop_pos m cr3 w p k page last :
  Z.of_nat k < Zpos p -> in_one_half page last -> last = page + PAGE_SIZE * Z.of_nat k ->
  iter_until (user_range_step m cr3 last w) p page =
  inr (Ok (forallb (fun q => page_accessible m cr3 q w) (stride page PAGE_SIZE (S k)))).
Proof.
  intros Hk Hh ->. rewrite iter_until_nat. apply user_range_loop; [|done].
  apply Nat2Z.inj_lt. by rewrite positive_nat_Z.
Qed.

Lemma page_of_byte a : a - a mod PAGE_SIZE = PAGE_SIZE * (a / PAGE_SIZE).
Proof. unfold PAGE_SIZE. pose proof (Z.div_mod a 4096). lia. Qed.

(** The range check is the conjunction of the page checks. *)
Lemma user_range_mapped_pages m cr3 addr len w :
  0 < len -> in_one_half addr (addr + len - 1) ->
  user_range_mapped m cr3 addr len w =
  Ok (forallb (fun p => page_accessible m cr3 p w) (range_pages addr len)).
Proof.
  intros Hlen Hh. unfold user_range_mapped, range_pages.
  assert (Hc : canonical addr /\ canonical (addr + len - 1)).
  { unfold in_one_half, canonical in *. lia. }
  destruct Hc as [Hc1 Hc2].
  rewrite (proj2 (Z.eqb_neq len 0)) by lia.
  rewrite (proj2 (checked_add_Some addr (len - 1) (addr + len - 1))).
  2:{ unfold in_one_half in Hh. lia. }
  unfold va_new. rewrite va_try_new_canonical by done. simpl.
  rewrite !page_containing_spec, !page_of_byte by done.
  set (k := Z.to_nat ((addr + len - 1) / PAGE_SIZE - addr / PAGE_SIZE)).
  assert (Hdiv : addr / PAGE_SIZE <= (addr + len - 1) / PAGE_SIZE).
  { unfold PAGE_SIZE. apply Z.div_le_mono; lia. }
  replace (PAGE_SIZE * ((addr + len - 1) / PAGE_SIZE))
    with (PAGE_SIZE * (addr / PAGE_SIZE) + PAGE_SIZE * Z.of_nat k) by (unfold k; clear k; unfold PAGE_SIZE in *; lia).
  assert (Hk : PAGE_SIZE * (addr / PAGE_SIZE) + PAGE_SIZE * Z.of_nat k <= addr + len - 1).
  { unfold k. rewrite Z2Nat.id by lia. unfold PAGE_SIZE in *.
    pose proof (Z.mul_div_le (addr + len - 1) 4096). lia. }
  assert (Ha : PAGE_SIZE * (addr / PAGE_SIZE) <= addr).
  { unfold PAGE_SIZE. pose proof (Z.mul_div_le addr 4096). lia. }
  rewrite (user_range_loop_pos _ _ _ _ k); [reflexivity| | |reflexivity].
  - unfold k. unfold in_one_half in Hh. unfold PAGE_SIZE in *.
    assert ((addr + len - 1) / 4096 < 2 ^ 52) by (apply Z.div_lt_upper_bound; lia).
    assert (0 <= addr / 4096) by (apply Z.div_pos; lia).
    rewrite Z2Nat.id by lia. unfold PAGE_COUNT. lia.
  - unfold in_one_half in *. unfold PAGE_SIZE in *. destruct Hh as [[? ?]|[H1 ?]]; [left|right].
    + pose proof (Z.div_pos addr 4096). lia.
    + split; [|lia]. pose proof (Z.div_le_mono _ _ 4096 ltac:(lia) H1).
      change ((2 ^ 64 - 2 ^ 47) / 4096) with (2 ^ 52 - 2 ^ 35) in *. lia.
Qed.

Lemma range_pages_cover addr len x :
  0 < len -> addr <= x < addr + len ->
  exists p, p ∈ range_pages addr len /\ p mod PAGE_SIZE = 0 /\ p <= x < p + PAGE_SIZE.
Proof.
  intros Hlen Hx. exists (PAGE_SIZE * (x / PAGE_SIZE)). split_and!.
  - unfold range_pages. rewrite page_of_byte, elem_of_stride.
    assert (addr / PAGE_SIZE <= x / PAGE_SIZE <= (addr + len - 1) / PAGE_SIZE).
    { unfold PAGE_SIZE. split; apply Z.div_le_mono; lia. }
    exists (Z.to_nat (x / PAGE_SIZE - addr / PAGE_SIZE)). unfold PAGE_SIZE in *. split; lia.
  - unfold PAGE_SIZE. rewrite Z.mul_comm. apply Z.mod_mul. lia.
  - unfold PAGE_SIZE. pose proof (Z.div_mod x 4096). pose proof (Z.mod_pos_bound x 4096). lia.
  - unfold PAGE_SIZE. pose proof (Z.div_mod x 4096). pose proof (Z.mod_pos_bound x 4096). lia.
Qed.

(** A page of the range holds a byte of the range, and stays in the half. *)
Lemma range_pages_inhabited addr len p :
  0 < len -> in_one_half addr (addr + len - 1) -> p ∈ range_pages addr len ->
  p mod PAGE_SIZE = 0 /\ canonical p /\ exists x, addr <= x < addr + len /\ p <= x < p + PAGE_SIZE.
Proof.
  intros Hlen Hh. unfold range_pages. rewrite page_of_byte, elem_of_stride. intros (k & Hk & ->).
  assert (Hm : (PAGE_SIZE * (addr / PAGE_SIZE) + PAGE_SIZE * Z.of_nat k) mod PAGE_SIZE = 0).
  { unfold PAGE_SIZE. replace (4096 * (addr / 4096) + 4096 * Z.of_nat k)
      with ((addr / 4096 + Z.of_nat k) * 4096) by lia. apply Z.mod_mul. lia. }
  assert (Hdiv : addr / PAGE_SIZE <= (addr + len - 1) / PAGE_SIZE).
  { unfold PAGE_SIZE. apply Z.div_le_mono; lia. }
  set (p := PAGE_SIZE * (addr / PAGE_SIZE) + PAGE_SIZE * Z.of_nat k) in *.
  assert (Hp : p <= addr + len - 1).
  { unfold p. unfold PAGE_SIZE in *. pose proof (Z.mul_div_le (addr + len - 1) 4096). lia. }
  assert (Hp' : addr < p + PAGE_SIZE).
  { unfold p. unfold PAGE_SIZE in *. pose proof (Z.div_mod addr 4096).
    pose proof (Z.mod_pos_bound addr 4096). lia. }
  split; [done|]. split.
  - unfold canonical. unfold in_one_half in Hh. unfold PAGE_SIZE in *.
    destruct Hh as [[? ?]|[? ?]]; [left|right].
    + pose proof (Z.div_mod p 4096). lia.
    + split; [|lia]. pose proof (Z.div_mod p 4096).
      assert (p / 4096 < 2 ^ 52 - 2 ^ 35 -> False); [|lia]. intros. lia.
  - exists (Z.max addr p). unfold PAGE_SIZE in *. lia.
Qed.

(** An accessible page of the range gives access to the bytes it holds. *)
Lemma accessible_pages_bytes m cr3 addr len w :
  0 < len -> in_one_half addr (addr + len - 1) ->
  (forall p, p ∈ range_pages addr len -> page_accessible m cr3 p w = true) ->
  forall x, addr <= x < addr + len -> is_Some (mmu_access m cr3 x w).
Proof.
  intros Hlen Hh H x Hx.
  destruct (range_pages_cover addr len x Hlen Hx) as (p & Hin & Hal & Hp).
  destruct (range_pages_inhabited addr len p Hlen Hh Hin) as (_ & Hcan & _).
  specialize (H p Hin). unfold page_accessible in H. rewrite table_indexes_hw in H by done.
  apply accessible_walk_sound in H as [H _]. unfold mmu_access.
  rewrite bool_decide_eq_true_2 by (unfold canonical; unfold in_one_half in Hh; lia).
  by rewrite mmu_walk_page.
Qed.

Lemma accessible_bytes_pages m cr3 addr len w p :
  0 < len -> in_one_half addr (addr + len - 1) -> p ∈ range_pages addr len -> no_huge m cr3 4 p ->
  (forall x, addr <= x < addr + len -> is_Some (mmu_access m cr3 x w)) ->
  page_accessible m cr3 p w = true.
Proof.
  intros Hlen Hh Hin Hn H.
  destruct (range_pages_inhabited addr len p Hlen Hh Hin) as (Hal & Hcan & x & Hx & Hp).
  specialize (H x Hx). unfold mmu_access in H.
  rewrite bool_decide_eq_true_2 in H by (unfold canonical; unfold in_one_half in Hh; lia).
  rewrite mmu_walk_page in H by done.
  unfold page_accessible. rewrite table_indexes_hw by done.
  by apply accessible_walk_complete.
Qed.

Lemma user_range_mapped_true m cr3 addr len w :
  0 < len -> in_one_half addr (addr + len - 1) ->
  user_range_mapped m cr3 addr len w = Ok true <->
  (forall p, p ∈ range_pages addr len -> page_accessible m cr3 p w = true).
Proof.
  intros Hlen Hh. rewrite user_range_mapped_pages by done.
  setoid_rewrite list_elem_of_In. rewrite <- (forallb_forall (fun p => page_accessible m cr3 p w)).
  split; [by intros [=]|by intros ->].
Qed.

(** ** Ranges that leave their half *)

(** No page of the upper half belongs to ring 3. *)
Definition no_user_high m (cr3 : Z) : Prop := forall x w, 2 ^ 47 <= x -> mmu_access m cr3 x w = None.

(** The first page of the upper half. *)
Definition HIGH_HALF : Z := 2 ^ 64 - 2 ^ 47.

Lemma page_accessible_access m cr3 p w :
  canonical p -> page_accessible m cr3 p w = true -> is_Some (mmu_access m cr3 p w).
Proof.
  intros Hc H. unfold page_accessible in H. rewrite table_indexes_hw in H by done.
  apply accessible_walk_sound in H as [H _]. unfold mmu_access. by rewrite bool_decide_eq_true_2.
Qed.

Lemma high_page_rejected m cr3 p w : no_user_high m cr3 -> HIGH_HALF <= p < 2 ^ 64 -> page_accessible m cr3 p w = false.
Proof.
  unfold HIGH_HALF. intros Hh Hp. destruct (page_accessible m cr3 p w) eqn:E; [exfalso|done].
  apply page_accessible_access in E as [y Hy]; [|unfold canonical; lia]. by rewrite Hh in Hy by lia.
Qed.

(** After the last page of the lower half the loop goes on with the first
    page of the upper half, and stops there. *)
Lemma user_range_loop_cross m cr3 w last k n :
  no_user_high m cr3 -> HIGH_HALF <= last -> (k < n)%nat -> PAGE_SIZE * Z.of_nat k <= 2 ^ 47 ->
  (1 <= k)%nat ->
  iter_nat (user_range_step m cr3 last w) n (2 ^ 47 - PAGE_SIZE * Z.of_nat k) = inr (Ok false).
Proof.
  intros Hh Hlast. unfold HIGH_HALF in Hlast. revert n; induction k as [|k IH]; intros [|n] Hn Hb Hk; try lia. cbn [iter_nat].
  unfold user_range_step at 1. destruct (page_accessible m cr3 _ w); [|done]. cbn [negb].
  unfold PAGE_SIZE in *. rewrite (proj2 (Z.eqb_neq _ last)) by lia. rewrite va_add_new by lia.
  replace (2 ^ 47 - 4096 * Z.of_nat (S k) + 4096) with (2 ^ 47 - 4096 * Z.of_nat k) by lia.
  destruct k as [|k].
  - rewrite va_try_new_extend by lia. destruct n as [|n]; [lia|]. cbn [iter_nat]. unfold user_range_step.
    rewrite high_page_rejected; [done|done|]. unfold HIGH_HALF. lia.
  - rewrite va_try_new_canonical by (unfold canonical; lia). apply IH; lia.
Qed.

(** A range that runs past the end of the lower half is never accepted, and
    rejected without a panic while it is no longer than the half. *)
Lemma user_range_mapped_cross m cr3 addr len w :
  no_user_high m cr3 -> 0 <= addr < 2 ^ 47 -> 2 ^ 47 <= addr + len - 1 ->
  user_range_mapped m cr3 addr len w <> Ok true /\
  (len <= 2 ^ 47 -> user_range_mapped m cr3 addr len w = Ok false).
Proof.
  intros Hh Ha Hl. unfold user_range_mapped. rewrite (proj2 (Z.eqb_neq len 0)) by lia.
  destruct (checked_add addr (len - 1)) as [b|] eqn:E; [|done]. apply checked_add_Some in E as [Eb Hb].
  assert (Hfirst : page_containing addr = 2 ^ 47 - PAGE_SIZE * Z.of_nat (Z.to_nat (2 ^ 35 - addr / PAGE_SIZE))).
  { rewrite page_containing_spec, page_of_byte by (unfold canonical; lia). unfold PAGE_SIZE.
    assert (addr / 4096 < 2 ^ 35) by (apply Z.div_lt_upper_bound; lia). lia. }
  assert (Hq : 0 <= addr / PAGE_SIZE < 2 ^ 35).
  { unfold PAGE_SIZE. split; [apply Z.div_pos; lia|apply Z.div_lt_upper_bound; lia]. }
  assert (Hloop : forall last, HIGH_HALF <= last ->
    iter_until (user_range_step m cr3 last w) PAGE_COUNT (page_containing addr) = inr (Ok false)).
  { intros last Hla. rewrite iter_until_nat, Hfirst. apply user_range_loop_cross; [done|done| | |]; unfold PAGE_SIZE in *; try lia.
    apply Nat2Z.inj_lt. rewrite positive_nat_Z. unfold PAGE_COUNT. lia. }
  assert (Hlast : forall c, va_new b = Ok c -> HIGH_HALF <= page_containing c).
  { unfold va_new. intros c Hc. assert (H : HIGH_HALF <= c < 2 ^ 64).
    { unfold HIGH_HALF. assert (Hcase : b < 2 ^ 48 \/ 2 ^ 48 <= b < 2 ^ 64 - 2 ^ 47 \/ 2 ^ 64 - 2 ^ 47 <= b) by lia.
      destruct Hcase as [Hc'|[Hc'|Hc']].
      - rewrite va_try_new_extend in Hc by lia. injection Hc as <-. lia.
      - by rewrite va_try_new_err in Hc by lia.
      - rewrite va_try_new_canonical in Hc by (unfold canonical; lia). injection Hc as <-. lia. }
    unfold HIGH_HALF in *. rewrite page_containing_spec by (unfold canonical; lia).
    unfold PAGE_SIZE. pose proof (Z.div_mod c 4096). pose proof (Z.mod_pos_bound c 4096).
    assert (2 ^ 52 - 2 ^ 35 <= c / 4096) by (apply Z.div_le_lower_bound; lia). lia. }
  destruct (va_new b) as [c|] eqn:Ev; cbn [mbind outcome_bind].
  - cbv zeta. by rewrite Hloop by auto.
  - split; [done|]. intros Hlen. unfold va_new in Ev. by rewrite va_try_new_extend in Ev by lia.
Qed.

(** With no user page in the upper half, only ranges of one half pass. *)
Lemma user_range_mapped_one_half m cr3 addr len w :
  no_user_high m cr3 -> canonical addr -> 0 < len -> user_range_mapped m cr3 addr len w = Ok true ->
  0 <= addr /\ addr + len <= 2 ^ 47.
Proof.
  intros Hh Hc Hl H. assert (Hcase : 0 <= addr < 2 ^ 47 \/ HIGH_HALF <= addr < 2 ^ 64) by done.
  destruct Hcase as [Hlo|Hhi].
  - destruct (decide (addr + len <= 2 ^ 47)); [lia|]. exfalso.
    by apply (user_range_mapped_cross m cr3 addr len w Hh Hlo); [lia|].
  - exfalso. destruct (decide (addr + len - 1 < 2 ^ 64)) as [Hlt|Hge].
    + assert (Hone : in_one_half addr (addr + len - 1)) by (right; unfold HIGH_HALF in *; lia).
      assert (Hacc : is_Some (mmu_access m cr3 addr w)).
      { apply (accessible_pages_bytes m cr3 addr len); [done|done| |lia]. by apply user_range_mapped_true. }
      destruct Hacc as [y Hy]. rewrite Hh in Hy; [done|]. unfold HIGH_HALF in Hhi. lia.
    + unfold user_range_mapped in H. rewrite (proj2 (Z.eqb_neq _ 0)) in H by lia.
      by rewrite (proj2 (checked_add_None _ _)) in H by lia.
Qed.

(** C7: soundness of the pointer check of every syscall.  If
    [user_range_mapped] accepts a range of any length, then the processor
    lets ring 3 reach every byte of it (write every byte, when the check was
    for writing) under the active page tables: no access of the kernel to an
    accepted range can fault.  The assumption is that the range stays in one
    half of the address space, or that ring 3 has no page in the upper half;
    the loader maps none there. *)
Theorem user_range_mapped_sound m cr3 addr len w :
  canonical addr -> 0 <= len -> in_one_half addr (addr + len - 1) \/ no_user_high m cr3 ->
  user_range_mapped m cr3 addr len w = Ok true ->
  forall x, addr <= x < addr + len -> is_Some (mmu_access m cr3 x w).
Proof.
  intros Hc Hlen Hh H x Hx. assert (Hone : in_one_half addr (addr + len - 1)).
  { destruct Hh as [Hh|Hh]; [done|].
    destruct (user_range_mapped_one_half m cr3 addr len w Hh Hc ltac:(lia) H). left. lia. }
  apply (accessible_pages_bytes m cr3 addr len); [lia|done| |done]. apply user_range_mapped_true; [lia|done..].
Qed.

(** A range in one half, without huge pages. *)
Lemma user_range_mapped_half_exact m cr3 addr len w :
  0 < len -> in_one_half addr (addr + len - 1) ->
  (forall p, p ∈ range_pages addr len -> no_huge m cr3 4 p) ->
  exists b, user_range_mapped m cr3 addr len w = Ok b /\
    (b = true <-> forall x, addr <= x < addr + len -> is_Some (mmu_access m cr3 x w)).
Proof.
  intros Hlen Hh Hn. destruct (user_range_mapped m cr3 addr len w) as [b|msg] eqn:E.
  - exists b. split; [done|]. split.
    + intros ->. apply accessible_pages_bytes; [done..|]. by apply user_range_mapped_true.
    + intros H. assert (user_range_mapped m cr3 addr len w = Ok true) as E'.
      { apply user_range_mapped_true; [done..|]. intros p Hp.
        by apply (accessible_bytes_pages m cr3 addr len); auto. }
      rewrite E in E'. by injection E'.
  - by rewrite user_range_mapped_pages in E.
Qed.

(** C30: on page tables without huge pages (the kernel maps none) the check
    is exact and total for lengths up to 2^47: it never panics, and it
    answers [true] exactly when ring 3 itself could access every byte of the
    range.  The range may run past the end of the lower half or of the
    address space; then no page of the upper half may belong to ring 3. *)
Theorem user_range_mapped_exact m cr3 addr len w :
  canonical addr -> 0 <= len <= 2 ^ 47 -> in_one_half addr (addr + len - 1) \/ no_user_high m cr3 ->
  (forall p, p ∈ range_pages addr len -> no_huge m cr3 4 p) ->
  exists b, user_range_mapped m cr3 addr len w = Ok b /\
    (b = true <-> forall x, addr <= x < addr + len -> is_Some (mmu_access m cr3 x w)).
Proof.
  intros Hc Hlen Hh Hn. destruct (decide (len = 0)) as [->|Hnz].
  { exists true. split; [done|]. split; [|done]. intros _ x Hx. lia. }
  assert (Hd : in_one_half addr (addr + len - 1) \/ ~ in_one_half addr (addr + len - 1)) by (unfold in_one_half; lia).
  destruct Hd as [Hone|Hno]; [by apply user_range_mapped_half_exact; [lia|..]|].
  destruct Hh as [Hh|Hh]; [done|]. exists false.
  assert (Hbad : forall y, 2 ^ 47 <= y < HIGH_HALF \/ 2 ^ 64 <= y -> addr <= y < addr + len ->
    (forall x, addr <= x < addr + len -> is_Some (mmu_access m cr3 x w)) -> False).
  { unfold HIGH_HALF. intros y Hy Hin H. destruct (H y Hin) as [z Hz]. unfold mmu_access in Hz.
    rewrite bool_decide_eq_false_2 in Hz; [done|]. unfold canonical. lia. }
  destruct Hc as [Hc|Hc].
  - assert (Hx : 2 ^ 47 <= addr + len - 1) by (unfold in_one_half in Hno; lia). split.
    + apply user_range_mapped_cross; [done|done|lia|lia].
    + split; [done|]. intros H. exfalso. apply (Hbad (2 ^ 47)); [unfold HIGH_HALF; lia..|done].
  - assert (Hx : 2 ^ 64 <= addr + len - 1) by (unfold in_one_half in Hno; lia). split.
    + unfold user_range_mapped. rewrite (proj2 (Z.eqb_neq _ 0)) by lia. by rewrite (proj2 (checked_add_None _ _)) by lia.
    + split; [done|]. intros H. exfalso. apply (Hbad (2 ^ 64)); [lia..|done].
Qed.

End Paging.

#[local] Existing Instance x86_crate.

(** Page tables at 0x1000 to 0x4000 that map the page 0x600000000000 to the
    frame 0x5000 for ring 3, writable. *)
Definition sample_tables : mem :=
  set_table_entry (set_table_entry (set_table_entry (set_table_entry (fun _ => 0)
    0x1000 192 0x2007) 0x2000 0 0x3007) 0x3000 0 0x4007) 0x4000 0 0x5007.

Example user_range_mapped_sound_witness :
  user_range_mapped sample_tables 0x1000 0x600000000010 0x100 true = Ok true /\
  is_Some (mmu_access sample_tables 0x1000 0x6000000000ff true).
Proof.
  split; [vm_compute; reflexivity|].
  apply (user_range_mapped_sound sample_tables 0x1000 0x600000000010 0x100 true);
    [unfold canonical; lia|lia|left; unfold in_one_half; lia|vm_compute; reflexivity|lia].
Defined.

Lemma sample_tables_no_huge p :
  p ∈ range_pages 0x600000000010 0x100 -> no_huge sample_tables 0x1000 4 p.
Proof.
  intros Hp%list_elem_of_In. vm_compute in Hp. destruct Hp as [<-|[]].
  vm_compute. repeat split.
Qed.

Example user_range_mapped_exact_witness :
  exists b, user_range_mapped sample_tables 0x1000 0x600000000010 0x100 true = Ok b /\
    (b = true <-> forall x, 0x600000000010 <= x < 0x600000000010 + 0x100 ->
       is_Some (mmu_access sample_tables 0x1000 x true)).
Proof.
  apply (user_range_mapped_exact sample_tables 0x1000 0x600000000010 0x100 true);
    [unfold canonical; lia|lia|left; unfold in_one_half; lia|exact sample_tables_no_huge].
Defined.
