(* ===== verification/AddressSpace.v ===== *)
(** * Isolated address spaces (src/memory.rs)

    [new_address_space] builds the top-level table of a process from the two
    entries it shares with the kernel; [free_address_space] gives every frame
    the process owns back to the frame allocator.  The page-table hierarchy
    in memory is described by a tree ([ptree]), one level per table level. *)

From S2P Require Import Prelude X86 FrameAlloc Paging.

(** The 512 entries of a table, in the order [PageTable::iter] yields them. *)
Definition entry_indexes : list nat := seq 0 512.

Lemma elem_of_entry_indexes i : i ∈ entry_indexes <-> (i < 512)%nat.
Proof. unfold entry_indexes. rewrite elem_of_seq. lia. Qed.

Lemma NoDup_entry_indexes : NoDup entry_indexes.
Proof. apply NoDup_seq. Qed.

#[global] Opaque entry_indexes.

Section NewAddressSpace.
Context {crate : X86Crate} {A : Type} `{!FrameAllocator A}.

(** [new_address_space]: the new L4 frame, memory and the allocator. *)
Definition new_address_space (m : mem) (cr3 physical_memory_offset : Z) (a : A)
    : outcome (Z * mem * A) :=
  '(r, a') ← allocate_frame a;
  new_l4 ← expect r "no physical frames left for a new address space's L4 table";
  let m1 := zero_bytes m new_l4 PAGE_SIZE in
  let m2 := set_table_entry m1 new_l4 0 (table_entry m1 cr3 0) in
  let offset_p4_index := va_index 4 physical_memory_offset in
  let m3 := set_table_entry m2 new_l4 offset_p4_index (table_entry m2 cr3 offset_p4_index) in
  Ok (new_l4, m3, a').
End NewAddressSpace.

Section FreeAddressSpace.
Context {crate : X86Crate} {A : Type} `{!FrameDeallocator A}.
Variable m : mem.
(** The [borrowed_data_range] of the caller, a Rust [Range]. *)
Variable borrowed : Z * Z.

Definition range_contains (r : Z * Z) (x : Z) : bool := (r.1 <=? x) && (x <? r.2).

Definition entry_frame (entry : Z) (msg : string) : outcome Z :=
  match pte_frame entry with FrameOk f => Ok f | _ => Panic msg end.

(** [free_table], on the table of level [level] (3, 2 or 1) in [frame]. *)
Fixpoint free_table (level : nat) (frame base_addr : Z) (a : A) : outcome A :=
  match level with
  | O => Ok a
  | S level' =>
      let shift := 12 + 9 * Z.of_nat level' in
      a' ← foldM (fun i a =>
        let entry := table_entry m frame i in
        if negb (contains (pte_flags entry) PRESENT) then Ok a
        else
          child ← entry_frame entry "present page-table entry with no frame (huge page?)";
          let child_addr := Z.lor base_addr (Z.shiftl (Z.of_nat i) shift) in
          if (1 <? level)%nat then free_table level' child child_addr a
          else if negb (range_contains borrowed child_addr) then deallocate_frame child a
          else Ok a) entry_indexes a;
      deallocate_frame frame a'
  end.

Definition free_address_space (l4_frame physical_memory_offset : Z) (a : A) : outcome A :=
  let offset_p4_index := va_index 4 physical_memory_offset in
  a' ← foldM (fun i a =>
    if (i =? 0)%nat || (i =? offset_p4_index)%nat then Ok a
    else
      let entry := table_entry m l4_frame i in
      if negb (contains (pte_flags entry) PRESENT) then Ok a
      else
        l3_frame ← entry_frame entry "present L4 entry with no frame (huge page?)";
        free_table 3 l3_frame (Z.shiftl (Z.of_nat i) 39) a) entry_indexes a;
  deallocate_frame l4_frame a'.
End FreeAddressSpace.

(** ** Page-table trees

    A tree of level 0 is a data frame; a tree of level [S l] is the frame of
    a table and its present entries. *)

Fixpoint ptree (l : nat) : Type :=
  match l with O => Z | S l' => (Z * gmap nat (ptree l'))%type end.

Definition root {l : nat} : ptree l -> Z :=
  match l with O => fun f => f | S _ => fun t => t.1 end.

Definition children {l : nat} (t : ptree (S l)) : gmap nat (ptree l) := t.2.
Definition table {l : nat} (t : ptree (S l)) : Z := t.1.

#[global] Arguments children : simpl never.
#[global] Arguments table : simpl never.
#[global] Arguments root {l} t : simpl never.

Lemma root_table {l} (t : ptree (S l)) : root t = table t.
Proof. done. Qed.

Section Trees.
Context {crate : X86Crate}.
Implicit Types (m : mem).

(** The memory at the tables of the tree is the tree. *)
Fixpoint repr m (l : nat) : ptree l -> Prop :=
  match l with
  | O => fun _ => True
  | S l' => fun t => forall i, (i < 512)%nat ->
      match children t !! i with
      | Some c => pte_frame (table_entry m (table t) i) = FrameOk (root c) /\ repr m l' c
      | None => Z.testbit (table_entry m (table t) i) 0 = false
      end
  end.

(** The address space with top-level table [l4], whose entries [shared]
    belong to the kernel. *)
Definition repr_space m (l4 : Z) (shared : list nat) (top : gmap nat (ptree 3)) : Prop :=
  (forall i, i ∈ shared -> top !! i = None) /\
  forall i, (i < 512)%nat -> i ∉ shared ->
    match top !! i with
    | Some c => pte_frame (table_entry m l4 i) = FrameOk (root c) /\ repr m 3 c
    | None => Z.testbit (table_entry m l4 i) 0 = false
    end.

(** What [f] says of the child at entry [i], if there is one. *)
Definition at_child {B} (f : nat -> B -> list Z) (children : gmap nat B) (i : nat) : list Z :=
  match children !! i with Some c => f i c | None => [] end.

(** The frames of a tree in the order in which the kernel frees them, less
    the data frames of the borrowed virtual range. *)
Fixpoint freed (borrowed : Z * Z) (l : nat) (base : Z) : ptree l -> list Z :=
  match l with
  | O => fun f => if range_contains borrowed base then [] else [f]
  | S l' => fun t =>
      (entry_indexes ≫= at_child (fun i =>
         freed borrowed l' (Z.lor base (Z.shiftl (Z.of_nat i) (12 + 9 * Z.of_nat l')))) (children t)) ++ [table t]
  end.

Definition freed_space (borrowed : Z * Z) (l4 : Z) (top : gmap nat (ptree 3)) : list Z :=
  (entry_indexes ≫= at_child (fun i => freed borrowed 3 (Z.shiftl (Z.of_nat i) 39)) top) ++ [l4].

Lemma contains_present e : contains (pte_flags e) PRESENT = Z.testbit e 0.
Proof.
  apply eq_true_iff_eq. rewrite contains_pte_flags.
  - split; [by intros H; apply H|]. intros H i Hi Hb. unfold PRESENT in Hb.
    destruct i as [|i|i]; [done| |lia]. rewrite Z.bits_above_log2 in Hb; [done|lia|simpl; lia].
  - intros i Hi Hb. unfold PRESENT in Hb.
    destruct i as [|i|i]; [set_solver| |lia]. rewrite Z.bits_above_log2 in Hb; [done|lia|simpl; lia].
  - done.
Qed.

Lemma pte_frame_present e f : pte_frame e = FrameOk f -> Z.testbit e 0 = true.
Proof. rewrite pte_frame_spec. by destruct (Z.testbit e 0). Qed.

Context {A : Type} `{!FrameAllocator A, !FrameDeallocator A, !LawfulFrameAllocator A}.

(** A loop over the entries of a table frees what its body frees for each of
    them. *)
Lemma foldM_frees (f : nat -> A -> outcome A) (g : nat -> list Z) (js : list nat) (a : A) :
  fa_inv a ->
  (forall i a, i ∈ js -> fa_inv a -> exists a', f i a = Ok a' /\ fa_inv a' /\
     fa_avail a' = reverse (g i) ++ fa_avail a) ->
  exists a', foldM f js a = Ok a' /\ fa_inv a' /\ fa_avail a' = reverse (js ≫= g) ++ fa_avail a.
Proof.
  revert a; induction js as [|i js IH]; intros a Hi H; simpl; [by exists a|].
  destruct (H i a) as (a1 & -> & Hi1 & Hav1); [set_solver|done|]. simpl.
  destruct (IH a1 Hi1) as (a2 & -> & Hi2 & Hav2).
  { intros j b Hj. apply H. set_solver. }
  exists a2. split_and!; [done..|]. by rewrite Hav2, Hav1, reverse_app, app_assoc.
Qed.

(** Then the table itself is freed. *)
Lemma foldM_frees_then (f : nat -> A -> outcome A) (g : nat -> list Z) (t : Z) (a : A) :
  fa_inv a ->
  (forall i b, (i < 512)%nat -> fa_inv b -> exists b', f i b = Ok b' /\ fa_inv b' /\
     fa_avail b' = reverse (g i) ++ fa_avail b) ->
  exists a', (a1 ← foldM f entry_indexes a; deallocate_frame t a1) = Ok a' /\ fa_inv a' /\
    fa_avail a' = reverse ((entry_indexes ≫= g) ++ [t]) ++ fa_avail a.
Proof.
  intros Hi H. destruct (foldM_frees f g entry_indexes a Hi) as (a1 & -> & Hi1 & Hav1).
  { intros i b Hi'%elem_of_entry_indexes. auto. }
  simpl. destruct (fa_dealloc a1 t Hi1) as (a2 & -> & Hi2 & Hav2).
  exists a2. split_and!; [done..|]. by rewrite Hav2, Hav1, reverse_snoc.
Qed.

Lemma free_table_frees m borrowed l (t : ptree (S l)) base (a : A) :
  repr m (S l) t -> fa_inv a ->
  exists a', free_table m borrowed (S l) (table t) base a = Ok a' /\ fa_inv a' /\
    fa_avail a' = reverse (freed borrowed (S l) base t) ++ fa_avail a.
Proof.
  revert t base a; induction l as [|l IH]; intros t base a Hr Hi; cbn [free_table freed].
  all: apply foldM_frees_then; [done|]; intros i b Hlt Hb; specialize (Hr i Hlt);
    unfold at_child; rewrite contains_present;
    destruct (children t !! i) as [c|]; [|rewrite Hr; by exists b].
  all: destruct Hr as [Hf Hr]; rewrite (pte_frame_present _ _ Hf);
    unfold entry_frame; rewrite Hf; cbn [negb mbind outcome_bind].
  - cbn [Nat.ltb Nat.leb freed].
    destruct (range_contains borrowed _); cbn [negb]; [by exists b|].
    destruct (fa_dealloc b (root c) Hb) as (b' & -> & ? & ?). by exists b'.
  - cbn [Nat.ltb Nat.leb]. by apply IH.
Qed.

Lemma free_address_space_frees m borrowed l4 pmo top (a : A) :
  repr_space m l4 [0%nat; va_index 4 pmo] top -> fa_inv a ->
  exists a', free_address_space m borrowed l4 pmo a = Ok a' /\ fa_inv a' /\
    fa_avail a' = reverse (freed_space borrowed l4 top) ++ fa_avail a.
Proof.
  intros [Hsh Hr] Hi. unfold free_address_space, freed_space.
  apply foldM_frees_then; [done|]. intros i b Hlt Hb. unfold at_child.
  destruct ((i =? 0)%nat || (i =? va_index 4 pmo)%nat) eqn:E.
  - rewrite Hsh; [by exists b|]. apply orb_true_iff in E as [->%Nat.eqb_eq| ->%Nat.eqb_eq]; set_solver.
  - assert (Hn : i ∉ [0%nat; va_index 4 pmo]).
    { apply orb_false_iff in E as [?%Nat.eqb_neq ?%Nat.eqb_neq]. set_solver. }
    specialize (Hr i Hlt Hn). rewrite contains_present.
    destruct (top !! i) as [c|]; [|rewrite Hr; by exists b].
    destruct Hr as [Hf Hr]; rewrite (pte_frame_present _ _ Hf);
      unfold entry_frame; rewrite Hf; cbn [negb mbind outcome_bind].
    by apply free_table_frees.
Qed.

End Trees.

(** ** Isolation *)

Section Isolation.
Context {crate : X86Crate} {A : Type} `{!FrameAllocator A, !FrameDeallocator A, !LawfulFrameAllocator A}.

(** Two frames that are not the same do not overlap. *)
Definition frames_apart (f g : Z) : Prop := f + PAGE_SIZE <= g \/ g + PAGE_SIZE <= f.

Lemma va_index_lt l a : (1 <= l <= 4)%nat -> canonical a -> (va_index l a < 512)%nat.
Proof.
  intros Hl Ha. pose proof (va_index_spec l a Hl Ha).
  pose proof (Z.mod_pos_bound (a / 2 ^ (12 + 9 * (Z.of_nat l - 1))) 512). lia.
Qed.

(** The entries of the table [new_address_space] builds. *)
Lemma new_space_entries m cr3 new p i :
  mem_ok m -> frames_apart cr3 new -> (p < 512)%nat -> (i < 512)%nat ->
  let m1 := zero_bytes m new PAGE_SIZE in
  let m2 := set_table_entry m1 new 0 (table_entry m1 cr3 0) in
  let m3 := set_table_entry m2 new p (table_entry m2 cr3 p) in
  (forall x, x < new \/ new + PAGE_SIZE <= x -> m3 x = m x) /\
  table_entry m3 new i =
    if decide (i ∈ [0%nat; p]) then table_entry m3 cr3 i else 0.
Proof.
  intros Hm Hap Hp Hi m1 m2 m3. unfold frames_apart in Hap.
  assert (H1 : forall x, x < new \/ new + PAGE_SIZE <= x -> m1 x = m x).
  { intros x Hx. by apply zero_bytes_other. }
  assert (H2 : forall x, x < new \/ new + PAGE_SIZE <= x -> m2 x = m x).
  { intros x Hx. unfold m2. rewrite set_table_entry_outside; [auto|lia|done]. }
  assert (H3 : forall x, x < new \/ new + PAGE_SIZE <= x -> m3 x = m x).
  { intros x Hx. unfold m3. rewrite set_table_entry_outside; [auto|lia|done]. }
  assert (Hc : forall j, (j < 512)%nat -> table_entry m1 cr3 j = table_entry m cr3 j /\
    table_entry m2 cr3 j = table_entry m cr3 j /\ table_entry m3 cr3 j = table_entry m cr3 j).
  { intros j Hj. split_and!; apply table_entry_ext; try done; intros x Hx;
      first [apply H1 | apply H2 | apply H3]; lia. }
  assert (Hm1 : mem_ok m1) by (unfold m1; auto with velora).
  assert (Hm2 : mem_ok m2) by (unfold m2; auto with velora).
  split; [done|]. destruct (decide (i = p)) as [->|Hip].
  - rewrite decide_True by set_solver. unfold m3 at 1.
    rewrite set_table_entry_same by auto with velora.
    destruct (Hc p Hp) as (_ & -> & ->). done.
  - unfold m3 at 1. rewrite set_table_entry_ne by done.
    destruct (decide (i = 0%nat)) as [->|Hi0].
    + rewrite decide_True by set_solver. unfold m2 at 1.
      rewrite set_table_entry_same by auto with velora.
      destruct (Hc 0%nat) as (-> & _ & ->); [lia|done].
    + rewrite decide_False by set_solver. unfold m2. rewrite set_table_entry_ne by done.
      by apply table_entry_zeroed.
Qed.

(** An access through a top-level table depends on the one entry of the
    table the address selects. *)
Lemma mmu_access_entry m cr3 l4 va w :
  table_entry m l4 (hw_index 4 va) = table_entry m cr3 (hw_index 4 va) ->
  mmu_access m l4 va w = mmu_access m cr3 va w.
Proof. intros H. unfold mmu_access. destruct (bool_decide _); [|done]. cbn [mmu_walk]. by rewrite H. Qed.

Lemma mmu_access_absent m l4 va w :
  table_entry m l4 (hw_index 4 va) = 0 -> mmu_access m l4 va w = None.
Proof. intros H. unfold mmu_access. destruct (bool_decide _); [|done]. cbn [mmu_walk]. by rewrite H. Qed.

Lemma hw_index_lt l va : (hw_index l va < 512)%nat.
Proof. unfold hw_index. pose proof (Z.mod_pos_bound (va / 2 ^ level_shift l) 512). lia. Qed.

Lemma new_address_space_ok m cr3 pmo new rest (a : A) :
  mem_ok m -> canonical pmo -> fa_inv a -> fa_avail a = new :: rest -> frames_apart cr3 new ->
  exists m' a', new_address_space m cr3 pmo a = Ok (new, m', a') /\
    mem_ok m' /\ fa_inv a' /\ fa_avail a' = rest /\
    (forall x, x < new \/ new + PAGE_SIZE <= x -> m' x = m x) /\
    repr_space m' new [0%nat; va_index 4 pmo] ∅ /\
    (forall i, (i < 512)%nat -> i ∈ [0%nat; va_index 4 pmo] -> table_entry m' new i = table_entry m cr3 i) /\
    forall va w, mmu_access m' new va w =
      if decide (hw_index 4 va ∈ [0%nat; va_index 4 pmo]) then mmu_access m' cr3 va w else None.
Proof.
  intros Hm Hc Hi Hav Hap.
  destruct (fa_alloc_some a new rest Hi Hav) as (a' & E & Hi' & Hav').
  unfold new_address_space. rewrite E. simpl.
  pose proof (va_index_lt 4 pmo) as Hp. specialize (Hp ltac:(lia) Hc).
  pose proof (new_space_entries m cr3 new (va_index 4 pmo)) as H.
  eexists _, a'. split; [reflexivity|]. split_and!; [auto 10 with velora|done|done| | | |].
  - by apply (H 0%nat); try lia.
  - split; [done|]. intros i Hlt Hn. rewrite lookup_empty.
    destruct (H i Hm Hap Hp Hlt) as [_ ->]. by rewrite decide_False.
  - intros i Hlt Hin. destruct (H i Hm Hap Hp Hlt) as [_ ->]. rewrite decide_True by done.
    apply table_entry_ext; [done|]. intros x Hx. apply (H 0%nat); try done; [lia|]. unfold frames_apart in Hap. lia.
  - intros va w. pose proof (hw_index_lt 4 va) as Hlt.
    destruct (H _ Hm Hap Hp Hlt) as [_ He]. case_decide.
    + by apply mmu_access_entry.
    + by apply mmu_access_absent.
Qed.

(** C14: a new address space is isolated.  It takes the next frame of the
    allocator for its top-level table and writes nothing outside it.  An
    address whose top-level entry is one of the two shared with the kernel
    (low memory and the physical-memory window) resolves as it does under
    the active tables; every other address, the pages of all other processes
    among them, faults. *)
Theorem new_address_space_isolated m cr3 pmo new rest (a : A) :
  mem_ok m -> canonical pmo -> fa_inv a -> fa_avail a = new :: rest -> frames_apart cr3 new ->
  exists m' a', new_address_space m cr3 pmo a = Ok (new, m', a') /\
    fa_inv a' /\ fa_avail a' = rest /\
    (forall x, x < new \/ new + PAGE_SIZE <= x -> m' x = m x) /\
    repr_space m' new [0%nat; va_index 4 pmo] ∅ /\
    forall va w, mmu_access m' new va w =
      if decide (hw_index 4 va ∈ [0%nat; va_index 4 pmo]) then mmu_access m' cr3 va w else None.
Proof.
  intros Hm Hc Hi Hav Hap.
  destruct (new_address_space_ok m cr3 pmo new rest a) as (m' & a' & E & _ & H1 & H2 & H3 & H4 & _ & H5); [done..|]. eauto 10.
Qed.
End Isolation.

Section IsolationWitness.
#[local] Existing Instance x86_crate.

(** Kernel tables at 0x11000 whose entries 0, 3 and 192 are present. *)
Definition sample_kernel_tables : mem :=
  set_table_entry (set_table_entry (set_table_entry (fun _ => 0)
    0x11000 0 0x12003) 0x11000 3 0x13003) 0x11000 192 0x14007.

Lemma sample_kernel_tables_ok : mem_ok sample_kernel_tables.
Proof. unfold sample_kernel_tables. do 3 apply mem_ok_set_table_entry. intros x. unfold is_u8. lia. Qed.

Lemma new_address_space_isolated_witness :
  exists m' a', new_address_space sample_kernel_tables 0x11000 (3 * 2 ^ 39)
      (frame_allocator_init sample_map) = Ok (0x1000, m', a') /\
    mmu_access m' 0x1000 (192 * 2 ^ 39) false = None.
Proof.
  destruct (frame_allocator_init_lawful sample_map sample_map_ok) as [Hi Hav].
  destruct (new_address_space_isolated sample_kernel_tables 0x11000 (3 * 2 ^ 39) 0x1000
    [0x2000; 0x8000; 0x9000] (frame_allocator_init sample_map)) as (m' & a' & E & _ & _ & _ & _ & H).
  - apply sample_kernel_tables_ok.
  - unfold canonical. lia.
  - exact Hi.
  - exact Hav.
  - unfold frames_apart, PAGE_SIZE. lia.
  - exists m', a'. split; [exact E|]. rewrite H. reflexivity.
Defined.
End IsolationWitness.
