(* ===== verification/Mapper.v ===== *)
(** * The page mapper of the [x86_64] crate

    The kernel never writes a page-table entry below level 4 itself: it calls
    [Mapper::map_to] of an [OffsetPageTable].  [PageMapper] is that function
    with the contract its documentation gives, stated on the page-table
    trees of [AddressSpace]; [ref_mapper] is a concrete function that meets
    it, for evaluating the model. *)

From S2P Require Import Prelude X86 FrameAlloc Paging AddressSpace.

(** ** What a tree maps *)

Fixpoint tree_lookup (l : nat) (page : Z) : ptree l -> option Z :=
  match l with
  | O => fun f => Some f
  | S l' => fun t => children t !! hw_index (S l') page ≫= tree_lookup l' page
  end.

Definition space_lookup (top : gmap nat (ptree 3)) (page : Z) : option Z :=
  top !! hw_index 4 page ≫= tree_lookup 3 page.

(** The frames of the tables of a tree. *)
Fixpoint tables (l : nat) : ptree l -> list Z :=
  match l with
  | O => fun _ => []
  | S l' => fun t => table t :: (entry_indexes ≫= at_child (fun _ => tables l') (children t))
  end.

Definition space_tables (l4 : Z) (top : gmap nat (ptree 3)) : list Z :=
  l4 :: (entry_indexes ≫= at_child (fun _ => tables 3) top).

(** How many tables the path to a page still lacks. *)
Fixpoint tree_missing (l : nat) (page : Z) : ptree l -> nat :=
  match l with
  | O => fun _ => O
  | S l' => fun t =>
      match children t !! hw_index (S l') page with
      | Some c => tree_missing l' page c
      | None => l'
      end
  end.

Definition space_missing (top : gmap nat (ptree 3)) (page : Z) : nat :=
  match top !! hw_index 4 page with Some c => tree_missing 3 page c | None => 3%nat end.

(** A physical frame: aligned, below the physical address limit. *)
Definition frame_ok (f : Z) : Prop := f mod PAGE_SIZE = 0 /\ 0 <= f < 2 ^ 52.

Definition in_frame (f x : Z) : Prop := f <= x < f + PAGE_SIZE.
Definition in_frames (fs : list Z) (x : Z) : Prop := exists f, f ∈ fs /\ in_frame f x.

(** The flags the kernel maps pages with. *)
Definition page_flags (flags : Z) : Prop :=
  flags = PRESENT \/ flags = Z.lor PRESENT WRITABLE \/
  flags = Z.lor PRESENT USER_ACCESSIBLE \/
  flags = Z.lor (Z.lor PRESENT USER_ACCESSIBLE) WRITABLE.

(** The last entry of a walk. *)
Fixpoint leaf_entry `{X86Crate} (m : mem) (t : Z) (indexes : list nat) : option Z :=
  match indexes with
  | [] => None
  | [i] => if Z.testbit (table_entry m t i) 0 then Some (table_entry m t i) else None
  | i :: rest =>
      match pte_frame (table_entry m t i) with
      | FrameOk f => leaf_entry m f rest
      | _ => None
      end
  end.

Inductive MapToError := FrameAllocationFailed | ParentEntryHugePage | PageAlreadyMapped (frame : Z).

(** ** The contract of [map_to] *)

Section Contract.
Context {crate : X86Crate} {A : Type} `{!FrameAllocator A, !FrameDeallocator A, !LawfulFrameAllocator A}.

(** The page tables of [l4] are a tree whose tables are distinct frames, none
    of which the allocator could hand out again. *)
Definition space_ok (m : mem) (l4 : Z) (shared : list nat) (top : gmap nat (ptree 3)) (a : A) : Prop :=
  mem_ok m /\ repr_space m l4 shared top /\ fa_inv a /\
  NoDup (space_tables l4 top ++ fa_avail a) /\ Forall frame_ok (space_tables l4 top ++ fa_avail a).

(** The page, the frame and the flags of a mapping request. *)
Definition request_ok (shared : list nat) (page frame flags : Z) : Prop :=
  page mod PAGE_SIZE = 0 /\ canonical page /\ hw_index 4 page ∉ shared /\
  frame_ok frame /\ page_flags flags.

(** A successful [map_to]: the page is mapped to the frame with the flags,
    every other mapping is kept, the missing tables came from the allocator,
    a table that was there is still used, and only tables of the hierarchy
    were written. *)
Record mapped_ok (m m' : mem) (l4 : Z) (shared : list nat) (top top' : gmap nat (ptree 3))
    (page frame flags : Z) (a a' : A) : Prop := {
  mapped_mem : mem_ok m';
  mapped_repr : repr_space m' l4 shared top';
  mapped_inv : fa_inv a';
  mapped_avail : fa_avail a' = drop (space_missing top page) (fa_avail a);
  mapped_tables : space_tables l4 top' ≡ₚ take (space_missing top page) (fa_avail a) ++ space_tables l4 top;
  mapped_lookup : space_lookup top' page = Some frame;
  mapped_others page' : hw_indexes 4 page' <> hw_indexes 4 page ->
    space_lookup top' page' = space_lookup top page';
  mapped_shared i : (i < 512)%nat -> i ∈ shared -> table_entry m' l4 i = table_entry m l4 i;
  mapped_outside x : ~ in_frames (space_tables l4 top') x -> m' x = m x;
  mapped_flags : accessible_walk m' l4 (hw_indexes 4 page) flags = true;
  mapped_leaf : exists e, leaf_entry m' l4 (hw_indexes 4 page) = Some e /\
    (forall i, i ∈ [0; 1; 2] -> Z.testbit e i = Z.testbit flags i);
  mapped_other_flags page' required : page_flags required ->
    hw_index 4 page' ∉ shared -> hw_indexes 4 page' <> hw_indexes 4 page ->
    accessible_walk m l4 (hw_indexes 4 page') required = true ->
    accessible_walk m' l4 (hw_indexes 4 page') required = true;
  mapped_other_leaf page' e : hw_index 4 page' ∉ shared -> hw_indexes 4 page' <> hw_indexes 4 page ->
    leaf_entry m l4 (hw_indexes 4 page') = Some e -> leaf_entry m' l4 (hw_indexes 4 page') = Some e;
  mapped_roots i c : top !! i = Some c -> exists c', top' !! i = Some c' /\ root c' = root c;
}.
End Contract.

Class PageMapper `{crate : X86Crate} := {
  (** [map_to(page, frame, flags, frame_allocator)] on the hierarchy of
      [l4]: the error of the [Result] if there is one, memory, the
      allocator.  The crate takes an entry for free when it is zero; here it
      is free when PRESENT is clear, which is the same on the tables of this
      kernel, where an entry is either zero or has PRESENT set. *)
  map_to : forall {A} `{!FrameAllocator A},
    mem -> Z -> Z -> Z -> Z -> A -> outcome (option MapToError * mem * A);
  map_to_ok {A} `{!FrameAllocator A, !FrameDeallocator A, !LawfulFrameAllocator A}
      m l4 shared top page frame flags (a : A) :
    space_ok m l4 shared top a -> request_ok shared page frame flags ->
    space_lookup top page = None -> (space_missing top page <= length (fa_avail a))%nat ->
    exists m' a' top', map_to m l4 page frame flags a = Ok (None, m', a') /\
      mapped_ok m m' l4 shared top top' page frame flags a a';
  map_to_already {A} `{!FrameAllocator A, !FrameDeallocator A, !LawfulFrameAllocator A}
      m l4 shared top page frame flags (a : A) f :
    space_ok m l4 shared top a -> request_ok shared page frame flags ->
    space_lookup top page = Some f ->
    exists m', map_to m l4 page frame flags a = Ok (Some (PageAlreadyMapped f), m', a);
  map_to_no_frames {A} `{!FrameAllocator A, !FrameDeallocator A, !LawfulFrameAllocator A}
      m l4 shared top page frame flags (a : A) :
    space_ok m l4 shared top a -> request_ok shared page frame flags ->
    space_lookup top page = None -> (length (fa_avail a) < space_missing top page)%nat ->
    exists m' a', map_to m l4 page frame flags a = Ok (Some FrameAllocationFailed, m', a');
  (** [translate_page(page)]: the frame the page is mapped to. *)
  translate_page : mem -> Z -> Z -> option Z;
  translate_page_some m l4 page e : page mod PAGE_SIZE = 0 -> canonical page ->
    leaf_entry m l4 (hw_indexes 4 page) = Some e -> translate_page m l4 page = Some (Z.land e ADDR_MASK);
  translate_page_none m l4 page : page mod PAGE_SIZE = 0 -> canonical page ->
    leaf_entry m l4 (hw_indexes 4 page) = None -> translate_page m l4 page = None;
}.
