(* ===== verification/MapperRef.v ===== *)
(** * A page mapper that meets the contract of [map_to]

    [ref_map_to] walks the tables from level 4, allocating a zeroed table
    where one is missing and adding the flags of the request to the entries
    on the way, and writes the last entry.  The contract of [PageMapper] is
    thereby shown to be satisfiable, and the model of the code that maps
    memory can be run. *)

From S2P Require Import Prelude X86 FrameAlloc Paging AddressSpace Mapper.

Section Reference.
Context {A : Type} `{!FrameAllocator A}.

Fixpoint ref_map_to (l : nat) (m : mem) (t page frame flags : Z) (a : A)
    : outcome (option MapToError * mem * A) :=
  match l with
  | O => Ok (None, m, a)
  | S l' =>
      let i := hw_index l page in
      let e := table_entry m t i in
      match l' with
      | O =>
          if Z.testbit e 0 then Ok (Some (PageAlreadyMapped (Z.land e ADDR_MASK)), m, a)
          else Ok (None, set_table_entry m t i (Z.lor frame flags), a)
      | S _ =>
          if Z.testbit e 0 then
            if Z.testbit e 7 then Ok (Some ParentEntryHugePage, m, a)
            else ref_map_to l' (set_table_entry m t i (Z.lor e flags)) (Z.land e ADDR_MASK) page frame flags a
          else
            '(r, a') ← allocate_frame a;
            match r with
            | None => Ok (Some FrameAllocationFailed, m, a')
            | Some f =>
                ref_map_to l' (set_table_entry (zero_bytes m f PAGE_SIZE) t i (Z.lor f flags)) f page frame
                  flags a'
            end
      end
  end.
End Reference.

(** ** Entries *)

Lemma testbit_addr_mask i : 0 <= i -> Z.testbit ADDR_MASK i = (12 <=? i) && (i <? 52).
Proof.
  intros Hi. change ADDR_MASK with (Z.shiftl (Z.ones 40) 12).
  destruct (Z.leb_spec 12 i); cbn [andb].
  - rewrite Z.shiftl_spec_high, Z.testbit_ones_nonneg by lia. apply eq_true_iff_eq.
    rewrite !Z.ltb_lt. lia.
  - by rewrite Z.shiftl_spec_low.
Qed.

Lemma page_flags_testbit flags i : page_flags flags -> 3 <= i -> Z.testbit flags i = false.
Proof.
  intros Hf Hi. apply Z.bits_above_log2.
  - destruct Hf as [ -> | [ -> | [ -> | -> ] ] ]; done.
  - apply (Z.le_lt_trans _ 2); [|lia]. destruct Hf as [ -> | [ -> | [ -> | -> ] ] ]; by vm_compute.
Qed.

Lemma page_flags_present flags : page_flags flags -> Z.testbit flags 0 = true.
Proof. by intros [ -> | [ -> | [ -> | -> ] ] ]. Qed.

Lemma page_flags_nonneg flags : page_flags flags -> 0 <= flags < 8.
Proof. by intros [ -> | [ -> | [ -> | -> ] ] ]. Qed.

Lemma frame_ok_testbit f i : frame_ok f -> 0 <= i -> i < 12 \/ 52 <= i -> Z.testbit f i = false.
Proof.
  intros [Ha Hb] Hi [Hlt|Hge].
  - unfold PAGE_SIZE in Ha. change 4096 with (2 ^ 12) in Ha.
    rewrite <- (Z.mod_pow2_bits_low f 12) by lia. by rewrite Ha, Z.bits_0.
  - destruct (Z.eq_dec f 0) as [->|Hn]; [apply Z.bits_0|]. apply Z.bits_above_log2; [lia|].
    apply (Z.lt_le_trans _ 52); [|done]. apply Z.log2_lt_pow2; lia.
Qed.

Lemma lor_u64 a b : is_u64 a -> 0 <= b < 8 -> is_u64 (Z.lor a b).
Proof.
  unfold is_u64. intros Ha Hb. assert (0 <= Z.lor a b) by (apply Z.lor_nonneg; lia). split; [done|].
  destruct (Z.eq_dec (Z.lor a b) 0) as [->|Hn]; [done|]. apply Z.log2_lt_pow2; [lia|].
  rewrite Z.log2_lor by lia. apply Z.max_lub_lt.
  - destruct (Z.eq_dec a 0) as [->|]; [done|]. apply Z.log2_lt_pow2; lia.
  - destruct (Z.eq_dec b 0) as [->|]; [done|]. apply Z.log2_lt_pow2; lia.
Qed.

Lemma frame_ok_u64 f : frame_ok f -> is_u64 f.
Proof. intros [_ Hb]. unfold is_u64. lia. Qed.

Section Entries.
Context {crate : X86Crate}.

(** An entry for [frame] with [flags]. *)
Lemma new_entry f flags :
  frame_ok f -> page_flags flags ->
  pte_frame (Z.lor f flags) = FrameOk f /\ is_u64 (Z.lor f flags) /\
  (forall i, i ∈ [0; 1; 2] -> Z.testbit (Z.lor f flags) i = Z.testbit flags i).
Proof.
  intros Hf Hg. assert (Hlow : forall i, 0 <= i < 12 -> Z.testbit (Z.lor f flags) i = Z.testbit flags i).
  { intros i Hi. rewrite Z.lor_spec, (frame_ok_testbit f) by (done || lia). done. }
  split_and!.
  - rewrite pte_frame_spec, !Hlow, page_flags_present, (page_flags_testbit flags 7) by (done || lia). cbn [negb].
    f_equal. apply Z.bits_inj'. intros i Hi. rewrite Z.land_spec, Z.lor_spec, testbit_addr_mask by done.
    destruct (Z.leb_spec 12 i), (Z.ltb_spec i 52); cbn [andb];
      rewrite ?andb_true_r, ?andb_false_r; try (by rewrite (frame_ok_testbit f) by (done || lia)).
    rewrite (page_flags_testbit flags) by (done || lia). apply orb_false_r.
  - apply lor_u64; [by apply frame_ok_u64|by apply page_flags_nonneg].
  - intros i Hi. apply Hlow. set_unfold. lia.
Qed.

(** Flags added to the entry of a table. *)
Lemma grown_entry e f flags :
  pte_frame e = FrameOk f -> page_flags flags -> is_u64 e ->
  pte_frame (Z.lor e flags) = FrameOk f /\ is_u64 (Z.lor e flags) /\
  (forall i, i ∈ [0; 1; 2] -> Z.testbit (Z.lor e flags) i = Z.testbit e i || Z.testbit flags i).
Proof.
  rewrite !pte_frame_spec. intros He Hg Hu.
  destruct (Z.testbit e 0) eqn:H0, (Z.testbit e 7) eqn:H7; try done. cbn [negb] in He. simplify_eq.
  split_and!.
  - rewrite !Z.lor_spec, H0, H7, (page_flags_testbit flags 7) by (done || lia). cbn [orb negb]. f_equal.
    apply Z.bits_inj'. intros i Hi. rewrite !Z.land_spec, Z.lor_spec, testbit_addr_mask by done.
    destruct (Z.leb_spec 12 i); cbn [andb]; [|by rewrite !andb_false_r].
    rewrite (page_flags_testbit flags) by (done || lia). by rewrite orb_false_r.
  - apply lor_u64; [done|by apply page_flags_nonneg].
  - intros i Hi. apply Z.lor_spec.
Qed.

Lemma contains_page_flags e required :
  page_flags required ->
  contains (pte_flags e) required = true <->
  (forall i, i ∈ [0; 1; 2] -> Z.testbit required i = true -> Z.testbit e i = true).
Proof.
  intros Hr. assert (Hin : forall i, 0 <= i -> Z.testbit required i = true -> i ∈ [0; 1; 2]).
  { intros i Hi Hb. destruct (Z.le_gt_cases 3 i).
    - by rewrite page_flags_testbit in Hb.
    - set_unfold. lia. }
  rewrite contains_pte_flags.
  - split; intros H i Hi Hb; apply H; try done; [set_unfold; lia|by apply Hin].
  - intros i Hi Hb. specialize (Hin i Hi Hb). set_solver.
  - by apply page_flags_nonneg.
Qed.
End Entries.

(** ** Frames *)

Lemma frame_disjoint f g x : frame_ok f -> frame_ok g -> f <> g -> in_frame f x -> ~ in_frame g x.
Proof.
  unfold frame_ok, in_frame, PAGE_SIZE. intros [Hf _] [Hg _] Hne H1 H2.
  pose proof (Z.div_mod f 4096). pose proof (Z.div_mod g 4096). lia.
Qed.

Lemma in_frames_app fs gs x : in_frames (fs ++ gs) x <-> in_frames fs x \/ in_frames gs x.
Proof. unfold in_frames. setoid_rewrite elem_of_app. naive_solver. Qed.

Lemma in_frames_disjoint fs gs x :
  NoDup (fs ++ gs) -> Forall frame_ok (fs ++ gs) -> in_frames fs x -> ~ in_frames gs x.
Proof.
  intros Hnd Hok (f & Hf & Hx) (g & Hg & Hx'). rewrite Forall_forall in Hok.
  apply NoDup_app in Hnd as (_ & Hd & _).
  apply (frame_disjoint f g x); [apply Hok; set_solver..| |done|done].
  intros ->. by apply (Hd g).
Qed.

Lemma in_frames_incl fs gs x : (forall f, f ∈ fs -> f ∈ gs) -> in_frames fs x -> in_frames gs x.
Proof. intros H (f & Hf & Hx). exists f. auto. Qed.

(** ** Tables with some of their entries left out *)

Section Nodes.
Context {crate : X86Crate}.
Implicit Types (m : mem) (l : nat).

(** The entries of the table [tbl] that are not in [sh] are [ch]. *)
Definition node m l (tbl : Z) (sh : list nat) (ch : gmap nat (ptree l)) : Prop :=
  (forall i, i ∈ sh -> ch !! i = None) /\
  forall i, (i < 512)%nat -> i ∉ sh ->
    match ch !! i with
    | Some c => pte_frame (table_entry m tbl i) = FrameOk (root c) /\ repr m l c
    | None => Z.testbit (table_entry m tbl i) 0 = false
    end.

Definition node_tables l (tbl : Z) (ch : gmap nat (ptree l)) : list Z :=
  tbl :: (entry_indexes ≫= at_child (fun _ => tables l) ch).

Definition node_lookup l (ch : gmap nat (ptree l)) (page : Z) : option Z :=
  ch !! hw_index (S l) page ≫= tree_lookup l page.

Definition node_missing l (ch : gmap nat (ptree l)) (page : Z) : nat :=
  match ch !! hw_index (S l) page with Some c => tree_missing l page c | None => l end.

Lemma repr_node m l (t : ptree (S l)) : repr m (S l) t <-> node m l (table t) [] (children t).
Proof.
  split.
  - intros H. split; [by intros i ?%not_elem_of_nil|]. intros i Hi _. by apply H.
  - intros [_ H] i Hi. apply H; [done|apply not_elem_of_nil].
Qed.

Lemma repr_ext m m' l (t : ptree l) :
  (forall x, in_frames (tables l t) x -> m' x = m x) -> repr m l t -> repr m' l t.
Proof.
  revert t; induction l as [|l IH]; intros t Hx Hr; [done|]. intros i Hi. specialize (Hr i Hi).
  assert (He : table_entry m' (table t) i = table_entry m (table t) i).
  { apply table_entry_ext; [done|]. intros x Hx'. apply Hx. exists (table t). split; [|done].
    cbn [tables]. set_solver. }
  rewrite He. destruct (children t !! i) as [c|] eqn:Ec; [|done].
  destruct Hr as [Hf Hr]. split; [done|]. apply IH; [|done].
  intros x Hx'. apply Hx. eapply in_frames_incl; [|exact Hx'].
  intros f Hf'. cbn [tables]. right. apply list_elem_of_bind. exists i. split; [|by apply elem_of_entry_indexes].
  unfold at_child. by rewrite Ec.
Qed.

(** A walk through a tree only reads its tables. *)
Lemma walk_ext m m' l (c : ptree l) page required :
  (forall x, in_frames (tables l c) x -> m' x = m x) -> repr m l c ->
  accessible_walk m' (root c) (hw_indexes l page) required =
    accessible_walk m (root c) (hw_indexes l page) required /\
  leaf_entry m' (root c) (hw_indexes l page) = leaf_entry m (root c) (hw_indexes l page).
Proof.
  revert c; induction l as [|l IH]; intros c Hx Hr; [done|]. rewrite hw_indexes_S.
  assert (Hi := hw_index_lt (S l) page). specialize (Hr _ Hi).
  assert (He : table_entry m' (root c) (hw_index (S l) page) = table_entry m (root c) (hw_index (S l) page)).
  { apply table_entry_ext; [done|]. intros x Hx'. apply Hx. exists (table c). split; [|done].
    cbn [tables]. set_solver. }
  destruct (children c !! hw_index (S l) page) as [d|] eqn:Ed.
  - destruct Hr as [Hf Hr]. destruct (IH d) as [IH1 IH2]; [|done|].
    { intros x Hx'. apply Hx. eapply in_frames_incl; [|exact Hx'].
      intros f Hf'. cbn [tables]. right. apply list_elem_of_bind.
      exists (hw_index (S l) page). split; [|by apply elem_of_entry_indexes]. unfold at_child. by rewrite Ed. }
    cbn [accessible_walk leaf_entry]. rewrite He, (root_table c), Hf. rewrite IH1.
    split; [done|]. destruct l; [done|]. rewrite hw_indexes_S in *. exact IH2.
  - cbn [accessible_walk leaf_entry]. rewrite He, (root_table c), pte_frame_spec, Hr. cbn [negb].
    split; [done|]. by destruct l.
Qed.

(** Replacing one child. *)
Lemma bind_insert_child l (f : nat -> ptree l -> list Z) (ch : gmap nat (ptree l)) i c :
  (i < 512)%nat ->
  entry_indexes ≫= at_child f (<[i := c]> ch) ≡ₚ f i c ++ (entry_indexes ≫= at_child f (delete i ch)).
Proof.
  intros Hi. assert (Hin : i ∈ entry_indexes) by by apply elem_of_entry_indexes.
  assert (Hnd := NoDup_entry_indexes).
  destruct (list_elem_of_split _ _ Hin) as (l1 & l2 & E). rewrite E in *.
  apply NoDup_app in Hnd as (_ & Hd1 & Hnd2). apply NoDup_cons in Hnd2 as [Hd2 _].
  assert (Hext : forall js, i ∉ js -> js ≫= at_child f (<[i := c]> ch) = js ≫= at_child f (delete i ch)).
  { induction js as [|j js IH]; [done|]. intros Hn. rewrite !bind_cons, IH by set_solver. f_equal.
    unfold at_child. rewrite lookup_insert_ne, lookup_delete_ne by set_solver. done. }
  rewrite !bind_app, !bind_cons. rewrite Hext, (Hext l2) by set_solver.
  unfold at_child at 2 5. rewrite lookup_insert_eq, lookup_delete_eq. cbn [app].
  apply Permutation_app_swap_app.
Qed.

Lemma bind_lookup_child l (f : nat -> ptree l -> list Z) (ch : gmap nat (ptree l)) i c :
  (i < 512)%nat -> ch !! i = Some c ->
  entry_indexes ≫= at_child f ch ≡ₚ f i c ++ (entry_indexes ≫= at_child f (delete i ch)).
Proof. intros Hi Hc. rewrite <- (insert_id ch i c Hc) at 1. by apply bind_insert_child. Qed.

Lemma bind_absent_child l (f : nat -> ptree l -> list Z) (ch : gmap nat (ptree l)) i :
  ch !! i = None -> entry_indexes ≫= at_child f ch = entry_indexes ≫= at_child f (delete i ch).
Proof. intros Hc. by rewrite delete_id. Qed.

Lemma bind_no_children l (f : nat -> ptree l -> list Z) : entry_indexes ≫= at_child f ∅ = [].
Proof.
  induction entry_indexes as [|j js IH]; [done|]. rewrite bind_cons, IH.
  unfold at_child. by rewrite lookup_empty.
Qed.

(** The tables of the other children. *)
Definition other_tables l (ch : gmap nat (ptree l)) (i : nat) : list Z :=
  entry_indexes ≫= at_child (fun _ => tables l) (delete i ch).

Lemma other_tables_child l (ch : gmap nat (ptree l)) i j c f :
  (j < 512)%nat -> i <> j -> ch !! j = Some c -> f ∈ tables l c -> f ∈ other_tables l ch i.
Proof.
  intros Hj Hne Hc Hf. apply list_elem_of_bind. exists j. split; [|by apply elem_of_entry_indexes].
  unfold at_child. rewrite lookup_delete_ne by done. by rewrite Hc.
Qed.

(** A node after the child at [i] was replaced and only that entry of the
    table changed. *)
Lemma node_update m m' l tbl sh ch i c' :
  node m l tbl sh ch -> (i < 512)%nat -> i ∉ sh ->
  pte_frame (table_entry m' tbl i) = FrameOk (root c') ->
  (forall j, (j < 512)%nat -> j <> i -> table_entry m' tbl j = table_entry m tbl j) ->
  repr m' l c' -> (forall x, in_frames (other_tables l ch i) x -> m' x = m x) ->
  node m' l tbl sh (<[i := c']> ch).
Proof.
  intros [Hsh Hn] Hi His He Hj Hr Hx. split.
  - intros j Hin. rewrite lookup_insert_ne; [by apply Hsh|]. intros ->. done.
  - intros j Hlt Hns. destruct (decide (i = j)) as [<-|Hne].
    + rewrite lookup_insert_eq. done.
    + rewrite lookup_insert_ne by done. specialize (Hn j Hlt Hns). rewrite Hj by done.
      destruct (ch !! j) as [c|] eqn:Ec; [|done]. destruct Hn as [Hf Hr']. split; [done|].
      eapply repr_ext; [|exact Hr']. intros x Hx'. apply Hx. eapply in_frames_incl; [|exact Hx'].
      intros f Hf'. by apply (other_tables_child l ch i j c).
Qed.

Lemma leaf_entry_step m tbl l page :
  leaf_entry m tbl (hw_indexes (S (S l)) page) =
  match pte_frame (table_entry m tbl (hw_index (S (S l)) page)) with
  | FrameOk f => leaf_entry m f (hw_indexes (S l) page)
  | _ => None
  end.
Proof. by rewrite !hw_indexes_S. Qed.

Lemma accessible_walk_step m tbl l page required :
  accessible_walk m tbl (hw_indexes (S l) page) required =
  contains (pte_flags (table_entry m tbl (hw_index (S l) page))) required &&
  match pte_frame (table_entry m tbl (hw_index (S l) page)) with
  | FrameOk f => accessible_walk m f (hw_indexes l page) required
  | _ => false
  end.
Proof. rewrite hw_indexes_S. cbn [accessible_walk]. by destruct (contains _ _), (pte_frame _). Qed.

(** A node depends on the memory of its tables only, and so do the walks
    through it. *)
Lemma node_child_tables l tbl (ch : gmap nat (ptree l)) i c f :
  (i < 512)%nat -> ch !! i = Some c -> f ∈ tables l c -> f ∈ node_tables l tbl ch.
Proof.
  intros Hi Hc Hf. unfold node_tables. right. apply list_elem_of_bind. exists i.
  split; [|by apply elem_of_entry_indexes]. unfold at_child. by rewrite Hc.
Qed.

Lemma node_entry_ext m m' l tbl (ch : gmap nat (ptree l)) i :
  (forall x, in_frames (node_tables l tbl ch) x -> m' x = m x) -> (i < 512)%nat ->
  table_entry m' tbl i = table_entry m tbl i.
Proof.
  intros Hx Hi. apply table_entry_ext; [done|]. intros x Hx'. apply Hx. exists tbl.
  split; [unfold node_tables; set_solver|done].
Qed.

Lemma node_ext m m' l tbl sh ch :
  (forall x, in_frames (node_tables l tbl ch) x -> m' x = m x) ->
  node m l tbl sh ch -> node m' l tbl sh ch.
Proof.
  intros Hx [Hsh Hn]. split; [done|]. intros i Hi His. specialize (Hn i Hi His).
  rewrite (node_entry_ext m m' l tbl ch i Hx Hi). destruct (ch !! i) as [c|] eqn:Ec; [|done].
  destruct Hn as [Hf Hr]. split; [done|]. eapply repr_ext; [|exact Hr]. intros x Hx'. apply Hx.
  eapply in_frames_incl; [|exact Hx']. intros f. by apply (node_child_tables l tbl ch i c).
Qed.

Lemma node_walk_ext m m' l tbl sh ch page required :
  (forall x, in_frames (node_tables (S l) tbl ch) x -> m' x = m x) ->
  node m (S l) tbl sh ch -> hw_index (S (S l)) page ∉ sh ->
  accessible_walk m' tbl (hw_indexes (S (S l)) page) required =
    accessible_walk m tbl (hw_indexes (S (S l)) page) required /\
  leaf_entry m' tbl (hw_indexes (S (S l)) page) = leaf_entry m tbl (hw_indexes (S (S l)) page).
Proof.
  intros Hx [_ Hn] Hs. assert (Hi := hw_index_lt (S (S l)) page). specialize (Hn _ Hi Hs).
  assert (He := node_entry_ext m m' (S l) tbl ch _ Hx Hi).
  rewrite !(accessible_walk_step _ tbl (S l)), !leaf_entry_step, He.
  destruct (ch !! hw_index (S (S l)) page) as [c|] eqn:Ec.
  - destruct Hn as [Hf Hr]. rewrite Hf.
    destruct (walk_ext m m' (S l) c page required) as [E1 E2]; [|done|by rewrite E1, E2].
    intros x Hx'. apply Hx. eapply in_frames_incl; [|exact Hx'].
    intros f. by apply (node_child_tables (S l) tbl ch (hw_index (S (S l)) page) c).
  - by rewrite pte_frame_spec, Hn.
Qed.
End Nodes.

Section Mapping.
Context {crate : X86Crate} {A : Type} `{!FrameAllocator A, !FrameDeallocator A, !LawfulFrameAllocator A}.
Implicit Types (m : mem) (l : nat).

(** A page was mapped below a table: the contract of [map_to] for a table
    of any level. *)
Record node_mapped l sh m m' tbl (ch ch' : gmap nat (ptree l)) page frame flags (avail avail' : list Z) : Prop := {
  nm_node : node m' l tbl sh ch';
  nm_avail : avail' = drop (node_missing l ch page) avail;
  nm_tables : node_tables l tbl ch' ≡ₚ take (node_missing l ch page) avail ++ node_tables l tbl ch;
  nm_lookup : node_lookup l ch' page = Some frame;
  nm_others page' : hw_indexes (S l) page' <> hw_indexes (S l) page ->
    node_lookup l ch' page' = node_lookup l ch page';
  nm_entries j : (j < 512)%nat -> j <> hw_index (S l) page -> table_entry m' tbl j = table_entry m tbl j;
  nm_outside x : ~ in_frames (node_tables l tbl ch') x -> m' x = m x;
  nm_flags : accessible_walk m' tbl (hw_indexes (S l) page) flags = true;
  nm_leaf : exists e, leaf_entry m' tbl (hw_indexes (S l) page) = Some e /\
    (forall i, i ∈ [0; 1; 2] -> Z.testbit e i = Z.testbit flags i);
  nm_other_flags page' required : page_flags required -> hw_index (S l) page' ∉ sh ->
    hw_indexes (S l) page' <> hw_indexes (S l) page ->
    accessible_walk m tbl (hw_indexes (S l) page') required = true ->
    accessible_walk m' tbl (hw_indexes (S l) page') required = true;
  nm_other_leaf page' e : hw_index (S l) page' ∉ sh -> hw_indexes (S l) page' <> hw_indexes (S l) page ->
    leaf_entry m tbl (hw_indexes (S l) page') = Some e -> leaf_entry m' tbl (hw_indexes (S l) page') = Some e;
  nm_roots j c : ch !! j = Some c -> exists c', ch' !! j = Some c' /\ root c' = root c;
}.

(** The walk reached the child [c1] at entry [i], which is new (in a frame of
    [new]) or was there before. *)
Record descends l m m1 tbl (ch : gmap nat (ptree (S l))) i (c1 : ptree (S l)) (new : list Z) page flags : Prop := {
  de_memory x : ~ in_frame tbl x -> ~ in_frames new x -> m1 x = m x;
  de_frame : pte_frame (table_entry m1 tbl i) = FrameOk (table c1);
  de_flags b : b ∈ [0; 1; 2] -> Z.testbit flags b = true -> Z.testbit (table_entry m1 tbl i) b = true;
  de_grows b : b ∈ [0; 1; 2] -> Z.testbit (table_entry m tbl i) 0 = true ->
    Z.testbit (table_entry m tbl i) b = true -> Z.testbit (table_entry m1 tbl i) b = true;
  de_entries j : (j < 512)%nat -> j <> i -> table_entry m1 tbl j = table_entry m tbl j;
  de_node : node m1 l (table c1) [] (children c1);
  de_tables : tables (S l) c1 ++ other_tables (S l) ch i ≡ₚ
    new ++ (entry_indexes ≫= at_child (fun _ => tables (S l)) ch);
  de_lookup page' : tree_lookup (S l) page' c1 = ch !! i ≫= tree_lookup (S l) page';
  de_missing : (length new + tree_missing (S l) page c1)%nat =
    match ch !! i with Some c => tree_missing (S l) page c | None => S l end;
  de_same : match ch !! i with Some c => c1 = c /\ new = [] | None => new = [table c1] end;
}.

Lemma descend_existing l sh m tbl ch i c page flags :
  node m (S l) tbl sh ch -> (i < 512)%nat -> i ∉ sh -> ch !! i = Some c -> mem_ok m -> page_flags flags ->
  NoDup (node_tables (S l) tbl ch) -> Forall frame_ok (node_tables (S l) tbl ch) ->
  descends l m (set_table_entry m tbl i (Z.lor (table_entry m tbl i) flags)) tbl ch i c [] page flags.
Proof.
  intros [Hsh Hn] Hi His Hc Hm Hf Hnd Hok. specialize (Hn i Hi His). rewrite Hc in Hn.
  destruct Hn as [He Hr]. set (m1 := set_table_entry m tbl i (Z.lor (table_entry m tbl i) flags)).
  destruct (grown_entry (table_entry m tbl i) (root c) flags He Hf) as (G1 & G2 & G3); [auto with velora|].
  assert (E1 : table_entry m1 tbl i = Z.lor (table_entry m tbl i) flags) by by apply set_table_entry_same.
  assert (Hout : forall x, ~ in_frame tbl x -> m1 x = m x).
  { intros x Hx. apply set_table_entry_outside; [done|]. unfold in_frame in Hx. lia. }
  assert (Hperm := bind_lookup_child (S l) (fun _ => tables (S l)) ch i c Hi Hc).
  split; rewrite ?Hc, ?E1; try done.
  - intros x Hx _. by apply Hout.
  - intros b Hb Hfb. rewrite G3, Hfb by done. apply orb_true_r.
  - intros b Hb _ He'. by rewrite G3, He' by done.
  - intros j _ Hj. by apply set_table_entry_ne.
  - apply repr_node. eapply repr_ext; [|exact Hr]. intros x Hx. apply Hout. intros Hx'.
    unfold node_tables in Hnd, Hok. rewrite Hperm in Hnd, Hok.
    apply (in_frames_disjoint [tbl] (tables (S l) c ++ other_tables (S l) ch i) x Hnd Hok).
    + exists tbl. split; [set_solver|done].
    + apply in_frames_app. by left.
Qed.

Lemma descend_new l sh m tbl ch i f page flags :
  node m (S l) tbl sh ch -> (i < 512)%nat -> i ∉ sh -> ch !! i = None -> page_flags flags ->
  frame_ok f -> frame_ok tbl -> f <> tbl ->
  descends l m (set_table_entry (zero_bytes m f PAGE_SIZE) tbl i (Z.lor f flags)) tbl ch i (f, ∅) [f] page flags.
Proof.
  intros [Hsh Hn] Hi His Hc Hf Hok Hokt Hne. specialize (Hn i Hi His). rewrite Hc in Hn.
  set (m1 := set_table_entry (zero_bytes m f PAGE_SIZE) tbl i (Z.lor f flags)).
  destruct (new_entry f flags Hok Hf) as (G1 & G2 & G3).
  assert (E1 : table_entry m1 tbl i = Z.lor f flags) by by apply set_table_entry_same.
  assert (Hz : forall x, ~ in_frame f x -> zero_bytes m f PAGE_SIZE x = m x).
  { intros x Hx. apply zero_bytes_other. unfold in_frame in Hx. lia. }
  assert (Hout : forall x, ~ in_frame tbl x -> m1 x = zero_bytes m f PAGE_SIZE x).
  { intros x Hx. apply set_table_entry_outside; [done|]. unfold in_frame in Hx. lia. }
  split; rewrite ?Hc, ?E1; try done.
  - intros x Hx Hx'. rewrite Hout, Hz; [done| |done]. intros Hin. apply Hx'. exists f. split; [set_solver|done].
  - intros b Hb Hfb. by rewrite G3.
  - intros b Hb H0. by rewrite Hn in H0.
  - intros j Hj Hji. rewrite <- (table_entry_ext (zero_bytes m f PAGE_SIZE) m tbl j Hj).
    + by apply set_table_entry_ne.
    + intros x Hx. apply Hz. by apply (frame_disjoint tbl f).
  - split; [done|]. intros j Hj _. unfold children, table. cbn [snd fst]. rewrite lookup_empty.
    rewrite (table_entry_ext m1 (zero_bytes m f PAGE_SIZE)); [by rewrite table_entry_zeroed|done|].
    intros x Hx. apply Hout. by apply (frame_disjoint f tbl).
  - unfold other_tables. rewrite <- bind_absent_child by done. apply Permutation_app_tail.
    change (tables (S l) (f, ∅)) with (f :: (entry_indexes ≫= at_child (fun _ => tables l) (∅ : gmap nat (ptree l)))).
    by rewrite bind_no_children.
Qed.

(** What the mapping below the child [c1] leaves alone. *)
Record framed l m m1 m' tbl (ch : gmap nat (ptree (S l))) i (c1 : ptree (S l)) ch1' : Prop := {
  fr_table x : in_frame tbl x -> m' x = m1 x;
  fr_others x : in_frames (other_tables (S l) ch i) x -> m' x = m x /\ m1 x = m x;
  fr_outside x : ~ in_frame tbl x -> ~ in_frames (node_tables l (table c1) ch1') x -> m' x = m x;
  fr_old c x : ch !! i = Some c -> in_frames (tables (S l) c) x -> m1 x = m x;
}.

Lemma step_tables l sh m m1 m' tbl ch i c1 new page frame flags avail1 avail' ch1' :
  (i < 512)%nat -> i = hw_index (S (S l)) page ->
  descends l m m1 tbl ch i c1 new page flags ->
  node_mapped l sh m1 m' (table c1) (children c1) ch1' page frame flags avail1 avail' ->
  node_missing (S l) ch page = (length new + node_missing l (children c1) page)%nat /\
  tbl :: node_tables l (table c1) ch1' ++ other_tables (S l) ch i ≡ₚ
    take (node_missing (S l) ch page) (new ++ avail1) ++ node_tables (S l) tbl ch /\
  node_tables (S l) tbl (<[i := ((table c1, ch1') : ptree (S l))]> ch) ≡ₚ
    tbl :: node_tables l (table c1) ch1' ++ other_tables (S l) ch i.
Proof.
  intros Hi Ei Hd Hc. destruct Hd as [_ _ _ _ _ _ D7 _ D9 _]. destruct Hc as [_ _ C3 _ _ _ _ _ _ _ _].
  assert (Em : node_missing (S l) ch page = (length new + node_missing l (children c1) page)%nat).
  { unfold node_missing at 1. rewrite <- Ei, <- D9. done. }
  split_and!; [done| |].
  - rewrite Em, take_app_add. rewrite C3. unfold node_tables at 2.
    rewrite <- Permutation_middle. constructor. rewrite <- app_assoc.
    change (node_tables l (table c1) (children c1)) with (tables (S l) c1). rewrite D7, !app_assoc.
    apply Permutation_app_tail, Permutation_app_comm.
  - unfold node_tables at 1. constructor. rewrite bind_insert_child by done. done.
Qed.

Lemma step_framed l sh m m1 m' tbl ch i c1 new page frame flags avail1 avail' ch1' :
  (i < 512)%nat -> i = hw_index (S (S l)) page ->
  descends l m m1 tbl ch i c1 new page flags ->
  node_mapped l sh m1 m' (table c1) (children c1) ch1' page frame flags avail1 avail' ->
  NoDup (node_tables (S l) tbl ch ++ new ++ avail1) ->
  Forall frame_ok (node_tables (S l) tbl ch ++ new ++ avail1) ->
  framed l m m1 m' tbl ch i c1 ch1'.
Proof.
  intros Hi Ei Hd Hc Hnd Hok.
  destruct (step_tables _ _ _ _ _ _ _ _ _ _ _ _ _ _ _ _ Hi Ei Hd Hc) as (_ & Hp & _).
  set (T := node_tables l (table c1) ch1') in *. set (O := other_tables (S l) ch i) in *.
  assert (Hsub : tbl :: T ++ O ⊆+ node_tables (S l) tbl ch ++ new ++ avail1).
  { rewrite Hp, Permutation_app_comm. apply submseteq_app; [done|]. apply submseteq_take. }
  assert (Hnd' : NoDup (tbl :: T ++ O)) by by eapply NoDup_sub.
  assert (Hok' : Forall frame_ok (tbl :: T ++ O)).
  { by eapply Forall_sub. }
  assert (Htbl : forall x, in_frame tbl x -> ~ in_frames (T ++ O) x).
  { intros x Hx. apply (in_frames_disjoint [tbl]); [done..|]. exists tbl. split; [set_solver|done]. }
  assert (HTO : forall x, in_frames O x -> ~ in_frames T x).
  { intros x Hx Hx'. apply NoDup_cons in Hnd' as [_ Hnd']. apply Forall_cons in Hok' as [_ Hok'].
    by apply (in_frames_disjoint T O x). }
  assert (Hnew : forall x, ~ in_frames T x -> ~ in_frames new x).
  { intros x Hx Hn. apply Hx. eapply in_frames_incl; [|exact Hn]. intros f Hf.
    pose proof (de_same _ _ _ _ _ _ _ _ _ _ Hd) as Hs. destruct (ch !! i).
    - destruct Hs as [_ ->]. by apply not_elem_of_nil in Hf.
    - rewrite Hs in Hf. apply list_elem_of_singleton in Hf as ->. unfold T, node_tables. set_solver. }
  assert (HO : forall x, in_frames O x -> ~ in_frame tbl x).
  { intros x Hx Hx'. apply (Htbl x Hx'). apply in_frames_app. by right. }
  split.
  - intros x Hx. apply (nm_outside _ _ _ _ _ _ _ _ _ _ _ _ Hc). intros Hx'. apply (Htbl x Hx). apply in_frames_app. by left.
  - intros x Hx. assert (m1 x = m x) as Em.
    { apply (de_memory _ _ _ _ _ _ _ _ _ _ Hd); [by apply HO|]. apply Hnew. by apply HTO. }
    split; [|done]. rewrite (nm_outside _ _ _ _ _ _ _ _ _ _ _ _ Hc); [done|]. by apply HTO.
  - intros x Hx Hx'. rewrite (nm_outside _ _ _ _ _ _ _ _ _ _ _ _ Hc) by done.
    apply (de_memory _ _ _ _ _ _ _ _ _ _ Hd); [done|]. by apply Hnew.
  - intros c x Hc' Hx. pose proof (de_same _ _ _ _ _ _ _ _ _ _ Hd) as Hs. rewrite Hc' in Hs.
    destruct Hs as [-> ->]. apply (de_memory _ _ _ _ _ _ _ _ _ _ Hd).
    + intros Hx'. unfold node_tables in Hnd, Hok. rewrite (bind_lookup_child _ _ ch i c Hi Hc') in Hnd, Hok.
      assert (Hs : [tbl] ++ tables (S l) c ⊆+
        (tbl :: tables (S l) c ++ (entry_indexes ≫= at_child (fun _ => tables (S l)) (delete i ch))) ++ avail1).
      { cbn [app]. constructor. rewrite <- app_assoc. apply submseteq_inserts_r. done. }
      apply (in_frames_disjoint [tbl] (tables (S l) c) x).
      * by eapply NoDup_sub.
      * by eapply Forall_sub.
      * exists tbl. split; [set_solver|done].
      * done.
    + intros (f & Hf & _). by apply not_elem_of_nil in Hf.
Qed.

Section Step.
Context (l : nat) (sh : list nat) (m m1 m' : mem) (tbl : Z) (ch : gmap nat (ptree (S l)))
  (c1 : ptree (S l)) (new : list Z) (page frame flags : Z) (avail1 avail' : list Z) (ch1' : gmap nat (ptree l)).
Let i := hw_index (S (S l)) page.
Let c' : ptree (S l) := (table c1, ch1').
Context (Hnode : node m (S l) tbl sh ch) (Hsh : i ∉ sh) (Hflags : page_flags flags)
  (Hd : descends l m m1 tbl ch i c1 new page flags)
  (Hc : node_mapped l [] m1 m' (table c1) (children c1) ch1' page frame flags avail1 avail')
  (Hf : framed l m m1 m' tbl ch i c1 ch1').

Lemma step_entry_same j : (j < 512)%nat -> table_entry m' tbl j = table_entry m1 tbl j.
Proof using Hf.
  intros Hj. apply table_entry_ext; [done|]. intros x Hx. by apply (fr_table _ _ _ _ _ _ _ _ _ Hf).
Qed.

Lemma step_repr : repr m' (S l) c'.
Proof using Hc. apply repr_node. apply (nm_node _ _ _ _ _ _ _ _ _ _ _ _ Hc). Qed.

(** The walks to the pages of the other children read unchanged memory. *)
Lemma step_other_walk page' required :
  hw_index (S (S l)) page' <> i -> hw_index (S (S l)) page' ∉ sh ->
  accessible_walk m' tbl (hw_indexes (S (S l)) page') required =
    accessible_walk m tbl (hw_indexes (S (S l)) page') required /\
  leaf_entry m' tbl (hw_indexes (S (S l)) page') = leaf_entry m tbl (hw_indexes (S (S l)) page').
Proof using Hnode Hd Hf.
  intros Hne Hs. set (j := hw_index (S (S l)) page') in *.
  assert (Hj : (j < 512)%nat) by apply hw_index_lt.
  assert (He : table_entry m' tbl j = table_entry m tbl j).
  { rewrite step_entry_same by done. by apply (de_entries _ _ _ _ _ _ _ _ _ _ Hd). }
  rewrite !(accessible_walk_step _ tbl (S l)), !leaf_entry_step. fold j. rewrite He.
  destruct Hnode as [_ Hn]. specialize (Hn j Hj Hs). destruct (ch !! j) as [c|] eqn:Ec.
  - destruct Hn as [Hfr Hr]. rewrite Hfr.
    destruct (walk_ext m m' (S l) c page' required) as [E1 E2]; [|done|by rewrite E1, E2].
    intros x Hx. apply (fr_others _ _ _ _ _ _ _ _ _ Hf). eapply in_frames_incl; [|exact Hx].
    intros f Hff. by apply (other_tables_child (S l) ch i j c).
  - by rewrite pte_frame_spec, Hn.
Qed.

(** The walks through the child on the path: its entry only gained flags. *)
Lemma step_path_flags page' required :
  hw_index (S (S l)) page' = i -> page_flags required ->
  hw_indexes (S l) page' <> hw_indexes (S l) page ->
  accessible_walk m tbl (hw_indexes (S (S l)) page') required = true ->
  accessible_walk m' tbl (hw_indexes (S (S l)) page') required = true.
Proof using Hnode Hsh Hflags Hd Hc Hf.
  intros Ej Hr Hne. rewrite !(accessible_walk_step _ tbl (S l)), Ej.
  assert (Hi : (i < 512)%nat) by apply hw_index_lt. rewrite step_entry_same by done.
  rewrite (de_frame _ _ _ _ _ _ _ _ _ _ Hd), !andb_true_iff, !contains_page_flags by done.
  intros [Hb Hw]. assert (H0 : Z.testbit (table_entry m tbl i) 0 = true).
  { apply Hb; [set_solver|by apply page_flags_present]. }
  split; [intros b Hb' Hrb; apply (de_grows _ _ _ _ _ _ _ _ _ _ Hd); [done|done|by apply Hb]|].
  destruct Hnode as [_ Hn]. specialize (Hn i Hi Hsh). pose proof (de_same _ _ _ _ _ _ _ _ _ _ Hd) as Hs.
  destruct (ch !! i) as [c|] eqn:Ec; [|by rewrite Hn in H0].
  destruct Hs as [-> _], Hn as [Hfr Hrp]. rewrite Hfr in Hw.
  apply (nm_other_flags _ _ _ _ _ _ _ _ _ _ _ _ Hc); [done|apply not_elem_of_nil|done|].
  rewrite <- (root_table c). rewrite (proj1 (walk_ext m m1 (S l) c page' required ltac:(intros x Hx; by apply (fr_old _ _ _ _ _ _ _ _ _ Hf c)) Hrp)).
  done.
Qed.

Lemma step_path_leaf page' e :
  hw_index (S (S l)) page' = i -> hw_indexes (S l) page' <> hw_indexes (S l) page ->
  leaf_entry m tbl (hw_indexes (S (S l)) page') = Some e ->
  leaf_entry m' tbl (hw_indexes (S (S l)) page') = Some e.
Proof using Hnode Hsh Hd Hc Hf.
  intros Ej Hne. rewrite !leaf_entry_step, Ej.
  assert (Hi : (i < 512)%nat) by apply hw_index_lt. rewrite step_entry_same by done.
  rewrite (de_frame _ _ _ _ _ _ _ _ _ _ Hd).
  destruct Hnode as [_ Hn]. specialize (Hn i Hi Hsh). pose proof (de_same _ _ _ _ _ _ _ _ _ _ Hd) as Hs.
  destruct (ch !! i) as [c|] eqn:Ec; [|by rewrite pte_frame_spec, Hn].
  destruct Hs as [-> _], Hn as [Hfr Hrp]. rewrite Hfr. intros Hw.
  apply (nm_other_leaf _ _ _ _ _ _ _ _ _ _ _ _ Hc); [apply not_elem_of_nil|done|].
  rewrite <- (root_table c). rewrite (proj2 (walk_ext m m1 (S l) c page' 0 ltac:(intros x Hx; by apply (fr_old _ _ _ _ _ _ _ _ _ Hf c)) Hrp)).
  done.
Qed.

Lemma node_mapped_step : 
  node_mapped (S l) sh m m' tbl ch (<[i := c']> ch) page frame flags (new ++ avail1) avail'.
Proof using Hnode Hsh Hflags Hd Hc Hf.
  assert (Hi : (i < 512)%nat) by apply hw_index_lt.
  destruct (step_tables _ _ _ _ _ _ _ _ _ _ _ _ _ _ _ _ Hi eq_refl Hd Hc) as (Em & Hp1 & Hp2).
  change (<[i := (table c1, ch1') : ptree (S l)]> ch) with (<[i := c']> ch) in Hp2.
  assert (Ee := step_entry_same i Hi). assert (Hfr := de_frame _ _ _ _ _ _ _ _ _ _ Hd).
  split.
  - apply (node_update m); try done.
    + by rewrite Ee, Hfr.
    + intros j Hj Hne. rewrite step_entry_same by done. by apply (de_entries _ _ _ _ _ _ _ _ _ _ Hd).
    + apply step_repr.
    + intros x Hx. by apply (fr_others _ _ _ _ _ _ _ _ _ Hf).
  - rewrite Em, (nm_avail _ _ _ _ _ _ _ _ _ _ _ _ Hc), drop_app_add. done.
  - by rewrite Hp2, Hp1.
  - unfold node_lookup. fold i. rewrite lookup_insert_eq. apply (nm_lookup _ _ _ _ _ _ _ _ _ _ _ _ Hc).
  - intros page' Hne. unfold node_lookup. destruct (decide (i = hw_index (S (S l)) page')) as [E|E].
    + rewrite <- E, lookup_insert_eq. rewrite (hw_indexes_S (S l)), (hw_indexes_S (S l) page), <- E in Hne. fold i in Hne.
      rewrite <- (de_lookup _ _ _ _ _ _ _ _ _ _ Hd page').
      apply (nm_others _ _ _ _ _ _ _ _ _ _ _ _ Hc). congruence.
    + by rewrite lookup_insert_ne.
  - intros j Hj Hne. rewrite step_entry_same by done. by apply (de_entries _ _ _ _ _ _ _ _ _ _ Hd).
  - intros x Hx. apply (fr_outside _ _ _ _ _ _ _ _ _ Hf); intros Hx'; apply Hx.
    + exists tbl. unfold node_tables. split; [set_solver|done].
    + eapply in_frames_incl; [|exact Hx']. intros f Hff. rewrite Hp2. set_solver.
  - rewrite (accessible_walk_step _ tbl (S l)). fold i. rewrite Ee, Hfr, andb_true_iff. split.
    + apply contains_page_flags; [done|]. intros b Hb. by apply (de_flags _ _ _ _ _ _ _ _ _ _ Hd).
    + apply (nm_flags _ _ _ _ _ _ _ _ _ _ _ _ Hc).
  - rewrite leaf_entry_step. fold i. rewrite Ee, Hfr. apply (nm_leaf _ _ _ _ _ _ _ _ _ _ _ _ Hc).
  - intros page' required Hr Hs Hne Hw. destruct (decide (hw_index (S (S l)) page' = i)) as [E|E].
    + apply step_path_flags; try done. intros E'. apply Hne. rewrite (hw_indexes_S (S l)), E, E'. by rewrite (hw_indexes_S (S l) page).
    + by rewrite (proj1 (step_other_walk page' required E Hs)).
  - intros page' e Hs Hne Hw. destruct (decide (hw_index (S (S l)) page' = i)) as [E|E].
    + apply step_path_leaf; try done. intros E'. apply Hne. rewrite (hw_indexes_S (S l)), E, E'. by rewrite (hw_indexes_S (S l) page).
    + by rewrite (proj2 (step_other_walk page' 0 E Hs)).
  - intros j c Hj. destruct (decide (i = j)) as [<-|Hne]; [|exists c; by rewrite lookup_insert_ne].
    exists c'. rewrite lookup_insert_eq. split; [done|]. assert (Hs := de_same _ _ _ _ _ _ _ _ _ _ Hd).
    rewrite Hj in Hs. by destruct Hs as [-> _].
Qed.
End Step.

Lemma ref_map_leaf m tbl sh (ch : gmap nat (ptree 0)) page frame flags avail :
  node m 0 tbl sh ch -> hw_index 1 page ∉ sh -> frame_ok frame -> page_flags flags ->
  ch !! hw_index 1 page = None -> Z.testbit (table_entry m tbl (hw_index 1 page)) 0 = false ->
  node_mapped 0 sh m (set_table_entry m tbl (hw_index 1 page) (Z.lor frame flags)) tbl ch
    (<[hw_index 1 page := (frame : ptree 0)]> ch) page frame flags avail avail.
Proof.
  intros Hn Hs Hf Hg Hl H0. set (i := hw_index 1 page) in *. assert (Hi : (i < 512)%nat) by apply hw_index_lt.
  destruct (new_entry frame flags Hf Hg) as (G1 & G2 & G3).
  set (m' := set_table_entry m tbl i (Z.lor frame flags)).
  assert (E1 : table_entry m' tbl i = Z.lor frame flags) by by apply set_table_entry_same.
  assert (E2 : forall j, j <> i -> table_entry m' tbl j = table_entry m tbl j).
  { intros j Hj. by apply set_table_entry_ne. }
  assert (Hmiss : node_missing 0 ch page = 0%nat) by (unfold node_missing; fold i; by rewrite Hl).
  assert (Hone : forall page', hw_indexes 1 page' = [hw_index 1 page']) by done.
  assert (Hw : forall page' required, hw_index 1 page' <> i ->
    accessible_walk m' tbl (hw_indexes 1 page') required = accessible_walk m tbl (hw_indexes 1 page') required /\
    leaf_entry m' tbl (hw_indexes 1 page') = leaf_entry m tbl (hw_indexes 1 page')).
  { intros page' required Hne. rewrite Hone. cbn [accessible_walk leaf_entry]. by rewrite E2. }
  assert (Hne : forall page', hw_indexes 1 page' <> hw_indexes 1 page -> hw_index 1 page' <> i).
  { intros page' H E. apply H. rewrite !Hone. unfold i in E. by rewrite E. }
  split.
  - apply (node_update m); try done; [by rewrite E1|by intros; apply E2|].
    intros x (f & Hx & _). apply list_elem_of_bind in Hx as (j & Hx & _). unfold at_child in Hx.
    destruct (delete i ch !! j); by apply not_elem_of_nil in Hx.
  - by rewrite Hmiss.
  - rewrite Hmiss. cbn [take app]. unfold node_tables. constructor.
    rewrite bind_insert_child by done. cbn [tables app]. by rewrite <- bind_absent_child.
  - unfold node_lookup. fold i. by rewrite lookup_insert_eq.
  - intros page' H. unfold node_lookup. rewrite lookup_insert_ne; [done|]. intros E. by apply (Hne page' H).
  - intros j _ Hj. by apply E2.
  - intros x Hx. apply set_table_entry_outside; [done|]. destruct (decide (in_frame tbl x)) as [Hin|Hin].
    + destruct Hx. exists tbl. unfold node_tables. split; [set_solver|done].
    + unfold in_frame in Hin. lia.
  - rewrite accessible_walk_step. fold i. rewrite E1, G1, andb_true_r.
    apply contains_page_flags; [done|]. intros b Hb Hfb. by rewrite G3.
  - rewrite Hone. fold i. cbn [leaf_entry]. rewrite E1, G3, page_flags_present by (done || set_solver). eauto.
  - intros page' required _ _ H Hw'. by rewrite (proj1 (Hw page' required (Hne page' H))).
  - intros page' e _ H Hw'. by rewrite (proj2 (Hw page' 0 (Hne page' H))).
  - intros j c Hj. exists c. rewrite lookup_insert_ne; [done|]. intros E. rewrite E in Hl. by rewrite Hl in Hj.
Qed.

Lemma frame_ok_tbl l tbl ch (avail : list Z) : Forall frame_ok (node_tables l tbl ch ++ avail) -> frame_ok tbl.
Proof. unfold node_tables. cbn [app]. by intros [? _]%Forall_cons. Qed.

(** A table whose pages may be mapped. *)
Record mappable l m tbl sh (ch : gmap nat (ptree l)) page (a : A) : Prop := {
  mp_mem : mem_ok m;
  mp_node : node m l tbl sh ch;
  mp_inv : fa_inv a;
  mp_nodup : NoDup (node_tables l tbl ch ++ fa_avail a);
  mp_frames : Forall frame_ok (node_tables l tbl ch ++ fa_avail a);
  mp_shared : hw_index (S l) page ∉ sh;
}.

Definition maps l page frame flags : Prop := forall m tbl sh ch (a : A),
  mappable l m tbl sh ch page a ->
  node_lookup l ch page = None -> (node_missing l ch page <= length (fa_avail a))%nat ->
  exists m' a' ch', ref_map_to (S l) m tbl page frame flags a = Ok (None, m', a') /\ mem_ok m' /\ fa_inv a' /\
    node_mapped l sh m m' tbl ch ch' page frame flags (fa_avail a) (fa_avail a').

(** The child of a mappable table is mappable once it is reached. *)
Lemma mappable_existing l m tbl sh ch page flags (a : A) c :
  mappable (S l) m tbl sh ch page a -> page_flags flags -> ch !! hw_index (S (S l)) page = Some c ->
  let m1 := set_table_entry m tbl (hw_index (S (S l)) page)
    (Z.lor (table_entry m tbl (hw_index (S (S l)) page)) flags) in
  descends l m m1 tbl ch (hw_index (S (S l)) page) c [] page flags /\
  mappable l m1 (table c) [] (children c) page a.
Proof.
  intros [Hm Hn Hi Hnd Hok Hs] Hg Hc m1. assert (Hlt := hw_index_lt (S (S l)) page).
  set (i := hw_index (S (S l)) page) in *.
  assert (Hd : descends l m m1 tbl ch i c [] page flags).
  { eapply descend_existing; try done; [by apply NoDup_app in Hnd as [? _]|by apply Forall_app in Hok as [? _]]. }
  split; [done|].
  assert (Hsub : tables (S l) c ++ fa_avail a ⊆+ node_tables (S l) tbl ch ++ fa_avail a).
  { apply submseteq_app; [|done]. unfold node_tables. rewrite (bind_lookup_child _ _ ch i c Hlt Hc).
    apply submseteq_cons, submseteq_inserts_r. done. }
  split; [unfold m1; auto with velora|apply (de_node _ _ _ _ _ _ _ _ _ _ Hd)|done| | |apply not_elem_of_nil].
  - by eapply NoDup_sub.
  - by eapply Forall_sub.
Qed.

Lemma mappable_new l m tbl sh ch page flags (a a1 : A) f rest :
  mappable (S l) m tbl sh ch page a -> page_flags flags -> ch !! hw_index (S (S l)) page = None ->
  fa_avail a = f :: rest -> fa_inv a1 -> fa_avail a1 = rest ->
  let m1 := set_table_entry (zero_bytes m f PAGE_SIZE) tbl (hw_index (S (S l)) page) (Z.lor f flags) in
  descends l m m1 tbl ch (hw_index (S (S l)) page) (f, ∅) [f] page flags /\
  mappable l m1 f [] ∅ page a1.
Proof.
  intros [Hm Hn Hi Hnd Hok Hs] Hg Hc Eav Hi1 Hav1 m1. assert (Hlt := hw_index_lt (S (S l)) page).
  set (i := hw_index (S (S l)) page) in *. rewrite Eav in *.
  assert (Hf : frame_ok f) by (apply Forall_app in Hok as [_ [? _]%Forall_cons]; done).
  assert (Hne : f <> tbl).
  { intros ->. apply NoDup_app in Hnd as (_ & Hnd & _). apply (Hnd tbl); unfold node_tables; set_solver. }
  assert (Hd : descends l m m1 tbl ch i (f, ∅) [f] page flags).
  { eapply descend_new; try done. by eapply frame_ok_tbl. }
  split; [done|].
  assert (Hsub : node_tables l f ∅ ++ rest ⊆+ node_tables (S l) tbl ch ++ f :: rest).
  { unfold node_tables at 1. rewrite bind_no_children. by apply submseteq_inserts_l. }
  split; [unfold m1; auto with velora|apply (de_node _ _ _ _ _ _ _ _ _ _ Hd)|done| | |apply not_elem_of_nil];
    rewrite Hav1.
  - by eapply NoDup_sub.
  - by eapply Forall_sub.
Qed.

(** One level of the walk, above the last. *)
Lemma ref_map_to_SS l m tbl page frame flags (a : A) :
  ref_map_to (S (S l)) m tbl page frame flags a =
  let i := hw_index (S (S l)) page in
  let e := table_entry m tbl i in
  if Z.testbit e 0 then
    if Z.testbit e 7 then Ok (Some ParentEntryHugePage, m, a)
    else ref_map_to (S l) (set_table_entry m tbl i (Z.lor e flags)) (Z.land e ADDR_MASK) page frame flags a
  else '(r, a') ← allocate_frame a;
    match r with
    | None => Ok (Some FrameAllocationFailed, m, a')
    | Some f =>
        ref_map_to (S l) (set_table_entry (zero_bytes m f PAGE_SIZE) tbl i (Z.lor f flags)) f page frame flags a'
    end.
Proof. done. Qed.

Lemma ref_map_existing l page frame flags m tbl sh ch (a : A) c :
  maps l page frame flags -> page_flags flags -> mappable (S l) m tbl sh ch page a ->
  ch !! hw_index (S (S l)) page = Some c -> tree_lookup (S l) page c = None ->
  (tree_missing (S l) page c <= length (fa_avail a))%nat ->
  exists m' a' ch', ref_map_to (S (S l)) m tbl page frame flags a = Ok (None, m', a') /\ mem_ok m' /\ fa_inv a' /\
    node_mapped (S l) sh m m' tbl ch ch' page frame flags (fa_avail a) (fa_avail a').
Proof.
  intros IH Hg Hmp Hc Hl Hmiss. destruct (mappable_existing l m tbl sh ch page flags a c Hmp Hg Hc) as [Hd Hmp1].
  destruct Hmp as [Hm Hn Hi Hnd Hok Hs]. assert (Hlt := hw_index_lt (S (S l)) page).
  assert (Hn' := proj2 Hn _ Hlt Hs). rewrite Hc in Hn'. destruct Hn' as [E0 _]. rewrite pte_frame_spec in E0.
  destruct (IH _ _ _ _ _ Hmp1 Hl Hmiss) as (m' & a' & ch1' & E & Hm' & Hi' & Hcm).
  eexists m', a', _. split; [|split; [done|split; [done|]]].
  - rewrite <- E, ref_map_to_SS. cbv zeta.
    destruct (Z.testbit _ 0), (Z.testbit _ 7); try done. cbn [negb] in E0. injection E0 as E0. by rewrite E0.
  - eapply (node_mapped_step l sh m _ m' tbl ch c [] page frame flags (fa_avail a)); try done.
    by eapply step_framed.
Qed.

Lemma ref_map_new l page frame flags m tbl sh ch (a : A) :
  maps l page frame flags -> page_flags flags -> mappable (S l) m tbl sh ch page a ->
  ch !! hw_index (S (S l)) page = None -> (S l <= length (fa_avail a))%nat ->
  exists m' a' ch', ref_map_to (S (S l)) m tbl page frame flags a = Ok (None, m', a') /\ mem_ok m' /\ fa_inv a' /\
    node_mapped (S l) sh m m' tbl ch ch' page frame flags (fa_avail a) (fa_avail a').
Proof.
  intros IH Hg Hmp Hc Hmiss. destruct (fa_avail a) as [|f rest] eqn:Eav; [simpl in Hmiss; lia|].
  destruct (fa_alloc_some a f rest (mp_inv _ _ _ _ _ _ _ Hmp) Eav) as (a1 & Ea & Hi1 & Hav1).
  destruct (mappable_new l m tbl sh ch page flags a a1 f rest Hmp Hg Hc Eav Hi1 Hav1) as [Hd Hmp1].
  destruct Hmp as [Hm Hn Hi Hnd Hok Hs]. assert (Hlt := hw_index_lt (S (S l)) page).
  assert (Hn' := proj2 Hn _ Hlt Hs). rewrite Hc in Hn'.
  destruct (IH _ _ _ _ _ Hmp1) as (m' & a' & ch1' & E & Hm' & Hi' & Hcm).
  { unfold node_lookup. by rewrite lookup_empty. }
  { unfold node_missing. rewrite lookup_empty, Hav1. simpl in Hmiss. lia. }
  eexists m', a', _. split; [|split; [done|split; [done|]]].
  - rewrite <- E, ref_map_to_SS. cbv zeta. by rewrite Hn', Ea.
  - rewrite Hav1 in Hcm. rewrite Eav in Hnd, Hok.
    eapply (node_mapped_step l sh m _ m' tbl ch (f, ∅) [f] page frame flags rest); try done.
    by eapply step_framed.
Qed.

Lemma ref_maps l page frame flags : frame_ok frame -> page_flags flags -> maps l page frame flags.
Proof.
  intros Hf Hg. induction l as [|l IH]; intros m tbl sh ch a Hmp Hl Hmiss.
  - destruct Hmp as [Hm Hn Hi Hnd Hok Hs].
    unfold node_lookup in Hl. destruct (ch !! hw_index 1 page) eqn:Ec; [done|].
    assert (H0 : Z.testbit (table_entry m tbl (hw_index 1 page)) 0 = false).
    { destruct Hn as [_ Hn]. specialize (Hn _ (hw_index_lt 1 page) Hs). by rewrite Ec in Hn. }
    eexists _, a, _. cbn [ref_map_to]. rewrite H0.
    split; [done|]. split; [auto with velora|]. split; [done|]. by apply ref_map_leaf.
  - unfold node_lookup in Hl. unfold node_missing in Hmiss.
    destruct (ch !! hw_index (S (S l)) page) as [c|] eqn:Ec.
    + by apply (ref_map_existing l page frame flags m tbl sh ch a c).
    + by apply ref_map_new.
Qed.

Lemma ref_map_already l page frame flags m tbl sh ch (a : A) f :
  page_flags flags -> mappable l m tbl sh ch page a -> node_lookup l ch page = Some f ->
  exists m', ref_map_to (S l) m tbl page frame flags a = Ok (Some (PageAlreadyMapped f), m', a).
Proof.
  intros Hg. revert m tbl sh ch; induction l as [|l IH]; intros m tbl sh ch Hmp Hl.
  - destruct Hmp as [Hm Hn Hi Hnd Hok Hs].
    unfold node_lookup in Hl. destruct (ch !! hw_index 1 page) as [c|] eqn:Ec; [|done].
    assert (E0 := proj2 Hn _ (hw_index_lt 1 page) Hs). rewrite Ec in E0. destruct E0 as [E0 _].
    rewrite pte_frame_spec in E0. exists m. cbn [ref_map_to].
    destruct (Z.testbit _ 0), (Z.testbit _ 7); try done. cbn [negb] in E0. injection E0 as ->.
    by injection Hl as ->.
  - unfold node_lookup in Hl. destruct (ch !! hw_index (S (S l)) page) as [c|] eqn:Ec; [|done].
    destruct (mappable_existing l m tbl sh ch page flags a c Hmp Hg Ec) as [Hd Hmp1].
    assert (E0 := proj2 (mp_node _ _ _ _ _ _ _ Hmp) _ (hw_index_lt (S (S l)) page) (mp_shared _ _ _ _ _ _ _ Hmp)).
    rewrite Ec in E0. destruct E0 as [E0 _]. rewrite pte_frame_spec in E0.
    destruct (IH _ _ _ _ Hmp1 Hl) as [m' E]. exists m'. rewrite <- E, ref_map_to_SS. cbv zeta.
    destruct (Z.testbit _ 0), (Z.testbit _ 7); try done. cbn [negb] in E0. injection E0 as E0. by rewrite E0.
Qed.

Lemma ref_map_no_frames l page frame flags m tbl sh ch (a : A) :
  page_flags flags -> mappable l m tbl sh ch page a -> node_lookup l ch page = None ->
  (length (fa_avail a) < node_missing l ch page)%nat ->
  exists m' a', ref_map_to (S l) m tbl page frame flags a = Ok (Some FrameAllocationFailed, m', a').
Proof.
  intros Hg. revert m tbl sh ch a; induction l as [|l IH]; intros m tbl sh ch a Hmp Hl Hmiss.
  - unfold node_missing in Hmiss. destruct (ch !! _); [cbn in Hmiss|]; lia.
  - unfold node_missing in Hmiss. unfold node_lookup in Hl. rewrite ref_map_to_SS. cbv zeta.
    assert (E0 := proj2 (mp_node _ _ _ _ _ _ _ Hmp) _ (hw_index_lt (S (S l)) page) (mp_shared _ _ _ _ _ _ _ Hmp)).
    destruct (ch !! hw_index (S (S l)) page) as [c|] eqn:Ec.
    + destruct (mappable_existing l m tbl sh ch page flags a c Hmp Hg Ec) as [Hd Hmp1].
      destruct E0 as [E0 _]. rewrite pte_frame_spec in E0.
      destruct (IH _ _ _ _ _ Hmp1 Hl Hmiss) as (m' & a' & E). exists m', a'. rewrite <- E.
      destruct (Z.testbit _ 0), (Z.testbit _ 7); try done. cbn [negb] in E0. injection E0 as E0. by rewrite E0.
    + rewrite E0. assert (Hi := mp_inv _ _ _ _ _ _ _ Hmp). destruct (fa_avail a) as [|f rest] eqn:Eav.
      * destruct (fa_alloc_none a Hi Eav) as (a1 & -> & _). cbn. eauto.
      * destruct (fa_alloc_some a f rest Hi Eav) as (a1 & Ea & Hi1 & Hav1). rewrite Ea. cbn [mbind outcome_bind].
        destruct (mappable_new l m tbl sh ch page flags a a1 f rest Hmp Hg Ec Eav Hi1 Hav1) as [Hd Hmp1].
        apply (IH _ _ _ _ _ Hmp1); [unfold node_lookup; by rewrite lookup_empty|].
        unfold node_missing. rewrite lookup_empty, Hav1. simpl in Hmiss. lia.
Qed.
End Mapping.

(** ** The instance *)

Definition ref_translate_page `{X86Crate} (m : mem) (l4 page : Z) : option Z :=
  option_map (fun e => Z.land e ADDR_MASK) (leaf_entry m l4 (hw_indexes 4 page)).

Lemma space_mappable `{crate : X86Crate} {A} `{!FrameAllocator A, !FrameDeallocator A, !LawfulFrameAllocator A}
    m l4 shared top page frame flags (a : A) :
  space_ok m l4 shared top a -> request_ok shared page frame flags ->
  mappable 3 m l4 shared top page a.
Proof. intros (Hm & Hr & Hi & Hnd & Hok) (_ & _ & Hs & _). by split. Qed.

#[refine] Definition ref_mapper `{crate : X86Crate} : PageMapper := {|
  map_to A FA m l4 page frame flags a := ref_map_to 4 m l4 page frame flags a;
  translate_page := ref_translate_page;
|}.
Proof.
  - intros A ? ? ? m l4 shared top page frame flags a Hs Hr Hl Hmiss.
    assert (Hr' := Hr). destruct Hr' as (_ & _ & _ & Hf & Hg).
    destruct (ref_maps 3 page frame flags Hf Hg m l4 shared top a) as (m' & a' & top' & E & Hm' & Hi' & Hn);
      [by eapply space_mappable|done|done|].
    exists m', a', top'. split; [done|]. destruct Hn. split; try done. intros i Hi Hin. apply nm_entries0; [done|].
    intros ->. by destruct Hr as (_ & _ & ? & _).
  - intros A ? ? ? m l4 shared top page frame flags a f Hs Hr Hl.
    apply (ref_map_already 3 page frame flags m l4 shared top a f); [apply Hr|by eapply space_mappable|done].
  - intros A ? ? ? m l4 shared top page frame flags a Hs Hr Hl Hmiss.
    apply (ref_map_no_frames 3 page frame flags m l4 shared top a); [apply Hr|by eapply space_mappable|done|done].
  - intros m l4 page e _ _ He. unfold ref_translate_page. by rewrite He.
  - intros m l4 page _ _ He. unfold ref_translate_page. by rewrite He.
Defined.
