(* ===== verification/Mappings.v ===== *)
(** * The mappings of an address space as a list

    [free_address_space] frees the tables of a space and the frames of its
    mappings.  This file lists the mappings of a page-table tree, shows that
    the list is determined by what the tree maps ([space_lookup]), and so
    how one [map_to] changes what will be freed. *)

From S2P Require Import Prelude X86 FrameAlloc Paging AddressSpace Mapper MapperRef.

(** The address of the first page below entry [i] of a table of level
    [S l] whose own first page is [base]. *)
Definition child_base (l : nat) (base : Z) (i : nat) : Z :=
  Z.lor base (Z.shiftl (Z.of_nat i) (12 + 9 * Z.of_nat l)).

(** The pages below a table, and what the tree maps there. *)
Fixpoint all_pages (l : nat) (base : Z) : list Z :=
  match l with
  | O => [base]
  | S l' => entry_indexes ≫= fun i => all_pages l' (child_base l' base i)
  end.

Fixpoint mappings (l : nat) (base : Z) : ptree l -> list (Z * Z) :=
  match l with
  | O => fun f => [(base, f)]
  | S l' => fun t => entry_indexes ≫= fun i =>
      match children t !! i with Some c => mappings l' (child_base l' base i) c | None => [] end
  end.

Definition space_mappings (top : gmap nat (ptree 3)) : list (Z * Z) :=
  entry_indexes ≫= fun i =>
    match top !! i with Some c => mappings 3 (Z.shiftl (Z.of_nat i) 39) c | None => [] end.

Definition space_pages : list Z := entry_indexes ≫= fun i => all_pages 3 (Z.shiftl (Z.of_nat i) 39).

(** ** Addresses *)

Definition span (l : nat) : Z := 2 ^ (12 + 9 * Z.of_nat l).

Lemma span_pos l : 0 < span l.
Proof. unfold span. apply Z.pow_pos_nonneg; lia. Qed.

Lemma span_S l : span (S l) = 512 * span l.
Proof.
  unfold span. replace (12 + 9 * Z.of_nat (S l)) with (9 + (12 + 9 * Z.of_nat l)) by lia.
  rewrite Z.pow_add_r by lia. done.
Qed.

Lemma child_base_add l base i :
  0 <= base -> base mod span (S l) = 0 -> (i < 512)%nat ->
  child_base l base i = base + Z.of_nat i * span l.
Proof.
  intros Hp Hb Hi. unfold child_base. rewrite Z.shiftl_mul_pow2 by lia. fold (span l).
  pose proof (span_pos l). rewrite span_S in Hb.
  assert (Hbd : base = (base / (512 * span l)) * (512 * span l)).
  { rewrite Z.mul_comm. apply Z.div_exact; lia. }
  rewrite <- Z.lxor_lor, Z.add_nocarry_lxor; [done| |].
  all: apply Z.bits_inj'; intros n Hn; rewrite Z.land_spec, Z.bits_0.
  all: replace (512 * span l) with (2 ^ (21 + 9 * Z.of_nat l)) in Hbd
    by (unfold span; replace 512 with (2 ^ 9) by done; rewrite <- Z.pow_add_r by lia; f_equal; lia).
  all: destruct (Z.lt_ge_cases n (21 + 9 * Z.of_nat l)).
  1,3: rewrite Hbd, Z.mul_pow2_bits_low by lia; done.
  all: rewrite (Z.bits_above_log2 (Z.of_nat i * span l)), andb_false_r; [done|lia|].
  all: destruct (Z.eq_dec (Z.of_nat i) 0) as [->|]; [rewrite Z.mul_0_l; change (Z.log2 0) with 0; lia|].
  all: apply Z.log2_lt_pow2; [nia|]; apply (Z.lt_le_trans _ (2 ^ (21 + 9 * Z.of_nat l)));
    [|apply Z.pow_le_mono_r; lia].
  all: replace (2 ^ (21 + 9 * Z.of_nat l)) with (512 * span l)
    by (unfold span; replace 512 with (2 ^ 9) by done; rewrite <- Z.pow_add_r by lia; f_equal; lia); nia.
Qed.

Lemma child_base_mod l base i :
  0 <= base -> base mod span (S l) = 0 -> (i < 512)%nat ->
  0 <= child_base l base i /\ child_base l base i mod span l = 0.
Proof.
  intros Hp Hb Hi. rewrite child_base_add by done. pose proof (span_pos l). split; [nia|].
  rewrite Z.mod_add by lia. rewrite span_S in Hb.
  apply Z.div_exact in Hb; [|lia]. rewrite Hb, <- Z.mul_assoc, (Z.mul_comm (span l)), Z.mul_assoc.
  apply Z.mod_mul. lia.
Qed.

Lemma level_shift_span l : 2 ^ level_shift (S l) = span l.
Proof. unfold level_shift, span. f_equal. lia. Qed.

Lemma hw_index_child l base i r :
  0 <= base -> base mod span (S l) = 0 -> (i < 512)%nat -> 0 <= r < span l ->
  hw_index (S l) (base + Z.of_nat i * span l + r) = i.
Proof.
  intros Hp Hb Hi Hr. unfold hw_index. rewrite level_shift_span. pose proof (span_pos l).
  rewrite span_S in Hb. apply Z.div_exact in Hb; [|lia].
  replace (base + Z.of_nat i * span l + r) with
    (r + (base / (512 * span l) * 512 + Z.of_nat i) * span l) by lia.
  rewrite Z.div_add, Z.div_small by lia.
  rewrite Z.add_0_l, (Z.add_comm (_ * 512)), Z.mod_add, Z.mod_small by lia. lia.
Qed.

(** The pages of a table are the multiples of the page size in its span. *)
Lemma elem_of_all_pages l base p :
  0 <= base -> base mod span l = 0 ->
  p ∈ all_pages l base <-> base <= p < base + span l /\ p mod PAGE_SIZE = 0.
Proof.
  revert base; induction l as [|l IH]; intros base Hp Hb; cbn [all_pages].
  - change (span 0) with PAGE_SIZE in *. unfold PAGE_SIZE in *. rewrite list_elem_of_singleton.
    split; [intros ->; lia|]. intros [Hr Hm]. pose proof (Z.div_mod p 4096). pose proof (Z.div_mod base 4096). lia.
  - rewrite list_elem_of_bind. pose proof (span_pos l). rewrite (span_S l).
    split.
    + intros (i & Hin & Hi%elem_of_entry_indexes). destruct (child_base_mod l base i Hp Hb Hi).
      apply IH in Hin; [|done..]. rewrite child_base_add in Hin by done. split; [nia|apply Hin].
    + intros [Hr Hm]. set (i := Z.to_nat ((p - base) / span l)).
      assert (Hlt : (i < 512)%nat).
      { unfold i. assert ((p - base) / span l < 512); [|lia]. apply Z.div_lt_upper_bound; lia. }
      exists i. split; [|by apply elem_of_entry_indexes]. destruct (child_base_mod l base i Hp Hb Hlt).
      apply IH; [done..|]. split; [|done]. rewrite child_base_add by done.
      unfold i. rewrite Z2Nat.id by (apply Z.div_pos; lia).
      pose proof (Z.div_mod (p - base) (span l)). pose proof (Z.mod_pos_bound (p - base) (span l)). lia.
Qed.

Lemma NoDup_all_pages l base : 0 <= base -> base mod span l = 0 -> NoDup (all_pages l base).
Proof.
  revert base; induction l as [|l IH]; intros base Hp Hb; cbn [all_pages]; [apply NoDup_singleton|].
  apply NoDup_bind; [| |apply NoDup_entry_indexes].
  - intros i j p Hi%elem_of_entry_indexes Hj%elem_of_entry_indexes Hpi Hpj.
    destruct (child_base_mod l base i Hp Hb Hi), (child_base_mod l base j Hp Hb Hj).
    apply elem_of_all_pages in Hpi, Hpj; [|done..]. rewrite child_base_add in Hpi, Hpj by done.
    pose proof (span_pos l). assert (Z.of_nat i = Z.of_nat j); nia.
  - intros i Hi%elem_of_entry_indexes. destruct (child_base_mod l base i Hp Hb Hi). by apply IH.
Qed.

(** What a tree maps at a page, as a list. *)
Definition mapping_at (o : option Z) (p : Z) : list (Z * Z) :=
  match o with Some f => [(p, f)] | None => [] end.

Lemma mappings_lookup l base (t : ptree l) :
  0 <= base -> base mod span l = 0 ->
  mappings l base t = all_pages l base ≫= fun p => mapping_at (tree_lookup l p t) p.
Proof.
  revert base t; induction l as [|l IH]; intros base t Hp Hb; [done|]. cbn [mappings all_pages].
  rewrite bind_assoc. apply bind_ext. intros i Hi%elem_of_entry_indexes.
  destruct (child_base_mod l base i Hp Hb Hi) as [Hp' Hb'].
  assert (Hidx : forall p, p ∈ all_pages l (child_base l base i) ->
    tree_lookup (S l) p t = children t !! i ≫= tree_lookup l p).
  { intros p Hin. apply elem_of_all_pages in Hin; [|done..]. rewrite child_base_add in Hin by done.
    assert (Hi' : hw_index (S l) p = i).
    { replace p with (base + Z.of_nat i * span l + (p - base - Z.of_nat i * span l)) by lia.
      apply hw_index_child; done || lia. }
    cbn [tree_lookup]. by rewrite Hi'. }
  rewrite (bind_ext _ (fun p => mapping_at (children t !! i ≫= tree_lookup l p) p))
    by (intros p Hin; by rewrite Hidx).
  destruct (children t !! i) as [c|]; [by rewrite IH|]. cbn. by rewrite bind_nil_r.
Qed.

Lemma space_mappings_lookup top :
  space_mappings top = all_pages 4 0 ≫= fun p => mapping_at (space_lookup top p) p.
Proof.
  change (space_mappings top) with (mappings 4 0 ((0, top) : ptree 4)). rewrite mappings_lookup by done.
  done.
Qed.

(** What is freed: the tables, and the frames of the mappings outside the
    borrowed range. *)
Definition unless_borrowed (borrowed : Z * Z) (pf : Z * Z) : list Z :=
  if range_contains borrowed pf.1 then [] else [pf.2].

Lemma unless_borrowed_empty l : l ≫= unless_borrowed (0, 0) = l.*2.
Proof.
  induction l as [|[p f] l IH]; [done|]. rewrite bind_cons, IH. unfold unless_borrowed, range_contains. cbn.
  destruct (Z.leb_spec 0 p), (Z.ltb_spec p 0); done || lia.
Qed.

Lemma freed_tables_mappings borrowed l base (t : ptree l) :
  freed borrowed l base t ≡ₚ tables l t ++ (mappings l base t ≫= unless_borrowed borrowed).
Proof.
  revert base t; induction l as [|l IH]; intros base t; cbn [freed tables mappings].
  - unfold unless_borrowed. cbn. by destruct (range_contains borrowed base).
  - rewrite (Permutation_app_comm _ [table t]). cbn [app]. constructor.
    rewrite bind_assoc, <- bind_app_perm.
    assert (Hext : forall js, js ≫= at_child (fun i => freed borrowed l (child_base l base i)) (children t) ≡ₚ
      js ≫= fun i => at_child (fun _ => tables l) (children t) i ++
        (match children t !! i with Some c => mappings l (child_base l base i) c | None => [] end
          ≫= unless_borrowed borrowed)).
    { induction js as [|i js IHjs]; [done|]. rewrite !bind_cons, IHjs. apply Permutation_app_tail.
      unfold at_child. destruct (children t !! i) as [c|]; [apply IH|done]. }
    apply Hext.
Qed.

Lemma freed_space_mappings borrowed l4 top :
  freed_space borrowed l4 top ≡ₚ space_tables l4 top ++ (space_mappings top ≫= unless_borrowed borrowed).
Proof. exact (freed_tables_mappings borrowed 4 0 ((l4, top) : ptree 4)). Qed.

(** ** One more mapping *)

(** The page of the low 48 bits of an address. *)
Definition low_page (page : Z) : Z := page mod 2 ^ 48.

Lemma hw_indexes_low page : hw_indexes 4 (low_page page) = hw_indexes 4 page.
Proof.
  unfold hw_indexes. apply list_fmap_ext. intros k i Hk. apply lookup_seq in Hk as [-> Hk].
  unfold hw_index, low_page, level_shift. f_equal. cbn [Nat.add].
  assert (Hc : (k = 0 \/ k = 1 \/ k = 2 \/ k = 3)%nat) by lia.
  destruct Hc as [ -> | [ -> | [ -> | -> ] ] ];
    change (12 + 9 * (Z.of_nat (4 - 0) - 1)) with 39; change (12 + 9 * (Z.of_nat (4 - 1) - 1)) with 30;
    change (12 + 9 * (Z.of_nat (4 - 2) - 1)) with 21; change (12 + 9 * (Z.of_nat (4 - 3) - 1)) with 12;
    rewrite <- !Z.shiftr_div_pow2, <- !(Z.land_ones _ 9), <- !(Z.land_ones _ 48) by lia;
    apply Z.bits_inj'; intros n Hn; rewrite !Z.land_spec, !Z.shiftr_spec, !Z.land_spec by lia;
    rewrite (Z.testbit_ones_nonneg 9), (Z.testbit_ones_nonneg 48) by lia;
    destruct (Z.ltb_spec n 9); rewrite ?andb_false_r; try done;
    rewrite (proj2 (Z.ltb_lt _ _)) by lia; by rewrite !andb_true_r.
Qed.

Lemma low_page_bounds page : page mod PAGE_SIZE = 0 -> 0 <= low_page page < 2 ^ 48 /\ low_page page mod PAGE_SIZE = 0.
Proof.
  intros Hp. unfold low_page. split; [apply Z.mod_pos_bound; lia|].
  unfold PAGE_SIZE in *. change (2 ^ 48) with (4096 * 2 ^ 36). rewrite Z.rem_mul_r by lia.
  rewrite Hp, Z.add_0_l, Z.mul_comm. apply Z.mod_mul. lia.
Qed.

(** A page of the low 48 bits is determined by its four indexes. *)
Lemma page_from_indexes p :
  0 <= p < 2 ^ 48 -> p mod PAGE_SIZE = 0 ->
  p = foldl (fun acc i => (acc * 512 + Z.of_nat i)) 0 (hw_indexes 4 p) * PAGE_SIZE.
Proof.
  intros Hp Hm. unfold hw_indexes, hw_index, level_shift, PAGE_SIZE in *. cbn [seq fmap list_fmap foldl].
  change (12 + 9 * (Z.of_nat (4 - 0) - 1)) with 39. change (12 + 9 * (Z.of_nat (4 - 1) - 1)) with 30.
  change (12 + 9 * (Z.of_nat (4 - 2) - 1)) with 21. change (12 + 9 * (Z.of_nat (4 - 3) - 1)) with 12.
  change (2 ^ 39) with (4096 * 512 * 512 * 512). change (2 ^ 30) with (4096 * 512 * 512).
  change (2 ^ 21) with (4096 * 512). change (2 ^ 12) with 4096.
  rewrite <- !Z.div_div by lia. set (q := p / 4096).
  assert (Hq : p = 4096 * q) by (apply Z.div_exact; lia).
  assert (0 <= q < 2 ^ 36) by lia.
  rewrite !Z2Nat.id by (apply Z.mod_pos_bound; lia).
  rewrite (Z.mod_small (q / 512 / 512 / 512)).
  - rewrite Hq, (Z.mul_comm 4096). f_equal. pose proof (Z.div_mod q 512 ltac:(lia)).
    pose proof (Z.div_mod (q / 512) 512 ltac:(lia)). pose proof (Z.div_mod (q / 512 / 512) 512 ltac:(lia)). lia.
  - split; [repeat apply Z.div_pos; lia|]. repeat (apply Z.div_lt_upper_bound; [lia|]). lia.
Qed.

Lemma hw_indexes_inj p q :
  0 <= p < 2 ^ 48 -> p mod PAGE_SIZE = 0 -> 0 <= q < 2 ^ 48 -> q mod PAGE_SIZE = 0 ->
  hw_indexes 4 p = hw_indexes 4 q -> p = q.
Proof.
  intros Hp Hpm Hq Hqm E. rewrite (page_from_indexes p Hp Hpm), (page_from_indexes q Hq Hqm). by rewrite E.
Qed.

Lemma space_lookup_indexes top p q : hw_indexes 4 p = hw_indexes 4 q -> space_lookup top p = space_lookup top q.
Proof.
  rewrite !hw_indexes_S. intros [= E4 E3 E2 E1]. unfold space_lookup. rewrite E4.
  destruct (top !! hw_index 4 q) as [t|]; [|done]. cbn [mbind option_bind tree_lookup]. rewrite E3.
  destruct (children t !! hw_index 3 q) as [u|]; [|done]. cbn [mbind option_bind tree_lookup]. rewrite E2.
  destruct (children u !! hw_index 2 q) as [v|]; [|done]. cbn [mbind option_bind tree_lookup]. by rewrite E1.
Qed.

Section Effect.
Context {crate : X86Crate} {A : Type} `{!FrameAllocator A, !FrameDeallocator A, !LawfulFrameAllocator A}.

(** [map_to] adds one mapping. *)
Lemma mapped_mappings m m' l4 shared top top' page frame flags (a a' : A) :
  mapped_ok m m' l4 shared top top' page frame flags a a' ->
  page mod PAGE_SIZE = 0 -> space_lookup top page = None ->
  space_mappings top' ≡ₚ (low_page page, frame) :: space_mappings top.
Proof.
  intros Hm Hp Hl. destruct (low_page_bounds page Hp) as [Hb Hbm]. rewrite !space_mappings_lookup.
  apply (bind_update_perm _ _ _ (low_page page) [(low_page page, frame)]).
  - by apply NoDup_all_pages.
  - apply elem_of_all_pages; [done..|]. split; [|done]. change (span 4) with (2 ^ 48). lia.
  - intros p Hin Hne. apply elem_of_all_pages in Hin as [Hr Hpm]; [|done..]. change (span 4) with (2 ^ 48) in Hr.
    rewrite (mapped_others _ _ _ _ _ _ _ _ _ _ _ Hm); [done|].
    rewrite <- (hw_indexes_low page). intros E%hw_indexes_inj; [done|lia|done|lia|done].
  - rewrite (space_lookup_indexes top' _ page), (space_lookup_indexes top _ page) by apply hw_indexes_low.
    by rewrite (mapped_lookup _ _ _ _ _ _ _ _ _ _ _ Hm), Hl.
Qed.

(** What the space would give back has grown by the new tables, and by the
    frame unless its page is borrowed. *)
Lemma mapped_freed borrowed m m' l4 shared top top' page frame flags (a a' : A) :
  mapped_ok m m' l4 shared top top' page frame flags a a' ->
  page mod PAGE_SIZE = 0 -> space_lookup top page = None ->
  freed_space borrowed l4 top' ≡ₚ
    unless_borrowed borrowed (low_page page, frame) ++ take (space_missing top page) (fa_avail a) ++
    freed_space borrowed l4 top.
Proof.
  intros Hm Hp Hl. rewrite !freed_space_mappings.
  rewrite (mapped_mappings _ _ _ _ _ _ _ _ _ _ _ Hm Hp Hl), bind_cons.
  rewrite (mapped_tables _ _ _ _ _ _ _ _ _ _ _ Hm), <- !app_assoc.
  rewrite (app_assoc (take _ _)), (Permutation_app_swap_app (_ ++ _)), <- !app_assoc. done.
Qed.
End Effect.

Lemma elem_of_space_mappings top p f :
  (p, f) ∈ space_mappings top <->
  0 <= p < 2 ^ 48 /\ p mod PAGE_SIZE = 0 /\ space_lookup top p = Some f.
Proof.
  rewrite space_mappings_lookup, list_elem_of_bind. setoid_rewrite elem_of_all_pages; [|done..].
  change (span 4) with (2 ^ 48). unfold mapping_at. split.
  - intros (q & Hin & Hq). destruct (space_lookup top q) eqn:E; [|by apply not_elem_of_nil in Hin].
    apply list_elem_of_singleton in Hin. simplify_eq. split_and!; [lia..|done].
  - intros (Hp & Hm & E). exists p. rewrite E. split; [set_solver|lia].
Qed.

Section Free.
Context {crate : X86Crate} {A : Type} `{!FrameAllocator A, !FrameDeallocator A, !LawfulFrameAllocator A}.

(** C13: [free_address_space] gives back every frame of an address space
    exactly once and no other: the frames of its tables, and the frames its
    pages are mapped to, except the pages of the borrowed range (the kernel
    stack, which the heap owns) and everything below the two top-level
    entries shared with the kernel.  It never panics on a tree of tables. *)
Theorem free_address_space_exact m borrowed l4 pmo top (a : A) :
  repr_space m l4 [0%nat; va_index 4 pmo] top -> fa_inv a ->
  exists a', free_address_space m borrowed l4 pmo a = Ok a' /\ fa_inv a' /\
    fa_avail a' ≡ₚ space_tables l4 top ++ (space_mappings top ≫= unless_borrowed borrowed) ++ fa_avail a /\
    (forall p f, (p, f) ∈ space_mappings top <->
       0 <= p < 2 ^ 48 /\ p mod PAGE_SIZE = 0 /\ space_lookup top p = Some f).
Proof.
  intros Hr Hi. destruct (free_address_space_frees m borrowed l4 pmo top a Hr Hi) as (a' & E & Hi' & Hav).
  exists a'. split_and!; [done|done| |apply elem_of_space_mappings].
  by rewrite Hav, reverse_Permutation, freed_space_mappings, app_assoc.
Qed.
End Free.

Section FreeWitness.
#[local] Existing Instance x86_crate.

#[local] Existing Instance ref_mapper.

(** The frames of [sample_map] after the first one was taken. *)
Definition sample_frames : BootInfoFrameAllocator :=
  mkBootInfoFrameAllocator sample_map 1 0x2000 None.

Lemma sample_frames_lawful : fa_inv sample_frames /\ fa_avail sample_frames = [0x2000; 0x8000; 0x9000].
Proof.
  destruct (frame_allocator_init_lawful sample_map sample_map_ok) as [Hi Hav].
  change (fa_inv (frame_allocator_init sample_map)) in Hi.
  destruct (fa_alloc_some (frame_allocator_init sample_map) 0x1000 [0x2000; 0x8000; 0x9000] Hi Hav)
    as (a & E & Hi' & Hav').
  assert (Ha : allocate_frame (frame_allocator_init sample_map) = Ok (Some 0x1000, sample_frames)) by reflexivity.
  rewrite Ha in E. by simplify_eq.
Qed.

(** An empty address space in zeroed memory. *)
Lemma sample_space_ok : space_ok (fun _ => 0) 0x1000 [0%nat; va_index 4 0] ∅ sample_frames.
Proof.
  destruct sample_frames_lawful as [Hi Hav]. split_and!; [|split; [done|]|done| |].
  - intros x. unfold is_u8. lia.
  - intros i Hi' _. rewrite lookup_empty. unfold table_entry, read_u64_at, read_bytes. done.
  - rewrite Hav. apply (bool_decide_unpack _). by vm_compute.
  - rewrite Hav. unfold space_tables. rewrite (bind_no_children 3).
    apply Forall_forall. intros f Hf. set_unfold. unfold frame_ok, PAGE_SIZE.
    destruct Hf as [ -> | [ -> | [ -> | [ -> | [] ] ] ] ]; (split; [done|lia]).
Qed.

(** The page 0x600000000000 mapped to the frame 0x5000. *)
Lemma sample_mapped :
  exists m' a' top', map_to (fun _ => 0) 0x1000 0x600000000000 0x5000 7 sample_frames = Ok (None, m', a') /\
    mapped_ok (fun _ => 0) m' 0x1000 [0%nat; va_index 4 0] ∅ top' 0x600000000000 0x5000 7 sample_frames a'.
Proof.
  apply map_to_ok; [apply sample_space_ok| |done|].
  - split; [done|]. split; [unfold canonical; lia|]. split; [by apply (bool_decide_unpack _); vm_compute|].
    split; [split; [done|lia]|]. unfold page_flags. right; right; right. done.
  - destruct sample_frames_lawful as [_ ->]. vm_compute. lia.
Qed.

Lemma free_address_space_exact_witness :
  exists m top a', space_lookup top 0x600000000000 = Some 0x5000 /\
    free_address_space m (0, 0) 0x1000 0 sample_frames = Ok a' /\
    fa_avail a' ≡ₚ space_tables 0x1000 top ++ (space_mappings top ≫= unless_borrowed (0, 0)) ++ fa_avail sample_frames.
Proof.
  destruct sample_mapped as (m & a & top & _ & Hm).
  destruct (free_address_space_exact m (0, 0) 0x1000 0 top sample_frames) as (a' & E & _ & Hav & _).
  - apply (mapped_repr _ _ _ _ _ _ _ _ _ _ _ Hm).
  - apply sample_frames_lawful.
  - exists m, top, a'. split; [apply (mapped_lookup _ _ _ _ _ _ _ _ _ _ _ Hm)|]. split; [exact E|exact Hav].
Defined.
End FreeWitness.
