(* ===== verification/Elf.v ===== *)
(** * The ELF loader (src/elf.rs)

    [load] parses an ELF64 executable, builds an address space for it and
    maps its segments, a stack and its arguments.  The state is physical
    memory and the frame allocator; a function that returns an [Option]
    keeps the effects it had before a [None]. *)

From S2P Require Import Prelude X86 FrameAlloc Paging AddressSpace Mapper.

Definition EI_MAG : list Z := [0x7f; 69; 76; 70].
Definition ELFCLASS64 : Z := 2.
Definition ELFDATA2LSB : Z := 1.
Definition ET_EXEC : Z := 2.
Definition EM_X86_64 : Z := 0x3e.
Definition PT_LOAD : Z := 1.
Definition PF_W : Z := 2.
Definition STACK_SIZE : Z := PAGE_SIZE.
Definition ARGS_SIZE : Z := PAGE_SIZE.

Record LoadedElf := mkLoadedElf {
  page_table : Z;
  entry : Z;
  stack_top : Z;
  args_ptr : Z;
  args_len : Z;
}.

(** [read_u16], [read_u32] and [read_u64] for 2, 4 and 8 bytes. *)
Definition read_uint (n : Z) (bytes : list Z) (base offset : Z) : option Z :=
  start ← checked_add base offset;
  end_ ← checked_add start n;
  le_decode <$> slice bytes start end_.

Definition read_u16 := read_uint 2.
Definition read_u32 := read_uint 4.
Definition read_u64 := read_uint 8.

(** [addr.checked_add(align - 1)? & !(align - 1)]: [!] is the complement in
    64 bits. *)
Definition align_up (addr align : Z) : option Z :=
  s ← checked_add addr (align - 1);
  Some (Z.land s (Z.ldiff (2 ^ 64 - 1) (align - 1))).

Section Loader.
Context {crate : X86Crate} {mapper : PageMapper} {A : Type} `{!FrameAllocator A, !FrameDeallocator A}.

(** Code that may panic or return [None], on memory and the allocator. *)
Definition L (X : Type) : Type := mem * A -> outcome (option X * (mem * A)).

#[export] Instance L_ret : MRet L := fun X x s => Ok (Some x, s).
#[export] Instance L_bind : MBind L := fun X Y f o s =>
  match o s with
  | Ok (Some x, s') => f x s'
  | Ok (None, s') => Ok (None, s')
  | Panic msg => Panic msg
  end.

(** The [?] operator, and a computation without effect. *)
Definition opt {X} (o : option X) : L X := fun s => Ok (o, s).
Definition pure {X} (o : outcome X) : L X := fun s => x ← o; Ok (Some x, s).
Definition ensure (b : bool) : L unit := opt (if b then Some tt else None).

Definition copy_page (file_bytes : list Z) (i frame : Z) (m : mem) : mem :=
  let m1 := zero_bytes m frame PAGE_SIZE in
  let page_offset_in_segment := i * PAGE_SIZE in
  if page_offset_in_segment <? Z.of_nat (length file_bytes) then
    let copy_len := Z.min (Z.of_nat (length file_bytes) - page_offset_in_segment) PAGE_SIZE in
    write_list m1 frame (take (Z.to_nat copy_len) (drop (Z.to_nat page_offset_in_segment) file_bytes))
  else m1.

(** One page of the loop of [map_segment]. *)
Definition map_segment_page (l4 : Z) (file_bytes : list Z) (flags start_page i : Z) : L unit := fun '(m, a) =>
  page ← expect (va_add start_page (i * PAGE_SIZE)) "Page + u64";
  '(r, a1) ← allocate_frame a;
  frame ← expect r "no physical frames left to load ELF segment";
  '(err, m1, a2) ← map_to m l4 page frame flags a1;
  match err with
  | Some _ => Panic "failed to map ELF segment page"
  | None => Ok (Some tt, (copy_page file_bytes i frame m1, a2))
  end.

Fixpoint map_segment_pages (l4 : Z) (file_bytes : list Z) (flags start_page : Z) (indexes : list nat) : L unit :=
  match indexes with
  | [] => mret tt
  | i :: rest =>
      _ ← map_segment_page l4 file_bytes flags start_page (Z.of_nat i);
      map_segment_pages l4 file_bytes flags start_page rest
  end.

Definition segment_flags (writable : bool) : Z :=
  let flags := Z.lor PRESENT USER_ACCESSIBLE in
  if writable then Z.lor flags WRITABLE else flags.

Definition map_segment (l4 : Z) (file_bytes : list Z) (vaddr mem_size : Z) (writable : bool) : L unit :=
  if mem_size =? 0 then mret tt
  else
    _ ← ensure (negb (negb (vaddr mod PAGE_SIZE =? 0) || (0x800000000000 <=? vaddr)));
    let flags := segment_flags writable in
    s ← opt (checked_add vaddr mem_size);
    last_byte ← opt (checked_sub s 1);
    start_addr ← opt (va_try_new vaddr);
    end_addr ← opt (va_try_new last_byte);
    let start_page := page_containing start_addr in
    let end_page := page_containing end_addr in
    d ← pure (sub_w end_page start_page);
    let page_count := d / PAGE_SIZE + 1 in
    map_segment_pages l4 file_bytes flags start_page (seq 0 (Z.to_nat page_count)).

(** One program header; [highest] is [highest_mapped]. *)
Definition load_segment (l4 : Z) (bytes : list Z) (phoff phentsize : Z) (i : nat) (highest : Z) : L Z :=
  ofs ← opt (checked_mul (Z.of_nat i) phentsize);
  ph ← opt (checked_add phoff ofs);
  p_type ← opt (read_u32 bytes ph 0);
  if negb (p_type =? PT_LOAD) then mret highest
  else
    p_flags ← opt (read_u32 bytes ph 4);
    p_offset ← opt (read_u64 bytes ph 8);
    p_vaddr ← opt (read_u64 bytes ph 16);
    p_filesz ← opt (read_u64 bytes ph 32);
    p_memsz ← opt (read_u64 bytes ph 40);
    let writable := negb (Z.land p_flags PF_W =? 0) in
    file_end ← opt (checked_add p_offset p_filesz);
    file_bytes ← opt (slice bytes p_offset file_end);
    _ ← map_segment l4 file_bytes p_vaddr p_memsz writable;
    seg_end ← opt (checked_add p_vaddr p_memsz);
    mret (Z.max highest seg_end).

Fixpoint load_segments (l4 : Z) (bytes : list Z) (phoff phentsize : Z) (indexes : list nat) (highest : Z) : L Z :=
  match indexes with
  | [] => mret highest
  | i :: rest =>
      h ← load_segment l4 bytes phoff phentsize i highest;
      load_segments l4 bytes phoff phentsize rest h
  end.

Definition load_segments_and_stack (l4 : Z) (bytes args : list Z) : L (Z * Z * Z * Z) :=
  entry ← opt (read_u64 bytes 0 24);
  phoff ← opt (read_u64 bytes 0 32);
  phentsize ← opt (read_u16 bytes 0 54);
  phnum ← opt (read_u16 bytes 0 56);
  highest_mapped ← load_segments l4 bytes phoff phentsize (seq 0 (Z.to_nat phnum)) 0;
  top ← opt (align_up highest_mapped PAGE_SIZE);
  stack_bottom ← opt (checked_add top PAGE_SIZE);
  _ ← map_segment l4 [] stack_bottom STACK_SIZE true;
  stack_end ← opt (checked_add stack_bottom STACK_SIZE);
  sp ← opt (checked_sub stack_end 16);
  stack_top ← opt (va_try_new sp);
  entry ← opt (va_try_new entry);
  args_bottom ← opt (checked_add stack_bottom STACK_SIZE);
  _ ← map_segment l4 args args_bottom ARGS_SIZE false;
  args_ptr ← opt (va_try_new args_bottom);
  mret (entry, stack_top, args_ptr, Z.of_nat (length args)).

(** The checks of the fixed header. *)
Definition header_ok (bytes : list Z) : bool :=
  (64 <=? length bytes)%nat &&
  bool_decide (take 4 bytes = EI_MAG) && bool_decide (bytes !! 4%nat = Some ELFCLASS64) &&
  bool_decide (bytes !! 5%nat = Some ELFDATA2LSB) &&
  bool_decide (read_u16 bytes 0 16 = Some ET_EXEC) && bool_decide (read_u16 bytes 0 18 = Some EM_X86_64).

Definition load (bytes : list Z) (cr3 physical_memory_offset : Z) (args : list Z) : L LoadedElf := fun '(m, a) =>
  if negb (header_ok bytes) then Ok (None, (m, a))
  else
    '(l4, m1, a1) ← new_address_space m cr3 physical_memory_offset a;
    '(r, (m2, a2)) ← load_segments_and_stack l4 bytes args (m1, a1);
    match r with
    | Some (entry, stack_top, args_ptr, args_len) =>
        Ok (Some (mkLoadedElf l4 entry stack_top args_ptr args_len), (m2, a2))
    | None =>
        a3 ← free_address_space m2 (0, 0) l4 physical_memory_offset a2;
        Ok (None, (m2, a3))
    end.
End Loader.
