(* ===== verification/ElfThms.v ===== *)
(** * Correctness of the ELF loader

    What [load] builds: the address space in which every byte of every
    segment is where the program expects it, with the access rights of its
    segment, from frames that all come from the allocator and all go back to
    it when loading fails. *)

From S2P Require Import Prelude X86 FrameAlloc Paging AddressSpace Mapper MapperRef Mappings Elf.

(** The content of page [i] of a segment with file content [file_bytes]. *)
Definition page_content (file_bytes : list Z) (i : Z) : list Z :=
  (fun k => nth (Z.to_nat (i * PAGE_SIZE) + k) file_bytes 0) <$> seq 0 (Z.to_nat PAGE_SIZE).

Lemma read_bytes_at m a n k : (k < n)%nat -> read_bytes m a n !! k = Some (m (a + Z.of_nat k)).
Proof. intros Hk. unfold read_bytes. by rewrite list_lookup_fmap, lookup_seq_lt by done. Qed.

(** [copy_page] writes the page of the segment into the frame and nothing
    else. *)
Lemma copy_page_content file_bytes i frame m :
  0 <= i -> read_bytes (copy_page file_bytes i frame m) frame (Z.to_nat PAGE_SIZE) = page_content file_bytes i.
Proof.
  intros Hi. apply list_eq. intros k. destruct (decide (k < Z.to_nat PAGE_SIZE)%nat) as [Hk|Hk].
  - rewrite read_bytes_at by done. unfold page_content. rewrite list_lookup_fmap, lookup_seq_lt by done. cbn.
    f_equal. unfold copy_page, PAGE_SIZE in *. set (o := i * 4096).
    destruct (Z.ltb_spec o (Z.of_nat (length file_bytes))) as [Ho|Ho].
    + set (n := Z.to_nat (Z.min (Z.of_nat (length file_bytes) - o) 4096)).
      destruct (decide (k < n)%nat) as [Hkn|Hkn].
      * unfold write_list. rewrite length_take, length_drop.
        destruct (Z.leb_spec frame (frame + Z.of_nat k)); [|lia].
        destruct (Z.ltb_spec (frame + Z.of_nat k)
          (frame + Z.of_nat (n `min` (length file_bytes - Z.to_nat o)))); [|lia]. cbn [andb].
        replace (Z.to_nat (frame + Z.of_nat k - frame)) with k by lia.
        destruct (lookup_lt_is_Some_2 file_bytes (Z.to_nat o + k)) as [b Hb]; [lia|].
        rewrite (nth_lookup_Some _ _ _ _ Hb). apply nth_lookup_Some.
        by rewrite lookup_take_lt, lookup_drop by lia.
      * rewrite write_list_other by (rewrite length_take, length_drop; lia).
        rewrite zero_bytes_in by lia. rewrite nth_overflow; [done|]. lia.
    + rewrite zero_bytes_in by lia. rewrite nth_overflow; [done|]. lia.
  - rewrite !lookup_ge_None_2; [done| |]; unfold page_content, read_bytes; rewrite length_fmap, length_seq; lia.
Qed.

Lemma copy_page_other file_bytes i frame m x :
  0 <= i -> ~ in_frame frame x -> copy_page file_bytes i frame m x = m x.
Proof.
  intros Hi Hx. unfold in_frame in Hx. unfold copy_page, PAGE_SIZE in *.
  destruct (Z.ltb_spec (i * 4096) (Z.of_nat (length file_bytes))).
  - rewrite write_list_other by (rewrite length_take; lia). apply zero_bytes_other. lia.
  - apply zero_bytes_other. lia.
Qed.

Lemma mem_ok_copy_page file_bytes i frame m :
  Forall is_u8 file_bytes -> mem_ok m -> mem_ok (copy_page file_bytes i frame m).
Proof.
  intros Hf Hm. unfold copy_page. destruct (_ <? _); [|auto with velora].
  apply mem_ok_write_list; [auto with velora|]. by apply Forall_take, Forall_drop.
Qed.

(** A page the loader has mapped: its address, content and access. *)
Record loaded_page := mkLoadedPage { lp_page : Z; lp_content : list Z; lp_writable : bool }.

Lemma segment_flags_page w : page_flags (segment_flags w).
Proof. destruct w; unfold page_flags, segment_flags; [right; right; right|right; right; left]; done. Qed.

Section Loading.
Context {crate : X86Crate} {mapper : PageMapper} {A : Type} `{!FrameAllocator A, !FrameDeallocator A, !LawfulFrameAllocator A}.
Context (l4 : Z) (shared : list nat) (total : list Z) (m0 : mem).

(** The state while the loader runs: the address space [top] is a tree of
    tables; its tables, its data frames and the free frames are the frames
    there were at the start; memory [m0] changed only in those; the pages of
    [pages] are mapped as recorded and there are no others. *)
Record loading (m : mem) (a : A) (top : gmap nat (ptree 3)) (pages : list loaded_page) : Prop := {
  ld_mem : mem_ok m;
  ld_repr : repr_space m l4 shared top;
  ld_inv : fa_inv a;
  ld_total : space_tables l4 top ++ (space_mappings top).*2 ++ fa_avail a ≡ₚ total;
  ld_outside x : ~ in_frames total x -> m x = m0 x;
  ld_mapped p : p mod PAGE_SIZE = 0 -> 0 <= p < 2 ^ 47 -> is_Some (space_lookup top p) -> p ∈ lp_page <$> pages;
  ld_pages lp : lp ∈ pages -> exists f, space_lookup top (lp_page lp) = Some f /\
    read_bytes m f (Z.to_nat PAGE_SIZE) = lp_content lp /\
    accessible_walk m l4 (hw_indexes 4 (lp_page lp)) (segment_flags (lp_writable lp)) = true /\
    (exists e, leaf_entry m l4 (hw_indexes 4 (lp_page lp)) = Some e /\
       forall b, b ∈ [0; 1; 2] -> Z.testbit e b = Z.testbit (segment_flags (lp_writable lp)) b);
  ld_user lp : lp ∈ pages -> lp_page lp mod PAGE_SIZE = 0 /\ 0 <= lp_page lp < 2 ^ 47 /\
    hw_index 4 (lp_page lp) ∉ shared;
}.

Context (Hnodup : NoDup total) (Hframes : Forall frame_ok total).

Lemma loading_space_ok m a top pages : loading m a top pages -> space_ok m l4 shared top a.
Proof using Hnodup Hframes.
  intros [H1 H2 H3 H4 _ _ _ _]. split_and!; [done|done|done| |].
  - eapply NoDup_sub; [|exact Hnodup]. rewrite <- H4. apply submseteq_app; [done|]. by apply submseteq_inserts_l.
  - eapply Forall_sub; [|exact Hframes]. rewrite <- H4. apply submseteq_app; [done|]. by apply submseteq_inserts_l.
Qed.

Lemma low_page_id p : 0 <= p < 2 ^ 48 -> low_page p = p.
Proof. intros H. unfold low_page. apply Z.mod_small. lia. Qed.

(** The frame of a mapped page is one of the data frames. *)
Lemma mapped_frame top p f :
  0 <= p < 2 ^ 47 -> p mod PAGE_SIZE = 0 -> space_lookup top p = Some f -> f ∈ (space_mappings top).*2.
Proof.
  intros Hp Hm Hl. apply list_elem_of_fmap. exists (p, f). split; [done|].
  apply elem_of_space_mappings. split_and!; [lia..|done|done].
Qed.

(** A page outside the shared entries, in the lower half. *)
Definition user_page (p : Z) : Prop :=
  p mod PAGE_SIZE = 0 /\ 0 <= p < 2 ^ 47 /\ hw_index 4 p ∉ shared.

Lemma hw_indexes_ne p q :
  user_page p -> user_page q -> p <> q -> hw_indexes 4 p <> hw_indexes 4 q.
Proof.
  intros (Hp & Hpb & _) (Hq & Hqb & _) Hne E. apply Hne, hw_indexes_inj; try done; lia.
Qed.

Lemma space_missing_le top p : (space_missing top p <= 3)%nat.
Proof.
  unfold space_missing. destruct (top !! _) as [c|]; [|done]. cbn [tree_missing].
  destruct (children c !! _) as [d|]; [|lia]. destruct (children d !! _) as [e|]; [|lia].
  destruct (children e !! _); lia.
Qed.

(** The frames of a space before and after a page is mapped. *)
Lemma mapped_total m m1 (a1 a2 : A) top top' p frame rest flags :
  mapped_ok m m1 l4 shared top top' p frame flags a1 a2 -> user_page p -> space_lookup top p = None -> fa_avail a1 = rest ->
  space_tables l4 top' ++ (space_mappings top').*2 ++ fa_avail a2 ≡ₚ
  space_tables l4 top ++ (space_mappings top).*2 ++ frame :: rest.
Proof.
  intros Hmo Hp Hn Hav.
  rewrite (mapped_tables _ _ _ _ _ _ _ _ _ _ _ Hmo), (mapped_avail _ _ _ _ _ _ _ _ _ _ _ Hmo), Hav.
  rewrite (mapped_mappings _ _ _ _ _ _ _ _ _ _ _ Hmo) by (apply Hp || done). cbn [fmap list_fmap snd].
  set (n := space_missing top p). rewrite <- (take_drop n rest) at 3.
  rewrite <- !app_assoc. cbn [app].
  rewrite (Permutation_app_swap_app (take n rest)). apply Permutation_app_head.
  rewrite <- (Permutation_middle (take n rest)), <- (Permutation_middle (_.*2)). constructor.
  apply Permutation_app_swap_app.
Qed.

(** A page is mapped and its frame is written to. *)
Section MapPage.
Context (m m1 m' : mem) (a0 a1 a2 : A) (top top' : gmap nat (ptree 3)) (pages : list loaded_page)
  (p frame : Z) (rest : list Z) (w : bool).
Context (Hld : loading m a0 top pages) (Hp : user_page p) (Hnew : p ∉ lp_page <$> pages)
  (Hav0 : fa_avail a0 = frame :: rest) (Hav1 : fa_avail a1 = rest) (Hi2 : fa_inv a2)
  (Hmo : mapped_ok m m1 l4 shared top top' p frame (segment_flags w) a1 a2)
  (Hm' : mem_ok m') (Hother : forall x, ~ in_frame frame x -> m' x = m1 x).

Lemma mp_lookup_none : space_lookup top p = None.
Proof using Hld Hp Hnew.
  destruct (space_lookup top p) eqn:E; [|done]. exfalso. apply Hnew. destruct Hp as (? & ? & _).
  apply (ld_mapped _ _ _ _ Hld); [done|done|]. eauto.
Qed.

Lemma mp_total : space_tables l4 top' ++ (space_mappings top').*2 ++ fa_avail a2 ≡ₚ total.
Proof using All.
  rewrite <- (ld_total _ _ _ _ Hld), Hav0. by apply (mapped_total m m1 a1 a2 top top' p frame rest _ Hmo Hp mp_lookup_none).
Qed.

(** The frame is neither a table nor the frame of another page. *)
Lemma mp_frame_apart :
  NoDup (frame :: space_tables l4 top' ++ (space_mappings top).*2) /\
  Forall frame_ok (frame :: space_tables l4 top' ++ (space_mappings top).*2).
Proof using All.
  assert (Hsub : frame :: space_tables l4 top' ++ (space_mappings top).*2 ⊆+ total).
  { rewrite <- mp_total, (mapped_mappings _ _ _ _ _ _ _ _ _ _ _ Hmo) by (apply Hp || apply mp_lookup_none).
    cbn [fmap list_fmap snd app]. rewrite <- Permutation_middle. constructor.
    rewrite app_assoc. by apply submseteq_inserts_r. }
  split; [by eapply NoDup_sub|by eapply Forall_sub].
Qed.

Lemma mp_tables_same x : in_frames (space_tables l4 top') x -> m' x = m1 x.
Proof using All.
  intros Hx. apply Hother. intros Hf. destruct mp_frame_apart as [Hnd Hok].
  apply (in_frames_disjoint [frame] (space_tables l4 top' ++ (space_mappings top).*2) x); [done|done| |].
  - exists frame. split; [set_solver|done].
  - apply in_frames_app. by left.
Qed.

Lemma mp_data_same f x : f ∈ (space_mappings top).*2 -> in_frame f x -> m' x = m x.
Proof using All.
  intros Hf Hx. destruct mp_frame_apart as [Hnd Hok].
  assert (Hin : in_frames ((space_mappings top).*2) x) by (by exists f).
  rewrite Hother.
  - apply (mapped_outside _ _ _ _ _ _ _ _ _ _ _ Hmo). intros Ht.
    apply NoDup_cons in Hnd as [_ Hnd]. apply Forall_cons in Hok as [_ Hok].
    by apply (in_frames_disjoint _ _ x Hnd Hok).
  - intros Hfr. apply (in_frames_disjoint [frame] (space_tables l4 top' ++ (space_mappings top).*2) x); [done|done| |].
    + exists frame. split; [set_solver|done].
    + apply in_frames_app. by right.
Qed.

Lemma mp_walk q required : hw_index 4 q ∉ shared ->
  accessible_walk m' l4 (hw_indexes 4 q) required = accessible_walk m1 l4 (hw_indexes 4 q) required /\
  leaf_entry m' l4 (hw_indexes 4 q) = leaf_entry m1 l4 (hw_indexes 4 q).
Proof using All.
  intros Hq. apply (node_walk_ext m1 m' 2 l4 shared top'); [apply mp_tables_same| |done].
  apply (mapped_repr _ _ _ _ _ _ _ _ _ _ _ Hmo).
Qed.

Lemma map_page_loading :
  loading m' a2 top' (mkLoadedPage p (read_bytes m' frame (Z.to_nat PAGE_SIZE)) w :: pages).
Proof using All.
  split.
  - done.
  - apply (node_ext m1 m' 3 l4 shared top'); [apply mp_tables_same|apply (mapped_repr _ _ _ _ _ _ _ _ _ _ _ Hmo)].
  - done.
  - apply mp_total.
  - intros x Hx. rewrite <- (ld_outside _ _ _ _ Hld x Hx). rewrite Hother.
    + apply (mapped_outside _ _ _ _ _ _ _ _ _ _ _ Hmo). intros Hin. apply Hx.
      eapply in_frames_incl; [|exact Hin]. intros f Hf. rewrite <- mp_total. set_solver.
    + intros Hin. apply Hx. exists frame. split; [|done]. rewrite <- (ld_total _ _ _ _ Hld), Hav0. set_solver.
  - intros q Hqm Hqb Hq. cbn [fmap list_fmap lp_page]. destruct (decide (q = p)) as [->|Hne]; [by left|right].
    apply (ld_mapped _ _ _ _ Hld); [done..|]. destruct Hp as (Hpm & Hpb & _).
    rewrite (mapped_others _ _ _ _ _ _ _ _ _ _ _ Hmo) in Hq; [done|].
    intros E%hw_indexes_inj; try done; lia.
  - intros lp [->|Hin]%elem_of_cons; cbn [lp_page lp_content lp_writable].
    + exists frame. split; [apply (mapped_lookup _ _ _ _ _ _ _ _ _ _ _ Hmo)|]. split; [done|].
      destruct (mp_walk p (segment_flags w)) as [E1 E2]; [apply Hp|]. rewrite E1, E2. split.
      * apply (mapped_flags _ _ _ _ _ _ _ _ _ _ _ Hmo).
      * apply (mapped_leaf _ _ _ _ _ _ _ _ _ _ _ Hmo).
    + destruct (ld_pages _ _ _ _ Hld lp Hin) as (f & Hl & Hc & Hw & e & He & Hb).
      assert (Hup : user_page (lp_page lp)) by by apply (ld_user _ _ _ _ Hld).
      assert (Hne : hw_indexes 4 (lp_page lp) <> hw_indexes 4 p).
      { apply hw_indexes_ne; [done..|]. intros E. apply Hnew. apply list_elem_of_fmap. by exists lp. }
      destruct (mp_walk (lp_page lp) (segment_flags (lp_writable lp))) as [E1 E2]; [apply Hup|]. rewrite E1, E2.
      exists f. split_and!.
      * by rewrite (mapped_others _ _ _ _ _ _ _ _ _ _ _ Hmo).
      * rewrite <- Hc. apply read_bytes_ext. intros x Hx. apply (mp_data_same f); [|unfold in_frame, PAGE_SIZE in *; lia].
        destruct Hup as (? & ? & _). by apply (mapped_frame top (lp_page lp)).
      * apply (mapped_other_flags _ _ _ _ _ _ _ _ _ _ _ Hmo); [apply segment_flags_page|apply Hup|done|done].
      * exists e. split; [|done]. apply (mapped_other_leaf _ _ _ _ _ _ _ _ _ _ _ Hmo); [apply Hup|done|done].
  - intros lp [->|Hin]%elem_of_cons; [done|by apply (ld_user _ _ _ _ Hld)].
Qed.
End MapPage.

Lemma map_segment_page_ok m a top pages file_bytes w start i :
  loading m a top pages -> 0 <= start -> 0 <= i -> user_page (start + i * PAGE_SIZE) ->
  start + i * PAGE_SIZE ∉ lp_page <$> pages -> (space_missing top (start + i * PAGE_SIZE) < length (fa_avail a))%nat -> Forall is_u8 file_bytes ->
  exists m' a' top', map_segment_page l4 file_bytes (segment_flags w) start i (m, a) = Ok (Some tt, (m', a')) /\
    loading m' a' top' (mkLoadedPage (start + i * PAGE_SIZE) (page_content file_bytes i) w :: pages) /\
    (length (fa_avail a) <= length (fa_avail a') + 4)%nat.
Proof using Hnodup Hframes.
  intros Hld Hs Hi Hp Hnew Hlen Hfb. set (p := start + i * PAGE_SIZE) in *.
  assert (Hadd : va_add start (i * PAGE_SIZE) = Some p).
  { unfold p in *. unfold PAGE_SIZE in *. apply va_add_low; [lia..|]. destruct Hp as (_ & ? & _). lia. }
  destruct (fa_avail a) as [|frame rest] eqn:Hav; [simpl in Hlen; lia|].
  destruct (fa_alloc_some a frame rest (ld_inv _ _ _ _ Hld) Hav) as (a1 & Ea & Hi1 & Hav1).
  assert (Hsub : space_tables l4 top ++ rest ⊆+ space_tables l4 top ++ fa_avail a).
  { apply submseteq_app; [done|]. rewrite Hav. by apply submseteq_cons. }
  destruct (loading_space_ok m a top pages Hld) as (O1 & O2 & _ & O4 & O5).
  assert (Hmiss := space_missing_le top p).
  assert (Hfok : frame_ok frame).
  { apply Forall_app in O5 as [_ O5]. rewrite Hav in O5. by apply Forall_cons in O5 as [? _]. }
  destruct (map_to_ok m l4 shared top p frame (segment_flags w) a1) as (m1 & a2 & top' & Em & Hmo).
  - split_and!; [done|done|done|rewrite Hav1; by eapply NoDup_sub|rewrite Hav1; by eapply Forall_sub].
  - destruct Hp as (Hpm & Hpb & Hps). split; [done|]. split; [unfold canonical; lia|]. split; [done|].
    split; [done|apply segment_flags_page].
  - by apply (mp_lookup_none m a top pages p Hld Hp Hnew).
  - rewrite Hav1. simpl in Hlen. lia.
  - exists (copy_page file_bytes i frame m1), a2, top'. split_and!.
    + unfold map_segment_page. rewrite Hadd. cbn [expect mbind outcome_bind]. rewrite Ea.
      cbn [mbind outcome_bind expect]. by rewrite Em.
    + rewrite <- (copy_page_content file_bytes i frame m1) by done.
      eapply (map_page_loading m m1 _ a a1 a2 top top' pages p frame rest); try done; [apply (mapped_inv _ _ _ _ _ _ _ _ _ _ _ Hmo)| |].
      * apply mem_ok_copy_page; [done|apply (mapped_mem _ _ _ _ _ _ _ _ _ _ _ Hmo)].
      * intros x Hx. by apply copy_page_other.
    + rewrite (mapped_avail _ _ _ _ _ _ _ _ _ _ _ Hmo), Hav1, length_drop. cbn [length]. lia.
Qed.

(** The pages [j] to [j + n - 1] of a segment. *)
Definition segment_pages (file_bytes : list Z) (start : Z) (w : bool) (j n : nat) : list loaded_page :=
  (fun k => mkLoadedPage (start + Z.of_nat k * PAGE_SIZE) (page_content file_bytes (Z.of_nat k)) w) <$> seq j n.

Lemma map_segment_pages_ok m a top pages file_bytes w start j n :
  loading m a top pages -> 0 <= start -> Forall is_u8 file_bytes ->
  (forall k, (j <= k < j + n)%nat -> user_page (start + Z.of_nat k * PAGE_SIZE) /\
     start + Z.of_nat k * PAGE_SIZE ∉ lp_page <$> pages) ->
  (4 * n <= length (fa_avail a))%nat ->
  exists m' a' top', map_segment_pages l4 file_bytes (segment_flags w) start (seq j n) (m, a) = Ok (Some tt, (m', a')) /\
    loading m' a' top' (reverse (segment_pages file_bytes start w j n) ++ pages) /\
    (length (fa_avail a) <= length (fa_avail a') + 4 * n)%nat.
Proof using Hnodup Hframes.
  revert m a top pages j; induction n as [|n IH]; intros m a top pages j Hld Hs Hfb Hk Hlen.
  - exists m, a, top. split; [done|]. split; [done|lia].
  - destruct (Hk j) as [Hpj Hnj]; [lia|].
    destruct (map_segment_page_ok m a top pages file_bytes w start (Z.of_nat j)) as (m1 & a1 & top1 & E1 & Hld1 & Hl1);
      try done; [lia|pose proof (space_missing_le top (start + Z.of_nat j * PAGE_SIZE)); lia|].
    destruct (IH m1 a1 top1 _ (S j) Hld1 Hs Hfb) as (m' & a' & top' & E & Hld' & Hl'); [|lia|].
    { intros k Hkr. destruct (Hk k) as [Hp Hn]; [lia|]. split; [done|]. cbn [fmap list_fmap lp_page].
      intros [E|E]%elem_of_cons; [|done]. unfold PAGE_SIZE in E. lia. }
    exists m', a', top'. split_and!; [|  |lia].
    + cbn [seq map_segment_pages]. unfold mbind, L_bind. by rewrite E1.
    + unfold segment_pages in *. cbn [seq fmap list_fmap]. by rewrite reverse_cons, <- app_assoc.
Qed.

(** Number of pages of a segment of [mem_size] bytes. *)
Definition page_count (mem_size : Z) : nat := Z.to_nat ((mem_size + PAGE_SIZE - 1) / PAGE_SIZE).

Lemma map_segment_eq file_bytes vaddr mem_size w (st : mem * A) :
  0 <= vaddr -> vaddr mod PAGE_SIZE = 0 -> 0 < mem_size -> vaddr + mem_size <= 2 ^ 47 ->
  map_segment l4 file_bytes vaddr mem_size w st =
  map_segment_pages l4 file_bytes (segment_flags w) vaddr (seq 0 (page_count mem_size)) st.
Proof.
  intros Hv Hal Hsz Hend. unfold map_segment.
  destruct (Z.eqb_spec mem_size 0); [lia|]. rewrite (proj2 (Z.eqb_eq _ _) Hal).
  destruct (Z.leb_spec 0x800000000000 vaddr); [lia|]. cbn [negb orb].
  unfold mbind, L_bind, ensure, opt, pure.
  rewrite (proj2 (checked_add_Some vaddr mem_size (vaddr + mem_size))) by lia.
  rewrite (proj2 (checked_sub_Some (vaddr + mem_size) 1 (vaddr + mem_size - 1))) by lia.
  rewrite !va_try_new_canonical by (unfold canonical; lia).
  rewrite !page_containing_spec by (unfold canonical; lia). rewrite Hal, Z.sub_0_r.
  unfold sub_w, page_count. pose proof (Z.mod_pos_bound (vaddr + mem_size - 1) PAGE_SIZE ltac:(done)) as Hb.
  assert (Hpc : (vaddr + mem_size - 1 - (vaddr + mem_size - 1) mod PAGE_SIZE - vaddr) / PAGE_SIZE + 1 =
    (mem_size + PAGE_SIZE - 1) / PAGE_SIZE).
  { unfold PAGE_SIZE in *. apply Z.div_exact in Hal; [|lia]. set (q := vaddr / 4096) in *.
    replace (vaddr + mem_size - 1) with (mem_size - 1 + q * 4096) by lia. rewrite Z.mod_add by lia.
    replace (mem_size - 1 + q * 4096 - (mem_size - 1) mod 4096 - vaddr) with ((mem_size - 1) / 4096 * 4096)
      by (pose proof (Z.div_mod (mem_size - 1) 4096 ltac:(lia)); lia).
    rewrite Z.div_mul by lia. replace (mem_size + 4096 - 1) with (mem_size - 1 + 1 * 4096) by lia.
    by rewrite Z.div_add by lia. }
  destruct (Z.leb_spec vaddr (vaddr + mem_size - 1 - (vaddr + mem_size - 1) mod PAGE_SIZE)) as [Hle|Hgt].
  - unfold mbind, outcome_bind. by rewrite Hpc.
  - exfalso. unfold PAGE_SIZE in *. apply Z.div_exact in Hal; [|lia].
    pose proof (Z.div_mod (vaddr + mem_size - 1) 4096 ltac:(lia)).
    assert (vaddr / 4096 <= (vaddr + mem_size - 1) / 4096) by (apply Z.div_le_mono; lia). lia.
Qed.

Lemma user_page_in vaddr mem_size k :
  0 <= vaddr -> vaddr mod PAGE_SIZE = 0 -> vaddr + mem_size <= 2 ^ 47 -> (k < page_count mem_size)%nat ->
  hw_index 4 (vaddr + Z.of_nat k * PAGE_SIZE) ∉ shared -> user_page (vaddr + Z.of_nat k * PAGE_SIZE).
Proof.
  intros Hv Hal Hend Hk H1. unfold user_page. unfold page_count, PAGE_SIZE in *. split_and!; [|lia| |done].
  - rewrite Z.mod_add by lia. done.
  - assert (Z.of_nat k < (mem_size + 4096 - 1) / 4096) by lia.
    pose proof (Z.mul_div_le (mem_size + 4096 - 1) 4096). pose proof (Z.div_mod vaddr 4096). lia.
Qed.

Lemma map_segment_ok m a top pages file_bytes vaddr mem_size w :
  loading m a top pages -> Forall is_u8 file_bytes ->
  0 <= vaddr -> vaddr mod PAGE_SIZE = 0 -> 0 < mem_size -> vaddr + mem_size <= 2 ^ 47 ->
  (forall k, (k < page_count mem_size)%nat -> hw_index 4 (vaddr + Z.of_nat k * PAGE_SIZE) ∉ shared /\
     vaddr + Z.of_nat k * PAGE_SIZE ∉ lp_page <$> pages) ->
  (4 * page_count mem_size <= length (fa_avail a))%nat ->
  exists m' a' top', map_segment l4 file_bytes vaddr mem_size w (m, a) = Ok (Some tt, (m', a')) /\
    loading m' a' top' (reverse (segment_pages file_bytes vaddr w 0 (page_count mem_size)) ++ pages) /\
    (length (fa_avail a) <= length (fa_avail a') + 4 * page_count mem_size)%nat.
Proof using Hnodup Hframes.
  intros Hld Hfb Hv Hal Hsz Hend Hk Hlen.
  destruct (map_segment_pages_ok m a top pages file_bytes w vaddr 0 (page_count mem_size)) as (m' & a' & top' & E & Hl);
    try done.
  { intros k Hkr. destruct (Hk k) as [H1 H2]; [lia|]. split; [|done]. apply (user_page_in vaddr mem_size); done || lia. }
  exists m', a', top'. split; [|done]. by rewrite map_segment_eq.
Qed.

(** *** Runs that may fail

    Whatever the page asked for, a run that returns has kept the state: a
    page that is mapped already, or a lack of frames, panics. *)
Lemma map_segment_page_any m a top pages file_bytes w start i r m' a' :
  loading m a top pages -> 0 <= start -> 0 <= i -> user_page (start + i * PAGE_SIZE) -> Forall is_u8 file_bytes ->
  map_segment_page l4 file_bytes (segment_flags w) start i (m, a) = Ok (r, (m', a')) ->
  r = Some tt /\ exists top' pages', loading m' a' top' pages'.
Proof using Hnodup Hframes.
  intros Hld Hs Hi Hp Hfb E. set (p := start + i * PAGE_SIZE) in *.
  assert (Hadd : va_add start (i * PAGE_SIZE) = Some p).
  { unfold p in *. unfold PAGE_SIZE in *. apply va_add_low; [lia..|]. destruct Hp as (_ & ? & _). lia. }
  destruct (fa_avail a) as [|frame rest] eqn:Hav.
  { destruct (fa_alloc_none a (ld_inv _ _ _ _ Hld) Hav) as (a1 & Ea & _).
    unfold map_segment_page in E. rewrite Hadd in E. cbn [expect mbind outcome_bind] in E. by rewrite Ea in E. }
  destruct (decide ((space_missing top p <= length rest)%nat /\ p ∉ lp_page <$> pages)) as [[Hmiss Hnew]|Hbad].
  { destruct (map_segment_page_ok m a top pages file_bytes w start i) as (m1 & a1 & top1 & E1 & Hld1 & _); try done.
    { rewrite Hav. cbn [length]. fold p. lia. }
    rewrite E1 in E. simplify_eq. eauto. }
  destruct (fa_alloc_some a frame rest (ld_inv _ _ _ _ Hld) Hav) as (a1 & Ea & Hi1 & Hav1).
  unfold map_segment_page in E. rewrite Hadd in E. cbn [expect mbind outcome_bind] in E. rewrite Ea in E.
  cbn [expect mbind outcome_bind] in E.
  assert (Hsub : space_tables l4 top ++ rest ⊆+ space_tables l4 top ++ fa_avail a).
  { apply submseteq_app; [done|]. rewrite Hav. by apply submseteq_cons. }
  destruct (loading_space_ok m a top pages Hld) as (O1 & O2 & _ & O4 & O5).
  assert (Hfok : frame_ok frame).
  { apply Forall_app in O5 as [_ O5]. rewrite Hav in O5. by apply Forall_cons in O5 as [? _]. }
  assert (Hso : space_ok m l4 shared top a1).
  { split_and!; [done|done|done|rewrite Hav1; by eapply NoDup_sub|rewrite Hav1; by eapply Forall_sub]. }
  assert (Hrq : request_ok shared p frame (segment_flags w)).
  { destruct Hp as (Hpm & Hpb & Hps). split; [done|]. split; [unfold canonical; lia|]. split; [done|].
    split; [done|apply segment_flags_page]. }
  exfalso. destruct (space_lookup top p) as [f|] eqn:El.
  - destruct (map_to_already m l4 shared top p frame (segment_flags w) a1 f Hso Hrq El) as [m1 Em]. by rewrite Em in E.
  - destruct (map_to_no_frames m l4 shared top p frame (segment_flags w) a1 Hso Hrq El) as (m1 & a2 & Em); [|by rewrite Em in E].
    rewrite Hav1. apply not_and_l in Hbad as [Hbad|Hbad]; [lia|]. exfalso. apply Hbad.
    intros (lp & Ep & Hin)%list_elem_of_fmap. destruct (ld_pages _ _ _ _ Hld lp Hin) as (f & Hf & _). congruence.
Qed.

Lemma map_segment_pages_any m a top pages file_bytes w start indexes r m' a' :
  loading m a top pages -> 0 <= start -> Forall is_u8 file_bytes ->
  (forall k, k ∈ indexes -> user_page (start + Z.of_nat k * PAGE_SIZE)) ->
  map_segment_pages l4 file_bytes (segment_flags w) start indexes (m, a) = Ok (r, (m', a')) ->
  r = Some tt /\ exists top' pages', loading m' a' top' pages'.
Proof using Hnodup Hframes.
  revert m a top pages; induction indexes as [|k indexes IH]; intros m a top pages Hld Hs Hfb Hk E.
  - injection E as <- <- <-. eauto.
  - cbn [map_segment_pages] in E. unfold mbind, L_bind in E.
    destruct (map_segment_page l4 file_bytes (segment_flags w) start (Z.of_nat k) (m, a)) as [[r1 [m1 a1]]|] eqn:E1; [|done].
    destruct (map_segment_page_any m a top pages file_bytes w start (Z.of_nat k) r1 m1 a1) as (-> & top1 & pages1 & Hld1);
      try done; [lia|apply Hk; set_solver|].
    apply (IH m1 a1 top1 pages1); try done. intros j Hj. apply Hk. set_solver.
Qed.

Lemma map_segment_run m a top pages file_bytes vaddr mem_size w r m' a' :
  loading m a top pages -> Forall is_u8 file_bytes -> 0 <= vaddr -> 0 <= mem_size -> vaddr + mem_size <= 2 ^ 47 ->
  (forall k, (k < page_count mem_size)%nat -> hw_index 4 (vaddr + Z.of_nat k * PAGE_SIZE) ∉ shared) ->
  map_segment l4 file_bytes vaddr mem_size w (m, a) = Ok (r, (m', a')) ->
  exists top' pages', loading m' a' top' pages'.
Proof using Hnodup Hframes.
  intros Hld Hfb Hv Hsz Hend Hk E. destruct (Z.eq_dec mem_size 0) as [->|Hne].
  { injection E as <- <- <-. eauto. }
  destruct (Z.eq_dec (vaddr mod PAGE_SIZE) 0) as [Hal|Hal].
  - rewrite map_segment_eq in E by (done || lia).
    apply (map_segment_pages_any m a top pages file_bytes w vaddr (seq 0 (page_count mem_size)) r); try done.
    intros k Hk'%elem_of_seq. apply (user_page_in vaddr mem_size); try done; [lia|apply Hk; lia].
  - unfold map_segment in E. rewrite (proj2 (Z.eqb_neq _ _) Hne) in E. rewrite (proj2 (Z.eqb_neq _ _) Hal) in E.
    cbn [negb orb] in E. injection E as <- <- <-. eauto.
Qed.
End Loading.
