(* ===== verification/ElfImage.v ===== *)
(** * What a loaded program sees

    The contents of an ELF file as its program headers describe it
    ([parse_elf]), and the theorem that [load] builds the address space of
    that description. *)

From S2P Require Import Prelude X86 FrameAlloc Paging AddressSpace Mapper MapperRef Mappings Elf ElfThms.

(** ** The file format *)

Record segment := mkSegment { seg_bytes : list Z; seg_vaddr : Z; seg_memsz : Z; seg_writable : bool }.

(** A program header: malformed, of another type, or a segment to load. *)
Definition parse_segment (bytes : list Z) (phoff phentsize : Z) (i : nat) : option (option segment) :=
  ofs ← checked_mul (Z.of_nat i) phentsize;
  ph ← checked_add phoff ofs;
  p_type ← read_u32 bytes ph 0;
  if negb (p_type =? PT_LOAD) then Some None
  else
    p_flags ← read_u32 bytes ph 4;
    p_offset ← read_u64 bytes ph 8;
    p_vaddr ← read_u64 bytes ph 16;
    p_filesz ← read_u64 bytes ph 32;
    p_memsz ← read_u64 bytes ph 40;
    file_end ← checked_add p_offset p_filesz;
    file_bytes ← slice bytes p_offset file_end;
    Some (Some (mkSegment file_bytes p_vaddr p_memsz (negb (Z.land p_flags PF_W =? 0)))).

Fixpoint parse_segments (bytes : list Z) (phoff phentsize : Z) (indexes : list nat) : option (list segment) :=
  match indexes with
  | [] => Some []
  | i :: rest =>
      s ← parse_segment bytes phoff phentsize i;
      r ← parse_segments bytes phoff phentsize rest;
      Some (option_list s ++ r)
  end.

(** The entry point and the segments to load. *)
Definition parse_elf (bytes : list Z) : option (Z * list segment) :=
  entry ← read_u64 bytes 0 24;
  phoff ← read_u64 bytes 0 32;
  phentsize ← read_u16 bytes 0 54;
  phnum ← read_u16 bytes 0 56;
  segs ← parse_segments bytes phoff phentsize (seq 0 (Z.to_nat phnum));
  Some (entry, segs).

(** The addresses of the pages of a segment, and the end of the highest
    segment. *)
Definition segment_page_list (sg : segment) : list Z :=
  stride (seg_vaddr sg) PAGE_SIZE (page_count (seg_memsz sg)).

Definition highest_end (highest : Z) (segs : list segment) : Z :=
  foldl (fun h sg => Z.max h (seg_vaddr sg + seg_memsz sg)) highest segs.

Definition round_up (x : Z) : Z := (x + PAGE_SIZE - 1) / PAGE_SIZE * PAGE_SIZE.

(** The page of the stack, and the page above it, of the arguments. *)
Definition stack_page (segs : list segment) : Z := round_up (highest_end 0 segs) + PAGE_SIZE.
Definition args_page (segs : list segment) : Z := stack_page segs + PAGE_SIZE.

Definition total_pages (segs : list segment) : nat :=
  foldr (fun sg n => page_count (seg_memsz sg) + n)%nat 2%nat segs.

(** A program the loader can place: page-aligned segments in the lower
    half that do not share a page, in top-level entries of the process's
    own; so are the stack and the arguments above them. *)
Record layout_ok (shared : list nat) (segs : list segment) : Prop := {
  lo_segment sg : sg ∈ segs -> seg_vaddr sg mod PAGE_SIZE = 0 /\ 0 <= seg_vaddr sg /\ 0 <= seg_memsz sg;
  lo_end : args_page segs + PAGE_SIZE <= 2 ^ 47;
  lo_apart : NoDup (segs ≫= segment_page_list);
  lo_user p : p ∈ stack_page segs :: args_page segs :: (segs ≫= segment_page_list) -> hw_index 4 p ∉ shared;
}.

(** ** Access through the tables of a space *)

Section Access.
Context {crate : X86Crate}.

Lemma segment_flags_required w : segment_flags w = required_flags w.
Proof. done. Qed.

Lemma accessible_walk_weaken m t idx r1 r2 :
  page_flags r1 -> page_flags r2 ->
  (forall b, b ∈ [0; 1; 2] -> Z.testbit r2 b = true -> Z.testbit r1 b = true) ->
  accessible_walk m t idx r1 = true -> accessible_walk m t idx r2 = true.
Proof.
  intros H1 H2 Hb. revert t; induction idx as [|i idx IH]; intros t; [done|]. cbn [accessible_walk].
  destruct (contains (pte_flags (table_entry m t i)) r1) eqn:E1; [|done]. cbn [negb].
  assert (E2 : contains (pte_flags (table_entry m t i)) r2 = true).
  { apply contains_page_flags; [done|]. intros b Hin Hb2. rewrite contains_page_flags in E1 by done. auto. }
  rewrite E2. cbn [negb]. destruct (pte_frame _); auto.
Qed.

Lemma accessible_read m t idx w :
  accessible_walk m t idx (segment_flags w) = true -> accessible_walk m t idx (required_flags false) = true.
Proof.
  apply accessible_walk_weaken; [apply segment_flags_page|apply (segment_flags_page false)|].
  intros b Hb. destruct w; [|done]. set_unfold. by destruct Hb as [ -> | [ -> | [ -> | [] ] ] ].
Qed.

(** One step of a walk through a tree. *)
Lemma tree_walk_step m l (c : ptree (S l)) x f w :
  repr m (S l) c -> tree_lookup (S l) x c = Some f ->
  accessible_walk m (root c) (hw_indexes (S l) x) (required_flags w) = true ->
  let e := table_entry m (root c) (hw_index (S l) x) in
  exists d, tree_lookup l x d = Some f /\ repr m l d /\ pte_allows e w = true /\ Z.testbit e 7 = false /\
    root d = Z.land e ADDR_MASK /\ accessible_walk m (root d) (hw_indexes l x) (required_flags w) = true /\
    children c !! hw_index (S l) x = Some d.
Proof.
  intros Hr Hl Hw. specialize (Hr _ (hw_index_lt (S l) x)). cbn [tree_lookup] in Hl.
  rewrite accessible_walk_step, contains_required, andb_true_iff in Hw. destruct Hw as [Ha Hw].
  destruct (children c !! hw_index (S l) x) as [d|]; [|done]. destruct Hr as [Hf Hr].
  rewrite (root_table c) in *. assert (E := pte_frame_allows _ w Ha). rewrite Hf in E, Hw.
  destruct (Z.testbit _ 7) eqn:E7; [done|]. injection E as E. exists d. done.
Qed.

Lemma mmu_walk_SS m t l x w :
  mmu_walk m t (S (S l)) x w =
  let e := table_entry m t (hw_index (S (S l)) x) in
  if negb (pte_allows e w) then None
  else if Z.testbit e 7 && negb (Nat.eqb (S (S l)) 4)
       then Some (Z.land e ADDR_MASK - Z.land e ADDR_MASK mod 2 ^ level_shift (S (S l))
                  + x mod 2 ^ level_shift (S (S l)))
       else mmu_walk m (Z.land e ADDR_MASK) (S l) x w.
Proof. done. Qed.

(** The processor reaches the frame the tree maps the page to. *)
Lemma tree_access m l (c : ptree (S l)) x f w :
  repr m (S l) c -> tree_lookup (S l) x c = Some f ->
  accessible_walk m (root c) (hw_indexes (S l) x) (required_flags w) = true ->
  mmu_walk m (root c) (S l) x w = Some (f + x mod PAGE_SIZE).
Proof.
  revert c; induction l as [|l IH]; intros c Hr Hl Hw.
  - destruct (tree_walk_step m 0 c x f w Hr Hl Hw) as (d & Hd & Hrd & Ha & E7 & E & Hw' & _).
    cbn [mmu_walk]. rewrite Ha. cbn [negb]. rewrite <- E. cbn in Hd. injection Hd as ->. done.
  - destruct (tree_walk_step m (S l) c x f w Hr Hl Hw) as (d & Hd & Hrd & Ha & E7 & E & Hw' & _).
    rewrite mmu_walk_SS. cbv zeta. rewrite Ha, E7, <- E. cbn [negb andb]. by apply IH.
Qed.

(** A page whose last entry is not writable faults on writes. *)
Lemma leaf_not_writable m l t x e :
  leaf_entry m t (hw_indexes (S l) x) = Some e -> Z.testbit e 1 = false ->
  accessible_walk m t (hw_indexes (S l) x) (required_flags false) = true -> mmu_walk m t (S l) x true = None.
Proof.
  revert t; induction l as [|l IH]; intros t He Hb Hw.
  - change (hw_indexes 1 x) with [hw_index 1 x] in He. cbn [leaf_entry] in He.
    destruct (Z.testbit _ 0); [|done]. injection He as <-. cbn [mmu_walk]. unfold pte_allows.
    rewrite Hb, andb_false_r. done.
  - rewrite leaf_entry_step in He. rewrite accessible_walk_step, contains_required, andb_true_iff in Hw.
    destruct Hw as [Ha Hw]. assert (E := pte_frame_allows _ _ Ha).
    destruct (pte_frame _) as [g| |]; [|done|done].
    destruct (Z.testbit _ 7) eqn:E7; [done|]. injection E as ->.
    rewrite mmu_walk_SS. cbv zeta.
    rewrite E7. cbn [andb]. destruct (pte_allows _ true); [|done]. cbn [negb]. by apply IH.
Qed.

Lemma page_indexes p off :
  p mod PAGE_SIZE = 0 -> 0 <= off < PAGE_SIZE -> hw_indexes 4 (p + off) = hw_indexes 4 p.
Proof.
  intros Hp Ho. unfold hw_indexes. apply list_fmap_ext. intros k i Hk. apply lookup_seq in Hk as [-> Hk].
  apply hw_index_page; [lia|done|lia].
Qed.

Lemma space_access m l4 shared top p f w off :
  repr_space m l4 shared top -> hw_index 4 p ∉ shared -> p mod PAGE_SIZE = 0 -> 0 <= p < 2 ^ 47 ->
  0 <= off < PAGE_SIZE -> space_lookup top p = Some f ->
  accessible_walk m l4 (hw_indexes 4 p) (required_flags w) = true ->
  mmu_access m l4 (p + off) w = Some (f + off).
Proof.
  intros [_ Hr] Hs Hp Hb Ho Hl Hw. assert (Hidx := page_indexes p off Hp Ho).
  rewrite <- Hidx in Hw. rewrite (space_lookup_indexes top p (p + off)) in Hl by done.
  assert (H4 : hw_index 4 (p + off) = hw_index 4 p) by (rewrite !hw_indexes_S in Hidx; congruence).
  unfold mmu_access. rewrite bool_decide_eq_true_2.
  2: { unfold canonical. unfold PAGE_SIZE in *. apply Z.div_exact in Hp; lia. }
  unfold space_lookup in Hl. rewrite H4 in Hl. specialize (Hr _ (hw_index_lt 4 p) Hs).
  destruct (top !! hw_index 4 p) as [c|] eqn:Ec; [|done]. destruct Hr as [Hf Hr].
  rewrite accessible_walk_step, contains_required, andb_true_iff, H4 in Hw. destruct Hw as [Ha Hw].
  assert (E := pte_frame_allows _ w Ha). rewrite Hf in E, Hw. destruct (Z.testbit _ 7) eqn:E7; [done|]. injection E as E.
  rewrite mmu_walk_SS. cbv zeta. cbn [Nat.eqb negb].
  rewrite H4, Ha, andb_false_r, <- E. cbn [negb]. rewrite (tree_access m 2 c (p + off) f w Hr Hl Hw).
  f_equal. f_equal. unfold PAGE_SIZE in *. apply Z.div_exact in Hp; [|lia]. rewrite Hp, Z.add_comm, Z.mul_comm, Z.mod_add, Z.mod_small; lia.
Qed.

Lemma space_read_only m l4 p e off :
  p mod PAGE_SIZE = 0 -> 0 <= off < PAGE_SIZE ->
  leaf_entry m l4 (hw_indexes 4 p) = Some e -> Z.testbit e 1 = false ->
  accessible_walk m l4 (hw_indexes 4 p) (required_flags false) = true -> mmu_access m l4 (p + off) true = None.
Proof.
  intros Hp Ho He Hb Hw. rewrite <- (page_indexes p off Hp Ho) in He, Hw. unfold mmu_access.
  destruct (bool_decide _); [|done]. by apply (leaf_not_writable m 3 l4 (p + off) e).
Qed.
End Access.

(** ** The loader follows the description *)

Section Follow.
Context {crate : X86Crate} {mapper : PageMapper} {A : Type} `{!FrameAllocator A, !FrameDeallocator A, !LawfulFrameAllocator A}.
Context (l4 : Z) (shared : list nat) (total : list Z) (m0 : mem)
  (Hnodup : NoDup total) (Hframes : Forall frame_ok total).

Lemma load_segment_skip bytes phoff phentsize i h (st : mem * A) :
  parse_segment bytes phoff phentsize i = Some None ->
  load_segment l4 bytes phoff phentsize i h st = Ok (Some h, st).
Proof.
  unfold parse_segment, load_segment, mbind, L_bind, opt. intros H.
  destruct (checked_mul _ _) as [ofs|]; [|done]. cbn [option_bind] in H.
  destruct (checked_add _ _) as [ph|]; [|done]. cbn [option_bind] in H.
  destruct (read_u32 bytes ph 0) as [ty|]; [|done]. cbn [option_bind] in H.
  destruct (negb (ty =? PT_LOAD)); [done|]. exfalso.
  repeat match type of H with context [option_bind _ _ _ ?o] => destruct o; cbn [option_bind] in H; [|done] end.
  done.
Qed.

Lemma load_segment_malformed bytes phoff phentsize i h (st : mem * A) :
  parse_segment bytes phoff phentsize i = None ->
  load_segment l4 bytes phoff phentsize i h st = Ok (None, st).
Proof.
  unfold parse_segment, load_segment, mbind, L_bind, opt. intros H.
  destruct (checked_mul _ _) as [ofs|]; [|done]. cbn [option_bind] in H.
  destruct (checked_add _ _) as [ph|]; [|done]. cbn [option_bind] in H.
  destruct (read_u32 bytes ph 0) as [ty|]; [|done]. cbn [option_bind] in H.
  destruct (negb (ty =? PT_LOAD)); [done|].
  repeat match type of H with context [option_bind _ _ _ ?o] => destruct o; cbn [option_bind] in H; [|done] end.
  done.
Qed.

Lemma load_segment_map bytes phoff phentsize i h (st : mem * A) sg :
  parse_segment bytes phoff phentsize i = Some (Some sg) ->
  load_segment l4 bytes phoff phentsize i h st =
  (_ ← map_segment l4 (seg_bytes sg) (seg_vaddr sg) (seg_memsz sg) (seg_writable sg);
   e ← opt (checked_add (seg_vaddr sg) (seg_memsz sg)); mret (Z.max h e)) st.
Proof.
  unfold parse_segment, load_segment, mbind, L_bind, opt. intros H.
  destruct (checked_mul _ _) as [ofs|]; [|done]. cbn [option_bind] in H.
  destruct (checked_add _ _) as [ph|]; [|done]. cbn [option_bind] in H.
  destruct (read_u32 bytes ph 0) as [ty|]; [|done]. cbn [option_bind] in H.
  destruct (negb (ty =? PT_LOAD)); [done|].
  repeat match type of H with context [option_bind _ _ _ ?o] => destruct o; cbn [option_bind] in H; [|done] end.
  by injection H as <-.
Qed.

Lemma page_count_0 : page_count 0 = 0%nat.
Proof. done. Qed.

Lemma map_segment_any m a top pages file_bytes vaddr mem_size w :
  loading l4 shared total m0 m a top pages -> Forall is_u8 file_bytes ->
  0 <= vaddr -> vaddr mod PAGE_SIZE = 0 -> 0 <= mem_size -> vaddr + mem_size <= 2 ^ 47 ->
  (forall k, (k < page_count mem_size)%nat -> hw_index 4 (vaddr + Z.of_nat k * PAGE_SIZE) ∉ shared /\
     vaddr + Z.of_nat k * PAGE_SIZE ∉ lp_page <$> pages) ->
  (4 * page_count mem_size <= length (fa_avail a))%nat ->
  exists m' a' top', map_segment l4 file_bytes vaddr mem_size w (m, a) = Ok (Some tt, (m', a')) /\
    loading l4 shared total m0 m' a' top' (reverse (segment_pages file_bytes vaddr w 0 (page_count mem_size)) ++ pages) /\
    (length (fa_avail a) <= length (fa_avail a') + 4 * page_count mem_size)%nat.
Proof using Hnodup Hframes.
  intros Hld Hfb Hv Hal Hsz Hend Hk Hlen. destruct (Z.eq_dec mem_size 0) as [->|Hne].
  - exists m, a, top. split; [done|]. rewrite page_count_0. split; [done|lia].
  - apply (map_segment_ok l4 shared total m0 Hnodup Hframes m a top pages); try done. lia.
Qed.

(** The pages [segs] asks for. *)
Definition described (segs : list segment) : list loaded_page :=
  segs ≫= fun sg => segment_pages (seg_bytes sg) (seg_vaddr sg) (seg_writable sg) 0 (page_count (seg_memsz sg)).

Definition segment_ok (sg : segment) : Prop :=
  Forall is_u8 (seg_bytes sg) /\ 0 <= seg_vaddr sg /\ seg_vaddr sg mod PAGE_SIZE = 0 /\ 0 <= seg_memsz sg /\
  seg_vaddr sg + seg_memsz sg <= 2 ^ 47 /\ forall p, p ∈ segment_page_list sg -> hw_index 4 p ∉ shared.

Definition pages_needed (segs : list segment) : nat := foldr (fun sg n => page_count (seg_memsz sg) + n)%nat 0%nat segs.

Lemma segment_pages_list sg :
  lp_page <$> segment_pages (seg_bytes sg) (seg_vaddr sg) (seg_writable sg) 0 (page_count (seg_memsz sg)) =
  segment_page_list sg.
Proof.
  unfold segment_pages, segment_page_list, stride. rewrite <- list_fmap_compose. apply list_fmap_ext.
  intros i k _. cbn. lia.
Qed.

Lemma load_segments_ok bytes phoff phentsize indexes segs h m a top pages :
  parse_segments bytes phoff phentsize indexes = Some segs -> loading l4 shared total m0 m a top pages ->
  Forall segment_ok segs -> NoDup (segs ≫= segment_page_list) ->
  (forall p, p ∈ segs ≫= segment_page_list -> p ∉ lp_page <$> pages) ->
  (4 * pages_needed segs <= length (fa_avail a))%nat ->
  exists m' a' top' pages',
    load_segments l4 bytes phoff phentsize indexes h (m, a) = Ok (Some (highest_end h segs), (m', a')) /\
    loading l4 shared total m0 m' a' top' pages' /\ (forall lp, lp ∈ pages' <-> lp ∈ described segs \/ lp ∈ pages) /\
    (length (fa_avail a) <= length (fa_avail a') + 4 * pages_needed segs)%nat.
Proof using Hnodup Hframes.
  revert segs h m a top pages; induction indexes as [|i indexes IH]; intros segs h m a top pages Hparse Hld Hok Hnd Hdis Hlen.
  { cbn in Hparse. simplify_eq. exists m, a, top, pages. split; [done|]. split; [done|]. split; [|cbn; lia].
    intros lp. cbn. set_solver. }
  cbn [parse_segments] in Hparse. destruct (parse_segment bytes phoff phentsize i) as [o|] eqn:Ep; [|done].
  cbn [mbind option_bind] in Hparse. destruct (parse_segments bytes phoff phentsize indexes) as [r|] eqn:Er; [|done].
  cbn [mbind option_bind] in Hparse. injection Hparse as <-. cbn [load_segments]. unfold mbind at 1, L_bind at 1.
  destruct o as [sg|]; [change (option_list (Some sg) ++ r) with (sg :: r) in *|change (option_list None ++ r) with r in *].
  2: { rewrite (load_segment_skip _ _ _ _ _ _ Ep). by apply (IH r h m a top pages). }
  apply Forall_cons in Hok as [(S1 & S2 & S3 & S4 & S5 & S6) Hok]. rewrite bind_cons in Hnd, Hdis.
  apply NoDup_app in Hnd as (_ & Hnd1 & Hnd). cbn [pages_needed foldr] in Hlen.
  destruct (map_segment_any m a top pages (seg_bytes sg) (seg_vaddr sg) (seg_memsz sg) (seg_writable sg))
    as (m1 & a1 & top1 & E1 & Hld1 & Hl1); try done; [|lia|].
  { intros k Hk. assert (Hin : seg_vaddr sg + Z.of_nat k * PAGE_SIZE ∈ segment_page_list sg).
    { apply elem_of_stride. exists k. split; [done|lia]. }
    split; [by apply S6|]. apply Hdis. set_solver. }
  destruct (IH r (Z.max h (seg_vaddr sg + seg_memsz sg)) m1 a1 top1 _ eq_refl Hld1 Hok Hnd)
    as (m' & a' & top' & pages' & E & Hld' & Hin' & Hl').
  { intros p Hp. rewrite fmap_app, fmap_reverse, segment_pages_list. intros [Hq|Hq]%elem_of_app.
    - rewrite elem_of_reverse in Hq. by apply (Hnd1 p).
    - by apply (Hdis p); [set_solver|]. }
  { unfold pages_needed. lia. }
  exists m', a', top', pages'. split_and!; [|done| |cbn [pages_needed foldr]; unfold pages_needed in *; lia].
  - rewrite (load_segment_map _ _ _ _ _ _ _ Ep). unfold mbind at 1, L_bind at 1. rewrite E1.
    unfold mbind, L_bind, opt. rewrite (proj2 (checked_add_Some _ _ (seg_vaddr sg + seg_memsz sg))) by lia.
    exact E.
  - intros lp. rewrite Hin', elem_of_app, elem_of_reverse. unfold described. rewrite bind_cons, elem_of_app. tauto.
Qed.
End Follow.
