(* ===== verification/ElfLoad.v ===== *)
(** * The loader as a whole

    [load_correct]: a program that fits is loaded as its file describes.
    [load_conserves_frames]: for a file whose segments are placed in the
    process's own part of the address space, a [load] that returns has lost
    no frame, also when it returns [None] half-way. *)

From S2P Require Import Prelude X86 FrameAlloc Paging AddressSpace Mapper MapperRef Mappings Elf ElfThms ElfImage.

Lemma align_up_round h : 0 <= h -> h + PAGE_SIZE - 1 < 2 ^ 64 -> align_up h PAGE_SIZE = Some (round_up h).
Proof.
  intros Hh Hlt. unfold align_up. rewrite (proj2 (checked_add_Some _ _ (h + (PAGE_SIZE - 1)))) by lia.
  cbn [mbind option_bind]. f_equal. unfold round_up. replace (h + PAGE_SIZE - 1) with (h + (PAGE_SIZE - 1)) by lia.
  assert (Hs : 0 <= h + (PAGE_SIZE - 1) < 2 ^ 64) by (unfold PAGE_SIZE in *; lia).
  set (s := h + (PAGE_SIZE - 1)) in *. change (PAGE_SIZE - 1) with (Z.ones 12). change (2 ^ 64 - 1) with (Z.ones 64).
  rewrite Z.ldiff_land, Z.land_assoc, Z.land_ones, Z.mod_small by lia.
  rewrite <- Z.ldiff_land, Z.ldiff_ones_r, Z.shiftl_mul_pow2, Z.shiftr_div_pow2 by lia. done.
Qed.

Lemma highest_end_ge h segs : h <= highest_end h segs /\ forall sg, sg ∈ segs -> seg_vaddr sg + seg_memsz sg <= highest_end h segs.
Proof.
  revert h; induction segs as [|s segs IH]; intros h; cbn [highest_end foldl]; [split; [lia|set_solver]|].
  destruct (IH (Z.max h (seg_vaddr s + seg_memsz s))) as [H1 H2]. unfold highest_end in *. split; [lia|].
  intros sg [->|Hin]%elem_of_cons; [lia|by apply H2].
Qed.

Lemma round_up_bounds x : 0 <= x -> x <= round_up x < x + PAGE_SIZE /\ round_up x mod PAGE_SIZE = 0.
Proof.
  intros Hx. unfold round_up, PAGE_SIZE. split; [|apply Z.mod_mul; lia].
  pose proof (Z.div_mod (x + 4096 - 1) 4096 ltac:(lia)). pose proof (Z.mod_pos_bound (x + 4096 - 1) 4096). lia.
Qed.

(** Pages of a segment lie below its end. *)
Lemma segment_page_bound sg p :
  0 <= seg_memsz sg -> p ∈ segment_page_list sg ->
  seg_vaddr sg <= p < seg_vaddr sg + seg_memsz sg.
Proof.
  intros Hm (k & Hk & ->)%elem_of_stride. unfold page_count, PAGE_SIZE in *.
  assert (Z.of_nat k < (seg_memsz sg + 4096 - 1) / 4096) by lia.
  pose proof (Z.mul_div_le (seg_memsz sg + 4096 - 1) 4096 ltac:(lia)). lia.
Qed.

Lemma page_count_one : page_count PAGE_SIZE = 1%nat.
Proof. done. Qed.

Lemma parse_segment_bytes bytes phoff phentsize i sg :
  Forall is_u8 bytes -> parse_segment bytes phoff phentsize i = Some (Some sg) -> Forall is_u8 (seg_bytes sg).
Proof.
  unfold parse_segment, mbind. intros Hb H.
  repeat match type of H with context [option_bind _ _ _ ?o] =>
    let E := fresh "E" in destruct o eqn:E; cbn [option_bind] in H; [|done] end.
  destruct (negb _); [done|].
  repeat match type of H with context [option_bind _ _ _ ?o] =>
    let E := fresh "E" in destruct o eqn:E; cbn [option_bind] in H; [|done] end.
  injection H as <-. cbn [seg_bytes].
  match goal with H : slice bytes _ _ = Some _ |- _ => apply slice_Some in H as (_ & _ & ->) end.
  by apply Forall_take, Forall_drop.
Qed.

Lemma parse_segments_bytes bytes phoff phentsize indexes segs :
  Forall is_u8 bytes -> parse_segments bytes phoff phentsize indexes = Some segs ->
  Forall (fun sg => Forall is_u8 (seg_bytes sg)) segs.
Proof.
  intros Hb. revert segs; induction indexes as [|i indexes IH]; intros segs H; cbn [parse_segments] in H; [by simplify_eq|].
  destruct (parse_segment bytes phoff phentsize i) as [o|] eqn:Ep; [|done]. cbn [mbind option_bind] in H.
  destruct (parse_segments bytes phoff phentsize indexes) as [r|]; [|done]. cbn [mbind option_bind] in H.
  injection H as <-. apply Forall_app. split; [|by apply IH].
  destruct o as [sg|]; cbn; repeat constructor. by eapply parse_segment_bytes.
Qed.

Section Load.
Context {crate : X86Crate} {mapper : PageMapper} {A : Type} `{!FrameAllocator A, !FrameDeallocator A, !LawfulFrameAllocator A}.

(** [va] holds the byte [b], and is writable exactly if [w]. *)
Definition sees (m : mem) (l4 va b : Z) (w : bool) : Prop :=
  exists phys, mmu_access m l4 va false = Some phys /\ m phys = b /\
    mmu_access m l4 va true = if w then Some phys else None.

(** The pages of a program as recorded, in the tables of [l4]. *)
Record image (m : mem) (l4 : Z) (shared : list nat) (top : gmap nat (ptree 3)) (pages : list loaded_page) : Prop := {
  im_repr : repr_space m l4 shared top;
  im_pages lp : lp ∈ pages -> exists f, space_lookup top (lp_page lp) = Some f /\
    read_bytes m f (Z.to_nat PAGE_SIZE) = lp_content lp /\
    accessible_walk m l4 (hw_indexes 4 (lp_page lp)) (segment_flags (lp_writable lp)) = true /\
    (exists e, leaf_entry m l4 (hw_indexes 4 (lp_page lp)) = Some e /\
       forall b, b ∈ [0; 1; 2] -> Z.testbit e b = Z.testbit (segment_flags (lp_writable lp)) b);
  im_user lp : lp ∈ pages -> user_page shared (lp_page lp);
}.

Lemma loading_image l4 shared total m0 m a top pages :
  loading (A := A) l4 shared total m0 m a top pages -> image m l4 shared top pages.
Proof. intros [_ H2 _ _ _ _ H7 H8]. by split. Qed.

Lemma image_sees l4 shared m top pages lp off :
  image m l4 shared top pages -> lp ∈ pages -> 0 <= off < PAGE_SIZE ->
  sees m l4 (lp_page lp + off) (nth (Z.to_nat off) (lp_content lp) 0) (lp_writable lp).
Proof.
  intros [Hr Hpg Hu] Hin Ho. destruct (Hpg lp Hin) as (f & Hl & Hc & Hw & e & He & Hb).
  destruct (Hu lp Hin) as (Hp & Hpb & Hs).
  exists (f + off). split_and!.
  - eapply space_access; try done. by eapply accessible_read.
  - rewrite <- Hc. symmetry. apply nth_lookup_Some. rewrite read_bytes_at by (unfold PAGE_SIZE in *; lia).
    do 2 f_equal. lia.
  - destruct (lp_writable lp).
    + by eapply space_access.
    + apply (space_read_only m l4 (lp_page lp) e); try done. by rewrite Hb by set_solver.
Qed.

(** What a program finds in its address space: its segments, a zeroed stack
    and its arguments. *)
Definition program_image (m : mem) (l4 : Z) (segs : list segment) (args : list Z) : Prop :=
  (forall sg k, sg ∈ segs -> 0 <= k < seg_memsz sg ->
     sees m l4 (seg_vaddr sg + k) (nth (Z.to_nat k) (seg_bytes sg) 0) (seg_writable sg)) /\
  (forall k, 0 <= k < PAGE_SIZE -> sees m l4 (stack_page segs + k) 0 true) /\
  (forall k, 0 <= k < PAGE_SIZE -> sees m l4 (args_page segs + k) (nth (Z.to_nat k) args 0) false).

(** The pages the loader maps for a program. *)
Definition program_pages (segs : list segment) (args : list Z) (pages : list loaded_page) : Prop :=
  mkLoadedPage (stack_page segs) (page_content [] 0) true ∈ pages /\
  mkLoadedPage (args_page segs) (page_content args 0) false ∈ pages /\
  (forall lp, lp ∈ described segs -> lp ∈ pages) /\
  (forall lp, lp ∈ pages -> lp_page lp ∈ stack_page segs :: args_page segs :: (segs ≫= segment_page_list)).

(** The empty address space starts the loading. *)
Lemma new_space_loading m cr3 pmo l4 rest (a : A) :
  mem_ok m -> canonical pmo -> fa_inv a -> fa_avail a = l4 :: rest -> frames_apart cr3 l4 ->
  exists m1 a1, new_address_space m cr3 pmo a = Ok (l4, m1, a1) /\ fa_avail a1 = rest /\
    loading l4 [0%nat; va_index 4 pmo] (l4 :: rest) m m1 a1 ∅ [] /\
    forall i, (i < 512)%nat -> i ∈ [0%nat; va_index 4 pmo] -> table_entry m1 l4 i = table_entry m cr3 i.
Proof.
  intros Hm Hc Hi Hav Hap.
  destruct (new_address_space_ok m cr3 pmo l4 rest a Hm Hc Hi Hav Hap) as (m1 & a1 & E & Hm1 & Hi1 & Hav1 & Hout & Hr & Hent & _).
  exists m1, a1. split; [done|]. split; [done|]. split; [|exact Hent]. split; try done.
  - unfold space_tables. rewrite (bind_no_children 3), Hav1.
    replace (space_mappings ∅) with ([] : list (Z * Z)); [done|]. rewrite space_mappings_lookup.
    symmetry. apply bind_nil_r.
  - intros x Hx. apply Hout. destruct (decide (in_frame l4 x)) as [Hin|Hin].
    + destruct Hx. exists l4. split; [set_solver|done].
    + unfold in_frame in Hin. lia.
  - intros p _ _ [f Hf]. unfold space_lookup in Hf. by rewrite lookup_empty in Hf.
  - by intros lp ?%not_elem_of_nil.
  - by intros lp ?%not_elem_of_nil.
Qed.

(** *** The stack and the arguments *)

Lemma args_page_bounds segs :
  0 <= round_up (highest_end 0 segs) /\ stack_page segs mod PAGE_SIZE = 0 /\ args_page segs mod PAGE_SIZE = 0 /\
  highest_end 0 segs < stack_page segs /\ 0 <= highest_end 0 segs.
Proof.
  destruct (highest_end_ge 0 segs) as [H _]. destruct (round_up_bounds _ H) as [Hb Hm].
  unfold args_page, stack_page, PAGE_SIZE in *. split_and!; try lia.
  - rewrite <- Z.add_mod_idemp_l, Hm by lia. done.
  - replace (round_up (highest_end 0 segs) + 4096 + 4096) with (round_up (highest_end 0 segs) + 2 * 4096) by lia.
    by rewrite Z.mod_add by lia.
Qed.

(** A one-page segment. *)
Lemma map_one_page l4 shared total m0 m a top pages bytes p w :
  NoDup total -> Forall frame_ok total -> loading (A := A) l4 shared total m0 m a top pages -> Forall is_u8 bytes ->
  0 <= p -> p mod PAGE_SIZE = 0 -> p + PAGE_SIZE <= 2 ^ 47 -> hw_index 4 p ∉ shared -> p ∉ lp_page <$> pages ->
  (4 <= length (fa_avail a))%nat ->
  exists m' a' top', map_segment l4 bytes p PAGE_SIZE w (m, a) = Ok (Some tt, (m', a')) /\
    loading l4 shared total m0 m' a' top' (mkLoadedPage p (page_content bytes 0) w :: pages) /\
    (length (fa_avail a) <= length (fa_avail a') + 4)%nat.
Proof.
  intros Hnd Hok Hld Hb Hp Hm Hend Hs Hn Hlen.
  destruct (map_segment_ok l4 shared total m0 Hnd Hok m a top pages bytes p PAGE_SIZE w) as (m' & a' & top' & E & Hl & Hl');
    try done.
  - rewrite page_count_one. intros k Hk. assert (k = 0%nat) as -> by lia. rewrite Z.mul_0_l, Z.add_0_r. done.
  - rewrite page_count_one in *. exists m', a', top'. split; [done|]. split; [|lia].
    unfold segment_pages in Hl. cbn in Hl. by rewrite Z.add_0_r in Hl.
Qed.

Lemma total_pages_needed segs : total_pages segs = (pages_needed segs + 2)%nat.
Proof.
  induction segs as [|s segs IH]; cbn [total_pages pages_needed foldr]; [done|].
  unfold total_pages, pages_needed in *. lia.
Qed.

Lemma layout_segments shared segs bytes phoff phentsize indexes :
  layout_ok shared segs -> Forall is_u8 bytes -> parse_segments bytes phoff phentsize indexes = Some segs ->
  Forall (segment_ok shared) segs.
Proof.
  intros Hlay Hbb E. apply Forall_forall. intros sg Hin. destruct (lo_segment _ _ Hlay sg Hin) as (S1 & S2 & S3).
  destruct (highest_end_ge 0 segs) as [_ Hh]. specialize (Hh sg Hin).
  destruct (args_page_bounds segs) as (B1 & B2 & B3 & B4 & B5). assert (Bend := lo_end _ _ Hlay).
  assert (Hby := parse_segments_bytes _ _ _ _ _ Hbb E). rewrite Forall_forall in Hby.
  unfold segment_ok. split_and!; [by apply Hby|done..|unfold args_page, PAGE_SIZE in *; lia|].
  intros p Hp. apply (lo_user _ _ Hlay). do 2 right. apply list_elem_of_bind. by exists sg.
Qed.

Lemma described_page segs lp : lp ∈ described segs -> lp_page lp ∈ segs ≫= segment_page_list.
Proof.
  intros (sg & Hd & Hsg)%list_elem_of_bind. apply list_elem_of_bind. exists sg. split; [|done].
  rewrite <- segment_pages_list. apply list_elem_of_fmap. by exists lp.
Qed.

Lemma described_below shared segs lp :
  layout_ok shared segs -> lp ∈ described segs -> lp_page lp < stack_page segs.
Proof.
  intros Hlay (sg & Hd & Hsg)%list_elem_of_bind. destruct (args_page_bounds segs) as (_ & _ & _ & B4 & _).
  assert (Hp : lp_page lp ∈ segment_page_list sg).
  { rewrite <- segment_pages_list. apply list_elem_of_fmap. by exists lp. }
  apply segment_page_bound in Hp; [|by apply (lo_segment _ _ Hlay)].
  destruct (highest_end_ge 0 segs) as [_ Hh]. specialize (Hh sg Hsg). lia.
Qed.

Lemma load_segments_and_stack_ok l4 shared total m0 bytes args e segs m a :
  NoDup total -> Forall frame_ok total -> Forall is_u8 bytes -> Forall is_u8 args ->
  parse_elf bytes = Some (e, segs) -> 0 <= e < 2 ^ 47 -> layout_ok shared segs ->
  loading (A := A) l4 shared total m0 m a ∅ [] -> (4 * total_pages segs <= length (fa_avail a))%nat ->
  exists m' a' top' pages,
    load_segments_and_stack l4 bytes args (m, a) =
      Ok (Some (e, args_page segs - 16, args_page segs, Z.of_nat (length args)), (m', a')) /\
    loading l4 shared total m0 m' a' top' pages /\
    program_pages segs args pages /\
    (length (fa_avail a) <= length (fa_avail a') + 4 * total_pages segs)%nat.
Proof.
  intros Hnd Hok Hbb Hab Hparse He Hlay Hld Hlen. unfold parse_elf, mbind in Hparse.
  destruct (read_u64 bytes 0 24) as [en|] eqn:E1; [|done]. cbn [option_bind] in Hparse.
  destruct (read_u64 bytes 0 32) as [phoff|] eqn:E2; [|done]. cbn [option_bind] in Hparse.
  destruct (read_u16 bytes 0 54) as [phe|] eqn:E3; [|done]. cbn [option_bind] in Hparse.
  destruct (read_u16 bytes 0 56) as [phn|] eqn:E4; [|done]. cbn [option_bind] in Hparse.
  destruct (parse_segments bytes phoff phe _) as [segs'|] eqn:E5; [|done]. cbn [option_bind] in Hparse.
  injection Hparse as -> ->.
  destruct (args_page_bounds segs) as (B1 & B2 & B3 & B4 & B5). assert (Bend := lo_end _ _ Hlay).
  assert (Hap : args_page segs = stack_page segs + PAGE_SIZE) by done.
  assert (Hsp : stack_page segs = round_up (highest_end 0 segs) + PAGE_SIZE) by done.
  assert (HP : PAGE_SIZE = 4096) by done.
  assert (Htp := total_pages_needed segs).
  assert (Hseg := layout_segments shared segs bytes phoff phe _ Hlay Hbb E5).
  destruct (load_segments_ok l4 shared total m0 Hnd Hok bytes phoff phe _ segs 0 m a ∅ [] E5 Hld Hseg (lo_apart _ _ Hlay))
    as (m1 & a1 & top1 & pages1 & L1 & Hld1 & Hin1 & Hl1); [intros p _; apply not_elem_of_nil|lia|].
  assert (Hlow : forall lp, lp ∈ pages1 -> lp_page lp < stack_page segs).
  { intros lp [Hd|?%not_elem_of_nil]%Hin1; [by eapply described_below|done]. }
  assert (Hni : forall p, stack_page segs <= p -> p ∉ lp_page <$> pages1).
  { intros p Hp (lp & -> & Hin)%list_elem_of_fmap. specialize (Hlow lp Hin). lia. }
  destruct (map_one_page l4 shared total m0 m1 a1 top1 pages1 [] (stack_page segs) true Hnd Hok Hld1)
    as (m2 & a2 & top2 & M2 & Hld2 & Hl2); [done|lia|done|lia|apply (lo_user _ _ Hlay); set_solver|by apply Hni|lia|].
  destruct (map_one_page l4 shared total m0 m2 a2 top2 _ args (args_page segs) false Hnd Hok Hld2)
    as (m3 & a3 & top3 & M3 & Hld3 & Hl3); [done|lia|done|done|apply (lo_user _ _ Hlay); set_solver| |lia|].
  { cbn [fmap list_fmap lp_page]. intros [E|E]%elem_of_cons; [lia|].
    revert E. apply Hni. lia. }
  eexists m3, a3, top3, _. split; [|split; [exact Hld3|]].
  - unfold load_segments_and_stack, mbind, L_bind, opt. rewrite E1, E2, E3, E4, L1.
    rewrite align_up_round by lia.
    rewrite (proj2 (checked_add_Some _ _ (stack_page segs))) by lia.
    change STACK_SIZE with PAGE_SIZE. rewrite M2.
    rewrite (proj2 (checked_add_Some _ _ (args_page segs))) by lia.
    rewrite (proj2 (checked_sub_Some _ _ (args_page segs - 16))) by lia.
    rewrite !va_try_new_canonical by (unfold canonical; lia).
    change ARGS_SIZE with PAGE_SIZE. by rewrite M3.
  - split; [|lia]. split_and!; [set_solver..| |].
    + intros lp Hd. do 2 right. apply Hin1. by left.
    + intros lp [ -> |[ -> |[Hd|?%not_elem_of_nil]%Hin1]%elem_of_cons]%elem_of_cons; [set_solver..| |done].
      do 2 right. by apply described_page.
Qed.

(** The byte at offset [k] of a described segment. *)
Lemma described_byte sg segs k :
  sg ∈ segs -> 0 <= k < seg_memsz sg -> exists lp off, lp ∈ described segs /\ 0 <= off < PAGE_SIZE /\
    lp_page lp + off = seg_vaddr sg + k /\ lp_writable lp = seg_writable sg /\
    nth (Z.to_nat off) (lp_content lp) 0 = nth (Z.to_nat k) (seg_bytes sg) 0.
Proof.
  intros Hin Hk. set (q := Z.to_nat (k / PAGE_SIZE)).
  pose proof (Z.div_mod k PAGE_SIZE ltac:(done)) as Hdm. pose proof (Z.mod_pos_bound k PAGE_SIZE ltac:(done)) as Hb.
  assert (Hq : 0 <= k / PAGE_SIZE) by (apply Z.div_pos; unfold PAGE_SIZE; lia).
  eexists (mkLoadedPage (seg_vaddr sg + Z.of_nat q * PAGE_SIZE) (page_content (seg_bytes sg) (Z.of_nat q)) (seg_writable sg)),
    (k mod PAGE_SIZE). cbn [lp_page lp_writable lp_content]. split_and!; [|lia|lia|unfold q, PAGE_SIZE in *; lia|done|].
  - apply list_elem_of_bind. exists sg. split; [|done]. unfold segment_pages. apply list_elem_of_fmap. exists q.
    split; [done|]. apply elem_of_seq. unfold q, page_count. split; [lia|].
    assert (k / PAGE_SIZE < (seg_memsz sg + PAGE_SIZE - 1) / PAGE_SIZE); [|lia].
    unfold PAGE_SIZE in *. apply Z.div_lt_upper_bound; [lia|].
    pose proof (Z.div_mod (seg_memsz sg + 4096 - 1) 4096 ltac:(lia)).
    pose proof (Z.mod_pos_bound (seg_memsz sg + 4096 - 1) 4096 ltac:(lia)). lia.
  - unfold page_content. apply nth_lookup_Some. rewrite list_lookup_fmap, lookup_seq_lt by (unfold PAGE_SIZE in *; lia).
    cbn. do 2 f_equal. unfold q, PAGE_SIZE in *. lia.
Qed.

Lemma page_content_nth bytes k : 0 <= k < PAGE_SIZE -> nth (Z.to_nat k) (page_content bytes 0) 0 = nth (Z.to_nat k) bytes 0.
Proof.
  intros Hk. unfold page_content. apply nth_lookup_Some.
  rewrite list_lookup_fmap, lookup_seq_lt by (unfold PAGE_SIZE in *; lia). done.
Qed.

Lemma image_program l4 shared m top pages segs args :
  image m l4 shared top pages -> program_pages segs args pages -> program_image m l4 segs args.
Proof.
  intros Him (Hstack & Hargs & Hdesc & _). assert (Hsee := fun lp off => image_sees l4 shared m top pages lp off Him).
  split_and!.
  - intros sg k Hin Hk. destruct (described_byte sg segs k Hin Hk) as (lp & off & Hd & Ho & <- & <- & <-). auto.
  - intros k Hk. specialize (Hsee _ k Hstack Hk). cbn [lp_page lp_writable lp_content] in Hsee.
    rewrite page_content_nth in Hsee by done. by destruct (Z.to_nat k).
  - intros k Hk. specialize (Hsee _ k Hargs Hk). cbn [lp_page lp_writable lp_content] in Hsee.
    by rewrite page_content_nth in Hsee.
Qed.

Lemma load_loads bytes args e segs m cr3 pmo (a : A) l4 rest :
  header_ok bytes = true -> parse_elf bytes = Some (e, segs) ->
  Forall is_u8 bytes -> Forall is_u8 args -> 0 <= e < 2 ^ 47 -> layout_ok [0%nat; va_index 4 pmo] segs ->
  mem_ok m -> canonical pmo -> fa_inv a -> fa_avail a = l4 :: rest -> NoDup (l4 :: rest) ->
  Forall frame_ok (l4 :: rest) -> frames_apart cr3 l4 -> (4 * total_pages segs <= length rest)%nat ->
  exists m' a' top pages,
    load bytes cr3 pmo args (m, a) = Ok (Some (mkLoadedElf l4 e (args_page segs - 16) (args_page segs)
      (Z.of_nat (length args))), (m', a')) /\
    loading l4 [0%nat; va_index 4 pmo] (fa_avail a) m m' a' top pages /\ program_pages segs args pages /\
    (length rest <= length (fa_avail a') + 4 * total_pages segs)%nat.
Proof.
  intros Hh Hp Hb Hab He Hlay Hm Hc Hi Hav Hnd Hok Hap Hlen.
  destruct (new_space_loading m cr3 pmo l4 rest a Hm Hc Hi Hav Hap) as (m1 & a1 & E1 & Hav1 & Hld1 & _).
  rewrite <- Hav1 in Hlen.
  destruct (load_segments_and_stack_ok _ _ _ m bytes args e segs m1 a1 Hnd Hok Hb Hab Hp He Hlay Hld1 Hlen)
    as (m' & a' & top & pages & E2 & Hld & Hpp & Hcnt).
  exists m', a', top, pages. rewrite Hav, Hav1 in *. split; [|done].
  unfold load. rewrite Hh. cbn [negb]. rewrite E1. cbn [mbind outcome_bind]. by rewrite E2.
Qed.

(** C15: a program that fits is loaded as its file says.  For an ELF file
    whose segments can be placed ([layout_ok]), with enough free frames,
    [load] returns its entry point, a stack and the arguments, in an address
    space in which every byte of every segment is the byte of the file (or
    zero, past the end of the file's part), the stack is zeroed and
    writable, the arguments are there and read-only, and a page is writable
    from ring 3 exactly if its segment is.  Nothing outside frames taken
    from the allocator is written, and every frame taken is in the tree that
    [free_address_space] will free. *)
Theorem load_correct bytes args e segs m cr3 pmo (a : A) l4 rest :
  header_ok bytes = true -> parse_elf bytes = Some (e, segs) ->
  Forall is_u8 bytes -> Forall is_u8 args -> 0 <= e < 2 ^ 47 -> layout_ok [0%nat; va_index 4 pmo] segs ->
  mem_ok m -> canonical pmo -> fa_inv a -> fa_avail a = l4 :: rest -> NoDup (l4 :: rest) ->
  Forall frame_ok (l4 :: rest) -> frames_apart cr3 l4 -> (4 * total_pages segs <= length rest)%nat ->
  exists m' a' top,
    load bytes cr3 pmo args (m, a) = Ok (Some (mkLoadedElf l4 e (args_page segs - 16) (args_page segs)
      (Z.of_nat (length args))), (m', a')) /\
    repr_space m' l4 [0%nat; va_index 4 pmo] top /\ fa_inv a' /\
    space_tables l4 top ++ (space_mappings top).*2 ++ fa_avail a' ≡ₚ fa_avail a /\
    (forall x, ~ in_frames (fa_avail a) x -> m' x = m x) /\ program_image m' l4 segs args.
Proof.
  intros Hh Hp Hb Hab He Hlay Hm Hc Hi Hav Hnd Hok Hap Hlen.
  destruct (load_loads bytes args e segs m cr3 pmo a l4 rest) as (m' & a' & top & pages & E & Hld & Hpp & _); try done.
  exists m', a', top. split_and!; [done|apply Hld..|].
  apply (image_program l4 [0%nat; va_index 4 pmo] m' top pages); [by eapply loading_image|done].
Qed.

(** *** Runs that may fail *)

(** Every segment header of the file stays in the lower half and out of the
    shared top-level entries, and so do the stack and the arguments. *)
Definition segment_placed (shared : list nat) (sg : segment) : Prop :=
  0 <= seg_vaddr sg /\ 0 <= seg_memsz sg /\ seg_vaddr sg + seg_memsz sg <= 2 ^ 47 /\
  forall p, p ∈ segment_page_list sg -> hw_index 4 p ∉ shared.

Record placed (shared : list nat) (bytes : list Z) : Prop := {
  pl_segments phoff phentsize i sg :
    read_u64 bytes 0 32 = Some phoff -> read_u16 bytes 0 54 = Some phentsize ->
    parse_segment bytes phoff phentsize i = Some (Some sg) -> segment_placed shared sg;
  pl_stack e segs : parse_elf bytes = Some (e, segs) ->
    args_page segs + PAGE_SIZE <= 2 ^ 47 /\ hw_index 4 (stack_page segs) ∉ shared /\ hw_index 4 (args_page segs) ∉ shared;
}.

(** What [map_segment] keeps on the pages outside the shared entries, the
    whole of the loading keeps. *)
Definition keeps_segments (l4 : Z) (shared : list nat) (I : mem -> A -> Prop) : Prop :=
  forall m a fb vaddr size w r m' a', I m a -> Forall is_u8 fb -> 0 <= vaddr -> 0 <= size -> vaddr + size <= 2 ^ 47 ->
  (forall k, (k < page_count size)%nat -> hw_index 4 (vaddr + Z.of_nat k * PAGE_SIZE) ∉ shared) ->
  map_segment l4 fb vaddr size w (m, a) = Ok (r, (m', a')) -> I m' a'.

Section Runs.
Context (l4 : Z) (shared : list nat) (bytes : list Z) (Hbytes : Forall is_u8 bytes)
  (I : mem -> A -> Prop) (HI : keeps_segments l4 shared I).

Lemma load_segments_run phoff phentsize indexes h m a r m' a' :
  (forall i sg, parse_segment bytes phoff phentsize i = Some (Some sg) -> segment_placed shared sg) ->
  I m a -> load_segments l4 bytes phoff phentsize indexes h (m, a) = Ok (r, (m', a')) ->
  I m' a' /\
  (forall h', r = Some h' -> exists segs, parse_segments bytes phoff phentsize indexes = Some segs /\
     h' = highest_end h segs).
Proof using Hbytes HI.
  intros Hpl. revert h m a; induction indexes as [|i indexes IH]; intros h m a Hld E.
  { injection E as <- <- <-. split; [done|]. intros h' [= <-]. by exists []. }
  cbn [load_segments] in E. unfold mbind in E at 1. unfold L_bind in E at 1. cbn [parse_segments].
  destruct (parse_segment bytes phoff phentsize i) as [[sg|]|] eqn:Ep.
  - rewrite (load_segment_map _ _ _ _ _ _ _ _ Ep) in E. unfold mbind in E at 1. unfold L_bind in E at 1.
    destruct (map_segment l4 (seg_bytes sg) (seg_vaddr sg) (seg_memsz sg) (seg_writable sg) (m, a))
      as [[r1 [m1 a1]]|] eqn:E1; [|done].
    destruct (Hpl i sg Ep) as (P1 & P2 & P3 & P4).
    assert (Hld1 : I m1 a1).
    { apply (HI m a (seg_bytes sg) (seg_vaddr sg) (seg_memsz sg) (seg_writable sg) r1); try done.
      - by eapply parse_segment_bytes.
      - intros k Hk. apply P4, elem_of_stride. exists k. split; [done|lia]. }
    destruct r1 as [[]|]; [|injection E as <- <- <-; split; [done|done]].
    unfold mbind, L_bind, opt in E. rewrite (proj2 (checked_add_Some _ _ (seg_vaddr sg + seg_memsz sg))) in E by lia.
    destruct (IH (Z.max h (seg_vaddr sg + seg_memsz sg)) m1 a1 Hld1 E) as [HA HB]. split; [done|].
    intros h' Hh'. destruct (HB h' Hh') as (segs & Es & ->). exists (sg :: segs). by rewrite Es.
  - rewrite (load_segment_skip _ _ _ _ _ _ _ Ep) in E.
    destruct (IH h m a Hld E) as [HA HB]. split; [done|].
    intros h' Hh'. destruct (HB h' Hh') as (segs & Es & ->). exists segs. by rewrite Es.
  - rewrite (load_segment_malformed _ _ _ _ _ _ _ Ep) in E. injection E as <- <- <-. split; [done|done].
Qed.

Lemma one_page_run m a fb p w r m' a' :
  I m a -> Forall is_u8 fb -> 0 <= p -> p + PAGE_SIZE <= 2 ^ 47 -> hw_index 4 p ∉ shared ->
  map_segment l4 fb p PAGE_SIZE w (m, a) = Ok (r, (m', a')) -> I m' a'.
Proof using HI.
  intros Hld Hfb Hp Hend Hs E. apply (HI m a fb p PAGE_SIZE w r); try done.
  rewrite page_count_one. intros k Hk. assert (k = 0%nat) as -> by lia. by rewrite Z.mul_0_l, Z.add_0_r.
Qed.

(** From the state after the segments on. *)
Definition stack_and_args (args : list Z) (en : Z) (r : option Z) (m : mem) (a : A) : outcome (option (Z * Z * Z * Z) * (mem * A)) :=
  match r with
  | None => Ok (None, (m, a))
  | Some h =>
      (top ← opt (align_up h PAGE_SIZE);
       stack_bottom ← opt (checked_add top PAGE_SIZE);
       _ ← map_segment l4 [] stack_bottom STACK_SIZE true;
       stack_end ← opt (checked_add stack_bottom STACK_SIZE);
       sp ← opt (checked_sub stack_end 16);
       stack_top ← opt (va_try_new sp);
       entry ← opt (va_try_new en);
       args_bottom ← opt (checked_add stack_bottom STACK_SIZE);
       _ ← map_segment l4 args args_bottom ARGS_SIZE false;
       args_ptr ← opt (va_try_new args_bottom);
       mret (entry, stack_top, args_ptr, Z.of_nat (length args))) (m, a)
  end.

Lemma stack_and_args_run args en segs m a r m' a' :
  Forall is_u8 args -> args_page segs + PAGE_SIZE <= 2 ^ 47 ->
  hw_index 4 (stack_page segs) ∉ shared -> hw_index 4 (args_page segs) ∉ shared ->
  I m a -> stack_and_args args en (Some (highest_end 0 segs)) m a = Ok (r, (m', a')) -> I m' a'.
Proof using HI.
  intros Hab B Hs1 Hs2 Hld1 E. destruct (args_page_bounds segs) as (B1 & B2 & B3 & B4 & B5).
  unfold stack_and_args, mbind, L_bind, opt in E.
  assert (Hap : args_page segs = stack_page segs + PAGE_SIZE) by done.
  assert (Hsp : stack_page segs = round_up (highest_end 0 segs) + PAGE_SIZE) by done.
  assert (HP : PAGE_SIZE = 4096) by done.
  rewrite align_up_round in E by lia.
  rewrite (proj2 (checked_add_Some _ _ (stack_page segs))) in E by lia.
  change STACK_SIZE with PAGE_SIZE in E. change ARGS_SIZE with PAGE_SIZE in E.
  destruct (map_segment l4 [] (stack_page segs) PAGE_SIZE true (m, a)) as [[r2 [m2 a2]]|] eqn:E2; [|done].
  assert (Hld2 : I m2 a2) by (eapply (one_page_run m a [] (stack_page segs)); try done; lia).
  destruct r2 as [[]|]; [|injection E as <- <- <-; done].
  rewrite (proj2 (checked_add_Some _ _ (args_page segs))) in E by lia.
  rewrite (proj2 (checked_sub_Some _ _ (args_page segs - 16))) in E by lia.
  rewrite (va_try_new_canonical (args_page segs - 16)) in E by (unfold canonical; lia).
  destruct (va_try_new en); [|injection E as <- <- <-; done].
  destruct (map_segment l4 args (args_page segs) PAGE_SIZE false (m2, a2)) as [[r3 [m3 a3]]|] eqn:E3; [|done].
  assert (Hld3 : I m3 a3) by (eapply (one_page_run m2 a2 args (args_page segs)); try done; lia).
  destruct r3 as [[]|]; [|injection E as <- <- <-; done].
  rewrite (va_try_new_canonical (args_page segs)) in E by (unfold canonical; lia).
  by injection E as <- <- <-.
Qed.

(** The loader reads four fields of the header, maps the segments, and goes
    on with the stack. *)
Lemma load_segments_and_stack_eq args en phoff phe phn (st : mem * A) :
  read_u64 bytes 0 24 = Some en -> read_u64 bytes 0 32 = Some phoff ->
  read_u16 bytes 0 54 = Some phe -> read_u16 bytes 0 56 = Some phn ->
  load_segments_and_stack l4 bytes args st =
    match load_segments l4 bytes phoff phe (seq 0 (Z.to_nat phn)) 0 st with
    | Ok (r, (m, a)) => stack_and_args args en r m a
    | Panic msg => Panic msg
    end.
Proof.
  intros E1 E2 E3 E4. unfold load_segments_and_stack, stack_and_args, mbind, L_bind, opt. rewrite E1, E2, E3, E4.
  by destruct (load_segments _ _ _ _ _ _ _) as [[[h|] [m a]]|].
Qed.

Lemma load_segments_and_stack_run args m a r m' a' :
  Forall is_u8 args -> placed shared bytes -> I m a ->
  load_segments_and_stack l4 bytes args (m, a) = Ok (r, (m', a')) -> I m' a'.
Proof using Hbytes HI.
  intros Hab [Hpl1 Hpl2] Hld E. unfold parse_elf in Hpl2.
  destruct (read_u64 bytes 0 24) as [en|] eqn:E1.
  2: { unfold load_segments_and_stack, mbind, L_bind, opt in E. rewrite E1 in E. by injection E as <- <- <-. }
  destruct (read_u64 bytes 0 32) as [phoff|] eqn:E2.
  2: { unfold load_segments_and_stack, mbind, L_bind, opt in E. rewrite E1, E2 in E. by injection E as <- <- <-. }
  destruct (read_u16 bytes 0 54) as [phe|] eqn:E3.
  2: { unfold load_segments_and_stack, mbind, L_bind, opt in E. rewrite E1, E2, E3 in E. by injection E as <- <- <-. }
  destruct (read_u16 bytes 0 56) as [phn|] eqn:E4.
  2: { unfold load_segments_and_stack, mbind, L_bind, opt in E. rewrite E1, E2, E3, E4 in E. by injection E as <- <- <-. }
  rewrite (load_segments_and_stack_eq args en phoff phe phn (m, a)) in E by done.
  cbn [mbind option_bind] in Hpl2.
  destruct (load_segments l4 bytes phoff phe (seq 0 (Z.to_nat phn)) 0 (m, a)) as [[r1 [m1 a1]]|] eqn:EL; [|done].
  destruct (load_segments_run phoff phe (seq 0 (Z.to_nat phn)) 0 m a r1 m1 a1) as [Hld1 Hh]; [|done|done|].
  { intros i sg. by apply Hpl1. }
  destruct r1 as [h|]; [|by injection E as <- <- <-].
  destruct (Hh h eq_refl) as (segs & Es & ->). rewrite Es in Hpl2. cbn [mbind option_bind] in Hpl2.
  destruct (Hpl2 en segs eq_refl) as (B & Hs1 & Hs2). by apply (stack_and_args_run args en segs m1 a1 r).
Qed.
End Runs.

Lemma loading_keeps_segments l4 shared total m0 :
  NoDup total -> Forall frame_ok total ->
  keeps_segments l4 shared (fun m a => exists top pages, loading (A := A) l4 shared total m0 m a top pages).
Proof.
  intros Hnd Hok m a fb vaddr size w r m' a' (top & pages & Hld) Hfb Hv Hs He Hp E.
  by apply (map_segment_run l4 shared total m0 Hnd Hok m a top pages fb vaddr size w r).
Qed.

End Load.

Section LoadWitness.
#[local] Existing Instance x86_crate.
#[local] Existing Instance ref_mapper.

(** An executable with one segment per element of [segs] (address, size in
    memory), each with the file content [code]. *)
Definition elf_header (entry : Z) (phnum : nat) : list Z :=
  EI_MAG ++ [2; 1; 1] ++ replicate 9 0 ++ le_encode 2 2 ++ le_encode 2 0x3e ++ le_encode 4 1 ++
  le_encode 8 entry ++ le_encode 8 64 ++ le_encode 8 0 ++ le_encode 4 0 ++
  le_encode 2 64 ++ le_encode 2 56 ++ le_encode 2 (Z.of_nat phnum) ++ replicate 6 0.

Definition elf_program_header (file_offset filesz vaddr memsz : Z) : list Z :=
  le_encode 4 1 ++ le_encode 4 5 ++ le_encode 8 file_offset ++ le_encode 8 vaddr ++ le_encode 8 vaddr ++
  le_encode 8 filesz ++ le_encode 8 memsz ++ le_encode 8 4096.

Definition sample_elf (segs : list (Z * Z)) (code : list Z) : list Z :=
  let off := 64 + 56 * Z.of_nat (length segs) in
  elf_header (match segs with (v, _) :: _ => v | [] => 0 end) (length segs) ++
  (segs ≫= fun '(vaddr, memsz) => elf_program_header off (Z.of_nat (length code)) vaddr memsz) ++ code.

(** 1 MiB of memory from 1 MiB. *)
Definition sample_ram : list MemoryRegion :=
  [ {| region_type := Usable; start_addr := 0x100000; end_addr := 0x200000 |} ].

Lemma sample_ram_ok : Forall region_ok sample_ram.
Proof. repeat constructor; cbn; lia. Qed.

Lemma sample_ram_lawful :
  fa_inv (frame_allocator_init sample_ram) /\
  fa_avail (frame_allocator_init sample_ram) = 0x100000 :: stride 0x101000 4096 255.
Proof.
  destruct (frame_allocator_init_lawful sample_ram sample_ram_ok) as [Hi Hav]. split; [exact Hi|]. exact Hav.
Qed.

Lemma sample_ram_frames : NoDup (0x100000 :: stride 0x101000 4096 255) /\ Forall frame_ok (0x100000 :: stride 0x101000 4096 255).
Proof.
  split; [apply (NoDup_stride 0x100000 4096 256); lia|].
  change (Forall frame_ok (stride 0x100000 4096 256)). apply Forall_forall. intros f (k & Hk & ->)%elem_of_stride.
  unfold frame_ok, PAGE_SIZE. split; [|lia]. replace (0x100000 + 4096 * Z.of_nat k) with (0 + (256 + Z.of_nat k) * 4096) by lia.
  by rewrite Z.mod_add by lia.
Qed.

(** The segment of two bytes of code at 0x600000000000. *)
Definition sample_program : list Z := sample_elf [(0x600000000000, 0x20)] [0xeb; 0xfe].

Lemma sample_program_parses :
  header_ok sample_program = true /\
  parse_elf sample_program = Some (0x600000000000, [mkSegment [0xeb; 0xfe] 0x600000000000 0x20 false]) /\
  Forall is_u8 sample_program.
Proof.
  split; [vm_compute; reflexivity|]. split; [vm_compute; reflexivity|].
  assert (Hb : forallb (fun b => (0 <=? b) && (b <? 256)) sample_program = true) by (vm_compute; reflexivity).
  apply Forall_forall. intros b Hin%list_elem_of_In. rewrite forallb_forall in Hb. specialize (Hb b Hin).
  unfold is_u8. lia.
Qed.

Lemma sample_program_layout :
  layout_ok [0%nat; va_index 4 (3 * 2 ^ 39)] [mkSegment [0xeb; 0xfe] 0x600000000000 0x20 false].
Proof.
  split.
  - intros sg ->%list_elem_of_singleton. cbn. unfold PAGE_SIZE. split; [done|lia].
  - by vm_compute.
  - apply (bool_decide_unpack _). by vm_compute.
  - intros p Hp. assert (Hl : stack_page [mkSegment [0xeb; 0xfe] 0x600000000000 0x20 false] ::
      args_page [mkSegment [0xeb; 0xfe] 0x600000000000 0x20 false] ::
      ([mkSegment [0xeb; 0xfe] 0x600000000000 0x20 false] ≫= segment_page_list) =
      [0x600000002000; 0x600000003000; 0x600000000000]) by (vm_compute; reflexivity).
    rewrite Hl in Hp. set_unfold. apply (bool_decide_unpack _).
    destruct Hp as [ -> | [ -> | [ -> | [] ] ] ]; by vm_compute.
Qed.

Lemma load_correct_witness :
  exists m' a', load sample_program 0x11000 (3 * 2 ^ 39) [7; 8] (sample_kernel_tables, frame_allocator_init sample_ram) =
    Ok (Some (mkLoadedElf 0x100000 0x600000000000 0x600000002ff0 0x600000003000 2), (m', a')) /\
    sees m' 0x100000 0x600000000001 0xfe false /\ sees m' 0x100000 0x600000003001 8 false.
Proof.
  destruct sample_ram_lawful as [Hi Hav], sample_ram_frames as [Hnd Hok], sample_program_parses as (P1 & P2 & P3).
  destruct (load_correct sample_program [7; 8] 0x600000000000 [mkSegment [0xeb; 0xfe] 0x600000000000 0x20 false]
    sample_kernel_tables 0x11000 (3 * 2 ^ 39) (frame_allocator_init sample_ram) 0x100000 (stride 0x101000 4096 255) P1 P2 P3)
    as (m' & a' & top & E & _ & _ & _ & _ & Hseg & _ & Hargs).
  - apply Forall_forall. intros b Hin. set_unfold. unfold is_u8. destruct Hin as [ -> | [ -> | [] ] ]; lia.
  - lia.
  - apply sample_program_layout.
  - apply sample_kernel_tables_ok.
  - unfold canonical. lia.
  - exact Hi.
  - exact Hav.
  - exact Hnd.
  - exact Hok.
  - unfold frames_apart, PAGE_SIZE. lia.
  - vm_compute. lia.
  - exists m', a'. split; [exact E|]. split.
    + apply (Hseg (mkSegment [0xeb; 0xfe] 0x600000000000 0x20 false) 1); [left|cbn; lia].
    + apply (Hargs 1). unfold PAGE_SIZE. lia.
Defined.

(** A file that announces two program headers and ends after the first. *)
Definition sample_truncated : list Z :=
  elf_header 0x600000000000 2 ++ elf_program_header 120 2 0x600000000000 0x20 ++ [0xeb; 0xfe].

Lemma slice_short (l : list Z) a b : Z.of_nat (length l) < b -> slice l a b = None.
Proof. intros H. unfold slice. rewrite (proj2 (Z.leb_gt b (Z.of_nat (length l)))) by done. by rewrite andb_false_r. Qed.

Lemma read_uint_short n (l : list Z) base offset :
  Z.of_nat (length l) < base + offset + n -> read_uint n l base offset = None.
Proof.
  intros H. unfold read_uint. destruct (checked_add base offset) as [s|] eqn:E1; [|done].
  apply checked_add_Some in E1 as [ -> _]. cbn [mbind option_bind].
  destruct (checked_add _ n) as [e|] eqn:E2; [|done]. apply checked_add_Some in E2 as [ -> _]. cbn [mbind option_bind].
  by rewrite slice_short.
Qed.

Lemma sample_truncated_placed : placed [0%nat; va_index 4 (3 * 2 ^ 39)] sample_truncated.
Proof.
  assert (Hn : forall i, parse_segment sample_truncated 64 56 (S i) = None).
  { intros i. unfold parse_segment.
    destruct (checked_mul _ _) as [ofs|] eqn:E1; [|done]. apply checked_mul_Some in E1 as [ -> _]. cbn [mbind option_bind].
    destruct (checked_add _ _) as [ph|] eqn:E2; [|done]. apply checked_add_Some in E2 as [ -> _]. cbn [mbind option_bind].
    unfold read_u32 at 1. rewrite (read_uint_short 4 _ _ 0); [done|]. change (Z.of_nat (length sample_truncated)) with 122. lia. }
  split.
  - intros phoff phe i sg E1 E2. assert (phoff = 64) as -> by (vm_compute in E1; congruence).
    assert (phe = 56) as -> by (vm_compute in E2; congruence). destruct i as [|i]; [|by rewrite Hn].
    intros E. assert (sg = mkSegment [0xeb; 0xfe] 0x600000000000 0x20 false) as -> by (vm_compute in E; congruence).
    split_and!; cbn; try lia. intros p (k & Hk & ->)%elem_of_stride.
    change (page_count (seg_memsz (mkSegment [0xeb; 0xfe] 0x600000000000 0x20 false))) with 1%nat in Hk.
    assert (k = 0%nat) as -> by lia. apply (bool_decide_unpack _). by vm_compute.
  - intros e segs E. exfalso. vm_compute in E. congruence.
Qed.

End LoadWitness.
