(* ===== verification/ElfHazards.v ===== *)
(** * Files on which the loader panics or leaks

    The documentation of [load] (src/elf.rs) promises [None] for a file it
    cannot handle, and every frame back.  [load_conflict_panics]: a file with
    two segments on one page, or with a segment across the end of the lower
    half, takes the kernel down.  [load_low_segment_leaks]: a segment in the
    top-level entry 0, which every address space shares with the kernel, is
    mapped into the kernel's own tables and stays there. *)

From S2P Require Import Prelude X86 FrameAlloc Paging AddressSpace Mapper MapperRef Mappings Elf ElfThms ElfImage ElfLoad.

(** ** One top-level entry of a space *)

Lemma NoDup_space_mappings top : NoDup (space_mappings top).
Proof.
  rewrite space_mappings_lookup. apply NoDup_bind; [| |by apply NoDup_all_pages].
  - intros p q [u v] _ _ Hp Hq. unfold mapping_at in *.
    destruct (space_lookup top p), (space_lookup top q); set_solver.
  - intros p _. unfold mapping_at. destruct (space_lookup top p); [apply NoDup_singleton|apply NoDup_nil_2].
Qed.

Lemma space_mappings_split top i c : top !! i = Some c ->
  space_mappings top ≡ₚ space_mappings {[i := c]} ++ space_mappings (delete i top).
Proof.
  intros Hc. unfold space_mappings. rewrite <- bind_app_perm. apply reflexive_eq, bind_ext. intros j _.
  destruct (decide (i = j)) as [<-|Hne].
  - by rewrite Hc, lookup_singleton_eq, lookup_delete_eq, app_nil_r.
  - by rewrite lookup_singleton_ne, lookup_delete_ne by done.
Qed.

Lemma space_tables_split l4 top i c : (i < 512)%nat -> top !! i = Some c ->
  space_tables l4 top ≡ₚ tables 3 c ++ space_tables l4 (delete i top).
Proof.
  intros Hi Hc. unfold space_tables. rewrite (bind_lookup_child 3 (fun _ => tables 3) top i c Hi Hc).
  apply Permutation_middle.
Qed.

Lemma space_lookup_singleton (t : ptree 3) p : space_lookup {[0%nat := t]} p =
  if decide (hw_index 4 p = 0%nat) then tree_lookup 3 p t else None.
Proof.
  unfold space_lookup. case_decide as E; [by rewrite E, lookup_singleton_eq|by rewrite lookup_singleton_ne].
Qed.

(** ** What a run of the loader does to a space it finds *)

(** The pages [ps] were free and are mapped now; what was mapped still is. *)
Record takes (top top' : gmap nat (ptree 3)) (ps : list Z) : Prop := {
  tk_nodup : NoDup ps;
  tk_new p : p ∈ ps -> space_lookup top p = None;
  tk_mapped p : p ∈ ps -> is_Some (space_lookup top' p);
  tk_keeps q g : space_lookup top q = Some g -> space_lookup top' q = Some g;
}.

Lemma takes_nil top : takes top top [].
Proof. by split; [apply NoDup_nil_2|intros p ?%not_elem_of_nil..|]. Qed.

Lemma takes_app top top1 top2 ps qs : takes top top1 ps -> takes top1 top2 qs -> takes top top2 (ps ++ qs).
Proof.
  intros [N1 F1 M1 K1] [N2 F2 M2 K2]. split.
  - apply NoDup_app. split_and!; [done| |done]. intros p Hp Hq. destruct (M1 p Hp) as [f Hf].
    rewrite (F2 p Hq) in Hf. done.
  - intros p [Hp|Hp]%elem_of_app; [by apply F1|]. destruct (space_lookup top p) as [g|] eqn:E; [|done].
    apply K1 in E. by rewrite (F2 p Hp) in E.
  - intros p [Hp|Hp]%elem_of_app; [|by apply M2]. destruct (M1 p Hp) as [f Hf]. exists f. by apply K2.
  - intros q g Hg. by apply K2, K1.
Qed.

Section Hosting.
Context {crate : X86Crate} {mapper : PageMapper} {A : Type} `{!FrameAllocator A, !FrameDeallocator A, !LawfulFrameAllocator A}.
Context (l4 : Z) (shared : list nat) (top0 : gmap nat (ptree 3)) (avail0 : list Z) (m0 : mem).

(** The space [top], which was [top0] when the frames [avail0] were free:
    the tables, the frames [own] of the pages mapped since and the free
    frames are the tables and the free frames of then. *)
Record hosting (m : mem) (a : A) (top : gmap nat (ptree 3)) : Prop := {
  ho_space : space_ok m l4 shared top a;
  ho_own : exists own, (space_mappings top).*2 ≡ₚ own ++ (space_mappings top0).*2 /\
    space_tables l4 top ++ own ++ fa_avail a ≡ₚ space_tables l4 top0 ++ avail0 /\
    (forall f, f ∈ own ++ fa_avail a -> f ∈ avail0);
  ho_keeps q g : space_lookup top0 q = Some g -> space_lookup top q = Some g;
  ho_roots i c : top0 !! i = Some c -> exists c', top !! i = Some c' /\ root c' = root c;
  ho_written x : ~ in_frames (space_tables l4 top0 ++ avail0) x -> m x = m0 x;
}.

(** Nothing was mapped yet. *)
Lemma hosting_start m (a : A) : space_ok m l4 shared top0 a -> fa_avail a = avail0 ->
  (forall x, ~ in_frames (space_tables l4 top0 ++ avail0) x -> m x = m0 x) -> hosting m a top0.
Proof.
  intros Hs Hav Hw. split; [done| |done|by intros i c Hc; exists c|done].
  exists []. by rewrite Hav.
Qed.

(** [map_to] on a page of the space, and the write to its frame. *)
Lemma hosting_mapped m m1 m' (a a1 a2 : A) top top' p frame rest flags :
  hosting m a top -> fa_avail a = frame :: rest -> fa_avail a1 = rest ->
  user_page shared p -> space_lookup top p = None ->
  mapped_ok m m1 l4 shared top top' p frame flags a1 a2 ->
  mem_ok m' -> (forall x, ~ in_frame frame x -> m' x = m1 x) ->
  hosting m' a2 top' /\ takes top top' [p].
Proof.
  intros [(S1 & S2 & S3 & S4 & S5) (own & O1 & O2 & O3) Hk Hr Hw] Hav Hav1 Hp Hn Hmo Hm' Hout.
  assert (Htk : takes top top' [p]).
  { split; [apply NoDup_singleton|by intros q ->%list_elem_of_singleton| |].
    - intros q ->%list_elem_of_singleton. rewrite (mapped_lookup _ _ _ _ _ _ _ _ _ _ _ Hmo). by eexists.
    - intros q g Hq. rewrite (mapped_others _ _ _ _ _ _ _ _ _ _ _ Hmo); [done|].
      intros E. rewrite (space_lookup_indexes top q p E), Hn in Hq. done. }
  assert (Htab : space_tables l4 top' ++ fa_avail a2 ≡ₚ space_tables l4 top ++ rest).
  { rewrite (mapped_tables _ _ _ _ _ _ _ _ _ _ _ Hmo), (mapped_avail _ _ _ _ _ _ _ _ _ _ _ Hmo), Hav1.
    rewrite (Permutation_app_comm (take _ _)), <- app_assoc, take_drop. done. }
  assert (Hmap := mapped_mappings _ _ _ _ _ _ _ _ _ _ _ Hmo (proj1 Hp) Hn).
  assert (Hfree : space_tables l4 top' ++ frame :: fa_avail a2 ≡ₚ space_tables l4 top ++ fa_avail a).
  { rewrite Hav, <- !Permutation_middle, Htab. done. }
  assert (Hap : forall x, in_frame frame x -> ~ in_frames (space_tables l4 top') x).
  { intros x Hx Ht. rewrite <- Hfree, <- Permutation_middle in S4, S5.
    apply (in_frames_disjoint [frame] (space_tables l4 top' ++ fa_avail a2) x S4 S5).
    - exists frame. split; [set_solver|done].
    - apply in_frames_app. by left. }
  assert (Hsum : space_tables l4 top' ++ (frame :: own) ++ fa_avail a2 ≡ₚ space_tables l4 top0 ++ avail0).
  { rewrite <- O2, Hav. cbn [app]. rewrite <- (Permutation_middle (space_tables l4 top')), (Permutation_app_swap_app _ own), Htab.
    rewrite (Permutation_app_swap_app own), !app_assoc. apply Permutation_middle. }
  split; [|done]. split.
  - split_and!; [done| |apply (mapped_inv _ _ _ _ _ _ _ _ _ _ _ Hmo)| |].
    + apply (node_ext m1 m' 3 l4 shared top'); [|apply (mapped_repr _ _ _ _ _ _ _ _ _ _ _ Hmo)].
      intros x Hx. apply Hout. intros Hf. by apply (Hap x).
    + rewrite <- Hfree, <- Permutation_middle in S4. by apply NoDup_cons in S4 as [_ S4].
    + rewrite <- Hfree, <- Permutation_middle in S5. by apply Forall_cons in S5 as [_ S5].
  - exists (frame :: own). split_and!; [by rewrite Hmap, fmap_cons, O1|done|].
    intros f Hf. apply O3. rewrite Hav. rewrite (mapped_avail _ _ _ _ _ _ _ _ _ _ _ Hmo), Hav1 in Hf.
    rewrite <- (take_drop (space_missing top p) rest). set_solver.
  - intros q g Hg. by apply (tk_keeps _ _ _ Htk), Hk.
  - intros i c Hc. destruct (Hr i c Hc) as (c1 & H1 & E1).
    destruct (mapped_roots _ _ _ _ _ _ _ _ _ _ _ Hmo i c1 H1) as (c2 & H2 & E2). exists c2. by rewrite E2.
  - intros x Hx. assert (Hin : forall f, f ∈ frame :: space_tables l4 top' -> f ∈ space_tables l4 top0 ++ avail0).
    { intros f Hf. rewrite <- Hsum. set_solver. }
    rewrite Hout.
    + rewrite (mapped_outside _ _ _ _ _ _ _ _ _ _ _ Hmo); [by apply Hw|]. intros Hf. apply Hx.
      eapply in_frames_incl; [|exact Hf]. intros f Hf'. apply Hin. by right.
    + intros Hf. apply Hx. exists frame. split; [apply Hin; by left|done].
Qed.

(** A run on one page that returns: the page was free and is mapped. *)
Lemma hosting_page m a top fb w start i r m' a' :
  hosting m a top -> 0 <= start -> 0 <= i -> user_page shared (start + i * PAGE_SIZE) -> Forall is_u8 fb ->
  map_segment_page l4 fb (segment_flags w) start i (m, a) = Ok (r, (m', a')) ->
  r = Some tt /\ exists top', hosting m' a' top' /\ takes top top' [start + i * PAGE_SIZE].
Proof.
  intros Hh Hs Hi Hp Hfb E. set (p := start + i * PAGE_SIZE) in *.
  assert (Hadd : va_add start (i * PAGE_SIZE) = Some p).
  { unfold p in *. unfold PAGE_SIZE in *. apply va_add_low; [lia..|]. destruct Hp as (_ & ? & _). lia. }
  destruct (ho_space _ _ _ Hh) as (S1 & S2 & S3 & S4 & S5). unfold map_segment_page in E.
  rewrite Hadd in E. cbn [expect mbind outcome_bind] in E. destruct (fa_avail a) as [|frame rest] eqn:Hav.
  { destruct (fa_alloc_none a S3 Hav) as (a1 & Ea & _). by rewrite Ea in E. }
  destruct (fa_alloc_some a frame rest S3 Hav) as (a1 & Ea & Hi1 & Hav1). rewrite Ea in E. cbn [expect mbind outcome_bind] in E.
  assert (Hso : space_ok m l4 shared top a1).
  { rewrite <- Permutation_middle in S4, S5. apply NoDup_cons in S4 as [_ S4]. apply Forall_cons in S5 as [_ S5].
    by split_and!; rewrite ?Hav1. }
  assert (Hrq : request_ok shared p frame (segment_flags w)).
  { destruct Hp as (Hpm & Hpb & Hps). split; [done|]. split; [unfold canonical; lia|]. split; [done|].
    split; [|apply segment_flags_page]. rewrite <- Permutation_middle in S5. by apply Forall_cons in S5 as [? _]. }
  destruct (space_lookup top p) as [f|] eqn:El.
  { exfalso. destruct (map_to_already m l4 shared top p frame (segment_flags w) a1 f Hso Hrq El) as [m1 Em]. by rewrite Em in E. }
  destruct (decide (space_missing top p <= length (fa_avail a1))%nat) as [Hmiss|Hmiss].
  - destruct (map_to_ok m l4 shared top p frame (segment_flags w) a1 Hso Hrq El Hmiss) as (m1 & a2 & top' & Em & Hmo).
    rewrite Em in E. cbn [mbind outcome_bind] in E. injection E as <- <- <-. split; [done|]. exists top'.
    apply (hosting_mapped m m1 _ a a1 a2 top top' p frame rest (segment_flags w)); try done.
    + apply mem_ok_copy_page; [done|apply (mapped_mem _ _ _ _ _ _ _ _ _ _ _ Hmo)].
    + intros x Hx. by apply copy_page_other.
  - exfalso. destruct (map_to_no_frames m l4 shared top p frame (segment_flags w) a1 Hso Hrq El) as (m1 & a2 & Em); [lia|].
    by rewrite Em in E.
Qed.

Lemma hosting_pages m a top fb w start indexes r m' a' :
  hosting m a top -> 0 <= start -> Forall is_u8 fb ->
  (forall k, k ∈ indexes -> user_page shared (start + Z.of_nat k * PAGE_SIZE)) ->
  map_segment_pages l4 fb (segment_flags w) start indexes (m, a) = Ok (r, (m', a')) ->
  r = Some tt /\ exists top', hosting m' a' top' /\
    takes top top' ((fun k => start + Z.of_nat k * PAGE_SIZE) <$> indexes).
Proof.
  revert m a top; induction indexes as [|k indexes IH]; intros m a top Hh Hs Hfb Hk E.
  - injection E as <- <- <-. split; [done|]. exists top. split; [done|apply takes_nil].
  - cbn [map_segment_pages] in E. unfold mbind, L_bind in E.
    destruct (map_segment_page l4 fb (segment_flags w) start (Z.of_nat k) (m, a)) as [[r1 [m1 a1]]|] eqn:E1; [|done].
    destruct (hosting_page m a top fb w start (Z.of_nat k) r1 m1 a1) as (-> & top1 & Hh1 & Ht1); try done; [lia|apply Hk; set_solver|].
    destruct (IH m1 a1 top1) as (-> & top2 & Hh2 & Ht2); try done; [intros j Hj; apply Hk; set_solver|].
    split; [done|]. exists top2. split; [done|]. rewrite fmap_cons. by apply (takes_app top top1 top2 [_]).
Qed.

(** A segment that can be placed. *)
Lemma hosting_segment m a top sg r m' a' :
  hosting m a top -> segment_ok shared sg ->
  map_segment l4 (seg_bytes sg) (seg_vaddr sg) (seg_memsz sg) (seg_writable sg) (m, a) = Ok (r, (m', a')) ->
  r = Some tt /\ exists top', hosting m' a' top' /\ takes top top' (segment_page_list sg).
Proof.
  intros Hh (S1 & S2 & S3 & S4 & S5 & S6) E.
  assert (Hl : segment_page_list sg =
    (fun k => seg_vaddr sg + Z.of_nat k * PAGE_SIZE) <$> seq 0 (page_count (seg_memsz sg))).
  { unfold segment_page_list, stride. apply list_fmap_ext. intros i k _. lia. }
  destruct (Z.eq_dec (seg_memsz sg) 0) as [Hz|Hz].
  - rewrite Hl. unfold map_segment in E. rewrite Hz in E |- *. injection E as <- <- <-. split; [done|].
    exists top. split; [done|apply takes_nil].
  - rewrite map_segment_eq in E by (done || lia). rewrite Hl.
    apply (hosting_pages m a top (seg_bytes sg) (seg_writable sg)); try done.
    intros k Hk%elem_of_seq. apply (user_page_in shared (seg_vaddr sg) (seg_memsz sg)); [done..|lia|].
    apply S6. rewrite Hl. apply list_elem_of_fmap. exists k. split; [done|]. apply elem_of_seq. lia.
Qed.

(** Any segment outside the shared entries, placed or not. *)
Lemma hosting_keeps_segments topm :
  keeps_segments l4 shared (fun m a => exists top, hosting m a top /\
    forall p, is_Some (space_lookup topm p) -> is_Some (space_lookup top p)).
Proof.
  intros m a fb vaddr size w r m' a' (top & Hh & Hm) Hfb Hv Hs He Hp E.
  destruct (Z.eq_dec (vaddr mod PAGE_SIZE) 0) as [Hal|Hal].
  - destruct (hosting_segment m a top (mkSegment fb vaddr size w) r m' a' Hh) as (_ & top' & Hh' & Ht); [|done|].
    { unfold segment_ok. cbn [seg_bytes seg_vaddr seg_memsz]. split_and!; try done.
      intros p (k & Hk & ->)%elem_of_stride. cbn [seg_vaddr seg_memsz] in *. rewrite Z.mul_comm. by apply Hp. }
    exists top'. split; [done|]. intros p Hpm. destruct (Hm p Hpm) as [g Hg]. exists g. by apply (tk_keeps _ _ _ Ht).
  - unfold map_segment in E. destruct (size =? 0); [injection E as <- <- <-; eauto|].
    rewrite (proj2 (Z.eqb_neq _ _) Hal) in E. cbn [negb orb] in E. injection E as <- <- <-. eauto.
Qed.
End Hosting.

(** ** The leading segments of a file *)

(** The file's first program headers can be read and ask for [segs]. *)
Definition leading_segments (bytes : list Z) (segs : list segment) : Prop :=
  exists phoff phentsize phnum n, read_u64 bytes 0 32 = Some phoff /\ read_u16 bytes 0 54 = Some phentsize /\
    read_u16 bytes 0 56 = Some phnum /\ (n <= Z.to_nat phnum)%nat /\
    parse_segments bytes phoff phentsize (seq 0 n) = Some segs.

(** The segment starts in the lower half and ends in the upper one. *)
Definition crosses_half (sg : segment) : Prop :=
  seg_vaddr sg mod PAGE_SIZE = 0 /\ 0 <= seg_vaddr sg < 2 ^ 47 /\
  2 ^ 47 < seg_vaddr sg + seg_memsz sg <= 2 ^ 48.

Section Prefix.
Context {crate : X86Crate} {mapper : PageMapper} {A : Type} `{!FrameAllocator A, !FrameDeallocator A, !LawfulFrameAllocator A}.
Context (l4 : Z).

(** A page after the end of the address space is a panic of [Page + u64]. *)
Lemma map_segment_pages_add fb flags start indexes (st : mem * A) res :
  map_segment_pages l4 fb flags start indexes st = Ok res ->
  forall k, k ∈ indexes -> is_Some (va_add start (Z.of_nat k * PAGE_SIZE)).
Proof.
  revert st; induction indexes as [|j indexes IH]; intros st E k Hk; [by apply not_elem_of_nil in Hk|].
  cbn [map_segment_pages] in E. unfold mbind, L_bind in E. destruct st as [m a].
  destruct (map_segment_page l4 fb flags start (Z.of_nat j) (m, a)) as [[r1 st1]|] eqn:E1; [|done].
  unfold map_segment_page in E1. destruct (va_add start (Z.of_nat j * PAGE_SIZE)) eqn:Ea; [|done].
  apply elem_of_cons in Hk as [->|Hk]; [by rewrite Ea|].
  destruct r1 as [[]|]; [by apply (IH st1)|].
  revert E1. cbn [expect mbind outcome_bind]. destruct (allocate_frame a) as [[[f|] a1]|]; [|done..].
  cbn [expect mbind outcome_bind]. by destruct (map_to m l4 _ _ _ a1) as [[[[e|] m1] a2]|].
Qed.

(** A segment across the end of the lower half: the loop over its pages is
    meant to run through all the addresses in between, and panics. *)
Lemma map_segment_crosses sg (st : mem * A) res : crosses_half sg ->
  ~ map_segment l4 (seg_bytes sg) (seg_vaddr sg) (seg_memsz sg) (seg_writable sg) st = Ok res.
Proof.
  intros (Hal & Hv & He) E. unfold map_segment in E. set (v := seg_vaddr sg) in *. set (n := seg_memsz sg) in *.
  rewrite (proj2 (Z.eqb_neq n 0)), Hal in E by lia. rewrite (proj2 (Z.leb_gt 0x800000000000 v)) in E by lia.
  change (negb (negb (0 =? 0) || false)) with true in E. unfold ensure, opt, pure, mbind, L_bind in E.
  rewrite (proj2 (checked_add_Some v n (v + n))) in E by lia.
  rewrite (proj2 (checked_sub_Some (v + n) 1 (v + n - 1))) in E by lia.
  rewrite va_try_new_canonical in E by (unfold canonical; lia). rewrite va_try_new_extend in E by lia.
  rewrite !page_containing_spec in E by (unfold canonical; lia). rewrite Hal, Z.sub_0_r in E.
  set (last := v + n - 1 + (2 ^ 64 - 2 ^ 48)) in *.
  assert (Hl : 2 ^ 64 - 2 ^ 47 <= last - last mod PAGE_SIZE).
  { unfold PAGE_SIZE. pose proof (Z.div_mod last 4096). pose proof (Z.mod_pos_bound last 4096).
    assert (2 ^ 52 - 2 ^ 35 <= last / 4096) by (apply Z.div_le_lower_bound; unfold last; lia). lia. }
  unfold sub_w in E. rewrite (proj2 (Z.leb_le v _)) in E by lia. cbn [mbind outcome_bind] in E.
  apply map_segment_pages_add with (k := Z.to_nat ((2 ^ 48 - v) / PAGE_SIZE)) in E as [q Hq].
  - unfold PAGE_SIZE in *. apply Z.div_exact in Hal; [|lia].
    assert (Hd : (2 ^ 48 - v) / 4096 = 2 ^ 36 - v / 4096).
    { rewrite Hal at 1. replace (2 ^ 48 - 4096 * (v / 4096)) with ((2 ^ 36 - v / 4096) * 4096) by lia. apply Z.div_mul. lia. }
    rewrite Hd in Hq. rewrite Z2Nat.id in Hq by lia. rewrite va_add_new in Hq by lia.
    rewrite va_try_new_err in Hq by lia. done.
  - apply elem_of_seq. split; [lia|].
    assert (0 <= (2 ^ 48 - v) / PAGE_SIZE) by (apply Z.div_pos; [lia|done]).
    assert ((2 ^ 48 - v) / PAGE_SIZE <= (last - last mod PAGE_SIZE - v) / PAGE_SIZE); [|lia].
    apply Z.div_le_mono; [unfold PAGE_SIZE|]; lia.
Qed.

(** The segment that is mapped next. *)
Lemma load_segments_next bytes phoff phe idx idx2 sg post h (st : mem * A) res :
  parse_segments bytes phoff phe idx = Some (sg :: post) ->
  load_segments l4 bytes phoff phe (idx ++ idx2) h st = Ok res ->
  exists r1, map_segment l4 (seg_bytes sg) (seg_vaddr sg) (seg_memsz sg) (seg_writable sg) st = Ok r1.
Proof.
  revert h; induction idx as [|i idx IH]; intros h Hp E; [done|]. cbn [parse_segments] in Hp.
  destruct (parse_segment bytes phoff phe i) as [o|] eqn:Ep; [|done]. cbn [mbind option_bind] in Hp.
  destruct (parse_segments bytes phoff phe idx) as [r|] eqn:Er; [|done]. cbn [mbind option_bind] in Hp.
  rewrite <- app_comm_cons in E. cbn [load_segments] in E. unfold mbind in E at 1. unfold L_bind in E at 1. destruct o as [sg'|].
  - injection Hp as -> ->. rewrite (load_segment_map _ _ _ _ _ _ _ _ Ep) in E.
    unfold mbind in E at 1. unfold L_bind in E at 1.
    destruct (map_segment l4 (seg_bytes sg) (seg_vaddr sg) (seg_memsz sg) (seg_writable sg) st) as [r1|]; [by exists r1|done].
  - rewrite (load_segment_skip _ _ _ _ _ _ _ Ep) in E. apply (IH h); [|done]. by injection Hp as ->.
Qed.

Context (shared : list nat) (top0 : gmap nat (ptree 3)) (avail0 : list Z) (m0 : mem).

(** The first segments are mapped, and the loader goes on. *)
Lemma load_segments_prefix bytes phoff phe idx idx2 good bad h m (a : A) top r m' a' :
  parse_segments bytes phoff phe idx = Some (good ++ bad) -> Forall (segment_ok shared) good ->
  hosting l4 shared top0 avail0 m0 m a top ->
  load_segments l4 bytes phoff phe (idx ++ idx2) h (m, a) = Ok (r, (m', a')) ->
  exists idx1 m1 a1 top1, parse_segments bytes phoff phe idx1 = Some bad /\
    hosting l4 shared top0 avail0 m0 m1 a1 top1 /\ takes top top1 (good ≫= segment_page_list) /\
    load_segments l4 bytes phoff phe (idx1 ++ idx2) (highest_end h good) (m1, a1) = Ok (r, (m', a')) /\
    forall post, parse_segments bytes phoff phe (idx1 ++ idx2) = Some post ->
      parse_segments bytes phoff phe (idx ++ idx2) = Some (good ++ post).
Proof.
  revert h m a top good; induction idx as [|i idx IH]; intros h m a top good Hp Hok Hh E.
  { cbn [parse_segments] in Hp. destruct good; [|done]. exists [], m, a, top. split_and!; try done. apply takes_nil. }
  destruct good as [|sg good].
  { exists (i :: idx), m, a, top. split_and!; try done. apply takes_nil. }
  cbn [parse_segments] in Hp. destruct (parse_segment bytes phoff phe i) as [o|] eqn:Ep; [|done]. cbn [mbind option_bind] in Hp.
  destruct (parse_segments bytes phoff phe idx) as [rs|] eqn:Er; [|done]. cbn [mbind option_bind] in Hp.
  rewrite <- app_comm_cons in E |- *. cbn [load_segments] in E. unfold mbind in E at 1. unfold L_bind in E at 1. destruct o as [sg'|].
  - injection Hp as -> ->. apply Forall_cons in Hok as [Hsg Hok]. rewrite (load_segment_map _ _ _ _ _ _ _ _ Ep) in E.
    unfold mbind in E at 1. unfold L_bind in E at 1.
    destruct (map_segment l4 (seg_bytes sg) (seg_vaddr sg) (seg_memsz sg) (seg_writable sg) (m, a)) as [[r1 [m1 a1]]|] eqn:E1; [|done].
    destruct (hosting_segment l4 shared top0 avail0 m0 m a top sg r1 m1 a1 Hh Hsg E1) as (-> & top1 & Hh1 & Ht1).
    destruct Hsg as (S1 & S2 & S3 & S4 & S5 & S6).
    unfold mbind, L_bind, opt in E. rewrite (proj2 (checked_add_Some _ _ (seg_vaddr sg + seg_memsz sg))) in E by lia.
    destruct (IH (Z.max h (seg_vaddr sg + seg_memsz sg)) m1 a1 top1 good eq_refl Hok Hh1 E) as (idx1 & m2 & a2 & top2 & P1 & P2 & P3 & P4 & P5).
    exists idx1, m2, a2, top2. split_and!; try done.
    + rewrite bind_cons. by apply (takes_app top top1 top2).
    + intros post Hpost. cbn [parse_segments]. rewrite Ep. cbn [mbind option_bind]. by rewrite (P5 post Hpost).
  - rewrite (load_segment_skip _ _ _ _ _ _ _ Ep) in E. injection Hp as ->.
    destruct (IH h m a top (sg :: good) eq_refl Hok Hh E) as (idx1 & m2 & a2 & top2 & P1 & P2 & P3 & P4 & P5).
    exists idx1, m2, a2, top2. split_and!; try done.
    intros post Hpost. cbn [parse_segments]. rewrite Ep. cbn [mbind option_bind]. by rewrite (P5 post Hpost).
Qed.
End Prefix.

(** ** Runs of [load] *)

Lemma frames_ok_apart f g : frame_ok f -> frame_ok g -> f <> g -> frames_apart f g.
Proof.
  intros [Hf _] [Hg _] Hne. unfold frames_apart, PAGE_SIZE in *.
  apply Z.div_exact in Hf; [|lia]. apply Z.div_exact in Hg; [|lia]. lia.
Qed.

Lemma header_entry bytes : header_ok bytes = true -> is_Some (read_u64 bytes 0 24).
Proof.
  unfold header_ok. rewrite !andb_true_iff. intros [[[[[Hl%Nat.leb_le _] _] _] _] _].
  unfold read_u64, read_uint. change (checked_add 0 24) with (Some 24). cbn [mbind option_bind].
  change (checked_add 24 8) with (Some 32). cbn [mbind option_bind]. unfold slice.
  rewrite (proj2 (Z.leb_le 32 _)) by lia. by eexists.
Qed.

Section Load.
Context {crate : X86Crate} {mapper : PageMapper} {A : Type} `{!FrameAllocator A, !FrameDeallocator A, !LawfulFrameAllocator A}.

(** How a run that returns ends: the address space is handed out, or what
    is in it is freed. *)
Definition load_ends (l4 pmo : Z) (rs : option (Z * Z * Z * Z)) (ms : mem) (as_ : A) (r : option LoadedElf) (m' : mem) (a' : A) : Prop :=
  m' = ms /\
  match rs with
  | Some (en, st, ap, al) => r = Some (mkLoadedElf l4 en st ap al) /\ a' = as_
  | None => r = None /\ free_address_space ms (0, 0) l4 pmo as_ = Ok a'
  end.

(** A run of [load] that returns has mapped the leading segments. *)
Lemma load_prefix bytes args cr3 pmo m (a : A) m1 a1 l4 good bad shared top0 avail0 m0 r m' a' :
  header_ok bytes = true -> leading_segments bytes (good ++ bad) -> Forall (segment_ok shared) good ->
  new_address_space m cr3 pmo a = Ok (l4, m1, a1) -> hosting l4 shared top0 avail0 m0 m1 a1 top0 ->
  load bytes cr3 pmo args (m, a) = Ok (r, (m', a')) ->
  exists en phoff phe phn idx m2 a2 top2 rl ml al rs ms as_,
    read_u64 bytes 0 24 = Some en /\ read_u64 bytes 0 32 = Some phoff /\ read_u16 bytes 0 54 = Some phe /\
    read_u16 bytes 0 56 = Some phn /\
    hosting l4 shared top0 avail0 m0 m2 a2 top2 /\ takes top0 top2 (good ≫= segment_page_list) /\
    load_segments l4 bytes phoff phe idx (highest_end 0 good) (m2, a2) = Ok (rl, (ml, al)) /\
    (forall sg post, bad = sg :: post -> exists st1,
       map_segment l4 (seg_bytes sg) (seg_vaddr sg) (seg_memsz sg) (seg_writable sg) (m2, a2) = Ok st1) /\
    (forall post, parse_segments bytes phoff phe idx = Some post -> parse_elf bytes = Some (en, good ++ post)) /\
    stack_and_args l4 args en rl ml al = Ok (rs, (ms, as_)) /\ load_ends l4 pmo rs ms as_ r m' a'.
Proof.
  intros Hhd (phoff & phe & phn & n & R1 & R2 & R3 & Hn & Hp) Hok En Hh E. unfold load in E. rewrite Hhd in E. cbn [negb] in E.
  rewrite En in E. cbn [mbind outcome_bind] in E.
  destruct (load_segments_and_stack l4 bytes args (m1, a1)) as [[rs [ms as_]]|] eqn:Es; [|done]. cbn [mbind outcome_bind] in E.
  assert (Hends : load_ends l4 pmo rs ms as_ r m' a').
  { unfold load_ends. destruct rs as [[[[en st] ap] al]|]; [by injection E as <- <- <-|].
    destruct (free_address_space ms (0, 0) l4 pmo as_) as [a3|]; [|done]. by injection E as <- <- <-. }
  destruct (header_entry bytes Hhd) as [en R0]. rewrite (load_segments_and_stack_eq l4 bytes args en phoff phe phn) in Es by done.
  destruct (load_segments l4 bytes phoff phe (seq 0 (Z.to_nat phn)) 0 (m1, a1)) as [[rl [ml al]]|] eqn:El; [|done].
  assert (Hseq : seq 0 (Z.to_nat phn) = seq 0 n ++ seq n (Z.to_nat phn - n)).
  { replace (Z.to_nat phn) with (n + (Z.to_nat phn - n))%nat at 1 by lia. by rewrite seq_app. }
  rewrite Hseq in El.
  destruct (load_segments_prefix l4 shared top0 avail0 m0 bytes phoff phe (seq 0 n) _ good bad 0 m1 a1 top0 rl ml al Hp Hok Hh El)
    as (idx1 & m2 & a2 & top2 & P1 & P2 & P3 & P4 & P5).
  exists en, phoff, phe, phn, (idx1 ++ seq n (Z.to_nat phn - n)), m2, a2, top2, rl, ml, al, rs, ms, as_. split_and!; try done.
  - intros sg post ->. by apply (load_segments_next l4 bytes phoff phe idx1 (seq n (Z.to_nat phn - n)) sg post (highest_end 0 good) _ (rl, (ml, al))).
  - intros post Hpost. unfold parse_elf. rewrite R0, R1, R2, R3. cbn [mbind option_bind]. by rewrite Hseq, (P5 post Hpost).
Qed.

Lemma new_address_space_none m cr3 pmo (a : A) : fa_inv a -> fa_avail a = [] ->
  exists msg, new_address_space m cr3 pmo a = Panic msg.
Proof. intros Hi Hav. destruct (fa_alloc_none a Hi Hav) as (a' & E & _). unfold new_address_space. rewrite E. by eexists. Qed.

(** The new space, without what it shares with the kernel. *)
Lemma new_space_hosting m cr3 pmo l4 rest (a : A) :
  mem_ok m -> canonical pmo -> fa_inv a -> fa_avail a = l4 :: rest -> NoDup (cr3 :: fa_avail a) ->
  Forall frame_ok (cr3 :: fa_avail a) ->
  exists m1 a1, new_address_space m cr3 pmo a = Ok (l4, m1, a1) /\
    hosting l4 [0%nat; va_index 4 pmo] ∅ rest m m1 a1 ∅.
Proof.
  intros Hm Hc Hi Hav Hnd Hok. assert (Hap : frames_apart cr3 l4).
  { rewrite Hav in Hnd, Hok. rewrite !Forall_cons in Hok. destruct Hok as (O1 & O2 & _). apply NoDup_cons in Hnd as [Hnd _].
    apply frames_ok_apart; [done|done|set_solver]. }
  destruct (new_address_space_ok m cr3 pmo l4 rest a Hm Hc Hi Hav Hap) as (m1 & a1 & E & Hm1 & Hi1 & Hav1 & Hout & Hr & _).
  exists m1, a1. split; [done|]. assert (Ht : space_tables l4 ∅ = [l4]) by (unfold space_tables; by rewrite (bind_no_children 3)).
  apply NoDup_cons in Hnd as [_ Hnd]. apply Forall_cons in Hok as [_ Hok]. rewrite Hav in Hnd, Hok.
  apply hosting_start; [by split_and!; rewrite ?Ht, ?Hav1|done|].
  intros x Hx. apply Hout. destruct (decide (in_frame l4 x)) as [Hin|Hin]; [|unfold in_frame in Hin; lia].
  destruct Hx. rewrite Ht. exists l4. split; [set_solver|done].
Qed.

(** C35: the loader panics on some files, although its documentation says it
    returns [None] on everything it cannot handle.  Let the first program
    headers of a file ask for the segments [good], which can be placed in
    the process's own part of the address space, and then for [sg].  If [sg]
    can be placed too but has a page in common with one of [good], or if it
    is page-aligned and reaches from the lower half of the address space
    into the upper one, then [load] panics: for every memory, every
    allocator, whatever follows in the file. *)
Theorem load_conflict_panics bytes args good sg m cr3 pmo (a : A) :
  header_ok bytes = true -> leading_segments bytes (good ++ [sg]) ->
  Forall (segment_ok [0%nat; va_index 4 pmo]) good ->
  (segment_ok [0%nat; va_index 4 pmo] sg /\ exists p, p ∈ segment_page_list sg /\ p ∈ good ≫= segment_page_list) \/
  crosses_half sg ->
  mem_ok m -> canonical pmo -> fa_inv a -> NoDup (cr3 :: fa_avail a) -> Forall frame_ok (cr3 :: fa_avail a) ->
  exists msg, load bytes cr3 pmo args (m, a) = Panic msg.
Proof.
  intros Hhd Hlead Hok Hbad Hm Hc Hi Hnd Hfr.
  destruct (load bytes cr3 pmo args (m, a)) as [[r [m' a']]|msg] eqn:E; [exfalso|by exists msg].
  destruct (fa_avail a) as [|l4 rest] eqn:Hav.
  { destruct (new_address_space_none m cr3 pmo a Hi Hav) as [msg En]. unfold load in E. rewrite Hhd in E. cbn [negb] in E. by rewrite En in E. }
  rewrite <- Hav in Hnd, Hfr.
  destruct (new_space_hosting m cr3 pmo l4 rest a Hm Hc Hi Hav Hnd Hfr) as (m1 & a1 & En & Hh).
  destruct (load_prefix bytes args cr3 pmo m a m1 a1 l4 good [sg] _ _ _ _ r m' a' Hhd Hlead Hok En Hh E)
    as (en & phoff & phe & phn & idx & m2 & a2 & top2 & rl & ml & al & rs & ms & as_ & _ & _ & _ & _ & Hh2 & Ht & _ & Hnext & _).
  destruct (Hnext sg [] eq_refl) as [[r1 [m3 a3]] E1]. destruct Hbad as [(Hsg & p & Hp1 & Hp2)|Hx].
  - destruct (hosting_segment l4 _ _ _ _ m2 a2 top2 sg r1 m3 a3 Hh2 Hsg E1) as (_ & top3 & _ & Ht3).
    destruct (tk_mapped _ _ _ Ht p Hp2) as [f Hf]. by rewrite (tk_new _ _ _ Ht3 p Hp1) in Hf.
  - by apply (map_segment_crosses l4 sg (m2, a2) (r1, (m3, a3))).
Qed.

(** ** Segments in the kernel's part *)

(** The part of the kernel's own tables below their entry 0 is the tree
    [t]; no table of it, and not the top-level table, is a free frame. *)
Record kernel_low (m : mem) (cr3 : Z) (t : ptree 3) (a : A) : Prop := {
  kl_mem : mem_ok m;
  kl_inv : fa_inv a;
  kl_entry : pte_frame (table_entry m cr3 0) = FrameOk (root t);
  kl_repr : repr m 3 t;
  kl_nodup : NoDup (cr3 :: tables 3 t ++ fa_avail a);
  kl_frames : Forall frame_ok (cr3 :: tables 3 t ++ fa_avail a);
}.

Lemma low_tables l4 t : space_tables l4 {[0%nat := t]} ≡ₚ tables 3 t ++ [l4].
Proof.
  rewrite (space_tables_split l4 _ 0 t) by (lia || apply lookup_singleton_eq).
  rewrite delete_singleton_eq. unfold space_tables. by rewrite (bind_no_children 3).
Qed.

Lemma new_space_low m cr3 pmo l4 rest (a : A) t :
  kernel_low m cr3 t a -> canonical pmo -> va_index 4 pmo <> 0%nat -> fa_avail a = l4 :: rest ->
  exists m1 a1, new_address_space m cr3 pmo a = Ok (l4, m1, a1) /\
    hosting l4 [va_index 4 pmo] {[0%nat := t]} rest m m1 a1 {[0%nat := t]}.
Proof.
  intros [Hm Hi He Hr Hnd Hok] Hc Hs Hav. rewrite Hav in Hnd, Hok.
  assert (Hperm : cr3 :: tables 3 t ++ l4 :: rest ≡ₚ [l4] ++ cr3 :: tables 3 t ++ rest).
  { rewrite <- Permutation_middle. apply Permutation_swap. }
  assert (Hap : frames_apart cr3 l4).
  { rewrite Forall_forall in Hok. apply NoDup_cons in Hnd as [Hnd _]. apply frames_ok_apart; [apply Hok; left|apply Hok; right; apply elem_of_app; right; left|].
    intros ->. apply Hnd, elem_of_app. right. left. }
  destruct (new_address_space_ok m cr3 pmo l4 rest a Hm Hc Hi Hav Hap) as (m1 & a1 & E & Hm1 & Hi1 & Hav1 & Hout & [_ Hrs] & Hent & _).
  exists m1, a1. split; [done|]. assert (Hsum := low_tables l4 t).
  assert (Hnd' := Hnd). assert (Hok' := Hok). apply NoDup_cons in Hnd' as [_ Hnd']. apply Forall_cons in Hok' as [_ Hok'].
  rewrite Hperm in Hnd, Hok.
  assert (Hsame : forall x, in_frames (cr3 :: tables 3 t ++ rest) x -> m1 x = m x).
  { intros x Hx. apply Hout. destruct (decide (in_frame l4 x)) as [Hin|Hin]; [exfalso|unfold in_frame in Hin; lia].
    apply (in_frames_disjoint [l4] (cr3 :: tables 3 t ++ rest) x Hnd Hok); [|done]. exists l4. split; [left|done]. }
  apply hosting_start; [|done|].
  - split; [done|]. split; [|split; [done|]].
    + split; [intros i ->%list_elem_of_singleton; by apply lookup_singleton_ne|]. intros i Hlt Hns.
      destruct (decide (i = 0%nat)) as [->|Hne].
      * rewrite lookup_singleton_eq, Hent by (lia || left). split; [done|]. eapply repr_ext; [|exact Hr].
        intros x Hx. apply Hsame. eapply in_frames_incl; [|exact Hx]. intros f Hf. right. apply elem_of_app. by left.
      * rewrite lookup_singleton_ne by done. specialize (Hrs i Hlt ltac:(by intros [?|?]%elem_of_cons)). by rewrite lookup_empty in Hrs.
    + by rewrite Hsum, <- app_assoc, Hav1.
  - intros x Hx. apply Hout. destruct (decide (in_frame l4 x)) as [Hin|Hin]; [|unfold in_frame in Hin; lia].
    destruct Hx. exists l4. split; [|done]. apply elem_of_app. left. rewrite Hsum. apply elem_of_app. right. left.
Qed.

(** The process's own part of a space. *)
Lemma repr_space_own m l4 s top : repr_space m l4 [s] top -> repr_space m l4 [0%nat; s] (delete 0%nat top).
Proof.
  intros [R1 R2]. split.
  - intros i Hi. destruct (decide (i = 0%nat)) as [->|Hne]; [apply lookup_delete_eq|].
    rewrite lookup_delete_ne by done. apply R1. set_solver.
  - intros i Hlt Hi. rewrite lookup_delete_ne by set_solver. apply R2; set_solver.
Qed.

(** What is given back of the space, and what stays in the kernel's part. *)
Lemma low_released m cr3 pmo l4 rest (a : A) t m' (a' : A) top :
  kernel_low m cr3 t a -> va_index 4 pmo <> 0%nat -> fa_avail a = l4 :: rest ->
  hosting l4 [va_index 4 pmo] {[0%nat := t]} rest m m' a' top ->
  exists t' a'' lost, top !! 0%nat = Some t' /\ free_address_space m' (0, 0) l4 pmo a' = Ok a'' /\
    kernel_low m' cr3 t' a'' /\ tables 3 t' ++ lost ++ fa_avail a'' ≡ₚ tables 3 t ++ fa_avail a /\
    (forall f, f ∈ lost -> f ∈ fa_avail a) /\
    forall p f, p mod PAGE_SIZE = 0 -> 0 <= p < 2 ^ 47 -> hw_index 4 p = 0%nat ->
      space_lookup {[0%nat := t]} p = None -> space_lookup top p = Some f -> f ∈ lost.
Proof.
  intros Hk Hs Hav [(S1 & S2 & S3 & S4 & S5) (own & O1 & O2 & O3) Hkeep Hroot Hw].
  destruct (Hroot 0%nat t) as (t' & Ht' & Er); [apply lookup_singleton_eq|].
  assert (Hrepr : repr_space m' l4 [0%nat; va_index 4 pmo] (delete 0%nat top)).
  { by apply repr_space_own. }
  destruct (free_address_space_frees m' (0, 0) l4 pmo _ a' Hrepr S3) as (a'' & Ef & Hi'' & Hav'').
  assert (Hav2 : fa_avail a'' ≡ₚ space_tables l4 (delete 0%nat top) ++ (space_mappings (delete 0%nat top)).*2 ++ fa_avail a').
  { by rewrite Hav'', reverse_Permutation, freed_space_mappings, unless_borrowed_empty, <- app_assoc. }
  set (P0 := space_mappings {[0%nat := t]}) in *. set (P' := space_mappings {[0%nat := t']}).
  set (R := space_mappings (delete 0%nat top)) in *.
  rewrite (space_mappings_split top 0 t' Ht') in O1. fold P' R in O1. rewrite fmap_app in O1.
  assert (Hsub : P0 ⊆+ P').
  { apply NoDup_submseteq; [apply NoDup_space_mappings|]. intros [q g] (Hq & Hqm & Hl)%elem_of_space_mappings.
    apply elem_of_space_mappings. split_and!; [lia..|done|]. assert (Hl' := Hkeep q g Hl).
    rewrite space_lookup_singleton in Hl |- *. case_decide as E; [|done]. unfold space_lookup in Hl'. by rewrite E, Ht' in Hl'. }
  apply submseteq_Permutation in Hsub as [d Hd]. rewrite Hd, fmap_app, (Permutation_app_comm own), <- app_assoc in O1.
  apply Permutation_app_inv_l in O1.
  assert (Hsum : tables 3 t' ++ d.*2 ++ fa_avail a'' ≡ₚ tables 3 t ++ fa_avail a).
  { rewrite Hav, Hav2. transitivity (space_tables l4 {[0%nat := t]} ++ rest).
    - rewrite <- O2, <- O1, (space_tables_split l4 top 0 t' ltac:(lia) Ht'), <- !app_assoc.
      apply Permutation_app_head. rewrite (Permutation_app_swap_app (d.*2)). done.
    - by rewrite low_tables, <- app_assoc. }
  assert (Hin : forall f, f ∈ d.*2 -> f ∈ fa_avail a).
  { intros f Hf. rewrite Hav. right. apply O3. apply elem_of_app. left. rewrite <- O1. apply elem_of_app. by left. }
  assert (Hent : table_entry m' cr3 0 = table_entry m cr3 0).
  { apply table_entry_ext; [lia|]. intros x Hx. apply Hw. intros Hx'.
    apply (in_frames_disjoint [cr3] _ x (kl_nodup _ _ _ _ Hk) (kl_frames _ _ _ _ Hk)); [exists cr3; split; [left|done]|].
    eapply in_frames_incl; [|exact Hx']. intros f. by rewrite low_tables, <- app_assoc, Hav. }
  exists t', a'', (d.*2). split_and!; try done.
  - assert (Hsub : cr3 :: tables 3 t' ++ fa_avail a'' ⊆+ cr3 :: tables 3 t ++ fa_avail a).
    { rewrite <- Hsum. apply submseteq_skip, submseteq_app; [done|]. by apply submseteq_inserts_l. }
    split; [done|done|by rewrite Hent, Er, (kl_entry _ _ _ _ Hk)| | |].
    + destruct S2 as [_ R2]. specialize (R2 0%nat ltac:(lia)). rewrite Ht' in R2. apply R2. by intros ?%list_elem_of_singleton.
    + eapply NoDup_sub; [exact Hsub|apply Hk].
    + eapply Forall_sub; [exact Hsub|apply Hk].
  - intros p f Hp Hpb H4 Hn Hl. assert (HP : (p, f) ∈ P').
    { apply elem_of_space_mappings. split_and!; [lia..|done|]. rewrite space_lookup_singleton, decide_True by done.
      unfold space_lookup in Hl. by rewrite H4, Ht' in Hl. }
    rewrite Hd in HP. apply elem_of_app in HP as [(_ & _ & HP)%elem_of_space_mappings|HP]; [congruence|].
    apply list_elem_of_fmap. by exists (p, f).
Qed.

(** The kernel's own translation of a page of a tree. *)
Lemma tree_translate m l (c : ptree l) p f : repr m l c -> tree_lookup l p c = Some f ->
  translate_walk m (root c) (hw_indexes l p) = Ok (Some f).
Proof.
  revert c; induction l as [|l IH]; intros c Hr Hl; [by injection Hl as ->|].
  rewrite hw_indexes_S. cbn [translate_walk]. specialize (Hr _ (hw_index_lt (S l) p)). cbn [tree_lookup] in Hl.
  destruct (children c !! hw_index (S l) p) as [d|]; [|done]. destruct Hr as [Hf Hr]. rewrite (root_table c), Hf. by apply IH.
Qed.

Lemma low_translate m cr3 t (a : A) p f : kernel_low m cr3 t a -> p mod PAGE_SIZE = 0 -> canonical p -> hw_index 4 p = 0%nat ->
  tree_lookup 3 p t = Some f -> translate_addr m cr3 p = Ok (Some f).
Proof.
  intros Hk Hp Hc H4 Hl. unfold translate_addr, translate_addr_inner. rewrite table_indexes_hw by done.
  rewrite hw_indexes_S, H4. cbn [translate_walk]. rewrite (kl_entry _ _ _ _ Hk), (tree_translate m 3 t p f) by (done || apply Hk).
  cbn [mbind outcome_bind option_map]. rewrite va_page_offset_spec, Hp, Z.add_0_r by done. done.
Qed.

(** What the caller gets back of an address space it does not use. *)
Definition released (r : option LoadedElf) (m : mem) (pmo : Z) (a a' : A) : Prop :=
  match r with
  | Some le => free_address_space m (0, 0) (page_table le) pmo a = Ok a'
  | None => a' = a
  end.

(** A run of [load] on a file with a page [p] in the kernel's part. *)
Lemma load_low bytes args good p m cr3 pmo (a : A) t r m' a' :
  header_ok bytes = true -> Forall is_u8 bytes -> Forall is_u8 args -> placed [va_index 4 pmo] bytes ->
  leading_segments bytes good -> Forall (segment_ok [va_index 4 pmo]) good ->
  p ∈ good ≫= segment_page_list -> hw_index 4 p = 0%nat ->
  kernel_low m cr3 t a -> canonical pmo -> va_index 4 pmo <> 0%nat ->
  load bytes cr3 pmo args (m, a) = Ok (r, (m', a')) ->
  tree_lookup 3 p t = None /\
  exists t' a'' lost f, released r m' pmo a' a'' /\ kernel_low m' cr3 t' a'' /\ tree_lookup 3 p t' = Some f /\
    tables 3 t' ++ lost ++ fa_avail a'' ≡ₚ tables 3 t ++ fa_avail a /\ f ∈ lost /\ f ∈ fa_avail a.
Proof.
  intros Hhd Hb Hab Hpl Hlead Hok Hp H4 Hk Hc Hs E. rewrite <- (app_nil_r good) in Hlead.
  assert (Hpp : p mod PAGE_SIZE = 0 /\ 0 <= p < 2 ^ 47).
  { apply list_elem_of_bind in Hp as (sg & Hin & Hsg). rewrite Forall_forall in Hok. destruct (Hok sg Hsg) as (_ & S2 & S3 & S4 & S5 & _).
    assert (Hbd := segment_page_bound sg p S4 Hin). split; [|lia]. apply elem_of_stride in Hin as (k & _ & ->).
    rewrite Z.mul_comm, Z.mod_add by done. done. }
  destruct (fa_avail a) as [|l4 rest] eqn:Hav.
  { destruct (new_address_space_none m cr3 pmo a (kl_inv _ _ _ _ Hk) Hav) as [msg En].
    unfold load in E. rewrite Hhd in E. cbn [negb] in E. by rewrite En in E. }
  rewrite <- Hav. destruct (new_space_low m cr3 pmo l4 rest a t Hk Hc Hs Hav) as (m1 & a1 & En & Hh).
  destruct (load_prefix bytes args cr3 pmo m a m1 a1 l4 good [] _ _ _ _ r m' a' Hhd Hlead Hok En Hh E)
    as (en & phoff & phe & phn & idx & m2 & a2 & top2 & rl & ml & al & rs & ms & as_ & R0 & R1 & R2 & R3 & Hh2 & Ht & El & _ & Hparse & Es & Hends).
  assert (Hn := tk_new _ _ _ Ht p Hp). assert (Hm2 := tk_mapped _ _ _ Ht p Hp).
  split; [by rewrite space_lookup_singleton, decide_True in Hn|].
  assert (HI := hosting_keeps_segments l4 [va_index 4 pmo] {[0%nat := t]} rest m top2).
  destruct (load_segments_run l4 _ bytes Hb _ HI phoff phe idx (highest_end 0 good) m2 a2 rl ml al) as [HIl Hh'];
    [intros i sg; by apply (pl_segments _ _ Hpl)|by exists top2|done|].
  assert (HIs : exists top, hosting l4 [va_index 4 pmo] {[0%nat := t]} rest m ms as_ top /\
    forall q, is_Some (space_lookup top2 q) -> is_Some (space_lookup top q)).
  { destruct rl as [h|]; [|by injection Es as <- <- <-]. destruct (Hh' h eq_refl) as (post & Hpost & ->).
    destruct (pl_stack _ _ Hpl en (good ++ post) (Hparse post Hpost)) as (B & B1 & B2).
    apply (stack_and_args_run l4 [va_index 4 pmo] _ HI args en (good ++ post) ml al rs ms as_); try done.
    unfold highest_end in *. by rewrite foldl_app. }
  destruct HIs as (top & Hho & Hkeep). destruct (Hkeep p Hm2) as [f Hf].
  destruct (low_released m cr3 pmo l4 rest a t ms as_ top Hk Hs Hav Hho) as (t' & a'' & lost & Ht' & Efree & Hk' & Hsum & Hin & Hlost).
  assert (Hfl := Hlost p f (proj1 Hpp) (proj2 Hpp) H4 Hn Hf). destruct Hends as [-> Hends].
  exists t', a'', lost, f. split_and!; [|done| |done|done|by apply Hin].
  - destruct rs as [[[[en' st] ap] len]|]; destruct Hends as [-> Hends]; unfold released; cbn [page_table]; [by rewrite Hends|congruence].
  - unfold space_lookup in Hf. by rewrite H4, Ht' in Hf.
Qed.

End Load.

Section HazardWitness.
#[local] Existing Instance x86_crate.
#[local] Existing Instance ref_mapper.

Definition sample_overlap : list Z := sample_elf [(0x600000000000, 0x20); (0x600000000000, 0x20)] [0xeb; 0xfe].
Definition sample_segment (vaddr : Z) : segment := mkSegment [0xeb; 0xfe] vaddr 0x20 false.

Lemma sample_segment_ok shared vaddr : 0 <= vaddr -> vaddr mod PAGE_SIZE = 0 -> vaddr + 0x20 <= 2 ^ 47 -> hw_index 4 vaddr ∉ shared ->
  segment_ok shared (sample_segment vaddr).
Proof.
  intros Hv Hal He Hs. unfold segment_ok. cbn [seg_bytes seg_vaddr seg_memsz sample_segment]. split_and!; try lia; try done.
  - repeat constructor; unfold is_u8; lia.
  - intros p (k & Hk & ->)%elem_of_stride. change (page_count (seg_memsz (sample_segment vaddr))) with 1%nat in Hk.
    assert (k = 0%nat) as -> by lia. cbn [seg_vaddr sample_segment]. by rewrite Z.mul_0_r, Z.add_0_r.
Qed.

Lemma u8_check bytes : forallb (fun b => (0 <=? b) && (b <? 256)) bytes = true -> Forall is_u8 bytes.
Proof.
  intros Hb. apply Forall_forall. intros b Hin%list_elem_of_In. rewrite forallb_forall in Hb. specialize (Hb b Hin).
  unfold is_u8. lia.
Qed.

Lemma sample_ram_apart f : 0 <= f < 0x100000 -> f mod PAGE_SIZE = 0 ->
  NoDup (f :: fa_avail (frame_allocator_init sample_ram)) /\ Forall frame_ok (f :: fa_avail (frame_allocator_init sample_ram)).
Proof.
  intros Hf Hm. destruct sample_ram_lawful as [_ ->], sample_ram_frames as [Hnd Hok]. split.
  - apply NoDup_cons. split; [|done]. change (f ∉ stride 0x100000 4096 256). intros (k & _ & E)%elem_of_stride. lia.
  - apply Forall_cons. split; [|done]. split; [done|lia].
Qed.

Lemma load_conflict_panics_witness :
  exists msg, load sample_overlap 0x11000 (3 * 2 ^ 39) [] (sample_kernel_tables, frame_allocator_init sample_ram) = Panic msg.
Proof.
  assert (Hsg : segment_ok [0%nat; va_index 4 (3 * 2 ^ 39)] (sample_segment 0x600000000000)).
  { apply sample_segment_ok; [lia|done|lia|]. apply (bool_decide_unpack _). by vm_compute. }
  assert (Hin : 0x600000000000 ∈ segment_page_list (sample_segment 0x600000000000)) by left.
  destruct (sample_ram_apart 0x11000) as [Hnd Hok]; [lia|done|].
  apply (load_conflict_panics sample_overlap [] [sample_segment 0x600000000000] (sample_segment 0x600000000000)).
  - vm_compute. reflexivity.
  - exists 64, 56, 2, 2%nat. split; [vm_compute; reflexivity|]. split; [vm_compute; reflexivity|].
    split; [vm_compute; reflexivity|]. split; [vm_compute; lia|]. vm_compute. reflexivity.
  - constructor; [exact Hsg|constructor].
  - left. split; [exact Hsg|]. exists 0x600000000000. split; [exact Hin|]. rewrite bind_cons. apply elem_of_app. left. exact Hin.
  - apply sample_kernel_tables_ok.
  - unfold canonical. lia.
  - apply sample_ram_lawful.
  - exact Hnd.
  - exact Hok.
Defined.

(** A file that announces two program headers and ends after the first,
    which asks for a page in the kernel's part. *)
Definition sample_low : list Z :=
  elf_header 0x1000000000 2 ++ elf_program_header 120 2 0x1000000000 0x20 ++ [0xeb; 0xfe].

Lemma sample_low_slot : hw_index 4 0x1000000000 = 0%nat.
Proof. vm_compute. reflexivity. Qed.

Lemma sample_low_placed : placed [va_index 4 (3 * 2 ^ 39)] sample_low.
Proof.
  assert (Hn : forall i, parse_segment sample_low 64 56 (S i) = None).
  { intros i. unfold parse_segment.
    destruct (checked_mul _ _) as [ofs|] eqn:E1; [|done]. apply checked_mul_Some in E1 as [ -> _]. cbn [mbind option_bind].
    destruct (checked_add _ _) as [ph|] eqn:E2; [|done]. apply checked_add_Some in E2 as [ -> _]. cbn [mbind option_bind].
    unfold read_u32 at 1. rewrite (read_uint_short 4 _ _ 0); [done|]. change (Z.of_nat (length sample_low)) with 122. lia. }
  split.
  - intros phoff phe i sg E1 E2. assert (phoff = 64) as -> by (vm_compute in E1; congruence).
    assert (phe = 56) as -> by (vm_compute in E2; congruence). destruct i as [|i]; [|by rewrite Hn].
    intros E. assert (sg = sample_segment 0x1000000000) as -> by (vm_compute in E; injection E as <-; reflexivity).
    destruct (sample_segment_ok [va_index 4 (3 * 2 ^ 39)] 0x1000000000) as (_ & S2 & _ & S4 & S5 & S6); [lia|done|lia| |done].
    apply (bool_decide_unpack _). by vm_compute.
  - intros e segs E. exfalso. vm_compute in E. congruence.
Qed.

Lemma sample_kernel_low : kernel_low sample_kernel_tables 0x11000 ((0x12000, ∅) : ptree 3) (frame_allocator_init sample_ram).
Proof.
  destruct (sample_ram_apart 0x11000) as [Hnd1 Hok1]; [lia|done|]. destruct (sample_ram_apart 0x12000) as [Hnd2 Hok2]; [lia|done|].
  assert (Ht : tables 3 ((0x12000, ∅) : ptree 3) = [0x12000]).
  { change (tables 3 ((0x12000, ∅) : ptree 3)) with (0x12000 :: (entry_indexes ≫= at_child (fun _ => tables 2) (∅ : gmap nat (ptree 2)))).
    by rewrite bind_no_children. }
  split.
  - apply sample_kernel_tables_ok.
  - apply sample_ram_lawful.
  - vm_compute. reflexivity.
  - intros i Hi. unfold children, table. cbn [fst snd]. rewrite lookup_empty.
    rewrite (table_entry_ext sample_kernel_tables (fun _ => 0)); [|done|].
    + unfold table_entry, read_u64_at, read_bytes. reflexivity.
    + intros x Hx. unfold sample_kernel_tables. unfold PAGE_SIZE in Hx.
      rewrite !set_table_entry_outside by (unfold PAGE_SIZE; lia). reflexivity.
  - rewrite Ht. apply NoDup_cons. split; [|exact Hnd2]. apply NoDup_cons in Hnd1 as [Hnd1 _].
    intros [E|Hin]%elem_of_cons; [discriminate E|]. by apply Hnd1.
  - rewrite Ht. apply Forall_cons. split; [|exact Hok2]. by apply Forall_cons in Hok1 as [? _].
Qed.

End HazardWitness.
