(* ===== verification/Threads.v ===== *)
(** * Threads and the kernel state (src/scheduler/mod.rs)

    The data of the scheduler as the source has it, the part of the machine
    its operations act on, and the ready queue.  [ReadyQueue] is an instance
    of the queue interface of [Ring]. *)

From S2P Require Import Prelude Ring X86 FrameAlloc.

Definition MAX_THREADS : nat := 16.
Definition STACK_SIZE : Z := 64 * 1024.
Definition MAX_OPEN_FILES : nat := 4.
Definition FIRST_FILE_FD : Z := 2.

Abbreviation ThreadId := nat (only parsing).

Record OpenFile := mkOpenFile { data : list Z; offset : nat }.

(** A function of type [fn() -> !] is its address, a null [stack_base]
    is 0. *)
Record Thread := mkThread {
  stack_pointer : Z;
  stack_base : Z;
  stack_size : Z;
  entry : option Z;
  page_table : option Z;
  kernel_stack_top : Z;
  open_files : list (option OpenFile);
  user_entry : option (Z * Z * Z * Z);
}.

Definition no_open_files : list (option OpenFile) := replicate MAX_OPEN_FILES None.

(** The boot thread, as [init] registers it. *)
Definition boot_thread : Thread := mkThread 0 0 0 None None 0 no_open_files None.

Definition set_stack_pointer (sp : Z) (t : Thread) : Thread :=
  mkThread sp (stack_base t) (stack_size t) (entry t) (page_table t) (kernel_stack_top t)
    (open_files t) (user_entry t).
Definition set_entry (e : option Z) (t : Thread) : Thread :=
  mkThread (stack_pointer t) (stack_base t) (stack_size t) e (page_table t) (kernel_stack_top t)
    (open_files t) (user_entry t).
Definition set_user_entry (e : option (Z * Z * Z * Z)) (t : Thread) : Thread :=
  mkThread (stack_pointer t) (stack_base t) (stack_size t) (entry t) (page_table t)
    (kernel_stack_top t) (open_files t) e.
Definition set_open_files (fs : list (option OpenFile)) (t : Thread) : Thread :=
  mkThread (stack_pointer t) (stack_base t) (stack_size t) (entry t) (page_table t)
    (kernel_stack_top t) fs (user_entry t).

(** ** The ready queue *)

Record ReadyQueue := mkReadyQueue { ids : list ThreadId; head : nat; len : nat }.

Definition ready_queue_new : ReadyQueue := mkReadyQueue (replicate MAX_THREADS 0%nat) 0 0.

Definition push_back (q : ReadyQueue) (id : ThreadId) : outcome ReadyQueue :=
  _ ← assert_ (len q <? MAX_THREADS)%nat "ready queue full";
  let index := ((head q + len q) mod MAX_THREADS)%nat in
  Ok (mkReadyQueue (<[index := id]> (ids q)) (head q) (len q + 1)).

(** The array access [ids[head]] panics out of range, which the invariant
    of the queue excludes. *)
Definition pop_front (q : ReadyQueue) : outcome (option ThreadId * ReadyQueue) :=
  if (len q =? 0)%nat then Ok (None, q)
  else
    id ← expect (ids q !! head q) "index out of bounds";
    Ok (Some id, mkReadyQueue (ids q) ((head q + 1) mod MAX_THREADS) (len q - 1)).

(** The queue as a list of thread ids, oldest first. *)
Definition ready_list (q : ReadyQueue) : list ThreadId :=
  ring_contents MAX_THREADS (ids q) (head q) (len q).

Definition ready_inv (q : ReadyQueue) : Prop := ring_inv MAX_THREADS (ids q) (head q) (len q).

Lemma ready_new : ready_inv ready_queue_new /\ ready_list ready_queue_new = [].
Proof. split; [|done]. unfold ready_inv, ring_inv, MAX_THREADS. simpl. lia. Qed.

Lemma push_back_ok q id : ready_inv q -> (length (ready_list q) < MAX_THREADS)%nat ->
  exists q', push_back q id = Ok q' /\ ready_inv q' /\ ready_list q' = ready_list q ++ [id].
Proof.
  intros Hq Hlt. unfold ready_list in *. rewrite length_ring_contents in Hlt by done.
  unfold push_back. rewrite (proj2 (Nat.ltb_lt _ _) Hlt).
  cbn [assert_ mbind outcome_bind]. eexists. split; [done|].
  rewrite Nat.add_1_r. cbn [ids head len]. split.
  - destruct Hq as (? & ? & ?). unfold ready_inv, ring_inv. simpl. rewrite length_insert. lia.
  - by apply ring_contents_snoc.
Qed.

Lemma push_back_full q id : ready_inv q -> length (ready_list q) = MAX_THREADS ->
  push_back q id = Panic "ready queue full".
Proof.
  intros Hq Hl. unfold ready_list in Hl. rewrite length_ring_contents in Hl by done.
  unfold push_back. by rewrite Hl.
Qed.

Lemma pop_front_empty q : ready_inv q -> ready_list q = [] -> pop_front q = Ok (None, q).
Proof.
  intros Hq Hl. assert (len q = 0%nat) as E.
  { rewrite <- (length_ring_contents MAX_THREADS (ids q) (head q) (len q)) by done. by apply length_zero_iff_nil. }
  unfold pop_front. by rewrite E.
Qed.

Lemma pop_front_ok q x l : ready_inv q -> ready_list q = x :: l ->
  exists q', pop_front q = Ok (Some x, q') /\ ready_inv q' /\ ready_list q' = l.
Proof.
  intros Hq Hl. assert (Hlen : len q = S (length l)).
  { rewrite <- (length_ring_contents MAX_THREADS (ids q) (head q) (len q)) by done.
    unfold ready_list in Hl. by rewrite Hl. }
  destruct (ring_contents_cons MAX_THREADS (ids q) (head q) (len q)) as (y & Hy & Hc); [done|lia|].
  unfold ready_list in *. rewrite Hc in Hl. simplify_eq.
  unfold pop_front. rewrite (proj2 (Nat.eqb_neq _ _)) by lia. rewrite Hy.
  cbn [expect mbind outcome_bind]. eexists. split; [done|]. cbn [ids head len]. split.
  - destruct Hq as (? & ? & ?). unfold ready_inv, ring_inv. cbn [ids head len]. split_and!; [done| |lia].
    apply Nat.mod_upper_bound. unfold MAX_THREADS. lia.
  - done.
Qed.

(** [ReadyQueue] is a bounded queue: a push that panics is refused. *)
#[export, refine] Instance ReadyQueue_bounded : BoundedQueue ReadyQueue ThreadId := {|
  bq_capacity := MAX_THREADS;
  bq_push q x := match push_back q x with Ok q' => Some q' | Panic _ => None end;
  bq_pop q := match pop_front q with Ok (Some x, q') => Some (x, q') | _ => None end;
  bq_inv := ready_inv;
  bq_list := ready_list;
|}.
Proof.
  - intros q Hq. unfold ready_list. rewrite length_ring_contents by done. apply Hq.
  - intros q x Hq Hlt. destruct (push_back_ok q x Hq Hlt) as (q' & -> & ?). eauto.
  - intros q x Hq Hf. by rewrite push_back_full.
  - intros q Hq He. by rewrite pop_front_empty.
  - intros q x l Hq He. destruct (pop_front_ok q x l Hq He) as (q' & -> & ?). eauto.
Defined.

(** ** The state of the scheduler *)

Record SchedulerState := mkSchedulerState {
  threads : list (option Thread);
  ready_queue : ReadyQueue;
  current : ThreadId;
  kernel_page_table : Z;
  zombie : option ThreadId;
  slot_generations : list Z;
}.

Definition set_threads (ts : list (option Thread)) (s : SchedulerState) : SchedulerState :=
  mkSchedulerState ts (ready_queue s) (current s) (kernel_page_table s) (zombie s) (slot_generations s).
Definition set_ready_queue (q : ReadyQueue) (s : SchedulerState) : SchedulerState :=
  mkSchedulerState (threads s) q (current s) (kernel_page_table s) (zombie s) (slot_generations s).
Definition set_current (id : ThreadId) (s : SchedulerState) : SchedulerState :=
  mkSchedulerState (threads s) (ready_queue s) id (kernel_page_table s) (zombie s) (slot_generations s).
Definition set_zombie (z : option ThreadId) (s : SchedulerState) : SchedulerState :=
  mkSchedulerState (threads s) (ready_queue s) (current s) (kernel_page_table s) z (slot_generations s).
Definition set_generations (g : list Z) (s : SchedulerState) : SchedulerState :=
  mkSchedulerState (threads s) (ready_queue s) (current s) (kernel_page_table s) (zombie s) g.

(** ** Process ids *)

Definition Pid : Type := Z.

(** [generation << 8] keeps the low 64 bits of the product. *)
Definition pack_pid (slot : ThreadId) (generation : Z) : Pid :=
  Z.lor (Z.shiftl generation 8 mod 2 ^ 64) (Z.of_nat slot).

Definition unpack_pid (pid : Pid) : ThreadId * Z :=
  (Z.to_nat (Z.land pid 0xff), Z.shiftr pid 8).

Lemma unpack_pack_pid slot generation :
  (slot < 256)%nat -> 0 <= generation < 2 ^ 56 ->
  unpack_pid (pack_pid slot generation) = (slot, generation).
Proof.
  intros Hs Hg. unfold unpack_pid, pack_pid.
  rewrite Z.shiftl_mul_pow2, Z.mod_small by lia.
  assert (E : Z.lor (generation * 2 ^ 8) (Z.of_nat slot) = generation * 2 ^ 8 + Z.of_nat slot).
  { rewrite <- Z.lxor_lor, Z.add_nocarry_lxor; [done| |];
    rewrite <- Z.shiftl_mul_pow2 by lia; apply Z.bits_inj'; intros i Hi;
    rewrite Z.land_spec, Z.bits_0;
    (destruct (Z.lt_ge_cases i 8);
      [rewrite Z.shiftl_spec_low by lia; done
      |rewrite (Z.bits_above_log2 (Z.of_nat slot)), andb_false_r; [done|lia|];
       destruct slot; [simpl; lia|]; apply Z.log2_lt_pow2; [lia|];
       apply (Z.lt_le_trans _ (2 ^ 8)); [lia|apply Z.pow_le_mono_r; lia]]). }
  rewrite E. change 0xff with (Z.ones 8). rewrite Z.land_ones, Z.shiftr_div_pow2 by lia.
  rewrite Z.div_add_l, Z.div_small by lia. f_equal; [|lia].
  rewrite Z.add_comm, Z.mod_add, Z.mod_small; lia.
Qed.
