(* ===== verification/Scheduler.v ===== *)
(** * The scheduler (src/scheduler/mod.rs)

    Every operation of the scheduler on the kernel state: the locked
    [SCHEDULER] static, the registers a switch changes, the heap and the
    frame allocator.  An operation is a state transformer that may panic. *)

From S2P Require Import Prelude Ring X86 FrameAlloc Paging AddressSpace Mapper Threads.

(** ** The kernel heap

    [alloc::alloc::alloc] and [dealloc] of the linked_list_allocator crate;
    a block is its address and size.  What goes through it here are the
    kernel stacks and the values of [run_bringup_demo]; the storage of the
    kernel's other collections (the free list of the frame allocator, the
    data of open files, the queue of scancodes, the tables of the executor)
    does not. *)

Definition block_disjoint (b c : Z * Z) : Prop := b.1 + b.2 <= c.1 \/ c.1 + c.2 <= b.1.

Class KernelHeap (H : Type) := {
  heap_alloc : Z -> Z -> H -> option Z * H;
  heap_dealloc : Z -> Z -> Z -> H -> H;
  heap_inv : H -> Prop;
  heap_live : H -> list (Z * Z);
  heap_alloc_some h size align p h' : heap_inv h -> 0 < size ->
    heap_alloc size align h = (Some p, h') ->
    heap_inv h' /\ heap_live h' = (p, size) :: heap_live h /\
    p mod align = 0 /\ 0 < p /\ p + size < 2 ^ 47 /\ Forall (block_disjoint (p, size)) (heap_live h);
  heap_alloc_none h size align h' : heap_inv h ->
    heap_alloc size align h = (None, h') -> heap_inv h' /\ heap_live h' = heap_live h;
  heap_dealloc_ok h p size align : heap_inv h -> (p, size) ∈ heap_live h ->
    heap_inv (heap_dealloc p size align h) /\
    heap_live h ≡ₚ (p, size) :: heap_live (heap_dealloc p size align h);
}.

(** ** The kernel state *)

(** Where a thread that is not running continues: at the start of
    [thread_trampoline], or after the [switch_to] of its own call of
    [schedule], whose local [interrupts_were_enabled] is on its stack, or
    after the [switch_to] of [exit_current_thread]. *)
Inductive Resume := AtTrampoline | InSchedule (interrupts_were_enabled : bool) | Exited.

Record Kernel (H : Type) := mkKernel {
  scheduler : option SchedulerState;
  scheduler_locked : bool;
  rsp : Z;
  cr3 : Z;
  rsp0 : Z;
  interrupts_enabled : bool;
  suspended : list Resume;
  kmem : mem;
  phys : mem;
  frames : GlobalFrameAllocator;
  heap : H;
  physical_memory_offset : option Z;
}.
Arguments mkKernel {H}.
Arguments scheduler {H}. Arguments scheduler_locked {H}. Arguments rsp {H}. Arguments cr3 {H}.
Arguments rsp0 {H}. Arguments interrupts_enabled {H}. Arguments suspended {H}. Arguments kmem {H}.
Arguments phys {H}. Arguments frames {H}. Arguments heap {H}. Arguments physical_memory_offset {H}.

Section Setters.
Context {H : Type}.
Implicit Types k : Kernel H.

Definition set_scheduler (s : option SchedulerState) (locked : bool) k : Kernel H :=
  mkKernel s locked (rsp k) (cr3 k) (rsp0 k) (interrupts_enabled k) (suspended k) (kmem k) (phys k)
    (frames k) (heap k) (physical_memory_offset k).
Definition set_cr3 (v : Z) k : Kernel H :=
  mkKernel (scheduler k) (scheduler_locked k) (rsp k) v (rsp0 k) (interrupts_enabled k) (suspended k)
    (kmem k) (phys k) (frames k) (heap k) (physical_memory_offset k).
Definition set_rsp (v : Z) k : Kernel H :=
  mkKernel (scheduler k) (scheduler_locked k) v (cr3 k) (rsp0 k) (interrupts_enabled k) (suspended k)
    (kmem k) (phys k) (frames k) (heap k) (physical_memory_offset k).
Definition set_rsp0_field (v : Z) k : Kernel H :=
  mkKernel (scheduler k) (scheduler_locked k) (rsp k) (cr3 k) v (interrupts_enabled k) (suspended k)
    (kmem k) (phys k) (frames k) (heap k) (physical_memory_offset k).
Definition set_interrupts (b : bool) k : Kernel H :=
  mkKernel (scheduler k) (scheduler_locked k) (rsp k) (cr3 k) (rsp0 k) b (suspended k)
    (kmem k) (phys k) (frames k) (heap k) (physical_memory_offset k).
Definition set_suspended (r : list Resume) k : Kernel H :=
  mkKernel (scheduler k) (scheduler_locked k) (rsp k) (cr3 k) (rsp0 k) (interrupts_enabled k) r
    (kmem k) (phys k) (frames k) (heap k) (physical_memory_offset k).
Definition set_kmem (m : mem) k : Kernel H :=
  mkKernel (scheduler k) (scheduler_locked k) (rsp k) (cr3 k) (rsp0 k) (interrupts_enabled k)
    (suspended k) m (phys k) (frames k) (heap k) (physical_memory_offset k).
Definition set_memory (m : mem) (a : GlobalFrameAllocator) k : Kernel H :=
  mkKernel (scheduler k) (scheduler_locked k) (rsp k) (cr3 k) (rsp0 k) (interrupts_enabled k)
    (suspended k) (kmem k) m a (heap k) (physical_memory_offset k).
Definition set_heap (h : H) k : Kernel H :=
  mkKernel (scheduler k) (scheduler_locked k) (rsp k) (cr3 k) (rsp0 k) (interrupts_enabled k)
    (suspended k) (kmem k) (phys k) (frames k) h (physical_memory_offset k).
End Setters.

(** ** Operations *)

Section Operations.
Context {crate : X86Crate} {mapper : PageMapper} {H : Type} {kheap : KernelHeap H}.

Local Abbreviation K := (M (Kernel H)).

(** [interrupts::enable], [disable], [without_interrupts]. *)
Definition enable : K unit := modify (set_interrupts true).
Definition disable : K unit := modify (set_interrupts false).

Definition without_interrupts {A} (f : K A) : K A :=
  saved ← gets interrupts_enabled;
  _ ← disable;
  r ← f;
  _ ← (if saved : bool then enable else mret tt);
  mret r.

(** [SCHEDULER.lock()]: on one processor, with interrupts off, taking a
    lock that is held spins for ever. *)
Definition lock : K (option SchedulerState) := fun k =>
  if scheduler_locked k then Panic "deadlock: SCHEDULER is locked"
  else Ok (scheduler k, set_scheduler (scheduler k) true k).

(** The guard goes out of scope with the state [s]. *)
Definition unlock (s : option SchedulerState) : K unit := modify (set_scheduler s false).

(** [f] on the scheduler state under the lock. *)
Definition with_scheduler {A} (msg : string) (f : SchedulerState -> outcome (A * SchedulerState)) : K A :=
  g ← lock;
  s ← lift (expect g msg);
  '(r, s') ← lift (f s);
  _ ← unlock (Some s');
  mret r.

(** [init]: the running context becomes thread 0. *)
Definition init : K unit :=
  let threads := Some boot_thread :: replicate (MAX_THREADS - 1) None in
  let slot_generations := 1 :: replicate (MAX_THREADS - 1) 0 in
  without_interrupts (
    kernel_page_table ← gets cr3;
    _ ← lock;
    unlock (Some (mkSchedulerState threads ready_queue_new 0%nat kernel_page_table None slot_generations))).

Definition get_kernel_page_table : K Z :=
  without_interrupts (with_scheduler "scheduler not initialized"
    (fun s => Ok (kernel_page_table s, s))).

(** [state.threads[id].as_mut().expect(msg)], then the thread updated. *)
Definition update_thread {A} (id : ThreadId) (msg : string) (f : Thread -> outcome (A * Thread))
    (s : SchedulerState) : outcome (A * SchedulerState) :=
  slot ← expect (threads s !! id) "index out of bounds";
  t ← expect slot msg;
  '(r, t') ← f t;
  Ok (r, set_threads (<[id := Some t']> (threads s)) s).

Definition with_current_thread {A} (f : Thread -> outcome (A * Thread)) : K A :=
  without_interrupts (
    caller_page_table ← gets cr3;
    g ← lock;
    s ← lift (expect g "scheduler not initialized");
    let needs_switch := negb (caller_page_table =? kernel_page_table s) in
    _ ← (if needs_switch then modify (set_cr3 (kernel_page_table s)) else mret tt);
    '(r, s') ← lift (update_thread (current s) "current thread missing from thread table" f s);
    _ ← (if needs_switch then modify (set_cr3 caller_page_table) else mret tt);
    _ ← unlock (Some s');
    mret r).

(** *** Open files *)

Definition open_file_body (d : list Z) (t : Thread) : outcome (option Z * Thread) :=
  match position_none (open_files t) with
  | None => Ok (None, t)
  | Some slot =>
      fd ← add_w 64 (Z.of_nat slot) FIRST_FILE_FD;
      Ok (Some fd, set_open_files (<[slot := Some (mkOpenFile d 0)]> (open_files t)) t)
  end.

Definition open_file (d : list Z) : K (option Z) := with_current_thread (open_file_body d).

(** The bytes copied into the front of [buf]; [buf_len] is [buf.len()]. *)
Definition read_open_file_body (fd : Z) (buf_len : nat) (t : Thread)
    : outcome (option (list Z) * Thread) :=
  match checked_sub fd FIRST_FILE_FD with
  | None => Ok (None, t)
  | Some slot =>
      match open_files t !! Z.to_nat slot with
      | Some (Some file) =>
          remaining ← expect (slice (data file) (Z.of_nat (offset file)) (Z.of_nat (length (data file))))
            "range start index out of range for slice";
          let count := Nat.min (length remaining) buf_len in
          Ok (Some (take count remaining),
              set_open_files (<[Z.to_nat slot := Some (mkOpenFile (data file) (offset file + count))]>
                (open_files t)) t)
      | _ => Ok (None, t)
      end
  end.

Definition read_open_file (fd : Z) (buf_len : nat) : K (option (list Z)) :=
  with_current_thread (read_open_file_body fd buf_len).

Definition close_file_body (fd : Z) (t : Thread) : outcome (bool * Thread) :=
  match checked_sub fd FIRST_FILE_FD with
  | None => Ok (false, t)
  | Some slot =>
      match open_files t !! Z.to_nat slot with
      | Some (Some _) => Ok (true, set_open_files (<[Z.to_nat slot := None]> (open_files t)) t)
      | _ => Ok (false, t)
      end
  end.

Definition close_file (fd : Z) : K bool := with_current_thread (close_file_body fd).

(** *** Spawning *)

(** The frame [build_initial_stack] lays down: the word at [dst - 8 * i]
    is element [i]. *)
Definition initial_frame (thread_trampoline : Z) : list Z := [thread_trampoline; 0; 0; 0; 0; 0; 0].

Definition build_initial_stack (thread_trampoline : Z) (m : mem) (stack_base : Z) : Z * mem :=
  let stack_end := stack_base + STACK_SIZE in
  let frame_top := stack_end - 16 in
  let frame := initial_frame thread_trampoline in
  let m' := foldl (fun m '(i, word) => write_u64_at m (frame_top - 8 * Z.of_nat i) word) m
              (imap pair frame) in
  (frame_top - (Z.of_nat (length frame) - 1) * 8, m').

(** The allocation of a stack and its first frame. *)
Definition new_stack (thread_trampoline : Z) : K (Z * Z) := fun k =>
  let '(p, h) := heap_alloc STACK_SIZE 4096 (heap k) in
  match p with
  | None => Panic "kernel thread stack allocation failed"
  | Some stack_base =>
      let '(sp, m) := build_initial_stack thread_trampoline (kmem k) stack_base in
      Ok ((stack_base, sp), set_kmem m (set_heap h k))
  end.

(** The new thread in the first free slot, and at the end of the queue. *)
Definition register_thread (make : Thread) (s : SchedulerState) : outcome (Pid * SchedulerState) :=
  id ← expect (position_none (threads s)) "thread table full (MAX_THREADS exceeded)";
  g ← expect (slot_generations s !! id) "index out of bounds";
  generation ← add_w 64 g 1;
  q ← push_back (ready_queue s) id;
  Ok (pack_pid id generation,
      set_ready_queue q (set_threads (<[id := Some make]> (threads s))
        (set_generations (<[id := generation]> (slot_generations s)) s))).

(** A new thread continues at the trampoline; its slot is the one
    [register_thread] took. *)
Definition start_at_trampoline (pid : Pid) : K unit :=
  modify (fun k => set_suspended (<[(unpack_pid pid).1 := AtTrampoline]> (suspended k)) k).

Definition spawn (thread_trampoline entry : Z) : K unit :=
  without_interrupts (
    '(stack_base, stack_pointer) ← new_stack thread_trampoline;
    pid ← with_scheduler "scheduler::init must be called before spawn"
      (register_thread (mkThread stack_pointer stack_base STACK_SIZE (Some entry) None
         (stack_base + STACK_SIZE) no_open_files None));
    start_at_trampoline pid).

(** One page of the loop of [spawn_isolated_inner]: the frame of the kernel's
    mapping, mapped at the same page of the isolated table, for ring 0 only. *)
Definition share_page (kernel_table l4 page : Z) : K unit := fun k =>
  match translate_page (phys k) kernel_table page with
  | None => Panic "thread stack page vanished right after being allocated"
  | Some frame =>
      r ← map_to (phys k) l4 page frame (Z.lor PRESENT WRITABLE) (frames k);
      match r with
      | (None, m, a) => Ok (tt, set_memory m a k)
      | (Some _, _, _) => Panic "failed to share a thread stack page into its isolated address space"
      end
  end.

Fixpoint share_pages (kernel_table l4 : Z) (pages : list Z) : K unit :=
  match pages with
  | [] => mret tt
  | page :: rest => _ ← share_page kernel_table l4 page; share_pages kernel_table l4 rest
  end.

Definition stack_pages (stack_base : Z) : list Z :=
  stride (page_containing stack_base) PAGE_SIZE (Z.to_nat (STACK_SIZE / 4096)).

(** [kernel_table] is the table of the caller's [kernel_mapper]. *)
Definition spawn_isolated_inner (thread_trampoline entry : Z) (user_entry : option (Z * Z * Z * Z))
    (page_table kernel_table : Z) : K Pid :=
  without_interrupts (
    '(stack_base, stack_pointer) ← new_stack thread_trampoline;
    stack_start ← lift (va_new stack_base);
    _ ← share_pages kernel_table page_table (stack_pages stack_start);
    pid ← with_scheduler "scheduler::init must be called before spawn_isolated"
      (register_thread (mkThread stack_pointer stack_base STACK_SIZE (Some entry) (Some page_table)
         (stack_base + STACK_SIZE) no_open_files user_entry));
    _ ← start_at_trampoline pid;
    mret pid).

Definition spawn_isolated (thread_trampoline entry page_table kernel_table : Z) : K Pid :=
  spawn_isolated_inner thread_trampoline entry None page_table kernel_table.

Definition spawn_user (thread_trampoline ring3_trampoline user_entry user_stack_top args_ptr args_len
    page_table kernel_table : Z) : K Pid :=
  spawn_isolated_inner thread_trampoline ring3_trampoline
    (Some (user_entry, user_stack_top, args_ptr, args_len)) page_table kernel_table.

(** *** Trampolines *)

(** The first code of a new thread; the result is the address it calls. *)
Definition thread_trampoline_body : K Z :=
  e ← without_interrupts (with_scheduler "scheduler not initialized" (fun s =>
    slot ← expect (threads s !! current s) "index out of bounds";
    match slot with
    | Some t =>
        e ← expect (entry t) "thread_trampoline entered for a thread with no entry point";
        Ok (e, set_threads (<[current s := Some (set_entry None t)]> (threads s)) s)
    | None => Panic "thread_trampoline entered for a thread with no entry point"
    end));
  _ ← enable;
  mret e.

Definition ring3_trampoline_body : K (Z * Z * Z * Z) :=
  without_interrupts (with_scheduler "scheduler not initialized" (fun s =>
    slot ← expect (threads s !! current s) "index out of bounds";
    match slot with
    | Some t =>
        e ← expect (user_entry t) "ring3_trampoline entered for a thread with no user entry point";
        Ok (e, set_threads (<[current s := Some (set_user_entry None t)]> (threads s)) s)
    | None => Panic "ring3_trampoline entered for a thread with no user entry point"
    end)).

Definition thread_alive (pid : Pid) : K bool :=
  let '(slot, generation) := unpack_pid pid in
  without_interrupts (with_scheduler "scheduler not initialized" (fun s =>
    if (slot <? MAX_THREADS)%nat then
      t ← expect (threads s !! slot) "index out of bounds";
      match t with
      | None => Ok (false, s)
      | Some _ =>
          g ← expect (slot_generations s !! slot) "index out of bounds";
          Ok (g =? generation, s)
      end
    else Ok (false, s))).

(** *** Switching *)

(** [gdt::set_rsp0]. *)
Definition set_rsp0 (stack_top : Z) : K unit := modify (set_rsp0_field stack_top).

(** What [context::switch_to] does to the registers the scheduler depends
    on: six registers pushed, the stack pointer saved through
    [old_stack_slot], the new address space and the new stack loaded, six
    registers and the return address popped. *)
Definition switch_to (old : ThreadId) (new_stack new_page_table : Z) : K unit := fun k =>
  match scheduler k with
  | None => Panic "switch_to without a scheduler"
  | Some s =>
      let saved := rsp k - 48 in
      let ts := alter (fmap (set_stack_pointer saved)) old (threads s) in
      Ok (tt, set_scheduler (Some (set_threads ts s)) (scheduler_locked k)
                (set_rsp (new_stack + 56) (set_cr3 new_page_table k)))
  end.

Definition reap_zombie : K unit :=
  reaped ← without_interrupts (with_scheduler "scheduler not initialized" (fun s =>
    match zombie s with
    | None => Ok (None, s)
    | Some zombie_id =>
        let s' := set_zombie None s in
        slot ← expect (threads s' !! zombie_id) "index out of bounds";
        match slot with
        | None => Ok (None, s')
        | Some dead =>
            Ok (Some (dead, kernel_page_table s'),
                set_threads (<[zombie_id := None]> (threads s')) s')
        end
    end));
  match reaped with
  | None => mret tt
  | Some (thread, kernel_page_table) =>
      _ ← modify (set_cr3 kernel_page_table);
      stack_end ← lift (add_w 64 (stack_base thread) (stack_size thread));
      let stack_range := (stack_base thread, stack_end) in
      _ ← modify (fun k => set_heap (heap_dealloc (stack_base thread) (stack_size thread) 4096 (heap k)) k);
      match page_table thread with
      | None => mret tt
      | Some page_table =>
          pmo ← gets physical_memory_offset;
          pmo ← lift (expect pmo "memory::set_physical_memory_offset was never called");
          m ← gets phys;
          a ← gets frames;
          a' ← lift (free_address_space m stack_range page_table pmo a);
          modify (set_memory m a')
      end
  end.

(** The running thread [old] is suspended where [r] says, and [next] runs
    from where it was suspended: the rest of its own call of [schedule], or
    the trampoline.  The result is the entry point a new thread calls. *)
Definition switch_and_resume (old next : ThreadId) (r : Resume) (new_stack new_page_table : Z)
    : K (option Z) :=
  _ ← modify (fun k => set_suspended (<[old := r]> (suspended k)) k);
  _ ← switch_to old new_stack new_page_table;
  rs ← gets suspended;
  r' ← lift (expect (rs !! next) "index out of bounds");
  match r' with
  | AtTrampoline => e ← thread_trampoline_body; mret (Some e)
  | InSchedule interrupts_were_enabled =>
      _ ← (if interrupts_were_enabled : bool then enable else mret tt);
      mret None
  | Exited => lift (Panic "exit_current_thread: a thread that already exited was resumed")
  end.

(** The stack, the page table and the kernel stack top of the thread to
    run. *)
Definition next_context (s : SchedulerState) (next : ThreadId) : outcome (Z * Z * Z) :=
  slot ← expect (threads s !! next) "index out of bounds";
  t ← expect slot "next thread missing from thread table";
  Ok (stack_pointer t, default (kernel_page_table s) (page_table t), kernel_stack_top t).

(** [exit_current_thread] after its call of [reap_zombie]. *)
Definition exit_body : K (option Z) :=
  _ ← disable;
  g ← lock;
  s ← lift (expect g "scheduler not initialized");
  let id := current s in
  _ ← lift (assert_ (negb (id =? 0)%nat) "the boot thread can't exit");
  '(popped, q) ← lift (pop_front (ready_queue s));
  next ← lift (expect popped "exit_current_thread: no other thread left to run");
  let s1 := set_zombie (Some id) (set_current next (set_ready_queue q s)) in
  slot ← lift (expect (threads s1 !! id) "index out of bounds");
  _ ← lift (expect slot "current thread missing from thread table");
  '(new_stack, new_page_table, new_rsp0) ← lift (next_context s1 next);
  top ← lift (va_new new_rsp0);
  _ ← set_rsp0 top;
  _ ← unlock (Some s1);
  switch_and_resume id next Exited new_stack new_page_table.

Definition exit_current_thread : K (option Z) := _ ← reap_zombie; exit_body.

Definition restore_interrupts (were_enabled : bool) : K unit :=
  if were_enabled then enable else mret tt.

(** [schedule] after its call of [reap_zombie]. *)
Definition schedule_body : K (option Z) :=
  interrupts_were_enabled ← gets interrupts_enabled;
  _ ← disable;
  g ← lock;
  match g with
  | None => _ ← unlock None; _ ← restore_interrupts interrupts_were_enabled; mret None
  | Some s =>
      '(popped, q) ← lift (pop_front (ready_queue s));
      match popped with
      | None =>
          _ ← unlock (Some (set_ready_queue q s));
          _ ← restore_interrupts interrupts_were_enabled;
          mret None
      | Some next =>
          let previous := current s in
          q' ← lift (push_back q previous);
          let s1 := set_current next (set_ready_queue q' s) in
          slot ← lift (expect (threads s1 !! previous) "index out of bounds");
          _ ← lift (expect slot "current thread missing from thread table");
          '(new_stack, new_page_table, new_rsp0) ← lift (next_context s1 next);
          top ← lift (va_new new_rsp0);
          _ ← set_rsp0 top;
          _ ← unlock (Some s1);
          switch_and_resume previous next (InSchedule interrupts_were_enabled) new_stack new_page_table
      end
  end.

Definition schedule : K (option Z) := _ ← reap_zombie; schedule_body.
End Operations.
