(* ===== verification/Keeps.v ===== *)
(** * A logic for what the operations of the scheduler keep

    [keeps P f Q]: from a kernel whose scheduler state satisfies [P], a run
    of [f] that returns ends in such a kernel, with a result that satisfies
    [Q].  The rules follow the monad and the primitives of src/scheduler. *)

From S2P Require Import Prelude X86 FrameAlloc Mapper Threads Scheduler.

Section Keeps.
Context {crate : X86Crate} {mapper : PageMapper} {H : Type} {kheap : KernelHeap H}.
Implicit Types (k : Kernel H) (s : SchedulerState).
Local Abbreviation K := (M (Kernel H)).
Variable P : option SchedulerState -> Prop.

Definition keeps {A} (f : K A) (Q : A -> Prop) : Prop :=
  forall k a k', P (scheduler k) -> f k = Ok (a, k') -> P (scheduler k') /\ Q a.

Lemma keeps_ret {A} (a : A) (Q : A -> Prop) : Q a -> keeps (mret a) Q.
Proof. by intros HQ k a' k' Hk [= <- <-]. Qed.

Lemma keeps_bind {A B} (f : K A) (g : A -> K B) (R : A -> Prop) (Q : B -> Prop) :
  keeps f R -> (forall a, R a -> keeps (g a) Q) -> keeps (a ← f; g a) Q.
Proof.
  intros Hf Hg k b k' Hk. unfold mbind, M_bind. destruct (f k) as [[a k1]|] eqn:E; [|done].
  destruct (Hf k a k1 Hk E) as [Hk1 Ha]. by apply Hg.
Qed.

Lemma keeps_weaken {A} (f : K A) (R Q : A -> Prop) : keeps f R -> (forall a, R a -> Q a) -> keeps f Q.
Proof. intros Hf HQ k a k' Hk E. destruct (Hf k a k' Hk E). auto. Qed.

Lemma keeps_lift {A} (r : outcome A) (Q : A -> Prop) : (forall a, r = Ok a -> Q a) -> keeps (lift r) Q.
Proof. intros HQ k a k' Hk. unfold lift. destruct r as [a'|]; [|done]. intros [= <- <-]. auto. Qed.

Lemma keeps_any {A} (r : outcome A) : keeps (lift r) (fun _ => True).
Proof. by apply keeps_lift. Qed.

Lemma keeps_gets {A} (f : Kernel H -> A) : keeps (gets f) (fun _ => True).
Proof. by intros k a k' Hk [= <- <-]. Qed.

(** Code that leaves the scheduler state alone. *)
Lemma keeps_same {A} (f : K A) : (forall k a k', f k = Ok (a, k') -> scheduler k' = scheduler k) -> keeps f (fun _ => True).
Proof. intros Hf k a k' Hk E. split; [|done]. by rewrite (Hf k a k' E). Qed.

Lemma keeps_modify (f : Kernel H -> Kernel H) : (forall k, scheduler (f k) = scheduler k) -> keeps (modify f) (fun _ => True).
Proof. intros Hf. apply keeps_same. by intros k a k' [= <- <-]. Qed.

Lemma keeps_unlock o : P o -> keeps (unlock (H := H) o) (fun _ => True).
Proof. by intros Hs k a k' Hk [= <- <-]. Qed.

Lemma keeps_lock : keeps (lock (H := H)) P.
Proof. intros k a k' Hk. unfold lock. destruct (scheduler_locked k); [done|]. by intros [= <- <-]. Qed.

Lemma keeps_expect {A} (x : option A) msg : keeps (lift (expect x msg)) (fun a => x = Some a).
Proof. apply keeps_lift. intros a. destruct x as [a'|]; [|done]. by intros [= ->]. Qed.

Lemma keeps_if (b : bool) (f : K unit) : keeps f (fun _ => True) -> keeps (if b then f else mret tt) (fun _ => True).
Proof. intros Hf. destruct b; [done|]. by apply keeps_ret. Qed.

Lemma keeps_without_interrupts {A} (f : K A) (Q : A -> Prop) : keeps f Q -> keeps (without_interrupts f) Q.
Proof.
  intros Hf. unfold without_interrupts. eapply keeps_bind; [apply keeps_gets|]. intros saved _.
  eapply keeps_bind; [by apply keeps_modify|]. intros _ _. eapply keeps_bind; [exact Hf|]. intros a Ha.
  eapply keeps_bind; [by apply keeps_if, keeps_modify|]. intros _ _. by apply keeps_ret.
Qed.

Lemma keeps_with_scheduler {A} msg (f : SchedulerState -> outcome (A * SchedulerState)) (Q : A -> Prop) :
  (forall s a s', P (Some s) -> f s = Ok (a, s') -> P (Some s') /\ Q a) -> keeps (with_scheduler (H := H) msg f) Q.
Proof.
  intros Hf. unfold with_scheduler. eapply keeps_bind; [apply keeps_lock|]. intros g Hg. eapply keeps_bind; [apply keeps_expect|]. intros s ->.
  eapply keeps_bind; [by apply (keeps_lift _ (fun r => P (Some r.2) /\ Q r.1)); intros [a s'] Ef; apply (Hf s)|].
  intros [a s'] [Hs' Ha]. eapply keeps_bind; [by apply keeps_unlock|]. intros _ _. by apply keeps_ret.
Qed.

(** [f] on the thread that runs. *)
Lemma keeps_with_current_thread {A} (f : Thread -> outcome (A * Thread)) (Q : A -> Prop) :
  (forall s t a t', P (Some s) -> threads s !! current s = Some (Some t) -> f t = Ok (a, t') ->
     P (Some (set_threads (<[current s := Some t']> (threads s)) s)) /\ Q a) ->
  keeps (with_current_thread (H := H) f) Q.
Proof.
  intros Hf. apply keeps_without_interrupts. eapply keeps_bind; [apply keeps_gets|]. intros cr _.
  eapply keeps_bind; [apply keeps_lock|]. intros g Hg. eapply keeps_bind; [apply keeps_expect|]. intros s ->.
  eapply keeps_bind; [by apply keeps_if, keeps_modify|]. intros _ _.
  eapply keeps_bind; [apply (keeps_lift _ (fun r => P (Some r.2) /\ Q r.1))|].
  - intros [a s'] E. unfold update_thread in E. destruct (threads s !! current s) as [[t|]|] eqn:Et; [|done|done]. cbn [expect mbind outcome_bind] in E.
    destruct (f t) as [[a' t']|] eqn:Ef; [|done]. injection E as <- <-. by apply (Hf s t).
  - intros [a s'] [Hs' Ha]. eapply keeps_bind; [by apply keeps_if, keeps_modify|]. intros _ _.
    eapply keeps_bind; [by apply keeps_unlock|]. intros _ _. by apply keeps_ret.
Qed.

Lemma keeps_thread_alive pid : keeps (thread_alive (H := H) pid) (fun _ => True).
Proof.
  unfold thread_alive. destruct (unpack_pid pid) as [slot g]. apply keeps_without_interrupts, keeps_with_scheduler. intros s a s' Hs.
  destruct (slot <? MAX_THREADS)%nat; [|by intros [= <- <-]]. destruct (threads s !! slot) as [[t|]|]; cbn [expect mbind outcome_bind]; [|by intros [= <- <-]|done].
  destruct (slot_generations s !! slot); [|done]. by intros [= <- <-].
Qed.

(** *** New threads *)

Lemma keeps_new_stack tramp : keeps (new_stack (H := H) tramp) (fun _ => True).
Proof.
  apply keeps_same. intros k a k'. unfold new_stack. destruct (heap_alloc _ _ _) as [[p|] h]; [|done].
  destruct (build_initial_stack _ _ _) as [sp m]. by intros [= <- <-].
Qed.

Lemma keeps_share_pages kt l4 pages : keeps (share_pages (H := H) kt l4 pages) (fun _ => True).
Proof.
  induction pages as [|page rest IH]; cbn [share_pages]; [by apply keeps_ret|]. eapply (keeps_bind _ _ (fun _ => True)); [|intros _ _; exact IH].
  apply keeps_same. intros k a k'. unfold share_page. destruct (translate_page _ _ _); [|done].
  destruct (map_to _ _ _ _ _ _) as [[[[e|] m] b]|]; [done| |done]. cbn [mbind outcome_bind]. by intros [= <- <-].
Qed.

Lemma keeps_spawn tramp entry :
  (forall base sp s pid s', P (Some s) ->
     register_thread (mkThread sp base STACK_SIZE (Some entry) None (base + STACK_SIZE) no_open_files None) s = Ok (pid, s') ->
     P (Some s')) -> keeps (spawn (H := H) tramp entry) (fun _ => True).
Proof.
  intros Hr. apply keeps_without_interrupts. eapply keeps_bind; [apply keeps_new_stack|]. intros [base sp] _.
  eapply keeps_bind; [apply (keeps_with_scheduler _ _ (fun _ => True)); intros s pid s' Hs E; split; [by eapply Hr|done]|].
  intros pid _. by apply keeps_modify.
Qed.

Lemma keeps_spawn_isolated_inner tramp entry user l4 kt (Q : Pid -> Prop) :
  (forall base sp s pid s', P (Some s) ->
     register_thread (mkThread sp base STACK_SIZE (Some entry) (Some l4) (base + STACK_SIZE) no_open_files user) s = Ok (pid, s') ->
     P (Some s') /\ Q pid) -> keeps (spawn_isolated_inner (H := H) tramp entry user l4 kt) Q.
Proof.
  intros Hr. apply keeps_without_interrupts. eapply keeps_bind; [apply keeps_new_stack|]. intros [base sp] _.
  eapply keeps_bind; [apply keeps_any|]. intros start _. eapply keeps_bind; [apply keeps_share_pages|]. intros _ _.
  eapply keeps_bind; [apply (keeps_with_scheduler _ _ Q); intros s pid s' Hs E; by eapply Hr|].
  intros pid Hpid. eapply keeps_bind; [by apply keeps_modify|]. intros _ _. by apply keeps_ret.
Qed.

(** *** Turns *)

(** What [reap_zombie] does to the state. *)
Lemma keeps_reap_zombie :
  (forall s z, P (Some s) -> zombie s = Some z -> P (Some (set_zombie None s)) /\
     P (Some (set_threads (<[z := None]> (threads s)) (set_zombie None s)))) ->
  keeps (reap_zombie (H := H)) (fun _ => True).
Proof.
  intros Hr. unfold reap_zombie. eapply keeps_bind; [apply (keeps_without_interrupts _ (fun _ => True)), keeps_with_scheduler|].
  - intros s a s' Hs. destruct (zombie s) as [z|] eqn:Ez; [|by intros [= <- <-]]. destruct (Hr s z Hs Ez) as [H1 H2].
    destruct (threads (set_zombie None s) !! z) as [[t|]|]; cbn [expect mbind outcome_bind]; [|by intros [= <- <-]|done].
    by intros [= <- <-].
  - intros [[t kt]|] _; [|by apply keeps_ret]. eapply keeps_bind; [by apply keeps_modify|]. intros _ _.
    eapply keeps_bind; [apply keeps_any|]. intros e _. eapply keeps_bind; [by apply keeps_modify|]. intros _ _.
    destruct (page_table t); [|by apply keeps_ret]. eapply keeps_bind; [apply keeps_gets|]. intros pmo _. eapply keeps_bind; [apply keeps_expect|]. intros pmo' _.
    eapply keeps_bind; [apply keeps_gets|]. intros m _. eapply keeps_bind; [apply keeps_gets|]. intros a _.
    eapply keeps_bind; [apply keeps_any|]. intros a' _. by apply keeps_modify.
Qed.

(** The trampolines take a field of the running thread. *)
Section Trampolines.
Hypothesis Hcurrent : forall s t t', P (Some s) -> threads s !! current s = Some (Some t) ->
  t' = set_entry None t \/ t' = set_user_entry None t ->
  P (Some (set_threads (<[current s := Some t']> (threads s)) s)).

Lemma keeps_thread_trampoline : keeps (thread_trampoline_body (H := H)) (fun _ => True).
Proof using Hcurrent.
  unfold thread_trampoline_body. eapply keeps_bind; [apply (keeps_without_interrupts _ (fun _ => True)), keeps_with_scheduler|].
  - intros s a s' Hs. destruct (threads s !! current s) as [[t|]|] eqn:Et; cbn [expect mbind outcome_bind]; [|done|done].
    destruct (entry t); [|done]. cbn [expect mbind outcome_bind]. intros [= <- <-]. split; [|done]. apply (Hcurrent s t); auto.
  - intros e _. eapply keeps_bind; [by apply keeps_modify|]. intros _ _. by apply keeps_ret.
Qed.

Lemma keeps_ring3_trampoline : keeps (ring3_trampoline_body (H := H)) (fun _ => True).
Proof using Hcurrent.
  apply keeps_without_interrupts, keeps_with_scheduler. intros s a s' Hs.
  destruct (threads s !! current s) as [[t|]|] eqn:Et; cbn [expect mbind outcome_bind]; [|done|done].
  destruct (user_entry t); [|done]. cbn [expect mbind outcome_bind]. intros [= <- <-]. split; [|done]. apply (Hcurrent s t); auto.
Qed.

(** The end of [exit_body] and of [schedule_body]: the next thread runs from
    the state [s1], in which the stack pointer of [old] is saved. *)
Lemma keeps_switch s1 old next r msg : P (Some s1) ->
  (forall s sp, P (Some s) -> P (Some (set_threads (alter (fmap (set_stack_pointer sp)) old (threads s)) s))) ->
  keeps (slot ← lift (expect (threads s1 !! old) "index out of bounds"); _ ← lift (expect slot msg);
         '(stack, l4, top) ← lift (next_context s1 next); top ← lift (va_new top); _ ← set_rsp0 top; _ ← unlock (Some s1);
         switch_and_resume (H := H) old next r stack l4) (fun _ => True).
Proof using Hcurrent.
  intros Hs Hold. eapply keeps_bind; [apply keeps_any|]. intros slot _. eapply keeps_bind; [apply keeps_any|]. intros u _.
  eapply keeps_bind; [apply keeps_any|]. intros [[stack l4] top] _. eapply keeps_bind; [apply keeps_any|]. intros top' _.
  eapply keeps_bind; [by apply keeps_modify|]. intros _ _. eapply keeps_bind; [by apply keeps_unlock|]. intros _ _.
  eapply keeps_bind; [by apply keeps_modify|]. intros _ _. eapply (keeps_bind _ _ (fun _ => True)).
  - intros k a k' Hk. unfold switch_to. destruct (scheduler k) as [s|] eqn:Es; [|done]. intros [= <- <-]. split; [|done]. by apply Hold.
  - intros _ _. eapply keeps_bind; [apply keeps_gets|]. intros rs _. eapply keeps_bind; [apply keeps_expect|]. intros [|b|] _.
    + eapply keeps_bind; [apply keeps_thread_trampoline|]. intros e _. by apply keeps_ret.
    + eapply keeps_bind; [by apply keeps_if, keeps_modify|]. intros _ _. by apply keeps_ret.
    + by apply keeps_lift.
Qed.

Lemma keeps_exit_body :
  (forall s next q, P (Some s) -> pop_front (ready_queue s) = Ok (Some next, q) ->
     P (Some (set_zombie (Some (current s)) (set_current next (set_ready_queue q s))))) ->
  (forall s0 s sp, P (Some s0) -> P (Some s) -> P (Some (set_threads (alter (fmap (set_stack_pointer sp)) (current s0) (threads s)) s))) ->
  keeps (exit_body (H := H)) (fun _ => True).
Proof using Hcurrent.
  intros Hturn Hold. eapply keeps_bind; [by apply keeps_modify|]. intros _ _.
  eapply keeps_bind; [apply keeps_lock|]. intros g Hg. eapply keeps_bind; [apply keeps_expect|]. intros s ->.
  eapply keeps_bind; [apply keeps_any|]. intros _ _.
  eapply keeps_bind; [apply (keeps_lift _ (fun r => pop_front (ready_queue s) = Ok r)); by intros r ->|]. intros [x q] Hq.
  eapply keeps_bind; [apply keeps_expect|]. intros next ->. apply keeps_switch; [by apply Hturn|]. intros s' sp Hs'. by apply Hold.
Qed.

Lemma keeps_schedule_body :
  (forall s next q q', P (Some s) -> pop_front (ready_queue s) = Ok (Some next, q) -> push_back q (current s) = Ok q' ->
     P (Some (set_current next (set_ready_queue q' s)))) ->
  (forall s q, P (Some s) -> pop_front (ready_queue s) = Ok (None, q) -> P (Some (set_ready_queue q s))) ->
  (forall s0 s sp, P (Some s0) -> P (Some s) -> P (Some (set_threads (alter (fmap (set_stack_pointer sp)) (current s0) (threads s)) s))) ->
  keeps (schedule_body (H := H)) (fun _ => True).
Proof using Hcurrent.
  intros Hturn Hnone Hold. eapply keeps_bind; [apply keeps_gets|]. intros b _.
  assert (Hb : keeps (_ ← restore_interrupts (H := H) b; mret (None : option Z)) (fun _ => True)).
  { eapply keeps_bind; [by apply keeps_if, keeps_modify|]. intros _ _. by apply keeps_ret. }
  eapply keeps_bind; [by apply keeps_modify|]. intros _ _. eapply keeps_bind; [apply keeps_lock|]. intros [s|] Hg.
  - eapply keeps_bind; [apply (keeps_lift _ (fun r => pop_front (ready_queue s) = Ok r)); by intros r ->|]. intros [[next|] q] Hq.
    + eapply keeps_bind; [apply (keeps_lift _ (fun q' => push_back q (current s) = Ok q')); by intros q' ->|]. intros q' Hq'.
      apply keeps_switch; [by apply (Hturn s next q)|]. intros s' sp Hs'. by apply Hold.
    + eapply keeps_bind; [by apply keeps_unlock, (Hnone s)|]. intros _ _. exact Hb.
  - eapply keeps_bind; [by apply keeps_unlock|]. intros _ _. exact Hb.
Qed.
End Trampolines.
End Keeps.
