(* ===== verification/SchedulerInv.v ===== *)
(** * Correctness of the scheduler

    The invariant of the kernel state that every operation of
    src/scheduler/mod.rs keeps, and what the operations do on the states
    that satisfy it. *)

From S2P Require Import Prelude Ring X86 FrameAlloc Paging AddressSpace Mapper Threads Scheduler.

Section Invariant.
Context {crate : X86Crate} {mapper : PageMapper} {H : Type} {kheap : KernelHeap H}.
Implicit Types (k : Kernel H) (s : SchedulerState) (t : Thread) (id : ThreadId).

(** The threads the scheduler knows of: running, exited but not reaped,
    ready. *)
Definition live_ids s : list ThreadId :=
  current s :: option_list (zombie s) ++ ready_list (ready_queue s).

(** A thread as [init] and the spawn functions make it. *)
Definition thread_ok id t : Prop :=
  length (open_files t) = MAX_OPEN_FILES /\
  if decide (id = 0%nat) then stack_size t = 0 /\ page_table t = None /\ kernel_stack_top t = 0
  else stack_size t = STACK_SIZE /\ 0 <= stack_base t /\
       kernel_stack_top t = stack_base t + STACK_SIZE /\ kernel_stack_top t < 2 ^ 47.

Record sched_inv s : Prop := {
  si_threads : length (threads s) = MAX_THREADS;
  si_generations : length (slot_generations s) = MAX_THREADS;
  si_queue : ready_inv (ready_queue s);
  si_nodup : NoDup (live_ids s);
  si_live id : id ∈ live_ids s <-> exists t, threads s !! id = Some (Some t);
  si_boot : zombie s <> Some 0%nat /\ 0%nat ∈ live_ids s;
  si_thread id t : threads s !! id = Some (Some t) -> thread_ok id t;
}.

(** A thread waiting in the queue can be resumed: it is inside [schedule],
    or it is new and its entry point has not been taken. *)
Definition resumable (rs : list Resume) (ts : list (option Thread)) id : Prop :=
  (exists b, rs !! id = Some (InSchedule b)) \/
  (rs !! id = Some AtTrampoline /\ exists t e, ts !! id = Some (Some t) /\ entry t = Some e).

(** The kernel stack of a thread, and the physical frames it owns: those
    of its address space, less the frames of its kernel stack. *)
Definition stack_range t : Z * Z := (stack_base t, stack_base t + stack_size t).

Definition stack_block (o : option Thread) : list (Z * Z) :=
  match o with
  | Some t => if decide (stack_size t = 0) then [] else [(stack_base t, stack_size t)]
  | None => []
  end.

Definition owned (spaces : Z -> gmap nat (ptree 3)) (o : option Thread) : list Z :=
  match o with
  | Some t => match page_table t with
              | Some l4 => freed_space (stack_range t) l4 (spaces l4)
              | None => []
              end
  | None => []
  end.

(** No physical frame has two owners: the frames of the address spaces and
    the frames the allocator can still hand out are pairwise different. *)
Definition accounts (spaces : Z -> gmap nat (ptree 3)) (ts : list (option Thread)) (a : GlobalFrameAllocator)
    : Prop :=
  NoDup ((ts ≫= owned spaces) ++ fa_avail a) /\ Forall frame_ok ((ts ≫= owned spaces) ++ fa_avail a).

(** [spaces] gives the page-table tree of each top-level table in use. *)
Record kernel_inv (spaces : Z -> gmap nat (ptree 3)) k s : Prop := {
  ki_scheduler : scheduler k = Some s;
  ki_unlocked : scheduler_locked k = false;
  ki_sched : sched_inv s;
  ki_suspended : length (suspended k) = MAX_THREADS;
  ki_resume id : id ∈ ready_list (ready_queue s) -> resumable (suspended k) (threads s) id;
  ki_heap : heap_inv (heap k);
  ki_stacks : threads s ≫= stack_block ⊆+ heap_live (heap k);
  ki_pmo : exists pmo, physical_memory_offset k = Some pmo /\
    forall id t l4, threads s !! id = Some (Some t) -> page_table t = Some l4 ->
      repr_space (phys k) l4 [0%nat; va_index 4 pmo] (spaces l4);
  ki_frames : fa_inv (frames k);
  ki_mem : mem_ok (phys k);
  ki_accounts : accounts spaces (threads s) (frames k);
}.

(** The running thread has its own address space and its own stack for
    entries from ring 3. *)
Definition running k s : Prop :=
  exists t, threads s !! current s = Some (Some t) /\
    cr3 k = default (kernel_page_table s) (page_table t) /\
    (current s <> 0%nat -> rsp0 k = kernel_stack_top t).
End Invariant.

(** Runs the kernel monad. *)
Ltac run :=
  unfold without_interrupts, with_scheduler, restore_interrupts, set_rsp0, disable, enable, lock, unlock,
    gets, modify, lift, mbind, M_bind, outcome_bind, mret, M_ret;
  cbn [expect assert_ negb fst snd
    scheduler scheduler_locked rsp cr3 rsp0 interrupts_enabled suspended kmem phys frames heap
    physical_memory_offset set_scheduler set_cr3 set_rsp set_rsp0_field set_interrupts set_suspended
    set_kmem set_memory set_heap threads ready_queue current kernel_page_table zombie slot_generations
    set_threads set_ready_queue set_current set_zombie set_generations].

(** A kernel and its scheduler state, taken apart. *)
Ltac take_apart k s :=
  destruct k as [?sch ?lk ?r ?c ?r0 ?i ?su ?km ?ph ?fr ?hp ?pm], s as [?ts ?q ?cur ?kpt ?z ?g];
  cbn [scheduler scheduler_locked rsp cr3 rsp0 interrupts_enabled suspended kmem phys frames heap
    physical_memory_offset threads ready_queue current kernel_page_table zombie slot_generations] in *;
  subst.

Section Reap.
Context {crate : X86Crate} {mapper : PageMapper} {H : Type} {kheap : KernelHeap H}.
Implicit Types (k : Kernel H) (s : SchedulerState) (t : Thread) (id : ThreadId).

Lemma reap_zombie_none k s :
  scheduler k = Some s -> scheduler_locked k = false -> zombie s = None ->
  reap_zombie k = Ok (tt, k).
Proof.
  intros. take_apart k s. unfold reap_zombie. run. by destruct i.
Qed.

(** The frames of a thread that is gone belong to the allocator. *)
Lemma accounts_reaped spaces (ts : list (option Thread)) id t (a a' : GlobalFrameAllocator) :
  ts !! id = Some (Some t) -> fa_avail a' = reverse (owned spaces (Some t)) ++ fa_avail a ->
  accounts spaces ts a -> accounts spaces (<[id := None]> ts) a'.
Proof.
  intros Ht Hav. unfold accounts. assert (Hperm := bind_insert_perm (owned spaces) ts id (Some t) None Ht).
  assert (E : (<[id := None]> ts ≫= owned spaces) ++ fa_avail a' ≡ₚ (ts ≫= owned spaces) ++ fa_avail a).
  { rewrite Hav, reverse_Permutation, app_assoc. f_equiv. rewrite Permutation_app_comm. exact Hperm. }
  by rewrite E.
Qed.

(** What is left of the state once a zombie is gone. *)
Definition reaped_state s id : SchedulerState :=
  set_threads (<[id := None]> (threads s)) (set_zombie None s).

Definition reaped_kernel k s id t (a : GlobalFrameAllocator) : Kernel H :=
  set_memory (phys k) a
    (set_heap (heap_dealloc (stack_base t) (stack_size t) 4096 (heap k))
      (set_cr3 (kernel_page_table s) (set_scheduler (Some (reaped_state s id)) false k))).

Lemma reap_zombie_some k s spaces id t :
  kernel_inv spaces k s -> zombie s = Some id -> threads s !! id = Some (Some t) -> id <> 0%nat ->
  exists a, reap_zombie k = Ok (tt, reaped_kernel k s id t a) /\ fa_inv a /\
    fa_avail a = reverse (owned spaces (Some t)) ++ fa_avail (frames k).
Proof.
  intros HK Hz Ht Hid. destruct HK as [Hs Hl Hsi _ _ _ _ (pmo & Hp & Hsp) Hfi _ _].
  destruct (si_thread s Hsi id t Ht) as [_ Hok]. rewrite decide_False in Hok by done.
  destruct Hok as (Hsz & Hb & Htop & Hlt).
  assert (Hadd : add_w 64 (stack_base t) (stack_size t) = Ok (stack_base t + stack_size t)).
  { unfold add_w. cases_Z; [done|]. rewrite Hsz in *. unfold STACK_SIZE in *. lia. }
  specialize (Hsp id t). clear Hsi Htop.
  take_apart k s. unfold reap_zombie. run. rewrite Ht. run.
  destruct (page_table t) as [l4|] eqn:Ept.
  - destruct (free_address_space_frees ph (stack_range t) l4 pmo (spaces l4) fr) as (a & Ea & Hia & Hav);
      [by apply Hsp|exact Hfi|].
    exists a. split; [|unfold owned; by rewrite Ept]. unfold stack_range in Ea.
    destruct i; run; rewrite Hadd; run; rewrite Ept; run; by rewrite Ea.
  - exists fr. split; [|unfold owned; by rewrite Ept]. destruct i; run; rewrite Hadd; run; by rewrite Ept.
Qed.

(** The state after a reaping, whether there was a zombie or not. *)
Definition reaped s : SchedulerState :=
  match zombie s with Some id => reaped_state s id | None => s end.

Definition zombie_frames (spaces : Z -> gmap nat (ptree 3)) s : list Z :=
  match zombie s ≫= fun id => threads s !! id with Some o => owned spaces o | None => [] end.

Lemma zombie_thread s id :
  sched_inv s -> zombie s = Some id -> id <> 0%nat /\ exists t, threads s !! id = Some (Some t).
Proof.
  intros Hs Hz. split.
  - intros ->. by destruct (si_boot s Hs).
  - apply (si_live s Hs). unfold live_ids. rewrite Hz. set_solver.
Qed.

Lemma reaped_state_inv s id :
  sched_inv s -> zombie s = Some id -> sched_inv (reaped_state s id).
Proof.
  intros Hs Hz. destruct (zombie_thread s id Hs Hz) as [Hid (t & Ht)].
  pose proof (lookup_lt_Some _ _ _ Ht) as Hlt.
  destruct Hs as [Ht' Hg Hq Hnd Hl [Hb1 Hb2] Hth].
  unfold live_ids in *. rewrite Hz in *. cbn [option_list app] in *.
  apply NoDup_cons in Hnd as [Hc Hnd]. apply NoDup_cons in Hnd as [Hzn Hnd].
  split; cbn [reaped_state set_threads set_zombie threads slot_generations ready_queue current zombie live_ids];
    unfold live_ids; cbn [zombie current ready_queue option_list app]; [by rewrite length_insert|done..| | | |].
  - apply NoDup_cons. split; [set_solver|done].
  - intros i. destruct (decide (i = id)) as [->|Hne].
    + rewrite list_lookup_insert_eq by done. split; [set_solver|by intros (? & ?)].
    + rewrite list_lookup_insert_ne by done. rewrite <- Hl. set_solver.
  - split; [done|]. set_solver.
  - intros i u. destruct (decide (i = id)) as [->|Hne].
    + by rewrite list_lookup_insert_eq.
    + rewrite list_lookup_insert_ne by done. apply Hth.
Qed.

Lemma reaped_inv s : sched_inv s -> sched_inv (reaped s).
Proof. intros Hs. unfold reaped. destruct (zombie s) eqn:E; [by apply reaped_state_inv|done]. Qed.

Lemma reaped_lookup s id t :
  sched_inv s -> id ∈ current s :: ready_list (ready_queue s) ->
  threads (reaped s) !! id = Some (Some t) <-> threads s !! id = Some (Some t).
Proof.
  intros Hs Hid. unfold reaped. destruct (zombie s) as [z|] eqn:E; [|done].
  cbn [reaped_state set_threads threads set_zombie].
  rewrite list_lookup_insert_ne; [done|]. intros ->.
  pose proof (si_nodup s Hs) as Hnd. unfold live_ids in Hnd. rewrite E in Hnd.
  cbn [option_list app] in Hnd. apply NoDup_cons in Hnd as [? Hnd]. apply NoDup_cons in Hnd as [? _].
  set_solver.
Qed.

(** The stack of the thread that is still to be reaped. *)
Definition zombie_stack s : option (Z * Z) :=
  t ← (id ← zombie s; mjoin (threads s !! id)); Some (stack_base t, stack_size t).

(** What reaping does to the kernel: the stack of the zombie goes back to
    the heap, its frames to the frame allocator, its slot is free. *)
Record reaps (spaces : Z -> gmap nat (ptree 3)) k s k' : Prop := {
  reaps_inv : kernel_inv spaces k' (reaped s);
  reaps_avail : fa_avail (frames k') = reverse (zombie_frames spaces s) ++ fa_avail (frames k);
  reaps_same : rsp k' = rsp k /\ rsp0 k' = rsp0 k /\ interrupts_enabled k' = interrupts_enabled k /\
    suspended k' = suspended k /\ kmem k' = kmem k /\ phys k' = phys k /\
    physical_memory_offset k' = physical_memory_offset k;
  reaps_cr3 : cr3 k' = match zombie s with Some _ => kernel_page_table s | None => cr3 k end;
  reaps_heap : heap k' = match zombie_stack s with
    | Some (base, size) => heap_dealloc base size 4096 (heap k)
    | None => heap k
    end;
}.

Lemma reap_zombie_reaps spaces k s :
  kernel_inv spaces k s -> exists k', reap_zombie k = Ok (tt, k') /\ reaps spaces k s k'.
Proof.
  intros HK. pose proof (ki_sched _ _ _ HK) as Hs.
  destruct (zombie s) as [id|] eqn:Hz.
  - destruct (zombie_thread s id Hs Hz) as [Hid (t & Ht)].
    destruct (reap_zombie_some k s spaces id t HK Hz Ht Hid) as (a & E & Hia & Hav).
    exists (reaped_kernel k s id t a). split; [done|].
    split; [|by unfold zombie_frames; rewrite Hz; cbn [mbind option_bind]; rewrite Ht|done|by rewrite Hz|].
    2: { unfold zombie_stack. rewrite Hz. cbn [mbind option_bind]. by rewrite Ht. }
    destruct HK as [H1 H2 _ H4 H5 H6 H7 (pmo & Hp & Hsp) _ H10 H11]. unfold reaped. rewrite Hz.
    destruct (si_thread s Hs id t Ht) as [_ Hok]. rewrite decide_False in Hok by done.
    assert (Hsb : stack_block (Some t) = [(stack_base t, stack_size t)]).
    { unfold stack_block. rewrite decide_False; [done|]. destruct Hok as [-> _]. done. }
    assert (Hperm := bind_insert_perm stack_block (threads s) id (Some t) None Ht).
    rewrite Hsb in Hperm. cbn [stack_block app] in Hperm. rewrite <- Hperm in H7.
    destruct (heap_dealloc_ok (heap k) (stack_base t) (stack_size t) 4096 H6) as [Hh Hlive].
    { eapply elem_of_submseteq; [|exact H7]. set_solver. }
    split; [done|done|by apply reaped_state_inv|done| |exact Hh| | |exact Hia|done|].
    + intros i Hi. destruct (H5 i Hi) as [Hb|[Hr (u & e & Hu & He)]]; [by left|right].
      split; [done|]. exists u, e. split; [|done].
      apply (reaped_lookup s i u Hs) in Hu; [|cbn in Hi; set_solver].
      unfold reaped in Hu. by rewrite Hz in Hu.
    + cbn [reaped_state set_threads set_zombie threads]. rewrite Hlive in H7.
      exact (submseteq_app_inv_l _ _ [_] H7).
    + exists pmo. split; [done|]. intros i u l4 Hu. apply (Hsp i u l4).
      cbn [reaped_state set_threads set_zombie threads] in Hu.
      destruct (decide (i = id)) as [->|Hne].
      * rewrite list_lookup_insert_eq in Hu; [done|]. by eapply lookup_lt_Some.
      * by rewrite list_lookup_insert_ne in Hu by done.
    + by apply (accounts_reaped spaces (threads s) id t (frames k) a).
  - exists k. split; [apply (reap_zombie_none k s); by destruct HK|].
    assert (reaped s = s) as Er by (unfold reaped; by rewrite Hz).
    split; [by rewrite Er|unfold zombie_frames; by rewrite Hz|done|by rewrite Hz|unfold zombie_stack; by rewrite Hz].
Qed.
End Reap.

Section Switch.
Context {crate : X86Crate} {mapper : PageMapper} {H : Type} {kheap : KernelHeap H}.
Implicit Types (k : Kernel H) (s : SchedulerState) (t : Thread) (id old next : ThreadId).

(** Threads that differ at most in what a switch changes: the saved stack
    pointer and the entry point that is still to be called. *)
Definition same_resources t t' : Prop :=
  stack_base t' = stack_base t /\ stack_size t' = stack_size t /\ page_table t' = page_table t /\
  kernel_stack_top t' = kernel_stack_top t /\ open_files t' = open_files t /\
  user_entry t' = user_entry t.

Definition similar (ts ts' : list (option Thread)) : Prop :=
  Forall2 (option_Forall2 same_resources) ts ts'.

Lemma same_resources_refl t : same_resources t t.
Proof. done. Qed.

Lemma option_same_refl (o : option Thread) : option_Forall2 same_resources o o.
Proof. destruct o; by constructor. Qed.

#[local] Hint Resolve same_resources_refl option_same_refl : core.

Lemma similar_refl ts : similar ts ts.
Proof. apply Forall_Forall2_diag, Forall_forall. auto. Qed.

Lemma similar_trans ts1 ts2 ts3 : similar ts1 ts2 -> similar ts2 ts3 -> similar ts1 ts3.
Proof.
  intros H12. revert ts3; induction H12 as [|o1 o2 ts1 ts2 Ho _ IH]; intros ts3 H23;
    inversion H23 as [|? o3 ? ? Ho' Hr]; subst; [constructor|]. constructor; [|by apply IH].
  destruct Ho as [t1 t2 E1|]; inversion Ho' as [? t3 E3|]; subst; constructor.
  unfold same_resources in *. naive_solver congruence.
Qed.

Lemma similar_insert ts ts' id t t' :
  similar ts ts' -> ts !! id = Some (Some t) -> same_resources t t' ->
  similar ts (<[id := Some t']> ts').
Proof.
  intros Hs Ht Hr. rewrite <- (list_insert_id ts id (Some t) Ht).
  apply Forall2_insert; [done|by constructor].
Qed.

Lemma similar_lookup ts ts' id t :
  similar ts ts' -> ts !! id = Some (Some t) ->
  exists t', ts' !! id = Some (Some t') /\ same_resources t t'.
Proof.
  intros Hs Ht. destruct (Forall2_lookup_l _ _ _ _ _ Hs Ht) as (o & Ho & Hr).
  inversion Hr; simplify_eq. eauto.
Qed.

Lemma similar_lookup_r ts ts' id t' :
  similar ts ts' -> ts' !! id = Some (Some t') ->
  exists t, ts !! id = Some (Some t) /\ same_resources t t'.
Proof.
  intros Hs Ht. destruct (Forall2_lookup_r _ _ _ _ _ Hs Ht) as (o & Ho & Hr).
  inversion Hr; simplify_eq. eauto.
Qed.

Lemma similar_stack_blocks ts ts' : similar ts ts' -> ts' ≫= stack_block = ts ≫= stack_block.
Proof.
  induction 1 as [|o o' ts ts' Ho _ IH]; [done|]. cbn. rewrite IH. f_equal.
  inversion Ho as [t t' (E1 & E2 & _)|]; [|done]. unfold stack_block. by rewrite E1, E2.
Qed.

Lemma similar_owned spaces ts ts' : similar ts ts' -> ts' ≫= owned spaces = ts ≫= owned spaces.
Proof.
  induction 1 as [|o o' ts ts' Ho _ IH]; [done|]. cbn. rewrite IH. f_equal.
  inversion Ho as [t t' (E1 & E2 & E3 & _)|]; [|done].
  unfold owned, stack_range. by rewrite E1, E2, E3.
Qed.

(** The invariant of the scheduler depends only on which threads there
    are. *)
Lemma sched_inv_similar s s' :
  similar (threads s) (threads s') -> slot_generations s' = slot_generations s ->
  ready_inv (ready_queue s') -> live_ids s' ≡ₚ live_ids s -> zombie s' <> Some 0%nat ->
  sched_inv s -> sched_inv s'.
Proof.
  intros Hsim Hg Hq Hl Hz [Ht' Hg' _ Hnd Hli [_ Hb] Hth]. split.
  - rewrite <- Ht'. symmetry. by eapply Forall2_length.
  - by rewrite Hg.
  - done.
  - by rewrite Hl.
  - intros id. rewrite Hl, Hli. split; intros (t & Ht).
    + destruct (similar_lookup _ _ _ _ Hsim Ht) as (t' & ? & _). eauto.
    + destruct (similar_lookup_r _ _ _ _ Hsim Ht) as (t' & ? & _). eauto.
  - split; [done|]. by rewrite Hl.
  - intros id t' Ht. destruct (similar_lookup_r _ _ _ _ Hsim Ht) as (t & Hs & E).
    specialize (Hth id t Hs). unfold thread_ok in *.
    destruct E as (-> & -> & -> & -> & -> & _). done.
Qed.

(** The effect of a switch from [old] to [next]. *)
Record switched k s old next (r : Resume) (new_stack new_page_table : Z) k' s' (e : option Z) : Prop := {
  sw_scheduler : scheduler k' = Some s';
  sw_state : s' = set_threads (threads s') s;
  sw_similar : similar (threads s) (threads s');
  sw_others id : id <> old -> id <> next -> threads s' !! id = threads s !! id;
  sw_saved t : threads s !! old = Some (Some t) -> old <> next ->
    threads s' !! old = Some (Some (set_stack_pointer (rsp k - 48) t));
  sw_unlocked : scheduler_locked k' = false;
  sw_registers : cr3 k' = new_page_table /\ rsp k' = new_stack + 56 /\ rsp0 k' = rsp0 k;
  sw_suspended : suspended k' = <[old := r]> (suspended k);
  sw_interrupts : interrupts_enabled k' =
    match suspended k !! next with Some (InSchedule b) => b || interrupts_enabled k | _ => true end;
  sw_entry : e = match suspended k !! next with
    | Some AtTrampoline => mjoin (threads s !! next) ≫= entry
    | _ => None
    end;
  sw_same : kmem k' = kmem k /\ phys k' = phys k /\ frames k' = frames k /\ heap k' = heap k /\
    physical_memory_offset k' = physical_memory_offset k;
}.

Lemma switch_and_resume_switched k s old next r new_stack new_page_table told :
  scheduler k = Some s -> scheduler_locked k = false -> current s = next -> old <> next ->
  threads s !! old = Some (Some told) -> resumable (suspended k) (threads s) next ->
  exists e k' s', switch_and_resume old next r new_stack new_page_table k = Ok (e, k') /\
    switched k s old next r new_stack new_page_table k' s' e.
Proof.
  intros Hs Hl Hc Hne Hold Hres. take_apart k s.
  assert (Halt : alter (fmap (set_stack_pointer (r0 - 48))) old ts =
    <[old := Some (set_stack_pointer (r0 - 48) told)]> ts).
  { apply list_eq. intros j. destruct (decide (j = old)) as [->|Hj].
    - rewrite list_lookup_alter_eq, Hold, list_lookup_insert_eq; [done|]. by eapply lookup_lt_Some.
    - by rewrite list_lookup_alter_ne, list_lookup_insert_ne. }
  assert (Hsim : similar ts (<[old := Some (set_stack_pointer (r0 - 48) told)]> ts)).
  { by apply (similar_insert _ _ _ told); [apply similar_refl| |]. }
  assert (Hold' : <[old := Some (set_stack_pointer (r0 - 48) told)]> ts !! old =
    Some (Some (set_stack_pointer (r0 - 48) told))).
  { apply list_lookup_insert_eq. by eapply lookup_lt_Some. }
  destruct Hres as [(b & Hb)|(Hb & t & e & Ht & He)].
  - destruct b; eexists None, _, _; unfold switch_and_resume, switch_to; run;
      rewrite list_lookup_insert_ne, Hb, Halt by done; run; (split; [done|]); split; run; rewrite ?Hb;
      try done.
    all: cbn [threads set_threads].
    all: try (intros j ? ?; by rewrite list_lookup_insert_ne).
    all: intros t Ht _; rewrite Hold'; congruence.
  - eexists (Some e), _, _. unfold switch_and_resume, switch_to, thread_trampoline_body. run.
    rewrite list_lookup_insert_ne, Hb, Halt by done. run.
    rewrite list_lookup_insert_ne, Ht by done. run. rewrite He. run.
    split; [by destruct i|]. split; run; rewrite ?Hb; try done.
    + apply (similar_insert _ _ _ t); done.
    + cbn [threads set_threads]. intros j ? ?. by rewrite !list_lookup_insert_ne.
    + cbn [threads set_threads]. intros t' Ht' _. rewrite list_lookup_insert_ne by done.
      rewrite Hold'. congruence.
    + by rewrite Ht.
Qed.

(** A switch keeps the invariant when it only permutes the roles of the
    threads, and suspends the old one where it can be resumed (or for good,
    when it is not in the queue). *)
Lemma switched_inv spaces k s k1 s1 old next r new_stack new_page_table k' s' e :
  kernel_inv spaces k s ->
  threads s1 = threads s /\ slot_generations s1 = slot_generations s ->
  ready_inv (ready_queue s1) -> live_ids s1 ≡ₚ live_ids s -> zombie s1 <> Some 0%nat ->
  current s1 = next -> (old < MAX_THREADS)%nat ->
  (forall id, id ∈ ready_list (ready_queue s1) ->
     (id ∈ ready_list (ready_queue s) /\ id <> old) \/ (id = old /\ exists b, r = InSchedule b)) ->
  suspended k1 = suspended k /\ phys k1 = phys k /\ frames k1 = frames k /\ heap k1 = heap k /\
    physical_memory_offset k1 = physical_memory_offset k ->
  switched k1 s1 old next r new_stack new_page_table k' s' e ->
  kernel_inv spaces k' s'.
Proof.
  intros HK [Et Eg] Hq Hl Hz Hc Hold Hids (E1 & E2 & E3 & E4 & E5) Hsw.
  destruct HK as [_ _ Hs Hsu Hres Hh Hst (pmo & Hp & Hsp) Hf Hm Hacc].
  destruct Hsw as [F1 F2 F3 F4 _ F5 _ F6 _ _ (_ & G2 & G3 & G4 & G5)].
  rewrite E1 in F6. rewrite Et in *.
  assert (Hs1 : sched_inv s1).
  { apply (sched_inv_similar s); [rewrite Et; apply similar_refl|done..]. }
  assert (Hq' : ready_queue s' = ready_queue s1 /\ current s' = current s1 /\ zombie s' = zombie s1
    /\ slot_generations s' = slot_generations s1) by (rewrite F2; done).
  destruct Hq' as (Eq & Ec & Ez & Eg').
  assert (Hl' : live_ids s' = live_ids s1) by (unfold live_ids; by rewrite Eq, Ec, Ez).
  split.
  - done.
  - done.
  - apply (sched_inv_similar s); rewrite ?Eq, ?Ez; [done| |done|by rewrite Hl'|done..]. congruence.
  - by rewrite F6, length_insert.
  - rewrite Eq. intros id Hid.
    assert (Hn : id <> next).
    { intros ->. pose proof (si_nodup s1 Hs1) as Hnd. unfold live_ids in Hnd.
      apply NoDup_cons in Hnd as [Hnd _]. rewrite Hc in Hnd. set_solver. }
    unfold resumable. rewrite F6. destruct (Hids id Hid) as [[Hid' Hne]|[-> (b & ->)]].
    + rewrite list_lookup_insert_ne by done. rewrite F4 by done. rewrite ?Et. by apply Hres.
    + left. exists b. apply list_lookup_insert_eq. lia.
  - congruence.
  - rewrite (similar_stack_blocks _ _ F3), G4, E4. done.
  - exists pmo. split; [congruence|]. intros id t l4 Ht Hpt.
    destruct (similar_lookup_r _ _ _ _ F3 Ht) as (t0 & Ht0 & (_ & _ & Ep & _)).
    rewrite G2, E2. apply (Hsp id t0 l4); congruence.
  - by rewrite G3, E3.
  - by rewrite G2, E2.
  - unfold accounts. by rewrite (similar_owned _ _ _ F3), G3, E3.
Qed.

(** The context [schedule] and [exit_current_thread] load for a live
    thread. *)
Lemma next_context_ok s id t :
  threads s !! id = Some (Some t) ->
  next_context s id = Ok (stack_pointer t, default (kernel_page_table s) (page_table t), kernel_stack_top t).
Proof. intros Ht. unfold next_context. rewrite Ht. done. Qed.

Lemma kernel_stack_top_address s id t :
  sched_inv s -> threads s !! id = Some (Some t) -> va_new (kernel_stack_top t) = Ok (kernel_stack_top t).
Proof.
  intros Hs Ht. destruct (si_thread s Hs id t Ht) as [_ Hok]. unfold va_new.
  rewrite va_try_new_canonical; [done|]. unfold canonical.
  destruct (decide (id = 0%nat)); unfold STACK_SIZE in *; lia.
Qed.

Lemma live_lookup s id : sched_inv s -> id ∈ live_ids s -> exists t, threads s !! id = Some (Some t).
Proof. intros Hs Hid. by apply (si_live s Hs). Qed.

Lemma live_bound s id : sched_inv s -> id ∈ live_ids s -> (id < MAX_THREADS)%nat.
Proof.
  intros Hs Hid. destruct (live_lookup s id Hs Hid) as (t & Ht).
  apply lookup_lt_Some in Ht. by rewrite (si_threads s Hs) in Ht.
Qed.

(** A turn of the scheduler: [next] runs, under its own page table and with
    its own stack for ring 3, and the thread that ran is at the end of the
    queue. *)
Record rotated k s next rest k' s' (e : option Z) : Prop := {
  ro_current : current s' = next;
  ro_queue : ready_list (ready_queue s') = rest ++ [current s];
  ro_similar : similar (threads s) (threads s');
  ro_zombie : zombie s' = zombie s;
  ro_generations : slot_generations s' = slot_generations s;
  ro_kernel_table : kernel_page_table s' = kernel_page_table s;
  ro_running : running k' s';
  ro_resumed t : threads s !! next = Some (Some t) -> rsp k' = stack_pointer t + 56;
  ro_saved t : threads s !! current s = Some (Some t) ->
    threads s' !! current s = Some (Some (set_stack_pointer (rsp k - 48) t)) /\
    suspended k' !! current s = Some (InSchedule (interrupts_enabled k));
  ro_others id : id <> current s -> id <> next ->
    threads s' !! id = threads s !! id /\ suspended k' !! id = suspended k !! id;
  ro_interrupts : interrupts_enabled k' =
    match suspended k !! next with Some (InSchedule b) => b | _ => true end;
  ro_entry : e = match suspended k !! next with
    | Some AtTrampoline => mjoin (threads s !! next) ≫= entry
    | _ => None
    end;
  ro_same : kmem k' = kmem k /\ phys k' = phys k /\ frames k' = frames k /\ heap k' = heap k /\
    physical_memory_offset k' = physical_memory_offset k;
}.

(** The kernel at the call of [switch_to], with the state [s1] unlocked and
    the stack of the next thread [tn] in the task state segment. *)
Definition turn_kernel k s1 tn : Kernel H :=
  set_scheduler (Some s1) false (set_rsp0_field (kernel_stack_top tn)
    (set_interrupts false (set_scheduler (scheduler k) true k))).

Lemma schedule_body_eq k s next q1 q2 tc tn :
  scheduler k = Some s -> scheduler_locked k = false ->
  pop_front (ready_queue s) = Ok (Some next, q1) -> push_back q1 (current s) = Ok q2 ->
  threads s !! current s = Some (Some tc) -> threads s !! next = Some (Some tn) ->
  va_new (kernel_stack_top tn) = Ok (kernel_stack_top tn) ->
  schedule_body k = switch_and_resume (current s) next (InSchedule (interrupts_enabled k))
    (stack_pointer tn) (default (kernel_page_table s) (page_table tn))
    (turn_kernel k (set_current next (set_ready_queue q2 s)) tn).
Proof.
  intros Hsch Hul Epop Epush Htc Htn Etop.
  assert (Ectx := next_context_ok (set_current next (set_ready_queue q2 s)) next tn Htn).
  unfold turn_kernel. take_apart k s.
  unfold schedule_body. run. rewrite Epop. run. rewrite Epush. run. rewrite Htc. run.
  unfold set_current, set_ready_queue in *. cbn [threads kernel_page_table slot_generations zombie] in *.
  rewrite Ectx. run. rewrite Etop. done.
Qed.

Lemma switched_rotated k s next rest q tn k' s' e :
  ready_list q = rest ++ [current s] -> threads s !! next = Some (Some tn) ->
  (current s < length (suspended k))%nat -> current s <> next ->
  switched (turn_kernel k (set_current next (set_ready_queue q s)) tn)
    (set_current next (set_ready_queue q s)) (current s) next (InSchedule (interrupts_enabled k))
    (stack_pointer tn) (default (kernel_page_table s) (page_table tn)) k' s' e ->
  rotated k s next rest k' s' e.
Proof.
  intros Hq Htn Hlt Hne Hsw.
  destruct Hsw as [F1 F2 F3 F4 F4' F5 (G1 & G2 & G3) F6 F7 F8 (K1 & K2 & K3 & K4 & K5)].
  assert (Hcs : current s' = next /\ ready_queue s' = q /\ zombie s' = zombie s /\
    slot_generations s' = slot_generations s /\ kernel_page_table s' = kernel_page_table s)
    by (rewrite F2; done).
  destruct Hcs as (Ec & Eq & Ez & Eg & Ek).
  split; try done; rewrite ?Eq; try done.
  - destruct (similar_lookup _ _ _ _ F3 Htn) as (t' & Ht' & (_ & _ & Ep & Etop & _)).
    exists t'. rewrite Ec, Ek, Ep, Etop, G1, G3. done.
  - intros t Ht. rewrite G2. congruence.
  - intros t Ht. split; [by apply F4'|]. rewrite F6. by apply list_lookup_insert_eq.
  - intros id H1 H2. split; [by apply F4|]. rewrite F6. by apply list_lookup_insert_ne.
  - rewrite F7. cbn [turn_kernel set_scheduler suspended set_rsp0_field set_interrupts interrupts_enabled].
    destruct (suspended k !! next) as [[| |]|]; try done. apply orb_false_r.
Qed.

(** The head of the ready queue is a live thread other than the current
    one. *)
Lemma next_live s next rest :
  sched_inv s -> ready_list (ready_queue s) = next :: rest ->
  current s <> next /\ current s ∉ rest /\ (length rest < MAX_THREADS)%nat /\
  (current s < MAX_THREADS)%nat /\
  exists tc tn, threads s !! current s = Some (Some tc) /\ threads s !! next = Some (Some tn).
Proof.
  intros Hs Hr. assert (Hnd := si_nodup s Hs). unfold live_ids in Hnd. rewrite Hr in Hnd.
  apply NoDup_cons in Hnd as [Hcn _].
  assert (Hcl : current s ∈ live_ids s) by (unfold live_ids; set_solver).
  assert (Hnl : next ∈ live_ids s) by (unfold live_ids; rewrite Hr; set_solver).
  destruct (live_lookup s _ Hs Hcl) as (tc & Htc), (live_lookup s _ Hs Hnl) as (tn & Htn).
  split_and!; [set_solver..| |by apply (live_bound s)|by exists tc, tn].
  pose proof (bq_bounded (ready_queue s) (si_queue s Hs)) as Hb.
  change (length (ready_list (ready_queue s)) <= MAX_THREADS)%nat in Hb.
  rewrite Hr in Hb. cbn [length] in Hb. lia.
Qed.

Lemma schedule_body_rotates spaces k s next rest :
  kernel_inv spaces k s -> ready_list (ready_queue s) = next :: rest ->
  exists e k' s', schedule_body k = Ok (e, k') /\ kernel_inv spaces k' s' /\ rotated k s next rest k' s' e.
Proof.
  intros HK Hr. assert (Hs := ki_sched _ _ _ HK).
  destruct (next_live s next rest Hs Hr) as (Hne & Hni & Hlen & Hlt & tc & tn & Htc & Htn).
  destruct (pop_front_ok _ next rest (si_queue s Hs) Hr) as (q1 & Epop & Hq1 & Hl1).
  destruct (push_back_ok q1 (current s) Hq1) as (q2 & Epush & Hq2 & Hl2); [by rewrite Hl1|].
  rewrite Hl1 in Hl2.
  rewrite (schedule_body_eq k s next q1 q2 tc tn); [|by destruct HK..|by apply (kernel_stack_top_address s next)].
  set (s1 := set_current next (set_ready_queue q2 s)). set (k1 := turn_kernel k s1 tn).
  destruct (switch_and_resume_switched k1 s1 (current s) next (InSchedule (interrupts_enabled k))
    (stack_pointer tn) (default (kernel_page_table s) (page_table tn)) tc) as (e & k' & s' & E & Hsw);
    [done..|apply (ki_resume _ _ _ HK); rewrite Hr; set_solver|].
  exists e, k', s'. split; [done|split].
  - apply (switched_inv spaces k s k1 s1 (current s) next (InSchedule (interrupts_enabled k))
      (stack_pointer tn) (default (kernel_page_table s) (page_table tn)) k' s' e); try done.
    + unfold live_ids, s1. cbn [set_current set_ready_queue current zombie ready_queue].
      rewrite Hl2, Hr, (Permutation_app_comm rest). cbn [app].
      by rewrite <- !Permutation_middle, perm_swap.
    + by destruct (si_boot s Hs).
    + unfold s1. cbn [set_current set_ready_queue ready_queue]. rewrite Hl2, Hr.
      intros id [Hid|Hid%list_elem_of_singleton]%elem_of_app; [left|right; eauto].
      split; [set_solver|]. intros ->. set_solver.
  - apply (switched_rotated k s next rest q2 tn); try done. by rewrite (ki_suspended _ _ _ HK).
Qed.

(** *** Exit *)

Lemma exit_body_eq k s next q1 tc tn :
  scheduler k = Some s -> scheduler_locked k = false -> current s <> 0%nat ->
  pop_front (ready_queue s) = Ok (Some next, q1) ->
  threads s !! current s = Some (Some tc) -> threads s !! next = Some (Some tn) ->
  va_new (kernel_stack_top tn) = Ok (kernel_stack_top tn) ->
  exit_body k = switch_and_resume (current s) next Exited
    (stack_pointer tn) (default (kernel_page_table s) (page_table tn))
    (turn_kernel k (set_zombie (Some (current s)) (set_current next (set_ready_queue q1 s))) tn).
Proof.
  intros Hsch Hul Hc Epop Htc Htn Etop.
  assert (Ectx := next_context_ok
    (set_zombie (Some (current s)) (set_current next (set_ready_queue q1 s))) next tn Htn).
  unfold turn_kernel. take_apart k s. apply Nat.eqb_neq in Hc.
  unfold exit_body. run. rewrite Hc. run. rewrite Epop. run. rewrite Htc. run.
  unfold set_zombie, set_current, set_ready_queue in *.
  cbn [threads kernel_page_table slot_generations zombie current ready_queue] in *.
  rewrite Ectx. run. rewrite Etop. done.
Qed.

(** The dying thread is the zombie, the next one runs; nothing will resume
    the zombie. *)
Record exited s next rest k' s' : Prop := {
  ex_current : current s' = next;
  ex_queue : ready_list (ready_queue s') = rest;
  ex_zombie : zombie s' = Some (current s);
  ex_similar : similar (threads s) (threads s');
  ex_generations : slot_generations s' = slot_generations s;
  ex_running : running k' s';
  ex_kernel_table : kernel_page_table s' = kernel_page_table s;
}.

Lemma exit_body_exits spaces k s next rest :
  kernel_inv spaces k s -> zombie s = None -> current s <> 0%nat ->
  ready_list (ready_queue s) = next :: rest ->
  exists e k' s', exit_body k = Ok (e, k') /\ kernel_inv spaces k' s' /\ exited s next rest k' s' /\
    frames k' = frames k /\ heap k' = heap k /\ phys k' = phys k /\
    physical_memory_offset k' = physical_memory_offset k.
Proof.
  intros HK Hz Hc Hr. assert (Hs := ki_sched _ _ _ HK).
  destruct (next_live s next rest Hs Hr) as (Hne & Hni & Hlen & Hlt & tc & tn & Htc & Htn).
  destruct (pop_front_ok _ next rest (si_queue s Hs) Hr) as (q1 & Epop & Hq1 & Hl1).
  rewrite (exit_body_eq k s next q1 tc tn); [|by destruct HK..|by apply (kernel_stack_top_address s next)].
  set (s1 := set_zombie (Some (current s)) (set_current next (set_ready_queue q1 s))).
  set (k1 := turn_kernel k s1 tn).
  destruct (switch_and_resume_switched k1 s1 (current s) next Exited
    (stack_pointer tn) (default (kernel_page_table s) (page_table tn)) tc) as (e & k' & s' & E & Hsw);
    [done..|apply (ki_resume _ _ _ HK); rewrite Hr; set_solver|].
  exists e, k', s'. split; [done|split].
  - apply (switched_inv spaces k s k1 s1 (current s) next Exited
      (stack_pointer tn) (default (kernel_page_table s) (page_table tn)) k' s' e); try done.
    + unfold live_ids, s1. cbn [set_zombie set_current set_ready_queue current zombie ready_queue].
      rewrite Hz, Hl1, Hr. apply perm_swap.
    + unfold s1. cbn. congruence.
    + unfold s1. cbn [set_zombie set_current set_ready_queue ready_queue]. rewrite Hl1, Hr.
      intros id Hid. left. split; [set_solver|]. intros ->. done.
  - destruct Hsw as [F1 F2 F3 _ _ F5 (G1 & G2 & G3) F6 _ _ (K1 & K2 & K3 & K4 & K5)].
    assert (Hcs : current s' = next /\ ready_queue s' = q1 /\ zombie s' = Some (current s) /\
      slot_generations s' = slot_generations s /\ kernel_page_table s' = kernel_page_table s)
      by (rewrite F2; done).
    destruct Hcs as (Ec & Eq & Ez & Eg & Ek). split; [|by split_and!]. split; try done; [by rewrite Eq|].
    destruct (similar_lookup _ _ _ _ F3 Htn) as (t' & Ht' & (_ & _ & Ep & Etop & _)).
    exists t'. rewrite Ec, Ek, Ep, Etop, G1, G3. done.
Qed.

Lemma reaped_same s :
  current (reaped s) = current s /\ ready_queue (reaped s) = ready_queue s /\ zombie (reaped s) = None /\
  kernel_page_table (reaped s) = kernel_page_table s /\ slot_generations (reaped s) = slot_generations s.
Proof. unfold reaped. by destruct (zombie s) eqn:E; rewrite ?E. Qed.

(** With an empty queue only the boot thread runs. *)
Lemma empty_queue_boot s :
  sched_inv s -> ready_list (ready_queue s) = [] -> current s = 0%nat.
Proof.
  intros Hs Hr. destruct (si_boot s Hs) as [Hz Hb]. unfold live_ids in Hb. rewrite Hr in Hb.
  destruct (zombie s); simpl in Hb; set_solver.
Qed.

Lemma schedule_body_empty spaces k s :
  kernel_inv spaces k s -> ready_list (ready_queue s) = [] -> schedule_body k = Ok (None, k).
Proof.
  intros HK Hr. assert (Ep := pop_front_empty _ (si_queue s (ki_sched _ _ _ HK)) Hr).
  destruct HK as [H1 H2 _ _ _ _ _ _ _ _ _]. take_apart k s.
  unfold schedule_body. run. rewrite Ep. run. by destruct i.
Qed.
End Switch.
