(* ===== verification/Context.v ===== *)
(** * Switching contexts (src/scheduler/context.rs)

    [switch_to] as the instructions of its naked function.  To the thread
    that calls it, it is a call that returns: another switch back to the
    saved stack pointer continues after the call, with the callee-saved
    registers, the stack and the address space it had.  To a new thread it
    is a call of the trampoline.  The operation [Scheduler.switch_to], on
    which the theorems of the scheduler rest, is what these instructions
    do. *)

From S2P Require Import Prelude Ring X86 Asm FrameAlloc Paging AddressSpace Mapper Threads Scheduler SchedulerInv.

(** [old_stack_slot] in RDI, [new_stack] in RSI, [new_page_table] in RDX. *)
Definition switch_to_asm : list instr := [
  Push RBP;
  Push RBX;
  Push R12;
  Push R13;
  Push R14;
  Push R15;
  Store RDI 0 RSP;
  MovCr3 RDX;
  Mov RSP RSI;
  Pop R15;
  Pop R14;
  Pop R13;
  Pop R12;
  Pop RBX;
  Pop RBP;
  Ret].

(** The registers a callee preserves, the stack pointer apart. *)
Definition callee_saved : list reg := [RBP; RBX; R12; R13; R14; R15].

Section Switch.
Variable mapped : Z -> Z -> bool.

Definition apart (a n b l : Z) : Prop := a + n <= b \/ b + l <= a.

(** What the safety comment of [switch_to] asks of its caller: the stack
    and the slot are mapped in the running address space, the frame to
    resume in the new one, and the three do not overlap. *)
Record switch_ok (c : Cpu) : Prop := {
  sw_regs r : is_u64 (regs c r);
  sw_stack : 48 <= regs c RSP /\ regs c RSP + 8 < 2 ^ 64 /\
    maps_region mapped (cpu_cr3 c) (regs c RSP - 48) (regs c RSP + 8);
  sw_slot : regs c RDI + 8 <= 2 ^ 64 /\ maps_region mapped (cpu_cr3 c) (regs c RDI) (regs c RDI + 8);
  sw_frame : regs c RSI + 56 < 2 ^ 64 /\ maps_region mapped (regs c RDX) (regs c RSI) (regs c RSI + 56);
  sw_slot_stack : apart (regs c RDI) 8 (regs c RSP - 48) 56;
  sw_frame_stack : apart (regs c RSI) 56 (regs c RSP - 48) 56;
  sw_frame_slot : apart (regs c RSI) 56 (regs c RDI) 8;
}.

(** The state [switch_to] ends in. *)
Record switched (c c' : Cpu) : Prop := {
  sd_rip : rip c' = read_u64_at (ram c) (regs c RSI + 48);
  sd_rsp : regs c' RSP = regs c RSI + 56;
  sd_cr3 : cpu_cr3 c' = regs c RDX;
  sd_regs : regs c' <$> reverse callee_saved = words (ram c) (regs c RSI) 6;
  sd_saved : words (ram c') (regs c RSP - 48) 7 =
    (regs c <$> reverse callee_saved) ++ [read_u64_at (ram c) (regs c RSP)];
  sd_slot : read_u64_at (ram c') (regs c RDI) = regs c RSP - 48;
  sd_memory x : ~ regs c RSP - 48 <= x < regs c RSP -> ~ regs c RDI <= x < regs c RDI + 8 -> ram c' x = ram c x;
}.

(** The instructions between the pushes and the pops. *)
Lemma exec_exchange c c1 :
  switch_ok c -> pushed (regs c <$> callee_saved) c c1 ->
  exec_all mapped [Store RDI 0 RSP; MovCr3 RDX; Mov RSP RSI] c1 =
    Ok (set_reg RSP (regs c RSI) (set_cpu_cr3 (regs c RDX)
      (set_ram (write_u64_at (ram c1) (regs c RDI) (regs c RSP - 48)) c1))).
Proof.
  intros [Hu _ [H1 H2] _ _ _ _] [P1 P2 [P3 _] _ _]. assert (Hd := Hu RDI). unfold is_u64 in Hd.
  cbn [exec_all foldM exec]. unfold asm_store. rewrite Z.add_0_r, wrap64_small by (rewrite P2; done).
  rewrite (reaches_ok _ _ _ (regs c RDI) (regs c RDI + 8)); [|by rewrite P3|rewrite P2 by done; lia..].
  cbn [mbind outcome_bind]. rewrite P1. cbn [length fmap list_fmap callee_saved].
  unfold set_cpu_cr3, set_ram, set_reg. cbn [regs ram cpu_cr3 rip cs ss rflags].
  rewrite !P2 by done. done.
Qed.

Lemma switch_to_runs c : switch_ok c -> exists c', exec_all mapped switch_to_asm c = Ok c' /\ switched c c'.
Proof.
  intros Hok. destruct (id Hok) as [Hu (Hs1 & Hs2 & Hs3) [Hd1 Hd2] [Hn1 Hn2] A1 A2 A3].
  assert (Hsi := Hu RSI). unfold is_u64 in Hsi. unfold apart in *.
  destruct (exec_pushes mapped callee_saved c (regs c RSP - 48)) as (c1 & E1 & HP).
  { decided. } { done. } { by apply (maps_region_sub _ _ (regs c RSP - 48) (regs c RSP + 8)); [lia..|]. }
  { cbn [length callee_saved]. lia. }
  assert (E2 := exec_exchange c c1 Hok HP). destruct HP as [P1 P2 [P3 _] P4 P5]. rewrite length_fmap in P1, P4. cbn [length callee_saved] in P1, P4.
  set (c2 := set_reg RSP (regs c RSI) _) in E2.
  assert (R2 : regs c2 RSP = regs c RSI) by apply upd_same.
  assert (M2 : forall x, ~ regs c RDI <= x < regs c RDI + 8 -> ram c2 x = ram c1 x)
    by (intros x Hx; apply write_u64_other; lia).
  destruct (exec_pops mapped (reverse callee_saved) c2 (regs c RSI + 56)) as (c3 & E3 & [Q1 Q2 Q3 [Q4 Q5]]).
  { decided. } { decided. } { rewrite R2. lia. } { by rewrite R2. }
  { rewrite R2. cbn. lia. } { lia. }
  change (length (reverse callee_saved)) with 6%nat in Q1, Q2. rewrite R2 in Q1, Q2.
  assert (E4 : exec mapped Ret c3 = Ok (set_rip (read_u64_at (ram c3) (regs c3 RSP)) (set_reg RSP (regs c3 RSP + 8) c3))).
  { cbn [exec]. rewrite (asm_pop_ok _ _ (regs c RSI + 56)); [done| |lia..].
    rewrite Q5, Q1. apply (maps_region_sub _ _ (regs c RSI) (regs c RSI + 56)); [lia..|done]. }
  exists (set_rip (read_u64_at (ram c3) (regs c3 RSP)) (set_reg RSP (regs c3 RSP + 8) c3)). split.
  { change switch_to_asm with ((Push <$> callee_saved) ++ [Store RDI 0 RSP; MovCr3 RDX; Mov RSP RSI] ++
      (Pop <$> reverse callee_saved) ++ [Ret]).
    rewrite exec_all_app, E1. cbn [mbind outcome_bind]. rewrite exec_all_app, E2. cbn [mbind outcome_bind].
    rewrite exec_all_app, E3. cbn [mbind outcome_bind]. unfold exec_all. cbn [foldM]. by rewrite E4. }
  assert (Hframe : forall x, regs c RSI <= x < regs c RSI + 56 -> ram c2 x = ram c x)
    by (intros x Hx; rewrite M2 by lia; apply P5; lia).
  split; cbn [set_rip set_reg rip regs cpu_cr3 ram]; rewrite ?upd_same.
  - rewrite Q1, Q4. apply read_u64_ext. intros x Hx. apply Hframe. lia.
  - rewrite Q1. lia.
  - done.
  - transitivity (regs c3 <$> reverse callee_saved); [done|]. rewrite Q2. apply words_ext. intros x Hx. apply Hframe. lia.
  - rewrite Q4. change 7%nat with (6 + 1)%nat. rewrite words_app. f_equal.
    + rewrite (words_ext _ (ram c1)) by (intros x Hx; apply M2; lia).
      replace (regs c RSP - 48) with (regs c1 RSP) by lia. by rewrite P4, fmap_reverse.
    + cbn [words]. replace (_ + _) with (regs c RSP) by lia. f_equal. apply read_u64_ext. intros x Hx. rewrite M2 by lia. apply P5. lia.
  - rewrite Q4. apply read_u64_write_same. unfold is_u64. lia.
  - intros x H1 H2. rewrite Q4, M2 by done. apply P5. lia.
Qed.

Lemma in_callee_saved r c l : regs c <$> reverse callee_saved = (l : reg -> Z) <$> reverse callee_saved ->
  r ∈ callee_saved -> regs c r = l r.
Proof.
  intros E [i Hi]%elem_of_reverse%list_elem_of_lookup_1.
  apply (f_equal (lookup i)) in E. rewrite !list_lookup_fmap, Hi in E. by simplify_eq/=.
Qed.

(** [switch_to] is a call that returns.  Whatever runs in between, if
    the 56 bytes of the suspended thread's stack are as [switch_to] left
    them and a thread switches back to the saved stack pointer and address
    space, execution continues at the return address of the first call,
    with the stack pointer, the address space and every callee-saved
    register as a call leaves them. *)
Lemma context_switch_roundtrip c :
  switch_ok c ->
  exists c1, exec_all mapped switch_to_asm c = Ok c1 /\
    forall c2, switch_ok c2 -> regs c2 RSI = read_u64_at (ram c1) (regs c RDI) -> regs c2 RDX = cpu_cr3 c ->
      (forall x, regs c RSP - 48 <= x < regs c RSP + 8 -> ram c2 x = ram c1 x) ->
      exists c3, exec_all mapped switch_to_asm c2 = Ok c3 /\
        rip c3 = read_u64_at (ram c) (regs c RSP) /\ regs c3 RSP = regs c RSP + 8 /\
        cpu_cr3 c3 = cpu_cr3 c /\ forall r, r ∈ callee_saved -> regs c3 r = regs c r.
Proof.
  intros Hok. destruct (switch_to_runs c Hok) as (c1 & E1 & [_ _ _ _ S1 S2 _]).
  exists c1. split; [done|]. intros c2 Hok2 Hsi Hdx Hmem.
  destruct (switch_to_runs c2 Hok2) as (c3 & E3 & [T1 T2 T3 T4 _ _ _]).
  rewrite Hsi, S2 in T1, T2, T4. exists c3.
  assert (Hw : words (ram c2) (regs c RSP - 48) 7 = words (ram c1) (regs c RSP - 48) 7)
    by (apply words_ext; intros x Hx; apply Hmem; lia).
  rewrite S1 in Hw. change 7%nat with (6 + 1)%nat in Hw. rewrite words_app in Hw.
  apply app_inj_1 in Hw as [W1 W2]; [|done].
  split_and!; [done| |lia|congruence|].
  - rewrite T1. injection W2 as W2. by replace (regs c RSP - 48 + 48) with (regs c RSP - 48 + 8 * Z.of_nat 6) by lia.
  - intros r Hr. apply in_callee_saved; [|done]. by rewrite T4, W1.
Qed.

(** ** New threads *)

Lemma initial_words tramp m base :
  is_u64 tramp ->
  words (build_initial_stack tramp m base).2 (base + STACK_SIZE - 64) 7 = [0; 0; 0; 0; 0; 0; tramp].
Proof.
  intros Ht. unfold build_initial_stack. cbn -[Z.mul Z.sub Z.add STACK_SIZE write_u64_at words].
  set (top := base + STACK_SIZE - 16). replace (base + STACK_SIZE - 64) with (top - 48) by lia.
  assert (Hi : forall m a v b, b + 8 <= a \/ a + 8 <= b -> read_u64_at (write_u64_at m a v) b = read_u64_at m b)
    by (intros m' a v b Hb; apply read_u64_ext; intros x Hx; apply write_u64_other; lia).
  cbn [words]. repeat f_equal;
  repeat (rewrite Hi by lia);
  lazymatch goal with |- read_u64_at (write_u64_at _ ?a _) ?b = _ => replace b with a by lia end;
  by apply read_u64_write_same.
Qed.

(** The first switch to a new thread enters [thread_trampoline] as a
    call would: the stack [build_initial_stack] laid out gives it as the
    return address, zeroed callee-saved registers, and a stack pointer at
    the end of the thread's stack, 8 below a multiple of 16. *)
Lemma new_thread_starts tramp m stack_base c :
  switch_ok c -> is_u64 tramp -> stack_base mod 16 = 0 ->
  regs c RSI = (build_initial_stack tramp m stack_base).1 ->
  (forall x, stack_base <= x < stack_base + STACK_SIZE -> ram c x = (build_initial_stack tramp m stack_base).2 x) ->
  exists c', exec_all mapped switch_to_asm c = Ok c' /\ rip c' = tramp /\
    regs c' RSP = stack_base + STACK_SIZE - 8 /\ regs c' RSP mod 16 = 8 /\ cpu_cr3 c' = regs c RDX /\
    forall r, r ∈ callee_saved -> regs c' r = 0.
Proof.
  intros Hok Ht Ha Hsi Hm. destruct (switch_to_runs c Hok) as (c' & E & [T1 T2 T3 T4 _ _ _]).
  assert (Hsp : regs c RSI = stack_base + STACK_SIZE - 64) by (rewrite Hsi; unfold build_initial_stack; cbn; lia).
  rewrite Hsp in T1, T2, T4.
  assert (Hw := initial_words tramp m stack_base Ht).
  rewrite <- (words_ext (ram c)) in Hw by (intros x Hx; apply Hm; unfold STACK_SIZE in *; lia).
  change 7%nat with (6 + 1)%nat in Hw. rewrite words_app in Hw.
  apply (app_inj_1 _ [0; 0; 0; 0; 0; 0] _ [tramp]) in Hw as [W1 W2]; [|by rewrite length_words].
  exists c'. split_and!; [done| |lia| |done|].
  - rewrite T1. by injection W2.
  - rewrite T2. unfold STACK_SIZE. Z.to_euclidean_division_equations. lia.
  - intros r Hr. apply (in_callee_saved r c' (fun _ => 0)); [|done]. by rewrite T4, W1.
Qed.

(** ** The switch as the scheduler sees it *)

Section Refinement.
Context {crate : X86Crate} {H : Type}.

(** C5: the scheduler's [switch_to] is what the instructions do: where the
    kernel's stack pointer and the processor's agree and the slot is the
    [stack_pointer] field of the thread that is switched away from, they
    agree afterwards on the stack pointer, the address space and the saved
    field, and no other thread changes. *)
Theorem switch_to_refines (k : Kernel H) s c old t :
  switch_ok c -> scheduler k = Some s -> threads s !! old = Some (Some t) -> rsp k = regs c RSP ->
  exists c' k' s', exec_all mapped switch_to_asm c = Ok c' /\
    switch_to old (regs c RSI) (regs c RDX) k = Ok (tt, k') /\ scheduler k' = Some s' /\
    rsp k' = regs c' RSP /\ cr3 k' = cpu_cr3 c' /\
    threads s' !! old = Some (Some (set_stack_pointer (read_u64_at (ram c') (regs c RDI)) t)) /\
    forall id, id <> old -> threads s' !! id = threads s !! id.
Proof.
  intros Hok Hs Ht Hr. destruct (switch_to_runs c Hok) as (c' & E & [_ T2 T3 _ _ T6 _]).
  exists c'. eexists _, _. split; [done|]. unfold switch_to. rewrite Hs.
  split; [done|]. cbn [scheduler rsp cr3 set_scheduler set_rsp set_cr3 threads set_threads].
  split_and!; [done|done|done| |].
  - cbn [threads set_threads]. rewrite list_lookup_alter_eq, Ht. by rewrite T6, Hr.
  - intros id Hne. cbn [threads set_threads]. by rewrite list_lookup_alter_ne.
Qed.
End Refinement.
End Switch.

(** ** A concrete switch

    The kernel maps everything below [2 ^ 47] in every address space; a
    thread with its stack at 0x9000 switches to a new one, whose stack is
    the block at 0x20000, and back. *)

Definition sample_mapped (_ a : Z) : bool := a <? 2 ^ 47.

Definition sample_cpu (rsp slot new_stack table : Z) (m : mem) (r : Z) : Cpu :=
  mkCpu (upd RSP rsp (upd RDI slot (upd RSI new_stack (upd RDX table (fun _ => r))))) m 0x1000 0 0 0 0.

Lemma sample_switch_ok sp slot new_stack table m r :
  is_u64 r -> 48 <= sp < 2 ^ 46 -> 0 <= slot < 2 ^ 46 -> 0 <= new_stack < 2 ^ 46 -> is_u64 table ->
  apart slot 8 (sp - 48) 56 -> apart new_stack 56 (sp - 48) 56 -> apart new_stack 56 slot 8 ->
  switch_ok sample_mapped (sample_cpu sp slot new_stack table m r).
Proof.
  unfold is_u64. intros. assert (Hm : forall t lo hi, hi <= 2 ^ 47 -> maps_region sample_mapped t lo hi).
  { intros t lo hi Hhi a Ha. apply Z.ltb_lt. lia. }
  assert (Hu : forall r', is_u64 (regs (sample_cpu sp slot new_stack table m r) r'))
    by (intros r'; unfold sample_cpu; cbn [regs]; unfold is_u64, upd; repeat case_decide; lia).
  set (c := sample_cpu _ _ _ _ _ _) in *.
  assert (regs c RSP = sp /\ regs c RDI = slot /\ regs c RSI = new_stack /\ regs c RDX = table) as (R1 & R2 & R3 & R4) by done.
  split; rewrite ?R1, ?R2, ?R3, ?R4; [done| | | |done..]; split_and!; [lia..|apply Hm; lia|lia|apply Hm; lia|lia|apply Hm; lia].
Qed.

Definition sample_m : mem := (build_initial_stack 0x555 (fun _ => 7) 0x20000).2.
Definition sample_from : Cpu := sample_cpu 0x9000 0x8000 (0x20000 + STACK_SIZE - 64) 0x2000 sample_m 11.

Lemma sample_from_ok : switch_ok sample_mapped sample_from.
Proof. apply sample_switch_ok; unfold is_u64, apart, STACK_SIZE; lia. Qed.

Lemma new_thread_starts_witness : exists c', exec_all sample_mapped switch_to_asm sample_from = Ok c' /\
  rip c' = 0x555 /\ regs c' RSP = 0x20000 + STACK_SIZE - 8 /\ regs c' RSP mod 16 = 8 /\
  cpu_cr3 c' = regs sample_from RDX /\ forall r, r ∈ callee_saved -> regs c' r = 0.
Proof.
  apply (new_thread_starts sample_mapped 0x555 (fun _ => 7) 0x20000 sample_from sample_from_ok); try done.
Defined.

Lemma context_switch_roundtrip_witness : exists c1, exec_all sample_mapped switch_to_asm sample_from = Ok c1 /\
  exists c3, exec_all sample_mapped switch_to_asm (sample_cpu 0x30000 0x8008 (0x9000 - 48) 0x1000 (ram c1) 5) = Ok c3 /\
    rip c3 = read_u64_at sample_m 0x9000 /\ regs c3 RSP = 0x9008 /\ cpu_cr3 c3 = 0x1000 /\
    forall r, r ∈ callee_saved -> regs c3 r = 11.
Proof.
  destruct (switch_to_runs sample_mapped sample_from sample_from_ok) as (c1' & E' & Hs).
  destruct (context_switch_roundtrip sample_mapped sample_from sample_from_ok) as (c1 & E & F).
  assert (c1' = c1) as -> by congruence. exists c1. split; [exact E|].
  destruct (F (sample_cpu 0x30000 0x8008 (0x9000 - 48) 0x1000 (ram c1) 5)) as (c3 & E3 & R1 & R2 & R3 & R4).
  - apply sample_switch_ok; unfold is_u64, apart; lia.
  - symmetry. exact (sd_slot _ _ Hs).
  - reflexivity.
  - reflexivity.
  - exists c3. split; [exact E3|]. split; [exact R1|]. split; [exact R2|]. split; [exact R3|].
    intros r Hr. rewrite (R4 r Hr). clear -Hr. unfold callee_saved in Hr.
    repeat (apply elem_of_cons in Hr as [->|Hr]; [reflexivity|]). by apply not_elem_of_nil in Hr.
Defined.

Definition sample_thread_kernel : Kernel unit :=
  mkKernel (Some (mkSchedulerState [Some boot_thread; None] ready_queue_new 0%nat 0x1000 None [1; 0])) false
    0x9000 0x1000 0 false [] (fun _ => 0) (fun _ => 0) None tt None.

Lemma switch_to_refines_witness : exists c' k' s', exec_all sample_mapped switch_to_asm sample_from = Ok c' /\
  switch_to 0%nat (0x20000 + STACK_SIZE - 64) 0x2000 sample_thread_kernel = Ok (tt, k') /\ scheduler k' = Some s' /\
  rsp k' = regs c' RSP /\ cr3 k' = cpu_cr3 c' /\
  threads s' !! 0%nat = Some (Some (set_stack_pointer (read_u64_at (ram c') 0x8000) boot_thread)).
Proof.
  destruct (switch_to_refines sample_mapped sample_thread_kernel _ sample_from 0%nat boot_thread sample_from_ok
    eq_refl eq_refl eq_refl) as (c' & k' & s' & E1 & E2 & E3 & E4 & E5 & E6 & _).
  exists c', k', s'. exact (conj E1 (conj E2 (conj E3 (conj E4 (conj E5 E6))))).
Defined.
