(* ===== verification/Entry.v ===== *)
(** * Entering and leaving the kernel (src/syscall.rs, src/userspace.rs)

    [syscall::entry], the handler of [int 0x80], and the [asm!] block of
    [enter_ring3], on the machine of [Asm].  To the program that makes it, a
    system call changes RAX and nothing else; [dispatch] is called with the
    five values the ABI names, on an aligned stack.  [enter_ring3] starts a
    program at its entry point, on its stack, in ring 3 with interrupts on,
    and its arguments in RDI and RSI. *)

From S2P Require Import Prelude X86 Asm Context.

(** ** The processor's part *)

(** IF, bit 9 of RFLAGS. *)
Definition IF : Z := 0x200.

(** The privilege level of a code segment selector. *)
Definition rpl (selector : Z) : Z := selector mod 4.

Section Delivery.
Variable mapped : Z -> Z -> bool.

(** An interrupt through an interrupt gate, from ring 3: the stack of RSP0,
    aligned to 16, receives SS, RSP, RFLAGS, CS and the address of the next
    instruction, and interrupts are turned off. *)
Definition deliver (rsp0 kernel_cs handler next : Z) (c : Cpu) : outcome Cpu :=
  let stack := Z.land rsp0 (wrap64 (-16)) in
  c' ← push_all mapped [ss c; regs c RSP; rflags c; cs c; next] (set_reg RSP stack c);
  Ok (mkCpu (regs c') (ram c') (cpu_cr3 c') handler kernel_cs 0 (Z.land (rflags c) (Z.lnot IF))).

(** The frame [iretq] pops. *)
Record returned (c c' : Cpu) (frame : list Z) : Prop := {
  ret_frame : [rip c'; cs c'; rflags c'; regs c' RSP; ss c'] = frame;
  ret_regs r : r <> RSP -> regs c' r = regs c r;
  ret_rest : ram c' = ram c /\ cpu_cr3 c' = cpu_cr3 c;
}.

Lemma iretq_ok c hi :
  maps_region mapped (cpu_cr3 c) (regs c RSP) hi -> 0 <= regs c RSP -> regs c RSP + 40 <= hi -> hi < 2 ^ 64 ->
  exists c', exec mapped Iretq c = Ok c' /\ returned c c' (words (ram c) (regs c RSP) 5).
Proof.
  intros Hm H0 Hhi H64.
  assert (Hp : forall c' k, cpu_cr3 c' = cpu_cr3 c -> regs c' RSP = regs c RSP + k -> 0 <= k <= 32 ->
    asm_pop mapped c' = Ok (read_u64_at (ram c') (regs c RSP + k), set_reg RSP (regs c RSP + (k + 8)) c')).
  { intros c' k Hc Hk Hb. rewrite (asm_pop_ok _ _ hi); [|rewrite Hc, Hk|lia..].
    - rewrite Hk. do 3 f_equal. lia.
    - apply (maps_region_sub _ _ (regs c RSP) hi); [lia..|done]. }
  cbn [exec]. rewrite (Hp c 0) by (done || lia). cbn [mbind outcome_bind].
  rewrite (Hp _ (0 + 8)) by (done || lia). cbn [mbind outcome_bind].
  rewrite (Hp _ (0 + 8 + 8)) by (done || lia). cbn [mbind outcome_bind].
  rewrite (Hp _ (0 + 8 + 8 + 8)) by (done || lia). cbn [mbind outcome_bind].
  rewrite (Hp _ (0 + 8 + 8 + 8 + 8)) by (done || lia). cbn [mbind outcome_bind].
  eexists. split; [reflexivity|]. split; [|intros r Hr|done].
  - cbn [rip cs rflags ss regs words set_reg ram]. rewrite upd_same. repeat (f_equal; try lia).
  - cbn [regs set_reg]. by rewrite !upd_other.
Qed.
End Delivery.

(** ** System calls *)

Definition entry_asm (dispatch : Cpu -> outcome Cpu) (return_to : Z) : list instr := [
  Push RAX;
  Push RBX;
  Push RCX;
  Push RDX;
  Push RSI;
  Push RDI;
  Push RBP;
  Push R8;
  Push R9;
  Push R10;
  Push R11;
  Push R12;
  Push R13;
  Push R14;
  Push R15;
  Load RDI RSP 112;
  Load RSI RSP 72;
  Load RDX RSP 80;
  Load RCX RSP 88;
  Load R8 RSP 96;
  Mov R15 RSP;
  And RSP (-16);
  Call dispatch return_to;
  Mov RSP R15;
  Store RSP 112 RAX;
  Pop R15;
  Pop R14;
  Pop R13;
  Pop R12;
  Pop R11;
  Pop R10;
  Pop R9;
  Pop R8;
  Pop RBP;
  Pop RDI;
  Pop RSI;
  Pop RDX;
  Pop RCX;
  Pop RBX;
  Pop RAX;
  Iretq].

Definition entry_saved : list reg :=
  [RAX; RBX; RCX; RDX; RSI; RDI; RBP; R8; R9; R10; R11; R12; R13; R14; R15].

(** The registers the stub loads, and the words of the saved registers it
    loads them from. *)
Definition entry_args : list (reg * nat) := [(RDI, 14%nat); (RSI, 9%nat); (RDX, 10%nat); (RCX, 11%nat); (R8, 12%nat)].

(** A callee that keeps the System V ABI returned from [c] to [c']: it
    popped its return address, preserved the callee-saved registers and its
    callers' part of the stack, which ends at [top], and came back to the
    address space it was called in. *)
Record sysv_returns (top : Z) (c c' : Cpu) : Prop := {
  sv_saved r : r ∈ callee_saved -> regs c' r = regs c r;
  sv_rsp : regs c' RSP = regs c RSP + 8;
  sv_cr3 : cpu_cr3 c' = cpu_cr3 c;
  sv_stack x : regs c RSP + 8 <= x < top -> ram c' x = ram c x;
  sv_rax : is_u64 (regs c' RAX);
}.

Lemma land_align x : is_u64 x -> Z.land x (wrap64 (-16)) = x - x mod 16.
Proof.
  intros Hx. change (wrap64 (-16)) with (Z.shiftl (Z.ones 60) 4).
  assert (E : x - x mod 16 = Z.shiftl (Z.shiftr x 4) 4).
  { rewrite Z.shiftl_mul_pow2, Z.shiftr_div_pow2 by lia. Z.to_euclidean_division_equations. lia. }
  rewrite E. apply Z.bits_inj'. intros n Hn. rewrite Z.land_spec, !Z.shiftl_spec by lia.
  destruct (Z.ltb_spec n 4); [by rewrite !(Z.testbit_neg_r _ (n - 4)), andb_false_r by lia|].
  rewrite Z.shiftr_spec by lia. replace (n - 4 + 4) with n by lia.
  destruct (Z.ltb_spec n 64).
  - rewrite Z.ones_spec_low by lia. apply andb_true_r.
  - rewrite <- (Z.mod_small x (2 ^ 64)) by exact Hx. by rewrite Z.mod_pow2_bits_high.
Qed.

Section Entry.
Variable mapped : Z -> Z -> bool.

(** Words of the stack, loaded into registers. *)
Lemma exec_loads (l : list (reg * nat)) c n :
  RSP ∉ l.*1 -> NoDup l.*1 -> Forall (fun p => (p.2 < n)%nat) l -> 0 <= regs c RSP ->
  maps_region mapped (cpu_cr3 c) (regs c RSP) (regs c RSP + 8 * Z.of_nat n) -> regs c RSP + 8 * Z.of_nat n < 2 ^ 64 ->
  exists c', exec_all mapped ((fun p => Load p.1 RSP (8 * Z.of_nat p.2)) <$> l) c = Ok c' /\
    (forall r i, (r, i) ∈ l -> words (ram c) (regs c RSP) n !! i = Some (regs c' r)) /\
    (forall r, r ∉ l.*1 -> regs c' r = regs c r) /\ ram c' = ram c /\ cpu_cr3 c' = cpu_cr3 c.
Proof.
  revert c. induction l as [|[r i] l IH]; intros c Hns Hnd Hn H0 Hm H64.
  { exists c. split_and!; try done. by intros ?? ?%not_elem_of_nil. }
  cbn [fmap list_fmap fst] in Hns, Hnd. apply not_elem_of_cons in Hns as [Hr Hns]. apply NoDup_cons in Hnd as [Hnr Hnd].
  apply Forall_cons in Hn as [Hi Hn]. cbn [snd] in Hi.
  set (c1 := set_reg r (read_u64_at (ram c) (regs c RSP + 8 * Z.of_nat i)) c).
  assert (E1 : exec mapped (Load r RSP (8 * Z.of_nat i)) c = Ok c1).
  { cbn [exec]. unfold asm_load. rewrite wrap64_small by (unfold is_u64; lia).
    by rewrite (reaches_ok _ _ _ (regs c RSP) (regs c RSP + 8 * Z.of_nat n)) by (done || lia). }
  assert (R1 : regs c1 RSP = regs c RSP) by by apply upd_other.
  destruct (IH c1) as (c' & E & P1 & P2 & P3 & P4); [done..|by rewrite R1|by rewrite R1|by rewrite R1|].
  exists c'. split; [cbn [fmap list_fmap exec_all foldM fst snd]; unfold exec_all in *; by rewrite E1|].
  split_and!; [| |done|done].
  - intros r' i' [?|Hin]%elem_of_cons; [simplify_eq|by rewrite <- (P1 _ _ Hin), R1].
    rewrite words_lookup by done. f_equal. rewrite P2 by done. symmetry. apply upd_same.
  - intros r' Hr'. cbn [fmap list_fmap fst] in Hr'. apply not_elem_of_cons in Hr' as [??].
    rewrite P2 by done. by apply upd_other.
Qed.

(** The stack the stub works on: the interrupt frame of 40 bytes at [sp],
    120 bytes below it for the registers, the return address below those. *)
Definition entry_stack (c : Cpu) : Prop :=
  (forall r, is_u64 (regs c r)) /\ 144 <= regs c RSP /\ regs c RSP + 40 < 2 ^ 64 /\
  maps_region mapped (cpu_cr3 c) (regs c RSP - 144) (regs c RSP + 40).

(** The state in which [dispatch] is called. *)
Record called (c c1 : Cpu) : Prop := {
  ca_args : regs c1 RDI = regs c RAX /\ regs c1 RSI = regs c RDI /\ regs c1 RDX = regs c RSI /\
    regs c1 RCX = regs c RDX /\ regs c1 R8 = regs c RCX;
  ca_rsp : regs c1 RSP = regs c RSP - 128 - (regs c RSP - 120) mod 16;
  ca_r15 : regs c1 R15 = regs c RSP - 120;
  ca_cr3 : cpu_cr3 c1 = cpu_cr3 c;
  ca_words : words (ram c1) (regs c RSP - 120) 15 = reverse (regs c <$> entry_saved);
  ca_memory x : x < regs c1 RSP \/ regs c RSP <= x -> ram c1 x = ram c x;
}.

(** The registers saved, and the arguments loaded. *)
Lemma entry_saves c :
  entry_stack c ->
  exists c2, exec_all mapped ((Push <$> entry_saved) ++ ((fun p => Load p.1 RSP (8 * Z.of_nat p.2)) <$> entry_args)) c = Ok c2 /\
    (forall r i, (r, i) ∈ entry_args -> reverse (regs c <$> entry_saved) !! i = Some (regs c2 r)) /\
    regs c2 RSP = regs c RSP - 120 /\ cpu_cr3 c2 = cpu_cr3 c /\
    words (ram c2) (regs c RSP - 120) 15 = reverse (regs c <$> entry_saved) /\
    forall x, x < regs c RSP - 120 \/ regs c RSP <= x -> ram c2 x = ram c x.
Proof.
  intros (Hu & Hs & H64 & Hm).
  destruct (exec_pushes mapped entry_saved c (regs c RSP - 120)) as (c1 & E1 & [P1 P2 [P3 _] P4 P5]).
  { decided. } { done. } { by apply (maps_region_sub _ _ (regs c RSP - 144) (regs c RSP + 40)); [lia..|]. }
  { cbn [length entry_saved]. lia. }
  rewrite length_fmap in P1, P4. change (length entry_saved) with 15%nat in P1, P4.
  destruct (exec_loads entry_args c1 15) as (c2 & E2 & Q1 & Q2 & Q3 & Q4).
  { decided. } { decided. } { decided. } { lia. }
  { rewrite P3. apply (maps_region_sub _ _ (regs c RSP - 144) (regs c RSP + 40)); [lia..|done]. } { lia. }
  assert (R1 : regs c1 RSP = regs c RSP - 120) by lia. rewrite R1 in *.
  rewrite P4 in Q1. exists c2. rewrite exec_all_app, E1. cbn [mbind outcome_bind].
  split_and!; [done|done| |congruence|by rewrite Q3|].
  - by rewrite Q2 by decided.
  - intros x Hx. rewrite Q3. by apply P5.
Qed.

Lemma entry_calls dispatch return_to c :
  entry_stack c ->
  exists c1, called c c1 /\ exec_all mapped (take 23 (entry_asm dispatch return_to)) c = dispatch c1.
Proof.
  intros Hok. destruct (entry_saves c Hok) as (c2 & E2 & Q1 & R2 & Q4 & Q5 & Q6). destruct Hok as (_ & Hs & H64 & Hm).
  set (al := (regs c RSP - 120) mod 16). assert (Hal : 0 <= al < 16) by (apply Z.mod_pos_bound; lia).
  set (c3 := set_reg RSP (regs c RSP - 120 - al) (set_reg R15 (regs c RSP - 120) c2)).
  assert (E3 : exec_all mapped [Mov R15 RSP; And RSP (-16)] c2 = Ok c3).
  { cbn [exec_all foldM exec mbind outcome_bind]. rewrite R2. unfold c3. do 2 f_equal.
    cbn [set_reg regs]. rewrite upd_other, R2 by done. apply land_align. unfold is_u64. lia. }
  set (c4 := moved c3 (regs c3 RSP - 8) (write_u64_at (ram c3) (regs c3 RSP - 8) return_to)).
  assert (R3 : regs c3 RSP = regs c RSP - 120 - al) by apply upd_same.
  assert (E4 : asm_push mapped return_to c3 = Ok c4).
  { apply (asm_push_ok _ _ _ (regs c RSP - 144)); rewrite ?R3; [|lia..].
    cbn [c3 set_reg cpu_cr3]. rewrite Q4. apply (maps_region_sub _ _ (regs c RSP - 144) (regs c RSP + 40)); [lia..|done]. }
  assert (R4 : regs c4 RSP = regs c RSP - 128 - al) by (cbn [c4 moved set_ram set_reg regs]; rewrite upd_same; lia).
  assert (Ro : forall r, r <> RSP -> r <> R15 -> regs c4 r = regs c2 r)
    by (intros r Hr1 Hr2; cbn [c4 c3 moved set_ram set_reg regs]; by rewrite !upd_other).
  assert (Hmem : forall x, x < regs c4 RSP \/ regs c3 RSP <= x -> ram c4 x = ram c2 x)
    by (intros x Hx; cbn [c4 c3 moved set_ram set_reg ram]; apply write_u64_other; lia).
  exists c4. split.
  - split; [|exact R4|done|exact Q4| |].
    + rewrite !Ro by done. assert (Hin := fun r i H => eq_sym (Q1 r i (bool_decide_eq_true_1 ((r, i) ∈ entry_args) H))).
      split_and!; [injection (Hin RDI 14%nat eq_refl)|injection (Hin RSI 9%nat eq_refl)|injection (Hin RDX 10%nat eq_refl)
        |injection (Hin RCX 11%nat eq_refl)|injection (Hin R8 12%nat eq_refl)]; done.
    + rewrite <- Q5. apply words_ext. intros x Hx. apply Hmem. lia.
    + intros x Hx. rewrite Hmem by lia. apply Q6. lia.
  - change (take 23 (entry_asm dispatch return_to)) with (((Push <$> entry_saved) ++
      ((fun p => Load p.1 RSP (8 * Z.of_nat p.2)) <$> entry_args)) ++ [Mov R15 RSP; And RSP (-16)] ++ [Call dispatch return_to]).
    rewrite exec_all_app, E2. cbn [mbind outcome_bind]. rewrite exec_all_app, E3. cbn [mbind outcome_bind].
    unfold exec_all. cbn [foldM exec]. rewrite E4. cbn [mbind outcome_bind]. by destruct (dispatch c4).
Qed.

(** The state after [iretq]: every register but RAX as it was on entry,
    the interrupt frame popped. *)
Record resumed (c c2 c' : Cpu) : Prop := {
  re_frame : [rip c'; cs c'; rflags c'; regs c' RSP; ss c'] = words (ram c) (regs c RSP) 5;
  re_rax : regs c' RAX = regs c2 RAX;
  re_regs r : r <> RSP -> r <> RAX -> regs c' r = regs c r;
  re_cr3 : cpu_cr3 c' = cpu_cr3 c;
  re_memory x : ~ regs c RSP - 8 <= x < regs c RSP -> ram c' x = ram c2 x;
}.

Lemma entry_returns dispatch return_to c c1 c2 :
  entry_stack c -> called c c1 -> sysv_returns (regs c RSP + 40) c1 c2 ->
  exists c', exec_all mapped (drop 23 (entry_asm dispatch return_to)) c2 = Ok c' /\ resumed c c2 c'.
Proof.
  intros (Hu & Hs & H64 & Hm) [_ A1 A2 A3 A4 A5] [V1 V2 V3 V4 V5].
  assert (Hal : 0 <= (regs c RSP - 120) mod 16 < 16) by (apply Z.mod_pos_bound; lia).
  assert (R15c : regs c2 R15 = regs c RSP - 120) by (rewrite V1 by decided; done).
  set (c3 := moved c2 (regs c RSP - 120) (write_u64_at (ram c2) (regs c RSP - 8) (regs c2 RAX))).
  assert (E3 : exec_all mapped [Mov RSP R15; Store RSP 112 RAX] c2 = Ok c3).
  { cbn [exec_all foldM exec mbind outcome_bind]. rewrite R15c. cbn [set_reg regs]. rewrite upd_same, upd_other by done.
    rewrite wrap64_small by (unfold is_u64; lia). replace (_ + 112) with (regs c RSP - 8) by lia. unfold asm_store.
    rewrite (reaches_ok _ _ _ (regs c RSP - 144) (regs c RSP + 40)); [done| |lia..]. cbn [set_reg cpu_cr3]. by rewrite V3, A3. }
  destruct (exec_pops mapped (reverse entry_saved) c3 (regs c RSP + 40)) as (c4 & E4 & [Q1 Q2 Q3 [Q4 Q5]]).
  { decided. } { decided. } { cbn [c3 moved set_ram set_reg regs]. rewrite upd_same. lia. }
  { cbn [c3 moved set_ram set_reg regs cpu_cr3]. rewrite upd_same, V3, A3.
    apply (maps_region_sub _ _ (regs c RSP - 144) (regs c RSP + 40)); [lia..|done]. }
  { cbn [c3 moved set_ram set_reg regs]. rewrite upd_same. cbn. lia. } { done. }
  change (regs c3 RSP) with (regs c RSP - 120) in Q1, Q2. change (length (reverse entry_saved)) with 15%nat in Q1, Q2.
  assert (Hmem : forall x, ~ regs c RSP - 8 <= x < regs c RSP -> ram c3 x = ram c2 x)
    by (intros x Hx; apply write_u64_other; lia).
  destruct (iretq_ok mapped c4 (regs c RSP + 40)) as (c' & E5 & [F1 F2 [F3 F4]]); [|lia..|].
  { rewrite Q5, Q1. cbn [c3 moved set_ram set_reg cpu_cr3]. rewrite V3, A3.
    apply (maps_region_sub _ _ (regs c RSP - 144) (regs c RSP + 40)); [lia..|done]. }
  assert (Hw : words (ram c3) (regs c RSP - 120) 15 = take 14 (reverse (regs c <$> entry_saved)) ++ [regs c2 RAX]).
  { change 15%nat with (14 + 1)%nat. rewrite words_app. f_equal.
    - rewrite <- A4. change 15%nat with (14 + 1)%nat. rewrite words_app, take_app_length' by (by rewrite length_words).
      apply words_ext. intros x Hx. rewrite Hmem by lia. apply V4. lia.
    - cbn [words]. f_equal. replace (_ + _) with (regs c RSP - 8) by lia. by apply read_u64_write_same. }
  rewrite Hw in Q2. clear Hw. cbn in Q2. injection Q2 as Q2.
  exists c'. split.
  - change (drop 23 (entry_asm dispatch return_to)) with ([Mov RSP R15; Store RSP 112 RAX] ++ (Pop <$> reverse entry_saved) ++ [Iretq]).
    rewrite exec_all_app, E3. cbn [mbind outcome_bind]. rewrite exec_all_app, E4. cbn [mbind outcome_bind].
    unfold exec_all. cbn [foldM]. by rewrite E5.
  - split.
    + rewrite F1, Q1, Q4. replace (_ + _) with (regs c RSP) by lia. apply words_ext. intros x Hx.
      rewrite Hmem, V4, A5 by lia. done.
    + rewrite F2 by done. done.
    + intros [] Hr1 Hr2; try done; rewrite F2 by done; done.
    + rewrite F4, Q5. cbn [c3 moved set_ram set_reg cpu_cr3]. congruence.
    + intros x Hx. rewrite F3, Q4. by apply Hmem.
Qed.

(** C11: a system call is transparent to the program that makes it.  [int
    0x80] from ring 3 and [entry] call [dispatch] with RAX, RDI, RSI, RDX
    and RCX of the program, with the stack aligned as the ABI asks, in the
    program's address space; when [dispatch] returns as the ABI says, the
    program continues at its next instruction in ring 3, with the stack
    pointer, the flags, the address space and every register but RAX as
    they were, and RAX the result. *)
Theorem syscall_transparent dispatch return_to rsp0 kernel_cs handler next c :
  let stack := rsp0 - rsp0 mod 16 in
  (forall r, is_u64 (regs c r)) -> Forall is_u64 [ss c; rflags c; cs c; next; rsp0] ->
  184 <= stack -> maps_region mapped (cpu_cr3 c) (stack - 184) stack ->
  exists c0 c1, deliver mapped rsp0 kernel_cs handler next c = Ok c0 /\ rip c0 = handler /\ cs c0 = kernel_cs /\
    [regs c1 RDI; regs c1 RSI; regs c1 RDX; regs c1 RCX; regs c1 R8] = regs c <$> [RAX; RDI; RSI; RDX; RCX] /\
    regs c1 RSP mod 16 = 8 /\ cpu_cr3 c1 = cpu_cr3 c /\
    forall c2, dispatch c1 = Ok c2 -> sysv_returns stack c1 c2 ->
      exists c', exec_all mapped (entry_asm dispatch return_to) c0 = Ok c' /\
        rip c' = next /\ cs c' = cs c /\ ss c' = ss c /\ rflags c' = rflags c /\ cpu_cr3 c' = cpu_cr3 c /\
        regs c' RAX = regs c2 RAX /\ (forall r, r <> RAX -> regs c' r = regs c r) /\
        forall x, ~ stack - 184 <= x < stack -> ram c' x = ram c2 x.
Proof.
  intros stack Hu Hv Hs Hm. unfold stack in *. clear stack.
  rewrite !Forall_cons in Hv. destruct Hv as (V1 & V2 & V3 & V4 & V5 & _). unfold is_u64 in V5.
  assert (Hb : 0 <= rsp0 mod 16 < 16) by (apply Z.mod_pos_bound; lia).
  set (stack := rsp0 - rsp0 mod 16) in *. unfold deliver. rewrite land_align by done. fold stack.
  destruct (push_all_ok mapped [ss c; regs c RSP; rflags c; cs c; next] (set_reg RSP stack c) (stack - 184))
    as (c0 & E0 & [P1 P2 (P3 & P4 & P5) P6 P7]).
  { repeat (constructor; [done || apply Hu|]). constructor. } { done. }
  { change (0 <= stack - 184 <= stack - 40). lia. } { change (stack < 2 ^ 64). lia. }
  change (regs (set_reg RSP stack c) RSP) with stack in *. change (length _) with 5%nat in P1, P6.
  rewrite E0. cbn [mbind outcome_bind].
  set (d0 := mkCpu (regs c0) (ram c0) (cpu_cr3 c0) handler kernel_cs 0 _).
  assert (Rd : forall r, r <> RSP -> regs d0 r = regs c r) by (intros r Hr; cbn [d0 regs]; rewrite P2 by done; by apply upd_other).
  assert (Sd : regs d0 RSP = stack - 40) by (cbn [d0 regs]; lia).
  assert (Hok : entry_stack d0).
  { split_and!.
    - intros r. destruct (decide (r = RSP)) as [->|Hr]; [rewrite Sd; unfold is_u64; lia|by rewrite Rd].
    - lia.
    - lia.
    - rewrite Sd. cbn [d0 cpu_cr3]. rewrite P3. apply (maps_region_sub _ _ (stack - 184) stack); [lia..|done]. }
  destruct (entry_calls dispatch return_to d0 Hok) as (c1 & Hc & Ec).
  assert (Hc' := Hc). destruct Hc' as [(A1 & A2 & A3 & A4 & A5) B1 _ B3 _ _]. rewrite Rd in A1, A2, A3, A4, A5 by done.
  exists d0, c1. split_and!; [done..|cbn; congruence| |cbn [d0 cpu_cr3] in B3; by rewrite B3, P3|].
  - rewrite B1, Sd. unfold stack. Z.to_euclidean_division_equations. lia.
  - intros c2 Ed Hsv. rewrite <- (take_drop 23 (entry_asm dispatch return_to)), exec_all_app, Ec, Ed. cbn [mbind outcome_bind].
    destruct (entry_returns dispatch return_to d0 c1 c2 Hok Hc) as (c' & E' & [F1 F2 F3 F4 F5]).
    { rewrite Sd. by replace (stack - 40 + 40) with stack by lia. }
    change (words (ram d0) (regs d0 RSP) 5) with (words (ram c0) (regs c0 RSP) 5) in F1. rewrite P6 in F1.
    cbn in F1. injection F1 as G1 G2 G3 G4 G5. exists c'. split_and!; try done.
    + rewrite F4. exact P3.
    + intros r Hr. destruct (decide (r = RSP)) as [->|Hr']; [done|]. by rewrite F3, Rd.
    + intros x Hx. apply F5. rewrite Sd. lia.
Qed.
End Entry.

(** ** Starting a program *)

(** The [asm!] block of [enter_ring3]; the compiler chooses the registers
    that hold its five inputs. *)
Definition enter_ring3_asm (ss stack rflags cs rip : reg) : list instr :=
  [Push ss; Push stack; Push rflags; Push cs; Push rip; Iretq].

(** The inputs in their registers: the stack selector, the stack pointer,
    RFLAGS 0x202, the code selector, the entry point, and the arguments. *)
Definition enter_ring3_inputs (ss stack rflags cs rip : reg) (code_selector data_selector entry stack_top args_ptr args_len : Z)
    (c : Cpu) : Prop :=
  regs c <$> [ss; stack; rflags; cs; rip; RDI; RSI] =
    [data_selector; stack_top; 0x202; code_selector; entry; args_ptr; args_len].

(** [enter_ring3] starts the program: whatever registers hold its
    inputs, it continues at the entry point with the program's stack, in
    the segments of the user selectors, with interrupts enabled, the
    arguments in RDI and RSI, and memory above the kernel's stack pointer
    as it was. *)
Lemma enter_ring3_starts mapped ss' stack rflags' cs' rip' code_selector data_selector entry stack_top args_ptr args_len c :
  RSP ∉ [ss'; stack; rflags'; cs'; rip'] -> (forall r, is_u64 (regs c r)) ->
  enter_ring3_inputs ss' stack rflags' cs' rip' code_selector data_selector entry stack_top args_ptr args_len c ->
  40 <= regs c RSP -> maps_region mapped (cpu_cr3 c) (regs c RSP - 40) (regs c RSP) ->
  exists c', exec_all mapped (enter_ring3_asm ss' stack rflags' cs' rip') c = Ok c' /\
    rip c' = entry /\ regs c' RSP = stack_top /\ cs c' = code_selector /\ ss c' = data_selector /\
    Z.testbit (rflags c') 9 = true /\ regs c' RDI = args_ptr /\ regs c' RSI = args_len /\ cpu_cr3 c' = cpu_cr3 c /\
    forall x, regs c RSP <= x -> ram c' x = ram c x.
Proof.
  intros Hns Hu Hin Hs Hm. assert (H64 := Hu RSP). unfold is_u64 in H64.
  destruct (exec_pushes mapped [ss'; stack; rflags'; cs'; rip'] c (regs c RSP - 40)) as (c1 & E1 & [P1 P2 (P3 & _) P4 P5]);
    [done..|cbn; lia|].
  rewrite length_fmap in P1, P4. cbn [length] in P1, P4.
  destruct (iretq_ok mapped c1 (regs c RSP)) as (c' & E2 & [F1 F2 [F3 F4]]); [|lia..|].
  { rewrite P3, P1. apply (maps_region_sub _ _ (regs c RSP - 40) (regs c RSP)); [lia..|done]. }
  rewrite P4 in F1. cbn in F1, Hin. injection F1 as G1 G2 G3 G4 G5. injection Hin as I1 I2 I3 I4 I5 I6 I7.
  exists c'. split_and!; try congruence.
  - change (enter_ring3_asm ss' stack rflags' cs' rip') with ((Push <$> [ss'; stack; rflags'; cs'; rip']) ++ [Iretq]).
    rewrite exec_all_app, E1. cbn [mbind outcome_bind]. unfold exec_all. cbn [foldM]. by rewrite E2.
  - by rewrite G3, I3.
  - by rewrite F2, P2, I6.
  - by rewrite F2, P2, I7.
  - intros x Hx. rewrite F3. apply P5. lia.
Qed.

(** ** Concrete entries

    A program at 0x400000 in ring 3 makes a call; [dispatch] returns 42 and
    leaves other values in the registers it need not preserve. *)

Definition sample_dispatch (c : Cpu) : outcome Cpu :=
  Ok (set_reg RSP (regs c RSP + 8) (set_reg RAX 42 (set_reg RCX 99 (set_reg R11 99 c)))).

Definition sample_user : Cpu :=
  mkCpu (upd RSP 0x7ff0 (upd RAX 1 (upd RDI 3 (fun _ => 17)))) (fun _ => 0) 0x1000 0x400000 0x23 0x2b 0x202.

Lemma syscall_transparent_witness : exists c0 c1 c', deliver sample_mapped 0x9008 8 0x5000 0x400002 sample_user = Ok c0 /\
  [regs c1 RDI; regs c1 RSI; regs c1 RDX; regs c1 RCX; regs c1 R8] = [1; 3; 17; 17; 17] /\ regs c1 RSP mod 16 = 8 /\
  exec_all sample_mapped (entry_asm sample_dispatch 0x5040) c0 = Ok c' /\ rip c' = 0x400002 /\ cs c' = 0x23 /\
  ss c' = 0x2b /\ rflags c' = 0x202 /\ cpu_cr3 c' = 0x1000 /\ regs c' RAX = 42 /\
  forall r, r <> RAX -> regs c' r = regs sample_user r.
Proof.
  destruct (syscall_transparent sample_mapped sample_dispatch 0x5040 0x9008 8 0x5000 0x400002 sample_user)
    as (c0 & c1 & E0 & _ & _ & Ha & H16 & Hcr & F).
  - intros r. unfold sample_user. cbn [regs]. unfold is_u64, upd. repeat case_decide; lia.
  - repeat (constructor; [unfold is_u64; cbn; lia|]). constructor.
  - vm_compute. discriminate.
  - intros a Ha. apply Z.ltb_lt. change (0x9008 - 0x9008 mod 16) with 0x9000 in Ha. lia.
  - destruct (F _ eq_refl) as (c' & E' & R1 & R2 & R3 & R4 & R5 & R6 & R7 & _).
    + split; [|reflexivity|reflexivity|reflexivity|split; [discriminate|reflexivity]].
      intros r Hr. unfold callee_saved in Hr.
      repeat (apply elem_of_cons in Hr as [->|Hr]; [reflexivity|]). by apply not_elem_of_nil in Hr.
    + exists c0, c1, c'. exact (conj E0 (conj Ha (conj H16 (conj E' (conj R1 (conj R2 (conj R3 (conj R4 (conj R5
        (conj R6 R7)))))))))).
Defined.

Lemma enter_ring3_starts_witness : exists c',
  exec_all sample_mapped (enter_ring3_asm RAX RCX RDX RBX R8) (mkCpu
    (upd RSP 0x9000 (upd RAX 0x2b (upd RCX 0x7ff0 (upd RDX 0x202 (upd RBX 0x23 (upd R8 0x400000 (upd RDI 5 (fun _ => 6))))))))
    (fun _ => 0) 0x1000 0 8 0 2) = Ok c' /\
  rip c' = 0x400000 /\ regs c' RSP = 0x7ff0 /\ cs c' = 0x23 /\ ss c' = 0x2b /\ Z.testbit (rflags c') 9 = true /\
  regs c' RDI = 5 /\ regs c' RSI = 6 /\ cpu_cr3 c' = 0x1000.
Proof.
  destruct (enter_ring3_starts sample_mapped RAX RCX RDX RBX R8 0x23 0x2b 0x400000 0x7ff0 5 6 (mkCpu
    (upd RSP 0x9000 (upd RAX 0x2b (upd RCX 0x7ff0 (upd RDX 0x202 (upd RBX 0x23 (upd R8 0x400000 (upd RDI 5 (fun _ => 6))))))))
    (fun _ => 0) 0x1000 0 8 0 2)) as (c' & E & R1 & R2 & R3 & R4 & R5 & R6 & R7 & R8' & _).
  - decided.
  - intros r. cbn [regs]. unfold is_u64, upd. repeat case_decide; lia.
  - reflexivity.
  - vm_compute. discriminate.
  - intros a Ha. apply Z.ltb_lt. change (regs _ RSP) with 0x9000 in Ha. lia.
  - exists c'. exact (conj E (conj R1 (conj R2 (conj R3 (conj R4 (conj R5 (conj R6 (conj R7 R8')))))))).
Defined.
