(* ===== verification/SpawnInv.v ===== *)
(** * Creation of threads

    [init] establishes the invariant of the scheduler, [spawn] and
    [spawn_isolated] keep it: what they allocate, the slot they take, the
    process id they return, and the panics they can end in. *)

From S2P Require Import Prelude Ring X86 FrameAlloc Paging AddressSpace Mapper Threads Scheduler SchedulerInv.

Lemma nodup_below (l : list nat) n : NoDup l -> Forall (fun i => (i < n)%nat) l -> (length l <= n)%nat.
Proof.
  intros Hnd Hb. rewrite <- (length_seq n 0). apply submseteq_length, NoDup_submseteq; [done|].
  intros i Hi. rewrite Forall_forall in Hb. apply elem_of_seq. specialize (Hb i Hi). lia.
Qed.

Section Register.
Context {crate : X86Crate} {H : Type} {kheap : KernelHeap H}.
Implicit Types (k : Kernel H) (s : SchedulerState) (t : Thread) (id : ThreadId).

(** The state after a thread [t] took the free slot [id]. *)
Definition registered s id t (generation : Z) q : SchedulerState :=
  set_ready_queue q (set_threads (<[id := Some t]> (threads s))
    (set_generations (<[id := generation]> (slot_generations s)) s)).

Lemma free_slot_not_live s id :
  sched_inv s -> position_none (threads s) = Some id ->
  id ∉ live_ids s /\ id <> 0%nat /\ (id < MAX_THREADS)%nat /\ threads s !! id = Some None.
Proof.
  intros Hs Hp. destruct (position_none_Some _ _ Hp) as [Hn _].
  assert (Hni : id ∉ live_ids s).
  { intros Hin. destruct (live_lookup s id Hs Hin) as (t & Ht). congruence. }
  split_and!; [done| | |done].
  - intros ->. by destruct (si_boot s Hs).
  - apply lookup_lt_Some in Hn. by rewrite (si_threads s Hs) in Hn.
Qed.

(** The queue has room for every thread of the table. *)
Lemma queue_has_room s id :
  sched_inv s -> position_none (threads s) = Some id ->
  (length (ready_list (ready_queue s)) < MAX_THREADS)%nat.
Proof.
  intros Hs Hp. destruct (free_slot_not_live s id Hs Hp) as (Hni & _ & Hlt & _).
  assert (Hl : (length (id :: live_ids s) <= MAX_THREADS)%nat).
  { apply nodup_below.
    - apply NoDup_cons. split; [done|apply (si_nodup s Hs)].
    - constructor; [done|]. apply Forall_forall. intros i Hi. by apply (live_bound s). }
  unfold live_ids in Hl. cbn [length] in Hl. rewrite length_app in Hl. lia.
Qed.

Lemma register_thread_ok s t id :
  sched_inv s -> position_none (threads s) = Some id -> thread_ok id t ->
  Forall (fun g => 0 <= g < U64_MAX) (slot_generations s) ->
  exists g q, slot_generations s !! id = Some g /\
    register_thread t s = Ok (pack_pid id (g + 1), registered s id t (g + 1) q) /\
    sched_inv (registered s id t (g + 1) q) /\
    ready_list q = ready_list (ready_queue s) ++ [id].
Proof.
  intros Hs Hp Ht Hg. destruct (free_slot_not_live s id Hs Hp) as (Hni & H0 & Hlt & Hn).
  destruct (lookup_lt_is_Some_2 (slot_generations s) id) as [g Hgi]; [by rewrite (si_generations s Hs)|].
  assert (Hgb := Forall_lookup_1 _ _ _ _ Hg Hgi). cbn beta in Hgb.
  destruct (push_back_ok (ready_queue s) id (si_queue s Hs) (queue_has_room s id Hs Hp)) as (q & Eq & Hq & Hql).
  exists g, q. split; [done|]. split.
  { unfold register_thread. rewrite Hp. cbn [expect mbind outcome_bind]. rewrite Hgi.
    cbn [expect mbind outcome_bind]. unfold add_w, U64_MAX in *. destruct (Z.ltb_spec (g + 1) (2 ^ 64)); [|lia].
    cbn [mbind outcome_bind]. by rewrite Eq. }
  split; [|done]. destruct Hs as [Ht' Hg' Hq' Hnd Hl Hb Hth].
  assert (Hperm : live_ids (registered s id t (g + 1) q) ≡ₚ id :: live_ids s).
  { unfold live_ids. cbn [registered set_ready_queue set_threads set_generations current zombie ready_queue].
    rewrite Hql, app_assoc. rewrite (Permutation_app_comm _ [id]). cbn [app]. apply perm_swap. }
  split; cbn [registered set_ready_queue set_threads set_generations threads slot_generations ready_queue zombie].
  - by rewrite length_insert.
  - by rewrite length_insert.
  - done.
  - rewrite Hperm. by apply NoDup_cons.
  - intros i. rewrite Hperm, elem_of_cons, Hl. destruct (decide (i = id)) as [->|Hne].
    + rewrite list_lookup_insert_eq by (by apply lookup_lt_Some in Hn). split; [eauto|by left].
    + rewrite list_lookup_insert_ne by done. split; [by intros [?|?]|by right].
  - destruct Hb. split; [done|]. rewrite Hperm. by right.
  - intros i u. destruct (decide (i = id)) as [->|Hne].
    + rewrite list_lookup_insert_eq by (by apply lookup_lt_Some in Hn). by intros [= <-].
    + rewrite list_lookup_insert_ne by done. apply Hth.
Qed.

Lemma register_thread_full s t :
  position_none (threads s) = None ->
  register_thread t s = Panic "thread table full (MAX_THREADS exceeded)".
Proof. intros Hp. unfold register_thread. by rewrite Hp. Qed.

(** The kernel invariant after a registration; [k'] is the new kernel, whose
    heap holds the new stack. *)
Lemma registered_kernel_inv spaces k s k' id t g q :
  kernel_inv spaces k s -> position_none (threads s) = Some id ->
  sched_inv (registered s id t g q) -> ready_list q = ready_list (ready_queue s) ++ [id] ->
  scheduler k' = Some (registered s id t g q) -> scheduler_locked k' = false ->
  suspended k' = <[id := AtTrampoline]> (suspended k) -> is_Some (entry t) ->
  heap_inv (heap k') -> stack_block (Some t) ++ heap_live (heap k) ⊆+ heap_live (heap k') ->
  (exists pmo, physical_memory_offset k' = Some pmo /\
    forall i u l4, <[id := Some t]> (threads s) !! i = Some (Some u) -> page_table u = Some l4 ->
      repr_space (phys k') l4 [0%nat; va_index 4 pmo] (spaces l4)) ->
  fa_inv (frames k') -> mem_ok (phys k') -> accounts spaces (<[id := Some t]> (threads s)) (frames k') ->
  kernel_inv spaces k' (registered s id t g q).
Proof.
  intros HK Hp Hs' Hql E1 E2 E3 [e He] Hh Hlive Hsp Hf Hm Hacc. assert (Hs := ki_sched _ _ _ HK).
  destruct (free_slot_not_live s id Hs Hp) as (Hni & H0 & Hlt & Hn).
  assert (Hi : <[id := Some t]> (threads s) !! id = Some (Some t)).
  { apply list_lookup_insert_eq. by rewrite (si_threads s Hs). }
  split; try done.
  - by rewrite E3, length_insert, (ki_suspended _ _ _ HK).
  - cbn [registered set_ready_queue set_threads set_generations ready_queue threads].
    rewrite Hql, E3. intros i [Hin|Hin%list_elem_of_singleton]%elem_of_app.
    + assert (Hne : i <> id) by (intros ->; apply Hni; unfold live_ids; set_solver).
      unfold resumable. rewrite !list_lookup_insert_ne by done. by apply (ki_resume _ _ _ HK).
    + subst i. right. rewrite Hi, list_lookup_insert_eq by (by rewrite (ki_suspended _ _ _ HK)). eauto.
  - cbn [registered set_ready_queue set_threads set_generations threads].
    assert (Hperm := bind_insert_perm stack_block (threads s) id None (Some t) Hn).
    cbn [stack_block app] in Hperm. etransitivity; [|exact Hlive]. unfold stack_block at 1.
    rewrite Hperm. apply submseteq_app; [done|apply (ki_stacks _ _ _ HK)].
Qed.
End Register.

Section Spawn.
Context {crate : X86Crate} {H : Type} {kheap : KernelHeap H}.
Implicit Types (k : Kernel H) (s : SchedulerState) (t : Thread) (id : ThreadId).

(** The state [init] builds, when [cr3] is the kernel's page table. *)
Definition boot_state (kpt : Z) : SchedulerState :=
  mkSchedulerState (Some boot_thread :: replicate (MAX_THREADS - 1) None) ready_queue_new 0%nat kpt None
    (1 :: replicate (MAX_THREADS - 1) 0).

Lemma boot_state_lookup kpt id t :
  threads (boot_state kpt) !! id = Some (Some t) <-> id = 0%nat /\ t = boot_thread.
Proof.
  destruct id as [|id]; [cbn; naive_solver|].
  change (replicate (MAX_THREADS - 1) None !! id = Some (Some t) <-> S id = 0%nat /\ t = boot_thread).
  rewrite lookup_replicate. naive_solver.
Qed.

Lemma boot_state_inv kpt : sched_inv (boot_state kpt).
Proof.
  destruct ready_new as [Hq Hl]. split; try done.
  - unfold live_ids. cbn [boot_state current zombie ready_queue]. rewrite Hl. cbn. by apply NoDup_singleton.
  - intros id. setoid_rewrite boot_state_lookup.
    unfold live_ids. cbn [boot_state current zombie ready_queue]. rewrite Hl. cbn [option_list app].
    rewrite list_elem_of_singleton. naive_solver.
  - split; [done|]. unfold live_ids. cbn. set_solver.
  - intros id t [-> ->]%boot_state_lookup. unfold thread_ok. by rewrite decide_True.
Qed.

(** A kernel just before [scheduler::init]. *)
Record boot_ok k : Prop := {
  boot_unlocked : scheduler_locked k = false;
  boot_suspended : length (suspended k) = MAX_THREADS;
  boot_heap : heap_inv (heap k);
  boot_pmo : exists pmo, physical_memory_offset k = Some pmo;
  boot_frames : fa_inv (frames k);
  boot_mem : mem_ok (phys k);
  boot_accounts : NoDup (fa_avail (frames k)) /\ Forall frame_ok (fa_avail (frames k));
}.

Lemma init_ok spaces k :
  boot_ok k ->
  exists k', init k = Ok (tt, k') /\ kernel_inv spaces k' (boot_state (cr3 k)) /\
    running k' (boot_state (cr3 k)) /\ k' = set_scheduler (Some (boot_state (cr3 k))) false k.
Proof.
  intros [H1 H2 H3 (pmo & H4) H5 H6 H7].
  exists (set_scheduler (Some (boot_state (cr3 k))) false k). split; [|split; [|split; [|done]]].
  - destruct k as [sch lk r c r0 i su km ph fr hp pm]. cbn in H1. subst.
    unfold init. run. by destruct i.
  - destruct ready_new as [Hq Hl].
    split; try done; [apply boot_state_inv| |apply submseteq_nil_l|].
    + intros id. cbn [boot_state ready_queue]. rewrite Hl. set_solver.
    + exists pmo. split; [done|]. by intros id t l4 [-> ->]%boot_state_lookup.
  - by exists boot_thread.
Qed.

(** The stack allocation succeeds: what it changes. *)
Lemma new_stack_ok tramp k p h :
  heap_alloc STACK_SIZE 4096 (heap k) = (Some p, h) ->
  new_stack tramp k = Ok ((p, p + STACK_SIZE - 64),
    set_kmem (build_initial_stack tramp (kmem k) p).2 (set_heap h k)).
Proof.
  intros E. unfold new_stack. rewrite E.
  assert (Hsp : (build_initial_stack tramp (kmem k) p).1 = p + STACK_SIZE - 64).
  { unfold build_initial_stack. cbn [initial_frame length fst]. lia. }
  destruct (build_initial_stack tramp (kmem k) p) as [sp m]. cbn in Hsp. by rewrite Hsp.
Qed.

(** The thread [spawn] makes. *)
Definition spawned (p e : Z) : Thread :=
  mkThread (p + STACK_SIZE - 64) p STACK_SIZE (Some e) None (p + STACK_SIZE) no_open_files None.

Lemma spawned_ok id p e : id <> 0%nat -> 0 < p -> p + STACK_SIZE < 2 ^ 47 -> thread_ok id (spawned p e).
Proof. intros. unfold thread_ok. rewrite decide_False by done. cbn. split_and!; [done|done|lia|done|done]. Qed.

Lemma unpack_slot id g : (id < MAX_THREADS)%nat -> 0 <= g < U64_MAX -> (unpack_pid (pack_pid id (g + 1))).1 = id.
Proof.
  intros Hid Hg. unfold unpack_pid, pack_pid. cbn [fst].
  rewrite Z.land_lor_distr_l, Z.shiftl_mul_pow2 by lia.
  change 0xff with (Z.ones 8). rewrite !Z.land_ones by lia.
  assert (E : ((g + 1) * 2 ^ 8) mod 2 ^ 64 mod 2 ^ 8 = 0).
  { replace (2 ^ 64) with (2 ^ 8 * 2 ^ 56) by done. rewrite (Z.mul_comm (g + 1)).
    rewrite Z.mul_mod_distr_l by lia. rewrite Z.mul_comm. apply Z.mod_mul. lia. }
  rewrite E, Z.lor_0_l, Z.mod_small; unfold MAX_THREADS in Hid; lia.
Qed.

(** [spawn] succeeds when there is memory for a stack and a free slot. *)
Lemma spawn_ok spaces k s tramp e p h id :
  kernel_inv spaces k s -> heap_alloc STACK_SIZE 4096 (heap k) = (Some p, h) ->
  position_none (threads s) = Some id -> Forall (fun g => 0 <= g < U64_MAX) (slot_generations s) ->
  exists k' g q, spawn tramp e k = Ok (tt, k') /\ slot_generations s !! id = Some g /\
    kernel_inv spaces k' (registered s id (spawned p e) (g + 1) q) /\
    ready_list q = ready_list (ready_queue s) ++ [id] /\
    cr3 k' = cr3 k /\ rsp0 k' = rsp0 k /\ frames k' = frames k /\ phys k' = phys k /\
    interrupts_enabled k' = interrupts_enabled k /\ heap k' = h /\
    suspended k' = <[id := AtTrampoline]> (suspended k).
Proof.
  intros HK Ea Hp Hg. assert (Hs := ki_sched _ _ _ HK).
  destruct (free_slot_not_live s id Hs Hp) as (Hni & H0 & Hlt & Hn).
  destruct (heap_alloc_some (heap k) STACK_SIZE 4096 p h (ki_heap _ _ _ HK) ltac:(done) Ea) as (Hh & Hlive & Hal & Hpos & Htop & _).
  destruct (register_thread_ok s (spawned p e) id Hs Hp) as (g & q & Eg & Er & Hs' & Hq);
    [by apply spawned_ok|done|].
  assert (Hgb := Forall_lookup_1 _ _ _ _ Hg Eg). cbn beta in Hgb.
  set (k' := set_suspended (<[id := AtTrampoline]> (suspended k))
    (set_scheduler (Some (registered s id (spawned p e) (g + 1) q)) false
      (set_kmem (build_initial_stack tramp (kmem k) p).2 (set_heap h k)))).
  exists k', g, q. split; [|split; [done|split; [|by split_and!]]].
  - unfold k', spawn, start_at_trampoline.
    pose proof (new_stack_ok tramp (set_interrupts false k) p h Ea) as En.
    assert (Eu := unpack_slot id g Hlt Hgb). unfold spawned in *.
    destruct HK as [H1 H2 _ _ _ _ _ _ _ _ _]. take_apart k s. run. cbn [set_interrupts] in En.
    rewrite En. run. rewrite Er. run. rewrite Eu. by destruct i.
  - destruct HK as [H1 H2 H3 H4 H5 H6 H7 (pmo & Hpm & Hsp) H9 H10 H11] eqn:EK. clear EK.
    eapply (registered_kernel_inv spaces k s); try done; [| |].
    + unfold k'. cbn [set_suspended set_scheduler set_kmem set_heap heap]. by rewrite Hlive.
    + exists pmo. split; [done|]. intros i u l4.
      destruct (decide (i = id)) as [->|Hne].
      * rewrite list_lookup_insert_eq by (by rewrite (si_threads s Hs)). by intros [= <-].
      * rewrite list_lookup_insert_ne by done. apply Hsp.
    + assert (Hperm := bind_insert_perm (owned spaces) (threads s) id None (Some (spawned p e)) Hn).
      cbn [owned spawned page_table app] in Hperm. unfold accounts in *.
      change (owned spaces None) with (@nil Z) in Hperm. cbn [app] in Hperm. by rewrite Hperm.
Qed.
End Spawn.
