(* ===== verification/SpawnIsolated.v ===== *)
(** * Threads with an address space of their own

    [spawn_isolated_inner] of src/scheduler/mod.rs: the kernel stack of the
    new thread is mapped into its address space page by page, for ring 0
    only, and the thread registered.  The frames of the stack stay the
    property of the kernel heap; every other frame the address space uses is
    accounted for. *)

From S2P Require Import Prelude Ring X86 FrameAlloc Paging AddressSpace Mapper MapperRef Mappings ElfThms.
From S2P Require Import Threads Scheduler SchedulerInv SpawnInv.

(** The tables the processor reads on a walk. *)
Fixpoint walk_tables `{X86Crate} (m : mem) (t : Z) (indexes : list nat) : list Z :=
  match indexes with
  | [] => []
  | i :: rest =>
      t :: match pte_frame (table_entry m t i) with FrameOk f => walk_tables m f rest | _ => [] end
  end.

(** The kernel's table [kt] maps [page] to [f], through tables that are not
    among the frames [fs]. *)
Definition kernel_maps `{X86Crate} (m : mem) (kt : Z) (fs : list Z) (page f : Z) : Prop :=
  exists e, leaf_entry m kt (hw_indexes 4 page) = Some e /\ f = Z.land e ADDR_MASK /\
    Forall (fun t => frame_ok t /\ t ∉ fs) (walk_tables m kt (hw_indexes 4 page)).

Section Share.
Context {crate : X86Crate} {mapper : PageMapper} {H : Type} {kheap : KernelHeap H}.
Implicit Types (m : mem) (k : Kernel H) (a : GlobalFrameAllocator).

Lemma leaf_entry_ext m m' t indexes :
  Forall (fun i => (i < 512)%nat) indexes ->
  (forall f x, f ∈ walk_tables m t indexes -> in_frame f x -> m' x = m x) ->
  leaf_entry m' t indexes = leaf_entry m t indexes.
Proof.
  revert t; induction indexes as [|i rest IH]; intros t Hi Hx; [done|].
  apply Forall_cons in Hi as [Hi Hr].
  assert (He : table_entry m' t i = table_entry m t i).
  { apply table_entry_ext; [done|]. intros x Hx'. apply (Hx t); [cbn; set_solver|done]. }
  cbn [leaf_entry walk_tables] in *. rewrite He. destruct rest as [|j rest]; [done|].
  destruct (pte_frame (table_entry m t i)) as [f| |]; [|done..].
  apply IH; [done|]. intros g x Hg. apply Hx. set_solver.
Qed.

Lemma hw_indexes_lt l page : Forall (fun i => (i < 512)%nat) (hw_indexes l page).
Proof. apply Forall_forall. intros i Hi. unfold hw_indexes in Hi. apply list_elem_of_fmap in Hi as (j & -> & _). apply hw_index_lt. Qed.

Lemma leaf_entry_u64 m t indexes e : mem_ok m -> leaf_entry m t indexes = Some e -> is_u64 e.
Proof.
  intros Hm. revert t; induction indexes as [|i rest IH]; intros t; [done|]. cbn [leaf_entry].
  destruct rest as [|j rest].
  - destruct (Z.testbit _ _); [|done]. intros [= <-]. by apply table_entry_u64.
  - destruct (pte_frame _); [|done..]. apply IH.
Qed.

Lemma frame_ok_masked e : frame_ok (Z.land e ADDR_MASK).
Proof.
  unfold frame_ok. assert (Hl : 0 <= Z.land e ADDR_MASK) by (apply Z.land_nonneg; right; done). split; [|split; [done|]].
  - change PAGE_SIZE with (2 ^ 12). rewrite <- Z.land_ones by lia. rewrite <- Z.land_assoc.
    change (Z.land ADDR_MASK (Z.ones 12)) with 0. apply Z.land_0_r.
  - assert (E : Z.land e ADDR_MASK = Z.land e ADDR_MASK mod 2 ^ 52).
    { rewrite <- Z.land_ones, <- Z.land_assoc by lia. done. }
    rewrite E. apply Z.mod_pos_bound. lia.
Qed.

(** The kernel's mapping is not changed by writes to the frames [fs]. *)
Lemma kernel_maps_translate m m' kt fs page f :
  kernel_maps m kt fs page f -> Forall frame_ok fs -> (forall x, ~ in_frames fs x -> m' x = m x) ->
  page mod PAGE_SIZE = 0 -> canonical page ->
  translate_page m' kt page = Some f.
Proof.
  intros (e & He & -> & Hw) Hfs Hx Hp Hc. apply translate_page_some; [done..|]. rewrite <- He.
  apply leaf_entry_ext; [apply hw_indexes_lt|]. intros t x Ht Hin. apply Hx. intros (g & Hg & Hin').
  rewrite Forall_forall in Hw, Hfs. destruct (Hw t Ht) as [Hok Hni].
  apply (frame_disjoint t g x); [done|by apply Hfs| |done|done]. intros ->. done.
Qed.
End Share.

(** ** The loop of [spawn_isolated_inner] *)

Section Sharing.
Context {crate : X86Crate} {mapper : PageMapper} {H : Type} {kheap : KernelHeap H}.
Context (m0 : mem) (a0 : GlobalFrameAllocator) (l4 : Z) (shared : list nat) (top0 : gmap nat (ptree 3)) (kt : Z)
  (borrowed : Z * Z) (frame_of : Z -> Z).
Implicit Types (m : mem) (k : Kernel H) (a : GlobalFrameAllocator) (top : gmap nat (ptree 3)) (pages : list Z).

(** The state after the pages [pages] were shared: each is mapped to the
    frame the kernel has there, writable, and not for ring 3; the other
    mappings are as they were, and no frame was lost. *)
Record sharing m a top pages : Prop := {
  sh_space : space_ok m l4 shared top a;
  sh_tables : space_tables l4 top ++ fa_avail a ≡ₚ space_tables l4 top0 ++ fa_avail a0;
  sh_total : freed_space borrowed l4 top ++ fa_avail a ≡ₚ freed_space borrowed l4 top0 ++ fa_avail a0;
  sh_outside x : ~ in_frames (space_tables l4 top0 ++ fa_avail a0) x -> m x = m0 x;
  sh_shared i : (i < 512)%nat -> i ∈ shared -> table_entry m l4 i = table_entry m0 l4 i;
  sh_pages p : p ∈ pages -> user_page shared p /\ space_lookup top p = Some (frame_of p) /\
    exists e, leaf_entry m l4 (hw_indexes 4 p) = Some e /\ Z.testbit e 1 = true /\ Z.testbit e 2 = false;
  sh_others p : user_page shared p -> p ∉ pages -> space_lookup top p = space_lookup top0 p;
  sh_flags p required : page_flags required -> user_page shared p -> p ∉ pages ->
    accessible_walk m0 l4 (hw_indexes 4 p) required = true ->
    accessible_walk m l4 (hw_indexes 4 p) required = true;
  sh_leaf p e : user_page shared p -> p ∉ pages ->
    leaf_entry m0 l4 (hw_indexes 4 p) = Some e -> leaf_entry m l4 (hw_indexes 4 p) = Some e;
  sh_count : (length (fa_avail a0) <= length (fa_avail a) + 3 * length pages)%nat;
}.

Lemma sharing_start : space_ok m0 l4 shared top0 a0 -> sharing m0 a0 top0 [].
Proof. intros Hs. split; try done; [by intros p ?%not_elem_of_nil|cbn; lia]. Qed.

Context (Hframes : Forall frame_ok (space_tables l4 top0 ++ fa_avail a0)).

Section Step.
Context (m m' : mem) (a a' : GlobalFrameAllocator) (top top' : gmap nat (ptree 3)) (pages : list Z) (p : Z).
Context (Hsh : sharing m a top pages) (Hp : user_page shared p) (Hnew : p ∉ pages)
  (Hb : range_contains borrowed p = true) (Hnone : space_lookup top p = None)
  (Hmo : mapped_ok m m' l4 shared top top' p (frame_of p) (Z.lor PRESENT WRITABLE) a a').

Lemma share_step_tables : space_tables l4 top' ++ fa_avail a' ≡ₚ space_tables l4 top0 ++ fa_avail a0.
Proof using Hsh Hmo.
  rewrite <- (sh_tables _ _ _ _ Hsh), (mapped_tables _ _ _ _ _ _ _ _ _ _ _ Hmo), (mapped_avail _ _ _ _ _ _ _ _ _ _ _ Hmo).
  rewrite (Permutation_app_comm (take _ _)), <- app_assoc. by rewrite take_drop.
Qed.

Lemma step_total : freed_space borrowed l4 top' ++ fa_avail a' ≡ₚ freed_space borrowed l4 top0 ++ fa_avail a0.
Proof using Hsh Hmo Hp Hb Hnone.
  destruct Hp as (Hpm & Hpb & _).
  rewrite <- (sh_total _ _ _ _ Hsh), (mapped_freed borrowed _ _ _ _ _ _ _ _ _ _ _ Hmo) by done.
  rewrite (mapped_avail _ _ _ _ _ _ _ _ _ _ _ Hmo). unfold unless_borrowed. rewrite low_page_id by lia.
  cbn [fst]. rewrite Hb. cbn [app].
  rewrite (Permutation_app_comm (take _ _)), <- app_assoc. by rewrite take_drop.
Qed.

Lemma step_sharing : sharing m' a' top' (p :: pages).
Proof using Hframes Hsh Hp Hnew Hb Hnone Hmo.
  assert (Hst := share_step_tables).
  assert (Hidx : forall q, user_page shared q -> q <> p -> hw_indexes 4 q <> hw_indexes 4 p)
    by (intros; by apply (hw_indexes_ne shared)).
  split.
  - destruct (sh_space _ _ _ _ Hsh) as (_ & _ & _ & Hnd & _). split_and!.
    + apply (mapped_mem _ _ _ _ _ _ _ _ _ _ _ Hmo).
    + apply (mapped_repr _ _ _ _ _ _ _ _ _ _ _ Hmo).
    + apply (mapped_inv _ _ _ _ _ _ _ _ _ _ _ Hmo).
    + by rewrite Hst, <- (sh_tables _ _ _ _ Hsh).
    + by rewrite Hst.
  - done.
  - apply step_total.
  - intros x Hx. rewrite <- (sh_outside _ _ _ _ Hsh x Hx). apply (mapped_outside _ _ _ _ _ _ _ _ _ _ _ Hmo).
    intros Hin. apply Hx. eapply in_frames_incl; [|exact Hin]. intros f Hf. rewrite <- Hst. set_solver.
  - intros i Hi His. rewrite <- (sh_shared _ _ _ _ Hsh i Hi His). by apply (mapped_shared _ _ _ _ _ _ _ _ _ _ _ Hmo).
  - intros q [->|Hq]%elem_of_cons.
    + split; [done|]. split; [apply (mapped_lookup _ _ _ _ _ _ _ _ _ _ _ Hmo)|].
      destruct (mapped_leaf _ _ _ _ _ _ _ _ _ _ _ Hmo) as (e & He & Hbits). exists e.
      split; [done|]. rewrite !Hbits by set_solver. done.
    + destruct (sh_pages _ _ _ _ Hsh q Hq) as (Hu & Hl & e & He & Hbits).
      assert (Hne : hw_indexes 4 q <> hw_indexes 4 p) by (apply Hidx; [done|intros ->; done]).
      split; [done|]. split; [by rewrite (mapped_others _ _ _ _ _ _ _ _ _ _ _ Hmo)|].
      exists e. split; [|done]. by apply (mapped_other_leaf _ _ _ _ _ _ _ _ _ _ _ Hmo); [apply Hu|..].
  - intros q Hu [Hne Hq]%not_elem_of_cons. rewrite (mapped_others _ _ _ _ _ _ _ _ _ _ _ Hmo) by by apply Hidx.
    by apply (sh_others _ _ _ _ Hsh).
  - intros q required Hr Hu [Hne Hq]%not_elem_of_cons Hw.
    apply (mapped_other_flags _ _ _ _ _ _ _ _ _ _ _ Hmo); [done|apply Hu|by apply Hidx|].
    by apply (sh_flags _ _ _ _ Hsh).
  - intros q e Hu [Hne Hq]%not_elem_of_cons Hl.
    apply (mapped_other_leaf _ _ _ _ _ _ _ _ _ _ _ Hmo); [apply Hu|by apply Hidx|]. by apply (sh_leaf _ _ _ _ Hsh).
  - assert (Hc := sh_count _ _ _ _ Hsh). rewrite (mapped_avail _ _ _ _ _ _ _ _ _ _ _ Hmo), length_drop.
    pose proof (space_missing_le top p). cbn [length]. lia.
Qed.
End Step.

Lemma share_page_ok k m a top pages p :
  phys k = m -> frames k = a -> sharing m a top pages -> user_page shared p -> p ∉ pages ->
  range_contains borrowed p = true -> space_lookup top0 p = None ->
  kernel_maps m0 kt (space_tables l4 top0 ++ fa_avail a0) p (frame_of p) -> (3 <= length (fa_avail a))%nat ->
  exists m' a' top', share_page kt l4 p k = Ok (tt, set_memory m' a' k) /\ sharing m' a' top' (p :: pages).
Proof using Hframes.
  intros <- <- Hsh Hp Hnew Hb Hn Hk Hlen. assert (Hp' := Hp). destruct Hp' as (Hpm & Hpb & Hps).
  assert (Hc : canonical p) by (unfold canonical; lia).
  assert (Hnone : space_lookup top p = None) by by rewrite (sh_others _ _ _ _ Hsh).
  assert (Ht := kernel_maps_translate m0 (phys k) kt _ p (frame_of p) Hk Hframes (sh_outside _ _ _ _ Hsh) Hpm Hc).
  destruct (map_to_ok (phys k) l4 shared top p (frame_of p) (Z.lor PRESENT WRITABLE) (frames k))
    as (m' & a' & top' & E & Hmo).
  - apply (sh_space _ _ _ _ Hsh).
  - split_and!; [done|done|done| |right; by left]. destruct Hk as (e & _ & -> & _). apply frame_ok_masked.
  - done.
  - pose proof (space_missing_le top p). lia.
  - exists m', a', top'. split; [|by apply (step_sharing (phys k) m' (frames k) a' top top' pages p)].
    unfold share_page. rewrite Ht. unfold mbind, outcome_bind. by rewrite E.
Qed.

Lemma share_pages_ok todo k top pages :
  sharing (phys k) (frames k) top pages -> NoDup todo -> (forall p, p ∈ todo -> p ∉ pages) ->
  Forall (fun p => user_page shared p /\ range_contains borrowed p = true /\ space_lookup top0 p = None /\
    kernel_maps m0 kt (space_tables l4 top0 ++ fa_avail a0) p (frame_of p)) todo ->
  (3 * (length pages + length todo) <= length (fa_avail a0))%nat ->
  exists m' a' top', share_pages kt l4 todo k = Ok (tt, set_memory m' a' k) /\
    sharing m' a' top' (reverse todo ++ pages).
Proof using Hframes.
  revert k top pages; induction todo as [|p todo IH]; intros k top pages Hsh Hnd Hd Hall Hc.
  - exists (phys k), (frames k), top. split; [|done]. by destruct k.
  - apply NoDup_cons in Hnd as [Hpn Hnd]. apply Forall_cons in Hall as [(P1 & P2 & P3 & P4) Hall].
    pose proof (sh_count _ _ _ _ Hsh). cbn [length] in Hc.
    destruct (share_page_ok k (phys k) (frames k) top pages p) as (m1 & a1 & top1 & E1 & Hsh1); try done;
      [apply Hd; set_solver|lia|].
    destruct (IH (set_memory m1 a1 k) top1 (p :: pages)) as (m2 & a2 & top2 & E2 & Hsh2);
      [exact Hsh1|done| |done|cbn [length]; lia|].
    { intros q Hq. apply not_elem_of_cons. split; [intros ->; done|]. apply Hd. set_solver. }
    exists m2, a2, top2. split.
    + cbn [share_pages]. unfold mbind, M_bind. rewrite E1. exact E2.
    + by rewrite reverse_cons, <- app_assoc.
Qed.
End Sharing.

(** ** [spawn_isolated_inner] *)

Definition space_insert (l4 : Z) (top : gmap nat (ptree 3)) (spaces : Z -> gmap nat (ptree 3)) : Z -> gmap nat (ptree 3) :=
  fun x => if decide (x = l4) then top else spaces x.

Section SpawnIsolated.
Context {crate : X86Crate} {mapper : PageMapper} {H : Type} {kheap : KernelHeap H}.
Implicit Types (k : Kernel H) (s : SchedulerState) (t : Thread) (id : ThreadId) (spaces : Z -> gmap nat (ptree 3)).

Lemma owned_ext spaces spaces' (ts : list (option Thread)) :
  (forall id t l4, ts !! id = Some (Some t) -> page_table t = Some l4 -> spaces' l4 = spaces l4) ->
  ts ≫= owned spaces' = ts ≫= owned spaces.
Proof.
  intros Hsp. apply bind_ext. intros o Ho. apply list_elem_of_lookup in Ho as (i & Hi). destruct o as [t|]; [|done].
  unfold owned. destruct (page_table t) as [l4|] eqn:E; [|done]. by rewrite (Hsp i t l4).
Qed.

(** The invariant depends only on the address spaces of the threads. *)
Lemma kernel_inv_spaces spaces spaces' k s :
  (forall id t l4, threads s !! id = Some (Some t) -> page_table t = Some l4 -> spaces' l4 = spaces l4) ->
  kernel_inv spaces k s -> kernel_inv spaces' k s.
Proof.
  intros Hsp [H1 H2 H3 H4 H5 H6 H7 (pmo & Hp & Hr) H9 H10 H11].
  assert (Ho : threads s ≫= owned spaces' = threads s ≫= owned spaces) by by apply owned_ext.
  split; try done.
  - exists pmo. split; [done|]. intros i t l4 Ht El. rewrite (Hsp i t l4) by done. by apply (Hr i t).
  - unfold accounts. by rewrite Ho.
Qed.

(** A new address space [top] below [l4], ready for a thread whose kernel
    stack is at [p]: its frames are nobody else's, and the stack pages are
    mapped by the kernel and not in the new space. *)
Record new_space_ok spaces k s (l4 kt p pmo : Z) (top : gmap nat (ptree 3)) (frame_of : Z -> Z) : Prop := {
  ns_pmo : physical_memory_offset k = Some pmo;
  ns_repr : repr_space (phys k) l4 [0%nat; va_index 4 pmo] top;
  ns_nodup : NoDup (freed_space (p, p + STACK_SIZE) l4 top ++ (threads s ≫= owned spaces) ++ fa_avail (frames k));
  ns_frames : Forall frame_ok (freed_space (p, p + STACK_SIZE) l4 top ++ (threads s ≫= owned spaces) ++ fa_avail (frames k));
  ns_stack q : q ∈ stack_pages p -> hw_index 4 q ∉ [0%nat; va_index 4 pmo] /\ space_lookup top q = None /\
    kernel_maps (phys k) kt (space_tables l4 top ++ fa_avail (frames k)) q (frame_of q);
  ns_memory : (48 <= length (fa_avail (frames k)))%nat;
}.

Lemma stack_pages_aligned p : p mod PAGE_SIZE = 0 -> 0 <= p < 2 ^ 47 ->
  page_containing p = p /\ NoDup (stack_pages p) /\ length (stack_pages p) = 16%nat /\
  forall q, q ∈ stack_pages p -> q mod PAGE_SIZE = 0 /\ p <= q < p + STACK_SIZE.
Proof.
  intros Hp H0. assert (E : page_containing p = p).
  { rewrite page_containing_spec, Hp by (unfold canonical; lia). lia. }
  split; [done|]. unfold stack_pages. rewrite E.
  change (Z.to_nat (STACK_SIZE / 4096)) with 16%nat. split; [by apply NoDup_stride|].
  split; [done|]. intros q (i & Hi & ->)%elem_of_stride. unfold STACK_SIZE, PAGE_SIZE in *. split; [|lia].
  by rewrite Z.mul_comm, Z.mod_add.
Qed.

Lemma space_tables_freed borrowed l4 top : space_tables l4 top ⊆+ freed_space borrowed l4 top.
Proof. rewrite freed_space_mappings. by apply submseteq_inserts_r. Qed.

(** The kernel stack is mapped into the new space. *)
Lemma stack_shared spaces k s k1 l4 kt p pmo top frame_of :
  kernel_inv spaces k s -> phys k1 = phys k -> frames k1 = frames k -> new_space_ok spaces k s l4 kt p pmo top frame_of ->
  p mod PAGE_SIZE = 0 -> 0 <= p -> p + STACK_SIZE < 2 ^ 47 ->
  exists m' a' top', share_pages kt l4 (stack_pages p) k1 = Ok (tt, set_memory m' a' k1) /\
    sharing (phys k) (frames k) l4 [0%nat; va_index 4 pmo] top (p, p + STACK_SIZE) frame_of m' a' top'
      (reverse (stack_pages p)).
Proof.
  intros HK E1 E2 [N1 N2 N3 N4 N5 N6] Hp H0 Hlt.
  destruct (stack_pages_aligned p Hp ltac:(unfold STACK_SIZE in *; lia)) as (Ep & Hnd & Hlen & Hq).
  assert (Hsub : space_tables l4 top ++ fa_avail (frames k) ⊆+
    freed_space (p, p + STACK_SIZE) l4 top ++ (threads s ≫= owned spaces) ++ fa_avail (frames k)).
  { apply submseteq_app; [apply space_tables_freed|by apply submseteq_inserts_l]. }
  assert (Hfr := Forall_sub _ _ _ Hsub N4).
  assert (Hst : sharing (phys k) (frames k) l4 [0%nat; va_index 4 pmo] top (p, p + STACK_SIZE) frame_of
    (phys k) (frames k) top []).
  { apply sharing_start. split_and!; [apply HK|done|apply HK|by eapply NoDup_sub|done]. }
  assert (Hall : Forall (fun q => user_page [0%nat; va_index 4 pmo] q /\
    range_contains (p, p + STACK_SIZE) q = true /\ space_lookup top q = None /\
    kernel_maps (phys k) kt (space_tables l4 top ++ fa_avail (frames k)) q (frame_of q)) (stack_pages p)).
  { apply Forall_forall. intros q Hin. destruct (Hq q Hin) as [Hm Hb], (N5 q Hin) as (F1 & F2 & F3).
    split_and!; [|unfold range_contains; cbn [fst snd]; lia|done|done]. split_and!; [done|lia..|done]. }
  destruct (share_pages_ok (phys k) (frames k) l4 [0%nat; va_index 4 pmo] top kt (p, p + STACK_SIZE) frame_of
    Hfr (stack_pages p) k1 top []) as (m' & a' & top' & E & Hsh); [by rewrite E1, E2|done|set_solver|done| |].
  { rewrite Hlen. cbn [length]. lia. }
  rewrite app_nil_r in Hsh. by exists m', a', top'.
Qed.

(** The thread [spawn_isolated_inner] makes. *)
Definition isolated (p e l4 : Z) (user : option (Z * Z * Z * Z)) : Thread :=
  mkThread (p + STACK_SIZE - 64) p STACK_SIZE (Some e) (Some l4) (p + STACK_SIZE) no_open_files user.

Lemma isolated_ok id p e l4 user :
  id <> 0%nat -> 0 < p -> p + STACK_SIZE < 2 ^ 47 -> thread_ok id (isolated p e l4 user).
Proof. intros. unfold thread_ok. rewrite decide_False by done. cbn. split_and!; [done|done|lia|done|done]. Qed.

(** No thread has the new top-level table. *)
Lemma new_table_unused spaces k s l4 kt p pmo top frame_of id t l4' :
  new_space_ok spaces k s l4 kt p pmo top frame_of ->
  threads s !! id = Some (Some t) -> page_table t = Some l4' -> l4' <> l4.
Proof.
  intros [_ _ N3 _ _ _] Ht Hl ->. apply NoDup_app in N3 as (_ & Hd & _).
  apply (Hd l4).
  - eapply elem_of_submseteq; [|apply space_tables_freed]. unfold space_tables. set_solver.
  - apply elem_of_app. left. apply list_elem_of_bind. exists (Some t).
    split; [|by apply list_elem_of_lookup; eauto]. unfold owned. rewrite Hl.
    eapply elem_of_submseteq; [|apply space_tables_freed]. unfold space_tables. set_solver.
Qed.

(** The address space of a thread lives in frames it owns. *)
Lemma thread_space_kept spaces k s l4 kt p pmo top frame_of m' a' top' pages id t l4' :
  new_space_ok spaces k s l4 kt p pmo top frame_of ->
  sharing (phys k) (frames k) l4 [0%nat; va_index 4 pmo] top (p, p + STACK_SIZE) frame_of m' a' top' pages ->
  threads s !! id = Some (Some t) -> page_table t = Some l4' ->
  repr_space (phys k) l4' [0%nat; va_index 4 pmo] (spaces l4') ->
  repr_space m' l4' [0%nat; va_index 4 pmo] (spaces l4').
Proof.
  intros [_ _ N3 N4 _ _] Hsh Ht Hl Hr. eapply (node_ext (phys k) m' 3); [|exact Hr].
  intros x Hx. apply (sh_outside _ _ _ _ _ _ _ _ _ _ _ Hsh). intros Hin.
  set (others := threads s ≫= owned spaces) in *.
  assert (E : freed_space (p, p + STACK_SIZE) l4 top ++ others ++ fa_avail (frames k) ≡ₚ
    others ++ (freed_space (p, p + STACK_SIZE) l4 top ++ fa_avail (frames k))) by apply Permutation_app_swap_app.
  rewrite E in N3, N4. apply (in_frames_disjoint _ _ x N3 N4).
  - eapply in_frames_incl; [|exact Hx]. intros f Hf. apply list_elem_of_bind. exists (Some t).
    split; [|by apply list_elem_of_lookup; eauto]. unfold owned. rewrite Hl.
    eapply elem_of_submseteq; [exact Hf|apply (space_tables_freed (stack_range t) l4')].
  - eapply in_frames_incl; [|exact Hin]. intros f [Hf|Hf]%elem_of_app; apply elem_of_app; [left|by right].
    eapply elem_of_submseteq; [exact Hf|apply space_tables_freed].
Qed.

(** The accounts after a thread with a new space was registered. *)
Lemma isolated_accounts spaces k s l4 kt p pmo top frame_of m' a' top' pages id t :
  new_space_ok spaces k s l4 kt p pmo top frame_of -> threads s !! id = Some None ->
  sharing (phys k) (frames k) l4 [0%nat; va_index 4 pmo] top (p, p + STACK_SIZE) frame_of m' a' top' pages ->
  page_table t = Some l4 -> stack_range t = (p, p + STACK_SIZE) ->
  (threads s ≫= owned (space_insert l4 top' spaces)) = (threads s ≫= owned spaces) ->
  accounts (space_insert l4 top' spaces) (<[id := Some t]> (threads s)) a'.
Proof.
  intros [_ _ N3 N4 _ _] Hn Hsh Hl Hst Ho. unfold accounts.
  assert (Hperm := bind_insert_perm (owned (space_insert l4 top' spaces)) (threads s) id None (Some t) Hn).
  change (owned (space_insert l4 top' spaces) None) with (@nil Z) in Hperm. cbn [app] in Hperm.
  assert (Et : owned (space_insert l4 top' spaces) (Some t) = freed_space (p, p + STACK_SIZE) l4 top').
  { unfold owned. rewrite Hl, Hst. unfold space_insert. by rewrite decide_True. }
  rewrite Et, Ho in Hperm.
  assert (E : (<[id := Some t]> (threads s) ≫= owned (space_insert l4 top' spaces)) ++ fa_avail a' ≡ₚ
    freed_space (p, p + STACK_SIZE) l4 top ++ (threads s ≫= owned spaces) ++ fa_avail (frames k)).
  { rewrite Hperm, <- app_assoc, Permutation_app_swap_app, (sh_total _ _ _ _ _ _ _ _ _ _ _ Hsh).
    apply Permutation_app_swap_app. }
  by rewrite E.
Qed.

(** The kernel after [spawn_isolated_inner]. *)
Definition isolated_kernel k (tramp p : Z) (h : H) m' (a' : GlobalFrameAllocator) id s' : Kernel H :=
  set_suspended (<[id := AtTrampoline]> (suspended k))
    (set_scheduler (Some s') false
      (set_memory m' a' (set_kmem (build_initial_stack tramp (kmem k) p).2 (set_heap h k)))).

(** The kernel when the stack has been allocated, interrupts off. *)
Definition stack_kernel k (tramp p : Z) (h : H) : Kernel H :=
  set_kmem (build_initial_stack tramp (kmem k) p).2 (set_heap h (set_interrupts false k)).

Lemma spawn_isolated_runs k s tramp e user l4 kt p h id g q m' a' :
  scheduler k = Some s -> scheduler_locked k = false ->
  heap_alloc STACK_SIZE 4096 (heap k) = (Some p, h) -> va_new p = Ok p ->
  share_pages kt l4 (stack_pages p) (stack_kernel k tramp p h) = Ok (tt, set_memory m' a' (stack_kernel k tramp p h)) ->
  register_thread (isolated p e l4 user) s =
    Ok (pack_pid id (g + 1), registered s id (isolated p e l4 user) (g + 1) q) ->
  (unpack_pid (pack_pid id (g + 1))).1 = id ->
  spawn_isolated_inner tramp e user l4 kt k = Ok (pack_pid id (g + 1),
    isolated_kernel k tramp p h m' a' id (registered s id (isolated p e l4 user) (g + 1) q)).
Proof.
  intros H1 H2 Ea Ev Es Er Eu. unfold spawn_isolated_inner, start_at_trampoline, isolated_kernel.
  pose proof (new_stack_ok tramp (set_interrupts false k) p h Ea) as En. unfold isolated in *.
  take_apart k s. unfold stack_kernel in Es.
  cbn [set_kmem set_heap set_interrupts set_memory scheduler scheduler_locked rsp cr3 rsp0 suspended kmem phys frames heap
    physical_memory_offset interrupts_enabled] in En, Es.
  run. rewrite En. run. rewrite Ev. run. rewrite Es. run.
  rewrite Er. run. rewrite Eu. by destruct i.
Qed.

(** The new thread is registered with its address space, into which its
    kernel stack is mapped; everything else is as it was. *)
Lemma spawn_isolated_ok spaces k s tramp e user l4 kt p h id pmo top frame_of :
  kernel_inv spaces k s -> heap_alloc STACK_SIZE 4096 (heap k) = (Some p, h) ->
  position_none (threads s) = Some id -> Forall (fun g => 0 <= g < U64_MAX) (slot_generations s) ->
  new_space_ok spaces k s l4 kt p pmo top frame_of ->
  exists g q k' top', slot_generations s !! id = Some g /\
    spawn_isolated_inner tramp e user l4 kt k = Ok (pack_pid id (g + 1), k') /\
    kernel_inv (space_insert l4 top' spaces) k' (registered s id (isolated p e l4 user) (g + 1) q) /\
    ready_list q = ready_list (ready_queue s) ++ [id] /\
    sharing (phys k) (frames k) l4 [0%nat; va_index 4 pmo] top (p, p + STACK_SIZE) frame_of
      (phys k') (frames k') top' (reverse (stack_pages p)) /\
    cr3 k' = cr3 k /\ rsp0 k' = rsp0 k /\ interrupts_enabled k' = interrupts_enabled k /\ heap k' = h /\
    suspended k' = <[id := AtTrampoline]> (suspended k) /\ physical_memory_offset k' = physical_memory_offset k.
Proof.
  intros HK Ea Hp Hg Hns. assert (Hs := ki_sched _ _ _ HK).
  destruct (free_slot_not_live s id Hs Hp) as (Hni & H0 & Hlt & Hn).
  destruct (heap_alloc_some (heap k) STACK_SIZE 4096 p h (ki_heap _ _ _ HK) ltac:(done) Ea) as (Hh & Hlive & Hal & Hpos & Htop & _).
  destruct (register_thread_ok s (isolated p e l4 user) id Hs Hp) as (g & q & Eg & Er & Hs' & Hq);
    [by apply isolated_ok|done|].
  assert (Hgb := Forall_lookup_1 _ _ _ _ Hg Eg). cbn beta in Hgb.
  destruct (stack_shared spaces k s (stack_kernel k tramp p h) l4 kt p pmo top frame_of HK eq_refl eq_refl Hns Hal ltac:(lia) Htop)
    as (m' & a' & top' & Es & Hsh).
  exists g, q, (isolated_kernel k tramp p h m' a' id (registered s id (isolated p e l4 user) (g + 1) q)), top'.
  split; [done|]. split; [|split; [|by split_and!]].
  - apply spawn_isolated_runs; [apply HK..|done| | |done|by apply unpack_slot].
    + unfold va_new. rewrite va_try_new_canonical; [done|]. unfold canonical, STACK_SIZE in *. lia.
    + done.
  - assert (Hsp : forall i t l, threads s !! i = Some (Some t) -> page_table t = Some l ->
      space_insert l4 top' spaces l = spaces l).
    { intros i t l Ht Hl. unfold space_insert. rewrite decide_False; [done|].
      by apply (new_table_unused spaces k s l4 kt p pmo top frame_of i t l). }
    apply (registered_kernel_inv (space_insert l4 top' spaces) k s); try done.
    + by apply (kernel_inv_spaces spaces).
    + cbn [isolated_kernel set_suspended set_scheduler set_memory set_kmem set_heap heap]. by rewrite Hlive.
    + exists pmo. split; [apply (ns_pmo _ _ _ _ _ _ _ _ _ Hns)|]. intros i u l Hu Hl.
      destruct (decide (i = id)) as [->|Hne].
      * rewrite list_lookup_insert_eq in Hu by (by rewrite (si_threads s Hs)). injection Hu as <-. injection Hl as <-.
        unfold space_insert. rewrite decide_True by done. apply (sh_space _ _ _ _ _ _ _ _ _ _ _ Hsh).
      * rewrite list_lookup_insert_ne in Hu by done. rewrite (Hsp i u l) by done.
        apply (thread_space_kept spaces k s l4 kt p pmo top frame_of m' a' top' (reverse (stack_pages p)) i u); try done.
        destruct (ki_pmo _ _ _ HK) as (pmo' & Ep & Hr). rewrite (ns_pmo _ _ _ _ _ _ _ _ _ Hns) in Ep.
        injection Ep as <-. by apply (Hr i u).
    + apply (sh_space _ _ _ _ _ _ _ _ _ _ _ Hsh).
    + apply (sh_space _ _ _ _ _ _ _ _ _ _ _ Hsh).
    + apply (isolated_accounts spaces k s l4 kt p pmo top frame_of m' a' top' (reverse (stack_pages p))); try done.
      by apply owned_ext.
Qed.
End SpawnIsolated.
