(* ===== verification/SchedulerThms.v ===== *)
(** * Theorems about the scheduler

    What the operations of src/scheduler/mod.rs guarantee on every state
    that satisfies the invariant, and the states that show the limits of
    the code. *)

From S2P Require Import Prelude Ring X86 FrameAlloc Paging AddressSpace Mapper Threads Scheduler.
From S2P Require Import SchedulerInv SpawnInv.

(** ** A concrete heap, for evaluating the model

    Blocks are never reused: the next block starts at the next multiple of
    the alignment. *)

Record BumpHeap := mkBumpHeap { bump_next : Z; bump_live : list (Z * Z) }.

Definition bump_alloc (size align : Z) (h : BumpHeap) : option Z * BumpHeap :=
  let p := (bump_next h + align) - (bump_next h + align) mod align in
  if (0 <? align) && (p + size <? 2 ^ 47)
  then (Some p, mkBumpHeap (p + size) ((p, size) :: bump_live h))
  else (None, h).

Definition bump_dealloc (p size align : Z) (h : BumpHeap) : BumpHeap :=
  match list_find (fun b => b = (p, size)) (bump_live h) with
  | Some (i, _) => mkBumpHeap (bump_next h) (delete i (bump_live h))
  | None => h
  end.

#[export, refine] Instance bump_heap : KernelHeap BumpHeap := {|
  heap_alloc := bump_alloc;
  heap_dealloc := bump_dealloc;
  heap_inv h := 0 < bump_next h /\ Forall (fun b => b.1 + b.2 <= bump_next h) (bump_live h);
  heap_live := bump_live;
|}.
Proof.
  - intros h size align p h' [Hn Hl] Hsz. unfold bump_alloc.
    destruct (Z.ltb_spec 0 align); [|done]. cbn [andb].
    destruct (Z.ltb_spec (bump_next h + align - (bump_next h + align) mod align + size) (2 ^ 47)); [|done].
    intros [= <- <-]. pose proof (Z.mod_pos_bound (bump_next h + align) align).
    cbn [bump_live bump_next]. split_and!; [lia| |done| |lia|done|].
    + constructor; [cbn; lia|]. eapply Forall_impl; [exact Hl|]. cbn. intros b Hb. lia.
    + rewrite (Z.mod_eq (bump_next h + align) align) by lia.
      replace (_ - _) with ((bump_next h + align) / align * align) by lia. apply Z.mod_mul. lia.
    + eapply Forall_impl; [exact Hl|]. cbn. intros b Hb. unfold block_disjoint. cbn. lia.
  - intros h size align h' Hi. unfold bump_alloc. destruct (_ && _); [done|]. by intros [= <-].
  - intros h p size align [Hn Hl] Hin. unfold bump_dealloc.
    destruct (list_find_elem_of (fun b => b = (p, size)) (bump_live h) (p, size) Hin eq_refl) as [[i b] Hf].
    rewrite Hf. apply list_find_Some in Hf as (Hb & -> & _). cbn [bump_next bump_live]. split_and!.
    + done.
    + by apply Forall_delete.
    + by apply delete_Permutation.
Defined.

Section Theorems.
Context {crate : X86Crate} {H : Type} {kheap : KernelHeap H}.
Implicit Types (k : Kernel H) (s : SchedulerState) (t : Thread) (id : ThreadId).

(** The boot thread runs in the kernel's own address space. *)
Lemma boot_running k s :
  sched_inv s -> current s = 0%nat -> cr3 k = kernel_page_table s -> running k s.
Proof.
  intros Hs Hc Hcr.
  destruct (live_lookup s (current s) Hs) as (t & Ht); [unfold live_ids; set_solver|].
  destruct (si_thread s Hs _ _ Ht) as [_ Hok]. rewrite decide_True in Hok by done.
  exists t. split_and!; [done| |done]. destruct Hok as (_ & -> & _). done.
Qed.

Lemma running_boot_cr3 k s : running k s -> sched_inv s -> current s = 0%nat -> cr3 k = kernel_page_table s.
Proof.
  intros (t & Ht & Hc & _) Hs Hz. destruct (si_thread s Hs _ _ Ht) as [_ Hok].
  rewrite decide_True in Hok by done. by destruct Hok as (_ & Hp & _); rewrite Hp in Hc.
Qed.

(** One call of [schedule] on a state of the invariant. *)
Record turn spaces k s k' s' : Prop := {
  turn_inv : kernel_inv spaces k' s';
  turn_running : running k' s';
  turn_zombie : zombie s' = None;
  turn_order : current s' :: ready_list (ready_queue s') = rotate 1 (current s :: ready_list (ready_queue s));
  turn_similar : similar (threads (reaped s)) (threads s');
  turn_generations : slot_generations s' = slot_generations s;
  turn_frames : fa_avail (frames k') = reverse (zombie_frames spaces s) ++ fa_avail (frames k);
  turn_phys : phys k' = phys k;
  turn_kernel_table : kernel_page_table s' = kernel_page_table s;
}.

Lemma rotate_1 {A} (x : A) l : rotate 1 (x :: l) = match l with [] => [x] | y :: r => y :: r ++ [x] end.
Proof.
  unfold rotate. destruct l as [|y r]; [done|]. rewrite Nat.mod_small by (cbn; lia). done.
Qed.

Lemma schedule_turn spaces k s :
  kernel_inv spaces k s -> running k s ->
  exists e k' s', schedule k = Ok (e, k') /\ turn spaces k s k' s'.
Proof.
  intros HK Hrun. destruct (reap_zombie_reaps spaces k s HK) as (k1 & E1 & [HK1 Hav (S1 & S2 & S3 & _ & _ & S6 & _) Hcr _]).
  destruct (reaped_same s) as (R1 & R2 & R3 & R4 & R5).
  assert (Hs1 := ki_sched _ _ _ HK1).
  unfold schedule, mbind, M_bind. rewrite E1.
  destruct (ready_list (ready_queue s)) as [|next rest] eqn:Hr.
  - rewrite (schedule_body_empty spaces k1 (reaped s) HK1) by by rewrite R2.
    exists None, k1, (reaped s). split; [done|].
    assert (Hc : current (reaped s) = 0%nat) by (apply empty_queue_boot; [done|by rewrite R2]).
    split; try done; [|by rewrite R1, R2, Hr, rotate_1|apply similar_refl].
    apply boot_running; [done..|]. rewrite Hcr, R4.
    destruct (zombie s); [done|]. apply running_boot_cr3; [done|apply HK|congruence].
  - destruct (schedule_body_rotates spaces k1 (reaped s) next rest HK1) as (e & k' & s' & E & HK' & Hro);
      [by rewrite R2|].
    exists e, k', s'. split; [done|].
    destruct Hro as [O1 O2 O3 O4 O5 O6 O7 _ _ _ _ _ (_ & O9 & O8 & _)].
    split; try done; [congruence| |congruence|congruence|congruence|congruence].
    rewrite Hr, O1, O2, R1, rotate_1. done.
Qed.

(** C8: a turn of the scheduler is correct.  From every state of the
    invariant, [schedule] returns without a panic in a state of the
    invariant: the ready queue is rotated by one (the first ready thread
    runs, the thread that ran is last), the new thread runs under its own
    page table and with its own kernel stack in RSP0, no lock is left held,
    and a thread that had exited has been reaped, its frames given back to
    the allocator, its slot free again. *)
Theorem schedule_correct spaces k s :
  kernel_inv spaces k s -> running k s ->
  exists e k' s', schedule k = Ok (e, k') /\ kernel_inv spaces k' s' /\ running k' s' /\
    current s' :: ready_list (ready_queue s') = rotate 1 (current s :: ready_list (ready_queue s)) /\
    zombie s' = None /\ (forall id, zombie s = Some id -> threads s' !! id = Some None) /\
    fa_avail (frames k') = reverse (zombie_frames spaces s) ++ fa_avail (frames k).
Proof.
  intros HK Hrun. destruct (schedule_turn spaces k s HK Hrun) as (e & k' & s' & E & [T1 T2 T3 T4 T5 _ T6 _ _]).
  exists e, k', s'. split_and!; [done..| |done]. intros id Hz.
  assert (Hs := ki_sched _ _ _ HK). destruct (zombie_thread s id Hs Hz) as [_ (t & Ht)].
  assert (Hn : threads (reaped s) !! id = Some None).
  { unfold reaped. rewrite Hz. apply list_lookup_insert_eq. by eapply lookup_lt_Some. }
  destruct (Forall2_lookup_l _ _ _ _ _ T5 Hn) as (o & Ho & Hr). by inversion Hr; subst.
Qed.

(** [n] turns. *)
Fixpoint turns (n : nat) : M (Kernel H) unit :=
  match n with O => mret tt | S n' => _ ← schedule; turns n' end.

Lemma turns_snoc n k :
  turns (S n) k = match turns n k with Ok (_, k') => (_ ← schedule; mret tt) k' | Panic msg => Panic msg end.
Proof.
  revert k; induction n as [|n IH]; intros k; [done|].
  change (turns (S (S n)) k) with (match schedule k with Ok (_, k') => turns (S n) k' | Panic msg => Panic msg end).
  change (turns (S n) k) with (match schedule k with Ok (_, k') => turns n k' | Panic msg => Panic msg end).
  destruct (schedule k) as [[e k1]|]; [apply IH|done].
Qed.

Lemma rotate_1_split {A} (l : list A) n :
  (n < length l)%nat -> rotate 1 (drop n l ++ take n l) = drop (S n) l ++ take (S n) l.
Proof.
  intros Hn. destruct (lookup_lt_is_Some_2 l n Hn) as [x Hx].
  rewrite (drop_S l x n Hx), (take_S_r l n x Hx). cbn [app]. rewrite rotate_1, app_assoc.
  by destruct (drop (S n) l ++ take n l).
Qed.

Lemma turns_rotate spaces k s n :
  kernel_inv spaces k s -> running k s ->
  let order := current s :: ready_list (ready_queue s) in
  (n <= length order)%nat ->
  exists k' s', turns n k = Ok (tt, k') /\ kernel_inv spaces k' s' /\ running k' s' /\
    current s' :: ready_list (ready_queue s') = drop n order ++ take n order.
Proof.
  intros HK Hrun order. induction n as [|n IH]; intros Hn.
  - exists k, s. split_and!; [done..|]. by rewrite take_0, app_nil_r.
  - destruct IH as (k1 & s1 & E & HK1 & Hr1 & Ho1); [lia|].
    destruct (schedule_turn spaces k1 s1 HK1 Hr1) as (e & k' & s' & E' & [T1 T2 _ T4 _ _ _ _ _]).
    exists k', s'. split_and!; [|done|done|by rewrite T4, Ho1, rotate_1_split].
    rewrite turns_snoc, E. unfold mbind, M_bind. by rewrite E'.
Qed.

(** When no thread exits, turns change nothing but the order. *)
Lemma turns_quiet spaces k s n :
  kernel_inv spaces k s -> running k s -> zombie s = None ->
  let order := current s :: ready_list (ready_queue s) in
  (n <= length order)%nat ->
  exists k' s', turns n k = Ok (tt, k') /\ kernel_inv spaces k' s' /\ running k' s' /\
    current s' :: ready_list (ready_queue s') = drop n order ++ take n order /\
    zombie s' = None /\ similar (threads s) (threads s') /\ slot_generations s' = slot_generations s /\
    fa_avail (frames k') = fa_avail (frames k) /\ phys k' = phys k /\ kernel_page_table s' = kernel_page_table s.
Proof.
  intros HK Hrun Hz order. induction n as [|n IH]; intros Hn.
  - exists k, s. split_and!; try done; [|apply similar_refl]. by rewrite take_0, app_nil_r.
  - destruct IH as (k1 & s1 & E & HK1 & Hr1 & Ho1 & Hz1 & Hs1 & Hg1 & Hf1 & Hp1 & Hk1); [lia|].
    destruct (schedule_turn spaces k1 s1 HK1 Hr1) as (e & k' & s' & E' & [T1 T2 T3 T4 T5 T6 T7 T8 T9]).
    assert (Er : reaped s1 = s1) by (unfold reaped; by rewrite Hz1). rewrite Er in T5.
    assert (Ez : zombie_frames spaces s1 = []) by (unfold zombie_frames; by rewrite Hz1).
    rewrite Ez in T7. change (fa_avail (frames k') = fa_avail (frames k1)) in T7.
    exists k', s'. split_and!; [|done|done|by rewrite T4, Ho1, rotate_1_split|done| |congruence..].
    + rewrite turns_snoc, E. unfold mbind, M_bind. by rewrite E'.
    + by eapply similar_trans.
Qed.

(** C10: round robin.  Let [order] be the running thread followed by the
    ready queue.  After [i] turns, for any [i] below its length, thread
    [order !! i] runs; after as many turns as there are threads, each has
    run once and the order is the initial one again.  No ready thread
    waits longer than one round. *)
Theorem round_robin spaces k s :
  kernel_inv spaces k s -> running k s ->
  let order := current s :: ready_list (ready_queue s) in
  (forall i id, order !! i = Some id ->
     exists k' s', turns i k = Ok (tt, k') /\ scheduler k' = Some s' /\ current s' = id) /\
  exists k' s', turns (length order) k = Ok (tt, k') /\ scheduler k' = Some s' /\
    current s' :: ready_list (ready_queue s') = order.
Proof.
  intros HK Hrun order. split.
  - intros i id Hi. pose proof (lookup_lt_Some _ _ _ Hi).
    destruct (turns_rotate spaces k s i HK Hrun) as (k' & s' & E & HK' & _ & Ho); [unfold order in *; lia|].
    exists k', s'. split_and!; [done|apply HK'|]. fold order in Ho.
    rewrite (drop_S order id i Hi) in Ho. by injection Ho.
  - destruct (turns_rotate spaces k s (length order) HK Hrun) as (k' & s' & E & HK' & _ & Ho); [done|].
    exists k', s'. split_and!; [done|apply HK'|]. fold order in Ho. by rewrite drop_all, take_ge in Ho.
Qed.

(** The queue is not empty when another thread than the boot thread runs. *)
Lemma queue_not_empty s :
  sched_inv s -> current s <> 0%nat -> exists next rest, ready_list (ready_queue s) = next :: rest.
Proof.
  intros Hs Hc. destruct (ready_list (ready_queue s)) as [|next rest] eqn:Hr; [|eauto].
  by destruct Hc; apply empty_queue_boot.
Qed.

Lemma exit_exits spaces k s :
  kernel_inv spaces k s -> current s <> 0%nat ->
  exists e k' s' next rest, exit_current_thread k = Ok (e, k') /\ kernel_inv spaces k' s' /\
    ready_list (ready_queue s) = next :: rest /\ exited (reaped s) next rest k' s' /\
    fa_avail (frames k') = reverse (zombie_frames spaces s) ++ fa_avail (frames k).
Proof.
  intros HK Hc. destruct (reap_zombie_reaps spaces k s HK) as (k1 & E1 & [HK1 Hav _ _ _]).
  destruct (reaped_same s) as (R1 & R2 & R3 & R4 & R5).
  destruct (queue_not_empty s (ki_sched _ _ _ HK) Hc) as (next & rest & Hr).
  destruct (exit_body_exits spaces k1 (reaped s) next rest HK1) as (e & k' & s' & E & HK' & Hx & Hf & _);
    [done|by rewrite R1|by rewrite R2|].
  exists e, k', s', next, rest. split_and!; [|done..|by rewrite Hf].
  unfold exit_current_thread, mbind, M_bind. by rewrite E1.
Qed.

Lemma similar_owned_slot spaces s s' id o o' :
  similar (threads s) (threads s') -> threads s !! id = Some o -> threads s' !! id = Some o' ->
  owned spaces o' = owned spaces o.
Proof.
  intros Hsim Ho Ho'. destruct (Forall2_lookup_l _ _ _ _ _ Hsim Ho) as (o2 & H2 & Hr). simplify_eq.
  inversion Hr as [t t' (E1 & E2 & E3 & _)|]; subst; [|done].
  unfold owned, stack_range. by rewrite E1, E2, E3.
Qed.

(** When a thread other than the boot thread exits, the first scheduling
    decision after that gives all of its frames back and frees its slot. *)
Lemma exit_reclaims spaces k s t :
  kernel_inv spaces k s -> zombie s = None -> current s <> 0%nat ->
  threads s !! current s = Some (Some t) ->
  exists e1 k1 e2 k2 s2, exit_current_thread k = Ok (e1, k1) /\ schedule k1 = Ok (e2, k2) /\
    kernel_inv spaces k2 s2 /\ running k2 s2 /\ zombie s2 = None /\
    threads s2 !! current s = Some None /\
    fa_avail (frames k2) = reverse (owned spaces (Some t)) ++ fa_avail (frames k) /\
    current s2 :: ready_list (ready_queue s2) = rotate 1 (ready_list (ready_queue s)).
Proof.
  intros HK Hz Hc Ht.
  destruct (exit_exits spaces k s HK Hc) as (e1 & k1 & s1 & next & rest & E1 & HK1 & Hr & Hx & Hf1).
  assert (Er : reaped s = s) by (unfold reaped; by rewrite Hz). rewrite Er in Hx.
  destruct Hx as [X1 X2 X3 X4 X5 X6].
  destruct (schedule_turn spaces k1 s1 HK1 X6) as (e2 & k2 & s2 & E2 & [T1 T2 T3 T4 T5 _ T6 _ _]).
  exists e1, k1, e2, k2, s2. split_and!; try done.
  - destruct (similar_lookup _ _ _ _ X4 Ht) as (t1 & Ht1 & _).
    assert (Hn : threads (reaped s1) !! current s = Some None).
    { unfold reaped. rewrite X3. apply list_lookup_insert_eq. by eapply lookup_lt_Some. }
    destruct (Forall2_lookup_l _ _ _ _ _ T5 Hn) as (o & Ho & Hro). by inversion Hro; subst.
  - destruct (similar_lookup _ _ _ _ X4 Ht) as (t1 & Ht1 & _).
    rewrite T6, Hf1. unfold zombie_frames. rewrite Hz, X3. cbn [mbind option_bind]. rewrite Ht1.
    by rewrite (similar_owned_slot spaces s s1 (current s) (Some t) (Some t1)).
  - by rewrite T4, X1, X2, Hr.
Qed.

(** ** Process ids *)

(** The thread of [pid] is gone: its slot has been reused, or is free after
    having held it. *)
Definition pid_dead s (pid : Pid) : Prop :=
  let '(slot, generation) := unpack_pid pid in
  (MAX_THREADS <= slot)%nat \/
  exists g, slot_generations s !! slot = Some g /\
    (generation < g \/ (threads s !! slot = Some None /\ generation <= g)).

Lemma thread_alive_ok spaces k s pid :
  kernel_inv spaces k s ->
  exists b, thread_alive pid k = Ok (b, k) /\
    (b = true <-> exists t, threads s !! (unpack_pid pid).1 = Some (Some t) /\
                       slot_generations s !! (unpack_pid pid).1 = Some (unpack_pid pid).2).
Proof.
  intros HK. assert (Hs := ki_sched _ _ _ HK). destruct HK as [H1 H2 _ _ _ _ _ _ _ _ _].
  assert (L1 := si_threads s Hs). assert (L2 := si_generations s Hs). clear Hs.
  unfold thread_alive. destruct (unpack_pid pid) as [slot g0]. cbn [fst snd].
  destruct (Nat.ltb_spec slot MAX_THREADS) as [Hlt|Hge].
  - destruct (lookup_lt_is_Some_2 (threads s) slot) as [o Ho]; [lia|].
    destruct (lookup_lt_is_Some_2 (slot_generations s) slot) as [g1 Hg1]; [lia|].
    rewrite Ho, Hg1. destruct o as [t|].
    + exists (g1 =? g0). split.
      * take_apart k s. run. rewrite Ho. run. rewrite Hg1. run. by destruct i.
      * rewrite Z.eqb_eq. naive_solver.
    + exists false. split; [|naive_solver]. take_apart k s. run. rewrite Ho. run. by destruct i.
  - exists false. split; [take_apart k s; run; by destruct i|].
    rewrite (lookup_ge_None_2 (threads s)) by lia. naive_solver.
Qed.

Lemma pid_dead_not_alive spaces k s pid :
  kernel_inv spaces k s -> pid_dead s pid -> thread_alive pid k = Ok (false, k).
Proof.
  intros HK Hd. destruct (thread_alive_ok spaces k s pid HK) as (b & E & Hb). rewrite E.
  destruct b; [|done]. exfalso. destruct (proj1 Hb eq_refl) as (t & Ht & Hg).
  unfold pid_dead in Hd. destruct (unpack_pid pid) as [slot g0]. cbn [fst snd] in *.
  destruct Hd as [Hd|(g & Hg' & [Hd|[Hd _]])].
  - apply lookup_lt_Some in Ht. rewrite (si_threads s (ki_sched _ _ _ HK)) in Ht. lia.
  - simplify_eq. lia.
  - simplify_eq.
Qed.
End Theorems.

(** ** A concrete kernel *)

Section Sample.
#[local] Existing Instance x86_crate.

(** A kernel before [scheduler::init]: its tables at 0x11000, its heap at
    0x444444440000. *)
Definition sample_boot (m : mem) (ram : list MemoryRegion) : Kernel BumpHeap :=
  mkKernel None false 0x80000 0x11000 0 true (replicate MAX_THREADS Exited) (fun _ => 0) m
    (init_frame_allocator ram) (mkBumpHeap 0x444444440000 []) (Some (3 * 2 ^ 39)).

Lemma sample_boot_ok m ram :
  mem_ok m -> Forall region_ok ram -> NoDup (usable_frames ram) -> Forall frame_ok (usable_frames ram) ->
  boot_ok (sample_boot m ram).
Proof.
  intros Hm Hr Hnd Hok. destruct (frame_allocator_init_lawful ram Hr) as [Hi Hav].
  change (fa_inv (init_frame_allocator ram)) in Hi.
  change (fa_avail (init_frame_allocator ram) = usable_frames ram) in Hav.
  split; try done.
  - by eexists.
  - cbn [sample_boot frames]. by rewrite Hav.
Qed.

Definition sample_started (m : mem) (ram : list MemoryRegion) : Kernel BumpHeap :=
  set_scheduler (Some (boot_state 0x11000)) false (sample_boot m ram).

Lemma sample_started_ok spaces m ram :
  mem_ok m -> Forall region_ok ram -> NoDup (usable_frames ram) -> Forall frame_ok (usable_frames ram) ->
  init (sample_boot m ram) = Ok (tt, sample_started m ram) /\
  kernel_inv spaces (sample_started m ram) (boot_state 0x11000) /\ running (sample_started m ram) (boot_state 0x11000).
Proof.
  intros Hm Hr Hnd Hok.
  destruct (init_ok spaces (sample_boot m ram)) as (k' & E & HK & Hrun & ->); [by apply sample_boot_ok|done].
Qed.

(** No memory besides the kernel's, and a second thread. *)
Lemma sample_two_threads :
  exists k s, kernel_inv (fun _ => ∅) k s /\ running k s /\ current s = 0%nat /\ zombie s = None /\
    ready_list (ready_queue s) = [1%nat].
Proof.
  destruct (sample_started_ok (fun _ => ∅) (fun _ => 0) []) as (_ & HK & (t & Ht & Hc & Hr));
    [intros x; unfold is_u8; lia|constructor..|].
  destruct (spawn_ok (fun _ => ∅) (sample_started (fun _ => 0) []) (boot_state 0x11000) 0x10000 0x20000 0x444444441000
    (mkBumpHeap 0x444444451000 [(0x444444441000, STACK_SIZE)]) 1) as (k & g & q & _ & _ & HK' & Hq & E1 & E2 & _);
    [done|done|done|by repeat constructor|].
  eexists k, _. split; [exact HK'|]. split; [|split_and!; [done|done|exact Hq]].
  exists t. split_and!; [done|by rewrite E1|by rewrite E2].
Qed.

Lemma schedule_correct_witness :
  exists k s e k' s', schedule k = Ok (e, k') /\ current s = 0%nat /\ current s' = 1%nat /\ running k' s'.
Proof.
  destruct sample_two_threads as (k & s & HK & Hrun & Hc & Hz & Hq).
  destruct (schedule_correct (fun _ => ∅) k s HK Hrun) as (e & k' & s' & E & _ & Hrun' & Ho & _).
  rewrite Hc, Hq in Ho. injection Ho as Ho _. by exists k, s, e, k', s'.
Defined.

Lemma round_robin_witness :
  exists k k1 k2 s1 s2, turns 1 k = Ok (tt, k1) /\ scheduler k1 = Some s1 /\ current s1 = 1%nat /\
    turns 2 k = Ok (tt, k2) /\ scheduler k2 = Some s2 /\ current s2 = 0%nat.
Proof.
  destruct sample_two_threads as (k & s & HK & Hrun & Hc & Hz & Hq).
  destruct (round_robin (fun _ => ∅) k s HK Hrun) as [H1 (k2 & s2 & E2 & S2 & O2)]. rewrite Hc, Hq in *.
  destruct (H1 1%nat 1%nat eq_refl) as (k1 & s1 & E1 & S1 & C1). injection O2 as C2 _.
  by exists k, k1, k2, s1, s2.
Defined.
End Sample.
