(* ===== verification/Hazards.v ===== *)
(** * What the scheduler does not handle (src/scheduler/mod.rs)

    Two situations its comments exclude: a thread table without a free slot,
    and a thread that is preempted inside [exit_current_thread].  For the
    second, [kernel_step] is any step the kernel can take, and a thread that
    nothing refers to ([lost]) stays so under every sequence of them. *)

From S2P Require Import Prelude Ring X86 FrameAlloc Paging AddressSpace Mapper MapperRef Threads Scheduler Keeps SchedulerInv SpawnInv SchedulerThms.

Section FullTable.
Context {crate : X86Crate} {mapper : PageMapper} {H : Type} {kheap : KernelHeap H}.
Implicit Types (k : Kernel H).

(** The loop of [spawn_isolated_inner] changes memory and the allocator
    only. *)
Lemma share_pages_scheduler kt l4 pages k k' :
  share_pages kt l4 pages k = Ok (tt, k') -> scheduler k' = scheduler k /\ scheduler_locked k' = scheduler_locked k.
Proof.
  revert k. induction pages as [|p pages IH]; intros k E; cbn [share_pages] in E.
  { by injection E as <-. }
  unfold mbind, M_bind in E. destruct (share_page kt l4 p k) as [[[] k1]|] eqn:E1; [|done].
  destruct (IH k1 E) as [-> ->]. unfold share_page in E1. destruct (translate_page _ _ _); [|done].
  cbn [mbind outcome_bind] in E1. destruct (map_to _ _ _ _ _ _) as [[[[err|] m] a]|]; [done| |done].
  by injection E1 as <-.
Qed.

(** C39: with the thread table full, starting a program panics the kernel.
    In every state with no free slot, no call of [spawn_user], on whatever
    address space, returns: there is no error value, and [sys_spawn], which
    calls it for any program of ring 3, ends in the panic. *)
Theorem full_table_spawn_panics k s tramp ring3 e sp ap al l4 kt :
  scheduler k = Some s -> scheduler_locked k = false -> position_none (threads s) = None ->
  exists msg, spawn_user tramp ring3 e sp ap al l4 kt k = Panic msg.
Proof.
  intros E1 E2 Hf. unfold spawn_user, spawn_isolated_inner, without_interrupts, mbind, M_bind, gets, disable, modify.
  set (k0 := set_interrupts false k).
  destruct (new_stack tramp k0) as [[[base sp0] k1]|] eqn:En; [|eauto].
  assert (Hk1 : scheduler k1 = Some s /\ scheduler_locked k1 = false).
  { unfold new_stack in En. destruct (heap_alloc _ _ _) as [[p|] h]; [|done].
    destruct (build_initial_stack _ _ _). injection En as _ _ <-. done. }
  unfold lift. destruct (va_new base); cbn [mbind outcome_bind]; [|eauto].
  destruct (share_pages _ _ _ k1) as [[[] k2]|] eqn:Es; [|eauto].
  destruct (share_pages_scheduler _ _ _ _ _ Es) as [F1 F2]. destruct Hk1 as [G1 G2].
  unfold with_scheduler, mbind, M_bind, lock. rewrite F2, G2, F1, G1. cbn [expect lift mbind outcome_bind].
  unfold lift. cbn. rewrite register_thread_full by done. eauto.
Qed.
End FullTable.

(** ** A thread nothing refers to *)

Section Lost.
Context {crate : X86Crate} {mapper : PageMapper} {H : Type} {kheap : KernelHeap H}.
Implicit Types (k : Kernel H) (s : SchedulerState) (id : ThreadId).
Local Abbreviation K := (M (Kernel H)).

(** Slot [id] holds the thread [t], of generation [g], but the thread neither
    runs nor waits in the queue, and it is not the one to be reaped. *)
Record lost_in id (t : Thread) (g : Z) s : Prop := {
  lo_queue : ready_inv (ready_queue s);
  lo_thread : threads s !! id = Some (Some t);
  lo_generation : slot_generations s !! id = Some g;
  lo_current : current s <> id;
  lo_ready : id ∉ ready_list (ready_queue s);
  lo_zombie : zombie s <> Some id;
}.

Definition lost id t g (o : option SchedulerState) : Prop := exists s, o = Some s /\ lost_in id t g s.

Lemma lost_Some id t g s : lost id t g (Some s) <-> lost_in id t g s.
Proof. split; [by intros (s' & [= <-] & Hs)|by exists s]. Qed.

(** The functions of the scheduler that code runs after [init]; [schedule]
    and [exit_current_thread] are [reap_zombie] and one of the bodies, with
    the place between them where an interrupt can come. *)
Inductive sched_op : forall A, K A -> Prop :=
  | op_reap : sched_op _ reap_zombie
  | op_schedule : sched_op _ schedule_body
  | op_exit : sched_op _ exit_body
  | op_spawn tramp e : sched_op _ (spawn tramp e)
  | op_spawn_isolated tramp e l4 kt : sched_op _ (spawn_isolated tramp e l4 kt)
  | op_spawn_user tramp ring3 e sp ap al l4 kt : sched_op _ (spawn_user tramp ring3 e sp ap al l4 kt)
  | op_trampoline : sched_op _ thread_trampoline_body
  | op_ring3_trampoline : sched_op _ ring3_trampoline_body
  | op_alive pid : sched_op _ (thread_alive pid)
  | op_kernel_page_table : sched_op _ get_kernel_page_table
  | op_open d : sched_op _ (open_file d)
  | op_read fd n : sched_op _ (read_open_file fd n)
  | op_close fd : sched_op _ (close_file fd).

(** A step of the kernel: one of these functions, or code that leaves the
    scheduler's state alone. *)
Inductive kernel_step k k' : Prop :=
  | step_op A (f : K A) a : sched_op A f -> f k = Ok (a, k') -> kernel_step k k'
  | step_other : scheduler k' = scheduler k -> kernel_step k k'.

Section Kept.
Variables (id : ThreadId) (t : Thread) (g : Z).

Lemma lost_pop s x q : lost_in id t g s -> pop_front (ready_queue s) = Ok (x, q) ->
  ready_inv q /\ id ∉ ready_list q /\ x <> Some id.
Proof.
  intros [L1 _ _ _ L5 _] E. destruct (ready_list (ready_queue s)) as [|y l] eqn:Hl.
  - rewrite pop_front_empty in E by done. injection E as <- <-. by rewrite Hl.
  - destruct (pop_front_ok _ y l L1 Hl) as (q' & E' & Hq' & Hl'). rewrite E' in E. injection E as <- <-.
    apply not_elem_of_cons in L5 as [? ?]. split_and!; [done|by rewrite Hl'|congruence].
Qed.

Lemma lost_push q x q' : ready_inv q -> id ∉ ready_list q -> x <> id -> push_back q x = Ok q' ->
  ready_inv q' /\ id ∉ ready_list q'.
Proof.
  intros Hq Hn Hx E. assert (Hb := bq_bounded q Hq). change (length (ready_list q) <= MAX_THREADS)%nat in Hb.
  destruct (decide (length (ready_list q) = MAX_THREADS)) as [Hf|Hf]; [by rewrite push_back_full in E|].
  destruct (push_back_ok q x Hq) as (q1 & E1 & Hq1 & Hl1); [lia|]. rewrite E1 in E. injection E as <-.
  split; [done|]. rewrite Hl1, elem_of_app, list_elem_of_singleton. naive_solver.
Qed.

(** An update of another slot. *)
Lemma lost_threads s ts : lost_in id t g s -> ts !! id = threads s !! id -> lost_in id t g (set_threads ts s).
Proof. intros [L1 L2 L3 L4 L5 L6] E. split; cbn; [done|by rewrite E|done..]. Qed.

Lemma lost_register s make pid s' : lost_in id t g s -> register_thread make s = Ok (pid, s') -> lost_in id t g s'.
Proof.
  intros [L1 L2 L3 L4 L5 L6]. unfold register_thread.
  destruct (position_none (threads s)) as [i|] eqn:Hi; [|done]. apply position_none_Some in Hi as [Hi _].
  cbn [expect mbind outcome_bind]. destruct (slot_generations s !! i) as [g'|]; [|done]. cbn [expect mbind outcome_bind].
  destruct (add_w 64 g' 1); [|done]. cbn [mbind outcome_bind].
  destruct (push_back (ready_queue s) i) as [q|] eqn:Eq; [|done]. intros [= <- <-].
  assert (Hne : i <> id) by congruence. destruct (lost_push _ _ _ L1 L5 Hne Eq).
  split; cbn; [done|by rewrite list_lookup_insert_ne..|done|done|done].
Qed.

Local Abbreviation unharmed f := (keeps (H := H) (lost id t g) f (fun _ => True)).

Lemma lost_current s u u' : lost id t g (Some s) -> threads s !! current s = Some (Some u) ->
  lost id t g (Some (set_threads (<[current s := Some u']> (threads s)) s)).
Proof.
  rewrite !lost_Some. intros Hs _. apply lost_threads; [done|]. apply list_lookup_insert_ne. apply (lo_current _ _ _ _ Hs).
Qed.

Lemma lost_saved s0 s sp : lost id t g (Some s0) -> lost id t g (Some s) ->
  lost id t g (Some (set_threads (alter (fmap (set_stack_pointer sp)) (current s0) (threads s)) s)).
Proof.
  rewrite !lost_Some. intros Hs0 Hs. apply lost_threads; [done|]. apply list_lookup_alter_ne. apply (lo_current _ _ _ _ Hs0).
Qed.

Lemma lost_reap_zombie : unharmed reap_zombie.
Proof.
  apply keeps_reap_zombie. intros s z Hs%lost_Some Hz. rewrite !lost_Some.
  assert (Hs' : lost_in id t g (set_zombie None s)) by (by destruct Hs). split; [done|].
  apply (lost_threads (set_zombie None s)); [done|]. apply list_lookup_insert_ne. intros ->. by apply (lo_zombie _ _ _ _ Hs).
Qed.

Lemma lost_schedule_body : unharmed schedule_body.
Proof.
  apply keeps_schedule_body; [intros; by eapply lost_current|..|apply lost_saved].
  - intros s next q q' Hs%lost_Some Hq Hq'. apply lost_Some. destruct (lost_pop s _ _ Hs Hq) as (P1 & P2 & P3).
    destruct (lost_push q (current s) q' P1 P2 (lo_current _ _ _ _ Hs) Hq'). destruct Hs. split; cbn; try done. congruence.
  - intros s q Hs%lost_Some Hq. apply lost_Some. destruct (lost_pop s _ _ Hs Hq) as (P1 & P2 & _). by destruct Hs.
Qed.

Lemma lost_exit_body : unharmed exit_body.
Proof.
  apply keeps_exit_body; [intros; by eapply lost_current|..|apply lost_saved].
  intros s next q Hs%lost_Some Hq. apply lost_Some. destruct (lost_pop s _ _ Hs Hq) as (P1 & P2 & P3).
  destruct Hs. split; cbn; try done; congruence.
Qed.

Lemma lost_spawn_isolated_inner tramp e user l4 kt : unharmed (spawn_isolated_inner tramp e user l4 kt).
Proof.
  apply keeps_spawn_isolated_inner. intros base sp s pid s' Hs%lost_Some E. split; [|done]. apply lost_Some. by eapply lost_register.
Qed.

Lemma lost_with_current_thread {A} (f : Thread -> outcome (A * Thread)) : unharmed (with_current_thread f).
Proof. apply keeps_with_current_thread. intros s u a u' Hs Hu _. split; [by eapply lost_current|done]. Qed.

Lemma sched_op_keeps A (f : K A) : sched_op A f -> unharmed f.
Proof.
  destruct 1; [apply lost_reap_zombie|apply lost_schedule_body|apply lost_exit_body| |
    apply lost_spawn_isolated_inner|apply lost_spawn_isolated_inner|
    apply keeps_thread_trampoline|apply keeps_ring3_trampoline|apply keeps_thread_alive| |
    apply lost_with_current_thread|apply lost_with_current_thread|apply lost_with_current_thread].
  - apply keeps_spawn. intros base sp s pid s' Hs%lost_Some E. apply lost_Some. by eapply lost_register.
  - intros; by eapply lost_current.
  - intros; by eapply lost_current.
  - apply keeps_without_interrupts, keeps_with_scheduler. by intros s a s' Hs [= <- <-].
Qed.

(** Once lost, a thread stays lost. *)
Lemma lost_forever k k' : lost id t g (scheduler k) -> rtc kernel_step k k' -> lost id t g (scheduler k').
Proof.
  intros Hk. induction 1 as [|k k1 k' [A f a Hop E|E] _ IH]; [done|..]; apply IH; [|by rewrite E].
  by apply (sched_op_keeps A f Hop k a k1).
Qed.
End Kept.

(** The body of [exit_current_thread] while another exited thread has not
    been reaped yet: its id is overwritten. *)
Lemma exit_body_overwrites spaces k s z tz gz next rest :
  kernel_inv spaces k s -> zombie s = Some z -> current s <> 0%nat -> ready_list (ready_queue s) = next :: rest ->
  threads s !! z = Some (Some tz) -> slot_generations s !! z = Some gz ->
  exists e k', exit_body k = Ok (e, k') /\ lost z tz gz (scheduler k').
Proof.
  intros HK Hz Hc Hr Htz Hgz. assert (Hs := ki_sched _ _ _ HK).
  destruct (next_live s next rest Hs Hr) as (Hne & Hni & Hlen & Hlt & tc & tn & Htc & Htn).
  destruct (pop_front_ok _ next rest (si_queue s Hs) Hr) as (q1 & Epop & Hq1 & Hl1).
  assert (Hnd := si_nodup s Hs). unfold live_ids in Hnd. rewrite Hz, Hr in Hnd. cbn [option_list app] in Hnd.
  apply NoDup_cons in Hnd as [Hn1 [Hn2 _]%NoDup_cons]. apply not_elem_of_cons in Hn1 as [Hcz _].
  apply not_elem_of_cons in Hn2 as [Hzn Hzr].
  rewrite (exit_body_eq k s next q1 tc tn); [|by destruct HK..|by apply (kernel_stack_top_address s next)].
  set (s1 := set_zombie (Some (current s)) (set_current next (set_ready_queue q1 s))).
  destruct (switch_and_resume_switched (turn_kernel k s1 tn) s1 (current s) next Exited
    (stack_pointer tn) (default (kernel_page_table s) (page_table tn)) tc) as (e & k' & s' & E & Hsw);
    [done..|apply (ki_resume _ _ _ HK); rewrite Hr; apply elem_of_cons; by left|].
  exists e, k'. split; [done|]. exists s'. split; [by destruct Hsw|].
  rewrite (sw_state _ _ _ _ _ _ _ _ _ _ Hsw). apply lost_threads; [|by apply (sw_others _ _ _ _ _ _ _ _ _ _ Hsw)].
  split; cbn; [done|done|done|done|by rewrite Hl1|congruence].
Qed.

(** From a state in which no zombie is pending, each other thread has its
    turn, up to the last of the queue. *)
Lemma turns_to_last spaces k s mid b :
  kernel_inv spaces k s -> zombie s = None -> ready_list (ready_queue s) = mid ++ [b] ->
  exists k' s', turns (S (length mid)) k = Ok (tt, k') /\ kernel_inv spaces k' s' /\ zombie s' = None /\
    current s' = b /\ ready_list (ready_queue s') = current s :: mid /\
    similar (threads s) (threads s') /\ slot_generations s' = slot_generations s.
Proof.
  intros HK Hz Hr.
  assert (Hcons : exists next rest, mid ++ [b] = next :: rest) by (destruct mid; cbn; eauto). destruct Hcons as (next & rest & Hnr).
  destruct (schedule_body_rotates spaces k s next rest HK) as (e & k1 & s1 & E1 & HK1 & Hro); [by rewrite Hr|].
  destruct Hro as [O1 O2 O3 O4 O5 _ O7 _ _ _ _ _ _].
  assert (Ho : current s1 :: ready_list (ready_queue s1) = mid ++ [b; current s]).
  { rewrite O1, O2. change (next :: rest ++ [current s]) with ((next :: rest) ++ [current s]). by rewrite <- Hnr, <- app_assoc. }
  destruct (turns_quiet spaces k1 s1 (length mid) HK1 O7) as (k2 & s2 & E2 & HK2 & _ & Ho2 & Hz2 & Hsim & Hg & _);
    [congruence|rewrite Ho, length_app; cbn; lia|].
  rewrite Ho, drop_app_length, take_app_length in Ho2. injection Ho2 as Hc Hq.
  exists k2, s2. split_and!; try done; [|by eapply similar_trans|congruence].
  cbn [turns]. unfold schedule, mbind, M_bind. rewrite (reap_zombie_none k s) by (done || by destruct HK). by rewrite E1.
Qed.

(** C40: a thread that is preempted in [exit_current_thread], between its
    [reap_zombie] and its [disable], can make another one be lost for good.
    In any state of the invariant, let the running thread, not the boot
    thread, call [exit_current_thread] and be preempted there; let every
    other thread have its turn, and the last one, [b], also exit.  The first
    one then goes on, with the rest of its exit.  No step of this run panics,
    and after it [b] is lost: it still occupies its slot, with its stack and
    its address space, but neither runs, nor waits in the queue, nor is the
    zombie.  It stays so whatever the kernel does next: no sequence of the
    scheduler's operations reaps it. *)
Theorem exit_race_loses_thread spaces k s mid b tb gb :
  kernel_inv spaces k s -> current s <> 0%nat -> ready_list (ready_queue s) = mid ++ [b] -> b <> 0%nat ->
  threads s !! b = Some (Some tb) -> slot_generations s !! b = Some gb ->
  exists k1 k2 s2 e3 k3 s3 e4 k4 t,
    reap_zombie k = Ok (tt, k1) /\
    turns (S (length mid)) k1 = Ok (tt, k2) /\ scheduler k2 = Some s2 /\ current s2 = b /\
    exit_current_thread k2 = Ok (e3, k3) /\ scheduler k3 = Some s3 /\ current s3 = current s /\
    exit_body k3 = Ok (e4, k4) /\
    same_resources tb t /\ forall k', rtc kernel_step k4 k' -> lost b t gb (scheduler k').
Proof.
  intros HK Hc Hr Hb Htb Hgb. destruct (reap_zombie_reaps spaces k s HK) as (k1 & E1 & [HK1 _ _ _ _]).
  destruct (reaped_same s) as (R1 & R2 & R3 & R4 & R5). assert (Hs := ki_sched _ _ _ HK).
  destruct (turns_to_last spaces k1 (reaped s) mid b HK1) as (k2 & s2 & E2 & HK2 & Hz2 & Hc2 & Hr2 & Hsim2 & Hg2);
    [done|by rewrite R2|].
  destruct (exit_exits spaces k2 s2 HK2) as (e3 & k3 & s3 & next & rest & E3 & HK3 & Hr3 & Hx & _); [congruence|].
  assert (Er : reaped s2 = s2) by (unfold reaped; by rewrite Hz2). rewrite Er in Hx. destruct Hx as [X1 X2 X3 X4 X5 _ _].
  rewrite Hr2, R1 in Hr3. injection Hr3 as <- <-.
  apply (reaped_lookup s b tb Hs) in Htb; [|rewrite Hr; apply elem_of_cons; right; apply elem_of_app; right; by apply list_elem_of_singleton].
  destruct (similar_lookup _ _ _ _ (similar_trans _ _ _ Hsim2 X4) Htb) as (t & Ht & Hres).
  destruct (queue_not_empty s3 (ki_sched _ _ _ HK3)) as (n3 & r3 & Hr3); [congruence|].
  destruct (exit_body_overwrites spaces k3 s3 b t gb n3 r3) as (e4 & k4 & E4 & Hlost); [done|congruence|congruence|done|done|congruence|].
  exists k1, k2, s2, e3, k3, s3, e4, k4, t. split_and!; [done|done|by destruct HK2|done|done|by destruct HK3|done|done|done|].
  intros k'. by apply lost_forever.
Qed.
End Lost.

(** ** Concrete runs *)

Section Runs.
#[local] Existing Instances x86_crate ref_mapper.
Local Abbreviation K := (M (Kernel BumpHeap)).

(** A kernel just after [scheduler::init], and fifteen threads more. *)
Definition started : Kernel BumpHeap := sample_started (fun _ => 0) [].

Fixpoint spawn_many (n : nat) : K unit :=
  match n with O => mret tt | S n' => _ ← spawn 0x10000 0x20000; spawn_many n' end.

Lemma crowded_table :
  match spawn_many 15 started with
  | Ok (_, k) =>
      match scheduler k with Some s => negb (scheduler_locked k) && bool_decide (position_none (threads s) = None) | None => false end
  | Panic _ => false
  end = true.
Proof. vm_compute. reflexivity. Qed.

Lemma full_table_spawn_panics_witness : exists k msg, spawn_many 15 started = Ok (tt, k) /\
  spawn_user 0x10000 0x20000 0 0 0 0 0x1000 0x11000 k = Panic msg.
Proof.
  assert (C := crowded_table). destruct (spawn_many 15 started) as [[[] k]|]; [|done].
  destruct (scheduler k) as [s|] eqn:Es; [|done]. apply andb_prop in C as [C1 C2].
  apply negb_true_iff in C1. apply bool_decide_eq_true in C2.
  destruct (full_table_spawn_panics k s 0x10000 0x20000 0 0 0 0 0x1000 0x11000 Es C1 C2) as [msg Em]. by exists k, msg.
Defined.

(** The threads 1 and 2 started; thread 2 runs, and thread 1 is the last of
    the queue. *)
Lemma sample_three_threads :
  exists k s, kernel_inv (fun _ => ∅) k s /\ current s = 2%nat /\ ready_list (ready_queue s) = [0%nat; 1%nat] /\
    slot_generations s !! 1%nat = Some 1.
Proof.
  destruct (sample_started_ok (fun _ => ∅) (fun _ => 0) []) as (_ & HK & (t & Ht & Hc & Hr));
    [intros x; unfold is_u8; lia|constructor..|].
  destruct (spawn_ok (fun _ => ∅) started (boot_state 0x11000) 0x10000 0x20000 0x444444441000
    (mkBumpHeap 0x444444451000 [(0x444444441000, STACK_SIZE)]) 1) as (k1 & g1 & q1 & _ & G1 & HK1 & Hq1 & A1 & B1 & _ & _ & _ & Eh & _);
    [done|done|done|by repeat constructor|].
  injection G1 as <-. set (s1 := registered _ _ _ _ _) in HK1.
  destruct (spawn_ok (fun _ => ∅) k1 s1 0x10000 0x20000 0x444444452000
    (mkBumpHeap 0x444444462000 [(0x444444452000, STACK_SIZE); (0x444444441000, STACK_SIZE)]) 2)
    as (k2 & g2 & q2 & _ & G2 & HK2 & Hq2 & A2 & B2 & _);
    [done|by rewrite Eh|done|by repeat constructor|].
  set (s2 := registered _ _ _ _ _) in HK2.
  assert (Hrun : running k2 s2).
  { exists t. split_and!; [done|by rewrite A2, A1|done]. }
  assert (Ho : current s2 :: ready_list (ready_queue s2) = [0; 1; 2]%nat).
  { unfold s2. cbn. rewrite Hq2. unfold s1. cbn. by rewrite Hq1. }
  destruct (turns_quiet (fun _ => ∅) k2 s2 2 HK2 Hrun) as (k & s & _ & HK' & _ & Ho' & _ & _ & Hg & _); [done|rewrite Ho; cbn; lia|].
  rewrite Ho in Ho'. injection Ho' as Hc' Hq'. exists k, s. split_and!; [done..|]. by rewrite Hg.
Qed.

Lemma exit_race_loses_thread_witness : exists k k1 k2 e3 k3 e4 k4 t,
  reap_zombie k = Ok (tt, k1) /\ turns 2 k1 = Ok (tt, k2) /\ exit_current_thread k2 = Ok (e3, k3) /\
  exit_body k3 = Ok (e4, k4) /\ lost 1 t 1 (scheduler k4).
Proof.
  destruct sample_three_threads as (k & s & HK & Hc & Hr & Hg).
  destruct (live_lookup s 1%nat (ki_sched _ _ _ HK)) as (t1 & Ht1); [unfold live_ids; rewrite Hr; set_solver|].
  destruct (exit_race_loses_thread (fun _ => ∅) k s [0%nat] 1%nat t1 1 HK) as
    (k1 & k2 & s2 & e3 & k3 & s3 & e4 & k4 & t & E1 & E2 & _ & _ & E3 & _ & _ & E4 & _ & Hlost); [by rewrite Hc|done..|].
  exists k, k1, k2, e3, k3, e4, k4, t. split_and!; [done..|]. by apply Hlost.
Defined.
End Runs.
