(* ===== verification/Interrupts.v ===== *)
(** * Descriptor tables and interrupt handlers (src/gdt.rs,
      src/interrupts.rs)

    The GDT and the IDT as the kernel builds them, and the handlers of the
    hardware interrupts on the kernel and the keyboard queue.  Every line of
    the two PICs has a handler that acknowledges it and keeps the invariant
    of the kernel; ring 3 reaches the gate of system calls and no other. *)

From S2P Require Import Prelude Ring Executor Wakeup.
From S2P Require Import X86 FrameAlloc Paging AddressSpace Mapper Threads Scheduler SchedulerInv SchedulerThms.

(** ** The global descriptor table *)

Inductive Descriptor := kernel_code_segment | tss_segment | user_code_segment | user_data_segment.

Definition dpl (d : Descriptor) : Z :=
  match d with kernel_code_segment | tss_segment => 0 | user_code_segment | user_data_segment => 3 end.

(** A system segment takes two of the eight entries. *)
Definition slots (d : Descriptor) : nat := match d with tss_segment => 2 | _ => 1 end.

Definition used (ds : list Descriptor) : nat := sum_list (slots <$> ds).

(** [GlobalDescriptorTable] of the x86_64 crate.  Entry 0 is the null
    descriptor; the selector of a descriptor is its index and, as requested
    privilege level, its DPL. *)
Class GlobalDescriptorTable (G : Type) := {
  gdt_new : G;
  gdt_add_entry : G -> Descriptor -> outcome (Z * G);
  gdt_entries : G -> list Descriptor;
  gdt_new_entries : gdt_entries gdt_new = [];
  gdt_add_entry_ok g d : (1 + used (gdt_entries g) + slots d <= 8)%nat ->
    exists g', gdt_add_entry g d = Ok (8 * Z.of_nat (1 + used (gdt_entries g)) + dpl d, g') /\
      gdt_entries g' = gdt_entries g ++ [d];
}.

Record Selectors := mkSelectors {
  code_selector : Z; tss_selector : Z; user_code_selector : Z; user_data_selector : Z }.

Section Gdt.
Context `{GlobalDescriptorTable G}.

Definition GDT : outcome (G * Selectors) :=
  '(code_selector, gdt) ← gdt_add_entry gdt_new kernel_code_segment;
  '(tss_selector, gdt) ← gdt_add_entry gdt tss_segment;
  '(user_code_selector, gdt) ← gdt_add_entry gdt user_code_segment;
  '(user_data_selector, gdt) ← gdt_add_entry gdt user_data_segment;
  Ok (gdt, mkSelectors code_selector tss_selector user_code_selector user_data_selector).

Definition user_selectors (s : Selectors) : Z * Z := (user_code_selector s, user_data_selector s).

Lemma GDT_ok : exists g, GDT = Ok (g, mkSelectors 0x08 0x10 0x23 0x2b) /\
  gdt_entries g = [kernel_code_segment; tss_segment; user_code_segment; user_data_segment].
Proof.
  destruct (gdt_add_entry_ok gdt_new kernel_code_segment) as (g1 & E1 & L1); rewrite gdt_new_entries in *; [cbn; lia|].
  destruct (gdt_add_entry_ok g1 tss_segment) as (g2 & E2 & L2); rewrite L1 in *; [cbn; lia|].
  destruct (gdt_add_entry_ok g2 user_code_segment) as (g3 & E3 & L3); rewrite L2 in *; [cbn; lia|].
  destruct (gdt_add_entry_ok g3 user_data_segment) as (g4 & E4 & L4); rewrite L3 in *; [cbn; lia|].
  exists g4. split; [|done]. unfold GDT. rewrite E1. cbn [mbind outcome_bind]. rewrite E2. cbn [mbind outcome_bind].
  rewrite E3. cbn [mbind outcome_bind]. by rewrite E4.
Qed.
End Gdt.

(** ** The task state segment *)

Record TaskStateSegment := mkTss { privilege_stack_table : list Z; interrupt_stack_table : list Z }.

Definition DOUBLE_FAULT_IST_INDEX : nat := 0.

Definition tss_new : TaskStateSegment := mkTss (replicate 3 0) (replicate 7 0).

(** The stacks of [gdt::init] are statics of 20 KiB; [VirtAddr::from_ptr]
    and [+] panic on an address that is not canonical. *)
Definition gdt_init `{X86Crate} (double_fault_stack default_stack : Z) (tss : TaskStateSegment) : outcome TaskStateSegment :=
  let STACK_SIZE := 4096 * 5 in
  stack_start ← va_new double_fault_stack;
  stack_end ← va_new (stack_start + STACK_SIZE);
  let tss := mkTss (privilege_stack_table tss) (<[DOUBLE_FAULT_IST_INDEX := stack_end]> (interrupt_stack_table tss)) in
  stack_start ← va_new default_stack;
  stack_end ← va_new (stack_start + STACK_SIZE);
  Ok (mkTss (<[0%nat := stack_end]> (privilege_stack_table tss)) (interrupt_stack_table tss)).

(** [gdt::set_rsp0] on the segment; the scheduler's model keeps the field
    itself. *)
Definition tss_set_rsp0 (stack_top : Z) (tss : TaskStateSegment) : TaskStateSegment :=
  mkTss (<[0%nat := stack_top]> (privilege_stack_table tss)) (interrupt_stack_table tss).

(** ** The interrupt descriptor table *)

Definition SYSCALL_VECTOR : Z := 0x80.
Definition PIC_1_OFFSET : Z := 32.
Definition PIC_2_OFFSET : Z := PIC_1_OFFSET + 8.

Inductive InterruptIndex := Timer | Keyboard.
Definition as_u8 (i : InterruptIndex) : Z := match i with Timer => PIC_1_OFFSET | Keyboard => PIC_1_OFFSET + 1 end.

(** The functions installed in the table; [unhandled_pic_interrupt] makes
    one function for each vector it is used with. *)
Inductive Handler :=
| breakpoint_handler
| double_fault_handler
| page_fault_handler
| general_protection_fault_handler
| timer_interrupt_handler
| keyboard_interrupt_handler
| unhandled_pic_interrupt (vector : Z)
| syscall_entry.

Record Gate := mkGate { handler : Handler; privilege_level : Z; stack_index : option nat }.

Definition set_handler_fn (h : Handler) : Gate := mkGate h 0 None.

(** The vectors of the exceptions are the processor's. *)
Definition IDT : list (Z * Gate) := [
  (3, set_handler_fn breakpoint_handler);
  (8, mkGate double_fault_handler 0 (Some DOUBLE_FAULT_IST_INDEX));
  (14, set_handler_fn page_fault_handler);
  (13, set_handler_fn general_protection_fault_handler);
  (as_u8 Timer, set_handler_fn timer_interrupt_handler);
  (as_u8 Keyboard, set_handler_fn keyboard_interrupt_handler);
  (PIC_1_OFFSET + 2, set_handler_fn (unhandled_pic_interrupt (PIC_1_OFFSET + 2)));
  (PIC_1_OFFSET + 3, set_handler_fn (unhandled_pic_interrupt (PIC_1_OFFSET + 3)));
  (PIC_1_OFFSET + 4, set_handler_fn (unhandled_pic_interrupt (PIC_1_OFFSET + 4)));
  (PIC_1_OFFSET + 5, set_handler_fn (unhandled_pic_interrupt (PIC_1_OFFSET + 5)));
  (PIC_1_OFFSET + 6, set_handler_fn (unhandled_pic_interrupt (PIC_1_OFFSET + 6)));
  (PIC_1_OFFSET + 7, set_handler_fn (unhandled_pic_interrupt (PIC_1_OFFSET + 7)));
  (PIC_2_OFFSET, set_handler_fn (unhandled_pic_interrupt PIC_2_OFFSET));
  (PIC_2_OFFSET + 1, set_handler_fn (unhandled_pic_interrupt (PIC_2_OFFSET + 1)));
  (PIC_2_OFFSET + 2, set_handler_fn (unhandled_pic_interrupt (PIC_2_OFFSET + 2)));
  (PIC_2_OFFSET + 3, set_handler_fn (unhandled_pic_interrupt (PIC_2_OFFSET + 3)));
  (PIC_2_OFFSET + 4, set_handler_fn (unhandled_pic_interrupt (PIC_2_OFFSET + 4)));
  (PIC_2_OFFSET + 5, set_handler_fn (unhandled_pic_interrupt (PIC_2_OFFSET + 5)));
  (PIC_2_OFFSET + 6, set_handler_fn (unhandled_pic_interrupt (PIC_2_OFFSET + 6)));
  (PIC_2_OFFSET + 7, set_handler_fn (unhandled_pic_interrupt (PIC_2_OFFSET + 7)));
  (SYSCALL_VECTOR, mkGate syscall_entry 3 None)].

Definition idt_gate (vector : Z) : option Gate :=
  match list_find (fun p => p.1 = vector) IDT with Some (_, (_, g)) => Some g | None => None end.

(** [int vector] at privilege level [cpl]: a gate with a lower DPL, or no
    gate, is a general protection fault. *)
Definition software_interrupt (cpl vector : Z) : Handler :=
  match idt_gate vector with
  | Some g => if cpl <=? privilege_level g then handler g else general_protection_fault_handler
  | None => general_protection_fault_handler
  end.

(** ** The handlers *)

Section Handlers.
Context {crate : X86Crate} {mapper : PageMapper} {H : Type} {kheap : KernelHeap H}.
Context {Q R W : Type} `{!BoundedQueue Q Z} `{!BoundedQueue R Z} `{!AtomicWaker W}.

(** What the handlers act on: the kernel, the keyboard queue and the
    executor, and the vectors the PICs were told the end of. *)
Record Board := mkBoard {
  board_kernel : Kernel H;
  board_input : @Machine Q R W;
  acknowledged : list Z;
}.

(** [port_read] is what the ports return, [heap_mapped] whether a top-level
    table maps the kernel heap, on which the queues are. *)
Variables (port_read : Z -> Z) (heap_mapped : Z -> bool).

(** [syscall::entry], which is [Entry.entry_asm]. *)
Variable entry : Board -> outcome Board.

Definition notify_end_of_interrupt (vector : Z) (b : Board) : Board :=
  mkBoard (board_kernel b) (board_input b) (acknowledged b ++ [vector]).

Definition kernel_op {A} (f : M (Kernel H) A) (b : Board) : outcome (A * Board) :=
  '(a, k) ← f (board_kernel b);
  Ok (a, mkBoard k (board_input b) (acknowledged b)).

(** [task::keyboard::add_scancode], which reads and writes the heap. *)
Definition isr_add_scancode (scancode : Z) (b : Board) : outcome Board :=
  if heap_mapped (cr3 (board_kernel b)) then
    Ok (mkBoard (board_kernel b) (Wakeup.add_scancode scancode (board_input b)).2 (acknowledged b))
  else Panic "page fault".

Definition tick : M (Kernel H) (option Z) := schedule.

Definition run_timer_handler (b : Board) : outcome Board :=
  let b := notify_end_of_interrupt (as_u8 Timer) b in
  '(_, b) ← kernel_op tick b;
  Ok b.

Definition run_keyboard_handler (b : Board) : outcome Board :=
  let interrupted_page_table := cr3 (board_kernel b) in
  '(kernel_page_table, b) ← kernel_op get_kernel_page_table b;
  '(_, b) ← kernel_op (if interrupted_page_table =? kernel_page_table then mret tt
                       else modify (set_cr3 kernel_page_table)) b;
  let scancode := port_read 0x60 in
  b ← isr_add_scancode scancode b;
  '(_, b) ← kernel_op (if interrupted_page_table =? kernel_page_table then mret tt
                       else modify (set_cr3 interrupted_page_table)) b;
  Ok (notify_end_of_interrupt (as_u8 Keyboard) b).

(** What [breakpoint_handler] prints is left out. *)
Definition run_handler (h : Handler) (b : Board) : outcome Board :=
  match h with
  | breakpoint_handler => Ok b
  | syscall_entry => entry b
  | double_fault_handler => Panic "EXCEPTION: DOUBLE FAULT"
  | page_fault_handler => Panic "EXCEPTION: PAGE FAULT"
  | general_protection_fault_handler => Panic "EXCEPTION: GENERAL PROTECTION FAULT"
  | timer_interrupt_handler => run_timer_handler b
  | keyboard_interrupt_handler => run_keyboard_handler b
  | unhandled_pic_interrupt vector => Ok (notify_end_of_interrupt vector b)
  end.

(** A hardware interrupt without a gate is a double fault. *)
Definition hardware_interrupt (vector : Z) (b : Board) : outcome Board :=
  match idt_gate vector with Some g => run_handler (handler g) b | None => Panic "EXCEPTION: DOUBLE FAULT" end.

Lemma get_kernel_page_table_board spaces b s :
  kernel_inv spaces (board_kernel b) s -> kernel_op get_kernel_page_table b = Ok (kernel_page_table s, b).
Proof.
  intros HK. assert (E1 := ki_scheduler _ _ _ HK). assert (E2 := ki_unlocked _ _ _ HK).
  destruct b as [k i a]. cbn [board_kernel] in *. take_apart k s. unfold kernel_op, get_kernel_page_table. cbn [board_kernel].
  run. by destruct i0.
Qed.

Lemma keyboard_handler_ok spaces b s :
  kernel_inv spaces (board_kernel b) s -> heap_mapped (kernel_page_table s) = true ->
  run_keyboard_handler b = Ok (mkBoard (board_kernel b) (Wakeup.add_scancode (port_read 0x60) (board_input b)).2
    (acknowledged b ++ [as_u8 Keyboard])).
Proof.
  intros HK Hh. unfold run_keyboard_handler. rewrite (get_kernel_page_table_board spaces b s HK). cbn [mbind outcome_bind].
  destruct b as [k i a]. cbn [board_kernel] in *. unfold kernel_op, isr_add_scancode. cbn [board_kernel board_input acknowledged].
  destruct (Z.eqb_spec (cr3 k) (kernel_page_table s)) as [E|E].
  - cbn. by rewrite E, Hh.
  - unfold modify. cbn. rewrite Hh. cbn. by destruct k.
Qed.

(** C16: the hardware interrupts.  On each of the sixteen lines of the PICs,
    from every state of the kernel invariant, whatever address space was
    interrupted, the handler of the IDT returns in a state of the invariant
    and acknowledges its own vector, once; the keyboard handler queues the
    scancode it reads, with the heap mapped, and leaves the kernel and its
    address space as they were; the timer handler gives the processor to
    the next ready thread. *)
Theorem hardware_interrupts_handled spaces b s v :
  PIC_1_OFFSET <= v < PIC_2_OFFSET + 8 ->
  kernel_inv spaces (board_kernel b) s -> running (board_kernel b) s -> heap_mapped (kernel_page_table s) = true ->
  exists b' s', hardware_interrupt v b = Ok b' /\ acknowledged b' = acknowledged b ++ [v] /\
    kernel_inv spaces (board_kernel b') s' /\ running (board_kernel b') s' /\
    board_input b' = (if v =? as_u8 Keyboard then (Wakeup.add_scancode (port_read 0x60) (board_input b)).2
                      else board_input b) /\
    (if v =? as_u8 Timer then
       current s' :: ready_list (ready_queue s') = rotate 1 (current s :: ready_list (ready_queue s))
     else board_kernel b' = board_kernel b).
Proof.
  unfold PIC_2_OFFSET, PIC_1_OFFSET. intros Hv HK Hr Hh.
  assert (Hin : v ∈ (Z.of_nat <$> seq 32 16)).
  { apply list_elem_of_fmap. exists (Z.to_nat v). split; [lia|]. apply elem_of_seq. lia. }
  destruct (decide (v = as_u8 Timer)) as [->|H1].
  { destruct (schedule_turn spaces (board_kernel b) s HK Hr) as (e & k' & s' & E & [T1 T2 T3 T4 _ _ _ _ _]).
    exists (mkBoard k' (board_input b) (acknowledged b ++ [as_u8 Timer])), s'.
    split_and!; [|done..]. unfold hardware_interrupt. cbn [idt_gate]. change (idt_gate (as_u8 Timer)) with (Some (set_handler_fn timer_interrupt_handler)).
    cbn [set_handler_fn handler run_handler]. unfold run_timer_handler, kernel_op, tick. cbn [notify_end_of_interrupt board_kernel].
    by rewrite E. }
  destruct (decide (v = as_u8 Keyboard)) as [->|H2].
  { eexists _, s. unfold hardware_interrupt.
    change (idt_gate (as_u8 Keyboard)) with (Some (set_handler_fn keyboard_interrupt_handler)).
    cbn [set_handler_fn handler run_handler]. by rewrite (keyboard_handler_ok spaces b s HK Hh). }
  exists (notify_end_of_interrupt v b), s. rewrite !(proj2 (Z.eqb_neq _ _)) by done. split_and!; [|done..].
  unfold hardware_interrupt.
  assert (Hg : Forall (fun v => v = as_u8 Timer \/ v = as_u8 Keyboard \/
    idt_gate v = Some (set_handler_fn (unhandled_pic_interrupt v))) (Z.of_nat <$> seq 32 16)).
  { repeat (constructor; [first [by left|by right; left|by right; right]|]). constructor. }
  rewrite Forall_forall in Hg. destruct (Hg v Hin) as [?|[?|E]]; [done..|]. by rewrite E.
Qed.
End Handlers.

(** C20: the privileges of ring 3.  The kernel's GDT fits the table, its four
    selectors are different and not null, those of ring 3 have privilege
    level 3 and the kernel's have 0; at that level [int] reaches the gate of
    the system calls, and with every other vector it is a general
    protection fault. *)
Theorem ring3_confined `{GlobalDescriptorTable G} :
  exists (g : G) s, GDT = Ok (g, s) /\ NoDup [0; code_selector s; tss_selector s; (user_selectors s).1; (user_selectors s).2] /\
    code_selector s mod 4 = 0 /\ tss_selector s mod 4 = 0 /\ (user_selectors s).1 mod 4 = 3 /\ (user_selectors s).2 mod 4 = 3 /\
    forall v, software_interrupt ((user_selectors s).1 mod 4) v =
      if v =? SYSCALL_VECTOR then syscall_entry else general_protection_fault_handler.
Proof.
  destruct GDT_ok as (g & E & _). exists g, (mkSelectors 0x08 0x10 0x23 0x2b). split_and!; [done| |done..|].
  { exact (bool_decide_eq_true_1 (NoDup [0; 0x08; 0x10; 0x23; 0x2b]) eq_refl). }
  intros v. change ((user_selectors _).1 mod 4) with 3. unfold software_interrupt, idt_gate.
  destruct (list_find _ IDT) as [[i [v' gt]]|] eqn:Ef.
  - apply list_find_Some in Ef as (Hi & <- & _). cbn [fst].
    assert (Hall : Forall (fun p => 3 <=? privilege_level p.2 = (p.1 =? SYSCALL_VECTOR) /\
      (p.1 = SYSCALL_VECTOR -> handler p.2 = syscall_entry)) IDT) by (repeat (constructor; [done|]); constructor).
    rewrite Forall_forall in Hall. destruct (Hall _ (list_elem_of_lookup_2 _ _ _ Hi)) as [Hp Hs]. cbn [fst snd] in *. rewrite Hp.
    destruct (Z.eqb_spec v' SYSCALL_VECTOR); auto.
  - destruct (Z.eqb_spec v SYSCALL_VECTOR) as [->|]; [done|done].
Qed.

(** ** A concrete board *)

Section Sample.
#[local] Existing Instances x86_crate cell_waker sample_queue.

(** The timer gives the processor to the second thread; a key is queued;
    the heap is mapped in the kernel's own address space only. *)
Lemma hardware_interrupts_handled_witness :
  exists (table : Z) (b b1 b2 : @Board BumpHeap (list Z) (list Z) (option Z)) s1,
    hardware_interrupt (fun _ => 0x1e) (fun t => t =? table) (fun b => Ok b) 32 b = Ok b1 /\
    scheduler (board_kernel b1) = Some s1 /\ current s1 = 1%nat /\ acknowledged b1 = [32] /\
    hardware_interrupt (fun _ => 0x1e) (fun t => t =? table) (fun b => Ok b) 33 b = Ok b2 /\
    acknowledged b2 = [33] /\ SCANCODE_QUEUE (board_input b2) = Some [0x1e].
Proof.
  destruct (sample_two_threads) as (k & s & HK & Hrun & Hc & Hz & Hq).
  pose (b := mkBoard k (boot ([] : list Z) ([] : list Z)) []).
  destruct (hardware_interrupts_handled (fun _ => 0x1e) (fun t => t =? kernel_page_table s) (fun b => Ok b) (fun _ => ∅) b s 32)
    as (b1 & s1 & E1 & A1 & HK1 & _ & _ & Ho); [vm_compute; split; [discriminate|reflexivity]|exact HK|exact Hrun|apply Z.eqb_refl|].
  destruct (hardware_interrupts_handled (fun _ => 0x1e) (fun t => t =? kernel_page_table s) (fun b => Ok b) (fun _ => ∅) b s 33)
    as (b2 & s2 & E2 & A2 & _ & _ & Hi & _); [vm_compute; split; [discriminate|reflexivity]|exact HK|exact Hrun|apply Z.eqb_refl|].
  cbn [Z.eqb as_u8] in Ho. change (32 =? as_u8 Timer) with true in Ho. cbn iota in Ho.
  rewrite Hc, Hq in Ho. injection Ho as Ho _.
  exists (kernel_page_table s), b, b1, b2, s1. split_and!; [exact E1|apply HK1|exact Ho|exact A1|exact E2|exact A2|].
  rewrite Hi. reflexivity.
Defined.

(** A table as the list of its descriptors. *)
#[refine] Instance list_gdt : GlobalDescriptorTable (list Descriptor) := {|
  gdt_new := [];
  gdt_add_entry g d :=
    if (1 + used g + slots d <=? 8)%nat then Ok (8 * Z.of_nat (1 + used g) + dpl d, g ++ [d]) else Panic "GDT full";
  gdt_entries g := g;
|}.
Proof.
  - done.
  - intros g d Hd. exists (g ++ [d]). by rewrite (proj2 (Nat.leb_le _ _) Hd).
Defined.

Lemma ring3_confined_witness : exists (g : list Descriptor) s, GDT = Ok (g, s) /\ (user_selectors s).1 = 0x23 /\
  software_interrupt ((user_selectors s).1 mod 4) 14 = general_protection_fault_handler.
Proof.
  destruct (@ring3_confined (list Descriptor) list_gdt) as (g & s & E & _ & _ & _ & H1 & _ & H2).
  exists g, s. split; [exact E|]. split; [vm_compute in E; injection E as _ <-; reflexivity|exact (H2 14)].
Defined.
End Sample.
