(* ===== verification/Boot.v ===== *)
(** * Booting (src/allocator.rs, src/memory.rs, src/main.rs)

    [init_heap] maps the kernel heap; [kernel_main] sets up the frame
    allocator, the heap and the scheduler and turns interrupts on.  What it
    reaches is a state of the invariant that the theorems about threads,
    programs and system calls start from. *)

From S2P Require Import Prelude Ring X86 FrameAlloc Paging AddressSpace Mapper MapperRef Mappings Elf ElfThms.
From S2P Require Import Threads Scheduler SchedulerInv SpawnInv SchedulerThms.

Definition HEAP_START : Z := 0x444444440000.
Definition HEAP_SIZE : Z := 4 * 1024 * 1024.

Definition heap_flags : Z := Z.lor PRESENT WRITABLE.

Section InitHeap.
Context {crate : X86Crate} {mapper : PageMapper} {A : Type} `{!FrameAllocator A}.

(** [Page::range_inclusive]. *)
Definition page_range (first last : Z) : list Z :=
  stride first PAGE_SIZE (Z.to_nat ((last - first) / PAGE_SIZE + 1)).

Definition heap_pages : outcome (list Z) :=
  heap_start ← va_new HEAP_START;
  sum ← expect (va_add heap_start HEAP_SIZE) "VirtAddr + u64";
  heap_end ← va_new (sum - 1);
  let heap_start_page := page_containing heap_start in
  let heap_end_page := page_containing heap_end in
  Ok (page_range heap_start_page heap_end_page).

(** The loop; an error is the [Err] of the [Result]. *)
Fixpoint init_heap_pages (l4 : Z) (pages : list Z) (m : mem) (a : A) : outcome (option MapToError * mem * A) :=
  match pages with
  | [] => Ok (None, m, a)
  | page :: rest =>
      '(r, a1) ← allocate_frame a;
      match r with
      | None => Ok (Some FrameAllocationFailed, m, a1)
      | Some frame =>
          '(err, m1, a2) ← map_to m l4 page frame heap_flags a1;
          match err with
          | Some e => Ok (Some e, m1, a2)
          | None => init_heap_pages l4 rest m1 a2
          end
      end
  end.

(** The heap itself is given its region afterwards, by the caller's
    [heap_init]. *)
Definition init_heap (l4 : Z) (m : mem) (a : A) : outcome (option MapToError * mem * A) :=
  pages ← heap_pages;
  init_heap_pages l4 pages m a.

(** [create_example_mapping]: the page is mapped to the VGA buffer. *)
Definition create_example_mapping (page l4 : Z) (m : mem) (a : A) : outcome (mem * A) :=
  addr ← expect (pa_new 0xb8000) "PhysAddr::new";
  let frame := frame_containing addr in
  '(err, m1, a1) ← map_to m l4 page frame (Z.lor PRESENT WRITABLE) a;
  match err with Some _ => Panic "map_to failed" | None => Ok (m1, a1) end.
End InitHeap.

Lemma heap_pages_ok {crate : X86Crate} : heap_pages = Ok (stride HEAP_START PAGE_SIZE 1024).
Proof.
  unfold heap_pages, va_new.
  rewrite va_try_new_canonical by (unfold canonical, HEAP_START; lia). cbn [expect mbind outcome_bind].
  rewrite va_add_low by (unfold HEAP_START, HEAP_SIZE; lia). cbn [expect mbind outcome_bind].
  rewrite va_try_new_canonical by (unfold canonical, HEAP_START, HEAP_SIZE; lia). cbn [expect mbind outcome_bind].
  rewrite !page_containing_spec by (unfold canonical, HEAP_START, HEAP_SIZE; lia). done.
Qed.

Section Mapping.
Context {crate : X86Crate} {mapper : PageMapper} {A : Type} `{!FrameAllocator A, !FrameDeallocator A, !LawfulFrameAllocator A}.
Context (l4 : Z) (shared : list nat).

(** A page of the heap, mapped: present and writable on every level, and in
    its last entry not accessible from ring 3. *)
Definition heap_page_mapped (m : mem) (top : gmap nat (ptree 3)) (page frame : Z) : Prop :=
  space_lookup top page = Some frame /\ accessible_walk m l4 (hw_indexes 4 page) heap_flags = true /\
  exists e, leaf_entry m l4 (hw_indexes 4 page) = Some e /\
    Z.testbit e 0 = true /\ Z.testbit e 1 = true /\ Z.testbit e 2 = false.

(** The state after the pages [done] were mapped to the frames [fs]: the
    tables of the hierarchy, [fs] and the free frames are [total], the
    frames there were at the start; memory changed in frames of tables
    only, and no other page is mapped otherwise than in [top0]. *)
Record heap_mapping (m0 : mem) (top0 : gmap nat (ptree 3)) (total : list Z) (m : mem) (a : A) (top : gmap nat (ptree 3)) (done fs : list Z) : Prop := {
  hm_mem : mem_ok m;
  hm_repr : repr_space m l4 shared top;
  hm_inv : fa_inv a;
  hm_total : space_tables l4 top ++ fs ++ fa_avail a ≡ₚ total;
  hm_outside x : ~ in_frames (space_tables l4 top) x -> m x = m0 x;
  hm_pages : Forall2 (heap_page_mapped m top) done fs;
  hm_others p : (forall q, q ∈ done -> hw_indexes 4 p <> hw_indexes 4 q) -> space_lookup top p = space_lookup top0 p;
}.

Context (m0 : mem) (top0 : gmap nat (ptree 3)) (total : list Z) (Hnodup : NoDup total) (Hframes : Forall frame_ok total).

Lemma heap_mapping_space_ok m a top pages fs : heap_mapping m0 top0 total m a top pages fs -> space_ok m l4 shared top a.
Proof using Hnodup Hframes.
  intros [H1 H2 H3 H4 _ _ _]. split_and!; [done|done|done| |].
  - eapply NoDup_sub; [|exact Hnodup]. rewrite <- H4. apply submseteq_app; [done|]. by apply submseteq_inserts_l.
  - eapply Forall_sub; [|exact Hframes]. rewrite <- H4. apply submseteq_app; [done|]. by apply submseteq_inserts_l.
Qed.

Lemma heap_flags_page : page_flags heap_flags.
Proof. right. by left. Qed.

(** One page of the loop. *)
Lemma heap_mapping_step m a a1 m1 a2 top top' pages fs page frame rest :
  heap_mapping m0 top0 total m a top pages fs -> user_page shared page ->
  Forall (fun p => user_page shared p /\ p <> page) pages ->
  fa_avail a = frame :: rest -> fa_avail a1 = rest ->
  mapped_ok m m1 l4 shared top top' page frame heap_flags a1 a2 ->
  heap_mapping m0 top0 total m1 a2 top' (pages ++ [page]) (fs ++ [frame]).
Proof.
  clear Hnodup Hframes. intros Hm Hp Hdiff Hav Hav1 Hmo. split.
  - apply (mapped_mem _ _ _ _ _ _ _ _ _ _ _ Hmo).
  - apply (mapped_repr _ _ _ _ _ _ _ _ _ _ _ Hmo).
  - apply (mapped_inv _ _ _ _ _ _ _ _ _ _ _ Hmo).
  - rewrite <- (hm_total _ _ _ _ _ _ _ _ Hm), (mapped_tables _ _ _ _ _ _ _ _ _ _ _ Hmo), (mapped_avail _ _ _ _ _ _ _ _ _ _ _ Hmo), Hav, Hav1.
    rewrite <- (take_drop (space_missing top page) rest) at 3. rewrite <- !app_assoc. cbn [app].
    rewrite (Permutation_app_swap_app (take _ rest)). apply Permutation_app_head.
    rewrite (Permutation_app_swap_app (take _ rest)). apply Permutation_app_head.
    by rewrite Permutation_middle.
  - intros x Hx. rewrite (mapped_outside _ _ _ _ _ _ _ _ _ _ _ Hmo) by done. apply (hm_outside _ _ _ _ _ _ _ _ Hm).
    intros Hin. apply Hx. eapply in_frames_incl; [|exact Hin]. intros f Hf.
    rewrite (mapped_tables _ _ _ _ _ _ _ _ _ _ _ Hmo). set_solver.
  - apply Forall2_app.
    + assert (HF := hm_pages _ _ _ _ _ _ _ _ Hm). apply Forall2_same_length_lookup_2; [by eapply Forall2_length|].
      intros i p f Hi Hf. destruct (Forall2_lookup_lr _ _ _ _ _ _ HF Hi Hf) as (L1 & L2 & e & L3 & L4).
      assert (Hpin := list_elem_of_lookup_2 _ _ _ Hi). rewrite Forall_forall in Hdiff. destruct (Hdiff p Hpin) as [Hup Hne].
      assert (Hix := hw_indexes_ne shared p page Hup Hp Hne). destruct Hup as (_ & _ & Hsh). split_and!.
      * by rewrite (mapped_others _ _ _ _ _ _ _ _ _ _ _ Hmo).
      * apply (mapped_other_flags _ _ _ _ _ _ _ _ _ _ _ Hmo); try done. apply heap_flags_page.
      * exists e. split; [|done]. by apply (mapped_other_leaf _ _ _ _ _ _ _ _ _ _ _ Hmo).
    + apply Forall2_cons. split; [|done]. split; [apply (mapped_lookup _ _ _ _ _ _ _ _ _ _ _ Hmo)|].
      split; [apply (mapped_flags _ _ _ _ _ _ _ _ _ _ _ Hmo)|].
      destruct (mapped_leaf _ _ _ _ _ _ _ _ _ _ _ Hmo) as (e & He & Hb). exists e.
      rewrite !Hb by set_solver. done.
  - intros p Hout. rewrite (mapped_others _ _ _ _ _ _ _ _ _ _ _ Hmo) by (apply Hout; set_solver).
    apply (hm_others _ _ _ _ _ _ _ _ Hm). intros q Hq. apply Hout. set_solver.
Qed.

Lemma init_heap_pages_ok todo m a top pages fs :
  heap_mapping m0 top0 total m a top pages fs -> NoDup (pages ++ todo) -> Forall (user_page shared) (pages ++ todo) ->
  Forall (fun p => space_lookup top p = None) todo ->
  exists r m' a', init_heap_pages l4 todo m a = Ok (r, m', a') /\
    ((4 * length todo <= length (fa_avail a))%nat -> r = None) /\
    (r = None -> (length (fa_avail a) <= length (fa_avail a') + 4 * length todo)%nat /\
       exists top' fs', heap_mapping m0 top0 total m' a' top' (pages ++ todo) (fs ++ fs')).
Proof using Hnodup Hframes.
  revert m a top pages fs. induction todo as [|page todo IH]; intros m a top pages fs Hm Hnd Hup Hnone.
  { exists None, m, a. split_and!; [done|done|]. intros _. split; [lia|]. exists top, []. by rewrite !app_nil_r. }
  assert (Hso := heap_mapping_space_ok _ _ _ _ _ Hm). assert (Hmiss := space_missing_le top page).
  assert (Hnd' : NoDup ((pages ++ [page]) ++ todo)) by (by rewrite <- app_assoc).
  assert (Hup' : Forall (user_page shared) ((pages ++ [page]) ++ todo)) by (by rewrite <- app_assoc).
  apply Forall_cons in Hnone as [Hn Hnone].
  assert (Hpage : user_page shared page) by (apply Forall_app in Hup as [_ Hup]; by apply Forall_cons in Hup as [? _]).
  cbn [init_heap_pages].
  destruct (fa_avail a) as [|frame rest] eqn:Hav.
  { destruct (fa_alloc_none a (hm_inv _ _ _ _ _ _ _ _ Hm) Hav) as (a1 & Ea & _). rewrite Ea. cbn [mbind outcome_bind].
    eexists _, _, _. split; [reflexivity|]. split; [cbn [length]; lia|done]. }
  destruct (fa_alloc_some a frame rest (hm_inv _ _ _ _ _ _ _ _ Hm) Hav) as (a1 & Ea & Hi1 & Hav1). rewrite Ea. cbn [mbind outcome_bind].
  destruct Hso as (O1 & O2 & _ & O4 & O5). rewrite Hav in O4, O5.
  assert (Hsub : space_tables l4 top ++ rest ⊆+ space_tables l4 top ++ frame :: rest).
  { apply submseteq_app; [done|]. by apply submseteq_cons. }
  assert (Hso1 : space_ok m l4 shared top a1).
  { split_and!; [done|done|done|rewrite Hav1; by eapply NoDup_sub|rewrite Hav1; by eapply Forall_sub]. }
  assert (Hrq : request_ok shared page frame heap_flags).
  { destruct Hpage as (P1 & P2 & P3). split_and!; [done|unfold canonical; lia|done| |apply heap_flags_page].
    apply Forall_app in O5 as [_ O5]. by apply Forall_cons in O5 as [? _]. }
  destruct (decide (space_missing top page <= length rest)%nat) as [Hl|Hl].
  - destruct (map_to_ok m l4 shared top page frame heap_flags a1 Hso1 Hrq Hn) as (m1 & a2 & top' & Em & Hmo); [by rewrite Hav1|].
    rewrite Em. cbn [mbind outcome_bind].
    assert (Hdiff : Forall (fun p => user_page shared p /\ p <> page) pages).
    { apply Forall_forall. intros p Hpin. split.
      - rewrite Forall_forall in Hup. apply Hup. set_solver.
      - intros ->. apply NoDup_app in Hnd as (_ & Hd & _). apply (Hd page Hpin). set_solver. }
    destruct (IH m1 a2 top' (pages ++ [page]) (fs ++ [frame])) as (r & m' & a' & E & E1 & E2); [by eapply heap_mapping_step|done|done| |].
    { apply Forall_forall. intros p Hpin. rewrite Forall_forall in Hnone, Hup'. rewrite (mapped_others _ _ _ _ _ _ _ _ _ _ _ Hmo); [by apply Hnone|].
      apply (hw_indexes_ne shared); [apply Hup'; set_solver|done|]. intros ->.
      apply NoDup_app in Hnd' as (_ & Hd & _). apply (Hd page); [set_solver|done]. }
    exists r, m', a'. split; [exact E|]. split.
    + intros Hlen. apply E1. rewrite (mapped_avail _ _ _ _ _ _ _ _ _ _ _ Hmo), Hav1, length_drop. cbn [length] in Hlen. lia.
    + intros Hr. destruct (E2 Hr) as (Hl' & top'' & fs' & Hm'). split; [|exists top'', (frame :: fs'); by rewrite <- !app_assoc in Hm'].
      rewrite (mapped_avail _ _ _ _ _ _ _ _ _ _ _ Hmo), Hav1, length_drop in Hl'. cbn [length] in *. lia.
  - destruct (map_to_no_frames m l4 shared top page frame heap_flags a1 Hso1 Hrq Hn) as (m1 & a2 & Em); [rewrite Hav1; lia|].
    rewrite Em. cbn [mbind outcome_bind]. eexists _, _, _. split; [reflexivity|]. split; [cbn [length]; lia|done].
Qed.
End Mapping.

Lemma heap_user_pages shared : hw_index 4 HEAP_START ∉ shared ->
  Forall (user_page shared) (stride HEAP_START PAGE_SIZE 1024).
Proof.
  intros Hs. apply Forall_forall. intros p (k & Hk & ->)%elem_of_stride. unfold user_page, HEAP_START, PAGE_SIZE in *.
  split_and!; [Z.to_euclidean_division_equations; lia|lia|lia|].
  replace (hw_index 4 (0x444444440000 + 4096 * Z.of_nat k)) with (hw_index 4 0x444444440000); [done|].
  unfold hw_index, level_shift. f_equal. f_equal. Z.to_euclidean_division_equations. lia.
Qed.

(** ** [kernel_main] *)

Section Boot.
Context {crate : X86Crate} {mapper : PageMapper} {H : Type} {kheap : KernelHeap H}.

(** [LockedHeap::init] of the linked_list_allocator crate: a heap that
    hands out blocks of a region. *)
Variable heap_init : Z -> Z -> H.

Definition set_physical_memory_offset (offset : Z) (k : Kernel H) : Kernel H :=
  mkKernel (scheduler k) (scheduler_locked k) (rsp k) (cr3 k) (rsp0 k) (interrupts_enabled k) (suspended k)
    (kmem k) (phys k) (frames k) (heap k) (Some offset).

Definition get_physical_memory_offset : M (Kernel H) Z :=
  pmo ← gets physical_memory_offset;
  lift (expect pmo "memory::set_physical_memory_offset was never called").

Definition enable_interrupts : M (Kernel H) unit := enable.

(** The allocator, the offset and the heap, with the mapper on the table
    [l4]. *)
Definition init_memory (l4 phys_mem_offset : Z) (memory_map : list MemoryRegion) : M (Kernel H) unit :=
  _ ← modify (fun k => set_memory (phys k) (init_frame_allocator memory_map) k);
  _ ← modify (set_physical_memory_offset phys_mem_offset);
  m ← gets phys;
  a ← gets frames;
  '(err, m1, a1) ← lift (init_heap l4 m a);
  _ ← modify (set_memory m1 a1);
  _ ← lift (match err with Some _ => Panic "init_heap failed" | None => Ok tt end);
  modify (set_heap (heap_init HEAP_START HEAP_SIZE)).

(** The start of [kernel_main], to the call of [enable_interrupts]; the
    mapper that [memory::init] makes is of the active table. *)
Definition kernel_main_init (boot_physical_memory_offset : Z) (memory_map : list MemoryRegion) : M (Kernel H) unit :=
  phys_mem_offset ← lift (va_new boot_physical_memory_offset);
  l4 ← gets cr3;
  _ ← init_memory l4 phys_mem_offset memory_map;
  _ ← init;
  enable_interrupts.

(** What the bootloader leaves: its page tables, outside of the [shared]
    top-level entries, are the tree [top], in which the pages of the heap
    are not mapped; the usable frames of its memory map are frames, listed
    once, and none is a page table of the tree. *)
Record bootloader_ok (k : Kernel H) (offset : Z) (memory_map : list MemoryRegion) (shared : list nat) (top : gmap nat (ptree 3)) : Prop := {
  bl_offset : canonical offset;
  bl_unlocked : scheduler_locked k = false;
  bl_suspended : length (suspended k) = MAX_THREADS;
  bl_mem : mem_ok (phys k);
  bl_repr : repr_space (phys k) (cr3 k) shared top;
  bl_heap : hw_index 4 HEAP_START ∉ shared /\
    Forall (fun p => space_lookup top p = None) (stride HEAP_START PAGE_SIZE 1024);
  bl_regions : Forall region_ok memory_map;
  bl_frames : NoDup (space_tables (cr3 k) top ++ usable_frames memory_map) /\
    Forall frame_ok (space_tables (cr3 k) top ++ usable_frames memory_map);
}.

(** The state once the heap is there. *)
Record memory_ready k offset memory_map shared top k' top' fs : Prop := {
  mr_kernel : k' = set_heap (heap_init HEAP_START HEAP_SIZE) (set_memory (phys k') (frames k') (set_physical_memory_offset offset k));
  mr_mapping : heap_mapping (cr3 k) shared (phys k) top (space_tables (cr3 k) top ++ usable_frames memory_map)
    (phys k') (frames k') top' (stride HEAP_START PAGE_SIZE 1024) fs;
  mr_free : (length (usable_frames memory_map) <= length (fa_avail (frames k')) + 4096)%nat;
}.

Lemma init_memory_ok k offset memory_map shared top :
  bootloader_ok k offset memory_map shared top -> (4096 <= length (usable_frames memory_map))%nat ->
  exists k' top' fs, init_memory (cr3 k) offset memory_map k = Ok (tt, k') /\ memory_ready k offset memory_map shared top k' top' fs.
Proof.
  intros [Ho Hl Hsu Hm Hr [Hs Hn] Hreg [Hnd Hok]] Hlen.
  destruct (frame_allocator_init_lawful memory_map Hreg) as [Hi Hav].
  change (fa_inv (init_frame_allocator memory_map)) in Hi.
  change (fa_avail (init_frame_allocator memory_map) = usable_frames memory_map) in Hav.
  set (total := space_tables (cr3 k) top ++ usable_frames memory_map) in *.
  destruct (init_heap_pages_ok (cr3 k) shared (phys k) top total Hnd Hok (stride HEAP_START PAGE_SIZE 1024) (phys k)
    (init_frame_allocator memory_map) top [] []) as (r & m1 & a1 & E & E1 & E2).
  - split; [done..| |done|constructor|done]. cbn [app]. by rewrite Hav.
  - by apply NoDup_stride.
  - by apply heap_user_pages.
  - done.
  - rewrite Hav, length_stride in E1. rewrite E1 in * by lia. clear E1.
    destruct (E2 eq_refl) as (Hfree & top' & fs & Hmap). cbn [app] in Hmap. rewrite Hav, length_stride in Hfree.
    exists (set_heap (heap_init HEAP_START HEAP_SIZE) (set_memory m1 a1 (set_physical_memory_offset offset k))), top', fs.
    split; [|split; [reflexivity|exact Hmap|exact Hfree]].
    unfold init_memory, mbind, M_bind, lift, gets, modify. unfold init_heap. rewrite heap_pages_ok. cbn [mbind outcome_bind].
    change (phys (set_physical_memory_offset _ _)) with (phys k). change (frames (set_physical_memory_offset _ _)) with (init_frame_allocator memory_map).
    by rewrite E.
Qed.

Lemma memory_ready_boot_ok k offset memory_map shared top k' top' fs :
  heap_inv (heap_init HEAP_START HEAP_SIZE) -> bootloader_ok k offset memory_map shared top ->
  memory_ready k offset memory_map shared top k' top' fs -> boot_ok k'.
Proof.
  intros Hh [_ Hl Hsu _ _ _ _ [Hnd Hok]] [Hk Hmap _]. rewrite <- (hm_total _ _ _ _ _ _ _ _ _ _ Hmap) in Hnd, Hok.
  rewrite !NoDup_app in Hnd. rewrite !Forall_app in Hok.
  split; rewrite Hk; [done|done|done|by exists offset|apply (hm_inv _ _ _ _ _ _ _ _ _ _ Hmap)|apply (hm_mem _ _ _ _ _ _ _ _ _ _ Hmap)|].
  split; [apply Hnd|apply Hok].
Qed.

(** C9: booting establishes the invariant of the kernel.  From what the
    bootloader leaves, with 4096 usable frames or more, [kernel_main] gets
    to the point where it turns interrupts on: no panic on the way, the
    scheduler and everything it relies on in a state of the invariant, each
    of the 1024 pages of the heap mapped, present and writable and closed to
    ring 3, to a frame of its own, and none of these frames, nor a page
    table, among those the allocator can still hand out. *)
Theorem boot_establishes_invariant spaces k offset memory_map shared top :
  heap_inv (heap_init HEAP_START HEAP_SIZE) -> bootloader_ok k offset memory_map shared top ->
  (4096 <= length (usable_frames memory_map))%nat ->
  exists k' s top' fs, kernel_main_init offset memory_map k = Ok (tt, k') /\
    kernel_inv spaces k' s /\ running k' s /\ interrupts_enabled k' = true /\
    Forall2 (heap_page_mapped (cr3 k') (phys k') top') (stride HEAP_START PAGE_SIZE 1024) fs /\
    NoDup (space_tables (cr3 k') top' ++ fs ++ fa_avail (frames k')).
Proof.
  intros Hh Hb Hlen. destruct (init_memory_ok k offset memory_map shared top Hb Hlen) as (k1 & top' & fs & E & Hr).
  destruct (init_ok spaces k1 (memory_ready_boot_ok _ _ _ _ _ _ _ _ Hh Hb Hr)) as (k2 & E3 & HK & Hrun & Hk2).
  destruct Hr as [Hk1 Hmap _]. assert (Ec : cr3 k1 = cr3 k) by (by rewrite Hk1).
  exists (set_interrupts true k2), (boot_state (cr3 k1)), top', fs. split_and!.
  - unfold kernel_main_init, va_new, mbind, M_bind, lift, gets, modify.
    rewrite va_try_new_canonical by apply (bl_offset _ _ _ _ _ Hb). cbn [expect outcome_bind mbind fst snd]. rewrite E. by rewrite E3.
  - by destruct HK.
  - done.
  - done.
  - rewrite Hk2. cbn [cr3 phys set_interrupts set_scheduler]. rewrite Ec. apply (hm_pages _ _ _ _ _ _ _ _ _ _ Hmap).
  - rewrite Hk2. cbn [cr3 frames set_interrupts set_scheduler]. rewrite Ec, (hm_total _ _ _ _ _ _ _ _ _ _ Hmap). apply (bl_frames _ _ _ _ _ Hb).
Qed.
End Boot.

(** ** A concrete boot

    32 MiB of memory; empty page tables at 0x11000. *)

Section Sample.
#[local] Existing Instances x86_crate ref_mapper.

Definition boot_ram : list MemoryRegion :=
  [{| region_type := NotUsable; start_addr := 0; end_addr := 0x100000 |};
   {| region_type := Usable; start_addr := 0x100000; end_addr := 0x2000000 |}].

Definition sample_machine_state : Kernel BumpHeap :=
  mkKernel None false 0x80000 0x11000 0 false (replicate MAX_THREADS Exited) (fun _ => 0) (fun _ => 0) None (mkBumpHeap 0 []) None.

Lemma boot_ram_frames : usable_frames boot_ram = stride 0x100000 4096 (Z.to_nat 7936).
Proof.
  unfold usable_frames, boot_ram. rewrite !bind_cons. change ([] ≫= region_frames) with (@nil Z). rewrite app_nil_r. unfold region_frames at 1.
  change (region_usable _) with false. cbn [app]. unfold region_frames. by change (region_usable _) with true.
Qed.

Lemma sample_bootloader_ok : bootloader_ok sample_machine_state (3 * 2 ^ 39) boot_ram [] ∅.
Proof.
  split.
  - unfold canonical. lia.
  - done.
  - done.
  - intros x. unfold is_u8. cbn. lia.
  - split; [set_solver|]. intros i Hi _. done.
  - split; [set_solver|]. apply Forall_forall. intros p _. done.
  - repeat constructor; cbn; try done; lia.
  - rewrite boot_ram_frames. unfold space_tables. rewrite bind_no_children. cbn [app].
    change (cr3 sample_machine_state) with 0x11000. split.
    + apply NoDup_cons. split; [|by apply NoDup_stride]. intros (k & Hk & E)%elem_of_stride. lia.
    + constructor; [split; [done|lia]|]. apply Forall_forall. intros f (k & Hk & ->)%elem_of_stride.
      split; [unfold PAGE_SIZE; Z.to_euclidean_division_equations; lia|lia].
Qed.

Lemma boot_establishes_invariant_witness :
  exists k' s, kernel_main_init (fun start size => mkBumpHeap start []) (3 * 2 ^ 39) boot_ram sample_machine_state = Ok (tt, k') /\
    kernel_inv (fun _ => ∅) k' s /\ running k' s /\ interrupts_enabled k' = true.
Proof.
  destruct (boot_establishes_invariant (fun start size => mkBumpHeap start []) (fun _ => ∅) sample_machine_state (3 * 2 ^ 39)
    boot_ram [] ∅) as (k' & s & top' & fs & E & HK & Hr & Hi & _).
  - split; [reflexivity|constructor].
  - exact sample_bootloader_ok.
  - rewrite boot_ram_frames, length_stride. lia.
  - exists k', s. exact (conj E (conj HK (conj Hr Hi))).
Defined.
End Sample.
