(* ===== verification/Process.v ===== *)
(** * The life of a process

    [spawn_from_path] of src/syscall.rs once the file is in memory: the
    loader builds an address space, the scheduler a thread that runs in it.
    From the load to the reaping of the thread, the program finds what its
    file says, and every physical frame it used comes back. *)

From S2P Require Import Prelude Ring X86 FrameAlloc Paging AddressSpace Mapper MapperRef Mappings Elf ElfThms ElfImage.
From S2P Require Import ElfLoad Threads Scheduler SchedulerInv SpawnInv SpawnIsolated SchedulerThms.

Section Spawn.
Context {crate : X86Crate} {mapper : PageMapper} {H : Type} {kheap : KernelHeap H}.

(** [spawn_from_path] after [read_file]; [thread_trampoline] and
    [ring3_trampoline] are the addresses of these functions. *)
Definition spawn_elf (thread_trampoline ring3_trampoline : Z) (data args : list Z) : M (Kernel H) (option Pid) := fun k =>
  physical_memory_offset ← expect (physical_memory_offset k) "memory::set_physical_memory_offset was never called";
  '(r, (m, a)) ← load data (cr3 k) physical_memory_offset args (phys k, frames k);
  let k1 := set_memory m a k in
  match r with
  | None => Ok (None, k1)
  | Some loaded =>
      '(pid, k2) ← spawn_user thread_trampoline ring3_trampoline (Elf.entry loaded) (stack_top loaded) (args_ptr loaded)
        (args_len loaded) (Elf.page_table loaded) (cr3 k1) k1;
      Ok (Some pid, k2)
  end.
End Spawn.

Section Life.
Context {crate : X86Crate} {mapper : PageMapper} {H : Type} {kheap : KernelHeap H}.
Implicit Types (k : Kernel H) (s : SchedulerState) (m : mem) (a : GlobalFrameAllocator)
  (spaces : Z -> gmap nat (ptree 3)).

Lemma walk_tables_ext m m' t indexes :
  Forall (fun i => (i < 512)%nat) indexes ->
  (forall f x, f ∈ walk_tables m t indexes -> in_frame f x -> m' x = m x) ->
  walk_tables m' t indexes = walk_tables m t indexes.
Proof.
  revert t; induction indexes as [|i rest IH]; intros t Hi Hx; [done|].
  apply Forall_cons in Hi as [Hi Hr].
  assert (He : table_entry m' t i = table_entry m t i).
  { apply table_entry_ext; [done|]. intros x Hx'. apply (Hx t); [cbn; set_solver|done]. }
  cbn [walk_tables] in *. rewrite He. f_equal.
  destruct (pte_frame (table_entry m t i)) as [f| |]; [|done..].
  apply IH; [done|]. intros g x Hg. apply Hx. set_solver.
Qed.

(** The kernel's mappings survive writes to free frames. *)
Lemma kernel_maps_kept m m' kt fs fs' page f :
  kernel_maps m kt fs page f -> Forall frame_ok fs -> (forall x, ~ in_frames fs x -> m' x = m x) ->
  (forall g, g ∈ fs' -> g ∈ fs) -> kernel_maps m' kt fs' page f.
Proof.
  intros (e & He & -> & Hw) Hfs Hx Hsub.
  assert (Hk : forall t x, t ∈ walk_tables m kt (hw_indexes 4 page) -> in_frame t x -> m' x = m x).
  { intros t x Ht Hin. apply Hx. intros (g & Hg & Hin'). rewrite Forall_forall in Hw, Hfs.
    destruct (Hw t Ht) as [Hok Hni]. apply (frame_disjoint t g x); [done|by apply Hfs| |done|done]. intros ->. done. }
  exists e. rewrite (leaf_entry_ext m m') by (done || apply hw_indexes_lt).
  rewrite (walk_tables_ext m m') by (done || apply hw_indexes_lt).
  split_and!; [done|done|]. eapply Forall_impl; [exact Hw|]. cbn. intros t [? ?]. split; [done|]. auto.
Qed.

(** Work in free frames keeps the invariant. *)
Lemma kernel_inv_memory spaces k s m a :
  kernel_inv spaces k s -> mem_ok m -> fa_inv a -> fa_avail a ⊆+ fa_avail (frames k) ->
  (forall x, ~ in_frames (fa_avail (frames k)) x -> m x = phys k x) ->
  kernel_inv spaces (set_memory m a k) s.
Proof.
  intros [H1 H2 H3 H4 H5 H6 H7 (pmo & Hp & Hr) H9 H10 [H11 H12]] Hm Ha Hsub Hx. split; try done.
  - exists pmo. split; [done|]. intros id t l4 Ht Hl. eapply (node_ext (phys k) m 3); [|exact (Hr id t l4 Ht Hl)].
    intros x Hin. apply Hx. intros Hin'. apply (in_frames_disjoint _ _ x H11 H12); [|done].
    eapply in_frames_incl; [|exact Hin]. intros f Hf. apply list_elem_of_bind. exists (Some t).
    split; [|by apply list_elem_of_lookup; eauto]. unfold owned. rewrite Hl.
    eapply elem_of_submseteq; [exact Hf|apply (space_tables_freed (stack_range t) l4)].
  - split; [eapply NoDup_sub; [|exact H11]|eapply Forall_sub; [|exact H12]]; by apply submseteq_app.
Qed.

(** Sharing the kernel stack leaves the program as it was loaded. *)
Lemma image_kept m0 a0 l4 shared top0 borrowed frame_of m a top stack pages :
  image m0 l4 shared top0 pages ->
  sharing m0 a0 l4 shared top0 borrowed frame_of m a top stack ->
  (forall lp, lp ∈ pages -> lp_page lp ∉ stack) ->
  NoDup (space_tables l4 top0 ++ (space_mappings top0).*2 ++ fa_avail a0) ->
  Forall frame_ok (space_tables l4 top0 ++ (space_mappings top0).*2 ++ fa_avail a0) ->
  image m l4 shared top pages.
Proof.
  intros [I1 I2 I3] Hsh Hd Hnd Hok. split; [apply (sh_space _ _ _ _ _ _ _ _ _ _ _ Hsh)| |done].
  intros lp Hin. destruct (I2 lp Hin) as (f & Hl & Hc & Hw & e & He & Hb). assert (Hu := I3 lp Hin).
  assert (Hn := Hd lp Hin). exists f. split_and!.
  - by rewrite (sh_others _ _ _ _ _ _ _ _ _ _ _ Hsh).
  - rewrite <- Hc. apply read_bytes_ext. intros x Hx. apply (sh_outside _ _ _ _ _ _ _ _ _ _ _ Hsh). intros Hin'.
    rewrite Permutation_app_swap_app in Hnd, Hok. apply (in_frames_disjoint _ _ x Hnd Hok); [|done].
    exists f. split; [|unfold in_frame, PAGE_SIZE in *; lia]. destruct Hu as (? & ? & _). by apply (mapped_frame top0 (lp_page lp)).
  - apply (sh_flags _ _ _ _ _ _ _ _ _ _ _ Hsh); try done. apply segment_flags_page.
  - exists e. split; [|done]. by apply (sh_leaf _ _ _ _ _ _ _ _ _ _ _ Hsh).
Qed.

(** A program that can be started: its file is well formed and fits, the
    kernel has a free slot, a stack at [p] it maps itself, and frames
    enough. *)
Record program_ok spaces k s (data args : list Z) (e : Z) (segs : list segment) (l4 : Z) (rest : list Z)
    (p : Z) (h : H) (id : ThreadId) (pmo : Z) (frame_of : Z -> Z) : Prop := {
  po_inv : kernel_inv spaces k s;
  po_header : header_ok data = true;
  po_parse : parse_elf data = Some (e, segs);
  po_bytes : Forall is_u8 data /\ Forall is_u8 args;
  po_entry : 0 <= e < 2 ^ 47;
  po_layout : layout_ok [0%nat; va_index 4 pmo] segs;
  po_pmo : physical_memory_offset k = Some pmo /\ canonical pmo;
  po_avail : fa_avail (frames k) = l4 :: rest;
  po_apart : frames_apart (cr3 k) l4;
  po_memory : (4 * total_pages segs + 48 <= length rest)%nat;
  po_heap : heap_alloc STACK_SIZE 4096 (heap k) = (Some p, h);
  po_slot : position_none (threads s) = Some id;
  po_generations : Forall (fun g => 0 <= g < 2 ^ 56 - 1) (slot_generations s);
  po_stack q : q ∈ stack_pages p -> hw_index 4 q ∉ [0%nat; va_index 4 pmo] /\
    q ∉ stack_page segs :: args_page segs :: (segs ≫= segment_page_list) /\
    kernel_maps (phys k) (cr3 k) (fa_avail (frames k)) q (frame_of q);
}.

(** Where the kernel stack is not mapped, all frames of a space are freed
    with it. *)
Lemma unborrowed_freed l4 top p :
  p mod PAGE_SIZE = 0 -> 0 <= p -> p + STACK_SIZE < 2 ^ 47 ->
  (forall q, q ∈ stack_pages p -> space_lookup top q = None) ->
  freed_space (p, p + STACK_SIZE) l4 top ≡ₚ space_tables l4 top ++ (space_mappings top).*2.
Proof.
  intros Hp H0 Hlt Hst. rewrite freed_space_mappings. apply Permutation_app_head.
  assert (E : space_mappings top ≫= unless_borrowed (p, p + STACK_SIZE) = space_mappings top ≫= fun pf => [pf.2]).
  { apply bind_ext. intros [q f] (Hb & Hm & Hl)%elem_of_space_mappings. unfold unless_borrowed. cbn [fst snd].
    destruct (range_contains (p, p + STACK_SIZE) q) eqn:Er; [exfalso|done].
    unfold range_contains in Er. cbn [fst snd] in Er.
    assert (Hin : q ∈ stack_pages p).
    { unfold stack_pages. rewrite (proj1 (stack_pages_aligned p Hp ltac:(unfold STACK_SIZE in *; lia))).
      apply elem_of_stride. exists (Z.to_nat ((q - p) / 4096)). unfold STACK_SIZE, PAGE_SIZE in *.
      pose proof (Z.div_mod (q - p) 4096 ltac:(lia)). pose proof (Z.mod_pos_bound (q - p) 4096 ltac:(lia)).
      change (Z.to_nat (64 * 1024 / 4096)) with 16%nat. rewrite Zminus_mod, Hp, Hm in *. change ((0 - 0) mod 4096) with 0 in *. lia. }
    specialize (Hst q Hin). cbn [fst snd] in *. congruence. }
  rewrite E. clear. induction (space_mappings top) as [|pf l IH]; [done|]. cbn. by rewrite IH.
Qed.

(** The thread of a program. *)
Definition program_thread (ring3 : Z) (args : list Z) (e : Z) (segs : list segment) (l4 p : Z) : Thread :=
  isolated p ring3 l4 (Some (e, args_page segs - 16, args_page segs, Z.of_nat (length args))).

(** What [spawn_elf] leaves behind. *)
Record started (spaces : Z -> gmap nat (ptree 3)) k s (ring3 : Z) (args : list Z) (e : Z) (segs : list segment) (l4 p : Z) (id : ThreadId) (g : Z)
    (q : ReadyQueue) (spaces' : Z -> gmap nat (ptree 3)) k' : Prop := {
  st_inv : kernel_inv spaces' k' (registered s id (program_thread ring3 args e segs l4 p) (g + 1) q);
  st_generation : slot_generations s !! id = Some g /\ 0 <= g < 2 ^ 56 - 1;
  st_queue : ready_list q = ready_list (ready_queue s) ++ [id];
  st_image : program_image (phys k') l4 segs args;
  st_frames : owned spaces' (Some (program_thread ring3 args e segs l4 p)) ++ fa_avail (frames k') ≡ₚ fa_avail (frames k);
  st_registers : cr3 k' = cr3 k /\ rsp0 k' = rsp0 k /\ interrupts_enabled k' = interrupts_enabled k;
}.

(** The stack pages are not mapped in the space of the program. *)
Lemma stack_not_mapped top pages segs args p q :
  p mod PAGE_SIZE = 0 -> 0 <= p -> p + STACK_SIZE < 2 ^ 47 ->
  (forall r, r mod PAGE_SIZE = 0 -> 0 <= r < 2 ^ 47 -> is_Some (space_lookup top r) -> r ∈ lp_page <$> pages) ->
  program_pages segs args pages -> q ∈ stack_pages p ->
  q ∉ stack_page segs :: args_page segs :: (segs ≫= segment_page_list) -> space_lookup top q = None.
Proof.
  intros Hp H0 Hlt Hmap (_ & _ & _ & Hpp) Hq Hn. destruct (space_lookup top q) eqn:El; [exfalso|done]. apply Hn.
  destruct (stack_pages_aligned p Hp ltac:(unfold STACK_SIZE in *; lia)) as (_ & _ & _ & Hb).
  destruct (Hb q Hq) as [Hm Hr].
  assert (Hin : q ∈ lp_page <$> pages) by (apply Hmap; [done|lia|eauto]).
  apply list_elem_of_fmap in Hin as (lp & -> & Hlp). by apply Hpp.
Qed.

Lemma program_loaded spaces k s data args e segs l4 rest p h id pmo frame_of :
  program_ok spaces k s data args e segs l4 rest p h id pmo frame_of ->
  exists m1 a1 top pages,
    load data (cr3 k) pmo args (phys k, frames k) = Ok (Some (mkLoadedElf l4 e (args_page segs - 16) (args_page segs)
      (Z.of_nat (length args))), (m1, a1)) /\
    loading l4 [0%nat; va_index 4 pmo] (l4 :: rest) (phys k) m1 a1 top pages /\ program_pages segs args pages /\
    kernel_inv spaces (set_memory m1 a1 k) s /\
    new_space_ok spaces (set_memory m1 a1 k) s l4 (cr3 k) p pmo top frame_of /\
    freed_space (p, p + STACK_SIZE) l4 top ≡ₚ space_tables l4 top ++ (space_mappings top).*2.
Proof.
  intros [HK P1 P2 [P3 P4] P5 P6 [P7 P8] P9 P10 P11 P12 P13 P14 P15].
  destruct (heap_alloc_some (heap k) STACK_SIZE 4096 p h (ki_heap _ _ _ HK) ltac:(done) P12)
    as (_ & _ & Hal & Hpos & Htop & _).
  destruct (ki_accounts _ _ _ HK) as [Hnd Hok]. rewrite P9 in *.
  assert (Hnd' := Hnd). apply NoDup_app in Hnd' as (_ & _ & Hnd').
  assert (Hok' := Hok). apply Forall_app in Hok' as [_ Hok'].
  destruct (load_loads data args e segs (phys k) (cr3 k) pmo (frames k) l4 rest) as (m1 & a1 & top & pages & E & Hld & Hpp & Hc);
    [done..|apply HK|done|apply HK|done|done|done|done|lia|]. rewrite P9 in Hld.
  assert (Htot := ld_total _ _ _ _ _ _ _ _ Hld). assert (Hmap := ld_mapped _ _ _ _ _ _ _ _ Hld).
  assert (Hsub : fa_avail a1 ⊆+ l4 :: rest) by (rewrite <- Htot, app_assoc; by apply submseteq_inserts_l).
  assert (Hx : forall x, ~ in_frames (l4 :: rest) x -> m1 x = phys k x) by apply Hld.
  assert (Hfr : freed_space (p, p + STACK_SIZE) l4 top ≡ₚ space_tables l4 top ++ (space_mappings top).*2).
  { apply unborrowed_freed; [done|lia|done|]. intros q Hq. destruct (P15 q Hq) as (_ & Q2 & _).
    by apply (stack_not_mapped top pages segs args p); [|lia|..]. }
  exists m1, a1, top, pages. split_and!; [done|done|done| | |done].
  - apply kernel_inv_memory; [done|apply Hld..|by rewrite P9|by rewrite P9].
  - assert (Hperm : freed_space (p, p + STACK_SIZE) l4 top ++ (threads s ≫= owned spaces) ++ fa_avail a1 ≡ₚ
      (threads s ≫= owned spaces) ++ l4 :: rest) by (rewrite Permutation_app_swap_app, Hfr, <- app_assoc; by rewrite Htot).
    split; [done|apply Hld|by rewrite Hperm|by rewrite Hperm| |cbn [set_memory frames]; lia].
    intros q Hq. destruct (P15 q Hq) as (Q1 & Q2 & Q3). split_and!; [done| |].
    + by apply (stack_not_mapped top pages segs args p); [|lia|..].
    + apply (kernel_maps_kept (phys k) m1 (cr3 k) (l4 :: rest)); [done|done|done|].
      intros f [Hf|Hf]%elem_of_app; rewrite <- Htot; set_solver.
Qed.

Lemma spawn_elf_starts spaces k s tramp ring3 data args e segs l4 rest p h id pmo frame_of :
  program_ok spaces k s data args e segs l4 rest p h id pmo frame_of ->
  exists g q spaces' k', spawn_elf tramp ring3 data args k = Ok (Some (pack_pid id (g + 1)), k') /\
    started spaces k s ring3 args e segs l4 p id g q spaces' k'.
Proof.
  intros Hpo. destruct (program_loaded _ _ _ _ _ _ _ _ _ _ _ _ _ _ Hpo)
    as (m1 & a1 & top & pages & E & Hld & Hpp & HK1 & Hns & Hfr).
  destruct Hpo as [HK P1 P2 _ P5 P6 [P7 P8] P9 P10 P11 P12 P13 P14 P15].
  assert (P14' : Forall (fun g => 0 <= g < U64_MAX) (slot_generations s)).
  { eapply Forall_impl; [exact P14|]. cbn. unfold U64_MAX. lia. }
  destruct (spawn_isolated_ok spaces _ s tramp ring3 (Some (e, args_page segs - 16, args_page segs, Z.of_nat (length args)))
    l4 (cr3 k) p h id pmo top frame_of HK1 P12 P13 P14' Hns)
    as (g & q & k' & top' & Eg & Es & HK' & Hq & Hsh & R1 & R2 & R3 & R4 & _ & _).
  exists g, q, (space_insert l4 top' spaces), k'. split.
  { unfold spawn_elf. rewrite P7. cbn [expect mbind outcome_bind]. rewrite E. cbn [mbind outcome_bind].
    unfold spawn_user. cbn [Elf.entry stack_top args_ptr args_len Elf.page_table].
    change (cr3 (set_memory m1 a1 k)) with (cr3 k). by rewrite Es. }
  assert (Htot := ld_total _ _ _ _ _ _ _ _ Hld). destruct (ki_accounts _ _ _ HK) as [Hnd Hok]. rewrite P9 in *.
  apply NoDup_app in Hnd as (_ & _ & Hnd). apply Forall_app in Hok as [_ Hok].
  split; try done.
  - split; [done|]. by apply (Forall_lookup_1 _ _ _ _ P14 Eg).
  - apply (image_program l4 [0%nat; va_index 4 pmo] (phys k') top' pages); [|done].
    eapply (image_kept m1 a1 l4 [0%nat; va_index 4 pmo] top _ _ _ _ _ _ pages); [by eapply loading_image|exact Hsh| | |].
    + intros lp Hlp. rewrite elem_of_reverse. intros Hin. apply (proj1 (proj2 (P15 _ Hin))). by apply Hpp.
    + by rewrite Htot.
    + by rewrite Htot.
  - assert (Eo : owned (space_insert l4 top' spaces) (Some (program_thread ring3 args e segs l4 p)) =
      freed_space (p, p + STACK_SIZE) l4 top').
    { unfold owned, space_insert. cbn [program_thread isolated Threads.page_table]. rewrite decide_True by done. done. }
    rewrite Eo, P9, (sh_total _ _ _ _ _ _ _ _ _ _ _ Hsh), Hfr, <- app_assoc. exact Htot.
Qed.

Lemma started_running spaces k s ring3 args e segs l4 p id g q spaces' k' :
  sched_inv s -> position_none (threads s) = Some id -> running k s ->
  started spaces k s ring3 args e segs l4 p id g q spaces' k' ->
  running k' (registered s id (program_thread ring3 args e segs l4 p) (g + 1) q).
Proof.
  intros Hs Hp (t & Ht & Hc & Hr) [_ _ _ _ _ (E1 & E2 & _)].
  destruct (free_slot_not_live s id Hs Hp) as (Hni & _). exists t.
  assert (Hne : current s <> id) by (intros <-; apply Hni; unfold live_ids; set_solver).
  cbn [registered set_ready_queue set_threads set_generations threads current kernel_page_table].
  rewrite list_lookup_insert_ne, E1, E2 by done. done.
Qed.

Lemma thread_alive_slot spaces k s id g t :
  kernel_inv spaces k s -> (id < MAX_THREADS)%nat -> 0 <= g < 2 ^ 56 ->
  threads s !! id = Some (Some t) -> slot_generations s !! id = Some g ->
  thread_alive (pack_pid id g) k = Ok (true, k).
Proof.
  intros HK Hid Hg Ht Hgen. destruct (thread_alive_ok spaces k s (pack_pid id g) HK) as ([|] & E & Hb); [done|exfalso].
  rewrite unpack_pack_pid in Hb by (done || unfold MAX_THREADS in Hid; lia).
  assert (false = true) by (apply Hb; eauto). done.
Qed.

Lemma thread_dead_slot spaces k s id g :
  kernel_inv spaces k s -> (id < MAX_THREADS)%nat -> 0 <= g < 2 ^ 56 ->
  threads s !! id = Some None -> thread_alive (pack_pid id g) k = Ok (false, k).
Proof.
  intros HK Hid Hg Ht. destruct (thread_alive_ok spaces k s (pack_pid id g) HK) as ([|] & E & Hb); [exfalso|done].
  rewrite unpack_pack_pid in Hb by (done || unfold MAX_THREADS in Hid; lia).
  destruct (proj1 Hb eq_refl) as (t & Ht' & _). cbn [fst] in Ht'. congruence.
Qed.

(** C2: the life of a process.  A well-formed program is started from its
    file; after one round of the scheduler it runs in its own address space,
    where it finds its segments, its stack and its arguments as the file and
    the caller gave them; when it has exited and the scheduler has run once
    more, every physical frame the load and the spawn took from the
    allocator is back, and its process id is dead. *)
Theorem program_lifecycle spaces k s tramp ring3 data args e segs l4 rest p h id pmo frame_of :
  program_ok spaces k s data args e segs l4 rest p h id pmo frame_of -> running k s -> zombie s = None ->
  let n := S (length (ready_list (ready_queue s))) in
  exists pid k1 k2 s2 e3 k3 e4 k4,
    spawn_elf tramp ring3 data args k = Ok (Some pid, k1) /\ thread_alive pid k1 = Ok (true, k1) /\
    turns n k1 = Ok (tt, k2) /\ scheduler k2 = Some s2 /\ current s2 = id /\ cr3 k2 = l4 /\
    program_image (phys k2) (cr3 k2) segs args /\
    exit_current_thread k2 = Ok (e3, k3) /\ schedule k3 = Ok (e4, k4) /\
    fa_avail (frames k4) ≡ₚ fa_avail (frames k) /\ thread_alive pid k4 = Ok (false, k4).
Proof.
  intros Hpo Hrun Hz n. assert (Hs := ki_sched _ _ _ (po_inv _ _ _ _ _ _ _ _ _ _ _ _ _ _ Hpo)).
  assert (Hslot := po_slot _ _ _ _ _ _ _ _ _ _ _ _ _ _ Hpo).
  destruct (free_slot_not_live s id Hs Hslot) as (_ & Hid0 & Hidlt & _).
  destruct (spawn_elf_starts spaces k s tramp ring3 data args e segs l4 rest p h id pmo frame_of Hpo)
    as (g & q & sp1 & k1 & E1 & Hst).
  assert (Hrun1 := started_running _ _ _ _ _ _ _ _ _ _ _ _ _ _ Hs Hslot Hrun Hst).
  destruct Hst as [HK1 [Hg Hgb] Hq Him Hfr _].
  set (t := program_thread ring3 args e segs l4 p) in *. set (s1 := registered s id t (g + 1) q) in *.
  assert (Ht1 : threads s1 !! id = Some (Some t)) by (apply list_lookup_insert_eq; by rewrite (si_threads s Hs)).
  assert (Hg1 : slot_generations s1 !! id = Some (g + 1)) by (apply list_lookup_insert_eq; by rewrite (si_generations s Hs)).
  destruct (turns_quiet sp1 k1 s1 n HK1 Hrun1 Hz) as (k2 & s2 & E2 & HK2 & Hrun2 & Ho2 & Hz2 & Hs2 & Hg2 & Hf2 & Hp2 & _).
  { cbn [s1 registered set_ready_queue ready_queue length]. rewrite Hq, length_app. cbn [length]. unfold n. lia. }
  assert (Hcur : current s2 = id).
  { cbn [s1 registered set_ready_queue ready_queue current set_threads set_generations] in Ho2. rewrite Hq in Ho2.
    unfold n in Ho2. cbn [drop take] in Ho2. rewrite drop_app_length in Ho2. by injection Ho2. }
  destruct (similar_lookup _ _ _ _ Hs2 Ht1) as (t2 & Ht2 & Hres). assert (Hpt : Threads.page_table t2 = Some l4) by apply Hres.
  destruct (exit_reclaims sp1 k2 s2 t2 HK2 Hz2) as (e3 & k3 & e4 & k4 & s4 & E3 & E4 & HK4 & _ & _ & Hn4 & Hf4 & _);
    [by rewrite Hcur|by rewrite Hcur|].
  assert (Hcr : cr3 k2 = l4).
  { destruct Hrun2 as (u & Hu & Hc & _). rewrite Hcur, Ht2 in Hu. injection Hu as <-. by rewrite Hc, Hpt. }
  assert (Eo : owned sp1 (Some t2) = owned sp1 (Some t)).
  { unfold owned, stack_range. destruct Hres as ( -> & -> & -> & _). done. }
  exists (pack_pid id (g + 1)), k1, k2, s2, e3, k3, e4, k4. rewrite Hcr, Hp2. rewrite Hcur in Hn4. split_and!; try done.
  - by apply (thread_alive_slot sp1 k1 s1 id (g + 1) t); [|done|lia|..].
  - apply HK2.
  - by rewrite Hf4, Eo, Hf2, reverse_Permutation.
  - by apply (thread_dead_slot sp1 k4 s4 id (g + 1)); [|done|lia|].
Qed.
End Life.

(** ** A concrete program *)

Section Sample.
#[local] Existing Instance x86_crate.
#[local] Existing Instance ref_mapper.

Definition kernel_maps_b (m : mem) (kt : Z) (fs : list Z) (page f : Z) : bool :=
  match leaf_entry m kt (hw_indexes 4 page) with
  | Some e => (f =? Z.land e ADDR_MASK) && forallb (fun t =>
      (t mod PAGE_SIZE =? 0) && (0 <=? t) && (t <? 2 ^ 52) && bool_decide (t ∉ fs)) (walk_tables m kt (hw_indexes 4 page))
  | None => false
  end.

Lemma kernel_maps_b_true m kt fs page f : kernel_maps_b m kt fs page f = true -> kernel_maps m kt fs page f.
Proof.
  unfold kernel_maps_b, kernel_maps. destruct (leaf_entry _ _ _) as [e|]; [|done].
  rewrite andb_true_iff. intros [Hf%Z.eqb_eq Hw]. exists e. split_and!; [done|done|].
  apply Forall_forall. intros t Ht%list_elem_of_In. rewrite forallb_forall in Hw. specialize (Hw t Ht).
  rewrite !andb_true_iff, bool_decide_eq_true in Hw. unfold frame_ok. split; [lia|tauto].
Qed.

(** The kernel's tables, with the pages of the heap mapped to the frames
    from 2 MiB. *)
Definition sample_phys : mem :=
  foldl (fun m j => set_table_entry m 0x16000 (64 + j) (0x200000 + 4096 * Z.of_nat j + 3))
    (set_table_entry (set_table_entry (set_table_entry sample_kernel_tables 0x11000 136 0x14003)
      0x14000 273 0x15003) 0x15000 34 0x16003) (seq 0 64).

Lemma sample_phys_ok : mem_ok sample_phys.
Proof.
  assert (Hf : forall l m, mem_ok m ->
    mem_ok (foldl (fun m j => set_table_entry m 0x16000 (64 + j) (0x200000 + 4096 * Z.of_nat j + 3)) m l)).
  { induction l as [|j l IH]; intros m Hm; [done|]. cbn [foldl]. by apply IH, mem_ok_set_table_entry. }
  apply Hf. do 3 apply mem_ok_set_table_entry. apply sample_kernel_tables_ok.
Qed.

Definition sample_stack : Z := 0x444444441000.
Definition sample_frame_of (q : Z) : Z := 0x200000 + (q - 0x444444440000).

Lemma sample_stack_mapped q :
  q ∈ stack_pages sample_stack ->
  hw_index 4 q ∉ [0%nat; va_index 4 (3 * 2 ^ 39)] /\
  q ∉ [0x600000002000; 0x600000003000; 0x600000000000] /\
  kernel_maps sample_phys 0x11000 (0x100000 :: stride 0x101000 4096 255) q (sample_frame_of q).
Proof.
  assert (Hall : forallb (fun q => bool_decide (hw_index 4 q ∉ [0%nat; va_index 4 (3 * 2 ^ 39)]) &&
      bool_decide (q ∉ [0x600000002000; 0x600000003000; 0x600000000000]) &&
      kernel_maps_b sample_phys 0x11000 (0x100000 :: stride 0x101000 4096 255) q (sample_frame_of q))
    (stack_pages sample_stack) = true) by (vm_compute; reflexivity).
  intros Hq%list_elem_of_In. rewrite forallb_forall in Hall. specialize (Hall q Hq).
  rewrite !andb_true_iff, !bool_decide_eq_true in Hall. destruct Hall as [[H1 H2] H3%kernel_maps_b_true]. done.
Qed.

Lemma sample_program_ok :
  program_ok (fun _ => ∅) (sample_started sample_phys sample_ram) (boot_state 0x11000) sample_program [7; 8]
    0x600000000000 [mkSegment [0xeb; 0xfe] 0x600000000000 0x20 false] 0x100000 (stride 0x101000 4096 255)
    sample_stack (mkBumpHeap 0x444444451000 [(sample_stack, STACK_SIZE)]) 1 (3 * 2 ^ 39) sample_frame_of.
Proof.
  destruct sample_ram_lawful as [Hi Hav], sample_ram_frames as [Hnd Hok], sample_program_parses as (P1 & P2 & P3).
  destruct (sample_started_ok (fun _ => ∅) sample_phys sample_ram sample_phys_ok sample_ram_ok Hnd Hok) as (_ & HK & _).
  split.
  - exact HK.
  - exact P1.
  - exact P2.
  - split; [exact P3|]. apply Forall_forall. intros b Hin. set_unfold. unfold is_u8. destruct Hin as [ -> | [ -> | [] ] ]; lia.
  - lia.
  - apply sample_program_layout.
  - split; [reflexivity|]. unfold canonical. lia.
  - exact Hav.
  - unfold frames_apart, PAGE_SIZE. cbn. lia.
  - vm_compute. lia.
  - vm_compute. reflexivity.
  - reflexivity.
  - by repeat constructor.
  - apply sample_stack_mapped.
Qed.

Lemma program_lifecycle_witness :
  exists pid k1 k2 s2 e3 k3 e4 k4,
    spawn_elf 0x10000 0x20000 sample_program [7; 8] (sample_started sample_phys sample_ram) = Ok (Some pid, k1) /\
    turns 1 k1 = Ok (tt, k2) /\ scheduler k2 = Some s2 /\ current s2 = 1%nat /\
    exit_current_thread k2 = Ok (e3, k3) /\ schedule k3 = Ok (e4, k4) /\
    fa_avail (frames k4) ≡ₚ 0x100000 :: stride 0x101000 4096 255.
Proof.
  destruct (program_lifecycle (fun _ => ∅) (sample_started sample_phys sample_ram) (boot_state 0x11000) 0x10000 0x20000
    sample_program [7; 8] 0x600000000000 [mkSegment [0xeb; 0xfe] 0x600000000000 0x20 false] 0x100000
    (stride 0x101000 4096 255) sample_stack (mkBumpHeap 0x444444451000 [(sample_stack, STACK_SIZE)]) 1 (3 * 2 ^ 39)
    sample_frame_of) as (pid & k1 & k2 & s2 & e3 & k3 & e4 & k4 & E1 & _ & E2 & S2 & C2 & _ & _ & E3 & E4 & Hf & _).
  - apply sample_program_ok.
  - apply (sample_started_ok (fun _ => ∅) sample_phys sample_ram);
      [apply sample_phys_ok|apply sample_ram_ok|apply sample_ram_frames|apply sample_ram_frames].
  - done.
  - exists pid, k1, k2, s2, e3, k3, e4, k4. split_and!; done.
Defined.
End Sample.
