(* ===== verification/Lifecycle.v ===== *)
(** * The reclamation loops of the boot sequence (src/main.rs)

    [kernel_main] starts 40 threads that exit at once through a table of 16
    slots, then 20 threads with an address space each.  Both loops are proved
    to run to their end for any number of rounds, and to give back what they
    take. *)

From S2P Require Import Prelude Ring X86 Asm FrameAlloc Paging AddressSpace Mapper MapperRef Mappings ElfThms.
From S2P Require Import Threads Scheduler SchedulerInv SpawnInv SpawnIsolated SchedulerThms Process.

Section Rounds.
Context {crate : X86Crate} {mapper : PageMapper} {H : Type} {kheap : KernelHeap H}.
Implicit Types (k : Kernel H) (s : SchedulerState) (t : Thread) (id : ThreadId).
Local Abbreviation K := (M (Kernel H)).

Definition yield_now : K (option Z) := schedule.

(** The bodies of the two kinds of threads. *)
Definition exit_demo_thread : K (option Z) := exit_current_thread.
Definition isolated_exit_demo_thread : K (option Z) := exit_current_thread.

(** The new thread runs when [yield_now] switches to it: its trampoline
    calls the entry point it was spawned with. *)
Definition yield_to (entry : Z) (body : K (option Z)) : K unit :=
  entered ← yield_now;
  if decide (entered = Some entry) then _ ← body; mret tt else mret tt.

Definition exit_demo_round (thread_trampoline entry : Z) : K unit :=
  _ ← spawn thread_trampoline entry;
  yield_to entry exit_demo_thread.

Fixpoint exit_demo_loop (n : nat) (thread_trampoline entry : Z) : K unit :=
  match n with
  | O => mret tt
  | S n' => _ ← exit_demo_round thread_trampoline entry; exit_demo_loop n' thread_trampoline entry
  end.

(** ** One thread that is entered and exits *)

(** Only the boot thread is left: it runs, no other one is ready. *)
Record alone spaces k s : Prop := {
  al_inv : kernel_inv spaces k s;
  al_boot : current s = 0%nat;
  al_queue : ready_list (ready_queue s) = [];
  al_running : running k s;
}.

Lemma position_none_all (ts : list (option Thread)) : position_none ts = None -> Forall is_Some ts.
Proof.
  induction ts as [|[t|] ts IH]; cbn [position_none]; intros E; [constructor| |done].
  constructor; [eauto|]. apply IH. by destruct (position_none ts).
Qed.

(** A thread is missing from a table that knows of fewer threads than it
    has slots. *)
Lemma free_slot_exists s : sched_inv s -> (length (live_ids s) < MAX_THREADS)%nat -> is_Some (position_none (threads s)).
Proof.
  intros Hs Hl. destruct (position_none (threads s)) as [id|] eqn:E; [eauto|exfalso].
  apply position_none_all in E. rewrite Forall_lookup in E.
  assert (Hsub : seq 0 MAX_THREADS ⊆+ live_ids s).
  { apply NoDup_submseteq; [apply NoDup_seq|]. intros i Hi. apply elem_of_seq in Hi. apply (si_live s Hs).
    destruct (lookup_lt_is_Some_2 (threads s) i) as [o Ho]; [rewrite (si_threads s Hs); lia|].
    destruct (E i o Ho) as [t ->]. eauto. }
  apply submseteq_length in Hsub. rewrite length_seq in Hsub. lia.
Qed.

Lemma alone_slot spaces k s : alone spaces k s -> is_Some (position_none (threads s)).
Proof.
  intros [HK Hb Hq _]. apply free_slot_exists; [apply HK|]. unfold live_ids. rewrite Hq, app_nil_r.
  destruct (zombie s); cbn; unfold MAX_THREADS; lia.
Qed.

(** The heap after the stack of the zombie was given back. *)
Definition reaped_heap s (h : H) : H :=
  match zombie_stack s with Some (base, size) => heap_dealloc base size 4096 h | None => h end.

(** The new thread [id] runs: the boot thread yielded to it, and the zombie
    there was is gone. *)
Record entered spaces k s id t k' s' : Prop := {
  en_inv : kernel_inv spaces k' s';
  en_current : current s' = id;
  en_queue : ready_list (ready_queue s') = [0%nat];
  en_zombie : zombie s' = None;
  en_running : running k' s';
  en_thread : exists t', threads s' !! id = Some (Some t') /\ same_resources t t';
  en_generations : slot_generations s' = slot_generations s;
  en_frames : fa_avail (frames k') = reverse (zombie_frames spaces s) ++ fa_avail (frames k);
  en_phys : phys k' = phys k;
  en_heap : heap k' = reaped_heap s (heap k);
  en_kernel_table : kernel_page_table s' = kernel_page_table s;
  en_pmo : physical_memory_offset k' = physical_memory_offset k;
}.

Lemma yield_enters spaces k s id t e :
  kernel_inv spaces k s -> current s = 0%nat -> ready_list (ready_queue s) = [id] ->
  threads s !! id = Some (Some t) -> entry t = Some e -> suspended k !! id = Some AtTrampoline ->
  exists k' s', yield_now k = Ok (Some e, k') /\ entered spaces k s id t k' s' /\ id <> 0%nat.
Proof.
  intros HK Hb Hq Ht He Hsu. assert (Hs := ki_sched _ _ _ HK).
  destruct (reap_zombie_reaps spaces k s HK) as (k1 & E1 & [HK1 Hav (_ & _ & _ & S4 & _ & S6 & S7) _ Hh]).
  destruct (reaped_same s) as (R1 & R2 & R3 & R4 & R5).
  destruct (schedule_body_rotates spaces k1 (reaped s) id [] HK1) as (e1 & k2 & s2 & E2 & HK2 & Hro); [by rewrite R2|].
  assert (Hl : id ∈ current s :: ready_list (ready_queue s)) by (rewrite Hq; set_solver).
  assert (Ht1 := proj2 (reaped_lookup s id t Hs Hl) Ht).
  destruct Hro as [O1 O2 O3 O4 O5 O6 O7 _ _ _ _ O8 (_ & O9 & O10 & O11 & O12)].
  rewrite S4, Hsu, Ht1 in O8. cbn [mjoin option_join mbind option_bind] in O8.
  exists k2, s2. split_and!.
  - unfold yield_now, schedule, mbind, M_bind. by rewrite E1, E2, O8, He.
  - split; [done|done|by rewrite O2, R1, Hb|by rewrite O4|done| |congruence|by rewrite O10|congruence|by rewrite O11|congruence|congruence].
    by apply (similar_lookup (threads (reaped s))).
  - intros ->. assert (Hnd := si_nodup s Hs). unfold live_ids in Hnd. rewrite Hb, Hq in Hnd.
    apply NoDup_cons in Hnd as [Hnd _]. set_solver.
Qed.

(** What a thread may do before it exits: its memory and its files. *)
Record worked id k s k' s' : Prop := {
  wk_current : current s' = current s;
  wk_queue : ready_queue s' = ready_queue s;
  wk_zombie : zombie s' = zombie s;
  wk_thread t : threads s !! id = Some (Some t) -> exists t', threads s' !! id = Some (Some t') /\
    stack_base t' = stack_base t /\ stack_size t' = stack_size t /\ page_table t' = page_table t;
  wk_generations : slot_generations s' = slot_generations s;
  wk_frames : frames k' = frames k;
  wk_heap : heap k' = heap k;
  wk_kernel_table : kernel_page_table s' = kernel_page_table s;
  wk_pmo : physical_memory_offset k' = physical_memory_offset k;
}.

Lemma worked_refl id k s : worked id k s k s.
Proof. split; try done. intros t Ht. by exists t. Qed.

(** The new thread [id] was entered and has exited: it is the zombie, and
    the one before it is gone. *)
Record entered_and_exited spaces k s id t k' s' : Prop := {
  ee_alone : alone spaces k' s';
  ee_zombie : zombie s' = Some id;
  ee_stack : zombie_stack s' = Some (stack_base t, stack_size t);
  ee_owned : zombie_frames spaces s' = owned spaces (Some t);
  ee_generations : slot_generations s' = slot_generations s;
  ee_frames : fa_avail (frames k') = reverse (zombie_frames spaces s) ++ fa_avail (frames k);
  ee_heap : heap k' = reaped_heap s (heap k);
  ee_cr3 : cr3 k' = kernel_page_table s';
  ee_kernel_table : kernel_page_table s' = kernel_page_table s;
  ee_pmo : physical_memory_offset k' = physical_memory_offset k;
}.

Lemma entered_exits spaces k s id t k1 s1 k2 s2 : id <> 0%nat ->
  entered spaces k s id t k1 s1 -> worked id k1 s1 k2 s2 -> kernel_inv spaces k2 s2 ->
  exists e k' s', exit_current_thread k2 = Ok (e, k') /\ entered_and_exited spaces k s id t k' s' /\ phys k' = phys k2.
Proof.
  intros Hid [N1 N2 N3 N4 N5 (t1 & N6 & Hres) N7 N8 _ N10 N11 N12] [W1 W2 W3 W4 W5 W6 W7 W8 W9] HK2.
  destruct (exit_body_exits spaces k2 s2 0%nat [] HK2) as (e3 & k3 & s3 & E3 & HK3 & Hx & F1 & F2 & F3 & F4);
    [by rewrite W3|by rewrite W1, N2|by rewrite W2|].
  destruct Hx as [X1 X2 X3 X4 X5 X6 X7]. destruct (W4 t1 N6) as (t2 & Ht2 & B1 & B2 & B3).
  destruct (similar_lookup _ _ _ _ X4 Ht2) as (t3 & Ht3 & (C1 & C2 & C3 & _)). destruct Hres as (D1 & D2 & D3 & _).
  rewrite W1, N2 in X3. exists e3, k3, s3. split_and!; [| |done].
  - unfold exit_current_thread, mbind, M_bind. rewrite (reap_zombie_none k2 s2) by (apply HK2 || by rewrite W3). by rewrite E3.
  - split; [by split|done| | |congruence|by rewrite F1, W6|by rewrite F2, W7| |congruence|congruence].
    + unfold zombie_stack. rewrite X3. cbn [mbind option_bind]. rewrite Ht3. cbn [mjoin option_join mbind option_bind].
      by rewrite C1, C2, B1, B2, D1, D2.
    + unfold zombie_frames. rewrite X3. cbn [mbind option_bind]. rewrite Ht3. unfold owned, stack_range.
      by rewrite C1, C2, C3, B1, B2, B3, D1, D2, D3.
    + assert (Hs3 := ki_sched _ _ _ HK3). by apply running_boot_cr3.
Qed.

Lemma yield_to_exits spaces k s id t e :
  kernel_inv spaces k s -> current s = 0%nat -> ready_list (ready_queue s) = [id] ->
  threads s !! id = Some (Some t) -> entry t = Some e -> suspended k !! id = Some AtTrampoline ->
  exists k' s', yield_to e exit_current_thread k = Ok (tt, k') /\ entered_and_exited spaces k s id t k' s' /\ phys k' = phys k.
Proof.
  intros HK Hb Hq Ht He Hsu. destruct (yield_enters spaces k s id t e HK Hb Hq Ht He Hsu) as (k1 & s1 & E1 & Hen & Hid).
  destruct (entered_exits spaces k s id t k1 s1 k1 s1 Hid Hen (worked_refl _ _ _) (en_inv _ _ _ _ _ _ _ Hen)) as (e2 & k2 & s2 & E2 & Hee & Hp).
  exists k2, s2. split_and!; [|done|by rewrite Hp, (en_phys _ _ _ _ _ _ _ Hen)].
  unfold yield_to, mbind, M_bind. rewrite E1, decide_True by done. by rewrite E2.
Qed.

(** ** The loop of kernel threads *)

(** The heap can serve [n] rounds: a stack is allocated, where [inside]
    says, then the one of the round before is freed.  No more than two are
    in use at a time. *)
Fixpoint stacks_fit (inside : Z -> bool) (n : nat) (previous : option (Z * Z)) (h : H) : bool :=
  match n with
  | O => true
  | S n' =>
      match heap_alloc STACK_SIZE 4096 h with
      | (Some p, h') =>
          inside p && stacks_fit inside n' (Some (p, STACK_SIZE))
            (match previous with Some (base, size) => heap_dealloc base size 4096 h' | None => h' end)
      | (None, _) => false
      end
  end.

(** The blocks of the heap besides the stack of the zombie. *)
Definition other_blocks k s (blocks : list (Z * Z)) : Prop := heap_live (heap k) ≡ₚ option_list (zombie_stack s) ++ blocks.

Lemma reaped_heap_blocks k s h b blocks :
  heap_inv h -> other_blocks k s blocks -> heap_live h = b :: heap_live (heap k) ->
  heap_live (reaped_heap s h) ≡ₚ b :: blocks.
Proof.
  intros Hi Ho Hl. unfold other_blocks in Ho. unfold reaped_heap. destruct (zombie_stack s) as [[base size]|].
  - destruct (heap_dealloc_ok h base size 4096 Hi) as [_ Hd].
    { rewrite Hl, Ho. cbn. right. by left. }
    apply (Permutation_cons_inv (a := (base, size))). rewrite <- Hd, Hl, Ho. apply perm_swap.
  - rewrite Hl, Ho. done.
Qed.

(** With nobody else to run, [yield_now] only reaps. *)
Lemma alone_yields spaces k s blocks :
  alone spaces k s -> other_blocks k s blocks ->
  let s' := reaped s in
  exists k', yield_now k = Ok (None, k') /\ alone spaces k' s' /\ live_ids s' = [0%nat] /\ heap_live (heap k') ≡ₚ blocks /\
    fa_avail (frames k') = reverse (zombie_frames spaces s) ++ fa_avail (frames k) /\ phys k' = phys k /\
    physical_memory_offset k' = physical_memory_offset k /\ heap k' = reaped_heap s (heap k).
Proof.
  intros [HK Hb Hq Hr] Ho s'. assert (Hs := ki_sched _ _ _ HK). subst s'.
  destruct (reap_zombie_reaps spaces k s HK) as (k1 & E1 & [HK1 Hav (_ & _ & _ & _ & _ & S6 & S7) Hcr Hh]).
  destruct (reaped_same s) as (R1 & R2 & R3 & R4 & R5).
  exists k1. split_and!; [| | | |done|done|done|done].
  - unfold yield_now, schedule, mbind, M_bind. rewrite E1. apply (schedule_body_empty spaces k1 (reaped s) HK1). by rewrite R2.
  - split; [done|congruence|by rewrite R2|]. apply boot_running; [apply HK1|congruence|]. rewrite Hcr, R4.
    destruct (zombie s); [done|]. by apply running_boot_cr3.
  - unfold live_ids. by rewrite R1, R2, R3, Hb, Hq.
  - rewrite Hh. unfold other_blocks in Ho. destruct (zombie_stack s) as [[base size]|]; [|done].
    destruct (heap_dealloc_ok (heap k) base size 4096 (ki_heap _ _ _ HK)) as [_ Hd]; [rewrite Ho; by left|].
    apply (Permutation_cons_inv (a := (base, size))). by rewrite <- Hd, Ho.
Qed.

Lemma exit_demo_round_ok spaces k s tramp e p h blocks :
  alone spaces k s -> heap_alloc STACK_SIZE 4096 (heap k) = (Some p, h) ->
  Forall (fun g => 0 <= g < U64_MAX) (slot_generations s) -> other_blocks k s blocks ->
  exists k' s' id g, exit_demo_round tramp e k = Ok (tt, k') /\ alone spaces k' s' /\
    zombie_stack s' = Some (p, STACK_SIZE) /\ zombie_frames spaces s' = [] /\ other_blocks k' s' blocks /\
    slot_generations s !! id = Some g /\ slot_generations s' = <[id := g + 1]> (slot_generations s) /\
    fa_avail (frames k') = reverse (zombie_frames spaces s) ++ fa_avail (frames k) /\
    phys k' = phys k /\ heap k' = reaped_heap s h.
Proof.
  intros Ha Ea Hg Hob. destruct (alone_slot spaces k s Ha) as [id Hp]. destruct Ha as [HK Hb Hq Hr].
  assert (Hs := ki_sched _ _ _ HK). destruct (free_slot_not_live s id Hs Hp) as (Hni & H0 & Hlt & Hn).
  destruct (spawn_ok spaces k s tramp e p h id HK Ea Hp Hg)
    as (k1 & g & q & E1 & Eg & HK1 & Hql & C1 & C2 & C3 & C4 & _ & C5 & C6).
  rewrite Hq in Hql. cbn [app] in Hql. set (s1 := registered s id (spawned p e) (g + 1) q) in *.
  destruct (yield_to_exits spaces k1 s1 id (spawned p e) e HK1 Hb Hql) as (k2 & s2 & E2 & Hee & A7).
  { apply list_lookup_insert_eq. by rewrite (si_threads s Hs). }
  { done. }
  { rewrite C6. apply list_lookup_insert_eq. by rewrite (ki_suspended _ _ _ HK). }
  destruct Hee as [A1 A2 A3 A4 A5 A6 A8 A9 A10 _].
  destruct (heap_alloc_some (heap k) STACK_SIZE 4096 p h (ki_heap _ _ _ HK) ltac:(done) Ea) as (Hh & Hlive & _).
  assert (Hrl : zombie_frames spaces s1 = zombie_frames spaces s /\ reaped_heap s1 = reaped_heap s).
  { unfold zombie_frames, reaped_heap, zombie_stack.
    cbn [s1 registered set_ready_queue set_threads set_generations zombie threads]. destruct (zombie s) as [z|] eqn:Ez; [|done].
    cbn [mbind option_bind]. rewrite list_lookup_insert_ne; [done|]. intros ->. apply Hni. unfold live_ids. rewrite Ez. set_solver. }
  destruct Hrl as [Hr1 Hr2]. exists k2, s2, id, g.
  split_and!; [|done|done|done| |done|done|by rewrite A6, Hr1, C3|congruence|by rewrite A8, Hr2, C5].
  - unfold exit_demo_round, exit_demo_thread, mbind, M_bind. by rewrite E1.
  - unfold other_blocks. rewrite A3, A8, Hr2, C5. apply (reaped_heap_blocks k s); [done|done|]. by rewrite Hlive.
Qed.

Lemma generations_bumped n (gs : list Z) id g :
  Forall (fun g => 0 <= g < U64_MAX - Z.of_nat (S n)) gs -> gs !! id = Some g ->
  Forall (fun g => 0 <= g < U64_MAX - Z.of_nat n) (<[id := g + 1]> gs).
Proof.
  intros Hg Hi. apply Forall_insert; [eapply Forall_impl; [exact Hg|]; cbn beta; lia|].
  apply (Forall_lookup_1 _ _ _ _ Hg) in Hi. cbn beta in Hi. lia.
Qed.

Lemma exit_demo_loop_ok spaces tramp e blocks n : forall k s,
  alone spaces k s -> zombie_frames spaces s = [] -> stacks_fit (fun _ => true) n (zombie_stack s) (heap k) = true ->
  Forall (fun g => 0 <= g < U64_MAX - Z.of_nat n) (slot_generations s) -> other_blocks k s blocks ->
  exists k' s', exit_demo_loop n tramp e k = Ok (tt, k') /\ alone spaces k' s' /\ zombie_frames spaces s' = [] /\
    other_blocks k' s' blocks /\ fa_avail (frames k') = fa_avail (frames k) /\ phys k' = phys k.
Proof.
  induction n as [|n IH]; intros k s Ha Hz Hf Hg Hb.
  { by exists k, s. }
  cbn [stacks_fit] in Hf. destruct (heap_alloc STACK_SIZE 4096 (heap k)) as [[p|] h] eqn:Ea; [|done].
  destruct (exit_demo_round_ok spaces k s tramp e p h blocks Ha Ea) as (k1 & s1 & id & g & E1 & Ha1 & S1 & S2 & S3 & Eg & S4 & S5 & S6 & S7);
    [eapply Forall_impl; [exact Hg|]; cbn beta; lia|done|].
  destruct (IH k1 s1 Ha1 S2) as (k2 & s2 & E2 & Ha2 & T1 & T2 & T3 & T4).
  - by rewrite S1, S7.
  - rewrite S4. by apply generations_bumped.
  - done.
  - exists k2, s2. split_and!; [|done..|by rewrite T3, S5, Hz|congruence].
    cbn [exit_demo_loop]. unfold mbind, M_bind. by rewrite E1.
Qed.

(** C12: any number of threads go through the table of 16 slots.  With only
    the boot thread alive, a loop that spawns a thread that exits, and
    yields, runs to its end for every [n], without a panic, as long as the
    heap has room for two stacks at a time and the generation counters do
    not overflow.  After the next turn of the scheduler the heap has the
    blocks it had before the loop, no frame has been taken or lost, and
    every slot but that of the boot thread is free. *)
Theorem exit_demo_loop_reclaims spaces n k s tramp e :
  alone spaces k s -> zombie s = None -> stacks_fit (fun _ => true) n None (heap k) = true ->
  Forall (fun g => 0 <= g < U64_MAX - Z.of_nat n) (slot_generations s) ->
  exists k1 r k2 s2, exit_demo_loop n tramp e k = Ok (tt, k1) /\ yield_now k1 = Ok (r, k2) /\ alone spaces k2 s2 /\
    live_ids s2 = [0%nat] /\ heap_live (heap k2) ≡ₚ heap_live (heap k) /\
    fa_avail (frames k2) = fa_avail (frames k) /\ phys k2 = phys k.
Proof.
  intros Ha Hz Hf Hg.
  destruct (exit_demo_loop_ok spaces tramp e (heap_live (heap k)) n k s) as (k1 & s1 & E1 & Ha1 & S1 & S2 & S3 & S4); try done.
  { unfold zombie_frames. by rewrite Hz. }
  { unfold zombie_stack. by rewrite Hz. }
  { unfold other_blocks, zombie_stack. by rewrite Hz. }
  destruct (alone_yields spaces k1 s1 (heap_live (heap k)) Ha1 S2) as (k2 & E2 & Ha2 & T1 & T2 & T3 & T4 & _).
  exists k1, None, k2, (reaped s1). split_and!; [done..|by rewrite T3, S1, S3|congruence].
Qed.
End Rounds.

Section Sample.
#[local] Existing Instances x86_crate ref_mapper.

Lemma exit_demo_loop_reclaims_witness : exists k1 r k2 s2,
  exit_demo_loop 40 0x10000 0x20000 (sample_started (fun _ => 0) []) = Ok (tt, k1) /\ yield_now k1 = Ok (r, k2) /\
    alone (fun _ => ∅) k2 s2 /\ live_ids s2 = [0%nat].
Proof.
  destruct (sample_started_ok (fun _ => ∅) (fun _ => 0) []) as (_ & HK & Hr); [done..|constructor|constructor|].
  destruct (exit_demo_loop_reclaims (fun _ => ∅) 40 (sample_started (fun _ => 0) []) (boot_state 0x11000) 0x10000 0x20000)
    as (k1 & r & k2 & s2 & E1 & E2 & Ha & Hl & _).
  - by split.
  - done.
  - vm_compute. reflexivity.
  - decided.
  - exact (ex_intro _ k1 (ex_intro _ r (ex_intro _ k2 (ex_intro _ s2 (conj E1 (conj E2 (conj Ha Hl))))))).
Defined.
End Sample.
