(* ===== verification/Syscall.v ===== *)
(** * System calls (src/syscall.rs)

    [dispatch] and the handlers behind [int 0x80], on the kernel state with
    the console, the keyboard's input queue and the disk.  A handler returns
    to its caller or its thread is gone: [kill_current_thread] and
    [exit_current_thread] never return. *)

From S2P Require Import Prelude Ring X86 FrameAlloc Paging Mapper Threads Scheduler Ata Fat Vga Keyboard Elf Utf8 Process.

Definition SYS_WRITE : Z := 0.
Definition SYS_READ : Z := 1.
Definition SYS_EXIT : Z := 2.
Definition SYS_OPEN : Z := 3.
Definition SYS_CLOSE : Z := 4.
Definition SYS_SPAWN : Z := 5.
Definition SYS_WAIT : Z := 6.

(** The bytes of a string literal. *)
Definition bytes_of (s : string) : list Z := (fun c => Z.of_N (Ascii.N_of_ascii c)) <$> String.list_ascii_of_string s.

(** [from_utf8] is [Ok]. *)
Definition is_utf8 (bs : list Z) : bool := if utf8_decode bs then true else false.

(** ** Accesses of ring 0

    The kernel reads and writes a user buffer through the caller's own page
    tables, at privilege level 0: the U/S bit is not checked, the R/W bit
    only if CR0.WP ([wp]) is set. *)

Definition pte_allows_kernel (wp : bool) (e : Z) (write : bool) : bool :=
  Z.testbit e 0 && (negb (write && wp) || Z.testbit e 1).

Fixpoint kernel_walk (wp : bool) (m : mem) (t : Z) (l : nat) (va : Z) (write : bool) : option Z :=
  match l with
  | O => None
  | S l' =>
      let e := table_entry m t (hw_index l va) in
      if negb (pte_allows_kernel wp e write) then None
      else match l' with
           | O => Some (Z.land e ADDR_MASK + va mod 2 ^ level_shift l)
           | S _ =>
               if Z.testbit e 7 && negb (Nat.eqb l 4)
               then Some (Z.land e ADDR_MASK - Z.land e ADDR_MASK mod 2 ^ level_shift l + va mod 2 ^ level_shift l)
               else kernel_walk wp m (Z.land e ADDR_MASK) l' va write
           end
  end.

(** A fault in ring 0 is a panic of [page_fault_handler]. *)
Definition kernel_access (wp : bool) (m : mem) (cr3 va : Z) (write : bool) : outcome Z :=
  expect (if bool_decide (canonical va) then kernel_walk wp m cr3 4 va write else None) "page fault in ring 0".

(** [copy_nonoverlapping] from and to the caller's memory. *)
Fixpoint copy_in (wp : bool) (m : mem) (cr3 ptr : Z) (n : nat) : outcome (list Z) :=
  match n with
  | O => Ok []
  | S n' =>
      p ← kernel_access wp m cr3 ptr false;
      rest ← copy_in wp m cr3 (ptr + 1) n';
      Ok (m p :: rest)
  end.

Fixpoint copy_out (wp : bool) (cr3 ptr : Z) (bs : list Z) (m : mem) : outcome mem :=
  match bs with
  | [] => Ok m
  | b :: rest =>
      p ← kernel_access wp m cr3 ptr true;
      copy_out wp cr3 (ptr + 1) rest (write_list m p [b])
  end.

(** ** The state of a system call *)

Section Syscalls.
Context {crate : X86Crate} {mapper : PageMapper} {H : Type} {kheap : KernelHeap H} {D : Type} `{!SectorDisk D}.

Record System := mkSystem { kernel : Kernel H; console : Console; input : InputQueue; disk : D }.

Definition set_kernel (k : Kernel H) (s : System) : System := mkSystem k (console s) (input s) (disk s).

(** The handler goes on with a value, or its thread is gone and the
    processor runs another one, which may be new and start at an address. *)
Inductive flow (A : Type) := Go (a : A) | Gone (start : option Z).
#[global] Arguments Go {A}. #[global] Arguments Gone {A}.

Definition Sys (A : Type) : Type := System -> outcome (flow A * System).

#[global] Instance Sys_ret : MRet Sys := fun A a s => Ok (Go a, s).
#[global] Instance Sys_bind : MBind Sys := fun A B f x s =>
  match x s with
  | Ok (Go a, s') => f a s'
  | Ok (Gone e, s') => Ok (Gone e, s')
  | Panic msg => Panic msg
  end.

Definition get {A} (f : System -> A) : Sys A := fun s => Ok (Go (f s), s).
Definition check {A} (r : outcome A) : Sys A := fun s => a ← r; Ok (Go a, s).
Definition on_kernel {A} (f : M (Kernel H) A) : Sys A := fun s =>
  '(a, k) ← f (kernel s); Ok (Go a, set_kernel k s).
Definition on_disk {A} (f : M D A) : Sys A := fun s =>
  '(a, d) ← f (disk s); Ok (Go a, mkSystem (kernel s) (console s) (input s) d).

(** [print!]: the console shares the interrupt flag. *)
Definition print (pieces : list (list Z)) : Sys unit := fun s =>
  '(_, c) ← _print pieces (set_console_interrupts (interrupts_enabled (kernel s)) (console s));
  Ok (Go tt, mkSystem (set_interrupts (console_interrupts c) (kernel s)) c (input s) (disk s)).

(** [exit_current_thread] and [kill_current_thread]. *)
Definition exit_thread {A} : Sys A := fun s =>
  '(e, k) ← exit_current_thread (kernel s); Ok (Gone e, set_kernel k s).
Definition kill_current_thread {A} (reason : string) : Sys A :=
  _ ← print [bytes_of "[proc]  thread killed: "; bytes_of reason; [10]];
  exit_thread.

(** ** Pointers of the caller *)

Variable wp : bool.

Definition user_range_ok (ptr : Z) (len : nat) (need_write : bool) : Sys bool :=
  if ptr =? 0 then mret false
  else match va_try_new ptr with
       | Some addr =>
           k ← get kernel;
           _ ← check (expect (physical_memory_offset k) "memory::set_physical_memory_offset was never called");
           check (user_range_mapped (phys k) (cr3 k) addr (Z.of_nat len) need_write)
       | None => mret false
       end.

Definition copy_from_user (ptr : Z) (len : nat) : Sys (list Z) :=
  ok ← user_range_ok ptr len false;
  _ ← (if ok : bool then mret tt else kill_current_thread "syscall argument pointer not mapped for read");
  k ← get kernel;
  check (copy_in wp (phys k) (cr3 k) ptr len).

Definition copy_to_user (ptr : Z) (bs : list Z) : Sys unit :=
  ok ← user_range_ok ptr (length bs) true;
  _ ← (if ok : bool then mret tt else kill_current_thread "syscall argument pointer not mapped for write");
  k ← get kernel;
  m ← check (copy_out wp (cr3 k) ptr bs (phys k));
  on_kernel (modify (set_memory m (frames k))).

(** A section that runs with the kernel's own page tables. *)
Definition under_kernel_table {A} (f : Sys A) : Sys A :=
  caller_page_table ← get (fun s => cr3 (kernel s));
  kernel_page_table ← on_kernel get_kernel_page_table;
  let needs_switch := negb (caller_page_table =? kernel_page_table) in
  _ ← (if needs_switch then on_kernel (modify (set_cr3 kernel_page_table)) else mret tt);
  r ← f;
  _ ← (if needs_switch then on_kernel (modify (set_cr3 caller_page_table)) else mret tt);
  mret r.

(** ** The handlers *)

Definition sys_write (fd ptr len : Z) : Sys Z :=
  if negb (fd =? 1) then mret U64_MAX
  else
    let len := Z.min len 1024 in
    staged ← copy_from_user ptr (Z.to_nat len);
    _ ← print [match utf8_decode staged with Some s => s | None => bytes_of "<sys_write: invalid utf-8>" end];
    mret len.

(** [try_pop_input_byte], up to [n] times. *)
Fixpoint pop_input (n : nat) (q : InputQueue) : outcome (list Z * InputQueue) :=
  match n with
  | O => Ok ([], q)
  | S n' =>
      '(b, q') ← pop q;
      match b with
      | Some byte => '(rest, q'') ← pop_input n' q'; Ok (byte :: rest, q'')
      | None => Ok ([], q')
      end
  end.

Definition take_input (n : nat) : Sys (list Z) := fun s =>
  '(bs, q) ← pop_input n (input s); Ok (Go bs, mkSystem (kernel s) (console s) q (disk s)).

Definition sys_read_stdin (ptr : Z) (len : nat) : Sys Z :=
  ok ← user_range_ok ptr len true;
  _ ← (if ok : bool then mret tt else kill_current_thread "sys_read: destination pointer not mapped for write");
  staged ← under_kernel_table (take_input len);
  _ ← (if (0 <? length staged)%nat then copy_to_user ptr staged else mret tt);
  mret (Z.of_nat (length staged)).

Definition sys_read_file (fd ptr : Z) (len : nat) : Sys Z :=
  ok ← user_range_ok ptr len true;
  _ ← (if ok : bool then mret tt else kill_current_thread "sys_read: destination pointer not mapped for write");
  r ← on_kernel (read_open_file fd len);
  match r with
  | Some staged =>
      _ ← (if (0 <? length staged)%nat then copy_to_user ptr staged else mret tt);
      mret (Z.of_nat (length staged))
  | None => mret U64_MAX
  end.

Definition sys_read (fd ptr len : Z) : Sys Z :=
  let len := Z.to_nat (Z.min len 256) in
  if (len =? 0)%nat then mret 0
  else if fd =? 0 then sys_read_stdin ptr len
  else if FIRST_FILE_FD <=? fd then sys_read_file fd ptr len
  else mret U64_MAX.

(** The heap has room for a file of that size; the loop of [read_file] is
    run for at most [fuel] clusters. *)
Variable can_allocate : Z -> bool.
Variable fuel : nat.

Definition sys_open (path_ptr path_len : Z) : Sys Z :=
  if (path_len =? 0) || (255 <? path_len) then mret U64_MAX
  else
    path ← copy_from_user path_ptr (Z.to_nat path_len);
    if negb (is_utf8 path) then mret U64_MAX
    else
      data ← under_kernel_table (on_disk (read_file fuel can_allocate path));
      match data with
      | Some data => fd ← on_kernel (open_file data); mret (default U64_MAX fd)
      | None => mret U64_MAX
      end.

Definition sys_close (fd : Z) : Sys Z :=
  closed ← on_kernel (close_file fd);
  mret (if closed : bool then 0 else U64_MAX).

(** The addresses of the trampolines. *)
Variables thread_trampoline ring3_trampoline : Z.

Definition spawn_from_path (path args : list Z) : Sys (option Pid) :=
  data ← on_disk (read_file fuel can_allocate path);
  match data with
  | None => mret None
  | Some data => on_kernel (spawn_elf thread_trampoline ring3_trampoline data args)
  end.

Definition sys_spawn (path_ptr path_len args_ptr args_len : Z) : Sys Z :=
  if (path_len =? 0) || (255 <? path_len) || (255 <? args_len) then mret U64_MAX
  else
    path ← copy_from_user path_ptr (Z.to_nat path_len);
    if negb (is_utf8 path) then mret U64_MAX
    else
      args ← (if 0 <? args_len then copy_from_user args_ptr (Z.to_nat args_len) else mret []);
      pid ← under_kernel_table (spawn_from_path path args);
      mret (default U64_MAX pid).

(** [yield_now] as its caller sees it: the other threads take their turns
    until this one runs again. *)
Variable yield_now : Sys unit.

(** The [while] loop, at most [n] rounds. *)
Fixpoint wait_loop (n : nat) (pid : Z) : Sys Z :=
  alive ← on_kernel (thread_alive pid);
  if negb (alive : bool) then mret 0
  else match n with
       | O => check (Panic "sys_wait: out of fuel")
       | S n' => _ ← yield_now; wait_loop n' pid
       end.

Definition sys_wait (rounds : nat) (pid : Z) : Sys Z :=
  alive ← on_kernel (thread_alive pid);
  if negb (alive : bool) then mret U64_MAX else wait_loop rounds pid.

Definition dispatch (rounds : nat) (number arg1 arg2 arg3 arg4 : Z) : Sys Z :=
  if number =? SYS_WRITE then sys_write arg1 arg2 arg3
  else if number =? SYS_READ then sys_read arg1 arg2 arg3
  else if number =? SYS_OPEN then sys_open arg1 arg2
  else if number =? SYS_CLOSE then sys_close arg1
  else if number =? SYS_SPAWN then sys_spawn arg1 arg2 arg3 arg4
  else if number =? SYS_WAIT then sys_wait rounds arg1
  else if number =? SYS_EXIT then exit_thread
  else mret U64_MAX.
End Syscalls.
Arguments System H D : clear implicits.
