(* ===== verification/SyscallThms.v ===== *)
(** * System calls are correct

    Every handler checks the pointers it is given before it uses them; a
    pointer the caller cannot use itself costs the caller its life and
    nobody else anything.  Then what the handlers do. *)

From S2P Require Import Prelude Ring X86 FrameAlloc Paging AddressSpace Mapper Threads Scheduler SchedulerInv SchedulerThms.
From S2P Require Import Ata Fat Vga Keyboard Elf Utf8 Process Syscall.

(** ** Accesses *)

Section Access.
Context {crate : X86Crate}.
Implicit Types m : mem.

(** What ring 3 may reach, ring 0 reaches too. *)
Lemma kernel_walk_user wp m t l va w p : mmu_walk m t l va w = Some p -> kernel_walk wp m t l va w = Some p.
Proof.
  revert t; induction l as [|l IH]; intros t; [done|]. cbn [mmu_walk kernel_walk].
  destruct (pte_allows (table_entry m t (hw_index (S l) va)) w) eqn:E; [|done]. cbn [negb].
  assert (Ek : pte_allows_kernel wp (table_entry m t (hw_index (S l) va)) w = true).
  { unfold pte_allows, pte_allows_kernel in *. apply andb_true_iff in E as [E Ew]. apply andb_true_iff in E as [-> _].
    destruct w, wp; cbn in *; done. }
  rewrite Ek. cbn [negb]. destruct l; [done|]. destruct (_ && _); [done|]. apply IH.
Qed.

Lemma kernel_access_user wp m cr3 va w p : mmu_access m cr3 va w = Some p -> kernel_access wp m cr3 va w = Ok p.
Proof.
  unfold mmu_access, kernel_access. destruct (bool_decide _); [|done].
  intros E. by rewrite (kernel_walk_user wp _ _ _ _ _ _ E).
Qed.

(** Ring 3 may access [n] bytes at [ptr]. *)
Definition user_reach m (cr3 ptr : Z) (n : nat) (w : bool) : Prop :=
  forall x, ptr <= x < ptr + Z.of_nat n -> is_Some (mmu_access m cr3 x w).

(** The bytes ring 3 reads there. *)
Definition user_bytes m (cr3 ptr : Z) (n : nat) : list Z :=
  (fun i => m (default 0 (mmu_access m cr3 (ptr + Z.of_nat i) false))) <$> seq 0 n.

Lemma user_bytes_S m cr3 ptr n : user_bytes m cr3 ptr (S n) =
  m (default 0 (mmu_access m cr3 ptr false)) :: user_bytes m cr3 (ptr + 1) n.
Proof.
  unfold user_bytes. cbn [seq]. rewrite fmap_cons, Z.add_0_r, <- fmap_S_seq, <- list_fmap_compose. f_equal.
  apply list_fmap_ext. intros i k _. unfold compose. by replace (ptr + 1 + Z.of_nat k) with (ptr + Z.of_nat (S k)) by lia.
Qed.

Lemma copy_in_ok wp m cr3 ptr n : user_reach m cr3 ptr n false -> copy_in wp m cr3 ptr n = Ok (user_bytes m cr3 ptr n).
Proof.
  revert ptr; induction n as [|n IH]; intros ptr Hr; [done|]. cbn [copy_in]. rewrite user_bytes_S.
  destruct (Hr ptr) as [p Hp]; [lia|]. rewrite (kernel_access_user wp _ _ _ _ p Hp), Hp. cbn [mbind outcome_bind default].
  rewrite IH; [done|]. intros x Hx. apply Hr. lia.
Qed.

(** ** Writing to the caller's memory *)

(** The addresses of the entries a walk reads. *)
Fixpoint walk_entries m (t : Z) (l : nat) (va : Z) : list Z :=
  match l with
  | O => []
  | S l' =>
      (t + 8 * Z.of_nat (hw_index l va)) ::
        walk_entries m (Z.land (table_entry m t (hw_index l va)) ADDR_MASK) l' va
  end.

Definition untouched (entries : list Z) (p : Z) : Prop := Forall (fun a => ~ a <= p < a + 8) entries.

(** The bytes of the buffer are distinct, and none is in a page table that
    maps the buffer. *)
Record data_apart m (cr3 ptr : Z) (n : nat) : Prop := {
  da_distinct x y p : ptr <= x < ptr + Z.of_nat n -> ptr <= y < ptr + Z.of_nat n ->
    mmu_access m cr3 x true = Some p -> mmu_access m cr3 y true = Some p -> x = y;
  da_tables x y p : ptr <= x < ptr + Z.of_nat n -> ptr <= y < ptr + Z.of_nat n ->
    mmu_access m cr3 x true = Some p -> untouched (walk_entries m cr3 4 y) p;
}.

(** A walk depends on the entries it reads. *)
Lemma kernel_walk_ext m m' t l va w :
  Forall (fun a => forall x, a <= x < a + 8 -> m' x = m x) (walk_entries m t l va) ->
  walk_entries m' t l va = walk_entries m t l va /\ mmu_walk m' t l va w = mmu_walk m t l va w.
Proof.
  revert t; induction l as [|l IH]; intros t Hu; [done|]. apply Forall_cons in Hu as [Hp Hu].
  assert (E : table_entry m' t (hw_index (S l) va) = table_entry m t (hw_index (S l) va)) by by apply read_u64_ext.
  cbn [walk_entries mmu_walk]. rewrite E. destruct (IH _ Hu) as [-> IHw]. split; [done|].
  destruct (negb _); [done|]. destruct l; [done|]. destruct (_ && _); [done|]. apply IHw.
Qed.

Lemma untouched_write m p b entries : untouched entries p ->
  Forall (fun a => forall x, a <= x < a + 8 -> write_list m p [b] x = m x) entries.
Proof.
  intros Hu. eapply Forall_impl; [exact Hu|]. cbn. intros a Ha x Hx. apply write_list_other. cbn [length]. lia.
Qed.

Lemma access_ext m m' cr3 va w :
  Forall (fun a => forall x, a <= x < a + 8 -> m' x = m x) (walk_entries m cr3 4 va) ->
  mmu_access m' cr3 va w = mmu_access m cr3 va w.
Proof. intros Hu. unfold mmu_access. destruct (bool_decide _); [|done]. by apply kernel_walk_ext. Qed.

Lemma access_read m cr3 va p : mmu_access m cr3 va true = Some p -> mmu_access m cr3 va false = Some p.
Proof.
  unfold mmu_access. destruct (bool_decide _); [|done]. generalize 4%nat at 1 2. intros l. revert cr3.
  induction l as [|l IH]; intros t; [done|]. cbn [mmu_walk].
  destruct (pte_allows (table_entry m t (hw_index (S l) va)) true) eqn:E; [|done].
  assert (E' : pte_allows (table_entry m t (hw_index (S l) va)) false = true).
  { unfold pte_allows in *. apply andb_true_iff in E as [-> _]. done. }
  rewrite E'. cbn [negb]. destruct l; [done|]. destruct (_ && _); [done|]. apply IH.
Qed.

Lemma data_apart_write m cr3 ptr n p b : data_apart m cr3 ptr (S n) -> mmu_access m cr3 ptr true = Some p ->
  data_apart (write_list m p [b]) cr3 (ptr + 1) n /\
  forall x w, ptr <= x < ptr + Z.of_nat (S n) -> mmu_access (write_list m p [b]) cr3 x w = mmu_access m cr3 x w.
Proof.
  intros [Hd Ht] Hp.
  assert (Hu : forall y, ptr <= y < ptr + Z.of_nat (S n) -> untouched (walk_entries m cr3 4 y) p)
    by (intros y Hy; apply (Ht ptr y p); [lia|done..]).
  assert (Ha : forall x w, ptr <= x < ptr + Z.of_nat (S n) -> mmu_access (write_list m p [b]) cr3 x w = mmu_access m cr3 x w)
    by (intros x w Hx; by apply access_ext, untouched_write, Hu).
  split; [|done]. split.
  - intros x y q Hx Hy. rewrite !Ha by lia. apply Hd; lia.
  - intros x y q Hx Hy. rewrite Ha by lia. intros Hq.
    rewrite (proj1 (kernel_walk_ext m _ cr3 4 y true (untouched_write _ _ _ _ (Hu y ltac:(lia))))). apply (Ht x y q); [lia..|done].
Qed.

(** The copy succeeds, the program reads back what was written, and no byte
    of memory outside of the buffer has changed. *)
Lemma copy_out_ok wp m cr3 ptr bs : user_reach m cr3 ptr (length bs) true -> data_apart m cr3 ptr (length bs) ->
  exists m', copy_out wp cr3 ptr bs m = Ok m' /\ user_bytes m' cr3 ptr (length bs) = bs /\
    (forall q, (forall x, ptr <= x < ptr + Z.of_nat (length bs) -> mmu_access m cr3 x true <> Some q) -> m' q = m q) /\
    (forall x w, ptr <= x < ptr + Z.of_nat (length bs) -> mmu_access m' cr3 x w = mmu_access m cr3 x w).
Proof.
  revert ptr m; induction bs as [|b bs IH]; intros ptr m Hr Hd; cbn [length] in *.
  { exists m. split_and!; [done..|]. intros x w Hx. lia. }
  destruct (Hr ptr) as [p Hp]; [lia|]. destruct (data_apart_write m cr3 ptr (length bs) p b Hd Hp) as [Hd1 Ha1].
  cbn [copy_out]. rewrite (kernel_access_user wp _ _ _ _ p Hp). cbn [mbind outcome_bind].
  destruct (IH (ptr + 1) (write_list m p [b])) as (m' & E & Hb & Ho & Ha).
  { intros x Hx. rewrite Ha1 by lia. apply Hr. lia. }
  { done. }
  assert (Hout : forall q, (forall x, ptr <= x < ptr + Z.of_nat (S (length bs)) -> mmu_access m cr3 x true <> Some q) -> m' q = m q).
  { intros q Hq. rewrite Ho; [|intros x Hx; rewrite Ha1 by lia; apply Hq; lia].
    apply write_list_other. cbn [length]. assert (p <> q) by (intros ->; by apply (Hq ptr); [lia|]). lia. }
  assert (Hacc : forall x w, ptr <= x < ptr + Z.of_nat (S (length bs)) -> mmu_access m' cr3 x w = mmu_access m cr3 x w).
  { intros x w Hx. apply access_ext, Forall_forall. intros e He z Hz. apply Hout. intros y Hy Hyz.
    pose proof (da_tables _ _ _ _ Hd y x z Hy Hx Hyz) as Hu. unfold untouched in Hu. rewrite Forall_forall in Hu.
    by apply (Hu e He). }
  assert (Hpp : m' p = b).
  { rewrite Ho.
    - pose proof (write_list_same m p [b] 1 eq_refl) as Hw. unfold read_bytes in Hw. cbn in Hw. rewrite Z.add_0_r in Hw. congruence.
    - intros x Hx Hq. rewrite Ha1 in Hq by lia. assert (x = ptr); [|lia].
      apply (da_distinct _ _ _ _ Hd x ptr p); [lia..|done|done]. }
  exists m'. split_and!; try done. rewrite user_bytes_S, Hacc, (access_read _ _ _ p Hp) by lia. change (default 0 (Some p)) with p.
  by rewrite Hpp, Hb.
Qed.

(** ** The pointer check *)

(** A buffer a program may name: a 64-bit address, and a length that is no
    longer than half the address space (every length of a system call is at
    most 1024). *)
Definition user_buffer (ptr : Z) (n : nat) : Prop := 0 <= ptr < 2 ^ 64 /\ (Z.of_nat n <= 2 ^ 47 \/ 2 ^ 47 <= ptr).

(** An accepted buffer lies in the lower half. *)
Lemma reach_low m cr3 ptr n w : no_user_high m cr3 -> (0 < n)%nat -> user_reach m cr3 ptr n w -> ptr + Z.of_nat n <= 2 ^ 47.
Proof.
  intros Hh Hn Hr. destruct (decide (ptr + Z.of_nat n <= 2 ^ 47)) as [|Hgt]; [done|exfalso].
  destruct (Hr (ptr + Z.of_nat n - 1)) as [q Hq]; [lia|]. by rewrite Hh in Hq by lia.
Qed.

Lemma user_range_mapped_high m cr3 addr n w : (0 < n)%nat -> 2 ^ 64 - 2 ^ 47 <= addr < 2 ^ 64 -> no_user_high m cr3 ->
  user_range_mapped m cr3 addr (Z.of_nat n) w = Ok false.
Proof.
  intros Hn Ha Hh. destruct (decide (addr + Z.of_nat n - 1 < 2 ^ 64)) as [Hlt|Hge].
  - assert (Hone : in_one_half addr (addr + Z.of_nat n - 1)) by (unfold in_one_half; lia).
    destruct (user_range_mapped m cr3 addr (Z.of_nat n) w) as [[|]|] eqn:E; [exfalso|done|by rewrite user_range_mapped_pages in E by (lia || done)].
    apply user_range_mapped_one_half in E; [lia|done|unfold canonical; lia|lia].
  - unfold user_range_mapped. rewrite (proj2 (Z.eqb_neq _ 0)) by lia.
    by rewrite (proj2 (checked_add_None _ _)) by lia.
Qed.
End Access.

(** Runs the system call monad. *)
Ltac run_sys :=
  unfold get, check, on_kernel, on_disk, gets, modify, lift, mbind, Sys_bind, M_bind, outcome_bind, mret, Sys_ret, M_ret;
  cbn [expect fst snd kernel console input disk set_kernel].

Section Handlers.
Context {crate : X86Crate} {mapper : PageMapper} {H : Type} {kheap : KernelHeap H} {D : Type} `{!SectorDisk D}.
Implicit Types (s : System H D) (k : Kernel H) (st : SchedulerState) (spaces : Z -> gmap nat (ptree 3)).
Variable wp : bool.

(** The kernel of a running program of an address space of its own or of
    the kernel's: its memory map is known, and ring 3 has no page in the
    upper half. *)
Definition user_context s : Prop :=
  is_Some (physical_memory_offset (kernel s)) /\ no_user_high (phys (kernel s)) (cr3 (kernel s)).

Abbreviation reach s ptr n w := (user_reach (phys (kernel s)) (cr3 (kernel s)) ptr n w).

Lemma user_range_ok_low s ptr n w : is_Some (physical_memory_offset (kernel s)) -> 0 < ptr < 2 ^ 47 ->
  user_range_ok ptr n w s =
  r ← user_range_mapped (phys (kernel s)) (cr3 (kernel s)) ptr (Z.of_nat n) w; Ok (Go r, s).
Proof.
  intros [pmo Hp] Ha. unfold user_range_ok. rewrite (proj2 (Z.eqb_neq ptr 0)) by lia.
  rewrite va_try_new_canonical by (unfold canonical; lia). run_sys. by rewrite Hp.
Qed.

(** The check is total, and accepts nothing that ring 3 cannot reach. *)
Lemma user_range_ok_sound s ptr n w : user_context s -> user_buffer ptr n ->
  exists b, user_range_ok ptr n w s = Ok (Go b, s) /\ (b = true -> ptr <> 0 /\ reach s ptr n w).
Proof.
  intros [Hp Hh] [Hu Ho]. destruct (decide (ptr = 0)) as [->|Hnz]; [by exists false|].
  destruct (decide (n = 0%nat)) as [->|Hn].
  { assert (Hr : reach s ptr 0 w) by (intros x Hx; lia). unfold user_range_ok. rewrite (proj2 (Z.eqb_neq ptr 0)) by done.
    destruct (va_try_new ptr) as [a|]; [|by exists false]. destruct Hp as [pmo Hp]. run_sys. rewrite Hp.
    exists true. by split. }
  assert (Hc : ptr < 2 ^ 47 \/ 2 ^ 47 <= ptr < 2 ^ 48 \/ 2 ^ 48 <= ptr < 2 ^ 64 - 2 ^ 47 \/ 2 ^ 64 - 2 ^ 47 <= ptr) by lia.
  destruct Hc as [Hc|Hc].
  - rewrite user_range_ok_low by (done || lia). destruct (decide (ptr + Z.of_nat n <= 2 ^ 47)) as [Hlow|Hgt].
    + assert (Hone : in_one_half ptr (ptr + Z.of_nat n - 1)) by (unfold in_one_half; lia).
      rewrite user_range_mapped_pages by (done || lia). eexists. split; [done|]. intros Hb. split; [done|].
      intros x Hx. apply (accessible_pages_bytes _ _ ptr (Z.of_nat n)); [lia|done| |done]. intros q Hq%list_elem_of_In. rewrite forallb_forall in Hb. by apply Hb.
    + rewrite (proj2 (user_range_mapped_cross (phys (kernel s)) (cr3 (kernel s)) ptr (Z.of_nat n) w Hh ltac:(lia) ltac:(lia))) by lia. by exists false.
  - exists false. split; [|done]. unfold user_range_ok. rewrite (proj2 (Z.eqb_neq ptr 0)) by done.
    destruct Hp as [pmo Hp], Hc as [Hc|[Hc|Hc]].
    + rewrite va_try_new_extend by lia. run_sys. rewrite Hp, user_range_mapped_high by (done || lia). done.
    + rewrite va_try_new_err by lia. done.
    + rewrite va_try_new_canonical by (unfold canonical; lia). run_sys. rewrite Hp, user_range_mapped_high by (done || lia). done.
Qed.

(** With pages of 4 KiB it rejects nothing that ring 3 can reach. *)
Lemma user_range_ok_complete s ptr n w : is_Some (physical_memory_offset (kernel s)) -> 0 < ptr -> (0 < n)%nat -> ptr + Z.of_nat n <= 2 ^ 47 ->
  (forall p, p ∈ range_pages ptr (Z.of_nat n) -> no_huge (phys (kernel s)) (cr3 (kernel s)) 4 p) ->
  reach s ptr n w -> user_range_ok ptr n w s = Ok (Go true, s).
Proof.
  intros Hp Hz Hn Hl Hh Hr. rewrite user_range_ok_low by (done || lia).
  assert (Hone : in_one_half ptr (ptr + Z.of_nat n - 1)) by (unfold in_one_half; lia).
  rewrite (proj2 (user_range_mapped_true _ _ ptr (Z.of_nat n) w ltac:(lia) Hone)); [done|].
  intros p Hpg. apply (accessible_bytes_pages _ _ ptr (Z.of_nat n)); [lia|done..|by apply Hh|exact Hr].
Qed.

(** ** Printing and killing *)

Lemma set_interrupts_same k : set_interrupts (interrupts_enabled k) k = k.
Proof. by destruct k. Qed.

Lemma print_keeps pieces s t : shows (writer (console s)) t -> writer_locked (console s) = false ->
  exists w', print pieces s = Ok (Go tt, mkSystem (kernel s) (mkConsole w' false (interrupts_enabled (kernel s))) (input s) (disk s)) /\
    shows w' (type_bytes (color_code (writer (console s))) (shown <$> concat pieces) t) /\
    color_code w' = color_code (writer (console s)).
Proof.
  intros Hs Hl. destruct (write_pieces_shows pieces (writer (console s)) t Hs) as (w' & E & Hcol & Hs').
  exists w'. split; [|done]. unfold print, _print, lock_writer, unlock_writer, set_console_interrupts.
  destruct s as [k [w l i] q d]. cbn [kernel console input disk writer writer_locked console_interrupts] in *. subst l.
  run_sys. unfold M_bind, outcome_bind, modify. cbn [writer writer_locked console_interrupts].
  rewrite E. cbn [mbind]. unfold outcome_bind. cbn [writer writer_locked console_interrupts]. by rewrite set_interrupts_same.
Qed.

Lemma print_ok pieces s t : shows (writer (console s)) t -> writer_locked (console s) = false ->
  exists w', print pieces s = Ok (Go tt, mkSystem (kernel s) (mkConsole w' false (interrupts_enabled (kernel s))) (input s) (disk s)) /\
    shows w' (type_bytes (color_code (writer (console s))) (shown <$> concat pieces) t).
Proof. intros Hs Hl. destruct (print_keeps pieces s t Hs Hl) as (w' & E & Hw & _). by exists w'. Qed.

(** The thread that was running has become the zombie, the next one runs;
    nobody else has lost anything. *)
Record killed spaces s st (reason : string) (t : Terminal) s' : Prop := {
  kd_message : shows (writer (console s'))
    (type_bytes (color_code (writer (console s))) (shown <$> bytes_of "[proc]  thread killed: " ++ bytes_of reason ++ [10]) t);
  kd_input : input s' = input s;
  kd_disk : disk s' = disk s;
  kd_frames : fa_avail (frames (kernel s')) = reverse (zombie_frames spaces st) ++ fa_avail (frames (kernel s));
  kd_exited : exists st' next rest, kernel_inv spaces (kernel s') st' /\ ready_list (ready_queue st) = next :: rest /\
    exited (reaped st) next rest (kernel s') st';
}.

Lemma kill_kills {A} spaces s st reason t :
  kernel_inv spaces (kernel s) st -> current st <> 0%nat -> shows (writer (console s)) t -> writer_locked (console s) = false ->
  exists e s', kill_current_thread (A := A) reason s = Ok (Gone e, s') /\ killed spaces s st reason t s'.
Proof.
  intros HK Hc Hs Hl. unfold kill_current_thread.
  destruct (print_ok [bytes_of "[proc]  thread killed: "; bytes_of reason; [10]] s t Hs Hl) as (w' & E & Hs').
  unfold mbind, Sys_bind. rewrite E. unfold exit_thread. cbn [kernel].
  destruct (exit_exits spaces (kernel s) st HK Hc) as (e & k' & st' & next & rest & Ex & HK' & Hr & Hx & Hf).
  rewrite Ex. exists e. eexists. split; [done|]. split; cbn [console input disk kernel set_kernel writer]; try done.
  exists st', next, rest. done.
Qed.

(** ** Buffers of the caller *)

(** Nothing runs after a kill. *)
Lemma kill_bind {A B} reason (x : Sys A) (f : A -> Sys B) s :
  x s = kill_current_thread reason s -> (a ← x; f a) s = kill_current_thread reason s.
Proof.
  intros E. unfold mbind, Sys_bind. rewrite E. unfold kill_current_thread, mbind, Sys_bind, exit_thread.
  destruct (print _ s) as [[[[]|e] s1]|]; [|done..].
  unfold outcome_bind. by destruct (exit_current_thread (kernel s1)) as [[e k]|].
Qed.

Lemma go_bind {A B} (x : Sys A) (f : A -> Sys B) s s' a : x s = Ok (Go a, s') -> (y ← x; f y) s = f a s'.
Proof. intros E. unfold mbind, Sys_bind. by rewrite E. Qed.

Lemma check_rejects {A} reason ptr n w (f : Sys A) s : user_range_ok ptr n w s = Ok (Go false, s) ->
  (ok ← user_range_ok ptr n w; _ ← (if ok : bool then mret tt else kill_current_thread reason); f) s =
  kill_current_thread reason s.
Proof.
  intros E. unfold mbind at 1, Sys_bind at 1. rewrite E. by apply kill_bind.
Qed.

Lemma copy_from_user_cases s ptr n : user_context s -> user_buffer ptr n ->
  exists b, user_range_ok ptr n false s = Ok (Go b, s) /\ (b = true -> ptr <> 0 /\ reach s ptr n false) /\
    copy_from_user wp ptr n s =
      if b : bool then Ok (Go (user_bytes (phys (kernel s)) (cr3 (kernel s)) ptr n), s)
      else kill_current_thread "syscall argument pointer not mapped for read" s.
Proof.
  intros Hu Ho. destruct (user_range_ok_sound s ptr n false Hu Ho) as (b & E & Hb). exists b. split; [done|]. split; [done|].
  destruct b; [|by apply (check_rejects _ ptr n false)].
  unfold copy_from_user, mbind, Sys_bind. rewrite E. run_sys. rewrite copy_in_ok; [done|]. by apply Hb.
Qed.

(** A rejected pointer. *)
Lemma user_range_ok_bad s ptr n w : user_context s -> user_buffer ptr n -> ptr = 0 \/ ~ reach s ptr n w ->
  user_range_ok ptr n w s = Ok (Go false, s).
Proof.
  intros Hu Ho Hbad. destruct (user_range_ok_sound s ptr n w Hu Ho) as ([|] & E & Hb); [|done].
  destruct (Hb eq_refl) as [H1 H2]. by destruct Hbad.
Qed.

End Handlers.

(** The buffers a system call checks, in the order of its checks: address,
    length, and whether the kernel writes through it. *)
Definition call_buffers (number arg1 arg2 arg3 arg4 : Z) : list (Z * nat * bool) :=
  if number =? SYS_WRITE then if arg1 =? 1 then [(arg2, Z.to_nat (Z.min arg3 1024), false)] else []
  else if number =? SYS_READ then
    if (Z.to_nat (Z.min arg3 256) =? 0)%nat then []
    else if (arg1 =? 0) || (FIRST_FILE_FD <=? arg1) then [(arg2, Z.to_nat (Z.min arg3 256), true)] else []
  else if number =? SYS_OPEN then
    if (arg2 =? 0) || (255 <? arg2) then [] else [(arg1, Z.to_nat arg2, false)]
  else if number =? SYS_SPAWN then
    if (arg2 =? 0) || (255 <? arg2) || (255 <? arg4) then []
    else (arg1, Z.to_nat arg2, false) :: (if 0 <? arg4 then [(arg3, Z.to_nat arg4, false)] else [])
  else [].

Section Claims.
Context {crate : X86Crate} {mapper : PageMapper} {H : Type} {kheap : KernelHeap H} {D : Type} `{!SectorDisk D}.
Implicit Types (s : System H D) (st : SchedulerState) (spaces : Z -> gmap nat (ptree 3)).

(** The program cannot use the buffer: it is null, or has a byte that ring 3
    may not access in that direction. *)
Definition unusable s (p : Z) (n : nat) (w : bool) : Prop :=
  p = 0 \/ ~ user_reach (phys (kernel s)) (cr3 (kernel s)) p n w.

Lemma copy_from_user_rejects {A} wp s p n (f : list Z -> Sys A) :
  user_context s -> user_buffer p n -> unusable s p n false ->
  (x ← copy_from_user wp p n; f x) s = kill_current_thread "syscall argument pointer not mapped for read" s.
Proof. intros Hu Ho Hb. apply kill_bind. apply (check_rejects _ p n false). by apply user_range_ok_bad. Qed.

(** Every buffer of [spawn]: its path, and its arguments once the path is
    accepted and is text. *)
Lemma sys_spawn_rejects wp can_allocate fuel tt3 rt s arg1 arg2 arg3 arg4 p n w :
  user_context s -> Forall is_u64 [arg1; arg2; arg3; arg4] ->
  (p, n, w) ∈ call_buffers SYS_SPAWN arg1 arg2 arg3 arg4 -> unusable s p n w ->
  sys_spawn wp can_allocate fuel tt3 rt arg1 arg2 arg3 arg4 s =
    kill_current_thread "syscall argument pointer not mapped for read" s \/
  (is_utf8 (user_bytes (phys (kernel s)) (cr3 (kernel s)) arg1 (Z.to_nat arg2)) = false /\
   sys_spawn wp can_allocate fuel tt3 rt arg1 arg2 arg3 arg4 s = Ok (Go U64_MAX, s)).
Proof.
  intros Hu Hf Hin Hbad. rewrite !Forall_cons in Hf. destruct Hf as (U1 & U2 & U3 & U4 & _). unfold is_u64 in *.
  unfold call_buffers in Hin. change (SYS_SPAWN =? SYS_WRITE) with false in Hin. change (SYS_SPAWN =? SYS_READ) with false in Hin.
  change (SYS_SPAWN =? SYS_OPEN) with false in Hin. change (SYS_SPAWN =? SYS_SPAWN) with true in Hin. cbv iota in Hin.
  unfold sys_spawn. destruct (_ || _) eqn:Eb; [by apply not_elem_of_nil in Hin|].
  assert (Hp : user_buffer arg1 (Z.to_nat arg2)) by (unfold user_buffer; lia).
  destruct (copy_from_user_cases wp s arg1 (Z.to_nat arg2) Hu Hp) as (b & E & Hb & Ec).
  apply elem_of_cons in Hin as [[= -> -> ->]|Hin]; [left; by apply copy_from_user_rejects|].
  destruct b; [|left; by apply kill_bind].
  destruct (0 <? arg4) eqn:E4; [|by apply not_elem_of_nil in Hin]. apply list_elem_of_singleton in Hin as [= -> -> ->].
  set (path := user_bytes _ _ arg1 _) in *. rewrite (go_bind _ _ s s path Ec).
  destruct (is_utf8 path); [left|right; done]. cbn [negb]. apply copy_from_user_rejects; [done|unfold user_buffer; lia|done].
Qed.

(** A call one of whose buffers is unusable kills its thread, unless it is a
    [spawn] whose path is not text. *)
Lemma dispatch_rejects wp can_allocate fuel tt3 rt yield rounds number arg1 arg2 arg3 arg4 s p n w :
  user_context s -> Forall is_u64 [arg1; arg2; arg3; arg4] ->
  (p, n, w) ∈ call_buffers number arg1 arg2 arg3 arg4 -> unusable s p n w ->
  let call := dispatch wp can_allocate fuel tt3 rt yield rounds number arg1 arg2 arg3 arg4 s in
  (exists reason, call = kill_current_thread reason s) \/
  (number = SYS_SPAWN /\ is_utf8 (user_bytes (phys (kernel s)) (cr3 (kernel s)) arg1 (Z.to_nat arg2)) = false /\
   call = Ok (Go U64_MAX, s)).
Proof.
  intros Hu Hf Hin Hbad. destruct (Z.eq_dec number SYS_SPAWN) as [->|Hne].
  { change (dispatch wp can_allocate fuel tt3 rt yield rounds SYS_SPAWN arg1 arg2 arg3 arg4 s)
      with (sys_spawn wp can_allocate fuel tt3 rt arg1 arg2 arg3 arg4 s).
    destruct (sys_spawn_rejects wp can_allocate fuel tt3 rt s arg1 arg2 arg3 arg4 p n w) as [E|E]; eauto. }
  left. rewrite !Forall_cons in Hf. destruct Hf as (U1 & U2 & U3 & U4 & _). unfold is_u64 in *.
  unfold call_buffers in Hin. unfold dispatch. destruct (number =? SYS_WRITE).
  { destruct (arg1 =? 1) eqn:E1; [|by apply not_elem_of_nil in Hin]. apply list_elem_of_singleton in Hin as [= -> -> ->].
    unfold sys_write. rewrite E1. eexists. apply copy_from_user_rejects; [done|unfold user_buffer; lia|done]. }
  destruct (number =? SYS_READ).
  { unfold sys_read. cbv zeta. destruct (_ =? 0)%nat; [by apply not_elem_of_nil in Hin|].
    assert (Hr : user_buffer arg2 (Z.to_nat (Z.min arg3 256))) by (unfold user_buffer; lia).
    destruct (arg1 =? 0); cbn [orb] in Hin.
    - apply list_elem_of_singleton in Hin as [= -> -> ->]. eexists. apply (check_rejects _ _ _ true). by apply user_range_ok_bad.
    - destruct (FIRST_FILE_FD <=? arg1); [|by apply not_elem_of_nil in Hin]. apply list_elem_of_singleton in Hin as [= -> -> ->].
      eexists. apply (check_rejects _ _ _ true). by apply user_range_ok_bad. }
  destruct (number =? SYS_OPEN).
  { unfold sys_open. destruct (_ || _) eqn:Eb; [by apply not_elem_of_nil in Hin|]. apply list_elem_of_singleton in Hin as [= -> -> ->].
    eexists. apply copy_from_user_rejects; [done|unfold user_buffer; lia|done]. }
  rewrite (proj2 (Z.eqb_neq number SYS_SPAWN) Hne) in Hin. by apply not_elem_of_nil in Hin.
Qed.

(** C1: a bad pointer costs its caller its life, and nobody else anything.
    Whatever system call a program makes with 64-bit arguments, let one of
    the buffers the call uses (the text of [write], the destination of
    [read], the path of [open] and [spawn], the arguments of [spawn]) be null
    or cover a byte the program may not access itself in that direction.
    Then the kernel does not panic: it prints that the thread was killed, the
    calling thread becomes the zombie, the next thread of the queue runs, the
    invariant of the kernel holds, and no input byte was taken, no disk
    sector read, no frame lost.  The one call that is answered instead is a
    [spawn] whose path is not UTF-8: it returns the error value before it
    looks at the arguments, and changes nothing.  Assumed of the page tables
    is that ring 3 has no page in the upper half. *)
Theorem bad_pointer_kills_caller wp can_allocate fuel tt3 rt yield rounds spaces s st t number arg1 arg2 arg3 arg4 p n w :
  kernel_inv spaces (kernel s) st -> current st <> 0%nat ->
  shows (writer (console s)) t -> writer_locked (console s) = false ->
  no_user_high (phys (kernel s)) (cr3 (kernel s)) -> Forall is_u64 [arg1; arg2; arg3; arg4] ->
  (p, n, w) ∈ call_buffers number arg1 arg2 arg3 arg4 -> unusable s p n w ->
  let call := dispatch wp can_allocate fuel tt3 rt yield rounds number arg1 arg2 arg3 arg4 s in
  (exists e s' reason, call = Ok (Gone e, s') /\ killed spaces s st reason t s') \/
  (number = SYS_SPAWN /\ is_utf8 (user_bytes (phys (kernel s)) (cr3 (kernel s)) arg1 (Z.to_nat arg2)) = false /\
   call = Ok (Go U64_MAX, s)).
Proof.
  intros HK Hc Hs Hl Hh Hf Hin Hbad.
  assert (Hu : user_context s) by (destruct (ki_pmo _ _ _ HK) as (pmo & Hp & _); split; [eauto|done]).
  destruct (dispatch_rejects wp can_allocate fuel tt3 rt yield rounds number arg1 arg2 arg3 arg4 s p n w Hu Hf Hin Hbad)
    as [[reason E]|E]; [left|by right].
  destruct (kill_kills (A := Z) spaces s st reason t HK Hc Hs Hl) as (e & s' & E' & Hk).
  exists e, s', reason. by rewrite E.
Qed.

(** C25: [write] prints what the program asked for.  On standard output, with
    a buffer the program can read, it returns the number of bytes, at most
    1024, and the terminal has typed exactly the characters that the bytes
    of the program's memory encode (or the message that they encode none);
    nothing else of the system changes.  A buffer the check rejects kills the
    thread; another descriptor is the error value and no effect.  Assumed is
    that ring 3 has no page in the upper half. *)
Theorem sys_write_correct wp spaces s st t fd ptr len :
  kernel_inv spaces (kernel s) st -> current st <> 0%nat ->
  shows (writer (console s)) t -> writer_locked (console s) = false ->
  no_user_high (phys (kernel s)) (cr3 (kernel s)) ->
  let n := Z.min len 1024 in
  0 <= len -> user_buffer ptr (Z.to_nat n) ->
  exists b, user_range_ok ptr (Z.to_nat n) false s = Ok (Go b, s) /\
  (b = true -> user_reach (phys (kernel s)) (cr3 (kernel s)) ptr (Z.to_nat n) false) /\
  if negb (fd =? 1) then sys_write wp fd ptr len s = Ok (Go U64_MAX, s)
  else if b : bool then
    exists w, sys_write wp fd ptr len s =
      Ok (Go n, mkSystem (kernel s) (mkConsole w false (interrupts_enabled (kernel s))) (input s) (disk s)) /\
    shows w (type_bytes (color_code (writer (console s)))
      (shown <$> default (bytes_of "<sys_write: invalid utf-8>")
         (utf8_decode (user_bytes (phys (kernel s)) (cr3 (kernel s)) ptr (Z.to_nat n)))) t)
  else exists e s' reason, sys_write wp fd ptr len s = Ok (Gone e, s') /\ killed spaces s st reason t s'.
Proof.
  intros HK Hc Hs Hl Hh n Hlen Ho.
  assert (Hu : user_context s) by (destruct (ki_pmo _ _ _ HK) as (pmo & Hp & _); split; [eauto|done]).
  destruct (copy_from_user_cases wp s ptr (Z.to_nat n) Hu Ho) as (b & E & Hb & Ec). exists b.
  split; [done|]. split; [intros Hbt; by apply Hb|]. unfold sys_write. destruct (fd =? 1); cbn [negb]; [|done].
  fold n. cbv zeta. destruct b.
  - unfold mbind, Sys_bind. rewrite Ec.
    set (bs := user_bytes _ _ _ _). set (text := match utf8_decode bs with Some s => s | None => _ end).
    destruct (print_ok [text] s t Hs Hl) as (w' & Ep & Hs'). rewrite Ep. exists w'. split; [done|].
    rewrite concat_cons, app_nil_r in Hs'. unfold text in Hs'. by destruct (utf8_decode bs).
  - destruct (kill_kills (A := Z) spaces s st "syscall argument pointer not mapped for read" t HK Hc Hs Hl) as (e & s' & E' & Hk).
    exists e, s', "syscall argument pointer not mapped for read". split; [|done]. rewrite <- E'. by apply kill_bind.
Qed.
End Claims.
