(* ===== verification/SyscallIo.v ===== *)
(** * Reading, files and programs

    [read] from the keyboard, the files of a thread, [spawn] and [wait]. *)

From S2P Require Import Prelude Ring X86 FrameAlloc Paging AddressSpace Mapper Threads Scheduler SchedulerInv SchedulerThms.
From S2P Require Import Ata Fat Vga Keyboard Elf ElfImage ElfLoad Utf8 SpawnInv Process Syscall SyscallThms.

Lemma slice_drop {A} (l : list A) n : (n <= length l)%nat ->
  slice l (Z.of_nat n) (Z.of_nat (length l)) = Some (drop n l).
Proof.
  intros Hn. apply slice_Some. split; [lia|]. split; [lia|]. rewrite Nat2Z.id, take_ge; [done|]. rewrite length_drop. lia.
Qed.

Lemma take_length_take {A} (l : list A) n : take (length (take n l)) l = take n l.
Proof.
  rewrite length_take. destruct (decide (n <= length l)%nat); [by rewrite Nat.min_l|].
  rewrite Nat.min_r by lia. by rewrite !take_ge by lia.
Qed.

Section Kernel.
Context {crate : X86Crate} {mapper : PageMapper} {H : Type} {kheap : KernelHeap H}.
Implicit Types (k : Kernel H) (st : SchedulerState).

(** ** The scheduler's accessors *)

Lemma get_kernel_page_table_ok k st : scheduler k = Some st -> scheduler_locked k = false ->
  get_kernel_page_table k = Ok (kernel_page_table st, k).
Proof.
  intros Es El. destruct k as [sch lk r c r0 i su km ph fr hp pm]. cbn in Es, El. subst.
  unfold get_kernel_page_table. run. by destruct i.
Qed.

Definition set_current_thread (t : Thread) st : SchedulerState := set_threads (<[current st := Some t]> (threads st)) st.

Lemma with_current_thread_ok {A} (f : Thread -> outcome (A * Thread)) k st t r t' :
  scheduler k = Some st -> scheduler_locked k = false -> threads st !! current st = Some (Some t) -> f t = Ok (r, t') ->
  with_current_thread f k = Ok (r, set_scheduler (Some (set_current_thread t' st)) false k).
Proof.
  intros Es El Et Ef. destruct k as [sch lk rs c r0 i su km ph fr hp pm]. cbn in Es, El. subst.
  unfold with_current_thread, update_thread. run. rewrite Et. run. rewrite Ef. run.
  unfold set_current_thread. by destruct (c =? kernel_page_table st), i.
Qed.

(** ** The files of a thread

    What a thread's file table promises: a descriptor is a file and how much
    of it was read. *)

Definition file_slot (fd : Z) : nat := Z.to_nat (fd - FIRST_FILE_FD).
Definition has_file (t : Thread) (fd : Z) (d : list Z) (off : nat) : Prop :=
  FIRST_FILE_FD <= fd /\ open_files t !! file_slot fd = Some (Some (mkOpenFile d off)).

Lemma checked_sub_fd fd : FIRST_FILE_FD <= fd -> checked_sub fd FIRST_FILE_FD = Some (fd - FIRST_FILE_FD).
Proof. intros Hf. by apply checked_sub_Some. Qed.

Lemma open_file_body_ok t d slot : position_none (open_files t) = Some slot -> (length (open_files t) <= MAX_OPEN_FILES)%nat ->
  let fd := Z.of_nat slot + FIRST_FILE_FD in
  exists t', open_file_body d t = Ok (Some fd, t') /\ has_file t' fd d 0 /\
    t' = set_open_files (<[slot := Some (mkOpenFile d 0)]> (open_files t)) t.
Proof.
  intros Hs Hl fd. assert (Hlt : (slot < length (open_files t))%nat) by by apply position_none_lt.
  unfold open_file_body. rewrite Hs. unfold add_w. rewrite (proj2 (Z.ltb_lt _ _)).
  2:{ unfold FIRST_FILE_FD, MAX_OPEN_FILES in *. lia. }
  eexists. split; [done|]. split; [|done]. split; [unfold fd, FIRST_FILE_FD; lia|]. cbn [open_files set_open_files].
  unfold file_slot, fd. replace (Z.to_nat _) with slot by lia. by apply list_lookup_insert_eq.
Qed.

Lemma read_open_file_body_ok t fd d off n : has_file t fd d off -> (off <= length d)%nat ->
  let got := take n (drop off d) in
  exists t', read_open_file_body fd n t = Ok (Some got, t') /\ has_file t' fd d (off + length got) /\
    t' = set_open_files (<[file_slot fd := Some (mkOpenFile d (off + length got))]> (open_files t)) t.
Proof.
  intros [Hf Hl] Ho got. unfold read_open_file_body. rewrite checked_sub_fd by done.
  change (Z.to_nat (fd - FIRST_FILE_FD)) with (file_slot fd). rewrite Hl. cbn [data offset].
  rewrite slice_drop by done. cbn [expect mbind outcome_bind].
  assert (El : Nat.min (length (drop off d)) n = length got) by (unfold got; rewrite length_take; lia).
  rewrite El. assert (Eg : take (length got) (drop off d) = got) by apply take_length_take.
  rewrite Eg. eexists. split; [done|]. split; [|done]. split; [done|]. cbn [open_files set_open_files].
  apply list_lookup_insert_eq. by eapply lookup_lt_Some.
Qed.

Lemma close_file_body_ok t fd d off : has_file t fd d off ->
  close_file_body fd t = Ok (true, set_open_files (<[file_slot fd := None]> (open_files t)) t).
Proof.
  intros [Hf Hl]. unfold close_file_body. rewrite checked_sub_fd by done.
  change (Z.to_nat (fd - FIRST_FILE_FD)) with (file_slot fd). by rewrite Hl.
Qed.

Lemma read_closed t fd n : open_files t !! file_slot fd = Some None -> read_open_file_body fd n t = Ok (None, t).
Proof.
  intros Hl. unfold read_open_file_body. destruct (checked_sub fd FIRST_FILE_FD) as [x|] eqn:E; [|done].
  apply checked_sub_Some in E as [-> _]. change (Z.to_nat (fd - FIRST_FILE_FD)) with (file_slot fd). by rewrite Hl.
Qed.

(** Successive reads of a descriptor, of the given sizes. *)
Fixpoint reads (fd : Z) (sizes : list nat) : M (Kernel H) (list (list Z)) :=
  match sizes with
  | [] => mret []
  | n :: rest =>
      got ← read_open_file fd n;
      more ← reads fd rest;
      mret (default [] got :: more)
  end.

(** The kernel [k] with the running thread as [t]. *)
Definition with_thread k st (t : Thread) : Kernel H := set_scheduler (Some (set_current_thread t st)) false k.

Lemma set_current_thread_twice t t' st : set_current_thread t' (set_current_thread t st) = set_current_thread t' st.
Proof. unfold set_current_thread. cbn [threads current set_threads]. by rewrite list_insert_insert_eq. Qed.

Lemma with_thread_same k st t : scheduler k = Some st -> scheduler_locked k = false ->
  threads st !! current st = Some (Some t) -> with_thread k st t = k.
Proof.
  intros E1 E2 Et. unfold with_thread, set_current_thread, set_threads. rewrite list_insert_id by done.
  destruct k, st. cbn in *. by subst.
Qed.

Lemma with_thread_updates {A} (f : Thread -> outcome (A * Thread)) k st t r t' :
  (current st < length (threads st))%nat -> f t = Ok (r, t') ->
  with_current_thread f (with_thread k st t) = Ok (r, with_thread k st t').
Proof.
  intros Hc Ef. rewrite (with_current_thread_ok f _ (set_current_thread t st) t r t'); try done.
  - by rewrite set_current_thread_twice.
  - cbn [set_current_thread threads current set_threads]. by apply list_lookup_insert_eq.
Qed.

Lemma reads_ok k st t fd d off sizes : (current st < length (threads st))%nat ->
  has_file t fd d off -> (off <= length d)%nat ->
  exists chunks t', reads fd sizes (with_thread k st t) = Ok (chunks, with_thread k st t') /\
    concat chunks = take (sum_list sizes) (drop off d) /\ length chunks = length sizes /\
    t' = set_open_files (<[file_slot fd := Some (mkOpenFile d (off + length (concat chunks)))]> (open_files t)) t /\
    has_file t' fd d (off + length (concat chunks)).
Proof.
  intros Hc. revert t off; induction sizes as [|n sizes IH]; intros t off Hf Ho.
  { exists [], t. cbn [reads concat length]. rewrite Nat.add_0_r. split_and!; [done..| |done].
    rewrite list_insert_id by by apply Hf. by destruct t. }
  destruct (read_open_file_body_ok t fd d off n Hf Ho) as (t1 & E1 & Hf1 & Et1).
  set (got := take n (drop off d)) in *.
  assert (Hg : (length got <= length d - off)%nat) by (unfold got; rewrite length_take, length_drop; lia).
  destruct (IH t1 (off + length got)%nat Hf1 ltac:(lia)) as (chunks & t' & E & Hcat & Hlen & Et' & Hf').
  exists (got :: chunks), t'. cbn [reads concat length].
  unfold read_open_file. unfold mbind, M_bind. rewrite (with_thread_updates _ k st t (Some got) t1) by done. rewrite E.
  split; [done|]. rewrite length_app, Nat.add_assoc. split_and!; [|lia| |done].
  - change (sum_list (n :: sizes)) with (n + sum_list sizes)%nat. rewrite Hcat, <- drop_drop.
    rewrite <- (take_drop n (take (n + sum_list sizes) (drop off d))), take_take, Nat.min_l by lia. fold got. f_equal.
    rewrite <- take_drop_commute. destruct (decide (n <= length (drop off d))%nat).
    + unfold got. rewrite length_take, Nat.min_l by lia. done.
    + unfold got. rewrite !(drop_ge (drop off d)) by (rewrite ?length_take; lia). by rewrite !take_nil.
  - rewrite Et', Et1. cbn [open_files set_open_files]. by rewrite list_insert_insert_eq.
Qed.

(** C27: a file session.  A thread that opens a file with contents [d] gets
    the lowest free descriptor; reads through it, of whatever sizes, return
    the contents of the file in order, each byte once and none skipped, and
    then nothing; after [close] the descriptor is refused and the thread's
    table, and with it the whole kernel, is as it was before. *)
Theorem file_session k st t d slot sizes n :
  scheduler k = Some st -> scheduler_locked k = false -> threads st !! current st = Some (Some t) ->
  position_none (open_files t) = Some slot -> (length (open_files t) <= MAX_OPEN_FILES)%nat ->
  let fd := Z.of_nat slot + FIRST_FILE_FD in
  exists k1 k2 chunks,
    open_file d k = Ok (Some fd, k1) /\
    reads fd sizes k1 = Ok (chunks, k2) /\ concat chunks = take (sum_list sizes) d /\ length chunks = length sizes /\
    close_file fd k2 = Ok (true, k) /\ read_open_file fd n k = Ok (None, k) /\ close_file fd k = Ok (false, k).
Proof.
  intros Es El Et Hs Hl fd. assert (Hc := lookup_lt_Some _ _ _ Et).
  destruct (position_none_Some _ _ Hs) as [Hslot _].
  assert (Efd : file_slot fd = slot) by (unfold file_slot, fd; lia).
  destruct (open_file_body_ok t d slot Hs Hl) as (t1 & E1 & Hf1 & Et1). fold fd in E1, Hf1.
  destruct (reads_ok k st t1 fd d 0 sizes Hc Hf1 ltac:(lia)) as (chunks & t2 & E2 & Hcat & Hlen & Et2 & Hf2).
  assert (Ek := with_thread_same k st t Es El Et).
  assert (Eclosed : set_open_files (<[file_slot fd := None]> (open_files t2)) t2 = t).
  { rewrite Et2, Et1, Efd. cbn [open_files set_open_files]. rewrite !list_insert_insert_eq, list_insert_id by done.
    by destruct t. }
  exists (with_thread k st t1), (with_thread k st t2), chunks. rewrite drop_0 in Hcat. split_and!; try done.
  - pose proof (with_thread_updates (open_file_body d) k st t (Some fd) t1 Hc E1) as E. by rewrite Ek in E.
  - pose proof (with_thread_updates (close_file_body fd) k st t2 _ _ Hc (close_file_body_ok t2 fd d _ Hf2)) as E.
    by rewrite Eclosed, Ek in E.
  - rewrite <- Efd in Hslot.
    pose proof (with_thread_updates (read_open_file_body fd n) k st t _ _ Hc (read_closed t fd n Hslot)) as E. by rewrite Ek in E.
  - pose proof (with_thread_updates (close_file_body fd) k st t false t Hc) as E. rewrite Ek in E. apply E.
    unfold close_file_body. rewrite checked_sub_fd by (unfold fd, FIRST_FILE_FD; lia).
    change (Z.to_nat (fd - FIRST_FILE_FD)) with (file_slot fd). by rewrite Efd, Hslot.
Qed.
End Kernel.

(** ** Input *)

Lemma pop_input_ok n q : input_inv q ->
  exists q', pop_input n q = Ok (take n (input_list q), q') /\ input_inv q' /\ input_list q' = drop n (input_list q).
Proof.
  revert q; induction n as [|n IH]; intros q Hq; [exists q; by rewrite drop_0|]. cbn [pop_input].
  destruct (input_list q) as [|b l] eqn:El.
  - rewrite pop_empty by done. exists q. by rewrite El.
  - destruct (pop_ok q b l Hq El) as (q1 & E1 & Hq1 & El1). rewrite E1. cbn [mbind outcome_bind].
    destruct (IH q1 Hq1) as (q2 & E2 & Hq2 & El2). rewrite E2. cbn [mbind outcome_bind]. exists q2. by rewrite El1 in *.
Qed.

Lemma range_pages_prefix addr n n' p : 0 < n' <= n -> p ∈ range_pages addr n' -> p ∈ range_pages addr n.
Proof.
  intros Hn. unfold range_pages. rewrite !elem_of_stride. intros (i & Hi & ->). exists i. split; [|done].
  assert ((addr + n' - 1) / PAGE_SIZE <= (addr + n - 1) / PAGE_SIZE) by (apply Z.div_le_mono; unfold PAGE_SIZE; lia). lia.
Qed.

Section Handlers.
Context {crate : X86Crate} {mapper : PageMapper} {H : Type} {kheap : KernelHeap H} {D : Type} `{!SectorDisk D}.
Implicit Types (s : System H D) (k : Kernel H) (st : SchedulerState) (spaces : Z -> gmap nat (ptree 3)).
Variable wp : bool.

Lemma user_range_ok_prefix s ptr n n' w : user_context s -> user_buffer ptr n -> (0 < n' <= n)%nat ->
  user_range_ok ptr n w s = Ok (Go true, s) -> user_range_ok ptr n' w s = Ok (Go true, s).
Proof.
  intros Hu Ho Hn E. destruct (user_range_ok_sound s ptr n w Hu Ho) as (b & E' & Hb).
  rewrite E in E'. injection E' as <-. destruct (Hb eq_refl) as [Hnz Hr]. destruct Hu as [Hp Hh], Ho as [Hu _].
  assert (Hlow := reach_low _ _ ptr n w Hh ltac:(lia) Hr).
  rewrite user_range_ok_low in E |- * by (done || lia).
  destruct (user_range_mapped _ _ ptr (Z.of_nat n) w) as [r|] eqn:Er; [|done]. injection E as ->.
  rewrite user_range_mapped_true in Er by (unfold in_one_half; lia).
  rewrite (proj2 (user_range_mapped_true _ _ ptr (Z.of_nat n') w ltac:(lia) ltac:(unfold in_one_half; lia))); [done|].
  intros p Hpg. apply Er. by apply (range_pages_prefix ptr (Z.of_nat n) (Z.of_nat n')); [lia|].
Qed.

(** A section under the kernel's tables leaves the caller's in CR3. *)
Lemma under_kernel_table_ok {A} (f : Sys A) s st a s1 :
  scheduler (kernel s) = Some st -> scheduler_locked (kernel s) = false ->
  f (set_kernel (set_cr3 (kernel_page_table st) (kernel s)) s) = Ok (Go a, s1) -> cr3 (kernel s1) = kernel_page_table st ->
  under_kernel_table f s = Ok (Go a, set_kernel (set_cr3 (cr3 (kernel s)) (kernel s1)) s1).
Proof.
  intros Es El Ef Ec. unfold under_kernel_table. run_sys. rewrite (get_kernel_page_table_ok _ st Es El). cbn [set_kernel kernel].
  destruct (Z.eqb_spec (cr3 (kernel s)) (kernel_page_table st)) as [E|E]; cbn [negb].
  - assert (E1 : set_kernel (kernel s) s = set_kernel (set_cr3 (kernel_page_table st) (kernel s)) s).
    { rewrite <- E. destruct s as [k c i d]. cbn. by destruct k. }
    rewrite E1, Ef. cbn. rewrite E, <- Ec. destruct s1 as [k1 c i d]. cbn. by destruct k1.
  - run_sys. unfold set_kernel in Ef |- *. cbn [kernel console input disk] in *. rewrite Ef. done.
Qed.

(** The system with other memory. *)
Definition with_memory (m : mem) s : System H D := set_kernel (set_memory m (frames (kernel s)) (kernel s)) s.

(** [m'] holds [bs] where the program sees [ptr], and is [m] elsewhere. *)
Definition delivered m (cr3 ptr : Z) (bs : list Z) m' : Prop :=
  user_bytes m' cr3 ptr (length bs) = bs /\
  forall q, (forall x, ptr <= x < ptr + Z.of_nat (length bs) -> mmu_access m cr3 x true <> Some q) -> m' q = m q.

Lemma copy_to_user_ok s ptr bs : user_range_ok ptr (length bs) true s = Ok (Go true, s) ->
  user_reach (phys (kernel s)) (cr3 (kernel s)) ptr (length bs) true ->
  data_apart (phys (kernel s)) (cr3 (kernel s)) ptr (length bs) ->
  exists m', copy_to_user wp ptr bs s = Ok (Go tt, with_memory m' s) /\
    delivered (phys (kernel s)) (cr3 (kernel s)) ptr bs m'.
Proof.
  intros E Hr Hd. destruct (copy_out_ok wp _ _ _ _ Hr Hd) as (m' & Ec & Hb & Ho & _). exists m'. split; [|done].
  unfold copy_to_user. unfold mbind at 1, Sys_bind at 1. rewrite E. run_sys. by rewrite Ec.
Qed.

Lemma data_apart_prefix m cr3 ptr n n' : (n' <= n)%nat -> data_apart m cr3 ptr n -> data_apart m cr3 ptr n'.
Proof.
  intros Hn [H1 H2]. split; intros x y p Hx Hy; [apply H1|apply H2]; lia.
Qed.

(** What a read returns once its destination is accepted: the bytes that
    were taken are delivered. *)
Lemma deliver_ok s ptr n bs : user_context s -> user_buffer ptr n -> (length bs <= n)%nat ->
  user_range_ok ptr n true s = Ok (Go true, s) -> data_apart (phys (kernel s)) (cr3 (kernel s)) ptr n ->
  exists m', (_ ← (if (0 <? length bs)%nat then copy_to_user wp ptr bs else mret tt); mret (Z.of_nat (length bs))) s =
      Ok (Go (Z.of_nat (length bs)), with_memory m' s) /\
    delivered (phys (kernel s)) (cr3 (kernel s)) ptr bs m'.
Proof.
  intros Hu Ho Hl E Hd. destruct (Nat.ltb_spec 0 (length bs)) as [Hlt|Hge].
  - destruct (user_range_ok_sound s ptr n true Hu Ho) as (b & E' & Hb). rewrite E in E'. injection E' as <-.
    destruct (Hb eq_refl) as [_ Hr].
    destruct (copy_to_user_ok s ptr bs) as (m' & Ec & Hm').
    + by apply (user_range_ok_prefix s ptr n).
    + intros x Hx. apply Hr. lia.
    + by apply (data_apart_prefix _ _ _ n).
    + exists m'. split; [|done]. unfold mbind, Sys_bind. by rewrite Ec.
  - exists (phys (kernel s)). assert (bs = []) as -> by (by apply length_zero_iff_nil; lia). split; [|done].
    cbn [length]. unfold mbind, Sys_bind, mret, Sys_ret, with_memory. destruct s as [k c i d]. cbn. by destruct k.
Qed.

(** C22: [read] from the keyboard.  If the destination is accepted, the
    program gets the oldest bytes of the input queue, as many as there are
    and as it asked for; exactly these leave the queue; no other byte of
    memory changes, and the program's own page tables are active again.  If
    it is not accepted, the thread is killed before any byte is taken.
    Assumed is that ring 3 has no page in the upper half, and that the frames
    behind the buffer are distinct and hold no page table ([data_apart]). *)
Theorem sys_read_stdin_correct spaces s st t ptr n :
  kernel_inv spaces (kernel s) st -> current st <> 0%nat ->
  shows (writer (console s)) t -> writer_locked (console s) = false -> input_inv (input s) ->
  no_user_high (phys (kernel s)) (cr3 (kernel s)) -> user_buffer ptr n -> data_apart (phys (kernel s)) (cr3 (kernel s)) ptr n ->
  exists b, user_range_ok ptr n true s = Ok (Go b, s) /\
  if b : bool then
    let got := take n (input_list (input s)) in
    exists m' q, sys_read_stdin wp ptr n s =
        Ok (Go (Z.of_nat (length got)), mkSystem (set_memory m' (frames (kernel s)) (kernel s)) (console s) q (disk s)) /\
      delivered (phys (kernel s)) (cr3 (kernel s)) ptr got m' /\
      input_inv q /\ input_list q = drop n (input_list (input s))
  else exists e s' reason, sys_read_stdin wp ptr n s = Ok (Gone e, s') /\ killed spaces s st reason t s' /\ input s' = input s.
Proof.
  intros HK Hc Hs Hl Hi Hh Ho Hd.
  assert (Hu : user_context s) by (destruct (ki_pmo _ _ _ HK) as (pmo & Hp & _); split; [eauto|done]).
  destruct (user_range_ok_sound s ptr n true Hu Ho) as (b & E & Hb). exists b. split; [done|]. destruct b.
  - cbv zeta. destruct (pop_input_ok n (input s) Hi) as (q & Eq & Hq & Elq). set (got := take n (input_list (input s))) in *.
    set (s1 := mkSystem (kernel s) (console s) q (disk s)).
    assert (Et : under_kernel_table (take_input n) s = Ok (Go got, s1)).
    { rewrite (under_kernel_table_ok _ s st got (mkSystem (set_cr3 (kernel_page_table st) (kernel s)) (console s) q (disk s)));
        [|apply HK|apply HK| |done].
      - unfold s1. cbn. do 3 f_equal. by destruct (kernel s).
      - unfold take_input. cbn [input set_kernel]. rewrite Eq. done. }
    destruct (deliver_ok s1 ptr n got) as (m' & Ed & Hm').
    + exact Hu.
    + done.
    + unfold got. rewrite length_take. lia.
    + unfold user_range_ok in E |- *. destruct (ptr =? 0); [done|]. destruct (va_try_new ptr); [|done].
      revert E. run_sys. unfold s1. cbn [kernel]. destruct (expect _ _); [|done]. cbn. by destruct (user_range_mapped _ _ _ _ _) as [[]|].
    + done.
    + exists m', q. split_and!; try done. unfold sys_read_stdin. unfold mbind at 1, Sys_bind at 1. rewrite E. cbv iota.
      unfold mbind at 1, Sys_bind at 1, mret at 1, Sys_ret at 1. unfold mbind at 1, Sys_bind at 1. rewrite Et. exact Ed.
  - destruct (kill_kills (A := Z) spaces s st "sys_read: destination pointer not mapped for write" t HK Hc Hs Hl) as (e & s' & E' & Hk).
    exists e, s', "sys_read: destination pointer not mapped for write". split; [|split; [done|by destruct Hk]].
    rewrite <- E'. by apply (check_rejects _ _ _ true).
Qed.

(** [read] from an open file: the next bytes of the file are delivered and
    the offset moves over exactly these. *)
Lemma sys_read_file_ok s st t fd ptr n d off :
  user_context s -> scheduler (kernel s) = Some st -> scheduler_locked (kernel s) = false ->
  threads st !! current st = Some (Some t) -> has_file t fd d off -> (off <= length d)%nat ->
  user_buffer ptr n -> user_range_ok ptr n true s = Ok (Go true, s) ->
  data_apart (phys (kernel s)) (cr3 (kernel s)) ptr n ->
  let got := take n (drop off d) in
  exists m' t', sys_read_file wp fd ptr n s =
      Ok (Go (Z.of_nat (length got)), with_memory m' (set_kernel (with_thread (kernel s) st t') s)) /\
    delivered (phys (kernel s)) (cr3 (kernel s)) ptr got m' /\ has_file t' fd d (off + length got).
Proof.
  intros Hu Es El Et Hf Ho H1 E Hd got.
  destruct (read_open_file_body_ok t fd d off n Hf Ho) as (t' & Er & Hf' & _). fold got in Er, Hf'.
  set (s1 := set_kernel (with_thread (kernel s) st t') s).
  destruct (deliver_ok s1 ptr n got) as (m' & Ed & Hm'); [exact Hu|done|unfold got; rewrite length_take; lia| |done|].
  { unfold user_range_ok in E |- *. destruct (ptr =? 0); [done|]. destruct (va_try_new ptr); [|done].
    revert E. run_sys. destruct (expect _ _); [|done]. cbn. by destruct (user_range_mapped _ _ _ _ _) as [[]|]. }
  exists m', t'. split; [|done]. unfold sys_read_file. unfold mbind at 1, Sys_bind at 1. rewrite E. cbv iota.
  unfold mbind at 1, Sys_bind at 1, mret at 1, Sys_ret at 1. unfold mbind at 1, Sys_bind at 1. unfold on_kernel, read_open_file.
  rewrite (with_current_thread_ok _ (kernel s) st t (Some got) t' Es El Et Er). exact Ed.
Qed.

(** A buffer that was accepted is what the kernel reads. *)
Lemma copy_from_user_accepted s ptr n : user_context s -> user_buffer ptr n -> user_range_ok ptr n false s = Ok (Go true, s) ->
  copy_from_user wp ptr n s = Ok (Go (user_bytes (phys (kernel s)) (cr3 (kernel s)) ptr n), s).
Proof.
  intros Hu Ho E. destruct (copy_from_user_cases wp s ptr n Hu Ho) as (b & E' & _ & Ec).
  rewrite E in E'. by injection E' as <-.
Qed.

Variables (can_allocate : Z -> bool) (fuel : nat) (tramp ring3 : Z).

Lemma sys_spawn_runs s st path_ptr path_len args_ptr args_len r s1 :
  user_context s -> scheduler (kernel s) = Some st -> scheduler_locked (kernel s) = false ->
  let path := user_bytes (phys (kernel s)) (cr3 (kernel s)) path_ptr (Z.to_nat path_len) in
  let args := user_bytes (phys (kernel s)) (cr3 (kernel s)) args_ptr (Z.to_nat args_len) in
  0 < path_len <= 255 -> 0 <= args_len <= 255 ->
  user_buffer path_ptr (Z.to_nat path_len) -> user_range_ok path_ptr (Z.to_nat path_len) false s = Ok (Go true, s) ->
  (0 < args_len -> user_buffer args_ptr (Z.to_nat args_len) /\ user_range_ok args_ptr (Z.to_nat args_len) false s = Ok (Go true, s)) ->
  is_utf8 path = true ->
  spawn_from_path can_allocate fuel tramp ring3 path args (set_kernel (set_cr3 (kernel_page_table st) (kernel s)) s) = Ok (Go r, s1) ->
  cr3 (kernel s1) = kernel_page_table st ->
  sys_spawn wp can_allocate fuel tramp ring3 path_ptr path_len args_ptr args_len s =
    Ok (Go (default U64_MAX r), set_kernel (set_cr3 (cr3 (kernel s)) (kernel s1)) s1).
Proof.
  intros Hu Es El path args Hp Ha Ho1 E1 H2 Hutf Er Ec. unfold sys_spawn.
  rewrite (proj2 (Z.eqb_neq path_len 0)), (proj2 (Z.ltb_ge 255 path_len)), (proj2 (Z.ltb_ge 255 args_len)) by lia. cbn [orb].
  unfold mbind at 1, Sys_bind at 1. rewrite copy_from_user_accepted by done. fold path. rewrite Hutf. cbn [negb].
  assert (Eargs : (if 0 <? args_len then copy_from_user wp args_ptr (Z.to_nat args_len) else mret []) s = Ok (Go args, s)).
  { destruct (Z.ltb_spec 0 args_len) as [Hlt|Hge].
    - destruct (H2 Hlt) as [? ?]. by rewrite copy_from_user_accepted.
    - unfold args. by replace (Z.to_nat args_len) with 0%nat by lia. }
  unfold mbind at 1, Sys_bind at 1. rewrite Eargs. unfold mbind at 1, Sys_bind at 1.
  by rewrite (under_kernel_table_ok _ s st r s1 Es El Er Ec).
Qed.

Lemma kernel_inv_cr3 spaces k st c : kernel_inv spaces k st -> kernel_inv spaces (set_cr3 c k) st.
Proof. intros [K1 K2 K3 K4 K5 K6 K7 K8 K9 K10 K11]. by split. Qed.

(** C17: [spawn] starts the program the caller named.  The path and the
    arguments are the bytes of the caller's memory; if the file system has a
    well-formed program under that path, [spawn] returns the id of a live
    thread in an address space of its own, in which the program finds its
    segments, its stack and these arguments; the invariant of the kernel
    holds, and the caller's page tables are active again.  Assumed is that
    ring 3 has no page in the upper half. *)
Theorem sys_spawn_correct spaces s st path_ptr path_len args_ptr args_len data e segs l4 rest p h id pmo frame_of d :
  no_user_high (phys (kernel s)) (cr3 (kernel s)) ->
  let path := user_bytes (phys (kernel s)) (cr3 (kernel s)) path_ptr (Z.to_nat path_len) in
  let args := user_bytes (phys (kernel s)) (cr3 (kernel s)) args_ptr (Z.to_nat args_len) in
  0 < path_len <= 255 -> 0 <= args_len <= 255 ->
  user_buffer path_ptr (Z.to_nat path_len) -> user_range_ok path_ptr (Z.to_nat path_len) false s = Ok (Go true, s) ->
  (0 < args_len -> user_buffer args_ptr (Z.to_nat args_len) /\ user_range_ok args_ptr (Z.to_nat args_len) false s = Ok (Go true, s)) ->
  is_utf8 path = true -> read_file fuel can_allocate path (disk s) = Ok (Some data, d) ->
  program_ok spaces (set_cr3 (kernel_page_table st) (kernel s)) st data args e segs l4 rest p h id pmo frame_of ->
  exists pid s' spaces' st',
    sys_spawn wp can_allocate fuel tramp ring3 path_ptr path_len args_ptr args_len s = Ok (Go pid, s') /\
    kernel_inv spaces' (kernel s') st' /\ threads st' !! id = Some (Some (program_thread ring3 args e segs l4 p)) /\
    ready_list (ready_queue st') = ready_list (ready_queue st) ++ [id] /\
    thread_alive pid (kernel s') = Ok (true, kernel s') /\ program_image (phys (kernel s')) l4 segs args /\
    cr3 (kernel s') = cr3 (kernel s) /\ console s' = console s /\ input s' = input s /\ disk s' = d.
Proof.
  intros Hh path args Hp Ha Ho1 E1 H2 Hutf Ef Hpo.
  assert (HK := po_inv _ _ _ _ _ _ _ _ _ _ _ _ _ _ Hpo).
  assert (Hslot := po_slot _ _ _ _ _ _ _ _ _ _ _ _ _ _ Hpo).
  assert (Hu : user_context s) by (destruct (ki_pmo _ _ _ HK) as (x & Hx & _); split; [eauto|done]).
  destruct (free_slot_not_live st id (ki_sched _ _ _ HK) Hslot) as (_ & _ & Hid & _).
  destruct (spawn_elf_starts spaces _ st tramp ring3 data args e segs l4 rest p h id pmo frame_of Hpo) as (g & q & sp1 & k1 & Es & Hst).
  destruct Hst as [HK1 [Hg Hgb] Hq Him _ (Hcr & _)].
  set (st1 := registered st id _ _ q) in HK1.
  assert (Ht1 : threads st1 !! id = Some (Some (program_thread ring3 args e segs l4 p)))
    by (apply list_lookup_insert_eq; by rewrite (si_threads st (ki_sched _ _ _ HK))).
  assert (Hg1 : slot_generations st1 !! id = Some (g + 1))
    by (apply list_lookup_insert_eq; by rewrite (si_generations st (ki_sched _ _ _ HK))).
  assert (HK2 := kernel_inv_cr3 _ _ _ (cr3 (kernel s)) HK1).
  set (s1 := mkSystem k1 (console s) (input s) d).
  exists (pack_pid id (g + 1)), (set_kernel (set_cr3 (cr3 (kernel s)) k1) s1), sp1, st1. split.
  { apply (sys_spawn_runs s st path_ptr path_len args_ptr args_len (Some (pack_pid id (g + 1))) s1); try done; [apply HK|apply HK|].
    unfold spawn_from_path. run_sys. fold path. rewrite Ef. fold args. run_sys. by rewrite Es. }
  cbn [set_kernel kernel console input disk]. split_and!; try done.
  by apply (thread_alive_slot sp1 _ st1 id (g + 1) (program_thread ring3 args e segs l4 p)); [|done|lia|..].
Qed.

(** [wait] waits for the thread it was given.  It returns the error
    value at once if the thread is not alive; otherwise it returns 0 the
    first time that it finds the thread dead after yielding, not before and
    not later. *)
Lemma sys_wait_correct (yield_now : Sys unit) (run : nat -> System H D) pid n rounds :
  (forall i, (i < n)%nat -> yield_now (run i) = Ok (Go tt, run (S i))) ->
  (forall i, (i < n)%nat -> thread_alive pid (kernel (run i)) = Ok (true, kernel (run i))) ->
  thread_alive pid (kernel (run n)) = Ok (false, kernel (run n)) -> (n <= rounds)%nat ->
  sys_wait yield_now rounds pid (run 0%nat) = Ok (Go (if (n =? 0)%nat then U64_MAX else 0), run n).
Proof.
  intros Hy Hal Hd Hr.
  assert (Hk : forall s b, thread_alive pid (kernel s) = Ok (b, kernel s) ->
    on_kernel (thread_alive pid) s = Ok (Go b, s)).
  { intros s b E. unfold on_kernel. rewrite E. cbn. by destruct s. }
  assert (Hl : forall m i, (i + m = n)%nat -> forall rounds, (m <= rounds)%nat -> wait_loop yield_now rounds pid (run i) = Ok (Go 0, run n)).
  { induction m as [|m IH]; intros i Hi rd Hm.
    - assert (i = n) as -> by lia. destruct rd; cbn [wait_loop]; unfold mbind, Sys_bind; by rewrite (Hk _ _ Hd).
    - destruct rd as [|rd]; [lia|]. cbn [wait_loop]. unfold mbind, Sys_bind. rewrite (Hk _ _ (Hal i ltac:(lia))). cbn [negb].
      rewrite (Hy i) by lia. apply (IH (S i)); lia. }
  unfold sys_wait. unfold mbind, Sys_bind. destruct n as [|n].
  - by rewrite (Hk _ _ Hd).
  - rewrite (Hk _ _ (Hal 0%nat ltac:(lia))). cbn [negb Nat.eqb]. apply (Hl (S n) 0%nat); lia.
Qed.
End Handlers.
