(* ===== verification/SyscallSamples.v ===== *)
(** * Concrete system calls

    A kernel with a page of user memory that holds a path, a console, and a
    disk with a program: the theorems on system calls at work. *)

From S2P Require Import Prelude Ring X86 FrameAlloc Paging AddressSpace Mapper MapperRef Threads Scheduler SchedulerInv.
From S2P Require Import SchedulerThms Ata Fat FatThms Vga Keyboard Elf ElfImage ElfLoad Utf8 SpawnInv Process Syscall SyscallThms SyscallIo.

#[local] Existing Instance x86_crate.
#[local] Existing Instance ref_mapper.

(** The page at 0x610000000000 is the frame 0x1a000; the name a.txt is at
    its start. *)
Definition user_page_base : Z := 0x610000000000.
Definition user_memory_with (content : list Z) : mem :=
  write_list (set_table_entry (set_table_entry (set_table_entry (set_table_entry sample_phys
    0x11000 194 0x17007) 0x17000 0 0x18007) 0x18000 0 0x19007) 0x19000 0 0x1a007) 0x1a000 content.
Definition user_phys : mem := user_memory_with a_txt.

Lemma user_memory_ok content : Forall is_u8 content -> mem_ok (user_memory_with content).
Proof. intros Hc. apply mem_ok_write_list; [do 4 apply mem_ok_set_table_entry; apply sample_phys_ok|done]. Qed.

Lemma user_phys_ok : mem_ok user_phys.
Proof. apply user_memory_ok. unfold a_txt. repeat constructor; unfold is_u8; lia. Qed.

Lemma empty_upper_half m cr3 :
  forallb (fun i => table_entry m cr3 i =? 0) (seq 256 256) = true -> no_user_high m cr3.
Proof.
  intros Hall x w Hx. unfold mmu_access. destruct (bool_decide_reflect (canonical x)) as [Hc|]; [|done].
  assert (Hi : (256 <= hw_index 4 x < 512)%nat).
  { unfold hw_index, level_shift. change (12 + 9 * (Z.of_nat 4 - 1)) with 39. unfold canonical in Hc.
    assert (2 ^ 25 - 2 ^ 8 <= x / 2 ^ 39 < 2 ^ 25)
      by (split; [apply Z.div_le_lower_bound|apply Z.div_lt_upper_bound]; lia).
    pose proof (Z.mod_pos_bound (x / 2 ^ 39) 512). pose proof (Z.div_mod (x / 2 ^ 39) 512).
    assert ((x / 2 ^ 39) / 512 = 65535) by lia. lia. }
  assert (E : table_entry m cr3 (hw_index 4 x) = 0).
  { rewrite forallb_forall in Hall. apply Z.eqb_eq, Hall, in_seq. lia. }
  cbn [mmu_walk]. by rewrite E.
Qed.

Lemma user_phys_high : no_user_high user_phys 0x11000.
Proof. apply empty_upper_half. vm_compute. reflexivity. Qed.

(** Whether a small buffer is apart from the tables that map it. *)
Definition data_apart_b (m : mem) (cr3 ptr : Z) (n : nat) : bool :=
  let xs := (fun i => ptr + Z.of_nat i) <$> seq 0 n in
  forallb (fun x => forallb (fun y =>
    match mmu_access m cr3 x true with
    | None => true
    | Some p => ((x =? y) || negb (bool_decide (mmu_access m cr3 y true = Some p))) &&
        forallb (fun a => (p <? a) || (a + 8 <=? p)) (walk_entries m cr3 4 y)
    end) xs) xs.

Lemma data_apart_b_true m cr3 ptr n : data_apart_b m cr3 ptr n = true -> data_apart m cr3 ptr n.
Proof.
  unfold data_apart_b. intros Hb. rewrite forallb_forall in Hb.
  assert (Hin : forall x, ptr <= x < ptr + Z.of_nat n -> In x ((fun i => ptr + Z.of_nat i) <$> seq 0 n)).
  { intros x Hx. apply list_elem_of_In, list_elem_of_fmap. exists (Z.to_nat (x - ptr)). split; [lia|]. apply elem_of_seq. lia. }
  split; intros x y p Hx Hy Hp.
  - intros Hq. specialize (Hb x (Hin x Hx)). rewrite forallb_forall in Hb. specialize (Hb y (Hin y Hy)). rewrite Hp in Hb.
    apply andb_true_iff in Hb as [Hb _]. rewrite bool_decide_true in Hb by done. cbn [negb] in Hb.
    rewrite orb_false_r in Hb. by apply Z.eqb_eq.
  - specialize (Hb x (Hin x Hx)). rewrite forallb_forall in Hb. specialize (Hb y (Hin y Hy)). rewrite Hp in Hb.
    apply andb_true_iff in Hb as [_ Hb]. rewrite forallb_forall in Hb. apply Forall_forall. intros a Ha%list_elem_of_In.
    specialize (Hb a Ha). lia.
Qed.

(** A second kernel thread runs. *)
Lemma sample_caller_in m : mem_ok m ->
  exists k s t, kernel_inv (fun _ => ∅) k s /\ current s = 1%nat /\ phys k = m /\ cr3 k = 0x11000 /\
    threads s !! 1%nat = Some (Some t) /\ zombie s = None /\ open_files t = no_open_files /\
    (forall id u, threads s !! id = Some (Some u) -> Threads.page_table u = None).
Proof.
  intros Hm. destruct sample_ram_frames as [Hnd Hok].
  destruct (sample_started_ok (fun _ => ∅) m sample_ram Hm sample_ram_ok Hnd Hok) as (_ & HK & (t & Ht & Hc & Hr)).
  destruct (spawn_ok (fun _ => ∅) (sample_started m sample_ram) (boot_state 0x11000) 0x10000 0x20000 0x444444441000
    (mkBumpHeap 0x444444451000 [(0x444444441000, Threads.STACK_SIZE)]) 1) as (k & g & q & _ & _ & HK' & Hq & E1 & E2 & E3 & E4 & _);
    [done|done|done|by repeat constructor|].
  set (s := registered _ _ _ _ _) in HK'.
  assert (Hrun : running k s) by (exists t; split_and!; [done|by rewrite E1|by rewrite E2]).
  assert (Ht1 : threads s !! 1%nat = Some (Some (spawned 0x444444441000 0x20000))) by done.
  destruct (turns_quiet (fun _ => ∅) k s 1 HK' Hrun eq_refl) as (k1 & s1 & _ & HK1 & Hrun1 & Ho & Hz1 & Hs1 & _ & _ & Hp1 & Hk1); [cbn [current s registered set_ready_queue set_threads set_generations length]; lia|].
  assert (Ho' : current s1 :: ready_list (ready_queue s1) = drop 1 (0%nat :: [1%nat]) ++ take 1 (0%nat :: [1%nat])).
  { rewrite Ho. change (ready_list (ready_queue s)) with (ready_list q). rewrite Hq. done. }
  injection Ho' as Hc1 _. destruct (similar_lookup _ _ _ _ Hs1 Ht1) as (t1 & Ht1' & Hres).
  assert (Hno : forall id u, threads s1 !! id = Some (Some u) -> Threads.page_table u = None).
  { intros id u Hu. destruct (similar_lookup_r _ _ _ _ Hs1 Hu) as (u0 & Hu0 & (_ & _ & -> & _)).
    destruct id as [|[|id]]; [by injection Hu0 as <-|by injection Hu0 as <-|].
    cbn [s registered boot_state threads set_ready_queue set_threads set_generations] in Hu0.
    assert (Hr0 : replicate (MAX_THREADS - 2) (@None Thread) !! id = Some (Some u0)) by exact Hu0. by apply lookup_replicate_1 in Hr0 as [? _]. }
  exists k1, s1, t1. split_and!; try done; [by rewrite Hp1, E4| |apply Hres].
  destruct Hrun1 as (u & Hu & Hcr & _). rewrite Hc1, Ht1' in Hu. injection Hu as <-.
  assert (Hpt : Threads.page_table t1 = None) by (destruct Hres as (_ & _ & Hpt & _); by rewrite Hpt).
  rewrite Hpt in Hcr. by rewrite Hcr, Hk1.
Qed.

Lemma sample_caller :
  exists k s t, kernel_inv (fun _ => ∅) k s /\ current s = 1%nat /\ phys k = user_phys /\ cr3 k = 0x11000 /\
    threads s !! 1%nat = Some (Some t) /\ zombie s = None /\ open_files t = no_open_files /\
    (forall id u, threads s !! id = Some (Some u) -> Threads.page_table u = None).
Proof. apply sample_caller_in, user_phys_ok. Qed.

(** ** The calls *)

Definition sample_console : Console :=
  mkConsole (mkWriter 0 14 (replicate BUFFER_HEIGHT (replicate BUFFER_WIDTH (mkScreenChar 32 14)))) false true.
Definition sample_terminal : Terminal :=
  mkTerminal (replicate (BUFFER_HEIGHT - 1) (replicate BUFFER_WIDTH (mkScreenChar 32 14))) [].

Lemma sample_console_shows : shows (writer sample_console) sample_terminal.
Proof.
  split_and!; [cbn; unfold BUFFER_WIDTH; lia|done|by apply Forall_replicate, length_replicate|
    cbn [lines sample_terminal]; rewrite length_replicate; lia|reflexivity].
Qed.

(** The keys h, i were typed. *)
Definition sample_input : InputQueue := mkInputQueue (104 :: 105 :: replicate 126 0) 0 2.

Lemma sample_input_ok : input_inv sample_input /\ input_list sample_input = [104; 105].
Proof. split; [|vm_compute; reflexivity]. unfold input_inv, ring_inv, INPUT_QUEUE_CAPACITY. cbn. lia. Qed.

#[local] Instance no_file_disk : SectorDisk SimDrive := sample_disk 1 2 600.
Definition sample_system (k : Kernel BumpHeap) : System BumpHeap SimDrive :=
  mkSystem k sample_console sample_input sample_drive.

Lemma sample_user_buffer : user_buffer user_page_base 5.
Proof. unfold user_buffer, user_page_base. lia. Qed.

Lemma sample_accepted k w : phys k = user_phys -> cr3 k = 0x11000 -> is_Some (physical_memory_offset k) ->
  user_range_ok user_page_base 5 w (sample_system k) = Ok (Go true, sample_system k).
Proof.
  intros Hp Hc Hpmo. rewrite user_range_ok_low; [|done|unfold user_page_base; lia].
  cbn [sample_system kernel]. rewrite Hp, Hc.
  assert (E : user_range_mapped user_phys 0x11000 user_page_base (Z.of_nat 5) w = Ok true) by (destruct w; vm_compute; reflexivity).
  by rewrite E.
Qed.

Lemma bad_pointer_kills_caller_witness :
  exists k e s', dispatch true (fun _ => true) 2 0x10000 0x20000 (mret tt) 0 SYS_READ 0 0 4 0 (sample_system k) = Ok (Gone e, s') /\
    input s' = sample_input.
Proof.
  destruct sample_caller as (k & s & t & HK & Hc & Hp & Hcr & _).
  destruct (bad_pointer_kills_caller true (fun _ => true) 2 0x10000 0x20000 (mret tt) 0 (fun _ => ∅) (sample_system k) s
    sample_terminal SYS_READ 0 0 4 0 0 4 true) as [(e & s' & reason & E & Hk)|(Hno & _)].
  - exact HK.
  - by rewrite Hc.
  - exact sample_console_shows.
  - reflexivity.
  - cbn [sample_system kernel]. rewrite Hp, Hcr. exact user_phys_high.
  - repeat constructor; unfold is_u64; lia.
  - left.
  - by left.
  - exists k, e, s'. split; [exact E|]. exact (kd_input _ _ _ _ _ _ Hk).
  - discriminate Hno.
Defined.

Lemma sys_write_correct_witness :
  exists k s', sys_write true 1 user_page_base 5 (sample_system k) = Ok (Go 5, s') /\ kernel s' = k.
Proof.
  destruct sample_caller as (k & s & t & HK & Hc & Hp & Hcr & _).
  destruct (sys_write_correct true (fun _ => ∅) (sample_system k) s sample_terminal 1 user_page_base 5) as (b & E & _ & Hb).
  - exact HK.
  - by rewrite Hc.
  - exact sample_console_shows.
  - reflexivity.
  - cbn [sample_system kernel]. rewrite Hp, Hcr. exact user_phys_high.
  - lia.
  - exact sample_user_buffer.
  - destruct (ki_pmo _ _ _ HK) as (pmo & Hpmo & _).
    assert (E' := sample_accepted k false Hp Hcr (mk_is_Some _ _ Hpmo)). change (Z.to_nat (5 `min` 1024)) with 5%nat in E.
    rewrite E in E'. injection E' as ->. destruct Hb as (w & Ew & _). exists k. eexists. split; [exact Ew|reflexivity].
Defined.

Lemma sys_read_stdin_correct_witness :
  exists k s', sys_read_stdin true user_page_base 5 (sample_system k) = Ok (Go 2, s') /\ input_list (input s') = [] /\
    user_bytes (phys (kernel s')) 0x11000 user_page_base 2 = [104; 105].
Proof.
  destruct sample_caller as (k & s & t & HK & Hc & Hp & Hcr & _). destruct sample_input_ok as [Hi Hl].
  destruct (sys_read_stdin_correct true (fun _ => ∅) (sample_system k) s sample_terminal user_page_base 5) as (b & E & Hb).
  - exact HK.
  - by rewrite Hc.
  - exact sample_console_shows.
  - reflexivity.
  - exact Hi.
  - cbn [sample_system kernel]. rewrite Hp, Hcr. exact user_phys_high.
  - exact sample_user_buffer.
  - cbn [sample_system kernel]. rewrite Hp, Hcr. apply data_apart_b_true. vm_compute. reflexivity.
  - destruct (ki_pmo _ _ _ HK) as (pmo & Hpmo & _). rewrite (sample_accepted k true Hp Hcr (mk_is_Some _ _ Hpmo)) in E.
    injection E as <-. cbn [sample_system input kernel] in Hb. rewrite Hl in Hb. destruct Hb as (m' & q & Eb & [Hd _] & _ & Hq).
    exists k. eexists. split; [exact Eb|]. split; [exact Hq|]. cbn [kernel phys set_memory]. rewrite Hcr in Hd. exact Hd.
Defined.

Lemma file_session_witness :
  exists (k k1 k2 : Kernel BumpHeap) chunks, open_file [1; 2; 3; 4; 5] k = Ok (Some 2, k1) /\ reads 2 [2; 2; 2]%nat k1 = Ok (chunks, k2) /\
    concat chunks = [1; 2; 3; 4; 5] /\ close_file 2 k2 = Ok (true, k).
Proof.
  destruct sample_ram_frames as [Hnd Hok].
  destruct (sample_started_ok (fun _ => ∅) user_phys sample_ram user_phys_ok sample_ram_ok Hnd Hok) as (_ & HK & _).
  destruct (file_session (sample_started user_phys sample_ram) (boot_state 0x11000) boot_thread [1; 2; 3; 4; 5] 0 [2; 2; 2]%nat 1)
    as (k1 & k2 & chunks & E1 & E2 & E3 & _ & E4 & _).
  - reflexivity.
  - reflexivity.
  - reflexivity.
  - reflexivity.
  - cbn. unfold MAX_OPEN_FILES. lia.
  - exists (sample_started user_phys sample_ram), k1, k2, chunks. split; [exact E1|]. split; [exact E2|]. split; [exact E3|exact E4].
Defined.

(** Thread 1 is waited for and found dead after two turns of the others. *)
Definition waited (alive : bool) (ticks : Z) : System BumpHeap SimDrive :=
  sample_system (set_rsp ticks (set_scheduler (Some (mkSchedulerState
    (Some boot_thread :: (if alive then Some boot_thread else None) :: replicate 14 None) ready_queue_new 0 0x11000 None
    (1 :: 1 :: replicate 14 0))) false (sample_started user_phys sample_ram))).
Definition waited_yield : Sys (H := BumpHeap) (D := SimDrive) unit := fun s =>
  Ok (Go tt, waited (rsp (kernel s) <? 1) (rsp (kernel s) + 1)).

Lemma sys_wait_correct_witness :
  sys_wait waited_yield 5 (pack_pid 1 1) (waited true 0) = Ok (Go 0, waited false 2).
Proof.
  apply (sys_wait_correct waited_yield (fun i => waited (i <? 2)%nat (Z.of_nat i)) (pack_pid 1 1) 2 5).
  - intros [|[|i]] Hi; [reflexivity|reflexivity|lia].
  - intros [|[|i]] Hi; [reflexivity|reflexivity|lia].
  - reflexivity.
  - lia.
Defined.

(** The file a.txt is a program. *)
Definition program_volume (drive : Drive) (lba : Z) : list Z :=
  if lba =? 3 then sample_program ++ replicate 390 0
  else sample_volume 1 2 122 drive lba.

Definition program_disk : SectorDisk SimDrive :=
  @ata_disk SimDrive (sim_io program_volume 3) (sim_drive program_volume 3 sample_seek).

Lemma program_file :
  exists d', @read_file _ program_disk 2 (fun _ => true) a_txt sample_drive = Ok (Some sample_program, d').
Proof.
  destruct (@read_file_ok SimDrive program_disk 2 (fun _ => true) a_txt sample_drive) as (d' & E & _).
  - split; [by eexists|]. cbn. lia.
  - assert (El : @disk_lookup _ program_disk a_txt =
      Some (mkBiosParameterBlock 1 1 16 1 1, mkDirEntry 2 122)) by (vm_compute; reflexivity).
    intros b e. rewrite El. intros [= <- <-]. split; [done|]. intros _. cbn [sectors_per_cluster file_size]. split_and!; [lia| |].
    + vm_compute. lia.
    + assert (Hc : @clusters _ program_disk (mkBiosParameterBlock 1 1 16 1 1)
        (clusters_needed (mkBiosParameterBlock 1 1 16 1 1) 122) 2 = [2]) by (vm_compute; reflexivity).
      cbn [first_cluster]. rewrite Hc. repeat constructor; lia.
  - exists d'. rewrite E. vm_compute. reflexivity.
Qed.

Lemma user_stack_mapped q :
  q ∈ stack_pages sample_stack ->
  hw_index 4 q ∉ [0%nat; va_index 4 (3 * 2 ^ 39)] /\
  q ∉ [0x600000002000; 0x600000003000; 0x600000000000] /\
  SpawnIsolated.kernel_maps user_phys 0x11000 (0x100000 :: stride 0x101000 4096 255) q (sample_frame_of q).
Proof.
  assert (Hall : forallb (fun q => bool_decide (hw_index 4 q ∉ [0%nat; va_index 4 (3 * 2 ^ 39)]) &&
      bool_decide (q ∉ [0x600000002000; 0x600000003000; 0x600000000000]) &&
      kernel_maps_b user_phys 0x11000 (0x100000 :: stride 0x101000 4096 255) q (sample_frame_of q))
    (stack_pages sample_stack) = true) by (vm_compute; reflexivity).
  intros Hq%list_elem_of_In. rewrite forallb_forall in Hall. specialize (Hall q Hq).
  rewrite !andb_true_iff, !bool_decide_eq_true in Hall. destruct Hall as [[H1 H2] H3%kernel_maps_b_true]. done.
Qed.

Lemma user_program_ok :
  program_ok (fun _ => ∅) (sample_started user_phys sample_ram) (boot_state 0x11000) sample_program [97; 46]
    0x600000000000 [mkSegment [0xeb; 0xfe] 0x600000000000 0x20 false] 0x100000 (stride 0x101000 4096 255)
    sample_stack (mkBumpHeap 0x444444451000 [(sample_stack, Threads.STACK_SIZE)]) 1 (3 * 2 ^ 39) sample_frame_of.
Proof.
  destruct sample_ram_lawful as [Hi Hav], sample_ram_frames as [Hnd Hok], sample_program_parses as (P1 & P2 & P3).
  destruct (sample_started_ok (fun _ => ∅) user_phys sample_ram user_phys_ok sample_ram_ok Hnd Hok) as (_ & HK & _).
  split.
  - exact HK.
  - exact P1.
  - exact P2.
  - split; [exact P3|]. repeat constructor; unfold is_u8; lia.
  - lia.
  - apply sample_program_layout.
  - split; [reflexivity|]. unfold canonical. lia.
  - exact Hav.
  - unfold frames_apart, PAGE_SIZE. cbn. lia.
  - vm_compute. lia.
  - vm_compute. reflexivity.
  - reflexivity.
  - by repeat constructor.
  - apply user_stack_mapped.
Qed.

Definition spawn_system : System BumpHeap SimDrive :=
  mkSystem (sample_started user_phys sample_ram) sample_console sample_input sample_drive.

Lemma sys_spawn_correct_witness :
  exists pid s', @sys_spawn _ _ _ _ _ program_disk true (fun _ => true) 2 0x10000 0x20000 user_page_base 5 user_page_base 2 spawn_system = Ok (Go pid, s') /\
    thread_alive pid (kernel s') = Ok (true, kernel s').
Proof.
  destruct program_file as (d' & Ef).
  assert (Hok : forall n w, n = 5%nat \/ n = 2%nat ->
    @user_range_ok _ _ SimDrive user_page_base n w spawn_system = Ok (Go true, spawn_system)).
  { intros n w Hn. rewrite user_range_ok_low; [|by eexists|unfold user_page_base; lia].
    assert (E : user_range_mapped user_phys 0x11000 user_page_base (Z.of_nat n) w = Ok true)
      by (destruct Hn as [ -> | -> ], w; vm_compute; reflexivity).
    change (phys (kernel spawn_system)) with user_phys. change (cr3 (kernel spawn_system)) with 0x11000. by rewrite E. }
  destruct (@sys_spawn_correct _ _ _ _ _ program_disk true (fun _ => true) 2 0x10000 0x20000 (fun _ => ∅) spawn_system (boot_state 0x11000)
    user_page_base 5 user_page_base 2 sample_program 0x600000000000 [mkSegment [0xeb; 0xfe] 0x600000000000 0x20 false] 0x100000
    (stride 0x101000 4096 255) sample_stack (mkBumpHeap 0x444444451000 [(sample_stack, Threads.STACK_SIZE)]) 1 (3 * 2 ^ 39)
    sample_frame_of d') as (pid & s' & _ & _ & E & _ & _ & _ & Ha & _).
  - exact user_phys_high.
  - lia.
  - lia.
  - exact sample_user_buffer.
  - by apply Hok; left.
  - intros _. split; [unfold user_buffer, user_page_base; lia|by apply Hok; right].
  - vm_compute. reflexivity.
  - change (user_bytes (phys (kernel spawn_system)) (cr3 (kernel spawn_system)) user_page_base (Z.to_nat 5))
      with (user_bytes user_phys 0x11000 user_page_base 5).
    assert (Eb : user_bytes user_phys 0x11000 user_page_base 5 = a_txt) by (vm_compute; reflexivity). rewrite Eb. exact Ef.
  - change (user_bytes (phys (kernel spawn_system)) (cr3 (kernel spawn_system)) user_page_base (Z.to_nat 2))
      with (user_bytes user_phys 0x11000 user_page_base 2).
    assert (Eb : user_bytes user_phys 0x11000 user_page_base 2 = [97; 46]) by (vm_compute; reflexivity). rewrite Eb.
    exact user_program_ok.
  - exists pid, s'. split; [exact E|exact Ha].
Defined.
