(* ===== verification/SyscallTypes.v ===== *)
(** * The types of the system calls (src/syscall.rs, src/scheduler/mod.rs)

    A Rust array has the length its type says, and a system call returns a
    [u64] in RAX.  In the model both are lists and integers, so that these
    are theorems: the operations of the scheduler keep the arrays at their
    lengths, and what each system call returns is in the range its
    documentation gives.  The operations are followed one by one with the
    rules of two small logics, for the kernel ([typed]) and for the system
    calls ([sys_typed]). *)

From S2P Require Import Prelude Ring X86 FrameAlloc Paging AddressSpace Mapper MapperRef Mappings Elf Threads Scheduler Keeps Ata Fat FatThms Vga Utf8 Keyboard.
From S2P Require Import SchedulerInv SpawnInv SpawnIsolated SchedulerThms ElfLoad Process Syscall SyscallThms SyscallIo SyscallSamples.

(** ** Types *)

(** [open_files: [Option<OpenFile>; MAX_OPEN_FILES]]. *)
Definition thread_typed (t : Thread) : Prop := length (open_files t) = MAX_OPEN_FILES.

(** [threads: [Option<Thread>; MAX_THREADS]], [slot_generations: [u64;
    MAX_THREADS]], and the ids of the ready queue. *)
Record state_typed (s : SchedulerState) : Prop := {
  ty_threads : length (threads s) = MAX_THREADS;
  ty_thread id t : threads s !! id = Some (Some t) -> thread_typed t;
  ty_generations : length (slot_generations s) = MAX_THREADS /\ Forall is_u64 (slot_generations s);
  ty_queue : length (ids (ready_queue s)) = MAX_THREADS;
}.

Definition option_typed (o : option SchedulerState) : Prop := forall s, o = Some s -> state_typed s.
Definition kernel_typed {H} (k : Kernel H) : Prop := option_typed (scheduler k).

Lemma option_typed_Some s : option_typed (Some s) <-> state_typed s.
Proof. split; [by intros Hs; apply Hs|]. by intros Hs s' [= <-]. Qed.

(** ** Process ids *)

Lemma pack_pid_slot slot g : (slot < 256)%nat -> is_u64 (pack_pid slot g) /\ (unpack_pid (pack_pid slot g)).1 = slot.
Proof.
  intros Hs. set (x := Z.shiftl g 8 mod 2 ^ 64). assert (Hx : 0 <= x < 2 ^ 64) by (apply Z.mod_pos_bound; lia).
  assert (Hm : x mod 2 ^ 8 = 0).
  { unfold x. rewrite Z.shiftl_mul_pow2 by lia. change (2 ^ 64) with (2 ^ 56 * 2 ^ 8). rewrite Zmult_mod_distr_r. by apply Z_mod_mult. }
  assert (Hl : Z.land x (Z.of_nat slot) = 0).
  { apply Z.bits_inj'. intros i Hi. rewrite Z.land_spec, Z.bits_0. destruct (Z.lt_ge_cases i 8).
    - rewrite <- (Z.mod_pow2_bits_low x 8 i) by lia. by rewrite Hm, Z.bits_0.
    - rewrite <- (Z.mod_small (Z.of_nat slot) (2 ^ 8)) by lia. rewrite (Z.mod_pow2_bits_high _ 8 i) by lia. apply andb_false_r. }
  assert (E : pack_pid slot g = x + Z.of_nat slot) by (unfold pack_pid; fold x; by rewrite <- Z.lxor_lor, Z.add_nocarry_lxor).
  rewrite E. unfold unpack_pid. cbn [fst]. change 0xff with (Z.ones 8). rewrite Z.land_ones by lia.
  unfold is_u64. Z.to_euclidean_division_equations. lia.
Qed.

(** ** The kernel *)

Section Kernel.
Context {crate : X86Crate} {mapper : PageMapper} {H : Type} {kheap : KernelHeap H}.
Implicit Types (k : Kernel H) (s : SchedulerState) (t : Thread).
Local Abbreviation K := (M (Kernel H)).

(** [f] keeps the types, and its result is as [Q] says. *)
Local Abbreviation typed := (keeps option_typed).

Lemma typed_with_scheduler {A} msg (f : SchedulerState -> outcome (A * SchedulerState)) (Q : A -> Prop) :
  (forall s a s', state_typed s -> f s = Ok (a, s') -> state_typed s' /\ Q a) -> typed (with_scheduler (H := H) msg f) Q.
Proof.
  intros Hf. apply keeps_with_scheduler. intros s a s' Hs%option_typed_Some E. rewrite option_typed_Some. by apply (Hf s).
Qed.

(** *** The thread that runs *)

Lemma set_thread_typed s id t : state_typed s -> thread_typed t -> state_typed (set_threads (<[id := Some t]> (threads s)) s).
Proof.
  intros [T1 T2 T3 T4] Ht. split; cbn [threads ready_queue slot_generations set_threads]; [by rewrite length_insert| |done|done].
  intros id' t' [(-> & [= ->] & _)|[_ Hl]]%list_lookup_insert_Some; [done|by eapply T2].
Qed.

Lemma typed_with_current_thread {A} (f : Thread -> outcome (A * Thread)) (Q : A -> Prop) :
  (forall t a t', thread_typed t -> f t = Ok (a, t') -> thread_typed t' /\ Q a) -> typed (with_current_thread (H := H) f) Q.
Proof.
  intros Hf. apply keeps_with_current_thread. intros s t a t' Hs%option_typed_Some Et Ef. rewrite option_typed_Some.
  destruct (Hf t a t' (ty_thread s Hs _ _ Et) Ef). split; [by apply set_thread_typed|done].
Qed.

Lemma set_open_files_typed t i f : thread_typed t -> thread_typed (set_open_files (<[i := f]> (open_files t)) t).
Proof. unfold thread_typed. cbn. by rewrite length_insert. Qed.

Lemma open_file_typed d : typed (open_file (H := H) d) (fun fd => forall x, fd = Some x -> FIRST_FILE_FD <= x < FIRST_FILE_FD + Z.of_nat MAX_OPEN_FILES).
Proof.
  apply typed_with_current_thread. intros t a t' Ht. unfold open_file_body. destruct (position_none (open_files t)) as [i|] eqn:Ei.
  - assert (Hi := lookup_lt_Some _ _ _ (proj1 (position_none_Some _ _ Ei))). rewrite Ht in Hi. unfold MAX_OPEN_FILES, FIRST_FILE_FD in *.
    unfold add_w. destruct (_ <? _); [|done]. cbn [mbind outcome_bind]. intros [= <- <-]. split; [by apply set_open_files_typed|]. intros x [= <-]. lia.
  - by intros [= <- <-].
Qed.

Lemma read_open_file_typed fd n : typed (read_open_file (H := H) fd n) (fun r => forall bs, r = Some bs -> (length bs <= n)%nat).
Proof.
  apply typed_with_current_thread. intros t a t' Ht. unfold read_open_file_body. destruct (checked_sub _ _) as [i|]; [|by intros [= <- <-]].
  destruct (open_files t !! Z.to_nat i) as [[f|]|]; [|by intros [= <- <-]..]. destruct (slice _ _ _) as [r|]; [|done].
  cbn [expect mbind outcome_bind]. intros [= <- <-]. split; [by apply set_open_files_typed|]. intros bs [= <-]. rewrite length_take. lia.
Qed.

Lemma close_file_typed fd : typed (close_file (H := H) fd) (fun _ => True).
Proof.
  apply typed_with_current_thread. intros t a t' Ht. unfold close_file_body. destruct (checked_sub _ _) as [i|]; [|by intros [= <- <-]].
  destruct (open_files t !! Z.to_nat i) as [[f|]|]; [|by intros [= <- <-]..]. intros [= <- <-]. split; [by apply set_open_files_typed|done].
Qed.

Lemma get_kernel_page_table_typed : typed (get_kernel_page_table (H := H)) (fun _ => True).
Proof. apply keeps_without_interrupts, typed_with_scheduler. by intros s a s' Hs [= <- <-]. Qed.

(** *** New threads *)

(** A process id: its slot is one of the table. *)
Definition pid_typed (pid : Pid) : Prop := is_u64 pid /\ ((unpack_pid pid).1 < MAX_THREADS)%nat.

Lemma register_thread_typed t s pid s' : thread_typed t -> state_typed s -> register_thread t s = Ok (pid, s') -> state_typed s' /\ pid_typed pid.
Proof.
  intros Ht [T1 T2 [T3 T4] T5]. unfold register_thread. destruct (position_none (threads s)) as [id|] eqn:Ei; [|done].
  assert (Hid := lookup_lt_Some _ _ _ (proj1 (position_none_Some _ _ Ei))). rewrite T1 in Hid. cbn [expect mbind outcome_bind].
  destruct (slot_generations s !! id) as [g|] eqn:Eg; [|done]. cbn [expect mbind outcome_bind]. unfold add_w.
  destruct (Z.ltb_spec (g + 1) (2 ^ 64)) as [Hg|]; [|done]. cbn [mbind outcome_bind]. unfold push_back. destruct (_ <? _)%nat; [|done].
  cbn [assert_ mbind outcome_bind]. intros [= <- <-]. assert (Hg0 := Forall_lookup_1 _ _ _ _ T4 Eg). cbn beta in Hg0. unfold is_u64 in Hg0. split.
  - split; cbn [threads ready_queue slot_generations set_ready_queue set_threads set_generations ids]; [by rewrite length_insert| | |by rewrite length_insert].
    + intros id' t' [(-> & [= ->] & _)|[_ Hl]]%list_lookup_insert_Some; [done|by eapply T2].
    + rewrite length_insert. split; [done|]. apply Forall_insert; [done|]. unfold is_u64. lia.
  - destruct (pack_pid_slot id (g + 1)) as [Hu Hs]; [unfold MAX_THREADS in Hid; lia|]. split; [done|]. by rewrite Hs.
Qed.

Lemma spawn_isolated_inner_typed tramp entry user l4 kt : typed (spawn_isolated_inner (H := H) tramp entry user l4 kt) pid_typed.
Proof.
  apply keeps_spawn_isolated_inner. intros base sp s pid s' Hs%option_typed_Some E. rewrite option_typed_Some.
  by eapply register_thread_typed; [|exact Hs|exact E].
Qed.

Lemma spawn_elf_typed tramp ring3 data args : typed (spawn_elf (H := H) tramp ring3 data args) (fun r => forall pid, r = Some pid -> pid_typed pid).
Proof.
  intros k a k' Hk. unfold spawn_elf. destruct (physical_memory_offset k); [|done]. cbn [expect mbind outcome_bind].
  destruct (load _ _ _ _ _) as [[[l|] [m b]]|]; [| |done]; cbn [mbind outcome_bind]; [|by intros [= <- <-]].
  destruct (spawn_user _ _ _ _ _ _ _ _ _) as [[pid k2]|] eqn:E; [|done]. cbn [mbind outcome_bind]. intros [= <- <-].
  destruct (spawn_isolated_inner_typed _ _ _ _ _ (set_memory m b k) _ _ Hk E) as [Hk2 Hpid]. split; [done|]. by intros pid' [= <-].
Qed.

(** *** Turns *)

Lemma clear_thread_typed s id : state_typed s -> state_typed (set_threads (<[id := None]> (threads s)) s).
Proof.
  intros [T1 T2 T3 T4]. split; cbn [threads ready_queue slot_generations set_threads]; [by rewrite length_insert| |done|done].
  intros id' t' [(-> & [=] & _)|[_ Hl]]%list_lookup_insert_Some. by eapply T2.
Qed.

Lemma reap_zombie_typed : typed (reap_zombie (H := H)) (fun _ => True).
Proof.
  apply keeps_reap_zombie. intros s z Hs%option_typed_Some _. rewrite !option_typed_Some.
  assert (Hz : state_typed (set_zombie None s)) by (by destruct Hs). split; [done|]. by apply (clear_thread_typed (set_zombie None s)).
Qed.

Lemma current_typed s t t' : option_typed (Some s) -> threads s !! current s = Some (Some t) ->
  t' = set_entry None t \/ t' = set_user_entry None t ->
  option_typed (Some (set_threads (<[current s := Some t']> (threads s)) s)).
Proof.
  rewrite !option_typed_Some. intros Hs Et Ht'. apply set_thread_typed; [done|].
  assert (Ht := ty_thread s Hs _ _ Et). by destruct Ht' as [->| ->].
Qed.

Lemma saved_typed s id sp : option_typed (Some s) ->
  option_typed (Some (set_threads (alter (fmap (set_stack_pointer sp)) id (threads s)) s)).
Proof.
  rewrite !option_typed_Some. intros [T1 T2 T3 T4].
  split; cbn [threads ready_queue slot_generations set_threads]; [by rewrite length_alter| |done|done].
  intros id' t. destruct (decide (id' = id)) as [->|Hne]; [|rewrite list_lookup_alter_ne by done; apply T2].
  rewrite list_lookup_alter_eq. destruct (threads s !! id) as [[u|]|] eqn:Eu; cbn; [|by intros [=]..]. intros [= <-]. apply (T2 id u Eu).
Qed.

Lemma pop_front_typed q x q' : pop_front q = Ok (x, q') -> ids q' = ids q.
Proof. unfold pop_front. destruct (len q =? 0)%nat; [by intros [= <- <-]|]. destruct (ids q !! head q); [|done]. by intros [= <- <-]. Qed.

Lemma push_back_typed q id q' : push_back q id = Ok q' -> length (ids q') = length (ids q).
Proof. unfold push_back. destruct (_ <? _)%nat; [|done]. cbn [assert_ mbind outcome_bind]. intros [= <-]. cbn. apply length_insert. Qed.

(** Another thread runs, with another queue. *)
Lemma turn_typed s q next z : state_typed s -> length (ids q) = length (ids (ready_queue s)) ->
  state_typed (set_zombie z (set_current next (set_ready_queue q s))).
Proof. intros [T1 T2 T3 T4] Hq. split; cbn; [done|exact T2|done|congruence]. Qed.

Lemma exit_current_thread_typed : typed (exit_current_thread (H := H)) (fun _ => True).
Proof.
  eapply keeps_bind; [apply reap_zombie_typed|]. intros _ _. apply keeps_exit_body; [apply current_typed| |].
  - intros s next q Hs%option_typed_Some Hq%pop_front_typed. apply option_typed_Some, turn_typed; [done|]. by rewrite Hq.
  - intros s0 s sp _. apply saved_typed.
Qed.

Lemma schedule_typed : typed (schedule (H := H)) (fun _ => True).
Proof.
  eapply keeps_bind; [apply reap_zombie_typed|]. intros _ _. apply keeps_schedule_body; [apply current_typed|..].
  - intros s next q q' Hs%option_typed_Some Hq%pop_front_typed Hq'%push_back_typed.
    apply option_typed_Some, (turn_typed s q' next (zombie s)); [done|]. by rewrite Hq', Hq.
  - intros s q Hs%option_typed_Some Hq%pop_front_typed.
    apply option_typed_Some, (turn_typed s q (current s) (zombie s)); [done|]. by rewrite Hq.
  - intros s0 s sp _. apply saved_typed.
Qed.
End Kernel.

(** ** The system calls *)

(** What a system call may return, for a length [len] in its third
    argument: [u64::MAX] for an error, or a count, a file descriptor, a
    process id or zero.  [exit] does not return. *)
Definition result_typed (number len r : Z) : Prop :=
  if number =? SYS_WRITE then r = U64_MAX \/ r = Z.min len 1024
  else if number =? SYS_READ then r = U64_MAX \/ 0 <= r <= Z.min len 256
  else if number =? SYS_OPEN then r = U64_MAX \/ FIRST_FILE_FD <= r < FIRST_FILE_FD + Z.of_nat MAX_OPEN_FILES
  else if number =? SYS_CLOSE then r = U64_MAX \/ r = 0
  else if number =? SYS_SPAWN then r = U64_MAX \/ pid_typed r
  else if number =? SYS_WAIT then r = U64_MAX \/ r = 0
  else if number =? SYS_EXIT then False
  else r = U64_MAX.

Lemma result_u64 number len r : is_u64 len -> result_typed number len r -> is_u64 r.
Proof.
  unfold result_typed, is_u64, U64_MAX, FIRST_FILE_FD, MAX_OPEN_FILES. intros Hl.
  repeat (destruct (_ =? _); [try (intros [->|Hr]; [lia|]; try (destruct Hr as [Hr _]; exact Hr); lia); done|]). intros ->. lia.
Qed.

Section Calls.
Context {crate : X86Crate} {mapper : PageMapper} {H : Type} {kheap : KernelHeap H} {D : Type} `{!SectorDisk D}.
Implicit Types (s : System H D).
Local Abbreviation Sys := (Sys (H := H) (D := D)).

(** [f] keeps the types of the kernel; if it returns to its caller, the
    result is as [Q] says. *)
Definition sys_typed {A} (f : Sys A) (Q : A -> Prop) : Prop :=
  forall s r s', kernel_typed (kernel s) -> f s = Ok (r, s') ->
    kernel_typed (kernel s') /\ match r with Go a => Q a | Gone _ => True end.

Lemma sys_typed_ret {A} (a : A) (Q : A -> Prop) : Q a -> sys_typed (mret a) Q.
Proof. by intros HQ s r s' Hk [= <- <-]. Qed.

Lemma sys_typed_bind {A B} (f : Sys A) (g : A -> Sys B) (P : A -> Prop) (Q : B -> Prop) :
  sys_typed f P -> (forall a, P a -> sys_typed (g a) Q) -> sys_typed (a ← f; g a) Q.
Proof.
  intros Hf Hg s r s' Hk. unfold mbind, Sys_bind. destruct (f s) as [[[a|e] s1]|] eqn:E; [| |done].
  - destruct (Hf s _ s1 Hk E) as [Hk1 Ha]. by apply Hg.
  - intros [= <- <-]. split; [by eapply Hf|done].
Qed.

Lemma sys_typed_get {A} (f : System H D -> A) : sys_typed (get f) (fun _ => True).
Proof. by intros s r s' Hk [= <- <-]. Qed.

Lemma sys_typed_check {A} (x : outcome A) : sys_typed (check x) (fun _ => True).
Proof. intros s r s' Hk. unfold check. destruct x; [|done]. by intros [= <- <-]. Qed.

Lemma sys_typed_kernel {A} (f : M (Kernel H) A) (Q : A -> Prop) : keeps option_typed f Q -> sys_typed (on_kernel f) Q.
Proof.
  intros Hf s r s' Hk. unfold on_kernel. destruct (f (kernel s)) as [[a k]|] eqn:E; [|done]. intros [= <- <-]. by apply (Hf (kernel s)).
Qed.

Lemma sys_typed_disk {A} (f : M D A) : sys_typed (on_disk f) (fun _ => True).
Proof. intros s r s' Hk. unfold on_disk. destruct (f (disk s)) as [[a d]|]; [|done]. by intros [= <- <-]. Qed.

Lemma sys_typed_print pieces : sys_typed (print pieces) (fun _ => True).
Proof. intros s r s' Hk. unfold print. destruct (_print _ _) as [[[] c]|]; [|done]. by intros [= <- <-]. Qed.

Lemma sys_typed_exit {A} (Q : A -> Prop) : sys_typed exit_thread Q.
Proof.
  intros s r s' Hk. unfold exit_thread. destruct (exit_current_thread (kernel s)) as [[e k]|] eqn:E; [|done]. intros [= <- <-].
  split; [|done]. by apply (exit_current_thread_typed (kernel s) e).
Qed.

Lemma sys_typed_kill {A} reason (Q : A -> Prop) : sys_typed (kill_current_thread reason) Q.
Proof. eapply sys_typed_bind; [apply sys_typed_print|]. intros _ _. apply sys_typed_exit. Qed.

Lemma sys_typed_take_input n : sys_typed (take_input n) (fun bs => (length bs <= n)%nat).
Proof.
  intros s r s' Hk. unfold take_input. destruct (pop_input n (input s)) as [[bs q]|] eqn:E; [|done]. intros [= <- <-]. split; [done|].
  clear -E. revert bs q E. generalize (input s). induction n as [|n IH]; intros q0 bs q; cbn [pop_input]; [by intros [= <- <-]|].
  destruct (pop q0) as [[[b|] q1]|]; [| |done]; cbn [mbind outcome_bind]; [|intros [= <- <-]; cbn; lia].
  destruct (pop_input n q1) as [[bs' q2]|] eqn:E; [|done]. cbn [mbind outcome_bind]. intros [= <- <-]. specialize (IH _ _ _ E). cbn. lia.
Qed.

Lemma sys_typed_or_kill (b : bool) reason : sys_typed (if b then mret tt else kill_current_thread reason) (fun _ => True).
Proof. destruct b; [by apply sys_typed_ret|apply sys_typed_kill]. Qed.

Lemma user_range_ok_typed ptr len w : sys_typed (user_range_ok ptr len w) (fun _ => True).
Proof.
  unfold user_range_ok. destruct (ptr =? 0); [by apply sys_typed_ret|]. destruct (va_try_new ptr); [|by apply sys_typed_ret].
  eapply sys_typed_bind; [apply sys_typed_get|]. intros k _. eapply sys_typed_bind; [apply sys_typed_check|]. intros o _. apply sys_typed_check.
Qed.

Variable wp : bool.

Lemma copy_from_user_typed ptr len : sys_typed (copy_from_user wp ptr len) (fun _ => True).
Proof.
  eapply sys_typed_bind; [apply user_range_ok_typed|]. intros ok _. eapply sys_typed_bind; [apply sys_typed_or_kill|]. intros _ _.
  eapply sys_typed_bind; [apply sys_typed_get|]. intros k _. apply sys_typed_check.
Qed.

Lemma copy_to_user_typed ptr bs : sys_typed (copy_to_user wp ptr bs) (fun _ => True).
Proof.
  eapply sys_typed_bind; [apply user_range_ok_typed|]. intros ok _. eapply sys_typed_bind; [apply sys_typed_or_kill|]. intros _ _.
  eapply sys_typed_bind; [apply sys_typed_get|]. intros k _. eapply sys_typed_bind; [apply sys_typed_check|]. intros m _.
  by apply sys_typed_kernel, keeps_modify.
Qed.

Lemma under_kernel_table_typed {A} (f : Sys A) (Q : A -> Prop) : sys_typed f Q -> sys_typed (under_kernel_table f) Q.
Proof.
  intros Hf. assert (Hc : forall (b : bool) t, sys_typed (if b then on_kernel (modify (set_cr3 t)) else mret tt) (fun _ => True)).
  { intros [|] t; [by apply sys_typed_kernel, keeps_modify|by apply sys_typed_ret]. }
  eapply sys_typed_bind; [apply sys_typed_get|]. intros c _. eapply sys_typed_bind; [apply sys_typed_kernel, get_kernel_page_table_typed|]. intros t _.
  eapply sys_typed_bind; [apply Hc|]. intros _ _. eapply sys_typed_bind; [exact Hf|]. intros a Ha.
  eapply sys_typed_bind; [apply Hc|]. intros _ _. by apply sys_typed_ret.
Qed.

(** *** The handlers *)

Variables (can_allocate : Z -> bool) (fuel : nat) (thread_trampoline ring3_trampoline : Z) (yield_now : Sys unit).

(** What a read copied to its caller, and how much. *)
Lemma copy_back_typed ptr bs (Q : Z -> Prop) : Q (Z.of_nat (length bs)) ->
  sys_typed (_ ← (if (0 <? length bs)%nat then copy_to_user wp ptr bs else mret tt); mret (Z.of_nat (length bs))) Q.
Proof.
  intros HQ. eapply (sys_typed_bind _ _ (fun _ => True)); [|intros _ _; by apply sys_typed_ret].
  destruct (_ <? _)%nat; [apply copy_to_user_typed|by apply sys_typed_ret].
Qed.

Lemma sys_write_typed fd ptr len : sys_typed (sys_write wp fd ptr len) (fun r => r = U64_MAX \/ r = Z.min len 1024).
Proof.
  unfold sys_write. destruct (negb _); [apply sys_typed_ret; by left|]. eapply sys_typed_bind; [apply copy_from_user_typed|]. intros bs _.
  eapply sys_typed_bind; [apply sys_typed_print|]. intros _ _. apply sys_typed_ret. by right.
Qed.

Lemma sys_read_typed fd ptr len : is_u64 len -> sys_typed (sys_read wp fd ptr len) (fun r => r = U64_MAX \/ 0 <= r <= Z.min len 256).
Proof.
  intros Hl. unfold is_u64 in Hl. unfold sys_read. set (n := Z.to_nat (Z.min len 256)).
  assert (Hn : forall m, (m <= n)%nat -> Z.of_nat m = U64_MAX \/ 0 <= Z.of_nat m <= Z.min len 256) by (right; unfold n in *; lia).
  destruct (n =? 0)%nat; [apply sys_typed_ret; right; lia|]. destruct (fd =? 0); [|destruct (_ <=? _); [|apply sys_typed_ret; by left]].
  - eapply sys_typed_bind; [apply user_range_ok_typed|]. intros ok _. eapply sys_typed_bind; [apply sys_typed_or_kill|]. intros _ _.
    eapply sys_typed_bind; [apply under_kernel_table_typed, sys_typed_take_input|]. intros bs Hbs. by apply copy_back_typed, Hn.
  - eapply sys_typed_bind; [apply user_range_ok_typed|]. intros ok _. eapply sys_typed_bind; [apply sys_typed_or_kill|]. intros _ _.
    eapply sys_typed_bind; [apply sys_typed_kernel, read_open_file_typed|]. intros [bs|] Hbs; [|apply sys_typed_ret; by left].
    by apply copy_back_typed, Hn, Hbs.
Qed.

Lemma sys_open_typed ptr len : sys_typed (sys_open wp can_allocate fuel ptr len)
  (fun r => r = U64_MAX \/ FIRST_FILE_FD <= r < FIRST_FILE_FD + Z.of_nat MAX_OPEN_FILES).
Proof.
  unfold sys_open. destruct (_ || _); [apply sys_typed_ret; by left|]. eapply sys_typed_bind; [apply copy_from_user_typed|]. intros path _.
  destruct (negb _); [apply sys_typed_ret; by left|]. eapply sys_typed_bind; [apply under_kernel_table_typed, sys_typed_disk|].
  intros [d|] _; [|apply sys_typed_ret; by left]. eapply sys_typed_bind; [apply sys_typed_kernel, open_file_typed|].
  intros [fd|] Hfd; apply sys_typed_ret; [right; by apply Hfd|by left].
Qed.

Lemma sys_close_typed fd : sys_typed (sys_close (D := D) fd) (fun r => r = U64_MAX \/ r = 0).
Proof.
  eapply sys_typed_bind; [apply sys_typed_kernel, close_file_typed|]. intros [|] _; apply sys_typed_ret; [by right|by left].
Qed.

Lemma sys_spawn_typed path_ptr path_len args_ptr args_len :
  sys_typed (sys_spawn wp can_allocate fuel thread_trampoline ring3_trampoline path_ptr path_len args_ptr args_len) (fun r => r = U64_MAX \/ pid_typed r).
Proof.
  unfold sys_spawn. destruct (_ || _); [apply sys_typed_ret; by left|]. eapply sys_typed_bind; [apply copy_from_user_typed|]. intros path _.
  destruct (negb _); [apply sys_typed_ret; by left|]. eapply (sys_typed_bind _ _ (fun _ => True)).
  { destruct (_ <? _); [apply copy_from_user_typed|by apply sys_typed_ret]. }
  intros args _. eapply (sys_typed_bind _ _ (fun r => forall pid, r = Some pid -> pid_typed pid)).
  - apply under_kernel_table_typed. eapply sys_typed_bind; [apply sys_typed_disk|]. intros [d|] _; [|by apply sys_typed_ret].
    apply sys_typed_kernel, spawn_elf_typed.
  - intros [pid|] Hpid; apply sys_typed_ret; [right; by apply Hpid|by left].
Qed.

Lemma sys_wait_typed rounds pid : sys_typed yield_now (fun _ => True) -> sys_typed (sys_wait yield_now rounds pid) (fun r => r = U64_MAX \/ r = 0).
Proof.
  intros Hy. assert (Ha : sys_typed (on_kernel (thread_alive pid)) (fun _ => True)) by apply sys_typed_kernel, keeps_thread_alive.
  eapply sys_typed_bind; [exact Ha|]. intros [|] _; [|apply sys_typed_ret; by left]. cbn [negb].
  induction rounds as [|n IH]; cbn [wait_loop]; (eapply sys_typed_bind; [exact Ha|]; intros [|] _; cbn [negb]; [|apply sys_typed_ret; by right]).
  - by intros s r s' _.
  - eapply sys_typed_bind; [exact Hy|]. intros _ _. exact IH.
Qed.

(** C26: the types of the system calls.  From a kernel whose arrays have the
    lengths of their Rust types (16 threads, 16 generations of 64 bits, 4
    open files to a thread, 16 ids in the queue), for any call and any
    arguments of 64 bits, and whatever it does (print, read the disk, load a
    program, kill its caller): the arrays still have these lengths, and what
    it returns is a [u64] in the range of that call, [u64::MAX] or a count
    not above the length asked for, a descriptor from 2 to 5, a process id
    whose slot is in the table, or zero; [exit] never returns. *)
Theorem dispatch_typed rounds number arg1 arg2 arg3 arg4 s r s' :
  kernel_typed (kernel s) -> is_u64 arg3 -> sys_typed yield_now (fun _ => True) ->
  dispatch wp can_allocate fuel thread_trampoline ring3_trampoline yield_now rounds number arg1 arg2 arg3 arg4 s = Ok (r, s') ->
  kernel_typed (kernel s') /\ match r with Go r => is_u64 r /\ result_typed number arg3 r | Gone _ => True end.
Proof.
  intros Hk Hu Hy E. assert (Hd : sys_typed (dispatch wp can_allocate fuel thread_trampoline ring3_trampoline yield_now rounds number arg1 arg2 arg3 arg4)
    (result_typed number arg3)).
  { unfold dispatch, result_typed. destruct (number =? SYS_WRITE); [apply sys_write_typed|]. destruct (number =? SYS_READ); [by apply sys_read_typed|].
    destruct (number =? SYS_OPEN); [apply sys_open_typed|]. destruct (number =? SYS_CLOSE); [apply sys_close_typed|].
    destruct (number =? SYS_SPAWN); [apply sys_spawn_typed|]. destruct (number =? SYS_WAIT); [by apply sys_wait_typed|].
    destruct (number =? SYS_EXIT); [apply sys_typed_exit|by apply sys_typed_ret]. }
  destruct (Hd s r s' Hk E) as [Hk' Hr]. split; [done|]. destruct r as [r|]; [|done]. split; [by apply (result_u64 number arg3)|done].
Qed.
End Calls.

(** ** A call *)

Section Sample.
#[local] Existing Instances x86_crate ref_mapper no_file_disk.

(** A round of the other threads. *)
Definition sample_turn : Sys (H := BumpHeap) (D := SimDrive) unit := _ ← on_kernel schedule; mret tt.

Lemma sample_started_typed : kernel_typed (sample_started user_phys sample_ram).
Proof.
  intros s [= <-]. split; [done| |split; [done|]|done].
  - intros id t [-> ->]%boot_state_lookup. done.
  - repeat constructor; lia.
Qed.

Lemma dispatch_typed_witness : exists s',
  dispatch true (fun _ => true) 2 0x10000 0x20000 sample_turn 1 SYS_READ 0 user_page_base 5 0 (sample_system (sample_started user_phys sample_ram)) = Ok (Go 2, s') /\
  kernel_typed (kernel s') /\ result_typed SYS_READ 5 2.
Proof.
  set (x := dispatch true (fun _ => true) 2 0x10000 0x20000 sample_turn 1 SYS_READ 0 user_page_base 5 0 (sample_system (sample_started user_phys sample_ram))).
  assert (Hx : match x with Ok (Go r, _) => r =? 2 | _ => false end = true) by (vm_compute; reflexivity).
  destruct x as [[[r|] s']|] eqn:E; [|discriminate Hx..]. apply Z.eqb_eq in Hx. subst r.
  destruct (dispatch_typed true (fun _ => true) 2 0x10000 0x20000 sample_turn 1 SYS_READ 0 user_page_base 5 0
    (sample_system (sample_started user_phys sample_ram)) (Go 2) s' sample_started_typed) as [Hk [_ Hr]].
  - unfold is_u64. lia.
  - eapply sys_typed_bind; [apply sys_typed_kernel, schedule_typed|]. intros e _. by apply sys_typed_ret.
  - exact E.
  - exists s'. exact (conj eq_refl (conj Hk Hr)).
Defined.
End Sample.
