(* ===== verification/Userspace.v ===== *)
(** * The ring 3 demos (src/userspace.rs)

    The builders of machine code and of an ELF file as the source has them,
    byte by byte, and the demos that map and start them.  A small model of
    the processor in ring 3 decodes and runs the code: what the builders
    emit are the programs that their comments show. *)

From S2P Require Import Prelude Ring X86 FrameAlloc Paging AddressSpace Mapper MapperRef Mappings Elf ElfThms ElfImage ElfLoad.
From S2P Require Import Threads Scheduler Syscall.

(** ** Building code *)

(** [code[at..at + bytes.len()].copy_from_slice(bytes)]. *)
Definition patch (code : list Z) (at_ : nat) (bytes : list Z) : outcome (list Z) :=
  if (at_ + length bytes <=? length code)%nat then Ok (splice code at_ bytes)
  else Panic "range end index out of range for slice".

Definition mov_imm64 (code : list Z) (reg_opcode value : Z) : list Z :=
  code ++ [0x48; 0xB8 + reg_opcode] ++ le_encode 8 value.

Definition mov_r64_r64 (code : list Z) (dst src : Z) : list Z :=
  code ++ [0x48; 0x89; Z.lor (Z.lor 0xC0 (Z.shiftl src 3)) dst].

Module Opcode.
Definition RAX : Z := 0.
Definition RCX : Z := 1.
Definition RDX : Z := 2.
Definition RSI : Z := 6.
Definition RDI : Z := 7.
End Opcode.
Import Opcode.

Definition rel8 (target_offset next_instruction_offset : nat) : outcome Z :=
  let delta := Z.of_nat target_offset - Z.of_nat next_instruction_offset in
  if (-128 <=? delta) && (delta <? 128) then Ok (delta mod 256)
  else Panic "shellcode jump target out of rel8 range".

Definition build_echo_shellcode (page_addr : Z) : outcome (list Z) :=
  let code := [] in
  let read_loop := length code in
  let code := mov_imm64 code RAX SYS_READ in
  let code := mov_imm64 code RDI 0 in
  let read_buf_patch_at := (length code + 2)%nat in
  let code := mov_imm64 code RSI 0 in
  let code := mov_imm64 code RDX 1 in
  let code := code ++ [0xcd; 0x80] in
  let code := code ++ [0x48; 0x85; 0xc0] in
  let jz_opcode_at := length code in
  let code := code ++ [0x74; 0x00] in
  d ← rel8 read_loop (length code);
  code ← patch code (jz_opcode_at + 1) [d];
  let code := mov_imm64 code RAX SYS_WRITE in
  let code := mov_imm64 code RDI 1 in
  let write_buf_patch_at := (length code + 2)%nat in
  let code := mov_imm64 code RSI 0 in
  let code := mov_imm64 code RDX 1 in
  let code := code ++ [0xcd; 0x80] in
  let jmp_opcode_at := length code in
  let code := code ++ [0xeb; 0x00] in
  d ← rel8 read_loop (length code);
  code ← patch code (jmp_opcode_at + 1) [d];
  buf_addr ← add_w 64 page_addr (Z.of_nat (length code));
  code ← patch code read_buf_patch_at (le_encode 8 buf_addr);
  code ← patch code write_buf_patch_at (le_encode 8 buf_addr);
  Ok (code ++ [0]).

Definition OPEN_READ_DEMO_PATH : list Z := bytes_of "HELLO.TXT".
Definition OPEN_READ_DEMO_READ_LEN : Z := 64.

Definition build_open_read_shellcode (page_addr : Z) : outcome (list Z) :=
  let code := [] in
  let code := mov_imm64 code RAX SYS_OPEN in
  let path_ptr_patch_at := (length code + 2)%nat in
  let code := mov_imm64 code RDI 0 in
  let code := mov_imm64 code RSI (Z.of_nat (length OPEN_READ_DEMO_PATH)) in
  let code := code ++ [0xcd; 0x80] in
  let code := mov_r64_r64 code RDI RAX in
  let code := mov_imm64 code RAX SYS_READ in
  let read_buf_patch_at := (length code + 2)%nat in
  let code := mov_imm64 code RSI 0 in
  let code := mov_imm64 code RDX OPEN_READ_DEMO_READ_LEN in
  let code := code ++ [0xcd; 0x80] in
  let code := mov_r64_r64 code RDX RAX in
  let code := mov_imm64 code RAX SYS_WRITE in
  let code := mov_imm64 code RDI 1 in
  let write_buf_patch_at := (length code + 2)%nat in
  let code := mov_imm64 code RSI 0 in
  let code := code ++ [0xcd; 0x80] in
  let code := mov_imm64 code RAX SYS_EXIT in
  let code := code ++ [0xcd; 0x80] in
  path_addr ← add_w 64 page_addr (Z.of_nat (length code));
  code ← patch code path_ptr_patch_at (le_encode 8 path_addr);
  let code := code ++ OPEN_READ_DEMO_PATH in
  buf_addr ← add_w 64 page_addr (Z.of_nat (length code));
  code ← patch code read_buf_patch_at (le_encode 8 buf_addr);
  code ← patch code write_buf_patch_at (le_encode 8 buf_addr);
  Ok (code ++ replicate (Z.to_nat OPEN_READ_DEMO_READ_LEN) 0).

Definition BAD_POINTER : Z := 0xdeadbeef.

Definition build_bad_pointer_shellcode : list Z :=
  let code := [] in
  let code := mov_imm64 code RAX SYS_WRITE in
  let code := mov_imm64 code RDI 1 in
  let code := mov_imm64 code RSI BAD_POINTER in
  let code := mov_imm64 code RDX 10 in
  code ++ [0xcd; 0x80].

Definition SPAWN_WAIT_CHILD_PATH : list Z := bytes_of "GREET.ELF".
Definition SPAWN_WAIT_DONE_MSG : list Z := bytes_of "spawn/wait demo: child finished, parent resumed" ++ [10].

Definition build_spawn_wait_shellcode (page_addr : Z) : outcome (list Z) :=
  let code := [] in
  let code := mov_imm64 code RAX SYS_SPAWN in
  let path_ptr_patch_at := (length code + 2)%nat in
  let code := mov_imm64 code RDI 0 in
  let code := mov_imm64 code RSI (Z.of_nat (length SPAWN_WAIT_CHILD_PATH)) in
  let code := mov_imm64 code RDX 0 in
  let code := mov_imm64 code RCX 0 in
  let code := code ++ [0xcd; 0x80] in
  let code := mov_r64_r64 code RDI RAX in
  let code := mov_imm64 code RAX SYS_WAIT in
  let code := code ++ [0xcd; 0x80] in
  let code := mov_imm64 code RAX SYS_WRITE in
  let code := mov_imm64 code RDI 1 in
  let done_msg_patch_at := (length code + 2)%nat in
  let code := mov_imm64 code RSI 0 in
  let code := mov_imm64 code RDX (Z.of_nat (length SPAWN_WAIT_DONE_MSG)) in
  let code := code ++ [0xcd; 0x80] in
  let code := mov_imm64 code RAX SYS_EXIT in
  let code := code ++ [0xcd; 0x80] in
  path_addr ← add_w 64 page_addr (Z.of_nat (length code));
  code ← patch code path_ptr_patch_at (le_encode 8 path_addr);
  let code := code ++ SPAWN_WAIT_CHILD_PATH in
  done_msg_addr ← add_w 64 page_addr (Z.of_nat (length code));
  code ← patch code done_msg_patch_at (le_encode 8 done_msg_addr);
  Ok (code ++ SPAWN_WAIT_DONE_MSG).

(** [assert_eq!] on the length after each of the two headers. *)
Definition build_test_elf (load_addr : Z) : outcome (list Z) :=
  payload ← build_echo_shellcode load_addr;
  let EHDR_SIZE := 64 in
  let PHDR_SIZE := 56 in
  let payload_offset := EHDR_SIZE + PHDR_SIZE in
  let elf := [0x7f; 69; 76; 70] ++ [2] ++ [1] ++ [1] ++ [0] ++ replicate 8 0 in
  let elf := elf ++ le_encode 2 2 ++ le_encode 2 0x3e ++ le_encode 4 1 in
  let elf := elf ++ le_encode 8 load_addr ++ le_encode 8 EHDR_SIZE ++ le_encode 8 0 ++ le_encode 4 0 in
  let elf := elf ++ le_encode 2 EHDR_SIZE ++ le_encode 2 PHDR_SIZE ++ le_encode 2 1 in
  let elf := elf ++ le_encode 2 0 ++ le_encode 2 0 ++ le_encode 2 0 in
  _ ← assert_ (Z.of_nat (length elf) =? EHDR_SIZE) "assertion `left == right` failed";
  let elf := elf ++ le_encode 4 1 ++ le_encode 4 7 ++ le_encode 8 payload_offset in
  let elf := elf ++ le_encode 8 load_addr ++ le_encode 8 load_addr in
  let elf := elf ++ le_encode 8 (Z.of_nat (length payload)) ++ le_encode 8 (Z.of_nat (length payload)) ++ le_encode 8 4096 in
  _ ← assert_ (Z.of_nat (length elf) =? payload_offset) "assertion `left == right` failed";
  Ok (elf ++ payload).

(** ** A processor in ring 3

    The instructions the builders emit: their encodings, and what they do
    on the low eight registers, the zero flag and the instruction
    pointer. *)

Inductive uinstr :=
| MovImm (r v : Z)
| MovReg (dst src : Z)
| TestReg (a b : Z)
| IntN (n : Z)
| Jz (d : Z)
| Jmp (d : Z).

Definition encode (i : uinstr) : list Z :=
  match i with
  | MovImm r v => [0x48; 0xB8 + r] ++ le_encode 8 v
  | MovReg dst src => [0x48; 0x89; 0xC0 + 8 * src + dst]
  | TestReg a b => [0x48; 0x85; 0xC0 + 8 * b + a]
  | IntN n => [0xcd; n]
  | Jz d => [0x74; d mod 256]
  | Jmp d => [0xeb; d mod 256]
  end.

Definition signed8 (b : Z) : Z := if b <? 128 then b else b - 256.

(** The operands of a ModRM byte with mod 11. *)
Definition modrm (b : Z) : option (Z * Z) := if 0xC0 <=? b then Some ((b - 0xC0) mod 8, (b - 0xC0) / 8) else None.

(** The instruction at the start of [bs]. *)
Definition decode (bs : list Z) : option uinstr :=
  match bs with
  | b0 :: b1 :: rest =>
      if b0 =? 0xcd then Some (IntN b1)
      else if b0 =? 0x74 then Some (Jz (signed8 b1))
      else if b0 =? 0xeb then Some (Jmp (signed8 b1))
      else if b0 =? 0x48 then
        if (0xB8 <=? b1) && (b1 <? 0xC0) then Some (MovImm (b1 - 0xB8) (le_decode (take 8 rest)))
        else
          b2 ← rest !! 0%nat;
          '(rm, r) ← modrm b2;
          if b1 =? 0x89 then Some (MovReg rm r) else if b1 =? 0x85 then Some (TestReg rm r) else None
      else None
  | _ => None
  end.

Definition reg8 (r : Z) : Prop := 0 <= r < 8.

Definition valid (i : uinstr) : Prop :=
  match i with
  | MovImm r v => reg8 r /\ is_u64 v
  | MovReg a b | TestReg a b => reg8 a /\ reg8 b
  | IntN n => is_u8 n
  | Jz d | Jmp d => -128 <= d < 128
  end.

Lemma signed8_mod d : -128 <= d < 128 -> signed8 (d mod 256) = d.
Proof.
  intros Hd. unfold signed8. assert (E : d mod 256 = if d <? 0 then d + 256 else d).
  { destruct (Z.ltb_spec d 0); Z.to_euclidean_division_equations; lia. }
  rewrite E. destruct (Z.ltb_spec d 0); cases_Z; lia.
Qed.

Lemma modrm_operands a b : reg8 a -> reg8 b -> modrm (0xC0 + 8 * b + a) = Some (a, b).
Proof.
  unfold reg8, modrm. intros Ha Hb. destruct (Z.leb_spec 0xC0 (0xC0 + 8 * b + a)); [|lia].
  do 2 f_equal; Z.to_euclidean_division_equations; lia.
Qed.

(** What the processor decodes is what was encoded. *)
Lemma decode_encode i rest : valid i -> decode (encode i ++ rest) = Some i.
Proof.
  destruct i; cbn [encode valid app decode Z.eqb Pos.eqb].
  - intros [Hr Hv]. unfold reg8 in Hr. destruct (Z.leb_spec 0xB8 (0xB8 + r)); [|lia].
    destruct (Z.ltb_spec (0xB8 + r) 0xC0); [|lia]. cbn [andb]. rewrite take_app_length' by done.
    rewrite le_decode_encode by exact Hv. do 2 f_equal. lia.
  - intros [Ha Hb]. cbn [lookup list_lookup mbind option_bind]. by rewrite modrm_operands.
  - intros [Ha Hb]. cbn [lookup list_lookup mbind option_bind]. by rewrite modrm_operands.
  - done.
  - intros Hd. by rewrite signed8_mod.
  - intros Hd. by rewrite signed8_mod.
Qed.

Record UState := mkUState { uregs : Z -> Z; urip : Z; uzf : bool }.

Definition set_ureg (r v : Z) (f : Z -> Z) : Z -> Z := fun r' => if r' =? r then v else f r'.

Section Ring3.
(** The rest of the world: [umem] is the memory the program sees, [sys] is
    [int 0x80]: a result and the world afterwards, or the world after a call
    that does not return. *)
Context {W : Type} (umem : W -> mem) (sys : Z -> Z -> Z -> Z -> Z -> W -> (Z * W) + W).

Inductive uresult := Running (u : UState) (w : W) | Left3 (w : W) | Fault.

Definition uexec (i : uinstr) (u : UState) (w : W) : uresult :=
  let next := (urip u + Z.of_nat (length (encode i))) mod 2 ^ 64 in
  match i with
  | MovImm r v => Running (mkUState (set_ureg r v (uregs u)) next (uzf u)) w
  | MovReg dst src => Running (mkUState (set_ureg dst (uregs u src) (uregs u)) next (uzf u)) w
  | TestReg a b => Running (mkUState (uregs u) next (Z.land (uregs u a) (uregs u b) =? 0)) w
  | IntN n =>
      if n =? 0x80 then
        match sys (uregs u RAX) (uregs u RDI) (uregs u RSI) (uregs u RDX) (uregs u RCX) w with
        | inl (r, w') => Running (mkUState (set_ureg RAX r (uregs u)) next (uzf u)) w'
        | inr w' => Left3 w'
        end
      else Fault
  | Jz d => Running (mkUState (uregs u) (if uzf u then (next + d) mod 2 ^ 64 else next) (uzf u)) w
  | Jmp d => Running (mkUState (uregs u) ((next + d) mod 2 ^ 64) (uzf u)) w
  end.

Definition ustep (u : UState) (w : W) : uresult :=
  match decode (read_bytes (umem w) (urip u) 10) with Some i => uexec i u w | None => Fault end.

Fixpoint urun (n : nat) (u : UState) (w : W) : uresult :=
  match n with
  | O => Running u w
  | S n' => match ustep u w with Running u' w' => urun n' u' w' | r => r end
  end.

(** The code of a listing is in memory at [a]. *)
Definition listing_at (m : mem) (a : Z) (prog : list uinstr) : Prop :=
  read_bytes m a (length (prog ≫= encode)) = prog ≫= encode.

Lemma read_bytes_app m a n n' : read_bytes m a (n + n') = read_bytes m a n ++ read_bytes m (a + Z.of_nat n) n'.
Proof.
  unfold read_bytes. rewrite seq_app, fmap_app. f_equal. cbn [Nat.add].
  apply list_eq. intros i. rewrite !list_lookup_fmap. destruct (decide (i < n')%nat).
  - rewrite !lookup_seq_lt by done. cbn. do 2 f_equal. lia.
  - by rewrite !lookup_seq_ge by lia.
Qed.

Lemma listing_at_cons m a i prog :
  listing_at m a (i :: prog) -> read_bytes m a (length (encode i)) = encode i /\
    listing_at m (a + Z.of_nat (length (encode i))) prog.
Proof.
  unfold listing_at. rewrite bind_cons, length_app, read_bytes_app. intros E.
  apply app_inj_1 in E; [done|]. apply length_read_bytes.
Qed.

Lemma length_encode i : (length (encode i) <= 10)%nat.
Proof. destruct i; cbn [encode]; rewrite ?length_app, ?length_le_encode; cbn; lia. Qed.

(** An instruction in memory is executed. *)
Lemma ustep_at u w i : valid i -> read_bytes (umem w) (urip u) (length (encode i)) = encode i ->
  ustep u w = uexec i u w.
Proof.
  intros Hv Hm. assert (Hl := length_encode i). unfold ustep.
  replace 10%nat with (length (encode i) + (10 - length (encode i)))%nat by lia.
  rewrite read_bytes_app, Hm. by rewrite decode_encode.
Qed.

Lemma urun_app n n' u w :
  urun (n + n') u w = match urun n u w with Running u' w' => urun n' u' w' | r => r end.
Proof.
  revert u w; induction n as [|n IH]; intros u w; cbn [Nat.add urun]; [done|].
  destruct (ustep u w); auto.
Qed.

(** Instructions that only change registers and flags. *)
Definition pure_exec (u : UState) (i : uinstr) : UState :=
  let next := urip u + Z.of_nat (length (encode i)) in
  match i with
  | MovImm r v => mkUState (set_ureg r v (uregs u)) next (uzf u)
  | MovReg dst src => mkUState (set_ureg dst (uregs u src) (uregs u)) next (uzf u)
  | TestReg a b => mkUState (uregs u) next (Z.land (uregs u a) (uregs u b) =? 0)
  | _ => u
  end.

Definition is_pure (i : uinstr) : bool :=
  match i with MovImm _ _ | MovReg _ _ | TestReg _ _ => true | _ => false end.

(** The end of a piece of code of [prog] at [a]. *)
Definition after (a : Z) (prog : list uinstr) : Z := a + Z.of_nat (length (prog ≫= encode)).

Lemma after_cons a i prog : after a (i :: prog) = after (a + Z.of_nat (length (encode i))) prog.
Proof. unfold after. rewrite bind_cons, length_app. lia. Qed.

Lemma urun_pure prog rest u w :
  Forall (fun i => is_pure i = true /\ valid i) prog -> listing_at (umem w) (urip u) (prog ++ rest) ->
  0 <= urip u -> after (urip u) prog < 2 ^ 64 ->
  urun (length prog) u w = Running (foldl pure_exec u prog) w /\
  urip (foldl pure_exec u prog) = after (urip u) prog /\ listing_at (umem w) (after (urip u) prog) rest.
Proof.
  revert u; induction prog as [|i prog IH]; intros u Hp Hl H0 H64.
  { unfold after. cbn [mbind list_bind length app foldl] in *. rewrite Z.add_0_r. done. }
  apply Forall_cons in Hp as [[Hi Hv] Hp]. cbn [app] in Hl. apply listing_at_cons in Hl as [Hm Hl].
  rewrite after_cons in *. assert (Hn := Zle_0_nat (length (encode i))). assert (Hn' := Zle_0_nat (length (prog ≫= encode))).
  assert (Hx : uexec i u w = Running (pure_exec u i) w /\ urip (pure_exec u i) = urip u + Z.of_nat (length (encode i))).
  { assert (E : (urip u + Z.of_nat (length (encode i))) mod 2 ^ 64 = urip u + Z.of_nat (length (encode i)))
      by (apply Z.mod_small; unfold after in H64; lia).
    destruct i; try done; unfold uexec, pure_exec; by rewrite E. }
  destruct Hx as [Hx Hr]. cbn [length urun foldl]. rewrite (ustep_at u w i Hv Hm), Hx.
  rewrite <- Hr in Hl, H64 |- *. apply IH; [done|done|lia|done].
Qed.

(** [int 0x80] calls the kernel. *)
Lemma urun_int rest u w :
  listing_at (umem w) (urip u) (IntN 0x80 :: rest) -> 0 <= urip u -> urip u + 2 < 2 ^ 64 ->
  urun 1 u w =
    match sys (uregs u RAX) (uregs u RDI) (uregs u RSI) (uregs u RDX) (uregs u RCX) w with
    | inl (r, w') => Running (mkUState (set_ureg RAX r (uregs u)) (urip u + 2) (uzf u)) w'
    | inr w' => Left3 w'
    end /\ listing_at (umem w) (urip u + 2) rest.
Proof.
  intros Hl H0 H64. apply listing_at_cons in Hl as [Hm Hl]. split; [|exact Hl].
  cbn [urun]. rewrite (ustep_at u w (IntN 0x80)) by (done || unfold valid, is_u8; lia).
  cbn [uexec length encode Z.eqb Pos.eqb]. change (Z.of_nat 2) with 2. rewrite (Z.mod_small (urip u + 2)) by lia.
  by destruct (sys _ _ _ _ _ _) as [[]|].
Qed.

(** A block that sets registers and then calls the kernel. *)
Lemma urun_call prog rest u w :
  Forall (fun i => is_pure i = true /\ valid i) prog -> listing_at (umem w) (urip u) (prog ++ IntN 0x80 :: rest) ->
  0 <= urip u -> after (urip u) prog + 2 < 2 ^ 64 ->
  let f := uregs (foldl pure_exec u prog) in
  urun (length prog + 1) u w =
    match sys (f RAX) (f RDI) (f RSI) (f RDX) (f RCX) w with
    | inl (r, w') => Running (mkUState (set_ureg RAX r f) (after (urip u) prog + 2) (uzf (foldl pure_exec u prog))) w'
    | inr w' => Left3 w'
    end.
Proof.
  intros Hp Hl H0 H64. destruct (urun_pure prog (IntN 0x80 :: rest) u w Hp Hl H0) as (E & Er & Hl'); [lia|].
  rewrite urun_app, E. rewrite <- Er in Hl', H64 |- *. apply (urun_int rest); [done| |done].
  rewrite Er. unfold after. lia.
Qed.
End Ring3.

(** ** The echo program *)

(** The program of the comment of [build_echo_shellcode]. *)
Definition echo_arguments (number fd buf : Z) : list uinstr :=
  [MovImm RAX number; MovImm RDI fd; MovImm RSI buf; MovImm RDX 1].

Definition echo_listing (page_addr : Z) : list uinstr :=
  let buf := page_addr + 91 in
  echo_arguments SYS_READ 0 buf ++ IntN 0x80 ::
  [TestReg RAX RAX] ++ Jz (-47) ::
  echo_arguments SYS_WRITE 1 buf ++ IntN 0x80 ::
  [Jmp (-91)].

(** A list of eight bytes. *)
Lemma eight (l : list Z) : length l = 8%nat -> exists a b c d e f g h, l = [a; b; c; d; e; f; g; h].
Proof. intros H. do 9 (destruct l as [|? l]; try done). eauto 10. Qed.

Lemma build_echo_listing page_addr :
  0 <= page_addr -> page_addr + 91 < 2 ^ 64 ->
  build_echo_shellcode page_addr = Ok ((echo_listing page_addr ≫= encode) ++ [0]).
Proof.
  intros H0 H64.
  transitivity (buf_addr ← add_w 64 page_addr 91;
    code ← patch ((echo_listing (-91)) ≫= encode) 22 (le_encode 8 buf_addr);
    code ← patch code 69 (le_encode 8 buf_addr); Ok (code ++ [0])); [reflexivity|].
  unfold add_w. rewrite (proj2 (Z.ltb_lt _ _) H64). cbn [mbind outcome_bind].
  unfold echo_listing, echo_arguments. cbn [app mbind list_bind encode].
  destruct (eight (le_encode 8 (page_addr + 91)) eq_refl) as (b0 & b1 & b2 & b3 & b4 & b5 & b6 & b7 & E).
  rewrite E. reflexivity.
Qed.

Lemma listing_at_app m a prog prog' : listing_at m a (prog ++ prog') -> listing_at m (after a prog) prog'.
Proof.
  unfold listing_at, after. rewrite bind_app, length_app, read_bytes_app. intros E.
  apply app_inj_1 in E as [_ E]; [done|]. apply length_read_bytes.
Qed.

Section Echo.
Context {W : Type} (umem : W -> mem) (sys : Z -> Z -> Z -> Z -> Z -> W -> (Z * W) + W) (page_addr : Z).
Context (Hp : 0 <= page_addr) (H64 : page_addr + 91 < 2 ^ 64).

(** The byte behind the code. *)
Definition echo_buf : Z := page_addr + 91.

Definition echo_loaded (w : W) : Prop := listing_at (umem w) page_addr (echo_listing page_addr).

(** One round of the loop, as the comment has it; RCX is not set. *)
Definition echo_round (rcx : Z) (w : W) : W + W :=
  match sys SYS_READ 0 echo_buf 1 rcx w with
  | inl (n, w1) =>
      if n =? 0 then inl w1
      else match sys SYS_WRITE 1 echo_buf 1 rcx w1 with inl (_, w2) => inl w2 | inr w2 => inr w2 end
  | inr w1 => inr w1
  end.

Fixpoint echo_rounds (k : nat) (rcx : Z) (w : W) : W + W :=
  match k with
  | O => inl w
  | S k' => match echo_round rcx w with inl w' => echo_rounds k' rcx w' | inr w' => inr w' end
  end.

(** The calls of the program leave its code alone. *)
Definition keeps_code : Prop := forall n a1 a2 a3 a4 w r w',
  echo_loaded w -> (n = SYS_READ /\ a2 = echo_buf /\ a3 = 1) \/ n = SYS_WRITE ->
  sys n a1 a2 a3 a4 w = inl (r, w') -> echo_loaded w'.

(** The registers after a call of the program. *)
Definition echo_regs (f : Z -> Z) (number fd n : Z) : Z -> Z :=
  set_ureg RAX n (set_ureg RDX 1 (set_ureg RSI echo_buf (set_ureg RDI fd (set_ureg RAX number f)))).

Lemma echo_call rest number fd u w :
  0 <= number < 256 -> 0 <= fd < 256 -> page_addr <= urip u <= page_addr + 47 ->
  listing_at (umem w) (urip u) (echo_arguments number fd echo_buf ++ IntN 0x80 :: rest) ->
  urun umem sys 5 u w =
    match sys number fd echo_buf 1 (uregs u RCX) w with
    | inl (n, w') => Running (mkUState (echo_regs (uregs u) number fd n) (urip u + 42) (uzf u)) w'
    | inr w' => Left3 w'
    end.
Proof using Hp H64.
  intros Hn Hf Hr Hl. unfold echo_buf in *.
  refine (eq_trans (urun_call umem sys (echo_arguments number fd (page_addr + 91)) rest u w _ Hl _ _) _).
  - unfold echo_arguments. rewrite !Forall_cons. unfold valid, reg8, is_u64, RAX, RDI, RSI, RDX. split_and!; try done; try lia.
  - lia.
  - unfold after. cbn. lia.
  - unfold after. cbn [length mbind list_bind encode echo_arguments app]. rewrite !length_app, !length_le_encode.
    replace (urip u + _ + 2) with (urip u + 42) by (cbn; lia). done.
Qed.

(** The test of the result and the jump back. *)
Lemma echo_test w f n z :
  echo_loaded w -> f RAX = n ->
  urun umem sys 2 (mkUState f (page_addr + 42) z) w =
    Running (mkUState f (if n =? 0 then page_addr else page_addr + 47) (n =? 0)) w.
Proof using Hp H64.
  intros Hl Hn. apply (listing_at_app _ _ (echo_arguments SYS_READ 0 (page_addr + 91) ++ [IntN 0x80])) in Hl.
  apply listing_at_cons in Hl as [L1 Hl]. apply listing_at_cons in Hl as [L2 _].
  change (after page_addr _) with (page_addr + 42) in L1, L2.
  change (Z.of_nat (length (encode (TestReg RAX RAX)))) with 3 in L2. replace (page_addr + 42 + 3) with (page_addr + 45) in L2 by lia.
  assert (M1 : (page_addr + 42 + Z.of_nat 3) mod 2 ^ 64 = page_addr + 45) by (rewrite Z.mod_small; lia).
  assert (M2 : (page_addr + 45 + Z.of_nat 2) mod 2 ^ 64 = page_addr + 47) by (rewrite Z.mod_small; lia).
  cbn [urun]. rewrite (ustep_at umem sys _ w (TestReg RAX RAX)) by done.
  cbn [uexec urip uregs encode length]. rewrite M1, Hn, Z.land_diag.
  rewrite (ustep_at umem sys _ w (Jz (-47))) by (done || (cbn; lia)).
  cbn [uexec urip uregs uzf encode length]. rewrite M2. destruct (n =? 0); [|done].
  rewrite Z.mod_small by lia. do 2 f_equal. lia.
Qed.

(** The jump of the end. *)
Lemma echo_jump w f z :
  echo_loaded w -> urun umem sys 1 (mkUState f (page_addr + 89) z) w = Running (mkUState f page_addr z) w.
Proof using Hp H64.
  intros Hl. apply (listing_at_app _ _ (take 12 (echo_listing page_addr))) in Hl.
  apply listing_at_cons in Hl as [L1 _]. change (after page_addr _) with (page_addr + 89) in L1.
  assert (M : (page_addr + 89 + Z.of_nat 2) mod 2 ^ 64 = page_addr + 91) by (rewrite Z.mod_small; lia).
  cbn [urun]. rewrite (ustep_at umem sys _ w (Jmp (-91))) by (done || (cbn; lia)).
  cbn [uexec urip uregs uzf encode length]. rewrite M, Z.mod_small by lia. do 2 f_equal. lia.
Qed.

Lemma echo_round_runs u w :
  keeps_code -> echo_loaded w -> urip u = page_addr ->
  match echo_round (uregs u RCX) w with
  | inl w' => echo_loaded w' /\ exists n u', urun umem sys n u w = Running u' w' /\ urip u' = page_addr /\ uregs u' RCX = uregs u RCX
  | inr w' => exists n, urun umem sys n u w = Left3 w'
  end.
Proof using Hp H64.
  intros Hk Hl Hr. unfold echo_round.
  assert (E1 : urun umem sys 5 u w = _) by (eapply (echo_call _ SYS_READ 0); [done|done|lia|rewrite Hr; exact Hl]).
  destruct (sys SYS_READ 0 echo_buf 1 (uregs u RCX) w) as [[n w1]|w1] eqn:Es; [|by exists 5%nat].
  assert (Hl1 : echo_loaded w1) by (eapply Hk; [exact Hl|by left|exact Es]). rewrite Hr in E1.
  set (f := echo_regs _ _ _ _) in E1. assert (E2 := echo_test w1 f n (uzf u) Hl1 eq_refl).
  destruct (n =? 0) eqn:En.
  { split; [done|]. exists (5 + 2)%nat, (mkUState f page_addr true). by rewrite urun_app, E1, E2. }
  assert (Hl1' := listing_at_app _ _ (take 7 (echo_listing page_addr)) _ Hl1).
  change (after page_addr _) with (page_addr + 47) in Hl1'.
  assert (E3 : urun umem sys 5 (mkUState f (page_addr + 47) false) w1 = _)
    by (eapply (echo_call _ SYS_WRITE 1); [done|done|cbn; lia|exact Hl1']).
  change (uregs (mkUState f _ _) RCX) with (uregs u RCX) in E3.
  destruct (sys SYS_WRITE 1 echo_buf 1 (uregs u RCX) w1) as [[n2 w2]|w2] eqn:Es2.
  - assert (Hl2 : echo_loaded w2) by (eapply Hk; [exact Hl1|by right|exact Es2]). split; [done|].
    cbn [urip] in E3. replace (page_addr + 47 + 42) with (page_addr + 89) in E3 by lia.
    exists (5 + (2 + (5 + 1)))%nat. eexists. rewrite urun_app, E1, urun_app, E2, urun_app, E3, echo_jump by done. done.
  - exists (5 + (2 + 5))%nat. by rewrite urun_app, E1, urun_app, E2, E3.
Qed.

Lemma echo_rounds_run k u w :
  keeps_code -> echo_loaded w -> urip u = page_addr ->
  match echo_rounds k (uregs u RCX) w with
  | inl w' => exists n u', urun umem sys n u w = Running u' w' /\ urip u' = page_addr
  | inr w' => exists n, urun umem sys n u w = Left3 w'
  end.
Proof using Hp H64.
  intros Hk. revert u w. induction k as [|k IH]; intros u w Hl Hr; cbn [echo_rounds].
  { by exists 0%nat, u. }
  assert (Hround := echo_round_runs u w Hk Hl Hr). destruct (echo_round (uregs u RCX) w) as [w1|w1]; [|done].
  destruct Hround as (Hl1 & n & u1 & E1 & Hr1 & Hc). specialize (IH u1 w1 Hl1 Hr1). rewrite Hc in IH.
  destruct (echo_rounds k (uregs u RCX) w1) as [w2|w2].
  - destruct IH as (n' & u' & E & Hr'). exists (n + n')%nat, u'. by rewrite urun_app, E1.
  - destruct IH as (n' & E). exists (n + n')%nat. by rewrite urun_app, E1.
Qed.
End Echo.

(** The echo program is the loop its comment shows.  For every address
    the builder returns 92 bytes, without a panic, and wherever these are in
    memory at that address, a program started there makes, round after
    round, the calls [read(0, buf, 1)] and, when that returned a byte,
    [write(1, buf, 1)], with [buf] the last of the 92 bytes; it is back at
    its first instruction after every round, and leaves ring 3 only in a
    call that does not return. *)
Lemma echo_program_correct {W} (umem : W -> mem) sys page_addr :
  0 <= page_addr -> page_addr + 91 < 2 ^ 64 ->
  exists code, build_echo_shellcode page_addr = Ok code /\ length code = 92%nat /\
    forall u w k, keeps_code umem sys page_addr -> read_bytes (umem w) page_addr 92 = code -> urip u = page_addr ->
      match echo_rounds sys page_addr k (uregs u RCX) w with
      | inl w' => exists n u', urun umem sys n u w = Running u' w' /\ urip u' = page_addr
      | inr w' => exists n, urun umem sys n u w = Left3 w'
      end.
Proof.
  intros Hp H64. exists ((echo_listing page_addr ≫= encode) ++ [0]). split; [by apply build_echo_listing|].
  split; [done|]. intros u w k Hk Hc Hr. apply echo_rounds_run; try done.
  unfold echo_loaded, listing_at. change 92%nat with (91 + 1)%nat in Hc. rewrite read_bytes_app in Hc.
  apply app_inj_1 in Hc as [Hc _]; [exact Hc|]. by rewrite length_read_bytes.
Qed.

(** A world for the echo program: the bytes to read, the bytes written and
    memory. *)
Definition sample_world : Type := list Z * list Z * mem.

Definition sample_sys (number fd ptr len _ : Z) (w : sample_world) : (Z * sample_world) + sample_world :=
  let '(inp, out, m) := w in
  if number =? SYS_READ then
    match inp with
    | b :: inp' => inl (1, (inp', out, write_list m ptr [b]))
    | [] => inl (0, w)
    end
  else if number =? SYS_WRITE then inl (len, (inp, out ++ read_bytes m ptr (Z.to_nat len), m))
  else inr w.

Lemma echo_program_correct_witness : exists code n u' w',
  build_echo_shellcode 0x600000000000 = Ok code /\
  urun (fun w : sample_world => w.2) sample_sys n (mkUState (fun _ => 0) 0x600000000000 false)
    ([104; 105], [], write_list (fun _ => 0) 0x600000000000 code) = Running u' w' /\ w'.1 = ([], [104; 105]).
Proof.
  destruct (echo_program_correct (fun w : sample_world => w.2) sample_sys 0x600000000000) as (code & E & Hl & F); [lia..|].
  assert (Hc : read_bytes (write_list (fun _ => 0) 0x600000000000 code) 0x600000000000 92 = code) by (by apply write_list_same).
  assert (Hk : keeps_code (fun w : sample_world => w.2) sample_sys 0x600000000000).
  { intros n a1 a2 a3 a4 [[inp out] m] r w' Hw Hn Es. unfold sample_sys in Es. destruct Hn as [(-> & -> & ->) | ->].
    - destruct inp as [|b inp]; cbn in Es; injection Es as <- <-; [exact Hw|].
      unfold echo_loaded, listing_at in *. cbn [snd] in *. rewrite <- Hw at 2. apply read_bytes_ext. intros x Hx.
      apply write_list_other. left. unfold echo_buf. cbn in Hx. lia.
    - cbn in Es. injection Es as <- <-. exact Hw. }
  specialize (F (mkUState (fun _ => 0) 0x600000000000 false) ([104; 105], [], write_list (fun _ => 0) 0x600000000000 code) 3%nat Hk Hc eq_refl).
  cbn [echo_rounds] in F.
  destruct F as (n & u' & Er & _). exists code, n, u'. eexists. split; [exact E|]. split; [exact Er|reflexivity].
Defined.

(** ** The demos

    [kernel_table] is the table of the caller's [kernel_mapper], the address
    of a function of type [fn() -> !] stands for it. *)

Definition USER_PAGE_ADDR : Z := 0x555555550000.
Definition ISOLATED_USER_PAGE_ADDR : Z := 0x600000000000.
Definition OPEN_READ_DEMO_ADDR : Z := 0x750000000000.
Definition BAD_POINTER_DEMO_ADDR : Z := 0x7A0000000000.
Definition SPAWN_WAIT_DEMO_ADDR : Z := 0x7C0000000000.
Definition ELF_LOAD_ADDR : Z := 0x700000000000.

Section Demos.
Context {crate : X86Crate} {mapper : PageMapper} {H : Type} {kheap : KernelHeap H}.
Local Abbreviation K := (M (Kernel H)).

Definition map_shellcode_page (l4 addr : Z) (code : list Z) : K unit := fun k =>
  va ← va_new addr;
  let page := page_containing va in
  '(r, a1) ← allocate_frame (frames k);
  frame ← expect r "no physical frames left for the ring 3 demo page";
  let flags := Z.lor (Z.lor PRESENT WRITABLE) USER_ACCESSIBLE in
  '(err, m1, a2) ← map_to (phys k) l4 page frame flags a1;
  match err with
  | Some _ => Panic "failed to map the ring 3 demo page"
  | None => Ok (tt, set_memory (write_list m1 frame code) a2 k)
  end.

Definition map_demo_page (kernel_table : Z) : K unit :=
  code ← lift (build_echo_shellcode USER_PAGE_ADDR);
  map_shellcode_page kernel_table USER_PAGE_ADDR code.

(** [memory::new_address_space] with the kernel's allocator. *)
Definition new_isolated_space (physical_memory_offset : Z) : K Z := fun k =>
  '(l4_frame, m, a) ← new_address_space (phys k) (cr3 k) physical_memory_offset (frames k);
  Ok (l4_frame, set_memory m a k).

(** The part the demos share: a new address space, the code in it, and a
    thread if [run]. *)
Definition spawn_code_demo (trampoline body physical_memory_offset kernel_table addr : Z) (build : outcome (list Z)) (run : bool)
    : K (option Pid) :=
  l4_frame ← new_isolated_space physical_memory_offset;
  code ← lift build;
  _ ← map_shellcode_page l4_frame addr code;
  if run then pid ← spawn_isolated trampoline body l4_frame kernel_table; mret (Some pid)
  else mret None.

Definition spawn_isolated_demo (trampoline run_isolated_demo physical_memory_offset kernel_table : Z) (run : bool) : K unit :=
  _ ← spawn_code_demo trampoline run_isolated_demo physical_memory_offset kernel_table ISOLATED_USER_PAGE_ADDR
        (build_echo_shellcode ISOLATED_USER_PAGE_ADDR) run;
  mret tt.

Definition spawn_open_read_demo (trampoline run_open_read_demo physical_memory_offset kernel_table : Z) (run : bool) : K (option Pid) :=
  spawn_code_demo trampoline run_open_read_demo physical_memory_offset kernel_table OPEN_READ_DEMO_ADDR
    (build_open_read_shellcode OPEN_READ_DEMO_ADDR) run.

Definition spawn_bad_pointer_demo (trampoline run_bad_pointer_demo physical_memory_offset kernel_table : Z) (run : bool) : K (option Pid) :=
  spawn_code_demo trampoline run_bad_pointer_demo physical_memory_offset kernel_table BAD_POINTER_DEMO_ADDR
    (Ok build_bad_pointer_shellcode) run.

Definition spawn_spawn_wait_demo (trampoline run_spawn_wait_demo physical_memory_offset kernel_table : Z) (run : bool) : K (option Pid) :=
  spawn_code_demo trampoline run_spawn_wait_demo physical_memory_offset kernel_table SPAWN_WAIT_DEMO_ADDR
    (build_spawn_wait_shellcode SPAWN_WAIT_DEMO_ADDR) run.

(** The arguments [run_demo] and its like pass to [enter_ring3]. *)
Definition page_demo_start (page_addr : Z) : outcome (Z * Z * Z * Z) :=
  entry ← va_new page_addr;
  sum ← add_w 64 page_addr 4096;
  top ← sub_w sum 16;
  stack_top ← va_new top;
  Ok (entry, stack_top, 0, 0).

Definition run_demo := page_demo_start USER_PAGE_ADDR.
Definition run_isolated_demo := page_demo_start ISOLATED_USER_PAGE_ADDR.
Definition run_open_read_demo := page_demo_start OPEN_READ_DEMO_ADDR.
Definition run_bad_pointer_demo := page_demo_start BAD_POINTER_DEMO_ADDR.
Definition run_spawn_wait_demo := page_demo_start SPAWN_WAIT_DEMO_ADDR.

Definition run_elf_demo (ELF_DEMO_ENTRY ELF_DEMO_STACK_TOP : Z) : outcome (Z * Z * Z * Z) :=
  entry ← va_new ELF_DEMO_ENTRY;
  stack_top ← va_new ELF_DEMO_STACK_TOP;
  Ok (entry, stack_top, 0, 0).
End Demos.
