(* ===== verification/Reclaim.v ===== *)
(** * Address spaces that come and go (src/main.rs)

    The second reclamation loop of [kernel_main]: each round builds an
    address space with three pages, spread over two tables, runs a thread in
    it that exits at once, and lets the scheduler free it. *)

From S2P Require Import Prelude Ring X86 Asm FrameAlloc Paging AddressSpace Mapper MapperRef Mappings Elf ElfThms ElfImage.
From S2P Require Import ElfLoad Threads Scheduler SchedulerInv SpawnInv SpawnIsolated SchedulerThms Process Lifecycle Userspace.

Section Loop.
Context {crate : X86Crate} {mapper : PageMapper} {H : Type} {kheap : KernelHeap H}.
Local Abbreviation K := (M (Kernel H)).

Definition RECLAIM_PAGES : list Z := [0x500000000000; 0x500000001000; 0x500000200000].

Definition map_reclaim_page (l4_frame page_addr : Z) : K unit := fun k =>
  va ← va_new page_addr;
  let page := page_containing va in
  '(r, a1) ← allocate_frame (frames k);
  frame ← expect r "no physical frames left for isolated-address-space reclaim demo";
  '(err, m1, a2) ← map_to (phys k) l4_frame page frame (Z.lor PRESENT WRITABLE) a1;
  match err with
  | Some _ => Panic "failed to map isolated-address-space reclaim demo page"
  | None => Ok (tt, set_memory m1 a2 k)
  end.

Fixpoint map_reclaim_pages (l4_frame : Z) (pages : list Z) : K unit :=
  match pages with
  | [] => mret tt
  | page_addr :: rest => _ ← map_reclaim_page l4_frame page_addr; map_reclaim_pages l4_frame rest
  end.

Definition isolated_round (thread_trampoline entry phys_mem_offset kernel_table : Z) : K unit :=
  l4_frame ← new_isolated_space phys_mem_offset;
  _ ← map_reclaim_pages l4_frame RECLAIM_PAGES;
  _ ← spawn_isolated thread_trampoline entry l4_frame kernel_table;
  yield_to entry isolated_exit_demo_thread.

Fixpoint isolated_loop (n : nat) (thread_trampoline entry phys_mem_offset kernel_table : Z) : K unit :=
  match n with
  | O => mret tt
  | S n' =>
      _ ← isolated_round thread_trampoline entry phys_mem_offset kernel_table;
      isolated_loop n' thread_trampoline entry phys_mem_offset kernel_table
  end.
End Loop.

(** ** Mapping the pages *)

Section Filling.
Context {crate : X86Crate} {mapper : PageMapper} {H : Type} {kheap : KernelHeap H}.
Context (l4 : Z) (shared : list nat) (total : list Z) (m0 : mem).
Implicit Types (k : Kernel H) (m : mem) (a : GlobalFrameAllocator) (top : gmap nat (ptree 3)) (pages : list Z).

(** The address space [top] has the pages [pages] and no other; its tables,
    its frames and the free frames are the frames of [total]; memory changed
    only in those. *)
Record filled m a top pages : Prop := {
  fl_mem : mem_ok m;
  fl_repr : repr_space m l4 shared top;
  fl_inv : fa_inv a;
  fl_total : space_tables l4 top ++ (space_mappings top).*2 ++ fa_avail a ≡ₚ total;
  fl_outside x : ~ in_frames total x -> m x = m0 x;
  fl_mapped p : p mod PAGE_SIZE = 0 -> 0 <= p < 2 ^ 47 -> is_Some (space_lookup top p) -> p ∈ pages;
}.

Context (Hnodup : NoDup total) (Hframes : Forall frame_ok total).

Lemma filled_space_ok m a top pages : filled m a top pages -> space_ok m l4 shared top a.
Proof using Hnodup Hframes.
  intros [H1 H2 H3 H4 _ _]. assert (Hsub : space_tables l4 top ++ fa_avail a ⊆+ total).
  { rewrite <- H4. apply submseteq_app; [done|]. by apply submseteq_inserts_l. }
  split_and!; [done|done|done|by eapply NoDup_sub|by eapply Forall_sub].
Qed.

Lemma map_reclaim_page_ok k top pages page :
  filled (phys k) (frames k) top pages -> user_page shared page -> page ∉ pages -> (4 <= length (fa_avail (frames k)))%nat ->
  exists m a top', map_reclaim_page l4 page k = Ok (tt, set_memory m a k) /\ filled m a top' (page :: pages) /\
    (length (fa_avail (frames k)) <= length (fa_avail a) + 4)%nat.
Proof using Hnodup Hframes.
  intros Hf Hp Hnew Hlen. assert (Hsp := filled_space_ok _ _ _ _ Hf). destruct Hf as [H1 H2 H3 H4 H5 H6].
  destruct (fa_avail (frames k)) as [|frame rest] eqn:Hav; [cbn in Hlen; lia|].
  destruct (fa_alloc_some (frames k) frame rest H3 Hav) as (a1 & Ea & Hi1 & Hav1).
  assert (Hn : space_lookup top page = None).
  { destruct (space_lookup top page) eqn:El; [|done]. destruct Hnew. apply H6; [apply Hp|apply Hp|eauto]. }
  destruct Hsp as (_ & _ & _ & O4 & O5). rewrite Hav in O4, O5.
  assert (Hsub : space_tables l4 top ++ rest ⊆+ space_tables l4 top ++ frame :: rest)
    by (apply submseteq_app; [done|by apply submseteq_cons]).
  assert (Hfok : frame_ok frame) by (apply Forall_app in O5 as [_ O5]; by apply Forall_cons in O5 as [? _]).
  assert (Hmiss := space_missing_le top page). assert (Hpu := Hp). destruct Hp as (Hpm & Hpb & Hps).
  destruct (map_to_ok (phys k) l4 shared top page frame (Z.lor PRESENT WRITABLE) a1) as (m1 & a2 & top' & Em & Hmo).
  - split_and!; [done|done|done|rewrite Hav1; by eapply NoDup_sub|rewrite Hav1; by eapply Forall_sub].
  - split; [done|]. split; [unfold canonical; lia|]. split; [done|]. split; [done|right; by left].
  - done.
  - rewrite Hav1. cbn [length] in Hlen. lia.
  - assert (Htot := mapped_total l4 shared (phys k) m1 a1 a2 top top' page frame rest _ Hmo Hpu Hn Hav1).
    rewrite H4 in Htot. exists m1, a2, top'. split_and!.
    + unfold map_reclaim_page, va_new. rewrite va_try_new_canonical by (unfold canonical; lia). cbn [expect mbind outcome_bind].
      rewrite page_containing_spec, Hpm, Z.sub_0_r by (unfold canonical; lia). rewrite Ea. cbn [expect mbind outcome_bind]. by rewrite Em.
    + split; [apply Hmo|apply Hmo|apply Hmo|done| |].
      * intros x Hx. rewrite <- (H5 x Hx). apply (mapped_outside _ _ _ _ _ _ _ _ _ _ _ Hmo). intros Hin. apply Hx.
        eapply in_frames_incl; [|exact Hin]. intros f Hfi. rewrite <- Htot. set_solver.
      * intros q Hq Hqb Hl. destruct (decide (q = page)) as [->|Hne]; [by left|right]. apply H6; [done..|].
        rewrite (mapped_others _ _ _ _ _ _ _ _ _ _ _ Hmo) in Hl; [done|]. intros E%hw_indexes_inj; try done; lia.
    + rewrite (mapped_avail _ _ _ _ _ _ _ _ _ _ _ Hmo), Hav1, length_drop. cbn [length]. lia.
Qed.

Lemma map_reclaim_pages_ok todo : forall k top pages,
  filled (phys k) (frames k) top pages -> Forall (user_page shared) todo -> NoDup todo -> (forall q, q ∈ todo -> q ∉ pages) ->
  (4 * length todo <= length (fa_avail (frames k)))%nat ->
  exists m a top', map_reclaim_pages l4 todo k = Ok (tt, set_memory m a k) /\ filled m a top' (reverse todo ++ pages) /\
    (length (fa_avail (frames k)) <= length (fa_avail a) + 4 * length todo)%nat.
Proof using Hnodup Hframes.
  induction todo as [|q todo IH]; intros k top pages Hf Hu Hnd Hd Hl.
  - exists (phys k), (frames k), top. split; [by destruct k|]. split; [done|lia].
  - apply Forall_cons in Hu as [Hq Hu]. apply NoDup_cons in Hnd as [Hni Hnd]. cbn [length] in Hl.
    destruct (map_reclaim_page_ok k top pages q Hf Hq) as (m & a & top1 & E1 & Hf1 & Hl1); [apply Hd; set_solver|lia|].
    destruct (IH (set_memory m a k) top1 (q :: pages)) as (m' & a' & top' & E2 & Hf2 & Hl2); [done|done|done| |cbn [frames set_memory]; lia|].
    { intros r Hr. apply not_elem_of_cons. split; [intros ->; done|]. apply Hd. set_solver. }
    exists m', a', top'. split_and!.
    + cbn [map_reclaim_pages]. unfold mbind, M_bind. rewrite E1, E2. done.
    + by rewrite reverse_cons, <- app_assoc.
    + cbn [frames set_memory length] in *. lia.
Qed.
End Filling.

(** ** A round *)

Section Round.
Context {crate : X86Crate} {mapper : PageMapper} {H : Type} {kheap : KernelHeap H}.
Context (pmo kt lo hi : Z) (total : list Z) (frame_of : Z -> Z).
Implicit Types (k : Kernel H) (s : SchedulerState) (spaces : Z -> gmap nat (ptree 3)).

(** The state between two rounds: only the boot thread is alive, the frames
    of the last address space and the free frames are all there were, and
    the kernel's tables, which are none of these, map the heap from [lo] to
    [hi]. *)
Record reclaim_ok spaces k s : Prop := {
  rc_alone : alone spaces k s;
  rc_table : kernel_page_table s = kt;
  rc_pmo : physical_memory_offset k = Some pmo;
  rc_total : zombie_frames spaces s ++ fa_avail (frames k) ≡ₚ total;
  rc_used : (length total <= length (fa_avail (frames k)) + 61)%nat;
  rc_maps q : q mod PAGE_SIZE = 0 -> lo <= q < hi -> kernel_maps (phys k) kt total q (frame_of q);
}.

(** The next turn of the scheduler frees what the last thread had. *)
Lemma reclaim_yields spaces k s blocks : reclaim_ok spaces k s -> other_blocks k s blocks ->
  exists k', yield_now k = Ok (None, k') /\ reclaim_ok spaces k' (reaped s) /\ live_ids (reaped s) = [0%nat] /\
    heap_live (heap k') ≡ₚ blocks /\ fa_avail (frames k') ≡ₚ total /\ phys k' = phys k /\ heap k' = reaped_heap s (heap k).
Proof.
  intros [Ha Hkt Hpmo Htot Hused Hmaps] Ho. destruct (reaped_same s) as (R1 & R2 & R3 & R4 & R5).
  destruct (alone_yields spaces k s blocks Ha Ho) as (k' & E & Ha' & Hl & Hb & Hav & Hp & Hpm & Hh). exists k'.
  assert (Hz : zombie_frames spaces (reaped s) = []) by (unfold zombie_frames; by rewrite R3).
  assert (Hall : fa_avail (frames k') ≡ₚ total) by (by rewrite Hav, reverse_Permutation, Htot).
  split_and!; [done| |done|done|done|done|done]. split; [done|congruence|congruence|by rewrite Hz|rewrite Hall; lia|]. rewrite Hp. exact Hmaps.
Qed.

(** The heap and the pages of the loop are in other places than the kernel's
    shared entries. *)
Record layout_apart : Prop := {
  la_pmo : canonical pmo;
  la_pages : Forall (user_page [0%nat; va_index 4 pmo]) RECLAIM_PAGES;
  la_heap q : q mod PAGE_SIZE = 0 -> lo <= q < hi -> hw_index 4 q ∉ [0%nat; va_index 4 pmo] /\ q ∉ RECLAIM_PAGES;
}.

(** The boot thread owns no frame. *)
Lemma alone_owned spaces k s : alone spaces k s -> threads s ≫= owned spaces ≡ₚ zombie_frames spaces s.
Proof.
  intros [HK Hb Hq _]. assert (Hs := ki_sched _ _ _ HK).
  assert (Hn : forall i t, threads s !! i = Some (Some t) -> zombie s <> Some i -> owned spaces (Some t) = []).
  { intros i t Ht Hz. assert (Hi : i ∈ live_ids s) by (apply (si_live s Hs); eauto).
    unfold live_ids in Hi. rewrite Hq, app_nil_r, Hb in Hi. apply elem_of_cons in Hi as [->|Hi].
    - destruct (si_thread s Hs _ _ Ht) as [_ Hok]. rewrite decide_True in Hok by done. unfold owned. by destruct Hok as (_ & -> & _).
    - destruct (zombie s) as [z|]; [|by apply not_elem_of_nil in Hi]. apply list_elem_of_singleton in Hi as ->. done. }
  unfold zombie_frames. destruct (zombie s) as [z|] eqn:Hz; cbn [mbind option_bind].
  - destruct (zombie_thread s z Hs Hz) as [_ (t & Ht)]. rewrite Ht.
    assert (Hperm := bind_insert_perm (owned spaces) (threads s) z (Some t) None Ht).
    assert (E : <[z := None]> (threads s) ≫= owned spaces = []).
    { etransitivity; [apply (bind_ext _ (fun _ => []))|apply bind_nil_r]. intros o Ho.
      apply list_elem_of_lookup in Ho as (i & Hi). destruct o as [u|]; [|done].
      destruct (decide (i = z)) as [->|Hne]; [rewrite list_lookup_insert_eq in Hi; [done|by eapply lookup_lt_Some]|].
      rewrite list_lookup_insert_ne in Hi by done. apply (Hn i u Hi). congruence. }
    rewrite E in Hperm. cbn [owned] in Hperm. by rewrite app_nil_r in Hperm.
  - assert (E : threads s ≫= owned spaces = []); [|by rewrite E].
    etransitivity; [apply (bind_ext _ (fun _ => []))|apply bind_nil_r]. intros o Ho.
    apply list_elem_of_lookup in Ho as (i & Hi). destruct o as [u|]; [|done]. by apply (Hn i u Hi).
Qed.

Context (Hla : layout_apart).

(** What is known of the address space before the thread is spawned. *)
Record prepared spaces k s (p l4 : Z) (m : mem) (a : GlobalFrameAllocator) (top : gmap nat (ptree 3)) : Prop := {
  pr_inv : kernel_inv spaces (set_memory m a k) s;
  pr_space : new_space_ok spaces (set_memory m a k) s l4 kt p pmo top frame_of;
  pr_frames : freed_space (p, p + STACK_SIZE) l4 top ++ fa_avail a ≡ₚ fa_avail (frames k);
  pr_outside x : ~ in_frames total x -> m x = phys k x;
  pr_count : (length (fa_avail (frames k)) <= length (fa_avail a) + 13)%nat;
}.

Lemma total_frames spaces k s : reclaim_ok spaces k s ->
  NoDup total /\ Forall frame_ok total /\ fa_avail (frames k) ⊆+ total.
Proof.
  intros [Ha _ _ Ht _ _]. destruct (ki_accounts _ _ _ (al_inv _ _ _ Ha)) as [Hnd Hok].
  rewrite (alone_owned _ _ _ Ha), Ht in Hnd, Hok. split_and!; [done|done|]. rewrite <- Ht. by apply submseteq_inserts_l.
Qed.

Lemma distinct_frames_apart f g : frame_ok f -> frame_ok g -> f <> g -> frames_apart f g.
Proof.
  unfold frame_ok, frames_apart, PAGE_SIZE. intros [Hf _] [Hg _] Hne.
  pose proof (Z.div_mod f 4096). pose proof (Z.div_mod g 4096). lia.
Qed.

(** A new address space: it has the kernel's shared entries and no page. *)
Lemma fresh_space spaces k s q :
  reclaim_ok spaces k s -> canonical pmo -> q mod PAGE_SIZE = 0 -> lo <= q < hi -> (61 < length total)%nat ->
  exists l4 rest m1 a1, fa_avail (frames k) = l4 :: rest /\ fa_avail a1 = rest /\
    new_isolated_space pmo k = Ok (l4, set_memory m1 a1 k) /\
    loading l4 [0%nat; va_index 4 pmo] (l4 :: rest) (phys k) m1 a1 ∅ [] /\
    forall i, (i < 512)%nat -> i ∈ [0%nat; va_index 4 pmo] -> table_entry m1 l4 i = table_entry (phys k) kt i.
Proof using Type.
  clear Hla. intros Hrc Hc Hqm Hqb Hlen. destruct (total_frames _ _ _ Hrc) as (Hnd & Hok & Hsub).
  destruct Hrc as [[HK Hb Hq Hrun] Hkt _ Htot Hused Hmaps].
  destruct (fa_avail (frames k)) as [|l4 rest] eqn:Hav; [cbn in Hused; lia|].
  assert (Hcr : cr3 k = kt) by (rewrite <- Hkt; assert (Hs := ki_sched _ _ _ HK); by apply running_boot_cr3).
  assert (Hkt' : frame_ok kt /\ kt ∉ total).
  { destruct (Hmaps q Hqm Hqb) as (e & _ & _ & Hw). cbn in Hw. by apply Forall_cons in Hw as [? _]. }
  assert (Hok1 := Forall_sub _ _ _ Hsub Hok).
  destruct (new_space_loading (phys k) (cr3 k) pmo l4 rest (frames k)) as (m1 & a1 & E1 & Hav1 & Hld & Hent);
    [apply HK|done|apply HK|done| |].
  { rewrite Hcr. apply Forall_cons in Hok1 as [Hl4 _]. apply distinct_frames_apart; [apply Hkt'|done|].
    intros ->. apply (proj2 Hkt'). eapply elem_of_submseteq; [|exact Hsub]. by left. }
  rewrite Hcr in Hent. exists l4, rest, m1, a1. split_and!; [done|done| |done|done]. unfold new_isolated_space. by rewrite E1.
Qed.

(** An address space whose pages are not in the heap is one a thread can be
    spawned in. *)
Lemma filled_prepared spaces k s p h l4 rest m a top pages :
  reclaim_ok spaces k s -> heap_alloc STACK_SIZE 4096 (heap k) = (Some p, h) -> lo <= p -> p + STACK_SIZE <= hi ->
  fa_avail (frames k) = l4 :: rest ->
  (forall q, q mod PAGE_SIZE = 0 -> lo <= q < hi -> hw_index 4 q ∉ [0%nat; va_index 4 pmo] /\ q ∉ pages) ->
  filled l4 [0%nat; va_index 4 pmo] (l4 :: rest) (phys k) m a top pages ->
  (length (l4 :: rest) <= length (fa_avail a) + 13)%nat -> (48 <= length (fa_avail a))%nat ->
  prepared spaces k s p l4 m a top.
Proof using Type.
  clear Hla. intros Hrc Ea Hlo Hhi Hav Hpages Hf Hcount H48. destruct (total_frames _ _ _ Hrc) as (Hnd & Hok & Hsub). rewrite Hav in Hsub.
  destruct Hrc as [Ha Hkt Hpmo Htot Hused Hmaps]. destruct Ha as [HK Hb Hq Hrun]. assert (Hs := ki_sched _ _ _ HK).
  destruct (heap_alloc_some (heap k) STACK_SIZE 4096 p h (ki_heap _ _ _ HK) ltac:(done) Ea) as (_ & _ & Hal & Hpos & Htop & _).
  destruct (stack_pages_aligned p Hal ltac:(unfold STACK_SIZE in *; lia)) as (_ & _ & _ & Hsp).
  assert (Hnone : forall q, q ∈ stack_pages p -> space_lookup top q = None).
  { intros q Hqs. destruct (Hsp q Hqs) as [Hqm Hqb]. destruct (space_lookup top q) eqn:El; [exfalso|done].
    destruct (Hpages q Hqm ltac:(lia)) as [_ Hn]. apply Hn. apply (fl_mapped _ _ _ _ _ _ _ _ Hf); [done|lia|eauto]. }
  assert (Hfr := unborrowed_freed l4 top p Hal ltac:(lia) Htop Hnone).
  assert (Hft := fl_total _ _ _ _ _ _ _ _ Hf).
  assert (Hfa : freed_space (p, p + STACK_SIZE) l4 top ++ fa_avail a ≡ₚ l4 :: rest) by (by rewrite Hfr, <- app_assoc).
  assert (Hout : forall x, ~ in_frames (l4 :: rest) x -> m x = phys k x) by apply Hf.
  assert (Hout' : forall x, ~ in_frames total x -> m x = phys k x).
  { intros x Hx. apply Hout. intros Hin. apply Hx. eapply in_frames_incl; [|exact Hin]. intros f Hf'. by eapply elem_of_submseteq. }
  split; [| |by rewrite Hav|done|by rewrite Hav].
  - apply kernel_inv_memory; [done|apply Hf|apply Hf| |by rewrite Hav].
    rewrite Hav, <- Hfa. by apply submseteq_inserts_l.
  - assert (Hperm : freed_space (p, p + STACK_SIZE) l4 top ++ (threads s ≫= owned spaces) ++ fa_avail a ≡ₚ total).
    { rewrite Permutation_app_swap_app, Hfa, (alone_owned spaces k s) by done. by rewrite <- Hav. }
    split; [done|apply Hf|by rewrite Hperm|by rewrite Hperm| |exact H48].
    intros q Hqs. destruct (Hsp q Hqs) as [Hqm Hqb]. destruct (Hpages q Hqm ltac:(lia)) as [Hn _]. split_and!; [done|by apply Hnone|].
    apply (kernel_maps_kept (phys k) m kt total); [apply Hmaps; [done|lia]|done|done|].
    intros f Hfi. eapply elem_of_submseteq; [|exact Hsub]. rewrite <- Hft. set_solver.
Qed.

Lemma reclaim_prepared spaces k s p h :
  reclaim_ok spaces k s -> heap_alloc STACK_SIZE 4096 (heap k) = (Some p, h) -> lo <= p -> p + STACK_SIZE <= hi ->
  (122 <= length total)%nat ->
  exists l4 m1 a1 m a top, new_isolated_space pmo k = Ok (l4, set_memory m1 a1 k) /\
    map_reclaim_pages l4 RECLAIM_PAGES (set_memory m1 a1 k) = Ok (tt, set_memory m a k) /\ prepared spaces k s p l4 m a top.
Proof using Hla.
  intros Hrc Ea Hlo Hhi Hlen. destruct (total_frames _ _ _ Hrc) as (Hnd & Hok & Hsub).
  destruct (heap_alloc_some (heap k) STACK_SIZE 4096 p h (ki_heap _ _ _ (al_inv _ _ _ (rc_alone _ _ _ Hrc))) ltac:(done) Ea) as (_ & _ & Hal & _).
  destruct (fresh_space spaces k s p Hrc (la_pmo Hla) Hal ltac:(unfold STACK_SIZE in *; lia) ltac:(lia)) as (l4 & rest & m1 & a1 & Hav & Hav1 & E1 & Hld & _).
  assert (Hused := rc_used _ _ _ Hrc). rewrite Hav in Hsub, Hused. cbn [length] in Hused.
  assert (Hf1 : filled l4 [0%nat; va_index 4 pmo] (l4 :: rest) (phys k) m1 a1 ∅ []) by (destruct Hld; by split).
  destruct (map_reclaim_pages_ok l4 [0%nat; va_index 4 pmo] (l4 :: rest) (phys k) (NoDup_sub _ _ Hsub Hnd) (Forall_sub _ _ _ Hsub Hok)
    RECLAIM_PAGES (set_memory m1 a1 k) ∅ []) as (m & a & top & E2 & Hf & Hcount); [exact Hf1|apply Hla|decided|set_solver| |].
  { cbn [frames set_memory]. rewrite Hav1. cbn [length RECLAIM_PAGES]. lia. }
  cbn [frames set_memory] in Hcount. rewrite Hav1 in Hcount. cbn [length RECLAIM_PAGES] in Hcount.
  exists l4, m1, a1, m, a, top. split_and!; [done|done|].
  apply (filled_prepared spaces k s p h l4 rest m a top (reverse RECLAIM_PAGES ++ [])); try done; [|cbn [length]; lia|lia].
  intros q Hqm Hqb. rewrite app_nil_r, elem_of_reverse. by apply (la_heap Hla).
Qed.

(** The thread of the round before is not touched by the new address
    space. *)
Lemma zombie_frames_kept spaces k s l4 m a p top top' id t g q :
  kernel_inv spaces k s -> new_space_ok spaces (set_memory m a k) s l4 kt p pmo top frame_of -> id ∉ live_ids s ->
  zombie_frames (space_insert l4 top' spaces) (registered s id t g q) = zombie_frames spaces s /\
  reaped_heap (registered s id t g q) = reaped_heap (kheap := kheap) s.
Proof.
  clear Hla. intros HK Hns Hni. assert (Hs := ki_sched _ _ _ HK). unfold zombie_frames, reaped_heap, zombie_stack.
  cbn [registered set_ready_queue set_threads set_generations zombie threads]. destruct (zombie s) as [z|] eqn:Ez; [|done].
  cbn [mbind option_bind]. rewrite list_lookup_insert_ne; [|intros ->; apply Hni; unfold live_ids; rewrite Ez; set_solver].
  split; [|done]. destruct (threads s !! z) as [[u|]|] eqn:Eu; [|done..]. unfold owned.
  destruct (page_table u) as [l|] eqn:El; [|done]. unfold space_insert. rewrite decide_False; [done|].
  by apply (new_table_unused spaces (set_memory m a k) s l4 kt p pmo top frame_of z u l).
Qed.

(** After the round, the new address space is the one that is still to be
    freed. *)
Lemma round_reclaim_ok spaces k s p l4 m a top top' t k2 s2 k3 s3 id :
  reclaim_ok spaces k s -> prepared spaces k s p l4 m a top ->
  sharing m a l4 [0%nat; va_index 4 pmo] top (p, p + STACK_SIZE) frame_of (phys k2) (frames k2) top' (reverse (stack_pages p)) ->
  entered_and_exited (space_insert l4 top' spaces) k2 s2 id t k3 s3 -> (forall x, ~ in_frames total x -> phys k3 x = phys k2 x) ->
  zombie_frames (space_insert l4 top' spaces) s2 = zombie_frames spaces s ->
  page_table t = Some l4 -> stack_range t = (p, p + STACK_SIZE) ->
  kernel_page_table s2 = kernel_page_table s -> physical_memory_offset k2 = physical_memory_offset k ->
  reclaim_ok (space_insert l4 top' spaces) k3 s3.
Proof.
  clear Hla. intros Hrc [HK1 Hns Hfr Hout Hcount] Hsh [A1 A2 A3 A4 A5 A6 A8 A9 A10 A11] A7 Hz Hpt Hst Hkp Hpm.
  destruct (total_frames _ _ _ Hrc) as (Hnd & Hok & Hsub). destruct Hrc as [Ha Hkt Hpmo Htot Hused Hmaps].
  assert (Hsht := sh_total _ _ _ _ _ _ _ _ _ _ _ Hsh). assert (Hshc := sh_count _ _ _ _ _ _ _ _ _ _ _ Hsh).
  assert (Hlt := Permutation_length Htot). rewrite length_app in Hlt.
  split; [done|congruence|congruence| | |].
  - rewrite A4, A6, Hz, reverse_Permutation. unfold owned, space_insert. rewrite Hpt, Hst, decide_True by done.
    rewrite Permutation_app_swap_app, Hsht, Hfr. exact Htot.
  - rewrite A6, Hz, length_app, length_reverse. rewrite length_reverse in Hshc. change (length (stack_pages p)) with 16%nat in Hshc. lia.
  - intros q Hqm Hqb. apply (kernel_maps_kept (phys k) (phys k3) kt total); [by apply Hmaps|done| |done].
    intros x Hx. rewrite (A7 x Hx), <- (Hout x Hx). apply (sh_outside _ _ _ _ _ _ _ _ _ _ _ Hsh). intros Hin. apply Hx.
    eapply in_frames_incl; [|exact Hin]. intros f [Hf|Hf]%elem_of_app; (eapply elem_of_submseteq; [|exact Hsub]); rewrite <- Hfr.
    + apply elem_of_app. left. eapply elem_of_submseteq; [exact Hf|apply space_tables_freed].
    + apply elem_of_app. by right.
Qed.

Lemma isolated_round_ok spaces k s tramp e p h blocks :
  reclaim_ok spaces k s -> heap_alloc STACK_SIZE 4096 (heap k) = (Some p, h) -> lo <= p -> p + STACK_SIZE <= hi ->
  (122 <= length total)%nat -> Forall (fun g => 0 <= g < U64_MAX) (slot_generations s) -> other_blocks k s blocks ->
  exists spaces' k' s' id g, isolated_round tramp e pmo kt k = Ok (tt, k') /\ reclaim_ok spaces' k' s' /\
    zombie_stack s' = Some (p, STACK_SIZE) /\ other_blocks k' s' blocks /\ heap k' = reaped_heap s h /\
    slot_generations s !! id = Some g /\ slot_generations s' = <[id := g + 1]> (slot_generations s).
Proof using Hla.
  intros Hrc Ea Hlo Hhi Hlen Hg Hob.
  destruct (reclaim_prepared spaces k s p h Hrc Ea Hlo Hhi Hlen) as (l4 & m1 & a1 & m & a & top & E1 & E2 & [HK1 Hns Hfr Hout Hcount]).
  assert (Hrc' := Hrc). assert (Hpr : prepared spaces k s p l4 m a top) by by split.
  destruct (alone_slot spaces k s (rc_alone _ _ _ Hrc)) as [id Hp]. destruct Hrc as [[HK Hb Hq Hrun] Hkt Hpmo Htot Hused Hmaps].
  assert (Hs := ki_sched _ _ _ HK). destruct (free_slot_not_live s id Hs Hp) as (Hni & H0 & Hlt & Hn).
  destruct (spawn_isolated_ok spaces (set_memory m a k) s tramp e None l4 kt p h id pmo top frame_of HK1 Ea Hp Hg Hns)
    as (g & q & k2 & top' & Eg & E3 & HK2 & Hql & Hsh & C1 & C2 & C3 & C4 & C5 & C6).
  rewrite Hq in Hql. cbn [app] in Hql. set (t := isolated p e l4 None) in *. set (s2 := registered s id t (g + 1) q) in *.
  set (spaces' := space_insert l4 top' spaces) in *.
  destruct (yield_to_exits spaces' k2 s2 id t e HK2 Hb Hql) as (k3 & s3 & E4 & Hee & A7).
  { apply list_lookup_insert_eq. by rewrite (si_threads s Hs). }
  { done. }
  { rewrite C5. apply list_lookup_insert_eq. by rewrite (ki_suspended _ _ _ HK1). }
  destruct (zombie_frames_kept spaces k s l4 m a p top top' id t (g + 1) q HK Hns Hni) as [Hz Hrh].
  fold s2 spaces' in Hz, Hrh. assert (Hee' := Hee). destruct Hee' as [A1 A2 A3 A4 A5 A6 A8 A9 A10 A11].
  exists spaces', k3, s3, id, g. split_and!.
  - unfold isolated_round, mbind, M_bind. rewrite E1, E2. unfold spawn_isolated. rewrite E3. exact E4.
  - apply (round_reclaim_ok spaces k s p l4 m a top top' t k2 s2 k3 s3 id); try done. intros x _. by rewrite A7.
  - exact A3.
  - destruct (heap_alloc_some (heap k) STACK_SIZE 4096 p h (ki_heap _ _ _ HK) ltac:(done) Ea) as (Hh & Hlive & _).
    unfold other_blocks. rewrite A3, A8, Hrh, C4. apply (reaped_heap_blocks k s); [done|done|]. by rewrite Hlive.
  - by rewrite A8, Hrh, C4.
  - done.
  - done.
Qed.

Definition in_heap (p : Z) : bool := (lo <=? p) && (p + STACK_SIZE <=? hi).

Lemma isolated_loop_ok tramp e blocks n : forall spaces k s,
  reclaim_ok spaces k s -> (122 <= length total)%nat -> stacks_fit in_heap n (zombie_stack s) (heap k) = true ->
  Forall (fun g => 0 <= g < U64_MAX - Z.of_nat n) (slot_generations s) -> other_blocks k s blocks ->
  exists spaces' k' s', isolated_loop n tramp e pmo kt k = Ok (tt, k') /\ reclaim_ok spaces' k' s' /\ other_blocks k' s' blocks.
Proof using Hla.
  induction n as [|n IH]; intros spaces k s Hrc Hlen Hf Hg Hb.
  { by exists spaces, k, s. }
  cbn [stacks_fit] in Hf. destruct (heap_alloc STACK_SIZE 4096 (heap k)) as [[p|] h] eqn:Ea; [|done].
  unfold in_heap in Hf at 1. apply andb_prop in Hf as [[Hlo Hhi]%andb_prop Hf]. apply Z.leb_le in Hlo, Hhi.
  destruct (isolated_round_ok spaces k s tramp e p h blocks Hrc Ea Hlo Hhi Hlen) as (sp1 & k1 & s1 & id & g & E1 & R1 & S1 & S2 & S3 & S4 & S5);
    [eapply Forall_impl; [exact Hg|]; cbn beta; lia|done|].
  destruct (IH sp1 k1 s1 R1 Hlen) as (sp2 & k2 & s2 & E2 & R2 & T1).
  - by rewrite S1, S3.
  - rewrite S5. by apply generations_bumped.
  - done.
  - exists sp2, k2, s2. split_and!; [|done|done]. cbn [isolated_loop]. unfold mbind, M_bind. by rewrite E1.
Qed.

(** C6: address spaces are reclaimed completely, however many come and go.
    With only the boot thread alive, a loop that builds an address space,
    maps pages into it, starts a thread there that exits, and yields, runs
    to its end for every [n] without a panic, from 122 free frames and room
    for two stacks on; after the next turn of the scheduler the free frames
    are those from before the loop, each once, and every kernel stack has
    been given back to the heap.  The storage of the allocator's free list,
    a [Vec] that grows on the same heap, is not part of the model: the
    statement does not count it among the blocks, and assumes that it can
    grow.  What it has to hold is bounded: after the loop, whatever [n], the
    list is no longer than the frames that were free before it. *)
Theorem isolated_loop_reclaims spaces n k s tramp e :
  reclaim_ok spaces k s -> zombie s = None -> (122 <= length (fa_avail (frames k)))%nat ->
  stacks_fit in_heap n None (heap k) = true ->
  Forall (fun g => 0 <= g < U64_MAX - Z.of_nat n) (slot_generations s) ->
  exists k1 r k2, isolated_loop n tramp e pmo kt k = Ok (tt, k1) /\ yield_now k1 = Ok (r, k2) /\
    fa_avail (frames k2) ≡ₚ fa_avail (frames k) /\ heap_live (heap k2) ≡ₚ heap_live (heap k) /\
    (length (freed_frames (frames k2)) <= length (fa_avail (frames k)))%nat /\
    exists spaces' s2, kernel_inv spaces' k2 s2 /\ live_ids s2 = [0%nat].
Proof using Hla.
  intros Hrc Hz Hlen Hf Hg. assert (Htot := rc_total _ _ _ Hrc). unfold zombie_frames in Htot. rewrite Hz in Htot. cbn in Htot.
  destruct (isolated_loop_ok tramp e (heap_live (heap k)) n spaces k s Hrc) as (sp1 & k1 & s1 & E1 & R1 & B1).
  - by rewrite <- Htot.
  - unfold zombie_stack. by rewrite Hz.
  - done.
  - unfold other_blocks, zombie_stack. by rewrite Hz.
  - destruct (alone_yields sp1 k1 s1 (heap_live (heap k)) (rc_alone _ _ _ R1) B1) as (k2 & E2 & Ha2 & T1 & T2 & T3 & T4 & _).
    assert (Hav : fa_avail (frames k2) ≡ₚ fa_avail (frames k)).
    { rewrite T3, reverse_Permutation, Htot. apply (rc_total _ _ _ R1). }
    exists k1, None, k2. split_and!; [done..| |exists sp1, (reaped s1); split; [apply Ha2|done]].
    rewrite <- Hav. apply freed_frames_bound.
Qed.
End Round.

(** ** Two rounds on a concrete machine *)

Section Sample.
#[local] Existing Instances x86_crate ref_mapper.

Lemma sample_area :
  forallb (fun q => bool_decide (hw_index 4 q ∉ [0%nat; va_index 4 (3 * 2 ^ 39)]) && bool_decide (q ∉ RECLAIM_PAGES) &&
    kernel_maps_b sample_phys 0x11000 (0x100000 :: stride 0x101000 4096 255) q (sample_frame_of q))
  (stride 0x444444440000 4096 64) = true.
Proof. vm_compute. reflexivity. Qed.

Lemma sample_area_page q : q mod PAGE_SIZE = 0 -> 0x444444440000 <= q < 0x444444480000 ->
  hw_index 4 q ∉ [0%nat; va_index 4 (3 * 2 ^ 39)] /\ q ∉ RECLAIM_PAGES /\
  kernel_maps sample_phys 0x11000 (0x100000 :: stride 0x101000 4096 255) q (sample_frame_of q).
Proof.
  intros Hm Hb. assert (Hq : q ∈ stride 0x444444440000 4096 64).
  { apply elem_of_stride. exists (Z.to_nat (q / 4096 - 0x444444440)). unfold PAGE_SIZE in *.
    pose proof (Z.div_mod q 4096 ltac:(lia)). lia. }
  apply list_elem_of_In in Hq. assert (Hall := sample_area). rewrite forallb_forall in Hall. specialize (Hall q Hq).
  rewrite !andb_true_iff, !bool_decide_eq_true in Hall. destruct Hall as [[H1 H2] H3%kernel_maps_b_true]. done.
Qed.

Lemma sample_reclaim_ok :
  reclaim_ok (3 * 2 ^ 39) 0x11000 0x444444440000 0x444444480000 (0x100000 :: stride 0x101000 4096 255) sample_frame_of
    (fun _ => ∅) (sample_started sample_phys sample_ram) (boot_state 0x11000) /\
  layout_apart (3 * 2 ^ 39) 0x444444440000 0x444444480000.
Proof.
  destruct sample_ram_lawful as [Hi Hav], sample_ram_frames as [Hnd Hok].
  destruct (sample_started_ok (fun _ => ∅) sample_phys sample_ram sample_phys_ok sample_ram_ok Hnd Hok) as (_ & HK & Hr).
  change (fa_avail (frames (sample_started sample_phys sample_ram)) = 0x100000 :: stride 0x101000 4096 255) in Hav.
  split; split.
  - by split.
  - reflexivity.
  - reflexivity.
  - change (zombie_frames _ (boot_state 0x11000)) with (@nil Z). by rewrite Hav.
  - rewrite Hav. lia.
  - intros q Hm Hb. by apply sample_area_page.
  - unfold canonical. lia.
  - repeat constructor; decided.
  - intros q Hm Hb. destruct (sample_area_page q Hm Hb) as (H1 & H2 & _). done.
Qed.

Lemma isolated_loop_reclaims_witness : exists k1 r k2,
  isolated_loop 2 0x10000 0x20000 (3 * 2 ^ 39) 0x11000 (sample_started sample_phys sample_ram) = Ok (tt, k1) /\
  yield_now k1 = Ok (r, k2) /\ fa_avail (frames k2) ≡ₚ fa_avail (frames (sample_started sample_phys sample_ram)).
Proof.
  destruct sample_reclaim_ok as [Hrc Hla].
  destruct (isolated_loop_reclaims (3 * 2 ^ 39) 0x11000 0x444444440000 0x444444480000 (0x100000 :: stride 0x101000 4096 255)
    sample_frame_of Hla (fun _ => ∅) 2 (sample_started sample_phys sample_ram) (boot_state 0x11000) 0x10000 0x20000 Hrc)
    as (k1 & r & k2 & E1 & E2 & E3 & _).
  - reflexivity.
  - apply (bool_decide_eq_true_1 _). vm_compute. reflexivity.
  - vm_compute. reflexivity.
  - decided.
  - exact (ex_intro _ k1 (ex_intro _ r (ex_intro _ k2 (conj E1 (conj E2 E3))))).
Defined.
End Sample.
