(* ===== verification/Demos.v ===== *)
(** * The demos at work (src/userspace.rs)

    What the demos do end to end: the ELF file that [build_test_elf] writes
    is one the loader accepts, and is loaded with the echo program at its
    entry point; the demo that passes a bad pointer is killed, and the
    kernel goes on. *)

From S2P Require Import Ata Fat FatThms Keyboard Vga.
From S2P Require Import Prelude Ring X86 FrameAlloc Paging AddressSpace Mapper MapperRef Mappings Elf ElfThms ElfImage ElfLoad.
From S2P Require Import Threads Scheduler SchedulerInv SchedulerThms Syscall SyscallThms SyscallSamples Userspace.

(** ** The ELF file of the demo *)

(** The ELF header and the program header of the file. *)
Definition test_elf_header (load_addr size : Z) : list Z :=
  [0x7f; 69; 76; 70; 2; 1; 1; 0; 0; 0; 0; 0; 0; 0; 0; 0; 2; 0; 0x3e; 0; 1; 0; 0; 0] ++ le_encode 8 load_addr ++
  le_encode 8 64 ++ le_encode 8 0 ++ le_encode 4 0 ++ le_encode 2 64 ++ le_encode 2 56 ++ le_encode 2 1 ++ replicate 6 0 ++
  le_encode 4 1 ++ le_encode 4 7 ++ le_encode 8 120 ++ le_encode 8 load_addr ++ le_encode 8 load_addr ++
  le_encode 8 size ++ le_encode 8 size ++ le_encode 8 4096.

Lemma build_test_elf_header load_addr payload :
  build_echo_shellcode load_addr = Ok payload ->
  build_test_elf load_addr = Ok (test_elf_header load_addr (Z.of_nat (length payload)) ++ payload).
Proof.
  intros E. unfold build_test_elf. rewrite E. cbn [mbind outcome_bind]. reflexivity.
Qed.

Lemma slice_prefix (l l' : list Z) a b : 0 <= a <= b -> b <= Z.of_nat (length l) -> slice (l ++ l') a b = slice l a b.
Proof.
  intros Ha Hb. assert (E := proj2 (slice_Some l a b _) (conj Ha (conj Hb eq_refl))).
  rewrite E. apply slice_Some. split; [done|]. split; [rewrite length_app; lia|].
  rewrite drop_app_le by lia. rewrite take_app_le; [done|]. rewrite length_drop. lia.
Qed.

Lemma read_uint_prefix n l l' base offset :
  0 <= n -> 0 <= base -> 0 <= offset -> base + offset + n <= Z.of_nat (length l) -> base + offset + n < 2 ^ 64 ->
  read_uint n (l ++ l') base offset = read_uint n l base offset.
Proof.
  intros. unfold read_uint, checked_add, U64_MAX.
  destruct (Z.leb_spec (base + offset) (2 ^ 64 - 1)); [|lia]. cbn [mbind option_bind].
  destruct (Z.leb_spec (base + offset + n) (2 ^ 64 - 1)); [|lia]. cbn [mbind option_bind].
  by rewrite slice_prefix by lia.
Qed.

(** What the loader reads from the file. *)
Lemma test_elf_parses load_addr payload :
  is_u64 load_addr -> length payload = 92%nat ->
  header_ok (test_elf_header load_addr 92 ++ payload) = true /\
  parse_elf (test_elf_header load_addr 92 ++ payload) = Some (load_addr, [mkSegment payload load_addr 92 true]).
Proof.
  intros Ha Hl. set (h := test_elf_header load_addr 92).
  assert (Hh : length h = 120%nat) by done.
  assert (R : forall n base offset, 0 <= n -> 0 <= base -> 0 <= offset -> base + offset + n <= 120 ->
    read_uint n (h ++ payload) base offset = read_uint n h base offset)
    by (intros; apply read_uint_prefix; rewrite ?Hh; lia).
  assert (D := le_decode_encode 8 load_addr Ha).
  assert (Hx : h = test_elf_header load_addr 92) by done. unfold test_elf_header in Hx.
  destruct (eight (le_encode 8 load_addr) eq_refl) as (b0 & b1 & b2 & b3 & b4 & b5 & b6 & b7 & Eb). rewrite Eb in Hx, D. clear Eb.
  assert (Hall : slice (h ++ payload) 120 212 = Some payload).
  { apply slice_Some. split; [lia|]. split; [rewrite length_app; lia|].
    rewrite drop_app_ge by lia. rewrite Hh. change (Z.to_nat 120 - 120)%nat with 0%nat. rewrite drop_0. rewrite take_ge; [done|]. rewrite Hl. lia. }
  split.
  - unfold header_ok, read_u16. rewrite !R by lia. rewrite length_app, Hh, Hl.
    assert (Hl4 : forall i, (i < 120)%nat -> (h ++ payload) !! i = h !! i) by (intros; apply lookup_app_l; lia).
    rewrite !Hl4 by lia. rewrite take_app_le by lia. rewrite Hx. vm_compute. reflexivity.
  - unfold parse_elf, read_u64, read_u16. rewrite !R by lia.
    assert (E1 : read_uint 8 h 0 24 = Some load_addr) by (rewrite <- D, Hx; reflexivity).
    assert (E2 : read_uint 8 h 0 32 = Some 64) by (rewrite Hx; vm_compute; reflexivity).
    assert (E3 : read_uint 2 h 0 54 = Some 56) by (rewrite Hx; vm_compute; reflexivity).
    assert (E4 : read_uint 2 h 0 56 = Some 1) by (rewrite Hx; vm_compute; reflexivity).
    rewrite E1, E2, E3, E4. cbn [mbind option_bind]. change (seq 0 (Z.to_nat 1)) with [0%nat]. cbn [parse_segments].
    unfold parse_segment. change (checked_mul (Z.of_nat 0) 56) with (Some 0). cbn [mbind option_bind].
    change (checked_add 64 0) with (Some 64). cbn [mbind option_bind]. unfold read_u32, read_u64. rewrite !R by lia.
    assert (F1 : read_uint 4 h 64 0 = Some PT_LOAD) by (rewrite Hx; vm_compute; reflexivity).
    assert (F2 : read_uint 4 h 64 4 = Some 7) by (rewrite Hx; vm_compute; reflexivity).
    assert (F3 : read_uint 8 h 64 8 = Some 120) by (rewrite Hx; vm_compute; reflexivity).
    assert (F4 : read_uint 8 h 64 16 = Some load_addr) by (rewrite <- D, Hx; reflexivity).
    assert (F5 : read_uint 8 h 64 32 = Some 92) by (rewrite Hx; vm_compute; reflexivity).
    assert (F6 : read_uint 8 h 64 40 = Some 92) by (rewrite Hx; vm_compute; reflexivity).
    rewrite F1, F2, F3, F4, F5, F6. cbn [mbind option_bind negb Z.eqb PT_LOAD Pos.eqb].
    change (checked_add 120 92) with (Some 212). cbn [mbind option_bind]. rewrite Hall. reflexivity.
Qed.

Lemma test_elf_layout payload shared :
  224%nat ∉ shared -> layout_ok shared [mkSegment payload ELF_LOAD_ADDR 92 true].
Proof.
  intros Hs. set (segs := [mkSegment payload ELF_LOAD_ADDR 92 true]).
  assert (E1 : stack_page segs = ELF_LOAD_ADDR + 8192) by done.
  assert (E2 : args_page segs = ELF_LOAD_ADDR + 12288) by done.
  assert (E3 : segs ≫= segment_page_list = [ELF_LOAD_ADDR]) by done. split.
  - intros sg ->%list_elem_of_singleton. cbn. unfold PAGE_SIZE, ELF_LOAD_ADDR. split; [done|lia].
  - rewrite E2. unfold ELF_LOAD_ADDR, PAGE_SIZE. lia.
  - rewrite E3. apply NoDup_singleton.
  - intros p Hp. rewrite E1, E2, E3 in Hp.
    repeat (apply elem_of_cons in Hp as [->|Hp]; [exact Hs|]). by apply not_elem_of_nil in Hp.
Qed.

Lemma encode_u8 i : valid i -> Forall is_u8 (encode i).
Proof.
  assert (Hm : forall d, is_u8 (d mod 256)) by (intros; apply Z.mod_pos_bound; lia).
  destruct i; cbn [valid encode]; unfold reg8; intros; repeat (apply Forall_cons; split);
    try apply Forall_nil; try apply Hm; try apply le_encode_bytes; try done; unfold is_u8; lia.
Qed.

Lemma echo_code_u8 page_addr : 0 <= page_addr -> page_addr + 91 < 2 ^ 64 ->
  Forall is_u8 ((echo_listing page_addr ≫= encode) ++ [0]).
Proof.
  intros H0 H64. apply Forall_app. split; [|constructor; [unfold is_u8; lia|constructor]].
  assert (Hv : Forall valid (echo_listing page_addr)).
  { unfold echo_listing, echo_arguments. cbn [app]. rewrite !Forall_cons. unfold valid, reg8, is_u64, is_u8, Opcode.RAX, Opcode.RDI, Opcode.RSI, Opcode.RDX, SYS_READ, SYS_WRITE.
    split_and!; try done; lia. }
  induction Hv as [|i prog Hi _ IH]; [constructor|]. rewrite bind_cons. apply Forall_app. split; [by apply encode_u8|exact IH].
Qed.

Lemma test_elf_u8 load_addr size : Forall is_u8 (test_elf_header load_addr size).
Proof.
  unfold test_elf_header. repeat apply Forall_app_2; try apply le_encode_bytes.
  - repeat (apply Forall_cons; split; [unfold is_u8; lia|]). constructor.
  - apply Forall_replicate. unfold is_u8. lia.
Qed.

(** The bytes of a segment, as a program reads them. *)
Lemma sees_bytes m l4 a bs w :
  (forall k, 0 <= k < Z.of_nat (length bs) -> sees m l4 (a + k) (nth (Z.to_nat k) bs 0) w) ->
  user_bytes m l4 a (length bs) = bs /\ user_reach m l4 a (length bs) w.
Proof.
  intros Hs. split.
  - apply list_eq. intros i. unfold user_bytes. destruct (decide (i < length bs)%nat) as [Hi|Hi].
    + rewrite list_lookup_fmap, lookup_seq_lt by done. cbn.
      destruct (Hs (Z.of_nat i)) as (p & E & Hb & _); [lia|]. rewrite E. cbn [default]. rewrite Nat2Z.id in Hb.
      destruct (lookup_lt_is_Some_2 bs i Hi) as [b Eb]. rewrite Eb. f_equal.
      transitivity (m p); [done|]. rewrite Hb. by apply nth_lookup_Some.
    + rewrite !lookup_ge_None_2; [done|lia|]. rewrite length_fmap, length_seq. lia.
  - intros x Hx. destruct (Hs (x - a)) as (p & E & _ & Ew); [lia|].
    replace (a + (x - a)) with x in E, Ew by lia. destruct w; [rewrite Ew|rewrite E]; eauto.
Qed.

(** Of the frames [free], at most [n] were taken and written to; the others
    are still free. *)
Record took (n : nat) (m m' : mem) (free free' : list Z) : Prop := {
  took_mem : mem_ok m';
  took_free : free' ⊆+ free;
  took_count : (length free <= length free' + n)%nat;
  took_outside x : ~ in_frames free x -> m' x = m x;
}.

Lemma loading_took {crate : X86Crate} {A} `{!FrameAllocator A, !FrameDeallocator A, !LawfulFrameAllocator A} n l4 shared free m m' (a' : A) top pages :
  loading l4 shared free m m' a' top pages -> (length free <= length (fa_avail a') + n)%nat -> took n m m' free (fa_avail a').
Proof.
  intros [L1 _ _ L4 L5 _ _ _] Hn. split; [done| |done|done]. rewrite <- L4, app_assoc. by apply submseteq_inserts_l.
Qed.

(** The loader accepts the kernel's own ELF file.  [build_test_elf]
    returns a file without a panic, and [load] of it, with frames enough,
    succeeds: its entry point is [ELF_LOAD_ADDR], the stack ends 16 bytes
    below the end of a page above it, and the program reads there, and may
    write, exactly the bytes of the echo program built for that address. *)
Lemma test_elf_loads {crate : X86Crate} {mapper : PageMapper} {A} `{!FrameAllocator A, !FrameDeallocator A, !LawfulFrameAllocator A}
    m cr3 pmo (a : A) l4 rest :
  mem_ok m -> canonical pmo -> va_index 4 pmo <> 224%nat -> fa_inv a -> fa_avail a = l4 :: rest -> NoDup (l4 :: rest) ->
  Forall frame_ok (l4 :: rest) -> frames_apart cr3 l4 -> (12 <= length rest)%nat ->
  exists bytes code m' a', build_test_elf ELF_LOAD_ADDR = Ok bytes /\ build_echo_shellcode ELF_LOAD_ADDR = Ok code /\
    load bytes cr3 pmo [] (m, a) = Ok (Some (mkLoadedElf l4 ELF_LOAD_ADDR (ELF_LOAD_ADDR + 3 * 4096 - 16) (ELF_LOAD_ADDR + 3 * 4096) 0), (m', a')) /\
    user_bytes m' l4 ELF_LOAD_ADDR (length code) = code /\ user_reach m' l4 ELF_LOAD_ADDR (length code) true /\
    took 13 m m' (fa_avail a) (fa_avail a') /\ fa_inv a'.
Proof.
  intros Hm Hc Hpmo Hi Hav Hnd Hok Hap Hlen.
  set (code := (echo_listing ELF_LOAD_ADDR ≫= encode) ++ [0]).
  assert (Eb : build_echo_shellcode ELF_LOAD_ADDR = Ok code) by (apply build_echo_listing; unfold ELF_LOAD_ADDR; lia).
  assert (Hl : length code = 92%nat) by done.
  destruct (test_elf_parses ELF_LOAD_ADDR code) as [Hh Hp]; [unfold is_u64, ELF_LOAD_ADDR; lia|done|].
  assert (Ee := build_test_elf_header ELF_LOAD_ADDR code Eb). rewrite Hl in Ee. change (Z.of_nat 92) with 92 in Ee.
  assert (Hu : Forall is_u8 (test_elf_header ELF_LOAD_ADDR 92 ++ code)).
  { apply Forall_app_2; [apply test_elf_u8|]. apply echo_code_u8; unfold ELF_LOAD_ADDR; lia. }
  assert (Hlay : layout_ok [0%nat; va_index 4 pmo] [mkSegment code ELF_LOAD_ADDR 92 true]).
  { apply test_elf_layout. intros [?|[Hv|Hv%not_elem_of_nil]%elem_of_cons]%elem_of_cons; [done| |done]. congruence. }
  destruct (load_loads (test_elf_header ELF_LOAD_ADDR 92 ++ code) [] ELF_LOAD_ADDR _ m cr3 pmo a l4 rest Hh Hp Hu (Forall_nil_2 _)
    ltac:(unfold ELF_LOAD_ADDR; lia) Hlay Hm Hc Hi Hav Hnd Hok Hap Hlen) as (m' & a' & top & pages & E & Hld & Hpp & Hcnt).
  assert (Him := image_program l4 _ m' top pages _ _ (loading_image _ _ _ _ _ _ _ _ Hld) Hpp).
  assert (Hto : took 13 m m' (fa_avail a) (fa_avail a')).
  { apply (loading_took 13 _ _ _ _ _ _ _ _ Hld). rewrite Hav. change (4 * total_pages _)%nat with 12%nat in Hcnt. cbn [length]. lia. }
  eexists _, code, m', a'. split; [exact Ee|]. split; [exact Eb|]. split; [exact E|]. apply (proj1 (Logic.and_assoc _ _ _)).
  split; [|split; [exact Hto|apply Hld]]. apply sees_bytes. intros k Hk. apply (proj1 Him (mkSegment code ELF_LOAD_ADDR 92 true) k); [by left|].
  rewrite Hl in Hk. exact Hk.
Qed.

(** ** The bad pointer *)

Section BadPointer.
Context {crate : X86Crate} {mapper : PageMapper} {H : Type} {kheap : KernelHeap H} {D : Type} `{!SectorDisk D}.
Implicit Types (s : System H D).

(** The memory the running program sees; what it may not read is not
    code. *)
Definition user_memory s : mem := fun va => phys (kernel s) (default 0 (mmu_access (phys (kernel s)) (cr3 (kernel s)) va false)).

(** [int 0x80] of the running program; after a panic of the kernel nothing
    runs. *)
Definition kernel_call wp can_allocate fuel tramp ring3 yield rounds (number arg1 arg2 arg3 arg4 : Z) s : (Z * System H D) + System H D :=
  match dispatch wp can_allocate fuel tramp ring3 yield rounds number arg1 arg2 arg3 arg4 s with
  | Ok (Go r, s') => inl (r, s')
  | Ok (Gone _, s') => inr s'
  | Panic _ => inr s
  end.

Definition bad_pointer_listing : list uinstr :=
  [MovImm Opcode.RAX SYS_WRITE; MovImm Opcode.RDI 1; MovImm Opcode.RSI BAD_POINTER; MovImm Opcode.RDX 10].

Lemma build_bad_pointer_listing : build_bad_pointer_shellcode = (bad_pointer_listing ++ [IntN 0x80]) ≫= encode.
Proof. vm_compute. reflexivity. Qed.

Lemma bad_pointer_moves : Forall (fun i => is_pure i = true /\ valid i) bad_pointer_listing.
Proof.
  repeat (constructor; [split; [done|split; [unfold reg8, Opcode.RAX, Opcode.RDI, Opcode.RSI, Opcode.RDX; lia|unfold is_u64, SYS_WRITE, BAD_POINTER; lia]]|]). constructor.
Qed.

(** The demo of the bad pointer does not take the kernel down.  A
    program whose code is [build_bad_pointer_shellcode], wherever it is
    mapped, runs its five instructions and is killed in its call: the
    message is printed, the next thread runs, the invariant of the kernel
    holds, and input, disk and frames are as they were. *)
Lemma bad_pointer_demo_killed wp can_allocate fuel tramp ring3 yield rounds spaces s st t u :
  kernel_inv spaces (kernel s) st -> current st <> 0%nat ->
  shows (writer (console s)) t -> writer_locked (console s) = false ->
  no_user_high (phys (kernel s)) (cr3 (kernel s)) ->
  0 <= urip u -> urip u + 42 < 2 ^ 64 ->
  user_bytes (phys (kernel s)) (cr3 (kernel s)) (urip u) (length build_bad_pointer_shellcode) = build_bad_pointer_shellcode ->
  ~ user_reach (phys (kernel s)) (cr3 (kernel s)) BAD_POINTER 10 false ->
  exists s' reason, urun user_memory (kernel_call wp can_allocate fuel tramp ring3 yield rounds) 5 u s = Left3 s' /\
    killed spaces s st reason t s'.
Proof.
  intros HK Hc Hs Hl Hh H0 H64 Hcode Hbad.
  assert (Hu : user_context s) by (destruct (ki_pmo _ _ _ HK) as (pmo & Hp & _); split; [eauto|done]).
  set (reason := "syscall argument pointer not mapped for read").
  assert (E : dispatch wp can_allocate fuel tramp ring3 yield rounds SYS_WRITE 1 BAD_POINTER 10 (uregs u Opcode.RCX) s =
    kill_current_thread reason s).
  { apply (copy_from_user_rejects wp s BAD_POINTER 10); [done|unfold user_buffer, BAD_POINTER; lia|by right]. }
  destruct (kill_kills (A := Z) spaces s st reason t HK Hc Hs Hl) as (e & s' & E' & Hk).
  exists s', reason. split; [|exact Hk].
  refine (eq_trans (urun_call user_memory (kernel_call wp can_allocate fuel tramp ring3 yield rounds) bad_pointer_listing [] u s _ _ H0 _) _).
  - apply bad_pointer_moves.
  - unfold listing_at. rewrite <- build_bad_pointer_listing. exact Hcode.
  - change (urip u + 40 + 2 < 2 ^ 64). lia.
  - unfold kernel_call. change (dispatch wp can_allocate fuel tramp ring3 yield rounds _ _ _ _ _ s) with
      (dispatch wp can_allocate fuel tramp ring3 yield rounds SYS_WRITE 1 BAD_POINTER 10 (uregs u Opcode.RCX) s).
    by rewrite E, E'.
Qed.
End BadPointer.

(** ** The page of a demo *)

Section DemoPage.
Context {crate : X86Crate} {mapper : PageMapper} {H : Type} {kheap : KernelHeap H}.
Implicit Types (k : Kernel H).

Definition demo_flags : Z := Z.lor (Z.lor PRESENT WRITABLE) USER_ACCESSIBLE.

(** The code is in the frame of a freshly mapped page; what was in the frame
    behind it stays. *)
Lemma map_shellcode_page_loading l4 shared total m0 k addr code : NoDup total -> Forall frame_ok total ->
  loading l4 shared total m0 (phys k) (frames k) ∅ [] -> user_page shared addr -> (length code <= 4096)%nat -> Forall is_u8 code ->
  (4 <= length (fa_avail (frames k)))%nat ->
  exists m a top content, map_shellcode_page l4 addr code k = Ok (tt, set_memory m a k) /\
    loading l4 shared total m0 m a top [mkLoadedPage addr content true] /\ take (length code) content = code /\
    (length (fa_avail (frames k)) <= length (fa_avail a) + 4)%nat /\
    forall i, (i < 512)%nat -> i ∈ shared -> table_entry m l4 i = table_entry (phys k) l4 i.
Proof.
  intros Hnd Hok Hld Hp Hcode Hu8 Hlen. destruct (fa_avail (frames k)) as [|frame rest] eqn:Hav; [cbn in Hlen; lia|].
  destruct (fa_alloc_some (frames k) frame rest (ld_inv _ _ _ _ _ _ _ _ Hld) Hav) as (a1 & Ea & Hi1 & Hav1).
  assert (Hmiss := space_missing_le ∅ addr).
  destruct (loading_space_ok _ _ _ _ Hnd Hok _ _ _ _ Hld) as (O1 & O2 & _ & O4 & O5). rewrite Hav in O4, O5.
  assert (Hsub : space_tables l4 ∅ ++ rest ⊆+ space_tables l4 ∅ ++ frame :: rest) by (apply submseteq_app; [done|by apply submseteq_cons]).
  destruct (map_to_ok (phys k) l4 shared ∅ addr frame demo_flags a1) as (m1 & a2 & top & Em & Hmo).
  - split_and!; [done|done|done|rewrite Hav1; by eapply NoDup_sub|rewrite Hav1; by eapply Forall_sub].
  - destruct Hp as (P1 & P2 & P3). split_and!; [done|unfold canonical; lia|done| |right; right; by right].
    apply Forall_app in O5 as [_ O5]. by apply Forall_cons in O5 as [? _].
  - done.
  - rewrite Hav1. cbn [length] in Hlen. lia.
  - exists (write_list m1 frame code), a2, top, (read_bytes (write_list m1 frame code) frame (Z.to_nat PAGE_SIZE)). split_and!.
    + destruct Hp as (P1 & P2 & _). unfold map_shellcode_page, va_new. rewrite va_try_new_canonical by (unfold canonical; lia).
      cbn [expect mbind outcome_bind]. rewrite page_containing_spec, P1, Z.sub_0_r by (unfold canonical; lia). rewrite Ea.
      cbn [expect mbind outcome_bind]. fold demo_flags. by rewrite Em.
    + eapply (map_page_loading l4 shared total m0 Hnd Hok (phys k) m1 _ (frames k) a1 a2 ∅ top [] addr frame rest true); try done;
        [by intros ?%not_elem_of_nil|apply Hmo|apply mem_ok_write_list; [apply Hmo|done]|].
      intros x Hx. apply write_list_other. unfold in_frame, PAGE_SIZE in Hx. lia.
    + etransitivity; [|apply (write_list_same m1 frame code)]. unfold read_bytes. rewrite <- fmap_take, take_seq. do 2 f_equal. unfold PAGE_SIZE. lia.
    + rewrite (mapped_avail _ _ _ _ _ _ _ _ _ _ _ Hmo), Hav1, length_drop. cbn [length]. lia.
    + intros i Hi Hsh. rewrite <- (mapped_shared _ _ _ _ _ _ _ _ _ _ _ Hmo i Hi Hsh).
      apply NoDup_app in O4 as (_ & Hd & _). apply Forall_app in O5 as [F1 F2]. apply Forall_inv in F1 as [A1 B1], F2 as [A2 B2].
      assert (Hne : l4 <> frame) by (intros <-; apply (Hd l4); by left).
      apply table_entry_ext; [done|]. intros x Hx. apply write_list_other. unfold PAGE_SIZE in *. Z.to_euclidean_division_equations. lia.
Qed.

(** A demo's code is where it will run.  With five frames free or more,
    the part of the demos before a thread is spawned succeeds: the new
    address space shows ring 3 exactly the code at the page of the demo, and
    lets it write there; no memory outside of the free frames was written,
    so no other address space sees a difference; and every frame taken is a
    table or a page of the new address space. *)
Lemma demo_code_mapped trampoline body pmo kernel_table addr code k l4 rest :
  mem_ok (phys k) -> canonical pmo -> fa_inv (frames k) -> fa_avail (frames k) = l4 :: rest -> NoDup (l4 :: rest) ->
  Forall frame_ok (l4 :: rest) -> frames_apart (cr3 k) l4 -> (4 <= length rest)%nat ->
  user_page [0%nat; va_index 4 pmo] addr -> (length code <= 4096)%nat -> Forall is_u8 code ->
  exists k' top, spawn_code_demo trampoline body pmo kernel_table addr (Ok code) false k = Ok (None, k') /\
    user_bytes (phys k') l4 addr (length code) = code /\ user_reach (phys k') l4 addr (length code) true /\
    took 5 (phys k) (phys k') (l4 :: rest) (fa_avail (frames k')) /\ fa_inv (frames k') /\ k' = set_memory (phys k') (frames k') k /\
    repr_space (phys k') l4 [0%nat; va_index 4 pmo] top /\
    space_tables l4 top ++ (space_mappings top).*2 ++ fa_avail (frames k') ≡ₚ l4 :: rest.
Proof.
  intros Hm Hc Hi Hav Hnd Hok Hap Hlen Hpg Hcode Hu8.
  destruct (new_space_loading (phys k) (cr3 k) pmo l4 rest (frames k) Hm Hc Hi Hav Hap) as (m1 & a1 & E1 & Hav1 & Hld & _).
  destruct (map_shellcode_page_loading l4 [0%nat; va_index 4 pmo] (l4 :: rest) (phys k) (set_memory m1 a1 k) addr code Hnd Hok Hld Hpg Hcode Hu8)
    as (m & a & top & content & E2 & Hld2 & Ec & Hcnt & _); [cbn [frames set_memory]; by rewrite Hav1|]. cbn [frames set_memory] in Hcnt. rewrite Hav1 in Hcnt.
  assert (Hsee := fun j => image_sees l4 _ m top _ (mkLoadedPage addr content true) j (loading_image _ _ _ _ _ _ _ _ Hld2) (list_elem_of_here _ _)).
  destruct (sees_bytes m l4 addr code true) as [Hb Hre].
  { intros j Hj. rewrite <- Ec, nth_lookup, lookup_take_lt by lia. rewrite <- nth_lookup. apply Hsee. unfold PAGE_SIZE. lia. }
  assert (Htot := ld_total _ _ _ _ _ _ _ _ Hld2). exists (set_memory m a k), top. split_and!; [|done|done| |apply Hld2|by destruct k|apply Hld2|done].
  - unfold spawn_code_demo, new_isolated_space, mbind, M_bind, lift. rewrite E1. cbn [outcome_bind mbind]. by rewrite E2.
  - cbn [phys frames set_memory]. split; [apply Hld2| |cbn [length]; lia|apply Hld2].
    rewrite <- Htot, app_assoc. by apply submseteq_inserts_l.
Qed.
End DemoPage.

(** ** Concrete demos *)

Section Sample.
#[local] Existing Instances x86_crate ref_mapper.

Lemma test_elf_loads_witness : exists bytes code m' a', build_test_elf ELF_LOAD_ADDR = Ok bytes /\
  load bytes 0x11000 (3 * 2 ^ 39) [] (sample_kernel_tables, frame_allocator_init sample_ram) =
    Ok (Some (mkLoadedElf 0x100000 0x700000000000 0x700000002ff0 0x700000003000 0), (m', a')) /\
  user_bytes m' 0x100000 0x700000000000 92 = code.
Proof.
  destruct sample_ram_lawful as [Hi Hav], sample_ram_frames as [Hnd Hok].
  destruct (test_elf_loads sample_kernel_tables 0x11000 (3 * 2 ^ 39) (frame_allocator_init sample_ram) 0x100000
    (stride 0x101000 4096 255)) as (bytes & code & m' & a' & E1 & E2 & E3 & Hb & _).
  - apply sample_kernel_tables_ok.
  - unfold canonical. lia.
  - vm_compute. discriminate.
  - exact Hi.
  - exact Hav.
  - exact Hnd.
  - exact Hok.
  - unfold frames_apart, PAGE_SIZE. lia.
  - rewrite length_stride. lia.
  - exists bytes, code, m', a'. split; [exact E1|]. split; [exact E3|].
    vm_compute in E2. injection E2 as <-. exact Hb.
Defined.

(** A table that holds code, and the program that runs it. *)
Lemma demo_code_mapped_witness : exists k', spawn_code_demo 0x10000 0x20000 (3 * 2 ^ 39) 0x11000 BAD_POINTER_DEMO_ADDR
    (Ok build_bad_pointer_shellcode) false (sample_boot sample_kernel_tables sample_ram) = Ok (None, k') /\
  user_bytes (phys k') 0x100000 BAD_POINTER_DEMO_ADDR 42 = build_bad_pointer_shellcode.
Proof.
  destruct sample_ram_lawful as [Hi Hav], sample_ram_frames as [Hnd Hok].
  destruct (demo_code_mapped 0x10000 0x20000 (3 * 2 ^ 39) 0x11000 BAD_POINTER_DEMO_ADDR build_bad_pointer_shellcode
    (sample_boot sample_kernel_tables sample_ram) 0x100000 (stride 0x101000 4096 255)) as (k' & top & E & Hb & _).
  - apply sample_kernel_tables_ok.
  - unfold canonical. lia.
  - exact Hi.
  - exact Hav.
  - exact Hnd.
  - exact Hok.
  - unfold frames_apart, PAGE_SIZE. cbn [sample_boot cr3]. lia.
  - rewrite length_stride. lia.
  - unfold user_page, BAD_POINTER_DEMO_ADDR. split; [reflexivity|]. split; [lia|]. apply (bool_decide_eq_true_1 _). vm_compute. reflexivity.
  - vm_compute. lia.
  - apply (bool_decide_eq_true_1 _). vm_compute. reflexivity.
  - exists k'. exact (conj E Hb).
Defined.

#[local] Existing Instance no_file_disk.

Lemma bad_pointer_demo_killed_witness : exists k s', urun user_memory
    (kernel_call true (fun _ => true) 2 0x10000 0x20000 (mret tt) 0) 5 (mkUState (fun _ => 0) user_page_base false) (sample_system k) = Left3 s' /\
  input s' = sample_input.
Proof.
  assert (Hc : Forall is_u8 build_bad_pointer_shellcode).
  { assert (Hb : forallb (fun b => (0 <=? b) && (b <? 256)) build_bad_pointer_shellcode = true) by (vm_compute; reflexivity).
    apply Forall_forall. intros b Hin%list_elem_of_In. rewrite forallb_forall in Hb. specialize (Hb b Hin). unfold is_u8. lia. }
  destruct (sample_caller_in (user_memory_with build_bad_pointer_shellcode) (user_memory_ok _ Hc)) as (k & s & t & HK & Hcur & Hp & Hcr & _).
  destruct (bad_pointer_demo_killed true (fun _ => true) 2 0x10000 0x20000 (mret tt) 0 (fun _ => ∅) (sample_system k) s sample_terminal
    (mkUState (fun _ => 0) user_page_base false)) as (s' & reason & E & Hk).
  - exact HK.
  - by rewrite Hcur.
  - exact sample_console_shows.
  - reflexivity.
  - cbn [sample_system kernel]. rewrite Hp, Hcr. apply empty_upper_half. vm_compute. reflexivity.
  - vm_compute. discriminate.
  - vm_compute. reflexivity.
  - cbn [sample_system kernel urip]. rewrite Hp, Hcr. vm_compute. reflexivity.
  - cbn [sample_system kernel]. rewrite Hp, Hcr. intros Hr. destruct (Hr BAD_POINTER) as [q Hq]; [lia|]. vm_compute in Hq. discriminate Hq.
  - exists k, s'. split; [exact E|]. exact (kd_input _ _ _ _ _ _ Hk).
Defined.
End Sample.
