(* ===== verification/Programs.v ===== *)
(** * Assembled programs of ring 3

    The machine for the programs in disk/: their instructions as the
    assembler reads them, with labels and symbols, on registers, flags and
    the memory of the program.  How long an instruction is, and so where the
    linker puts it, is a parameter. *)

From S2P Require Import Prelude X86 Asm Elf ElfThms.

(** Operands are in the order of the processor's manual, the destination
    first; [base index] is the address [(base, index)]. *)
Inductive pinstr :=
| Label (l : string)
| MovI (d : reg) (v : Z)
| MovR (d s : reg)
| Lea (d : reg) (symbol : string)
| LeaX (d : reg) (disp : Z) (base index : reg)
| LoadQ (d : reg) (symbol : string)
| StoreQ (symbol : string) (s : reg)
| LoadB (d : reg) (symbol : string)
| LoadBX (d base index : reg)
| StoreBX (base index s : reg)
| MovzxBX (d base index : reg)
| XorR (d s : reg)
| AddR (d s : reg)
| SubR (d s : reg)
| AndI (d : reg) (v : Z)
| ImulI (d : reg) (v : Z)
| Inc (d : reg)
| Dec (d : reg)
| CmpI (d : reg) (v : Z)
| CmpR (d s : reg)
| CmpB (d : reg) (v : Z)
| CmpBX (base index : reg) (v : Z)
| Test (d s : reg)
| Jmp (l : string)
| Je (l : string)
| Jne (l : string)
| Jge (l : string)
| CallL (l : string)
| RetL
| Int80.

Definition signed (w v : Z) : Z := if v <? 2 ^ (w - 1) then v else v - 2 ^ w.

(** ZF, and whether the signed result of a comparison is not negative; no
    flags where the manual leaves them undefined. *)
Definition flags := option (bool * bool).

(** The flags of [a - b] at width [w]. *)
Definition flags_sub (w a b : Z) : flags := Some (a =? b, 0 <=? signed w a - signed w b).
Definition flags_of (v exact : Z) : flags := Some (v =? 0, 0 <=? exact).

Record PState := mkPState { pregs : reg -> Z; ppc : nat; pflags : flags; pmem : mem }.

Definition low_byte (v b : Z) : Z := v - v mod 256 + b.

Lemma low_byte_mod v b : is_u8 b -> low_byte v b mod 256 = b.
Proof.
  unfold is_u8, low_byte. intros Hb. rewrite (Z.mod_eq v 256) by lia.
  replace (_ + b) with (b + v / 256 * 256) by lia. rewrite Z.mod_add by lia. apply Z.mod_small. lia.
Qed.

Lemma write_byte_same m a b : write_list m a [b] a = b.
Proof. unfold write_list. rewrite Z.leb_refl, Z.sub_diag. destruct (Z.ltb_spec a (a + Z.of_nat (length [b]))); [done|cbn in *; lia]. Qed.

Lemma write_byte_other m a b x : x <> a -> write_list m a [b] x = m x.
Proof. intros Hx. apply write_list_other. cbn. lia. Qed.

Lemma read_bytes_slice m a i n N : (i + n <= N)%nat ->
  read_bytes m (a + Z.of_nat i) n = take n (drop i (read_bytes m a N)).
Proof.
  intros Hn. apply list_eq. intros j. destruct (decide (j < n)%nat).
  - rewrite lookup_take_lt, lookup_drop, !read_bytes_at by lia. do 2 f_equal. lia.
  - rewrite !lookup_ge_None_2; [done| |]; rewrite ?length_take, ?length_drop, ?length_read_bytes; lia.
Qed.

(** Where the symbols of a section at [base] are. *)
Fixpoint place (base : Z) (items : list (string * Z)) (y : string) : option Z :=
  match items with
  | [] => None
  | (name, size) :: rest => if String.eqb name y then Some base else place (base + size) rest y
  end.

Definition sizes (items : list (string * list Z)) : list (string * Z) := (fun p => (p.1, Z.of_nat (length p.2))) <$> items.

Section Machine.
(** The program, where its instructions and its data are, and the pages its
    instructions may read and write. *)
Context (prog : list pinstr) (loc : nat -> Z) (sym : string -> option Z) (mapped : Z -> bool).

(** [sys] is [int 0x80], of the number and the arguments: the result, and
    the memory the kernel leaves; or nothing, when it does not return. *)
Context {W : Type} (sys : Z -> Z -> Z -> Z -> Z -> W -> mem -> option (Z * W * mem)).

Inductive presult := PRunning (u : PState) (w : W) | PLeft | PFault.

Fixpoint label_at (l : string) (code : list pinstr) : option nat :=
  match code with
  | [] => None
  | Label l' :: rest => if String.eqb l' l then Some 0%nat else S <$> label_at l rest
  | _ :: rest => S <$> label_at l rest
  end.

(** The instruction at an address. *)
Definition instr_at (a : Z) : option nat :=
  fst <$> list_find (fun i => loc i = a) (seq 0 (length prog)).

Definition mapped8 (a : Z) : bool := forallb (fun i => mapped (a + Z.of_nat i)) (seq 0 8).

Definition pset (u : PState) (d : reg) (v : Z) (fl : flags) (w : W) : presult :=
  PRunning (mkPState (upd d v (pregs u)) (S (ppc u)) fl (pmem u)) w.

Definition pstore (u : PState) (m : mem) (w : W) : presult := PRunning (mkPState (pregs u) (S (ppc u)) (pflags u) m) w.

Definition pjump (u : PState) (l : string) (w : W) : presult :=
  match label_at l prog with
  | Some t => PRunning (mkPState (pregs u) t (pflags u) (pmem u)) w
  | None => PFault
  end.

Definition pcond (u : PState) (l : string) (c : bool * bool -> bool) (w : W) : presult :=
  match pflags u with
  | Some fl => if c fl then pjump u l w else PRunning (mkPState (pregs u) (S (ppc u)) (pflags u) (pmem u)) w
  | None => PFault
  end.

Definition pexec (i : pinstr) (u : PState) (w : W) : presult :=
  let f := pregs u in
  let m := pmem u in
  let at_ b x := wrap64 (f b + f x) in
  match i with
  | Label _ => PRunning (mkPState f (S (ppc u)) (pflags u) m) w
  | MovI d v => pset u d (wrap64 v) (pflags u) w
  | MovR d s => pset u d (f s) (pflags u) w
  | Lea d y => match sym y with Some a => pset u d a (pflags u) w | None => PFault end
  | LeaX d n b x => pset u d (wrap64 (n + f b + f x)) (pflags u) w
  | LoadQ d y =>
      match sym y with
      | Some a => if mapped8 a then pset u d (read_u64_at m a) (pflags u) w else PFault
      | None => PFault
      end
  | StoreQ y s =>
      match sym y with
      | Some a => if mapped8 a then pstore u (write_u64_at m a (f s)) w else PFault
      | None => PFault
      end
  | LoadB d y =>
      match sym y with
      | Some a => if mapped a then pset u d (low_byte (f d) (m a)) (pflags u) w else PFault
      | None => PFault
      end
  | LoadBX d b x => if mapped (at_ b x) then pset u d (low_byte (f d) (m (at_ b x))) (pflags u) w else PFault
  | StoreBX b x s => if mapped (at_ b x) then pstore u (write_list m (at_ b x) [f s mod 256]) w else PFault
  | MovzxBX d b x => if mapped (at_ b x) then pset u d (m (at_ b x)) (pflags u) w else PFault
  | XorR d s => let v := Z.lxor (f d) (f s) in pset u d v (flags_of v (signed 64 v)) w
  | AddR d s => pset u d (wrap64 (f d + f s)) (flags_of (wrap64 (f d + f s)) (signed 64 (f d) + signed 64 (f s))) w
  | SubR d s => pset u d (wrap64 (f d - f s)) (flags_sub 64 (f d) (f s)) w
  | AndI d n => let v := Z.land (f d) (wrap64 n) in pset u d v (flags_of v (signed 64 v)) w
  | ImulI d n => pset u d (wrap64 (f d * n)) None w
  | Inc d => pset u d (wrap64 (f d + 1)) (flags_of (wrap64 (f d + 1)) (signed 64 (f d) + 1)) w
  | Dec d => pset u d (wrap64 (f d - 1)) (flags_of (wrap64 (f d - 1)) (signed 64 (f d) - 1)) w
  | CmpI d n => PRunning (mkPState f (S (ppc u)) (flags_sub 64 (f d) (wrap64 n)) m) w
  | CmpR d s => PRunning (mkPState f (S (ppc u)) (flags_sub 64 (f d) (f s)) m) w
  | CmpB d n => PRunning (mkPState f (S (ppc u)) (flags_sub 8 (f d mod 256) n) m) w
  | CmpBX b x n =>
      if mapped (at_ b x) then PRunning (mkPState f (S (ppc u)) (flags_sub 8 (m (at_ b x)) n) m) w else PFault
  | Test d s => let v := Z.land (f d) (f s) in PRunning (mkPState f (S (ppc u)) (flags_of v (signed 64 v)) m) w
  | Jmp l => pjump u l w
  | Je l => pcond u l fst w
  | Jne l => pcond u l (fun fl => negb fl.1) w
  | Jge l => pcond u l snd w
  | CallL l =>
      let a := wrap64 (f RSP - 8) in
      if mapped8 a then
        pjump (mkPState (upd RSP a f) (ppc u) (pflags u) (write_u64_at m a (loc (S (ppc u))))) l w
      else PFault
  | RetL =>
      if mapped8 (f RSP) then
        match instr_at (read_u64_at m (f RSP)) with
        | Some t => PRunning (mkPState (upd RSP (wrap64 (f RSP + 8)) f) t (pflags u) m) w
        | None => PFault
        end
      else PFault
  | Int80 =>
      match sys (f RAX) (f RDI) (f RSI) (f RDX) (f RCX) w m with
      | Some (r, w', m') => PRunning (mkPState (upd RAX r f) (S (ppc u)) (pflags u) m') w'
      | None => PLeft
      end
  end.

Definition pstep (u : PState) (w : W) : presult :=
  match prog !! ppc u with Some i => pexec i u w | None => PFault end.

Fixpoint prun (n : nat) (u : PState) (w : W) : presult :=
  match n with
  | O => PRunning u w
  | S n' => match pstep u w with PRunning u' w' => prun n' u' w' | r => r end
  end.

(** The program gets from [u] to a state of [Q]. *)
Definition leads (u : PState) (w : W) (Q : PState -> W -> Prop) : Prop :=
  exists n u' w', prun n u w = PRunning u' w' /\ Q u' w'.

(** ** Steps *)

Implicit Types (f : reg -> Z) (pc : nat) (fl : flags) (m : mem) (u : PState) (w : W).

Lemma leads_now u w (Q : PState -> W -> Prop) : Q u w -> leads u w Q.
Proof. intros HQ. by exists 0%nat, u, w. Qed.

Lemma prun_add n n' u w u1 w1 : prun n u w = PRunning u1 w1 -> prun (n + n') u w = prun n' u1 w1.
Proof.
  revert u w; induction n as [|n IH]; intros u w E; cbn [prun Nat.add] in *; [by injection E as -> ->|].
  destruct (pstep u w); [by apply IH|done..].
Qed.

Lemma leads_trans u w (Q Q' : PState -> W -> Prop) :
  leads u w Q -> (forall u1 w1, Q u1 w1 -> leads u1 w1 Q') -> leads u w Q'.
Proof.
  intros (n & u1 & w1 & E & HQ) Hnext. destruct (Hnext u1 w1 HQ) as (n' & u2 & w2 & E' & HQ').
  exists (n + n')%nat, u2, w2. by rewrite (prun_add _ _ _ _ _ _ E).
Qed.

Lemma leads_exec i f pc fl m w u1 w1 Q : prog !! pc = Some i ->
  pexec i (mkPState f pc fl m) w = PRunning u1 w1 -> leads u1 w1 Q -> leads (mkPState f pc fl m) w Q.
Proof. intros Ei Ex (n & u2 & w2 & E & HQ). exists (S n), u2, w2. cbn [prun]. unfold pstep. cbn [ppc]. by rewrite Ei, Ex. Qed.

Section Instructions.
Context (f : reg -> Z) (pc : nat) (fl : flags) (m : mem) (w : W) (Q : PState -> W -> Prop).

Lemma leads_lea d y a : prog !! pc = Some (Lea d y) -> sym y = Some a ->
  leads (mkPState (upd d a f) (S pc) fl m) w Q -> leads (mkPState f pc fl m) w Q.
Proof. intros Ei Es. apply (leads_exec _ _ _ _ _ _ _ _ _ Ei). cbn [pexec pregs ppc pflags pmem]. by rewrite Es. Qed.

Lemma leads_loadq d y a : prog !! pc = Some (LoadQ d y) -> sym y = Some a -> mapped8 a = true ->
  leads (mkPState (upd d (read_u64_at m a) f) (S pc) fl m) w Q -> leads (mkPState f pc fl m) w Q.
Proof. intros Ei Es Em. apply (leads_exec _ _ _ _ _ _ _ _ _ Ei). cbn [pexec pregs ppc pflags pmem]. by rewrite Es, Em. Qed.

Lemma leads_storeq y s a : prog !! pc = Some (StoreQ y s) -> sym y = Some a -> mapped8 a = true ->
  leads (mkPState f (S pc) fl (write_u64_at m a (f s))) w Q -> leads (mkPState f pc fl m) w Q.
Proof. intros Ei Es Em. apply (leads_exec _ _ _ _ _ _ _ _ _ Ei). cbn [pexec pregs ppc pflags pmem]. by rewrite Es, Em. Qed.

Lemma leads_loadb d y a : prog !! pc = Some (LoadB d y) -> sym y = Some a -> mapped a = true ->
  leads (mkPState (upd d (low_byte (f d) (m a)) f) (S pc) fl m) w Q -> leads (mkPState f pc fl m) w Q.
Proof. intros Ei Es Em. apply (leads_exec _ _ _ _ _ _ _ _ _ Ei). cbn [pexec pregs ppc pflags pmem]. by rewrite Es, Em. Qed.

Lemma leads_loadbx d b x a : prog !! pc = Some (LoadBX d b x) -> f b + f x = a -> is_u64 a -> mapped a = true ->
  leads (mkPState (upd d (low_byte (f d) (m a)) f) (S pc) fl m) w Q -> leads (mkPState f pc fl m) w Q.
Proof. intros Ei Ea Hu Em. apply (leads_exec _ _ _ _ _ _ _ _ _ Ei). cbn [pexec pregs ppc pflags pmem]. by rewrite Ea, wrap64_small, Em. Qed.

Lemma leads_movzx d b x a : prog !! pc = Some (MovzxBX d b x) -> f b + f x = a -> is_u64 a -> mapped a = true ->
  leads (mkPState (upd d (m a) f) (S pc) fl m) w Q -> leads (mkPState f pc fl m) w Q.
Proof. intros Ei Ea Hu Em. apply (leads_exec _ _ _ _ _ _ _ _ _ Ei). cbn [pexec pregs ppc pflags pmem]. by rewrite Ea, wrap64_small, Em. Qed.

Lemma leads_storebx b x s a : prog !! pc = Some (StoreBX b x s) -> f b + f x = a -> is_u64 a -> mapped a = true ->
  leads (mkPState f (S pc) fl (write_list m a [f s mod 256])) w Q -> leads (mkPState f pc fl m) w Q.
Proof. intros Ei Ea Hu Em. apply (leads_exec _ _ _ _ _ _ _ _ _ Ei). cbn [pexec pregs ppc pflags pmem]. by rewrite Ea, wrap64_small, Em. Qed.

Lemma leads_cmpbx b x n a : prog !! pc = Some (CmpBX b x n) -> f b + f x = a -> is_u64 a -> mapped a = true ->
  leads (mkPState f (S pc) (flags_sub 8 (m a) n) m) w Q -> leads (mkPState f pc fl m) w Q.
Proof. intros Ei Ea Hu Em. apply (leads_exec _ _ _ _ _ _ _ _ _ Ei). cbn [pexec pregs ppc pflags pmem]. by rewrite Ea, wrap64_small, Em. Qed.

Lemma leads_jmp l t : prog !! pc = Some (Jmp l) -> label_at l prog = Some t ->
  leads (mkPState f t fl m) w Q -> leads (mkPState f pc fl m) w Q.
Proof. intros Ei Et. apply (leads_exec _ _ _ _ _ _ _ _ _ Ei). cbn [pexec pregs ppc pflags pmem]. unfold pjump. by rewrite Et. Qed.

Lemma leads_je (c : bool) l t z g : prog !! pc = Some (Je l) -> label_at l prog = Some t -> fl = Some (z, g) -> z = c ->
  leads (mkPState f (if c then t else S pc) fl m) w Q -> leads (mkPState f pc fl m) w Q.
Proof. intros Ei Et -> ->. apply (leads_exec _ _ _ _ _ _ _ _ _ Ei). cbn [pexec pregs ppc pflags pmem]. unfold pcond, pjump. cbn [pregs ppc pflags pmem fst snd negb]. destruct c; [by rewrite Et|done]. Qed.

Lemma leads_jne (c : bool) l t z g : prog !! pc = Some (Jne l) -> label_at l prog = Some t -> fl = Some (z, g) -> z = c ->
  leads (mkPState f (if c then S pc else t) fl m) w Q -> leads (mkPState f pc fl m) w Q.
Proof. intros Ei Et -> ->. apply (leads_exec _ _ _ _ _ _ _ _ _ Ei). cbn [pexec pregs ppc pflags pmem]. unfold pcond, pjump. cbn [pregs ppc pflags pmem fst snd negb]. destruct c; [done|by rewrite Et]. Qed.

Lemma leads_jge (c : bool) l t z g : prog !! pc = Some (Jge l) -> label_at l prog = Some t -> fl = Some (z, g) -> g = c ->
  leads (mkPState f (if c then t else S pc) fl m) w Q -> leads (mkPState f pc fl m) w Q.
Proof. intros Ei Et -> ->. apply (leads_exec _ _ _ _ _ _ _ _ _ Ei). cbn [pexec pregs ppc pflags pmem]. unfold pcond, pjump. cbn [pregs ppc pflags pmem fst snd negb]. destruct c; [by rewrite Et|done]. Qed.

Lemma leads_call l t sp : prog !! pc = Some (CallL l) -> label_at l prog = Some t -> f RSP = sp -> 8 <= sp < 2 ^ 64 ->
  mapped8 (sp - 8) = true ->
  leads (mkPState (upd RSP (sp - 8) f) t fl (write_u64_at m (sp - 8) (loc (S pc)))) w Q -> leads (mkPState f pc fl m) w Q.
Proof.
  intros Ei Et Es Hs Em. apply (leads_exec _ _ _ _ _ _ _ _ _ Ei). cbn [pexec pregs ppc pflags pmem]. rewrite Es, wrap64_small by (unfold is_u64; lia). rewrite Em.
  unfold pjump. by rewrite Et.
Qed.

Lemma leads_ret i a : prog !! pc = Some RetL -> f RSP = a -> 0 <= a -> a + 8 < 2 ^ 64 -> mapped8 a = true ->
  read_u64_at m a = loc i -> (i < length prog)%nat ->
  (forall j, (j < i)%nat -> loc j <> loc i) ->
  leads (mkPState (upd RSP (a + 8) f) i fl m) w Q -> leads (mkPState f pc fl m) w Q.
Proof.
  intros Ei Ea H0 Hs Em Er Hi Hinj. apply (leads_exec _ _ _ _ _ _ _ _ _ Ei). cbn [pexec pregs ppc pflags pmem]. rewrite Ea, Em, Er, wrap64_small by (unfold is_u64; lia).
  unfold instr_at. assert (Hf : list_find (fun j => loc j = loc i) (seq 0 (length prog)) = Some (i, i)); [|by rewrite Hf].
  apply list_find_Some. split_and!; [by apply lookup_seq_lt|done|].
  intros j y Hy Hj E. apply lookup_seq in Hy as [-> Hl]. by apply (Hinj j).
Qed.

Lemma leads_int r w1 m1 : prog !! pc = Some Int80 -> sys (f RAX) (f RDI) (f RSI) (f RDX) (f RCX) w m = Some (r, w1, m1) ->
  leads (mkPState (upd RAX r f) (S pc) fl m1) w1 Q -> leads (mkPState f pc fl m) w Q.
Proof. intros Ei Es. apply (leads_exec _ _ _ _ _ _ _ _ _ Ei). cbn [pexec pregs ppc pflags pmem]. by rewrite Es. Qed.
End Instructions.
End Machine.

(** ** Tactics for runs *)

(** Constants the assembler puts in instructions. *)
Ltac closed_wrap := repeat match goal with |- context [wrap64 ?n] =>
  lazymatch n with
  | Z0 => idtac | Zpos _ => idtac | Zneg _ => idtac
  | ?c - 1 => is_const c
  | Z.of_nat (length ?l) => is_const l
  | _ => is_const n
  end;
  let v := eval vm_compute in (wrap64 n) in change (wrap64 n) with v end.

(** One instruction without an access to memory. *)
Ltac sx :=
  eapply leads_exec; [reflexivity|cbn [pexec pset pstore pregs ppc pflags pmem]; reflexivity|];
  cbn [pregs ppc pflags pmem]; closed_wrap; rewrite ?Z.lxor_nilpotent, ?Z.land_diag.

(** A conditional jump that is taken or not. *)
Ltac je b := eapply leads_je with (c := b); [reflexivity|reflexivity|reflexivity| |].
Ltac jne b := eapply leads_jne with (c := b); [reflexivity|reflexivity|reflexivity| |].
Ltac jge b := eapply leads_jge with (c := b); [reflexivity|reflexivity|reflexivity| |].
Ltac jmp := eapply leads_jmp; [reflexivity|reflexivity|].

(** A register that is not in a list is none of its elements. *)
Ltac apart_from Hr := repeat (let H := fresh "Hne" in apply not_elem_of_cons in Hr as [H Hr]).

(** Reads registers after updates. *)
Ltac rg := repeat first [rewrite upd_same | rewrite upd_other by discriminate].
