(* ===== verification/Guests.v ===== *)
(** * The small programs on the disk (disk/greet.s, disk/echo.s)

    Both line by line, on the machine of [Programs]: [greet] writes a banner
    and the arguments it was started with and exits, [echo] writes every
    byte it reads. *)

From S2P Require Import Prelude X86 Asm Elf ElfThms Programs Syscall.

Section Guests.
(** The world of a program: what its system calls do to it. *)
Context {W : Type} (k_write : list Z -> W -> W) (k_read : W -> option Z * W).
Context (loc : nat -> Z) (mapped : Z -> bool) (sys : Z -> Z -> Z -> Z -> Z -> W -> mem -> option (Z * W * mem)).
Implicit Types (f : reg -> Z) (m : mem) (w : W).

(** The system calls on the memory of a program that may pass the ranges of
    [own] to the kernel, and has a byte at [buf] to read into. *)
Record guest_calls (own : Z -> Z -> Prop) (buf : option Z) : Prop := {
  gc_write p n c w m : own p n -> exists r, sys SYS_WRITE 1 p n c w m = Some (r, k_write (read_bytes m p (Z.to_nat n)) w, m);
  gc_read a c w m : buf = Some a ->
    sys SYS_READ 0 a 1 c w m =
      match k_read w with
      | (Some b, w') => Some (1, w', write_list m a [b])
      | (None, w') => Some (0, w', m)
      end;
  gc_exit a1 a2 a3 a4 w m : sys SYS_EXIT a1 a2 a3 a4 w m = None;
}.

Lemma guest_write own buf prog sym f pc fl m w Q p n bs :
  guest_calls own buf -> prog !! pc = Some Int80 -> f RAX = 0 -> f RDI = 1 -> f RSI = p -> f RDX = n -> own p n ->
  read_bytes m p (Z.to_nat n) = bs ->
  (forall r, leads prog loc sym mapped sys (mkPState (upd RAX r f) (S pc) fl m) (k_write bs w) Q) ->
  leads prog loc sym mapped sys (mkPState f pc fl m) w Q.
Proof.
  intros Hg Hi E1 E2 E3 E4 Ho <- Hnext. destruct (gc_write _ _ Hg p n (f RCX) w m Ho) as [r Er].
  eapply leads_int; [exact Hi|rewrite E1, E2, E3, E4; exact Er|apply Hnext].
Qed.

(** ** [greet] *)

Definition greet_banner : list Z := bytes_of "GREET.ELF: spawned via sys_spawn, running, exiting now" ++ [10].
Definition args_prefix : list Z := bytes_of "GREET.ELF: got args: ".
Definition greet_rodata : list (string * list Z) :=
  [("banner", greet_banner); ("args_prefix", args_prefix); ("newline", [10])]%string.

Definition greet_code : list pinstr := [
  Label "_start";
  MovR RBX RDI;
  MovR R12 RSI;
  MovI RAX 0;
  MovI RDI 1;
  Lea RSI "banner";
  MovI RDX (Z.of_nat (length greet_banner));
  Int80;
  Test R12 R12;
  Je "no_args";
  MovI RAX 0;
  MovI RDI 1;
  Lea RSI "args_prefix";
  MovI RDX (Z.of_nat (length args_prefix));
  Int80;
  MovI RAX 0;
  MovI RDI 1;
  MovR RSI RBX;
  MovR RDX R12;
  Int80;
  MovI RAX 0;
  MovI RDI 1;
  Lea RSI "newline";
  MovI RDX 1;
  Int80;
  Label "no_args";
  MovI RAX 2;
  Int80]%string.

(** What [greet] does with its arguments. *)
Definition greet (args : list Z) w : W :=
  let w := k_write greet_banner w in
  match args with [] => w | _ => k_write [10] (k_write args (k_write args_prefix w)) end.

Section Greet.
Context (rodata p : Z) (args : list Z).

Definition greet_owns (q n : Z) : Prop :=
  (q = rodata /\ n = 55) \/ (q = rodata + 55 /\ n = 21) \/ (q = rodata + 76 /\ n = 1) \/ (q = p /\ n = Z.of_nat (length args)).

Context (Hg : guest_calls greet_owns None).
Local Abbreviation leads := (leads greet_code loc (place rodata (sizes greet_rodata)) mapped sys).

Lemma greet_newline : place rodata (sizes greet_rodata) "newline" = Some (rodata + 76).
Proof. clear Hg. cbn. f_equal. lia. Qed.

Lemma greet_exits f fl m w : leads (mkPState f 25 fl m) w (fun u w' =>
  w' = w /\ pstep greet_code loc (place rodata (sizes greet_rodata)) mapped sys u w' = PLeft).
Proof using Hg.
  do 2 sx. apply leads_now. split; [done|]. unfold pstep. cbn [ppc]. change (greet_code !! _) with (Some Int80).
  cbn [pexec pregs pmem]. rg. by rewrite (gc_exit _ _ Hg).
Qed.

(** [greet], with its strings and its arguments in memory and their address
    and length in [RDI] and [RSI], writes what [greet args] says and exits. *)
Lemma greet_runs f fl m w :
  read_bytes m rodata 77 = greet_banner ++ args_prefix ++ [10] -> read_bytes m p (length args) = args ->
  Z.of_nat (length args) < 2 ^ 64 -> f RDI = p -> f RSI = Z.of_nat (length args) ->
  exists steps u,
    prun greet_code loc (place rodata (sizes greet_rodata)) mapped sys steps (mkPState f 0 fl m) w = PRunning u (greet args w) /\
    prun greet_code loc (place rodata (sizes greet_rodata)) mapped sys (steps + 1) (mkPState f 0 fl m) w = PLeft.
Proof using Hg.
  intros Hr Ha Hn E1 E2.
  assert (Hs : forall a i n bs, (i + n <= 77)%nat -> a = rodata + Z.of_nat i -> take n (drop i (greet_banner ++ args_prefix ++ [10])) = bs ->
    read_bytes m a n = bs) by (intros a i n bs Hi -> <-; rewrite (read_bytes_slice _ _ _ _ _ Hi); by rewrite Hr).
  assert (HL : leads (mkPState f 0 fl m) w (fun u w' => w' = greet args w /\
    pstep greet_code loc (place rodata (sizes greet_rodata)) mapped sys u w' = PLeft)).
  { do 5 sx. eapply leads_lea; [reflexivity|reflexivity|]. sx. rg.
    eapply guest_write; [exact Hg|reflexivity|by rg|by rg|by rg|by rg|by left|apply (Hs _ 0%nat _ greet_banner); [lia|cbn; lia|done]|].
    intros r. sx. rg. rewrite E2. unfold flags_of, greet. destruct args as [|c args'] eqn:Ea.
    - je true; [done|]. apply greet_exits.
    - je false; [done|]. do 2 sx. eapply leads_lea; [reflexivity|reflexivity|]. sx.
      eapply guest_write; [exact Hg|reflexivity|by rg|by rg|by rg|by rg|right; by left|apply (Hs _ 55%nat _ args_prefix); [lia|done|done]|]. intros r1. do 4 sx. rewrite <- Ea in *.
      eapply (guest_write _ _ _ _ _ _ _ _ _ _ p (Z.of_nat (length args))); [exact Hg|reflexivity|by rg|by rg|by rg|by rg|right; right; by right|by rewrite Nat2Z.id|]. intros r2. do 2 sx.
      eapply leads_lea; [reflexivity|apply greet_newline|]. sx.
      eapply guest_write; [exact Hg|reflexivity|by rg|by rg|by rg|by rg|right; right; by left|apply (Hs _ 76%nat _ [10]); [lia|done|done]|]. intros r3.
      apply greet_exits. }
  destruct HL as (steps & u & w' & Hrun & -> & Hx). exists steps, u. split; [done|].
  rewrite (prun_add _ _ _ _ _ _ _ _ _ _ _ Hrun). cbn [prun]. by rewrite Hx.
Qed.
End Greet.

(** ** [echo] *)

Definition echo_banner : list Z := bytes_of "ECHO.ELF: loaded from the FAT16 disk and running" ++ [10].

Definition echo_code : list pinstr := [
  Label "_start";
  MovI RAX 0;
  MovI RDI 1;
  Lea RSI "banner";
  MovI RDX (Z.of_nat (length echo_banner));
  Int80;
  Label "read_loop";
  MovI RAX 1;
  XorR RDI RDI;
  Lea RSI "buf";
  MovI RDX 1;
  Int80;
  Test RAX RAX;
  Je "read_loop";
  MovI RAX 0;
  MovI RDI 1;
  Lea RSI "buf";
  MovI RDX 1;
  Int80;
  Jmp "read_loop"]%string.

Definition echo_sym (rodata bss : Z) (y : string) : option Z :=
  match place rodata (sizes [("banner"%string, echo_banner)]) y with Some a => Some a | None => place bss [("buf"%string, 1)] y end.

(** [n] turns of the loop of [echo]. *)
Fixpoint echoes (n : nat) w : W :=
  match n with
  | O => w
  | S n' => match k_read w with (Some b, w) => echoes n' (k_write [b] w) | (None, w) => echoes n' w end
  end.

Section Echo.
Context (rodata bss : Z).
Definition echo_owns (q n : Z) : Prop := (q = rodata /\ n = 49) \/ (q = bss /\ n = 1).
Context (Hg : guest_calls echo_owns (Some bss)).
Local Abbreviation leads := (leads echo_code loc (echo_sym rodata bss) mapped sys).

Lemma echo_turns n : forall f fl m w, leads (mkPState f 6 fl m) w (fun u w' => ppc u = 6%nat /\ w' = echoes n w).
Proof using Hg.
  induction n as [|n IH]; intros f fl m w; cbn [echoes]; [by apply leads_now|].
  do 3 sx. eapply leads_lea; [reflexivity|reflexivity|]. sx.
  assert (Hr := gc_read _ _ Hg bss (f RCX) w m eq_refl). destruct (k_read w) as [[b|] w1].
  - eapply leads_int; [reflexivity|rg; exact Hr|]. sx. rg. je false; [done|]. do 2 sx. eapply leads_lea; [reflexivity|reflexivity|]. sx.
    eapply (guest_write _ _ _ _ _ _ _ _ _ _ bss 1 [b]); [exact Hg|reflexivity|by rg|by rg|by rg|by rg|by right| |].
    + change (Z.to_nat 1) with 1%nat. cbn. by rewrite Z.add_0_r, write_byte_same.
    + intros r. jmp. apply IH.
  - eapply leads_int; [reflexivity|rg; exact Hr|]. sx. rg. je true; [done|]. apply IH.
Qed.

(** [echo] writes its banner and then, poll by poll, every byte that it
    reads, and comes back to the next poll for ever. *)
Lemma echo_runs n f fl m w : read_bytes m rodata 49 = echo_banner ->
  exists steps u,
    prun echo_code loc (echo_sym rodata bss) mapped sys steps (mkPState f 0 fl m) w = PRunning u (echoes n (k_write echo_banner w)) /\
    ppc u = 6%nat.
Proof using Hg.
  intros Hr. assert (HL : leads (mkPState f 0 fl m) w (fun u w' => ppc u = 6%nat /\ w' = echoes n (k_write echo_banner w))).
  { do 3 sx. eapply leads_lea; [reflexivity|reflexivity|]. sx.
    eapply guest_write; [exact Hg|reflexivity|by rg|by rg|by rg|by rg|by left|exact Hr|]. intros r. apply echo_turns. }
  destruct HL as (steps & u & w' & Hrun & Hp & ->). by exists steps, u.
Qed.
End Echo.
End Guests.
