(* ===== verification/Shell.v ===== *)
(** * The interactive shell (disk/shell.s)

    The program line by line, what it does as a function of the bytes it
    reads, and the proof that the instructions do this. *)

From S2P Require Import Prelude Keyboard X86 Asm Elf ElfThms Programs Syscall.

Definition LINE_BUF_SIZE : Z := 64.
Definition HISTORY_CAPACITY : Z := 8.

(** ** The data of the program *)

Definition banner : list Z := bytes_of "Velora shell. Try: ECHO.ELF  GREET.ELF  (Up/Down for history)" ++ [10].
Definition prompt_str : list Z := 10 :: bytes_of "> ".
Definition fail_str : list Z := bytes_of "spawn failed" ++ [10].
Definition backspace_run : list Z := replicate (Z.to_nat LINE_BUF_SIZE) 8.

Definition shell_rodata : list (string * list Z) :=
  [("banner", banner); ("prompt_str", prompt_str); ("fail_str", fail_str); ("backspace_run", backspace_run)]%string.

Definition shell_bss : list (string * Z) :=
  [("char_buf", 1); ("line_buf", LINE_BUF_SIZE); ("history_lines", HISTORY_CAPACITY * LINE_BUF_SIZE);
   ("history_lens", HISTORY_CAPACITY); ("history_count", 8); ("history_next", 8)]%string.

Definition shell_sym (rodata bss : Z) (y : string) : option Z :=
  match place rodata (sizes shell_rodata) y with Some a => Some a | None => place bss shell_bss y end.

(** ** The code of the program *)

Definition start_code : list pinstr := [
  Label "_start";
  MovI RAX 0;
  MovI RDI 1;
  Lea RSI "banner";
  MovI RDX (Z.of_nat (length banner));
  Int80;
  Lea RBX "line_buf";
  Label "prompt";
  MovI RAX 0;
  MovI RDI 1;
  Lea RSI "prompt_str";
  MovI RDX (Z.of_nat (length prompt_str));
  Int80;
  XorR R12 R12;
  XorR R13 R13;
  Label "read_char";
  CallL "read_byte";
  CmpB RAX 0x1B;
  Je "handle_escape";
  CmpB RAX 0x08;
  Je "handle_backspace";
  CmpB RAX 0x0A;
  Je "handle_newline";
  CmpB RAX 0x0D;
  Je "handle_newline";
  CmpI R12 LINE_BUF_SIZE;
  Jge "read_char";
  StoreBX RBX R12 RAX;
  Inc R12;
  Jmp "read_char";
  Label "handle_backspace";
  Test R12 R12;
  Je "read_char";
  Dec R12;
  Jmp "read_char"]%string.

Definition newline_code : list pinstr := [
  Label "handle_newline";
  Test R12 R12;
  Je "prompt";
  CallL "history_push";
  XorR RAX RAX;
  Label ".Lfind_space";
  CmpR RAX R12;
  Jge ".Lfind_space_done";
  CmpBX RBX RAX 0x20;
  Je ".Lfind_space_done";
  Inc RAX;
  Jmp ".Lfind_space";
  Label ".Lfind_space_done";
  MovR R14 RAX;
  CmpR R14 R12;
  Jge ".Lno_args";
  LeaX R15 1 RBX R14;
  MovR R8 R12;
  SubR R8 R14;
  Dec R8;
  Jmp ".Lspawn";
  Label ".Lno_args";
  XorR R15 R15;
  XorR R8 R8;
  Label ".Lspawn";
  MovI RAX 5;
  MovR RDI RBX;
  MovR RSI R14;
  MovR RDX R15;
  MovR RCX R8;
  Int80;
  CmpI RAX (-1);
  Je "spawn_failed";
  MovR RDI RAX;
  MovI RAX 6;
  Int80;
  Jmp "prompt";
  Label "spawn_failed";
  MovI RAX 0;
  MovI RDI 1;
  Lea RSI "fail_str";
  MovI RDX (Z.of_nat (length fail_str));
  Int80;
  Jmp "prompt"]%string.

Definition read_byte_code : list pinstr := [
  Label "read_byte";
  MovI RAX 1;
  XorR RDI RDI;
  Lea RSI "char_buf";
  MovI RDX 1;
  Int80;
  Test RAX RAX;
  Je "read_byte";
  LoadB RAX "char_buf";
  RetL]%string.

Definition escape_code : list pinstr := [
  Label "handle_escape";
  CallL "read_byte";
  CmpB RAX 0x5B;
  Jne "read_char";
  CallL "read_byte";
  CmpB RAX 0x41;
  Je "history_older";
  CmpB RAX 0x42;
  Je "history_newer";
  CmpB RAX 0x43;
  Je "read_char";
  CmpB RAX 0x44;
  Je "read_char";
  Label "drain_csi";
  CmpB RAX 0x7E;
  Je "read_char";
  CallL "read_byte";
  Jmp "drain_csi";
  Label "history_older";
  LoadQ RAX "history_count";
  Test RAX RAX;
  Je "read_char";
  CmpR R13 RAX;
  Jge "read_char";
  Inc R13;
  CallL "history_load_into_line";
  Jmp "read_char";
  Label "history_newer";
  Test R13 R13;
  Je "read_char";
  Dec R13;
  Je "history_clear_line";
  CallL "history_load_into_line";
  Jmp "read_char";
  Label "history_clear_line";
  MovR R8 R12;
  Test R8 R8;
  Je "read_char";
  MovI RAX 0;
  MovI RDI 1;
  Lea RSI "backspace_run";
  MovR RDX R8;
  Int80;
  XorR R12 R12;
  Jmp "read_char"]%string.

Definition load_code : list pinstr := [
  Label "history_load_into_line";
  MovR R8 R12;
  LoadQ RAX "history_next";
  SubR RAX R13;
  AndI RAX (HISTORY_CAPACITY - 1);
  Lea RDX "history_lens";
  MovzxBX RCX RDX RAX;
  MovR RDX RAX;
  ImulI RDX LINE_BUF_SIZE;
  Lea R9 "history_lines";
  AddR R9 RDX;
  XorR RDX RDX;
  Label ".Lload_copy";
  CmpR RDX RCX;
  Jge ".Lload_copy_done";
  LoadBX RAX R9 RDX;
  StoreBX RBX RDX RAX;
  Inc RDX;
  Jmp ".Lload_copy";
  Label ".Lload_copy_done";
  Test R8 R8;
  Je ".Lload_skip_erase";
  MovI RAX 0;
  MovI RDI 1;
  Lea RSI "backspace_run";
  MovR RDX R8;
  Int80;
  Label ".Lload_skip_erase";
  Test RCX RCX;
  Je ".Lload_skip_write";
  MovI RAX 0;
  MovI RDI 1;
  MovR RSI RBX;
  MovR RDX RCX;
  Int80;
  Label ".Lload_skip_write";
  MovR R12 RCX;
  RetL]%string.

Definition push_code : list pinstr := [
  Label "history_push";
  LoadQ RAX "history_next";
  MovR RDX RAX;
  ImulI RDX LINE_BUF_SIZE;
  Lea R9 "history_lines";
  AddR R9 RDX;
  XorR RCX RCX;
  Label ".Lpush_copy";
  CmpR RCX R12;
  Jge ".Lpush_copy_done";
  LoadBX RDX RBX RCX;
  StoreBX R9 RCX RDX;
  Inc RCX;
  Jmp ".Lpush_copy";
  Label ".Lpush_copy_done";
  Lea RDX "history_lens";
  StoreBX RDX RAX R12;
  Inc RAX;
  AndI RAX (HISTORY_CAPACITY - 1);
  StoreQ "history_next" RAX;
  LoadQ RAX "history_count";
  CmpI RAX HISTORY_CAPACITY;
  Jge ".Lpush_done";
  Inc RAX;
  StoreQ "history_count" RAX;
  Label ".Lpush_done";
  RetL]%string.

Definition shell_code : list pinstr :=
  start_code ++ newline_code ++ read_byte_code ++ escape_code ++ load_code ++ push_code.

(** ** What the shell does *)

(** Where the next byte is going to: into the line, or after [ESC], after
    [ESC \[], or inside a longer sequence. *)
Inductive mode := Normal | Escape | Bracket | Drain.

(** The line that is being typed, the lines submitted before (newest
    first), and how far back in them the user is. *)
Record Shell := mkShell { sh_line : list Z; sh_history : list (list Z); sh_browse : nat; sh_mode : mode }.

Definition shell_new : Shell := mkShell [] [] 0 Normal.

Fixpoint split_line (l : list Z) : list Z * list Z :=
  match l with
  | [] => ([], [])
  | c :: rest => if c =? 0x20 then ([], rest) else let '(path, args) := split_line rest in (c :: path, args)
  end.

Lemma split_line_cases l :
  (split_line l = (l, []) /\ 0x20 ∉ l) \/ exists path args, split_line l = (path, args) /\ l = path ++ 0x20 :: args.
Proof.
  induction l as [|c l IH]; cbn [split_line]; [left; split; [done|apply not_elem_of_nil]|].
  destruct (Z.eqb_spec c 0x20) as [->|Hc]; [right; by exists [], l|].
  destruct IH as [[-> Hn]|(path & args & -> & ->)]; [left|right].
  - split; [done|]. by apply not_elem_of_cons.
  - by exists (c :: path), args.
Qed.

Section Behaviour.
(** The world of the shell: what its four system calls do to it.  [k_spawn]
    takes the path and the arguments and returns a process id. *)
Context {W : Type} (k_write : list Z -> W -> W) (k_read : W -> option Z * W)
  (k_spawn : list Z -> list Z -> W -> Z * W) (k_wait : Z -> W -> W).
Implicit Types (sh : Shell) (w : W).

Definition set_mode md sh : Shell := mkShell (sh_line sh) (sh_history sh) (sh_browse sh) md.

Definition submit (l : list Z) w : W :=
  let '(path, args) := split_line l in
  let '(pid, w) := k_spawn path args w in
  if pid =? U64_MAX then k_write fail_str w else k_wait pid w.

Definition erase (n : nat) w : W := if (n =? 0)%nat then w else k_write (replicate n 8) w.

(** The entry [browse] back from the newest one replaces the line, on the
    screen too. *)
Definition recall (browse : nat) sh w : Shell * W :=
  let l := default [] (sh_history sh !! (browse - 1)%nat) in
  let w := erase (length (sh_line sh)) w in
  let w := match l with [] => w | _ => k_write l w end in
  (mkShell l (sh_history sh) browse Normal, w).

Definition older sh w : Shell * W :=
  if (sh_browse sh <? length (sh_history sh))%nat then recall (S (sh_browse sh)) sh w else (set_mode Normal sh, w).

Definition newer sh w : Shell * W :=
  match sh_browse sh with
  | O => (set_mode Normal sh, w)
  | S O => (mkShell [] (sh_history sh) 0 Normal, erase (length (sh_line sh)) w)
  | S n => recall n sh w
  end.

Definition drain (b : Z) sh w : Shell * W := (set_mode (if b =? 0x7E then Normal else Drain) sh, w).

Definition newline sh w : Shell * W :=
  match sh_line sh with
  | [] => (mkShell [] (sh_history sh) 0 Normal, k_write prompt_str w)
  | l => (mkShell [] (take (Z.to_nat HISTORY_CAPACITY) (l :: sh_history sh)) 0 Normal, k_write prompt_str (submit l w))
  end.

(** One byte of input. *)
Definition feed (b : Z) sh w : Shell * W :=
  match sh_mode sh with
  | Normal =>
      if b =? 0x1B then (set_mode Escape sh, w)
      else if b =? 0x08 then (mkShell (take (length (sh_line sh) - 1) (sh_line sh)) (sh_history sh) (sh_browse sh) Normal, w)
      else if (b =? 0x0A) || (b =? 0x0D) then newline sh w
      else if LINE_BUF_SIZE <=? Z.of_nat (length (sh_line sh)) then (sh, w)
      else (mkShell (sh_line sh ++ [b]) (sh_history sh) (sh_browse sh) Normal, w)
  | Escape => (set_mode (if b =? 0x5B then Bracket else Normal) sh, w)
  | Bracket =>
      if b =? 0x41 then older sh w
      else if b =? 0x42 then newer sh w
      else if (b =? 0x43) || (b =? 0x44) then (set_mode Normal sh, w)
      else drain b sh w
  | Drain => drain b sh w
  end.

(** [n] calls of [read], each of which may find no byte. *)
Fixpoint polls (n : nat) sh w : Shell * W :=
  match n with
  | O => (sh, w)
  | S n' =>
      match k_read w with
      | (Some b, w) => let '(sh, w) := feed b sh w in polls n' sh w
      | (None, w) => polls n' sh w
      end
  end.

Definition shell_start w : W := k_write prompt_str (k_write banner w).

(** The sizes that keep the buffers from overflowing. *)
Record shell_ok sh : Prop := {
  so_line : (length (sh_line sh) <= 64)%nat;
  so_history : (length (sh_history sh) <= 8)%nat;
  so_entries : Forall (fun l => (length l <= 64)%nat) (sh_history sh);
  so_browse : (sh_browse sh <= length (sh_history sh))%nat;
}.

Lemma recall_ok n sh w : shell_ok sh -> (n <= length (sh_history sh))%nat -> shell_ok (recall n sh w).1.
Proof.
  intros [H1 H2 H3 H4] Hn. split; cbn; try done. destruct (sh_history sh !! (n - 1)%nat) as [l|] eqn:E; cbn; [|lia].
  by apply (Forall_lookup_1 _ _ _ _ H3 E).
Qed.

Lemma feed_ok b sh w : shell_ok sh -> shell_ok (feed b sh w).1.
Proof.
  intros Hok. assert (Hok' := Hok). destruct Hok' as [H1 H2 H3 H4].
  assert (Hm : forall md, shell_ok (set_mode md sh)) by (intros md; by split).
  unfold feed, drain. destruct (sh_mode sh).
  - destruct (b =? 0x1B); [apply Hm|]. destruct (b =? 0x08).
    { split; cbn; try done. rewrite length_take. lia. }
    destruct (_ || _).
    { unfold newline. destruct (sh_line sh) as [|c l] eqn:El; split; cbn [fst sh_line sh_history sh_browse length]; try done; try lia.
      - rewrite length_take. unfold HISTORY_CAPACITY. lia.
      - apply Forall_take. by constructor. }
    unfold LINE_BUF_SIZE. destruct (Z.leb_spec 64 (Z.of_nat (length (sh_line sh)))); [done|].
    split; cbn; try done. rewrite length_app. cbn. lia.
  - apply Hm.
  - destruct (b =? 0x41).
    { unfold older. destruct (Nat.ltb_spec (sh_browse sh) (length (sh_history sh))); [by apply recall_ok|apply Hm]. }
    destruct (b =? 0x42); [|destruct (_ || _); apply Hm].
    unfold newer. destruct (sh_browse sh) as [|[|n]] eqn:E; [apply Hm|split; cbn; try done; lia|apply recall_ok; [done|lia]].
  - apply Hm.
Qed.

(** Several bytes of input. *)
Definition feeds (bs : list Z) sh w : Shell * W := fold_left (fun s b => feed b s.1 s.2) bs (sh, w).

(** The bytes that the kernel puts in the input queue for a key that is not
    a character: the arrows up and down go through the old lines, and every
    other sequence is read to its end without a trace. *)
Lemma feeds_key key bs sh w :
  ansi_escape_sequence key = Some bs -> sh_mode sh = Normal ->
  feeds bs sh w = match key with ArrowUp => older sh w | ArrowDown => newer sh w | _ => (sh, w) end.
Proof.
  destruct sh as [l h n md]. cbn [sh_mode]. intros Hk ->. destruct key; cbn in Hk; try discriminate Hk; injection Hk as <-; reflexivity.
Qed.
End Behaviour.

(** ** The program does this *)

Ltac sym_at := unfold shell_sym; cbn; f_equal; unfold LINE_BUF_SIZE, HISTORY_CAPACITY; lia.

Section Refinement.
Context {W : Type} (k_write : list Z -> W -> W) (k_read : W -> option Z * W)
  (k_spawn : list Z -> list Z -> W -> Z * W) (k_wait : Z -> W -> W).
Context (loc : nat -> Z) (rodata bss sp : Z) (mapped : Z -> bool)
  (sys : Z -> Z -> Z -> Z -> Z -> W -> mem -> option (Z * W * mem)).
Implicit Types (sh : Shell) (w : W) (f : reg -> Z) (m : mem).

Definition RODATA_SIZE : Z := 142.
Definition BSS_SIZE : Z := 601.

(** The linker and the loader: instructions one after the other (a label
    takes no room), the sections and the stack apart, the data and the stack for the program to
    write. *)
Record linked : Prop := {
  ln_loc i ins : shell_code !! i = Some ins -> match ins with Label _ => loc (S i) = loc i | _ => loc i < loc (S i) end;
  ln_loc_u64 i : is_u64 (loc i);
  ln_rodata : 0 <= rodata /\ rodata + RODATA_SIZE < 2 ^ 64;
  ln_bss : 0 <= bss /\ bss + BSS_SIZE < 2 ^ 64;
  ln_stack : 8 <= sp < 2 ^ 64;
  ln_apart : rodata + RODATA_SIZE <= bss \/ bss + BSS_SIZE <= rodata;
  ln_stack_bss : sp <= bss \/ bss + BSS_SIZE <= sp - 8;
  ln_stack_rodata : sp <= rodata \/ rodata + RODATA_SIZE <= sp - 8;
  ln_mapped a : bss <= a < bss + BSS_SIZE \/ sp - 8 <= a < sp -> mapped a = true;
}.

(** Memory the shell may pass to the kernel. *)
Definition in_data (p n : Z) : Prop :=
  0 <= n /\ (n = 0 \/ (rodata <= p /\ p + n <= rodata + RODATA_SIZE) \/ (bss <= p /\ p + n <= bss + BSS_SIZE)).

(** The system calls on the memory of the program. *)
Record syscalls_ok : Prop := {
  sc_write p n c w m : in_data p n -> exists r, sys SYS_WRITE 1 p n c w m = Some (r, k_write (read_bytes m p (Z.to_nat n)) w, m);
  sc_read c w m : sys SYS_READ 0 bss 1 c w m =
    match k_read w with
    | (Some b, w') => Some (1, w', write_list m bss [b])
    | (None, w') => Some (0, w', m)
    end;
  sc_byte w b w' : k_read w = (Some b, w') -> is_u8 b;
  sc_spawn p n q l w m : in_data p n -> in_data q l ->
    sys SYS_SPAWN p n q l w m =
      Some ((k_spawn (read_bytes m p (Z.to_nat n)) (read_bytes m q (Z.to_nat l)) w).1,
            (k_spawn (read_bytes m p (Z.to_nat n)) (read_bytes m q (Z.to_nat l)) w).2, m);
  sc_pid path args w : is_u64 (k_spawn path args w).1;
  sc_wait pid a2 a3 a4 w m : exists r, sys SYS_WAIT pid a2 a3 a4 w m = Some (r, k_wait pid w, m);
}.

Context (Hln : linked) (Hsc : syscalls_ok).

Local Abbreviation leads := (leads shell_code loc (shell_sym rodata bss) mapped sys).

(** *** Symbols *)

Lemma sym_banner : shell_sym rodata bss "banner" = Some rodata.
Proof. done. Qed.
Lemma sym_prompt_str : shell_sym rodata bss "prompt_str" = Some (rodata + 62).
Proof. done. Qed.
Lemma sym_fail_str : shell_sym rodata bss "fail_str" = Some (rodata + 65).
Proof. sym_at. Qed.
Lemma sym_backspace_run : shell_sym rodata bss "backspace_run" = Some (rodata + 78).
Proof. sym_at. Qed.
Lemma sym_char_buf : shell_sym rodata bss "char_buf" = Some bss.
Proof. done. Qed.
Lemma sym_line_buf : shell_sym rodata bss "line_buf" = Some (bss + 1).
Proof. done. Qed.
Lemma sym_history_lines : shell_sym rodata bss "history_lines" = Some (bss + 65).
Proof. sym_at. Qed.
Lemma sym_history_lens : shell_sym rodata bss "history_lens" = Some (bss + 577).
Proof. sym_at. Qed.
Lemma sym_history_count : shell_sym rodata bss "history_count" = Some (bss + 585).
Proof. sym_at. Qed.
Lemma sym_history_next : shell_sym rodata bss "history_next" = Some (bss + 593).
Proof. sym_at. Qed.

(** *** Memory *)

Definition rodata_bytes : list Z := banner ++ prompt_str ++ fail_str ++ backspace_run.

(** The state of the shell in memory; [nx] is the slot of the next line in
    the ring of old ones. *)
Record shell_data (line : list Z) (history : list (list Z)) (nx : Z) m : Prop := {
  sd_mem : mem_ok m;
  sd_rodata : read_bytes m rodata (Z.to_nat RODATA_SIZE) = rodata_bytes;
  sd_line : read_bytes m (bss + 1) (length line) = line;
  sd_next : 0 <= nx < 8 /\ read_u64_at m (bss + 593) = nx;
  sd_count : read_u64_at m (bss + 585) = Z.of_nat (length (history));
  sd_history i l : history !! i = Some l ->
    m (bss + 577 + (nx - 1 - Z.of_nat i) mod 8) = Z.of_nat (length l) /\
    read_bytes m (bss + 65 + 64 * ((nx - 1 - Z.of_nat i) mod 8)) (length l) = l;
}.

Lemma shell_data_ext line history nx m m' :
  (length line <= 64)%nat -> Forall (fun l => (length l <= 64)%nat) history -> shell_data line history nx m -> mem_ok m' ->
  (forall x, rodata <= x < rodata + RODATA_SIZE \/ bss < x < bss + BSS_SIZE -> m' x = m x) ->
  shell_data line history nx m'.
Proof.
  clear Hln Hsc. intros O1 O3 [D1 D2 D3 [D4 D5] D6 D7] Hm Hx. unfold RODATA_SIZE, BSS_SIZE in *. split; [done| | | | |].
  - rewrite <- D2. apply read_bytes_ext. intros x Hx'. apply Hx. lia.
  - rewrite <- D3 at 2. apply read_bytes_ext. intros x Hx'. apply Hx. lia.
  - split; [done|]. rewrite <- D5. apply read_u64_ext. intros x Hx'. apply Hx. lia.
  - rewrite <- D6. apply read_u64_ext. intros x Hx'. apply Hx. lia.
  - intros i l Hl. destruct (D7 i l Hl) as [E1 E2]. pose proof (Z.mod_pos_bound (nx - 1 - Z.of_nat i) 8 ltac:(lia)).
    assert (Hll := Forall_lookup_1 _ _ _ _ O3 Hl). cbn beta in Hll.
    split; [rewrite <- E1; apply Hx; lia|]. rewrite <- E2 at 2. apply read_bytes_ext. intros x Hx'. apply Hx. lia.
Qed.

Lemma mapped8_ok a : (forall x, a <= x < a + 8 -> mapped x = true) -> mapped8 mapped a = true.
Proof. clear Hln Hsc. intros Hm. unfold mapped8. apply forallb_forall. intros i Hi%in_seq. apply Hm. lia. Qed.

Lemma mem_ok_write_u64 m a v : mem_ok m -> mem_ok (write_u64_at m a v).
Proof. clear Hln Hsc. intros Hm. apply mem_ok_write_list; [done|apply le_encode_bytes]. Qed.

Lemma stack_mapped : mapped8 mapped (sp - 8) = true.
Proof using Hln. apply mapped8_ok. intros x Hx. apply (ln_mapped Hln). lia. Qed.

Lemma bss_mapped a : bss <= a < bss + BSS_SIZE -> mapped a = true.
Proof using Hln. intros Ha. apply (ln_mapped Hln). by left. Qed.

Lemma bss_mapped8 a : bss <= a -> a + 8 <= bss + BSS_SIZE -> mapped8 mapped a = true.
Proof using Hln. intros ??. apply mapped8_ok. intros x Hx. apply bss_mapped. lia. Qed.

(** *** Between the reads *)

(** The index of a label. *)
Definition entry_of (l : string) : nat := default 0%nat (label_at l shell_code).

(** Where [read_byte] returns to in each mode. *)
Definition ret_pc (md : mode) : nat :=
  match md with Normal => 17 | Escape => 91 | Bracket => 94 | Drain => 106 end.

(** The registers of the shell, wherever it is in the program outside of a
    subroutine. *)
Record live sh f : Prop := {
  lv_rbx : f RBX = bss + 1;
  lv_r12 : f R12 = Z.of_nat (length (sh_line sh));
  lv_r13 : f R13 = Z.of_nat (sh_browse sh);
  lv_rsp : f RSP = sp;
}.

(** Inside [read_byte], at its first instruction. *)
Definition at_poll sh (u : PState) : Prop :=
  exists f fl m nx, u = mkPState f (entry_of "read_byte") fl m /\ live sh (upd RSP sp f) /\ f RSP = sp - 8 /\
    read_u64_at m (sp - 8) = loc (ret_pc (sh_mode sh)) /\ shell_data (sh_line sh) (sh_history sh) nx m.

Definition polling sh w : PState -> W -> Prop := fun u w' => at_poll sh u /\ w' = w.

(** A call of [read_byte]. *)
Lemma call_read_byte md sh f pc fl m nx w :
  shell_ok sh -> live sh f -> shell_data (sh_line sh) (sh_history sh) nx m -> shell_code !! pc = Some (CallL "read_byte") -> S pc = ret_pc md ->
  leads (mkPState f pc fl m) w (polling (set_mode md sh) w).
Proof using Hln.
  intros Hok [L1 L2 L3 L4] Hd Hi Hr. assert (Hl := Hln). destruct Hl as [_ N2 N3 N4 N5 _ N7 N8 _].
  eapply leads_call; [exact Hi|reflexivity|exact L4|done|apply stack_mapped|].
  apply leads_now. split; [|done]. eexists _, _, _, nx. split; [reflexivity|]. split; [|split; [|split]].
  - split; by rg.
  - by rg.
  - rewrite read_u64_write_same by apply N2. by rewrite Hr.
  - apply (shell_data_ext _ _ nx m); [apply Hok|apply Hok|done| |].
    + apply mem_ok_write_u64, Hd.
    + intros x Hx. apply write_u64_other. unfold RODATA_SIZE, BSS_SIZE in *. lia.
Qed.

Lemma read_char_polls sh f fl m nx w :
  shell_ok sh -> live sh f -> shell_data (sh_line sh) (sh_history sh) nx m ->
  leads (mkPState f (entry_of "read_char") fl m) w (polling (set_mode Normal sh) w).
Proof using Hln. intros Hok Hl Hd. change (entry_of "read_char") with 15%nat. sx. by eapply call_read_byte. Qed.

(** [read_byte] has returned [b]. *)
Definition ready sh (b : Z) w : PState -> W -> Prop := fun u w' =>
  exists f fl m nx, u = mkPState f (ret_pc (sh_mode sh)) fl m /\ live sh f /\ f RAX = b /\ is_u8 b /\
    shell_data (sh_line sh) (sh_history sh) nx m /\ w' = w.

Lemma loc_mono i j : (i <= j <= length shell_code)%nat -> loc i <= loc j.
Proof using Hln.
  intros [Hij Hj]. induction Hij as [|j Hij IH]; [done|]. destruct (lookup_lt_is_Some_2 shell_code j) as [ins Hi]; [lia|].
  assert (H := ln_loc Hln j ins Hi). etrans; [apply IH; lia|]. destruct ins; lia.
Qed.

(** The address after a call is the address of no earlier instruction. *)
Lemma after_call i l : shell_code !! i = Some (CallL l) -> forall j, (j < S i)%nat -> loc j <> loc (S i).
Proof using Hln.
  intros Hi j Hj. assert (Hl := lookup_lt_Some _ _ _ Hi). assert (H := ln_loc Hln i _ Hi). cbn beta iota in H.
  assert (loc j <= loc i) by (apply loc_mono; lia). lia.
Qed.

Lemma ret_pc_first md i : (i < ret_pc md)%nat -> loc i <> loc (ret_pc md).
Proof using Hln. destruct md; by apply (after_call _ "read_byte"). Qed.

Lemma poll_once sh u w : shell_ok sh -> at_poll sh u ->
  leads u w (match k_read w with (Some b, w1) => ready sh b w1 | (None, w1) => polling sh w1 end).
Proof using Hln Hsc.
  intros Hok (f & fl & m & nx & -> & Hl & Hs & Hret & Hd). assert (HL := Hln). destruct HL as [_ N2 N3 N4 N5 _ N7 N8 _].
  change (entry_of "read_byte") with 79%nat. do 3 sx.
  eapply leads_lea; [reflexivity|apply sym_char_buf|]. sx.
  assert (Hr := sc_read Hsc (f RCX) w m). destruct (k_read w) as [[b|] w1] eqn:Ek.
  - assert (Hb := sc_byte Hsc _ _ _ Ek).
    eapply leads_int; [reflexivity|rg; exact Hr|]. sx. rg.
    je false; [done|].
    eapply leads_loadb; [reflexivity|apply sym_char_buf|apply bss_mapped; unfold BSS_SIZE in *; lia|]. rg.
    rewrite write_byte_same. change (low_byte 1 b) with (0 + b).
    eapply (leads_ret) with (i := ret_pc (sh_mode sh)); [reflexivity|rg; exact Hs|lia|lia|apply stack_mapped| | |apply ret_pc_first|].
    + rewrite <- Hret. apply read_u64_ext. intros x Hx. apply write_byte_other. unfold BSS_SIZE in *. lia.
    + destruct (sh_mode sh); cbn; lia.
    + apply leads_now. eexists _, _, _, nx. split; [reflexivity|]. destruct Hl as [L1 L2 L3 L4]. revert L1 L2 L3. rg. intros L1 L2 L3.
      split; [split; rg; [done..|lia]|]. split; [by rg|]. split; [done|]. split; [|done].
      apply (shell_data_ext _ _ nx m); [apply Hok|apply Hok|done| |].
      * apply mem_ok_write_list; [apply Hd|by constructor].
      * intros x Hx. apply write_byte_other. assert (HA := ln_apart Hln). unfold BSS_SIZE, RODATA_SIZE in *. lia.
  - eapply leads_int; [reflexivity|rg; exact Hr|]. sx. rg. je true; [done|].
    apply leads_now. split; [|done]. eexists _, _, _, nx. split; [reflexivity|]. destruct Hl as [L1 L2 L3 L4]. revert L1 L2 L3. rg. intros L1 L2 L3.
    split; [by split; rg|]. split; [by rg|]. done.
Qed.

(** *** Writing *)

Lemma rodata_slice line history nx m i n : shell_data line history nx m -> (i + n <= 142)%nat ->
  read_bytes m (rodata + Z.of_nat i) n = take n (drop i rodata_bytes).
Proof. clear Hln Hsc. intros Hd Hn. rewrite <- (sd_rodata _ _ _ _ Hd). by apply read_bytes_slice. Qed.

Lemma shell_data_prefix line history nx m n : shell_data line history nx m -> shell_data (take n line) history nx m.
Proof.
  clear Hln Hsc. intros [D1 D2 D3 D4 D5 D6]. split; try done. rewrite <- D3 at 2. rewrite length_take.
  rewrite <- (Z.add_0_r (bss + 1)) at 1. rewrite (read_bytes_slice m (bss + 1) 0 _ (length line)) by lia. rewrite D3, drop_0.
  apply list_eq. intros j. destruct (decide (j < n)%nat); [|by rewrite !lookup_take_ge by lia].
  rewrite (lookup_take_lt _ n) by done. destruct (decide (j < length line)%nat); [by rewrite lookup_take_lt by lia|].
  rewrite lookup_take_ge, lookup_ge_None_2; [done|lia..].
Qed.

(** The call [write(1, symbol, n)], when its arguments are in place. *)
Lemma write_call line history nx f pc fl m w Q i n bs :
  shell_data line history nx m -> shell_code !! pc = Some Int80 -> f RAX = 0 -> f RDI = 1 ->
  f RSI = rodata + Z.of_nat i -> f RDX = Z.of_nat n -> (i + n <= 142)%nat -> take n (drop i rodata_bytes) = bs ->
  (forall r, leads (mkPState (upd RAX r f) (S pc) fl m) (k_write bs w) Q) -> leads (mkPState f pc fl m) w Q.
Proof using Hsc.
  clear Hln. intros Hd Hi E1 E2 E3 E4 Hn <- Hnext.
  destruct (sc_write Hsc (rodata + Z.of_nat i) (Z.of_nat n) (f RCX) w m) as [r Er].
  { unfold in_data, RODATA_SIZE. lia. }
  rewrite Nat2Z.id, (rodata_slice _ _ _ _ _ _ Hd Hn) in Er.
  eapply leads_int; [exact Hi|rewrite E1, E2, E3, E4; exact Er|apply Hnext].
Qed.

Lemma prompt_polls history nx f fl m w :
  shell_ok (mkShell [] history 0 Normal) -> f RBX = bss + 1 -> f RSP = sp -> shell_data [] history nx m ->
  leads (mkPState f (entry_of "prompt") fl m) w (polling (mkShell [] history 0 Normal) (k_write prompt_str w)).
Proof using Hln Hsc.
  intros Hok E1 E2 Hd. change (entry_of "prompt") with 7%nat. do 3 sx.
  eapply leads_lea; [reflexivity|apply sym_prompt_str|]. sx.
  eapply (write_call _ _ _ _ _ _ _ _ _ 62 3 prompt_str Hd); [reflexivity|by rg|by rg|by rg|by rg|lia|reflexivity|]. intros r.
  do 2 sx. apply (read_char_polls (mkShell [] history 0 Normal) _ _ _ nx); [done| |done]. split; by rg.
Qed.

Lemma start_polls f fl m w nx :
  shell_data [] [] nx m -> f RSP = sp ->
  leads (mkPState f (entry_of "_start") fl m) w (polling shell_new (shell_start k_write w)).
Proof using Hln Hsc.
  intros Hd E. change (entry_of "_start") with 0%nat. do 3 sx. eapply leads_lea; [reflexivity|apply sym_banner|]. sx.
  eapply (write_call _ _ _ _ _ _ _ _ _ 0 62 banner Hd); [reflexivity|by rg|by rg|rg; lia|by rg|lia|reflexivity|]. intros r.
  eapply leads_lea; [reflexivity|apply sym_line_buf|]. eapply prompt_polls; [|by rg|by rg|done].
  split; cbn; [lia|lia|constructor|lia].
Qed.

(** *** One byte *)

Local Abbreviation feed := (feed k_write k_spawn k_wait).

(** The state in which the byte [b] is handled. *)
Record handling sh b nx f m : Prop := {
  hd_ok : shell_ok sh;
  hd_live : live sh f;
  hd_byte : f RAX = b /\ is_u8 b;
  hd_data : shell_data (sh_line sh) (sh_history sh) nx m;
}.

Lemma handling_al sh b nx f m : handling sh b nx f m -> f RAX mod 256 = b.
Proof. clear Hln Hsc. intros [_ _ [-> Hb] _]. apply Z.mod_small, Hb. Qed.

Lemma handling_read_char sh b nx f fl m w :
  handling sh b nx f m -> leads (mkPState f (entry_of "read_char") fl m) w (polling (set_mode Normal sh) w).
Proof using Hln. intros [H1 H2 _ H4]. by eapply read_char_polls. Qed.

Lemma drain_polls sh b nx f fl m w :
  handling sh b nx f m ->
  leads (mkPState f (entry_of "drain_csi") fl m) w (polling (drain b sh w).1 (drain b sh w).2).
Proof using Hln.
  intros Hh. assert (Ha := handling_al _ _ _ _ _ Hh). change (entry_of "drain_csi") with 102%nat. do 2 sx. rewrite Ha. unfold drain. cbn [fst snd].
  destruct (Z.eqb_spec b 0x7E) as [Eb|Eb].
  - je true; [by apply Z.eqb_eq|]. by eapply handling_read_char.
  - je false; [by apply Z.eqb_neq|]. destruct Hh. by eapply call_read_byte.
Qed.

Lemma feed_drain sh b nx f fl m w :
  handling sh b nx f m -> sh_mode sh = Drain ->
  leads (mkPState f (ret_pc Drain) fl m) w (polling (feed b sh w).1 (feed b sh w).2).
Proof using Hln. intros Hh Hm. unfold Shell.feed. rewrite Hm. change (ret_pc Drain) with 106%nat. jmp. by eapply drain_polls. Qed.

Lemma feed_escape sh b nx f fl m w :
  handling sh b nx f m -> sh_mode sh = Escape ->
  leads (mkPState f (ret_pc Escape) fl m) w (polling (feed b sh w).1 (feed b sh w).2).
Proof using Hln.
  intros Hh Hm. assert (Ha := handling_al _ _ _ _ _ Hh). unfold Shell.feed. rewrite Hm. change (ret_pc Escape) with 91%nat.
  sx. rewrite Ha. cbn [fst snd]. destruct (Z.eqb_spec b 0x5B) as [Eb|Eb].
  - jne true; [by apply Z.eqb_eq|]. destruct Hh. by eapply call_read_byte.
  - jne false; [by apply Z.eqb_neq|]. by eapply handling_read_char.
Qed.

Lemma set_mode_same sh md : sh_mode sh = md -> set_mode md sh = sh.
Proof. clear Hln Hsc. intros <-. by destruct sh. Qed.

(** The sizes are small numbers. *)
Lemma signed_small v : 0 <= v < 2 ^ 63 -> signed 64 v = v.
Proof. clear Hln Hsc. intros Hv. unfold signed. change (2 ^ (64 - 1)) with (2 ^ 63). destruct (Z.ltb_spec v (2 ^ 63)); lia. Qed.

Lemma read_bytes_snoc m a n : read_bytes m a (S n) = read_bytes m a n ++ [m (a + Z.of_nat n)].
Proof. clear Hln Hsc. unfold read_bytes. by rewrite seq_S, fmap_app. Qed.

Lemma shell_data_append line history nx m b :
  shell_data line history nx m -> (length line < 64)%nat -> Forall (fun l => (length l <= 64)%nat) history -> is_u8 b ->
  shell_data (line ++ [b]) history nx (write_list m (bss + 1 + Z.of_nat (length line)) [b]).
Proof using Hln.
  clear Hsc. intros Hd Hl Hh Hb. assert (Hm : mem_ok (write_list m (bss + 1 + Z.of_nat (length line)) [b])).
  { apply mem_ok_write_list; [apply Hd|by constructor]. }
  assert (HA := ln_apart Hln). unfold RODATA_SIZE, BSS_SIZE in *. destruct Hd as [D1 D2 D3 [D4 D5] D6 D7]. split; [done| | | | |].
  - rewrite <- D2. apply read_bytes_ext. intros x Hx. apply write_byte_other. unfold RODATA_SIZE in Hx. lia.
  - rewrite length_app. cbn [length]. rewrite Nat.add_1_r, read_bytes_snoc, write_byte_same. f_equal.
    rewrite <- D3 at 3. apply read_bytes_ext. intros x Hx. apply write_byte_other. lia.
  - split; [done|]. rewrite <- D5. apply read_u64_ext. intros x Hx. apply write_byte_other. lia.
  - rewrite <- D6. apply read_u64_ext. intros x Hx. apply write_byte_other. lia.
  - intros i l Hi. destruct (D7 i l Hi) as [E1 E2]. pose proof (Z.mod_pos_bound (nx - 1 - Z.of_nat i) 8 ltac:(lia)).
    split; [rewrite <- E1; apply write_byte_other; lia|]. rewrite <- E2 at 2. apply read_bytes_ext. intros x Hx. apply write_byte_other. lia.
Qed.

Lemma type_char sh b nx f fl m w :
  handling sh b nx f m -> sh_mode sh = Normal ->
  leads (mkPState f 25 fl m) w (polling (if LINE_BUF_SIZE <=? Z.of_nat (length (sh_line sh)) then sh
    else mkShell (sh_line sh ++ [b]) (sh_history sh) (sh_browse sh) Normal) w).
Proof using Hln.
  intros Hh Hm. assert (Ha := handling_al _ _ _ _ _ Hh). assert (Hh' := Hh). destruct Hh' as [Hok [L1 L2 L3 L4] [Hb Hu] Hd].
  assert (Hlen := so_line _ Hok). sx. unfold LINE_BUF_SIZE, flags_sub. rewrite L2, !signed_small by lia.
  destruct (Z.leb_spec 64 (Z.of_nat (length (sh_line sh)))) as [Hl|Hl].
  - jge true; [apply Z.leb_le; lia|]. refine (eq_ind _ (fun s => leads _ w (polling s w)) _ _ (set_mode_same sh Normal Hm)).
    by eapply handling_read_char.
  - jge false; [apply Z.leb_gt; lia|]. assert (HB := ln_bss Hln). unfold BSS_SIZE in HB.
    eapply leads_storebx; [reflexivity|rewrite L1, L2; reflexivity|unfold is_u64; lia|apply bss_mapped; unfold BSS_SIZE; lia|].
    rewrite Ha. sx. rewrite L2, wrap64_small by (unfold is_u64; lia). jmp.
    apply (read_char_polls (mkShell (sh_line sh ++ [b]) (sh_history sh) (sh_browse sh) Normal) _ _ _ nx).
    + destruct Hok as [O1 O2 O3 O4]. split; cbn; try done. rewrite length_app. cbn. lia.
    + split; rg; cbn [sh_line sh_browse]; rewrite ?length_app; cbn [length]; [done|lia|done|done].
    + apply shell_data_append; [done|lia|apply Hok|done].
Qed.

(** *** Copying *)

Definition same_but (rs : list reg) f f' : Prop := forall r, r ∉ rs -> f' r = f r.

(** [m'] is [m] with the bytes [bs] at [d]. *)
Definition copied m (d : Z) (bs : list Z) m' : Prop :=
  mem_ok m' /\ read_bytes m' d (length bs) = bs /\ forall x, ~ (d <= x < d + Z.of_nat (length bs)) -> m' x = m x.

Lemma copied_snoc m d bs m' b : copied m d bs m' -> is_u8 b ->
  copied m d (bs ++ [b]) (write_list m' (d + Z.of_nat (length bs)) [b]).
Proof.
  clear Hln Hsc. intros (C1 & C2 & C3) Hb. split; [apply mem_ok_write_list; [done|by constructor]|].
  rewrite length_app. cbn [length]. split.
  - rewrite Nat.add_1_r, read_bytes_snoc, write_byte_same. f_equal. etransitivity; [|exact C2]. apply read_bytes_ext. intros x Hx. apply write_byte_other. lia.
  - intros x Hx. rewrite write_byte_other by lia. apply C3. lia.
Qed.

(** The loop that copies [n] bytes, as both history routines have it. *)
Section CopyLoop.
Context (p q : nat) (l ld : string) (ri rn rt rs rd : reg).
Context (I0 : shell_code !! p = Some (Label l)) (I1 : shell_code !! S p = Some (CmpR ri rn))
  (I2 : shell_code !! S (S p) = Some (Jge ld)) (I3 : shell_code !! S (S (S p)) = Some (LoadBX rt rs ri))
  (I4 : shell_code !! S (S (S (S p))) = Some (StoreBX rd ri rt)) (I5 : shell_code !! S (S (S (S (S p)))) = Some (Inc ri))
  (I6 : shell_code !! S (S (S (S (S (S p))))) = Some (Jmp l)) (Il : label_at l shell_code = Some p) (Id : label_at ld shell_code = Some q)
  (Hregs : ri <> rn /\ ri <> rs /\ ri <> rd /\ rt <> ri /\ rt <> rn /\ rt <> rs /\ rt <> rd).
Context (src dst : Z) (bs : list Z) (m : mem) (Hm : mem_ok m) (Hlen : (length bs <= 64)%nat)
  (Hsrc : read_bytes m src (length bs) = bs)
  (Hs : bss <= src /\ src + Z.of_nat (length bs) <= bss + BSS_SIZE) (Hd : bss <= dst /\ dst + Z.of_nat (length bs) <= bss + BSS_SIZE)
  (Hap : src + Z.of_nat (length bs) <= dst \/ dst + Z.of_nat (length bs) <= src).

Lemma copy_loop w Q k : forall c f fl mc, (c + k = length bs)%nat -> copied m dst (take c bs) mc ->
  f ri = Z.of_nat c -> f rn = Z.of_nat (length bs) -> f rs = src -> f rd = dst ->
  (forall f' fl' m', same_but [ri; rt] f f' -> copied m dst bs m' -> leads (mkPState f' q fl' m') w Q) ->
  leads (mkPState f p fl mc) w Q.
Proof using Hln I0 I1 I2 I3 I4 I5 I6 Il Id Hregs Hm Hlen Hsrc Hs Hd Hap.
  clear Hsc. assert (HB := ln_bss Hln). unfold BSS_SIZE in *.
  destruct Hregs as (R1 & R2 & R3 & R4 & R5 & R6 & R7).
  induction k as [|k IH]; intros c f fl mc Hc Hcp E1 E2 E3 E4 Hnext.
  - eapply leads_exec; [exact I0|reflexivity|]. eapply leads_exec; [exact I1|reflexivity|]. cbn [pregs ppc pflags pmem].
    eapply leads_jge with (c := true); [exact I2|exact Id|reflexivity|rewrite E1, E2, !signed_small by lia; apply Z.leb_le; lia|].
    apply Hnext; [done|]. by rewrite take_ge in Hcp by lia.
  - eapply leads_exec; [exact I0|reflexivity|]. eapply leads_exec; [exact I1|reflexivity|]. cbn [pregs ppc pflags pmem].
    eapply leads_jge with (c := false); [exact I2|exact Id|reflexivity|rewrite E1, E2, !signed_small by lia; apply Z.leb_gt; lia|].
    destruct (lookup_lt_is_Some_2 bs c) as [b Hb]; [lia|].
    assert (Hmb : m (src + Z.of_nat c) = b).
    { assert (Hl := read_bytes_at m src (length bs) c ltac:(lia)). rewrite Hsrc, Hb in Hl. by injection Hl. }
    assert (Hlt : length (take c bs) = c) by (rewrite length_take; lia).
    assert (Hmc : mc (src + Z.of_nat c) = b) by (rewrite <- Hmb; apply Hcp; rewrite Hlt; lia).
    assert (Hu : is_u8 b) by (rewrite <- Hmb; apply Hm).
    eapply leads_loadbx; [exact I3|rewrite E3, E1; reflexivity|unfold is_u64; lia|apply bss_mapped; unfold BSS_SIZE; lia|].
    eapply leads_storebx; [exact I4|rewrite !upd_other by done; rewrite E4, E1; reflexivity|unfold is_u64; lia|apply bss_mapped; unfold BSS_SIZE; lia|].
    rewrite upd_same, low_byte_mod, Hmc by (by rewrite Hmc).
    eapply leads_exec; [exact I5|reflexivity|]. cbn [pregs ppc pflags pmem pset].
    rewrite upd_other, E1, wrap64_small by (done || unfold is_u64; lia).
    eapply leads_jmp; [exact I6|exact Il|].
    apply (IH (S c)); [lia| | | | | |].
    + rewrite (take_S_r _ _ _ Hb). rewrite <- Hlt at 2. by apply copied_snoc.
    + rewrite upd_same. lia.
    + by rewrite !upd_other.
    + by rewrite !upd_other.
    + by rewrite !upd_other.
    + intros f' fl' m' Hf Hcp'. apply Hnext; [|done]. intros r Hr. rewrite Hf by done. apart_from Hr. by rewrite !upd_other.
Qed.
End CopyLoop.

(** *** The history *)

Definition pushed (line : list Z) (history : list (list Z)) : list (list Z) := take (Z.to_nat HISTORY_CAPACITY) (line :: history).

Lemma land_7 v : 0 <= v -> Z.land v 7 = v mod 8.
Proof. clear Hln Hsc. intros Hv. change 7 with (Z.ones 3). by rewrite Z.land_ones. Qed.

Lemma slot_kept nx i : 0 <= nx < 8 -> (i < 7)%nat ->
  ((nx + 1) mod 8 - 1 - Z.of_nat (S i)) mod 8 = (nx - 1 - Z.of_nat i) mod 8 /\ (nx - 1 - Z.of_nat i) mod 8 <> nx.
Proof.
  clear Hln Hsc. intros Hn Hi. split.
  - replace ((nx + 1) mod 8 - 1 - Z.of_nat (S i)) with ((nx + 1) mod 8 - (2 + Z.of_nat i)) by lia.
    rewrite Zminus_mod_idemp_l. f_equal. lia.
  - intros E. assert (H : (nx - 1 - Z.of_nat i - nx) mod 8 = 0) by (rewrite Zminus_mod, E, (Z.mod_small nx 8), Z.sub_diag by lia; done).
    replace (nx - 1 - Z.of_nat i - nx) with (- (1 + Z.of_nat i)) in H by lia.
    apply Z.mod_divide in H as [z Hz]; lia.
Qed.

(** What [history_push] leaves in memory. *)
Lemma shell_data_pushed line history nx m m' :
  (length line <= 64)%nat -> Forall (fun l => (length l <= 64)%nat) history -> (length history <= 8)%nat ->
  shell_data line history nx m -> mem_ok m' ->
  read_bytes m' (bss + 65 + 64 * nx) (length line) = line -> m' (bss + 577 + nx) = Z.of_nat (length line) ->
  read_u64_at m' (bss + 593) = (nx + 1) mod 8 -> read_u64_at m' (bss + 585) = Z.of_nat (length (pushed line history)) ->
  (forall x, rodata <= x < rodata + 142 \/ bss < x < bss + 585 ->
    ~ (bss + 65 + 64 * nx <= x < bss + 65 + 64 * nx + 64) -> x <> bss + 577 + nx -> m' x = m x) ->
  shell_data line (pushed line history) ((nx + 1) mod 8) m'.
Proof using Hln.
  clear Hsc. intros Hl Hh Hc [D1 D2 D3 [D4 D5] D6 D7] Hm E1 E2 E3 E4 Hx. assert (HA := ln_apart Hln).
  unfold RODATA_SIZE, BSS_SIZE in *. split; [done| | | |done|].
  - rewrite <- D2. apply read_bytes_ext. intros x Hx'. apply Hx; unfold RODATA_SIZE in *; lia.
  - etransitivity; [|exact D3]. apply read_bytes_ext. intros x Hx'. apply Hx; lia.
  - split; [|done]. by apply Z.mod_pos_bound.
  - intros i l Hi. unfold pushed in Hi. apply lookup_take_Some in Hi as [Hi Hlt]. change (Z.to_nat HISTORY_CAPACITY) with 8%nat in Hlt.
    destruct i as [|i]; cbn [lookup list_lookup] in Hi.
    + injection Hi as <-. replace ((nx + 1) mod 8 - 1 - Z.of_nat 0) with ((nx + 1) mod 8 - 1) by lia.
      rewrite Zminus_mod_idemp_l. replace (nx + 1 - 1) with nx by lia. by rewrite (Z.mod_small nx 8).
    + destruct (slot_kept nx i) as [-> Hs]; [done|lia|]. destruct (D7 i l Hi) as [F1 F2].
      pose proof (Z.mod_pos_bound (nx - 1 - Z.of_nat i) 8 ltac:(lia)). set (slot := (nx - 1 - Z.of_nat i) mod 8) in *.
      assert (Hll := Forall_lookup_1 _ _ _ _ Hh Hi). cbn beta in Hll. split.
      * rewrite <- F1. apply Hx; lia.
      * etransitivity; [|exact F2]. apply read_bytes_ext. intros x Hx'. apply Hx; lia.
Qed.

Lemma length_pushed line history : (length history <= 8)%nat ->
  Z.of_nat (length (pushed line history)) = Z.min 8 (Z.of_nat (length history) + 1).
Proof. clear Hln Hsc. intros Hh. unfold pushed. rewrite length_take. cbn [length]. change (Z.to_nat HISTORY_CAPACITY) with 8%nat. lia. Qed.

(** [history_push] after its loop. *)
Lemma push_tail line history nx f fl m mc w Q :
  (length line <= 64)%nat -> Forall (fun l => (length l <= 64)%nat) history -> (length history <= 8)%nat ->
  shell_data line history nx m -> copied m (bss + 65 + 64 * nx) line mc ->
  f RAX = nx -> f R12 = Z.of_nat (length line) -> f RSP = sp - 8 -> read_u64_at m (sp - 8) = loc 39 ->
  (forall f' fl' m', same_but [RAX; RDX; RSP] f f' -> f' RSP = sp ->
     shell_data line (pushed line history) ((nx + 1) mod 8) m' -> leads (mkPState f' 39 fl' m') w Q) ->
  leads (mkPState f 186 fl mc) w Q.
Proof using Hln.
  clear Hsc. intros Hl Hh Hc Hd (C1 & C2 & C3) E1 E2 E3 E4 Hnext. assert (HB := ln_bss Hln). assert (HS := ln_stack Hln).
  assert (HSB := ln_stack_bss Hln). destruct (sd_next _ _ _ _ Hd) as [Hn Hnx].
  sx. eapply leads_lea; [reflexivity|apply sym_history_lens|].
  eapply leads_storebx; [reflexivity|rg; rewrite E1; reflexivity|unfold is_u64, BSS_SIZE in *; lia|apply bss_mapped; unfold BSS_SIZE; lia|].
  rg. rewrite E2, Z.mod_small by lia. sx. rg. rewrite E1, wrap64_small by (unfold is_u64; lia).
  sx. rg. rewrite land_7 by lia.
  set (m1 := write_list mc _ _). eapply leads_storeq; [reflexivity|apply sym_history_next|apply bss_mapped8; unfold BSS_SIZE; lia|]. rg.
  set (m2 := write_u64_at m1 _ _). eapply leads_loadq; [reflexivity|apply sym_history_count|apply bss_mapped8; unfold BSS_SIZE; lia|].
  assert (Hcount : read_u64_at m2 (bss + 585) = Z.of_nat (length history)).
  { rewrite <- (sd_count _ _ _ _ Hd). apply read_u64_ext. intros x Hx. unfold m2. rewrite write_u64_other by lia.
    unfold m1. rewrite write_byte_other by lia. apply C3. lia. }
  assert (Hm2 : mem_ok m2).
  { apply mem_ok_write_u64, mem_ok_write_list; [done|constructor; [unfold is_u8; lia|constructor]]. }
  assert (Hnext2 : read_u64_at m2 (bss + 593) = (nx + 1) mod 8).
  { apply read_u64_write_same. pose proof (Z.mod_pos_bound (nx + 1) 8). unfold is_u64. lia. }
  assert (Hfin : forall f3 fl3 m3, same_but [RAX; RDX] f f3 -> mem_ok m3 ->
    read_u64_at m3 (bss + 585) = Z.of_nat (length (pushed line history)) ->
    (forall x, ~ (bss + 585 <= x < bss + 593) -> m3 x = m2 x) -> leads (mkPState f3 197 fl3 m3) w Q).
  { intros f3 fl3 m3 Hf Hm3 Hc3 Hx3. assert (Hsp : f3 RSP = sp - 8) by (rewrite <- E3; apply Hf; decided).
    assert (Hout : forall x, ~ (bss + 65 + 64 * nx <= x < bss + 65 + 64 * nx + 64) -> x <> bss + 577 + nx ->
      ~ (bss + 585 <= x < bss + 601) -> m3 x = m x).
    { intros x H1 H2 H3. rewrite Hx3 by lia. unfold m2. rewrite write_u64_other by lia.
      unfold m1. rewrite write_byte_other by lia. apply C3. lia. }
    sx. eapply leads_ret with (i := 39%nat); [reflexivity|exact Hsp|lia|lia|apply stack_mapped| |cbn; lia| |].
    - rewrite <- E4. apply read_u64_ext. intros x Hx. apply Hout; unfold BSS_SIZE in *; lia.
    - by apply (after_call 38 "history_push").
    - apply Hnext; [|rg; lia|].
      { intros r Hr. apart_from Hr. rewrite upd_other by done. apply Hf. by repeat (apply not_elem_of_cons; split). }
      assert (HA := ln_apart Hln). unfold RODATA_SIZE, BSS_SIZE in *.
      apply (shell_data_pushed line history nx m m3); try done.
      + etransitivity; [|exact C2]. apply read_bytes_ext. intros x Hx. rewrite Hx3 by lia. unfold m2. rewrite write_u64_other by lia.
        unfold m1. apply write_byte_other. lia.
      + rewrite Hx3 by lia. unfold m2. rewrite write_u64_other by lia. apply write_byte_same.
      + rewrite <- Hnext2. apply read_u64_ext. intros x Hx. apply Hx3. lia.
      + intros x Hx H1 H2. apply Hout; lia. }
  sx. rg. rewrite Hcount. unfold flags_sub. rewrite !signed_small by lia. assert (Hlp := length_pushed line history Hc).
  destruct (Z.leb_spec 8 (Z.of_nat (length history))).
  - jge true; [apply Z.leb_le; lia|]. apply Hfin; [|done|rewrite Hcount; lia|done]. intros r Hr. apart_from Hr. by rewrite !upd_other.
  - jge false; [apply Z.leb_gt; lia|]. sx. rg. rewrite wrap64_small by (unfold is_u64; lia).
    eapply leads_storeq; [reflexivity|apply sym_history_count|apply bss_mapped8; unfold BSS_SIZE; lia|]. rg.
    apply Hfin.
    + intros r Hr. apart_from Hr. by rewrite !upd_other.
    + by apply mem_ok_write_u64.
    + rewrite read_u64_write_same by (unfold is_u64; lia). lia.
    + intros x Hx. apply write_u64_other. lia.
Qed.

(** The call of [history_push]. *)
Lemma push_call sh nx f fl m w Q :
  shell_ok sh -> live sh f -> shell_data (sh_line sh) (sh_history sh) nx m ->
  (forall f' fl' m', f' RBX = bss + 1 -> f' R12 = Z.of_nat (length (sh_line sh)) -> f' RSP = sp ->
     shell_data (sh_line sh) (pushed (sh_line sh) (sh_history sh)) ((nx + 1) mod 8) m' -> leads (mkPState f' 39 fl' m') w Q) ->
  leads (mkPState f 38 fl m) w Q.
Proof using Hln.
  clear Hsc. intros [O1 O2 O3 O4] [L1 L2 L3 L4] Hd Hnext. assert (HB := ln_bss Hln). assert (HS := ln_stack Hln).
  assert (HSB := ln_stack_bss Hln). assert (HSR := ln_stack_rodata Hln). destruct (sd_next _ _ _ _ Hd) as [Hn Hnx].
  eapply leads_call; [reflexivity|reflexivity|exact L4|done|apply stack_mapped|].
  set (m0 := write_u64_at m (sp - 8) (loc 39)).
  assert (Hd0 : shell_data (sh_line sh) (sh_history sh) nx m0).
  { apply (shell_data_ext _ _ nx m); [done|done|done|apply mem_ok_write_u64, Hd|].
    intros x Hx. apply write_u64_other. unfold RODATA_SIZE, BSS_SIZE in *. lia. }
  sx. eapply leads_loadq; [reflexivity|apply sym_history_next|apply bss_mapped8; unfold BSS_SIZE; lia|].
  rewrite (proj2 (sd_next _ _ _ _ Hd0)). sx. rg. sx. rg. rewrite wrap64_small by (unfold is_u64, LINE_BUF_SIZE; lia).
  eapply leads_lea; [reflexivity|apply sym_history_lines|]. sx. rg.
  rewrite wrap64_small by (unfold is_u64, LINE_BUF_SIZE, BSS_SIZE in *; lia). sx.
  replace (bss + 65 + nx * LINE_BUF_SIZE) with (bss + 65 + 64 * nx) by (unfold LINE_BUF_SIZE; lia).
  eapply (copy_loop 179 186 ".Lpush_copy" ".Lpush_copy_done" RCX R12 RDX RBX R9) with
    (src := bss + 1) (dst := bss + 65 + 64 * nx) (bs := sh_line sh) (m := m0) (c := 0%nat) (k := length (sh_line sh));
    try reflexivity; try (unfold BSS_SIZE; lia).
  - split_and!; discriminate.
  - apply Hd0.
  - exact (sd_line _ _ _ _ Hd0).
  - split; [apply Hd0|]. done.
  - by rg.
  - by rg.
  - intros f' fl' m' Hf Hcp.
    assert (F1 : f' RAX = nx) by (rewrite Hf by decided; by rg). assert (F2 : f' R12 = Z.of_nat (length (sh_line sh))) by (rewrite Hf by decided; by rg).
    assert (F3 : f' RSP = sp - 8) by (rewrite Hf by decided; by rg). assert (F4 : f' RBX = bss + 1) by (rewrite Hf by decided; by rg).
    apply (push_tail (sh_line sh) (sh_history sh) nx f' fl' m0 m' w Q); try done.
    { apply read_u64_write_same, (ln_loc_u64 Hln). }
    intros f3 fl3 m3 Hf3 Hsp3 Hd3. apply Hnext; [|rewrite <- F2|done|done].
    + rewrite <- F4. apply Hf3. decided.
    + apply Hf3. decided.
Qed.

(** *** A line is submitted *)

Lemma line_byte line history nx m i c : shell_data line history nx m -> line !! i = Some c -> m (bss + 1 + Z.of_nat i) = c.
Proof.
  clear Hln Hsc. intros Hd Hi. assert (Hl := read_bytes_at m (bss + 1) (length line) i (lookup_lt_Some _ _ _ Hi)).
  rewrite (sd_line _ _ _ _ Hd), Hi in Hl. by injection Hl.
Qed.

Lemma find_space line history nx m w Q : (length line <= 64)%nat -> shell_data line history nx m ->
  forall rest pre f fl, line = pre ++ rest -> f RAX = Z.of_nat (length pre) -> f RBX = bss + 1 -> f R12 = Z.of_nat (length line) ->
  (forall f' fl', same_but [RAX] f f' -> f' RAX = Z.of_nat (length pre + length (split_line rest).1) ->
     leads (mkPState f' 47 fl' m) w Q) ->
  leads (mkPState f 40 fl m) w Q.
Proof using Hln.
  clear Hsc. intros Hl Hd. assert (HB := ln_bss Hln).
  induction rest as [|c rest IH]; intros pre f fl El E1 E2 E3 Hnext; assert (Ell := f_equal length El); rewrite length_app in Ell; cbn [length] in Ell.
  - do 2 sx. rewrite E1, E3. jge true; [apply Z.leb_le; rewrite !signed_small by lia; lia|].
    apply Hnext; [done|]. cbn. rewrite E1. lia.
  - do 2 sx. rewrite E1, E3. jge false; [apply Z.leb_gt; rewrite !signed_small by lia; lia|].
    eapply leads_cmpbx; [reflexivity|rewrite E2, E1; reflexivity|unfold is_u64, BSS_SIZE in *; lia|apply bss_mapped; unfold BSS_SIZE; lia|].
    rewrite (line_byte line history nx m (length pre) c) by (done || by rewrite El, list_lookup_middle).
    cbn [split_line] in Hnext. destruct (Z.eqb_spec c 0x20) as [->|Hc].
    + je true; [done|]. apply Hnext; [done|]. cbn. rewrite E1. lia.
    + je false; [by apply Z.eqb_neq|]. sx. rewrite E1, wrap64_small by (unfold is_u64; lia). jmp.
      apply (IH (pre ++ [c])); [by rewrite <- app_assoc|rg; rewrite length_app; cbn; lia|by rg|by rg|].
      intros f' fl' Hf Ha. apply Hnext.
      * intros r Hr. rewrite Hf by done. apart_from Hr. by rewrite upd_other.
      * rewrite Ha, length_app. destruct (split_line rest). cbn. lia.
Qed.

Local Abbreviation submit := (submit k_write k_spawn k_wait).

Lemma spawn_line line path args history nx q f fl m w :
  shell_ok (mkShell [] history 0 Normal) -> shell_data [] history nx m -> split_line line = (path, args) ->
  f RBX = bss + 1 -> f RSP = sp -> f R14 = Z.of_nat (length path) -> f R15 = q -> f R8 = Z.of_nat (length args) ->
  in_data (bss + 1) (Z.of_nat (length path)) -> in_data q (Z.of_nat (length args)) ->
  read_bytes m (bss + 1) (length path) = path -> read_bytes m q (length args) = args ->
  leads (mkPState f 59 fl m) w (polling (mkShell [] history 0 Normal) (k_write prompt_str (submit line w))).
Proof using Hln Hsc.
  intros Hok Hd Es E1 E2 E3 E4 E5 I1 I2 R1 R2. unfold Shell.submit. rewrite Es.
  assert (Hsp := sc_spawn Hsc _ _ _ _ w m I1 I2). rewrite !Nat2Z.id, R1, R2 in Hsp.
  assert (Hpid := sc_pid Hsc path args w). destruct (k_spawn path args w) as [pid w1]. cbn [fst snd] in *.
  do 6 sx. eapply leads_int; [reflexivity|rg; rewrite E1, E3, E4, E5; exact Hsp|].
  sx. rg. unfold flags_sub. change U64_MAX with (2 ^ 64 - 1). change 18446744073709551615 with (2 ^ 64 - 1).
  destruct (Z.eqb_spec pid (2 ^ 64 - 1)) as [Ep|Ep].
  - je true; [done|]. do 3 sx. eapply leads_lea; [reflexivity|apply sym_fail_str|]. sx.
    eapply (write_call _ _ _ _ _ _ _ _ _ 65 13 fail_str Hd); [reflexivity|by rg|by rg|by rg|by rg|lia|reflexivity|]. intros r.
    jmp. apply (prompt_polls history nx); [done|by rg|by rg|done].
  - je false; [done|]. do 2 sx. destruct (sc_wait Hsc pid (f R14) (f R15) (f R8) w1 m) as [r Er].
    eapply leads_int; [reflexivity|rg; exact Er|].
    jmp. apply (prompt_polls history nx); [done|by rg|by rg|done].
Qed.

Lemma submit_line line history nx f fl m w :
  (0 < length line <= 64)%nat -> shell_ok (mkShell [] history 0 Normal) -> shell_data line history nx m ->
  f RBX = bss + 1 -> f R12 = Z.of_nat (length line) -> f RSP = sp ->
  leads (mkPState f 39 fl m) w (polling (mkShell [] history 0 Normal) (k_write prompt_str (submit line w))).
Proof using Hln Hsc.
  intros Hl Hok Hd E1 E2 E3. assert (HB := ln_bss Hln). assert (Hd0 := shell_data_prefix _ _ _ _ 0 Hd). rewrite take_0 in Hd0.
  assert (Hbs := sd_line _ _ _ _ Hd).
  sx. apply (find_space line history nx m w _ ltac:(lia) Hd line [] _ _ eq_refl); [by rg|by rg|by rg|].
  intros f' fl' Hf Ha. cbn [length Nat.add] in Ha.
  assert (F1 : f' RBX = bss + 1) by (rewrite Hf by decided; by rg). assert (F2 : f' R12 = Z.of_nat (length line)) by (rewrite Hf by decided; by rg).
  assert (F3 : f' RSP = sp) by (rewrite Hf by decided; by rg).
  do 3 sx. rg. rewrite F2, Ha.
  destruct (split_line_cases line) as [[Es _]|(path & args & Es & El)]; rewrite Es; cbn [fst].
  - jge true; [apply Z.leb_le; rewrite !signed_small by lia; lia|]. do 3 sx.
    apply (spawn_line line line [] history nx 0); try done; try by rg.
    + unfold in_data, BSS_SIZE. lia.
    + unfold in_data. cbn. lia.
  - assert (Ell := f_equal length El). rewrite length_app in Ell. cbn [length] in Ell.
    jge false; [apply Z.leb_gt; rewrite !signed_small by lia; lia|].
    sx. rg. rewrite F1. rewrite wrap64_small by (unfold is_u64, BSS_SIZE in *; lia).
    do 3 sx. rg. rewrite F2. rewrite (wrap64_small (Z.of_nat (length line) - _)), wrap64_small by (unfold is_u64; lia).
    jmp. apply (spawn_line line path args history nx (bss + 1 + Z.of_nat (length path + 1))); try done; rg; try done.
    + lia.
    + lia.
    + unfold in_data, BSS_SIZE. lia.
    + unfold in_data, BSS_SIZE. lia.
    + rewrite <- (Z.add_0_r (bss + 1)), (read_bytes_slice m (bss + 1) 0 _ (length line)) by lia. rewrite Hbs, drop_0, El. apply take_app_length.
    + rewrite (read_bytes_slice m (bss + 1) _ _ (length line)) by lia. rewrite Hbs, El.
      rewrite drop_app_ge by lia. replace (_ - _)%nat with 1%nat by lia. cbn [drop]. apply take_ge. lia.
Qed.

Lemma pushed_ok line history : (length line <= 64)%nat -> Forall (fun l => (length l <= 64)%nat) history ->
  shell_ok (mkShell [] (pushed line history) 0 Normal).
Proof.
  clear Hln Hsc. intros Hl Hh. unfold pushed. split; cbn [sh_line sh_history sh_browse length]; [lia| | |lia].
  - rewrite length_take. change (Z.to_nat HISTORY_CAPACITY) with 8%nat. lia.
  - apply Forall_take. by constructor.
Qed.

Lemma newline_polls sh b nx f fl m w : handling sh b nx f m ->
  leads (mkPState f (entry_of "handle_newline") fl m) w
    (polling (newline k_write k_spawn k_wait sh w).1 (newline k_write k_spawn k_wait sh w).2).
Proof using Hln Hsc.
  intros [Hok Hl _ Hd]. assert (Hl' := Hl). destruct Hl' as [L1 L2 L3 L4]. destruct Hok as [O1 O2 O3 O4] eqn:EO. clear EO.
  change (entry_of "handle_newline") with 35%nat. do 2 sx. rewrite L2. unfold flags_of, newline.
  destruct (sh_line sh) as [|c l] eqn:El; cbn [fst snd].
  - je true; [done|]. apply (prompt_polls (sh_history sh) nx); [|done|done|done].
    split; cbn; [lia|done|done|lia].
  - je false; [cbn; done|]. rewrite <- El in *. apply (push_call sh nx); [done|done|done|].
    intros f' fl' m' F1 F2 F3 Hd'. apply (submit_line _ _ ((nx + 1) mod 8)); try done; [rewrite El in *; cbn [length] in *; lia|].
    by apply pushed_ok.
Qed.

Lemma backspace_polls sh b nx f fl m w : handling sh b nx f m ->
  leads (mkPState f (entry_of "handle_backspace") fl m) w
    (polling (mkShell (take (length (sh_line sh) - 1) (sh_line sh)) (sh_history sh) (sh_browse sh) Normal) w).
Proof using Hln.
  intros [Hok Hl _ Hd]. destruct Hl as [L1 L2 L3 L4]. assert (Hok' := Hok). destruct Hok' as [O1 O2 O3 O4].
  assert (Hd' := shell_data_prefix _ _ _ _ (length (sh_line sh) - 1) Hd).
  set (sh' := mkShell (take (length (sh_line sh) - 1) (sh_line sh)) (sh_history sh) (sh_browse sh) Normal).
  assert (Hlen : length (sh_line sh') = (length (sh_line sh) - 1)%nat) by (cbn; rewrite length_take; lia).
  assert (Hok' : shell_ok sh') by (split; [rewrite Hlen; lia|done..]).
  change (entry_of "handle_backspace") with 30%nat. do 2 sx. rewrite L2. unfold flags_of.
  destruct (decide (length (sh_line sh) = 0%nat)) as [E|E].
  - je true; [apply Z.eqb_eq; lia|]. apply (read_char_polls sh' _ _ _ nx); [done| |done]. split; [done|rewrite Hlen; lia|done|done].
  - je false; [apply Z.eqb_neq; lia|]. sx. rewrite L2, wrap64_small by (unfold is_u64; lia). jmp.
    apply (read_char_polls sh' _ _ _ nx); [done| |done]. split; rg; [done|rewrite Hlen; lia|done|done].
Qed.

Lemma feed_normal sh b nx f fl m w :
  handling sh b nx f m -> sh_mode sh = Normal ->
  leads (mkPState f (ret_pc Normal) fl m) w (polling (feed b sh w).1 (feed b sh w).2).
Proof using Hln Hsc.
  intros Hh Hm. assert (Ha := handling_al _ _ _ _ _ Hh). unfold Shell.feed. rewrite Hm. change (ret_pc Normal) with 17%nat.
  sx. rewrite Ha. destruct (Z.eqb_spec b 0x1B); [je true; [by apply Z.eqb_eq|]|je false; [by apply Z.eqb_neq|]].
  { sx. destruct Hh. by eapply call_read_byte. }
  sx. rewrite Ha. destruct (Z.eqb_spec b 0x08); [je true; [by apply Z.eqb_eq|]; by eapply backspace_polls|je false; [by apply Z.eqb_neq|]].
  sx. rewrite Ha. destruct (Z.eqb_spec b 0x0A); [je true; [by apply Z.eqb_eq|]; by eapply newline_polls|je false; [by apply Z.eqb_neq|]].
  sx. rewrite Ha. destruct (Z.eqb_spec b 0x0D); [je true; [by apply Z.eqb_eq|]; by eapply newline_polls|je false; [by apply Z.eqb_neq|]].
  cbn [orb]. assert (Ht := type_char sh b nx f (flags_sub 8 b 0x0D) m w Hh Hm).
  by destruct (LINE_BUF_SIZE <=? Z.of_nat (length (sh_line sh))).
Qed.

(** *** A line is recalled *)

Lemma shell_data_replace line history nx m l m' :
  (length l <= 64)%nat -> Forall (fun l => (length l <= 64)%nat) history ->
  shell_data line history nx m -> copied m (bss + 1) l m' -> shell_data l history nx m'.
Proof using Hln.
  clear Hsc. intros Hl Hh [D1 D2 D3 [D4 D5] D6 D7] (C1 & C2 & C3). assert (HA := ln_apart Hln). unfold RODATA_SIZE, BSS_SIZE in *.
  split; [done| |done| | |].
  - rewrite <- D2. apply read_bytes_ext. intros x Hx. apply C3. unfold RODATA_SIZE in *. lia.
  - split; [done|]. rewrite <- D5. apply read_u64_ext. intros x Hx. apply C3. lia.
  - rewrite <- D6. apply read_u64_ext. intros x Hx. apply C3. lia.
  - intros i l' Hi. destruct (D7 i l' Hi) as [E1 E2]. pose proof (Z.mod_pos_bound (nx - 1 - Z.of_nat i) 8 ltac:(lia)).
    split; [rewrite <- E1; apply C3; lia|]. etransitivity; [|exact E2]. apply read_bytes_ext. intros x Hx. apply C3. lia.
Qed.

Lemma backspaces n : (n <= 64)%nat -> take n (drop 78 rodata_bytes) = replicate n 8.
Proof. clear Hln Hsc. intros Hn. change (drop 78 rodata_bytes) with (replicate 64 8). rewrite take_replicate. f_equal. lia. Qed.

(** [history_load_into_line] after its loop: the screen is brought up to
    date. *)
Lemma load_tail r old l history nx f fl m w Q :
  (old <= 64)%nat -> (length l <= 64)%nat -> (r < length shell_code)%nat -> (forall j, (j < r)%nat -> loc j <> loc r) -> shell_data l history nx m ->
  f R8 = Z.of_nat old -> f RCX = Z.of_nat (length l) -> f RBX = bss + 1 -> f RSP = sp - 8 -> read_u64_at m (sp - 8) = loc r ->
  (forall f' fl', f' RBX = bss + 1 -> f' R13 = f R13 -> f' R12 = Z.of_nat (length l) -> f' RSP = sp ->
     leads (mkPState f' r fl' m) (match l with [] => erase k_write old w | _ => k_write l (erase k_write old w) end) Q) ->
  leads (mkPState f 153 fl m) w Q.
Proof using Hln Hsc.
  intros Ho Hl Hr Hfst Hd E1 E2 E3 E4 E5 Hnext. assert (HB := ln_bss Hln). assert (HS := ln_stack Hln).
  assert (Hfin : forall f3 fl3, f3 RCX = Z.of_nat (length l) -> f3 RBX = bss + 1 -> f3 RSP = sp - 8 -> f3 R13 = f R13 ->
    leads (mkPState f3 169 fl3 m) (match l with [] => erase k_write old w | _ => k_write l (erase k_write old w) end) Q).
  { intros f3 fl3 F1 F2 F3 F4. do 2 sx.
    eapply leads_ret with (i := r); [reflexivity|rg; exact F3|lia|lia|apply stack_mapped|done|done|done|].
    apply Hnext; rg; [done|done|done|lia]. }
  assert (Hwr : forall f2 fl2, f2 RCX = Z.of_nat (length l) -> f2 RBX = bss + 1 -> f2 RSP = sp - 8 -> f2 R13 = f R13 ->
    leads (mkPState f2 161 fl2 m) (erase k_write old w) Q).
  { intros f2 fl2 F1 F2 F3 F4. do 2 sx. rewrite F1. unfold flags_of. destruct l as [|c l'] eqn:El.
    - je true; [done|]. by apply Hfin.
    - je false; [done|]. do 4 sx. rewrite <- El in *. destruct (sc_write Hsc (bss + 1) (Z.of_nat (length l)) (Z.of_nat (length l)) (erase k_write old w) m) as [r' Er].
      { unfold in_data, BSS_SIZE. lia. }
      rewrite Nat2Z.id, (sd_line _ _ _ _ Hd) in Er.
      eapply leads_int; [reflexivity|rg; rewrite F1, F2; exact Er|].
      apply Hfin; by rg. }
  do 2 sx. rewrite E1. unfold flags_of, erase in *. destruct (Nat.eqb_spec old 0) as [->|Hne].
  - je true; [done|]. by apply Hwr.
  - je false; [apply Z.eqb_neq; lia|]. do 2 sx. eapply leads_lea; [reflexivity|apply sym_backspace_run|]. sx. rg. rewrite E1.
    eapply (write_call _ _ _ _ _ _ _ _ _ 78 old _ Hd); [reflexivity|by rg|by rg|by rg|by rg|lia|by apply backspaces|]. intros r'.
    apply Hwr; by rg.
Qed.

Lemma wrap64_land_7 v : Z.land (wrap64 v) 7 = v mod 8.
Proof.
  clear Hln Hsc. rewrite land_7 by (apply Z.mod_pos_bound; lia). unfold wrap64. rewrite Z.mod_mod_divide; [done|].
  by exists (2 ^ 61).
Qed.

Local Abbreviation recall := (recall k_write).

(** A call of [history_load_into_line] that returns to [r], from where the
    shell goes on to [read_char]. *)
Lemma load_call r n l sh nx f fl m w :
  shell_ok sh -> shell_data (sh_line sh) (sh_history sh) nx m ->
  sh_history sh !! n = Some l -> f RBX = bss + 1 -> f R12 = Z.of_nat (length (sh_line sh)) -> f R13 = Z.of_nat (S n) -> f RSP = sp ->
  (S r < length shell_code)%nat -> shell_code !! r = Some (CallL "history_load_into_line") ->
  shell_code !! S r = Some (Jmp "read_char") ->
  leads (mkPState f r fl m) w (polling (recall (S n) sh w).1 (recall (S n) sh w).2).
Proof using Hln Hsc.
  intros Hok Hd Hn E1 E2 E3 E4 Hr Ir Ij. assert (Hok' := Hok). destruct Hok' as [O1 O2 O3 O4].
  assert (HB := ln_bss Hln). assert (HS := ln_stack Hln). assert (HSB := ln_stack_bss Hln). assert (HSR := ln_stack_rodata Hln).
  assert (Hll := Forall_lookup_1 _ _ _ _ O3 Hn). cbn beta in Hll. assert (Hnl := lookup_lt_Some _ _ _ Hn).
  eapply leads_call; [exact Ir|reflexivity|exact E4|done|apply stack_mapped|].
  set (m0 := write_u64_at m (sp - 8) (loc (S r))).
  assert (Hd0 : shell_data (sh_line sh) (sh_history sh) nx m0).
  { apply (shell_data_ext _ _ nx m); [done|done|done|apply mem_ok_write_u64, Hd|].
    intros x Hx. apply write_u64_other. unfold RODATA_SIZE, BSS_SIZE in *. lia. }
  destruct (sd_next _ _ _ _ Hd0) as [Hnx Hn0]. destruct (sd_history _ _ _ _ Hd0 n l Hn) as [Hslot Hbytes].
  do 2 sx. eapply leads_loadq; [reflexivity|apply sym_history_next|apply bss_mapped8; unfold BSS_SIZE; lia|]. rewrite Hn0.
  sx. rg. rewrite E3. sx. rg. rewrite wrap64_land_7. replace (nx - Z.of_nat (S n)) with (nx - 1 - Z.of_nat n) by lia.
  pose proof (Z.mod_pos_bound (nx - 1 - Z.of_nat n) 8 ltac:(lia)). set (slot := (nx - 1 - Z.of_nat n) mod 8) in *.
  eapply leads_lea; [reflexivity|apply sym_history_lens|].
  eapply leads_movzx; [reflexivity|rg; reflexivity|unfold is_u64, BSS_SIZE in *; lia|apply bss_mapped; unfold BSS_SIZE; lia|]. rewrite Hslot.
  sx. rg. sx. rg. rewrite wrap64_small by (unfold is_u64, LINE_BUF_SIZE; lia).
  eapply leads_lea; [reflexivity|apply sym_history_lines|]. sx. rg.
  rewrite wrap64_small by (unfold is_u64, LINE_BUF_SIZE, BSS_SIZE in *; lia). sx.
  replace (bss + 65 + slot * LINE_BUF_SIZE) with (bss + 65 + 64 * slot) by (unfold LINE_BUF_SIZE; lia).
  eapply (copy_loop 146 153 ".Lload_copy" ".Lload_copy_done" RDX RCX RAX R9 RBX) with
    (src := bss + 65 + 64 * slot) (dst := bss + 1) (bs := l) (m := m0) (c := 0%nat) (k := length l); try reflexivity; try (unfold BSS_SIZE; lia).
  - split_and!; discriminate.
  - apply Hd0.
  - exact Hbytes.
  - split; [apply Hd0|]. done.
  - by rg.
  - intros f' fl' m' Hf Hcp.
    assert (Hd' := shell_data_replace _ _ _ _ _ _ Hll O3 Hd0 Hcp).
    eapply (load_tail (S r) (length (sh_line sh)) l (sh_history sh) nx); [done|done|done|by eapply after_call|done| | | | | |].
    + rewrite Hf by decided. rg. exact E2.
    + rewrite Hf by decided. by rg.
    + rewrite Hf by decided. by rg.
    + rewrite Hf by decided. by rg.
    + transitivity (read_u64_at m0 (sp - 8)); [|apply read_u64_write_same, (ln_loc_u64 Hln)].
      apply read_u64_ext. intros x Hx. apply Hcp. unfold BSS_SIZE in *. lia.
    + intros f3 fl3 G1 G2 G3 G4. eapply leads_jmp; [exact Ij|reflexivity|].
      unfold Shell.recall. replace (S n - 1)%nat with n by lia. rewrite Hn. cbn [default fst snd].
      apply (read_char_polls (mkShell l (sh_history sh) (S n) Normal) _ _ _ nx); [|split; cbn; try done|done].
      * split; cbn; [done..|lia].
      * rewrite G2, Hf by decided. by rg.
Qed.

Lemma older_polls sh b nx f fl m w : handling sh b nx f m ->
  leads (mkPState f (entry_of "history_older") fl m) w (polling (older k_write sh w).1 (older k_write sh w).2).
Proof using Hln Hsc.
  intros [Hok Hl _ Hd]. assert (Hl' := Hl). destruct Hl' as [L1 L2 L3 L4]. destruct Hok as [O1 O2 O3 O4] eqn:EO. clear EO.
  assert (HB := ln_bss Hln). change (entry_of "history_older") with 107%nat. sx.
  eapply leads_loadq; [reflexivity|apply sym_history_count|apply bss_mapped8; unfold BSS_SIZE; lia|]. rewrite (sd_count _ _ _ _ Hd).
  sx. rg. unfold flags_of. assert (Hstay : forall fl', leads (mkPState (upd RAX (Z.of_nat (length (sh_history sh))) f) (entry_of "read_char") fl' m) w
    (polling (set_mode Normal sh) w)).
  { intros fl'. apply (read_char_polls sh _ _ _ nx); [done| |done]. split; by rg. }
  unfold older. destruct (Nat.ltb_spec (sh_browse sh) (length (sh_history sh))) as [Hb|Hb].
  - je false; [apply Z.eqb_neq; lia|]. sx. rg. rewrite L3. jge false; [apply Z.leb_gt; rewrite !signed_small by lia; lia|].
    sx. rg. rewrite L3, wrap64_small by (unfold is_u64; lia).
    destruct (lookup_lt_is_Some_2 _ _ Hb) as [l Hn].
    apply (load_call 114 (sh_browse sh) l sh nx); try done; rg; try done; [lia|cbn; lia].
  - cbn [fst snd]. destruct (decide (length (sh_history sh) = 0%nat)) as [E|E].
    + je true; [apply Z.eqb_eq; lia|]. apply Hstay.
    + je false; [apply Z.eqb_neq; lia|]. sx. rg. rewrite L3. jge true; [apply Z.leb_le; rewrite !signed_small by lia; lia|]. apply Hstay.
Qed.

Lemma clear_polls sh nx f fl m w :
  shell_ok sh -> shell_data (sh_line sh) (sh_history sh) nx m ->
  f RBX = bss + 1 -> f R12 = Z.of_nat (length (sh_line sh)) -> f R13 = 0 -> f RSP = sp ->
  leads (mkPState f (entry_of "history_clear_line") fl m) w
    (polling (mkShell [] (sh_history sh) 0 Normal) (erase k_write (length (sh_line sh)) w)).
Proof using Hln Hsc.
  intros [O1 O2 O3 O4] Hd E1 E2 E3 E4. assert (Hd0 := shell_data_prefix _ _ _ _ 0 Hd). rewrite take_0 in Hd0.
  assert (Hok : shell_ok (mkShell [] (sh_history sh) 0 Normal)) by (split; cbn; [lia|done|done|lia]).
  change (entry_of "history_clear_line") with 123%nat. do 3 sx. rg. rewrite E2. unfold flags_of, erase.
  destruct (Nat.eqb_spec (length (sh_line sh)) 0) as [E|E].
  - je true; [apply Z.eqb_eq; lia|]. apply (read_char_polls (mkShell [] (sh_history sh) 0 Normal) _ _ _ nx); [done| |done].
    split; rg; cbn [sh_line sh_browse length]; [done|lia|done|done].
  - je false; [apply Z.eqb_neq; lia|]. do 2 sx. eapply leads_lea; [reflexivity|apply sym_backspace_run|]. sx. rg.
    eapply (write_call _ _ _ _ _ _ _ _ _ 78 (length (sh_line sh)) _ Hd); [reflexivity|by rg|by rg|by rg|by rg|lia|by apply backspaces|].
    intros r. sx. jmp. apply (read_char_polls (mkShell [] (sh_history sh) 0 Normal) _ _ _ nx); [done| |done]. split; by rg.
Qed.

Lemma newer_polls sh b nx f fl m w : handling sh b nx f m ->
  leads (mkPState f (entry_of "history_newer") fl m) w (polling (newer k_write sh w).1 (newer k_write sh w).2).
Proof using Hln Hsc.
  intros Hh. assert (Hh' := Hh). destruct Hh' as [Hok [L1 L2 L3 L4] _ Hd]. assert (Hok' := Hok). destruct Hok' as [O1 O2 O3 O4].
  change (entry_of "history_newer") with 116%nat. do 2 sx. rewrite L3. unfold flags_of, newer.
  destruct (sh_browse sh) as [|n] eqn:Eb.
  - je true; [done|]. by eapply handling_read_char.
  - je false; [done|]. sx. rewrite L3, wrap64_small by (unfold is_u64; lia). unfold flags_of. destruct n as [|n].
    + je true; [done|]. apply (clear_polls sh nx); [done|done|by rg|by rg|by rg|by rg].
    + je false; [apply Z.eqb_neq; lia|]. destruct (lookup_lt_is_Some_2 (sh_history sh) n) as [l Hn]; [lia|].
      apply (load_call 121 n l sh nx); try done; rg; try done; [lia|cbn; lia].
Qed.

Lemma feed_bracket sh b nx f fl m w :
  handling sh b nx f m -> sh_mode sh = Bracket ->
  leads (mkPState f (ret_pc Bracket) fl m) w (polling (feed b sh w).1 (feed b sh w).2).
Proof using Hln Hsc.
  intros Hh Hm. assert (Ha := handling_al _ _ _ _ _ Hh). unfold Shell.feed. rewrite Hm. change (ret_pc Bracket) with 94%nat.
  sx. rewrite Ha. destruct (Z.eqb_spec b 0x41); [je true; [by apply Z.eqb_eq|]; by eapply older_polls|je false; [by apply Z.eqb_neq|]].
  sx. rewrite Ha. destruct (Z.eqb_spec b 0x42); [je true; [by apply Z.eqb_eq|]; by eapply newer_polls|je false; [by apply Z.eqb_neq|]].
  sx. rewrite Ha. destruct (Z.eqb_spec b 0x43); [je true; [by apply Z.eqb_eq|]; by eapply handling_read_char|je false; [by apply Z.eqb_neq|]].
  sx. rewrite Ha. destruct (Z.eqb_spec b 0x44); [je true; [by apply Z.eqb_eq|]; by eapply handling_read_char|je false; [by apply Z.eqb_neq|]].
  cbn [orb]. by eapply drain_polls.
Qed.

Lemma feed_polls sh b u w w1 : shell_ok sh -> ready sh b w1 u w ->
  leads u w (polling (feed b sh w).1 (feed b sh w).2).
Proof using Hln Hsc.
  intros Hok (f & fl & m & nx & -> & Hl & Ha & Hb & Hd & ->). assert (Hh : handling sh b nx f m) by by split.
  destruct (sh_mode sh) eqn:Hm; [by eapply feed_normal|by eapply feed_escape|by eapply feed_bracket|by eapply feed_drain].
Qed.

Local Abbreviation polls := (polls k_write k_read k_spawn k_wait).

Lemma polls_run n : forall sh u w, shell_ok sh -> at_poll sh u ->
  leads u w (polling (polls n sh w).1 (polls n sh w).2).
Proof using Hln Hsc.
  induction n as [|n IH]; intros sh u w Hok Hp; cbn [Shell.polls]; [by apply leads_now|].
  assert (Ho := poll_once sh u w Hok Hp). destruct (k_read w) as [[b|] w1].
  - assert (Hf := feed_ok k_write k_spawn k_wait b sh w1 Hok). eapply leads_trans; [exact Ho|]. intros u1 w2 Hr.
    assert (w2 = w1) as -> by by destruct Hr as (? & ? & ? & ? & _ & _ & _ & _ & _ & ?).
    eapply leads_trans; [exact (feed_polls sh b u1 w1 w1 Hok Hr)|]. intros u3 w3 [Hp3 ->].
    destruct (Shell.feed k_write k_spawn k_wait b sh w1) as [sh3 w4]. by apply IH.
  - eapply leads_trans; [exact Ho|]. intros u1 w2 [Hp1 ->]. by apply IH.
Qed.

(** The memory of the shell as the loader leaves it. *)
Lemma shell_data_loaded m :
  mem_ok m -> read_bytes m rodata (Z.to_nat RODATA_SIZE) = rodata_bytes ->
  read_bytes m bss (Z.to_nat BSS_SIZE) = replicate (Z.to_nat BSS_SIZE) 0 -> shell_data [] [] 0 m.
Proof.
  clear Hln Hsc. intros Hm Hr Hb.
  assert (Hz : forall i, (i + 8 <= Z.to_nat BSS_SIZE)%nat -> read_u64_at m (bss + Z.of_nat i) = 0).
  { intros i Hi. unfold read_u64_at. rewrite (read_bytes_slice _ _ _ _ _ Hi), Hb, drop_replicate, take_replicate.
    replace (8 `min` (Z.to_nat BSS_SIZE - i))%nat with 8%nat by lia. reflexivity. }
  split; try done.
  - split; [lia|]. apply (Hz 593%nat). unfold BSS_SIZE. lia.
  - apply (Hz 585%nat). unfold BSS_SIZE. lia.
Qed.

(** C21: the assembly of the shell does what its specification says.  Loaded
    with its strings in place and its variables zero, the program writes the
    banner and the prompt, and for every number [n] of polls of the keyboard
    it comes, after finitely many instructions and without a fault, to the
    next poll; there the line being typed, the eight last lines, the place
    in them and the progress of an escape sequence (in the registers, the
    buffers and the ring of old lines) and all that the system calls did are
    those of [polls n]. *)
Theorem shell_refines n f fl m w :
  mem_ok m -> read_bytes m rodata (Z.to_nat RODATA_SIZE) = rodata_bytes ->
  read_bytes m bss (Z.to_nat BSS_SIZE) = replicate (Z.to_nat BSS_SIZE) 0 -> f RSP = sp ->
  exists steps u,
    prun shell_code loc (shell_sym rodata bss) mapped sys steps (mkPState f (entry_of "_start") fl m) w =
      PRunning u (polls n shell_new (shell_start k_write w)).2 /\
    at_poll (polls n shell_new (shell_start k_write w)).1 u.
Proof using Hln Hsc.
  intros Hm Hr Hb Hs.
  destruct (leads_trans shell_code loc (shell_sym rodata bss) mapped sys _ _ _
    (polling (polls n shell_new (shell_start k_write w)).1 (polls n shell_new (shell_start k_write w)).2)
    (start_polls f fl m w 0 (shell_data_loaded m Hm Hr Hb) Hs)) as (steps & u & w' & Hrun & Hp & ->).
  - intros u w1 [Hp ->]. apply polls_run; [|done]. split; cbn; [lia|lia|done|lia].
  - by exists steps, u.
Qed.
End Refinement.

(** ** A session *)

(** A world with the input still to come, the output, and the programs that
    were started; the only program is [/ls]. *)
Definition session_world : Type := list Z * list Z * list (list Z * list Z).
Definition session_write (bs : list Z) (w : session_world) : session_world := (w.1.1, w.1.2 ++ bs, w.2).
Definition session_read (w : session_world) : option Z * session_world :=
  match w.1.1 with [] => (None, w) | b :: rest => (Some (b mod 256), (rest, w.1.2, w.2)) end.
Definition session_spawn (path args : list Z) (w : session_world) : Z * session_world :=
  if bool_decide (path = bytes_of "/ls") then (7, (w.1.1, w.1.2, w.2 ++ [(path, args)])) else (U64_MAX, w).
Definition session_wait (pid : Z) (w : session_world) : session_world := w.

Definition session_sys (n a1 a2 a3 a4 : Z) (w : session_world) (m : mem) : option (Z * session_world * mem) :=
  if n =? SYS_WRITE then Some (a3, session_write (read_bytes m a2 (Z.to_nat a3)) w, m)
  else if n =? SYS_READ then
    match session_read w with (Some b, w') => Some (1, w', write_list m a2 [b]) | (None, w') => Some (0, w', m) end
  else if n =? SYS_SPAWN then
    let '(pid, w') := session_spawn (read_bytes m a1 (Z.to_nat a2)) (read_bytes m a3 (Z.to_nat a4)) w in Some (pid, w', m)
  else if n =? SYS_WAIT then Some (0, session_wait a1 w, m)
  else None.

Definition is_label (i : pinstr) : bool := match i with Label _ => true | _ => false end.
Definition session_loc (i : nat) : Z := 0x400000 + 4 * Z.of_nat (length (filter (fun c => is_label c = false) (take i shell_code))).
Definition session_mem : mem := fun a => nth (Z.to_nat (a - 0x401000)) rodata_bytes 0.

Lemma session_loc_step i ins : shell_code !! i = Some ins -> session_loc (S i) = session_loc i + (if is_label ins then 0 else 4).
Proof.
  intros Hi. unfold session_loc. rewrite (take_S_r _ _ _ Hi), filter_app, length_app, filter_cons, filter_nil.
  destruct (is_label ins); cbn [length]; case_decide; try done; cbn [length]; lia.
Qed.

Lemma session_linked : linked session_loc 0x401000 0x402000 0x500000 (fun _ => true).
Proof.
  split; try (unfold RODATA_SIZE, BSS_SIZE; lia); try done.
  - intros i ins Hi. rewrite (session_loc_step _ _ Hi). destruct ins; cbn [is_label]; lia.
  - intros i. unfold session_loc, is_u64.
    assert (H := length_filter (fun c => is_label c = false) (take i shell_code)). rewrite length_take in H.
    change (length shell_code) with 199%nat in H. lia.
Qed.

Lemma session_syscalls : syscalls_ok session_write session_read session_spawn session_wait 0x401000 0x402000 session_sys.
Proof.
  split.
  - intros p n c w m _. by exists n.
  - done.
  - intros [[[|b i] o] st] b' w' E; inversion E. apply Z.mod_pos_bound. lia.
  - intros p n q l w m _ _. unfold session_sys. cbn -[read_bytes session_spawn]. by destruct (session_spawn _ _ _).
  - intros path args w. unfold session_spawn. case_bool_decide; vm_compute; intuition discriminate.
  - intros. by exists 0.
Qed.

Lemma session_mem_ok : mem_ok session_mem.
Proof.
  assert (H : Forall is_u8 rodata_bytes) by decided. intros a. unfold session_mem. revert H. generalize rodata_bytes. intros l H.
  destruct (nth_in_or_default (Z.to_nat (a - 0x401000)) l 0) as [Hi| ->]; [|done]. by apply (proj1 (List.Forall_forall is_u8 l)).
Qed.

(** [/ls a], a line that is not a program, and twice up, back to [/ls a]. *)
Definition session_input : list Z := bytes_of "/ls a" ++ [13] ++ bytes_of "no" ++ [13; 0x1B; 0x5B; 0x41; 0x1B; 0x5B; 0x41; 13].

Lemma shell_refines_witness :
  let w0 : session_world := (session_input, [], []) in
  let '(sh, w) := polls session_write session_read session_spawn session_wait 20 shell_new (shell_start session_write w0) in
  w.2 = [(bytes_of "/ls", bytes_of "a"); (bytes_of "/ls", bytes_of "a")] /\
  sh_history sh = [bytes_of "/ls a"; bytes_of "no"; bytes_of "/ls a"] /\
  exists steps u,
    prun shell_code session_loc (shell_sym 0x401000 0x402000) (fun _ => true) session_sys steps
      (mkPState (fun _ => 0x500000) (entry_of "_start") None session_mem) w0 = PRunning u w /\
    at_poll session_loc 0x401000 0x402000 0x500000 sh u.
Proof.
  assert (H := shell_refines session_write session_read session_spawn session_wait session_loc 0x401000 0x402000 0x500000
    (fun _ => true) session_sys session_linked session_syscalls 20 (fun _ => 0x500000) None session_mem (session_input, [], [])).
  intros w0. fold w0 in H. destruct (polls _ _ _ _ 20 _ _) as [sh w] eqn:E.
  assert (E1 : w.2 = [(bytes_of "/ls", bytes_of "a"); (bytes_of "/ls", bytes_of "a")])
    by (transitivity ((sh, w).2.2); [done|]; rewrite <- E; vm_compute; reflexivity).
  assert (E2 : sh_history sh = [bytes_of "/ls a"; bytes_of "no"; bytes_of "/ls a"])
    by (transitivity (sh_history (sh, w).1); [done|]; rewrite <- E; vm_compute; reflexivity).
  split; [exact E1|split; [exact E2|]]. apply H.
  - exact session_mem_ok.
  - vm_compute. reflexivity.
  - vm_compute. reflexivity.
  - reflexivity.
Defined.
