(* ===== verification/Harness.v ===== *)
(** * Serial port, panics and the test harness (src/serial.rs, src/lib.rs, src/main.rs)

    What the kernel prints on the serial port, what happens on a panic, and
    the runner of the kernel's own tests, with the tests of
    src/vga_buffer.rs.  A panic does not lose the state here: the handler
    runs on the serial line and the exit port as the panic left them.  The
    console a panicking test leaves half written is not tracked: the handler
    of a test build does not look at it. *)

From S2P Require Import Prelude Utf8 Vga Syscall.

(** A text without control characters, by evaluation. *)
Ltac plain_text := apply (bool_decide_eq_true_1 (Forall (fun b => b <> 8 /\ b <> 127) _)); vm_compute; reflexivity.

(** ** The machine *)

(** The driver of the uart_16550 crate; [sp_sent] are the bytes on the wire.
    Backspace and delete are sent as sequences of their own. *)
Class SerialPort (P : Type) := {
  sp_new : Z -> P;
  sp_init : P -> P;
  sp_write_str : list Z -> P -> bool * P;
  sp_sent : P -> list Z;
  sp_new_sent base : sp_sent (sp_init (sp_new base)) = [];
  sp_write_str_sent s p : Forall (fun b => b <> 8 /\ b <> 0x7F) s ->
    exists p', sp_write_str s p = (true, p') /\ sp_sent p' = sp_sent p ++ s;
}.

Section Harness.
Context {P : Type} `{!SerialPort P}.

(** [SERIAL1] is made when it is first used.  [exits] are the values written
    to port 0xf4. *)
Record Machine := mkMachine { screen : Console; serial1 : option P; serial1_locked : bool; exits : list Z }.

Definition set_screen (c : Console) (s : Machine) : Machine := mkMachine c (serial1 s) (serial1_locked s) (exits s).
Definition set_serial (p : P) (locked : bool) (s : Machine) : Machine := mkMachine (screen s) (Some p) locked (exits s).
Definition set_flag (b : bool) (s : Machine) : Machine := set_screen (set_console_interrupts b (screen s)) s.

(** A computation returns or panics, in both cases with a machine. *)
Definition Run (A : Type) : Type := Machine -> (A + string) * Machine.

#[global] Instance Run_ret : MRet Run := fun A a s => (inl a, s).
#[global] Instance Run_bind : MBind Run := fun A B f x s =>
  match x s with
  | (inl a, s') => f a s'
  | (inr msg, s') => (inr msg, s')
  end.

Definition look {A} (f : Machine -> A) : Run A := fun s => (inl (f s), s).
Definition put (f : Machine -> Machine) : Run unit := fun s => (inl tt, f s).
Definition fails {A} (msg : string) : Run A := fun s => (inr msg, s).

(** Code of the console. *)
Definition on_screen {A} (f : M Console A) : Run A := fun s =>
  match f (screen s) with
  | Ok (a, c) => (inl a, set_screen c s)
  | Panic msg => (inr msg, s)
  end.

(** ** src/serial.rs *)

(** [SERIAL1], and its lock. *)
Definition SERIAL1 : Run P :=
  port ← look serial1;
  match port with
  | Some p => mret p
  | None => let p := sp_init (sp_new 0x3F8) in _ ← put (set_serial p false); mret p
  end.

Definition serial_lock : Run P :=
  p ← SERIAL1;
  locked ← look serial1_locked;
  if locked : bool then fails "deadlock: SERIAL1 is locked" else (_ ← put (set_serial p true); mret p).

(** [write_fmt] stops at the first piece that fails. *)
Fixpoint write_pieces (pieces : list (list Z)) (p : P) : bool * P :=
  match pieces with
  | [] => (true, p)
  | s :: rest => match sp_write_str s p with (true, p') => write_pieces rest p' | (false, p') => (false, p') end
  end.

Definition serial_print (pieces : list (list Z)) : Run unit :=
  saved ← look (fun s => console_interrupts (screen s));
  _ ← put (set_flag false);
  p ← serial_lock;
  let '(ok, p') := write_pieces pieces p in
  _ ← put (set_serial p' (negb ok));
  _ ← (if ok : bool then mret tt else fails "Printing to serial failed");
  put (set_flag saved).

Definition serial_println (pieces : list (list Z)) : Run unit := serial_print (pieces ++ [[10]]).

(** ** The test runner of src/lib.rs *)

Inductive QemuExitCode := Success | Failed.
Definition exit_code_u32 (c : QemuExitCode) : Z := match c with Success => 0x10 | Failed => 0x11 end.

Definition exit_qemu (c : QemuExitCode) : Run unit :=
  put (fun s => mkMachine (screen s) (serial1 s) (serial1_locked s) (exits s ++ [exit_code_u32 c])).

(** A test: the name [type_name] gives, and the function. *)
Record Test := mkTest { type_name : list Z; body : Run unit }.

Definition run (t : Test) : Run unit :=
  _ ← serial_print [type_name t; bytes_of "..." ++ [9]];
  _ ← body t;
  serial_println [bytes_of "[ok]"].

Fixpoint run_all (tests : list Test) : Run unit :=
  match tests with
  | [] => mret tt
  | t :: rest => _ ← run t; run_all rest
  end.

(** [Display] of a [usize]. *)
Variable show_usize : nat -> list Z.

Definition test_runner (tests : list Test) : Run unit :=
  _ ← serial_println [bytes_of "Running "; show_usize (length tests); bytes_of " tests"];
  _ ← run_all tests;
  exit_qemu Success.

(** [Display] of a [PanicInfo]. *)
Variable show_info : string -> list Z.

(** [hlt_loop] follows: the machine stays as it is. *)
Definition test_panic_handler (msg : string) : Run unit :=
  _ ← serial_println [bytes_of "[failed]" ++ [10]];
  _ ← serial_println [bytes_of "Error: "; show_info msg; [10]];
  exit_qemu Failed.

(** [test_kernel_main] with the panic handler of a test build. *)
Definition test_kernel_main (tests : list Test) (s : Machine) : Machine :=
  match test_runner tests s with
  | (inl _, s') => s'
  | (inr msg, s') => (test_panic_handler msg s').2
  end.

(** ** The panic handler of src/main.rs *)

Definition println (pieces : list (list Z)) : Run unit := on_screen (_print (pieces ++ [[10]])).

Definition panic (msg : string) : Run unit :=
  _ ← println [show_info msg];
  _ ← serial_println [bytes_of "PANIC: "; show_info msg];
  put (set_flag false).

(** ** Printing on the serial port *)

Definition plain (bs : list Z) : Prop := Forall (fun b => b <> 8 /\ b <> 0x7F) bs.

Lemma plain_app bs bs' : plain bs -> plain bs' -> plain (bs ++ bs').
Proof. apply Forall_app_2. Qed.

(** What went over the wire so far. *)
Definition sent (s : Machine) : list Z := match serial1 s with Some p => sp_sent p | None => [] end.

(** From [s] to [s'] the text [bs] was sent, and nothing else happened. *)
Record says (s : Machine) (bs : list Z) (s' : Machine) : Prop := {
  says_screen : screen s' = screen s;
  says_unlocked : serial1_locked s' = false;
  says_exits : exits s' = exits s;
  says_sent : sent s' = sent s ++ bs;
}.

Lemma says_app s bs s1 bs' s2 : says s bs s1 -> says s1 bs' s2 -> says s (bs ++ bs') s2.
Proof. intros [A1 A2 A3 A4] [B1 B2 B3 B4]. split; [by rewrite B1|done|by rewrite B3|]. by rewrite B4, A4, app_assoc. Qed.

Lemma write_pieces_ok pieces p : plain (concat pieces) ->
  exists p', write_pieces pieces p = (true, p') /\ sp_sent p' = sp_sent p ++ concat pieces.
Proof.
  revert p. induction pieces as [|bs rest IH]; intros p Hp; cbn [write_pieces concat] in *.
  - exists p. by rewrite app_nil_r.
  - apply Forall_app in Hp as [Hb Hr]. destruct (sp_write_str_sent bs p Hb) as (p1 & -> & E1).
    destruct (IH p1 Hr) as (p2 & -> & E2). exists p2. by rewrite E2, E1, app_assoc.
Qed.

Lemma serial_print_says pieces s : serial1_locked s = false -> plain (concat pieces) ->
  exists s', serial_print pieces s = (inl tt, s') /\ says s (concat pieces) s'.
Proof.
  destruct s as [[w wl i] port locked ex]. cbn [serial1_locked]. intros -> Hp.
  set (p0 := match port with Some p => p | None => sp_init (sp_new 0x3F8) end).
  destruct (write_pieces_ok pieces p0 Hp) as (p' & E & Hs). exists (mkMachine (mkConsole w wl i) (Some p') false ex). split.
  - unfold serial_print, serial_lock, SERIAL1, look, put, mbind, Run_bind, mret, Run_ret. cbn.
    destruct port as [p|]; cbn; cbn in p0; subst p0; by rewrite E.
  - split; [done..|]. cbn. rewrite Hs. f_equal. by destruct port; [|apply sp_new_sent].
Qed.

Lemma serial_println_says pieces s : serial1_locked s = false -> plain (concat pieces) ->
  exists s', serial_println pieces s = (inl tt, s') /\ says s (concat pieces ++ [10]) s'.
Proof.
  intros Hl Hp. destruct (serial_print_says (pieces ++ [[10]]) s Hl) as (s' & E & Hs).
  - rewrite concat_app. apply plain_app; [done|plain_text].
  - exists s'. split; [exact E|]. rewrite concat_app in Hs. exact Hs.
Qed.

(** ** The verdict *)

(** A test of the console. *)
Definition screen_test (name : list Z) (f : M Console unit) : Test := mkTest name (on_screen f).

(** The report on tests that start on a console: the text, and the first
    panic. *)
Fixpoint report (tests : list (list Z * M Console unit)) (c : Console) : list Z * option string :=
  match tests with
  | [] => ([], None)
  | (name, f) :: rest =>
      let head := name ++ bytes_of "..." ++ [9] in
      match f c with
      | Ok (_, c') => let '(txt, r) := report rest c' in (head ++ bytes_of "[ok]" ++ [10] ++ txt, r)
      | Panic msg => (head, Some msg)
      end
  end.

Definition verdict (r : option string) : list Z * Z :=
  match r with
  | None => ([], 0x10)
  | Some msg => (bytes_of "[failed]" ++ [10; 10] ++ bytes_of "Error: " ++ show_info msg ++ [10; 10], 0x11)
  end.

Lemma run_all_reports tests s :
  serial1_locked s = false -> Forall (fun t => plain t.1) tests ->
  exists s', run_all ((fun t => screen_test t.1 t.2) <$> tests) s =
      (match (report tests (screen s)).2 with None => inl tt | Some msg => inr msg end, s') /\
    serial1_locked s' = false /\ exits s' = exits s /\ sent s' = sent s ++ (report tests (screen s)).1.
Proof.
  revert s. induction tests as [|[name f] rest IH]; intros s Hl Hp; cbn [fmap list_fmap run_all report fst snd].
  { exists s. by rewrite app_nil_r. }
  apply Forall_cons in Hp as [Hn Hp]. cbn [fst] in Hn. unfold run.
  destruct (serial_print_says [name; bytes_of "..." ++ [9]] s Hl) as (s1 & E1 & [S1 L1 X1 T1]).
  { apply plain_app; [done|plain_text]. }
  unfold mbind, Run_bind. cbn [type_name screen_test body]. rewrite E1. unfold on_screen. rewrite S1.
  cbn [concat app] in T1. rewrite app_nil_r in T1.
  destruct (f (screen s)) as [[u c]|msg].
  - set (s2 := set_screen c s1). destruct (serial_println_says [bytes_of "[ok]"] s2 L1) as (s3 & E3 & [S3 L3 X3 T3]); [plain_text|].
    rewrite E3. destruct (IH s3 L3 Hp) as (s4 & E4 & L4 & X4 & T4). rewrite S3 in E4, T4. change (screen s2) with c in E4, T4.
    destruct (report rest c) as [txt r]. cbn [fst snd] in *. exists s4. split_and!; [exact E4|done|by rewrite X4, X3|].
    rewrite T4, T3. change (sent s2) with (sent s1). rewrite T1. cbn [concat]. by rewrite app_nil_r, <- !app_assoc.
  - exists s1. by rewrite T1.
Qed.

(** C33: the harness tells right from wrong.  Whatever the tests do to the
    console, they are run in order up to the first that panics; the text on
    the serial line names each of them, with the message of the panic if
    there is one, and the value that QEMU is told to exit with is that of
    success exactly when no test panicked. *)
Theorem harness_verdict tests s :
  serial1_locked s = false -> Forall (fun t => plain t.1) tests -> (forall n, plain (show_usize n)) -> (forall msg, plain (show_info msg)) ->
  let s' := test_kernel_main ((fun t => screen_test t.1 t.2) <$> tests) s in
  let '(txt, r) := report tests (screen s) in
  sent s' = sent s ++ bytes_of "Running " ++ show_usize (length tests) ++ bytes_of " tests" ++ [10] ++ txt ++ (verdict r).1 /\
  exits s' = exits s ++ [(verdict r).2].
Proof.
  intros Hl Hp Hu Hi s'. subst s'. unfold test_kernel_main, test_runner, mbind, Run_bind. rewrite length_fmap.
  destruct (serial_println_says [bytes_of "Running "; show_usize (length tests); bytes_of " tests"] s Hl) as (s1 & E1 & [S1 L1 X1 T1]).
  { cbn [concat]. apply plain_app; [plain_text|]. apply plain_app; [done|plain_text]. }
  rewrite E1. destruct (run_all_reports tests s1 L1 Hp) as (s2 & E2 & L2 & X2 & T2). rewrite S1 in E2, T2.
  destruct (report tests (screen s)) as [txt [msg|]]; cbn [fst snd] in *; rewrite E2; rewrite X1 in X2; cbn [verdict fst snd].
  - destruct (serial_println_says [bytes_of "[failed]" ++ [10]] s2 L2) as (s3 & E3 & [S3 L3 X3 T3]); [plain_text|].
    destruct (serial_println_says [bytes_of "Error: "; show_info msg; [10]] s3 L3) as (s4 & E4 & [S4 L4 X4 T4]).
    { cbn [concat]. apply plain_app; [plain_text|]. apply plain_app; [done|plain_text]. }
    unfold test_panic_handler, mbind, Run_bind. rewrite E3, E4. cbn [exit_qemu put snd exits exit_code_u32].
    split; [|by rewrite X4, X3, X2]. change (sent (mkMachine _ _ _ _)) with (sent s4).
    rewrite T4, T3, T2, T1. cbn [concat]. rewrite !app_nil_r, <- !app_assoc. done.
  - cbn [exit_qemu put snd exits exit_code_u32]. split; [|by rewrite X2]. change (sent (mkMachine _ _ _ _)) with (sent s2).
    rewrite T2, T1. cbn [concat]. rewrite !app_nil_r, <- !app_assoc. done.
Qed.

(** The kernel's panic handler: with the screen free, the message is on the
    screen and on the serial line, and interrupts are off. *)
Lemma panic_reports msg s t :
  shows (writer (screen s)) t -> writer_locked (screen s) = false -> serial1_locked s = false -> plain (show_info msg) ->
  exists s', panic msg s = (inl tt, s') /\ console_interrupts (screen s') = false /\
    shows (writer (screen s')) (type_bytes (color_code (writer (screen s))) (shown <$> show_info msg ++ [10]) t) /\
    sent s' = sent s ++ bytes_of "PANIC: " ++ show_info msg ++ [10].
Proof.
  intros Hs Hw Hl Hp. destruct (write_pieces_shows [show_info msg; [10]] (writer (screen s)) t Hs) as (w' & E & Ec & Hs').
  set (s1 := set_screen (mkConsole w' false (console_interrupts (screen s))) s).
  destruct (serial_println_says [bytes_of "PANIC: "; show_info msg] s1 Hl) as (s2 & E2 & [S2 L2 X2 T2]).
  { cbn [concat]. apply plain_app; [plain_text|]. apply plain_app; [done|plain_text]. }
  exists (set_flag false s2). split_and!.
  - unfold panic, mbind, Run_bind. assert (E1 : println [show_info msg] s = (inl tt, s1)); [|by rewrite E1, E2].
    unfold println, on_screen. cbn [app]. by rewrite (console_print_ok _ _ w' Hw E).
  - done.
  - cbn [set_flag set_screen screen set_console_interrupts writer]. rewrite S2. cbn [s1 set_screen screen writer]. cbn [concat] in Hs'.
    by rewrite app_nil_r in Hs'.
  - change (sent (set_flag false s2)) with (sent s2). rewrite T2. cbn [concat]. rewrite app_nil_r, <- !app_assoc. done.
Qed.
End Harness.

(** ** The tests of src/vga_buffer.rs *)

Definition assert_eq_nat (a b : nat) : outcome unit := assert_ (a =? b)%nat "assertion `left == right` failed".
Definition assert_eq_Z (a b : Z) : outcome unit := assert_ (a =? b) "assertion `left == right` failed".

(** [without_interrupts] around a use of the locked writer. *)
Definition with_writer (f : Writer -> outcome Writer) : M Console unit :=
  saved ← gets console_interrupts;
  _ ← modify (set_console_interrupts false);
  w ← lock_writer;
  w' ← lift (f w);
  _ ← unlock_writer w';
  modify (set_console_interrupts saved).

Definition test_println_simple : M Console unit := _print [bytes_of "test_println_simple output"; [10]].

Fixpoint repeat_m (n : nat) (f : M Console unit) : M Console unit :=
  match n with O => mret tt | S n' => _ ← f; repeat_m n' f end.

Definition test_println_many : M Console unit := repeat_m 200 (_print [bytes_of "test_println_many output"; [10]]).

Definition test_backspace_erases_last_char : M Console unit := with_writer (fun w =>
  w ← new_line w;
  let start_column := column_position w in
  w ← write_byte 120 w;
  w ← write_byte 0x08 w;
  _ ← assert_eq_nat (column_position w) start_column;
  let row := (BUFFER_HEIGHT - 1)%nat in
  screen_char ← read_cell (buffer w) row start_column;
  _ ← assert_eq_Z (ascii_character screen_char) 32;
  w ← write_byte 0x08 w;
  _ ← assert_eq_nat (column_position w) start_column;
  Ok w).

(** [for (i, c) in s.chars().enumerate()], from index [i] on. *)
Fixpoint check_row (w : Writer) (i : nat) (s : list Z) : outcome unit :=
  match s with
  | [] => Ok tt
  | c :: rest =>
      screen_char ← read_cell (buffer w) (BUFFER_HEIGHT - 2) i;
      _ ← assert_eq_Z (ascii_character screen_char) c;
      check_row w (S i) rest
  end.

Definition test_println_output : M Console unit :=
  let s := bytes_of "Some test string that fits on a single line" in
  with_writer (fun w =>
    w ← foldM write_string [[10]; s; [10]] w;
    _ ← check_row w 0 s;
    Ok w).

Definition vga_tests : list (list Z * M Console unit) :=
  [(bytes_of "velora_os::vga_buffer::test_println_simple", test_println_simple);
   (bytes_of "velora_os::vga_buffer::test_println_many", test_println_many);
   (bytes_of "velora_os::vga_buffer::test_backspace_erases_last_char", test_backspace_erases_last_char);
   (bytes_of "velora_os::vga_buffer::test_println_output", test_println_output)].

(** A console that can be printed on, with interrupts on or off. *)
Definition console_ok (i : bool) (c : Console) : Prop :=
  writer_ok (writer c) /\ writer_locked c = false /\ console_interrupts c = i.

Definition passes (f : M Console unit) : Prop := forall i c, console_ok i c -> exists c', f c = Ok (tt, c') /\ console_ok i c'.

Lemma write_pieces_total pieces w : writer_ok w -> exists w', foldM write_string pieces w = Ok w' /\ writer_ok w'.
Proof.
  revert w. induction pieces as [|s rest IH]; intros w Hw; cbn [foldM]; [by exists w|].
  destruct (write_string_total s w Hw) as (w1 & -> & Hw1). cbn [mbind outcome_bind]. by apply IH.
Qed.

Lemma print_passes pieces : passes (_print pieces).
Proof.
  intros i c (Hw & Hl & Hi). destruct (write_pieces_total pieces (writer c) Hw) as (w' & E & Hw').
  eexists. split; [by apply console_print_ok|]. by split_and!.
Qed.

Lemma repeat_passes n f : passes f -> passes (repeat_m n f).
Proof.
  intros Hf. induction n as [|n IH]; intros i c Hc; cbn [repeat_m]; [by exists c|].
  destruct (Hf i c Hc) as (c1 & E1 & H1). destruct (IH i c1 H1) as (c2 & E2 & H2). exists c2. run_m. by rewrite E1, E2.
Qed.

Lemma with_writer_passes f : (forall w, writer_ok w -> exists w', f w = Ok w' /\ writer_ok w') -> passes (with_writer f).
Proof.
  intros Hf i [w l ci] (Hw & Hl & Hi). cbn in Hw, Hl, Hi. subst l ci. destruct (Hf w Hw) as (w' & E & Hw').
  exists (mkConsole w' false i). split; [|by split_and!].
  unfold with_writer, lock_writer, unlock_writer. run_m. cbn [console_interrupts set_console_interrupts writer writer_locked]. by rewrite E.
Qed.

Lemma write_string_app s s' w : write_string (s ++ s') w = (w1 ← write_string s w; write_string s' w1).
Proof. apply foldM_app. Qed.

Lemma read_written b row col c (r : list ScreenChar) : b !! row = Some r -> (col < length r)%nat ->
  read_cell (<[row := <[col := c]> r]> b) row col = Ok c.
Proof.
  intros Hr Hc. unfold read_cell. rewrite list_lookup_insert_eq by (by eapply lookup_lt_Some). cbn [expect mbind outcome_bind].
  by rewrite list_lookup_insert_eq.
Qed.

Lemma backspace_passes : passes test_backspace_erases_last_char.
Proof.
  apply with_writer_passes. intros w [Hok Hc]. destruct (new_line_writer_ok w Hok) as (w1 & -> & [Hok1 _] & E1). cbn [mbind outcome_bind].
  destruct (screen_row _ (BUFFER_HEIGHT - 1) Hok1) as (r & Hr & Lr); [unfold BUFFER_HEIGHT; lia|]. rewrite E1.
  set (x := mkScreenChar 120 (color_code w1)).
  assert (E2 : write_byte 120 w1 = Ok (mkWriter 1 (color_code w1) (<[(BUFFER_HEIGHT - 1)%nat := <[0%nat := x]> r]> (buffer w1)))).
  { unfold write_byte. rewrite E1. change (120 =? 10) with false. change (120 =? 8) with false. change (BUFFER_WIDTH <=? 0)%nat with false.
    cbn [mbind outcome_bind]. rewrite E1. by rewrite (write_cell_ok _ _ _ _ r Hr) by (rewrite Lr; unfold BUFFER_WIDTH; lia). }
  rewrite E2. cbn [mbind outcome_bind].
  set (b2 := <[(BUFFER_HEIGHT - 1)%nat := <[0%nat := x]> r]> (buffer w1)).
  assert (Hr2 : b2 !! (BUFFER_HEIGHT - 1)%nat = Some (<[0%nat := x]> r)) by (apply list_lookup_insert_eq; by eapply lookup_lt_Some).
  assert (L2 : (0 < length (<[0%nat := x]> r))%nat) by (rewrite length_insert, Lr; unfold BUFFER_WIDTH; lia).
  set (w2 := mkWriter 1 (color_code w1) b2).
  assert (E3 : write_byte 8 w2 = Ok (mkWriter 0 (color_code w1) (<[(BUFFER_HEIGHT - 1)%nat := <[0%nat := blank_cell w2]> (<[0%nat := x]> r)]> b2))).
  { unfold write_byte. change (8 =? 10) with false. change (8 =? 8) with true. change (0 <? column_position w2)%nat with true. cbv iota.
    change (column_position w2 - 1)%nat with 0%nat. change (buffer w2) with b2. by rewrite (write_cell_ok _ _ _ _ _ Hr2 L2). }
  rewrite E3. cbn [mbind outcome_bind column_position buffer assert_eq_nat assert_ Nat.eqb].
  rewrite (read_written _ _ _ _ _ Hr2 L2). cbn [mbind outcome_bind].
  eexists. split; [reflexivity|]. split; [|cbn; lia]. cbn [buffer]. destruct Hok1 as [O1 O2].
  unfold b2, Buffer. split; [by rewrite !length_insert|]. do 2 (apply Forall_insert; [|by rewrite !length_insert]). done.
Qed.

Lemma check_row_ok w s i (r : list ScreenChar) :
  (buffer w : list (list ScreenChar)) !! (BUFFER_HEIGHT - 2)%nat = Some r -> take (length s) (drop i (ascii_character <$> r)) = s -> check_row w i s = Ok tt.
Proof.
  intros Hr. revert i. induction s as [|c s IH]; intros i Hs; [done|]. cbn [check_row length] in *.
  destruct (drop i (ascii_character <$> r)) as [|c' rest] eqn:Ed; [done|]. cbn [take] in Hs. injection Hs as -> Hs.
  assert (Hi : (ascii_character <$> r) !! i = Some c) by (rewrite <- (Nat.add_0_r i), <- lookup_drop, Ed; done).
  apply list_lookup_fmap_Some in Hi as (ch & -> & Hi). unfold read_cell. rewrite Hr. cbn [expect mbind outcome_bind]. rewrite Hi.
  cbn [expect mbind outcome_bind]. unfold assert_eq_Z. rewrite Z.eqb_refl. cbn [assert_ mbind outcome_bind]. apply IH.
  replace (S i) with (i + 1)%nat by lia. by rewrite <- drop_drop, Ed.
Qed.

Lemma println_output_passes : passes test_println_output.
Proof.
  apply with_writer_passes. intros w Hw. set (s := bytes_of "Some test string that fits on a single line").
  destruct (println_shows s w Hw) as (w' & E & Hc & Hb).
  - apply (bool_decide_eq_true_1 _). vm_compute. reflexivity.
  - apply (bool_decide_eq_true_1 _). vm_compute. reflexivity.
  - assert (Ef : foldM write_string [[10]; s; [10]] w = Ok w').
    { rewrite <- E. change (10 :: s ++ [10]) with ([10] ++ s ++ [10]). rewrite write_string_app. cbn [foldM].
      destruct (write_string [10] w) as [w1|]; [|done]. cbn [mbind outcome_bind]. rewrite write_string_app.
      destruct (write_string s w1) as [w2|]; [|done]. cbn [mbind outcome_bind]. by destruct (write_string [10] w2). }
    destruct (write_pieces_total [[10]; s; [10]] w Hw) as (w2 & E2 & Hw2). rewrite Ef in E2. injection E2 as <-.
    rewrite Ef. cbn [mbind outcome_bind]. destruct Hw as [[Hl Hr] _].
    assert (Ld : length (drop 2 (buffer w)) = 23%nat) by (rewrite length_drop, Hl; reflexivity).
    rewrite (check_row_ok _ _ _ (padded (blank_cell w) ((fun c => mkScreenChar c (color_code w)) <$> s))).
    + by exists w'.
    + rewrite Hb, lookup_app_r by (rewrite Ld; cbn; lia). rewrite Ld. reflexivity.
    + unfold padded. rewrite drop_0, fmap_app, <- list_fmap_compose, take_app_le by (rewrite length_fmap; lia).
      change (ascii_character ∘ _) with (fun c : Z => c). rewrite list_fmap_id. by apply take_ge.
Qed.

Lemma vga_tests_all_pass : Forall (fun t => passes t.2) vga_tests.
Proof.
  repeat constructor; cbn [snd].
  - apply print_passes.
  - apply repeat_passes, print_passes.
  - apply backspace_passes.
  - apply println_output_passes.
Qed.

Lemma report_passing tests i c : Forall (fun t => passes t.2) tests -> console_ok i c ->
  report tests c = (tests ≫= (fun t => t.1 ++ bytes_of "..." ++ [9] ++ bytes_of "[ok]" ++ [10]), None).
Proof.
  intros Ht. revert c. induction Ht as [|[name f] rest Hf Ht IH]; intros c Hc; cbn [report]; [done|].
  destruct (Hf i c Hc) as (c' & E & Hc'). cbn [snd] in E. rewrite E, (IH c' Hc'), bind_cons. cbn [fst].
  by rewrite <- !app_assoc.
Qed.

(** The kernel passes its own tests.  On any console that is not locked,
    whatever is on the screen, the four tests of the console run one after
    the other without a failed assertion or another panic, and the report
    has a line [[ok]] for each of them. *)
Lemma vga_tests_pass i c : console_ok i c ->
  report vga_tests c = (vga_tests ≫= (fun t => t.1 ++ bytes_of "..." ++ [9] ++ bytes_of "[ok]" ++ [10]), None).
Proof. intros Hc. apply (report_passing _ i); [apply vga_tests_all_pass|done]. Qed.

(** ** A run of the harness *)

Lemma vga_tests_pass_witness :
  console_ok true (mkConsole sample_writer false true) /\ (report vga_tests (mkConsole sample_writer false true)).2 = None.
Proof.
  assert (Hc : console_ok true (mkConsole sample_writer false true)) by (split; [apply sample_writer_ok|done]).
  split; [exact Hc|]. rewrite (vga_tests_pass true _ Hc). reflexivity.
Defined.

(** A line that keeps the bytes that were sent. *)
#[local] Instance list_port : SerialPort (list Z).
Proof.
  refine {| sp_new _ := []; sp_init p := p; sp_write_str s p := (true, p ++ s); sp_sent p := p |}; [done|].
  intros s p _. by exists (p ++ s).
Defined.

Lemma harness_verdict_witness :
  let failing : M Console unit := fun _ => Panic "boom" in
  let tests := [(bytes_of "simple", test_println_simple); (bytes_of "failing", failing); (bytes_of "never", test_println_simple)] in
  let s := mkMachine (P := list Z) (mkConsole sample_writer false true) None false [] in
  let s' := test_kernel_main (fun _ => bytes_of "3") (fun _ => bytes_of "boom") ((fun t => screen_test t.1 t.2) <$> tests) s in
  exits s' = [0x11] /\
  sent s' = bytes_of "Running 3 tests" ++ [10] ++ bytes_of "simple..." ++ [9] ++ bytes_of "[ok]" ++ [10] ++ bytes_of "failing..." ++ [9] ++
    bytes_of "[failed]" ++ [10; 10] ++ bytes_of "Error: boom" ++ [10; 10].
Proof.
  intros failing tests s s'. assert (H := harness_verdict (fun _ => bytes_of "3") (fun _ => bytes_of "boom") tests s).
  cbv zeta in H. fold s' in H. destruct (report tests (screen s)) as [txt r] eqn:E.
  assert (Et : txt = (report tests (screen s)).1) by (by rewrite E). assert (Er : r = (report tests (screen s)).2) by (by rewrite E).
  destruct H as [H1 H2].
  - reflexivity.
  - do 3 (apply Forall_cons; split; [plain_text|]). constructor.
  - intros _. plain_text.
  - intros _. plain_text.
  - rewrite H1, H2, Er, Et. split; vm_compute; reflexivity.
Defined.
