(* ===== verification/Build.v ===== *)
(** * The build script (build.rs)

    How the disk image [fs.img] is made: the programs in disk/ are assembled
    and linked, a FAT16 volume is formatted, and the programs and a text
    file are copied to it; when any of this fails, the image is blank.  The
    tools of the host are parameters. *)

From S2P Require Import Prelude Ata Fat FatThms Vga Keyboard Threads Scheduler Process Syscall.

Definition FS_IMAGE_SIZE_BYTES : Z := 16 * 1024 * 1024.

(** The stem of the source and the name on the disk. *)
Definition DISK_PROGRAMS : list (string * string) :=
  [("echo", "ECHO.ELF"); ("greet", "GREET.ELF"); ("shell", "SHELL.ELF")]%string.

Definition HELLO_TXT_CONTENTS : list Z := bytes_of "hello from the on-disk filesystem, opened via sys_open" ++ [10].

(** [Path::join] with a relative path. *)
Definition join (dir name : string) : string := (dir +:+ "/" +:+ name)%string.

(** [Command::output]. *)
Inductive Output := NotRun (error : string) | Exited (success : bool) (status stderr : string).

Section Build.
(** Contents of files: a file of zeros, a file with some bytes, whatever the
    tools write. *)
Context {C : Type} (zeros : Z -> C) (bytes : list Z -> C).

Record Host := mkHost { files : gmap string C; printed : list string }.

(** Programs on the host, from the name and the arguments; the [Debug] form
    of a command; why a file cannot be created or written, or given a size;
    the environment. *)
Context (exec : string -> list string -> gmap string C -> Output * gmap string C).
Context (debug_command : string -> list string -> string) (write_error size_error : string -> option string).
Context (CARGO_MANIFEST_DIR OUT_DIR : option string) (PATH : option (list string)).

(** A function that returns a [Result], and may panic. *)
Definition Build (A : Type) : Type := Host -> outcome ((A + string) * Host).

#[global] Instance Build_ret : MRet Build := fun A a h => Ok (inl a, h).
#[global] Instance Build_bind : MBind Build := fun A B f x h =>
  match x h with
  | Ok (inl a, h') => f a h'
  | Ok (inr e, h') => Ok (inr e, h')
  | Panic msg => Panic msg
  end.

Definition println_cargo (s : string) (h : Host) : Host := mkHost (files h) (printed h ++ [s]).

Definition run (program : string) (args : list string) : Build unit := fun h =>
  let '(output, fs) := exec program args (files h) in
  let h' := mkHost fs (printed h) in
  match output with
  | NotRun e => Ok (inr ("failed to run " +:+ debug_command program args +:+ ": " +:+ e)%string, h')
  | Exited success status stderr =>
      if negb success then Ok (inr (debug_command program args +:+ " exited with " +:+ status +:+ ": " +:+ stderr)%string, h')
      else Ok (inl tt, h')
  end.

Definition which (tool : string) (h : Host) : option string :=
  dirs ← PATH;
  snd <$> list_find (fun candidate => is_Some (files h !! candidate)) ((fun dir => join dir tool) <$> dirs).

Definition write_placeholder_image (path : string) : Build unit := fun h =>
  match write_error path with
  | Some e => Panic ("fs.img: failed to create " +:+ path +:+ ": " +:+ e)%string
  | None =>
      match size_error path with
      | Some e => Panic ("fs.img: failed to size " +:+ path +:+ ": " +:+ e)%string
      | None => Ok (inl tt, mkHost (<[path := zeros FS_IMAGE_SIZE_BYTES]> (files h)) (printed h))
      end
  end.

(** [std::fs::write], with its error mapped. *)
Definition write_file (path : string) (c : C) : Build unit := fun h =>
  match write_error path with
  | Some e => Ok (inr ("failed to write " +:+ path +:+ ": " +:+ e)%string, h)
  | None => Ok (inl tt, mkHost (<[path := c]> (files h)) (printed h))
  end.

Fixpoint check_tools (tools : list string) : Build unit := fun h =>
  match tools with
  | [] => Ok (inl tt, h)
  | tool :: rest =>
      match which tool h with
      | Some _ => check_tools rest h
      | None => Ok (inr ("`" +:+ tool +:+ "` not found on PATH")%string, h)
      end
  end.

(** The loop over the programs. *)
Fixpoint build_programs (programs : list (string * string)) (manifest_dir link_script out_dir fs_image : string) : Build unit :=
  match programs with
  | [] => mret tt
  | (stem, fat_name) :: rest =>
      let asm_src := join (join manifest_dir "disk") (stem +:+ ".s")%string in
      let object := join out_dir (stem +:+ ".o")%string in
      let elf := join out_dir (stem +:+ ".elf")%string in
      _ ← run "as" ["--64"; "-o"; object; asm_src]%string;
      _ ← run "ld" ["-static"; "-nostdlib"; "-T"; link_script; "-o"; elf; object]%string;
      _ ← run "mcopy" ["-i"; fs_image; elf; "::" +:+ fat_name]%string;
      build_programs rest manifest_dir link_script out_dir fs_image
  end.

Definition build_fs_image (manifest_dir link_script out_dir fs_image : string) : Build unit :=
  _ ← check_tools ["as"; "ld"; "mkfs.fat"; "mcopy"]%string;
  _ ← write_placeholder_image fs_image;
  _ ← run "mkfs.fat" ["-F"; "16"; "-n"; "VELORAFS"; fs_image]%string;
  _ ← build_programs DISK_PROGRAMS manifest_dir link_script out_dir fs_image;
  let hello_txt := join out_dir "hello.txt" in
  _ ← write_file hello_txt (bytes HELLO_TXT_CONTENTS);
  run "mcopy" ["-i"; fs_image; hello_txt; "::HELLO.TXT"]%string.

Definition rerun (path : string) : string := ("cargo:rerun-if-changed=" +:+ path)%string.

Definition warning (reason : string) : string :=
  ("cargo:warning=fs.img: skipping FAT16 disk image build (" +:+ reason +:+ "); " +:+
   "writing a blank placeholder instead. Install `as`/`ld` (binutils) " +:+
   "and `mkfs.fat`/`mcopy` (dosfstools + mtools) and rebuild to get a " +:+
   "real filesystem `cargo run` can load from (see src/fs.rs).")%string.

Definition main (h : Host) : outcome Host :=
  manifest_dir ← expect CARGO_MANIFEST_DIR "called `Result::unwrap()` on an `Err` value";
  out_dir ← expect OUT_DIR "called `Result::unwrap()` on an `Err` value";
  let link_script := join manifest_dir "disk/link.ld" in
  let fs_image := join manifest_dir "fs.img" in
  let h := foldl (fun h p => println_cargo (rerun (join (join manifest_dir "disk") (p.1 +:+ ".s")%string)) h) h DISK_PROGRAMS in
  let h := println_cargo (rerun link_script) h in
  let h := println_cargo (rerun "build.rs") h in
  '(r, h) ← build_fs_image manifest_dir link_script out_dir fs_image h;
  match r with
  | inl _ => Ok h
  | inr reason =>
      '(_, h) ← write_placeholder_image fs_image (println_cargo (warning reason) h);
      Ok h
  end.

(** ** Runs of the script *)

(** The computation does not panic, and if it returns a value, [Q] holds; it
    prints nothing for cargo. *)
Definition post {A} (x : Build A) (h : Host) (Q : A -> Host -> Prop) : Prop :=
  match x h with
  | Ok (inl a, h') => Q a h' /\ printed h' = printed h
  | Ok (inr _, h') => printed h' = printed h
  | Panic _ => False
  end.

Lemma post_bind {A B} (x : Build A) (f : A -> Build B) h (Q : B -> Host -> Prop) :
  post x h (fun a h' => post (f a) h' Q) -> post (x ≫= f) h Q.
Proof.
  unfold post, mbind, Build_bind. destruct (x h) as [[[a|e] h1]|msg]; [|done|done]. intros [Hf E].
  destruct (f a h1) as [[[b|e] h2]|msg]; [|by rewrite <- E|done]. destruct Hf as [HQ E2]. by rewrite <- E.
Qed.

Lemma post_run program args h (Q : unit -> Host -> Prop) :
  (forall status stderr fs, exec program args (files h) = (Exited true status stderr, fs) -> Q tt (mkHost fs (printed h))) ->
  post (run program args) h Q.
Proof.
  intros HQ. unfold post, run. destruct (exec program args (files h)) as [[e|[] status stderr] fs] eqn:E; cbn [negb]; [done| |done].
  split; [by eapply HQ|done].
Qed.

Lemma post_write path c h (Q : unit -> Host -> Prop) :
  Q tt (mkHost (<[path := c]> (files h)) (printed h)) -> post (write_file path c) h Q.
Proof. intros HQ. unfold post, write_file. by destruct (write_error path). Qed.

Lemma post_tools tools h (Q : unit -> Host -> Prop) : Q tt h -> post (check_tools tools) h Q.
Proof.
  intros HQ. induction tools as [|t rest IH]; [by split|]. unfold post in *. cbn [check_tools]. by destruct (which t h).
Qed.

(** ** Paths *)

Definition ends (s : string) : option Ascii.ascii := last (String.list_ascii_of_string s).

Lemma ends_app a b : ends (a +:+ b) = match ends b with Some c => Some c | None => ends a end.
Proof.
  unfold ends. assert (E : String.list_ascii_of_string (a +:+ b) = String.list_ascii_of_string a ++ String.list_ascii_of_string b).
  { induction a as [|c a IH]; [done|]. cbn. by rewrite <- IH. }
  by rewrite E, last_app.
Qed.

(** ** What the tools do *)

(** [holds v d]: the image [v] is a volume with the files [d].  A command
    that succeeds did what its manual says, and touched no other file. *)
Record tools_ok (holds : C -> gmap string C -> Prop) (assemble : C -> C) (link : C -> C -> C) : Prop := {
  mkfs_ok img fs status stderr fs' :
    exec "mkfs.fat" ["-F"; "16"; "-n"; "VELORAFS"; img]%string fs = (Exited true status stderr, fs') ->
    exists v, fs' = <[img := v]> fs /\ holds v ∅;
  as_ok object src fs status stderr fs' :
    exec "as" ["--64"; "-o"; object; src]%string fs = (Exited true status stderr, fs') ->
    exists c, fs !! src = Some c /\ fs' = <[object := assemble c]> fs;
  ld_ok script elf object fs status stderr fs' :
    exec "ld" ["-static"; "-nostdlib"; "-T"; script; "-o"; elf; object]%string fs = (Exited true status stderr, fs') ->
    exists l c, fs !! script = Some l /\ fs !! object = Some c /\ fs' = <[elf := link l c]> fs;
  mcopy_ok img src name fs status stderr fs' :
    exec "mcopy" ["-i"; img; src; "::" +:+ name]%string fs = (Exited true status stderr, fs') ->
    exists c v', fs !! src = Some c /\ fs' = <[img := v']> fs /\
      forall v d, fs !! img = Some v -> holds v d -> holds v' (<[name := c]> d);
}.

Section Correct.
Context (holds : C -> gmap string C -> Prop) (assemble : C -> C) (link : C -> C -> C) (Ht : tools_ok holds assemble link).
Context (manifest_dir out_dir : string) (fs0 : gmap string C).
Local Abbreviation fs_image := (join manifest_dir "fs.img").
Local Abbreviation link_script := (join manifest_dir "disk/link.ld").
Definition source (stem : string) : string := join (join manifest_dir "disk") (stem +:+ ".s")%string.

(** Two paths with different last letters are different. *)
Ltac other_path := let H := fresh in intros H; apply (f_equal ends) in H; unfold source, join in H; rewrite !ends_app in H; cbn in H; discriminate H.

(** The program that is made of a source of the tree [fs0]. *)
Definition program_elf (stem : string) (elf : C) : Prop :=
  exists src script, fs0 !! source stem = Some src /\ fs0 !! link_script = Some script /\ elf = link script (assemble src).

(** The image has the files [d], and the sources are as they were. *)
Definition image_state (h : Host) (d : gmap string C) : Prop :=
  (exists v, files h !! fs_image = Some v /\ holds v d) /\
  (forall stem, files h !! source stem = fs0 !! source stem) /\ files h !! link_script = fs0 !! link_script.

(** A file that is none of these was written. *)
Lemma image_state_insert h d path c log :
  image_state h d -> path <> fs_image -> (forall stem, path <> source stem) -> path <> link_script ->
  image_state (mkHost (<[path := c]> (files h)) log) d.
Proof.
  clear Ht. intros ((v & Hv & Hd) & Hs & Hl) H1 H2 H3. split_and!; cbn [files].
  - exists v. by rewrite lookup_insert_ne.
  - intros stem. by rewrite lookup_insert_ne.
  - by rewrite lookup_insert_ne.
Qed.

Lemma post_mcopy src name c h d (Q : unit -> Host -> Prop) :
  image_state h d -> files h !! src = Some c ->
  (forall h', image_state h' (<[name := c]> d) -> Q tt h') ->
  post (run "mcopy" ["-i"; fs_image; src; "::" +:+ name]%string) h Q.
Proof using Ht.
  intros ((v & Hv & Hd) & Hs & Hl) Hc HQ. apply post_run. intros status stderr fs E.
  destruct (mcopy_ok _ _ _ Ht _ _ _ _ _ _ _ E) as (c' & v' & Ec & -> & Hh). assert (c' = c) as -> by congruence.
  apply HQ. split_and!; cbn [files].
  - exists v'. rewrite lookup_insert_eq. split; [done|by apply (Hh v)].
  - intros stem. rewrite lookup_insert_ne by other_path. apply Hs.
  - rewrite lookup_insert_ne; [done|]. other_path.
Qed.

Lemma programs_post ps h d :
  image_state h d -> NoDup ps.*2 ->
  post (build_programs ps manifest_dir link_script out_dir fs_image) h (fun _ h' => exists d', image_state h' d' /\
    (forall p, p ∈ ps -> exists elf, d' !! p.2 = Some elf /\ program_elf p.1 elf) /\ (forall n, n ∉ ps.*2 -> d' !! n = d !! n)).
Proof using Ht.
  revert h d. induction ps as [|[stem name] ps IH]; intros h d Hd Hnd; cbn [build_programs].
  { split; [|done]. exists d. split_and!; [done| |done]. intros p Hp. by apply not_elem_of_nil in Hp. }
  rewrite fmap_cons in Hnd. apply NoDup_cons in Hnd as [Hn Hnd]. cbn [snd] in Hn. fold (source stem).
  apply post_bind, post_run. intros s1 e1 fs1 E1. destruct (as_ok _ _ _ Ht _ _ _ _ _ _ E1) as (c & Hc & ->).
  apply (image_state_insert _ _ (join out_dir (stem +:+ ".o")) (assemble c) (printed h)) in Hd as Hd1; [|other_path|intros ?; other_path|other_path].
  apply post_bind, post_run. intros s2 e2 fs2 E2. destruct (ld_ok _ _ _ Ht _ _ _ _ _ _ _ E2) as (l & c' & Hl & Hc' & ->).
  cbn [files] in Hc', Hl. rewrite lookup_insert_eq in Hc'. injection Hc' as <-. rewrite lookup_insert_ne in Hl by other_path.
  apply (image_state_insert _ _ (join out_dir (stem +:+ ".elf")) (link l (assemble c)) (printed h)) in Hd1 as Hd2; [|other_path|intros ?; other_path|other_path].
  apply post_bind. eapply post_mcopy; [exact Hd2|cbn [files]; by rewrite lookup_insert_eq|]. intros h' Hh'.
  assert (Hs := IH h' _ Hh' Hnd). unfold post in *. destruct (build_programs _ _ _ _ _ h') as [[[[]|e] h3]|msg]; [|done|done].
  destruct Hs as [(d' & H1 & H2 & H3) Hp]. split; [|done]. exists d'. split_and!; [done| |].
  - intros p [->|Hin]%elem_of_cons; [|by apply H2]. cbn [fst snd]. exists (link l (assemble c)). rewrite H3 by done.
    rewrite lookup_insert_eq. split; [done|]. destruct Hd as (_ & Hs0 & Hl0). exists c, l. by rewrite <- Hs0, <- Hl0.
  - intros n Hne. rewrite fmap_cons in Hne. apply not_elem_of_cons in Hne as [N1 N2]. rewrite H3 by done.
    by rewrite lookup_insert_ne.
Qed.

(** The four files that belong on the disk, and no others. *)
Record disk_complete (d : gmap string C) : Prop := {
  dc_program stem name : (stem, name) ∈ DISK_PROGRAMS -> exists elf, d !! name = Some elf /\ program_elf stem elf;
  dc_hello : d !! "HELLO.TXT"%string = Some (bytes HELLO_TXT_CONTENTS);
  dc_only name : is_Some (d !! name) -> name = "HELLO.TXT"%string \/ name ∈ DISK_PROGRAMS.*2;
}.

Lemma image_post h :
  files h = fs0 -> write_error fs_image = None -> size_error fs_image = None ->
  post (build_fs_image manifest_dir link_script out_dir fs_image) h
    (fun _ h' => exists v d, files h' !! fs_image = Some v /\ holds v d /\ disk_complete d).
Proof using Ht.
  intros E0 Hw Hz. unfold build_fs_image. apply post_bind, post_tools. apply post_bind.
  unfold post at 1, write_placeholder_image. rewrite Hw, Hz. split; [|done].
  apply post_bind, post_run. intros st er fs E. destruct (mkfs_ok _ _ _ Ht _ _ _ _ _ E) as (v & -> & Hv).
  cbn [files printed]. rewrite E0, insert_insert_eq.
  assert (Hd : image_state (mkHost (<[fs_image := v]> fs0) (printed h)) ∅).
  { split_and!; cbn [files]; [exists v; by rewrite lookup_insert_eq| |rewrite lookup_insert_ne; [done|other_path]].
    intros stem. rewrite lookup_insert_ne; [done|]. other_path. }
  apply post_bind. assert (Hp := programs_post DISK_PROGRAMS _ _ Hd). unfold post at 1. unfold post in Hp.
  destruct (build_programs _ _ _ _ _ _) as [[[[]|e] h3]|msg].
  - destruct Hp as [(d & H1 & H2 & H3) Hp]; [by apply (bool_decide_eq_true_1 (NoDup _))|]. split; [|done].
    apply post_bind, post_write. eapply (post_mcopy _ "HELLO.TXT").
    + apply (image_state_insert h3 d); [exact H1|other_path|intros ?; other_path|other_path].
    + cbn [files]. by rewrite lookup_insert_eq.
    + intros h' ((v' & Hv' & Hh') & _ & _). exists v', (<["HELLO.TXT"%string := bytes HELLO_TXT_CONTENTS]> d). split_and!; [done|done|].
      split.
      * intros stem name Hin. destruct (H2 _ Hin) as (elf & E1 & E2). exists elf. split; [|done]. cbn [snd] in E1.
        rewrite lookup_insert_ne; [done|]. intros <-. apply (list_elem_of_fmap_2 snd) in Hin. revert Hin.
        by apply (bool_decide_eq_true_1 (¬ _)).
      * by rewrite lookup_insert_eq.
      * intros name Hs. destruct (decide (name = "HELLO.TXT"%string)) as [->|Hne]; [by left|right].
        rewrite lookup_insert_ne in Hs by done. destruct (decide (name ∈ DISK_PROGRAMS.*2)) as [|Hnin]; [done|].
        rewrite (H3 _ Hnin), lookup_empty in Hs. by destruct Hs.
  - apply Hp. by apply (bool_decide_eq_true_1 (NoDup _)).
  - apply Hp. by apply (bool_decide_eq_true_1 (NoDup _)).
Qed.
End Correct.

(** The lines that tell cargo what to watch. *)
Definition rerun_lines (manifest_dir : string) : list string :=
  ((fun p : string * string => rerun (join (join manifest_dir "disk") (p.1 +:+ ".s")%string)) <$> DISK_PROGRAMS) ++
  [rerun (join manifest_dir "disk/link.ld"); rerun "build.rs"].

(** C28: the disk image is complete or blank.  Whichever of the tools are
    missing or fail, as long as one that reports success did its work, the
    build script ends with an image in place: either every step
    succeeded, and the image is a volume with the three programs, each made
    of its own source with the common linker script, and the text file; or
    the image is one of zeros, of the full size, and cargo was given a
    warning.  There is never an image with a part of the files. *)
Theorem image_complete_or_blank holds assemble link manifest_dir out_dir h :
  tools_ok holds assemble link -> CARGO_MANIFEST_DIR = Some manifest_dir -> OUT_DIR = Some out_dir ->
  write_error (join manifest_dir "fs.img") = None -> size_error (join manifest_dir "fs.img") = None ->
  exists h', main h = Ok h' /\
    ((exists v d, files h' !! join manifest_dir "fs.img" = Some v /\ holds v d /\
        disk_complete assemble link manifest_dir (files h) d /\ printed h' = printed h ++ rerun_lines manifest_dir) \/
     (files h' !! join manifest_dir "fs.img" = Some (zeros FS_IMAGE_SIZE_BYTES) /\
        exists reason, printed h' = printed h ++ rerun_lines manifest_dir ++ [warning reason])).
Proof.
  intros Ht Em Eo Hw Hz. unfold main. rewrite Em, Eo. cbn [expect mbind outcome_bind]. cbv zeta.
  set (h1 := println_cargo (rerun "build.rs") _).
  assert (E1 : printed h1 = printed h ++ rerun_lines manifest_dir).
  { unfold h1, println_cargo. cbn [foldl DISK_PROGRAMS printed files]. by rewrite <- !app_assoc. }
  assert (Hp := image_post holds assemble link Ht manifest_dir out_dir (files h) h1 eq_refl Hw Hz). unfold post in Hp.
  destruct (build_fs_image _ _ _ _ h1) as [[[[]|reason] h2]|msg]; [| |done]; cbn [mbind outcome_bind].
  - destruct Hp as [(v & d & H1 & H2 & H3) Hp]. exists h2. split; [done|]. left. exists v, d. by rewrite Hp.
  - unfold write_placeholder_image. rewrite Hw, Hz. cbn [mbind outcome_bind]. eexists. split; [reflexivity|]. right. cbn [files printed].
    rewrite lookup_insert_eq. split; [done|]. exists reason. cbn [println_cargo printed]. by rewrite Hp, E1, <- app_assoc.
Qed.
End Build.

(** ** A blank disk

    The kernel finds no filesystem on it, and says so without a panic. *)
Lemma blank_disk_empty {D} `{!SectorDisk D} fuel can name d :
  disk_ok d -> disk_sector 0 = replicate 512 0 -> exists d', read_file fuel can name d = Ok (None, d') /\ disk_ok d'.
Proof.
  intros Hd Hz. assert (Hl : disk_lookup name = None).
  { unfold disk_lookup, disk_bpb. rewrite Hz. destruct (to_fat_83 name); reflexivity. }
  destruct (read_file_ok fuel can name d Hd) as (d' & E & Hd'); [by rewrite Hl|]. rewrite Hl in E. by exists d'.
Qed.

(** ** A build *)

Inductive toy := Zeros (n : Z) | Bytes (l : list Z) | Object (c : toy) | Elf (script c : toy) | Volume (fs : list (string * toy)).

Definition toy_exec (program : string) (args : list string) (fs : gmap string toy) : Output * gmap string toy :=
  let ok := Exited true "exit status: 0" " " in
  let fail := (Exited false "exit status: 1" "no such file", fs) in
  if String.eqb program "mkfs.fat" then
    match args with [_; _; _; _; img] => (ok, <[img := Volume []]> fs) | _ => fail end
  else if String.eqb program "as" then
    match args with
    | [_; _; object; src] => match fs !! src with Some c => (ok, <[object := Object c]> fs) | None => fail end
    | _ => fail
    end
  else if String.eqb program "ld" then
    match args with
    | [_; _; _; script; _; elf; object] =>
        match fs !! script, fs !! object with Some l, Some c => (ok, <[elf := Elf l c]> fs) | _, _ => fail end
    | _ => fail
    end
  else
    match args with
    | [_; img; src; String _ (String _ name)] =>
        match fs !! src, fs !! img with Some c, Some (Volume l) => (ok, <[img := Volume ((name, c) :: l)]> fs) | _, _ => fail end
    | _ => fail
    end.

Definition toy_holds (v : toy) (d : gmap string toy) : Prop := exists l, v = Volume l /\ d = list_to_map l.

Lemma toy_tools : tools_ok toy_exec toy_holds Object Elf.
Proof.
  split.
  - intros img fs st er fs' [= <- <- <-]. exists (Volume []). split; [done|]. by exists [].
  - intros object src fs st er fs' E. unfold toy_exec in E. cbn in E. destruct (fs !! src) as [c|]; [|done]. injection E as <- <- <-. by exists c.
  - intros script elf object fs st er fs' E. unfold toy_exec in E. cbn in E. destruct (fs !! script) as [l|]; [|done].
    destruct (fs !! object) as [c|]; [|done]. injection E as <- <- <-. by exists l, c.
  - intros img src name fs st er fs' E. unfold toy_exec in E. cbn in E. destruct (fs !! src) as [c|]; [|done].
    destruct (fs !! img) as [[| | | |l]|]; try done. injection E as <- <- <-. exists c, (Volume ((name, c) :: l)). split_and!; [done|done|].
    intros v d [= <-] (l' & [= <-] & ->). by exists ((name, c) :: l).
Qed.

Definition toy_host : Host :=
  mkHost {["/m/disk/echo.s" := Bytes [1]; "/m/disk/greet.s" := Bytes [2]; "/m/disk/shell.s" := Bytes [3]; "/m/disk/link.ld" := Bytes [4];
           "/bin/as" := Bytes []; "/bin/ld" := Bytes []; "/bin/mkfs.fat" := Bytes []; "/bin/mcopy" := Bytes []]}%string [].

Definition toy_main : Host -> outcome Host :=
  main Zeros Bytes toy_exec (fun program _ => program) (fun _ => None) (fun _ => None) (Some "/m"%string) (Some "/o"%string) (Some ["/bin"%string]).

Lemma image_complete_or_blank_witness : exists h' v d, toy_main toy_host = Ok h' /\ files h' !! "/m/fs.img"%string = Some v /\ toy_holds v d /\
  d !! "SHELL.ELF"%string = Some (Elf (Bytes [4]) (Object (Bytes [3]))).
Proof.
  destruct (image_complete_or_blank Zeros Bytes toy_exec (fun program _ => program) (fun _ => None) (fun _ => None) (Some "/m"%string) (Some "/o"%string)
    (Some ["/bin"%string]) toy_holds Object Elf "/m" "/o" toy_host toy_tools eq_refl eq_refl eq_refl eq_refl) as (h' & E & [(v & d & Hv & Hh & Hc & _)|[Hz _]]).
  - exists h', v, d. split; [exact E|]. split; [exact Hv|]. split; [exact Hh|].
    destruct (dc_program _ _ _ _ _ _ Hc "shell" "SHELL.ELF") as (elf & Hd & src & script & E1 & E2 & ->); [do 2 right; left|].
    rewrite Hd. vm_compute in E1, E2. injection E1 as <-. injection E2 as <-. reflexivity.
  - exfalso. assert (Hb : match toy_main toy_host with Ok h => match files h !! "/m/fs.img"%string with Some (Volume _) => true | _ => false end | _ => false end = true)
      by (vm_compute; reflexivity).
    unfold toy_main in Hb. rewrite E in Hb. change "/m/fs.img"%string with (join "/m" "fs.img") in Hb. rewrite Hz in Hb. discriminate Hb.
Defined.
