(* ===== verification/DemoPrograms.v ===== *)
(** * The demos that open a file and spawn a program (src/userspace.rs)

    The code of [build_open_read_shellcode] and [build_spawn_wait_shellcode]
    on the processor: blocks of register moves, each followed by a system
    call.  The first is run on the kernel, from [open] to [exit]. *)

From S2P Require Import Build Ata Fat FatThms Keyboard Vga Utf8.
From S2P Require Import Prelude Ring X86 FrameAlloc Paging AddressSpace Mapper MapperRef Mappings Elf ElfThms ElfImage ElfLoad.
From S2P Require Import Threads Scheduler SchedulerInv SchedulerThms Lifecycle Syscall SyscallThms SyscallIo SyscallSamples Userspace Demos.

Import Opcode.

(** ** Straight programs *)

Section Straight.
Context {W : Type} (umem : W -> mem) (sys : Z -> Z -> Z -> Z -> Z -> W -> (Z * W) + W) (page : Z) (prog : list uinstr).
Context (Hpage : 0 <= page) (H64 : after page prog < 2 ^ 64).

Definition moves (b : list uinstr) : Prop := Forall (fun i => is_pure i = true /\ valid i) b.

(** One block of the program, wherever it is. *)
Lemma straight_call pre b rest u w : prog = pre ++ b ++ IntN 0x80 :: rest -> moves b -> listing_at (umem w) page prog -> urip u = after page pre ->
  let f := uregs (foldl pure_exec u b) in
  urun umem sys (length b + 1) u w =
    match sys (f RAX) (f RDI) (f RSI) (f RDX) (f RCX) w with
    | inl (r, w') => Running (mkUState (set_ureg RAX r f) (after page (pre ++ b ++ [IntN 0x80])) (uzf (foldl pure_exec u b))) w'
    | inr w' => Left3 w'
    end.
Proof using Hpage H64.
  intros Hp Hb Hl Hr. rewrite Hp in Hl. apply listing_at_app in Hl. rewrite <- Hr in Hl.
  assert (Ha : after page (pre ++ b ++ [IntN 0x80]) = after (urip u) b + 2).
  { rewrite Hr. unfold after. rewrite !bind_app, !length_app. cbn [mbind list_bind encode length app]. lia. }
  assert (Hle : after (urip u) b + 2 <= after page prog).
  { rewrite <- Ha, Hp. unfold after. rewrite !bind_app, !length_app, bind_cons, length_app. cbn [mbind list_bind encode length app]. lia. }
  cbv zeta. rewrite Ha.
  exact (urun_call umem sys b rest u w Hb Hl ltac:(rewrite Hr; unfold after; lia) ltac:(unfold after in *; lia)).
Qed.

(** The block behind the first [i] instructions with its arguments, for a
    call that returns and for one that does not. *)
Lemma straight_step i b u w n a1 a2 a3 a4 : take (length b + 1) (drop i prog) = b ++ [IntN 0x80] -> moves b -> listing_at (umem w) page prog ->
  urip u = after page (take i prog) -> let f := uregs (foldl pure_exec u b) in
  f RAX = n -> f RDI = a1 -> f RSI = a2 -> f RDX = a3 -> f RCX = a4 ->
  match sys n a1 a2 a3 a4 w with
  | inl (r, w') => exists u', urun umem sys (length b + 1) u w = Running u' w' /\ uregs u' = set_ureg RAX r f /\
      urip u' = after page (take (i + (length b + 1)) prog)
  | inr w' => urun umem sys (length b + 1) u w = Left3 w'
  end.
Proof using Hpage H64.
  intros Hp Hb Hl Hr f <- <- <- <- <-. assert (Ep : prog = take i prog ++ b ++ IntN 0x80 :: drop (length b + 1) (drop i prog)).
  { rewrite <- (take_drop i prog) at 1. f_equal. rewrite <- (take_drop (length b + 1) (drop i prog)) at 1. by rewrite Hp, <- app_assoc. }
  rewrite (straight_call _ b _ u w Ep Hb Hl Hr). cbv zeta. fold f.
  destruct (sys _ _ _ _ _ w) as [[r w']|w']; [|done]. eexists. split; [reflexivity|]. split; [done|]. cbn [urip].
  rewrite <- Hp. by rewrite take_take_drop.
Qed.
End Straight.

(** ** The programs *)

Definition open_read_path (page_addr : Z) : Z := page_addr + 114.
Definition open_read_buf (page_addr : Z) : Z := page_addr + 123.

Definition open_block (path : Z) : list uinstr := [MovImm RAX SYS_OPEN; MovImm RDI path; MovImm RSI 9].
Definition read_block (buf : Z) : list uinstr := [MovReg RDI RAX; MovImm RAX SYS_READ; MovImm RSI buf; MovImm RDX 64].
Definition write_block (buf : Z) : list uinstr := [MovReg RDX RAX; MovImm RAX SYS_WRITE; MovImm RDI 1; MovImm RSI buf].
Definition exit_block : list uinstr := [MovImm RAX SYS_EXIT].

(** The program of the comment of [build_open_read_shellcode]. *)
Definition open_read_listing (page_addr : Z) : list uinstr :=
  open_block (open_read_path page_addr) ++ IntN 0x80 ::
  read_block (open_read_buf page_addr) ++ IntN 0x80 ::
  write_block (open_read_buf page_addr) ++ IntN 0x80 ::
  exit_block ++ [IntN 0x80].

Lemma build_open_read_listing page_addr : 0 <= page_addr -> page_addr + 123 < 2 ^ 64 ->
  build_open_read_shellcode page_addr = Ok ((open_read_listing page_addr ≫= encode) ++ OPEN_READ_DEMO_PATH ++ replicate 64 0).
Proof.
  intros H0 H64.
  transitivity (path_addr ← add_w 64 page_addr 114;
    code ← patch ((open_block 0 ++ IntN 0x80 :: read_block 0 ++ IntN 0x80 :: write_block 0 ++ IntN 0x80 :: exit_block ++ [IntN 0x80]) ≫= encode)
      12 (le_encode 8 path_addr);
    let code := code ++ OPEN_READ_DEMO_PATH in
    buf_addr ← add_w 64 page_addr (Z.of_nat (length code));
    code ← patch code 47 (le_encode 8 buf_addr);
    code ← patch code 92 (le_encode 8 buf_addr);
    Ok (code ++ replicate 64 0)); [reflexivity|].
  assert (E1 : add_w 64 page_addr 114 = Ok (page_addr + 114)) by (unfold add_w; by rewrite (proj2 (Z.ltb_lt _ _)) by lia).
  assert (E2 : add_w 64 page_addr 123 = Ok (page_addr + 123)) by (unfold add_w; by rewrite (proj2 (Z.ltb_lt _ _) H64)).
  rewrite E1. cbn [mbind outcome_bind].
  transitivity (buf_addr ← add_w 64 page_addr 123;
    code ← patch (((open_block (page_addr + 114) ++ IntN 0x80 :: read_block 0 ++ IntN 0x80 :: write_block 0 ++ IntN 0x80 :: exit_block ++ [IntN 0x80])
      ≫= encode) ++ OPEN_READ_DEMO_PATH) 47 (le_encode 8 buf_addr);
    code ← patch code 92 (le_encode 8 buf_addr); Ok (code ++ replicate 64 0));
    unfold open_read_listing, open_read_path, open_read_buf, open_block, read_block, write_block, exit_block; cbn [app mbind list_bind encode];
    destruct (eight (le_encode 8 (page_addr + 114)) eq_refl) as (b0 & b1 & b2 & b3 & b4 & b5 & b6 & b7 & E); rewrite E; [reflexivity|].
  rewrite E2. cbn [mbind outcome_bind].
  destruct (eight (le_encode 8 (page_addr + 123)) eq_refl) as (c0 & c1 & c2 & c3 & c4 & c5 & c6 & c7 & E'). rewrite E'. reflexivity.
Qed.

Definition spawn_wait_path (page_addr : Z) : Z := page_addr + 121.
Definition spawn_wait_msg (page_addr : Z) : Z := page_addr + 130.

Definition spawn_block (path : Z) : list uinstr := [MovImm RAX SYS_SPAWN; MovImm RDI path; MovImm RSI 9; MovImm RDX 0; MovImm RCX 0].
Definition wait_block : list uinstr := [MovReg RDI RAX; MovImm RAX SYS_WAIT].
Definition done_block (msg : Z) : list uinstr := [MovImm RAX SYS_WRITE; MovImm RDI 1; MovImm RSI msg; MovImm RDX 48].

(** The program of the comment of [build_spawn_wait_shellcode]. *)
Definition spawn_wait_listing (page_addr : Z) : list uinstr :=
  spawn_block (spawn_wait_path page_addr) ++ IntN 0x80 :: wait_block ++ IntN 0x80 ::
  done_block (spawn_wait_msg page_addr) ++ IntN 0x80 :: exit_block ++ [IntN 0x80].

Lemma build_spawn_wait_listing page_addr : 0 <= page_addr -> page_addr + 130 < 2 ^ 64 ->
  build_spawn_wait_shellcode page_addr = Ok ((spawn_wait_listing page_addr ≫= encode) ++ SPAWN_WAIT_CHILD_PATH ++ SPAWN_WAIT_DONE_MSG).
Proof.
  intros H0 H64.
  transitivity (path_addr ← add_w 64 page_addr 121;
    code ← patch ((spawn_block 0 ++ IntN 0x80 :: wait_block ++ IntN 0x80 :: done_block 0 ++ IntN 0x80 :: exit_block ++ [IntN 0x80]) ≫= encode)
      12 (le_encode 8 path_addr);
    let code := code ++ SPAWN_WAIT_CHILD_PATH in
    msg_addr ← add_w 64 page_addr (Z.of_nat (length code));
    code ← patch code 89 (le_encode 8 msg_addr);
    Ok (code ++ SPAWN_WAIT_DONE_MSG)); [reflexivity|].
  assert (E1 : add_w 64 page_addr 121 = Ok (page_addr + 121)) by (unfold add_w; by rewrite (proj2 (Z.ltb_lt _ _)) by lia).
  assert (E2 : add_w 64 page_addr 130 = Ok (page_addr + 130)) by (unfold add_w; by rewrite (proj2 (Z.ltb_lt _ _) H64)).
  rewrite E1. cbn [mbind outcome_bind].
  transitivity (msg_addr ← add_w 64 page_addr 130;
    code ← patch (((spawn_block (page_addr + 121) ++ IntN 0x80 :: wait_block ++ IntN 0x80 :: done_block 0 ++ IntN 0x80 :: exit_block ++ [IntN 0x80])
      ≫= encode) ++ SPAWN_WAIT_CHILD_PATH) 89 (le_encode 8 msg_addr); Ok (code ++ SPAWN_WAIT_DONE_MSG));
    unfold spawn_wait_listing, spawn_wait_path, spawn_wait_msg, spawn_block, wait_block, done_block, exit_block; cbn [app mbind list_bind encode];
    destruct (eight (le_encode 8 (page_addr + 121)) eq_refl) as (b0 & b1 & b2 & b3 & b4 & b5 & b6 & b7 & E); rewrite E; [reflexivity|].
  rewrite E2. cbn [mbind outcome_bind].
  destruct (eight (le_encode 8 (page_addr + 130)) eq_refl) as (c0 & c1 & c2 & c3 & c4 & c5 & c6 & c7 & E'). rewrite E'. reflexivity.
Qed.

(** Decides that a block has only moves, with the operands in range. *)
Ltac moves_ok := unfold moves; repeat (apply Forall_cons; split; [split; [reflexivity|]|]); [..|apply Forall_nil];
  unfold valid, reg8, is_u64, RAX, RCX, RDX, RSI, RDI, SYS_OPEN, SYS_READ, SYS_WRITE, SYS_EXIT, SYS_SPAWN, SYS_WAIT; lia.

Section SpawnWait.
Context {W : Type} (umem : W -> mem) (sys : Z -> Z -> Z -> Z -> Z -> W -> (Z * W) + W) (page_addr : Z).
Context (Hp : 0 <= page_addr) (H64 : page_addr + 178 <= 2 ^ 64).

(** The calls of the program: [spawn(path)], [wait(pid)], [write(1, msg)]
    and [exit]; the first that does not return is the last. *)
Definition spawn_wait_calls (w : W) : W + W :=
  match sys SYS_SPAWN (spawn_wait_path page_addr) 9 0 0 w with
  | inr w1 => inr w1
  | inl (pid, w1) =>
      match sys SYS_WAIT pid 9 0 0 w1 with
      | inr w2 => inr w2
      | inl (_, w2) =>
          match sys SYS_WRITE 1 (spawn_wait_msg page_addr) 48 0 w2 with
          | inr w3 => inr w3
          | inl (_, w3) =>
              match sys SYS_EXIT 1 (spawn_wait_msg page_addr) 48 0 w3 with inr w4 => inr w4 | inl (_, w4) => inl w4 end
          end
      end
  end.

Definition spawn_wait_loaded (w : W) : Prop := listing_at (umem w) page_addr (spawn_wait_listing page_addr).

(** These calls leave the code of their caller alone. *)
Definition keeps_caller : Prop := forall n a1 a2 a3 a4 w r w', n ∈ [SYS_SPAWN; SYS_WAIT; SYS_WRITE; SYS_EXIT] ->
  spawn_wait_loaded w -> sys n a1 a2 a3 a4 w = inl (r, w') -> spawn_wait_loaded w'.

Lemma spawn_wait_end : after page_addr (spawn_wait_listing page_addr) < 2 ^ 64.
Proof using H64. change (page_addr + 121 < 2 ^ 64). lia. Qed.

Lemma spawn_wait_runs u w : keeps_caller -> spawn_wait_loaded w -> urip u = page_addr ->
  match spawn_wait_calls w with
  | inl w' => exists n u', urun umem sys n u w = Running u' w'
  | inr w' => exists n, urun umem sys n u w = Left3 w'
  end.
Proof using Hp H64.
  intros Hk Hl Hr. unfold spawn_wait_calls. set (path := spawn_wait_path page_addr). set (msg := spawn_wait_msg page_addr).
  assert (E1 := straight_step umem sys page_addr _ Hp spawn_wait_end 0 (spawn_block path) u w SYS_SPAWN path 9 0 0
    eq_refl ltac:(unfold path, spawn_wait_path; moves_ok) Hl ltac:(rewrite Hr; unfold after; cbn; lia) eq_refl eq_refl eq_refl eq_refl eq_refl).
  change (length _ + 1)%nat with 6%nat in E1.
  destruct (sys SYS_SPAWN path 9 0 0 w) as [[pid w1]|w1] eqn:S1; [|eauto]. destruct E1 as (u1 & E1 & F1 & R1).
  assert (L1 : spawn_wait_loaded w1) by (eapply Hk; [|exact Hl|exact S1]; set_solver).
  assert (E2 := straight_step umem sys page_addr _ Hp spawn_wait_end 6 wait_block u1 w1 SYS_WAIT pid 9 0 0
    eq_refl ltac:(moves_ok) L1 R1 eq_refl ltac:(cbn; by rewrite F1) ltac:(cbn; by rewrite F1) ltac:(cbn; by rewrite F1) ltac:(cbn; by rewrite F1)).
  change (length _ + 1)%nat with 3%nat in E2.
  destruct (sys SYS_WAIT pid 9 0 0 w1) as [[r2 w2]|w2] eqn:S2; [|exists (6 + 3)%nat; by rewrite urun_app, E1].
  destruct E2 as (u2 & E2 & F2 & R2). assert (L2 : spawn_wait_loaded w2) by (eapply Hk; [|exact L1|exact S2]; set_solver).
  assert (E3 := straight_step umem sys page_addr _ Hp spawn_wait_end 9 (done_block msg) u2 w2 SYS_WRITE 1 msg 48 0
    eq_refl ltac:(unfold msg, spawn_wait_msg; moves_ok) L2 R2 eq_refl eq_refl eq_refl eq_refl ltac:(cbn; rewrite F2; cbn; by rewrite F1)).
  change (length _ + 1)%nat with 5%nat in E3.
  destruct (sys SYS_WRITE 1 msg 48 0 w2) as [[r3 w3]|w3] eqn:S3; [|exists (6 + (3 + 5))%nat; by rewrite urun_app, E1, urun_app, E2].
  destruct E3 as (u3 & E3 & F3 & R3). assert (L3 : spawn_wait_loaded w3) by (eapply Hk; [|exact L2|exact S3]; set_solver).
  assert (E4 := straight_step umem sys page_addr _ Hp spawn_wait_end 14 exit_block u3 w3 SYS_EXIT 1 msg 48 0
    eq_refl ltac:(moves_ok) L3 R3 eq_refl ltac:(cbn; by rewrite F3) ltac:(cbn; by rewrite F3) ltac:(cbn; by rewrite F3)
    ltac:(cbn; rewrite F3; cbn; rewrite F2; cbn; by rewrite F1)).
  change (length _ + 1)%nat with 2%nat in E4.
  destruct (sys SYS_EXIT 1 msg 48 0 w3) as [[r4 w4]|w4].
  - destruct E4 as (u4 & E4 & _). exists (6 + (3 + (5 + 2)))%nat, u4. by rewrite urun_app, E1, urun_app, E2, urun_app, E3.
  - exists (6 + (3 + (5 + 2)))%nat. by rewrite urun_app, E1, urun_app, E2, urun_app, E3.
Qed.
End SpawnWait.

(** The parts of the code of a page. *)
Lemma read_bytes_parts m a (l l1 l2 : list Z) : l = l1 ++ l2 -> read_bytes m a (length l) = l ->
  read_bytes m a (length l1) = l1 /\ read_bytes m (a + Z.of_nat (length l1)) (length l2) = l2.
Proof. intros ->. rewrite length_app, read_bytes_app. intros E. apply app_inj_1 in E; [done|]. apply length_read_bytes. Qed.

(** The spawn demo is the program its comment shows.  For every address
    the builder returns 178 bytes, without a panic; wherever these are in
    memory at that address, the program started there names [GREET.ELF] to
    [spawn], passes the id it gets to [wait], then writes the 48 bytes of
    its message to standard output and exits, in this order; the first call
    that does not return is its last. *)
Lemma spawn_wait_program_correct {W} (umem : W -> mem) sys page_addr :
  0 <= page_addr -> page_addr + 178 <= 2 ^ 64 ->
  exists code, build_spawn_wait_shellcode page_addr = Ok code /\ length code = 178%nat /\
    forall u w, keeps_caller umem sys page_addr -> read_bytes (umem w) page_addr 178 = code -> urip u = page_addr ->
      read_bytes (umem w) (spawn_wait_path page_addr) 9 = SPAWN_WAIT_CHILD_PATH /\
      read_bytes (umem w) (spawn_wait_msg page_addr) 48 = SPAWN_WAIT_DONE_MSG /\
      match spawn_wait_calls sys page_addr w with
      | inl w' => exists n u', urun umem sys n u w = Running u' w'
      | inr w' => exists n, urun umem sys n u w = Left3 w'
      end.
Proof.
  intros Hp H64. eexists. split; [apply build_spawn_wait_listing; lia|]. split; [done|]. intros u w Hk Hc Hr.
  change 178%nat with (length ((spawn_wait_listing page_addr ≫= encode) ++ SPAWN_WAIT_CHILD_PATH ++ SPAWN_WAIT_DONE_MSG)) in Hc.
  apply (read_bytes_parts _ _ _ (spawn_wait_listing page_addr ≫= encode) _ eq_refl) in Hc as [Hcode Hdata].
  apply (read_bytes_parts _ _ _ SPAWN_WAIT_CHILD_PATH _ eq_refl) in Hdata as [Hpath Hmsg].
  change (Z.of_nat (length (spawn_wait_listing page_addr ≫= encode))) with 121 in Hpath, Hmsg.
  change (Z.of_nat (length SPAWN_WAIT_CHILD_PATH)) with 9 in Hmsg. replace (page_addr + 121 + 9) with (spawn_wait_msg page_addr) in Hmsg by (unfold spawn_wait_msg; lia).
  split; [exact Hpath|]. split; [exact Hmsg|]. by apply spawn_wait_runs.
Qed.

(** ** The open/read demo on the kernel *)

Section OpenRead.
Context {crate : X86Crate} {mapper : PageMapper} {H : Type} {kheap : KernelHeap H} {D : Type} `{!SectorDisk D}.
Implicit Types (s : System H D) (k : Kernel H) (st : SchedulerState) (spaces : Z -> gmap nat (ptree 3)) (m : mem).

Lemma bind_insert_same {A B} (f : A -> list B) (l : list A) i x y : l !! i = Some x -> f y = f x -> (<[i := y]> l) ≫= f = l ≫= f.
Proof.
  revert i. induction l as [|z l IH]; intros [|i] Hl Ef; [done|done| |].
  - injection Hl as ->. cbn [insert list_insert]. rewrite !bind_cons. by rewrite Ef.
  - cbn [insert list_insert]. rewrite !bind_cons. f_equal. by apply IH.
Qed.

(** The invariant does not depend on the files of a thread. *)
Lemma kernel_inv_files spaces k st t fs : kernel_inv spaces k st -> threads st !! current st = Some (Some t) ->
  length fs = MAX_OPEN_FILES ->
  kernel_inv spaces (with_thread k st (set_open_files fs t)) (set_current_thread (set_open_files fs t) st).
Proof.
  intros [K1 K2 [S1 S2 S3 S4 S5 S6 S7] K4 K5 K6 K7 (pmo & K8 & K9) K10 K11 K12] Ht Hf.
  assert (Hlt := lookup_lt_Some _ _ _ Ht). set (t' := set_open_files fs t).
  assert (Hthr : forall id u, threads (set_current_thread t' st) !! id = Some (Some u) ->
    (id = current st /\ u = t') \/ (id <> current st /\ threads st !! id = Some (Some u))).
  { intros id u. cbn [set_current_thread threads set_threads]. destruct (decide (id = current st)) as [->|Hne].
    - rewrite list_lookup_insert_eq by done. intros [= <-]. by left.
    - rewrite list_lookup_insert_ne by done. by right. }
  split; try done.
  - split; cbn [set_current_thread threads set_threads slot_generations ready_queue zombie]; try done; [by rewrite length_insert| |].
    + intros id. change (live_ids (set_threads _ st)) with (live_ids st). rewrite S5. destruct (decide (id = current st)) as [->|Hne].
      * rewrite list_lookup_insert_eq by done. split; intros _; eauto.
      * by rewrite list_lookup_insert_ne.
    + intros id u Hu. destruct (Hthr id u Hu) as [[-> ->]|[_ Hu']]; [|by apply S7]. destruct (S7 _ _ Ht) as [_ Hok]. by split.
  - intros id Hid. destruct (K5 id Hid) as [Hb|(Ha & u & e & Hu & He)]; [by left|]. right. split; [done|].
    cbn [set_current_thread threads set_threads]. destruct (decide (id = current st)) as [->|Hne].
    + exists t', e. rewrite list_lookup_insert_eq by done. split; [done|]. by simplify_eq.
    + exists u, e. by rewrite list_lookup_insert_ne.
  - cbn [set_current_thread threads set_threads]. by rewrite (bind_insert_same _ _ _ (Some t)).
  - exists pmo. split; [done|]. intros id u l4 Hu Hp. destruct (Hthr id u Hu) as [[-> ->]|[_ Hu']]; [by apply (K9 (current st) t)|by apply (K9 id u)].
  - unfold accounts. cbn [set_current_thread threads set_threads]. by rewrite (bind_insert_same _ _ _ (Some t)).
Qed.

(** Nor on what is in a frame that is no page table. *)
Definition no_table_of spaces st (frame : Z) : Prop := forall id t l4 x, threads st !! id = Some (Some t) -> page_table t = Some l4 ->
  in_frame frame x -> ~ in_frames (space_tables l4 (spaces l4)) x.

Lemma kernel_inv_frame spaces k st frame m : kernel_inv spaces k st -> no_table_of spaces st frame -> mem_ok m ->
  (forall x, ~ in_frame frame x -> m x = phys k x) -> kernel_inv spaces (set_memory m (frames k) k) st.
Proof.
  intros [K1 K2 K3 K4 K5 K6 K7 (pmo & K8 & K9) K10 K11 K12] Hn Hm Ho. split; try done.
  exists pmo. split; [done|]. intros id t l4 Ht Hp. apply (node_ext (phys k) m 3 l4 _ (spaces l4)); [|by apply (K9 id t)].
  intros x Hx. apply Ho. intros Hf. by apply (Hn id t l4 x Ht Hp Hf).
Qed.

Lemma kernel_inv_session spaces k st th fs frame m : kernel_inv spaces k st -> threads st !! current st = Some (Some th) ->
  length fs = MAX_OPEN_FILES -> no_table_of spaces st frame -> mem_ok m -> (forall x, ~ in_frame frame x -> m x = phys k x) ->
  let th' := set_open_files fs th in
  kernel_inv spaces (set_memory m (frames k) (with_thread k st th')) (set_current_thread th' st).
Proof.
  intros HK Hth Hl Htab Hm Ho th'.
  apply (kernel_inv_frame spaces (with_thread k st th') _ frame); [by apply kernel_inv_files| |done|exact Ho].
  intros id u l4 x Hu Hp. cbn [set_current_thread threads set_threads] in Hu. assert (Hlt := lookup_lt_Some _ _ _ Hth).
  destruct (decide (id = current st)) as [->|Hne].
  - rewrite list_lookup_insert_eq in Hu by done. injection Hu as <-. by apply (Htab (current st) th).
  - rewrite list_lookup_insert_ne in Hu by done. by apply (Htab id u).
Qed.

(** ** The page of a demo *)

(** Ring 3 may read and write the page at [page]; it is the frame [frame],
    which holds none of the page tables that map it. *)
Record code_page m (cr3 page frame : Z) : Prop := {
  cp_aligned : page mod PAGE_SIZE = 0;
  cp_low : 0 < page /\ page + PAGE_SIZE <= 2 ^ 47;
  cp_huge : no_huge m cr3 4 page;
  cp_access j : 0 <= j < PAGE_SIZE -> mmu_access m cr3 (page + j) true = Some (frame + j);
  cp_tables j : 0 <= j < PAGE_SIZE -> Forall (fun a => a + 8 <= frame \/ frame + PAGE_SIZE <= a) (walk_entries m cr3 4 (page + j));
}.

Lemma no_huge_ext m m' t l va : Forall (fun a => forall x, a <= x < a + 8 -> m' x = m x) (walk_entries m t l va) ->
  no_huge m t l va -> no_huge m' t l va.
Proof.
  revert t. induction l as [|l IH]; intros t Hu Hn; [done|]. apply Forall_cons in Hu as [Hp Hu].
  assert (E : table_entry m' t (hw_index (S l) va) = table_entry m t (hw_index (S l) va)) by by apply read_u64_ext.
  cbn [no_huge] in *. rewrite E. intros Hb. destruct (Hn Hb) as [H7 Hr]. split; [done|by apply IH].
Qed.

Section Page.
Context (c3 page frame : Z).

Lemma code_page_entries m m' j : code_page m c3 page frame -> (forall x, ~ in_frame frame x -> m' x = m x) -> 0 <= j < PAGE_SIZE ->
  Forall (fun a => forall x, a <= x < a + 8 -> m' x = m x) (walk_entries m c3 4 (page + j)).
Proof.
  intros Hc Ho Hj. eapply Forall_impl; [apply (cp_tables _ _ _ _ Hc j Hj)|]. cbn. intros a Ha x Hx. apply Ho.
  unfold in_frame, PAGE_SIZE in *. lia.
Qed.

Lemma code_page_ext m m' : code_page m c3 page frame -> (forall x, ~ in_frame frame x -> m' x = m x) -> code_page m' c3 page frame.
Proof.
  intros Hc Ho. assert (He := fun j => code_page_entries m m' j Hc Ho). destruct Hc as [C1 C2 C3 C4 C5]. split; try done.
  - apply (no_huge_ext m); [|done]. specialize (He 0). rewrite Z.add_0_r in He. apply He. unfold PAGE_SIZE. lia.
  - intros j Hj. rewrite (access_ext m m') by by apply He. by apply C4.
  - intros j Hj. rewrite (proj1 (kernel_walk_ext m m' c3 4 (page + j) true (He j Hj))). by apply C5.
Qed.

Lemma code_page_bytes m off n : code_page m c3 page frame -> 0 <= off -> off + Z.of_nat n <= PAGE_SIZE ->
  user_bytes m c3 (page + off) n = read_bytes m (frame + off) n.
Proof.
  intros Hc Ho Hn. unfold user_bytes, read_bytes. apply list_fmap_ext. intros i j Hi. apply lookup_seq in Hi as [-> Hi].
  replace (page + off + Z.of_nat (0 + i)) with (page + (off + Z.of_nat i)) by lia.
  rewrite (access_read _ _ _ (frame + (off + Z.of_nat i))) by (apply (cp_access _ _ _ _ Hc); lia). cbn [default]. f_equal. cbn. lia.
Qed.

Lemma code_page_reach m off n w : code_page m c3 page frame -> 0 <= off -> off + Z.of_nat n <= PAGE_SIZE -> user_reach m c3 (page + off) n w.
Proof.
  intros Hc Ho Hn x Hx. assert (E := cp_access _ _ _ _ Hc (x - page) ltac:(lia)). replace (page + (x - page)) with x in E by lia.
  destruct w; [eauto|]. apply access_read in E. eauto.
Qed.

Lemma code_page_apart m off n : code_page m c3 page frame -> 0 <= off -> off + Z.of_nat n <= PAGE_SIZE -> data_apart m c3 (page + off) n.
Proof.
  intros Hc Ho Hn.
  assert (Ha : forall x p, page + off <= x < page + off + Z.of_nat n -> mmu_access m c3 x true = Some p -> p = frame + (x - page)).
  { intros x p Hx E. assert (E' := cp_access _ _ _ _ Hc (x - page) ltac:(lia)). replace (page + (x - page)) with x in E' by lia. congruence. }
  split.
  - intros x y p Hx Hy E1%Ha E2%Ha; [lia|done|done].
  - intros x y p Hx Hy E%Ha; [|done]. assert (Ht := cp_tables _ _ _ _ Hc (y - page) ltac:(lia)).
    replace (page + (y - page)) with y in Ht by lia. eapply Forall_impl; [exact Ht|]. cbn. intros a. unfold PAGE_SIZE in *. lia.
Qed.

Lemma code_page_accepted s off n w : cr3 (kernel s) = c3 -> code_page (phys (kernel s)) c3 page frame ->
  is_Some (physical_memory_offset (kernel s)) -> 0 <= off -> (0 < n)%nat -> off + Z.of_nat n <= PAGE_SIZE ->
  user_range_ok (page + off) n w s = Ok (Go true, s).
Proof.
  intros E Hc Hp Ho Hn Hl. destruct (cp_low _ _ _ _ Hc) as [L1 L2]. apply user_range_ok_complete; [done|lia|done|lia| |].
  - intros p (i & Hi & ->)%elem_of_stride. assert (Ha := cp_aligned _ _ _ _ Hc). unfold PAGE_SIZE in *.
    assert (i = 0%nat) as -> by (Z.to_euclidean_division_equations; lia).
    replace (page + off - (page + off) mod 4096 + 4096 * Z.of_nat 0) with page by (Z.to_euclidean_division_equations; lia).
    rewrite E. apply (cp_huge _ _ _ _ Hc).
  - rewrite E. by apply code_page_reach.
Qed.
End Page.

(** ** The calls of the demo *)

Section Calls.
Context (wp : bool) (can_allocate : Z -> bool) (fuel : nat) (tramp ring3 : Z) (yield_now : Sys (H := H) (D := D) unit) (rounds : nat).
Context (page frame : Z).

(** The page of the running program is the frame. *)
Record on_page s : Prop := {
  op_page : code_page (phys (kernel s)) (cr3 (kernel s)) page frame;
  op_pmo : is_Some (physical_memory_offset (kernel s));
}.

Lemma copy_from_page s off n : on_page s -> 0 <= off -> (0 < n)%nat -> off + Z.of_nat n <= PAGE_SIZE ->
  copy_from_user wp (page + off) n s = Ok (Go (read_bytes (phys (kernel s)) (frame + off) n), s).
Proof.
  intros [Hc Hp] Ho Hn Hl. unfold copy_from_user. unfold mbind at 1, Sys_bind at 1.
  rewrite (code_page_accepted (cr3 (kernel s)) page frame) by done. run_sys.
  rewrite copy_in_ok by by apply (code_page_reach _ _ frame). by rewrite (code_page_bytes _ _ frame).
Qed.

Lemma open_from_page s st th off n d dk slot : on_page s -> 0 <= off -> 0 < n <= 255 -> off + n <= PAGE_SIZE ->
  scheduler (kernel s) = Some st -> scheduler_locked (kernel s) = false -> threads st !! current st = Some (Some th) ->
  position_none (open_files th) = Some slot -> (length (open_files th) <= MAX_OPEN_FILES)%nat ->
  let path := read_bytes (phys (kernel s)) (frame + off) (Z.to_nat n) in
  is_utf8 path = true -> read_file fuel can_allocate path (disk s) = Ok (Some d, dk) ->
  let fd := Z.of_nat slot + FIRST_FILE_FD in
  let th' := set_open_files (<[slot := Some (mkOpenFile d 0)]> (open_files th)) th in
  sys_open wp can_allocate fuel (page + off) n s = Ok (Go fd, mkSystem (with_thread (kernel s) st th') (console s) (input s) dk) /\ has_file th' fd d 0.
Proof.
  intros Hpg Ho Hn Hl Es El Et Hs Hlen path Hu Hf fd th'. destruct (open_file_body_ok th d slot Hs Hlen) as (t1 & E1 & Hf1 & Et1).
  fold fd th' in E1, Hf1, Et1. rewrite Et1 in E1, Hf1. split; [|exact Hf1]. unfold sys_open.
  rewrite (proj2 (Z.eqb_neq n 0)), (proj2 (Z.ltb_ge 255 n)) by lia. cbn [orb]. unfold mbind at 1, Sys_bind at 1.
  rewrite copy_from_page by (done || lia). fold path. rewrite Hu. cbn [negb]. unfold mbind at 1, Sys_bind at 1.
  rewrite (under_kernel_table_ok _ s st (Some d) (mkSystem (set_cr3 (kernel_page_table st) (kernel s)) (console s) (input s) dk) Es El);
    [|unfold on_disk; cbn [disk set_kernel]; by rewrite Hf|done].
  run_sys. unfold open_file. replace (set_cr3 (cr3 (kernel s)) (set_cr3 (kernel_page_table st) (kernel s))) with (kernel s) by (by destruct (kernel s)).
  by rewrite (with_current_thread_ok _ (kernel s) st th (Some fd) th' Es El Et E1).
Qed.

(** Memory changed only in the frame, from [off] on. *)
Definition stored m (off : Z) (bs : list Z) m' : Prop :=
  read_bytes m' (frame + off) (length bs) = bs /\ forall x, ~ frame + off <= x < frame + off + Z.of_nat (length bs) -> m' x = m x.

Lemma copy_to_page s off bs : on_page s -> 0 <= off -> (0 < length bs)%nat -> off + Z.of_nat (length bs) <= PAGE_SIZE ->
  exists m', copy_to_user wp (page + off) bs s = Ok (Go tt, with_memory m' s) /\ stored (phys (kernel s)) off bs m'.
Proof.
  intros [Hc Hp] Ho Hn Hl.
  destruct (copy_to_user_ok wp s (page + off) bs) as (m' & E & Hb & Hout);
    [by apply (code_page_accepted (cr3 (kernel s)) page frame)|by apply (code_page_reach _ _ frame)|by apply (code_page_apart _ _ frame)|].
  exists m'. split; [exact E|]. assert (Hout' : forall x, ~ frame + off <= x < frame + off + Z.of_nat (length bs) -> m' x = phys (kernel s) x).
  { intros x Hx. apply Hout. intros y Hy Ey. assert (Ea := cp_access _ _ _ _ Hc (y - page) ltac:(lia)).
    replace (page + (y - page)) with y in Ea by lia. rewrite Ea in Ey. injection Ey as <-. lia. }
  split; [|exact Hout']. rewrite <- Hb at 2. symmetry. apply (code_page_bytes _ page); [|done|done].
  apply (code_page_ext _ _ _ (phys (kernel s))); [done|]. intros x Hx. apply Hout'. unfold in_frame, PAGE_SIZE in *. lia.
Qed.

Lemma read_to_page s st th off n fd d : on_page s -> 0 <= off -> 0 < n <= 256 -> off + n <= PAGE_SIZE ->
  scheduler (kernel s) = Some st -> scheduler_locked (kernel s) = false -> threads st !! current st = Some (Some th) ->
  has_file th fd d 0 -> let got := take (Z.to_nat n) d in (0 < length got)%nat ->
  exists m' th', sys_read wp fd (page + off) n s = Ok (Go (Z.of_nat (length got)), with_memory m' (set_kernel (with_thread (kernel s) st th') s)) /\
    stored (phys (kernel s)) off got m' /\
    th' = set_open_files (<[file_slot fd := Some (mkOpenFile d (length got))]> (open_files th)) th.
Proof.
  intros Hpg Ho Hn Hl Es El Et Hf got Hgot.
  destruct (read_open_file_body_ok th fd d 0 (Z.to_nat n) Hf ltac:(lia)) as (t1 & E1 & _ & Et1). rewrite drop_0 in E1, Et1. fold got in E1, Et1.
  assert (Hlen : (length got <= Z.to_nat n)%nat) by (unfold got; rewrite length_take; lia).
  set (s1 := set_kernel (with_thread (kernel s) st t1) s). assert (Hpg1 : on_page s1) by (destruct Hpg; by split).
  destruct (copy_to_page s1 off got Hpg1 Ho Hgot ltac:(lia)) as (m' & Ec & Hm). exists m', t1. split; [|done].
  unfold sys_read. rewrite Z.min_l, (proj2 (Nat.eqb_neq _ 0)) by lia. destruct Hf as [Hfd _]. unfold FIRST_FILE_FD in *.
  rewrite (proj2 (Z.eqb_neq fd 0)), (proj2 (Z.leb_le 2 fd)) by lia. unfold sys_read_file. unfold mbind at 1, Sys_bind at 1.
  rewrite (code_page_accepted (cr3 (kernel s)) page frame) by (done || apply Hpg || lia). cbv iota. unfold mbind, Sys_bind, mret, Sys_ret, on_kernel, read_open_file.
  rewrite (with_current_thread_ok _ (kernel s) st th (Some got) t1 Es El Et E1). cbn [mbind outcome_bind].
  change (set_kernel _ s) with s1.
  rewrite (proj2 (Nat.ltb_lt 0 _) Hgot). by rewrite Ec.
Qed.

Lemma write_from_page s off n t : on_page s -> 0 <= off -> 0 < n <= 1024 -> off + n <= PAGE_SIZE ->
  shows (writer (console s)) t -> writer_locked (console s) = false ->
  exists w', sys_write wp 1 (page + off) n s = Ok (Go n, mkSystem (kernel s) (mkConsole w' false (interrupts_enabled (kernel s))) (input s) (disk s)) /\
    shows w' (type_bytes (color_code (writer (console s))) (shown <$> default (bytes_of "<sys_write: invalid utf-8>")
      (utf8_decode (read_bytes (phys (kernel s)) (frame + off) (Z.to_nat n)))) t) /\ color_code w' = color_code (writer (console s)).
Proof.
  intros Hpg Ho Hn Hl Hs Hu. unfold sys_write. cbn [Z.eqb Pos.eqb negb]. rewrite Z.min_l by lia. cbv zeta. unfold mbind, Sys_bind.
  rewrite copy_from_page by (done || lia). set (bs := read_bytes _ _ _).
  destruct (print_keeps [match utf8_decode bs with Some s => s | None => bytes_of "<sys_write: invalid utf-8>" end] s t Hs Hu) as (w' & E & Hw & Hc).
  exists w'. rewrite E. split; [done|]. split; [|exact Hc]. rewrite concat_cons, app_nil_r in Hw. by destruct (utf8_decode bs).
Qed.

Lemma stored_mem_ok m off bs m' : mem_ok m -> Forall is_u8 bs -> stored m off bs m' -> mem_ok m'.
Proof.
  intros Hm Hb [Hr Ho] x. destruct (decide (frame + off <= x < frame + off + Z.of_nat (length bs))) as [Hx|Hx]; [|by rewrite Ho].
  rewrite Forall_lookup in Hb. apply (Hb (Z.to_nat (x - (frame + off)))). rewrite <- Hr at 1. unfold read_bytes.
  rewrite list_lookup_fmap, lookup_seq_lt by lia. cbn. do 2 f_equal. lia.
Qed.

(** A running demo: its code is at the start of its page, and its file
    table has a free slot. *)
Record demo_running spaces st th (slot : nat) (code : list Z) s : Prop := {
  dr_inv : kernel_inv spaces (kernel s) st;
  dr_current : current st <> 0%nat;
  dr_thread : threads st !! current st = Some (Some th);
  dr_slot : position_none (open_files th) = Some slot;
  dr_page : on_page s;
  dr_tables : no_table_of spaces st frame;
  dr_code : read_bytes (phys (kernel s)) frame (length code) = code;
}.

(** The program is back in ring 3, or the thread is gone. *)
Local Abbreviation call := (kernel_call wp can_allocate fuel tramp ring3 yield_now rounds).

Lemma on_page_listing s prog : on_page s -> (length (prog ≫= encode) <= 4096)%nat ->
  listing_at (user_memory s) page prog <-> read_bytes (phys (kernel s)) frame (length (prog ≫= encode)) = prog ≫= encode.
Proof.
  intros [Hc _] Hl. unfold listing_at. set (n := length (prog ≫= encode)) in *.
  assert (E : user_bytes (phys (kernel s)) (cr3 (kernel s)) (page + 0) n = read_bytes (phys (kernel s)) (frame + 0) n)
    by (apply (code_page_bytes _ _ frame); [done|lia|unfold PAGE_SIZE; lia]).
  rewrite !Z.add_0_r in E. rewrite <- E. done.
Qed.

(** What a program did before it exits: it wrote to its page, used its
    files, and printed. *)
Record session spaces st s s' : Prop := {
  se_worked : exists st', worked (current st) (kernel s) st (kernel s') st' /\ kernel_inv spaces (kernel s') st';
  se_outside x : ~ in_frame frame x -> phys (kernel s') x = phys (kernel s) x;
  se_input : input s' = input s;
  se_unlocked : writer_locked (console s') = false;
  se_color : color_code (writer (console s')) = color_code (writer (console s));
}.

(** The three calls that return, one after the other. *)
Lemma open_read_write spaces st th slot d dk rdx rcx t s :
  let code := (open_read_listing page ≫= encode) ++ OPEN_READ_DEMO_PATH ++ replicate 64 0 in
  demo_running spaces st th slot code s -> shows (writer (console s)) t -> writer_locked (console s) = false ->
  read_file fuel can_allocate OPEN_READ_DEMO_PATH (disk s) = Ok (Some d, dk) -> Forall is_u8 d -> d <> [] ->
  let fd := Z.of_nat slot + FIRST_FILE_FD in let got := take 64 d in let n := Z.of_nat (length got) in
  exists s1 s2 s3, call SYS_OPEN (open_read_path page) 9 rdx rcx s = inl (fd, s1) /\
    call SYS_READ fd (open_read_buf page) 64 rcx s1 = inl (n, s2) /\
    call SYS_WRITE 1 (open_read_buf page) n rcx s2 = inl (n, s3) /\
    Forall (fun s' => listing_at (user_memory s') page (open_read_listing page)) [s; s1; s2; s3] /\
    session spaces st s s3 /\
    shows (writer (console s3)) (type_bytes (color_code (writer (console s)))
      (shown <$> default (bytes_of "<sys_write: invalid utf-8>") (utf8_decode got)) t) /\
    disk s3 = dk.
Proof.
  intros code [HK Hcur Hth Hslot Hpg Htab Hcode] Hs Hl Hf Hu Hd fd got n.
  assert (Hlen : length (open_files th) = MAX_OPEN_FILES) by apply (si_thread _ (ki_sched _ _ _ HK) _ _ Hth).
  apply (read_bytes_parts _ _ _ (open_read_listing page ≫= encode) _ eq_refl) in Hcode as [Hlist Hdata].
  apply (read_bytes_parts _ _ _ OPEN_READ_DEMO_PATH _ eq_refl) in Hdata as [Hpath _].
  change (Z.of_nat (length (open_read_listing page ≫= encode))) with 114 in Hpath.
  assert (Hgot : (0 < length got <= 64)%nat).
  { unfold got. rewrite length_take. destruct d; [done|]. cbn [length]. lia. }
  (* open *)
  destruct (open_from_page s st th 114 9 d dk slot Hpg ltac:(lia) ltac:(lia) ltac:(unfold PAGE_SIZE; lia) (ki_scheduler _ _ _ HK)
    (ki_unlocked _ _ _ HK) Hth Hslot ltac:(lia)) as [E1 Hfile]; [change (Z.to_nat 9) with (length OPEN_READ_DEMO_PATH); rewrite Hpath; reflexivity|
    change (Z.to_nat 9) with (length OPEN_READ_DEMO_PATH); rewrite Hpath; exact Hf|].
  set (th1 := set_open_files _ th) in *. fold fd in E1, Hfile. set (s1 := mkSystem _ _ _ _) in E1.
  (* read *)
  assert (Hlt := lookup_lt_Some _ _ _ Hth).
  assert (Hth1 : threads (set_current_thread th1 st) !! current (set_current_thread th1 st) = Some (Some th1)) by (by apply list_lookup_insert_eq).
  destruct (read_to_page s1 (set_current_thread th1 st) th1 123 64 fd d) as (m2 & th2 & E2 & Hm2 & Eth2);
    [destruct Hpg; by split|lia|lia|unfold PAGE_SIZE; lia|done|done|done|exact Hfile|change (Z.to_nat 64) with 64%nat; fold got; lia|].
  change (Z.to_nat 64) with 64%nat in *. fold got n in E2, Hm2, Eth2. set (s2 := with_memory _ _) in E2.
  assert (Hout : forall x, ~ in_frame frame x -> m2 x = phys (kernel s) x).
  { intros x Hx. apply (proj2 Hm2). unfold in_frame, PAGE_SIZE in Hx. lia. }
  assert (Hpg2 : on_page s2) by (destruct Hpg as [P1 P2]; split; [by apply (code_page_ext _ _ _ (phys (kernel s)))|done]).
  (* write *)
  destruct (write_from_page s2 123 n t Hpg2 ltac:(lia) ltac:(unfold n; lia) ltac:(unfold n, PAGE_SIZE; lia) Hs Hl) as (w' & E3 & Hw & Hcol).
  set (s3 := mkSystem _ _ _ _) in E3. change (phys (kernel s2)) with m2 in Hw. unfold n in Hw. rewrite Nat2Z.id, (proj1 Hm2) in Hw.
  assert (L : listing_at (user_memory s) page (open_read_listing page)) by (apply on_page_listing; [done|cbn; lia|exact Hlist]).
  assert (L2 : listing_at (user_memory s2) page (open_read_listing page)).
  { apply on_page_listing; [done|cbn; lia|]. rewrite <- Hlist at 2. apply read_bytes_ext. intros x Hx. apply (proj2 Hm2). cbn in Hx. lia. }
  exists s1, s2, s3. split_and!.
  - unfold kernel_call. change (dispatch _ _ _ _ _ _ _ SYS_OPEN _ _ _ _ s) with (sys_open wp can_allocate fuel (page + 114) 9 s). by rewrite E1.
  - unfold kernel_call. change (dispatch _ _ _ _ _ _ _ SYS_READ _ _ _ _ s1) with (sys_read wp fd (page + 123) 64 s1). by rewrite E2.
  - unfold kernel_call. change (dispatch _ _ _ _ _ _ _ SYS_WRITE _ _ _ _ s2) with (sys_write wp 1 (page + 123) n s2). by rewrite E3.
  - by repeat (apply Forall_cons; split; [done|]).
  - assert (Ek : kernel s3 = set_memory m2 (frames (kernel s)) (with_thread (kernel s) st th2)).
    { unfold s3, s2, s1. cbn [kernel with_memory set_kernel]. unfold with_thread. by rewrite set_current_thread_twice. }
    split; [|by rewrite Ek|done|done|exact Hcol]. exists (set_current_thread th2 st). rewrite Ek, Eth2. split.
    + split; try done. intros u Hu'. rewrite Hth in Hu'. injection Hu' as <-. eexists. split; [by apply list_lookup_insert_eq|done].
    + apply (kernel_inv_session spaces (kernel s) st th (<[file_slot fd := Some (mkOpenFile d (length got))]> (open_files th1)) frame);
        [done|done|cbn [th1 open_files set_open_files]; by rewrite !length_insert|done| |exact Hout].
      apply (stored_mem_ok (phys (kernel s)) 123 got); [apply HK|by apply Forall_take|exact Hm2].
  - exact Hw.
  - done.
Qed.
End Calls.

(** A thread that runs the code that [build_open_read_shellcode] makes for
    its page gets through [open], [read] and [write] to [exit]: the screen
    shows the text of the first 64 bytes that the file system has under the
    name [HELLO.TXT]. *)
Lemma open_read_demo_runs wp can_allocate fuel tramp ring3 yield_now rounds page frame spaces st th slot code d dk t u s :
  build_open_read_shellcode page = Ok code -> demo_running page frame spaces st th slot code s -> urip u = page ->
  shows (writer (console s)) t -> writer_locked (console s) = false ->
  read_file fuel can_allocate (bytes_of "HELLO.TXT") (disk s) = Ok (Some d, dk) -> Forall is_u8 d -> d <> [] ->
  exists s3, session frame spaces st s s3 /\ disk s3 = dk /\
    shows (writer (console s3)) (type_bytes (color_code (writer (console s)))
      (shown <$> default (bytes_of "<sys_write: invalid utf-8>") (utf8_decode (take 64 d))) t) /\
    forall e s4, exit_thread (A := Z) s3 = Ok (Gone e, s4) ->
      urun user_memory (kernel_call wp can_allocate fuel tramp ring3 yield_now rounds) 16 u s = Left3 s4.
Proof.
  intros Eb Hdr Hr Hs Hl Hf Hu Hd. assert (Hdr' := Hdr). destruct Hdr' as [_ Hcur _ _ [Hc _] _ _].
  destruct (cp_low _ _ _ _ Hc) as [L1 L2]. unfold PAGE_SIZE in L2. rewrite build_open_read_listing in Eb by lia. injection Eb as <-.
  set (call := kernel_call wp can_allocate fuel tramp ring3 yield_now rounds).
  assert (Hend : after page (open_read_listing page) < 2 ^ 64) by (change (page + 114 < 2 ^ 64); lia).
  destruct (open_read_write wp can_allocate fuel tramp ring3 yield_now rounds page frame spaces st th slot d dk (uregs u RDX) (uregs u RCX) t s Hdr Hs Hl Hf Hu Hd)
    as (s1 & s2 & s3 & C1 & C2 & C3 & HL & HK & Hw & Edk). fold call in C1, C2, C3.
  rewrite !Forall_cons in HL. destruct HL as (P0 & P1 & P2 & P3 & _).
  exists s3. split; [exact HK|]. split; [exact Edk|]. split; [exact Hw|]. intros e s4 C4.
  assert (E1 := straight_step user_memory call page _ ltac:(lia) Hend 0 (open_block (open_read_path page)) u s SYS_OPEN (open_read_path page) 9
    (uregs u RDX) (uregs u RCX) eq_refl ltac:(unfold open_read_path; moves_ok) P0 ltac:(rewrite Hr; unfold after; cbn; lia)
    eq_refl eq_refl eq_refl eq_refl eq_refl).
  rewrite C1 in E1. change (length _ + 1)%nat with 4%nat in E1. destruct E1 as (u1 & E1 & F1 & R1).
  assert (E2 := straight_step user_memory call page _ ltac:(lia) Hend 4 (read_block (open_read_buf page)) u1 s1 SYS_READ
    (Z.of_nat slot + FIRST_FILE_FD) (open_read_buf page) 64 (uregs u RCX) eq_refl ltac:(unfold open_read_buf; moves_ok) P1 R1
    eq_refl ltac:(cbn; by rewrite F1) eq_refl eq_refl ltac:(cbn; by rewrite F1)).
  rewrite C2 in E2. change (length _ + 1)%nat with 5%nat in E2. destruct E2 as (u2 & E2 & F2 & R2).
  assert (E3 := straight_step user_memory call page _ ltac:(lia) Hend 9 (write_block (open_read_buf page)) u2 s2 SYS_WRITE
    1 (open_read_buf page) (Z.of_nat (length (take 64 d))) (uregs u RCX) eq_refl ltac:(unfold open_read_buf; moves_ok) P2 R2
    eq_refl eq_refl eq_refl ltac:(cbn; by rewrite F2) ltac:(cbn; rewrite F2; cbn; by rewrite F1)).
  rewrite C3 in E3. change (length _ + 1)%nat with 5%nat in E3. destruct E3 as (u3 & E3 & _ & R3).
  assert (E4 := straight_step user_memory call page _ ltac:(lia) Hend 14 exit_block u3 s3 SYS_EXIT (uregs u3 RDI) (uregs u3 RSI) (uregs u3 RDX) (uregs u3 RCX)
    eq_refl ltac:(moves_ok) P3 R3 eq_refl eq_refl eq_refl eq_refl eq_refl).
  assert (C4' : forall a1 a2 a3 a4, call SYS_EXIT a1 a2 a3 a4 s3 = inr s4).
  { intros. unfold call, kernel_call. change (dispatch _ _ _ _ _ _ _ SYS_EXIT _ _ _ _ s3) with (exit_thread (A := Z) s3). by rewrite C4. }
  rewrite C4' in E4. change 16%nat with (4 + (5 + (5 + 2)))%nat. by rewrite urun_app, E1, urun_app, E2, urun_app, E3.
Qed.
End OpenRead.

(** ** The demos at work *)

(** A world that writes down the calls of the spawn demo. *)
Definition call_log : Type := list (Z * Z * Z * Z) * mem.

Definition log_call (number a1 a2 a3 _ : Z) (w : call_log) : (Z * call_log) + call_log :=
  let w' := (w.1 ++ [(number, a1, a2, a3)], w.2) in
  if number =? SYS_EXIT then inr w' else inl (if number =? SYS_SPAWN then 65537 else 0, w').

Lemma spawn_wait_program_correct_witness : exists code n w',
  build_spawn_wait_shellcode SPAWN_WAIT_DEMO_ADDR = Ok code /\
  urun (fun w : call_log => w.2) log_call n (mkUState (fun _ => 0) SPAWN_WAIT_DEMO_ADDR false)
    ([], write_list (fun _ => 0) SPAWN_WAIT_DEMO_ADDR code) = Left3 w' /\
  w'.1 = [(SYS_SPAWN, 0x7c0000000079, 9, 0); (SYS_WAIT, 65537, 9, 0); (SYS_WRITE, 1, 0x7c0000000082, 48); (SYS_EXIT, 1, 0x7c0000000082, 48)].
Proof.
  destruct (spawn_wait_program_correct (fun w : call_log => w.2) log_call SPAWN_WAIT_DEMO_ADDR) as (code & E & Hl & F);
    [unfold SPAWN_WAIT_DEMO_ADDR; lia..|].
  destruct (F (mkUState (fun _ => 0) SPAWN_WAIT_DEMO_ADDR false) ([], write_list (fun _ => 0) SPAWN_WAIT_DEMO_ADDR code)) as (_ & _ & n & Er).
  - intros number a1 a2 a3 a4 w r w' _ Hw Es. unfold log_call in Es. destruct (number =? SYS_EXIT); [discriminate Es|]. injection Es as _ <-. exact Hw.
  - by apply write_list_same.
  - reflexivity.
  - exists code, n. eexists. split; [exact E|]. split; [exact Er|reflexivity].
Defined.
