(* ===== verification/Bringup.v ===== *)
(** * Bringing the kernel up (src/main.rs, src/memory.rs, src/lib.rs)

    The page-table handles [kernel_main] works with, the descriptor tables it
    loads, and its demonstration of the heap: [Box], [Vec] and [Rc] of the
    language's library on the kernel heap. *)

From S2P Require Import Prelude Ring X86 FrameAlloc Paging AddressSpace Mapper MapperRef Mappings Elf ElfThms ElfImage Threads Scheduler SchedulerInv.
From S2P Require Import Ata Fat Vga Keyboard Utf8 Process Boot Interrupts Syscall SyscallThms SyscallSamples SchedulerThms.

(** ** [OffsetPageTable]

    A handle on a hierarchy: where its top-level table is in virtual memory,
    and the offset at which all physical memory is mapped. *)

Record OffsetPageTable := mkOffsetPageTable { level_4_table : Z; phys_offset : Z }.

(** The frame of the top-level table. *)
Definition table_frame (t : OffsetPageTable) : Z := level_4_table t - phys_offset t.

Section Tables.
Context {crate : X86Crate} {H : Type}.
Local Abbreviation K := (M (Kernel H)).

Definition active_level_4_table (physical_memory_offset : Z) : K Z :=
  phys ← gets cr3;
  lift (expect (va_add physical_memory_offset phys) "attempt to add resulted in non-canonical virtual address").

Definition memory_init (physical_memory_offset : Z) : K OffsetPageTable :=
  level_4_table ← active_level_4_table physical_memory_offset;
  mret (mkOffsetPageTable level_4_table physical_memory_offset).

Definition current_mapper (physical_memory_offset : Z) : K OffsetPageTable :=
  level_4_table ← active_level_4_table physical_memory_offset;
  mret (mkOffsetPageTable level_4_table physical_memory_offset).

Definition table_at (frame physical_memory_offset : Z) : outcome Z :=
  expect (va_add physical_memory_offset frame) "attempt to add resulted in non-canonical virtual address".

(** The handle is on the table that is active. *)
Lemma memory_init_active pmo k : 0 <= pmo -> 0 <= cr3 k -> pmo + cr3 k < 2 ^ 47 ->
  let t := mkOffsetPageTable (pmo + cr3 k) pmo in memory_init pmo k = Ok (t, k) /\ table_frame t = cr3 k.
Proof.
  intros H0 H1 H2 t. split; [|unfold table_frame; cbn; lia].
  unfold memory_init, active_level_4_table. run_m. rewrite va_add_low by lia. done.
Qed.
End Tables.

(** ** The tables of the processor

    What [velora_os::init] loads: the descriptor tables, the registers that
    select from them, and the vectors the interrupt controllers are set
    to. *)

Section Cpu.
Context {crate : X86Crate} `{GlobalDescriptorTable G}.

Record CpuTables := mkCpuTables {
  loaded_tss : TaskStateSegment; loaded_gdt : G; code_register : Z; task_register : Z;
  loaded_idt : list (Z * Gate); pic_offsets : option (Z * Z) }.

(** [gdt::init], from the segment to the registers. *)
Definition load_gdt (double_fault_stack default_stack : Z) : outcome CpuTables :=
  tss ← gdt_init double_fault_stack default_stack tss_new;
  '(gdt, selectors) ← GDT;
  Ok (mkCpuTables tss gdt (code_selector selectors) (tss_selector selectors) [] None).

Definition init_idt (c : CpuTables) : CpuTables :=
  mkCpuTables (loaded_tss c) (loaded_gdt c) (code_register c) (task_register c) IDT (pic_offsets c).

(** [PICS] and its [initialize]. *)
Definition PICS : Z * Z := (PIC_1_OFFSET, PIC_2_OFFSET).
Definition initialize_pics (c : CpuTables) : CpuTables :=
  mkCpuTables (loaded_tss c) (loaded_gdt c) (code_register c) (task_register c) (loaded_idt c) (Some PICS).

Definition lib_init (double_fault_stack default_stack : Z) : outcome CpuTables :=
  c ← load_gdt double_fault_stack default_stack;
  Ok (initialize_pics (init_idt c)).

(** The registers select the kernel's code and the task state segment; the
    stack that the gate of the double fault names is the one of [init], and
    so is the one for entries from ring 3. *)
Lemma lib_init_ok df default : 0 <= df -> df + 20480 < 2 ^ 47 -> 0 <= default -> default + 20480 < 2 ^ 47 ->
  exists c, lib_init df default = Ok c /\ code_register c = 0x08 /\ task_register c = 0x10 /\ loaded_idt c = IDT /\
    pic_offsets c = Some (32, 40) /\ privilege_stack_table (loaded_tss c) !! 0%nat = Some (default + 20480) /\
    (idt_gate 8 ≫= stack_index) ≫= (fun i => interrupt_stack_table (loaded_tss c) !! i) = Some (df + 20480).
Proof.
  intros H1 H2 H3 H4. destruct GDT_ok as (g & Eg & _). unfold lib_init, load_gdt, gdt_init, va_new.
  change (4096 * 5) with 20480. rewrite (va_try_new_canonical df) by (unfold canonical; lia). cbn [expect mbind outcome_bind].
  rewrite (va_try_new_canonical (df + 20480)) by (unfold canonical; lia). cbn [expect mbind outcome_bind].
  rewrite (va_try_new_canonical default) by (unfold canonical; lia). cbn [expect mbind outcome_bind].
  rewrite (va_try_new_canonical (default + 20480)) by (unfold canonical; lia). cbn [expect mbind outcome_bind].
  rewrite Eg. cbn [mbind outcome_bind]. eexists. split; [reflexivity|]. done.
Qed.
End Cpu.
#[global] Arguments CpuTables : clear implicits.

(** ** [Box], [Vec] and [Rc]

    On the kernel heap; a value of type [i32] is a number.  Growing a vector
    allocates the new buffer before the old one is freed. *)

Section Alloc.
Context {H : Type} {kheap : KernelHeap H}.

Definition alloc (size align : Z) : M H Z := fun h =>
  match heap_alloc size align h with
  | (Some p, h') => Ok (p, h')
  | (None, _) => Panic "memory allocation failed"
  end.
Definition dealloc (p size align : Z) : M H unit := modify (heap_dealloc p size align).

(** [Box<i32>]: where the value is, and the value. *)
Record BoxI32 := mkBox { box_ptr : Z; box_value : Z }.
Definition box_new (v : Z) : M H BoxI32 := p ← alloc 4 4; mret (mkBox p v).
Definition box_drop (b : BoxI32) : M H unit := dealloc (box_ptr b) 4 4.

(** [Vec<i32>]. *)
Record VecI32 := mkVec { vec_ptr : Z; capacity : nat; elements : list Z }.
Definition vec_new : VecI32 := mkVec 4 0 [].

(** [RawVec]: at least twice the capacity, and at least four elements. *)
Definition grow (v : VecI32) : M H VecI32 :=
  let cap := Nat.max 4 (Nat.max (2 * capacity v) (length (elements v) + 1)) in
  p ← alloc (4 * Z.of_nat cap) 4;
  _ ← (if (capacity v =? 0)%nat then mret tt else dealloc (vec_ptr v) (4 * Z.of_nat (capacity v)) 4);
  mret (mkVec p cap (elements v)).

Definition vec_i32_push (x : Z) (v : VecI32) : M H VecI32 :=
  v ← (if (length (elements v) =? capacity v)%nat then grow v else mret v);
  mret (mkVec (vec_ptr v) (capacity v) (elements v ++ [x])).

Definition vec_drop (v : VecI32) : M H unit :=
  if (capacity v =? 0)%nat then mret tt else dealloc (vec_ptr v) (4 * Z.of_nat (capacity v)) 4.

(** [vec![...]]. *)
Definition vec_of (l : list Z) : M H VecI32 := p ← alloc (4 * Z.of_nat (length l)) 4; mret (mkVec p (length l) l).

Fixpoint vec_push_all (l : list Z) (v : VecI32) : M H VecI32 :=
  match l with [] => mret v | x :: rest => v ← vec_i32_push x v; vec_push_all rest v end.

(** [Rc<Vec<i32>>]: the counters and the value are in one block of 40
    bytes. *)
Record RcVec := mkRc { rc_ptr : Z; strong : Z; weak : Z; rc_value : VecI32 }.
Definition rc_new (v : VecI32) : M H RcVec := p ← alloc 40 8; mret (mkRc p 1 1 v).
Definition rc_clone (r : RcVec) : RcVec := mkRc (rc_ptr r) (strong r + 1) (weak r) (rc_value r).
Definition strong_count (r : RcVec) : Z := strong r.
Definition rc_drop (r : RcVec) : M H RcVec :=
  let r := mkRc (rc_ptr r) (strong r - 1) (weak r) (rc_value r) in
  if strong r =? 0 then
    _ ← vec_drop (rc_value r);
    let r := mkRc (rc_ptr r) (strong r) (weak r - 1) (rc_value r) in
    _ ← (if weak r =? 0 then dealloc (rc_ptr r) 40 8 else mret tt);
    mret r
  else mret r.

(** The values of [run_bringup_demo] when it prints. *)
Record HeapDemo := mkHeapDemo {
  heap_value : BoxI32; demo_vec : VecI32; cloned_reference : RcVec; refcount_before_drop : Z; refcount_after_drop : Z }.

Definition heap_demo : M H HeapDemo :=
  heap_value ← box_new 41;
  vec ← vec_push_all (seqZ 1 499) vec_new;
  v ← vec_of [1; 2; 3];
  reference_counted ← rc_new v;
  let cloned_reference := rc_clone reference_counted in
  let refcount_before_drop := strong_count cloned_reference in
  cloned_reference ← rc_drop cloned_reference;
  let refcount_after_drop := strong_count cloned_reference in
  mret (mkHeapDemo heap_value vec cloned_reference refcount_before_drop refcount_after_drop).

(** The end of the function: the variables are dropped, the last one
    first. *)
Definition heap_demo_drop (d : HeapDemo) : M H unit :=
  _ ← rc_drop (cloned_reference d);
  _ ← vec_drop (demo_vec d);
  box_drop (heap_value d).

(** ** What the demonstration shows *)

(** Either the result is as [Q] says, or the heap was exhausted. *)
Definition or_exhausted {A} (x : M H A) (h : H) (Q : A -> H -> Prop) : Prop :=
  match x h with Ok (a, h') => Q a h' | Panic msg => msg = "memory allocation failed" end.

Lemma or_exhausted_bind {A B} (x : M H A) (f : A -> M H B) h (Q : B -> H -> Prop) :
  or_exhausted x h (fun a h' => or_exhausted (f a) h' Q) -> or_exhausted (x ≫= f) h Q.
Proof. unfold or_exhausted, mbind, M_bind. by destruct (x h) as [[a h']|]. Qed.

Lemma or_exhausted_mono {A} (x : M H A) h (Q Q' : A -> H -> Prop) :
  or_exhausted x h Q -> (forall a h', Q a h' -> Q' a h') -> or_exhausted x h Q'.
Proof. unfold or_exhausted. destruct (x h) as [[a h']|]; auto. Qed.

(** The blocks in use are [bs] and [others]. *)
Definition in_use (others bs : list (Z * Z)) (h : H) : Prop := heap_inv h /\ heap_live h ≡ₚ bs ++ others.

Context (others : list (Z * Z)).

Lemma alloc_ok size align bs h (Q : Z -> H -> Prop) : in_use others bs h -> 0 < size ->
  (forall p h', in_use others ((p, size) :: bs) h' -> Q p h') -> or_exhausted (alloc size align) h Q.
Proof.
  intros [Hi Hl] Hs HQ. unfold or_exhausted, alloc. destruct (heap_alloc size align h) as [[p|] h'] eqn:E; [|done].
  destruct (heap_alloc_some h size align p h' Hi Hs E) as (Hi' & Hl' & _). apply HQ. split; [done|]. by rewrite Hl', Hl.
Qed.

Lemma dealloc_ok p size align bs bs' h (Q : unit -> H -> Prop) : in_use others bs h -> bs ≡ₚ (p, size) :: bs' ->
  (forall h', in_use others bs' h' -> Q tt h') -> or_exhausted (dealloc p size align) h Q.
Proof.
  intros [Hi Hl] Hb HQ. apply HQ. destruct (heap_dealloc_ok h p size align Hi) as [Hi' Hl'].
  { rewrite Hl, Hb. apply elem_of_app. left. by left. }
  split; [done|]. apply (Permutation_cons_inv (a := (p, size))). by rewrite <- Hl', Hl, Hb.
Qed.

Definition vec_blocks (v : VecI32) : list (Z * Z) := if (capacity v =? 0)%nat then [] else [(vec_ptr v, 4 * Z.of_nat (capacity v))].

Lemma vec_drop_ok v bs h (Q : unit -> H -> Prop) : in_use others (vec_blocks v ++ bs) h ->
  (forall h', in_use others bs h' -> Q tt h') -> or_exhausted (vec_drop v) h Q.
Proof.
  unfold vec_drop, vec_blocks. destruct (capacity v =? 0)%nat; intros Hu HQ; [by apply HQ|]. eapply (dealloc_ok _ _ _ _ bs); [exact Hu|done|exact HQ].
Qed.

(** The vector has room for what is in it, and no more than twice that. *)
Definition vec_ok (v : VecI32) : Prop := (length (elements v) <= capacity v <= Nat.max 4 (2 * length (elements v)))%nat.

Lemma vec_push_ok x v bs h (Q : VecI32 -> H -> Prop) : in_use others (vec_blocks v ++ bs) h -> vec_ok v ->
  (forall v' h', in_use others (vec_blocks v' ++ bs) h' -> vec_ok v' -> elements v' = elements v ++ [x] ->
     Q v' h') -> or_exhausted (vec_i32_push x v) h Q.
Proof.
  intros Hu Hv HQ. unfold vec_ok in *. unfold vec_i32_push. apply or_exhausted_bind.
  destruct (Nat.eqb_spec (length (elements v)) (capacity v)) as [E|E].
  - unfold grow. set (cap := Nat.max 4 _). apply or_exhausted_bind. eapply alloc_ok; [exact Hu|lia|]. intros p h1 Hu1. apply or_exhausted_bind.
    assert (Hfin : forall h', in_use others ((p, 4 * Z.of_nat cap) :: bs) h' ->
      or_exhausted (mret (mkVec p cap (elements v))) h' (fun a h'0 => or_exhausted (mret (mkVec (vec_ptr a) (capacity a) (elements a ++ [x]))) h'0 Q)).
    { intros h' Hu'. apply HQ; [|cbn [elements capacity]; rewrite length_app; cbn [length]; lia|done]. unfold vec_blocks. cbn [capacity vec_ptr].
      rewrite (proj2 (Nat.eqb_neq cap 0)) by lia. exact Hu'. }
    unfold vec_blocks in Hu1. destruct (Nat.eqb_spec (capacity v) 0) as [Ec|Ec]; [by apply Hfin|].
    eapply dealloc_ok; [exact Hu1|apply Permutation_swap|exact Hfin].
  - apply HQ; [done|cbn [elements capacity]; rewrite length_app; cbn [length]; lia|done].
Qed.

Lemma vec_push_all_ok l : forall v bs h (Q : VecI32 -> H -> Prop), in_use others (vec_blocks v ++ bs) h -> vec_ok v ->
  (forall v' h', in_use others (vec_blocks v' ++ bs) h' -> vec_ok v' -> elements v' = elements v ++ l -> Q v' h') ->
  or_exhausted (vec_push_all l v) h Q.
Proof.
  induction l as [|x l IH]; intros v bs h Q Hu Hv HQ; cbn [vec_push_all].
  - apply HQ; [done|done|by rewrite app_nil_r].
  - apply or_exhausted_bind. apply (vec_push_ok x v bs); [done|done|]. intros v1 h1 Hu1 Hv1 E1. apply (IH v1 bs); [done|done|].
    intros v2 h2 Hu2 Hv2 E2. apply HQ; [done|done|]. by rewrite E2, E1, <- app_assoc.
Qed.

(** The blocks the variables of the demonstration own. *)
Definition demo_blocks (d : HeapDemo) : list (Z * Z) :=
  vec_blocks (rc_value (cloned_reference d)) ++ (rc_ptr (cloned_reference d), 40) ::
  vec_blocks (demo_vec d) ++ [(box_ptr (heap_value d), 4)].

Lemma heap_demo_ok h : in_use others [] h -> or_exhausted heap_demo h (fun d h' =>
  in_use others (demo_blocks d) h' /\ refcount_before_drop d = 2 /\ refcount_after_drop d = 1 /\
  strong (cloned_reference d) = 1 /\ weak (cloned_reference d) = 1 /\
  elements (demo_vec d) = seqZ 1 499 /\ vec_ok (demo_vec d) /\ box_value (heap_value d) = 41).
Proof.
  intros Hu. unfold heap_demo, box_new, vec_of, rc_new. do 2 apply or_exhausted_bind. eapply alloc_ok; [exact Hu|lia|]. intros p1 h1 H1.
  apply or_exhausted_bind. apply (vec_push_all_ok _ vec_new [(p1, 4)]); [exact H1|unfold vec_ok; cbn; lia|]. intros v h2 H2 Hv Ev.
  do 2 apply or_exhausted_bind. eapply alloc_ok; [exact H2|cbn; lia|]. intros p3 h3 H3.
  do 2 apply or_exhausted_bind. eapply alloc_ok; [exact H3|lia|]. intros p4 h4 H4.
  unfold or_exhausted, mret, M_ret, mbind, M_bind. cbn [rc_clone rc_drop strong weak rc_value rc_ptr strong_count]. cbn -[seqZ].
  split_and!; try done. unfold demo_blocks. cbn [cloned_reference rc_value rc_ptr demo_vec heap_value box_ptr].
  destruct H4 as [Hi Hl]. split; [done|]. rewrite Hl. cbn. apply Permutation_swap.
Qed.

Lemma heap_demo_drop_ok d h : in_use others (demo_blocks d) h -> strong (cloned_reference d) = 1 -> weak (cloned_reference d) = 1 ->
  or_exhausted (heap_demo_drop d) h (fun _ h' => in_use others [] h').
Proof.
  intros Hu Es Ew. unfold heap_demo_drop, rc_drop, box_drop. cbn [strong weak rc_ptr rc_value]. rewrite Es, Ew.
  change (1 - 1 =? 0) with true. cbv iota. apply or_exhausted_bind, or_exhausted_bind.
  apply (vec_drop_ok _ _ _ _ Hu). intros h1 H1. apply or_exhausted_bind.
  eapply (dealloc_ok _ _ _ _ _); [exact H1|reflexivity|]. intros h2 H2. unfold or_exhausted at 1, mret, M_ret.
  apply or_exhausted_bind. apply (vec_drop_ok _ _ _ _ H2). intros h3 H3.
  eapply (dealloc_ok _ _ _ _ []); [exact H3|reflexivity|done].
Qed.

(** To free memory takes none. *)
Lemma heap_demo_drop_total d h : exists h', heap_demo_drop d h = Ok (tt, h').
Proof.
  clear others. unfold heap_demo_drop, rc_drop, vec_drop, box_drop, dealloc, modify. unfold mbind, M_bind, mret, M_ret.
  repeat case_match; simplify_eq; eauto.
Qed.
End Alloc.

(** ** Writing through a fresh mapping *)

Section Store.
Context {crate : X86Crate}.
Implicit Types m : mem.

Lemma heap_flags_bits i : 0 <= i -> Z.testbit heap_flags i = true -> i = 0 \/ i = 1.
Proof.
  intros Hi Hb. assert (i < 2 \/ 2 <= i) as [Hlt|Hge] by lia; [lia|].
  rewrite Z.bits_above_log2 in Hb; [done|done|]. change (Z.log2 heap_flags) with 1. lia.
Qed.

Lemma contains_heap_flags e : contains (pte_flags e) heap_flags = true -> pte_allows_kernel true e true = true.
Proof.
  rewrite contains_pte_flags; [| |done].
  - intros Hc. unfold pte_allows_kernel. rewrite (Hc 0), (Hc 1) by (lia || reflexivity). done.
  - intros i Hi Hb. destruct (heap_flags_bits i Hi Hb) as [->| ->]; set_solver.
Qed.

Lemma pte_allows_kernel_wp wp e : pte_allows_kernel true e true = true -> pte_allows_kernel wp e true = true.
Proof. unfold pte_allows_kernel. destruct wp; [done|]. by destruct (Z.testbit e 0). Qed.

Lemma translated_frame_present e : pte_allows_kernel true e true = true ->
  pte_frame e = if Z.testbit e 7 then HugeFrame else FrameOk (Z.land e ADDR_MASK).
Proof. unfold pte_allows_kernel. intros Ha. rewrite pte_frame_spec. by destruct (Z.testbit e 0). Qed.

Lemma kernel_walk_SS wp m t l x w :
  kernel_walk wp m t (S (S l)) x w =
  let e := table_entry m t (hw_index (S (S l)) x) in
  if negb (pte_allows_kernel wp e w) then None
  else if Z.testbit e 7 && negb (Nat.eqb (S (S l)) 4)
       then Some (Z.land e ADDR_MASK - Z.land e ADDR_MASK mod 2 ^ level_shift (S (S l)) + x mod 2 ^ level_shift (S (S l)))
       else kernel_walk wp m (Z.land e ADDR_MASK) (S l) x w.
Proof. done. Qed.

(** One step of a walk over present and writable entries. *)
Lemma writable_step m t l x f rest : pte_frame (table_entry m t (hw_index (S l) x)) = FrameOk f ->
  accessible_walk m t (hw_indexes (S l) x) heap_flags = true -> rest = hw_indexes l x ->
  pte_allows_kernel true (table_entry m t (hw_index (S l) x)) true = true /\ Z.testbit (table_entry m t (hw_index (S l) x)) 7 = false /\
  Z.land (table_entry m t (hw_index (S l) x)) ADDR_MASK = f /\ accessible_walk m f rest heap_flags = true.
Proof.
  intros Hf Hw ->. rewrite accessible_walk_step, andb_true_iff, Hf in Hw. destruct Hw as [Hc Hw]. apply contains_heap_flags in Hc.
  assert (E := translated_frame_present _ Hc). rewrite Hf in E. destruct (Z.testbit _ 7); [done|]. by injection E as <-.
Qed.

(** The kernel reaches the frame the tree maps the page to. *)
Lemma tree_kernel_access wp m l (c : ptree (S l)) x f :
  repr m (S l) c -> tree_lookup (S l) x c = Some f -> accessible_walk m (root c) (hw_indexes (S l) x) heap_flags = true ->
  kernel_walk wp m (root c) (S l) x true = Some (f + x mod PAGE_SIZE).
Proof.
  revert c; induction l as [|l IH]; intros c Hr Hl Hw.
  - specialize (Hr _ (hw_index_lt 1 x)). cbn [tree_lookup] in Hl. destruct (children c !! hw_index 1 x) as [d|]; [|done].
    destruct Hr as [Hf _]. rewrite (root_table c) in *. destruct (writable_step _ _ _ _ _ _ Hf Hw eq_refl) as (Ha & _ & E & _).
    cbn [kernel_walk]. rewrite (pte_allows_kernel_wp wp _ Ha), E. cbn in Hl. injection Hl as ->. done.
  - specialize (Hr _ (hw_index_lt (S (S l)) x)). cbn [tree_lookup] in Hl. destruct (children c !! hw_index (S (S l)) x) as [d|]; [|done].
    destruct Hr as [Hf Hr]. rewrite (root_table c) in *. destruct (writable_step _ _ _ _ _ _ Hf Hw eq_refl) as (Ha & E7 & E & Hw').
    rewrite kernel_walk_SS. cbv zeta. rewrite (pte_allows_kernel_wp wp _ Ha), E7, E. cbn [negb andb]. by apply IH.
Qed.

Lemma space_kernel_access wp m l4 shared top p f off :
  repr_space m l4 shared top -> hw_index 4 p ∉ shared -> p mod PAGE_SIZE = 0 -> 0 <= p < 2 ^ 47 -> 0 <= off < PAGE_SIZE ->
  space_lookup top p = Some f -> accessible_walk m l4 (hw_indexes 4 p) heap_flags = true ->
  kernel_access wp m l4 (p + off) true = Ok (f + off).
Proof.
  intros [_ Hr] Hs Hp Hb Ho Hl Hw. assert (Hidx := page_indexes p off Hp Ho).
  rewrite <- Hidx in Hw. rewrite (space_lookup_indexes top p (p + off)) in Hl by done.
  assert (H4 : hw_index 4 (p + off) = hw_index 4 p) by (rewrite !hw_indexes_S in Hidx; congruence).
  unfold kernel_access. rewrite bool_decide_eq_true_2.
  2: { unfold canonical. unfold PAGE_SIZE in *. apply Z.div_exact in Hp; lia. }
  unfold space_lookup in Hl. specialize (Hr _ (hw_index_lt 4 (p + off)) ltac:(by rewrite H4)).
  destruct (top !! hw_index 4 (p + off)) as [c|] eqn:Ec; [|done]. destruct Hr as [Hf Hr].
  destruct (writable_step _ _ _ _ _ _ Hf Hw eq_refl) as (Ha & E7 & E & Hw').
  rewrite kernel_walk_SS. cbv zeta. rewrite (pte_allows_kernel_wp wp _ Ha), E7, E. cbn [negb andb].
  rewrite (tree_kernel_access wp m 2 c (p + off) f Hr Hl Hw'). cbn [expect]. do 2 f_equal.
  unfold PAGE_SIZE in *. apply Z.div_exact in Hp; [|lia]. rewrite Hp, Z.add_comm, Z.mul_comm, Z.mod_add, Z.mod_small; lia.
Qed.
End Store.

(** ** [run_bringup_demo] *)

(** The text buffer of the screen in physical memory: two bytes for a cell,
    the character and its color. *)
Definition VGA_BUFFER : Z := 0xb8000.
Definition VGA_SIZE : Z := 2 * Z.of_nat (BUFFER_WIDTH * BUFFER_HEIGHT).

Definition poke_cell (offset b : Z) (cell : ScreenChar) : ScreenChar :=
  if Z.even offset then mkScreenChar b (sc_color_code cell) else mkScreenChar (ascii_character cell) b.

Definition poke_screen (offset b : Z) (c : Console) : Console :=
  let row := Z.to_nat (offset / (2 * Z.of_nat BUFFER_WIDTH)) in
  let col := Z.to_nat (offset mod (2 * Z.of_nat BUFFER_WIDTH) / 2) in
  let w := writer c in
  let cells : list (list ScreenChar) := buffer w in
  mkConsole (mkWriter (column_position w) (color_code w) (alter (alter (poke_cell offset b) col) row cells)) (writer_locked c) (console_interrupts c).

Section Demo.
Context {crate : X86Crate} {mapper : PageMapper} {H : Type} {kheap : KernelHeap H} {D : Type} `{!SectorDisk D}.
Local Abbreviation Sys := (Sys (H := H) (D := D)).
Implicit Types (s : System H D) (k : Kernel H).

Definition on_heap {A} (f : M H A) : Sys A := fun s =>
  '(a, h) ← f (heap (kernel s)); Ok (Go a, set_kernel (set_heap h (kernel s)) s).

(** A byte stored by the kernel. *)
Definition store_byte (wp : bool) (va b : Z) : Sys unit := fun s =>
  let k := kernel s in
  p ← kernel_access wp (phys k) (cr3 k) va true;
  if (VGA_BUFFER <=? p) && (p <? VGA_BUFFER + VGA_SIZE) then
    Ok (Go tt, mkSystem k (poke_screen (p - VGA_BUFFER) b (console s)) (input s) (disk s))
  else Ok (Go tt, set_kernel (set_memory (write_list (phys k) p [b]) (frames k) k) s).

(** [write_volatile] of several bytes. *)
Fixpoint store_bytes (wp : bool) (va : Z) (bs : list Z) : Sys unit :=
  match bs with
  | [] => mret tt
  | b :: rest => _ ← store_byte wp va b; store_bytes wp (va + 1) rest
  end.

(** [Display] of a pointer and of a number. *)
Variables (show_ptr show_usize : Z -> list Z).

Definition heap_line (d : HeapDemo) : list (list Z) :=
  [bytes_of "[mem]   heap OK " ++ [8212] ++ bytes_of " Box at "; show_ptr (box_ptr (heap_value d)); bytes_of ", Vec at ";
   show_ptr (vec_ptr (demo_vec d)); bytes_of ", Rc refcount "; show_usize (refcount_before_drop d); bytes_of " -> ";
   show_usize (refcount_after_drop d); [10]].

Definition EXAMPLE_PAGE : Z := 0xdeadbeaf000.

Definition run_bringup_demo (wp : bool) (l4 : Z) : Sys unit :=
  page ← check (va ← va_new EXAMPLE_PAGE; Ok (page_containing va));
  _ ← (fun s => '(m, a) ← create_example_mapping page l4 (phys (kernel s)) (frames (kernel s));
                Ok (Go tt, set_kernel (set_memory m a (kernel s)) s));
  _ ← store_bytes wp (page + 8 * 400) (le_encode 8 0xf021f077f065f04e);
  d ← on_heap heap_demo;
  _ ← print (heap_line d);
  on_heap (heap_demo_drop d).

(** The cells of [New!], black on white, over the start of a row. *)
Definition new_cells : list ScreenChar :=
  (fun c => mkScreenChar c 0xf0) <$> bytes_of "New!".

Definition new_on_screen (w : Writer) : Writer :=
  let cells : list (list ScreenChar) := buffer w in
  mkWriter (column_position w) (color_code w) (alter (fun row => new_cells ++ drop 4 row) 20%nat cells).

Definition new_on_terminal (t : Terminal) : Terminal :=
  mkTerminal (alter (fun row => new_cells ++ drop 4 row) (length (lines t) - 4)%nat (lines t)) (line t).

Lemma alter_insert {A} (f : A -> A) i (l : list A) x : l !! i = Some x -> alter f i l = <[i := f x]> l.
Proof. revert i. induction l as [|y l IH]; intros [|i] E; [done..|by injection E as <-|]. cbn. f_equal. by apply IH. Qed.

Lemma store_byte_screen wp va b off s : kernel_access wp (phys (kernel s)) (cr3 (kernel s)) va true = Ok (VGA_BUFFER + off) -> 0 <= off < VGA_SIZE ->
  store_byte wp va b s = Ok (Go tt, mkSystem (kernel s) (poke_screen off b (console s)) (input s) (disk s)).
Proof.
  intros E Ho. unfold store_byte. rewrite E. cbn [mbind outcome_bind].
  rewrite (proj2 (Z.leb_le _ _)), (proj2 (Z.ltb_lt _ _)) by lia. cbn [andb]. do 4 f_equal. lia.
Qed.

Fixpoint poke_all (off : Z) (bs : list Z) (c : Console) : Console :=
  match bs with [] => c | b :: rest => poke_all (off + 1) rest (poke_screen off b c) end.

Lemma store_bytes_screen wp page off bs : forall s, 
  (forall i, off <= i < off + Z.of_nat (length bs) -> kernel_access wp (phys (kernel s)) (cr3 (kernel s)) (page + i) true = Ok (VGA_BUFFER + i)) ->
  0 <= off -> off + Z.of_nat (length bs) <= VGA_SIZE ->
  store_bytes wp (page + off) bs s = Ok (Go tt, mkSystem (kernel s) (poke_all off bs (console s)) (input s) (disk s)).
Proof.
  revert off. induction bs as [|b bs IH]; intros off s Ha H0 Hl; cbn [store_bytes poke_all length] in *; [by destruct s|].
  unfold mbind, Sys_bind. rewrite (store_byte_screen wp _ b off s); [|apply Ha; lia|lia]. rewrite <- Z.add_assoc. rewrite IH; [done| |lia|lia].
  intros i Hi. cbn [kernel]. apply Ha. lia.
Qed.

Lemma poke_row w (r : list ScreenChar) i c off b l ci : (buffer w : list (list ScreenChar)) !! 20%nat = Some r -> r !! i = Some c ->
  Z.to_nat (off / 160) = 20%nat -> Z.to_nat (off mod 160 / 2) = i ->
  poke_screen off b (mkConsole w l ci) =
  mkConsole (mkWriter (column_position w) (color_code w) (<[20%nat := <[i := poke_cell off b c]> r]> (buffer w : list (list ScreenChar)))) l ci.
Proof.
  intros Hr Hc E1 E2. unfold poke_screen. cbn [writer writer_locked console_interrupts].
  change (2 * Z.of_nat BUFFER_WIDTH) with 160. rewrite E1, E2, (alter_insert _ _ _ _ Hr). by rewrite (alter_insert _ _ _ _ Hc).
Qed.

(** One more byte at column [i] of row 20. *)
Ltac poke i :=
  erewrite (poke_row _ _ i); [|cbn [buffer]; match goal with Hins : _ |- _ => apply Hins end|reflexivity|reflexivity|reflexivity];
  cbn [buffer column_position color_code]; rewrite list_insert_insert_eq.

Lemma poke_new w l ci : screen_ok (buffer w) ->
  poke_all 3200 (le_encode 8 0xf021f077f065f04e) (mkConsole w l ci) = mkConsole (new_on_screen w) l ci.
Proof.
  intros Hok. destruct (screen_row _ 20 Hok) as (r & Hr & Lr); [unfold BUFFER_HEIGHT; lia|].
  destruct r as [|c0 [|c1 [|c2 [|c3 r]]]]; try (cbn in Lr; unfold BUFFER_WIDTH in Lr; lia).
  assert (Hlt := lookup_lt_Some _ _ _ Hr). assert (Hins : forall x, (<[20%nat := x]> (buffer w : list (list ScreenChar))) !! 20%nat = Some x)
    by (intros x; by apply list_lookup_insert_eq).
  change (le_encode 8 0xf021f077f065f04e) with [78; 240; 101; 240; 119; 240; 33; 240]. cbn [poke_all].
  unfold new_on_screen. rewrite (alter_insert _ _ _ _ Hr).
  rewrite (poke_row w _ 0 c0) by done. poke 0%nat. poke 1%nat. poke 1%nat. poke 2%nat. poke 2%nat. poke 3%nat. poke 3%nat.
  done.
Qed.

Lemma new_on_screen_shows w t : shows w t -> shows (new_on_screen w) (new_on_terminal t).
Proof.
  intros (H1 & H2 & H3 & H4 & H5). unfold new_on_screen, new_on_terminal, BUFFER_HEIGHT in *. rewrite H5.
  destruct (lookup_lt_is_Some_2 (lines t) (length (lines t) - 4)) as [r Hr]; [lia|].
  assert (Lr := Forall_lookup_1 _ _ _ _ H3 Hr). cbn beta in Lr.
  set (k := (length (lines t) - (25 - 1))%nat). replace (length (lines t) - 4)%nat with (k + 20)%nat in * by lia.
  assert (Hd : drop k (lines t) !! 20%nat = Some r) by (by rewrite lookup_drop).
  rewrite (alter_insert _ _ (lines t) r Hr), (alter_insert _ _ (drop k (lines t) ++ _) r) by (rewrite lookup_app_l; [done|rewrite length_drop; lia]).
  split_and!; cbn [lines line column_position buffer]; [done|done| |by rewrite length_insert|].
  - apply Forall_insert; [done|]. rewrite length_app, length_drop, Lr. unfold BUFFER_WIDTH. cbn. lia.
  - rewrite length_insert. unfold BUFFER_HEIGHT. change (length (lines t) - (25 - 1))%nat with k. rewrite drop_insert_ge by lia. replace (k + 20 - k)%nat with 20%nat by lia.
    rewrite insert_app_l; [done|]. rewrite length_drop. lia.
Qed.

(** What [run_bringup_demo] leaves behind. *)
Record bringup_done (l4 : Z) (shared : list nat) (top : gmap nat (ptree 3)) (t : Terminal) s s' : Prop := {
  bd_heap : heap_inv (heap (kernel s')) /\ heap_live (heap (kernel s')) ≡ₚ heap_live (heap (kernel s));
  bd_run : (d ← heap_demo; heap_demo_drop d) (heap (kernel s)) = Ok (tt, heap (kernel s'));
  bd_screen : exists d, refcount_before_drop d = 2 /\ refcount_after_drop d = 1 /\ elements (demo_vec d) = seqZ 1 499 /\
    shows (writer (console s')) (type_bytes (color_code (writer (console s))) (shown <$> concat (heap_line d)) (new_on_terminal t));
  bd_kernel : kernel s' = set_heap (heap (kernel s')) (set_memory (phys (kernel s')) (frames (kernel s')) (kernel s));
  bd_rest : input s' = input s /\ disk s' = disk s /\ color_code (writer (console s')) = color_code (writer (console s));
  bd_space : exists top', space_ok (phys (kernel s')) l4 shared top' (frames (kernel s')) /\ space_lookup top' EXAMPLE_PAGE = Some VGA_BUFFER /\
    (forall page, hw_indexes 4 page <> hw_indexes 4 EXAMPLE_PAGE -> space_lookup top' page = space_lookup top page);
  bd_frames : fa_avail (frames (kernel s')) = drop (space_missing top EXAMPLE_PAGE) (fa_avail (frames (kernel s)));
  bd_unlocked : writer_locked (console s') = false;
}.

Lemma create_example_mapping_ok (a : GlobalFrameAllocator) m l4 shared top :
  space_ok m l4 shared top a -> hw_index 4 EXAMPLE_PAGE ∉ shared -> space_lookup top EXAMPLE_PAGE = None ->
  (space_missing top EXAMPLE_PAGE <= length (fa_avail a))%nat ->
  exists m' a' top', create_example_mapping EXAMPLE_PAGE l4 m a = Ok (m', a') /\
    mapped_ok m m' l4 shared top top' EXAMPLE_PAGE VGA_BUFFER heap_flags a a'.
Proof.
  intros Hs Hsh Hn Hm. destruct (map_to_ok m l4 shared top EXAMPLE_PAGE VGA_BUFFER heap_flags a Hs) as (m' & a' & top' & E & Hmo); try done.
  - split_and!; [done|unfold canonical, EXAMPLE_PAGE; lia|done|split; [done|unfold VGA_BUFFER; lia]|apply heap_flags_page].
  - exists m', a', top'. split; [|done]. unfold create_example_mapping. rewrite pa_new_ok by lia. cbn [expect mbind outcome_bind].
    rewrite frame_containing_spec by lia. change (0xb8000 - 0xb8000 mod PAGE_SIZE) with VGA_BUFFER. fold heap_flags. by rewrite E.
Qed.

Lemma mapped_store wp m m' l4 shared top top' (a a' : GlobalFrameAllocator) i :
  mapped_ok m m' l4 shared top top' EXAMPLE_PAGE VGA_BUFFER heap_flags a a' -> hw_index 4 EXAMPLE_PAGE ∉ shared -> 0 <= i < PAGE_SIZE ->
  kernel_access wp m' l4 (EXAMPLE_PAGE + i) true = Ok (VGA_BUFFER + i).
Proof.
  intros Hmo Hsh Hi. eapply space_kernel_access; [apply Hmo|done|done|unfold EXAMPLE_PAGE; lia|done|apply Hmo|apply Hmo].
Qed.

Lemma mapped_space_ok {A} `{!FrameAllocator A, !FrameDeallocator A, !LawfulFrameAllocator A} m m' l4 shared top top' page frame flags (a a' : A) :
  space_ok m l4 shared top a -> mapped_ok m m' l4 shared top top' page frame flags a a' -> space_ok m' l4 shared top' a'.
Proof.
  intros (_ & _ & _ & O4 & O5) Hmo. assert (Hp : space_tables l4 top' ++ fa_avail a' ≡ₚ space_tables l4 top ++ fa_avail a).
  { rewrite (mapped_tables _ _ _ _ _ _ _ _ _ _ _ Hmo), (mapped_avail _ _ _ _ _ _ _ _ _ _ _ Hmo).
    rewrite <- app_assoc, Permutation_app_swap_app. by rewrite take_drop. }
  split_and!; [apply Hmo|apply Hmo|apply Hmo|by rewrite Hp|by rewrite Hp].
Qed.

Lemma bringup_demo_ok wp l4 shared top s t :
  cr3 (kernel s) = l4 -> space_ok (phys (kernel s)) l4 shared top (frames (kernel s)) -> hw_index 4 EXAMPLE_PAGE ∉ shared ->
  space_lookup top EXAMPLE_PAGE = None -> (space_missing top EXAMPLE_PAGE <= length (fa_avail (frames (kernel s))))%nat ->
  heap_inv (heap (kernel s)) -> shows (writer (console s)) t -> writer_locked (console s) = false ->
  match heap_demo (heap (kernel s)) with
  | Ok _ => exists s', run_bringup_demo wp l4 s = Ok (Go tt, s') /\ bringup_done l4 shared top t s s'
  | Panic msg => msg = "memory allocation failed"%string /\ run_bringup_demo wp l4 s = Panic msg
  end.
Proof.
  intros Hcr Hsp Hsh Hn Hm Hh Hs Hl. destruct s as [k [w wl ci] q d]. cbn [kernel console writer writer_locked] in *. subst wl l4.
  destruct (create_example_mapping_ok (frames k) (phys k) (cr3 k) shared top Hsp Hsh Hn Hm) as (m & a & top' & Em & Hmo).
  unfold run_bringup_demo, va_new. rewrite va_try_new_canonical by (unfold canonical, EXAMPLE_PAGE; lia).
  cbn [expect mbind outcome_bind]. rewrite page_containing_spec by (unfold canonical, EXAMPLE_PAGE; lia).
  change (EXAMPLE_PAGE - EXAMPLE_PAGE mod PAGE_SIZE) with EXAMPLE_PAGE. unfold check, mbind, Sys_bind. cbn [outcome_bind mbind kernel].
  rewrite Em. cbn [outcome_bind]. set (k1 := set_memory m a k). change (set_kernel k1 _) with (mkSystem k1 (mkConsole w false ci) q d).
  change (8 * 400) with 3200. rewrite store_bytes_screen; [|intros i Hi; by eapply mapped_store; [exact Hmo|done|change (length (le_encode _ _)) with 8%nat in Hi; unfold PAGE_SIZE; lia]|lia|].
  2: { change (length (le_encode _ _)) with 8%nat. vm_compute. discriminate. }
  cbn [kernel console input disk]. rewrite (poke_new w false ci (shows_screen_ok _ _ Hs)).
  assert (Hd := heap_demo_ok (heap_live (heap k)) (heap k) (conj Hh (reflexivity _))). unfold or_exhausted in Hd. unfold on_heap. cbn [kernel].
  change (heap k1) with (heap k). destruct (heap_demo (heap k)) as [[hd h1]|msg] eqn:Ehd; [|by split]. cbn [mbind outcome_bind].
  destruct Hd as (Hu & R1 & R2 & S1 & W1 & Ev & _).
  set (k2 := set_heap h1 k1). change (set_kernel k2 _) with (mkSystem k2 (mkConsole (new_on_screen w) false ci) q d).
  destruct (print_keeps (heap_line hd) (mkSystem k2 (mkConsole (new_on_screen w) false ci) q d) (new_on_terminal t)) as (w' & Ep & Hs' & Hcol);
    [by apply new_on_screen_shows|done|]. rewrite Ep. cbn [kernel].
  assert (Hdr := heap_demo_drop_ok (heap_live (heap k)) hd h1 Hu S1 W1). unfold or_exhausted in Hdr.
  change (heap k2) with h1. destruct (heap_demo_drop_total hd h1) as [h2 Eh]. rewrite Eh in *. cbn [mbind outcome_bind].
  eexists. split; [reflexivity|]. split; cbn [kernel console set_kernel writer writer_locked].
  - destruct Hdr as [? Hp]. by split.
  - unfold mbind, M_bind. rewrite Ehd. exact Eh.
  - exists hd. split_and!; try done.
  - done.
  - split_and!; [done|done|]. exact Hcol.
  - exists top'. split_and!; [by eapply mapped_space_ok|apply Hmo|]. intros page Hp. by apply (mapped_others _ _ _ _ _ _ _ _ _ _ _ Hmo).
  - apply (mapped_avail _ _ _ _ _ _ _ _ _ _ _ Hmo).
  - done.
Qed.

(** The bring-up demo does what it says.  With room for the page tables,
    [run_bringup_demo] maps its example page to the screen and no other page
    elsewhere, writes [New!] there through that mapping, and shows the line
    on the heap, in which the reference count goes from 2 to 1; when it
    returns, every block it allocated (growing vector included) has been
    freed.  It panics only if the heap has no room for the demo. *)
Lemma bringup_demo_correct wp l4 shared top s t :
  cr3 (kernel s) = l4 -> space_ok (phys (kernel s)) l4 shared top (frames (kernel s)) -> hw_index 4 EXAMPLE_PAGE ∉ shared ->
  space_lookup top EXAMPLE_PAGE = None -> (space_missing top EXAMPLE_PAGE <= length (fa_avail (frames (kernel s))))%nat ->
  heap_inv (heap (kernel s)) -> shows (writer (console s)) t -> writer_locked (console s) = false ->
  match heap_demo (heap (kernel s)) with
  | Ok _ => exists s', run_bringup_demo wp l4 s = Ok (Go tt, s') /\ bringup_done l4 shared top t s s'
  | Panic msg => msg = "memory allocation failed"%string /\ run_bringup_demo wp l4 s = Panic msg
  end.
Proof. apply bringup_demo_ok. Qed.
End Demo.

(** ** A bring-up *)

Section Sample.
#[local] Existing Instances x86_crate ref_mapper no_file_disk.

Definition bringup_kernel : Kernel BumpHeap :=
  mkKernel None false 0x80000 0x11000 0 false (replicate MAX_THREADS Exited) (fun _ => 0) (fun _ => 0) (init_frame_allocator boot_ram)
    (mkBumpHeap HEAP_START []) (Some (3 * 2 ^ 39)).

Definition sample_show (n : Z) : list Z := if n =? 1 then bytes_of "1" else bytes_of "2".

Lemma bringup_heap_ok : is_ok (heap_demo (mkBumpHeap HEAP_START [])) = true.
Proof. vm_compute. reflexivity. Qed.

Lemma bringup_space_ok : space_ok (phys bringup_kernel) 0x11000 [] ∅ (frames bringup_kernel).
Proof.
  destruct sample_bootloader_ok as [_ _ _ Hm Hr _ Hreg [Hnd Hok]]. destruct (frame_allocator_init_lawful boot_ram Hreg) as [Hi Hav].
  change (fa_inv (frames bringup_kernel)) in Hi. change (fa_avail (frames bringup_kernel) = usable_frames boot_ram) in Hav.
  split_and!; [exact Hm|exact Hr|exact Hi|by rewrite Hav|by rewrite Hav].
Qed.

Lemma bringup_demo_correct_witness :
  exists s', run_bringup_demo (fun _ => bytes_of "0x0") sample_show true 0x11000 (sample_system bringup_kernel) = Ok (Go tt, s') /\
    heap_live (heap (kernel s')) ≡ₚ [].
Proof.
  assert (Hm : (space_missing ∅ EXAMPLE_PAGE <= length (fa_avail (frames bringup_kernel)))%nat).
  { destruct sample_bootloader_ok as [_ _ _ _ _ _ Hreg _]. destruct (frame_allocator_init_lawful boot_ram Hreg) as [_ Hav].
    change (fa_avail (frames bringup_kernel) = usable_frames boot_ram) in Hav. rewrite Hav, boot_ram_frames, length_stride.
    assert (Hmiss := space_missing_le ∅ EXAMPLE_PAGE). lia. }
  assert (Hh : heap_inv (heap bringup_kernel)) by (split; [reflexivity|constructor]).
  generalize bringup_heap_ok. generalize (bringup_demo_correct (fun _ => bytes_of "0x0") sample_show true 0x11000 [] ∅
    (sample_system bringup_kernel) sample_terminal eq_refl bringup_space_ok (not_elem_of_nil _) eq_refl Hm Hh sample_console_shows eq_refl).
  change (heap (kernel (sample_system bringup_kernel))) with (mkBumpHeap HEAP_START []).
  destruct (heap_demo (mkBumpHeap HEAP_START [])) as [r|msg]; [|discriminate 2].
  intros (s' & E & Hd) _. exists s'. split; [exact E|]. exact (proj2 (bd_heap _ _ _ _ _ _ _ _ Hd)).
Defined.
End Sample.
