(* ===== verification/Main.v ===== *)
(** * The kernel's main function (src/main.rs)

    [kernel_main] from its first line to the executor, block by block: the
    banner, the tables, memory and the scheduler, the bring-up demo, the
    self-checks, the programs of the disk, and the shell.  [SectorDisk] is
    the ATA driver: both drives are behind the same ports. *)

From S2P Require Import Executor Wakeup.
From S2P Require Import Prelude Ring X86 Asm FrameAlloc Paging AddressSpace Mapper MapperRef Mappings Elf ElfThms ElfImage ElfLoad.
From S2P Require Import Threads Scheduler SchedulerInv SpawnInv SchedulerThms Ata Fat FatThms Vga Keyboard Process Boot.
From S2P Require Import Interrupts Syscall SyscallThms SyscallIo SyscallSamples Userspace Lifecycle Reclaim Demos Harness Build Bringup.

(** ** Asking a page table

    An entry on the walk to [va] is not present. *)

Fixpoint not_present `{X86Crate} (m : mem) (t : Z) (indexes : list nat) : bool :=
  match indexes with
  | [] => false
  | i :: rest =>
      if Z.testbit (table_entry m t i) 0 then
        match pte_frame (table_entry m t i) with FrameOk f => not_present m f rest | _ => false end
      else true
  end.

(** [Translate] of the x86_64 crate, for the hierarchy of [l4]: the physical
    address, if the page is mapped. *)
Class Translate `{X86Crate} := {
  mapper_translate_addr : mem -> Z -> Z -> option Z;
  translate_addr_mapped m l4 va e : canonical va -> leaf_entry m l4 (hw_indexes 4 va) = Some e ->
    mapper_translate_addr m l4 va = Some (Z.land e ADDR_MASK + va mod PAGE_SIZE);
  translate_addr_unmapped m l4 va : canonical va -> not_present m l4 (hw_indexes 4 va) = true ->
    mapper_translate_addr m l4 va = None;
}.

(** ** The keyboard's queue and the first task *)

Section Tasks.
Context {Q R F S : Type} `{!BoundedQueue Q Z} `{!BoundedQueue R Z}.

(** [SCANCODE_QUEUE] is set once; [new] is [ArrayQueue::new(100)]. *)
Definition init_queue (new : Q) (SCANCODE_QUEUE : option Q) : outcome (option Q) :=
  match SCANCODE_QUEUE with
  | None => Ok (Some new)
  | Some _ => Panic "keyboard::init_queue should only be called once"
  end.

Definition scancode_stream_new (SCANCODE_QUEUE : option Q) : outcome unit :=
  match SCANCODE_QUEUE with
  | None => Panic "keyboard::init_queue() must be called before ScancodeStream::new()"
  | Some _ => Ok tt
  end.

(** [new] is [ArrayQueue::new(MAX_QUEUED_TASKS)]. *)
Definition executor_new (new : R) (w : S) : Executor R F S := mkExecutor ∅ new ∅ w.

(** A task: its id and its future. *)
Record Task := mkTask { task_id : Z; future : F }.

Definition task_new (f : F) (NEXT_ID : Z) : Task * Z :=
  let '(id, next) := task_id_new NEXT_ID in (mkTask id f, next).
End Tasks.
#[global] Arguments Task F : clear implicits.

(** ** [kernel_main] *)

(** The functions whose addresses are taken. *)
Record Functions := mkFunctions {
  fn_thread_trampoline : Z; fn_demo_thread_a : Z; fn_demo_thread_b : Z; fn_run_demo : Z; fn_run_isolated_demo : Z;
  fn_run_elf_demo : Z; fn_run_open_read_demo : Z; fn_run_bad_pointer_demo : Z; fn_run_spawn_wait_demo : Z;
  fn_exit_demo_thread : Z; fn_isolated_exit_demo_thread : Z }.

Definition em_dash : list Z := [8212].

Section Main.
Context {crate : X86Crate} {mapper : PageMapper} {trans : Translate} {H : Type} {kheap : KernelHeap H}.
Context {D : Type} `{!PortIo D, !AtaDrive D}.
Local Abbreviation Sys := (Sys (H := H) (D := D)).

Variable fns : Functions.
(** [Display] of a pointer, of a number and of a number in base 16. *)
Variables (show_ptr show_usize show_hex : Z -> list Z).

Definition println (pieces : list (list Z)) : Sys unit := print (pieces ++ [[10]]).

Definition boot_sector_check : Sys unit :=
  sector ← on_disk (Ata.read_sector Primary 0);
  b510 ← check (expect (sector !! 510%nat) "index out of bounds");
  b511 ← check (expect (sector !! 511%nat) "index out of bounds");
  if (b510 =? 0x55) && (b511 =? 0xAA) then
    println [bytes_of "[ata]   boot sector read back OK (0x55AA signature present)"]
  else println [bytes_of "[ata]   FAILED "; em_dash; bytes_of " boot signature missing, something is wrong with the ATA driver"].

(** The two demo threads, for a number of turns of their loops; [n] is a
    [u64]. *)
Fixpoint demo_thread_a (turns : nat) (n : Z) : Sys Z :=
  match turns with
  | O => mret n
  | S turns' => _ ← println [bytes_of "[thread A] "; show_usize n]; n ← check (add_w 64 n 1); demo_thread_a turns' n
  end.

(** [yield_now] as its caller sees it. *)
Variable yield_now : Sys unit.

Fixpoint demo_thread_b (turns : nat) (n : Z) : Sys Z :=
  match turns with
  | O => mret n
  | S turns' =>
      _ ← println [bytes_of "[thread B] "; show_usize n]; n ← check (add_w 64 n 1);
      _ ← yield_now; demo_thread_b turns' n
  end.

(** The blocks behind [if false]. *)
Definition spawn_demo_threads (enabled : bool) : Sys unit :=
  if enabled then
    _ ← on_kernel (Scheduler.spawn (fn_thread_trampoline fns) (fn_demo_thread_a fns));
    on_kernel (Scheduler.spawn (fn_thread_trampoline fns) (fn_demo_thread_b fns))
  else mret tt.

Definition spawn_shared_demo (enabled : bool) (l4 : Z) : Sys unit :=
  if enabled then
    _ ← on_kernel (map_demo_page l4);
    on_kernel (Scheduler.spawn (fn_thread_trampoline fns) (fn_run_demo fns))
  else mret tt.

Definition isolation_ok_line : list (list Z) :=
  [bytes_of "[proc]  isolation OK "; em_dash; bytes_of " kernel cannot see the isolated demo's page"].

Definition isolation_check (phys_mem_offset l4 : Z) : Sys unit :=
  _ ← on_kernel (spawn_isolated_demo (fn_thread_trampoline fns) (fn_run_isolated_demo fns) phys_mem_offset l4 false);
  isolated_addr ← check (va_new ISOLATED_USER_PAGE_ADDR);
  m ← get (fun s => phys (kernel s));
  match mapper_translate_addr m l4 isolated_addr with
  | None => println isolation_ok_line
  | Some _ => println [bytes_of "[proc]  FAILED "; em_dash; bytes_of " kernel can still see the isolated demo's page"]
  end.

(** The result is what is stored in [ELF_DEMO_ENTRY] and
    [ELF_DEMO_STACK_TOP]. *)
Definition elf_line (entry stack_top : Z) : list (list Z) :=
  [bytes_of "[elf]   loaded OK "; em_dash; bytes_of " entry="; show_hex entry; bytes_of ", stack_top="; show_hex stack_top].

Definition spawn_loaded_elf_demo (elf_bytes : list Z) (physical_memory_offset kernel_table : Z) (run : bool) : Sys (Z * Z) :=
  r ← on_kernel (fun k => '(r, (m, a)) ← load elf_bytes (cr3 k) physical_memory_offset [] (phys k, frames k); Ok (r, set_memory m a k));
  loaded ← check (expect r "elf::load: kernel's own or build.rs's ECHO.ELF should always be well-formed");
  _ ← println (elf_line (Elf.entry loaded) (stack_top loaded));
  _ ← (if run then
         _ ← on_kernel (spawn_isolated (fn_thread_trampoline fns) (fn_run_elf_demo fns) (Elf.page_table loaded) kernel_table); mret tt
       else mret tt);
  mret (Elf.entry loaded, stack_top loaded).

Definition spawn_elf_demo (physical_memory_offset kernel_table : Z) (run : bool) : Sys (Z * Z) :=
  elf_bytes ← check (build_test_elf ELF_LOAD_ADDR);
  spawn_loaded_elf_demo elf_bytes physical_memory_offset kernel_table run.

Definition spawn_disk_elf_demo (elf_bytes : list Z) (physical_memory_offset kernel_table : Z) (run : bool) : Sys (Z * Z) :=
  spawn_loaded_elf_demo elf_bytes physical_memory_offset kernel_table run.

(** [fs::read_file]: the heap has room for the file, the chain has at most
    [fuel] clusters. *)
Variables (can_allocate : Z -> bool) (fuel : nat).

Definition echo_missing_line : list (list Z) :=
  [bytes_of "[fs]    ECHO.ELF not found on the FAT16 disk (was fs.img built? see build.rs)"].

Definition disk_elf_demo (phys_mem_offset l4 : Z) : Sys unit :=
  data ← on_disk (read_file fuel can_allocate (bytes_of "ECHO.ELF"));
  match data with
  | Some elf_bytes =>
      _ ← println [bytes_of "[fs]    read ECHO.ELF ("; show_usize (Z.of_nat (length elf_bytes)); bytes_of " bytes) off the FAT16 disk"];
      _ ← spawn_disk_elf_demo elf_bytes phys_mem_offset l4 false; mret tt
  | None => println echo_missing_line
  end.

(** At most [n] rounds of the [while] loop. *)
Fixpoint wait_while_alive (n : nat) (pid : Pid) : Sys unit :=
  alive ← on_kernel (thread_alive pid);
  if alive : bool then
    match n with
    | O => check (Panic "wait_for_demo: out of fuel")
    | S n' => _ ← yield_now; wait_while_alive n' pid
    end
  else mret tt.

Variable rounds : nat.

Definition wait_for_demo (pid : option Pid) : Sys unit :=
  match pid with Some pid => wait_while_alive rounds pid | None => mret tt end.

Definition open_read_demo (phys_mem_offset l4 : Z) : Sys unit :=
  _ ← println [bytes_of "[fs]    HELLO.TXT via ring-3 sys_open/sys_read/sys_write:"];
  pid ← on_kernel (spawn_open_read_demo (fn_thread_trampoline fns) (fn_run_open_read_demo fns) phys_mem_offset l4 true);
  wait_for_demo pid.

Definition bad_pointer_demo (phys_mem_offset l4 : Z) : Sys unit :=
  pid ← on_kernel (spawn_bad_pointer_demo (fn_thread_trampoline fns) (fn_run_bad_pointer_demo fns) phys_mem_offset l4 true);
  wait_for_demo pid.

Definition spawn_wait_demo (phys_mem_offset l4 : Z) : Sys unit :=
  pid ← on_kernel (spawn_spawn_wait_demo (fn_thread_trampoline fns) (fn_run_spawn_wait_demo fns) phys_mem_offset l4 true);
  wait_for_demo pid.

(** The first loop of the lifecycle demo, over the values of [i]. *)
Definition threads_line : list (list Z) := [bytes_of "[sched] 40 threads spawned/exited through a 16-slot table OK"].

Fixpoint exit_demos (indices : list Z) : Sys unit :=
  match indices with
  | [] => mret tt
  | i :: rest =>
      _ ← on_kernel (exit_demo_round (fn_thread_trampoline fns) (fn_exit_demo_thread fns));
      _ ← (if i =? 39 then println threads_line else mret tt);
      exit_demos rest
  end.

Definition reclaim_demo (phys_mem_offset l4 : Z) : Sys unit :=
  _ ← on_kernel (isolated_loop 20 (fn_thread_trampoline fns) (fn_isolated_exit_demo_thread fns) phys_mem_offset l4);
  println [bytes_of "[sched] 20 isolated address spaces spawned/exited and fully reclaimed OK"].

Definition shell_missing_line : list (list Z) := [bytes_of "[fs]    SHELL.ELF not found (was fs.img built? see build.rs)"].

Definition start_shell (phys_mem_offset l4 : Z) : Sys unit :=
  data ← on_disk (read_file fuel can_allocate (bytes_of "SHELL.ELF"));
  match data with
  | Some elf_bytes => _ ← spawn_disk_elf_demo elf_bytes phys_mem_offset l4 true; mret tt
  | None => println shell_missing_line
  end.

(** CR0.WP; [LockedHeap::init]; the stacks of [gdt::init]. *)
Variables (wp : bool) (heap_init : Z -> Z -> H) (double_fault_stack default_stack : Z).
Context {G Q R F W : Type} `{!GlobalDescriptorTable G, !BoundedQueue Q Z, !BoundedQueue R Z}.
Variables (scancodes : Q) (ready : R) (print_keypresses : F) (world : W).

(** The first lines, up to the demo of the bring-up: the mapper, the
    descriptor tables and the queue of the keyboard. *)
Definition start_up (boot_physical_memory_offset : Z) (memory_map : list MemoryRegion) : Sys (OffsetPageTable * CpuTables G * option Q) :=
  _ ← println [bytes_of "Velora OS"];
  _ ← println [bytes_of "========="];
  cpu ← check (lib_init double_fault_stack default_stack);
  phys_mem_offset ← check (va_new boot_physical_memory_offset);
  handle ← on_kernel (memory_init phys_mem_offset);
  _ ← on_kernel (init_memory heap_init (table_frame handle) phys_mem_offset memory_map);
  scancode_queue ← check (init_queue scancodes None);
  _ ← on_kernel init;
  _ ← on_kernel enable_interrupts;
  mret (handle, cpu, scancode_queue).

(** What the kernel checks of itself. *)
Definition self_checks (phys_mem_offset l4 : Z) : Sys unit :=
  _ ← run_bringup_demo show_ptr show_usize wp l4;
  _ ← boot_sector_check;
  _ ← spawn_demo_threads false;
  _ ← spawn_shared_demo false l4;
  _ ← isolation_check phys_mem_offset l4;
  _ ← spawn_elf_demo phys_mem_offset l4 false;
  mret tt.

(** The programs, and the loops that spawn and reap. *)
Definition later_programs (phys_mem_offset l4 : Z) : Sys unit :=
  _ ← spawn_wait_demo phys_mem_offset l4;
  _ ← exit_demos (seqZ 0 40);
  _ ← reclaim_demo phys_mem_offset l4;
  start_shell phys_mem_offset l4.

Definition programs (phys_mem_offset l4 : Z) : Sys unit :=
  _ ← disk_elf_demo phys_mem_offset l4;
  _ ← open_read_demo phys_mem_offset l4;
  _ ← bad_pointer_demo phys_mem_offset l4;
  later_programs phys_mem_offset l4.

(** The executor with its one task, when [run] is called. *)
Definition start_executor : Sys (Executor R F W) :=
  _ ← println [];
  _ ← println [bytes_of "Velora OS ready "; em_dash; bytes_of " the shell is running below. Type a program name (e.g. GREET.ELF) and press Enter."];
  let '(task, _) := task_new print_keypresses 0 in
  check (Executor.spawn (task_id task) (future task) (executor_new ready world)).

Definition run_programs (handle : OffsetPageTable) (cpu : CpuTables G) (scancode_queue : option Q)
    : Sys (CpuTables G * option Q * Executor R F W) :=
  _ ← programs (phys_offset handle) (table_frame handle);
  executor ← start_executor;
  mret (cpu, scancode_queue, executor).

Definition kernel_main (boot_physical_memory_offset : Z) (memory_map : list MemoryRegion) : Sys (CpuTables G * option Q * Executor R F W) :=
  '(handle, cpu, scancode_queue) ← start_up boot_physical_memory_offset memory_map;
  _ ← self_checks (phys_offset handle) (table_frame handle);
  run_programs handle cpu scancode_queue.
End Main.

(** ** Walks through a tree *)

Section Walks.
Context {crate : X86Crate}.
Implicit Types m : mem.

Lemma not_present_step m t i rest f : pte_frame (table_entry m t i) = FrameOk f ->
  not_present m t (i :: rest) = not_present m f rest.
Proof. cbn [not_present]. intros E. rewrite E. rewrite pte_frame_spec in E. by destruct (Z.testbit _ 0). Qed.

Lemma tree_not_present m l (c : ptree l) va : repr m l c -> tree_lookup l va c = None ->
  not_present m (root c) (hw_indexes l va) = true.
Proof.
  revert c. induction l as [|l IH]; intros c Hr Hl; [done|]. rewrite hw_indexes_S, root_table.
  specialize (Hr _ (hw_index_lt (S l) va)). cbn [tree_lookup] in Hl.
  destruct (children c !! hw_index (S l) va) as [d|]; [|cbn [not_present]; by rewrite Hr].
  destruct Hr as [Hf Hr]. rewrite (not_present_step _ _ _ _ _ Hf). by apply IH.
Qed.

(** What a tree does not map is not present in memory. *)
Lemma space_not_present m l4 shared top va : repr_space m l4 shared top -> hw_index 4 va ∉ shared -> space_lookup top va = None ->
  not_present m l4 (hw_indexes 4 va) = true.
Proof.
  intros [_ Hr] Hs Hl. specialize (Hr _ (hw_index_lt 4 va) Hs). unfold space_lookup in Hl. rewrite hw_indexes_S.
  destruct (top !! hw_index 4 va) as [c|]; [|cbn [not_present]; by rewrite Hr].
  destruct Hr as [Hf Hr]. rewrite (not_present_step _ _ _ _ _ Hf). by apply (tree_not_present m 3 c).
Qed.

(** A tree whose tables are not among the frames that were taken. *)
Lemma took_space_ok n m m' l4 shared top (a a' : GlobalFrameAllocator) : space_ok m l4 shared top a -> fa_inv a' ->
  took n m m' (fa_avail a) (fa_avail a') -> space_ok m' l4 shared top a'.
Proof.
  intros (_ & O2 & _ & O4 & O5) Hi [T1 T2 _ T4]. assert (Hsub : space_tables l4 top ++ fa_avail a' ⊆+ space_tables l4 top ++ fa_avail a)
    by (by apply submseteq_app). split_and!; [done| |done|by eapply NoDup_sub|by eapply Forall_sub].
  apply (node_ext m m' 3 l4 shared top); [|exact O2]. intros x Hx. apply T4. intros Hx'.
  by apply (in_frames_disjoint _ _ x O4 O5 Hx).
Qed.

Lemma space_frames_apart m l4 shared top (a : GlobalFrameAllocator) f rest : space_ok m l4 shared top a -> fa_avail a = f :: rest ->
  frames_apart l4 f /\ NoDup (f :: rest) /\ Forall frame_ok (f :: rest).
Proof.
  intros (_ & _ & _ & O4 & O5) E. rewrite E in O4, O5. apply NoDup_app in O4 as (_ & Hd & Hn). apply Forall_app in O5 as [Hf1 Hf2].
  split; [|done]. assert (Hne : l4 <> f) by (intros ->; apply (Hd f); [by left|by left]).
  apply Forall_inv in Hf1 as [A1 B1]. apply Forall_inv in Hf2 as [A2 B2]. unfold frames_apart, PAGE_SIZE in *.
  Z.to_euclidean_division_equations. lia.
Qed.
End Walks.

(** The heap is in one entry of the top-level table. *)
Lemma heap_page_top q : q mod PAGE_SIZE = 0 -> HEAP_START <= q < HEAP_START + HEAP_SIZE -> hw_index 4 q = 136%nat.
Proof.
  unfold HEAP_START, HEAP_SIZE, PAGE_SIZE, hw_index, level_shift. intros Hm Hb.
  change 136%nat with (Z.to_nat 136). f_equal. Z.to_euclidean_division_equations. lia.
Qed.

Lemma elem_of_heap_pages q : q ∈ stride HEAP_START PAGE_SIZE 1024 <-> q mod PAGE_SIZE = 0 /\ HEAP_START <= q < HEAP_START + HEAP_SIZE.
Proof.
  rewrite elem_of_stride. unfold HEAP_START, HEAP_SIZE, PAGE_SIZE. split.
  - intros (j & Hj & ->). split; [|lia]. Z.to_euclidean_division_equations. lia.
  - intros [Hm Hb]. exists (Z.to_nat ((q - 0x4444_4444_0000) / 4096)). Z.to_euclidean_division_equations. lia.
Qed.

(** ** The checks pass *)

Section Checks.
Context {crate : X86Crate} {mapper : PageMapper} {trans : Translate} {H : Type} {kheap : KernelHeap H}.
Context {D : Type} `{!PortIo D, !AtaDrive D}.
Implicit Types (k : Kernel H) (s : System H D) (t : Terminal) (top : gmap nat (ptree 3)).
Context (spaces : Z -> gmap nat (ptree 3)) (color : ColorCode) (l4 pmo : Z) (shared : list nat).

(** A line that was printed. *)
Definition say (pieces : list (list Z)) t : Terminal := type_bytes color (shown <$> concat (pieces ++ [[10]])) t.

(** The page tables [top] have a page for every page of the heap. *)
Definition heap_mapped top : Prop :=
  forall q, q mod PAGE_SIZE = 0 -> HEAP_START <= q < HEAP_START + HEAP_SIZE -> is_Some (space_lookup top q).

(** The kernel while it checks itself: only its first thread, the page
    tables [top], and [t] on the screen. *)
Record checking top t s : Prop := {
  ck_inv : kernel_inv spaces (kernel s) (boot_state l4);
  ck_cr3 : cr3 (kernel s) = l4;
  ck_pmo : physical_memory_offset (kernel s) = Some pmo;
  ck_interrupts : interrupts_enabled (kernel s) = true;
  ck_space : space_ok (phys (kernel s)) l4 shared top (frames (kernel s));
  ck_shows : shows (writer (console s)) t;
  ck_color : color_code (writer (console s)) = color;
  ck_unlocked : writer_locked (console s) = false;
  ck_disk : ata_ready (disk s);
  ck_heap : heap_mapped top;
}.

Definition free_frames s : nat := length (fa_avail (frames (kernel s))).

Lemma kernel_inv_boot k h m (a : GlobalFrameAllocator) top : kernel_inv spaces k (boot_state l4) -> heap_inv h -> space_ok m l4 shared top a ->
  kernel_inv spaces (set_heap h (set_memory m a k)) (boot_state l4).
Proof.
  intros [H1 H2 H3 H4 H5 H6 H7 (p & H8 & _) H10 H11 H12] Hh (O1 & _ & O3 & O4 & O5). split; try done.
  - apply submseteq_nil_l.
  - exists p. split; [done|]. by intros id t x [-> ->]%boot_state_lookup.
  - apply NoDup_app in O4 as (_ & _ & O4). apply Forall_app in O5 as [_ O5]. by split.
Qed.

Lemma println_ok pieces top t s : checking top t s ->
  exists s', println pieces s = Ok (Go tt, s') /\ checking top (say pieces t) s' /\ kernel s' = kernel s.
Proof.
  intros [C1 C2 C3 C4 C5 C6 C7 C8 C9 C10]. destruct (print_keeps (pieces ++ [[10]]) s t C6 C8) as (w' & E & Hs & Hc).
  eexists. split; [exact E|]. split; [|done]. split; cbn [kernel console disk writer writer_locked]; try done.
  - unfold say. by rewrite <- C7.
  - by rewrite Hc.
Qed.

(** Frames were taken, and nothing else. *)
Lemma checking_took n top t s m (a : GlobalFrameAllocator) : checking top t s -> fa_inv a ->
  took n (phys (kernel s)) m (fa_avail (frames (kernel s))) (fa_avail a) ->
  checking top t (set_kernel (set_memory m a (kernel s)) s) /\ (free_frames s <= free_frames (set_kernel (set_memory m a (kernel s)) s) + n)%nat.
Proof.
  intros [C1 C2 C3 C4 C5 C6 C7 C8 C9 C10] Hi Ht. split; [|apply Ht]. assert (Hs := took_space_ok _ _ _ _ _ _ _ _ C5 Hi Ht).
  split; cbn [kernel console disk set_kernel]; try done.
  assert (HK := kernel_inv_boot (kernel s) (heap (kernel s)) m a top C1 (ki_heap _ _ _ C1) Hs). by destruct (kernel s).
Qed.

Definition ata_ok_line : list (list Z) := [bytes_of "[ata]   boot sector read back OK (0x55AA signature present)"].

Lemma boot_sector_check_ok top t s : checking top t s ->
  ata_sector Primary 0 !! 510%nat = Some 0x55 -> ata_sector Primary 0 !! 511%nat = Some 0xAA ->
  exists s', boot_sector_check s = Ok (Go tt, s') /\ checking top (say ata_ok_line t) s' /\ kernel s' = kernel s.
Proof.
  intros C E510 E511. destruct (read_sector_reads Primary 0 (disk s) (ck_disk _ _ _ C) ltac:(lia)) as (d & E & Hd).
  assert (C' : checking top t (mkSystem (kernel s) (console s) (input s) d)) by (destruct C; by split).
  destruct (println_ok ata_ok_line _ _ _ C') as (s' & E' & Hc & Hf). exists s'. split; [|done].
  unfold boot_sector_check, on_disk, mbind, Sys_bind. rewrite E. cbn [mbind outcome_bind]. unfold check. rewrite E510, E511. exact E'.
Qed.

Lemma echo_page_code a : 0 <= a -> a + 91 < 2 ^ 64 -> exists code, build_echo_shellcode a = Ok code /\ length code = 92%nat /\ Forall is_u8 code.
Proof. intros H0 H1. eexists. split; [by apply build_echo_listing|]. split; [done|by apply echo_code_u8]. Qed.

Lemma isolation_check_ok fns top t s : checking top t s -> canonical pmo -> va_index 4 pmo <> 192%nat ->
  192%nat ∉ shared -> space_lookup top ISOLATED_USER_PAGE_ADDR = None -> (5 <= free_frames s)%nat ->
  exists s', isolation_check fns pmo l4 s = Ok (Go tt, s') /\ checking top (say isolation_ok_line t) s' /\
    (free_frames s <= free_frames s' + 5)%nat /\ heap (kernel s') = heap (kernel s).
Proof.
  intros C Hpmo Hv Hsh Hl Hfr. unfold free_frames in Hfr. destruct (fa_avail (frames (kernel s))) as [|f rest] eqn:Hav; [cbn in Hfr; lia|].
  destruct (space_frames_apart _ _ _ _ _ _ _ (ck_space _ _ _ C) Hav) as (Hap & Hnd & Hok). rewrite <- (ck_cr3 _ _ _ C) in Hap.
  destruct (echo_page_code ISOLATED_USER_PAGE_ADDR) as (code & Ec & Lc & Uc); [unfold ISOLATED_USER_PAGE_ADDR; lia..|].
  destruct (ck_space _ _ _ C) as (O1 & O2 & O3 & _). cbn [length] in Hfr.
  destruct (demo_code_mapped (fn_thread_trampoline fns) (fn_run_isolated_demo fns) pmo l4 ISOLATED_USER_PAGE_ADDR code (kernel s) f rest O1 Hpmo O3 Hav Hnd Hok Hap)
    as (k' & tp & E & _ & _ & Ht & Hi & Ek & _); [lia| |lia|done|].
  { unfold user_page, ISOLATED_USER_PAGE_ADDR. split; [done|]. split; [lia|]. change (hw_index 4 _) with 192%nat. set_solver. }
  rewrite <- Hav in Ht. destruct (checking_took _ _ _ _ _ _ C Hi Ht) as [C' Hf']. rewrite <- Ek in C', Hf'.
  destruct (println_ok isolation_ok_line _ _ _ C') as (s' & E' & C'' & Hf''). exists s'. split; [|split; [done|unfold free_frames in *; rewrite Hf''; split; [lia|by rewrite Ek]]].
  unfold isolation_check, spawn_isolated_demo. unfold on_kernel, mbind, Sys_bind, M_bind. rewrite Ec, E. cbn [outcome_bind mret M_ret].
  unfold check, va_new, get. rewrite va_try_new_canonical by (unfold canonical, ISOLATED_USER_PAGE_ADDR; lia). cbn [expect mbind outcome_bind set_kernel kernel].
  rewrite translate_addr_unmapped; [exact E'|unfold canonical, ISOLATED_USER_PAGE_ADDR; lia|].
  destruct (ck_space _ _ _ C') as (_ & Hr & _). by apply (space_not_present _ _ shared top).
Qed.

Definition elf_entry : Z := ELF_LOAD_ADDR.
Definition elf_stack_top : Z := ELF_LOAD_ADDR + 3 * 4096 - 16.

(** A file that loads is announced; the frames it takes stay taken. *)
Lemma loaded_elf_shown fns show_hex n bytes (l : LoadedElf) m (a : GlobalFrameAllocator) top t s : checking top t s -> fa_inv a ->
  took n (phys (kernel s)) m (fa_avail (frames (kernel s))) (fa_avail a) ->
  load bytes (cr3 (kernel s)) pmo [] (phys (kernel s), frames (kernel s)) = Ok (Some l, (m, a)) ->
  exists s', spawn_loaded_elf_demo fns show_hex bytes pmo l4 false s = Ok (Go (Elf.entry l, stack_top l), s') /\
    checking top (say (elf_line show_hex (Elf.entry l) (stack_top l)) t) s' /\ (free_frames s <= free_frames s' + n)%nat /\
    heap (kernel s') = heap (kernel s).
Proof.
  intros C Hi Ht E. destruct (checking_took _ _ _ _ _ _ C Hi Ht) as [C' Hf'].
  destruct (println_ok (elf_line show_hex (Elf.entry l) (stack_top l)) _ _ _ C') as (s' & E' & C'' & Hf'').
  exists s'. split; [|split; [done|unfold free_frames in *; by rewrite Hf'']].
  unfold spawn_loaded_elf_demo. unfold check, on_kernel, mbind, Sys_bind. rewrite E. cbn [outcome_bind mbind expect]. by rewrite E'.
Qed.

Lemma elf_demo_ok fns show_hex top t s : checking top t s -> canonical pmo -> va_index 4 pmo <> 224%nat -> (13 <= free_frames s)%nat ->
  exists s', spawn_elf_demo fns show_hex pmo l4 false s = Ok (Go (elf_entry, elf_stack_top), s') /\
    checking top (say (elf_line show_hex elf_entry elf_stack_top) t) s' /\ (free_frames s <= free_frames s' + 13)%nat /\
    heap (kernel s') = heap (kernel s).
Proof.
  intros C Hpmo Hv Hfr. unfold free_frames in Hfr. destruct (fa_avail (frames (kernel s))) as [|f rest] eqn:Hav; [cbn in Hfr; lia|].
  destruct (space_frames_apart _ _ _ _ _ _ _ (ck_space _ _ _ C) Hav) as (Hap & Hnd & Hok). rewrite <- (ck_cr3 _ _ _ C) in Hap.
  destruct (ck_space _ _ _ C) as (O1 & _ & O3 & _). cbn [length] in Hfr.
  destruct (test_elf_loads (phys (kernel s)) (cr3 (kernel s)) pmo (frames (kernel s)) f rest O1 Hpmo Hv O3 Hav Hnd Hok Hap)
    as (bytes & code & m & a & E1 & _ & E2 & _ & _ & Ht & Hi); [lia|].
  destruct (loaded_elf_shown fns show_hex _ _ _ _ _ _ _ _ C Hi Ht E2) as (s' & E' & Hs'). exists s'. split; [|exact Hs'].
  unfold spawn_elf_demo. unfold check, mbind, Sys_bind. rewrite E1. cbn [outcome_bind mbind]. exact E'.
Qed.

Context (show_ptr show_usize show_hex : Z -> list Z) (wp : bool).

(** What the heap demo found: the reference count before and after. *)
Definition heap_shown (d : HeapDemo) : Prop := refcount_before_drop d = 2 /\ refcount_after_drop d = 1 /\ elements (demo_vec d) = seqZ 1 499.

Definition after_bringup (d : HeapDemo) t : Terminal :=
  type_bytes color (shown <$> concat (heap_line show_ptr show_usize d)) (new_on_terminal t).

Lemma bringup_checked top t s : checking top t s -> hw_index 4 EXAMPLE_PAGE ∉ shared -> space_lookup top EXAMPLE_PAGE = None ->
  (3 <= free_frames s)%nat -> is_ok (heap_demo (heap (kernel s))) = true ->
  exists s' d top', run_bringup_demo show_ptr show_usize wp l4 s = Ok (Go tt, s') /\ heap_shown d /\
    checking top' (after_bringup d t) s' /\
    (forall page, hw_indexes 4 page <> hw_indexes 4 EXAMPLE_PAGE -> space_lookup top' page = space_lookup top page) /\
    (free_frames s <= free_frames s' + 3)%nat /\
    (d ← heap_demo; heap_demo_drop d) (heap (kernel s)) = Ok (tt, heap (kernel s')).
Proof.
  intros C Hsh Hl Hfr Hok. assert (Hmiss := space_missing_le top EXAMPLE_PAGE). unfold free_frames in *.
  assert (Hd := bringup_demo_ok show_ptr show_usize wp l4 shared top s t (ck_cr3 _ _ _ C) (ck_space _ _ _ C) Hsh Hl ltac:(lia)
    (ki_heap _ _ _ (ck_inv _ _ _ C)) (ck_shows _ _ _ C) (ck_unlocked _ _ _ C)).
  destruct (heap_demo _) as [r|msg]; [|done].
  destruct Hd as (s' & E & [Hh Hrun (d & R1 & R2 & R3 & Hs) Hk (_ & Hdk & Hcol) (top' & Hsp & _ & Ho) Hav Hun]).
  exists s', d, top'. split; [exact E|]. split; [done|]. split; [|split_and!; [exact Ho|rewrite Hav, length_drop; lia|exact Hrun]].
  destruct C as [C1 C2 C3 C4 C5 C6 C7 C8 C9 C10]. split.
  - rewrite Hk. apply (kernel_inv_boot _ _ _ _ top'); [done|apply Hh|done].
  - by rewrite Hk.
  - by rewrite Hk.
  - by rewrite Hk.
  - done.
  - unfold after_bringup. by rewrite <- C7.
  - by rewrite Hcol.
  - done.
  - by rewrite Hdk.
  - intros q Hq Hb. rewrite Ho; [by apply C10|]. intros E4. rewrite !hw_indexes_S in E4. injection E4 as E4 _ _ _.
    rewrite (heap_page_top q Hq Hb) in E4. by vm_compute in E4.
Qed.

(** The screen after the checks. *)
Definition checks_shown (d : HeapDemo) t : Terminal :=
  say (elf_line show_hex elf_entry elf_stack_top) (say isolation_ok_line (say ata_ok_line (after_bringup d t))).

(** The pages of the demos are free in the kernel's tables, and the bad
    pointer of a demo is not mapped. *)
Record room_for_demos top : Prop := {
  rd_shared : hw_index 4 EXAMPLE_PAGE ∉ shared /\ hw_index 4 ISOLATED_USER_PAGE_ADDR ∉ shared;
  rd_free : space_lookup top EXAMPLE_PAGE = None /\ space_lookup top ISOLATED_USER_PAGE_ADDR = None;
  rd_offset : hw_index 4 ISOLATED_USER_PAGE_ADDR <> va_index 4 pmo /\ hw_index 4 ELF_LOAD_ADDR <> va_index 4 pmo;
  rd_bad_pointer : hw_index 4 BAD_POINTER ∉ shared /\ space_lookup top BAD_POINTER = None;
}.

Lemma self_checks_ok fns top t s : checking top t s -> canonical pmo -> room_for_demos top ->
  ata_sector Primary 0 !! 510%nat = Some 0x55 -> ata_sector Primary 0 !! 511%nat = Some 0xAA -> (21 <= free_frames s)%nat ->
  is_ok (heap_demo (heap (kernel s))) = true ->
  exists s' d top', self_checks fns show_ptr show_usize show_hex wp pmo l4 s = Ok (Go tt, s') /\ heap_shown d /\
    checking top' (checks_shown d t) s' /\ (free_frames s <= free_frames s' + 21)%nat /\
    (d ← heap_demo; heap_demo_drop d) (heap (kernel s)) = Ok (tt, heap (kernel s')) /\ space_lookup top' BAD_POINTER = None.
Proof.
  intros C Hpmo [[R1 R2] [R3 R4] [R5 R6] [R7 R8]] E510 E511 Hfr Hheap. unfold self_checks.
  destruct (bringup_checked top t s C R1 R3 ltac:(lia) Hheap) as (s1 & d & top' & E1 & Hd & C1 & Ho & F1 & H1).
  destruct (boot_sector_check_ok _ _ _ C1 E510 E511) as (s2 & E2 & C2 & K2). assert (F2 : free_frames s2 = free_frames s1) by (unfold free_frames; by rewrite K2).
  assert (Hl : space_lookup top' ISOLATED_USER_PAGE_ADDR = None) by (rewrite Ho; [done|vm_compute; discriminate]).
  destruct (isolation_check_ok fns _ _ _ C2 Hpmo) as (s3 & E3 & C3 & F3 & H3); [intros E; by apply R5|exact R2|done|lia|].
  destruct (elf_demo_ok fns show_hex _ _ _ C3 Hpmo) as (s4 & E4 & C4 & F4 & H4); [intros E; by apply R6|lia|].
  exists s4, d, top'. unfold mbind, Sys_bind. rewrite E1, E2. cbn [spawn_demo_threads spawn_shared_demo mret Sys_ret]. rewrite E3, E4.
  split; [done|]. split; [done|]. split; [exact C4|]. split; [lia|]. split; [by rewrite H4, H3, K2|].
  rewrite Ho; [done|vm_compute; discriminate].
Qed.
End Checks.

(** ** From the bootloader on *)

Section Start.
Context {crate : X86Crate} {mapper : PageMapper} {trans : Translate} {H : Type} {kheap : KernelHeap H}.
Context {D : Type} `{!PortIo D, !AtaDrive D}.
Context {G Q R F W : Type} `{!GlobalDescriptorTable G, !BoundedQueue Q Z, !BoundedQueue R Z}.
Implicit Types (k : Kernel H) (s : System H D) (t : Terminal) (top : gmap nat (ptree 3)).

(** The machine and the bootloader: what they leave, where the statics of
    the kernel are, and a boot sector with its signature.  There are [spare]
    frames that the checks do not need. *)
Record machine_ok (heap_init : Z -> Z -> H) (df default offset : Z) (memory_map : list MemoryRegion) (spare : nat) shared top t s : Prop := {
  mo_heap : heap_inv (heap_init HEAP_START HEAP_SIZE) /\ is_ok (heap_demo (heap_init HEAP_START HEAP_SIZE)) = true;
  mo_boot : bootloader_ok (kernel s) offset memory_map shared top;
  mo_offset : 0 <= offset /\ 0 <= cr3 (kernel s) /\ offset + cr3 (kernel s) < 2 ^ 47;
  mo_stacks : 0 <= df /\ df + 20480 < 2 ^ 47 /\ 0 <= default /\ default + 20480 < 2 ^ 47;
  mo_room : room_for_demos offset shared top;
  mo_frames : (4096 + 21 + spare <= length (usable_frames memory_map))%nat;
  mo_shows : shows (writer (console s)) t;
  mo_unlocked : writer_locked (console s) = false;
  mo_disk : ata_ready (disk s);
  mo_signature : ata_sector Primary 0 !! 510%nat = Some 0x55 /\ ata_sector Primary 0 !! 511%nat = Some 0xAA;
}.

(** The tables and registers of [velora_os::init]. *)
Record cpu_ready (df default : Z) (c : CpuTables G) : Prop := {
  cr_code : code_register c = 0x08;
  cr_task : task_register c = 0x10;
  cr_idt : loaded_idt c = IDT;
  cr_pics : pic_offsets c = Some (32, 40);
  cr_rsp0 : privilege_stack_table (loaded_tss c) !! 0%nat = Some (default + 20480);
  cr_double_fault : (idt_gate 8 ≫= stack_index) ≫= (fun i => interrupt_stack_table (loaded_tss c) !! i) = Some (df + 20480);
}.

Definition boot_banner (color : ColorCode) t : Terminal := say color [bytes_of "========="] (say color [bytes_of "Velora OS"] t).

Lemma print_line pieces s t : shows (writer (console s)) t -> writer_locked (console s) = false ->
  exists c, println pieces s = Ok (Go tt, mkSystem (kernel s) c (input s) (disk s)) /\ writer_locked c = false /\
    color_code (writer c) = color_code (writer (console s)) /\ shows (writer c) (say (color_code (writer (console s))) pieces t).
Proof. intros Hs Hl. destruct (print_keeps (pieces ++ [[10]]) s t Hs Hl) as (w' & E & Hw & Hc). eexists. split; [exact E|]. done. Qed.

Lemma room_kept offset shared top memory_map k k' top' fs (heap_init : Z -> Z -> H) : room_for_demos offset shared top ->
  memory_ready heap_init k offset memory_map shared top k' top' fs -> room_for_demos offset shared top'.
Proof.
  intros [R1 [R2 R3] R4 [R5 R6]] [_ Hm _]. assert (Ho : forall p, hw_index 4 p <> 136%nat -> space_lookup top' p = space_lookup top p).
  { intros p Hp. apply (hm_others _ _ _ _ _ _ _ _ _ _ Hm). intros q [Hq Hq']%elem_of_heap_pages E. apply Hp. rewrite <- (heap_page_top q Hq Hq').
    rewrite !hw_indexes_S in E. congruence. }
  split; [done| |done|split; [done|]]; [split|]; rewrite Ho; (done || vm_compute; discriminate).
Qed.

Lemma start_up_ok spaces (heap_init : Z -> Z -> H) df default (scancodes : Q) offset memory_map spare shared top t s :
  machine_ok heap_init df default offset memory_map spare shared top t s ->
  let color := color_code (writer (console s)) in let l4 := cr3 (kernel s) in
  exists cpu s' top', start_up heap_init df default scancodes offset memory_map s =
      Ok (Go (mkOffsetPageTable (offset + l4) offset, cpu, Some scancodes), s') /\
    cpu_ready df default cpu /\ checking spaces color l4 offset shared top' (boot_banner color t) s' /\ room_for_demos offset shared top' /\
    (21 + spare <= free_frames s')%nat /\ heap (kernel s') = heap_init HEAP_START HEAP_SIZE.
Proof.
  intros [[M1 M0] M2 (M3 & M4 & M5) (M6 & M7 & M8 & M9) M10 M11 M12 M13 M14 _] color l4.
  destruct (print_line [bytes_of "Velora OS"] s t M12 M13) as (c1 & E1 & U1 & K1 & S1).
  destruct (print_line [bytes_of "========="] (mkSystem (kernel s) c1 (input s) (disk s)) _ S1 U1) as (c2 & E2 & U2 & K2 & S2).
  cbn [console kernel input disk] in *. rewrite K1 in K2, S2. fold color in K2, S2.
  destruct (lib_init_ok (G := G) df default M6 M7 M8 M9) as (cpu & E3 & P1 & P2 & P3 & P4 & P5 & P6).
  destruct (init_memory_ok heap_init _ _ _ _ _ M2 ltac:(lia)) as (k1 & top' & fs & E4 & Hr).
  destruct (init_ok spaces k1 (memory_ready_boot_ok _ _ _ _ _ _ _ _ _ M1 M2 Hr)) as (k2 & E5 & HK & _ & Hk2).
  assert (Hroom := room_kept _ _ _ _ _ _ _ _ _ M10 Hr). destruct Hr as [Hk1 Hmap Hfree]. assert (Ec : cr3 k1 = l4) by (by rewrite Hk1).
  exists cpu, (mkSystem (set_interrupts true k2) c2 (input s) (disk s)), top'. split_and!; [|done| |done|unfold free_frames; rewrite Hk2; cbn [kernel frames set_interrupts set_scheduler]; lia|].
  - unfold start_up. unfold mbind, Sys_bind, check, on_kernel. rewrite E1, E2, E3. cbn [mbind outcome_bind].
    unfold va_new. rewrite va_try_new_canonical by apply (bl_offset _ _ _ _ _ M2). cbn [expect mbind outcome_bind kernel].
    destruct (memory_init_active offset (kernel s) M3 M4 M5) as [-> Et]. cbn [mbind outcome_bind set_kernel kernel console input disk].
    rewrite Et, E4. cbn [mbind outcome_bind init_queue kernel set_kernel].
    rewrite E5. reflexivity.
  - split; cbn [kernel console disk]; try done.
    + rewrite Ec in HK. by destruct HK.
    + by rewrite Hk2.
    + rewrite Hk2. cbn. by rewrite Hk1.
    + rewrite Hk2. eapply heap_mapping_space_ok; [apply (bl_frames _ _ _ _ _ M2)|apply (bl_frames _ _ _ _ _ M2)|exact Hmap].
    + intros q Hq Hb. assert (Hin : q ∈ stride HEAP_START PAGE_SIZE 1024) by (by apply elem_of_heap_pages).
      apply list_elem_of_lookup in Hin as [i Hi]. destruct (Forall2_lookup_l _ _ _ _ _ (hm_pages _ _ _ _ _ _ _ _ _ _ Hmap) Hi) as (f & _ & Hf & _). eauto.
  - rewrite Hk2. cbn [kernel heap set_interrupts set_scheduler]. by rewrite Hk1.
Qed.

(** The kernel comes up and passes its own checks.  From what the
    bootloader leaves, with frames and heap enough, [kernel_main] gets to
    its programs without a panic: the processor's tables are loaded, the
    invariant of the kernel holds, and the screen shows the banner and then,
    in order, that the heap works (with the reference count going from 2 to
    1), that the boot sector has its signature, that the kernel does not see
    the page of the isolated demo, and the entry point and the stack of the
    ELF file it built; no line says that a check failed. *)
Lemma kernel_main_checked spaces fns show_ptr show_usize show_hex yield can_allocate fuel rounds wp heap_init df default
    (scancodes : Q) (ready : R) (print_keypresses : F) (world : W) offset memory_map spare shared top t s :
  machine_ok heap_init df default offset memory_map spare shared top t s ->
  let color := color_code (writer (console s)) in let l4 := cr3 (kernel s) in
  exists handle (cpu : CpuTables G) d top' s',
    kernel_main fns show_ptr show_usize show_hex yield can_allocate fuel rounds wp heap_init df default scancodes ready print_keypresses world
      offset memory_map s =
    run_programs fns show_usize show_hex yield can_allocate fuel rounds ready print_keypresses world handle cpu (Some scancodes) s' /\
    table_frame handle = l4 /\ phys_offset handle = offset /\ cpu_ready df default cpu /\ heap_shown d /\
    checking spaces color l4 offset shared top' (checks_shown color show_ptr show_usize show_hex d (boot_banner color t)) s' /\
    (spare <= free_frames s')%nat /\ (d ← heap_demo; heap_demo_drop d) (heap_init HEAP_START HEAP_SIZE) = Ok (tt, heap (kernel s')) /\
    space_lookup top' BAD_POINTER = None.
Proof.
  intros HM color l4. destruct (start_up_ok spaces _ _ _ scancodes _ _ _ _ _ _ _ HM) as (cpu & s1 & top1 & E1 & Hcpu & C1 & Hroom & F1 & Hheap).
  assert (Hsig := mo_signature _ _ _ _ _ _ _ _ _ _ HM).
  destruct (self_checks_ok spaces color l4 offset shared show_ptr show_usize show_hex wp fns top1 _ s1 C1) as (s2 & d & top2 & E2 & Hd & C2 & F2 & H2 & Hbad);
    [apply (bl_offset _ _ _ _ _ (mo_boot _ _ _ _ _ _ _ _ _ _ HM))|done|apply Hsig|apply Hsig|lia|rewrite Hheap; apply (mo_heap _ _ _ _ _ _ _ _ _ _ HM)|].
  assert (Et : table_frame (mkOffsetPageTable (offset + l4) offset) = l4) by (unfold table_frame; cbn; lia).
  exists (mkOffsetPageTable (offset + l4) offset), cpu, d, top2, s2. split; [|rewrite Hheap in H2; split_and!; try done; lia].
  unfold kernel_main. unfold mbind, Sys_bind. rewrite E1. fold l4. cbn [phys_offset]. rewrite Et. by rewrite E2.
Qed.
End Start.

(** ** The programs and the executor *)

Section Rest.
Context {crate : X86Crate} {mapper : PageMapper} {H : Type} {kheap : KernelHeap H}.
Context {D : Type} `{!PortIo D, !AtaDrive D}.
Context (fns : Functions) (show_usize show_hex : Z -> list Z) (yield_now : Sys (H := H) (D := D) unit) (can_allocate : Z -> bool) (fuel : nat).
Implicit Types (k : Kernel H) (s : System H D) (t : Terminal).

(** Only the screen and the drive changed; a line was printed. *)
Record said (pieces : list (list Z)) t s s' : Prop := {
  said_kernel : kernel s' = kernel s;
  said_input : input s' = input s;
  said_unlocked : writer_locked (console s') = false;
  said_shows : shows (writer (console s')) (say (color_code (writer (console s))) pieces t);
  said_color : color_code (writer (console s')) = color_code (writer (console s));
}.

Lemma println_said pieces t s : shows (writer (console s)) t -> writer_locked (console s) = false ->
  exists s', println pieces s = Ok (Go tt, s') /\ said pieces t s s' /\ disk s' = disk s.
Proof. intros Hs Hl. destruct (print_line pieces s t Hs Hl) as (c & E & U & K & S). eexists. split; [exact E|]. done. Qed.

(** A disk without a filesystem does not stop the kernel.  If the first
    sector of the secondary drive is blank, as on the image that the build
    leaves when its tools are missing, the blocks that load [ECHO.ELF] and
    [SHELL.ELF] return without a panic: each says that the file was not
    found, and the kernel is as it was. *)
Lemma missing_files_reported pmo l4 t s :
  ata_ready (disk s) -> ata_sector FS_DRIVE 0 = replicate 512 0 -> shows (writer (console s)) t -> writer_locked (console s) = false ->
  (exists s', disk_elf_demo fns show_usize show_hex can_allocate fuel pmo l4 s = Ok (Go tt, s') /\ said echo_missing_line t s s' /\ ata_ready (disk s')) /\
  (exists s', start_shell fns show_hex can_allocate fuel pmo l4 s = Ok (Go tt, s') /\ said shell_missing_line t s s' /\ ata_ready (disk s')).
Proof.
  intros Hd Hz Hs Hl.
  assert (Hgo : forall name pieces, exists d s', read_file fuel can_allocate name (disk s) = Ok (None, d) /\
    println pieces (mkSystem (kernel s) (console s) (input s) d) = Ok (Go tt, s') /\ said pieces t s s' /\ ata_ready (disk s')).
  { intros name pieces. destruct (@blank_disk_empty D ata_disk fuel can_allocate name (disk s) Hd Hz) as (d & E & Hd').
    destruct (println_said pieces t (mkSystem (kernel s) (console s) (input s) d) Hs Hl) as (s' & E' & [S1 S2 S3 S4 S5] & Ed).
    exists d, s'. split; [exact E|]. split; [exact E'|]. split; [done|]. by rewrite Ed. }
  split.
  - destruct (Hgo (bytes_of "ECHO.ELF") echo_missing_line) as (d & s' & E & E' & Hr). exists s'. split; [|exact Hr].
    unfold disk_elf_demo, on_disk, mbind, Sys_bind. rewrite E. exact E'.
  - destruct (Hgo (bytes_of "SHELL.ELF") shell_missing_line) as (d & s' & E & E' & Hr). exists s'. split; [|exact Hr].
    unfold start_shell, on_disk, mbind, Sys_bind. rewrite E. exact E'.
Qed.

(** [wait_for_demo] returns when the thread is gone, not before. *)
Lemma wait_for_demo_returns (run : nat -> System H D) pid n rounds :
  (forall i, (i < n)%nat -> yield_now (run i) = Ok (Go tt, run (S i))) ->
  (forall i, (i < n)%nat -> thread_alive pid (kernel (run i)) = Ok (true, kernel (run i))) ->
  thread_alive pid (kernel (run n)) = Ok (false, kernel (run n)) -> (n <= rounds)%nat ->
  wait_for_demo yield_now rounds (Some pid) (run 0%nat) = Ok (Go tt, run n).
Proof.
  intros Hy Hal Hd Hr. cbn [wait_for_demo].
  assert (Hk : forall s b, thread_alive pid (kernel s) = Ok (b, kernel s) -> on_kernel (thread_alive pid) s = Ok (Go b, s)).
  { intros s b E. unfold on_kernel. rewrite E. cbn. by destruct s. }
  assert (Hl : forall m i, (i + m = n)%nat -> forall rounds, (m <= rounds)%nat -> wait_while_alive yield_now rounds pid (run i) = Ok (Go tt, run n)).
  { induction m as [|m IH]; intros i Hi rd Hm.
    - assert (i = n) as -> by lia. destruct rd; cbn [wait_while_alive]; unfold mbind, Sys_bind; by rewrite (Hk _ _ Hd).
    - destruct rd as [|rd]; [lia|]. cbn [wait_while_alive]. unfold mbind, Sys_bind. rewrite (Hk _ _ (Hal i ltac:(lia))).
      rewrite (Hy i) by lia. apply (IH (S i)); lia. }
  apply (Hl n 0%nat); lia.
Qed.

(** The loop over the threads that exit is the loop of the lifecycle
    theorem; its line is printed once, at the end. *)
Lemma exit_demos_loop n i k' s : Z.of_nat n + i = 39 ->
  exit_demo_loop (S n) (fn_thread_trampoline fns) (fn_exit_demo_thread fns) (kernel s) = Ok (tt, k') ->
  exit_demos fns (seqZ i (Z.of_nat (S n))) s = (_ ← println threads_line; mret tt) (set_kernel k' s).
Proof.
  revert i s. induction n as [|n IH]; intros i s Hi E; (rewrite seqZ_cons by lia); cbn [exit_demos exit_demo_loop] in *;
    unfold on_kernel, mbind, Sys_bind; unfold mbind, M_bind in E;
    (destruct (exit_demo_round _ _ (kernel s)) as [[[] k1]|]; [|done]); cbn [outcome_bind mbind].
  - injection E as <-. assert (i = 39) as -> by lia. reflexivity.
  - rewrite (proj2 (Z.eqb_neq i 39)) by lia. cbn [mret Sys_ret]. replace (Z.pred (Z.of_nat (S (S n)))) with (Z.of_nat (S n)) by lia.
    rewrite (IH (Z.succ i) (set_kernel k1 s)); [done|lia|exact E].
Qed.

(** When the executor starts, its one task is ready to be polled. *)
Lemma start_executor_ok {R F W} `{!BoundedQueue R Z} (ready : R) (keypresses : F) (world : W) t s :
  bq_inv ready -> bq_list ready = [] -> (0 < bq_capacity (Q := R) (A := Z))%nat ->
  shows (writer (console s)) t -> writer_locked (console s) = false ->
  exists e s', start_executor ready keypresses world s = Ok (Go e, s') /\ tasks e = {[0 := keypresses]} /\
    bq_list (task_queue e) = [0] /\ waker_cache e = ∅ /\ kernel s' = kernel s.
Proof.
  intros Hq Hl Hc Hs Hu. destruct (println_said [] t s Hs Hu) as (s1 & E1 & [K1 _ U1 S1 _] & _).
  destruct (println_said [bytes_of "Velora OS ready "; em_dash; bytes_of " the shell is running below. Type a program name (e.g. GREET.ELF) and press Enter."]
    _ s1 S1 U1) as (s2 & E2 & [K2 _ _ _ _] & _).
  destruct (bq_push_ok ready 0 Hq) as (q' & Eq & _ & Lq); [by rewrite Hl|].
  eexists _, s2. split; [|split_and!; [..|by rewrite K2, K1]].
  - unfold start_executor, mbind, Sys_bind. rewrite E1, E2. unfold task_new, task_id_new, Executor.spawn, executor_new, check.
    cbn [tasks task_id future task_queue]. rewrite lookup_empty, Eq. reflexivity.
  - done.
  - cbn [task_queue]. by rewrite Lq, Hl.
  - done.
Qed.
End Rest.

(** ** A machine *)

Section Sample.
#[local] Existing Instances x86_crate ref_mapper list_gdt sample_queue.

#[local, refine] Instance ref_translate : Translate := {|
  mapper_translate_addr m l4 va := option_map (fun e => Z.land e ADDR_MASK + va mod PAGE_SIZE) (leaf_entry m l4 (hw_indexes 4 va)) |}.
Proof.
  - intros m l4 va e _ ->. done.
  - intros m l4 va _. rewrite !hw_indexes_S. cbn [leaf_entry not_present hw_indexes].
    repeat (match goal with |- context [Z.testbit (table_entry m ?t ?i) 0] =>
      destruct (Z.testbit (table_entry m t i) 0) eqn:?; [destruct (pte_frame (table_entry m t i)) eqn:?; try done|] end; try done).
    all: intros _; rewrite ?pte_frame_spec; repeat match goal with Hb : Z.testbit _ _ = _ |- _ => rewrite Hb end; done.
Defined.

(** A bootable primary drive and a blank secondary one. *)
Definition boot_disk (drive : Drive) (lba : Z) : list Z :=
  match drive with Primary => replicate 510 0 ++ [0x55; 0xAA] | Secondary => [] end.

Lemma boot_seek : (3 < Pos.to_nat POLL_ATTEMPTS)%nat.
Proof. unfold POLL_ATTEMPTS. lia. Qed.

Lemma sample_machine_ok disks spare (io := sim_io disks 3) (drive := sim_drive disks 3 boot_seek) : (spare <= 3800)%nat ->
  ata_sector (D := SimDrive) Primary 0 !! 510%nat = Some 0x55 -> ata_sector (D := SimDrive) Primary 0 !! 511%nat = Some 0xAA ->
  machine_ok (fun start _ => mkBumpHeap start []) 0x200000 0x210000 (3 * 2 ^ 39) boot_ram spare [] ∅ sample_terminal
    (sample_system sample_machine_state).
Proof.
  intros Hsp E510 E511. split.
  - split; [split; [reflexivity|constructor]|exact bringup_heap_ok].
  - exact sample_bootloader_ok.
  - cbn. lia.
  - lia.
  - split; [split; apply not_elem_of_nil|done|vm_compute; split; discriminate|]. split; [apply not_elem_of_nil|done].
  - rewrite boot_ram_frames, length_stride. lia.
  - exact sample_console_shows.
  - done.
  - split; [by eexists|]. cbn. lia.
  - done.
Qed.

#[local] Instance boot_io : PortIo SimDrive := sim_io boot_disk 3.
#[local] Instance boot_drive : AtaDrive SimDrive := sim_drive boot_disk 3 boot_seek.

Definition sample_functions : Functions := mkFunctions 1 2 3 4 5 6 7 8 9 10 11.
Definition sample_hex (_ : Z) : list Z := bytes_of "0x0".

Lemma missing_files_reported_witness :
  (exists s', disk_elf_demo sample_functions sample_show sample_hex (fun _ => true) 2 (3 * 2 ^ 39) 0x11000 (sample_system sample_machine_state) = Ok (Go tt, s') /\
     kernel s' = sample_machine_state) /\
  (exists s', start_shell sample_functions sample_hex (fun _ => true) 2 (3 * 2 ^ 39) 0x11000 (sample_system sample_machine_state) = Ok (Go tt, s') /\
     kernel s' = sample_machine_state).
Proof.
  destruct (missing_files_reported sample_functions sample_show sample_hex (fun _ => true) 2 (3 * 2 ^ 39) 0x11000 sample_terminal
    (sample_system sample_machine_state)) as [(s1 & E1 & H1 & _) (s2 & E2 & H2 & _)].
  - split; [by eexists|]. cbn. lia.
  - vm_compute. reflexivity.
  - exact sample_console_shows.
  - reflexivity.
  - split; [exists s1; exact (conj E1 (said_kernel _ _ _ _ H1))|exists s2; exact (conj E2 (said_kernel _ _ _ _ H2))].
Defined.
End Sample.
