(* ===== verification/DemoRuns.v ===== *)
(** * Demos from their spawn to their end (src/main.rs, src/userspace.rs)

    The blocks of [kernel_main] that run the open/read demo and the demo of
    the bad pointer, on the kernel and with the threads they start:
    [kernel_main] spawns a thread in an address space of its own and yields
    until it is gone; the thread enters ring 3, makes its system calls and
    exits or is killed; the scheduler frees what it had.  What is common to
    the demos is proved once ([demo_ends]), for any program that runs to its
    exit. *)

From S2P Require Import Executor Wakeup.
From S2P Require Import Prelude Ring X86 Asm FrameAlloc Paging AddressSpace Mapper MapperRef Mappings Elf ElfThms ElfImage ElfLoad.
From S2P Require Import Threads Scheduler SchedulerInv SpawnInv SpawnIsolated SchedulerThms Ata Fat FatThms Vga Utf8 Keyboard Process Boot.
From S2P Require Import Interrupts Syscall SyscallThms SyscallIo SyscallSamples Userspace Lifecycle Reclaim Demos Build DemoPrograms Bringup Main.

Lemma above_first_entry x : 2 ^ 39 <= x < 2 ^ 47 -> hw_index 4 x <> 0%nat.
Proof. unfold hw_index. change (level_shift 4) with 39. intros Hx. Z.to_euclidean_division_equations. lia. Qed.

(** ** A page of a tree of tables *)

Section Space.
Context {crate : X86Crate}.
Implicit Types (m : mem) (top : gmap nat (ptree 3)).

(** The entry at [a] is in one of the tables [ts]. *)
Definition entry_in (ts : list Z) (a : Z) : Prop := exists t, t ∈ ts /\ t <= a /\ a + 8 <= t + PAGE_SIZE.

Lemma entry_in_incl ts ts' l : (forall t, t ∈ ts -> t ∈ ts') -> Forall (entry_in ts) l -> Forall (entry_in ts') l.
Proof. intros Hs Hl. eapply Forall_impl; [exact Hl|]. intros a (t & Ht & Ha). exists t. auto. Qed.

Lemma entry_here t i ts : (i < 512)%nat -> t ∈ ts -> entry_in ts (t + 8 * Z.of_nat i).
Proof. intros Hi Ht. exists t. unfold PAGE_SIZE. split; [done|lia]. Qed.

(** The walk to a page that the tree maps reads entries of its tables, none
    of which is for a huge page. *)
Lemma tree_walk_tables m l (c : ptree (S l)) x f w :
  repr m (S l) c -> tree_lookup (S l) x c = Some f ->
  accessible_walk m (root c) (hw_indexes (S l) x) (required_flags w) = true ->
  no_huge m (root c) (S l) x /\ Forall (entry_in (tables (S l) c)) (walk_entries m (root c) (S l) x).
Proof.
  revert c. induction l as [|l IH]; intros c Hr Hl Hw; destruct (tree_walk_step m _ c x f w Hr Hl Hw) as (d & Hd & Hrd & _ & E7 & E & Hw' & Ec).
  - split; [by intros _|]. cbn [walk_entries]. repeat constructor. apply entry_here; [apply hw_index_lt|by left].
  - destruct (IH d Hrd Hd Hw') as [Hn Hall]. split.
    + intros _. split; [done|]. by rewrite <- E.
    + change (walk_entries m (root c) (S (S l)) x) with ((root c + 8 * Z.of_nat (hw_index (S (S l)) x)) ::
        walk_entries m (Z.land (table_entry m (root c) (hw_index (S (S l)) x)) ADDR_MASK) (S l) x).
      constructor; [apply entry_here; [apply hw_index_lt|by left]|]. rewrite <- E.
      eapply entry_in_incl; [|exact Hall]. intros t Ht. right. apply list_elem_of_bind. exists (hw_index (S (S l)) x).
      split; [unfold at_child; by rewrite Ec|]. apply elem_of_entry_indexes, hw_index_lt.
Qed.

Lemma space_walk_tables m l4 shared top x f w :
  repr_space m l4 shared top -> hw_index 4 x ∉ shared -> space_lookup top x = Some f ->
  accessible_walk m l4 (hw_indexes 4 x) (required_flags w) = true ->
  no_huge m l4 4 x /\ Forall (entry_in (space_tables l4 top)) (walk_entries m l4 4 x).
Proof.
  intros [_ Hr] Hs Hl Hw. specialize (Hr _ (hw_index_lt 4 x) Hs). unfold space_lookup in Hl.
  destruct (top !! hw_index 4 x) as [c|] eqn:Ec; [|done]. destruct Hr as [Hf Hr].
  rewrite accessible_walk_step, contains_required, andb_true_iff in Hw. destruct Hw as [Ha Hw].
  assert (E := pte_frame_allows _ w Ha). rewrite Hf in E, Hw. destruct (Z.testbit _ 7) eqn:E7; [done|]. injection E as E.
  destruct (tree_walk_tables m 2 c x f w Hr Hl Hw) as [Hn Hall]. split.
  - intros _. split; [done|]. by rewrite <- E.
  - change (walk_entries m l4 4 x) with ((l4 + 8 * Z.of_nat (hw_index 4 x)) ::
      walk_entries m (Z.land (table_entry m l4 (hw_index 4 x)) ADDR_MASK) 3 x).
    constructor; [apply entry_here; [apply hw_index_lt|by left]|]. rewrite <- E.
    eapply entry_in_incl; [|exact Hall]. intros t Ht. right. apply list_elem_of_bind. exists (hw_index 4 x).
    split; [unfold at_child; by rewrite Ec|]. apply elem_of_entry_indexes, hw_index_lt.
Qed.

(** A page that ring 3 may write to, in a frame that holds no table. *)
Lemma space_code_page m l4 shared top p f :
  repr_space m l4 shared top -> user_page shared p -> 0 < p -> space_lookup top p = Some f ->
  accessible_walk m l4 (hw_indexes 4 p) (required_flags true) = true ->
  f ∉ space_tables l4 top -> Forall frame_ok (f :: space_tables l4 top) -> code_page m l4 p f.
Proof.
  intros Hr (Hm & Hb & Hs) H0 Hl Hw Hni Hok. apply Forall_cons in Hok as [Hf Hok].
  assert (Hj : forall j, 0 <= j < PAGE_SIZE -> hw_indexes 4 (p + j) = hw_indexes 4 p) by (intros; by apply page_indexes).
  split; [done| |apply (space_walk_tables m l4 shared top p f true Hr Hs Hl Hw)| |].
  - split; [done|]. unfold PAGE_SIZE in *. apply Z.div_exact in Hm; lia.
  - intros j Hjb. by apply (space_access m l4 shared top).
  - intros j Hjb. assert (E4 : hw_index 4 (p + j) = hw_index 4 p) by (specialize (Hj j Hjb); rewrite !hw_indexes_S in Hj; congruence).
    destruct (space_walk_tables m l4 shared top (p + j) f true Hr) as [_ Hall]; [by rewrite E4| |by rewrite Hj|].
    { by rewrite <- (space_lookup_indexes top p (p + j)) by (symmetry; by apply Hj). }
    eapply Forall_impl; [exact Hall|]. intros a (t & Ht & Ha). assert (Htok : frame_ok t) by (rewrite Forall_forall in Hok; by apply Hok).
    assert (Hne : f <> t) by (intros ->; done). destruct (distinct_frames_apart f t Hf Htok Hne); lia.
Qed.
(** The frame of a page that is not borrowed is freed with the space; it is
    none of the tables. *)
Lemma unborrowed_frame borrowed l4 top p f : p mod PAGE_SIZE = 0 -> 0 <= p < 2 ^ 47 -> space_lookup top p = Some f ->
  range_contains borrowed p = false -> NoDup (freed_space borrowed l4 top) ->
  f ∈ freed_space borrowed l4 top /\ f ∉ space_tables l4 top.
Proof.
  intros Hm Hb Hl Hr Hnd. rewrite freed_space_mappings in Hnd.
  assert (Hin : f ∈ space_mappings top ≫= unless_borrowed borrowed).
  { apply list_elem_of_bind. exists (p, f). split; [unfold unless_borrowed; cbn [fst snd]; rewrite Hr; by left|].
    apply elem_of_space_mappings. cbn [fst snd]. split_and!; [lia..|done|done]. }
  split; [rewrite freed_space_mappings; set_solver|]. apply NoDup_app in Hnd as (_ & Hd & _). intros Ht. by apply (Hd f).
Qed.

(** *** What ring 3 may not read *)

Definition user_denied m (l4 va : Z) : Prop := accessible_walk m l4 (hw_indexes 4 va) (required_flags false) = false.

(** The kernel's own tables deny [va], and none of them is among [fs]. *)
Definition kernel_denies m (kt : Z) (fs : list Z) (va : Z) : Prop :=
  user_denied m kt va /\ Forall (fun t => frame_ok t /\ t ∉ fs) (walk_tables m kt (hw_indexes 4 va)).

Lemma accessible_walk_ext m m' t indexes required : Forall (fun i => (i < 512)%nat) indexes ->
  (forall f x, f ∈ walk_tables m t indexes -> in_frame f x -> m' x = m x) ->
  accessible_walk m' t indexes required = accessible_walk m t indexes required.
Proof.
  revert t; induction indexes as [|i rest IH]; intros t Hi Hx; [done|]. apply Forall_cons in Hi as [Hi Hr]. cbn [walk_tables] in Hx.
  assert (He : table_entry m' t i = table_entry m t i) by (apply table_entry_ext; [done|]; intros x Hx'; apply (Hx t); [by left|done]).
  cbn [accessible_walk]. rewrite He. destruct (negb _); [done|]. destruct (pte_frame (table_entry m t i)) as [f| |]; [|done..].
  apply IH; [done|]. intros g x Hg. apply Hx. by right.
Qed.

Lemma denies_tables m kt fs va m' : kernel_denies m kt fs va -> Forall frame_ok fs -> (forall x, ~ in_frames fs x -> m' x = m x) ->
  forall f x, f ∈ walk_tables m kt (hw_indexes 4 va) -> in_frame f x -> m' x = m x.
Proof.
  intros [_ Hw] Hok Hx f x Hf Hfx. rewrite Forall_forall in Hw, Hok. destruct (Hw f Hf) as [Hfo Hni]. apply Hx.
  intros (g & Hg & Hgx). apply (frame_disjoint f g x Hfo (Hok g Hg)); [by intros ->|done|done].
Qed.

Lemma kernel_denies_ext m kt fs va m' : kernel_denies m kt fs va -> Forall frame_ok fs -> (forall x, ~ in_frames fs x -> m' x = m x) ->
  kernel_denies m' kt fs va.
Proof.
  intros Hd Hok Hx. assert (Ht := denies_tables m kt fs va m' Hd Hok Hx). destruct Hd as [Hd Hw]. split.
  - unfold user_denied. by rewrite (accessible_walk_ext m m') by (done || apply hw_indexes_lt).
  - by rewrite (walk_tables_ext m m') by (done || apply hw_indexes_lt).
Qed.

(** An address space that shares the entry denies it too. *)
Lemma shared_denied m kt fs va m' l4 : kernel_denies m kt fs va -> Forall frame_ok fs -> (forall x, ~ in_frames fs x -> m' x = m x) ->
  table_entry m' l4 (hw_index 4 va) = table_entry m kt (hw_index 4 va) -> user_denied m' l4 va.
Proof.
  intros Hd Hok Hx He. assert (Ht := denies_tables m kt fs va m' Hd Hok Hx). destruct Hd as [Hd _]. unfold user_denied in *.
  rewrite hw_indexes_S in Hd, Ht |- *. cbn [accessible_walk walk_tables] in *. rewrite He. destruct (negb _); [done|].
  destruct (pte_frame (table_entry m kt (hw_index 4 va))) as [f| |]; [|done..]. rewrite (accessible_walk_ext m m'); [done|apply hw_indexes_lt|].
  intros g x Hg. apply Ht. by right.
Qed.

(** The check of a pointer stops at its first page. *)
Lemma denied_range m l4 va n : user_denied m l4 va -> 0 <= va -> 0 < n -> va + n <= 2 ^ 47 -> user_range_mapped m l4 va n false = Ok false.
Proof.
  intros Hd H0 Hn Hb. assert (Hc : canonical va) by (unfold canonical; lia). unfold user_range_mapped. rewrite (proj2 (Z.eqb_neq n 0)) by lia.
  unfold checked_add, U64_MAX. rewrite (proj2 (Z.leb_le _ _)) by lia. unfold va_new. rewrite va_try_new_canonical by (unfold canonical; lia).
  cbn [expect mbind outcome_bind]. rewrite iter_until_nat, (page_containing_spec va) by done. set (page := va - va mod PAGE_SIZE).
  assert (Hm : 0 <= va mod PAGE_SIZE < PAGE_SIZE) by (by apply Z.mod_pos_bound).
  assert (Hpm : page mod PAGE_SIZE = 0) by (unfold page, PAGE_SIZE; Z.to_euclidean_division_equations; lia).
  assert (Hi := page_indexes page (va mod PAGE_SIZE) Hpm Hm). replace (page + va mod PAGE_SIZE) with va in Hi by (unfold page; lia).
  assert (E : page_accessible m l4 page false = false).
  { unfold page_accessible. rewrite table_indexes_hw; [by rewrite <- Hi|]. unfold canonical, page, PAGE_SIZE in *. Z.to_euclidean_division_equations. lia. }
  destruct (Pos.to_nat PAGE_COUNT) as [|c] eqn:Ep; [lia|]. cbn [iter_nat]. unfold user_range_step at 1. by rewrite E.
Qed.
End Space.

(** ** A thread for the code of a demo *)

Section Demo.
Context {crate : X86Crate} {mapper : PageMapper} {H : Type} {kheap : KernelHeap H}.
Context (pmo kt lo hi : Z) (total : list Z) (frame_of : Z -> Z) (tramp e addr : Z) (code : list Z).
Implicit Types (k : Kernel H) (s : SchedulerState) (spaces : Z -> gmap nat (ptree 3)) (m : mem).
Local Abbreviation shared := [0%nat; va_index 4 pmo].
Local Abbreviation reclaim_ok := (reclaim_ok pmo kt lo hi total frame_of).

(** The page of the demo is in none of the kernel's entries, and not in the
    heap. *)
Record demo_layout : Prop := {
  dl_pmo : canonical pmo;
  dl_page : user_page shared addr /\ 0 < addr;
  dl_heap q : q mod PAGE_SIZE = 0 -> lo <= q < hi -> hw_index 4 q ∉ shared /\ q <> addr;
  dl_code : (length code <= 4096)%nat /\ Forall is_u8 code;
}.

Context (Hdl : demo_layout).

(** The thread [id] is spawned: its address space [l4] has the code, its
    kernel stack is at [p]. *)
Record demo_ready spaces k s (p : Z) (h : H) (id : ThreadId) (g l4 : Z) (q : ReadyQueue) (spaces' : Z -> gmap nat (ptree 3)) k' : Prop := {
  rdy_generation : slot_generations s !! id = Some g;
  rdy_inv : kernel_inv spaces' k' (registered s id (isolated p e l4 None) (g + 1) q);
  rdy_queue : ready_list q = [id];
  rdy_space : exists m a top, prepared pmo kt total frame_of spaces k s p l4 m a top /\ spaces' = space_insert l4 (spaces' l4) spaces /\
    sharing m a l4 shared top (p, p + STACK_SIZE) frame_of (phys k') (frames k') (spaces' l4) (reverse (stack_pages p));
  rdy_image : exists content, image (phys k') l4 shared (spaces' l4) [mkLoadedPage addr content true] /\ take (length code) content = code;
  rdy_heap : heap k' = h;
  rdy_suspended : suspended k' = <[id := AtTrampoline]> (suspended k);
  rdy_pmo : physical_memory_offset k' = physical_memory_offset k;
  rdy_addr : range_contains (p, p + STACK_SIZE) addr = false;
  rdy_shared i : (i < 512)%nat -> i ∈ shared -> table_entry (phys k') l4 i = table_entry (phys k) kt i;
  rdy_outside x : ~ in_frames total x -> phys k' x = phys k x;
}.

Lemma demo_spawned spaces k s p h id :
  reclaim_ok spaces k s -> heap_alloc STACK_SIZE 4096 (heap k) = (Some p, h) -> lo <= p -> p + STACK_SIZE <= hi ->
  (122 <= length total)%nat -> position_none (threads s) = Some id -> Forall (fun g => 0 <= g < U64_MAX) (slot_generations s) ->
  exists g l4 q spaces' k', spawn_code_demo tramp e pmo kt addr (Ok code) true k = Ok (Some (pack_pid id (g + 1)), k') /\
    demo_ready spaces k s p h id g l4 q spaces' k'.
Proof using Hdl.
  intros Hrc Ea Hlo Hhi Hlen Hp Hg. destruct Hdl as [D1 [D2 D3] D4 [D5 D6]]. destruct (total_frames _ _ _ _ _ _ _ _ _ Hrc) as (Hnd & Hok & Hsub).
  assert (HK := al_inv _ _ _ (rc_alone _ _ _ _ _ _ _ _ _ Hrc)). assert (Hused := rc_used _ _ _ _ _ _ _ _ _ Hrc).
  destruct (heap_alloc_some (heap k) STACK_SIZE 4096 p h (ki_heap _ _ _ HK) ltac:(done) Ea) as (_ & _ & Hal & Hpos & Htop & _).
  destruct (fresh_space pmo kt lo hi total frame_of spaces k s p Hrc D1 Hal ltac:(unfold STACK_SIZE in *; lia) ltac:(lia))
    as (l4 & rest & m1 & a1 & Hav & Hav1 & E1 & Hld & Hent1). rewrite Hav in Hsub, Hused. cbn [length] in Hused.
  assert (Hnd1 := NoDup_sub _ _ Hsub Hnd). assert (Hok1 := Forall_sub _ _ _ Hsub Hok).
  destruct (map_shellcode_page_loading l4 shared (l4 :: rest) (phys k) (set_memory m1 a1 k) addr code Hnd1 Hok1 Hld D2 D5 D6)
    as (m & a & top & content & E2 & Hld2 & Ec & Hcnt & Hent2); [cbn [frames set_memory]; rewrite Hav1; lia|].
  cbn [frames set_memory] in Hcnt. rewrite Hav1 in Hcnt.
  assert (Hpr : prepared pmo kt total frame_of spaces k s p l4 m a top).
  { apply (filled_prepared pmo kt lo hi total frame_of spaces k s p h l4 rest m a top [addr]); try done; [|by destruct Hld2; split|cbn [length]; lia|lia].
    intros r Hr Hrb. destruct (D4 r Hr Hrb) as [? ?]. split; [done|]. by intros ->%list_elem_of_singleton. }
  destruct (spawn_isolated_ok spaces (set_memory m a k) s tramp e None l4 kt p h id pmo top frame_of (pr_inv _ _ _ _ _ _ _ _ _ _ _ _ Hpr) Ea Hp Hg
    (pr_space _ _ _ _ _ _ _ _ _ _ _ _ Hpr)) as (g & q & k2 & top' & Eg & E3 & HK2 & Hql & Hsh & C1 & C2 & C3 & C4 & C5 & C6).
  rewrite (al_queue _ _ _ (rc_alone _ _ _ _ _ _ _ _ _ Hrc)) in Hql. cbn [app] in Hql.
  assert (Hst : forall r, r ∈ stack_pages p -> r <> addr).
  { destruct (stack_pages_aligned p Hal ltac:(unfold STACK_SIZE in *; lia)) as (_ & _ & _ & Hsp). intros r Hr. destruct (Hsp r Hr) as [? ?]. apply D4; [done|lia]. }
  assert (Etop : space_insert l4 top' spaces l4 = top') by (unfold space_insert; by rewrite decide_True).
  exists g, l4, q, (space_insert l4 top' spaces), k2. split.
  { unfold spawn_code_demo, mbind, M_bind, lift. rewrite E1. cbn [mbind outcome_bind]. rewrite E2.
    change (set_memory m a (set_memory m1 a1 k)) with (set_memory m a k). unfold spawn_isolated. by rewrite E3. }
  split; try done; rewrite ?Etop.
  - exists m, a, top. done.
  - exists content. split; [|done].
    eapply (image_kept m a l4 shared top _ _ _ _ _ _ [mkLoadedPage addr content true]); [by eapply loading_image|exact Hsh| | |].
    + intros lp ->%list_elem_of_singleton. rewrite elem_of_reverse. intros Hin. by apply (Hst addr Hin).
    + by rewrite (ld_total _ _ _ _ _ _ _ _ Hld2).
    + by rewrite (ld_total _ _ _ _ _ _ _ _ Hld2).
  - destruct (range_contains (p, p + STACK_SIZE) addr) eqn:Er; [exfalso|done]. unfold range_contains in Er. cbn [fst snd] in Er.
    destruct D2 as (Hm & _ & _). apply (D4 addr Hm ltac:(lia)). done.
  - intros i Hi Hs. by rewrite (sh_shared _ _ _ _ _ _ _ _ _ _ _ Hsh i Hi Hs), Hent2, Hent1.
  - intros x Hx. rewrite (sh_outside _ _ _ _ _ _ _ _ _ _ _ Hsh); [by apply (pr_outside _ _ _ _ _ _ _ _ _ _ _ _ Hpr)|].
    intros (f & Hf & Hfx). apply Hx. exists f. split; [|done]. eapply elem_of_submseteq; [exact Hf|]. etransitivity; [|exact Hsub].
    rewrite <- (ld_total _ _ _ _ _ _ _ _ Hld2). apply submseteq_app; [done|]. by apply submseteq_inserts_l.
Qed.

Lemma demo_frame spaces k s p h id g l4 q spaces' k' : reclaim_ok spaces k s -> demo_ready spaces k s p h id g l4 q spaces' k' ->
  exists frame, frame ∈ total /\ code_page (phys k') l4 addr frame /\ read_bytes (phys k') frame (length code) = code /\
    frame ∉ space_tables l4 (spaces' l4) /\ Forall frame_ok (frame :: space_tables l4 (spaces' l4)).
Proof using Hdl.
  intros Hrc [_ _ _ (m & a & top & Hpr & _ & Hsh) (content & Him & Ec) _ _ _ Hra _ _]. destruct (total_frames _ _ _ _ _ _ _ _ _ Hrc) as (Hnd & Hok & Hsub).
  destruct Hdl as [_ [D2 D3] _ [D5 _]]. destruct Him as [I1 I2 _]. destruct (I2 _ (list_elem_of_here _ _)) as (f & Hl & Hc & Hw & _).
  cbn [lp_page lp_content lp_writable] in *.
  assert (Hfs : freed_space (p, p + STACK_SIZE) l4 (spaces' l4) ⊆+ total).
  { etransitivity; [|exact Hsub]. rewrite <- (pr_frames _ _ _ _ _ _ _ _ _ _ _ _ Hpr), <- (sh_total _ _ _ _ _ _ _ _ _ _ _ Hsh). by apply submseteq_inserts_r. }
  assert (Hnd' := NoDup_sub _ _ Hfs Hnd). assert (Hok' := Forall_sub _ _ _ Hfs Hok).
  destruct (unborrowed_frame (p, p + STACK_SIZE) l4 (spaces' l4) addr f (proj1 D2) (proj1 (proj2 D2)) Hl Hra Hnd') as [Hin Hni].
  assert (Hfo : Forall frame_ok (f :: space_tables l4 (spaces' l4))).
  { constructor; [rewrite Forall_forall in Hok'; by apply Hok'|]. eapply Forall_sub; [apply space_tables_freed|exact Hok']. }
  exists f. split_and!; [by eapply elem_of_submseteq|by eapply space_code_page| |done|done].
  rewrite <- Ec, <- Hc. unfold read_bytes. rewrite <- fmap_take, take_seq, length_fmap, length_seq. by do 2 f_equal.
Qed.

(** No thread but the running one has page tables. *)
Lemma only_tables spaces k s id t l4 frame : kernel_inv spaces k s -> current s = id -> id <> 0%nat -> zombie s = None ->
  ready_list (ready_queue s) = [0%nat] -> threads s !! id = Some (Some t) -> page_table t = Some l4 ->
  frame ∉ space_tables l4 (spaces l4) -> Forall frame_ok (frame :: space_tables l4 (spaces l4)) -> no_table_of spaces s frame.
Proof using Type.
  clear Hdl. intros HK Hc Hid Hz Hq Ht Hpt Hni Hok id' t' l4' x Ht' Hpt' Hx (f & Hf & Hfx). assert (Hs := ki_sched _ _ _ HK).
  assert (Hi : id' ∈ live_ids s) by (apply (si_live s Hs); eauto). unfold live_ids in Hi. rewrite Hz, Hq, Hc in Hi. cbn in Hi.
  apply elem_of_cons in Hi as [->|Hi%list_elem_of_singleton].
  - rewrite Ht in Ht'. injection Ht' as <-. rewrite Hpt in Hpt'. injection Hpt' as <-. apply Forall_cons in Hok as [Hfo Hok].
    rewrite Forall_forall in Hok. apply (frame_disjoint frame f x); [done|by apply Hok| |done|done]. by intros ->.
  - subst id'. destruct (si_thread s Hs _ _ Ht') as [_ Ho]. rewrite decide_True in Ho by done. destruct Ho as (_ & Ho & _). congruence.
Qed.

Lemma demo_entered spaces k s p h id g l4 q spaces' k' : reclaim_ok spaces k s -> id <> 0%nat -> (id < MAX_THREADS)%nat ->
  demo_ready spaces k s p h id g l4 q spaces' k' ->
  let t := isolated p e l4 None in let s1 := registered s id t (g + 1) q in
  exists k2 s2 frame th, yield_now k' = Ok (Some e, k2) /\ entered spaces' k' s1 id t k2 s2 /\ frame ∈ total /\ cr3 k2 = l4 /\
    forall {D} (sys : System H D), kernel sys = k2 -> demo_running addr frame spaces' s2 th 0 code sys.
Proof using Hdl.
  intros Hrc Hid Hlt Hrd t s1. destruct (demo_frame spaces k s p h id g l4 q spaces' k' Hrc Hrd) as (frame & Hft & Hcp & Hcode & Hni & Hok).
  destruct Hrd as [_ R2 R3 _ _ _ R7 R8 _ _ _]. destruct Hrc as [[HK Hb Hq _] _ Hpmo _ _ _]. assert (Hs := ki_sched _ _ _ HK).
  destruct (yield_enters spaces' k' s1 id t e R2 Hb R3) as (k2 & s2 & E & Hen & _).
  { apply list_lookup_insert_eq. by rewrite (si_threads s Hs). }
  { done. }
  { rewrite R7. apply list_lookup_insert_eq. by rewrite (ki_suspended _ _ _ HK). }
  assert (Hen' := Hen). destruct Hen' as [N1 N2 N3 N4 (u & Hu & Hcr & _) (th & N6 & (_ & _ & Hpt & _ & Hof & _)) _ _ N9 _ N11 N12].
  assert (Hc : cr3 k2 = l4) by (rewrite N2, N6 in Hu; injection Hu as <-; by rewrite Hcr, Hpt).
  exists k2, s2, frame, th. split_and!; [done|done|done|done|]. intros D sys Ek.
  split; rewrite ?Ek; [done|by rewrite N2|by rewrite N2|by rewrite Hof| | |by rewrite N9].
  - split; rewrite Ek; [by rewrite N9, Hc|]. rewrite N12, R8, Hpmo. eauto.
  - by apply (only_tables spaces' k2 s2 id th l4).
Qed.

(** The thread exits: what it had is all that is left to be freed. *)
Lemma demo_exits spaces k s p h id g l4 q spaces' k' k2 s2 k3 s3 blocks : reclaim_ok spaces k s ->
  heap_alloc STACK_SIZE 4096 (heap k) = (Some p, h) -> id ∉ live_ids s -> id <> 0%nat -> other_blocks k s blocks ->
  demo_ready spaces k s p h id g l4 q spaces' k' ->
  let t := isolated p e l4 None in entered spaces' k' (registered s id t (g + 1) q) id t k2 s2 ->
  worked id k2 s2 k3 s3 -> kernel_inv spaces' k3 s3 -> (forall x, ~ in_frames total x -> phys k3 x = phys k2 x) ->
  exists e4 k4 s4, exit_current_thread k3 = Ok (e4, k4) /\ reclaim_ok spaces' k4 s4 /\ zombie s4 = Some id /\
    zombie_stack s4 = Some (p, STACK_SIZE) /\ other_blocks k4 s4 blocks /\ heap k4 = reaped_heap s h /\
    slot_generations s4 = <[id := g + 1]> (slot_generations s) /\ (forall x, ~ in_frames total x -> phys k4 x = phys k' x).
Proof using Type.
  clear Hdl. intros Hrc Ea Hni Hid Hob [_ _ _ (m & a & top & Hpr & Esp & Hsh) _ R6 _ R8 _ _ _] t Hen Hw HK3 Hout.
  assert (HK := al_inv _ _ _ (rc_alone _ _ _ _ _ _ _ _ _ Hrc)).
  destruct (entered_exits spaces' k' _ id t k2 s2 k3 s3 Hid Hen Hw HK3) as (e4 & k4 & s4 & E & Hee & Hp4).
  destruct (zombie_frames_kept pmo kt frame_of spaces k s l4 m a p top (spaces' l4) id t (g + 1) q HK (pr_space _ _ _ _ _ _ _ _ _ _ _ _ Hpr) Hni) as [Hz Hrh].
  rewrite <- Esp in Hz. assert (Hee' := Hee). destruct Hee' as [A1 A2 A3 A4 A5 A6 A7 A8 A9 A10].
  assert (Hx : forall x, ~ in_frames total x -> phys k4 x = phys k' x) by (intros x Hx; by rewrite Hp4, (Hout x Hx), (en_phys _ _ _ _ _ _ _ Hen)).
  exists e4, k4, s4. split_and!; [done| |done|done| |by rewrite A7, Hrh, R6|done|done].
  - rewrite Esp in Hee, Hz |- *.
    apply (round_reclaim_ok pmo kt lo hi total frame_of spaces k s p l4 m a top (spaces' l4) t k' (registered s id t (g + 1) q) k4 s4 id); done.
  - destruct (heap_alloc_some (heap k) STACK_SIZE 4096 p h (ki_heap _ _ _ HK) ltac:(done) Ea) as (Hh & Hlive & _).
    unfold other_blocks. rewrite A3, A7, Hrh, R6. apply (reaped_heap_blocks k s); [done|done|]. by rewrite Hlive.
Qed.
End Demo.

(** ** The block of [kernel_main] *)

Section Run.
Context {crate : X86Crate} {mapper : PageMapper} {H : Type} {kheap : KernelHeap H} {D : Type} `{!PortIo D, !AtaDrive D}.
Local Abbreviation Sys := (Sys (H := H) (D := D)).
Implicit Types (s : System H D) (st : SchedulerState) (spaces : Z -> gmap nat (ptree 3)) (t : Terminal).
Variables (fns : Functions) (wp : bool) (can_allocate : Z -> bool) (fuel : nat).

(** What [sys_wait] of the program would do, and the registers [enter_ring3]
    does not set. *)
Variables (ring3 : Z) (syscall_yield : Sys unit) (syscall_rounds : nat) (regs : Z -> Z).

(** The threads that [kernel_main] waits for, by their entry point: where
    each enters ring 3. *)
Definition demo_start (body : Z) : outcome (Z * Z * Z * Z) :=
  if body =? fn_run_open_read_demo fns then run_open_read_demo
  else if body =? fn_run_bad_pointer_demo fns then run_bad_pointer_demo
  else if body =? fn_run_spawn_wait_demo fns then run_spawn_wait_demo
  else Panic "not a thread of ring 3".

(** The program when [enter_ring3] has entered it; RSP is register 4. *)
Definition enter_ring3_state (entry stack_top args_ptr args_len : Z) : UState :=
  mkUState (set_ureg Opcode.RDI args_ptr (set_ureg Opcode.RSI args_len (set_ureg 4 stack_top regs))) entry false.

(** [yield_now] of the boot thread, with the thread it yields to.  If that
    thread is new, its trampoline calls its entry point, which enters ring 3;
    the boot thread is back when the program has left ring 3 for good.  A
    demo has at most [steps] instructions. *)
Definition yield_running (steps : nat) : Sys unit := fun s =>
  '(entered, k) ← Lifecycle.yield_now (kernel s);
  let s := set_kernel k s in
  match entered with
  | None => Ok (Go tt, s)
  | Some body =>
      '(entry, stack_top, args_ptr, args_len) ← demo_start body;
      match urun user_memory (kernel_call wp can_allocate fuel (fn_thread_trampoline fns) ring3 syscall_yield syscall_rounds) steps
              (enter_ring3_state entry stack_top args_ptr args_len) s with
      | Left3 s' => Ok (Go tt, s')
      | _ => Panic "the program did not leave ring 3"
      end
  end.

Context (pmo kt lo hi : Z) (total : list Z) (frame_of : Z -> Z).
Local Abbreviation reclaim_ok := (reclaim_ok pmo kt lo hi total frame_of).

(** A program that runs from its first instruction to its exit: [P] is what
    it does, from the state it starts in to the state in which it exits. *)
Definition runs_to_exit (steps : nat) (addr : Z) (code : list Z) (P : System H D -> System H D -> Prop) s : Prop :=
  forall spaces st th frame, demo_running addr frame spaces st th 0 code s ->
  exists s3, session frame spaces st s s3 /\ P s s3 /\
    forall e s4, exit_thread (A := Z) s3 = Ok (Gone e, s4) ->
      urun user_memory (kernel_call wp can_allocate fuel (fn_thread_trampoline fns) ring3 syscall_yield syscall_rounds) steps
        (enter_ring3_state addr (addr + 4096 - 16) 0 0) s = Left3 s4.

(** What a demo leaves behind: its thread is gone, what it had is free, and
    of the memory only free frames were written. *)
Record demo_done spaces st s p h spaces' st' s' : Prop := {
  dd_ok : reclaim_ok spaces' (kernel s') st';
  dd_live : live_ids st' = [0%nat] /\ zombie st' = None;
  dd_frames : fa_avail (frames (kernel s')) ≡ₚ fa_avail (frames (kernel s));
  dd_blocks : heap_live (heap (kernel s')) ≡ₚ heap_live (heap (kernel s));
  dd_heap : heap (kernel s') = heap_dealloc p STACK_SIZE 4096 h;
  dd_outside x : ~ in_frames total x -> phys (kernel s') x = phys (kernel s) x;
  dd_generations : exists id g, slot_generations st !! id = Some g /\ slot_generations st' = <[id := g + 1]> (slot_generations st);
  dd_input : input s' = input s;
  dd_unlocked : writer_locked (console s') = false;
  dd_color : color_code (writer (console s')) = color_code (writer (console s));
}.

Lemma reaped_slot st id : sched_inv (reaped st) -> live_ids (reaped st) = [0%nat] -> (id < MAX_THREADS)%nat -> id <> 0%nat ->
  threads (reaped st) !! id = Some None.
Proof.
  intros Hs Hl Hlt Hid. destruct (lookup_lt_is_Some_2 (threads (reaped st)) id) as [[u|] Hu]; [by rewrite (si_threads _ Hs)| |done].
  assert (Hin : id ∈ live_ids (reaped st)) by (apply (si_live _ Hs); eauto). rewrite Hl in Hin. by apply list_elem_of_singleton in Hin.
Qed.

(** [wait_for_demo] goes two rounds: in the first the thread runs and
    exits, in the second it is freed. *)
Lemma wait_two_rounds (yield : Sys unit) rounds pid s0 s1 s2 : (2 <= rounds)%nat ->
  thread_alive pid (kernel s0) = Ok (true, kernel s0) -> yield s0 = Ok (Go tt, s1) ->
  thread_alive pid (kernel s1) = Ok (true, kernel s1) -> yield s1 = Ok (Go tt, s2) ->
  thread_alive pid (kernel s2) = Ok (false, kernel s2) -> wait_for_demo yield rounds (Some pid) s0 = Ok (Go tt, s2).
Proof.
  intros Hr A0 Y0 A1 Y1 A2.
  apply (wait_for_demo_returns yield (fun i => match i with 0%nat => s0 | 1%nat => s1 | _ => s2 end) pid 2); [| |done|done].
  - intros [|[|i]] Hi; [done|done|lia].
  - intros [|[|i]] Hi; [done|done|lia].
Qed.

Section Generic.
Context (body addr : Z) (code : list Z) (steps : nat).
Context (Hdl : demo_layout pmo lo hi addr code) (Hstart : demo_start body = Ok (addr, addr + 4096 - 16, 0, 0)).

(** The thread, from the turn that enters it to its exit. *)
Lemma demo_turn spaces st s p h id g l4 q spaces' k' blocks (P : System H D -> System H D -> Prop) :
  reclaim_ok spaces (kernel s) st -> heap_alloc STACK_SIZE 4096 (heap (kernel s)) = (Some p, h) ->
  position_none (threads st) = Some id -> other_blocks (kernel s) st blocks ->
  demo_ready pmo kt total frame_of body addr code spaces (kernel s) st p h id g l4 q spaces' k' ->
  (forall k2, phys k2 = phys k' -> cr3 k2 = l4 -> runs_to_exit steps addr code P (set_kernel k2 s)) ->
  exists k2 s3 k4 st', yield_running steps (set_kernel k' s) = Ok (Go tt, set_kernel k4 s3) /\ P (set_kernel k2 s) s3 /\
    reclaim_ok spaces' k4 st' /\ zombie st' = Some id /\ zombie_stack st' = Some (p, STACK_SIZE) /\ other_blocks k4 st' blocks /\
    heap k4 = reaped_heap st h /\ slot_generations st' = <[id := g + 1]> (slot_generations st) /\
    (forall x, ~ in_frames total x -> phys k4 x = phys (kernel s) x) /\
    input s3 = input s /\ writer_locked (console s3) = false /\ color_code (writer (console s3)) = color_code (writer (console s)).
Proof using Hdl Hstart.
  intros Hrc Ea Hp Hob Hrd Hprog. assert (Hsi := ki_sched _ _ _ (al_inv _ _ _ (rc_alone _ _ _ _ _ _ _ _ _ Hrc))).
  destruct (free_slot_not_live st id Hsi Hp) as (Hni & Hid & Hlt & _).
  destruct (demo_entered _ _ _ _ _ _ _ _ _ Hdl _ _ _ _ _ _ _ _ _ _ _ Hrc Hid Hlt Hrd) as (k2 & st2 & frame & th & E1 & Hen & Hft & Hcr & Hrun).
  destruct (Hprog k2 (en_phys _ _ _ _ _ _ _ Hen) Hcr spaces' st2 th frame (Hrun D (set_kernel k2 s) eq_refl))
    as (s3 & [(st3 & Hw & HK3) Hout Hi Hul Hc] & HP & Hexit).
  rewrite (en_current _ _ _ _ _ _ _ Hen) in Hw.
  destruct (demo_exits _ _ _ _ _ _ _ _ _ spaces (kernel s) st p h id g l4 q spaces' k' k2 st2 (kernel s3) st3 blocks Hrc Ea Hni Hid Hob Hrd Hen Hw HK3)
    as (e4 & k4 & st4 & E4 & Hrc4 & Hz4 & Hzs4 & Hob4 & Hh4 & Hg4 & Hx4).
  { intros x Hx. apply Hout. intros Hin. apply Hx. by exists frame. }
  exists k2, s3, k4, st4. split_and!; try done.
  - unfold yield_running. cbn [kernel set_kernel]. rewrite E1. cbn [mbind outcome_bind]. rewrite Hstart. cbn [mbind outcome_bind].
    change (set_kernel k2 (set_kernel k' s)) with (set_kernel k2 s). rewrite (Hexit e4 (set_kernel k4 s3)); [done|]. unfold exit_thread. by rewrite E4.
  - intros x Hx. by rewrite (Hx4 x Hx), (rdy_outside _ _ _ _ _ _ _ _ _ _ _ _ _ _ _ _ _ _ Hrd).
Qed.

(** The demo, from its spawn to the return of [wait_for_demo].  The program
    sees the kernel's memory through the shared entries. *)
Lemma demo_ends spaces st s p h rounds (P : System H D -> System H D -> Prop) :
  reclaim_ok spaces (kernel s) st -> zombie st = None -> (122 <= length total)%nat ->
  heap_alloc STACK_SIZE 4096 (heap (kernel s)) = (Some p, h) -> lo <= p -> p + STACK_SIZE <= hi ->
  Forall (fun g => 0 <= g < 2 ^ 56 - 1) (slot_generations st) -> (2 <= rounds)%nat ->
  (forall k2, (forall i, (i < 512)%nat -> i ∈ [0%nat; va_index 4 pmo] -> table_entry (phys k2) (cr3 k2) i = table_entry (phys (kernel s)) kt i) ->
     (forall x, ~ in_frames total x -> phys k2 x = phys (kernel s) x) -> runs_to_exit steps addr code P (set_kernel k2 s)) ->
  exists k2 s3 k3 spaces' st',
    (pid ← on_kernel (spawn_code_demo (fn_thread_trampoline fns) body pmo kt addr (Ok code) true); wait_for_demo (yield_running steps) rounds pid) s =
      Ok (Go tt, set_kernel k3 s3) /\ P (set_kernel k2 s) s3 /\ demo_done spaces st s p h spaces' st' (set_kernel k3 s3).
Proof using Hdl Hstart.
  intros Hrc Hz Hlen Ea Hlo Hhi Hg Hr Hprog. assert (HK := al_inv _ _ _ (rc_alone _ _ _ _ _ _ _ _ _ Hrc)). assert (Hsi := ki_sched _ _ _ HK).
  destruct (alone_slot spaces (kernel s) st (rc_alone _ _ _ _ _ _ _ _ _ Hrc)) as [id Hp]. destruct (free_slot_not_live st id Hsi Hp) as (_ & Hid & Hlt & _).
  destruct (demo_spawned _ _ _ _ _ _ (fn_thread_trampoline fns) body _ _ Hdl spaces (kernel s) st p h id Hrc Ea Hlo Hhi Hlen Hp)
    as (g & l4 & q & spaces' & k' & E1 & Hrd); [eapply Forall_impl; [exact Hg|]; cbn beta; unfold U64_MAX; lia|].
  assert (Eg := rdy_generation _ _ _ _ _ _ _ _ _ _ _ _ _ _ _ _ _ _ Hrd). assert (Hgb := Forall_lookup_1 _ _ _ _ Hg Eg). cbn beta in Hgb.
  assert (Hob : other_blocks (kernel s) st (heap_live (heap (kernel s)))) by (unfold other_blocks, zombie_stack; by rewrite Hz).
  destruct (demo_turn spaces st s p h id g l4 q spaces' k' _ P Hrc Ea Hp Hob Hrd)
    as (k2 & s3 & k4 & st2 & E2 & HP & Hrc2 & Hz2 & Hzs2 & Hob2 & Hh2 & Hg2 & Hx2 & Hi2 & Hl2 & Hc2).
  { intros k2 Ep Ec. apply Hprog; rewrite ?Ep, ?Ec; [apply (rdy_shared _ _ _ _ _ _ _ _ _ _ _ _ _ _ _ _ _ _ Hrd)|apply (rdy_outside _ _ _ _ _ _ _ _ _ _ _ _ _ _ _ _ _ _ Hrd)]. }
  destruct (reclaim_yields _ _ _ _ _ _ spaces' k4 st2 _ Hrc2 Hob2) as (k3 & E3 & Hrc3 & Hl3 & Hb3 & Hav3 & Hp3 & Hh3).
  assert (Hz0 := rc_total _ _ _ _ _ _ _ _ _ Hrc). unfold zombie_frames in Hz0. rewrite Hz in Hz0. cbn [mbind option_bind app] in Hz0.
  assert (HK2 := al_inv _ _ _ (rc_alone _ _ _ _ _ _ _ _ _ Hrc2)). assert (HK3 := al_inv _ _ _ (rc_alone _ _ _ _ _ _ _ _ _ Hrc3)).
  exists k2, s3, k3, spaces', (reaped st2). split_and!; [|done|].
  - unfold mbind, Sys_bind, on_kernel. rewrite E1. cbn [mbind outcome_bind].
    apply (wait_two_rounds _ rounds _ (set_kernel k' s) (set_kernel k4 s3)); [done| |done| | |].
    + apply (thread_alive_slot spaces' k' _ id (g + 1) (isolated p body l4 None) (rdy_inv _ _ _ _ _ _ _ _ _ _ _ _ _ _ _ _ _ _ Hrd)); [done|lia| |].
      * apply list_lookup_insert_eq. by rewrite (si_threads st Hsi).
      * apply list_lookup_insert_eq. by rewrite (si_generations st Hsi).
    + destruct (zombie_thread st2 id (ki_sched _ _ _ HK2) Hz2) as [_ (u & Hu2)].
      apply (thread_alive_slot spaces' k4 st2 id (g + 1) u HK2); [done|lia|done|]. rewrite Hg2. apply list_lookup_insert_eq. by rewrite (si_generations st Hsi).
    + unfold yield_running. cbn [kernel set_kernel]. by rewrite E3.
    + apply (thread_dead_slot spaces' k3 (reaped st2) id (g + 1) HK3); [done|lia|]. apply reaped_slot; [apply HK3|done|done|done].
  - destruct (reaped_same st2) as (_ & _ & R3 & _ & R5). split; cbn [kernel console input set_kernel]; try done.
    + by rewrite Hz0.
    + rewrite Hh3, Hh2. unfold reaped_heap. rewrite Hzs2. unfold zombie_stack. by rewrite Hz.
    + intros x Hx. by rewrite Hp3, Hx2.
    + exists id, g. split; [done|]. by rewrite R5.
Qed.
End Generic.

(** *** The two demos *)

(** The page of a demo is in no entry of the kernel's. *)
Record demo_apart (addr : Z) : Prop := {
  da_pmo : canonical pmo;
  da_page : hw_index 4 addr <> va_index 4 pmo;
  da_heap q : q mod PAGE_SIZE = 0 -> lo <= q < hi -> hw_index 4 q ∉ [0%nat; va_index 4 pmo] /\ q <> addr;
}.

Lemma demo_apart_layout addr code : demo_apart addr -> addr mod PAGE_SIZE = 0 -> 2 ^ 39 <= addr < 2 ^ 47 ->
  (length code <= 4096)%nat -> Forall is_u8 code -> demo_layout pmo lo hi addr code.
Proof.
  intros [A1 A2 A3] Hm Hb Hl Hu. split; [done| |done|done]. split; [|lia]. split_and!; [done|lia..|].
  intros [H0|[H1|?%not_elem_of_nil]%elem_of_cons]%elem_of_cons; [|done|done]. by apply (above_first_entry addr Hb).
Qed.

Lemma page_demo_start_ok addr : 0 <= addr -> addr + 4096 < 2 ^ 47 -> page_demo_start addr = Ok (addr, addr + 4096 - 16, 0, 0).
Proof.
  intros H0 H1. unfold page_demo_start, va_new, add_w, sub_w. rewrite va_try_new_canonical by (unfold canonical; lia). cbn [expect mbind outcome_bind].
  rewrite (proj2 (Z.ltb_lt _ _)) by lia. cbn [mbind outcome_bind]. rewrite (proj2 (Z.leb_le _ _)) by lia. cbn [mbind outcome_bind].
  by rewrite va_try_new_canonical by (unfold canonical; lia).
Qed.

(** The open/read demo, end to end.  When [kernel_main] gets to it, with
    only its own thread alive, a file [HELLO.TXT] on the disk, 122 free
    frames and room for a stack, it builds an address space with the
    program, starts a thread in it and waits: the thread enters ring 3, opens
    the file, reads it, prints it and exits, and [wait_for_demo] returns.
    The screen shows the announcement and the text of the first 64 bytes of
    the file; the kernel invariant holds, the thread is gone, and every frame
    and every heap block the demo took is back. *)
Lemma open_read_demo_correct spaces st s p h d dk t rounds :
  demo_apart OPEN_READ_DEMO_ADDR -> reclaim_ok spaces (kernel s) st -> zombie st = None -> (122 <= length total)%nat ->
  heap_alloc STACK_SIZE 4096 (heap (kernel s)) = (Some p, h) -> lo <= p -> p + STACK_SIZE <= hi ->
  Forall (fun g => 0 <= g < 2 ^ 56 - 1) (slot_generations st) -> (2 <= rounds)%nat ->
  shows (writer (console s)) t -> writer_locked (console s) = false ->
  read_file fuel can_allocate (bytes_of "HELLO.TXT") (disk s) = Ok (Some d, dk) -> Forall is_u8 d -> d <> [] ->
  let color := color_code (writer (console s)) in
  exists s' spaces' st', open_read_demo fns (yield_running 16) rounds pmo kt s = Ok (Go tt, s') /\
    demo_done spaces st s p h spaces' st' s' /\
    shows (writer (console s')) (type_bytes color (shown <$> default (bytes_of "<sys_write: invalid utf-8>") (utf8_decode (take 64 d)))
      (say color [bytes_of "[fs]    HELLO.TXT via ring-3 sys_open/sys_read/sys_write:"] t)) /\
    disk s' = dk.
Proof.
  intros Hda Hrc Hz Hlen Ea Hlo Hhi Hg Hr Hs Hl Hf Hu Hd color.
  destruct (print_line [bytes_of "[fs]    HELLO.TXT via ring-3 sys_open/sys_read/sys_write:"] s t Hs Hl) as (c & E0 & Hl0 & Hc0 & Hs0). fold color in Hs0, Hc0.
  set (s0 := mkSystem (kernel s) c (input s) (disk s)) in E0.
  assert (Hcode : exists code, build_open_read_shellcode OPEN_READ_DEMO_ADDR = Ok code /\ (length code <= 4096)%nat /\ Forall is_u8 code).
  { eexists. split; [apply build_open_read_listing; unfold OPEN_READ_DEMO_ADDR; lia|]. split; [vm_compute; lia|].
    apply (bool_decide_eq_true_1 _). vm_compute. reflexivity. }
  destruct Hcode as (code & Eb & Hcl & Hcu). set (body := fn_run_open_read_demo fns).
  assert (Hst : demo_start body = Ok (OPEN_READ_DEMO_ADDR, OPEN_READ_DEMO_ADDR + 4096 - 16, 0, 0)).
  { unfold demo_start, body. rewrite Z.eqb_refl. apply page_demo_start_ok; unfold OPEN_READ_DEMO_ADDR; lia. }
  destruct (demo_ends body OPEN_READ_DEMO_ADDR code 16 (demo_apart_layout _ _ Hda eq_refl ltac:(unfold OPEN_READ_DEMO_ADDR; lia) Hcl Hcu) Hst spaces st s0 p h rounds
    (fun _ s3 => disk s3 = dk /\ shows (writer (console s3)) (type_bytes color
      (shown <$> default (bytes_of "<sys_write: invalid utf-8>") (utf8_decode (take 64 d))) (say color [bytes_of "[fs]    HELLO.TXT via ring-3 sys_open/sys_read/sys_write:"] t)))
    Hrc Hz Hlen Ea Hlo Hhi Hg Hr) as (k2 & s3 & k3 & spaces' & st' & E & [Hdk Hsh] & [B1 B2 B3 B4 B5 B6 B7 B8 B9 B10]).
  - intros k2 _ _ spaces2 st2 th frame Hrun.
    destruct (open_read_demo_runs wp can_allocate fuel (fn_thread_trampoline fns) ring3 syscall_yield syscall_rounds OPEN_READ_DEMO_ADDR frame spaces2
      st2 th 0 code d dk _ (enter_ring3_state OPEN_READ_DEMO_ADDR (OPEN_READ_DEMO_ADDR + 4096 - 16) 0 0) (set_kernel k2 s0) Eb Hrun eq_refl Hs0 Hl0 Hf Hu Hd)
      as (s3 & Hse & Hdk & Hsh & Hexit). cbn [console set_kernel s0] in Hsh. rewrite Hc0 in Hsh. exists s3. done.
  - exists (set_kernel k3 s3), spaces', st'. split_and!; [| |done|done].
    + unfold open_read_demo, mbind, Sys_bind. rewrite E0. unfold spawn_open_read_demo. rewrite Eb. exact E.
    + split; try done. by rewrite B10.
Qed.

(** The thread exits whatever its caller would have got. *)
Lemma exit_thread_any B s e s4 : exit_thread (A := Z) s = Ok (Gone e, s4) -> exit_thread (A := B) s = Ok (Gone e, s4).
Proof. unfold exit_thread. destruct (exit_current_thread (kernel s)) as [[e' k]|]; [|done]. by intros [= <- <-]. Qed.

Definition killed_line : list (list Z) := [bytes_of "[proc]  thread killed: "; bytes_of "syscall argument pointer not mapped for read"; [10]].

(** The program with the bad pointer gets to its call and is killed in it. *)
Lemma bad_pointer_runs t s : user_denied (phys (kernel s)) (cr3 (kernel s)) BAD_POINTER ->
  shows (writer (console s)) t -> writer_locked (console s) = false ->
  runs_to_exit 16 BAD_POINTER_DEMO_ADDR build_bad_pointer_shellcode (fun s s3 => disk s3 = disk s /\
    shows (writer (console s3)) (type_bytes (color_code (writer (console s))) (shown <$> concat killed_line) t)) s.
Proof.
  intros Hd Hs Hl spaces st th frame [HK Hcur Hth _ Hpg _ Hcode]. destruct (print_keeps killed_line s t Hs Hl) as (w' & E & Hw & Hc).
  match type of E with _ = Ok (_, ?x) => exists x end. split; [|split; [by split|]].
  { split; [|done|done|done|exact Hc]. exists st. split; [apply worked_refl|done]. }
  intros e s4 Ex. apply (exit_thread_any unit) in Ex. destruct Hpg as [Hcp [pmo' Hpmo]]. set (u := enter_ring3_state _ _ _ _).
  assert (Hr : user_range_ok BAD_POINTER 10 false s = Ok (Go false, s)).
  { unfold user_range_ok, BAD_POINTER. cbn [Z.eqb]. rewrite va_try_new_canonical by (unfold canonical; lia). unfold get, check, mbind, Sys_bind.
    rewrite Hpmo. cbn [expect mbind outcome_bind]. by rewrite denied_range by (done || lia). }
  assert (Ec : kernel_call wp can_allocate fuel (fn_thread_trampoline fns) ring3 syscall_yield syscall_rounds SYS_WRITE 1 BAD_POINTER 10 (uregs u Opcode.RCX) s = inr s4).
  { unfold kernel_call. change (dispatch _ _ _ _ _ _ _ SYS_WRITE _ _ _ _ s) with (sys_write wp 1 BAD_POINTER 10 s). unfold sys_write, copy_from_user.
    change (Z.to_nat (Z.min 10 1024)) with 10%nat. cbn [Z.eqb Pos.eqb negb]. unfold mbind, Sys_bind. rewrite Hr. unfold kill_current_thread.
    unfold mbind, Sys_bind. unfold killed_line in E. by rewrite E, Ex. }
  change 16%nat with (length bad_pointer_listing + 1 + 11)%nat. rewrite urun_app.
  assert (Hlist : listing_at (user_memory s) (urip u) (bad_pointer_listing ++ IntN 0x80 :: [])).
  { apply (on_page_listing BAD_POINTER_DEMO_ADDR frame s (bad_pointer_listing ++ [IntN 0x80])); [split; [exact Hcp|eauto]|vm_compute; lia|].
    rewrite <- build_bad_pointer_listing. exact Hcode. }
  rewrite (urun_call user_memory _ bad_pointer_listing [] u s); [|apply bad_pointer_moves|exact Hlist|done|done].
  change (kernel_call _ _ _ _ _ _ _ _ _ _ _ _ s) with
    (kernel_call wp can_allocate fuel (fn_thread_trampoline fns) ring3 syscall_yield syscall_rounds SYS_WRITE 1 BAD_POINTER 10 (uregs u Opcode.RCX) s).
  by rewrite Ec.
Qed.

(** The demo of the bad pointer, end to end: the thread is killed in its
    only system call, [kernel_main] gets the processor back, and nothing of
    the thread is left but the message. *)
Lemma bad_pointer_demo_correct spaces st s p h t rounds :
  demo_apart BAD_POINTER_DEMO_ADDR -> fn_run_bad_pointer_demo fns <> fn_run_open_read_demo fns ->
  reclaim_ok spaces (kernel s) st -> kernel_denies (phys (kernel s)) kt total BAD_POINTER -> zombie st = None -> (122 <= length total)%nat ->
  heap_alloc STACK_SIZE 4096 (heap (kernel s)) = (Some p, h) -> lo <= p -> p + STACK_SIZE <= hi ->
  Forall (fun g => 0 <= g < 2 ^ 56 - 1) (slot_generations st) -> (2 <= rounds)%nat ->
  shows (writer (console s)) t -> writer_locked (console s) = false ->
  exists s' spaces' st', bad_pointer_demo fns (yield_running 16) rounds pmo kt s = Ok (Go tt, s') /\
    demo_done spaces st s p h spaces' st' s' /\
    shows (writer (console s')) (type_bytes (color_code (writer (console s))) (shown <$> concat killed_line) t) /\ disk s' = disk s.
Proof.
  intros Hda Hne Hrc Hden Hz Hlen Ea Hlo Hhi Hg Hr Hs Hl. destruct (total_frames _ _ _ _ _ _ _ _ _ Hrc) as (_ & Hok & _).
  assert (Hst : demo_start (fn_run_bad_pointer_demo fns) = Ok (BAD_POINTER_DEMO_ADDR, BAD_POINTER_DEMO_ADDR + 4096 - 16, 0, 0)).
  { unfold demo_start. rewrite (proj2 (Z.eqb_neq _ _)) by done. rewrite Z.eqb_refl. apply page_demo_start_ok; unfold BAD_POINTER_DEMO_ADDR; lia. }
  assert (Hcode : Forall is_u8 build_bad_pointer_shellcode) by (apply (bool_decide_eq_true_1 _); vm_compute; reflexivity).
  destruct (demo_ends (fn_run_bad_pointer_demo fns) BAD_POINTER_DEMO_ADDR build_bad_pointer_shellcode 16
    (demo_apart_layout _ build_bad_pointer_shellcode Hda eq_refl ltac:(unfold BAD_POINTER_DEMO_ADDR; lia) ltac:(vm_compute; lia) Hcode) Hst spaces st s p h rounds
    (fun s s3 => disk s3 = disk s /\ shows (writer (console s3)) (type_bytes (color_code (writer (console s))) (shown <$> concat killed_line) t))
    Hrc Hz Hlen Ea Hlo Hhi Hg Hr) as (k2 & s3 & k3 & spaces' & st' & E & [Hdk Hsh] & Hdd).
  - intros k2 Hsh2 Hx2. apply bad_pointer_runs; [|done|done]. apply (shared_denied _ kt total BAD_POINTER (phys k2) (cr3 k2) Hden Hok Hx2).
    apply Hsh2; [apply hw_index_lt|by left].
  - exists (set_kernel k3 s3), spaces', st'. done.
Qed.
End Run.
