(* ===== verification/PowerOn.v ===== *)
(** * From the bootloader to the first programs (src/main.rs)

    [kernel_main] and the threads it starts, as one run: the kernel comes up,
    checks itself, reads a program off its disk and loads it, and runs the
    programs of two demos in ring 3 to their ends. *)

From S2P Require Import Executor Wakeup.
From S2P Require Import Prelude Ring X86 Asm FrameAlloc Paging AddressSpace Mapper MapperRef Mappings Elf ElfThms ElfImage ElfLoad.
From S2P Require Import Threads Scheduler SchedulerInv SpawnInv SpawnIsolated SchedulerThms Ata Fat FatThms Vga Utf8 Keyboard Process Boot.
From S2P Require Import Interrupts Syscall SyscallThms SyscallIo SyscallSamples Userspace Lifecycle Reclaim Demos Build DemoPrograms Bringup Main DemoRuns.

(** ** The kernel's own mappings *)

Section Maps.
Context {crate : X86Crate}.
Implicit Types (m : mem) (top : gmap nat (ptree 3)).

Lemma tree_child m l (c : ptree (S l)) x f : repr m (S l) c -> tree_lookup (S l) x c = Some f ->
  exists d, children c !! hw_index (S l) x = Some d /\ pte_frame (table_entry m (root c) (hw_index (S l) x)) = FrameOk (root d) /\
    repr m l d /\ tree_lookup l x d = Some f.
Proof.
  intros Hr Hl. specialize (Hr _ (hw_index_lt (S l) x)). cbn [tree_lookup] in Hl.
  destruct (children c !! hw_index (S l) x) as [d|]; [|done]. destruct Hr as [Hf Hr]. exists d. rewrite root_table. by split_and!.
Qed.

Lemma tree_leaf m l (c : ptree (S l)) x f : repr m (S l) c -> tree_lookup (S l) x c = Some f ->
  exists e, leaf_entry m (root c) (hw_indexes (S l) x) = Some e /\ f = Z.land e ADDR_MASK.
Proof.
  revert c. induction l as [|l IH]; intros c Hr Hl; destruct (tree_child m _ c x f Hr Hl) as (d & Ec & Hf & Hrd & Hd); rewrite hw_indexes_S.
  - injection Hd as <-. rewrite pte_frame_spec in Hf. cbn [leaf_entry hw_indexes]. destruct (Z.testbit _ 0); [|done].
    destruct (Z.testbit _ 7); [done|]. injection Hf as Hf. eexists. by split.
  - destruct (IH d Hrd Hd) as (e & He & Hfe). exists e. split; [|done]. rewrite hw_indexes_S in He |- *. cbn [leaf_entry] in *. by rewrite Hf.
Qed.

(** A walk stays in the tables of the tree. *)
Lemma tree_walk_in m l (c : ptree (S l)) x t : repr m (S l) c -> t ∈ walk_tables m (root c) (hw_indexes (S l) x) -> t ∈ tables (S l) c.
Proof.
  revert c. induction l as [|l IH]; intros c Hr; rewrite hw_indexes_S, root_table; cbn [walk_tables]; (intros [->|Hin]%elem_of_cons; [by left|]);
    [by destruct (pte_frame _); apply not_elem_of_nil in Hin|]. specialize (Hr _ (hw_index_lt (S (S l)) x)).
  destruct (children c !! hw_index (S (S l)) x) as [d|] eqn:Ec.
  - destruct Hr as [Hf Hr]. rewrite Hf in Hin. right. apply list_elem_of_bind. exists (hw_index (S (S l)) x).
    split; [unfold at_child; rewrite Ec; by apply IH|]. apply elem_of_entry_indexes, hw_index_lt.
  - rewrite pte_frame_spec, Hr in Hin. by apply not_elem_of_nil in Hin.
Qed.

Section Tables.
Context {A} `{!FrameAllocator A, !FrameDeallocator A, !LawfulFrameAllocator A} (m : mem) (l4 : Z) (shared : list nat) (top : gmap nat (ptree 3)) (a : A).
Context (Hok : space_ok m l4 shared top a).

(** The kernel walks through tables that are not free. *)
Lemma space_walk_apart x : hw_index 4 x ∉ shared -> Forall (fun t => frame_ok t /\ t ∉ fa_avail a) (walk_tables m l4 (hw_indexes 4 x)).
Proof using Hok.
  intros Hs. destruct Hok as (_ & [_ Hr] & _ & Hnd & Hf). apply NoDup_app in Hnd as (_ & Hd & _). apply Forall_app in Hf as [Hf _].
  rewrite Forall_forall in Hf. apply Forall_forall. intros t Ht. assert (Hin : t ∈ space_tables l4 top); [|split; [by apply Hf|by apply Hd]].
  specialize (Hr _ (hw_index_lt 4 x) Hs). rewrite hw_indexes_S in Ht. cbn [walk_tables] in Ht. apply elem_of_cons in Ht as [->|Ht]; [by left|].
  destruct (top !! hw_index 4 x) as [c|] eqn:Ec.
  - destruct Hr as [Hfr Hr]. rewrite Hfr in Ht. right. apply list_elem_of_bind. exists (hw_index 4 x).
    split; [unfold at_child; rewrite Ec; by apply (tree_walk_in m 2 c x)|]. apply elem_of_entry_indexes, hw_index_lt.
  - rewrite pte_frame_spec, Hr in Ht. by apply not_elem_of_nil in Ht.
Qed.

Lemma space_kernel_maps x f : hw_index 4 x ∉ shared -> space_lookup top x = Some f -> kernel_maps m l4 (fa_avail a) x f.
Proof using Hok.
  intros Hs Hl. assert (Hw := space_walk_apart x Hs). destruct Hok as (_ & [_ Hr] & _). specialize (Hr _ (hw_index_lt 4 x) Hs). unfold space_lookup in Hl.
  destruct (top !! hw_index 4 x) as [c|] eqn:Ec; [|done]. destruct Hr as [Hf Hr]. destruct (tree_leaf m 2 c x f Hr Hl) as (e & He & Hfe).
  exists e. split_and!; [|done|exact Hw]. rewrite hw_indexes_S. rewrite hw_indexes_S in He |- *. cbn [leaf_entry] in *. by rewrite Hf.
Qed.

(** What the kernel does not map, it denies. *)
Lemma space_kernel_denies x : hw_index 4 x ∉ shared -> space_lookup top x = None -> kernel_denies m l4 (fa_avail a) x.
Proof using Hok.
  intros Hs Hl. split; [|by apply space_walk_apart]. assert (Hn := space_not_present m l4 shared top x (proj1 (proj2 Hok)) Hs Hl).
  unfold user_denied. revert Hn. generalize l4, (hw_indexes 4 x). intros t indexes. revert t. induction indexes as [|i rest IH]; intros t Hn; [done|].
  cbn [not_present accessible_walk] in *. rewrite contains_required. unfold pte_allows. rewrite pte_frame_spec in Hn |- *.
  destruct (Z.testbit (table_entry m t i) 0); [|done]. cbn [negb] in *. destruct (Z.testbit (table_entry m t i) 7); [done|].
  destruct (negb _); [done|]. by apply IH.
Qed.
End Tables.
End Maps.

(** ** The programs that are loaded *)

Section Programs.
Context {crate : X86Crate} {mapper : PageMapper} {H : Type} {kheap : KernelHeap H}.
Context {D : Type} `{!PortIo D, !AtaDrive D}.
Implicit Types (k : Kernel H) (s : System H D) (t : Terminal) (top : gmap nat (ptree 3)).
Context (can_allocate : Z -> bool) (fuel : nat).

(** The file [name] is on the disk and can be read. *)
Definition file_on_disk (name content : list Z) : Prop :=
  exists b e, disk_lookup name = Some (b, e) /\ readable fuel can_allocate b e /\ file_contents b e = content.

Lemma file_read name content (d : D) : ata_ready d -> file_on_disk name content ->
  exists d', read_file fuel can_allocate name d = Ok (Some content, d') /\ ata_ready d'.
Proof.
  intros Hd (b & e & El & Hr & <-). destruct (@read_file_ok D ata_disk fuel can_allocate name d Hd) as (d' & E & Hd').
  - intros b' e' E'. rewrite E' in El. by injection El as -> ->.
  - exists d'. split; [|done]. by rewrite El in E.
Qed.

Lemma file_u8 name content : file_on_disk name content -> Forall is_u8 content.
Proof.
  intros (b & e & _ & _ & <-). apply Forall_take, Forall_bind. apply Forall_true. intros c.
  apply Forall_bind, Forall_true. intros i. apply disk_sector_bytes.
Qed.

(** A program that [elf::load] accepts, with its entry point and its
    segments. *)
Record loadable (pmo : Z) (elf : list Z) (e : Z) (segs : list segment) : Prop := {
  ll_header : header_ok elf = true;
  ll_parses : parse_elf elf = Some (e, segs);
  ll_entry : 0 <= e < 2 ^ 47;
  ll_layout : layout_ok [0%nat; va_index 4 pmo] segs;
}.

Context (spaces : Z -> gmap nat (ptree 3)) (color : ColorCode) (l4 pmo : Z) (shared : list nat) (fns : Functions) (show_usize show_hex : Z -> list Z).
Local Abbreviation checking := (checking spaces color l4 pmo shared).

Definition echo_line (elf : list Z) : list (list Z) :=
  [bytes_of "[fs]    read ECHO.ELF ("; show_usize (Z.of_nat (length elf)); bytes_of " bytes) off the FAT16 disk"].

Lemma disk_elf_demo_ok elf e segs top t s : checking top t s -> canonical pmo -> file_on_disk (bytes_of "ECHO.ELF") elf -> loadable pmo elf e segs ->
  (4 * total_pages segs + 1 <= free_frames s)%nat ->
  exists s', disk_elf_demo fns show_usize show_hex can_allocate fuel pmo l4 s = Ok (Go tt, s') /\
    checking top (say color (elf_line show_hex e (args_page segs - 16)) (say color (echo_line elf) t)) s' /\
    (free_frames s <= free_frames s' + (4 * total_pages segs + 1))%nat /\ heap (kernel s') = heap (kernel s).
Proof.
  intros C Hpmo Hfile [L1 L2 L3 L4] Hfr. destruct (file_read _ _ _ (ck_disk _ _ _ _ _ _ _ _ C) Hfile) as (d & E & Hd).
  assert (C' : checking top t (mkSystem (kernel s) (console s) (input s) d)) by (destruct C; by split).
  destruct (println_ok _ _ _ _ _ (echo_line elf) _ _ _ C') as (s1 & E1 & C1 & K1). cbn [kernel] in K1. unfold free_frames in Hfr. rewrite <- K1 in Hfr.
  destruct (fa_avail (frames (kernel s1))) as [|f rest] eqn:Hav; [cbn in Hfr; lia|]. cbn [length] in Hfr.
  destruct (space_frames_apart _ _ _ _ _ _ _ (ck_space _ _ _ _ _ _ _ _ C1) Hav) as (Hap & Hnd & Hok). rewrite <- (ck_cr3 _ _ _ _ _ _ _ _ C1) in Hap.
  destruct (ck_space _ _ _ _ _ _ _ _ C1) as (O1 & _ & O3 & _).
  destruct (load_loads elf [] e segs _ _ pmo _ f rest L1 L2 (file_u8 _ _ Hfile) (Forall_nil_2 _) L3 L4 O1 Hpmo O3 Hav Hnd Hok Hap)
    as (m & a & tp & pages & E2 & Hld & _ & Hcnt); [lia|].
  assert (Ht := loading_took (4 * total_pages segs + 1) _ _ _ _ _ _ _ _ Hld ltac:(rewrite Hav; cbn [length]; lia)).
  destruct (loaded_elf_shown _ _ _ _ _ fns show_hex _ _ _ _ _ _ _ _ C1 (ld_inv _ _ _ _ _ _ _ _ Hld) Ht E2) as (s' & E3 & C3 & F3 & H3).
  exists s'. split; [|split; [exact C3|split; [unfold free_frames in *; rewrite <- K1; lia|by rewrite H3, K1]]].
  unfold disk_elf_demo, on_disk, mbind, Sys_bind. rewrite E. cbn [outcome_bind mbind]. unfold echo_line in E1. rewrite E1.
  unfold spawn_disk_elf_demo. by rewrite E3.
Qed.

Lemma boot_generations kt : Forall (fun g => 0 <= g <= 1) (slot_generations (boot_state kt)).
Proof. repeat constructor; lia. Qed.

(** The kernel after its checks is alone, with its heap mapped. *)
Lemma checking_reclaim top t s : checking top t s -> 136%nat ∉ shared ->
  reclaim_ok pmo l4 HEAP_START (HEAP_START + HEAP_SIZE) (fa_avail (frames (kernel s))) (fun q => default 0 (space_lookup top q)) spaces (kernel s) (boot_state l4).
Proof.
  intros C Hsh. assert (HK := ck_inv _ _ _ _ _ _ _ _ C). split; [|done|apply C|done|lia|].
  - split; [done|done|done|]. apply boot_running; [apply HK|done|]. apply (ck_cr3 _ _ _ _ _ _ _ _ C).
  - intros q Hq Hb. destruct (ck_heap _ _ _ _ _ _ _ _ C q Hq Hb) as [f Hf]. rewrite Hf.
    apply (space_kernel_maps _ _ shared top); [apply C|by rewrite (heap_page_top q Hq Hb)|done].
Qed.
End Programs.

(** ** [kernel_main] *)

Section PowerOn.
Context {crate : X86Crate} {mapper : PageMapper} {trans : Translate} {H : Type} {kheap : KernelHeap H}.
Context {D : Type} `{!PortIo D, !AtaDrive D}.
Context {G Q R F W : Type} `{!GlobalDescriptorTable G, !BoundedQueue Q Z, !BoundedQueue R Z}.
Implicit Types (s : System H D) (t : Terminal) (top : gmap nat (ptree 3)).
Context (fns : Functions) (show_ptr show_usize show_hex : Z -> list Z) (wp : bool) (can_allocate : Z -> bool) (fuel : nat).
Context (ring3 : Z) (syscall_yield : Sys (H := H) (D := D) unit) (syscall_rounds : nat) (regs : Z -> Z).
Local Abbreviation HEAP_END := (HEAP_START + HEAP_SIZE).

(** The heap [h] has room for a kernel stack, at [p]; then it is [h']. *)
Definition stack_fits (h : H) (p : Z) (h' : H) : Prop :=
  heap_alloc STACK_SIZE 4096 h = (Some p, h') /\ HEAP_START <= p /\ p + STACK_SIZE <= HEAP_END.

(** What the programs need: the pages of the two demos are theirs and their
    threads are different functions, the files are on the disk, and after
    the heap demo has given its blocks back there is room for the kernel
    stack of each demo, one after the other. *)
Record programs_ready (heap_init : Z -> Z -> H) (pmo : Z) (shared : list nat) (elf : list Z) (e : Z) (segs : list segment) (text : list Z) (h : H) : Prop := {
  ry_apart addr : addr ∈ [OPEN_READ_DEMO_ADDR; BAD_POINTER_DEMO_ADDR] -> demo_apart pmo HEAP_START HEAP_END addr;
  ry_threads : fn_run_bad_pointer_demo fns <> fn_run_open_read_demo fns;
  ry_shared : hw_index 4 HEAP_START ∉ shared;
  ry_elf : file_on_disk (D := D) can_allocate fuel (bytes_of "ECHO.ELF") elf /\ loadable pmo elf e segs;
  ry_text : file_on_disk (D := D) can_allocate fuel (bytes_of "HELLO.TXT") text /\ text <> [];
  ry_heap : (d ← heap_demo; heap_demo_drop d) (heap_init HEAP_START HEAP_SIZE) = Ok (tt, h);
  ry_stacks : exists p h1 p2 h2, stack_fits h p h1 /\ stack_fits (heap_dealloc p STACK_SIZE 4096 h1) p2 h2;
}.

(** What the first of the demos prints. *)
Definition file_shown (color : ColorCode) (text : list Z) t : Terminal :=
  type_bytes color (shown <$> default (bytes_of "<sys_write: invalid utf-8>") (utf8_decode (take 64 text)))
    (say color [bytes_of "[fs]    HELLO.TXT via ring-3 sys_open/sys_read/sys_write:"] t).

(** What is on the screen when the two programs are gone. *)
Definition programs_shown (color : ColorCode) (elf : list Z) (e : Z) (segs : list segment) (text : list Z) (d : HeapDemo) t : Terminal :=
  type_bytes color (shown <$> concat killed_line)
    (file_shown color text (say color (elf_line show_hex e (args_page segs - 16)) (say color (echo_line show_usize elf)
      (checks_shown color show_ptr show_usize show_hex d (boot_banner color t))))).

Local Abbreviation yield := (yield_running fns wp can_allocate fuel ring3 syscall_yield syscall_rounds regs 16).

(** The two demos, one after the other. *)
Lemma two_demos_ok pmo l4 shared top t s rounds text p h1 p2 h2 :
  checking (fun _ => ∅) (color_code (writer (console s))) l4 pmo shared top t s -> 136%nat ∉ shared ->
  hw_index 4 BAD_POINTER ∉ shared -> space_lookup top BAD_POINTER = None -> (122 <= free_frames s)%nat -> (2 <= rounds)%nat ->
  (forall addr, addr ∈ [OPEN_READ_DEMO_ADDR; BAD_POINTER_DEMO_ADDR] -> demo_apart pmo HEAP_START HEAP_END addr) ->
  fn_run_bad_pointer_demo fns <> fn_run_open_read_demo fns ->
  file_on_disk (D := D) can_allocate fuel (bytes_of "HELLO.TXT") text -> text <> [] ->
  stack_fits (heap (kernel s)) p h1 -> stack_fits (heap_dealloc p STACK_SIZE 4096 h1) p2 h2 ->
  let color := color_code (writer (console s)) in
  exists total frame_of spaces' st' s',
    (_ ← open_read_demo fns yield rounds pmo l4; bad_pointer_demo fns yield rounds pmo l4) s = Ok (Go tt, s') /\
    reclaim_ok pmo l4 HEAP_START HEAP_END total frame_of spaces' (kernel s') st' /\ live_ids st' = [0%nat] /\
    fa_avail (frames (kernel s')) ≡ₚ total /\ total ≡ₚ fa_avail (frames (kernel s)) /\ heap_live (heap (kernel s')) ≡ₚ heap_live (heap (kernel s)) /\
    shows (writer (console s')) (type_bytes color (shown <$> concat killed_line) (file_shown color text t)).
Proof.
  intros C Hsh Hb1 Hb2 Hfr Hr Hda Hne Hfile Htx (A1 & L1 & U1) (A2 & L2 & U2) color. unfold free_frames in Hfr.
  destruct (file_read can_allocate fuel _ _ _ (ck_disk _ _ _ _ _ _ _ _ C) Hfile) as (dk & Ef & _). assert (Hrc := checking_reclaim _ _ _ _ _ _ _ _ C Hsh).
  assert (Hden := space_kernel_denies _ _ _ _ _ (ck_space _ _ _ _ _ _ _ _ C) BAD_POINTER Hb1 Hb2). set (total := fa_avail (frames (kernel s))) in *.
  destruct (open_read_demo_correct fns wp can_allocate fuel ring3 syscall_yield syscall_rounds regs pmo l4 HEAP_START HEAP_END total _
    (fun _ => ∅) (boot_state l4) s p h1 text dk t rounds (Hda _ (list_elem_of_here _ _)) Hrc eq_refl Hfr A1 L1 U1)
    as (s1 & spaces1 & st1 & E1 & [B1 [B2 B2'] B3 B4 B5 B6 (id & g & Eg & B7) _ B9 B10] & Hs1 & _);
    [repeat constructor; lia|done|apply (ck_shows _ _ _ _ _ _ _ _ C)|apply (ck_unlocked _ _ _ _ _ _ _ _ C)|done
    |by apply (file_u8 can_allocate fuel (bytes_of "HELLO.TXT"))|done|].
  destruct (total_frames _ _ _ _ _ _ _ _ _ Hrc) as (_ & Hok & _).
  destruct (bad_pointer_demo_correct fns wp can_allocate fuel ring3 syscall_yield syscall_rounds regs pmo l4 HEAP_START HEAP_END total _
    spaces1 st1 s1 p2 h2 (file_shown color text t) rounds (Hda _ (list_elem_of_further _ _ _ (list_elem_of_here _ _))) Hne B1 (kernel_denies_ext _ _ _ _ _ Hden Hok B6) B2' Hfr)
    as (s2 & spaces2 & st2 & E2 & [D1 [D2 _] D3 D4 _ _ _ _ _ _] & Hs2 & _); [by rewrite B5|done|done| |done|exact Hs1|done|].
  { rewrite B7. assert (Hg : 0 <= g <= 1) by (apply (Forall_lookup_1 (fun g => 0 <= g <= 1) _ _ _ (boot_generations l4) Eg)).
    apply Forall_insert; [|lia]. eapply Forall_impl; [apply (boot_generations l4)|]. cbn beta. lia. }
  exists total, (fun q => default 0 (space_lookup top q)), spaces2, st2, s2. rewrite B10 in Hs2. split_and!; [|done|done|by rewrite D3, B3|done|by rewrite D4, B4|exact Hs2].
  unfold mbind, Sys_bind. by rewrite E1.
Qed.

(** C3: from the bootloader to the end of the first programs.  With frames
    and heap enough and the two files on the disk, [kernel_main] comes up,
    passes its checks, reads [ECHO.ELF] off the disk and loads it, and runs
    two programs in ring 3, each in an address space of its own: the first
    opens [HELLO.TXT], reads and prints it and exits; the second passes a
    bad pointer to the kernel and is killed.  [kernel_main] waits for each
    and goes on with what remains.  The screen then shows exactly the lines
    of the checks, of the file that was loaded, the text of the file and the
    message that a thread was killed; the kernel's invariant holds with no
    thread but the first, and every frame and every kernel stack that the two
    programs used is back. *)
Theorem kernel_main_runs_programs heap_init df default (scancodes : Q) (ready : R) (print_keypresses : F) (world : W) rounds
    offset memory_map shared top t s elf e segs text h :
  machine_ok heap_init df default offset memory_map (4 * total_pages segs + 1 + 122) shared top t s ->
  programs_ready heap_init offset shared elf e segs text h -> (2 <= rounds)%nat ->
  let color := color_code (writer (console s)) in let l4 := cr3 (kernel s) in
  exists (cpu : CpuTables G) d total frame_of spaces' st' s',
    kernel_main fns show_ptr show_usize show_hex yield can_allocate fuel rounds wp heap_init df default scancodes ready print_keypresses world
      offset memory_map s =
    (_ ← later_programs fns show_hex yield can_allocate fuel rounds offset l4;
     executor ← start_executor ready print_keypresses world; mret (cpu, Some scancodes, executor)) s' /\
    cpu_ready df default cpu /\ heap_shown d /\
    reclaim_ok offset l4 HEAP_START HEAP_END total frame_of spaces' (kernel s') st' /\ live_ids st' = [0%nat] /\
    fa_avail (frames (kernel s')) ≡ₚ total /\ (122 <= length total)%nat /\ heap_live (heap (kernel s')) ≡ₚ heap_live h /\
    shows (writer (console s')) (programs_shown color elf e segs text d t).
Proof.
  intros HM [P1 P2 P3 [P4 P5] [P6 P7] P8 (p & h1 & p2 & h2 & P9 & P10)] Hr color l4.
  assert (Hpmo := da_pmo _ _ _ _ (P1 _ (list_elem_of_here _ _))). assert (Htop : hw_index 4 HEAP_START = 136%nat) by reflexivity. rewrite Htop in P3.
  destruct (rd_bad_pointer _ _ _ (mo_room _ _ _ _ _ _ _ _ _ _ HM)) as [Hb1 _].
  destruct (kernel_main_checked (fun _ => ∅) fns show_ptr show_usize show_hex yield can_allocate fuel rounds wp heap_init df default scancodes ready print_keypresses
    world offset memory_map _ shared top t s HM) as (handle & cpu & d & top1 & s1 & E & E1 & E2 & Hc & Hd & C1 & F1 & H1 & Hb2).
  rewrite P8 in H1. injection H1 as H1. fold l4 in C1, E1. fold color in C1.
  destruct (disk_elf_demo_ok can_allocate fuel (fun _ => ∅) color l4 offset shared fns show_usize show_hex elf e segs top1 _ s1 C1 Hpmo P4 P5 ltac:(lia))
    as (s2 & E3 & C2 & F2 & H2).
  assert (Eh : heap (kernel s2) = h) by (by rewrite H2, <- H1). assert (Hcol := ck_color _ _ _ _ _ _ _ _ C2). rewrite <- Hcol in C2.
  destruct (two_demos_ok offset l4 shared top1 _ s2 rounds text p h1 p2 h2 C2 P3 Hb1 Hb2 ltac:(lia) Hr P1 P2 P6 P7 ltac:(by rewrite Eh) P10)
    as (total & frame_of & spaces' & st' & s3 & E4 & Hrc & Hl & Hav & Htot & Hlive & Hsh). rewrite Hcol in Hsh. rewrite Eh in Hlive.
  exists cpu, d, total, frame_of, spaces', st', s3. split_and!; [|done|done|exact Hrc|done|done|rewrite Htot; unfold free_frames in *; lia|done|exact Hsh].
  rewrite E. unfold run_programs, programs. rewrite E1, E2. unfold mbind, Sys_bind in *. rewrite E3.
  destruct (open_read_demo fns yield rounds offset l4 s2) as [[[[]|] s4]|]; [|done..]. by rewrite E4.
Qed.
End PowerOn.

(** ** A machine that is switched on *)

Section Sample.
#[local] Existing Instances x86_crate ref_mapper list_gdt sample_queue ref_translate.

(** The primary drive boots; on the secondary one [HELLO.TXT] is in cluster
    2 and [ECHO.ELF] in cluster 3. *)
Definition velora_disks (drive : Drive) (lba : Z) : list Z :=
  match drive with
  | Primary => boot_disk Primary lba
  | Secondary =>
      if lba =? 0 then sample_volume 1 2 55 Secondary 0
      else if lba =? 1 then sector_of [(4%nat, le_encode 2 0xFFFF ++ le_encode 2 0xFFFF)]
      else if lba =? 2 then sector_of [(0%nat, dir_entry (bytes_of "HELLO   TXT") 2 55); (32%nat, dir_entry (bytes_of "ECHO    ELF") 3 122)]
      else if lba =? 3 then HELLO_TXT_CONTENTS ++ replicate 457 0
      else if lba =? 4 then sample_program ++ replicate 390 0
      else replicate 512 0
  end.

#[local] Instance velora_io : PortIo SimDrive := sim_io velora_disks 3.
#[local] Instance velora_drive : AtaDrive SimDrive := sim_drive velora_disks 3 boot_seek.

(** A file of one cluster. *)
Lemma one_cluster_file name content c n (b := mkBiosParameterBlock 1 1 16 1 1) : disk_lookup (D := SimDrive) name = Some (b, mkDirEntry c n) ->
  clusters (D := SimDrive) b 1 c = [c] -> clusters_needed b n = 1%nat -> 2 <= c -> file_contents (D := SimDrive) b (mkDirEntry c n) = content ->
  file_on_disk (D := SimDrive) (fun _ => true) 2 name content.
Proof.
  intros El Ec En Hc <-. exists b, (mkDirEntry c n). split_and!; [done| |done]. split; [done|]. intros _. cbn [file_size first_cluster].
  rewrite En, Ec. split_and!; [cbn; lia|lia|]. by repeat constructor.
Qed.

Definition sample_heap_init (start _ : Z) : BumpHeap := mkBumpHeap start [].

Definition heap_after_demo : BumpHeap :=
  match (d ← heap_demo; heap_demo_drop d) (sample_heap_init HEAP_START HEAP_SIZE) with Ok (_, h) => h | Panic _ => mkBumpHeap 0 [] end.

Definition heap_after_first : BumpHeap := (heap_alloc STACK_SIZE 4096 heap_after_demo).2.
Definition heap_after_second : BumpHeap := (heap_alloc STACK_SIZE 4096 (heap_dealloc 0x444444442000 STACK_SIZE 4096 heap_after_first)).2.

Lemma sample_programs_ready : programs_ready (D := SimDrive) sample_functions (fun _ => true) 2 sample_heap_init (3 * 2 ^ 39) [] sample_program 0x600000000000
  [mkSegment [0xeb; 0xfe] 0x600000000000 0x20 false] HELLO_TXT_CONTENTS heap_after_demo.
Proof.
  destruct sample_program_parses as (P1 & P2 & _). split.
  - intros addr Ha. assert (Hd : addr = OPEN_READ_DEMO_ADDR \/ addr = BAD_POINTER_DEMO_ADDR) by set_solver. clear Ha.
    split; [unfold canonical; lia|destruct Hd as [-> | ->]; vm_compute; discriminate|]. intros q Hq Hb. rewrite (heap_page_top q Hq Hb). split.
    + apply (bool_decide_eq_true_1 _). vm_compute. reflexivity.
    + unfold OPEN_READ_DEMO_ADDR, BAD_POINTER_DEMO_ADDR, HEAP_START, HEAP_SIZE in *. lia.
  - vm_compute. discriminate.
  - apply not_elem_of_nil.
  - split; [|by split; [..|lia|apply sample_program_layout]]. apply (one_cluster_file _ _ 3 122); vm_compute; (reflexivity || discriminate).
  - split; [|discriminate]. apply (one_cluster_file _ _ 2 55); vm_compute; (reflexivity || discriminate).
  - vm_compute. reflexivity.
  - exists 0x444444442000, heap_after_first, 0x444444453000, heap_after_second.
    split; (split; [vm_compute; reflexivity|]); vm_compute; split; discriminate.
Qed.

Lemma kernel_main_runs_programs_witness : exists (cpu : CpuTables (list Descriptor)) d st' s',
  let yield := yield_running sample_functions true (fun _ => true) 2 0x20000 (mret tt) 0 (fun _ => 0) 16 in
  kernel_main sample_functions sample_hex sample_show sample_hex yield (fun _ => true) 2 2 true sample_heap_init 0x200000 0x210000
    ([] : list Z) ([] : list Z) tt tt (3 * 2 ^ 39) boot_ram (sample_system sample_machine_state) =
  (_ ← later_programs sample_functions sample_hex yield (fun _ => true) 2 2 (3 * 2 ^ 39) 0x11000;
   executor ← start_executor ([] : list Z) tt tt; mret (cpu, Some ([] : list Z), executor)) s' /\
  live_ids st' = [0%nat] /\ heap_live (heap (kernel s')) ≡ₚ [] /\
  shows (writer (console s')) (type_bytes 14 (shown <$> bytes_of "[proc]  thread killed: syscall argument pointer not mapped for read" ++ [10])
    (type_bytes 14 (shown <$> HELLO_TXT_CONTENTS) (say 14 [bytes_of "[fs]    HELLO.TXT via ring-3 sys_open/sys_read/sys_write:"]
      (say 14 (elf_line sample_hex 0x600000000000 0x600000002ff0) (say 14 (echo_line sample_show sample_program)
        (checks_shown 14 sample_hex sample_show sample_hex d (boot_banner 14 sample_terminal))))))).
Proof.
  destruct (kernel_main_runs_programs (G := list Descriptor) sample_functions sample_hex sample_show sample_hex true (fun _ => true) 2 0x20000 (mret tt) 0
    (fun _ => 0) sample_heap_init 0x200000 0x210000 ([] : list Z) ([] : list Z) tt tt 2 (3 * 2 ^ 39) boot_ram [] ∅ sample_terminal
    (sample_system sample_machine_state) sample_program 0x600000000000 [mkSegment [0xeb; 0xfe] 0x600000000000 0x20 false] HELLO_TXT_CONTENTS
    heap_after_demo) as (cpu & d & total & frame_of & spaces' & st' & s' & E & _ & _ & _ & Hl & _ & _ & Hlive & Hsh).
  - apply sample_machine_ok; [vm_compute; lia|reflexivity|reflexivity].
  - exact sample_programs_ready.
  - lia.
  - exists cpu, d, st', s'. exact (conj E (conj Hl (conj Hlive Hsh))).
Defined.
End Sample.
